(* ===== verification/_CoqProject ===== *)
-Q . S2P
Prelude.v
Int32.v
JsText.v
IpRange.v
IpRangeFacts.v
IpHostname.v
Cidr.v
Prog.v
SafeHttp.v
Json.v
JsNumber.v
JsonText.v
Schema.v
PolicyEngine.v
Store.v
StoreFacts.v
Tenancy.v
Testbed.v
Scopes.v
StepUp.v
Crypto.v
Events.v
PasswordPolicy.v
BruteForce.v
Redis.v
TokenBlacklist.v
RateLimit.v
Authorization.v
ServiceAccounts.v
SmsOtp.v
Mfa.v
Groups.v
OAuth.v
Device.v
Federation.v
AuthTokens.v
AuthGrants.v
AuthFacts.v
CodeGrant.v
RefreshGrant.v
DeviceGrant.v
PasswordGrant.v
MfaGrant.v
TokenEndpoint.v
Tokens.v
Login.v
Sessions.v
Impersonation.v
MagicLink.v
Verification.v
Webhooks.v
WebhookScheduler.v
Consent.v
LoginFlow.v
AuthFlow.v
FlowInvariants.v
ScimFilter.v
ScimTokens.v
ScimList.v
ScimUsers.v
ScimGroups.v
ScimBulk.v
AccountDeletion.v
CustomAttributes.v
Certificates.v
Email.v
RiskSignals.v
RiskAssessment.v
LoginController.v
LoginControllerFacts.v
AdminAuth.v
AdminSeed.v
Registration.v
Nhi.v
NhiScheduler.v
NhiFacts.v
Organizations.v
Account.v
AccountFacts.v
Broker.v
