(* ===== verification/Prelude.v ===== *)
(** * Verification of the Idenplane identity provider

    Idenplane (src/) is a NestJS server that authenticates users and issues OAuth 2
    and OpenID Connect tokens.  Controllers call services; services keep all shared
    state in one PostgreSQL database, in Redis, and in a few maps in the memory of
    a process.  This library models the services that decide who signs in, whether a token
    is issued and what ends its life, and those that administer what these decisions read,
    and proves what they guarantee when requests run one at a time and when they interleave.  Paths below are relative to src/src/.

    ** How effects are modelled

    [Prog] gives a small free monad [M]: a service method is a tree of atomic steps,
    each one access to the database, to Redis, to a memory map, to the clock, or to
    one of the random generators.  [Throw] ends a method with an exception, [catch]
    is try/catch.  [run] executes a tree sequentially on a [World]; [psteps] executes
    a pool of trees with every interleaving of their atoms, and lets the environment
    change the world between two atoms (for the single-use theorems: any change that
    frees no unit of the resource; time may advance).  A database statement is one
    atom and is atomic, which is what PostgreSQL promises for a single statement;
    two statements of one method are two atoms, so the races of the code are races
    of the model.

    [Schema] holds one Record per Prisma model (prisma/schema.prisma) with the columns
    that the modelled services use, the unique keys and the onDelete actions.  [Store]
    holds the statements ([find_first], [find_many], [update], [update_many],
    [create], [upsert], [delete_one], [delete_many]) with what Prisma throws (P2025
    for a missing row, P2002 for a duplicate).  [StoreFacts] has the proof rules:
    inversion and evaluation of each statement; [frame ts], "only the tables [ts]
    may differ", with the [footprint] hint database that proves it for a whole
    handler; [ensures] and [scoped]; and the claim counting ([claims], [units]) from
    which the concurrent bounds follow.  [Json] is insertion-ordered JSON objects
    with the spread, and [Testbed] is a concrete environment and database on which the
    witnesses evaluate.

    What is not under src/ is a field of the class [Env] of [Store]: Argon2, SHA-256,
    bcrypt, PBKDF2, HMAC, AES-GCM, JOSE, TOTP, the random generators, the LDAP client,
    the SMS and mail providers, the templates, the geo-IP service, the environment
    variables, the token-enrichment plugin.  What only one component uses is a variable of
    its section: the answers of the CAPTCHA sites, the connection of a webhook, key
    generation, the text of an error, the answers of an identity provider.  The theorems hold for every instance,
    failing ones included, except where a hypothesis says otherwise.

    ** The components

    - [Scopes]: scopes/scopes.service.ts, claims.resolver.ts,
      protocol-mapper.executor.ts.
    - [StepUp]: step-up/step-up.service.ts.  [Crypto]: the wrappers of
      crypto/crypto.service.ts and jwk.service.ts.  [Events]: the login events of
      events/events.service.ts.
    - [PasswordPolicy], [BruteForce], [Redis], [SmsOtp], [Mfa], [Groups] (with the
      realm roles), [OAuth] (with common/redirect-uri.utils.ts), [Device],
      [Federation]: the services of the same names.
    - [TokenBlacklist]: tokens/token-blacklist.service.ts.  [Tokens]:
      tokens/tokens.service.ts (introspection, revocation, logout, userinfo).
    - auth/auth.service.ts: [AuthTokens] (client authentication, token issuance, the
      session limit) and [AuthGrants] (the grants and [handleTokenRequest]).
      [AuthFacts] holds what their callers share; [CodeGrant], [RefreshGrant],
      [DeviceGrant], [PasswordGrant], [MfaGrant] and [TokenEndpoint] the theorems of
      one grant each and of the endpoint.
    - Sign-in in the browser: [Login] (login/login.service.ts and
      migration/password-migration.service.ts), [LoginFlow] (login/login-flow.service.ts
      and the consent handlers of login/login.controller.ts), [Consent]
      (consent/consent.service.ts), [AuthFlow] (auth-flow/: the flows and their
      executor), [MagicLink], [Sessions] and [Impersonation] (the services of the same
      names).
    - Protection: [RateLimit] (rate-limit/: limiter and guard), [IpRange] with
      [IpRangeFacts] and [IpHostname] (common/security/ip-range-guard.ts), [SafeHttp]
      (common/security/safe-http-client.ts, over its own world of connections), [Cidr]
      (common/utils/proxy-ip.util.ts and the range test of
      service-accounts/api-key.guard.ts).
    - Authorization: [PolicyEngine] (authorization/policy-engine.ts), [Authorization]
      (authorization.service.ts with its cache), [ServiceAccounts]
      (service-accounts/: accounts, API keys and their guard).
    - SCIM provisioning (scim/): [ScimFilter] (filters and their where clauses),
      [ScimTokens] (tokens and the guard), [ScimList] (order and pages), [ScimUsers],
      [ScimGroups] and [ScimBulk] (the services of the same names).
    - [FlowInvariants] carries invariants of [AuthFlow] along any sequence or
      interleaving of administrative changes.
    - Hosted pages: [LoginController] (every handler of login/login.controller.ts and
      common/csrf/) with its theorems in [LoginControllerFacts], [Account]
      (account/account.controller.ts and data-export.service.ts), [Verification] (the
      single-use tokens of the mails), [Email] (email/), [CustomAttributes].
    - Administrators: [AdminAuth] (admin-auth/ and the guards of the admin API),
      [AdminSeed] (the first start), [Organizations] (organizations/).  [Tenancy] says what
      it means that a handler stays within one realm; [NhiFacts], [Webhooks], [ScimUsers]
      and [Organizations] prove it of theirs.
    - Users from outside: [Registration] (registration/, with its CAPTCHA checks and
      approvals), [AccountDeletion] (account/account-deletion.service.ts), [Broker]
      (broker/ and identity-providers/: signing in with an external provider).
    - Machines: [Nhi] (nhi/nhi.service.ts), [NhiScheduler] (rotation and audit log),
      [NhiFacts], [Certificates] (certificate-validator.ts and the mTLS guards).
    - Risk: [RiskSignals] and [RiskAssessment] (risk-assessment/).
    - Events to the outside: [Webhooks] and [WebhookScheduler] (webhooks/).
    - What these need of JavaScript: [Int32] (32-bit operators), [JsText] (parseInt,
      toString, character classes), [JsNumber] and [JsonText] (String, Number and
      JSON.stringify of a JSON value); [RiskSignals] begins with the binary64 numbers.

    Where components meet: [AuthGrants] composes every service a grant calls;
    [LoginFlow] composes [Mfa], [Login], [OAuth] and [Consent]; [AuthFlow] calls [Login]
    and [Mfa]; [LoginController] composes [Login], [Mfa], [SmsOtp], [RiskAssessment],
    [BruteForce], [PasswordPolicy], [Verification] and [LoginFlow]; [Registration] calls
    [Verification], [Email] and [CustomAttributes]; [Broker] ends in [LoginFlow]; [AdminAuth] is run on the database that
    [AdminSeed] leaves; [Impersonation] is proved against the refresh grant of [RefreshGrant];
    the class [CidrTest] of [Cidr] states what an address-range test promises, and each
    of the three implementations of the program is an instance of it.

    ** What the theorems show

    - Who gets tokens: each grant's soundness theorem lists everything a successful
      run implies ([code_grant_sound], [refresh_grant_sound], [password_grant_sound],
      [mfa_grant_sound], [device_grant_sound]), [token_endpoint_authenticates] and
      [token_endpoint_scopes] hold for all grants, [authorize_redeem_roundtrip]
      connects the authorization endpoint with the token endpoint.
    - Single use and budgets under concurrency: authorization codes, device codes, MFA
      challenges and their attempts, recovery codes, text-message codes.
    - Lifetime: [refresh_reuse_revokes_session], [introspect_active_sound],
      [revoked_access_token_inactive], [blacklisted_token_rejected],
      [logout_ends_session], [session_limit_enforced].
    - Authentication rules: lockout, password policy and history, TOTP replay, second
      factors, step-up levels.
    - Pure parts against a specification: redirect URIs, scope strings, user claims,
      inherited roles.
    - Who is let in: [first_factor_opens_nothing], [validateLoginSession_sound],
      [validateCredentials_sound], [validateMagicLink_once], [canActivate_sound],
      [startImpersonation_sound], [completeLogin_consent], [handleConsent_once]; on the
      hosted pages [handleLogin_gate], [handleTotp_gate], [handleResetPassword_spec]; for
      administrators [admin_endpoint_gate] (on the paths of the admin API),
      [logout_is_final] (across restarts and clean-ups, once the write of the logout succeeded) and [first_admin_signs_in] (the first start ends with an administrator
      who can sign in).
    - Accounts: [register_spec], [token_single_use], [setUserAttributes_fits],
      [scheduled_deletions_spec] (who is erased, what goes with the account and
      what stays, and what is reported of it).
    - Machine identities: [revocation_is_final] and [one_successor], under all interleavings
      of administrators and schedulers; [nhi_isolated].
    - Account pages (theorems in [AccountFacts]): [account_acts_on_itself] (an ownership logic
      for handlers, [own], carries it), [required_factor_stays] (one request at a time),
      [phone_enrolment_guarded], [changePassword_spec], [account_logout_final].
    - Organizations: [acceptInvitation_spec], [invitation_adds_one_member] (under any
      interleaving), [verifyDomain_spec], [organizations_isolated].
    - External providers: [broker_sign_in_sound] (what every accepted callback stands on),
      [broker_state_roundtrip] (the request of the client comes back), [callback_keeps_links]
      (links stay within the realm of their provider), [providers_isolated].
    - Risk: [learning_invariant] bounds what is learnt.  Webhooks: [queue_settles], five
      ticks settle an event while at most a batch is open.
    - Rate limits: [check_refines_counter] is a refinement (one request at a time the
      limiter is an abstract pair of counters), [rate_limit_concurrent] the bound for any
      interleaving.  It needs requests that give back what they took, which claims do
      not count; [accounts] of [Prog] counts both directions.
    - Network guard: [isBlockedIpv6_spec] and [numeric_hostname_spec] say which
      addresses the guard blocks, [safePost_connections] that no other is connected to;
      [cidr_tests_agree] that the range tests are one function.
    - Policies: [evaluatePolicies_deny_overrides] and, through the cache,
      [evaluate_current].
    - Flows: [flow_completes] bounds the successful steps of an authentication flow by its
      length, once more for every fallback, and shows that it is never stuck before its end; [flows_stay_valid] and
      [one_default_kept] are what administration preserves, [session_stays_typed] what
      a step does.
    - SCIM: [filter_roundtrip] (parsing undoes printing, of integers up to 2^53), [generateToken_spec] (the draw
      ends and is unbiased), [scim_guard_sound] and [token_lifecycle] (who is admitted,
      and until when), [scim_users_isolated] and [scim_groups_isolated] (no request of
      one realm reaches another, where an identifier is given), [scim_users_listed] and
      [scim_users_paged] (what a listing answers), [scim_users_read_back],
      [bulk_operations_stand_alone].
    - What the code does not guarantee, by computation on a concrete world:
      [refresh_rotation_race], [refresh_crosses_realms], [device_code_unbound],
      [magic_link_race], [request_reveals_accounts], [db_window_restart_race],
      [stale_policy_race], [rotateApiKey_drops_limits], [rotation_revives_expired_key],
      [processStep_out_of_order], [seedDefaultFlows_second_default],
      [consent_crosses_realms], [mapped_peer_untrusted], [filter_leaves_realm],
      [filter_probes_password_hash], [deactivation_ignored], [unknown_columns_rejected],
      [replace_keeps_members], [removal_without_group], [deprovisioned_user_refreshes],
      [wrong_purpose_consumes], [two_schedulers_deliver_twice], [processing_is_stuck],
      [cancelled_yet_deleted], [decommissioned_returns], [update_keeps_credentials],
      [untyped_credential_has_no_key], [half_rotation_sticks], [batch_hides_due_credentials],
      [self_made_certificate], [fingerprint_header_suffices], [configured_without_key],
      [assessRisk_never_blocks], [public_address_is_private], [average_never_moves],
      [retyped_values_do_not_fit], [disabled_user_completes_totp],
      [reset_link_crosses_realms], [wrong_code_without_protection], [quoted_address_passes],
      [link_verifies_another_address], [me_always_refuses], [client_role_gives_access],
      [view_only_may_write], [unsigned_token_is_recorded], [half_seed_sticks],
      [administrators_routes_are_open], [anonymous_rejection], [verification_approves],
      [verification_revives], [captcha_is_optional], [registration_stores_anything],
      [mixed_case_address_cannot_join], [disabled_organization_grows],
      [session_plants_authenticator], [two_disables_leave_no_factor], [failed_logout_says_done],
      [logout_of_another_realm], [erasure_leaves_memberships],
      [missing_subject_shares_account], [synced_email_stays_verified], [unverified_account_is_linked],
      [disabled_provider_finishes], [taken_username_fails].

    ** Conventions and bounds

    - Each [new Date()] is an atom that reads [w_now] (milliseconds).  In a sequential
      run the clock stands still; in an interleaving the environment moves it.
    - Calls that the code fires without waiting (login events, metrics) are run where
      they are started; [Promise.all] runs its parts in order.
    - A table is a list in insertion order; where [orderBy] leaves a tie the table's
      order decides.  Unique keys are checked by [create] and [update_checked];
      foreign keys act only on deletion.
    - Numbers of the modelled code are integers far below 2^53, so they are [Z], but for
      those a caller writes into a SCIM filter and those of risk, which are binary64;
      strings are sequences of 8-bit code units.
    - The message of an exception is the constant part of the code's text where no
      theorem looks at it: names that the code interpolates are mostly left out.  Log lines are not modelled.
    - A claim of a verified JWT that the code casts is read as absent when it has
      another JSON type.  [Number(...)] of SMS_REALM_HOURLY_LIMIT is modelled for
      decimal integers.  A redirect is its URI and query parameters.
    - Loops over rows are structural.  The walk through parent groups carries as fuel
      one more than the number of groups; [resolveGroupRoles_ancestors] shows that
      the fuel never runs out before the ancestors are complete.

    ** Not modelled

    Most controllers and DTO validation, logging, metrics exporters, plugins and
    back-channel logout requests, none of which feeds back into a decision; what a provider
    does with a mail or a text message after it accepted it; the administration of realms,
    clients and users; SAML, where the decisions are those of the XML libraries; WebAuthn ceremonies; continuous verification;
    upgrades, migrations and health checks; the browser application of admin-ui. *)

From stdpp Require Export base list strings gmap sorting.
From Stdlib Require Export ZArith Lia Ascii.
From Stdlib Require Import Sorting.Permutation.

#[global] Open Scope Z_scope.
#[export] Set Default Goal Selector "!".

(** ** Notations of the development *)

Declare Scope js_scope.
Delimit Scope js_scope with js.

(** [===] on values with decidable equality. *)
Notation "x === y" := (bool_decide (x = y)) (at level 70, no associativity) : js_scope.
Notation "x !== y" := (negb (bool_decide (x = y))) (at level 70, no associativity) : js_scope.
(** Nullish coalescing: [o ?? d] is [d] for [undefined] or [null]. *)
Notation "o ?? d" := (default d o) (at level 60, right associativity) : js_scope.
#[global] Open Scope js_scope.

(** ** JavaScript truthiness *)

(** A nullable column in an update, where [undefined] leaves it as it is. *)
Definition keep {A} (new old : option A) : option A := match new with Some v => Some v | None => old end.

(** An optional string is falsy when it is [undefined], [null] or [""]. *)
Definition truthy (o : option string) : bool :=
  match o with
  | None => false
  | Some s => s !== EmptyString
  end.

Lemma truthy_true o : truthy o = true <-> exists s, o = Some s /\ s <> EmptyString.
Proof.
  destruct o as [s|]; simpl; [|naive_solver].
  rewrite negb_true_iff, bool_decide_eq_false. naive_solver.
Qed.

Lemma truthy_false o : truthy o = false <-> o = None \/ o = Some EmptyString.
Proof.
  destruct o as [s|]; simpl; [|naive_solver].
  rewrite negb_false_iff, bool_decide_eq_true. naive_solver.
Qed.

Lemma truthy_Some s : truthy (Some s) = true <-> s <> EmptyString.
Proof. rewrite truthy_true. naive_solver. Qed.

(** [o || d] on optional strings, as [scope || storedToken.scope || undefined]. *)
Definition js_or (o d : option string) : option string :=
  if truthy o then o else d.

(** ** Strings *)

(** [s.split(sep)] for a one-character separator. *)
Fixpoint js_split_aux (sep : ascii) (s : string) (acc : string) : list string :=
  match s with
  | EmptyString => [acc]
  | String c s' =>
      if c === sep then acc :: js_split_aux sep s' EmptyString
      else js_split_aux sep s' (acc +:+ String c EmptyString)
  end.

Definition js_split (sep : ascii) (s : string) : list string :=
  js_split_aux sep s EmptyString.

(** [a.join(sep)]. *)
Fixpoint js_join (sep : string) (l : list string) : string :=
  match l with
  | [] => EmptyString
  | [x] => x
  | x :: l' => x +:+ sep +:+ js_join sep l'
  end.

(** [s.startsWith(p)]. *)
Fixpoint starts_with (p s : string) : bool :=
  match p, s with
  | EmptyString, _ => true
  | String a p', String b s' => if a === b then starts_with p' s' else false
  | String _ _, EmptyString => false
  end.

Fixpoint str_rev_app (s acc : string) : string :=
  match s with
  | EmptyString => acc
  | String c s' => str_rev_app s' (String c acc)
  end.
Definition str_rev (s : string) : string := str_rev_app s EmptyString.

(** [s.endsWith(p)]. *)
Definition ends_with (p s : string) : bool := starts_with (str_rev p) (str_rev s).

(** [s.slice(0, -1)]: the string without its last character. *)
Fixpoint drop_last (s : string) : string :=
  match s with
  | EmptyString => EmptyString
  | String _ EmptyString => EmptyString
  | String c s' => String c (drop_last s')
  end.

(** The white space [trim] and [\s] recognise among 8-bit code units. *)
Definition is_space (c : ascii) : bool :=
  let n := N_of_ascii c in
  ((9 <=? n) && (n <=? 13))%N || (n =? 32)%N || (n =? 160)%N.

Fixpoint trim_start (s : string) : string :=
  match s with
  | EmptyString => EmptyString
  | String c s' => if is_space c then trim_start s' else s
  end.
(** [s.trim()]. *)
Definition js_trim (s : string) : string := str_rev (trim_start (str_rev (trim_start s))).

(** [s.replace(/\s/g, '')]. *)
Fixpoint strip_spaces (s : string) : string :=
  match s with
  | EmptyString => EmptyString
  | String c s' => if is_space c then strip_spaces s' else String c (strip_spaces s')
  end.

Definition lower_ascii (c : ascii) : ascii :=
  let n := N_of_ascii c in
  if ((65 <=? n) && (n <=? 90))%N then ascii_of_N (n + 32) else c.
Definition upper_ascii (c : ascii) : ascii :=
  let n := N_of_ascii c in
  if ((97 <=? n) && (n <=? 122))%N then ascii_of_N (n - 32) else c.

Fixpoint str_map (f : ascii -> ascii) (s : string) : string :=
  match s with
  | EmptyString => EmptyString
  | String c s' => String (f c) (str_map f s')
  end.
(** [s.toLowerCase()] and [s.toUpperCase()] (on the ASCII letters). *)
Definition to_lower : string -> string := str_map lower_ascii.
Definition to_upper : string -> string := str_map upper_ascii.

Fixpoint str_existsb (f : ascii -> bool) (s : string) : bool :=
  match s with
  | EmptyString => false
  | String c s' => f c || str_existsb f s'
  end.

(** ** Lists *)

(** [arr.includes(x)]. *)
Definition includes {A} `{EqDecision A} (x : A) (l : list A) : bool :=
  bool_decide (x ∈ l).

(** Replace the first element that satisfies [p]. *)
Fixpoint update_first {A} (p : A -> bool) (f : A -> A) (l : list A) : list A :=
  match l with
  | [] => []
  | x :: l' => if p x then f x :: l' else x :: update_first p f l'
  end.

(** Replace every element that satisfies [p]. *)
Definition update_all {A} (p : A -> bool) (f : A -> A) (l : list A) : list A :=
  map (fun x => if p x then f x else x) l.

(** Drop the first element that satisfies [p]. *)
Fixpoint remove_first {A} (p : A -> bool) (l : list A) : list A :=
  match l with
  | [] => []
  | x :: l' => if p x then l' else x :: remove_first p l'
  end.

(** A stable insertion sort by an integer key: [arr.sort((a, b) => key(a) - key(b))]. *)
Fixpoint insert_by {A} (key : A -> Z) (x : A) (l : list A) : list A :=
  match l with
  | [] => [x]
  | y :: l' => if key x <=? key y then x :: l else y :: insert_by key x l'
  end.
Fixpoint sort_by {A} (key : A -> Z) (l : list A) : list A :=
  match l with
  | [] => []
  | x :: l' => insert_by key x (sort_by key l')
  end.

(** [[...new Set(l)]]: the first occurrence of every element, in order. *)
Fixpoint dedup {A} `{EqDecision A} (seen l : list A) : list A :=
  match l with
  | [] => []
  | x :: l' => if includes x seen then dedup seen l' else x :: dedup (seen ++ [x]) l'
  end.

(** ** Lemmas on strings *)

Lemma string_app_nil_r s : s +:+ EmptyString = s.
Proof. induction s as [|c s IH]; [done|]. change (String c (s +:+ EmptyString) = String c s). by rewrite IH. Qed.

Lemma string_app_assoc (s t u : string) : (s +:+ t) +:+ u = s +:+ t +:+ u.
Proof. induction s as [|c s IH]; [done|]. change (String c ((s +:+ t) +:+ u) = String c (s +:+ t +:+ u)). by rewrite IH. Qed.

Lemma starts_with_refl_app p s : starts_with p (p +:+ s) = true.
Proof.
  induction p as [|c p IH]; [by destruct s|].
  change ((if c === c then starts_with p (p +:+ s) else false) = true). by case_bool_decide.
Qed.

Lemma starts_with_true p s : starts_with p s = true <-> exists t, s = p +:+ t.
Proof.
  split; [|intros [t ->]; apply starts_with_refl_app].
  revert s. induction p as [|c p IH]; intros s; [by exists s|].
  destruct s as [|d s]; simpl; [done|]. case_bool_decide; [subst|done].
  intros H. destruct (IH s H) as [t ->]. by exists t.
Qed.

(** [sep] does not occur in [s]. *)
Definition free_of (sep : ascii) (s : string) : Prop := str_existsb (fun c => c === sep) s = false.

#[export] Instance free_of_dec sep s : Decision (free_of sep s).
Proof. unfold free_of. apply _. Defined.

Lemma split_aux_free sep s acc rest :
  free_of sep s -> js_split_aux sep (s +:+ rest) acc = js_split_aux sep rest (acc +:+ s).
Proof.
  unfold free_of. revert acc. induction s as [|c s IH]; intros acc H.
  - by rewrite string_app_nil_r.
  - simpl in H. apply orb_false_iff in H as [Hc Hs].
    change (js_split_aux sep (String c (s +:+ rest)) acc =
            js_split_aux sep rest (acc +:+ String c s)).
    simpl. rewrite Hc, IH by done. by rewrite string_app_assoc.
Qed.

(** [split] undoes [join] on non-empty lists whose elements avoid the separator. *)
Lemma js_split_join sep l :
  l <> [] -> Forall (free_of sep) l -> js_split sep (js_join (String sep EmptyString) l) = l.
Proof.
  intros Hne Hl. unfold js_split. induction Hl as [|x l Hx Hl IH]; [done|].
  destruct l as [|y l].
  - simpl. rewrite <- (string_app_nil_r x) at 1. by rewrite split_aux_free.
  - change (js_split_aux sep (x +:+ (String sep EmptyString) +:+ js_join (String sep EmptyString) (y :: l))
      EmptyString = x :: y :: l).
    rewrite split_aux_free by done. simpl (js_split_aux _ _ _) at 1.
    rewrite bool_decide_eq_true_2 by done. f_equal. by apply IH.
Qed.

(** ** Lemmas on lists *)

Lemma includes_true {A} `{EqDecision A} (x : A) l : includes x l = true <-> x ∈ l.
Proof. unfold includes. by rewrite bool_decide_eq_true. Qed.

Lemma includes_false {A} `{EqDecision A} (x : A) l : includes x l = false <-> x ∉ l.
Proof. unfold includes. by rewrite bool_decide_eq_false. Qed.

Lemma elem_of_filter_list {A} (p : A -> bool) x l : x ∈ List.filter p l <-> p x = true /\ x ∈ l.
Proof. rewrite !list_elem_of_In, filter_In. naive_solver. Qed.

Lemma find_elem {A} (p : A -> bool) l x : List.find p l = Some x -> x ∈ l /\ p x = true.
Proof. intros H. apply find_some in H as [H1 H2]. by rewrite list_elem_of_In. Qed.

Lemma find_from_elem {A} (p : A -> bool) l x : x ∈ l -> p x = true -> exists y, List.find p l = Some y.
Proof.
  intros Hx Hp. destruct (List.find p l) as [y|] eqn:Hf; [by exists y|].
  apply list_elem_of_In in Hx. by rewrite (find_none _ _ Hf _ Hx) in Hp.
Qed.

(** A new last element is found when no earlier one matches. *)
Lemma find_app_last {A} (p : A -> bool) l x :
  (forall y, y ∈ l -> p y = false) -> p x = true -> List.find p (l ++ [x]) = Some x.
Proof.
  intros Hl Hx. induction l as [|y l IH]; simpl; [by rewrite Hx|].
  rewrite (Hl y) by set_solver. apply IH. set_solver.
Qed.

Lemma elem_of_insert_by {A} (key : A -> Z) x y l : x ∈ insert_by key y l <-> x = y \/ x ∈ l.
Proof. induction l as [|z l IH]; simpl; [|case_match]; set_solver. Qed.

Lemma elem_of_sort_by {A} (key : A -> Z) x l : x ∈ sort_by key l <-> x ∈ l.
Proof. induction l as [|y l IH]; simpl; [done|]. rewrite elem_of_insert_by. set_solver. Qed.

Lemma insert_by_length {A} (key : A -> Z) x l : length (insert_by key x l) = S (length l).
Proof. induction l as [|z l IH]; simpl; [done|]. case_match; simpl; auto. Qed.

Lemma sort_by_length {A} (key : A -> Z) l : length (sort_by key l) = length l.
Proof. induction l as [|y l IH]; simpl; [done|]. by rewrite insert_by_length, IH. Qed.

Lemma sort_by_perm {A} (key : A -> Z) l : Permutation (sort_by key l) l.
Proof.
  assert (Hi : forall x l, Permutation (insert_by key x l) (x :: l)).
  { intros x l'. induction l' as [|y l' IH]; simpl; [done|]. case_match; [done|].
    rewrite IH. apply perm_swap. }
  induction l as [|x l IH]; simpl; [done|]. by rewrite Hi, IH.
Qed.

(** Sorted lists: every element is at most the ones after it. *)
Lemma sort_by_sorted {A} (key : A -> Z) l : StronglySorted (fun a b => key a <= key b) (sort_by key l).
Proof.
  induction l as [|x l IH]; simpl; [constructor|]. induction IH as [|y l' Hs IH Hall]; simpl.
  - repeat constructor.
  - destruct (Z.leb_spec (key x) (key y)).
    + constructor; [by constructor|]. constructor; [lia|].
      eapply Forall_impl; [exact Hall|]. simpl. lia.
    + constructor; [exact IH|]. apply Forall_forall. intros z [->|Hz]%elem_of_insert_by; [lia|].
      by eapply Forall_forall in Hall.
Qed.

Lemma filter_perm {A} (p : A -> bool) (l l' : list A) :
  Permutation l l' -> Permutation (List.filter p l) (List.filter p l').
Proof.
  induction 1 as [|x l l' H IH|x y l|l l' l'' H1 IH1 H2 IH2]; simpl; [done| | |by etransitivity].
  - destruct (p x); [by constructor | done].
  - destruct (p x), (p y); try done. constructor.
Qed.

(** Rows with distinct keys are determined by their key. *)
Lemma NoDup_map_inj {A B} (f : A -> B) l a b :
  NoDup (map f l) -> a ∈ l -> b ∈ l -> f a = f b -> a = b.
Proof.
  induction l as [|x l IH]; intros Hnd Ha Hb Hab; [by apply elem_of_nil in Ha|]. simpl in Hnd.
  apply NoDup_cons in Hnd as [Hx Hnd].
  apply elem_of_cons in Ha as [->|Ha], Hb as [->|Hb]; [done|..|by apply IH]; exfalso; apply Hx.
  - rewrite Hab. by apply list_elem_of_fmap_2.
  - rewrite <- Hab. by apply list_elem_of_fmap_2.
Qed.

(** Removing the row with a given key. *)
(** Removing by a key that is unique removes that element, and only it. *)
Lemma removed_key {A B} `{EqDecision B} (f : A -> B) l a x :
  NoDup (map f l) -> a ∈ l -> x ∈ remove_first (fun y => f y === f a) l -> x ∈ l /\ f x <> f a.
Proof.
  induction l as [|y l IH]; intros Hnd Ha Hx; [by apply not_elem_of_nil in Ha|]. simpl in *.
  apply NoDup_cons in Hnd as [Hy Hnd]. destruct (bool_decide_reflect (f y = f a)) as [He|He].
  - split; [set_solver|]. intros Hxe. apply Hy. rewrite He, <- Hxe. by apply list_elem_of_fmap_2.
  - apply elem_of_cons in Ha as [->|Ha]; [done|].
    apply elem_of_cons in Hx as [->|Hx]; [split; [set_solver|done]|].
    destruct (IH Hnd Ha Hx). split; [set_solver|done].
Qed.

Lemma elem_of_remove_key {B A} `{EqDecision A} (f : B -> A) l k x :
  NoDup (map f l) -> x ∈ remove_first (fun y => f y === k) l <-> x ∈ l /\ f x <> k.
Proof.
  induction l as [|y l IH]; intros Hnd; simpl in *; [set_solver|].
  apply NoDup_cons in Hnd as [Hy Hnd]. destruct (bool_decide_reflect (f y = k)) as [Hk|Hk].
  - subst k. split.
    + intros Hx. split; [set_solver|]. intros Heq. apply Hy. rewrite <- Heq. by apply list_elem_of_fmap_2.
    + intros [Hx Hne]. apply elem_of_cons in Hx as [->|Hx]; done.
  - rewrite !elem_of_cons, IH by done. naive_solver.
Qed.

Lemma filter_true {A} (l : list A) : List.filter (fun _ => true) l = l.
Proof. induction l as [|x l IH]; simpl; [done|]. by rewrite IH. Qed.

Lemma filter_comm {A} (p q : A -> bool) (l : list A) :
  List.filter p (List.filter q l) = List.filter q (List.filter p l).
Proof.
  induction l as [|x l IH]; simpl; [done|].
  destruct (q x) eqn:Hq, (p x) eqn:Hp; simpl; rewrite ?Hp, ?Hq, ?IH; done.
Qed.

Lemma filter_ext {A} (p q : A -> bool) l :
  (forall x, x ∈ l -> p x = q x) -> List.filter p l = List.filter q l.
Proof.
  induction l as [|x l IH]; intros H; simpl; [done|].
  rewrite (H x), IH by set_solver. done.
Qed.

Lemma filter_none {A} (p : A -> bool) l : (forall x, x ∈ l -> p x = false) -> List.filter p l = [].
Proof.
  induction l as [|x l IH]; intros H; simpl; [done|]. rewrite (H x), IH by set_solver. done.
Qed.

(** A bulk update of rows that a filter then drops. *)
Lemma filter_update_all {A} (p q : A -> bool) f l :
  (forall x, q x = true -> p (f x) = false /\ p x = false) ->
  List.filter p (update_all q f l) = List.filter p l.
Proof.
  intros H. unfold update_all. induction l as [|x l IH]; simpl; [done|].
  destruct (q x) eqn:Hq; rewrite IH; [|done]. by destruct (H x Hq) as [-> ->].
Qed.

(** A bulk update touches no row outside its condition. *)
Lemma elem_of_filter_update {A} (p q : A -> bool) f l x :
  (forall y, q y = true -> p (f y) = false /\ p y = false) ->
  x ∈ List.filter p (update_all q f l) <-> x ∈ l /\ p x = true.
Proof. intros H. rewrite filter_update_all by done. rewrite elem_of_filter_list. naive_solver. Qed.

Lemma update_first_id {A} (p : A -> bool) f l :
  List.find p l = None -> update_first p f l = l.
Proof. induction l as [|x l IH]; simpl; [done|]. case_match; [done|]. intros Hl. by rewrite IH. Qed.

Lemma update_first_same {A} (p : A -> bool) l : update_first p (fun r => r) l = l.
Proof. induction l as [|x l IH]; simpl; [done|]. rewrite IH. by case_match. Qed.

Lemma elem_of_update_first {A} (p : A -> bool) f l y :
  y ∈ update_first p f l -> y ∈ l \/ exists x, List.find p l = Some x /\ y = f x.
Proof.
  induction l as [|x l IH]; simpl; [set_solver|]. destruct (p x) eqn:Hp.
  - rewrite elem_of_cons. intros [->|H]; [right; eauto | left; set_solver].
  - rewrite elem_of_cons. intros [->|H']; [left; set_solver|].
    destruct (IH H') as [?|?]; [left; set_solver | by right].
Qed.

Lemma update_first_length {A} (p : A -> bool) f l : length (update_first p f l) = length l.
Proof. induction l as [|x l IH]; simpl; [done|]. case_match; simpl; auto. Qed.

Lemma elem_of_remove_first {A} (p : A -> bool) l y : y ∈ remove_first p l -> y ∈ l.
Proof. induction l as [|x l IH]; simpl; [done|]. destruct (p x); set_solver. Qed.

Lemma elem_of_remove_first_ne {A} (p : A -> bool) l x : p x = false -> x ∈ l -> x ∈ remove_first p l.
Proof.
  intros Hp. induction l as [|y l IH]; simpl; [done|]. rewrite elem_of_cons. destruct (p y) eqn:Hy.
  - intros [->|?]; [congruence|done].
  - rewrite elem_of_cons. intros [->|?]; [by left|right; by apply IH].
Qed.

Lemma filter_length_mono {A} (p q : A -> bool) l :
  (forall x, q x = true -> p x = true) ->
  (length (List.filter q l) <= length (List.filter p l))%nat.
Proof.
  intros H. induction l as [|x l IH]; simpl; [lia|].
  destruct (q x) eqn:Hq; [rewrite (H x Hq); simpl; lia | destruct (p x); simpl; lia].
Qed.

Lemma NoDup_map_filter {A B} (f : A -> B) (p : A -> bool) l : NoDup (map f l) -> NoDup (map f (List.filter p l)).
Proof.
  induction l as [|x l IH]; simpl; [done|]. intros [Hx Hl]%NoDup_cons. destruct (p x); [|by apply IH].
  simpl. constructor; [|by apply IH]. intros (y & Hy & Hin)%list_elem_of_fmap. apply Hx. rewrite Hy.
  apply list_elem_of_fmap_2. by apply elem_of_filter_list in Hin as [_ ?].
Qed.

Lemma find_by_key {A B} `{EqDecision B} (f : A -> B) l x :
  NoDup (map f l) -> x ∈ l -> List.find (fun y => f y === f x) l = Some x.
Proof.
  intros Hnd Hin. destruct (find_from_elem (fun y => f y === f x) l x Hin) as [y Hy]; [by apply bool_decide_eq_true|].
  rewrite Hy. apply find_elem in Hy as [Hy He%bool_decide_eq_true]. f_equal. by apply (NoDup_map_inj f l).
Qed.

Lemma NoDup_map_remove_first {A B} (f : A -> B) (p : A -> bool) l : NoDup (map f l) -> NoDup (map f (remove_first p l)).
Proof.
  induction l as [|x l IH]; simpl; [done|]. intros [Hx Hl]%NoDup_cons. destruct (p x); [done|].
  simpl. constructor; [|by apply IH]. intros (y & Hy & Hin)%list_elem_of_fmap. apply Hx. rewrite Hy.
  apply list_elem_of_fmap_2. by apply elem_of_remove_first in Hin.
Qed.
Lemma map_update_first {A B} (f : A -> B) (p : A -> bool) g l :
  (forall x, f (g x) = f x) -> map f (update_first p g l) = map f l.
Proof. intros Hg. induction l as [|x l IH]; simpl; [done|]. destruct (p x); simpl; by rewrite ?Hg, ?IH. Qed.

Lemma remove_first_length {A} (p : A -> bool) l x :
  List.find p l = Some x -> length l = S (length (remove_first p l)).
Proof. induction l as [|y l IH]; simpl; [done|]. destruct (p y) eqn:Hp; simpl; [done|]. intros Hl. by rewrite IH. Qed.

Lemma filter_length_le {A} (p : A -> bool) l : (length (List.filter p l) <= length l)%nat.
Proof. induction l as [|x l IH]; simpl; [lia|]. case_match; simpl; lia. Qed.

Lemma elem_of_dedup {A} `{EqDecision A} (seen l : list A) x :
  x ∈ dedup seen l <-> x ∈ l /\ x ∉ seen.
Proof.
  revert seen. induction l as [|y l IH]; intros seen; simpl; [set_solver|].
  destruct (includes y seen) eqn:Hy.
  - apply includes_true in Hy. rewrite IH. set_solver.
  - apply includes_false in Hy. rewrite elem_of_cons, IH, elem_of_app. destruct (decide (x = y)); set_solver.
Qed.

Lemma NoDup_dedup {A} `{EqDecision A} (seen l : list A) : NoDup (dedup seen l).
Proof.
  revert seen. induction l as [|y l IH]; intros seen; simpl; [constructor|].
  case_match; [apply IH|]. constructor; [|apply IH]. rewrite elem_of_dedup. set_solver.
Qed.

Lemma find_update_first {A} (p : A -> bool) f l x :
  List.find p l = Some x -> p (f x) = true -> List.find p (update_first p f l) = Some (f x).
Proof.
  induction l as [|y l IH]; simpl; [done|]. destruct (p y) eqn:Hy; simpl.
  - intros [= ->] ->. done.
  - rewrite Hy. auto.
Qed.

(** An update that does not touch what [q] looks at. *)
Lemma find_update_first_ne {A} (p q : A -> bool) f l :
  (forall x, p x = true -> q x = false) -> (forall x, p x = true -> q (f x) = false) ->
  List.find q (update_first p f l) = List.find q l.
Proof.
  intros H1 H2. induction l as [|y l IH]; simpl; [done|].
  destruct (p y) eqn:Hy; simpl; [by rewrite (H1 y Hy), (H2 y Hy) | by rewrite IH].
Qed.

Lemma filter_negb_nil {A} (p : A -> bool) l :
  List.filter p (List.filter (fun x => negb (p x)) l) = [].
Proof. induction l as [|x l IH]; simpl; [done|]. destruct (p x) eqn:Hx; simpl; by rewrite ?Hx. Qed.

(** ** Suffixes *)

Lemma str_rev_app_app s acc : str_rev_app s acc = str_rev_app s EmptyString +:+ acc.
Proof.
  revert acc. induction s as [|c s IH]; intros acc; [done|]. simpl.
  rewrite IH, (IH (String c EmptyString)), string_app_assoc. done.
Qed.

Lemma str_rev_cons c s : str_rev (String c s) = str_rev s +:+ String c EmptyString.
Proof. unfold str_rev. simpl. apply str_rev_app_app. Qed.

Lemma str_rev_concat s t : str_rev (s +:+ t) = str_rev t +:+ str_rev s.
Proof.
  induction s as [|c s IH]; [by rewrite string_app_nil_r|].
  change (String c s +:+ t) with (String c (s +:+ t)).
  by rewrite !str_rev_cons, IH, string_app_assoc.
Qed.

Lemma str_rev_rev s : str_rev (str_rev s) = s.
Proof. induction s as [|c s IH]; [done|]. by rewrite str_rev_cons, str_rev_concat, IH. Qed.

Lemma ends_with_true p s : ends_with p s = true <-> exists t, s = t +:+ p.
Proof.
  unfold ends_with. rewrite starts_with_true. split.
  - intros [t Ht]. exists (str_rev t). rewrite <- (str_rev_rev s), Ht, str_rev_concat.
    by rewrite str_rev_rev.
  - intros [t ->]. exists (str_rev t). apply str_rev_concat.
Qed.

Lemma drop_last_app s c : drop_last (s +:+ String c EmptyString) = s.
Proof.
  induction s as [|d s IH]; [done|].
  change (drop_last (String d (s +:+ String c EmptyString)) = String d s).
  simpl. rewrite IH. by destruct s.
Qed.
