(* ===== verification/Int32.v ===== *)
(** * Int32: the bitwise operators of JavaScript

    The operands of [<<], [>>>], [&] and [|] are reduced to 32 bits; the results of
    [<<], [&] and [|] are signed, the result of [>>>] is unsigned. *)

From S2P Require Import Prelude.

(** ToUint32 and ToInt32. *)
Definition to_uint32 (z : Z) : Z := z mod 2 ^ 32.
Definition to_int32 (z : Z) : Z :=
  let m := z mod 2 ^ 32 in if m <? 2 ^ 31 then m else m - 2 ^ 32.

Definition js_shl (a n : Z) : Z := to_int32 (Z.shiftl (to_int32 a) (n mod 32)).
Definition js_ushr (a n : Z) : Z := Z.shiftr (to_uint32 a) (n mod 32).
Definition js_bor (a b : Z) : Z := to_int32 (Z.lor (to_int32 a) (to_int32 b)).
Definition js_band (a b : Z) : Z := to_int32 (Z.land (to_int32 a) (to_int32 b)).
Definition js_bnot (a : Z) : Z := to_int32 (Z.lnot (to_int32 a)).

Declare Scope int32_scope.
Delimit Scope int32_scope with i32.
Notation "a << n" := (js_shl a n) (at level 40, left associativity) : int32_scope.
Notation "a >>> n" := (js_ushr a n) (at level 40, left associativity) : int32_scope.
Notation "a .&. b" := (js_band a b) (at level 41, left associativity) : int32_scope.
Notation "a .|. b" := (js_bor a b) (at level 42, left associativity) : int32_scope.
Open Scope int32_scope.

(** ** What they compute, modulo 2^32 *)

Lemma uint32_bound z : 0 <= to_uint32 z < 2 ^ 32.
Proof. apply Z.mod_pos_bound. lia. Qed.

Lemma uint32_small z : 0 <= z < 2 ^ 32 -> to_uint32 z = z.
Proof. intros H. by apply Z.mod_small. Qed.

Lemma uint32_int32 z : to_uint32 (to_int32 z) = to_uint32 z.
Proof.
  unfold to_uint32, to_int32. cbv zeta.
  destruct (Z.ltb_spec (z mod 2 ^ 32) (2 ^ 31)).
  - apply Z.mod_mod. lia.
  - rewrite <- (Z.mod_add _ 1) by lia. replace (z mod 2 ^ 32 - 2 ^ 32 + 1 * 2 ^ 32) with (z mod 2 ^ 32) by lia.
    apply Z.mod_mod. lia.
Qed.

Lemma int32_uint32 z : to_int32 (to_uint32 z) = to_int32 z.
Proof. unfold to_int32, to_uint32. rewrite Z.mod_mod by lia. done. Qed.

(** Two results of a signed operator are equal when their 32 bits are. *)
Lemma int32_inj x y : to_int32 x = to_int32 y <-> to_uint32 x = to_uint32 y.
Proof.
  split; intros H.
  - by rewrite <- (uint32_int32 x), H, uint32_int32.
  - by rewrite <- (int32_uint32 x), H, int32_uint32.
Qed.

Lemma uint32_land z : to_uint32 z = Z.land z (Z.ones 32).
Proof. unfold to_uint32. by rewrite Z.land_ones. Qed.

Lemma uint32_land_distr x y : to_uint32 (Z.land x y) = Z.land (to_uint32 x) (to_uint32 y).
Proof.
  rewrite !uint32_land, <- (Z.land_diag (Z.ones 32)) at 1.
  rewrite !Z.land_assoc. f_equal. rewrite <- !Z.land_assoc. f_equal. apply Z.land_comm.
Qed.

Lemma uint32_lor_distr x y : to_uint32 (Z.lor x y) = Z.lor (to_uint32 x) (to_uint32 y).
Proof. rewrite !uint32_land. apply Z.land_lor_distr_l. Qed.

Lemma uint32_bor a b : to_uint32 (a .|. b) = Z.lor (to_uint32 a) (to_uint32 b).
Proof. unfold js_bor. by rewrite uint32_int32, uint32_lor_distr, !uint32_int32. Qed.

Lemma uint32_band a b : to_uint32 (a .&. b) = Z.land (to_uint32 a) (to_uint32 b).
Proof. unfold js_band. by rewrite uint32_int32, uint32_land_distr, !uint32_int32. Qed.

Lemma band_eq a b c d :
  a .&. b = c .&. d <-> Z.land (to_uint32 a) (to_uint32 b) = Z.land (to_uint32 c) (to_uint32 d).
Proof.
  rewrite <- !uint32_band. unfold js_band. rewrite int32_inj, !uint32_int32. done.
Qed.

Lemma uint32_shl a n : 0 <= n < 32 -> to_uint32 (a << n) = to_uint32 (to_uint32 a * 2 ^ n).
Proof.
  intros Hn. unfold js_shl. rewrite uint32_int32, Z.mod_small, Z.shiftl_mul_pow2 by lia.
  unfold to_uint32. rewrite <- Z.mul_mod_idemp_l by lia.
  change (to_int32 a mod 2 ^ 32) with (to_uint32 (to_int32 a)). rewrite uint32_int32. done.
Qed.

Lemma ushr_0 a : a >>> 0 = to_uint32 a.
Proof. unfold js_ushr. by rewrite Z.mod_0_l, Z.shiftr_0_r by lia. Qed.

Lemma ushr_div a n : 0 <= n < 32 -> a >>> n = to_uint32 a / 2 ^ n.
Proof. intros H. unfold js_ushr. rewrite Z.mod_small, Z.shiftr_div_pow2 by lia. done. Qed.

(** [x & 0xff] of an unsigned operand. *)
Lemma band_low a k : 0 <= k < 31 -> a .&. (2 ^ k - 1) = to_uint32 a mod 2 ^ k.
Proof.
  intros Hk.
  assert (0 < 2 ^ k) by (apply Z.pow_pos_nonneg; lia).
  assert (2 ^ k < 2 ^ 31) by (apply Z.pow_lt_mono_r; lia).
  assert (Hb : 0 <= to_uint32 a mod 2 ^ k < 2 ^ k) by (apply Z.mod_pos_bound; lia).
  assert (Hu : to_uint32 (a .&. (2 ^ k - 1)) = to_uint32 a mod 2 ^ k).
  { rewrite uint32_band, (uint32_small (2 ^ k - 1)) by lia.
    replace (2 ^ k - 1) with (Z.ones k) by (rewrite Z.ones_equiv; lia). apply Z.land_ones. lia. }
  rewrite <- Hu. unfold js_band at 1. set (z := Z.land _ _).
  assert (Hz : to_uint32 z = to_uint32 a mod 2 ^ k).
  { rewrite <- Hu. unfold js_band. fold z. by rewrite uint32_int32. }
  unfold js_band. fold z. rewrite uint32_int32, Hz. unfold to_int32. change (z mod 2 ^ 32) with (to_uint32 z).
  rewrite Hz. cbv zeta. destruct (Z.ltb_spec (to_uint32 a mod 2 ^ k) (2 ^ 31)); lia.
Qed.

(** Joining disjoint bits is addition. *)
Lemma lor_add x y n : 0 <= n -> 0 <= y < 2 ^ n -> Z.lor (x * 2 ^ n) y = x * 2 ^ n + y.
Proof.
  intros Hn Hy. rewrite <- Z.shiftl_mul_pow2 by lia.
  assert (Z.land (Z.shiftl x n) y = 0) as H0.
  { replace y with (Z.land y (Z.ones n)) by (rewrite Z.land_ones by lia; by apply Z.mod_small).
    rewrite Z.land_comm, <- Z.land_assoc, (Z.land_comm (Z.ones n)), Z.land_ones by lia.
    rewrite Z.shiftl_mul_pow2, Z.mod_mul by lia. apply Z.land_0_r. }
  pose proof (Z.add_lor_land (Z.shiftl x n) y). lia.
Qed.

(** Masking with the complement of the low bits. *)
Lemma land_high v w k :
  0 <= k <= w -> 0 <= v < 2 ^ w -> Z.land v (2 ^ w - 2 ^ k) = v / 2 ^ k * 2 ^ k.
Proof.
  intros Hk Hv. assert (0 < 2 ^ k) by (apply Z.pow_pos_nonneg; lia).
  assert (2 ^ k <= 2 ^ w) by (apply Z.pow_le_mono_r; lia).
  replace (2 ^ w - 2 ^ k) with (Z.ldiff (Z.ones w) (Z.ones k)).
  - rewrite Z.ldiff_land, Z.land_assoc, Z.land_ones, Z.mod_small, <- Z.ldiff_land by lia.
    rewrite Z.ldiff_ones_r, Z.shiftl_mul_pow2, Z.shiftr_div_pow2 by lia. done.
  - rewrite Z.ldiff_ones_r by lia. rewrite Z.shiftl_mul_pow2, Z.shiftr_div_pow2 by lia.
    rewrite Z.ones_equiv. replace (2 ^ w) with (2 ^ (w - k) * 2 ^ k) by (rewrite <- Z.pow_add_r by lia; f_equal; lia).
    replace (Z.pred (2 ^ (w - k) * 2 ^ k)) with ((2 ^ (w - k) - 1) * 2 ^ k + (2 ^ k - 1)) by lia.
    rewrite Z.div_add_l, Z.div_small by lia. lia.
Qed.

(** Equality under such a mask is equality of the quotients. *)
Lemma high_eq v b k : 0 <= k -> v / 2 ^ k * 2 ^ k = b / 2 ^ k * 2 ^ k <-> v / 2 ^ k = b / 2 ^ k.
Proof. intros Hk. assert (0 < 2 ^ k) by (apply Z.pow_pos_nonneg; lia). nia. Qed.

(** ... which is membership of an interval. *)
Lemma quot_eq_interval v b k :
  0 <= k -> v / 2 ^ k = b / 2 ^ k <-> b / 2 ^ k * 2 ^ k <= v < b / 2 ^ k * 2 ^ k + 2 ^ k.
Proof.
  intros Hk. assert (0 < 2 ^ k) by (apply Z.pow_pos_nonneg; lia). split.
  - intros <-. pose proof (Z.mod_pos_bound v (2 ^ k)). pose proof (Z.div_mod v (2 ^ k)). lia.
  - intros Hv. symmetry. apply Z.div_unique_pos with (r := v - b / 2 ^ k * 2 ^ k); lia.
Qed.
