(* ===== verification/JsText.v ===== *)
(** * JsText: numbers in text, substrings and character classes

    [parseInt], [Number.prototype.toString(radix)], [indexOf], [slice] and the tests
    of anchored regular expressions, on 8-bit code units. *)

From S2P Require Import Prelude.

(** ** Characters *)

Definition char_in (a b : N) (c : ascii) : bool := ((a <=? N_of_ascii c) && (N_of_ascii c <=? b))%N.
(** [\d], [\w] and [[0-9a-fA-F]]. *)
Definition dec_char : ascii -> bool := char_in 48 57.
Definition hex_char (c : ascii) : bool := char_in 48 57 c || char_in 97 102 c || char_in 65 70 c.
Definition word_char (c : ascii) : bool :=
  char_in 48 57 c || char_in 97 122 c || char_in 65 90 c || (c === "_"%char).

Fixpoint all_chars (f : ascii -> bool) (s : string) : bool :=
  match s with
  | EmptyString => true
  | String c s' => f c && all_chars f s'
  end.
(** [/^[class]+$/]. *)
Definition some_chars (f : ascii -> bool) (s : string) : bool := (s !== EmptyString) && all_chars f s.
(** [/^[class]{1,n}$/]. *)
Definition upto_chars (n : nat) (f : ascii -> bool) (s : string) : bool :=
  some_chars f s && (String.length s <=? n)%nat.

(** The value of a digit in any radix up to 36. *)
Definition digit_val (c : ascii) : option Z :=
  let n := Z.of_N (N_of_ascii c) in
  if char_in 48 57 c then Some (n - 48)
  else if char_in 97 122 c then Some (n - 87)
  else if char_in 65 90 c then Some (n - 55)
  else None.
Definition digit_char (d : Z) : ascii :=
  ascii_of_N (Z.to_N (if d <? 10 then d + 48 else d + 87)).

(** ** parseInt *)

Fixpoint digits_prefix (radix : Z) (s : string) (acc : option Z) : option Z :=
  match s with
  | EmptyString => acc
  | String c s' =>
      match digit_val c with
      | Some d => if d <? radix then digits_prefix radix s' (Some (radix * (acc ?? 0) + d)) else acc
      | None => acc
      end
  end.

(** [s.slice(n)]. *)
Fixpoint str_drop (n : nat) (s : string) : string :=
  match n, s with
  | O, _ => s
  | S n', String _ s' => str_drop n' s'
  | S _, EmptyString => EmptyString
  end.

(** A sign, and the rest. *)
Definition strip_sign (s : string) : bool * string :=
  match s with
  | String c s' => if c === "-"%char then (true, s')
                   else if c === "+"%char then (false, s') else (false, s)
  | EmptyString => (false, s)
  end.
(** The prefix that radix 16 allows. *)
Definition strip_0x (radix : Z) (s : string) : string :=
  if (radix =? 16) && (starts_with "0x" s || starts_with "0X" s) then str_drop 2 s else s.

(** [parseInt(s, radix)]; [None] is [NaN]. *)
Definition parseInt (radix : Z) (s : string) : option Z :=
  let '(neg, s) := strip_sign (trim_start s) in
  (fun v => if (neg : bool) then - v else v) <$> digits_prefix radix (strip_0x radix s) None.

(** ** toString(radix) *)

Fixpoint base_digits (fuel : nat) (b n : Z) (acc : string) : string :=
  match fuel with
  | O => acc
  | S f => let acc' := String (digit_char (n mod b)) acc in
           if n / b =? 0 then acc' else base_digits f b (n / b) acc'
  end.
(** [n.toString(b)] for [0 <= n]; the fuel is the number of bits, at least the number
    of digits. *)
Definition to_base (b n : Z) : string := base_digits (S (Z.to_nat (Z.log2 n))) b n EmptyString.

(** ** Substrings *)

(** [s.slice(0, n)]. *)
Fixpoint str_take (n : nat) (s : string) : string :=
  match n, s with
  | S n', String c s' => String c (str_take n' s')
  | _, _ => EmptyString
  end.
(** [s.indexOf(p)], the first place at which [p] starts. *)
Fixpoint index_of (p s : string) : option nat :=
  if starts_with p s then Some O else
  match s with
  | EmptyString => None
  | String _ s' => S <$> index_of p s'
  end.
(** The last segment of [s] after a separator, and what precedes it, the separator
    included: [lastIndexOf] and two [slice]s. *)
Fixpoint last_segment (sep : ascii) (s : string) : string * string :=
  match s with
  | EmptyString => (EmptyString, EmptyString)
  | String c s' =>
      let '(before, tail) := last_segment sep s' in
      if (c === sep) || (before !== EmptyString) then (String c before, tail)
      else (EmptyString, String c s')
  end.

(** ** Lemmas on characters *)

Lemma str_app_cons c s t : String c s +:+ t = String c (s +:+ t).
Proof. done. Qed.

Lemma char_in_true a b c : char_in a b c = true <-> (a <= N_of_ascii c <= b)%N.
Proof. unfold char_in. rewrite andb_true_iff, !N.leb_le. done. Qed.

Lemma digit_char_code d : 0 <= d < 36 ->
  N_of_ascii (digit_char d) = Z.to_N (if d <? 10 then d + 48 else d + 87).
Proof. intros H. apply N_ascii_embedding. destruct (Z.ltb_spec d 10); lia. Qed.

Lemma digit_val_char d : 0 <= d < 36 -> digit_val (digit_char d) = Some d.
Proof.
  intros H. unfold digit_val, char_in. rewrite (digit_char_code d H).
  destruct (Z.ltb_spec d 10);
    repeat match goal with |- context [(?a <=? ?b)%N] => destruct (N.leb_spec a b) end;
    simpl; try (f_equal; lia); exfalso; lia.
Qed.

Lemma dec_char_digit d : 0 <= d < 10 -> dec_char (digit_char d) = true.
Proof.
  intros H. apply char_in_true. rewrite digit_char_code by lia. destruct (Z.ltb_spec d 10); lia.
Qed.

Lemma oct_char_digit d : 0 <= d < 8 -> char_in 48 55 (digit_char d) = true.
Proof.
  intros H. apply char_in_true. rewrite digit_char_code by lia. destruct (Z.ltb_spec d 10); lia.
Qed.

Lemma hex_char_digit d : 0 <= d < 16 -> char_in 48 57 (digit_char d) || char_in 97 102 (digit_char d) = true.
Proof.
  intros H. apply orb_true_iff. rewrite !char_in_true, digit_char_code by lia.
  destruct (Z.ltb_spec d 10); lia.
Qed.

Lemma all_chars_app f s t : all_chars f (s +:+ t) = all_chars f s && all_chars f t.
Proof. induction s as [|c s IH]; simpl; [done|]. by rewrite IH, andb_assoc. Qed.

Lemma all_chars_mono (f g : ascii -> bool) s :
  (forall c, f c = true -> g c = true) -> all_chars f s = true -> all_chars g s = true.
Proof.
  intros H. induction s as [|c s IH]; simpl; [done|]. rewrite !andb_true_iff. naive_solver.
Qed.

Lemma all_chars_existsb f s : all_chars f s = negb (str_existsb (fun c => negb (f c)) s).
Proof. induction s as [|c s IH]; simpl; [done|]. rewrite IH. by destruct (f c). Qed.

(** Text of a class that excludes a separator. *)
Lemma all_chars_free_of f sep s : f sep = false -> all_chars f s = true -> free_of sep s.
Proof.
  intros Hs. unfold free_of. induction s as [|c s IH]; simpl; [done|].
  intros [Hc H]%andb_true_iff. rewrite (IH H), orb_false_r.
  apply bool_decide_eq_false. intros ->. congruence.
Qed.

(** [trim] and [toLowerCase] leave text alone that has nothing to trim or lower. *)
Lemma trim_start_all s : all_chars (fun c => negb (is_space c)) s = true -> trim_start s = s.
Proof. destruct s as [|c s]; simpl; [done|]. by destruct (is_space c). Qed.

Lemma all_chars_rev f s : all_chars f (str_rev s) = all_chars f s.
Proof.
  induction s as [|c s IH]; [done|]. rewrite str_rev_cons, all_chars_app, IH. simpl.
  by rewrite andb_true_r, andb_comm.
Qed.

Lemma js_trim_all s : all_chars (fun c => negb (is_space c)) s = true -> js_trim s = s.
Proof.
  intros H. unfold js_trim. rewrite (trim_start_all s) by done.
  rewrite trim_start_all by (by rewrite all_chars_rev). apply str_rev_rev.
Qed.

Lemma to_lower_all s : all_chars (fun c => negb (char_in 65 90 c)) s = true -> to_lower s = s.
Proof.
  unfold to_lower. induction s as [|c s IH]; simpl; [done|]. rewrite andb_true_iff, negb_true_iff.
  intros [Hc Hs]. rewrite (IH Hs). f_equal. unfold lower_ascii, char_in in *. by rewrite Hc.
Qed.

(** ** Printing and parsing *)

(** Starting from nothing is starting from zero. *)
Lemma digits_prefix_0 b s : digits_prefix b s (Some 0) = Some (digits_prefix b s None ?? 0).
Proof.
  assert (Hs : forall s a, exists v, digits_prefix b s (Some a) = Some v).
  { induction s0 as [|c s0 IH]; intros a; simpl; [by exists a|].
    destruct (digit_val c) as [d|]; [|by exists a]. destruct (d <? b); [apply IH | by exists a]. }
  destruct s as [|c s]; [done|]. cbn [digits_prefix].
  destruct (digit_val c) as [d|]; [|done]. destruct (d <? b); [|done].
  simpl default. by destruct (Hs s (b * 0 + d)) as [v ->].
Qed.

(** The digits of a number, in front of any text. *)
Lemma base_digits_shape fuel b n acc :
  1 < b <= 36 -> 0 <= n < 2 ^ Z.of_nat fuel -> (0 < fuel)%nat ->
  exists d r, base_digits fuel b n acc = String (digit_char d) r +:+ acc /\
    0 <= d < b /\ (0 < n -> 0 < d) /\ (forall f, (forall k, 0 <= k < b -> f (digit_char k) = true) ->
      all_chars f r = true).
Proof.
  intros Hb. revert n acc. induction fuel as [|fuel IH]; intros n acc Hn Hf; [lia|].
  cbn [base_digits]. cbv zeta. pose proof (Z.mod_pos_bound n b) as Hmod. pose proof (Z.div_mod n b) as Hdm.
  destruct (Z.eqb_spec (n / b) 0) as [H0|H0].
  - exists (n mod b), EmptyString. split; [done|]. split; [lia|]. by split; [lia|].
  - assert (0 < n / b < 2 ^ Z.of_nat fuel).
    { rewrite Nat2Z.inj_succ, Z.pow_succ_r in Hn by lia. pose proof (Z.div_pos n b) as Hdp. split; [lia|].
      apply Z.div_lt_upper_bound; nia. }
    destruct fuel as [|fuel]; [simpl in *; lia|].
    destruct (IH (n / b) (String (digit_char (n mod b)) acc)) as (d & r & He & Hd & Hp & Hr); [lia|lia|].
    exists d, (r +:+ String (digit_char (n mod b)) EmptyString). split; [|split; [lia|]].
    + by rewrite He, !str_app_cons, string_app_assoc.
    + split; [lia|]. intros f Hff. rewrite all_chars_app, (Hr f Hff). simpl. rewrite Hff by lia. done.
Qed.

Lemma to_base_fuel n : 0 <= n -> 0 <= n < 2 ^ Z.of_nat (S (Z.to_nat (Z.log2 n))).
Proof.
  intros H. split; [done|]. rewrite Nat2Z.inj_succ, Z2Nat.id by apply Z.log2_nonneg.
  destruct (Z.eq_dec n 0) as [->|]; [simpl; lia|]. apply Z.log2_spec. lia.
Qed.

Lemma to_base_shape b n :
  1 < b <= 36 -> 0 <= n ->
  exists d r, to_base b n = String (digit_char d) r /\ 0 <= d < b /\ (0 < n -> 0 < d) /\
    (forall f, (forall k, 0 <= k < b -> f (digit_char k) = true) -> all_chars f r = true).
Proof.
  intros Hb Hn. destruct (base_digits_shape _ b n EmptyString Hb (to_base_fuel n Hn)) as (d & r & He & H); [lia|].
  exists d, r. split; [|done]. unfold to_base. rewrite He. apply string_app_nil_r.
Qed.

Lemma to_base_chars f b n :
  1 < b <= 36 -> 0 <= n -> (forall k, 0 <= k < b -> f (digit_char k) = true) ->
  some_chars f (to_base b n) = true.
Proof.
  intros Hb Hn Hf. destruct (to_base_shape b n Hb Hn) as (d & r & -> & Hd & _ & Hr).
  unfold some_chars. simpl. by rewrite (Hf d Hd), (Hr f Hf).
Qed.

Lemma base_digits_value fuel b n acc :
  1 < b <= 36 -> 0 <= n < 2 ^ Z.of_nat fuel -> (0 < fuel)%nat ->
  digits_prefix b (base_digits fuel b n acc) None = digits_prefix b acc (Some n).
Proof.
  intros Hb. revert n acc. induction fuel as [|fuel IH]; intros n acc Hn Hf; [lia|].
  cbn [base_digits]. cbv zeta. pose proof (Z.mod_pos_bound n b) as Hmod. pose proof (Z.div_mod n b) as Hdm.
  destruct (Z.eqb_spec (n / b) 0) as [H0|H0].
  - cbn [digits_prefix]. rewrite digit_val_char by lia. rewrite (proj2 (Z.ltb_lt _ _)) by lia.
    simpl default. do 2 f_equal. lia.
  - assert (0 < n / b < 2 ^ Z.of_nat fuel).
    { rewrite Nat2Z.inj_succ, Z.pow_succ_r in Hn by lia. pose proof (Z.div_pos n b) as Hdp. split; [lia|].
      apply Z.div_lt_upper_bound; nia. }
    destruct fuel as [|fuel]; [simpl in *; lia|]. rewrite IH by lia.
    cbn [digits_prefix]. rewrite digit_val_char by lia. rewrite (proj2 (Z.ltb_lt _ _)) by lia.
    simpl default. do 2 f_equal. lia.
Qed.

(** Reading back the digits that [toString] prints. *)
Lemma to_base_value b n : 1 < b <= 36 -> 0 <= n -> digits_prefix b (to_base b n) None = Some n.
Proof.
  intros Hb Hn. unfold to_base. rewrite base_digits_value; [done|lia|by apply to_base_fuel|lia].
Qed.

(** On plain digits [parseInt] reads all of them. *)
Lemma hex_char_plain c : hex_char c = true ->
  is_space c = false /\ c <> "-"%char /\ c <> "+"%char /\ c <> "x"%char /\ c <> "X"%char.
Proof.
  unfold hex_char. rewrite !orb_true_iff, !char_in_true. intros H. split.
  - unfold is_space. apply not_true_is_false. rewrite !orb_true_iff, andb_true_iff, !N.leb_le, !N.eqb_eq. lia.
  - repeat split; intros ->; simpl in H; lia.
Qed.

Lemma parseInt_digits b s : some_chars hex_char s = true -> parseInt b s = digits_prefix b s None.
Proof.
  unfold some_chars, parseInt. intros [Hne%negb_true_iff%bool_decide_eq_false Hs]%andb_true_iff.
  destruct s as [|c s]; [done|]. simpl in Hs. apply andb_true_iff in Hs as [Hc Hs].
  apply hex_char_plain in Hc as (Hsp & Hm & Hp & _). simpl trim_start. rewrite Hsp.
  unfold strip_sign. rewrite !bool_decide_eq_false_2 by done.
  assert (strip_0x b (String c s) = String c s) as ->.
  { unfold strip_0x. destruct s as [|x s]; simpl in *.
    - by repeat case_bool_decide; rewrite ?andb_false_r.
    - apply andb_true_iff in Hs as [Hx _]. apply hex_char_plain in Hx as (_ & _ & _ & Hx & HX).
      rewrite !(bool_decide_eq_false_2 (_ = x)) by congruence.
      by repeat case_bool_decide; rewrite ?andb_false_r. }
  by destruct (digits_prefix b (String c s) None).
Qed.

Lemma dec_hex_char c : dec_char c = true -> hex_char c = true.
Proof. unfold hex_char, dec_char. by intros ->. Qed.
