(* ===== verification/IpRange.v ===== *)
(** * IpRange: the SSRF guard (src/src/common/security/ip-range-guard.ts)

    IPv4 addresses are 32-bit JavaScript numbers, IPv6 addresses BigInts.  [isIP] is
    the one of node:net.  A numeric segment is an exact integer here and a double in
    the code: rounding starts at 2^53, where both are far above every bound the code
    compares with, and a value that rounds to Infinity is refused by both. *)

From S2P Require Import Prelude Int32 JsText.

Definition IPV4_BLOCKED_RANGES : list (string * Z) :=
  [("0.0.0.0", 8); ("10.0.0.0", 8); ("100.64.0.0", 10); ("127.0.0.0", 8); ("169.254.0.0", 16);
   ("172.16.0.0", 12); ("192.0.0.0", 24); ("192.0.2.0", 24); ("192.168.0.0", 16);
   ("198.18.0.0", 15); ("198.51.100.0", 24); ("203.0.113.0", 24); ("224.0.0.0", 4);
   ("240.0.0.0", 4); ("255.255.255.255", 32)].

(** [Number(part)] of decimal digits. *)
Definition dec_number (part : string) : Z := digits_prefix 10 part None ?? 0.

Fixpoint ipv4_octets (parts : list string) (value : Z) : option Z :=
  match parts with
  | [] => Some (value >>> 0)
  | part :: parts' =>
      if negb (upto_chars 3 dec_char part) then None else
      let octet := dec_number part in
      if 255 <? octet then None else ipv4_octets parts' ((value << 8) .|. octet)
  end.

Definition ipv4ToInt (ip : string) : option Z :=
  let parts := js_split "."%char ip in
  if negb (length parts =? 4)%nat then None else ipv4_octets parts 0.

Definition ipv4_mask (prefixLength : Z) : Z :=
  if prefixLength =? 0 then 0 else (js_bnot 0 << (32 - prefixLength)) >>> 0.

Definition ipv4IntInCidr (value : Z) (network : string) (prefixLength : Z) : bool :=
  match ipv4ToInt network with
  | None => false
  | Some base => let mask := ipv4_mask prefixLength in (value .&. mask) =? (base .&. mask)
  end.

Definition isBlockedIpv4 (ip : string) : bool :=
  match ipv4ToInt ip with
  | None => true
  | Some value => existsb (fun '(network, prefixLength) => ipv4IntInCidr value network prefixLength)
                    IPV4_BLOCKED_RANGES
  end.

Definition IPV6_BLOCKED_RANGES : list (string * Z) :=
  [("::1", 128); ("::", 128); ("fc00::", 7); ("fe80::", 10); ("ff00::", 8); ("2001:db8::", 32);
   ("64:ff9b::", 96)].

Definition FULL_128_MASK : Z := Z.shiftl 1 128 - 1.

Definition ipv6PrefixMask (prefixLength : Z) : Z :=
  if prefixLength <=? 0 then 0
  else if 128 <=? prefixLength then FULL_128_MASK
  else Z.land (Z.shiftl FULL_128_MASK (128 - prefixLength)) FULL_128_MASK.

(** A dotted-quad tail becomes two groups. *)
Definition rewrite_ipv4_tail (addr : string) : option string :=
  let '(before, tailCandidate) := last_segment ":"%char addr in
  if str_existsb (fun c => c === "."%char) tailCandidate then
    match ipv4ToInt tailCandidate with
    | None => None
    | Some v4 =>
        let hi := to_base 16 ((v4 >>> 16) .&. 65535) in
        let lo := to_base 16 (v4 .&. 65535) in
        Some (before +:+ hi +:+ ":" +:+ lo)
    end
  else Some addr.

Definition ipv6_parts (side : string) : list string :=
  if side === EmptyString then [] else js_split ":"%char side.

(** [null] for more than eight groups, or for fewer without [::]. *)
Definition ipv6_groups (addr : string) : option (list string) :=
  match index_of "::" addr with
  | None => let groups := js_split ":"%char addr in
            if negb (length groups =? 8)%nat then None else Some groups
  | Some firstDoubleColon =>
      match index_of "::" (str_drop (S firstDoubleColon) addr) with
      | Some _ => None
      | None =>
          let leftParts := ipv6_parts (str_take firstDoubleColon addr) in
          let rightParts := ipv6_parts (str_drop (firstDoubleColon + 2) addr) in
          let missing := 8 - (Z.of_nat (length leftParts) + Z.of_nat (length rightParts)) in
          if missing <? 0 then None
          else Some (leftParts ++ replicate (Z.to_nat missing) "0" ++ rightParts)
      end
  end.

Definition expandIpv6Groups (ip : string) : option (list string) :=
  let addr := match index_of "%" ip with Some percentIdx => str_take percentIdx ip | None => ip end in
  match rewrite_ipv4_tail addr with
  | None => None
  | Some addr =>
      match ipv6_groups addr with
      | None => None
      | Some groups =>
          if negb (length groups =? 8)%nat then None
          else if forallb (upto_chars 4 hex_char) groups then Some groups else None
      end
  end.

Definition ipv6_value (groups : list string) : Z :=
  foldl (fun value group => Z.lor (Z.shiftl value 16) (parseInt 16 group ?? 0)) 0 groups.

Definition ipv6ToBigInt (ip : string) : option Z := ipv6_value <$> expandIpv6Groups ip.

Definition ipv6InCidr (value : Z) (network : string) (prefixLength : Z) : bool :=
  match ipv6ToBigInt network with
  | None => false
  | Some base => let mask := ipv6PrefixMask prefixLength in Z.land value mask =? Z.land base mask
  end.

(** [[(v >>> 24) & 0xff, ..., v & 0xff].join('.')]. *)
Definition dotted_quad (v : Z) : string :=
  js_join "." (map (to_base 10)
    [(v >>> 24) .&. 255; (v >>> 16) .&. 255; (v >>> 8) .&. 255; v .&. 255]).

Definition bigIntToIpv4 (value : Z) : string := dotted_quad (Z.land value 4294967295).

(** [base !== null && (value & mask) === (base & mask)]. *)
Definition ipv6_embeds (value : Z) (network : string) (mask : Z) : bool :=
  match ipv6ToBigInt network with
  | Some base => Z.land value mask =? Z.land base mask
  | None => false
  end.

Definition isBlockedIpv6 (ip : string) : bool :=
  match ipv6ToBigInt ip with
  | None => true
  | Some value =>
      if existsb (fun '(network, prefixLength) => ipv6InCidr value network prefixLength)
           IPV6_BLOCKED_RANGES then true else
      let mask96 := ipv6PrefixMask 96 in
      if ipv6_embeds value "::ffff:0:0" mask96
      then isBlockedIpv4 (bigIntToIpv4 (Z.land value 4294967295))
      else if Z.land value mask96 =? 0
      then isBlockedIpv4 (bigIntToIpv4 (Z.land value 4294967295))
      else
      let mask16 := ipv6PrefixMask 16 in
      if ipv6_embeds value "2002::" mask16
      then isBlockedIpv4 (bigIntToIpv4 (Z.land (Z.shiftr value 80) 4294967295))
      else false
  end.

(** ** [isIP] of node:net *)

(** [25[0-5]|2[0-4]\d|1\d\d|[1-9]\d|\d]. *)
Definition v4_seg (s : string) : bool :=
  upto_chars 3 dec_char s && ((String.length s =? 1)%nat || negb (starts_with "0" s)) &&
  (dec_number s <=? 255).
Definition is_ipv4 (s : string) : bool :=
  let parts := js_split "."%char s in (length parts =? 4)%nat && forallb v4_seg parts.

Definition v6_seg : string -> bool := upto_chars 4 hex_char.
(** The groups of a list of segments, the last of which may be an IPv4 address. *)
Fixpoint v6_count (parts : list string) : option nat :=
  match parts with
  | [] => Some 0%nat
  | [s] => if v6_seg s then Some 1%nat else if is_ipv4 s then Some 2%nat else None
  | s :: parts' => if v6_seg s then S <$> v6_count parts' else None
  end.
Definition zone_char (c : ascii) : bool :=
  char_in 48 57 c || char_in 97 122 c || char_in 65 90 c ||
  includes c ["-"%char; "."%char; ":"%char].
Definition is_ipv6_body (s : string) : bool :=
  match index_of "::" s with
  | None => bool_decide (v6_count (js_split ":"%char s) = Some 8%nat)
  | Some i =>
      let left := ipv6_parts (str_take i s) in
      forallb v6_seg left &&
      match v6_count (ipv6_parts (str_drop (i + 2) s)) with
      | Some n => (length left + n <=? 7)%nat
      | None => false
      end
  end.
Definition is_ipv6 (s : string) : bool :=
  match index_of "%" s with
  | None => is_ipv6_body s
  | Some i => is_ipv6_body (str_take i s) && some_chars zone_char (str_drop (S i) s)
  end.

Definition isIP (s : string) : Z := if is_ipv4 s then 4 else if is_ipv6 s then 6 else 0.

(** ** Hostnames *)

Definition isBlockedIp (ip : string) : bool :=
  let family := isIP ip in
  if family =? 4 then isBlockedIpv4 ip else if family =? 6 then isBlockedIpv6 ip else true.

Definition BLOCKED_HOSTNAME_LITERALS : list string := ["localhost"; "localhost.localdomain"].

(** The smallest integer that rounds to Infinity. *)
Definition infinite_number : Z := 2 ^ 1024 - 2 ^ 970.

Definition parseNumericIpv4Segment (segment : string) : option Z :=
  if segment === EmptyString then None else
  let value :=
    if (starts_with "0x" segment || starts_with "0X" segment) && some_chars hex_char (str_drop 2 segment)
    then parseInt 16 (str_drop 2 segment)
    else if starts_with "0" segment && some_chars (char_in 48 55) (str_drop 1 segment)
    then parseInt 8 segment
    else if (segment === "0") || (some_chars dec_char segment && negb (starts_with "0" segment))
    then parseInt 10 segment
    else None in
  match value with
  | None => None
  | Some value => if (infinite_number <=? value) || (value <? 0) then None else Some value
  end.

Definition combine_segments (values : list Z) : option Z :=
  match values with
  | [a] => if 4294967295 <? a then None else Some (a >>> 0)
  | [a; b] => if (255 <? a) || (16777215 <? b) then None else Some (((a << 24) .|. b) >>> 0)
  | [a; b; c] => if (255 <? a) || (255 <? b) || (65535 <? c) then None
                 else Some (((a << 24) .|. (b << 16) .|. c) >>> 0)
  | [a; b; c; d] => if (255 <? a) || (255 <? b) || (255 <? c) || (255 <? d) then None
                    else Some (((a << 24) .|. (b << 16) .|. (c << 8) .|. d) >>> 0)
  | _ => None
  end.

Definition normalizeNumericIpv4Literal (hostname : string) : option string :=
  let segments := js_split "."%char hostname in
  if (length segments <? 1)%nat || (4 <? length segments)%nat then None else
  match mapM parseNumericIpv4Segment segments with
  | None => None
  | Some values => dotted_quad <$> combine_segments values
  end.

(** Trimmed, in lower case, without brackets and without the dot of a fully qualified
    name. *)
Definition normalize_host (hostname : string) : string :=
  let host := to_lower (js_trim hostname) in
  let host := if starts_with "[" host && ends_with "]" host then drop_last (str_drop 1 host) else host in
  if ends_with "." host && (1 <? String.length host)%nat then drop_last host else host.

Definition isBlockedHostnameLiteral (hostname : string) : bool :=
  let host := normalize_host hostname in
  if host === EmptyString then true else
  if includes host BLOCKED_HOSTNAME_LITERALS || ends_with ".localhost" host then true else
  if negb (isIP host =? 0) then isBlockedIp host else
  match normalizeNumericIpv4Literal host with
  | Some normalized => isBlockedIpv4 normalized
  | None => false
  end.

Example guard_examples :
  map isBlockedHostnameLiteral
    ["localhost."; "2130706433"; "017700000001"; "0x7f.0x0.0x0.0x1"; "0x7f.1"; "[::1]"; "::ffff:10.0.0.1";
     "2002:7f00:0001::"; "64:ff9b::8.8.8.8"; "fe80::1%eth0"; "8.8.8.8"; "dev.example"; "[2606:4700::1111]"] =
  [true; true; true; true; true; true; true; true; true; true; false; false; false].
Proof. vm_compute. reflexivity. Qed.
