(* ===== verification/IpRangeFacts.v ===== *)
(** * IpRangeFacts: what the SSRF guard blocks

    IPv4 addresses by octets, IPv6 addresses by intervals, and hostnames that spell
    an IPv4 address in other ways. *)

From S2P Require Import Prelude Int32 JsText IpRange.

(** ** IPv4 *)

Lemma ipv4_mask_value p : 0 <= p <= 32 -> ipv4_mask p = 2 ^ 32 - 2 ^ (32 - p).
Proof.
  intros Hp. assert (H : forallb (fun p => ipv4_mask p =? 2 ^ 32 - 2 ^ (32 - p)) (seqZ 0 33) = true)
    by (vm_compute; reflexivity).
  rewrite forallb_forall in H. apply Z.eqb_eq, H, list_elem_of_In, elem_of_seqZ. lia.
Qed.

(** A CIDR block is an interval. *)
Lemma in_cidr value network base p :
  ipv4ToInt network = Some base -> 0 <= value < 2 ^ 32 -> 0 <= base < 2 ^ 32 -> 0 <= p <= 32 ->
  ipv4IntInCidr value network p = true <->
  base / 2 ^ (32 - p) * 2 ^ (32 - p) <= value < base / 2 ^ (32 - p) * 2 ^ (32 - p) + 2 ^ (32 - p).
Proof.
  intros Hn Hv Hb Hp. unfold ipv4IntInCidr. rewrite Hn. cbv zeta.
  rewrite Z.eqb_eq, band_eq, ipv4_mask_value by lia.
  assert (0 < 2 ^ (32 - p) <= 2 ^ 32).
  { split; [apply Z.pow_pos_nonneg; lia | apply Z.pow_le_mono_r; lia]. }
  rewrite !(uint32_small value), !(uint32_small base), (uint32_small (2 ^ 32 - _)) by lia.
  rewrite !land_high, high_eq by lia. apply quot_eq_interval. lia.
Qed.

(** The addresses the IPv4 blocklist describes, by their octets. *)
Definition special_v4 (a b c d : Z) : Prop :=
  a = 0 \/ a = 10 \/ (a = 100 /\ 64 <= b <= 127) \/ a = 127 \/ (a = 169 /\ b = 254) \/
  (a = 172 /\ 16 <= b <= 31) \/ (a = 192 /\ b = 0 /\ (c = 0 \/ c = 2)) \/ (a = 192 /\ b = 168) \/
  (a = 198 /\ (b = 18 \/ b = 19)) \/ (a = 198 /\ b = 51 /\ c = 100) \/
  (a = 203 /\ b = 0 /\ c = 113) \/ 224 <= a.

Definition octet (x : Z) : Prop := 0 <= x <= 255.
Definition v4_number (a b c d : Z) : Z := a * 2 ^ 24 + b * 2 ^ 16 + c * 2 ^ 8 + d.

(** The first disjunct that [lia] proves. *)
Ltac pick_case := match goal with
  | |- _ \/ _ => first [solve [left; pick_case] | right; pick_case]
  | |- _ => lia
  end.

(** [lia] with the interval of every CIDR test in the goal. *)
Ltac cidr_intervals Hv :=
  repeat match goal with
  | |- context [ipv4IntInCidr ?v ?n ?p] =>
      let base := eval vm_compute in (ipv4ToInt n ?? 0) in
      let lo := eval vm_compute in (base / 2 ^ (32 - p) * 2 ^ (32 - p)) in
      let hi := eval vm_compute in (base / 2 ^ (32 - p) * 2 ^ (32 - p) + 2 ^ (32 - p)) in
      let H := fresh "Hcidr" in
      assert (H : ipv4IntInCidr v n p = true <-> lo <= v < hi)
        by (apply (in_cidr v n base p); [vm_compute; reflexivity | exact Hv | lia | lia]);
      rewrite H; clear H
  end.

Lemma blocked_number ip a b c d :
  ipv4ToInt ip = Some (v4_number a b c d) -> octet a -> octet b -> octet c -> octet d ->
  isBlockedIpv4 ip = true <-> special_v4 a b c d.
Proof.
  unfold octet. intros Hip Ha Hb Hc Hd. unfold isBlockedIpv4. rewrite Hip.
  set (v := v4_number a b c d). assert (Hv : 0 <= v < 2 ^ 32) by (unfold v, v4_number; lia).
  unfold IPV4_BLOCKED_RANGES. cbn [existsb]. rewrite orb_false_r, !orb_true_iff. cidr_intervals Hv.
  unfold v, v4_number, special_v4. clear v Hv Hip.
  change (2 ^ 24) with 16777216. change (2 ^ 16) with 65536. change (2 ^ 8) with 256.
  split; intros H; destruct_or! H; pick_case.
Qed.

(** ** Octets in text *)

Lemma octet_forall (P : Z -> bool) : forallb P (seqZ 0 256) = true -> forall x, octet x -> P x = true.
Proof.
  intros H x Hx. rewrite forallb_forall in H. apply H, list_elem_of_In, elem_of_seqZ. unfold octet in Hx. lia.
Qed.

Lemma octet_text x : octet x ->
  upto_chars 3 dec_char (to_base 10 x) = true /\ dec_number (to_base 10 x) = x.
Proof.
  intros Hx. pose proof (octet_forall
    (fun x => upto_chars 3 dec_char (to_base 10 x) && (dec_number (to_base 10 x) =? x))
    ltac:(vm_compute; reflexivity) x Hx) as H.
  by apply andb_true_iff in H as [H1 H2%Z.eqb_eq].
Qed.

Lemma octet_step x u o : to_uint32 x = u -> 0 <= u < 2 ^ 24 -> octet o ->
  to_uint32 ((x << 8) .|. o) = u * 256 + o.
Proof.
  unfold octet. intros Hx Hu Ho. rewrite uint32_bor, uint32_shl by lia. rewrite Hx.
  rewrite (uint32_small (u * 2 ^ 8)), (uint32_small o) by lia. apply (lor_add u o 8); lia.
Qed.

Lemma ipv4_octets_step part parts value o u :
  upto_chars 3 dec_char part = true -> dec_number part = o -> octet o ->
  to_uint32 value = u -> 0 <= u < 2 ^ 24 ->
  exists value', ipv4_octets (part :: parts) value = ipv4_octets parts value' /\
    to_uint32 value' = u * 256 + o.
Proof.
  intros Hp Hn Ho Hu Hb. exists ((value << 8) .|. o). split; [|by apply octet_step].
  cbn [ipv4_octets]. rewrite Hp, Hn. simpl negb. cbv zeta iota.
  unfold octet in Ho. by rewrite (proj2 (Z.ltb_ge _ _)) by lia.
Qed.

(** Four decimal segments are the number of their octets. *)
Lemma ipv4ToInt_segments s a b c d : octet a -> octet b -> octet c -> octet d ->
  js_split "."%char s = map (to_base 10) [a; b; c; d] -> ipv4ToInt s = Some (v4_number a b c d).
Proof.
  intros Ha Hb Hc Hd Hs. unfold ipv4ToInt. rewrite Hs. cbn [map length Nat.eqb negb]. cbv zeta iota.
  destruct (octet_text a Ha) as [Pa Na], (octet_text b Hb) as [Pb Nb], (octet_text c Hc) as [Pc Nc],
    (octet_text d Hd) as [Pd Nd].
  unfold octet in *.
  destruct (ipv4_octets_step _ (map (to_base 10) [b; c; d]) 0 a 0 Pa Na Ha) as (x1 & E1 & U1); [done|lia|].
  destruct (ipv4_octets_step _ (map (to_base 10) [c; d]) x1 b _ Pb Nb Hb U1) as (x2 & E2 & U2); [lia|].
  destruct (ipv4_octets_step _ (map (to_base 10) [d]) x2 c _ Pc Nc Hc U2) as (x3 & E3 & U3); [lia|].
  destruct (ipv4_octets_step _ [] x3 d _ Pd Nd Hd U3) as (x4 & E4 & U4); [lia|].
  cbn [map] in *. rewrite E1, E2, E3, E4. cbn [ipv4_octets]. rewrite ushr_0, U4. unfold v4_number.
  f_equal. lia.
Qed.

Lemma dec_free_of_dot x : 0 <= x -> free_of "."%char (to_base 10 x).
Proof.
  intros Hx. apply (all_chars_free_of dec_char); [done|].
  assert (H : some_chars dec_char (to_base 10 x) = true).
  { apply to_base_chars; [lia|done|]. intros k Hk. apply dec_char_digit. lia. }
  by apply andb_true_iff in H as [_ H].
Qed.

Lemma quad_octets v : 0 <= v < 2 ^ 32 -> exists a b c d,
  octet a /\ octet b /\ octet c /\ octet d /\ v = v4_number a b c d /\
  dotted_quad v = js_join "." (map (to_base 10) [a; b; c; d]).
Proof.
  intros Hv. exists (v / 2 ^ 24 mod 256), (v / 2 ^ 16 mod 256), (v / 2 ^ 8 mod 256), (v mod 256).
  assert (Ho : forall x, octet (x mod 256)) by (intros x; pose proof (Z.mod_pos_bound x 256); unfold octet; lia).
  do 4 (split; [apply Ho|]). split.
  - unfold v4_number. change (2 ^ 24) with (256 * (256 * 256)). change (2 ^ 16) with (256 * 256).
    change (2 ^ 8) with 256. change (2 ^ 32) with (256 * (256 * (256 * 256))) in Hv.
    rewrite <- !Z.div_div by lia.
    pose proof (Z.div_mod v 256). pose proof (Z.div_mod (v / 256) 256). pose proof (Z.div_mod (v / 256 / 256) 256).
    assert (0 <= v / 256 / 256 / 256 < 256).
    { split; [apply Z.div_pos; [apply Z.div_pos; [apply Z.div_pos|]|]; lia|].
      do 3 (apply Z.div_lt_upper_bound; [lia|]). lia. }
    rewrite (Z.mod_small (v / 256 / 256 / 256)) by lia. lia.
  - unfold dotted_quad. change 255 with (2 ^ 8 - 1). rewrite !band_low by lia.
    rewrite !ushr_div by lia. change (2 ^ 8) with 256. rewrite (uint32_small v) by lia.
    rewrite !uint32_small; [done| | |]; (split; [apply Z.div_pos; lia|apply Z.div_lt_upper_bound; lia]).
Qed.

Lemma split_quad a b c d : octet a -> octet b -> octet c -> octet d ->
  js_split "."%char (js_join "." (map (to_base 10) [a; b; c; d])) = map (to_base 10) [a; b; c; d].
Proof.
  unfold octet. intros Ha Hb Hc Hd. apply js_split_join; [done|].
  repeat constructor; apply dec_free_of_dot; lia.
Qed.

(** Parsing what the guard prints. *)
Lemma ipv4ToInt_quad v : 0 <= v < 2 ^ 32 -> ipv4ToInt (dotted_quad v) = Some v.
Proof.
  intros Hv. destruct (quad_octets v Hv) as (a & b & c & d & Ha & Hb & Hc & Hd & -> & ->).
  apply ipv4ToInt_segments; [done..|]. by apply split_quad.
Qed.

(** [special_v4] of a number. *)
Definition special_number (v : Z) : Prop :=
  exists a b c d, octet a /\ octet b /\ octet c /\ octet d /\ v = v4_number a b c d /\ special_v4 a b c d.

Lemma v4_number_inj a b c d a' b' c' d' :
  octet a -> octet b -> octet c -> octet d -> octet a' -> octet b' -> octet c' -> octet d' ->
  v4_number a b c d = v4_number a' b' c' d' -> a = a' /\ b = b' /\ c = c' /\ d = d'.
Proof. unfold octet, v4_number. lia. Qed.

Lemma blocked_quad v : 0 <= v < 2 ^ 32 -> isBlockedIpv4 (dotted_quad v) = true <-> special_number v.
Proof.
  intros Hv. pose proof (ipv4ToInt_quad v Hv) as Hi.
  destruct (quad_octets v Hv) as (a & b & c & d & Ha & Hb & Hc & Hd & E & _). subst v.
  rewrite (blocked_number _ _ _ _ _ Hi) by done. split.
  - intros H. by exists a, b, c, d.
  - intros (a' & b' & c' & d' & Ha' & Hb' & Hc' & Hd' & E & H).
    by destruct (v4_number_inj _ _ _ _ _ _ _ _ Ha Hb Hc Hd Ha' Hb' Hc' Hd' E) as (-> & -> & -> & ->).
Qed.

(** ** IPv6 *)

Lemma ipv6_mask_value p : 0 <= p <= 128 -> ipv6PrefixMask p = 2 ^ 128 - 2 ^ (128 - p).
Proof.
  intros Hp. assert (H : forallb (fun p => ipv6PrefixMask p =? 2 ^ 128 - 2 ^ (128 - p)) (seqZ 0 129) = true)
    by (vm_compute; reflexivity).
  rewrite forallb_forall in H. apply Z.eqb_eq, H, list_elem_of_In, elem_of_seqZ. lia.
Qed.

Lemma hex_value_bound s a : 0 <= a -> all_chars hex_char s = true ->
  exists r, digits_prefix 16 s (Some a) = Some r /\ 0 <= r < (a + 1) * 16 ^ Z.of_nat (String.length s).
Proof.
  revert a. induction s as [|c s IH]; intros a Ha Hs; [exists a; split; [done|]; simpl; lia|].
  simpl in Hs. apply andb_true_iff in Hs as [Hc Hs].
  assert (exists d, digit_val c = Some d /\ 0 <= d < 16) as (d & Hd & Hb).
  { unfold hex_char in Hc. rewrite !orb_true_iff, !char_in_true in Hc. unfold digit_val, char_in.
    repeat match goal with |- context [(?x <=? ?y)%N] => destruct (N.leb_spec x y) end;
      simpl; try (exfalso; lia); eexists; (split; [reflexivity|lia]). }
  cbn [digits_prefix]. rewrite Hd, (proj2 (Z.ltb_lt _ _)) by lia. simpl default.
  destruct (IH (16 * a + d)) as (r & Hr & Hrb); [lia|done|]. exists r. split; [done|].
  cbn [String.length]. rewrite Nat2Z.inj_succ, Z.pow_succ_r by lia.
  assert (0 < 16 ^ Z.of_nat (String.length s)) by (apply Z.pow_pos_nonneg; lia). nia.
Qed.

Lemma group_bound g : upto_chars 4 hex_char g = true -> 0 <= parseInt 16 g ?? 0 < 2 ^ 16.
Proof.
  intros [Hg Hl%Nat.leb_le]%andb_true_iff. rewrite (parseInt_digits _ _ Hg).
  apply andb_true_iff in Hg as [_ Hg]. destruct (hex_value_bound g 0 ltac:(lia) Hg) as (r & Hr & Hb).
  assert (16 ^ Z.of_nat (String.length g) <= 16 ^ 4) by (apply Z.pow_le_mono_r; lia).
  rewrite digits_prefix_0 in Hr. injection Hr as ->. change (2 ^ 16) with (16 ^ 4). lia.
Qed.

(** The value of the groups, as arithmetic. *)
Lemma ipv6_value_fold groups acc : 0 <= acc -> forallb (upto_chars 4 hex_char) groups = true ->
  let r := foldl (fun value group => Z.lor (Z.shiftl value 16) (parseInt 16 group ?? 0)) acc groups in
  0 <= r < (acc + 1) * 2 ^ (16 * Z.of_nat (length groups)) /\
  r = foldl (fun value group => value * 2 ^ 16 + (parseInt 16 group ?? 0)) acc groups.
Proof.
  cbv zeta. revert acc. induction groups as [|g groups IH]; intros acc Ha Hg; simpl; [split; [lia|done]|].
  simpl in Hg. apply andb_true_iff in Hg as [Hg Hgs]. pose proof (group_bound g Hg) as Hb.
  rewrite Z.shiftl_mul_pow2, (lor_add acc _ 16) by lia.
  destruct (IH (acc * 2 ^ 16 + (parseInt 16 g ?? 0)) ltac:(lia) Hgs) as [H1 H2]. split; [|exact H2].
  replace (16 * Z.of_nat (S (length groups))) with (16 + 16 * Z.of_nat (length groups)) by lia.
  rewrite Z.pow_add_r by lia. assert (0 < 2 ^ (16 * Z.of_nat (length groups))) by (apply Z.pow_pos_nonneg; lia).
  nia.
Qed.

Lemma ipv6_bound ip v : ipv6ToBigInt ip = Some v -> 0 <= v < 2 ^ 128.
Proof.
  unfold ipv6ToBigInt, expandIpv6Groups. intros H. apply fmap_Some in H as (groups & H & ->).
  destruct (rewrite_ipv4_tail _) as [addr|]; [|done]. destruct (ipv6_groups addr) as [gs|]; [|done].
  destruct (Nat.eqb_spec (length gs) 8) as [Hl|]; [|done]. simpl negb in H. cbv iota in H.
  destruct (forallb _ gs) eqn:Hg; [|done]. injection H as <-.
  destruct (ipv6_value_fold gs 0 ltac:(lia) Hg) as [Hb _]. rewrite Hl in Hb.
  unfold ipv6_value. exact Hb.
Qed.

Lemma same_prefix v base p :
  0 <= v < 2 ^ 128 -> 0 <= base < 2 ^ 128 -> 0 <= p <= 128 ->
  (Z.land v (ipv6PrefixMask p) =? Z.land base (ipv6PrefixMask p)) = true <->
  v / 2 ^ (128 - p) = base / 2 ^ (128 - p).
Proof. intros Hv Hb Hp. rewrite Z.eqb_eq, ipv6_mask_value, !land_high, high_eq by lia. done. Qed.

(** The prefixes of the IPv6 blocklist, and the IPv4 addresses inside. *)
Definition special_v6 (v : Z) : Prop :=
  v = 1 \/ v = 0 \/ v / 2 ^ 121 = 0x7e \/ v / 2 ^ 118 = 0x3fa \/ v / 2 ^ 120 = 0xff \/
  v / 2 ^ 96 = 0x20010db8 \/ v / 2 ^ 32 = 0x64ff9b0000000000000000.
Definition carries_v4 (v v4 : Z) : Prop :=
  (v / 2 ^ 32 = 0xffff /\ v4 = v mod 2 ^ 32) \/ (v / 2 ^ 32 = 0 /\ v4 = v mod 2 ^ 32) \/
  (v / 2 ^ 112 = 0x2002 /\ v4 = v / 2 ^ 80 mod 2 ^ 32).

Ltac cidr6_prefix Hv :=
  repeat match goal with
  | |- context [ipv6InCidr ?v ?n ?p] =>
      let base := eval vm_compute in (ipv6ToBigInt n ?? 0) in
      let k := eval vm_compute in (128 - p) in
      let q := eval vm_compute in (base / 2 ^ k) in
      let H := fresh "Hcidr" in
      assert (H : ipv6InCidr v n p = true <-> v / 2 ^ k = q)
        by (apply (same_prefix v base p); [exact Hv | lia | lia]);
      rewrite H; clear H
  end.

Lemma special_v6_ranges v : 0 <= v < 2 ^ 128 ->
  existsb (fun '(network, prefixLength) => ipv6InCidr v network prefixLength) IPV6_BLOCKED_RANGES = true <->
  special_v6 v.
Proof.
  intros Hv. unfold IPV6_BLOCKED_RANGES. cbn [existsb]. rewrite orb_false_r, !orb_true_iff.
  cidr6_prefix Hv. unfold special_v6. change (2 ^ 0) with 1. rewrite !Z.div_1_r.
  tauto.
Qed.

Lemma ipv6_embeds_prefix v network base p :
  ipv6ToBigInt network = Some base -> 0 <= v < 2 ^ 128 -> 0 <= p <= 128 ->
  ipv6_embeds v network (ipv6PrefixMask p) = true <-> v / 2 ^ (128 - p) = base / 2 ^ (128 - p).
Proof.
  intros Hn Hv Hp. unfold ipv6_embeds. rewrite Hn. apply same_prefix; [done| |done].
  by apply (ipv6_bound network).
Qed.

Lemma bigIntToIpv4_low v : 0 <= v -> bigIntToIpv4 (Z.land v 4294967295) = dotted_quad (v mod 2 ^ 32).
Proof.
  intros Hv. unfold bigIntToIpv4. change 4294967295 with (Z.ones 32).
  rewrite <- Z.land_assoc, Z.land_diag, Z.land_ones by lia. done.
Qed.

(** C36. An IPv6 literal is blocked exactly when it lies in one of the listed prefixes,
    or embeds (as an IPv4-mapped, IPv4-compatible or 6to4 address) an IPv4 address
    that is loopback, private, link-local, reserved or otherwise listed; a literal
    that does not parse is blocked. *)
Theorem isBlockedIpv6_spec ip :
  isBlockedIpv6 ip = true <->
  forall v, ipv6ToBigInt ip = Some v ->
    special_v6 v \/ exists v4, carries_v4 v v4 /\ special_number v4.
Proof.
  unfold isBlockedIpv6. destruct (ipv6ToBigInt ip) as [v|] eqn:Hip; [|split; [done|done]].
  pose proof (ipv6_bound _ _ Hip) as Hv. pose proof (special_v6_ranges v Hv) as Hs.
  transitivity (special_v6 v \/ exists v4, carries_v4 v v4 /\ special_number v4);
    [|split; [by intros H v' [= <-] | intros H; by apply H]].
  destruct (existsb _ _); [naive_solver|].
  assert (Hns : ~ special_v6 v) by (intros H; by apply Hs in H).
  pose proof (ipv6_embeds_prefix v "::ffff:0:0" 0xffff00000000 96 eq_refl Hv ltac:(lia)) as Hm.
  pose proof (ipv6_embeds_prefix v "2002::" (0x2002 * 2 ^ 112) 16 eq_refl Hv ltac:(lia)) as H6.
  pose proof (same_prefix v 0 96 Hv ltac:(lia) ltac:(lia)) as Hc. rewrite Z.land_0_l in Hc.
  change (0xffff00000000 / 2 ^ (128 - 96)) with 0xffff in Hm. change (0 / 2 ^ (128 - 96)) with 0 in Hc.
  change (0x2002 * 2 ^ 112 / 2 ^ (128 - 16)) with 0x2002 in H6.
  change (128 - 96) with 32 in *. change (128 - 16) with 112 in *.
  assert (H80 : v / 2 ^ 112 = v / 2 ^ 32 / 2 ^ 80) by (by rewrite Z.div_div by lia).
  assert (Hlow : 0 <= v mod 2 ^ 32 < 2 ^ 32) by (apply Z.mod_pos_bound; lia).
  unfold carries_v4. rewrite !bigIntToIpv4_low by (try apply Z.shiftr_nonneg; lia).
  rewrite Z.shiftr_div_pow2 by lia.
  destruct (ipv6_embeds v "::ffff:0:0" _).
  { rewrite blocked_quad by done. assert (v / 2 ^ 32 = 0xffff) as E by (by apply Hm). rewrite H80, E.
    split; [intros H; right; eexists; split; [by left|exact H]|].
    intros [?|(v4 & [[_ ->]|[[H0 _]|[H0 _]]] & H)]; [done|exact H|discriminate H0..]. }
  destruct (Z.land v _ =? 0).
  { rewrite blocked_quad by done. assert (v / 2 ^ 32 = 0) as E by (by apply Hc). rewrite H80, E.
    split; [intros H; right; eexists; split; [by right; left|exact H]|].
    intros [?|(v4 & [[H0 _]|[[_ ->]|[H0 _]]] & H)]; [done|discriminate H0|exact H|discriminate H0]. }
  assert (v / 2 ^ 32 <> 0xffff /\ v / 2 ^ 32 <> 0) as [Em Ec] by (split; intros E; [apply Hm in E | apply Hc in E]; done).
  destruct (ipv6_embeds v "2002::" _).
  - rewrite blocked_quad by (apply Z.mod_pos_bound; lia).
    assert (v / 2 ^ 112 = 0x2002) as E by (by apply H6).
    split; [intros H; right; eexists; split; [by right; right|exact H]|].
    by intros [?|(v4 & [[? _]|[[? _]|[_ ->]]] & Hn)].
  - assert (v / 2 ^ 112 <> 0x2002) by (intros E; by apply H6 in E).
    split; [done|]. by intros [?|(v4 & [[? _]|[[? _]|[? _]]] & Hn)].
Qed.
