(* ===== verification/IpHostname.v ===== *)
(** * IpHostname: hostnames that spell an IPv4 address

    The encodings of inet_aton, and what the guard does with them. *)

From S2P Require Import Prelude Int32 JsText IpRange IpRangeFacts.

(** How a segment may be written. *)
Inductive radix := Decimal | Octal | Hexadecimal.

Definition print_segment (s : radix * Z) : string :=
  match s.1 with
  | Decimal => to_base 10 s.2
  | Octal => "0" +:+ to_base 8 s.2
  | Hexadecimal => "0x" +:+ to_base 16 s.2
  end.

(** The number a list of segment values stands for: the last one fills the bits that
    the others leave. *)
Definition inet_aton (values : list Z) : option Z :=
  match values with
  | [a] => if a <? 2 ^ 32 then Some a else None
  | [a; b] => if (a <? 256) && (b <? 2 ^ 24) then Some (a * 2 ^ 24 + b) else None
  | [a; b; c] => if (a <? 256) && (b <? 256) && (c <? 2 ^ 16)
                 then Some (a * 2 ^ 24 + b * 2 ^ 16 + c) else None
  | [a; b; c; d] => if (a <? 256) && (b <? 256) && (c <? 256) && (d <? 256)
                    then Some (v4_number a b c d) else None
  | _ => None
  end.

(** The characters of such a spelling. *)
Definition spelling_char (c : ascii) : bool :=
  char_in 48 57 c || char_in 97 102 c || (c === "x"%char).

(** ** Segments *)

Lemma to_base_class f b n : 1 < b <= 36 -> 0 <= n -> (forall k, 0 <= k < b -> f (digit_char k) = true) ->
  to_base b n <> EmptyString /\ all_chars f (to_base b n) = true.
Proof.
  intros Hb Hn Hf. pose proof (to_base_chars f b n Hb Hn Hf) as [H1 H2]%andb_true_iff.
  split; [|done]. by apply negb_true_iff, bool_decide_eq_false in H1.
Qed.

Lemma spelling_segment r v : 0 <= v ->
  print_segment (r, v) <> EmptyString /\ all_chars spelling_char (print_segment (r, v)) = true.
Proof.
  intros Hv. destruct r; simpl.
  - apply to_base_class; [lia|done|]. intros k Hk. unfold spelling_char.
    by rewrite (dec_char_digit k Hk : char_in 48 57 _ = true).
  - split; [done|]. rewrite all_chars_app. apply to_base_class; [lia|done|]. intros k Hk. unfold spelling_char.
    by rewrite (dec_char_digit k ltac:(lia) : char_in 48 57 _ = true).
  - split; [done|]. rewrite all_chars_app. apply to_base_class; [lia|done|]. intros k Hk. unfold spelling_char.
    by rewrite (hex_char_digit k Hk).
Qed.

(** A first digit that is not zero. *)
Lemma first_digit_nonzero n : 0 < n -> starts_with "0" (to_base 10 n) = false.
Proof.
  intros Hn. destruct (to_base_shape 10 n ltac:(lia) ltac:(lia)) as (d & r & -> & Hd & Hp & _). simpl.
  rewrite bool_decide_eq_false_2; [done|]. intros E. specialize (Hp Hn).
  apply (f_equal N_of_ascii) in E. rewrite digit_char_code in E by lia. change (N_of_ascii "0") with 48%N in E.
  destruct (Z.ltb_spec d 10); lia.
Qed.

Lemma starts_0x s : starts_with "0" s = false -> starts_with "0x" s = false /\ starts_with "0X" s = false.
Proof. destruct s as [|c s]; simpl; [done|]. by destruct (bool_decide_reflect ("0"%char = c)). Qed.

Lemma octal_not_hex s : all_chars (char_in 48 55) s = true ->
  starts_with "0x" ("0" +:+ s) = false /\ starts_with "0X" ("0" +:+ s) = false.
Proof.
  destruct s as [|c s]; simpl; [done|]. intros [Hc%char_in_true _]%andb_true_iff.
  split; rewrite bool_decide_eq_false_2; try done; intros <-; simpl in Hc; lia.
Qed.

Lemma parse_segment r v : 0 <= v < infinite_number -> parseNumericIpv4Segment (print_segment (r, v)) = Some v.
Proof.
  intros [Hv Hi]. unfold parseNumericIpv4Segment.
  destruct (spelling_segment r v Hv) as [Hne _]. rewrite (bool_decide_eq_false_2 _ Hne). cbv zeta.
  match goal with |- context [match ?x with _ => _ end] => assert (x = Some v) as -> end;
    [|by rewrite (proj2 (Z.leb_gt _ _) Hi), (proj2 (Z.ltb_ge _ _) Hv)].
  destruct r; cbn [print_segment fst snd].
  - assert (Hd : some_chars dec_char (to_base 10 v) = true).
    { apply to_base_chars; [lia|done|]. intros k Hk. by apply dec_char_digit. }
    assert (Hp : parseInt 10 (to_base 10 v) = Some v).
    { rewrite parseInt_digits; [by apply to_base_value; lia|].
      apply andb_true_iff in Hd as [H1 H2]. apply andb_true_iff. split; [done|].
      by apply (all_chars_mono dec_char); [apply dec_hex_char|]. }
    destruct (Z.eq_dec v 0) as [->|Hnz]; [done|].
    pose proof (first_digit_nonzero v ltac:(lia)) as H0. destruct (starts_0x _ H0) as [Hx HX].
    rewrite Hx, HX, H0, Hd, Hp. simpl andb. by rewrite orb_true_r.
  - assert (Ho : some_chars (char_in 48 55) (to_base 8 v) = true).
    { apply to_base_chars; [lia|done|]. intros k Hk. by apply oct_char_digit. }
    destruct (octal_not_hex (to_base 8 v)) as [Hx HX]; [by apply andb_true_iff in Ho as [_ Ho]|].
    rewrite Hx, HX. change (str_drop 1 ("0" +:+ to_base 8 v)) with (to_base 8 v). rewrite Ho.
    rewrite starts_with_refl_app. simpl andb. cbv iota. rewrite parseInt_digits.
    + change (digits_prefix 8 ("0" +:+ to_base 8 v) None) with (digits_prefix 8 (to_base 8 v) (Some 0)).
      rewrite digits_prefix_0, to_base_value by lia. done.
    + apply andb_true_iff in Ho as [_ Ho]. unfold some_chars. rewrite all_chars_app, bool_decide_eq_false_2 by done.
      rewrite (all_chars_mono (char_in 48 55) hex_char (to_base 8 v)); [done| |done].
      intros c Hc%char_in_true. unfold hex_char. rewrite !orb_true_iff, !char_in_true. lia.
  - assert (Hh : some_chars hex_char (to_base 16 v) = true).
    { apply to_base_chars; [lia|done|]. intros k Hk. unfold hex_char. by rewrite (hex_char_digit k Hk). }
    rewrite starts_with_refl_app. change (str_drop 2 ("0x" +:+ to_base 16 v)) with (to_base 16 v).
    rewrite Hh. simpl. rewrite (parseInt_digits _ _ Hh). apply to_base_value; lia.
Qed.

(** ** Combination *)

(** One more part below the bits that are set. *)
Lemma bor_shl x u a k :
  to_uint32 x = u * 2 ^ (k + 8) -> 0 <= k -> k + 8 < 32 -> 0 <= a < 256 -> 0 <= u < 2 ^ (24 - k) ->
  to_uint32 (x .|. (a << k)) = (u * 256 + a) * 2 ^ k.
Proof.
  intros Hx Hk Hk8 Ha Hu. rewrite uint32_bor, uint32_shl, Hx, (uint32_small a) by lia.
  assert (2 ^ (k + 8) = 256 * 2 ^ k) as E by (rewrite Z.pow_add_r by lia; lia).
  assert (2 ^ (k + 8) < 2 ^ 32) by (apply Z.pow_lt_mono_r; lia).
  assert (0 < 2 ^ k) by (apply Z.pow_pos_nonneg; lia).
  rewrite (uint32_small (a * 2 ^ k)) by nia. rewrite lor_add by (try rewrite E; nia). rewrite E. lia.
Qed.

Lemma bor_low x u b k :
  to_uint32 x = u * 2 ^ k -> 0 <= k < 32 -> 0 <= b < 2 ^ k -> to_uint32 (x .|. b) = u * 2 ^ k + b.
Proof.
  intros Hx Hk Hb. assert (2 ^ k < 2 ^ 32) by (apply Z.pow_lt_mono_r; lia).
  rewrite uint32_bor, Hx, (uint32_small b) by lia. apply lor_add; lia.
Qed.

Lemma shl_top a : 0 <= a < 256 -> to_uint32 (a << 24) = a * 2 ^ 24.
Proof. intros Ha. rewrite uint32_shl, (uint32_small a) by lia. apply uint32_small. lia. Qed.

Ltac leave_bounds := repeat (rewrite (proj2 (Z.ltb_ge _ _)) by lia); cbn [orb].

Lemma combine_inet_aton values v :
  Forall (fun x => 0 <= x) values -> inet_aton values = Some v ->
  combine_segments values = Some v /\ 0 <= v < 2 ^ 32.
Proof.
  intros Hv H.
  destruct values as [|a [|b [|c [|d [|e values]]]]]; cbn [inet_aton] in H; try done;
    rewrite !Forall_cons in Hv; cbn [combine_segments].
  - destruct (Z.ltb_spec a (2 ^ 32)); [|done]. injection H as <-. leave_bounds.
    rewrite ushr_0, uint32_small by lia. split; [done|lia].
  - destruct (Z.ltb_spec a 256), (Z.ltb_spec b (2 ^ 24)); try done. injection H as <-. leave_bounds.
    rewrite ushr_0, (bor_low _ a b 24); [split; [done|]; lia | apply shl_top; lia | lia | lia].
  - destruct (Z.ltb_spec a 256), (Z.ltb_spec b 256), (Z.ltb_spec c (2 ^ 16)); try done. injection H as <-.
    leave_bounds. rewrite ushr_0, (bor_low _ (a * 256 + b) c 16); [| |lia|lia].
    + split; [f_equal; lia | lia].
    + apply (bor_shl _ a b 16); [by apply shl_top; lia|lia..].
  - destruct (Z.ltb_spec a 256), (Z.ltb_spec b 256), (Z.ltb_spec c 256), (Z.ltb_spec d 256); try done.
    injection H as <-. leave_bounds. rewrite ushr_0, (bor_low _ ((a * 256 + b) * 256 + c) d 8); [| |lia|lia].
    + unfold v4_number. split; [f_equal; lia | lia].
    + apply (bor_shl _ (a * 256 + b) c 8); [|lia..]. apply (bor_shl _ a b 16); [by apply shl_top; lia|lia..].
Qed.

Lemma inet_aton_small values v : inet_aton values = Some v -> Forall (fun x => x < 2 ^ 32) values.
Proof.
  destruct values as [|a [|b [|c [|d [|e values]]]]]; cbn [inet_aton]; try done;
    (match goal with |- context [if ?b then _ else _] => destruct b eqn:Hb end; [|done]);
    rewrite ?andb_true_iff, ?Z.ltb_lt in Hb; intros _; repeat (constructor; [lia|]); constructor.
Qed.

(** ** Whole hostnames *)

Lemma starts_with_chars f p s : all_chars f s = true -> starts_with p s = true -> all_chars f p = true.
Proof.
  intros Hs [t ->]%starts_with_true. rewrite all_chars_app in Hs. by apply andb_true_iff in Hs as [H _].
Qed.

Lemma ends_with_chars f p s : all_chars f s = true -> ends_with p s = true -> all_chars f p = true.
Proof.
  intros Hs [t ->]%ends_with_true. rewrite all_chars_app in Hs. by apply andb_true_iff in Hs as [_ H].
Qed.

Lemma split_aux_trailing sep t acc :
  js_split_aux sep (t +:+ String sep EmptyString) acc = js_split_aux sep t acc ++ [EmptyString].
Proof.
  revert acc. induction t as [|c t IH]; intros acc.
  - simpl. by rewrite bool_decide_eq_true_2.
  - rewrite str_app_cons. cbn [js_split_aux]. by case_bool_decide; rewrite IH.
Qed.

Lemma index_of_absent c p s : free_of c s -> index_of (String c p) s = None.
Proof.
  unfold free_of. induction s as [|d s IH]; simpl; [done|]. rewrite orb_false_iff, bool_decide_eq_false.
  intros [Hd Hs]. rewrite bool_decide_eq_false_2 by done. by rewrite (IH Hs).
Qed.

(** Text made of segments and dots, none of them empty. *)
Definition host_char (c : ascii) : bool := spelling_char c || (c === "."%char).

Lemma join_chars l :
  Forall (fun s => all_chars spelling_char s = true) l -> all_chars host_char (js_join "." l) = true.
Proof.
  assert (Hm : forall s, all_chars spelling_char s = true -> all_chars host_char s = true).
  { intros s. apply all_chars_mono. unfold host_char. by intros c ->. }
  induction 1 as [|s l Hs Hl IH]; [done|]. destruct l as [|s' l]; [by apply Hm|].
  change (js_join "." (s :: s' :: l)) with (s +:+ "." +:+ js_join "." (s' :: l)).
  by rewrite !all_chars_app, (Hm s Hs), IH.
Qed.

Section Spelling.
Variable segments : list (radix * Z).
Hypothesis Hpos : Forall (fun x => 0 <= x) (map snd segments).
Hypothesis Hne : segments <> [].
Let texts := map print_segment segments.
Let host := js_join "." texts.

Lemma texts_shape : Forall (fun s => s <> EmptyString /\ all_chars spelling_char s = true) texts.
Proof.
  apply Forall_forall. intros s Hs. apply list_elem_of_fmap in Hs as ([r v] & -> & Hin).
  apply spelling_segment. rewrite Forall_forall in Hpos. apply Hpos. by apply (list_elem_of_fmap_2 snd _ (r, v)).
Qed.

Lemma texts_free c : spelling_char c = false -> Forall (free_of c) texts.
Proof.
  intros Hc. eapply Forall_impl; [apply texts_shape|]. intros s [_ Hs]. by apply (all_chars_free_of spelling_char).
Qed.

Lemma host_chars : all_chars host_char host = true.
Proof. apply join_chars. eapply Forall_impl; [apply texts_shape|]. by intros s [_ H]. Qed.

Lemma host_split : js_split "."%char host = texts.
Proof. apply js_split_join; [by destruct segments | by apply texts_free]. Qed.

Lemma host_nonempty : host <> EmptyString.
Proof.
  intros E. pose proof host_split as Hs. rewrite E in Hs. pose proof texts_shape as Ht. rewrite <- Hs in Ht.
  simpl in Ht. by apply Forall_cons in Ht as [[H _] _].
Qed.

Lemma host_no_dot : ends_with "." host = false.
Proof.
  apply not_true_is_false. intros [t E]%ends_with_true. pose proof host_split as Hs.
  rewrite E in Hs. unfold js_split in Hs. rewrite split_aux_trailing in Hs.
  pose proof texts_shape as Ht. rewrite <- Hs in Ht. apply Forall_app in Ht as [_ Ht].
  by apply Forall_cons in Ht as [[H _] _].
Qed.

Lemma host_free c : host_char c = false -> free_of c host.
Proof. intros Hc. apply (all_chars_free_of host_char); [done|apply host_chars]. Qed.

Lemma host_not_ipv6 : is_ipv6 host = false.
Proof.
  unfold is_ipv6, is_ipv6_body. rewrite (index_of_absent "%"%char "" host) by (by apply host_free).
  rewrite (index_of_absent ":"%char ":" host) by (by apply host_free).
  assert (js_split ":"%char host = [host]) as ->.
  { apply (js_split_join ":"%char [host]); [done|]. constructor; [by apply host_free|constructor]. }
  simpl. by destruct (v6_seg host), (is_ipv4 host).
Qed.

(** A dotted quad with no leading zero is four decimal segments. *)
Lemma seg_decimal r x : 0 <= x -> v4_seg (print_segment (r, x)) = true -> r = Decimal /\ octet x.
Proof.
  unfold v4_seg. intros Hx [[Hu Hz]%andb_true_iff Hn%Z.leb_le]%andb_true_iff. destruct r; cbn [print_segment fst snd] in *.
  - split; [done|]. unfold dec_number in Hn. rewrite to_base_value in Hn by lia. unfold octet. simpl in Hn. lia.
  - destruct (to_base_shape 8 x ltac:(lia) Hx) as (d & r & E & _). rewrite E in Hz. done.
  - unfold upto_chars, some_chars in Hu. rewrite all_chars_app in Hu. simpl in Hu. done.
Qed.

Lemma host_ipv4 v : inet_aton (map snd segments) = Some v -> is_ipv4 host = true -> ipv4ToInt host = Some v.
Proof.
  unfold is_ipv4. rewrite host_split. unfold texts. rewrite map_length. intros Hv [Hl%Nat.eqb_eq Hs]%andb_true_iff.
  pose proof host_split as Hsp. unfold texts in Hsp. clear Hne. revert Hpos Hv Hs Hsp.
  destruct segments as [|[r1 a] [|[r2 b] [|[r3 c] [|[r4 d] [|]]]]]; try done.
  cbn [map snd forallb]. rewrite !Forall_cons, !andb_true_iff. intros (Ha & Hb & Hc & Hd & _) Hv (S1 & S2 & S3 & S4 & _) Hsp.
  apply seg_decimal in S1 as [-> Oa], S2 as [-> Ob], S3 as [-> Oc], S4 as [-> Od]; try done.
  rewrite (ipv4ToInt_segments _ a b c d) by done. unfold inet_aton in Hv. unfold octet in *.
  rewrite !(proj2 (Z.ltb_lt _ 256)) in Hv by lia. exact Hv.
Qed.

Lemma host_normalized v : inet_aton (map snd segments) = Some v ->
  normalizeNumericIpv4Literal host = Some (dotted_quad v) /\ 0 <= v < 2 ^ 32.
Proof.
  intros Hv. destruct (combine_inet_aton _ _ Hpos Hv) as [Hc Hb]. split; [|done].
  unfold normalizeNumericIpv4Literal. rewrite host_split. cbv zeta.
  assert (Hl : (1 <= length texts <= 4)%nat).
  { unfold texts. rewrite map_length. clear -Hv.
    destruct segments as [|? [|? [|? [|? [|? ?]]]]]; simpl in *; try done; lia. }
  rewrite (proj2 (Nat.ltb_ge _ _)), (proj2 (Nat.ltb_ge _ _)) by lia. simpl orb. cbv iota.
  assert (mapM parseNumericIpv4Segment texts = Some (map snd segments)) as ->; [|by rewrite Hc].
  assert (Hsmall : Forall (fun x => x < infinite_number) (map snd segments)).
  { eapply Forall_impl; [by apply (inet_aton_small _ v)|]. intros x Hx.
    apply (Z.lt_trans _ _ _ Hx). by vm_compute. }
  apply mapM_Some. unfold texts. clear -Hpos Hsmall. induction segments as [|[r x] l IH]; simpl in *; [done|].
  apply Forall_cons in Hpos as [H1 H2]. apply Forall_cons in Hsmall as [H3 H4]. constructor; [|by apply IH].
  by apply parse_segment.
Qed.
End Spelling.

(** Nothing to normalize. *)
Lemma normalize_plain host :
  all_chars host_char host = true -> ends_with "." host = false -> normalize_host host = host.
Proof.
  intros Hch Hd. unfold normalize_host. rewrite (js_trim_all host).
  2: { apply (all_chars_mono host_char); [|done]. intros c.
       unfold host_char, spelling_char, is_space. rewrite !orb_true_iff, !char_in_true, !bool_decide_eq_true.
       intros Hc. apply negb_true_iff, not_true_is_false. rewrite !orb_true_iff, andb_true_iff, !N.leb_le, !N.eqb_eq.
       destruct_or! Hc; subst; simpl; lia. }
  rewrite (to_lower_all host).
  2: { apply (all_chars_mono host_char); [|done]. intros c.
       unfold host_char, spelling_char. rewrite !orb_true_iff, !char_in_true, !bool_decide_eq_true.
       intros Hc. apply negb_true_iff, not_true_is_false. rewrite char_in_true. destruct_or! Hc; subst; simpl; lia. }
  assert (starts_with "[" host = false) as ->
    by (apply not_true_is_false; intros H; by apply (starts_with_chars _ _ _ Hch) in H).
  cbn [andb]. by rewrite Hd.
Qed.

(** Spelling an IPv4 address differently does not get it past the guard: written
    as one to four numbers, each in decimal, octal or hexadecimal, a hostname is
    blocked exactly when the dotted address it denotes is loopback, private,
    link-local, reserved or otherwise listed. *)
Theorem numeric_hostname_spec segments v :
  Forall (fun x => 0 <= x) (map snd segments) -> inet_aton (map snd segments) = Some v ->
  isBlockedHostnameLiteral (js_join "." (map print_segment segments)) = true <-> special_number v.
Proof.
  intros Hpos Hv. assert (Hne : segments <> []) by (by intros ->).
  destruct (host_normalized _ Hpos Hne v Hv) as [Hn Hb]. rewrite <- (blocked_quad v Hb).
  pose proof (host_chars _ Hpos) as Hch. set (host := js_join "." _) in *.
  pose proof (host_no_dot _ Hpos Hne) as Hd. fold host in Hd.
  unfold isBlockedHostnameLiteral. rewrite (normalize_plain host Hch Hd). cbv zeta.
  rewrite bool_decide_eq_false_2 by (by apply host_nonempty).
  assert (ends_with ".localhost" host = false) as ->
    by (apply not_true_is_false; intros H; by apply (ends_with_chars _ _ _ Hch) in H).
  assert (includes host BLOCKED_HOSTNAME_LITERALS = false) as ->.
  { apply includes_false. unfold BLOCKED_HOSTNAME_LITERALS. rewrite !not_elem_of_cons.
    repeat split; [intros E; by rewrite E in Hch|intros E; by rewrite E in Hch|apply not_elem_of_nil]. }
  simpl orb. cbv iota. unfold isIP. pose proof (host_not_ipv6 _ Hpos) as H6. fold host in H6. rewrite H6.
  destruct (is_ipv4 host) eqn:H4.
  - simpl negb. cbv iota. unfold isBlockedIp, isIP. rewrite H4. simpl.
    pose proof (host_ipv4 _ Hpos Hne v Hv H4) as Hi. fold host in Hi.
    unfold isBlockedIpv4. rewrite Hi, ipv4ToInt_quad by done. done.
  - simpl negb. cbv iota. by rewrite Hn.
Qed.

Example numeric_hostname_spec_witness :
  isBlockedHostnameLiteral "0x7f.1" = true <-> special_number 2130706433.
Proof.
  apply (numeric_hostname_spec [(Hexadecimal, 127); (Decimal, 1)] 2130706433); [|reflexivity].
  do 2 (constructor; [simpl; lia|]). constructor.
Defined.
