(* ===== verification/Cidr.v ===== *)
(** * Cidr: address ranges in configuration
      (src/src/common/utils/proxy-ip.util.ts, src/src/service-accounts/api-key.guard.ts)

    Two of the program's IPv4 range tests, the contract [CidrTest] they share with
    the third (policy-engine.ts, in [PolicyEngine]), and the resolution of a client's
    address behind trusted proxies.  The module caches the parsed TRUSTED_PROXIES,
    which never changes: the model parses it on each use. *)

From S2P Require Import Prelude Int32 JsText IpRange IpRangeFacts IpHostname.

(** ** The contract: a dotted quad is in [base/p] when its first [p] bits are those of [base] *)

Definition cidr_text (base p : Z) : string := dotted_quad base +:+ "/" +:+ to_base 10 p.

Class CidrTest (matches : string -> string -> bool) : Prop :=
  cidr_prefix : forall v base p, 0 <= v < 2 ^ 32 -> 0 <= base < 2 ^ 32 -> 0 <= p <= 32 ->
    matches (dotted_quad v) (cidr_text base p) = true <-> v / 2 ^ (32 - p) = base / 2 ^ (32 - p).

(** ** Trusted proxies (proxy-ip.util.ts) *)

Fixpoint cidr_octets (parts : list string) (base : Z) : option Z :=
  match parts with
  | [] => Some base
  | part :: parts =>
      match parseInt 10 part with
      | None => None
      | Some octet =>
          if (octet <? 0) || (255 <? octet) then None else cidr_octets parts ((base << 8) .|. octet)
      end
  end.

(** The base address and the mask. *)
Definition parseCidr (cidr : string) : option (Z * Z) :=
  match js_split "/"%char cidr with
  | [] => None
  | addr :: rest =>
      let parts := js_split "."%char addr in
      if negb (length parts =? 4)%nat then None else
      match cidr_octets parts 0 with
      | None => None
      | Some base =>
          let base := base >>> 0 in
          match match rest with prefix :: _ => parseInt 10 prefix | [] => Some 32 end with
          | None => None
          | Some prefixLen =>
              if (prefixLen <? 0) || (32 <? prefixLen) then None else
              let mask := if prefixLen =? 0 then 0 else (js_bnot 0 << (32 - prefixLen)) >>> 0 in
              Some (base .&. mask, mask)
          end
      end
  end.

Definition ipInCidr (ip cidr : string) : bool :=
  match parseCidr cidr, parseCidr ip with
  | Some (rbase, rmask), Some (hbase, _) => (hbase .&. rmask) =? rbase
  | _, _ => false
  end.

Inductive TrustedProxyConfig := TrustNone | TrustAll | TrustList (entries : list string).

Definition parseTrustedProxies (raw : option string) : TrustedProxyConfig :=
  match raw with
  | None => TrustNone
  | Some raw =>
      if (raw === EmptyString) || (js_trim raw === EmptyString) then TrustNone
      else if js_trim raw === "*" then TrustAll
      else TrustList (List.filter (fun s => s !== EmptyString) (map js_trim (js_split ","%char raw)))
  end.

(** The peer's address, the X-Forwarded-For header and TRUSTED_PROXIES. *)
Definition resolveClientIp (remoteAddress xff trustedProxies : option string) : string :=
  let socketIp := remoteAddress ?? "unknown" in
  let config := parseTrustedProxies trustedProxies in
  match config with
  | TrustNone => socketIp
  | _ =>
      if negb (truthy xff) then socketIp else
      let proxyTrusted := match config with
                          | TrustList entries => existsb (ipInCidr socketIp) entries
                          | _ => true
                          end in
      if negb proxyTrusted then socketIp else
      let clientIp := js_trim (hd EmptyString (js_split ","%char (xff ?? EmptyString))) in
      if clientIp === EmptyString then socketIp else clientIp
  end.

(** ** Allowed ranges of an API key (api-key.guard.ts) *)

(** [s.split('.').map((p) => parseInt(p, 10))]. *)
Definition int_parts (s : string) : list (option Z) := map (parseInt 10) (js_split "."%char s).

(** Some octet is NaN, negative or above 255. *)
Definition bad_octet (part : option Z) : bool :=
  match part with None => true | Some part => (part <? 0) || (255 <? part) end.

Definition pack_octets (parts : list (option Z)) : option Z :=
  match parts with
  | [Some a; Some b; Some c; Some d] => Some ((a << 24) .|. (b << 16) .|. (c << 8) .|. d)
  | _ => None
  end.

Definition ipMatchesRange (ip range : string) : bool :=
  if negb (str_existsb (fun c => c === "/"%char) range) then ip === range else
  match js_split "/"%char range with
  | addr :: prefixLenStr :: _ =>
      match parseInt 10 prefixLenStr with
      | None => false
      | Some prefixLen =>
          if (addr === EmptyString) || (prefixLen <? 0) || (32 <? prefixLen) then false else
          let ipParts := int_parts ip in
          let rangeParts := int_parts addr in
          if negb (length ipParts =? 4)%nat || negb (length rangeParts =? 4)%nat then false else
          if existsb bad_octet (ipParts ++ rangeParts) then false else
          match pack_octets ipParts, pack_octets rangeParts with
          | Some ipNum, Some rangeNum =>
              let mask := if prefixLen =? 0 then 0 else (js_bnot 0 << (32 - prefixLen)) >>> 0 in
              (ipNum .&. mask) =? (rangeNum .&. mask)
          | _, _ => false
          end
      end
  | _ => false
  end.

(** ** Numbers and quads in text *)

Lemma parseInt_to_base x : 0 <= x -> parseInt 10 (to_base 10 x) = Some x.
Proof.
  intros Hx. rewrite parseInt_digits; [apply to_base_value; lia|].
  apply to_base_chars; [lia|done|]. intros k Hk. apply dec_hex_char, dec_char_digit. lia.
Qed.

Lemma dec_text_free sep x : 0 <= x -> dec_char sep = false -> free_of sep (to_base 10 x).
Proof.
  intros Hx Hs. apply (all_chars_free_of dec_char); [done|].
  assert (H : some_chars dec_char (to_base 10 x) = true).
  { apply to_base_chars; [lia|done|]. intros k Hk. apply dec_char_digit. lia. }
  by apply andb_true_iff in H as [_ H].
Qed.

Lemma free_of_app c s t : free_of c s -> free_of c t -> free_of c (s +:+ t).
Proof. unfold free_of. intros Hs Ht. induction s as [|x s IH]; simpl in *; [done|]. apply orb_false_iff in Hs as [-> Hs]. by apply IH. Qed.

Lemma quad_free_of_slash v : 0 <= v < 2 ^ 32 -> free_of "/"%char (dotted_quad v).
Proof.
  intros Hv. destruct (quad_octets v Hv) as (a & b & c & d & Ha & Hb & Hc & Hd & _ & ->). unfold octet in *.
  cbn [map js_join]. repeat apply free_of_app; try done; apply dec_text_free; (lia || done).
Qed.

Lemma split_cidr base p : 0 <= base < 2 ^ 32 -> 0 <= p ->
  js_split "/"%char (cidr_text base p) = [dotted_quad base; to_base 10 p].
Proof.
  intros Hb Hp. unfold cidr_text. change (dotted_quad base +:+ "/" +:+ to_base 10 p)
    with (js_join "/" [dotted_quad base; to_base 10 p]).
  apply js_split_join; [done|]. constructor; [by apply quad_free_of_slash|].
  constructor; [by apply dec_text_free|constructor].
Qed.

Lemma split_single v : 0 <= v < 2 ^ 32 -> js_split "/"%char (dotted_quad v) = [dotted_quad v].
Proof.
  intros Hv. change (js_split "/"%char (js_join "/" [dotted_quad v]) = [dotted_quad v]).
  apply js_split_join; [done|]. constructor; [by apply quad_free_of_slash|constructor].
Qed.

Lemma quad_parts v : 0 <= v < 2 ^ 32 -> exists a b c d,
  octet a /\ octet b /\ octet c /\ octet d /\ v = v4_number a b c d /\
  js_split "."%char (dotted_quad v) = map (to_base 10) [a; b; c; d].
Proof.
  intros Hv. destruct (quad_octets v Hv) as (a & b & c & d & Ha & Hb & Hc & Hd & -> & ->).
  exists a, b, c, d. do 5 (split; [done|]). by apply split_quad.
Qed.

(** ** Masks *)

(** Two numbers that agree under a mask of [p] leading ones have the same prefix. *)
Lemma mask_prefix x y v base p :
  to_uint32 x = v -> to_uint32 y = base -> 0 <= p <= 32 ->
  (x .&. ipv4_mask p =? y .&. ipv4_mask p) = true <-> v / 2 ^ (32 - p) = base / 2 ^ (32 - p).
Proof.
  intros Hx Hy Hp. pose proof (uint32_bound x). pose proof (uint32_bound y).
  assert (0 < 2 ^ (32 - p) <= 2 ^ 32).
  { split; [apply Z.pow_pos_nonneg; lia | apply Z.pow_le_mono_r; lia]. }
  rewrite Z.eqb_eq, band_eq, ipv4_mask_value, Hx, Hy, (uint32_small (2 ^ 32 - _)) by lia.
  rewrite !land_high by lia. apply high_eq. lia.
Qed.

Lemma octets_number a b c d : octet a -> octet b -> octet c -> octet d ->
  to_uint32 ((a << 24) .|. (b << 16) .|. (c << 8) .|. d) = v4_number a b c d.
Proof.
  unfold octet, v4_number. intros Ha Hb Hc Hd.
  rewrite (bor_low _ ((a * 256 + b) * 256 + c) d 8); [lia| |lia|lia].
  apply (bor_shl _ (a * 256 + b) c 8); [|lia..]. apply (bor_shl _ a b 16); [by apply shl_top; lia|lia..].
Qed.

Lemma cidr_octets_quad a b c d : octet a -> octet b -> octet c -> octet d ->
  exists x, cidr_octets (map (to_base 10) [a; b; c; d]) 0 = Some x /\ to_uint32 x = v4_number a b c d.
Proof.
  unfold v4_number. intros Ha Hb Hc Hd. cbn [map cidr_octets].
  rewrite !parseInt_to_base by (unfold octet in *; lia).
  rewrite !(proj2 (orb_false_iff _ _)) by (unfold octet in *; split; apply Z.ltb_ge; lia).
  eexists. split; [done|].
  rewrite (octet_step _ (a * 65536 + b * 256 + c) d); [lia| |unfold octet in *; lia|done].
  rewrite (octet_step _ (a * 256 + b) c); [lia| |unfold octet in *; lia|done].
  rewrite (octet_step _ a b); [lia| |unfold octet in *; lia|done].
  rewrite (octet_step _ 0 a); [lia|done|lia|done].
Qed.

(** ** The instances *)

Lemma parseCidr_quad v (rest : list string) : 0 <= v < 2 ^ 32 -> exists x,
  to_uint32 x = v /\
  forall s, js_split "/"%char s = dotted_quad v :: rest ->
    parseCidr s = match match rest with prefix :: _ => parseInt 10 prefix | [] => Some 32 end with
                  | None => None
                  | Some p => if (p <? 0) || (32 <? p) then None
                              else Some (x .&. ipv4_mask p, ipv4_mask p)
                  end.
Proof.
  intros Hv. destruct (quad_parts v Hv) as (a & b & c & d & Ha & Hb & Hc & Hd & -> & Hs).
  destruct (cidr_octets_quad a b c d Ha Hb Hc Hd) as (x & Hx & Hu).
  exists (x >>> 0). split; [by rewrite ushr_0, uint32_small by (rewrite Hu; lia)|].
  intros s Hsplit. unfold parseCidr. rewrite Hsplit, Hs. cbn [map length Nat.eqb negb]. cbv zeta iota.
  cbn [map] in Hx. by rewrite Hx.
Qed.

Lemma dec_range p : 0 <= p <= 32 -> (p <? 0) || (32 <? p) = false.
Proof. intros Hp. apply orb_false_iff. split; apply Z.ltb_ge; lia. Qed.

#[export] Instance ipInCidr_test : CidrTest ipInCidr.
Proof.
  intros v base p Hv Hb Hp. unfold ipInCidr.
  destruct (parseCidr_quad base [to_base 10 p] Hb) as (y & Hy & Pr).
  destruct (parseCidr_quad v [] Hv) as (x & Hx & Ph).
  rewrite (Pr _ (split_cidr base p Hb (proj1 Hp))), (Ph _ (split_single v Hv)).
  rewrite parseInt_to_base, (dec_range p Hp) by lia. rewrite (dec_range 32) by lia.
  apply mask_prefix; [|done|done].
  rewrite uint32_band, Hx. change (to_uint32 (ipv4_mask 32)) with (Z.ones 32).
  rewrite Z.land_ones by lia. by apply Z.mod_small.
Qed.

Lemma int_parts_quad v : 0 <= v < 2 ^ 32 -> exists x,
  length (int_parts (dotted_quad v)) = 4%nat /\ existsb bad_octet (int_parts (dotted_quad v)) = false /\
  pack_octets (int_parts (dotted_quad v)) = Some x /\ to_uint32 x = v.
Proof.
  intros Hv. destruct (quad_parts v Hv) as (a & b & c & d & Ha & Hb & Hc & Hd & -> & Hs).
  exists ((a << 24) .|. (b << 16) .|. (c << 8) .|. d). unfold int_parts. rewrite Hs. cbn [map].
  rewrite !parseInt_to_base by (unfold octet in *; lia). split; [done|]. split; [|split; [done|]].
  - cbn [existsb bad_octet]. unfold octet in *.
    by rewrite !(proj2 (orb_false_iff (_ <? 0) _)) by (split; apply Z.ltb_ge; lia).
  - by apply octets_number.
Qed.

Lemma existsb_app_or {A} (f : A -> bool) l1 l2 : existsb f (l1 ++ l2) = existsb f l1 || existsb f l2.
Proof. induction l1 as [|x l1 IH]; simpl; [done|]. by rewrite IH, orb_assoc. Qed.

Lemma cidr_text_slash base p : str_existsb (fun c => c === "/"%char) (cidr_text base p) = true.
Proof.
  unfold cidr_text. induction (dotted_quad base) as [|c s IH]; [done|].
  rewrite str_app_cons. cbn [str_existsb]. by rewrite IH, orb_true_r.
Qed.

Lemma quad_nonempty v : 0 <= v < 2 ^ 32 -> dotted_quad v <> EmptyString.
Proof.
  intros Hv He. destruct (quad_parts v Hv) as (a & b & c & d & _ & _ & _ & _ & _ & Hs). by rewrite He in Hs.
Qed.

#[export] Instance ipMatchesRange_test : CidrTest ipMatchesRange.
Proof.
  intros v base p Hv Hb Hp. unfold ipMatchesRange. rewrite cidr_text_slash. cbn [negb]. cbv iota.
  rewrite (split_cidr base p Hb (proj1 Hp)), parseInt_to_base, <- orb_assoc, (dec_range p Hp) by lia.
  rewrite bool_decide_eq_false_2 by (by apply quad_nonempty). cbn [orb]. cbv zeta iota.
  destruct (int_parts_quad v Hv) as (x & Lx & Bx & Px & Ux).
  destruct (int_parts_quad base Hb) as (y & Ly & By & Py & Uy).
  rewrite Lx, Ly, existsb_app_or, Bx, By, Px, Py. cbn [negb orb Nat.eqb]. cbv iota. by apply mask_prefix.
Qed.

(** ** Who chooses the client's address *)

(** Another address than the peer's is the first entry of the header, and only a
    trusted peer's header counts. *)
Theorem resolveClientIp_trusted remote xff proxies ip :
  resolveClientIp remote xff proxies = ip -> ip <> remote ?? "unknown" ->
  exists header, xff = Some header /\ ip = js_trim (hd EmptyString (js_split ","%char header)) /\
    (parseTrustedProxies proxies = TrustAll \/
     exists entries entry, parseTrustedProxies proxies = TrustList entries /\ entry ∈ entries /\
       ipInCidr (remote ?? "unknown") entry = true).
Proof.
  unfold resolveClientIp. cbv zeta. intros Hr Hne.
  destruct (parseTrustedProxies proxies) as [| |entries]; [by subst| |].
  - destruct (truthy xff) eqn:Hx; [|by subst]. apply truthy_true in Hx as (h & -> & _). simpl in Hr.
    case_bool_decide; [by subst|]. exists h. by split; [|split; [|left]].
  - destruct (truthy xff) eqn:Hx; [|by subst]. apply truthy_true in Hx as (h & -> & _). simpl negb in Hr. cbv iota in Hr.
    destruct (existsb _ entries) eqn:He; [|by subst]. simpl in Hr. case_bool_decide; [by subst|].
    apply existsb_exists in He as (entry & Hin%list_elem_of_In & He).
    exists h. split; [done|]. split; [done|]. right. by exists entries, entry.
Qed.

(** An IPv4-mapped peer, the form a dual-stack socket reports, is never a trusted
    proxy, although its address is in the list. *)
Theorem mapped_peer_untrusted :
  resolveClientIp (Some "::ffff:10.0.0.1") (Some "203.0.113.7") (Some "10.0.0.0/8") = "::ffff:10.0.0.1" /\
  resolveClientIp (Some "10.0.0.1") (Some "203.0.113.7") (Some "10.0.0.0/8") = "203.0.113.7".
Proof. vm_compute. done. Qed.
