(* ===== verification/Prog.v ===== *)
(** * Prog: asynchronous handlers as trees of atomic steps

    An [async] method of the program is a sequence of awaited operations with
    ordinary code in between.  A [prog A] is the tree of that method: a leaf is
    the value it returns or the exception it throws, and a node is one atomic
    operation on the shared world (one database query, one Redis command, one
    reading of the clock).  The same tree is executed alone by [run] and
    interleaved with other requests by [pstep]; the second half of the file is
    the small program logic both need. *)

From S2P Require Import Prelude.

Section Prog.
Context {W E : Type}.

Inductive prog (A : Type) : Type :=
| Ret (a : A)
| Throw (e : E)
| Atom (B : Type) (f : W -> B * W) (k : B -> prog A).
Arguments Ret {A} a.
Arguments Throw {A} e.
Arguments Atom {A B} f k.

(** [await p] followed by the rest of the method. *)
Fixpoint bind {A B : Type} (p : prog A) (k : A -> prog B) : prog B :=
  match p with
  | Ret a => k a
  | Throw e => Throw e
  | Atom f c => Atom f (fun b => bind (c b) k)
  end.

(** [try { p } catch (e) { h(e) }]. *)
Fixpoint catch {A : Type} (p : prog A) (h : E -> prog A) : prog A :=
  match p with
  | Ret a => Ret a
  | Throw e => h e
  | Atom f c => Atom f (fun b => catch (c b) h)
  end.

(** [for (const x of l) { await body(x) }]. *)
Fixpoint for_each {A : Type} (l : list A) (body : A -> prog unit) : prog unit :=
  match l with
  | [] => Ret tt
  | x :: l' => bind (body x) (fun _ => for_each l' body)
  end.

(** One atomic operation. *)
Definition atom {B : Type} (f : W -> B * W) : prog B := Atom f Ret.

(** ** Execution of one request on its own *)

Fixpoint run {A : Type} (p : prog A) (w : W) : (E + A) * W :=
  match p with
  | Ret a => (inr a, w)
  | Throw e => (inl e, w)
  | Atom f k => let r := f w in run (k (fst r)) (snd r)
  end.

(** A program executed inside [prisma.$transaction]: one atomic step, whose
    writes are rolled back when it throws. *)
Definition transaction {A : Type} (p : prog A) : prog A :=
  Atom (fun w => match run p w with
                 | (inr a, w') => (inr a, w')
                 | (inl e, _) => (inl e, w)
                 end)
       (fun r => match r with inr a => Ret a | inl e => Throw e end).

Lemma run_bind {A B} (p : prog A) (k : A -> prog B) w :
  run (bind p k) w =
    match run p w with
    | (inr a, w') => run (k a) w'
    | (inl e, w') => (inl e, w')
    end.
Proof. revert w; induction p as [a|e|C f c IH]; intros w; simpl; auto. Qed.

Lemma run_bind_ok {A B} (p : prog A) (k : A -> prog B) w a w' :
  run p w = (inr a, w') -> run (bind p k) w = run (k a) w'.
Proof. intros H. by rewrite run_bind, H. Qed.

Lemma run_bind_err {A B} (p : prog A) (k : A -> prog B) w e w' :
  run p w = (inl e, w') -> run (bind p k) w = (inl e, w').
Proof. intros H. by rewrite run_bind, H. Qed.

Lemma run_transaction {A} (p : prog A) w :
  run (transaction p) w =
    match run p w with (inr a, w') => (inr a, w') | (inl e, _) => (inl e, w) end.
Proof. unfold transaction. simpl. by destruct (run p w) as [[e|a] w']. Qed.

Lemma run_catch {A} (p : prog A) h w :
  run (catch p h) w =
    match run p w with
    | (inr a, w') => (inr a, w')
    | (inl e, w') => run (h e) w'
    end.
Proof. revert w; induction p as [a|e|C f c IH]; intros w; simpl; auto. Qed.

(** A handler that always throws: a success comes from the body. *)
Lemma run_catch_rethrow {A} (p : prog A) h w a w' :
  (forall e w1 b w2, run (h e) w1 <> (inr b, w2)) ->
  run (catch p h) w = (inr a, w') -> run p w = (inr a, w').
Proof.
  intros Hh. rewrite run_catch. destruct (run p w) as [[e|b] w1]; [|done]. intros H.
  by destruct (Hh e w1 a w').
Qed.

(** [try { await p } catch {}]. *)
Lemma run_swallow {A} (p : prog A) w :
  run (catch (bind p (fun _ => Ret tt)) (fun _ => Ret tt)) w = (inr tt, (run p w).2).
Proof. rewrite run_catch, run_bind. by destruct (run p w) as [[e|a] w']. Qed.

Lemma run_atom {B} (f : W -> B * W) w : run (atom f) w = (inr (f w).1, (f w).2).
Proof. reflexivity. Qed.

(** The monad laws hold up to [run]. *)
Definition prog_equiv {A} (p q : prog A) : Prop := forall w, run p w = run q w.

#[export] Instance prog_equiv_equivalence A : Equivalence (@prog_equiv A).
Proof.
  split; [intros p w; reflexivity | intros p q H w; symmetry; apply H |].
  intros p q r H1 H2 w. rewrite H1. apply H2.
Qed.

#[export] Instance bind_proper A B :
  Proper (prog_equiv ==> pointwise_relation A prog_equiv ==> prog_equiv) (@bind A B).
Proof.
  intros p q Hpq k l Hkl w. rewrite !run_bind, Hpq.
  destruct (run q w) as [[e|a] w']; [done | apply Hkl].
Qed.

#[export] Instance catch_proper A :
  Proper (prog_equiv ==> pointwise_relation E prog_equiv ==> prog_equiv) (@catch A).
Proof.
  intros p q Hpq k l Hkl w. rewrite !run_catch, Hpq.
  destruct (run q w) as [[e|a] w']; [apply Hkl | done].
Qed.

Lemma bind_assoc {A B C} (p : prog A) (k : A -> prog B) (l : B -> prog C) :
  prog_equiv (bind (bind p k) l) (bind p (fun a => bind (k a) l)).
Proof.
  intros w. rewrite run_bind, (run_bind p k), (run_bind p (fun a => bind (k a) l)).
  destruct (run p w) as [[e|a] w']; [done | by rewrite run_bind].
Qed.

(** ** Inversion of successful runs *)

Lemma run_bind_inr {A B} (p : prog A) (k : A -> prog B) w b w2 :
  run (bind p k) w = (inr b, w2) <->
  exists a w1, run p w = (inr a, w1) /\ run (k a) w1 = (inr b, w2).
Proof.
  rewrite run_bind. destruct (run p w) as [[e|a] w'].
  - split; [done|]. intros (a & w1 & H & _). done.
  - split; [eauto|]. intros (a' & w1 & H & H'). by simplify_eq.
Qed.

Lemma run_ret_inr {A} (a b : A) w w' :
  run (Ret a) w = (inr b, w') <-> a = b /\ w = w'.
Proof. simpl. split; [intros H; by simplify_eq | by intros [-> ->]]. Qed.

Lemma run_throw_inr {A} e w (b : A) w' : ~ (run (Throw e) w = (inr b, w')).
Proof. simpl. done. Qed.

(** ** Footprints: every atomic step of a program respects a relation *)

Fixpoint stable (R : W -> W -> Prop) {A} (p : prog A) : Prop :=
  match p with
  | Ret _ | Throw _ => True
  | Atom f k => (forall w, R w (f w).2) /\ forall b, stable R (k b)
  end.

Lemma stable_atom R {B} (f : W -> B * W) : (forall w, R w (f w).2) -> stable R (atom f).
Proof. simpl; auto. Qed.

Lemma stable_bind R {A B} (p : prog A) (k : A -> prog B) :
  stable R p -> (forall a, stable R (k a)) -> stable R (bind p k).
Proof. induction p; simpl; naive_solver. Qed.

Lemma stable_catch R {A} (p : prog A) h :
  stable R p -> (forall e, stable R (h e)) -> stable R (catch p h).
Proof. induction p; simpl; naive_solver. Qed.

Lemma stable_for_each R {A} (l : list A) body :
  (forall x, stable R (body x)) -> stable R (for_each l body).
Proof. intros H. induction l; simpl; [done | apply stable_bind; auto]. Qed.

Lemma stable_mono (R R' : W -> W -> Prop) {A} (p : prog A) :
  (forall w w', R w w' -> R' w w') -> stable R p -> stable R' p.
Proof. intros HR. induction p; simpl; naive_solver. Qed.

Lemma stable_run R `{!PreOrder R} {A} (p : prog A) w :
  stable R p -> R w (run p w).2.
Proof.
  revert w. induction p as [a|e|B f k IH]; intros w Hp; simpl.
  - reflexivity.
  - reflexivity.
  - destruct Hp as [Hf Hk]. etransitivity; [apply Hf | apply IH, Hk].
Qed.

Lemma stable_transaction R `{!PreOrder R} {A} (p : prog A) :
  stable R p -> stable R (transaction p).
Proof.
  intros Hp. split.
  - intros w. pose proof (stable_run R p w Hp) as H.
    destruct (run p w) as [[e|a] w']; simpl in *; [reflexivity | done].
  - by intros [e|a].
Qed.
End Prog.

Arguments prog : clear implicits.
Arguments Ret {W E A} a.
Arguments Throw {W E A} e.
Arguments Atom {W E A B} f k.

Declare Scope prog_scope.
Delimit Scope prog_scope with prog.
Notation "x <- p ;; k" := (bind p (fun x => k))
  (at level 60, p at next level, right associativity) : prog_scope.
Notation "p ;;; k" := (bind p (fun _ => k))
  (at level 60, right associativity) : prog_scope.

Create HintDb footprint.
#[export] Hint Resolve stable_bind stable_catch stable_for_each stable_atom : footprint.

(** ** Interleavings *)

Section Interleaving.
Context {W E : Type}.

(** What the rest of the system may do between two steps of the requests
    under study: let time pass, serve other requests. *)
Variable env : W -> W -> Prop.

(** A pool of requests in progress.  A step lets one of them perform its next
    atomic operation, or the environment act. *)
Inductive pstep {A} : W * list (prog W E A) -> W * list (prog W E A) -> Prop :=
| pstep_atom w ps qs B (f : W -> B * W) k :
    pstep (w, ps ++ Atom f k :: qs) ((f w).2, ps ++ k (f w).1 :: qs)
| pstep_env w w' ps : env w w' -> pstep (w, ps) (w', ps).

(** [psteps]: any number of them. *)
Inductive psteps {A} : W * list (prog W E A) -> W * list (prog W E A) -> Prop :=
| psteps_refl c : psteps c c
| psteps_step c1 c2 c3 : pstep c1 c2 -> psteps c2 c3 -> psteps c1 c3.

Lemma psteps_trans {A} (c1 c2 c3 : W * list (prog W E A)) :
  psteps c1 c2 -> psteps c2 c3 -> psteps c1 c3.
Proof. induction 1; eauto using psteps. Qed.

(** Running one request to its end is one of the interleavings. *)
Lemma run_psteps {A} (p : prog W E A) w ps qs :
  exists p', psteps (w, ps ++ p :: qs) ((run p w).2, ps ++ p' :: qs) /\
    match (run p w).1 with inr a => p' = Ret a | inl e => p' = Throw e end.
Proof.
  revert w. induction p as [a|e|B f k IH]; intros w; simpl.
  - exists (Ret a). split; [constructor | done].
  - exists (Throw e). split; [constructor | done].
  - destruct (IH (f w).1 (f w).2) as (p' & Hs & Hp). exists p'.
    split; [|done]. eapply psteps_step; [apply pstep_atom | exact Hs].
Qed.

(** An executable scheduler: the list names the request that moves next. *)
Definition advance {A} (i : nat) (c : W * list (prog W E A)) : W * list (prog W E A) :=
  match c.2 !! i with
  | Some (Atom f k) => let r := f c.1 in (r.2, <[i := k r.1]> c.2)
  | _ => c
  end.
Definition schedule {A} (order : list nat) (c : W * list (prog W E A)) :=
  foldl (fun c i => advance i c) c order.

Lemma advance_psteps {A} i (c : W * list (prog W E A)) : psteps c (advance i c).
Proof.
  destruct c as [w ps]. unfold advance; simpl.
  destruct (ps !! i) as [[a|e|B f k]|] eqn:Hi; try constructor.
  rewrite <- (take_drop_middle ps i _ Hi) at 1.
  rewrite (insert_take_drop ps i _ (lookup_lt_Some _ _ _ Hi)).
  eapply psteps_step; [apply pstep_atom | constructor].
Qed.

Lemma schedule_psteps {A} order (c : W * list (prog W E A)) : psteps c (schedule order c).
Proof.
  revert c. induction order as [|i order IH]; intros c; simpl; [constructor|].
  eapply psteps_trans; [apply advance_psteps | apply IH].
Qed.

(** ** Invariants of interleavings *)

Lemma psteps_stable R `{!PreOrder R} {A} (c c' : W * list (prog W E A)) :
  (forall w w', env w w' -> R w w') ->
  psteps c c' -> Forall (stable R) c.2 -> R c.1 c'.1 /\ Forall (stable R) c'.2.
Proof.
  intros Henv Hs. induction Hs as [c|c1 c2 c3 Hst Hs IH]; intros Hps.
  - split; [reflexivity | done].
  - destruct Hst as [w ps qs B f k|w w' ps He]; simpl in *.
    + apply Forall_app in Hps as [Hp Hq]. apply Forall_cons in Hq as [[Hf Hk] Hq].
      destruct IH as [HR Hps'].
      { apply Forall_app; split; [done|]. apply Forall_cons; auto. }
      split; [|done]. etransitivity; [apply Hf | exact HR].
    + destruct (IH Hps) as [HR Hps']. split; [|done].
      etransitivity; [apply Henv, He | done].
Qed.
End Interleaving.

(** ** Credits: operations that at most [n] concurrent requests can win

    [tok w] counts the claims still available in the world (an unused
    authorization code, the attempts left on a challenge), in the worlds that
    satisfy the invariant [Inv].  [claims tok Inv Q c p] says that, whatever the
    other requests do between its steps, [p] keeps [Inv], either leaves the
    count alone or takes one unit of it, and can only finish with a value
    accepted by [Q], which also sees whether a unit was taken. *)

Section Claims.
Context {W E : Type} (tok : W -> nat) (Inv : W -> Prop).

Fixpoint claims {A} (Q : bool -> A -> Prop) (c : bool) (p : prog W E A) : Prop :=
  match p with
  | Ret a => Q c a
  | Throw _ => True
  | Atom f k => forall w, Inv w -> Inv (f w).2 /\
      (((tok (f w).2 <= tok w)%nat /\ claims Q c (k (f w).1)) \/
       ((S (tok (f w).2) <= tok w)%nat /\ claims Q true (k (f w).1)))
  end.

Lemma claims_mono {A} (Q Q' : bool -> A -> Prop) c (p : prog W E A) :
  (forall c a, Q c a -> Q' c a) -> claims Q c p -> claims Q' c p.
Proof.
  intros HQ. revert c. induction p as [a|e|B f k IH]; simpl; intros c Hp; [auto|done|].
  intros w Hw. destruct (Hp w Hw) as [Hi [[Ht Hk]|[Ht Hk]]]; split; auto.
Qed.

Lemma claims_bind {A B} (Q : bool -> A -> Prop) (Q' : bool -> B -> Prop) c
    (p : prog W E A) (k : A -> prog W E B) :
  claims Q c p -> (forall c a, Q c a -> claims Q' c (k a)) -> claims Q' c (bind p k).
Proof.
  intros Hp HQ. revert c Hp. induction p as [a|e|C f g IH]; simpl; intros c Hp; [auto|done|].
  intros w Hw. destruct (Hp w Hw) as [Hi [[Ht Hk]|[Ht Hk]]]; split; auto.
Qed.

Lemma claims_catch {A} (Q : bool -> A -> Prop) c (p : prog W E A) h :
  claims Q c p -> (forall c e, claims Q c (h e)) -> claims Q c (catch p h).
Proof.
  intros Hp Hh. revert c Hp. induction p as [a|e|C f g IH]; simpl; intros c Hp; [auto|auto|].
  intros w Hw. destruct (Hp w Hw) as [Hi [[Ht Hk]|[Ht Hk]]]; split; auto.
Qed.

(** A program whose steps keep the invariant and never raise the count claims
    nothing. *)
Definition keeps (w w' : W) : Prop := Inv w -> Inv w' /\ (tok w' <= tok w)%nat.

#[export] Instance keeps_preorder : PreOrder keeps.
Proof.
  split; [by intros w Hw|]. intros a b c H1 H2 Ha.
  destruct (H1 Ha) as [Hb Hle], (H2 Hb) as [Hc Hle']. split; [done|lia].
Qed.

Lemma claims_stable {A} (Q : bool -> A -> Prop) c (p : prog W E A) :
  stable keeps p -> (forall a, Q c a) -> claims Q c p.
Proof.
  intros Hp HQ. induction p as [a|e|B f k IH]; simpl in *; [auto|done|].
  destruct Hp as [Hf Hk]. intros w Hw. destruct (Hf w Hw). auto.
Qed.

(** The same for the first part of a program. *)
Lemma claims_bind_stable {A B} (Q : bool -> B -> Prop) c (p : prog W E A) (k : A -> prog W E B) :
  stable keeps p -> (forall a, claims Q c (k a)) -> claims Q c (bind p k).
Proof.
  intros Hp Hk. apply (claims_bind (fun c' _ => c' = c)).
  - by apply claims_stable.
  - intros c' a ->. apply Hk.
Qed.

(** The claims of a whole pool: how many requests hold a unit. *)
Fixpoint pool_claims {A} (Q : bool -> A -> Prop) (n : nat) (ps : list (prog W E A)) : Prop :=
  match ps with
  | [] => n = 0%nat
  | p :: ps' => (claims Q false p /\ pool_claims Q n ps') \/
                (exists m, n = S m /\ claims Q true p /\ pool_claims Q m ps')
  end.

Lemma pool_claims_app {A} (Q : bool -> A -> Prop) n (ps qs : list (prog W E A)) :
  pool_claims Q n (ps ++ qs) <->
  exists a b, n = (a + b)%nat /\ pool_claims Q a ps /\ pool_claims Q b qs.
Proof.
  revert n. induction ps as [|p ps IH]; intros n; simpl.
  - split; [intros H; exists 0%nat, n; auto | by intros (a & b & -> & -> & H)].
  - setoid_rewrite IH. split.
    + intros [(Hp & a & b & -> & Ha & Hb)|(m & -> & Hp & a & b & -> & Ha & Hb)].
      * exists a, b. eauto.
      * exists (S a), b. split; [lia|]. eauto 6.
    + intros (a & b & -> & [[Hp Ha]|(m & -> & Hp & Ha)] & Hb).
      * left. eauto 6.
      * right. exists (m + b)%nat. split; [lia|]. eauto 6.
Qed.

Lemma pool_claims_start {A} (Q : bool -> A -> Prop) (ps : list (prog W E A)) :
  Forall (claims Q false) ps -> pool_claims Q 0 ps.
Proof. induction 1; simpl; auto. Qed.

Section Env.
Variable env : W -> W -> Prop.
Hypothesis env_keeps : forall w w', env w w' -> keeps w w'.

Lemma pstep_claims {A} (Q : bool -> A -> Prop) n c c' :
  pstep (E:=E) (A:=A) env c c' -> Inv c.1 -> pool_claims Q n c.2 ->
  Inv c'.1 /\ exists n', pool_claims Q n' c'.2 /\ (tok c'.1 + n' <= tok c.1 + n)%nat.
Proof.
  intros Hst Hi Hn. destruct Hst as [w ps qs B f k|w w' ps He]; simpl in *.
  - apply pool_claims_app in Hn as (a & b & -> & Ha & Hb). simpl in Hb.
    destruct Hb as [[Hp Hq]|(m & -> & Hp & Hq)]; simpl in Hp.
    + destruct (Hp w Hi) as [Hi' [[Ht Hk]|[Ht Hk]]]; (split; [done|]).
      * exists (a + b)%nat. split; [|lia].
        apply pool_claims_app. exists a, b. simpl. auto 6.
      * exists (a + S b)%nat. split; [|lia].
        apply pool_claims_app. exists a, (S b). simpl. eauto 8.
    + destruct (Hp w Hi) as [Hi' Hk]. split; [done|].
      exists (a + S m)%nat. split; [|destruct Hk as [[Ht _]|[Ht _]]; lia].
      apply pool_claims_app. exists a, (S m).
      split; [done|]. split; [done|]. simpl. right. exists m.
      destruct Hk as [[_ Hk]|[_ Hk]]; auto.
  - destruct (env_keeps _ _ He Hi) as [Hi' Ht]. split; [done|]. exists n. split; [done | lia].
Qed.

Lemma psteps_claims {A} (Q : bool -> A -> Prop) n c c' :
  psteps (E:=E) (A:=A) env c c' -> Inv c.1 -> pool_claims Q n c.2 ->
  exists n', pool_claims Q n' c'.2 /\ (tok c'.1 + n' <= tok c.1 + n)%nat.
Proof.
  intros Hs. revert n. induction Hs as [c|c1 c2 c3 Hst Hs IH]; intros n Hi Hn.
  - exists n. split; [done | lia].
  - destruct (pstep_claims _ _ _ _ Hst Hi Hn) as (Hi' & m & Hm & Hle).
    destruct (IH m Hi' Hm) as (m' & Hm' & Hle'). exists m'. split; [done | lia].
Qed.

(** How many requests of a pool have finished with a value [P] accepts. *)
Definition won {A} (P : A -> bool) (p : prog W E A) : bool :=
  match p with Ret a => P a | _ => false end.
Definition winners {A} (P : A -> bool) (ps : list (prog W E A)) : nat :=
  length (List.filter (won P) ps).

Lemma pool_claims_winners {A} (P : A -> bool) n (ps : list (prog W E A)) :
  pool_claims (fun c a => P a = true -> c = true) n ps -> (winners P ps <= n)%nat.
Proof.
  unfold winners. revert n. induction ps as [|p ps IH]; intros n; simpl; [lia|].
  intros [(Hp & Hn)|(m & -> & Hp & Hn)].
  - destruct (won P p) eqn:Hd; [|by apply IH].
    destruct p as [a|e|B f k]; [|done|done]. by specialize (Hp Hd).
  - specialize (IH m Hn). destruct (won P p); simpl; lia.
Qed.

(** At most [tok w] of any number of concurrent requests win. *)
Theorem winners_bounded {A} (P : A -> bool) w w' (ps ps' : list (prog W E A)) :
  Inv w -> Forall (claims (fun c a => P a = true -> c = true) false) ps ->
  psteps env (w, ps) (w', ps') -> (winners P ps' <= tok w)%nat.
Proof.
  intros Hi Hps Hs.
  destruct (psteps_claims _ 0 _ _ Hs Hi (pool_claims_start _ _ Hps)) as (n & Hn & Hle).
  apply pool_claims_winners in Hn. simpl in Hle, Hn. etransitivity; [exact Hn|]. lia.
Qed.
End Env.
End Claims.

(** ** Accounting for concurrent requests

    Each request of a pool carries two numbers: how many units it holds that it has
    not been granted, and how many it has been granted.  An invariant relates the
    world to the two totals; a request may assume it for whatever the others hold,
    and must restore it after each of its atoms.  Unlike the claims above, a unit
    can be given back. *)

Section Ghost.
Context {W E : Type}.
Notation ghost := (nat * nat)%type.
Variable Inv : W -> nat -> nat -> Prop.

Fixpoint accounts {A} (Q : ghost -> A -> Prop) (X : ghost -> E -> Prop) (g : ghost) (p : prog W E A) : Prop :=
  match p with
  | Ret a => Q g a
  | Throw e => X g e
  | Atom f k => forall w x a, Inv w (x + g.1) (a + g.2) ->
      exists g', Inv (f w).2 (x + g'.1) (a + g'.2) /\ accounts Q X g' (k (f w).1)
  end.

Lemma inv_eq w x a x' a' : Inv w x a -> x = x' -> a = a' -> Inv w x' a'.
Proof. by intros H -> ->. Qed.

Lemma accounts_mono {A} (Q Q' : ghost -> A -> Prop) (X X' : ghost -> E -> Prop) g (p : prog W E A) :
  (forall g a, Q g a -> Q' g a) -> (forall g e, X g e -> X' g e) -> accounts Q X g p -> accounts Q' X' g p.
Proof. intros HQ HX. revert g. induction p; simpl; naive_solver. Qed.

Lemma accounts_bind {A B} (Q : ghost -> A -> Prop) (Q' : ghost -> B -> Prop) X g (p : prog W E A)
    (k : A -> prog W E B) :
  accounts Q X g p -> (forall g a, Q g a -> accounts Q' X g (k a)) -> accounts Q' X g (bind p k).
Proof. intros Hp Hk. revert g Hp. induction p; simpl; naive_solver. Qed.

Lemma accounts_catch {A} (Q : ghost -> A -> Prop) X X' g (p : prog W E A) h :
  accounts Q X g p -> (forall g e, X g e -> accounts Q X' g (h e)) -> accounts Q X' g (catch p h).
Proof. intros Hp Hh. revert g Hp. induction p; simpl; naive_solver. Qed.

(** An atom that neither takes nor returns a unit. *)
Lemma accounts_keep {A B} (Q : ghost -> A -> Prop) X g (f : W -> B * W) k :
  (forall w x a, Inv w x a -> Inv (f w).2 x a) ->
  (forall w x a, Inv w (x + g.1) (a + g.2) -> accounts Q X g (k (f w).1)) -> accounts Q X g (Atom f k).
Proof. intros Hf Hk w x a Hi. exists g. split; [by apply Hf | by eapply Hk]. Qed.

Definition total1 (gs : list ghost) : nat := sum_list_with fst gs.
Definition total2 (gs : list ghost) : nat := sum_list_with snd gs.

Variable env : W -> W -> Prop.
Hypothesis env_inv : forall w w' x a, env w w' -> Inv w x a -> Inv w' x a.

Lemma pstep_accounts {A} (Q : ghost -> A -> Prop) X gs c c' :
  pstep (E:=E) env c c' -> Forall2 (accounts Q X) gs c.2 -> Inv c.1 (total1 gs) (total2 gs) ->
  exists gs', Forall2 (accounts Q X) gs' c'.2 /\ Inv c'.1 (total1 gs') (total2 gs').
Proof.
  intros Hst Hg Hi. destruct Hst as [w ps qs B f k|w w' ps He]; simpl in *; [|by eauto].
  apply Forall2_app_inv_r in Hg as (l1 & l2 & H1 & H2 & ->).
  apply Forall2_cons_inv_r in H2 as (g & l3 & Ha & H3 & ->).
  unfold total1, total2 in *. rewrite !sum_list_with_app in Hi. simpl in Hi.
  destruct (Ha w (sum_list_with fst l1 + sum_list_with fst l3)%nat
    (sum_list_with snd l1 + sum_list_with snd l3)%nat) as (g' & Hi' & Hk).
  { apply (inv_eq _ _ _ _ _ Hi); lia. }
  exists (l1 ++ g' :: l3). split; [by apply Forall2_app; [|constructor]|].
  rewrite !sum_list_with_app. simpl. apply (inv_eq _ _ _ _ _ Hi'); lia.
Qed.

Lemma psteps_accounts {A} (Q : ghost -> A -> Prop) X gs c c' :
  psteps (E:=E) env c c' -> Forall2 (accounts Q X) gs c.2 -> Inv c.1 (total1 gs) (total2 gs) ->
  exists gs', Forall2 (accounts Q X) gs' c'.2 /\ Inv c'.1 (total1 gs') (total2 gs').
Proof.
  intros Hs. revert gs. induction Hs as [c|c1 c2 c3 Hst Hs IH]; intros gs Hg Hi; [eauto|].
  destruct (pstep_accounts _ _ _ _ _ Hst Hg Hi) as (gs' & Hg' & Hi'). by apply (IH gs').
Qed.

Lemma total_winners {A} (P : A -> bool) Q X gs (ps : list (prog W E A)) :
  (forall g a, Q g a -> P a = true -> (1 <= g.2)%nat) ->
  Forall2 (accounts Q X) gs ps -> (winners P ps <= total2 gs)%nat.
Proof.
  intros HQ. unfold winners, total2. induction 1 as [|g p gs ps Hg Hgs IH]; simpl; [lia|].
  destruct (won P p) eqn:Hw; simpl; [|lia]. destruct p as [a|e|B f k]; simpl in *; try done.
  pose proof (HQ _ _ Hg Hw). lia.
Qed.

(** The requests that win are granted units, and the invariant bounds those. *)
Theorem grants_bounded {A} (P : A -> bool) Q X bound w w' (ps ps' : list (prog W E A)) :
  (forall g a, Q g a -> P a = true -> (1 <= g.2)%nat) ->
  (forall w x a, Inv w x a -> (a <= bound)%nat) ->
  Inv w 0 0 -> Forall (accounts Q X (0, 0)%nat) ps -> psteps env (w, ps) (w', ps') ->
  (winners P ps' <= bound)%nat.
Proof.
  intros HQ Hb Hi Hps Hs.
  assert (Hg : Forall2 (accounts Q X) (replicate (length ps) (0, 0)%nat) ps).
  { clear -Hps. induction Hps; simpl; by constructor. }
  assert (Hz : forall n, total1 (replicate n (0, 0)%nat) = 0%nat /\ total2 (replicate n (0, 0)%nat) = 0%nat).
  { induction n as [|n [IH1 IH2]]; [done|]. split; [exact IH1|exact IH2]. }
  destruct (Hz (length ps)) as [Hz1 Hz2].
  destruct (psteps_accounts Q X _ _ _ Hs Hg) as (gs & Hgs & Hi'); [by rewrite Hz1, Hz2|].
  simpl in *. apply Hb in Hi'. apply (total_winners P Q X) in Hgs; [lia|done].
Qed.
End Ghost.
