(* ===== verification/SafeHttp.v ===== *)
(** * SafeHttp: outbound requests (src/src/common/security/safe-http-client.ts)

    [safePost] resolves a target, checks it, and connects to the address it checked;
    redirects are followed by the same steps.  The URL parser, the resolver and the
    peers are the class [Net]; a resolver may answer every call differently.  The
    world counts the calls and records the connections that were opened. *)

From S2P Require Import Prelude Prog JsText IpRange IpRangeFacts IpHostname.

Record Url := mkUrl { url_protocol : string; url_hostname : string; url_href : string }.

Record LookupAddress := mkLookupAddress { address : string; la_family : Z }.

Record SafeTarget := mkSafeTarget { t_url : Url; pinnedAddress : string; family : Z }.

(** The answer of a peer: status, [Location] and body. *)
Record PinnedRequestResult := mkResult {
  statusCode : Z; location : option string; response_body : string
}.

Inductive net_exc :=
| SsrfBlockedError (message : string)
| NetError (message : string).

Class Net := {
  new_URL : string -> option Url;                    (* new URL(s); [None] is a throw *)
  new_URL_base : string -> Url -> option Url;        (* new URL(s, base) *)
  lookup_all : nat -> string -> option (list LookupAddress);   (* dns.promises.lookup, by call *)
  send : nat -> SafeTarget -> string -> option PinnedRequestResult;   (* one request, by call *)
  allow_private : option string                      (* WEBHOOK_ALLOW_PRIVATE_TARGETS *)
}.

Record NetWorld := mkNetWorld { lookups : nat; connections : list SafeTarget }.
Notation HttpM := (prog NetWorld net_exc).

Definition SSRF_BLOCKED_MESSAGE : string := "Delivery blocked: target address is not publicly routable".
Definition MAX_REDIRECT_HOPS : nat := 3.
Definition REDIRECT_STATUS_CODES : list Z := [301; 302; 303; 307; 308].

Section Client.
Context {net : Net}.

Definition privateTargetsAllowed : bool := bool_decide (allow_private = Some "true").

Definition dns_lookup (hostname : string) : HttpM (list LookupAddress) :=
  Atom (fun w => (lookup_all (lookups w) hostname, mkNetWorld (S (lookups w)) (connections w)))
       (fun r => match r with
                 | Some records => Ret records
                 | None => Throw (NetError "Delivery blocked: DNS resolution failed")
                 end).

(** [{ url, pinnedAddress, family }] for a parsed URL. *)
Definition resolve_host (url : Url) : HttpM SafeTarget :=
  (let hostname := url_hostname url in
   let allowPrivate := privateTargetsAllowed in
   if negb allowPrivate && isBlockedHostnameLiteral hostname
   then Throw (SsrfBlockedError SSRF_BLOCKED_MESSAGE) else
   let literalFamily := isIP hostname in
   if (literalFamily =? 4) || (literalFamily =? 6)
   then Ret (mkSafeTarget url hostname literalFamily) else
   records <- dns_lookup hostname ;;
   match records with
   | [] => Throw (NetError "Delivery blocked: DNS resolution returned no addresses")
   | first :: _ =>
       let safeRecord := if allowPrivate then Some first
                         else List.find (fun record => negb (isBlockedIp (address record))) records in
       match safeRecord with
       | None => Throw (SsrfBlockedError SSRF_BLOCKED_MESSAGE)
       | Some safeRecord =>
           Ret (mkSafeTarget url (address safeRecord) (if la_family safeRecord =? 6 then 6 else 4))
       end
   end)%prog.

Definition resolveSafeTarget (rawUrl : string) : HttpM SafeTarget :=
  match new_URL rawUrl with
  | None => Throw (SsrfBlockedError SSRF_BLOCKED_MESSAGE)
  | Some url =>
      if (url_protocol url !== "http:") && (url_protocol url !== "https:")
      then Throw (SsrfBlockedError SSRF_BLOCKED_MESSAGE)
      else resolve_host url
  end.

(** One POST over a connection to the pinned address; the peer or the timeout may
    make it fail. *)
Definition sendPinnedRequest (target : SafeTarget) (body : string) : HttpM PinnedRequestResult :=
  Atom (fun w => (send (length (connections w)) target body,
                  mkNetWorld (lookups w) (connections w ++ [target])))
       (fun r => match r with Some result => Ret result | None => Throw (NetError "request failed") end).

(** The loop of [safePost], by the hops that are left: [MAX_REDIRECT_HOPS - hop]. *)
Fixpoint post_loop (hopsLeft : nat) (target : SafeTarget) (body : string) : HttpM (Z * string) :=
  (result <- sendPinnedRequest target body ;;
   if negb (includes (statusCode result) REDIRECT_STATUS_CODES)
   then Ret (statusCode result, response_body result) else
   if negb (truthy (location result)) then Ret (statusCode result, response_body result) else
   match hopsLeft with
   | O => Throw (SsrfBlockedError "Delivery blocked: too many redirects")
   | S hopsLeft =>
       match new_URL_base (location result ?? EmptyString) (t_url target) with
       | None => Throw (SsrfBlockedError "Delivery blocked: invalid redirect location")
       | Some nextUrl =>
           target <- resolveSafeTarget (url_href nextUrl) ;;
           post_loop hopsLeft target body
       end
   end)%prog.

Definition safePost (rawUrl body : string) : HttpM (Z * string) :=
  (target <- resolveSafeTarget rawUrl ;;
   post_loop MAX_REDIRECT_HOPS target body)%prog.

(** ** What a run opens *)

(** An address a connection may go to. *)
Definition safe_target (t : SafeTarget) : Prop :=
  isBlockedIp (pinnedAddress t) = false.

(** WHATWG URL: the hostname of an IPv6 address keeps its brackets. *)
Hypothesis hostname_bracketed : forall s u, new_URL s = Some u -> is_ipv6 (url_hostname u) = false.
Hypothesis guarded : privateTargetsAllowed = false.

Lemma ipv4_chars s : is_ipv4 s = true ->
  all_chars host_char s = true /\ ends_with "." s = false /\ s <> EmptyString.
Proof.
  unfold is_ipv4. intros [Hl%Nat.eqb_eq Hs]%andb_true_iff.
  assert (Hseg : Forall (fun p => p <> EmptyString /\ all_chars dec_char p = true) (js_split "."%char s)).
  { apply Forall_forall. intros p Hp. rewrite forallb_forall in Hs. apply list_elem_of_In in Hp.
    apply Hs in Hp. unfold v4_seg, upto_chars, some_chars in Hp. rewrite !andb_true_iff in Hp.
    destruct Hp as [[[[Hne Hc] _] _] _]. by apply negb_true_iff, bool_decide_eq_false in Hne. }
  assert (Hnd : ends_with "." s = false).
  { apply not_true_is_false. intros [t ->]%ends_with_true. unfold js_split in Hseg.
    rewrite split_aux_trailing in Hseg. apply Forall_app in Hseg as [_ Hd]. by apply Forall_cons in Hd as [[? _] _]. }
  split; [|split; [done|by intros ->]]. clear Hl Hs Hnd. unfold js_split in Hseg.
  assert (Hgen : forall acc, Forall (fun p => p <> EmptyString /\ all_chars dec_char p = true) (js_split_aux "."%char s acc) ->
    all_chars host_char s = true); [|by eapply Hgen].
  clear Hseg. induction s as [|c s IH]; intros acc H; [done|]. cbn [js_split_aux] in H. cbn [all_chars].
  destruct (bool_decide_reflect (c = "."%char)) as [->|Hc].
  - apply Forall_cons in H as [_ H]. rewrite (IH _ H). done.
  - assert (Hacc : exists p rest, js_split_aux "."%char s (acc +:+ String c EmptyString) = p :: rest /\
      exists q, p = acc +:+ String c q).
    { clear. generalize EmptyString at 1 as q. revert acc c. induction s as [|d s IHs]; intros acc c q; cbn [js_split_aux].
      - eauto.
      - case_bool_decide; [eauto|]. rewrite string_app_assoc, str_app_cons. apply IHs. }
    rewrite (IH _ H), andb_true_r. destruct Hacc as (p & rest & E & q & ->). rewrite E in H.
    apply Forall_cons in H as [[_ H] _]. rewrite all_chars_app in H. apply andb_true_iff in H as [_ H].
    simpl in H. apply andb_true_iff in H as [H _]. unfold host_char, spelling_char. unfold dec_char in H. by rewrite H.
Qed.

(** A dotted address that passes the hostname test is not blocked. *)
Lemma literal_not_blocked h :
  is_ipv4 h = true -> isBlockedHostnameLiteral h = false -> isBlockedIp h = false.
Proof.
  intros H4 Hb. destruct (ipv4_chars h H4) as (Hc & Hd & _). unfold isBlockedHostnameLiteral in Hb.
  rewrite normalize_plain in Hb by done. cbv zeta in Hb. case_bool_decide; [done|].
  destruct (includes h _ || ends_with _ h); [done|].
  unfold isIP in Hb at 1. by rewrite H4 in Hb.
Qed.

Lemma run_resolveSafeTarget s w r w' :
  run (resolveSafeTarget s) w = (r, w') ->
  connections w' = connections w /\ forall t, r = inr t -> safe_target t.
Proof.
  unfold resolveSafeTarget. destruct (new_URL s) as [u|] eqn:Hu; [|by intros [= <- <-]].
  destruct (_ && _); [by intros [= <- <-]|]. unfold resolve_host. rewrite guarded. cbv zeta. simpl negb.
  rewrite andb_true_l. destruct (isBlockedHostnameLiteral (url_hostname u)) eqn:Hb; [by intros [= <- <-]|].
  destruct ((isIP (url_hostname u) =? 4) || (isIP (url_hostname u) =? 6)) eqn:Hi.
  - intros [= <- <-]. split; [done|]. intros t [= <-]. unfold safe_target. simpl.
    apply literal_not_blocked; [|done]. unfold isIP in Hi. destruct (is_ipv4 (url_hostname u)); [done|].
    by rewrite (hostname_bracketed _ _ Hu) in Hi.
  - rewrite run_bind. unfold dns_lookup. cbn [run fst snd].
    destruct (lookup_all (lookups w) (url_hostname u)) as [[|a l]|]; [by intros [= <- <-]| |by intros [= <- <-]].
    cbn [run]. destruct (List.find (fun x => negb (isBlockedIp (address x))) (a :: l)) as [rec|] eqn:Hf;
      cbn [run]; intros [= <- <-]; [|done]. split; [done|]. intros t [= <-].
    apply find_elem in Hf as [_ Hf%negb_true_iff]. exact Hf.
Qed.

(** What a sequence of connections has added. *)
Definition opened (n : nat) (w w' : NetWorld) : Prop :=
  exists new, connections w' = connections w ++ new /\ Forall safe_target new /\ (length new <= n)%nat.

Lemma opened_refl n w w' : connections w' = connections w -> opened n w w'.
Proof. intros H. exists []. rewrite app_nil_r. split; [done|]. split; [constructor|simpl; lia]. Qed.

Lemma opened_step n t w w1 w2 :
  safe_target t -> connections w1 = connections w ++ [t] -> opened n w1 w2 -> opened (S n) w w2.
Proof.
  intros Ht H1 (new & H2 & Hf & Hl). exists (t :: new). rewrite H2, H1, <- app_assoc. split; [done|].
  split; [by constructor | simpl; lia].
Qed.

Lemma run_post_loop hops target body w r w' :
  safe_target target -> run (post_loop hops target body) w = (r, w') -> opened (S hops) w w'.
Proof.
  revert target w r w'. induction hops as [|hops IH]; intros target w r w' Ht;
    cbn [post_loop]; unfold sendPinnedRequest; simpl;
    set (w1 := mkNetWorld (lookups w) (connections w ++ [target]));
    (destruct (send _ _ _) as [res|]; simpl;
     [|by intros [= <- <-]; apply (opened_step _ target _ w1); [done|done|apply opened_refl]]);
    (destruct (negb (includes _ _)); simpl;
     [by intros [= <- <-]; apply (opened_step _ target _ w1); [done|done|apply opened_refl]|]);
    (destruct (negb (truthy _)); simpl;
     [by intros [= <- <-]; apply (opened_step _ target _ w1); [done|done|apply opened_refl]|]).
  - by intros [= <- <-]; apply (opened_step _ target _ w1); [done|done|apply opened_refl].
  - destruct (new_URL_base _ _) as [next|]; simpl;
      [|by intros [= <- <-]; apply (opened_step _ target _ w1); [done|done|apply opened_refl]].
    rewrite run_bind. destruct (run (resolveSafeTarget (url_href next)) w1) as [[e|t] w2] eqn:Hr;
      apply run_resolveSafeTarget in Hr as [Hc Hs].
    + intros [= <- <-]. apply (opened_step _ target _ w1); [done|done|]. by apply opened_refl.
    + intros H. apply IH in H as (new & Hn & Hf & Hl); [|by apply Hs].
      apply (opened_step _ target _ w1); [done|done|]. exists new. by rewrite Hn, Hc.
Qed.
End Client.

(** C35. However the resolver and the peers answer, and however often they change their
    answers, a delivery opens at most four connections, each to an address that was
    found not to be blocked: redirects are checked like the first target, and no
    connection goes to an address that was not the one checked. *)
Theorem safePost_connections {net : Net} rawUrl body w r w' :
  (forall s u, new_URL s = Some u -> is_ipv6 (url_hostname u) = false) ->
  privateTargetsAllowed = false ->
  run (safePost rawUrl body) w = (r, w') ->
  exists new, connections w' = connections w ++ new /\ (length new <= 4)%nat /\
    Forall (fun t => isBlockedIp (pinnedAddress t) = false) new.
Proof.
  intros Hh Hg. unfold safePost. rewrite run_bind.
  destruct (run (resolveSafeTarget rawUrl) w) as [[e|t] w1] eqn:Hr;
    apply (run_resolveSafeTarget Hh Hg) in Hr as [Hc Hs].
  - intros [= <- <-]. exists []. rewrite app_nil_r. split; [done|]. split; [simpl; lia|constructor].
  - intros H. apply (run_post_loop Hh Hg) in H as (new & Hn & Hf & Hl); [|by apply Hs].
    exists new. rewrite Hn, Hc. by split; [|split].
Qed.

(** A peer that redirects to an internal address, behind a name whose second answer is
    internal. *)
Definition rebinding_net : Net := {|
  new_URL s := if s === "http://hook.example/" then Some (mkUrl "http:" "hook.example" s)
               else if s === "http://10.0.0.1/" then Some (mkUrl "http:" "10.0.0.1" s) else None;
  new_URL_base s u := if s === "http://10.0.0.1/" then Some (mkUrl "http:" "10.0.0.1" s)
                      else Some (mkUrl "http:" "hook.example" "http://hook.example/");
  lookup_all n h := if (n =? 0)%nat then Some [mkLookupAddress "127.0.0.1" 4; mkLookupAddress "93.184.216.34" 4]
                    else Some [mkLookupAddress "127.0.0.1" 4];
  send n t body := Some (mkResult 302 (Some (if (n =? 0)%nat then "/again" else "http://10.0.0.1/")) "");
  allow_private := None
|}.

Example safePost_connections_witness :
  exists w' new, run (safePost (net:=rebinding_net) "http://hook.example/" "event") (mkNetWorld 0 []) =
      (inl (SsrfBlockedError SSRF_BLOCKED_MESSAGE), w') /\
    connections w' = new /\ Forall (fun t => isBlockedIp (pinnedAddress t) = false) new /\
    map pinnedAddress new = ["93.184.216.34"].
Proof.
  destruct (run (safePost (net:=rebinding_net) "http://hook.example/" "event") (mkNetWorld 0 [])) as [r w'] eqn:H.
  assert (Hh : forall s u, new_URL (Net:=rebinding_net) s = Some u -> is_ipv6 (url_hostname u) = false).
  { intros s u. simpl. repeat case_bool_decide; intros [= <-]; reflexivity. }
  destruct (safePost_connections (net:=rebinding_net) _ _ _ _ _ Hh eq_refl H) as (new & Hn & _ & Hf).
  vm_compute in H. injection H as <- <-. exists (mkNetWorld 2 (connections (mkNetWorld 0 []) ++ new)), new.
  simpl in Hn. subst new. repeat split; [exact Hf].
Defined.
