(* ===== verification/Json.v ===== *)
(** * Json: the JavaScript values the handlers pass around

    Objects are association lists in insertion order, as [Object.entries] sees
    them: assigning an existing property keeps its place, a new one goes last.
    Also the byte encodings of Node's [Buffer] ([hex], [base64url]). *)

From S2P Require Import Prelude.

Inductive json :=
| JNull
| JBool (b : bool)
| JNum (n : Z)
| JStr (s : string)
| JArr (l : list json)
| JObj (o : list (string * json)).

Notation obj := (list (string * json)).

(** [o[k]]; [None] is [undefined]. *)
Fixpoint obj_get (k : string) (o : obj) : option json :=
  match o with
  | [] => None
  | (k', v) :: o' => if k === k' then Some v else obj_get k o'
  end.

(** [o[k] = v]. *)
Fixpoint obj_set (k : string) (v : json) (o : obj) : obj :=
  match o with
  | [] => [(k, v)]
  | (k', v') :: o' => if k === k' then (k, v) :: o' else (k', v') :: obj_set k v o'
  end.

(** [{ ...o, ...p }]. *)
Definition spread (o p : obj) : obj := foldl (fun acc kv => obj_set kv.1 kv.2 acc) o p.

(** [{ k1: v1, ..., kn: vn }] where a property may be conditionally absent. *)
Definition obj_opt (k : string) (v : option json) : obj :=
  match v with Some v => [(k, v)] | None => [] end.

Definition JStrs (l : list string) : json := JArr (map JStr l).

(** [===] of two values ([None] is [undefined]) that are not the same object: objects
    and arrays compare by identity, and the values the services compare come from
    different places. *)
Definition strict_eq (a b : option json) : bool :=
  match a, b with
  | None, None | Some JNull, Some JNull => true
  | Some (JBool x), Some (JBool y) => Bool.eqb x y
  | Some (JNum x), Some (JNum y) => x =? y
  | Some (JStr x), Some (JStr y) => x === y
  | _, _ => false
  end.

(** [l.includes(v)] under the same reading. *)
Definition arr_includes (l : list json) (v : option json) : bool := existsb (fun x => strict_eq (Some x) v) l.

Definition is_nullish (v : option json) : bool :=
  match v with None | Some JNull => true | _ => false end.

(** [!!v]. *)
Definition js_truthy (v : option json) : bool :=
  match v with
  | None | Some JNull | Some (JBool false) => false
  | Some (JNum n) => negb (n =? 0)
  | Some (JStr s) => s !== EmptyString
  | _ => true
  end.

Lemma obj_get_set k k' v o :
  obj_get k (obj_set k' v o) = if k === k' then Some v else obj_get k o.
Proof.
  induction o as [|[q u] o IH]; simpl.
  - by repeat case_bool_decide.
  - repeat (case_bool_decide; simpl; simplify_eq; try done).
Qed.

Lemma obj_get_set_eq k v o : obj_get k (obj_set k v o) = Some v.
Proof. rewrite obj_get_set. by case_bool_decide. Qed.

Lemma obj_get_set_ne k k' v o : k <> k' -> obj_get k (obj_set k' v o) = obj_get k o.
Proof. intros H. rewrite obj_get_set. by case_bool_decide. Qed.

Lemma obj_get_app k o p :
  obj_get k (o ++ p) = match obj_get k o with Some v => Some v | None => obj_get k p end.
Proof. induction o as [|[q u] o IH]; simpl; [done|]. by case_bool_decide. Qed.

(** The last writer of a property wins. *)
Lemma obj_get_spread k o p :
  obj_get k (spread o p) =
    match obj_get k (rev p) with Some v => Some v | None => obj_get k o end.
Proof.
  unfold spread. revert o. induction p as [|[q u] p IH]; intros o; simpl; [done|].
  rewrite IH, obj_get_set, obj_get_app. simpl.
  destruct (obj_get k (rev p)); [done|]. by case_bool_decide.
Qed.

Lemma obj_get_None k o : obj_get k o = None <-> k ∉ map fst o.
Proof.
  induction o as [|[q u] o IH]; simpl; [split; [intros _; apply not_elem_of_nil | done]|].
  rewrite not_elem_of_cons. case_bool_decide; naive_solver.
Qed.

Lemma obj_get_spread_notin k o p :
  k ∉ map fst p -> obj_get k (spread o p) = obj_get k o.
Proof.
  intros H. rewrite obj_get_spread.
  rewrite (proj2 (obj_get_None k (rev p))); [done|].
  rewrite map_rev, rev_alt. intros Hk. by apply H, elem_of_reverse.
Qed.

(** ** Buffers *)

Definition hex_digit (n : N) : ascii :=
  ascii_of_N (if (n <? 10)%N then 48 + n else 87 + n)%N.

(** [buf.toString('hex')]. *)
Fixpoint to_hex (s : string) : string :=
  match s with
  | EmptyString => EmptyString
  | String c s' =>
      let n := N_of_ascii c in
      String (hex_digit (n / 16)) (String (hex_digit (n mod 16)) (to_hex s'))
  end.

Definition hex_value (c : ascii) : option N :=
  let n := N_of_ascii c in
  if ((48 <=? n) && (n <=? 57))%N then Some (n - 48)%N
  else if ((97 <=? n) && (n <=? 102))%N then Some (n - 87)%N
  else if ((65 <=? n) && (n <=? 70))%N then Some (n - 55)%N
  else None.

(** [Buffer.from(s, 'hex')]: decoding stops at the first pair that is not hex. *)
Fixpoint from_hex (s : string) : string :=
  match s with
  | String a (String b s') =>
      match hex_value a, hex_value b with
      | Some x, Some y => String (ascii_of_N (16 * x + y)) (from_hex s')
      | _, _ => EmptyString
      end
  | _ => EmptyString
  end.

Definition b64url_alphabet : string :=
  "ABCDEFGHIJKLMNOPQRSTUVWXYZabcdefghijklmnopqrstuvwxyz0123456789-_".
Definition b64url_char (n : N) : ascii :=
  default "000"%char (String.get (N.to_nat n) b64url_alphabet).

(** [buf.toString('base64url')]: no padding. *)
Fixpoint to_base64url (s : string) : string :=
  match s with
  | String a (String b (String c s')) =>
      let n := (65536 * N_of_ascii a + 256 * N_of_ascii b + N_of_ascii c)%N in
      String (b64url_char (n / 262144)) (String (b64url_char (n / 4096 mod 64))
        (String (b64url_char (n / 64 mod 64)) (String (b64url_char (n mod 64))
          (to_base64url s'))))
  | String a (String b EmptyString) =>
      let n := (1024 * N_of_ascii a + 4 * N_of_ascii b)%N in
      String (b64url_char (n / 4096)) (String (b64url_char (n / 64 mod 64))
        (String (b64url_char (n mod 64)) EmptyString))
  | String a EmptyString =>
      let n := (16 * N_of_ascii a)%N in
      String (b64url_char (n / 64)) (String (b64url_char (n mod 64)) EmptyString)
  | EmptyString => EmptyString
  end.

(** [buf.subarray(0, n)]. *)
Definition buf_prefix (n : nat) (s : string) : string := String.substring 0 n s.

Lemma hex_value_digit n : (n < 16)%N -> hex_value (hex_digit n) = Some n.
Proof.
  intros H. assert (Hn : n ∈ map N.of_nat (seq 0 16)).
  { apply list_elem_of_fmap. exists (N.to_nat n). split; [lia|]. apply elem_of_seq. lia. }
  simpl in Hn. set_unfold in Hn. by destruct_or! Hn; subst.
Qed.

Theorem from_hex_to_hex s : from_hex (to_hex s) = s.
Proof.
  induction s as [|c s IH]; [done|].
  change (to_hex (String c s)) with
    (String (hex_digit (N_of_ascii c / 16)) (String (hex_digit (N_of_ascii c mod 16)) (to_hex s))).
  assert (N_of_ascii c < 256)%N by apply N_ascii_bounded.
  cbn [from_hex].
  rewrite !hex_value_digit; [|apply N.mod_lt; done|apply N.Div0.div_lt_upper_bound; lia].
  rewrite IH. f_equal. rewrite <- N.div_mod by done. apply ascii_N_embedding.
Qed.
