(* ===== verification/JsNumber.v ===== *)
(** * JsNumber: String(v) and Number(v) of a JSON value

    Numbers are exact rationals with NaN and the infinities; the rounding of a double
    is not modelled, its overflow to Infinity is.  Number literals of JSON are integers
    in the model, so [String] of a number prints an integer. *)

From Stdlib Require Import QArith.
From S2P Require Import Prelude Json JsText.

Open Scope Z_scope.

Inductive jnum := NaN | Infinite (negative : bool) | Fin (q : Q).

Definition int_num (n : Z) : jnum := Fin (inject_Z n).

(** ** String(v) *)

Definition int_text (n : Z) : string :=
  if n <? 0 then "-" +:+ to_base 10 (- n) else to_base 10 n.

Fixpoint json_text (v : json) : string :=
  match v with
  | JNull => "null"
  | JBool b => if b then "true" else "false"
  | JNum n => int_text n
  | JStr s => s
  | JArr l => js_join "," (map (fun x => match x with JNull => EmptyString | _ => json_text x end) l)
  | JObj _ => "[object Object]"
  end.
Definition js_String (v : option json) : string :=
  match v with None => "undefined" | Some v => json_text v end.

(** ** Number(s) *)

(** Overflow: the doubles end at 2^1024 - 2^971, and 2^1024 - 2^970 rounds up. *)
Definition finite_or_infinite (neg : bool) (q : Q) : jnum :=
  if Qle_bool (inject_Z (2 ^ 1024 - 2 ^ 970)) q then Infinite neg
  else Fin (if neg then Qopp q else q).

(** The longest prefix of decimal digits, and the rest. *)
Fixpoint span_digits (s : string) : string * string :=
  match s with
  | String c s' => if dec_char c then let '(d, r) := span_digits s' in (String c d, r) else (EmptyString, s)
  | EmptyString => (EmptyString, EmptyString)
  end.

Definition digits_value (radix : Z) (s : string) : Z := digits_prefix radix s None ?? 0.

(** [e+12], and the end of the literal. *)
Definition exponent_part (s : string) : option Z :=
  match s with
  | EmptyString => Some 0
  | String c s' =>
      if (c === "e"%char) || (c === "E"%char) then
        let '(neg, digits) := strip_sign s' in
        if some_chars dec_char digits
        then Some (if (neg : bool) then - digits_value 10 digits else digits_value 10 digits)
        else None
      else None
  end.

(** [12], [12.5], [.5], [12.] with an optional exponent: mantissa and decimal exponent. *)
Definition decimal_literal (s : string) : option (Z * Z) :=
  let '(int, rest) := span_digits s in
  let '(frac, rest) := match rest with
                       | String c r => if c === "."%char then span_digits r else (EmptyString, rest)
                       | EmptyString => (EmptyString, rest)
                       end in
  if (int === EmptyString) && (frac === EmptyString) then None else
  match exponent_part rest with
  | Some e => Some (digits_value 10 (int +:+ frac), e - Z.of_nat (String.length frac))
  | None => None
  end.

Definition scale10 (m e : Z) : Q :=
  if 0 <=? e then inject_Z (m * 10 ^ e) else Qmake m (Z.to_pos (10 ^ (- e))).

Definition prefixed (lower upper : string) (radix : Z) (class : ascii -> bool) (s : string) : option Z :=
  if (starts_with lower s || starts_with upper s) && some_chars class (str_drop 2 s)
  then Some (digits_value radix (str_drop 2 s)) else None.

Definition number_of_text (s : string) : jnum :=
  let t := js_trim s in
  if t === EmptyString then Fin 0 else
  match prefixed "0x" "0X" 16 hex_char t, prefixed "0o" "0O" 8 (char_in 48 55) t,
        prefixed "0b" "0B" 2 (char_in 48 49) t with
  | Some n, _, _ | None, Some n, _ | None, None, Some n => finite_or_infinite false (inject_Z n)
  | None, None, None =>
      let '(neg, u) := strip_sign t in
      if u === "Infinity" then Infinite neg else
      match decimal_literal u with
      | Some (m, e) => finite_or_infinite neg (scale10 m e)
      | None => NaN
      end
  end.

Definition js_Number (v : option json) : jnum :=
  match v with
  | None => NaN
  | Some JNull => Fin 0
  | Some (JBool b) => Fin (if b then 1 else 0)
  | Some (JNum n) => Fin (inject_Z n)
  | Some (JStr s) => number_of_text s
  | Some (JArr l) => number_of_text (json_text (JArr l))
  | Some (JObj _) => NaN
  end.

(** [a < b]: false when either is NaN. *)
Definition jnum_lt (a b : jnum) : bool :=
  match a, b with
  | NaN, _ | _, NaN => false
  | Infinite n, Infinite m => n && negb m
  | Infinite n, Fin _ => n
  | Fin _, Infinite m => negb m
  | Fin p, Fin q => negb (Qle_bool q p)
  end.

(** ToInt32 truncates; NaN and the infinities give 0. *)
Definition jnum_trunc (a : jnum) : Z :=
  match a with
  | Fin q => Z.quot (Qnum q) (Zpos (Qden q))
  | _ => 0
  end.

(** ** Decimal integers *)

Lemma span_digits_all s : all_chars dec_char s = true -> span_digits s = (s, EmptyString).
Proof.
  induction s as [|c s IH]; simpl; [done|]. intros [-> Hs]%andb_true_iff. by rewrite IH.
Qed.

(** Every decimal spelling of a small integer is read back. *)
Lemma number_of_decimal n : 0 <= n < 2 ^ 53 -> number_of_text (to_base 10 n) = Fin (inject_Z n).
Proof.
  intros Hn. destruct (to_base_shape 10 n) as (d & r & Heq & Hd & _ & Hr); [lia..|].
  assert (Hall : all_chars dec_char (to_base 10 n) = true).
  { rewrite Heq. simpl. rewrite (dec_char_digit d) by lia. apply Hr. intros k Hk. apply dec_char_digit. lia. }
  assert (Hsp : all_chars (fun c => negb (is_space c)) (to_base 10 n) = true).
  { apply (all_chars_mono dec_char); [|done]. intros c Hc%dec_hex_char%hex_char_plain. by destruct Hc as [-> _]. }
  unfold number_of_text. rewrite (js_trim_all _ Hsp). cbv zeta.
  rewrite bool_decide_eq_false_2 by (by rewrite Heq).
  assert (Hp : forall u v, dec_char u = false -> dec_char v = false -> forall radix class,
            prefixed (String "0" (String u EmptyString)) (String "0" (String v EmptyString)) radix class
              (to_base 10 n) = None).
  { intros u v Hu Hv radix class. unfold prefixed. destruct (to_base 10 n) as [|c [|x s]]; [done| |].
    - simpl. by rewrite !andb_false_r.
    - cbn [starts_with]. simpl in Hall. rewrite !andb_true_iff in Hall. destruct Hall as (_ & Hx & _).
      rewrite (bool_decide_eq_false_2 (u = x)), (bool_decide_eq_false_2 (v = x)) by congruence.
      by repeat case_bool_decide. }
  rewrite !Hp by done.
  assert (strip_sign (to_base 10 n) = (false, to_base 10 n)) as ->.
  { rewrite Heq. unfold strip_sign. pose proof (dec_char_digit d ltac:(lia)) as Hc.
    apply dec_hex_char, hex_char_plain in Hc as (_ & Hm & Hpl & _). by rewrite !bool_decide_eq_false_2. }
  rewrite bool_decide_eq_false_2 by (intros He; by rewrite He in Hall).
  unfold decimal_literal. rewrite (span_digits_all _ Hall), bool_decide_eq_false_2 by (by rewrite Heq).
  simpl. unfold scale10. simpl. rewrite string_app_nil_r. unfold digits_value. rewrite to_base_value by lia.
  simpl. rewrite Z.mul_1_r. unfold finite_or_infinite.
  destruct (Qle_bool _ _) eqn:Hle; [|done]. exfalso. apply Qle_bool_iff in Hle. rewrite <- Zle_Qle in Hle.
  assert (2 ^ 53 < 2 ^ 1024 - 2 ^ 970) by (vm_compute; done). lia.
Qed.
