(* ===== verification/JsonText.v ===== *)
(** * JsonText: JSON texts and base64url (JSON.stringify, JSON.parse, Buffer)

    What the services use of the language's JSON: [JSON.stringify] of the values of
    [Json], and [JSON.parse] by recursive descent.  Numbers with a fraction or an
    exponent, integers that [String] prints with an exponent (beyond 10^21) and [\u]
    escapes beyond one byte have no counterpart in [Json]; the parser refuses such texts
    with the malformed ones. *)

From S2P Require Import Prelude JsText Json JsNumber.

Definition dquote : ascii := "034"%char.
Definition bslash : ascii := "\"%char.
Definition quote_text : string := String dquote EmptyString.

(** ** JSON.stringify *)

Definition escape_char (c : ascii) (rest : string) : string :=
  let n := N_of_ascii c in
  let short x := String bslash (String x rest) in
  if c === dquote then short dquote
  else if c === bslash then short bslash
  else if (n =? 8)%N then short "b"%char
  else if (n =? 9)%N then short "t"%char
  else if (n =? 10)%N then short "n"%char
  else if (n =? 12)%N then short "f"%char
  else if (n =? 13)%N then short "r"%char
  else if (n <? 32)%N then
    String bslash (String "u"%char (String "0"%char (String "0"%char
      (String (hex_digit (n / 16)) (String (hex_digit (n mod 16)) rest)))))
  else String c rest.

Fixpoint escape_text (s rest : string) : string :=
  match s with
  | EmptyString => rest
  | String c s' => escape_char c (escape_text s' rest)
  end.

(** A quoted string, in front of a text. *)
Definition quoted (s rest : string) : string := String dquote (escape_text s (String dquote rest)).

(** [a1,a2,...] in front of a text, each element printed in front of what follows. *)
Fixpoint commas {A} (print : A -> string -> string) (l : list A) (rest : string) : string :=
  match l with
  | [] => rest
  | [x] => print x rest
  | x :: l' => print x (String ","%char (commas print l' rest))
  end.

Fixpoint print_json (v : json) (rest : string) : string :=
  match v with
  | JNull => "null" +:+ rest
  | JBool b => (if b then "true" else "false") +:+ rest
  | JNum n => int_text n +:+ rest
  | JStr s => quoted s rest
  | JArr l => String "["%char (commas print_json l (String "]"%char rest))
  | JObj o =>
      String "{"%char
        (commas (fun '(k, x) r => quoted k (String ":"%char (print_json x r))) o (String "}"%char rest))
  end.

Definition JSON_stringify (v : json) : string := print_json v EmptyString.

(** ** JSON.parse *)

Definition json_space (c : ascii) : bool :=
  let n := N_of_ascii c in ((n =? 32) || (n =? 9) || (n =? 10) || (n =? 13))%N.
Fixpoint skip_space (s : string) : string :=
  match s with
  | String c s' => if json_space c then skip_space s' else s
  | EmptyString => EmptyString
  end.

Definition push (c : ascii) (r : option (string * string)) : option (string * string) :=
  match r with Some (t, rest) => Some (String c t, rest) | None => None end.

Definition unescape_char (e : ascii) : option ascii :=
  if (e === dquote) || (e === bslash) || (e === "/"%char) then Some e
  else if e === "b"%char then Some "008"%char
  else if e === "t"%char then Some "009"%char
  else if e === "n"%char then Some "010"%char
  else if e === "f"%char then Some "012"%char
  else if e === "r"%char then Some "013"%char
  else None.

(** The rest of a string literal, and what follows its closing quote. *)
Fixpoint parse_string (s : string) : option (string * string) :=
  match s with
  | EmptyString => None
  | String c s1 =>
      if c === dquote then Some (EmptyString, s1)
      else if c === bslash then
        match s1 with
        | EmptyString => None
        | String e s2 =>
            if e === "u"%char then
              match s2 with
              | String a (String b (String x (String y s3))) =>
                  match hex_value a, hex_value b, hex_value x, hex_value y with
                  | Some 0%N, Some 0%N, Some h, Some l => push (ascii_of_N (16 * h + l)) (parse_string s3)
                  | _, _, _, _ => None
                  end
              | _ => None
              end
            else match unescape_char e with Some c' => push c' (parse_string s2) | None => None end
        end
      else if (N_of_ascii c <? 32)%N then None
      else push c (parse_string s1)
  end.

(** A number ends where no digit, fraction or exponent goes on. *)
Definition number_end (s : string) : bool :=
  match s with
  | EmptyString => true
  | String c _ => negb (dec_char c || (c === "."%char) || (c === "e"%char) || (c === "E"%char))
  end.
Definition parse_number (s : string) : option (json * string) :=
  let '(neg, s1) := match s with
                    | String c r => if c === "-"%char then (true, r) else (false, s)
                    | EmptyString => (false, s)
                    end in
  let '(d, r) := span_digits s1 in
  match d with
  | EmptyString => None
  | String c d' =>
      if ((c === "0"%char) && (d' !== EmptyString)) || negb (number_end r) then None
      else Some (JNum (if neg : bool then - digits_value 10 d else digits_value 10 d), r)
  end.

Definition parse_word (word : string) (v : json) (s : string) : option (json * string) :=
  if starts_with word s then Some (v, str_drop (String.length word) s) else None.

Fixpoint parse_value (fuel : nat) (s : string) : option (json * string) :=
  match fuel with
  | 0%nat => None
  | S n =>
      match skip_space s with
      | EmptyString => None
      | String c s1 as t =>
          if c === dquote then
            match parse_string s1 with Some (x, r) => Some (JStr x, r) | None => None end
          else if c === "["%char then
            match skip_space s1 with
            | String d s2 =>
                if d === "]"%char then Some (JArr [], s2)
                else match parse_elements n s1 with Some (l, r) => Some (JArr l, r) | None => None end
            | EmptyString => None
            end
          else if c === "{"%char then
            match skip_space s1 with
            | String d s2 =>
                if d === "}"%char then Some (JObj [], s2)
                else match parse_members n s1 with Some (o, r) => Some (JObj (spread [] o), r) | None => None end
            | EmptyString => None
            end
          else if c === "n"%char then parse_word "null" JNull t
          else if c === "t"%char then parse_word "true" (JBool true) t
          else if c === "f"%char then parse_word "false" (JBool false) t
          else parse_number t
      end
  end
with parse_elements (fuel : nat) (s : string) : option (list json * string) :=
  match fuel with
  | 0%nat => None
  | S n =>
      match parse_value n s with
      | None => None
      | Some (v, r) =>
          match skip_space r with
          | EmptyString => None
          | String c r1 =>
              if c === ","%char then
                match parse_elements n r1 with Some (l, r2) => Some (v :: l, r2) | None => None end
              else if c === "]"%char then Some ([v], r1) else None
          end
      end
  end
with parse_members (fuel : nat) (s : string) : option (obj * string) :=
  match fuel with
  | 0%nat => None
  | S n =>
      match skip_space s with
      | EmptyString => None
      | String q s1 =>
          if q === dquote then
            match parse_string s1 with
            | None => None
            | Some (k, r) =>
                match skip_space r with
                | EmptyString => None
                | String c r1 =>
                    if c === ":"%char then
                      match parse_value n r1 with
                      | None => None
                      | Some (v, r2) =>
                          match skip_space r2 with
                          | EmptyString => None
                          | String d r3 =>
                              if d === ","%char then
                                match parse_members n r3 with Some (o, r4) => Some ((k, v) :: o, r4) | None => None end
                              else if d === "}"%char then Some ([(k, v)], r3) else None
                          end
                      end
                    else None
                end
            end
          else None
      end
  end.

(** The nesting of a text is at most its length, and each level takes two calls. *)
Definition parse_fuel (s : string) : nat := 2 * String.length s.
Definition JSON_parse (s : string) : option json :=
  match parse_value (parse_fuel s) s with
  | Some (v, r) => if skip_space r === EmptyString then Some v else None
  | None => None
  end.

Example parse_example :
  JSON_parse (str_map (fun c => if c === "'"%char then dquote else c) " {'a': [1, -20, true], 'b':{'c':'x\u0041\n'} , 'a':null}") =
  Some (JObj [("a", JNull); ("b", JObj [("c", JStr (String "x" (String "A" (String "010" EmptyString))))])]).
Proof. vm_compute. reflexivity. Qed.

(** ** Progress and fuel *)

Notation len := String.length.

Lemma skip_space_len s : (len (skip_space s) <= len s)%nat.
Proof. induction s as [|c s IH]; simpl; [lia|]. destruct (json_space c); simpl; lia. Qed.

Lemma push_inv c o t r : push c o = Some (t, r) -> exists t', o = Some (t', r).
Proof. destruct o as [[t' r']|]; simpl; [|done]. intros [= _ ->]. by exists t'. Qed.

Lemma parse_string_len s t r : parse_string s = Some (t, r) -> (len r < len s)%nat.
Proof.
  remember (len s) as n eqn:Hn. assert (Hle : (len s <= n)%nat) by lia. clear Hn. revert s t r Hle.
  induction n as [|n IH]; intros s t r Hle; destruct s as [|c s1]; simpl in Hle |- *; try done; [lia|].
  destruct (c === dquote); [intros [= _ ->]; lia|].
  destruct (c === bslash).
  - destruct s1 as [|e s2]; [done|]. simpl in Hle. destruct (e === "u"%char).
    + destruct s2 as [|a [|b [|x [|y s3]]]]; try done. simpl in Hle.
      destruct (hex_value a) as [[|p]|]; [|done|done]. destruct (hex_value b) as [[|p]|]; [|done|done].
      destruct (hex_value x); [|done]. destruct (hex_value y); [|done].
      intros [t' H]%push_inv. apply IH in H; lia.
    + destruct (unescape_char e); [|done]. intros [t' H]%push_inv. apply IH in H; lia.
  - destruct (N_of_ascii c <? 32)%N; [done|]. intros [t' H]%push_inv. apply IH in H; lia.
Qed.

Lemma str_drop_len n s : (len (str_drop n s) = len s - n)%nat.
Proof. revert s. induction n as [|n IH]; intros [|c s]; simpl; try lia. apply IH. Qed.

Lemma parse_word_len c w v s x r : parse_word (String c w) v s = Some (x, r) -> (len r < len s)%nat.
Proof.
  unfold parse_word. destruct (starts_with (String c w) s) eqn:H; [|done]. intros He.
  assert (r = str_drop (len (String c w)) s) as -> by (injection He as _ He; exact (eq_sym He)).
  apply starts_with_true in H as [t ->]. rewrite str_drop_len. simpl. lia.
Qed.

Lemma span_digits_len s d r : span_digits s = (d, r) -> (len s = len d + len r)%nat.
Proof.
  revert d. induction s as [|c s IH]; simpl; intros d; [by intros [= <- <-]|].
  destruct (dec_char c); [|by intros [= <- <-]]. destruct (span_digits s) as [d' r'].
  intros [= <- <-]. simpl. f_equal. by apply IH.
Qed.

Lemma parse_number_len s x r : parse_number s = Some (x, r) -> (len r < len s)%nat.
Proof.
  unfold parse_number. destruct (match s with String c r => _ | EmptyString => _ end) as [neg s1] eqn:Hs.
  assert (H1 : (len s1 <= len s)%nat).
  { destruct s as [|c s]; [by injection Hs as _ <-|]. destruct (c === "-"%char); injection Hs as _ <-; simpl; lia. }
  destruct (span_digits s1) as [d r'] eqn:Hd. apply span_digits_len in Hd.
  destruct d as [|c d']; [done|]. destruct (_ || _); [done|]. intros [= _ <-]. simpl in Hd. lia.
Qed.

Ltac parse_case :=
  match goal with
  | |- context [match ?x with _ => _ end] =>
      lazymatch x with
      | context [match _ with _ => _ end] => fail
      | _ => destruct x eqn:?
      end
  end.

(** A text that parses with some fuel parses with any fuel twice its length or more. *)
Lemma parse_fuel_enough n :
  (forall s v r, parse_value n s = Some (v, r) -> (len r < len s)%nat /\
     forall m, (2 * len s <= m)%nat -> parse_value m s = Some (v, r)) /\
  (forall s l r, parse_elements n s = Some (l, r) -> (len r < len s)%nat /\
     forall m, (2 * len s + 1 <= m)%nat -> parse_elements m s = Some (l, r)) /\
  (forall s o r, parse_members n s = Some (o, r) -> (len r < len s)%nat /\
     forall m, (2 * len s + 1 <= m)%nat -> parse_members m s = Some (o, r)).
Proof.
  induction n as [|n (IHv & IHe & IHm)]; [done|]. split; [|split]; intros s.
  - intros v r. cbn [parse_value]. pose proof (skip_space_len s) as Hs.
    destruct (skip_space s) as [|c s1] eqn:Ht; [done|]. simpl in Hs.
    assert (Hm : forall m, (2 * len s <= m)%nat -> exists m', m = S m' /\ (2 * len s1 + 1 <= m')%nat).
    { intros [|m'] H; [lia|]. exists m'. lia. }
    intros H. enough ((len r < S (len s1))%nat /\ forall m, (2 * len s1 + 1 <= m)%nat -> parse_value (S m) s = Some (v, r)) as [Hr Hf].
    { split; [lia|]. intros m Hle. destruct (Hm m Hle) as (m' & -> & Hm'). by apply Hf. }
    cbn [parse_value]. rewrite Ht. pose proof (skip_space_len s1) as Hs1.
    destruct (c === dquote); [|destruct (c === "["%char); [|destruct (c === "{"%char)]].
    + destruct (parse_string s1) as [[x r']|] eqn:Hp; [|done]. injection H as <- <-.
      apply parse_string_len in Hp. split; [lia|done].
    + destruct (skip_space s1) as [|d s2]; [done|]. simpl in Hs1. destruct (d === "]"%char).
      { injection H as <- <-. split; [lia|done]. }
      destruct (parse_elements n s1) as [[l r']|] eqn:Hp; [|done]. injection H as <- <-.
      apply IHe in Hp as [Hlen Hp]. split; [lia|]. intros m Hle. by rewrite (Hp m Hle).
    + destruct (skip_space s1) as [|d s2]; [done|]. simpl in Hs1. destruct (d === "}"%char).
      { injection H as <- <-. split; [lia|done]. }
      destruct (parse_members n s1) as [[l r']|] eqn:Hp; [|done]. injection H as <- <-.
      apply IHm in Hp as [Hlen Hp]. split; [lia|]. intros m Hle. by rewrite (Hp m Hle).
    + split; [|done]. repeat match type of H with (if ?b then _ else _) = _ => destruct b end;
        first [apply parse_word_len in H | apply parse_number_len in H]; simpl in H; lia.
  - intros l r. cbn [parse_elements]. destruct (parse_value n s) as [[v r0]|] eqn:Hv; [|done].
    apply IHv in Hv as [Hl Hv]. pose proof (skip_space_len r0) as Hs.
    destruct (skip_space r0) as [|c r1] eqn:Hc; [done|]. simpl in Hs. intros H.
    enough ((len r < len s)%nat /\ forall m, (2 * len s <= m)%nat -> parse_elements (S m) s = Some (l, r)) as [Hr Hf].
    { split; [done|]. intros [|m] Hle; [lia|]. apply Hf. lia. }
    cbn [parse_elements]. destruct (c === ","%char) eqn:Hcc.
    + destruct (parse_elements n r1) as [[l' r2]|] eqn:Hp; [|done]. injection H as <- <-.
      apply IHe in Hp as [Hlen Hp]. split; [lia|]. intros m Hle. by rewrite (Hv m Hle), Hc, Hcc, (Hp m) by lia.
    + destruct (c === "]"%char) eqn:Hcb; [|done]. injection H as <- <-. split; [lia|].
      intros m Hle. by rewrite (Hv m Hle), Hc, Hcc, Hcb.
  - intros o r. cbn [parse_members]. pose proof (skip_space_len s) as Hs.
    destruct (skip_space s) as [|q s1] eqn:Ht; [done|]. simpl in Hs.
    destruct (q === dquote) eqn:Hq; [|done]. destruct (parse_string s1) as [[k r0]|] eqn:Hk; [|done].
    pose proof (parse_string_len _ _ _ Hk) as Hlk. pose proof (skip_space_len r0) as Hs0.
    destruct (skip_space r0) as [|c r1] eqn:Hc; [done|]. simpl in Hs0.
    destruct (c === ":"%char) eqn:Hcol; [|done]. destruct (parse_value n r1) as [[v r2]|] eqn:Hv; [|done].
    apply IHv in Hv as [Hl Hv]. pose proof (skip_space_len r2) as Hs2.
    destruct (skip_space r2) as [|d r3] eqn:Hd; [done|]. simpl in Hs2. intros H.
    enough ((len r < len s)%nat /\ forall m, (2 * len s <= m)%nat -> parse_members (S m) s = Some (o, r)) as [Hr Hf].
    { split; [done|]. intros [|m] Hle; [lia|]. apply Hf. lia. }
    cbn [parse_members]. rewrite Ht, Hq, Hk, Hc, Hcol. destruct (d === ","%char) eqn:Hdc.
    + destruct (parse_members n r3) as [[o' r4]|] eqn:Hp; [|done]. injection H as <- <-.
      apply IHm in Hp as [Hlen Hp]. split; [lia|]. intros m Hle. by rewrite (Hv m), Hd, Hdc, (Hp m) by lia.
    + destruct (d === "}"%char) eqn:Hdb; [|done]. injection H as <- <-. split; [lia|].
      intros m Hle. by rewrite (Hv m), Hd, Hdc, Hdb by lia.
Qed.

(** What parses with any amount of fuel, [JSON_parse] parses. *)
Lemma JSON_parse_enough n s v : parse_value n s = Some (v, EmptyString) -> JSON_parse s = Some v.
Proof.
  intros H. apply (proj1 (parse_fuel_enough n)) in H as [_ H]. unfold JSON_parse. by rewrite H.
Qed.

(** ** Round trip *)

(** The keys of every object are distinct, as the properties of a JavaScript object are. *)
Fixpoint distinct_keys (v : json) : bool :=
  match v with
  | JArr l => forallb distinct_keys l
  | JObj o => bool_decide (NoDup (map fst o)) && forallb (fun kv => distinct_keys kv.2) o
  | _ => true
  end.

(** Induction over values with the elements and the members of the composite ones. *)
Definition json_ind' (P : json -> Prop)
    (Hnull : P JNull) (Hbool : forall b, P (JBool b)) (Hnum : forall n, P (JNum n)) (Hstr : forall s, P (JStr s))
    (Harr : forall l, Forall P l -> P (JArr l)) (Hobj : forall o, Forall (fun kv => P kv.2) o -> P (JObj o)) :
  forall v, P v :=
  fix go v := match v with
  | JNull => Hnull | JBool b => Hbool b | JNum n => Hnum n | JStr s => Hstr s
  | JArr l => Harr l ((fix all l := match l return Forall P l with
                       | [] => List.Forall_nil _ | x :: l' => List.Forall_cons _ _ _ (go x) (all l') end) l)
  | JObj o => Hobj o ((fix all o := match o return Forall (fun kv => P kv.2) o with
                       | [] => List.Forall_nil _
                       | kv :: o' => List.Forall_cons _ _ _ (go kv.2) (all o') end) o)
  end.

(** Escaping is undone. *)
Lemma parse_escaped s rest : parse_string (escape_text s (String dquote rest)) = Some (s, rest).
Proof.
  induction s as [|c s IH]; [done|]. simpl escape_text.
  set (t := escape_text s (String dquote rest)) in *. clearbody t.
  destruct c as [[] [] [] [] [] [] [] []]; lazy -[parse_string]; cbn; rewrite IH; reflexivity.
Qed.

Lemma span_digits_app d rest :
  all_chars dec_char d = true -> number_end rest = true -> span_digits (d +:+ rest) = (d, rest).
Proof.
  intros Hd Hr. induction d as [|c d IH].
  - destruct rest as [|c rest]; [done|]. simpl in Hr |- *. destruct (dec_char c); done.
  - simpl in Hd. apply andb_true_iff in Hd as [Hc Hd]. rewrite str_app_cons. simpl. by rewrite Hc, (IH Hd).
Qed.

Lemma int_text_shape n : exists c t, int_text n = String c t /\ (c = "-"%char \/ dec_char c = true).
Proof.
  unfold int_text. destruct (Z.ltb_spec n 0); [by eexists _, _; split; [|left]|].
  destruct (to_base_shape 10 n) as (d & r & -> & Hd & _); [lia..|]. eexists _, _. split; [done|].
  right. apply dec_char_digit. lia.
Qed.

(** Decimal digits without a leading zero are read back. *)
Lemma parse_decimal (neg : bool) n rest :
  0 <= n -> number_end rest = true ->
  (let '(d, r) := span_digits (to_base 10 n +:+ rest) in
   match d with
   | EmptyString => None
   | String c d' =>
       if ((c === "0"%char) && (d' !== EmptyString)) || negb (number_end r) then None
       else Some (JNum (if neg then - digits_value 10 d else digits_value 10 d), r)
   end) = Some (JNum (if neg then - n else n), rest).
Proof.
  intros Hn Hr. pose proof (to_base_value 10 n ltac:(lia) Hn) as Hv.
  destruct (to_base_shape 10 n) as (d & t & He & Hd & Hpos & Ht); [lia..|].
  assert (Hall : all_chars dec_char (to_base 10 n) = true).
  { rewrite He. simpl. rewrite (dec_char_digit d) by lia. apply Ht. intros k Hk. apply dec_char_digit. lia. }
  rewrite (span_digits_app _ _ Hall Hr). unfold digits_value. rewrite Hv. simpl default. rewrite He, Hr.
  rewrite orb_false_r. destruct ((digit_char d === "0"%char) && (t !== EmptyString)) eqn:Hz; [exfalso|done].
  apply andb_true_iff in Hz as [Hz%bool_decide_eq_true Hne%negb_true_iff%bool_decide_eq_false].
  assert (d = 0).
  { pose proof (digit_val_char d ltac:(lia)) as H1. rewrite Hz in H1. vm_compute in H1. by injection H1. }
  assert (n = 0) as -> by lia. vm_compute in He. injection He as _ <-. done.
Qed.

Lemma parse_int_text n rest : number_end rest = true -> parse_number (int_text n +:+ rest) = Some (JNum n, rest).
Proof.
  intros Hr. unfold int_text. destruct (Z.ltb_spec n 0) as [Hn|Hn].
  - change (("-" +:+ to_base 10 (- n)) +:+ rest) with (String "-"%char (to_base 10 (- n) +:+ rest)).
    unfold parse_number. rewrite bool_decide_eq_true_2 by done.
    pose proof (parse_decimal true (- n) rest ltac:(lia) Hr) as H. by rewrite Z.opp_involutive in H.
  - pose proof (parse_decimal false n rest Hn Hr) as H. unfold parse_number.
    destruct (to_base_shape 10 n) as (d & t & He & Hd & _); [lia..|]. rewrite He in H |- *. rewrite str_app_cons in H |- *.
    rewrite bool_decide_eq_false_2; [exact H|]. intros Hc.
    pose proof (dec_char_digit d ltac:(lia)) as Hdc. by rewrite Hc in Hdc.
Qed.

(** The first character of a printed value. *)
Definition opens (s : string) : Prop :=
  match s with
  | EmptyString => False
  | String c _ => json_space c = false /\ c <> "]"%char /\ c <> "}"%char
  end.
Lemma opens_skip s : opens s -> skip_space s = s.
Proof. destruct s as [|c s]; simpl; [done|]. by intros [-> _]. Qed.

Lemma json_space_char c : json_space c = true -> c = " "%char \/ c = "009"%char \/ c = "010"%char \/ c = "013"%char.
Proof.
  unfold json_space. intros H. rewrite <- (ascii_N_embedding c). revert H. generalize (N_of_ascii c). intros n H.
  repeat (apply orb_true_iff in H as [H|H]); apply N.eqb_eq in H; subst; auto.
Qed.

Lemma print_opens v rest : opens (print_json v rest).
Proof.
  destruct v as [|[]|n|s|l|o]; try done. simpl print_json.
  destruct (int_text_shape n) as (c & t & -> & Hc). rewrite str_app_cons. cbn [opens].
  destruct Hc as [->|Hc]; [done|]. split; [|split; intros ->; done].
  destruct (json_space c) eqn:Hs; [|done]. apply json_space_char in Hs.
  by destruct_or! Hs; subst c.
Qed.

Lemma parse_value_fuel n s v r m :
  parse_value n s = Some (v, r) -> (2 * len s <= m)%nat -> parse_value m s = Some (v, r).
Proof. intros H. apply (proj1 (parse_fuel_enough n)) in H as [_ H]. apply H. Qed.
Lemma parse_elements_fuel n s v r m :
  parse_elements n s = Some (v, r) -> (2 * len s + 1 <= m)%nat -> parse_elements m s = Some (v, r).
Proof. intros H. apply (proj1 (proj2 (parse_fuel_enough n))) in H as [_ H]. apply H. Qed.
Lemma parse_members_fuel n s v r m :
  parse_members n s = Some (v, r) -> (2 * len s + 1 <= m)%nat -> parse_members m s = Some (v, r).
Proof. intros H. apply (proj2 (proj2 (parse_fuel_enough n))) in H as [_ H]. apply H. Qed.

Definition parses (v : json) : Prop :=
  forall rest, number_end rest = true -> exists n, parse_value n (print_json v rest) = Some (v, rest).

Lemma parse_printed_elements l rest :
  l <> [] -> Forall parses l ->
  exists n, parse_elements n (commas print_json l (String "]"%char rest)) = Some (l, rest).
Proof.
  intros Hne Hl. induction Hl as [|x l Hx Hl IH]; [done|]. clear Hne. destruct l as [|y l].
  - destruct (Hx (String "]"%char rest) eq_refl) as [n Hn]. exists (S n). cbn [parse_elements commas].
    rewrite Hn. simpl skip_space. done.
  - destruct (IH ltac:(done)) as [m Hm]. cbn [commas].
    set (tail := commas print_json (y :: l) (String "]"%char rest)) in *.
    destruct (Hx (String ","%char tail) eq_refl) as [n Hn].
    exists (S (2 * len (print_json x (String ","%char tail)) + 2 * len tail + 1)). cbn [parse_elements].
    rewrite (parse_value_fuel _ _ _ _ _ Hn) by lia. simpl skip_space. cbv iota.
    rewrite bool_decide_eq_true_2 by done. by rewrite (parse_elements_fuel _ _ _ _ _ Hm) by lia.
Qed.

Definition print_member (kv : string * json) (r : string) : string :=
  quoted kv.1 (String ":"%char (print_json kv.2 r)).

Lemma parse_printed_members o rest :
  o <> [] -> Forall (fun kv => parses kv.2) o ->
  exists n, parse_members n (commas print_member o (String "}"%char rest)) = Some (o, rest).
Proof.
  intros Hne Hl. induction Hl as [|[k x] o Hx Hl IH]; [done|]. clear Hne. simpl in Hx. destruct o as [|y o].
  - destruct (Hx (String "}"%char rest) eq_refl) as [n Hn]. exists (S n). cbn [parse_members commas].
    unfold print_member, quoted. cbn [fst snd]. simpl skip_space. cbv iota. rewrite bool_decide_eq_true_2 by done.
    rewrite parse_escaped. simpl skip_space. cbv iota. rewrite bool_decide_eq_true_2 by done. rewrite Hn.
    simpl skip_space. done.
  - destruct (IH ltac:(done)) as [m Hm]. cbn [commas].
    set (tail := commas print_member (y :: o) (String "}"%char rest)) in *.
    destruct (Hx (String ","%char tail) eq_refl) as [n Hn].
    exists (S (2 * len (print_json x (String ","%char tail)) + 2 * len tail + 1)). cbn [parse_members].
    unfold print_member, quoted at 1. cbn [fst snd]. simpl skip_space at 1. cbv iota.
    rewrite bool_decide_eq_true_2 by done. rewrite parse_escaped. simpl skip_space at 1. cbv iota.
    rewrite bool_decide_eq_true_2 by done. rewrite (parse_value_fuel _ _ _ _ _ Hn) by lia. simpl skip_space. cbv iota.
    rewrite bool_decide_eq_true_2 by done. by rewrite (parse_members_fuel _ _ _ _ _ Hm) by lia.
Qed.

(** Building an object from members with distinct keys. *)
Lemma obj_set_new k v o : k ∉ map fst o -> obj_set k v o = o ++ [(k, v)].
Proof.
  induction o as [|[q u] o IH]; simpl; [done|]. intros [Hk Ho]%not_elem_of_cons.
  rewrite bool_decide_eq_false_2 by done. by rewrite (IH Ho).
Qed.
Lemma spread_distinct acc o : NoDup (map fst (acc ++ o)) -> spread acc o = acc ++ o.
Proof.
  unfold spread. revert acc. induction o as [|[k v] o IH]; intros acc H; simpl; [by rewrite app_nil_r|].
  rewrite obj_set_new.
  - rewrite IH; rewrite <- app_assoc; done.
  - rewrite map_app in H. apply NoDup_app in H as (_ & H & _). intros Hk. apply (H k Hk). simpl. set_solver.
Qed.

(** The composite values. *)
Lemma parse_array n s :
  parse_value (S n) (String "["%char s) =
    match skip_space s with
    | String d s2 =>
        if d === "]"%char then Some (JArr [], s2)
        else match parse_elements n s with Some (l, r) => Some (JArr l, r) | None => None end
    | EmptyString => None
    end.
Proof. reflexivity. Qed.
Lemma parse_object n s :
  parse_value (S n) (String "{"%char s) =
    match skip_space s with
    | String d s2 =>
        if d === "}"%char then Some (JObj [], s2)
        else match parse_members n s with Some (o, r) => Some (JObj (spread [] o), r) | None => None end
    | EmptyString => None
    end.
Proof. reflexivity. Qed.

(** Parsing what [stringify] prints gives the value back. *)
Theorem parse_print v : distinct_keys v = true -> parses v.
Proof.
  induction v as [|b|n|s|l IH|o IH] using json_ind'; intros Hd rest Hr.
  - exists 1%nat. done.
  - exists 1%nat. by destruct b.
  - exists 1%nat. cbn [parse_value print_json]. destruct (int_text_shape n) as (c & t & He & Hc).
    pose proof (print_opens (JNum n) rest) as Ho. cbn [print_json] in Ho. rewrite (opens_skip _ Ho). clear Ho.
    pose proof (parse_int_text n rest Hr) as Hp. rewrite He in Hp |- *. rewrite str_app_cons in Hp |- *.
    rewrite !bool_decide_eq_false_2; [exact Hp|..]; destruct Hc as [->|Hc]; try done; by intros ->.
  - exists 1%nat. cbn [parse_value print_json]. unfold quoted. simpl skip_space. cbv iota.
    rewrite bool_decide_eq_true_2 by done. by rewrite parse_escaped.
  - simpl in Hd. cbn [print_json]. destruct l as [|x l]; [by exists 1%nat|].
    destruct (parse_printed_elements (x :: l) rest) as [n Hn]; [done| |].
    { apply Forall_forall. intros y Hy. rewrite Forall_forall in IH. apply IH; [done|].
      apply forallb_forall with (x := y) in Hd; [done|]. by apply list_elem_of_In. }
    exists (S n). rewrite parse_array.
    assert (Ho : opens (commas print_json (x :: l) (String "]"%char rest))) by (destruct l; apply print_opens).
    rewrite (opens_skip _ Ho), Hn. destruct (commas print_json (x :: l) (String "]"%char rest)) as [|c t]; [done|].
    destruct Ho as (_ & Hc & _). simpl. by rewrite bool_decide_eq_false_2.
  - simpl in Hd. apply andb_true_iff in Hd as [Hnd%bool_decide_eq_true Hd]. cbn [print_json].
    destruct o as [|x o]; [by exists 1%nat|].
    destruct (parse_printed_members (x :: o) rest) as [n Hn]; [done| |].
    { apply Forall_forall. intros y Hy. rewrite Forall_forall in IH. apply IH; [done|].
      apply forallb_forall with (x := y) in Hd; [done|]. by apply list_elem_of_In. }
    exists (S n). rewrite parse_object.
    assert (commas (fun '(k, x) r => quoted k (String ":"%char (print_json x r))) (x :: o) (String "}"%char rest) =
            commas print_member (x :: o) (String "}"%char rest)) as ->.
    { clear. generalize (String "}"%char rest). intros r. revert x.
      induction o as [|y o IH]; intros [k v]; [done|]. cbn [commas] in *. by rewrite IH. }
    assert (Ho : skip_space (commas print_member (x :: o) (String "}"%char rest)) =
                 commas print_member (x :: o) (String "}"%char rest)) by (by destruct x, o).
    rewrite Ho, Hn. rewrite (spread_distinct [] _ Hnd). by destruct x, o.
Qed.

Theorem JSON_roundtrip v : distinct_keys v = true -> JSON_parse (JSON_stringify v) = Some v.
Proof. intros H. destruct (parse_print v H EmptyString eq_refl) as [n Hn]. by apply (JSON_parse_enough n). Qed.

(** ** base64url *)

(** The value of a digit of either base64 alphabet. *)
Definition b64_value (c : ascii) : option N :=
  let n := N_of_ascii c in
  if ((65 <=? n) && (n <=? 90))%N then Some (n - 65)%N
  else if ((97 <=? n) && (n <=? 122))%N then Some (n - 71)%N
  else if ((48 <=? n) && (n <=? 57))%N then Some (n + 4)%N
  else if ((n =? 45) || (n =? 43))%N then Some 62%N
  else if ((n =? 95) || (n =? 47))%N then Some 63%N
  else None.

(** The digits of a text; other characters are skipped. *)
Fixpoint b64_digits (s : string) : list N :=
  match s with
  | EmptyString => []
  | String c s' => match b64_value c with Some n => n :: b64_digits s' | None => b64_digits s' end
  end.
Definition byte (n : N) : ascii := ascii_of_N (n mod 256).
Fixpoint b64_bytes (l : list N) : string :=
  match l with
  | a :: b :: c :: d :: l' =>
      let n := (262144 * a + 4096 * b + 64 * c + d)%N in
      String (byte (n / 65536)) (String (byte (n / 256)) (String (byte n) (b64_bytes l')))
  | [a; b; c] =>
      let n := (4096 * a + 64 * b + c)%N in String (byte (n / 1024)) (String (byte (n / 4)) EmptyString)
  | [a; b] => let n := (64 * a + b)%N in String (byte (n / 16)) EmptyString
  | _ => EmptyString
  end.
(** [Buffer.from(s, 'base64url').toString()]. *)
Definition from_base64url (s : string) : string := b64_bytes (b64_digits s).

Lemma b64_value_char n : (n < 64)%N -> b64_value (b64url_char n) = Some n.
Proof.
  intros H. assert (Hn : n ∈ map N.of_nat (seq 0 64)).
  { apply list_elem_of_fmap. exists (N.to_nat n). split; [lia|]. apply elem_of_seq. lia. }
  apply list_elem_of_In in Hn. clear H. revert n Hn. apply List.Forall_forall.
  repeat constructor.
Qed.

Lemma b64_digits_char n s : (n < 64)%N -> b64_digits (String (b64url_char n) s) = n :: b64_digits s.
Proof. intros H. cbn [b64_digits]. by rewrite b64_value_char. Qed.

Lemma byte_of c n : n = N_of_ascii c -> byte n = c.
Proof.
  intros ->. unfold byte. rewrite N.mod_small by apply N_ascii_bounded. apply ascii_N_embedding.
Qed.
Lemma byte_mod n m k : (n = m + 256 * k)%N -> byte n = byte m.
Proof. intros ->. unfold byte. rewrite (N.mul_comm 256), N.Div0.mod_add. done. Qed.

Theorem from_base64url_roundtrip s : from_base64url (to_base64url s) = s.
Proof.
  unfold from_base64url. remember (String.length s) as n eqn:Hn. assert (Hle : (String.length s <= n)%nat) by lia.
  clear Hn. revert s Hle. induction n as [|n IH]; intros s Hle; [by destruct s; [|simpl in Hle; lia]|].
  destruct s as [|a [|b [|c s]]]; [done|..]; pose proof (N_ascii_bounded a).
  - cbn [to_base64url]. cbv zeta. set (x := N_of_ascii a) in *.
    rewrite !b64_digits_char by first [apply N.mod_lt; done | apply N.Div0.div_lt_upper_bound; lia].
    cbn [b64_digits b64_bytes]. f_equal. apply byte_of. fold x. rewrite <- N.div_mod by done.
    rewrite (N.mul_comm 16), N.div_mul; done.
  - pose proof (N_ascii_bounded b). cbn [to_base64url]. cbv zeta. set (x := N_of_ascii a) in *. set (y := N_of_ascii b) in *.
    set (m := (1024 * x + 4 * y)%N). assert (Hm : (m < 262144)%N) by lia.
    rewrite !b64_digits_char by first [apply N.mod_lt; done | apply N.Div0.div_lt_upper_bound; lia].
    cbn [b64_digits b64_bytes].
    assert (4096 * (m / 4096) + 64 * (m / 64 mod 64) + m mod 64 = m)%N as ->.
    { pose proof (N.div_mod m 64). pose proof (N.div_mod (m / 64) 64). rewrite N.Div0.div_div in *. change (64 * 64)%N with 4096%N in *. lia. }
    f_equal; [|f_equal].
    + apply byte_of. fold x. unfold m. symmetry. apply (N.div_unique _ _ _ (4 * y)); lia.
    + transitivity (byte y); [|by apply byte_of]. apply (byte_mod _ _ x). unfold m.
      symmetry. apply (N.div_unique _ _ _ 0); lia.
  - pose proof (N_ascii_bounded b). pose proof (N_ascii_bounded c). cbn [to_base64url]. cbv zeta.
    set (x := N_of_ascii a) in *. set (y := N_of_ascii b) in *. set (z := N_of_ascii c) in *.
    set (m := (65536 * x + 256 * y + z)%N). assert (Hm : (m < 16777216)%N) by lia.
    rewrite !b64_digits_char by first [apply N.mod_lt; done | apply N.Div0.div_lt_upper_bound; lia].
    cbn [b64_bytes]. rewrite (IH s) by (simpl in Hle; lia).
    assert (262144 * (m / 262144) + 4096 * (m / 4096 mod 64) + 64 * (m / 64 mod 64) + m mod 64 = m)%N as ->.
    { pose proof (N.div_mod m 64). pose proof (N.div_mod (m / 64) 64). pose proof (N.div_mod (m / 4096) 64).
      rewrite !N.Div0.div_div in *. change (64 * 64)%N with 4096%N in *. change (4096 * 64)%N with 262144%N in *. lia. }
    repeat f_equal.
    + apply byte_of. fold x. unfold m. symmetry. apply (N.div_unique _ _ _ (256 * y + z)); lia.
    + transitivity (byte y); [|by apply byte_of]. apply (byte_mod _ _ x). unfold m.
      symmetry. apply (N.div_unique _ _ _ z); lia.
    + transitivity (byte z); [|by apply byte_of]. apply (byte_mod _ _ (256 * x + y)). unfold m. lia.
Qed.
