(* ===== verification/Schema.v ===== *)
(** * Schema: the rows the services store (prisma/schema.prisma)

    One record per Prisma model, with the columns the modelled services read or
    write, and one constructor of [Table] per model.  Dates are milliseconds
    since the epoch, [Int] columns are [Z], nullable columns are [option]. *)

From Stdlib Require Import SpecFloat.
From S2P Require Import Prelude Json.

Record Realm := mkRealm {
  realm_id : string; realm_name : string; realm_displayName : option string;
  realm_accessTokenLifespan : Z; realm_refreshTokenLifespan : Z; realm_offlineTokenLifespan : Z;
  realm_passwordMinLength : Z; realm_passwordRequireUppercase : bool;
  realm_passwordRequireLowercase : bool; realm_passwordRequireDigits : bool;
  realm_passwordRequireSpecialChars : bool; realm_passwordMaxAgeDays : Z;
  realm_bruteForceEnabled : bool; realm_maxLoginFailures : Z; realm_lockoutDuration : Z;
  realm_failureResetTime : Z; realm_permanentLockoutAfter : Z;
  realm_mfaRequired : bool;
  realm_magicLinkEnabled : bool; realm_magicLinkExpirySeconds : Z;
  realm_magicLinkRateLimitPerEmail : Z;
  realm_smsMfaEnabled : bool; realm_smsProvider : string;
  realm_otpLength : Z; realm_otpExpirySeconds : Z;
  realm_smsMaxRequestsPerUser : Z; realm_smsRateLimitWindow : Z;
  realm_maxSessionsPerUser : Z; realm_eventsEnabled : bool;
  realm_rateLimitEnabled : bool;
  realm_clientRateLimitPerMinute : Z; realm_clientRateLimitPerHour : Z;
  realm_userRateLimitPerMinute : Z; realm_userRateLimitPerHour : Z;
  realm_ipRateLimitPerMinute : Z; realm_ipRateLimitPerHour : Z;
  realm_impersonationEnabled : bool; realm_impersonationMaxDuration : Z;
  realm_adminEventsEnabled : bool; realm_scimEnabled : bool;
  realm_passwordHistoryCount : Z;
  realm_registrationAllowed : bool; realm_registrationApprovalRequired : bool;
  realm_allowedEmailDomains : list string; realm_requireEmailVerification : bool;
  realm_webAuthnEnabled : bool; realm_webAuthnRpName : option string;
  realm_webAuthnRpId : option string; realm_webAuthnUserVerificationRequired : bool;
  realm_enabled : bool; realm_deletionGracePeriodDays : Z; realm_termsOfServiceUrl : option string;
  realm_adaptiveAuthEnabled : bool; realm_riskThresholdStepUp : Z; realm_riskThresholdBlock : Z;
  realm_smtpHost : option string; realm_smtpPort : option Z; realm_smtpUser : option string;
  realm_smtpPassword : option string; realm_smtpFrom : option string; realm_smtpSecure : bool;
  realm_emailProvider : string; realm_emailProviderConfig : option json
}.

Record User := mkUser {
  user_id : string; user_realmId : string; user_username : string;
  user_email : option string; user_emailVerified : bool;
  user_firstName : option string; user_lastName : option string;
  user_enabled : bool; user_passwordHash : option string; user_passwordAlgorithm : string;
  user_federationLink : option string;
  user_passwordChangedAt : option Z; user_lockedUntil : option Z; user_createdAt : Z
}.

Inductive ClientType := CONFIDENTIAL | PUBLIC.
#[export] Instance ClientType_eq_dec : EqDecision ClientType.
Proof. solve_decision. Defined.

Record Client := mkClient {
  client_id : string; client_realmId : string; client_clientId : string;
  client_clientSecret : option string; client_clientType : ClientType; client_enabled : bool;
  client_redirectUris : list string; client_grantTypes : list string;
  client_postLogoutRedirectUris : list string;
  client_requiredAcr : option string; client_serviceAccountUserId : option string;
  client_authFlowId : option string; client_requireConsent : bool; client_name : option string;
  client_description : option string; client_webOrigins : list string;
  client_backchannelLogoutUri : option string; client_backchannelLogoutSessionRequired : bool;
  client_stepUpCacheDuration : Z; client_createdAt : Z
}.

Record Role := mkRole {
  role_id : string; role_realmId : string; role_clientId : option string; role_name : string
}.

Record UserRole := mkUserRole { ur_userId : string; ur_roleId : string }.

Record Session := mkSession {
  session_id : string; session_userId : string;
  session_ipAddress : option string; session_userAgent : option string;
  session_satisfiedAcr : option string; session_amr : list string;
  session_createdAt : Z; session_expiresAt : Z
}.

Record RefreshToken := mkRefreshToken {
  rt_id : string; rt_sessionId : string; rt_tokenHash : string; rt_scope : option string;
  rt_revoked : bool; rt_isOffline : bool; rt_clientId : option string;
  rt_createdAt : Z; rt_expiresAt : Z
}.

Record AuthorizationCode := mkAuthorizationCode {
  ac_id : string; ac_code : string; ac_clientId : string; ac_userId : string;
  ac_redirectUri : string; ac_scope : option string;
  ac_codeChallenge : option string; ac_codeChallengeMethod : option string;
  ac_nonce : option string; ac_acrValues : option string;
  ac_satisfiedAcr : option string; ac_amr : list string;
  ac_used : bool; ac_expiresAt : Z
}.

Record RealmSigningKey := mkRealmSigningKey {
  key_realmId : string; key_kid : string; key_publicKey : string; key_privateKey : string;
  key_active : bool; key_createdAt : Z
}.

Record LoginSession := mkLoginSession {
  ls_id : string; ls_userId : string; ls_realmId : string; ls_tokenHash : string;
  ls_ipAddress : option string; ls_userAgent : option string;
  ls_satisfiedAcr : option string; ls_amr : list string;
  ls_createdAt : Z; ls_expiresAt : Z
}.

Record StepUpRecord := mkStepUpRecord {
  su_sessionId : string; su_acrLevel : string; su_completedAt : Z; su_expiresAt : Z
}.

Record Group := mkGroup {
  group_id : string; group_realmId : string; group_name : string; group_parentId : option string
}.
Record UserGroup := mkUserGroup { ug_userId : string; ug_groupId : string }.
Record GroupRole := mkGroupRole { gr_groupId : string; gr_roleId : string }.

Record LoginFailure := mkLoginFailure {
  lf_realmId : string; lf_userId : option string; lf_ipAddress : option string; lf_failedAt : Z
}.
Record TotpFailure := mkTotpFailure {
  tf_userId : string; tf_ipAddress : option string; tf_failedAt : Z
}.
Record WebAuthnFailure := mkWebAuthnFailure {
  wf_realmId : string; wf_userId : string; wf_ipAddress : option string; wf_failedAt : Z
}.

Record UserCredential := mkUserCredential {
  cred_id : string; cred_userId : string; cred_type : string; cred_secretKey : string;
  cred_phoneNumber : option string;
  cred_algorithm : string; cred_digits : Z; cred_period : Z; cred_verified : bool
}.
Record RecoveryCode := mkRecoveryCode {
  rc_id : string; rc_userId : string; rc_codeHash : string; rc_used : bool
}.
Record UsedTotpCode := mkUsedTotpCode {
  ut_userId : string; ut_codeHash : string; ut_expiresAt : Z
}.
Record OtpAttempt := mkOtpAttempt {
  oa_id : string; oa_realmId : string; oa_userId : string; oa_purpose : string;
  oa_bindingHash : string; oa_phoneHash : string; oa_phoneEncrypted : option string;
  oa_codeHash : string; oa_attempts : Z; oa_sendCount : Z; oa_lastSentAt : Z; oa_expiresAt : Z
}.
Record SmsDeliveryLog := mkSmsDeliveryLog {
  sl_id : string; sl_realmId : string; sl_userId : string; sl_phoneHash : string;
  sl_ipHash : option string; sl_provider : string; sl_status : string;
  sl_errorMessage : option string; sl_createdAt : Z
}.

(** What [ConsentRequest] has beyond the user and the client (consent.service.ts). *)
Record ConsentDetails := mkConsentDetails {
  cd_clientName : string; cd_realmName : string; cd_scopes : list string;
  cd_oauthParams : list (string * string); cd_satisfiedAcr : option string; cd_amr : option (list string)
}.

(** The JSON object of [PendingAction.data]: the challenge and enrolment shapes
    of mfa.service.ts, the phone enrolment of sms-otp.service.ts, the request of
    consent.service.ts and the challenge of webauthn.service.ts share one record of optional properties. *)
Record PendingData := mkPendingData {
  pd_userId : string; pd_realmId : string; pd_clientId : option string;
  pd_oauthParams : option (list (string * string)); pd_primaryAmr : option (list string);
  pd_rememberMe : option bool; pd_verified : option bool; pd_factor : option string;
  pd_maskedPhone : option string; pd_phoneEncrypted : option string;
  pd_consent : option ConsentDetails;
  pd_challenge : option string
}.
Record PendingAction := mkPendingAction {
  pa_id : string; pa_tokenHash : string; pa_type : string; pa_data : PendingData;
  pa_attempts : Z; pa_expiresAt : Z; pa_createdAt : Z
}.

Record ClientScope := mkClientScope { cs_id : string; cs_realmId : string; cs_name : string }.
Record ProtocolMapper := mkProtocolMapper {
  pm_clientScopeId : string; pm_mapperType : string; pm_config : obj
}.
Record ClientScopeLink := mkClientScopeLink { csl_clientId : string; csl_clientScopeId : string }.

Record DeviceCode := mkDeviceCode {
  dc_id : string; dc_deviceCode : string; dc_userCode : string; dc_clientId : string;
  dc_realmId : string; dc_scope : option string; dc_userId : option string;
  dc_approved : bool; dc_denied : bool; dc_interval : Z; dc_lastPolledAt : option Z;
  dc_expiresAt : Z
}.

Record LoginEvent := mkLoginEvent {
  le_realmId : string; le_userId : option string; le_sessionId : option string;
  le_type : string; le_clientId : option string; le_ipAddress : option string;
  le_error : option string; le_createdAt : Z
}.

Record AdminEvent := mkAdminEvent {
  ae_realmId : string; ae_adminUserId : string; ae_operationType : string; ae_resourceType : string;
  ae_resourcePath : string; ae_ipAddress : option string; ae_createdAt : Z
}.

Record CustomAttribute := mkCustomAttribute {
  ca_id : string; ca_realmId : string; ca_name : string; ca_mapToOidcClaim : option string;
  ca_displayName : string; ca_type : string; ca_required : bool; ca_showOnRegistration : bool;
  ca_showOnProfile : bool; ca_options : option (list string); ca_sortOrder : Z; ca_createdAt : Z
}.
Record UserAttribute := mkUserAttribute {
  ua_userId : string; ua_attributeId : string; ua_value : string
}.

(** [avgLoginFrequency] is a double; the other columns are JSON arrays. *)
Record UserLoginProfile := mkUserLoginProfile {
  ulp_id : string; ulp_userId : string; ulp_realmId : string; ulp_knownIps : list string;
  ulp_knownDevices : list string; ulp_loginTimes : list Z; ulp_lastLocations : list string;
  ulp_avgLoginFrequency : spec_float
}.
(** A signal of the risk engine, in the JSON column [signals] of an assessment. *)
Record RiskSignal := mkRiskSignal {
  sig_name : string; sig_score : Z; sig_weight : spec_float; sig_reason : string; sig_triggered : bool
}.
Record LoginRiskAssessment := mkLoginRiskAssessment {
  lra_id : string; lra_loginEventId : option string; lra_userId : string; lra_realmId : string;
  lra_riskScore : Z; lra_riskLevel : string; lra_signals : list RiskSignal; lra_action : string;
  lra_ipAddress : option string; lra_userAgent : option string; lra_geoLocation : option string;
  lra_deviceFingerprint : option string; lra_createdAt : Z
}.

Record RevokedToken := mkRevokedToken { rvk_jti : string; rvk_expiresAt : Z }.

Record RateLimitEntry := mkRateLimitEntry {
  rle_key : string; rle_minuteCount : Z; rle_minuteWindowStart : Z;
  rle_hourCount : Z; rle_hourWindowStart : Z
}.

Record PasswordHistory := mkPasswordHistory {
  ph_id : string; ph_userId : string; ph_realmId : string; ph_passwordHash : string;
  ph_createdAt : Z
}.

Record ImpersonationSession := mkImpersonationSession {
  imp_id : string; imp_realmId : string; imp_adminUserId : string; imp_targetUserId : string;
  imp_sessionId : string; imp_active : bool; imp_expiresAt : Z; imp_endedAt : option Z
}.

Record MagicLinkRequest := mkMagicLinkRequest {
  ml_id : string; ml_realmId : string; ml_userId : string; ml_email : string;
  ml_tokenHash : string; ml_status : string; ml_ipAddress : option string; ml_userAgent : option string;
  ml_expiresAt : Z; ml_createdAt : Z; ml_completedAt : option Z
}.

Record UserFederation := mkUserFederation {
  uf_id : string; uf_realmId : string; uf_enabled : bool; uf_priority : Z; uf_importEnabled : bool
}.

Record FlowStepCondition := mkFlowStepCondition {
  cond_field : string; cond_operator : string; cond_value : option json
}.
Record FlowStep := mkFlowStep {
  step_id : string; step_type : string; step_required : bool; step_order : Z;
  step_condition : option FlowStepCondition; step_fallbackStepId : option string
}.
Record AuthenticationFlow := mkAuthenticationFlow {
  af_id : string; af_realmId : string; af_name : string; af_description : option string;
  af_isDefault : bool; af_steps : list FlowStep; af_createdAt : Z
}.

Record ServiceAccount := mkServiceAccount {
  sa_id : string; sa_realmId : string; sa_name : string; sa_description : option string; sa_enabled : bool;
  sa_createdAt : Z
}.
Record ApiKey := mkApiKey {
  ak_id : string; ak_serviceAccountId : string; ak_keyPrefix : string; ak_keyHash : string;
  ak_name : option string; ak_scopes : list string; ak_expiresAt : option Z; ak_lastUsedAt : option Z;
  ak_requestCount : Z; ak_revoked : bool; ak_revokedAt : option Z;
  ak_rateLimitPerMinute : option Z; ak_maxRequestsPerDay : option Z; ak_maxRequestsPerMonth : option Z;
  ak_requireIpRestriction : bool; ak_allowedIpRanges : list string; ak_createdAt : Z
}.

Record UserConsent := mkUserConsent { uc_id : string; uc_userId : string; uc_clientId : string; uc_scopes : list string }.
Record UserConsentHistory := mkUserConsentHistory {
  uch_id : string; uch_userId : string; uch_clientId : string; uch_action : string; uch_scopes : list string;
  uch_policyVersion : option string; uch_ipAddress : option string; uch_userAgent : option string;
  uch_metadata : option obj; uch_createdAt : Z
}.
Record ConsentCategory := mkConsentCategory {
  cc_id : string; cc_realmId : string; cc_key : string; cc_enabled : bool; cc_scopes : list string
}.
Record ConsentPolicy := mkConsentPolicy {
  cp_categoryId : string; cp_version : string; cp_isActive : bool; cp_publishedAt : option Z
}.

Record ProxyApplication := mkProxyApplication {
  papp_id : string; papp_realmId : string; papp_slug : string; papp_name : string; papp_enabled : bool;
  papp_clientId : string; papp_allowedRedirectUris : list string; papp_cookieDomain : string;
  papp_cookieTtl : Z; papp_userHeader : string; papp_emailHeader : string; papp_nameHeader : string;
  papp_groupsHeader : string
}.
Record ProxySession := mkProxySession {
  ps_id : string; ps_proxyApplicationId : string; ps_userId : string; ps_tokenHash : string;
  ps_ipAddress : option string; ps_userAgent : option string; ps_expiresAt : Z
}.

Record VerificationToken := mkVerificationToken {
  vt_id : string; vt_tokenHash : string; vt_userId : string; vt_type : string; vt_expiresAt : Z
}.

Record PendingDeletion := mkPendingDeletion {
  pdel_id : string; pdel_userId : string; pdel_requestedAt : Z; pdel_scheduledAt : Z;
  pdel_gracePeriodDays : Z; pdel_status : string; pdel_cancelledAt : option Z;
  pdel_cancelledBy : option string; pdel_completedAt : option Z; pdel_exportStatus : option string;
  pdel_exportRequestedAt : option Z; pdel_exportGeneratedAt : option Z; pdel_exportUrl : option string;
  pdel_ipAddress : option string
}.

Record Webhook := mkWebhook {
  wh_id : string; wh_realmId : string; wh_url : string; wh_secret : string; wh_enabled : bool;
  wh_eventTypes : list string; wh_description : option string; wh_createdAt : Z
}.
Record WebhookDelivery := mkWebhookDelivery {
  wd_id : string; wd_webhookId : string; wd_eventType : string; wd_payload : obj;
  wd_statusCode : option Z; wd_response : option string; wd_success : bool; wd_attempts : Z;
  wd_lastAttempt : option Z; wd_createdAt : Z
}.
Record WebhookEvent := mkWebhookEvent {
  we_id : string; we_realmId : string; we_eventType : string; we_payload : obj; we_status : string;
  we_attempts : Z; we_maxAttempts : Z; we_nextRetryAt : Z; we_lastError : option string
}.

Record IdentityProvider := mkIdentityProvider {
  idp_id : string; idp_realmId : string; idp_alias : string; idp_displayName : option string;
  idp_enabled : bool; idp_providerType : string; idp_clientId : string; idp_clientSecret : string;
  idp_authorizationUrl : string; idp_tokenUrl : string; idp_userinfoUrl : option string;
  idp_jwksUrl : option string; idp_issuer : option string;
  idp_defaultScopes : string; idp_trustEmail : bool; idp_linkOnly : bool; idp_syncUserProfile : bool;
  idp_createdAt : Z
}.
Record FederatedIdentity := mkFederatedIdentity {
  fi_id : string; fi_userId : string; fi_identityProviderId : string; fi_externalUserId : string;
  fi_externalUsername : option string; fi_externalEmail : option string
}.

Record WebAuthnCredential := mkWebAuthnCredential {
  wac_id : string; wac_userId : string; wac_realmId : string; wac_credentialId : string;
  wac_publicKey : string; wac_counter : Z; wac_transports : list string; wac_deviceType : string;
  wac_backedUp : bool; wac_friendlyName : option string; wac_createdAt : Z; wac_lastUsedAt : option Z
}.

Record RegistrationField := mkRegistrationField {
  rf_id : string; rf_realmId : string; rf_name : string; rf_displayName : string; rf_type : string;
  rf_required : bool; rf_placeholder : option string; rf_helpText : option string;
  rf_options : list string; rf_validationPattern : option string; rf_defaultValue : option string;
  rf_sortOrder : Z; rf_enabled : bool
}.

(** Machine identities. *)
Record NhiIdentity := mkNhiIdentity {
  nhi_id : string; nhi_realmId : string; nhi_identityType : string; nhi_name : string;
  nhi_description : option string; nhi_enabled : bool; nhi_lifecycleStatus : string;
  nhi_suspendedAt : option Z; nhi_decommissionedAt : option Z;
  nhi_certificateSubject : option string; nhi_certificateFingerprint : option string;
  nhi_certificateNotBefore : option Z; nhi_certificateNotAfter : option Z; nhi_agentPurpose : option string;
  nhi_permissionScopes : list string; nhi_metadata : obj; nhi_tags : list string; nhi_createdAt : Z
}.
Record NhiCredential := mkNhiCredential {
  nc_id : string; nc_nhiIdentityId : string; nc_credentialType : string; nc_name : string;
  nc_keyPrefix : option string; nc_keyHash : option string; nc_certificatePem : option string;
  nc_certificateChain : option string; nc_privateKeyPem : option string;
  nc_jwtSigningAlgorithm : option string; nc_jwtIssuer : option string; nc_jwtAudience : option string;
  nc_expiresAt : option Z; nc_rotatedAt : option Z; nc_rotationRequired : bool; nc_enabled : bool;
  nc_revoked : bool; nc_revokedAt : option Z; nc_lastUsedAt : option Z; nc_requestCount : Z;
  nc_allowedIpRanges : list string; nc_createdAt : Z
}.
Record NhiCredentialPolicy := mkNhiCredentialPolicy {
  np_id : string; np_realmId : string; np_name : string; np_description : option string;
  np_enabled : bool; np_priority : Z; np_credentialType : string; np_rotationIntervalDays : Z;
  np_rotationBeforeDays : Z; np_autoRotate : bool; np_maxCredentialAgeDays : Z;
  np_maxRequestsPerDay : option Z; np_maxRequestsPerMonth : option Z; np_rateLimitPerMinute : option Z;
  np_requireCertificate : bool; np_requireIpRestriction : bool; np_requireAuditLogging : bool;
  np_createdAt : Z
}.
Record NhiUsageStats := mkNhiUsageStats {
  nus_id : string; nus_nhiIdentityId : string; nus_totalRequests : Z; nus_lastActiveAt : option Z
}.
Record NhiAuditLog := mkNhiAuditLog {
  nal_id : string; nal_realmId : string; nal_nhiIdentityId : string; nal_action : string;
  nal_credentialId : option string; nal_ipAddress : option string; nal_userAgent : option string;
  nal_success : bool; nal_errorCode : option string; nal_details : option obj; nal_createdAt : Z
}.

Record Organization := mkOrganization {
  org_id : string; org_realmId : string; org_name : string; org_slug : string;
  org_displayName : option string; org_description : option string; org_enabled : bool;
  org_logoUrl : option string; org_primaryColor : option string; org_requireMfa : bool;
  org_verifiedDomains : list string
}.
Record OrganizationMember := mkOrganizationMember {
  om_id : string; om_organizationId : string; om_userId : string; om_role : string; om_joinedAt : Z
}.
Record OrganizationInvitation := mkOrganizationInvitation {
  oi_id : string; oi_organizationId : string; oi_email : string; oi_role : string; oi_token : string;
  oi_expiresAt : Z; oi_acceptedAt : option Z; oi_createdAt : Z
}.
Record OrganizationSsoConnection := mkOrganizationSsoConnection {
  osc_id : string; osc_organizationId : string; osc_type : string; osc_name : string;
  osc_enabled : bool; osc_config : obj; osc_createdAt : Z
}.

(** A condition column of a policy is null, a list, or one condition. *)
Record Condition := mkCondition { c_field : string; c_operator : string; c_value : option json }.
Inductive RawConditions := NoConditions | OneCondition (c : Condition) | ConditionList (l : list Condition).
Record Policy := mkPolicy {
  p_id : string; p_realmId : string; p_name : string; p_description : option string; p_enabled : bool;
  p_effect : string; p_priority : Z; p_logic : string; p_clientId : option string;
  p_subject : RawConditions; p_resource : RawConditions; p_action : RawConditions;
  p_environment : RawConditions; p_createdAt : Z
}.

Record ScimProvisioningToken := mkScimProvisioningToken {
  sct_id : string; sct_realmId : string; sct_name : string; sct_description : option string; sct_enabled : bool;
  sct_scopes : list string; sct_createdAt : Z; sct_expiresAt : option Z; sct_lastUsedAt : option Z;
  sct_requestCount : Z; sct_revoked : bool; sct_revokedAt : option Z; sct_tokenHash : string
}.

(** ** Tables *)

Inductive Table :=
| TRealm | TUser | TClient | TRole | TUserRole | TSession | TRefreshToken
| TAuthorizationCode | TRealmSigningKey | TLoginSession | TStepUpRecord
| TGroup | TUserGroup | TGroupRole | TLoginFailure | TTotpFailure | TWebAuthnFailure
| TUserCredential | TRecoveryCode | TUsedTotpCode | TOtpAttempt | TPendingAction
| TClientScope | TProtocolMapper | TClientDefaultScope | TClientOptionalScope
| TDeviceCode | TLoginEvent | TCustomAttribute | TUserAttribute | TRevokedToken
| TRateLimitEntry | TPasswordHistory | TImpersonationSession
| TSmsDeliveryLog | TMagicLinkRequest | TUserFederation | TAuthenticationFlow
| TServiceAccount | TApiKey | TUserConsent | TUserConsentHistory | TConsentCategory
| TConsentPolicy | TProxySession | TPolicy | TAdminEvent | TScimToken
| TProxyApplication | TVerificationToken | TPendingDeletion | TWebhook | TWebhookDelivery
| TWebhookEvent | TIdentityProvider | TFederatedIdentity | TWebAuthnCredential
| TRegistrationField | TAdminRevokedToken | TNhiIdentity | TNhiCredential | TNhiCredentialPolicy
| TNhiUsageStats | TNhiAuditLog | TOrganization | TOrganizationMember | TOrganizationInvitation
| TOrganizationSsoConnection | TUserLoginProfile | TLoginRiskAssessment.

#[export] Instance Table_eq_dec : EqDecision Table.
Proof. solve_decision. Defined.

Definition Row (t : Table) : Type :=
  match t with
  | TRealm => Realm | TUser => User | TClient => Client | TRole => Role
  | TUserRole => UserRole | TSession => Session | TRefreshToken => RefreshToken
  | TAuthorizationCode => AuthorizationCode | TRealmSigningKey => RealmSigningKey
  | TLoginSession => LoginSession | TStepUpRecord => StepUpRecord
  | TGroup => Group | TUserGroup => UserGroup | TGroupRole => GroupRole
  | TLoginFailure => LoginFailure | TTotpFailure => TotpFailure
  | TWebAuthnFailure => WebAuthnFailure | TUserCredential => UserCredential
  | TRecoveryCode => RecoveryCode | TUsedTotpCode => UsedTotpCode | TOtpAttempt => OtpAttempt
  | TPendingAction => PendingAction | TClientScope => ClientScope
  | TProtocolMapper => ProtocolMapper | TClientDefaultScope => ClientScopeLink
  | TClientOptionalScope => ClientScopeLink | TDeviceCode => DeviceCode
  | TLoginEvent => LoginEvent | TCustomAttribute => CustomAttribute
  | TUserAttribute => UserAttribute | TRevokedToken => RevokedToken
  | TRateLimitEntry => RateLimitEntry | TPasswordHistory => PasswordHistory
  | TImpersonationSession => ImpersonationSession | TSmsDeliveryLog => SmsDeliveryLog
  | TMagicLinkRequest => MagicLinkRequest | TUserFederation => UserFederation
  | TAuthenticationFlow => AuthenticationFlow | TServiceAccount => ServiceAccount
  | TApiKey => ApiKey | TUserConsent => UserConsent | TUserConsentHistory => UserConsentHistory
  | TConsentCategory => ConsentCategory | TConsentPolicy => ConsentPolicy
  | TProxySession => ProxySession | TPolicy => Policy
  | TAdminEvent => AdminEvent | TScimToken => ScimProvisioningToken
  | TProxyApplication => ProxyApplication | TVerificationToken => VerificationToken
  | TPendingDeletion => PendingDeletion | TWebhook => Webhook | TWebhookDelivery => WebhookDelivery
  | TWebhookEvent => WebhookEvent | TIdentityProvider => IdentityProvider
  | TFederatedIdentity => FederatedIdentity | TWebAuthnCredential => WebAuthnCredential
  | TRegistrationField => RegistrationField | TAdminRevokedToken => RevokedToken
  | TNhiIdentity => NhiIdentity | TNhiCredential => NhiCredential
  | TNhiCredentialPolicy => NhiCredentialPolicy | TNhiUsageStats => NhiUsageStats
  | TNhiAuditLog => NhiAuditLog | TOrganization => Organization
  | TOrganizationMember => OrganizationMember | TOrganizationInvitation => OrganizationInvitation
  | TOrganizationSsoConnection => OrganizationSsoConnection
  | TUserLoginProfile => UserLoginProfile | TLoginRiskAssessment => LoginRiskAssessment
  end.

(** The contents of the database. *)
Definition Tables : Type := forall t : Table, list (Row t).

Definition set_table (t : Table) (rs : list (Row t)) (db : Tables) : Tables :=
  fun t' => match decide (t = t') with
            | left e => eq_rect t (fun t => list (Row t)) rs t' e
            | right _ => db t'
            end.

Lemma set_table_eq t rs db : set_table t rs db t = rs.
Proof. by destruct t. Qed.

Lemma set_table_ne t t' rs db : t <> t' -> set_table t rs db t' = db t'.
Proof. intros H. unfold set_table. by destruct (decide (t = t')). Qed.

(** The [@unique] and [@@unique] constraints a new row must respect. *)
Definition unique_ok (t : Table) : list (Row t) -> Row t -> bool :=
  match t return list (Row t) -> Row t -> bool with
  | TUser => fun rs r =>
      negb (existsb (fun x => (user_realmId x === user_realmId r) &&
              ((user_username x === user_username r) ||
               match user_email x, user_email r with
               | Some a, Some b => a === b
               | _, _ => false
               end)) rs)
  | TRefreshToken => fun rs r => negb (existsb (fun x => rt_tokenHash x === rt_tokenHash r) rs)
  | TAuthorizationCode => fun rs r => negb (existsb (fun x => ac_code x === ac_code r) rs)
  | TDeviceCode => fun rs r =>
      negb (existsb (fun x => (dc_deviceCode x === dc_deviceCode r) ||
                              (dc_userCode x === dc_userCode r)) rs)
  | TLoginSession => fun rs r => negb (existsb (fun x => ls_tokenHash x === ls_tokenHash r) rs)
  | TPendingAction => fun rs r => negb (existsb (fun x => pa_tokenHash x === pa_tokenHash r) rs)
  | TUserCredential => fun rs r =>
      negb (existsb (fun x => (cred_userId x === cred_userId r) &&
                              (cred_type x === cred_type r)) rs)
  | TRevokedToken => fun rs r => negb (existsb (fun x => rvk_jti x === rvk_jti r) rs)
  | TRateLimitEntry => fun rs r => negb (existsb (fun x => rle_key x === rle_key r) rs)
  | TOtpAttempt => fun rs r =>
      negb (existsb (fun x => (oa_purpose x === oa_purpose r) &&
                              (oa_bindingHash x === oa_bindingHash r)) rs)
  | TMagicLinkRequest => fun rs r =>
      negb (existsb (fun x => ml_tokenHash x === ml_tokenHash r) rs)
  | TGroup => fun rs r =>
      negb (existsb (fun x => (group_realmId x === group_realmId r) && (group_name x === group_name r)) rs)
  | TRole => fun rs r =>
      negb (existsb (fun x => (role_realmId x === role_realmId r) && (role_name x === role_name r) &&
              match role_clientId x, role_clientId r with
              | Some a, Some b => a === b
              | _, _ => false
              end) rs)
  | TAuthenticationFlow => fun rs r =>
      negb (existsb (fun x => (af_realmId x === af_realmId r) && (af_name x === af_name r)) rs)
  | TServiceAccount => fun rs r =>
      negb (existsb (fun x => (sa_realmId x === sa_realmId r) && (sa_name x === sa_name r)) rs)
  | TScimToken => fun rs r => negb (existsb (fun x => sct_tokenHash x === sct_tokenHash r) rs)
  | TUserConsent => fun rs r =>
      negb (existsb (fun x => (uc_userId x === uc_userId r) && (uc_clientId x === uc_clientId r)) rs)
  | TProxyApplication => fun rs r =>
      negb (existsb (fun x => (papp_realmId x === papp_realmId r) && (papp_slug x === papp_slug r)) rs)
  | TProxySession => fun rs r => negb (existsb (fun x => ps_tokenHash x === ps_tokenHash r) rs)
  | TVerificationToken => fun rs r => negb (existsb (fun x => vt_tokenHash x === vt_tokenHash r) rs)
  | TPendingDeletion => fun rs r => negb (existsb (fun x => pdel_userId x === pdel_userId r) rs)
  | TIdentityProvider => fun rs r =>
      negb (existsb (fun x => (idp_realmId x === idp_realmId r) && (idp_alias x === idp_alias r)) rs)
  | TFederatedIdentity => fun rs r =>
      negb (existsb (fun x =>
        ((fi_identityProviderId x === fi_identityProviderId r) && (fi_externalUserId x === fi_externalUserId r)) ||
        ((fi_userId x === fi_userId r) && (fi_identityProviderId x === fi_identityProviderId r))) rs)
  | TWebAuthnCredential => fun rs r => negb (existsb (fun x => wac_credentialId x === wac_credentialId r) rs)
  | TRegistrationField => fun rs r =>
      negb (existsb (fun x => (rf_realmId x === rf_realmId r) && (rf_name x === rf_name r)) rs)
  | TAdminRevokedToken => fun rs r => negb (existsb (fun x => rvk_jti x === rvk_jti r) rs)
  | TNhiIdentity => fun rs r =>
      negb (existsb (fun x => (nhi_realmId x === nhi_realmId r) && (nhi_name x === nhi_name r)) rs)
  | TNhiCredential => fun rs r =>
      negb (existsb (fun x => (nc_nhiIdentityId x === nc_nhiIdentityId r) && (nc_name x === nc_name r)) rs)
  | TNhiCredentialPolicy => fun rs r =>
      negb (existsb (fun x => (np_realmId x === np_realmId r) && (np_name x === np_name r)) rs)
  | TNhiUsageStats => fun rs r =>
      negb (existsb (fun x => nus_nhiIdentityId x === nus_nhiIdentityId r) rs)
  | TOrganization => fun rs r =>
      negb (existsb (fun x => (org_realmId x === org_realmId r) && (org_slug x === org_slug r)) rs)
  | TOrganizationMember => fun rs r =>
      negb (existsb (fun x => (om_organizationId x === om_organizationId r) && (om_userId x === om_userId r)) rs)
  | TOrganizationInvitation => fun rs r => negb (existsb (fun x => oi_token x === oi_token r) rs)
  | TClient => fun rs r =>
      negb (existsb (fun x => (client_realmId x === client_realmId r) && (client_clientId x === client_clientId r)) rs)
  | TCustomAttribute => fun rs r =>
      negb (existsb (fun x => (ca_realmId x === ca_realmId r) && (ca_name x === ca_name r)) rs)
  | TUserAttribute => fun rs r =>
      negb (existsb (fun x => (ua_userId x === ua_userId r) && (ua_attributeId x === ua_attributeId r)) rs)
  | TUserLoginProfile => fun rs r => negb (existsb (fun x => ulp_userId x === ulp_userId r) rs)
  | TRealm => fun rs r => negb (existsb (fun x => realm_name x === realm_name r) rs)
  | TUserRole => fun rs r =>
      negb (existsb (fun x => (ur_userId x === ur_userId r) && (ur_roleId x === ur_roleId r)) rs)
  | TRealmSigningKey => fun rs r =>
      negb (existsb (fun x => (key_realmId x === key_realmId r) && (key_kid x === key_kid r)) rs)
  | TClientScope => fun rs r =>
      negb (existsb (fun x => (cs_realmId x === cs_realmId r) && (cs_name x === cs_name r)) rs)
  | _ => fun _ _ => true
  end.

Definition set_authFlowId (v : option string) (c : Client) : Client :=
  mkClient (client_id c) (client_realmId c) (client_clientId c) (client_clientSecret c)
    (client_clientType c) (client_enabled c) (client_redirectUris c) (client_grantTypes c)
    (client_postLogoutRedirectUris c) (client_requiredAcr c) (client_serviceAccountUserId c) v
    (client_requireConsent c) (client_name c) (client_description c) (client_webOrigins c)
    (client_backchannelLogoutUri c) (client_backchannelLogoutSessionRequired c)
    (client_stepUpCacheDuration c) (client_createdAt c).

(** The children of the groups [ids], and, in [n] rounds, all their descendants. *)
Definition child_ids (gs : list Group) (ids : list string) : list string :=
  map group_id (List.filter (fun g =>
    match group_parentId g with Some p => includes p ids | None => false end) gs).
Fixpoint descendants (n : nat) (gs : list Group) (ids : list string) : list string :=
  match n with
  | 0%nat => ids
  | S n' => descendants n' gs (ids ++ child_ids gs ids)
  end.

(** Delete the rows of a table that satisfy [p]. *)
Definition drop_rows (t : Table) (p : Row t -> bool) (db : Tables) : Tables :=
  set_table t (List.filter (fun r => negb (p r)) (db t)) db.

Lemma drop_rows_ne t t' p db : t <> t' -> drop_rows t p db t' = db t'.
Proof. apply set_table_ne. Qed.
Lemma drop_rows_eq t p db : drop_rows t p db t = List.filter (fun r => negb (p r)) (db t).
Proof. apply set_table_eq. Qed.

(** Everything that belongs to a user, [u] saying which users are gone. *)
Definition drop_users (u : string -> bool) (db : Tables) : Tables :=
  let gone_sessions := map session_id (List.filter (fun s => u (session_userId s)) (db TSession)) in
  drop_rows TUserRole (fun r => u (ur_userId r))
  (drop_rows TSession (fun r => u (session_userId r))
  (drop_rows TRefreshToken (fun r => includes (rt_sessionId r) gone_sessions)
  (drop_rows TLoginSession (fun r => u (ls_userId r))
  (drop_rows TUserConsent (fun r => u (uc_userId r))
  (drop_rows TUserConsentHistory (fun r => u (uch_userId r))
  (drop_rows TUserGroup (fun r => u (ug_userId r))
  (drop_rows TVerificationToken (fun r => u (vt_userId r))
  (drop_rows TMagicLinkRequest (fun r => u (ml_userId r))
  (drop_rows TPasswordHistory (fun r => u (ph_userId r))
  (drop_rows TLoginFailure (fun r => match lf_userId r with Some x => u x | None => false end)
  (drop_rows TUserCredential (fun r => u (cred_userId r))
  (drop_rows TRecoveryCode (fun r => u (rc_userId r))
  (drop_rows TUsedTotpCode (fun r => u (ut_userId r))
  (drop_rows TTotpFailure (fun r => u (tf_userId r))
  (drop_rows TWebAuthnFailure (fun r => u (wf_userId r))
  (drop_rows TWebAuthnCredential (fun r => u (wac_userId r))
  (drop_rows TFederatedIdentity (fun r => u (fi_userId r))
  (drop_rows TUserAttribute (fun r => u (ua_userId r))
  (drop_rows TPendingDeletion (fun r => u (pdel_userId r))
  (drop_rows TUserLoginProfile (fun r => u (ulp_userId r))
  (drop_rows TLoginRiskAssessment (fun r => u (lra_userId r))
  (drop_rows TProxySession (fun r => u (ps_userId r)) db)))))))))))))))))))))).

(** The roles [p] and the assignments of them. *)
Definition drop_roles (p : Role -> bool) (db : Tables) : Tables :=
  let gone := map role_id (List.filter p (db TRole)) in
  drop_rows TUserRole (fun m => includes (ur_roleId m) gone)
  (drop_rows TGroupRole (fun m => includes (gr_roleId m) gone)
  (drop_rows TRole p db)).
(** The proxy applications [p] and their sessions. *)
Definition drop_proxies (p : ProxyApplication -> bool) (db : Tables) : Tables :=
  let gone := map papp_id (List.filter p (db TProxyApplication)) in
  drop_rows TProxySession (fun s => includes (ps_proxyApplicationId s) gone)
  (drop_rows TProxyApplication p db).

(** [onDelete] actions: deleting a session deletes its refresh tokens; a group,
    its memberships, role mappings and sub-groups; a role, its assignments; and
    the clients of a deleted flow fall back to [authFlowId: null]; a service account,
    its API keys; a user, everything that belongs to them; a proxy application, its
    sessions; a webhook, its deliveries; an identity provider, its links; a machine
    identity, its credentials and statistics; a client, its roles, codes, consents, scopes and
    proxy applications; a custom attribute, its values; and an organization, its members, invitations and connections.  The modelled
    services delete no other row that has dependent rows in a table of the
    model. *)
Definition on_delete (t : Table) : list (Row t) -> Tables -> Tables :=
  match t return list (Row t) -> Tables -> Tables with
  | TSession => fun gone db =>
      set_table TRefreshToken
        (List.filter (fun r : RefreshToken =>
           negb (includes (rt_sessionId r) (map session_id gone))) (db TRefreshToken)) db
  | TGroup => fun gone db =>
      let ids := descendants (length (db TGroup)) (db TGroup) (map group_id gone) in
      set_table TGroup
        (List.filter (fun g : Group => negb (includes (group_id g) ids)) (db TGroup))
        (set_table TUserGroup
          (List.filter (fun m : UserGroup => negb (includes (ug_groupId m) ids)) (db TUserGroup))
          (set_table TGroupRole
            (List.filter (fun m : GroupRole => negb (includes (gr_groupId m) ids)) (db TGroupRole))
            db))
  | TRole => fun gone db =>
      set_table TUserRole
        (List.filter (fun m : UserRole => negb (includes (ur_roleId m) (map role_id gone)))
          (db TUserRole))
        (set_table TGroupRole
          (List.filter (fun m : GroupRole => negb (includes (gr_roleId m) (map role_id gone)))
            (db TGroupRole))
          db)
  | TAuthenticationFlow => fun gone db =>
      set_table TClient
        (map (fun c : Client =>
           match client_authFlowId c with
           | Some f => if includes f (map af_id gone) then set_authFlowId None c else c
           | None => c
           end) (db TClient)) db
  | TServiceAccount => fun gone db =>
      set_table TApiKey
        (List.filter (fun k : ApiKey => negb (includes (ak_serviceAccountId k) (map sa_id gone)))
          (db TApiKey)) db
  | TUser => fun gone => drop_users (fun id => includes id (map user_id gone))
  | TProxyApplication => fun gone =>
      drop_rows TProxySession (fun s => includes (ps_proxyApplicationId s) (map papp_id gone))
  | TWebhook => fun gone => drop_rows TWebhookDelivery (fun d => includes (wd_webhookId d) (map wh_id gone))
  | TIdentityProvider => fun gone =>
      drop_rows TFederatedIdentity (fun f => includes (fi_identityProviderId f) (map idp_id gone))
  | TNhiIdentity => fun gone db =>
      drop_rows TNhiCredential (fun c => includes (nc_nhiIdentityId c) (map nhi_id gone))
        (drop_rows TNhiUsageStats (fun c => includes (nus_nhiIdentityId c) (map nhi_id gone)) db)
  | TClient => fun gone db =>
      let hit id := includes id (map client_id gone) in
      drop_roles (fun r => match role_clientId r with Some c => hit c | None => false end)
      (drop_proxies (fun a => hit (papp_clientId a))
      (drop_rows TAuthorizationCode (fun c => hit (ac_clientId c))
      (drop_rows TUserConsent (fun c => hit (uc_clientId c))
      (drop_rows TUserConsentHistory (fun c => hit (uch_clientId c))
      (drop_rows TClientDefaultScope (fun l => hit (csl_clientId l))
      (drop_rows TClientOptionalScope (fun l => hit (csl_clientId l)) db))))))
  | TCustomAttribute => fun gone =>
      drop_rows TUserAttribute (fun a => includes (ua_attributeId a) (map ca_id gone))
  | TOrganization => fun gone db =>
      let hit id := includes id (map org_id gone) in
      drop_rows TOrganizationMember (fun m => hit (om_organizationId m))
      (drop_rows TOrganizationInvitation (fun m => hit (oi_organizationId m))
      (drop_rows TOrganizationSsoConnection (fun m => hit (osc_organizationId m)) db))
  | _ => fun _ db => db
  end.

(** ** Column updates *)

Definition set_lockedUntil (v : option Z) (u : User) : User :=
  mkUser (user_id u) (user_realmId u) (user_username u) (user_email u) (user_emailVerified u)
    (user_firstName u) (user_lastName u) (user_enabled u) (user_passwordHash u)
    (user_passwordAlgorithm u) (user_federationLink u) (user_passwordChangedAt u) v
    (user_createdAt u).
Definition set_enabled (b : bool) (u : User) : User :=
  mkUser (user_id u) (user_realmId u) (user_username u) (user_email u) (user_emailVerified u)
    (user_firstName u) (user_lastName u) b (user_passwordHash u)
    (user_passwordAlgorithm u) (user_federationLink u) (user_passwordChangedAt u)
    (user_lockedUntil u) (user_createdAt u).
Definition set_role_name (v : string) (r : Role) : Role :=
  mkRole (role_id r) (role_realmId r) (role_clientId r) v.
Definition set_revoked (b : bool) (r : RefreshToken) : RefreshToken :=
  mkRefreshToken (rt_id r) (rt_sessionId r) (rt_tokenHash r) (rt_scope r) b (rt_isOffline r)
    (rt_clientId r) (rt_createdAt r) (rt_expiresAt r).
Definition set_used (b : bool) (c : AuthorizationCode) : AuthorizationCode :=
  mkAuthorizationCode (ac_id c) (ac_code c) (ac_clientId c) (ac_userId c) (ac_redirectUri c)
    (ac_scope c) (ac_codeChallenge c) (ac_codeChallengeMethod c) (ac_nonce c) (ac_acrValues c)
    (ac_satisfiedAcr c) (ac_amr c) b (ac_expiresAt c).
Definition set_rc_used (b : bool) (c : RecoveryCode) : RecoveryCode :=
  mkRecoveryCode (rc_id c) (rc_userId c) (rc_codeHash c) b.
Definition set_cred_verified (b : bool) (c : UserCredential) : UserCredential :=
  mkUserCredential (cred_id c) (cred_userId c) (cred_type c) (cred_secretKey c)
    (cred_phoneNumber c) (cred_algorithm c) (cred_digits c) (cred_period c) b.
Definition set_attempts (n : Z) (a : PendingAction) : PendingAction :=
  mkPendingAction (pa_id a) (pa_tokenHash a) (pa_type a) (pa_data a) n (pa_expiresAt a)
    (pa_createdAt a).
Definition set_pa_data (d : PendingData) (a : PendingAction) : PendingAction :=
  mkPendingAction (pa_id a) (pa_tokenHash a) (pa_type a) d (pa_attempts a) (pa_expiresAt a)
    (pa_createdAt a).
Definition set_polled (at_ : Z) (interval : Z) (d : DeviceCode) : DeviceCode :=
  mkDeviceCode (dc_id d) (dc_deviceCode d) (dc_userCode d) (dc_clientId d) (dc_realmId d)
    (dc_scope d) (dc_userId d) (dc_approved d) (dc_denied d) interval (Some at_) (dc_expiresAt d).
Definition set_approved (user : string) (d : DeviceCode) : DeviceCode :=
  mkDeviceCode (dc_id d) (dc_deviceCode d) (dc_userCode d) (dc_clientId d) (dc_realmId d)
    (dc_scope d) (Some user) true (dc_denied d) (dc_interval d) (dc_lastPolledAt d)
    (dc_expiresAt d).
Definition set_denied (d : DeviceCode) : DeviceCode :=
  mkDeviceCode (dc_id d) (dc_deviceCode d) (dc_userCode d) (dc_clientId d) (dc_realmId d)
    (dc_scope d) (dc_userId d) (dc_approved d) true (dc_interval d) (dc_lastPolledAt d)
    (dc_expiresAt d).
Definition set_imp_ended (at_ : Z) (i : ImpersonationSession) : ImpersonationSession :=
  mkImpersonationSession (imp_id i) (imp_realmId i) (imp_adminUserId i) (imp_targetUserId i)
    (imp_sessionId i) false (imp_expiresAt i) (Some at_).
Definition set_oa_attempts (n : Z) (o : OtpAttempt) : OtpAttempt :=
  mkOtpAttempt (oa_id o) (oa_realmId o) (oa_userId o) (oa_purpose o) (oa_bindingHash o)
    (oa_phoneHash o) (oa_phoneEncrypted o) (oa_codeHash o) n (oa_sendCount o) (oa_lastSentAt o)
    (oa_expiresAt o).
Definition set_sl_status (st : string) (err : option string) (l : SmsDeliveryLog) : SmsDeliveryLog :=
  mkSmsDeliveryLog (sl_id l) (sl_realmId l) (sl_userId l) (sl_phoneHash l) (sl_ipHash l)
    (sl_provider l) st err (sl_createdAt l).
