(* ===== verification/PolicyEngine.v ===== *)
(** * PolicyEngine: attribute-based access policies
      (src/src/authorization/policy-engine.ts)

    A condition compares a field of the request with a value; a policy matches when
    every category of its conditions does; the decision over all policies is DENY
    unless some policy allows and none denies.  The texts of the [reason]s of single
    conditions are not modelled.  [RegExp] is the parameter [regex_test] (pattern,
    subject; [None] for a pattern that does not compile). *)

From S2P Require Import Prelude Int32 JsText IpRange IpRangeFacts IpHostname Cidr Json JsNumber Schema.

(** The engine's [RawPolicy] is the row of the table. *)
Notation RawPolicy := Policy.

Record PolicyEvaluationRequest := mkPolicyRequest {
  req_subject : obj; req_resource : obj; req_action : string; req_environment : option obj;
  req_clientId : option string
}.

Inductive Effect := ALLOW | DENY.
#[export] Instance Effect_eq_dec : EqDecision Effect.
Proof. solve_decision. Defined.

Record PolicyMatchDetail := mkMatchDetail {
  md_policyId : string; md_policyName : string; md_effect : Effect; md_matched : bool;
  md_conditionResults : list (string * bool)
}.
Record PolicyEvaluationResult := mkEvaluationResult {
  er_decision : Effect; er_reason : string; er_matchedPolicies : list PolicyMatchDetail;
  er_evaluatedCount : nat
}.

(** ** Fields *)

(** [current[part]], own properties; a string has its length and its characters. *)
Definition property (v : json) (part : string) : option json :=
  match v with
  | JObj o => obj_get part o
  | JArr l =>
      if part === "length" then Some (JNum (Z.of_nat (length l))) else
      head (omap (fun '(i, x) => if to_base 10 (Z.of_nat i) === part then Some x else None) (imap pair l))
  | JStr s =>
      if part === "length" then Some (JNum (Z.of_nat (String.length s))) else
      head (omap (fun '(i, c) => if to_base 10 (Z.of_nat i) === part then Some (JStr (String c EmptyString)) else None)
              (imap pair (String.list_ascii_of_string s)))
  | _ => None
  end.

Fixpoint walk (parts : list string) (current : option json) : option json :=
  match parts with
  | [] => current
  | part :: parts =>
      match current with
      | None | Some JNull => None
      | Some v => walk parts (property v part)
      end
  end.
Definition resolveField (context : obj) (field : string) : option json :=
  walk (js_split "."%char field) (Some (JObj context)).

(** ** IPv4 ranges *)

Definition number_octet (s : string) : option Z :=
  match number_of_text s with
  | NaN => None
  | n => if jnum_lt n (int_num 0) || jnum_lt (int_num 255) n then None else Some (jnum_trunc n)
  end.

Definition ipToInt (addr : string) : option Z :=
  let parts := map number_octet (js_split "."%char addr) in
  if negb (length parts =? 4)%nat || existsb (fun p => match p with None => true | _ => false end) parts
  then None else pack_octets parts.

Definition ipInCidr (ip cidr : string) : bool :=
  match js_split "/"%char cidr with
  | range :: bitsStr :: _ =>
      if (range === EmptyString) || (bitsStr === EmptyString) then false else
      match parseInt 10 bitsStr with
      | None => false
      | Some bits =>
          if (bits <? 0) || (32 <? bits) then false else
          match ipToInt ip, ipToInt range with
          | Some ipInt, Some rangeInt =>
              let mask := if bits =? 0 then 0 else (js_bnot 0 << (32 - bits)) >>> 0 in
              ((ipInt >>> 0) .&. mask) =? ((rangeInt >>> 0) .&. mask)
          | _, _ => false
          end
      end
  | _ => false
  end.

Section Engine.
Context (regex_test : string -> string -> option bool).

Definition is_none {A} (o : option A) : bool := match o with None => true | _ => false end.

Definition numeric_compare (lt : jnum -> jnum -> bool) (actual expected : option json) : bool :=
  lt (js_Number actual) (js_Number expected).

Definition evaluateCondition (condition : Condition) (context : obj) : bool :=
  let actual := resolveField context (c_field condition) in
  let expected := c_value condition in
  let op := c_operator condition in
  if op === "equals" then strict_eq actual expected
  else if op === "notEquals" then negb (strict_eq actual expected)
  else if op === "contains" then
    match actual with
    | Some (JStr s) => negb (is_none (index_of (js_String expected) s))
    | Some (JArr l) => arr_includes l expected
    | _ => false
    end
  else if op === "in" then match expected with Some (JArr l) => arr_includes l actual | _ => false end
  else if op === "notIn" then match expected with Some (JArr l) => negb (arr_includes l actual) | _ => false end
  else if op === "greaterThan" then numeric_compare (fun a e => jnum_lt e a) actual expected
  else if op === "lessThan" then numeric_compare jnum_lt actual expected
  else if op === "matches" then
    match actual with
    | Some (JStr s) => regex_test (js_String expected) s ?? false
    | _ => false
    end
  else if op === "ipInRange" then
    match actual with Some (JStr s) => ipInCidr s (js_String expected) | _ => false end
  else false.

Definition parseConditions (raw : RawConditions) : list Condition :=
  match raw with
  | NoConditions => []
  | OneCondition c => [c]
  | ConditionList l => l
  end.

Inductive Logic := AND | OR.

Definition evaluateConditions (conditions : list Condition) (context : obj) (logic : Logic) : bool * list bool :=
  match conditions with
  | [] => (true, [])
  | _ =>
      let results := map (fun c => evaluateCondition c context) conditions in
      (match logic with AND => forallb id results | OR => existsb id results end, results)
  end.

Definition buildContext (req : PolicyEvaluationRequest) : obj :=
  [("subject", JObj (req_subject req)); ("resource", JObj (req_resource req));
   ("action", JStr (req_action req)); ("environment", JObj (req_environment req ?? []))].

Definition condition_types (policy : RawPolicy) : list (string * RawConditions) :=
  [("subject", p_subject policy); ("resource", p_resource policy); ("action", p_action policy);
   ("environment", p_environment policy)].

Definition effect_of (policy : RawPolicy) : Effect := if p_effect policy === "DENY" then DENY else ALLOW.
Definition logic_of (policy : RawPolicy) : Logic := if p_logic policy === "OR" then OR else AND.

(** The loop over the categories. *)
Fixpoint category_loop (context : obj) (logic : Logic) (types : list (string * RawConditions))
    (policyPassed : bool) (conditionResults : list (string * bool)) : bool * list (string * bool) :=
  match types with
  | [] => (policyPassed, conditionResults)
  | (type, raw) :: types =>
      match parseConditions raw with
      | [] => category_loop context logic types policyPassed conditionResults
      | conditions =>
          let '(passed, results) := evaluateConditions conditions context logic in
          category_loop context logic types (if passed then policyPassed else false)
            (conditionResults ++ map (pair type) results)
      end
  end.

Definition evaluatePolicy (policy : RawPolicy) (req : PolicyEvaluationRequest) : PolicyMatchDetail :=
  let '(policyPassed, conditionResults) :=
    category_loop (buildContext req) (logic_of policy) (condition_types policy) true [] in
  mkMatchDetail (p_id policy) (p_name policy) (effect_of policy) policyPassed conditionResults.

(** A text in double quotes. *)
Definition quoted (s : string) : string := String "034" (s +:+ String "034" EmptyString).

Definition applicable_policies (policies : list RawPolicy) : list RawPolicy :=
  sort_by (fun p => - p_priority p) (List.filter p_enabled policies).

Definition evaluatePolicies (policies : list RawPolicy) (req : PolicyEvaluationRequest) : PolicyEvaluationResult :=
  let applicable := applicable_policies policies in
  let matchDetails := map (fun p => evaluatePolicy p req) applicable in
  let matched := List.filter md_matched matchDetails in
  let result decision reason := mkEvaluationResult decision reason matchDetails (length applicable) in
  match List.find (fun d => md_effect d === DENY) matched with
  | Some d => result DENY ("Explicit DENY by policy " +:+ quoted (md_policyName d))
  | None =>
      match List.find (fun d => md_effect d === ALLOW) matched with
      | Some d => result ALLOW ("Permitted by policy " +:+ quoted (md_policyName d))
      | None => result DENY "No matching policy — default deny"
      end
  end.

(** ** What a match is *)

(** Every category that has conditions passes: all of them, or any of them. *)
Definition category_holds (context : obj) (logic : Logic) (raw : RawConditions) : Prop :=
  parseConditions raw = [] \/
  match logic with
  | AND => forall c, c ∈ parseConditions raw -> evaluateCondition c context = true
  | OR => exists c, c ∈ parseConditions raw /\ evaluateCondition c context = true
  end.

Definition policy_matches (policy : RawPolicy) (req : PolicyEvaluationRequest) : Prop :=
  forall type raw, (type, raw) ∈ condition_types policy ->
    category_holds (buildContext req) (logic_of policy) raw.

Lemma evaluateConditions_holds conditions context logic :
  conditions <> [] ->
  (evaluateConditions conditions context logic).1 = true <->
  match logic with
  | AND => forall c, c ∈ conditions -> evaluateCondition c context = true
  | OR => exists c, c ∈ conditions /\ evaluateCondition c context = true
  end.
Proof.
  intros Hne. destruct conditions as [|c0 l] eqn:Hl; [done|]. rewrite <- Hl. clear Hne.
  assert (evaluateConditions (c0 :: l) context logic =
          (match logic with AND => forallb id (map (fun c => evaluateCondition c context) conditions)
           | OR => existsb id (map (fun c => evaluateCondition c context) conditions) end,
           map (fun c => evaluateCondition c context) conditions)) as E by (by rewrite Hl).
  rewrite Hl, E. clear E. rewrite <- Hl. simpl. destruct logic.
  - rewrite forallb_forall. setoid_rewrite <- list_elem_of_In. setoid_rewrite list_elem_of_fmap.
    unfold id. naive_solver.
  - rewrite existsb_exists. setoid_rewrite <- list_elem_of_In. setoid_rewrite list_elem_of_fmap.
    unfold id. naive_solver.
Qed.

Lemma category_loop_passed context logic types ok acc :
  (category_loop context logic types ok acc).1 = true <->
  ok = true /\ forall type raw, (type, raw) ∈ types -> category_holds context logic raw.
Proof.
  revert ok acc. induction types as [|[type raw] types IH]; intros ok acc; cbn [category_loop].
  { simpl. split; [|by intros [H _]]. intros ->. split; [done|]. intros ? ? H%not_elem_of_nil. done. }
  destruct (parseConditions raw) as [|c l] eqn:Hp.
  { rewrite IH. split; intros [-> H]; (split; [done|]); intros t r Hin.
    - apply elem_of_cons in Hin as [[= -> ->]|Hin]; [by left | by eapply H].
    - apply (H t). set_solver. }
  pose proof (evaluateConditions_holds (c :: l) context logic ltac:(done)) as He.
  destruct (evaluateConditions (c :: l) context logic) as [passed results]. simpl fst in He. rewrite IH. clear IH.
  assert (Hc : category_holds context logic raw <-> passed = true).
  { unfold category_holds. rewrite Hp, He. split; [by intros [?|?] | by right]. }
  split.
  - intros [Hok H]. destruct passed; [|done]. split; [done|]. intros t r Hin.
    apply elem_of_cons in Hin as [[= -> ->]|Hin]; [by apply Hc | by eapply H].
  - intros [-> H]. assert (passed = true) as -> by (apply Hc, (H type); set_solver).
    split; [done|]. intros t r Hin. apply (H t). set_solver.
Qed.

Lemma evaluatePolicy_matched policy req : md_matched (evaluatePolicy policy req) = true <-> policy_matches policy req.
Proof.
  unfold evaluatePolicy, policy_matches.
  pose proof (category_loop_passed (buildContext req) (logic_of policy) (condition_types policy) true []) as H.
  destruct (category_loop _ _ _ _ _) as [passed results]. simpl in *. rewrite H. naive_solver.
Qed.

Lemma evaluatePolicy_effect policy req : md_effect (evaluatePolicy policy req) = effect_of policy.
Proof. unfold evaluatePolicy. by destruct (category_loop _ _ _ _ _). Qed.

(** Some enabled policy of this effect matches. *)
Definition some_match (effect : Effect) (policies : list RawPolicy) (req : PolicyEvaluationRequest) : Prop :=
  exists p, p ∈ policies /\ p_enabled p = true /\ effect_of p = effect /\ policy_matches p req.

Lemma find_match effect policies req :
  is_Some (List.find (fun d => md_effect d === effect)
             (List.filter md_matched (map (fun p => evaluatePolicy p req) (applicable_policies policies)))) <->
  some_match effect policies req.
Proof.
  unfold applicable_policies. split.
  - intros [d [Hin He%bool_decide_eq_true]%find_elem]. apply elem_of_filter_list in Hin as [Hm Hin].
    apply list_elem_of_fmap in Hin as (p & -> & Hin). rewrite elem_of_sort_by in Hin.
    apply elem_of_filter_list in Hin as [Hen Hin]. rewrite evaluatePolicy_effect in He.
    apply evaluatePolicy_matched in Hm. by exists p.
  - intros (p & Hin & Hen & He & Hm%evaluatePolicy_matched).
    destruct (List.find _ _) as [d|] eqn:Hf; [by exists d|]. exfalso.
    eapply find_none in Hf; [|apply list_elem_of_In, elem_of_filter_list; split; [exact Hm|];
      apply list_elem_of_fmap; exists p; split; [done|]; apply elem_of_sort_by, elem_of_filter_list; done].
    simpl in Hf. rewrite evaluatePolicy_effect in Hf. by apply bool_decide_eq_false in Hf.
Qed.
End Engine.

Lemma evaluatePolicies_spec regex_test policies req :
  er_decision (evaluatePolicies regex_test policies req) = ALLOW <->
  some_match regex_test ALLOW policies req /\ ~ some_match regex_test DENY policies req.
Proof.
  unfold evaluatePolicies. cbv zeta. rewrite <- !(find_match regex_test).
  destruct (List.find (fun d => md_effect d === DENY) _) as [d|].
  { cbn [er_decision]. split; [done|]. intros [_ Hn]. destruct Hn. by exists d. }
  destruct (List.find (fun d => md_effect d === ALLOW) _) as [d|]; cbn [er_decision].
  - split; [|done]. intros _. split; [by exists d|]. by intros [? ?].
  - split; [done|]. intros [[? ?] _]. done.
Qed.

(** C34. Deny overrides: access is granted exactly when some enabled policy that allows
    matches the request and no enabled policy that denies does; without a match it is
    denied, and neither priorities nor the order of the policies matter.  A policy
    matches when each category that has conditions holds: all of its conditions, or,
    with OR logic, any of them. *)
Theorem evaluatePolicies_deny_overrides regex_test policies req :
  er_decision (evaluatePolicies regex_test policies req) = ALLOW <->
  some_match regex_test ALLOW policies req /\ ~ some_match regex_test DENY policies req.
Proof. apply evaluatePolicies_spec. Qed.

(** ** The third range test *)

Lemma number_octet_quad x : octet x -> number_octet (to_base 10 x) = Some x.
Proof.
  intros Hx. pose proof (octet_forall (fun x => match number_octet (to_base 10 x) with
    | Some y => y =? x | None => false end) ltac:(vm_compute; reflexivity) x Hx) as H.
  cbv beta in H. destruct (number_octet (to_base 10 x)); [|done]. apply Z.eqb_eq in H. by subst.
Qed.

Lemma ipToInt_quad v : 0 <= v < 2 ^ 32 -> exists x, ipToInt (dotted_quad v) = Some x /\ to_uint32 x = v.
Proof.
  intros Hv. destruct (quad_parts v Hv) as (a & b & c & d & Ha & Hb & Hc & Hd & -> & Hs).
  exists ((a << 24) .|. (b << 16) .|. (c << 8) .|. d). split; [|by apply octets_number].
  unfold ipToInt. rewrite Hs. cbn [map]. by rewrite !number_octet_quad.
Qed.

#[export] Instance policy_ipInCidr_test : CidrTest ipInCidr.
Proof.
  intros v base p Hv Hb Hp. unfold ipInCidr. rewrite (split_cidr base p Hb (proj1 Hp)).
  rewrite bool_decide_eq_false_2 by (by apply quad_nonempty).
  assert (to_base 10 p <> EmptyString) as Hne.
  { destruct (to_base_shape 10 p) as (x & r & -> & _); [lia|lia|done]. }
  rewrite (bool_decide_eq_false_2 _ Hne). cbn [orb]. rewrite parseInt_to_base, (dec_range p Hp) by lia.
  destruct (ipToInt_quad v Hv) as (x & -> & Ux), (ipToInt_quad base Hb) as (y & -> & Uy).
  apply mask_prefix; [| |done]; by rewrite ushr_0, uint32_small by (apply uint32_bound).
Qed.

(** The three range tests of the program agree: trusted proxies, the IP allowlist of
    an API key and the ipInRange policy condition are written separately, with signed
    32-bit arithmetic, and on every IPv4 address and every range base/p each of them
    decides whether the first p bits of the address are those of the base. *)
Theorem cidr_tests_agree v base p :
  0 <= v < 2 ^ 32 -> 0 <= base < 2 ^ 32 -> 0 <= p <= 32 ->
  let expected := bool_decide (v / 2 ^ (32 - p) = base / 2 ^ (32 - p)) in
  Cidr.ipInCidr (dotted_quad v) (cidr_text base p) = expected /\
  ipMatchesRange (dotted_quad v) (cidr_text base p) = expected /\
  ipInCidr (dotted_quad v) (cidr_text base p) = expected.
Proof.
  intros Hv Hb Hp. cbv zeta.
  assert (H : forall matches, CidrTest matches ->
            matches (dotted_quad v) (cidr_text base p) = bool_decide (v / 2 ^ (32 - p) = base / 2 ^ (32 - p))).
  { intros matches Ht. pose proof (Ht v base p Hv Hb Hp) as Hm. case_bool_decide as Hd; [by apply Hm|].
    destruct (matches _ _); [|done]. by destruct Hd; apply Hm. }
  split; [|split]; apply H; typeclasses eauto.
Qed.

Example cidr_tests_agree_witness :
  0 <= 167837953 < 2 ^ 32 /\ ipMatchesRange (dotted_quad 167837953) (cidr_text 167772160 8) = true.
Proof.
  split; [lia|].
  destruct (cidr_tests_agree 167837953 167772160 8 ltac:(lia) ltac:(lia) ltac:(lia)) as (_ & H & _).
  rewrite H. vm_compute. reflexivity.
Defined.
