(* ===== verification/Store.v ===== *)
(** * Store: the world the handlers act on

    The database, the clock, the source of fresh identifiers and random bytes,
    the Redis server and the in-process caches of one instance, with one atomic
    step per query.  The database is relational: a query filters the rows of a
    table in insertion order, and a statement either commits or throws. *)

From Stdlib Require Import SpecFloat.
From S2P Require Import Prelude Prog Json Schema.

(** ** Exceptions *)

Inductive exc :=
| OAuthTokenError (error : string) (description : option string) (status : Z)
| BadRequest (message : string)
| Unauthorized (message : string)
| Forbidden (message : string)
| NotFound (message : string)
| Conflict (message : string)
| Unprocessable (message : string)
| MfaRequired (mfa_token : string) (mfa_methods : list string)
| PrismaError (code : string)
| DatabaseDown
| RedisFailed
| SmsOtpError (code : string) (message : string) (retryAfterSeconds : option Z)
| PlainError (message : string)
| Gone (message : string)
| TooManyRequests (message : string).

(** ** What the code calls outside the repository *)

Record Mail := mkMail { mail_from : string; mail_to : string; mail_subject : string; mail_html : string }.

(** Node's [crypto], [argon2], [jose] and [otpauth], and the process
    environment, as the operations the services use.  [None] is a throw. *)
Class Env := {
  uuid : nat -> string;                      (* @default(uuid()), randomUUID() *)
  random_bytes : nat -> nat -> string;       (* randomBytes(size), by draw number *)
  random_int : Z -> nat -> Z;                (* randomInt(max), by draw number *)
  sha256_digest : string -> string;          (* createHash('sha256').update(s).digest() *)
  argon2_verify : string -> string -> option bool;
  argon2_hash : nat -> string -> string;     (* argon2.hash, with the salt of a draw *)
  bcrypt_compare : string -> string -> option bool;        (* plaintext, hash *)
  pbkdf2_equals : string -> string -> Z -> string -> option bool; (* plaintext, salt, rounds, hash *)
  jose_sign : string -> string -> obj -> option string;    (* private key, kid, claims *)
  jose_verify : string -> string -> Z -> option obj;       (* public key, token, clock *)
  totp_validate : UserCredential -> string -> Z -> option Z; (* otpauth validate, window 1 *)
  totp_new_secret : nat -> string;
  process_env : string -> option string;
  hmac_hex : string -> string -> string;     (* CryptoService.hmac's keyed hash: purpose, data *)
  aes_encrypt : nat -> string -> string;     (* AES-256-GCM envelope with the IV of a draw *)
  aes_decrypt : string -> option string;
  ldap_authenticate : UserFederation -> string -> string -> option bool;
  ldap_search : UserFederation -> string -> option (string * option string * option string * option string);
  send_sms : string -> string -> string -> bool;           (* provider: realm, phone, text *)
  enrich_token : option (obj -> User -> string -> obj);    (* token-enrichment plugins *)
  geo_coords : string -> Z -> option (spec_float * spec_float);      (* ip-api.com: address, clock; None: no answer *)
  geo_location : string -> Z -> option (option string * option string);   (* city and country *)
  math_sin : spec_float -> spec_float; math_cos : spec_float -> spec_float;
  math_atan2 : spec_float -> spec_float -> spec_float;
  render_email : Realm -> string -> list (string * string) -> string;     (* a Handlebars template *)
  email_subject : Realm -> string -> string;
  sanitize_html : string -> string;                        (* sanitize-html *)
  deliver_mail : string -> list string -> Mail -> bool     (* the provider, its settings; it accepts the message *)
}.

(** ** The world *)

(** [isAvailable()] is false, commands work, or commands throw although the
    connection looked available. *)
Inductive RedisStatus := RedisDown | RedisUp | RedisFaulty.

(** A Redis value: the services store only ["1"] and counters.  The second
    component is the instant the key expires. *)
Notation redis_value := (Z * option Z)%type.

Record World := mkWorld {
  w_tables : Tables;
  w_now : Z;
  w_uuids : nat;
  w_draws : nat;
  w_db_up : bool;
  w_redis : RedisStatus;
  w_redis_data : gmap string redis_value;
  w_usedTotpCodes : gmap string Z;       (* MfaService.usedTotpCodes *)
  w_memoryFallback : gmap string Z;      (* TokenBlacklistService.memoryFallback *)
  w_metrics : list (string * list (string * string));
  w_redis_zsets : gmap string (list Z * option Z);   (* sorted sets: scores, expiry *)
  w_policy_cache : gmap string (list Policy * Z);    (* realm:config:policies:<realm>: rows, expiry *)
  w_adminRevokedTokens : gmap string Z;              (* AdminAuthService.revokedTokens *)
  w_realm_cache : gmap string (Realm * Z);           (* realm:name:<name>: the row, expiry *)
  w_client_cache : gmap string (Client * Z);         (* client:config:<realm>:<id>: the row, expiry *)
  w_coordsCache : list (string * option (spec_float * spec_float));  (* ImpossibleTravelService.coordsCache *)
  w_outbox : list Mail                               (* the messages a mail provider accepted *)
}.

Definition rows (t : Table) (w : World) : list (Row t) := w_tables w t.

Definition with_tables (db : Tables) (w : World) : World :=
  mkWorld db (w_now w) (w_uuids w) (w_draws w) (w_db_up w) (w_redis w) (w_redis_data w)
    (w_usedTotpCodes w) (w_memoryFallback w) (w_metrics w) (w_redis_zsets w) (w_policy_cache w)
    (w_adminRevokedTokens w) (w_realm_cache w) (w_client_cache w)
    (w_coordsCache w) (w_outbox w).
Definition with_rows (t : Table) (rs : list (Row t)) (w : World) : World :=
  with_tables (set_table t rs (w_tables w)) w.
Definition with_now (n : Z) (w : World) : World :=
  mkWorld (w_tables w) n (w_uuids w) (w_draws w) (w_db_up w) (w_redis w) (w_redis_data w)
    (w_usedTotpCodes w) (w_memoryFallback w) (w_metrics w) (w_redis_zsets w) (w_policy_cache w)
    (w_adminRevokedTokens w) (w_realm_cache w) (w_client_cache w)
    (w_coordsCache w) (w_outbox w).
Definition next_uuid (w : World) : World :=
  mkWorld (w_tables w) (w_now w) (S (w_uuids w)) (w_draws w) (w_db_up w) (w_redis w)
    (w_redis_data w) (w_usedTotpCodes w) (w_memoryFallback w) (w_metrics w) (w_redis_zsets w) (w_policy_cache w)
    (w_adminRevokedTokens w) (w_realm_cache w) (w_client_cache w)
    (w_coordsCache w) (w_outbox w).
Definition next_draw (w : World) : World :=
  mkWorld (w_tables w) (w_now w) (w_uuids w) (S (w_draws w)) (w_db_up w) (w_redis w)
    (w_redis_data w) (w_usedTotpCodes w) (w_memoryFallback w) (w_metrics w) (w_redis_zsets w) (w_policy_cache w)
    (w_adminRevokedTokens w) (w_realm_cache w) (w_client_cache w)
    (w_coordsCache w) (w_outbox w).
Definition with_redis_data (m : gmap string redis_value) (w : World) : World :=
  mkWorld (w_tables w) (w_now w) (w_uuids w) (w_draws w) (w_db_up w) (w_redis w) m
    (w_usedTotpCodes w) (w_memoryFallback w) (w_metrics w) (w_redis_zsets w) (w_policy_cache w)
    (w_adminRevokedTokens w) (w_realm_cache w) (w_client_cache w)
    (w_coordsCache w) (w_outbox w).
Definition with_usedTotpCodes (m : gmap string Z) (w : World) : World :=
  mkWorld (w_tables w) (w_now w) (w_uuids w) (w_draws w) (w_db_up w) (w_redis w)
    (w_redis_data w) m (w_memoryFallback w) (w_metrics w) (w_redis_zsets w) (w_policy_cache w)
    (w_adminRevokedTokens w) (w_realm_cache w) (w_client_cache w)
    (w_coordsCache w) (w_outbox w).
Definition with_memoryFallback (m : gmap string Z) (w : World) : World :=
  mkWorld (w_tables w) (w_now w) (w_uuids w) (w_draws w) (w_db_up w) (w_redis w)
    (w_redis_data w) (w_usedTotpCodes w) m (w_metrics w) (w_redis_zsets w) (w_policy_cache w)
    (w_adminRevokedTokens w) (w_realm_cache w) (w_client_cache w)
    (w_coordsCache w) (w_outbox w).
Definition add_metric (name : string) (labels : list (string * string)) (w : World) : World :=
  mkWorld (w_tables w) (w_now w) (w_uuids w) (w_draws w) (w_db_up w) (w_redis w)
    (w_redis_data w) (w_usedTotpCodes w) (w_memoryFallback w) (w_metrics w ++ [(name, labels)])
    (w_redis_zsets w) (w_policy_cache w)
    (w_adminRevokedTokens w) (w_realm_cache w) (w_client_cache w)
    (w_coordsCache w) (w_outbox w).

Definition with_redis_zsets (m : gmap string (list Z * option Z)) (w : World) : World :=
  mkWorld (w_tables w) (w_now w) (w_uuids w) (w_draws w) (w_db_up w) (w_redis w)
    (w_redis_data w) (w_usedTotpCodes w) (w_memoryFallback w) (w_metrics w) m (w_policy_cache w)
    (w_adminRevokedTokens w) (w_realm_cache w) (w_client_cache w)
    (w_coordsCache w) (w_outbox w).
Definition with_policy_cache (m : gmap string (list Policy * Z)) (w : World) : World :=
  mkWorld (w_tables w) (w_now w) (w_uuids w) (w_draws w) (w_db_up w) (w_redis w)
    (w_redis_data w) (w_usedTotpCodes w) (w_memoryFallback w) (w_metrics w) (w_redis_zsets w) m
    (w_adminRevokedTokens w) (w_realm_cache w) (w_client_cache w)
    (w_coordsCache w) (w_outbox w).
Definition with_adminRevokedTokens (m : gmap string Z) (w : World) : World :=
  mkWorld (w_tables w) (w_now w) (w_uuids w) (w_draws w) (w_db_up w) (w_redis w)
    (w_redis_data w) (w_usedTotpCodes w) (w_memoryFallback w) (w_metrics w) (w_redis_zsets w)
    (w_policy_cache w) m (w_realm_cache w) (w_client_cache w) (w_coordsCache w) (w_outbox w).
Definition with_realm_cache (m : gmap string (Realm * Z)) (w : World) : World :=
  mkWorld (w_tables w) (w_now w) (w_uuids w) (w_draws w) (w_db_up w) (w_redis w)
    (w_redis_data w) (w_usedTotpCodes w) (w_memoryFallback w) (w_metrics w) (w_redis_zsets w)
    (w_policy_cache w) (w_adminRevokedTokens w) m (w_client_cache w) (w_coordsCache w) (w_outbox w).
Definition with_client_cache (m : gmap string (Client * Z)) (w : World) : World :=
  mkWorld (w_tables w) (w_now w) (w_uuids w) (w_draws w) (w_db_up w) (w_redis w)
    (w_redis_data w) (w_usedTotpCodes w) (w_memoryFallback w) (w_metrics w) (w_redis_zsets w)
    (w_policy_cache w) (w_adminRevokedTokens w) (w_realm_cache w) m (w_coordsCache w) (w_outbox w).
Definition with_coordsCache (m : list (string * option (spec_float * spec_float))) (w : World) : World :=
  mkWorld (w_tables w) (w_now w) (w_uuids w) (w_draws w) (w_db_up w) (w_redis w)
    (w_redis_data w) (w_usedTotpCodes w) (w_memoryFallback w) (w_metrics w) (w_redis_zsets w)
    (w_policy_cache w) (w_adminRevokedTokens w) (w_realm_cache w) (w_client_cache w) m (w_outbox w).
Definition post_mail (m : Mail) (w : World) : World :=
  mkWorld (w_tables w) (w_now w) (w_uuids w) (w_draws w) (w_db_up w) (w_redis w)
    (w_redis_data w) (w_usedTotpCodes w) (w_memoryFallback w) (w_metrics w) (w_redis_zsets w)
    (w_policy_cache w) (w_adminRevokedTokens w) (w_realm_cache w) (w_client_cache w) (w_coordsCache w)
    (w_outbox w ++ [m]).

Notation M := (prog World exc).

(** ** Database statements *)

(** A statement: it throws when the database cannot be reached. *)
Definition prisma {B} (f : World -> (exc + B) * World) : M B :=
  Atom (fun w => if w_db_up w then f w else (inl DatabaseDown, w))
       (fun r => match r with inl e => Throw e | inr b => Ret b end).

Definition query {B} (f : World -> B) : M B := prisma (fun w => (inr (f w), w)).

Section Statements.
Context {E : Env}.

(** [findUnique] and [findFirst]. *)
Definition find_first (t : Table) (p : Row t -> bool) : M (option (Row t)) :=
  query (fun w => List.find p (rows t w)).
(** [findFirst] with [orderBy: { key: 'desc' }]. *)
Definition find_latest (t : Table) (p : Row t -> bool) (key : Row t -> Z) : M (option (Row t)) :=
  query (fun w => head (sort_by (fun r => - key r) (List.filter p (rows t w)))).
Definition find_many (t : Table) (p : Row t -> bool) : M (list (Row t)) :=
  query (fun w => List.filter p (rows t w)).
(** [orderBy] ascending and descending; rows with equal keys stay in table order. *)
Definition find_many_asc (t : Table) (p : Row t -> bool) (key : Row t -> Z) : M (list (Row t)) :=
  query (fun w => sort_by key (List.filter p (rows t w))).
Definition find_many_desc (t : Table) (p : Row t -> bool) (key : Row t -> Z) : M (list (Row t)) :=
  query (fun w => sort_by (fun r => - key r) (List.filter p (rows t w))).
Definition count (t : Table) (p : Row t -> bool) : M Z :=
  query (fun w => Z.of_nat (length (List.filter p (rows t w)))).

(** [create]: [mk] receives the generated id and the database clock. *)
Definition create (t : Table) (mk : string -> Z -> Row t) : M (Row t) :=
  prisma (fun w =>
    let r := mk (uuid (w_uuids w)) (w_now w) in
    if unique_ok t (rows t w) r
    then (inr r, with_rows t (rows t w ++ [r]) (next_uuid w))
    else (inl (PrismaError "P2002"), w)).

(** [update] of one row: P2025 when no row matches. *)
Definition update (t : Table) (p : Row t -> bool) (f : Row t -> Row t) : M (Row t) :=
  prisma (fun w =>
    match List.find p (rows t w) with
    | Some r => (inr (f r), with_rows t (update_first p f (rows t w)) w)
    | None => (inl (PrismaError "P2025"), w)
    end).

(** [update] that sets columns of a unique constraint. *)
Definition update_checked (t : Table) (p : Row t -> bool) (f : Row t -> Row t) : M (Row t) :=
  prisma (fun w =>
    match List.find p (rows t w) with
    | Some r =>
        if unique_ok t (remove_first p (rows t w)) (f r)
        then (inr (f r), with_rows t (update_first p f (rows t w)) w)
        else (inl (PrismaError "P2002"), w)
    | None => (inl (PrismaError "P2025"), w)
    end).

Definition update_many (t : Table) (p : Row t -> bool) (f : Row t -> Row t) : M Z :=
  prisma (fun w =>
    (inr (Z.of_nat (length (List.filter p (rows t w)))),
     with_rows t (update_all p f (rows t w)) w)).

(** [createMany({ skipDuplicates: true })]: [dup] compares the unique columns. *)
Definition create_many (t : Table) (dup : Row t -> Row t -> bool) (rs : list (Row t)) : M unit :=
  prisma (fun w =>
    (inr tt, with_rows t (foldl (fun acc r => if existsb (dup r) acc then acc else acc ++ [r])
                            (rows t w) rs) w)).

Definition upsert (t : Table) (p : Row t -> bool) (mk : string -> Z -> Row t)
    (f : Row t -> Row t) : M (Row t) :=
  prisma (fun w =>
    match List.find p (rows t w) with
    | Some r => (inr (f r), with_rows t (update_first p f (rows t w)) w)
    | None =>
        let r := mk (uuid (w_uuids w)) (w_now w) in
        (inr r, with_rows t (rows t w ++ [r]) (next_uuid w))
    end).

(** [delete] of one row, with its dependent rows: P2025 when no row matches. *)
Definition delete_one (t : Table) (p : Row t -> bool) : M (Row t) :=
  prisma (fun w =>
    match List.find p (rows t w) with
    | Some r =>
        (inr r, with_tables (on_delete t [r]
                  (set_table t (remove_first p (rows t w)) (w_tables w))) w)
    | None => (inl (PrismaError "P2025"), w)
    end).

Definition delete_many (t : Table) (p : Row t -> bool) : M Z :=
  prisma (fun w =>
    let gone := List.filter p (rows t w) in
    (inr (Z.of_nat (length gone)),
     with_tables (on_delete t gone
       (set_table t (List.filter (fun r => negb (p r)) (rows t w)) (w_tables w))) w)).

(** ** Clock, randomness, hashes, metrics *)

(** [Date.now()] and [new Date()]. *)
Definition date_now : M Z := atom (fun w => (w_now w, w)).
Definition random_uuid : M string := atom (fun w => (uuid (w_uuids w), next_uuid w)).
Definition random_hex (size : nat) : M string :=
  atom (fun w => (to_hex (random_bytes size (w_draws w)), next_draw w)).
Definition random_below (max : Z) : M Z :=
  atom (fun w => (random_int max (w_draws w), next_draw w)).
Definition inc_metric (name : string) (labels : list (string * string)) : M unit :=
  atom (fun w => (tt, add_metric name labels w)).
End Statements.
