(* ===== verification/StoreFacts.v ===== *)
(** * StoreFacts: reasoning about database statements

    What each statement of [Store] returns and leaves behind when it is run on
    its own, inversion of successful runs ([run_inv]), evaluation of runs
    ([run_step]), and footprints: [frame ts] relates worlds that agree outside
    the tables [ts], and the [footprint] tactic proves that a handler writes no
    other table. *)

From S2P Require Import Prelude Prog Json Schema Store.

Lemma rows_with_rows_eq t rs w : rows t (with_rows t rs w) = rs.
Proof. apply set_table_eq. Qed.

Lemma rows_with_rows_ne t t' rs w : t <> t' -> rows t' (with_rows t rs w) = rows t' w.
Proof. apply set_table_ne. Qed.

(** ** Running one statement *)

Section Run.
Context {E : Env}.

Lemma run_prisma {B} (f : World -> (exc + B) * World) w :
  run (prisma f) w = if w_db_up w then f w else (inl DatabaseDown, w).
Proof. simpl. destruct (if w_db_up w then _ else _) as [[e|b] w']; done. Qed.

Lemma run_query {B} (f : World -> B) w :
  w_db_up w = true -> run (query f) w = (inr (f w), w).
Proof. intros H. unfold query. by rewrite run_prisma, H. Qed.

Lemma run_query_inr {B} (f : World -> B) w b w' :
  run (query f) w = (inr b, w') -> b = f w /\ w' = w /\ w_db_up w = true.
Proof. unfold query. rewrite run_prisma. intros H. by destruct (w_db_up w); simplify_eq. Qed.

Lemma run_find_first t p w :
  w_db_up w = true -> run (find_first t p) w = (inr (List.find p (rows t w)), w).
Proof. intros H. unfold find_first. by rewrite run_query. Qed.

Lemma run_find_first_eq t p w o :
  w_db_up w = true -> List.find p (rows t w) = o -> run (find_first t p) w = (inr o, w).
Proof. intros H <-. by apply run_find_first. Qed.

Lemma run_find_many t p w :
  w_db_up w = true -> run (find_many t p) w = (inr (List.filter p (rows t w)), w).
Proof. intros H. unfold find_many. by rewrite run_query. Qed.

Lemma run_count t p w n :
  w_db_up w = true -> Z.of_nat (length (List.filter p (rows t w))) = n ->
  run (count t p) w = (inr n, w).
Proof. intros H <-. unfold count. by rewrite run_query. Qed.

Lemma run_create t mk w :
  w_db_up w = true -> unique_ok t (rows t w) (mk (uuid (w_uuids w)) (w_now w)) = true ->
  run (create t mk) w =
    (inr (mk (uuid (w_uuids w)) (w_now w)),
     with_rows t (rows t w ++ [mk (uuid (w_uuids w)) (w_now w)]) (next_uuid w)).
Proof. intros H Hu. unfold create. by rewrite run_prisma, H, Hu. Qed.

Lemma run_create_inr t mk w r w' :
  run (create t mk) w = (inr r, w') ->
  r = mk (uuid (w_uuids w)) (w_now w) /\ w' = with_rows t (rows t w ++ [r]) (next_uuid w) /\
  unique_ok t (rows t w) r = true /\ w_db_up w = true.
Proof.
  unfold create. rewrite run_prisma. intros H. destruct (w_db_up w); [|done].
  destruct (unique_ok _ _ _) eqn:Hu; by simplify_eq.
Qed.

Lemma run_update t p f w r :
  w_db_up w = true -> List.find p (rows t w) = Some r ->
  run (update t p f) w = (inr (f r), with_rows t (update_first p f (rows t w)) w).
Proof. intros H Hf. unfold update. by rewrite run_prisma, H, Hf. Qed.

Lemma run_update_inr t p f w r w' :
  run (update t p f) w = (inr r, w') ->
  exists r0, List.find p (rows t w) = Some r0 /\ r = f r0 /\
    w' = with_rows t (update_first p f (rows t w)) w /\ w_db_up w = true.
Proof.
  unfold update. rewrite run_prisma. intros H. destruct (w_db_up w); [|done].
  destruct (List.find p (rows t w)) as [r0|]; simplify_eq. by exists r0.
Qed.

Lemma run_update_many t p f w :
  w_db_up w = true ->
  run (update_many t p f) w = (inr (Z.of_nat (length (List.filter p (rows t w)))),
                               with_rows t (update_all p f (rows t w)) w).
Proof. intros H. unfold update_many. by rewrite run_prisma, H. Qed.

Lemma run_update_many_inr t p f w n w' :
  run (update_many t p f) w = (inr n, w') ->
  n = Z.of_nat (length (List.filter p (rows t w))) /\
  w' = with_rows t (update_all p f (rows t w)) w /\ w_db_up w = true.
Proof. unfold update_many. rewrite run_prisma. intros H. by destruct (w_db_up w); simplify_eq. Qed.

Lemma run_upsert_inr t p mk f w r w' :
  run (upsert t p mk f) w = (inr r, w') ->
  match List.find p (rows t w) with
  | Some r0 => r = f r0 /\ w' = with_rows t (update_first p f (rows t w)) w
  | None => r = mk (uuid (w_uuids w)) (w_now w) /\ w' = with_rows t (rows t w ++ [r]) (next_uuid w)
  end.
Proof.
  unfold upsert. rewrite run_prisma. intros H. destruct (w_db_up w); [|done].
  destruct (List.find p (rows t w)); by simplify_eq.
Qed.

Lemma run_delete_one_inr t p w r w' :
  run (delete_one t p) w = (inr r, w') ->
  List.find p (rows t w) = Some r /\
  w' = with_tables (on_delete t [r] (set_table t (remove_first p (rows t w)) (w_tables w))) w /\
  w_db_up w = true.
Proof.
  unfold delete_one. rewrite run_prisma. intros H. destruct (w_db_up w); [|done].
  by destruct (List.find p (rows t w)) as [r0|]; simplify_eq.
Qed.

Lemma run_delete_many t p w :
  w_db_up w = true ->
  run (delete_many t p) w =
    (inr (Z.of_nat (length (List.filter p (rows t w)))),
     with_tables (on_delete t (List.filter p (rows t w))
       (set_table t (List.filter (fun r => negb (p r)) (rows t w)) (w_tables w))) w).
Proof. intros H. unfold delete_many. by rewrite run_prisma, H. Qed.

Lemma run_delete_many_inr t p w n w' :
  run (delete_many t p) w = (inr n, w') ->
  n = Z.of_nat (length (List.filter p (rows t w))) /\
  w' = with_tables (on_delete t (List.filter p (rows t w))
         (set_table t (List.filter (fun r => negb (p r)) (rows t w)) (w_tables w))) w /\
  w_db_up w = true.
Proof. unfold delete_many. rewrite run_prisma. intros H. by destruct (w_db_up w); simplify_eq. Qed.

Lemma run_date_now w : run date_now w = (inr (w_now w), w).
Proof. reflexivity. Qed.

Lemma run_atom_inr {B} (f : World -> B * World) w (b : B) w' :
  run (E:=exc) (atom f) w = (inr b, w') -> b = (f w).1 /\ w' = (f w).2.
Proof. simpl. intros H. by simplify_eq. Qed.
End Run.

(** Inversion of the statement a successful run begins with. *)
Ltac run_stmt_inv H :=
  lazymatch type of H with
  | run (find_first _ _) _ = _ => apply run_query_inr in H as (H & -> & ?)
  | run (find_latest _ _ _) _ = _ => apply run_query_inr in H as (H & -> & ?)
  | run (find_many _ _) _ = _ => apply run_query_inr in H as (H & -> & ?)
  | run (find_many_asc _ _ _) _ = _ => apply run_query_inr in H as (H & -> & ?)
  | run (find_many_desc _ _ _) _ = _ => apply run_query_inr in H as (H & -> & ?)
  | run (count _ _) _ = _ => apply run_query_inr in H as (H & -> & ?)
  | run (query _) _ = _ => apply run_query_inr in H as (H & -> & ?)
  | run (create ?t ?mk) _ = _ => apply (run_create_inr t mk) in H as (-> & -> & H & ?)
  | run (update ?t ?p ?f) _ = _ => apply (run_update_inr t p f) in H as (? & H & -> & -> & ?)
  | run (update_many ?t ?p ?f) _ = _ => apply (run_update_many_inr t p f) in H as (H & -> & ?)
  | run (delete_one ?t ?p) _ = _ => apply (run_delete_one_inr t p) in H as (H & -> & ?)
  | run (delete_many ?t ?p) _ = _ => apply (run_delete_many_inr t p) in H as (H & -> & ?)
  | run date_now _ = _ => apply run_atom_inr in H as [-> ->]
  | run random_uuid _ = _ => apply run_atom_inr in H as [-> ->]
  | run (random_hex _) _ = _ => apply run_atom_inr in H as [-> ->]
  | run (random_below _) _ = _ => apply run_atom_inr in H as [-> ->]
  | run (inc_metric _ _) _ = _ => apply run_atom_inr in H as [_ ->]
  | run (Ret _) _ = _ => apply run_ret_inr in H as [<- <-]
  | run (Throw _) _ = _ => destruct (run_throw_inr _ _ _ _ H)
  end.

Ltac run_inv1 :=
  match goal with
  | H : run (bind _ _) _ = (inr _, _) |- _ =>
      apply run_bind_inr in H;
      let a := fresh "a" in let w := fresh "w" in let H1 := fresh "Hr" in
      destruct H as (a & w & H1 & H)
  | H : run (if ?b then _ else _) _ = (inr _, _) |- _ => destruct b eqn:?
  | H : run (match ?o with _ => _ end) _ = (inr _, _) |- _ => destruct o eqn:?
  | H : run _ _ = (inr _, _) |- _ => run_stmt_inv H
  | H : (inl _, _) = (inr _, _) |- _ => discriminate H
  | H : (inr _, _) = (inr _, _) |- _ => injection H as H; simplify_eq
  end.

(** Decompose every successful run of the context. *)
Ltac run_inv := repeat (run_inv1; simpl in *).

(** Evaluate the run in the goal one statement at a time, for a database that
    is up. *)
Ltac run_step :=
  first [ rewrite run_bind
        | rewrite run_date_now
        | rewrite run_find_first by (simpl; assumption)
        | rewrite run_query by (simpl; assumption)
        | rewrite run_update_many by (simpl; assumption)
        | rewrite run_delete_many by (simpl; assumption) ]; simpl.

(** ** Runs that may fail *)

Section AnyRun.
Context {E : Env}.

Lemma run_bind_any {A B} (p : M A) (k : A -> M B) w r w' :
  run (bind p k) w = (r, w') ->
  (exists e, run p w = (inl e, w')) \/ exists a w1, run p w = (inr a, w1) /\ run (k a) w1 = (r, w').
Proof. rewrite run_bind. destruct (run p w) as [[e|a] w1]; intros H; [left; exists e; congruence | right; eauto]. Qed.

Lemma run_bind_ends {A B} (p : M A) (k : A -> M B) w r w' :
  run (bind p k) w = (r, w') ->
  (exists e, run p w = (inl e, w') /\ r = inl e) \/ exists a w1, run p w = (inr a, w1) /\ run (k a) w1 = (r, w').
Proof. rewrite run_bind. destruct (run p w) as [[e|a] w1]; intros H; [left; exists e; by injection H as <- <-|eauto]. Qed.

Lemma run_query_any {B} (f : World -> B) w r w' : run (query f) w = (r, w') -> w' = w.
Proof. unfold query. rewrite run_prisma. by destruct (w_db_up w); intros [= _ <-]. Qed.

Lemma run_update_checked_any t p f w r w' :
  run (update_checked t p f) w = (r, w') ->
  w' = w \/ exists x, List.find p (rows t w) = Some x /\ w' = with_rows t (update_first p f (rows t w)) w.
Proof.
  unfold update_checked. rewrite run_prisma. destruct (w_db_up w); [|intros [= _ <-]; by left].
  destruct (List.find p (rows t w)) as [x|] eqn:Hx; [|intros [= _ <-]; by left].
  destruct (unique_ok _ _ _); intros [= _ <-]; [right; by exists x | by left].
Qed.

Lemma run_update_checked_inr t p f w r w' :
  run (update_checked t p f) w = (inr r, w') ->
  exists x, List.find p (rows t w) = Some x /\ r = f x /\ w' = with_rows t (update_first p f (rows t w)) w /\
    w_db_up w = true.
Proof.
  unfold update_checked. rewrite run_prisma. destruct (w_db_up w); [|done].
  destruct (List.find p (rows t w)) as [x|] eqn:Hx; [|done].
  destruct (unique_ok _ _ _); [|done]. intros [= <- <-]. by exists x.
Qed.

Lemma run_create_any t mk w r w' :
  run (create t mk) w = (r, w') ->
  w' = w \/ w' = with_rows t (rows t w ++ [mk (uuid (w_uuids w)) (w_now w)]) (next_uuid w).
Proof.
  unfold create. rewrite run_prisma. destruct (w_db_up w); [|intros [= _ <-]; by left].
  destruct (unique_ok _ _ _); intros [= _ <-]; [by right | by left].
Qed.
End AnyRun.

(** ** Footprints *)

(** Nothing but the tables [ts] (and the id, randomness and metric counters,
    Redis data and caches) differs. *)
Definition frame (ts : list Table) (w w' : World) : Prop :=
  (forall t, t ∉ ts -> rows t w' = rows t w) /\
  w_now w' = w_now w /\ w_db_up w' = w_db_up w /\ w_redis w' = w_redis w /\ (w_uuids w <= w_uuids w')%nat.

#[export] Instance frame_preorder ts : PreOrder (frame ts).
Proof.
  split.
  - intros w. by repeat split.
  - intros a b c (H1 & H2 & H3 & H4 & H5) (K1 & K2 & K3 & K4 & K5). split; [|repeat split; congruence || lia].
    intros t Ht. by rewrite K1, H1.
Qed.

(** [covers need ts]: the tables of [need] are all in [ts]. *)
Definition covers (need ts : list Table) : bool := forallb (fun t => includes t ts) need.

Lemma covers_elem need ts t : covers need ts = true -> t ∈ need -> t ∈ ts.
Proof.
  unfold covers. rewrite forallb_forall. intros H Ht.
  apply list_elem_of_In, H in Ht. by apply bool_decide_eq_true in Ht.
Qed.

Lemma frame_mono ts ts' w w' : covers ts ts' = true -> frame ts w w' -> frame ts' w w'.
Proof.
  intros Hc (H1 & H). split; [|done]. intros t Ht. apply H1.
  intros Hin. by apply Ht, (covers_elem _ _ _ Hc).
Qed.

Lemma stable_frame_mono {A} ts ts' (p : M A) :
  covers ts ts' = true -> stable (frame ts) p -> stable (frame ts') p.
Proof. intros Hc. apply stable_mono. intros w w'. by apply frame_mono. Qed.

(** The tables a delete from [t] may change. *)
Definition delete_scope (t : Table) : list Table :=
  match t with
  | TSession => [TSession; TRefreshToken]
  | TAuthenticationFlow => [TAuthenticationFlow; TClient]
  | TGroup => [TGroup; TUserGroup; TGroupRole]
  | TRole => [TRole; TUserRole; TGroupRole]
  | TServiceAccount => [TServiceAccount; TApiKey]
  | TUser => [TUser; TUserRole; TSession; TRefreshToken; TLoginSession; TUserConsent; TUserConsentHistory;
      TUserGroup; TVerificationToken; TMagicLinkRequest; TPasswordHistory; TLoginFailure; TUserCredential;
      TRecoveryCode; TUsedTotpCode; TTotpFailure; TWebAuthnFailure; TWebAuthnCredential; TFederatedIdentity;
      TUserAttribute; TPendingDeletion; TProxySession; TUserLoginProfile; TLoginRiskAssessment]
  | TProxyApplication => [TProxyApplication; TProxySession]
  | TWebhook => [TWebhook; TWebhookDelivery]
  | TIdentityProvider => [TIdentityProvider; TFederatedIdentity]
  | TNhiIdentity => [TNhiIdentity; TNhiCredential; TNhiUsageStats]
  | TClient => [TClient; TRole; TUserRole; TGroupRole; TProxyApplication; TProxySession; TAuthorizationCode;
      TUserConsent; TUserConsentHistory; TClientDefaultScope; TClientOptionalScope]
  | TCustomAttribute => [TCustomAttribute; TUserAttribute]
  | TOrganization => [TOrganization; TOrganizationMember; TOrganizationInvitation; TOrganizationSsoConnection]
  | _ => [t]
  end.

Lemma frame_with_rows t rs w : frame [t] w (with_rows t rs w).
Proof.
  split; [|by repeat split]. intros t' Ht. apply rows_with_rows_ne.
  intros ->. apply Ht. set_solver.
Qed.

Lemma frame_next_uuid ts w : frame ts w (next_uuid w).
Proof. split; [done|]. repeat split. simpl. lia. Qed.

Lemma frame_new_row t rs w : frame [t] w (with_rows t rs (next_uuid w)).
Proof. etransitivity; [apply frame_next_uuid|apply frame_with_rows]. Qed.

Lemma frame_delete t gone rs w :
  frame (delete_scope t) w (with_tables (on_delete t gone (set_table t rs (w_tables w))) w).
Proof.
  split; [|by repeat split]. intros t' Ht. unfold rows; simpl.
  destruct t; simpl in *; unfold drop_users, drop_roles, drop_proxies; rewrite !not_elem_of_cons in Ht; destruct_and? Ht;
    rewrite ?drop_rows_ne by congruence; rewrite ?set_table_ne by congruence; done.
Qed.

Section Footprint.
Context {E : Env}.

Lemma prisma_footprint {B} ts (f : World -> (exc + B) * World) :
  (forall w, frame ts w (f w).2) -> stable (frame ts) (prisma f).
Proof.
  intros H. split; [|by intros [e|b]].
  intros w. destruct (w_db_up w); [apply H | simpl; reflexivity].
Qed.

Lemma query_footprint {B} ts (f : World -> B) : stable (frame ts) (query f).
Proof. apply prisma_footprint. simpl. reflexivity. Qed.

Lemma find_first_footprint ts t p : stable (frame ts) (find_first t p).
Proof. apply query_footprint. Qed.
Lemma find_latest_footprint ts t p k : stable (frame ts) (find_latest t p k).
Proof. apply query_footprint. Qed.
Lemma find_many_footprint ts t p : stable (frame ts) (find_many t p).
Proof. apply query_footprint. Qed.
Lemma find_many_asc_footprint ts t p k : stable (frame ts) (find_many_asc t p k).
Proof. apply query_footprint. Qed.
Lemma find_many_desc_footprint ts t p k : stable (frame ts) (find_many_desc t p k).
Proof. apply query_footprint. Qed.
Lemma count_footprint ts t p : stable (frame ts) (count t p).
Proof. apply query_footprint. Qed.

Lemma create_footprint ts t mk : covers [t] ts = true -> stable (frame ts) (create t mk).
Proof.
  intros Hc. apply (stable_frame_mono [t]); [done|]. apply prisma_footprint. intros w.
  simpl. case_match; simpl; [|reflexivity]. apply frame_new_row.
Qed.

Lemma update_footprint ts t p f : covers [t] ts = true -> stable (frame ts) (update t p f).
Proof.
  intros Hc. apply (stable_frame_mono [t]); [done|]. apply prisma_footprint. intros w.
  case (List.find p (rows t w)); simpl; [intros r|reflexivity]. apply frame_with_rows.
Qed.

Lemma update_checked_footprint ts t p f : covers [t] ts = true -> stable (frame ts) (update_checked t p f).
Proof.
  intros Hc. apply (stable_frame_mono [t]); [done|]. apply prisma_footprint. intros w.
  case (List.find p (rows t w)); simpl; [intros r|reflexivity]. case_match; simpl; [apply frame_with_rows|reflexivity].
Qed.

Lemma update_many_footprint ts t p f :
  covers [t] ts = true -> stable (frame ts) (update_many t p f).
Proof.
  intros Hc. apply (stable_frame_mono [t]); [done|]. apply prisma_footprint. intros w.
  apply frame_with_rows.
Qed.

Lemma create_many_footprint ts t d rs :
  covers [t] ts = true -> stable (frame ts) (create_many t d rs).
Proof.
  intros Hc. apply (stable_frame_mono [t]); [done|]. apply prisma_footprint. intros w.
  apply frame_with_rows.
Qed.

Lemma upsert_footprint ts t p mk f : covers [t] ts = true -> stable (frame ts) (upsert t p mk f).
Proof.
  intros Hc. apply (stable_frame_mono [t]); [done|]. apply prisma_footprint. intros w.
  case (List.find p (rows t w)); [intros r; apply frame_with_rows | apply frame_new_row].
Qed.

Lemma delete_one_footprint ts t p :
  covers (delete_scope t) ts = true -> stable (frame ts) (delete_one t p).
Proof.
  intros Hc. apply (stable_frame_mono (delete_scope t)); [done|].
  apply prisma_footprint. intros w.
  case (List.find p (rows t w)); [intros r; apply frame_delete | simpl; reflexivity].
Qed.

Lemma delete_many_footprint ts t p :
  covers (delete_scope t) ts = true -> stable (frame ts) (delete_many t p).
Proof.
  intros Hc. apply (stable_frame_mono (delete_scope t)); [done|].
  apply prisma_footprint. intros w. apply frame_delete.
Qed.

Lemma date_now_footprint ts : stable (frame ts) date_now.
Proof. apply stable_atom. simpl. reflexivity. Qed.
Lemma random_uuid_footprint ts : stable (frame ts) random_uuid.
Proof. apply stable_atom. intros w. apply frame_next_uuid. Qed.
Lemma random_hex_footprint ts n : stable (frame ts) (random_hex n).
Proof. apply stable_atom. simpl. by repeat split. Qed.
Lemma random_below_footprint ts n : stable (frame ts) (random_below n).
Proof. apply stable_atom. simpl. by repeat split. Qed.
Lemma inc_metric_footprint ts n l : stable (frame ts) (inc_metric n l).
Proof. apply stable_atom. simpl. by repeat split. Qed.
End Footprint.

#[export] Hint Resolve find_first_footprint find_latest_footprint find_many_footprint
  find_many_asc_footprint find_many_desc_footprint count_footprint query_footprint
  create_footprint create_many_footprint update_footprint update_checked_footprint update_many_footprint
  upsert_footprint
  delete_one_footprint delete_many_footprint date_now_footprint random_uuid_footprint
  random_hex_footprint random_below_footprint inc_metric_footprint : footprint.
#[export] Hint Extern 0 (covers _ _ = true) => reflexivity : footprint.

Ltac footprint :=
  intros; cbv zeta;
  repeat match goal with
  | |- stable _ (bind _ _) => apply stable_bind; [|intros]
  | |- stable _ (catch _ _) => apply stable_catch; [|intros]
  | |- stable _ (for_each _ _) => apply stable_for_each; intros
  | |- stable _ (transaction _) => apply (stable_transaction (frame _))
  | |- stable _ (Ret _) => exact I
  | |- stable _ (Throw _) => exact I
  | |- stable _ (if ?b then _ else _) => destruct b
  | |- stable _ (match ?x with _ => _ end) => destruct x
  | |- stable _ _ => solve [auto with footprint]
  end.

(** ** Claims counted in the rows of a table *)

(** The units [g] sees in the rows of [t]. *)
Definition units (t : Table) (g : Row t -> nat) (w : World) : nat := list_sum (map g (rows t w)).

(** A count and an invariant that only look at the rows of [t] are kept by a
    handler that does not write [t]. *)
Lemma units_keeps {A} ts t g (I : list (Row t) -> Prop) (p : M A) :
  includes t ts = false -> stable (frame ts) p ->
  stable (keeps (units t g) (fun w => I (rows t w))) p.
Proof.
  intros Ht. apply stable_mono. intros w w' (H & _) Hi. unfold units.
  apply includes_false in Ht. by rewrite (H t Ht).
Qed.

Lemma sum_update_all {A} (g : A -> nat) (p : A -> bool) f l :
  (forall x, x ∈ l -> p x = true -> (S (g (f x)) <= g x)%nat) ->
  (list_sum (map g (update_all p f l)) + length (List.filter p l) <= list_sum (map g l))%nat.
Proof.
  intros H. unfold update_all, list_sum. induction l as [|x l IH]; simpl; [lia|].
  specialize (IH ltac:(set_solver)).
  destruct (p x) eqn:Hx; simpl; [pose proof (H x ltac:(set_solver) Hx)|]; lia.
Qed.

Lemma sum_filter_out {A} (g : A -> nat) (p : A -> bool) l :
  (forall x, x ∈ l -> p x = true -> (1 <= g x)%nat) ->
  (list_sum (map g (List.filter (fun x => negb (p x)) l)) + length (List.filter p l) <=
   list_sum (map g l))%nat.
Proof.
  intros H. unfold list_sum. induction l as [|x l IH]; simpl; [lia|].
  specialize (IH ltac:(set_solver)).
  destruct (p x) eqn:Hx; simpl; [pose proof (H x ltac:(set_solver) Hx)|]; lia.
Qed.

(** Only groups cascade to their own table. *)
Class NoSelfCascade (t : Table) : Prop := no_self_cascade : t <> TGroup.
#[export] Hint Extern 1 (NoSelfCascade _) => discriminate : typeclass_instances.

Lemma rows_on_delete t (Ht : NoSelfCascade t) gone db : on_delete t gone db t = db t.
Proof.
  destruct t; simpl; unfold drop_users, drop_roles, drop_proxies; rewrite ?drop_rows_ne by done; rewrite ?set_table_ne by done; done.
Qed.

Section RowClaims.
Context {A : Type} (t : Table) `{!NoSelfCascade t} (g : Row t -> nat) (I : list (Row t) -> Prop).
Context (Q : bool -> A -> Prop) (c : bool).

Notation claims_rows := (claims (units t g) (fun w => I (rows t w)) Q).

(** A look-up returns a row of a table that satisfies the invariant. *)
Lemma claims_find_first p (k : option (Row t) -> M A) :
  claims_rows c (k None) ->
  (forall r rs, I rs -> r ∈ rs -> p r = true -> claims_rows c (k (Some r))) ->
  claims_rows c (bind (find_first t p) k).
Proof.
  intros Hn Hs. simpl. intros w Hi. destruct (w_db_up w); simpl; [|auto].
  split; [done|]. left. split; [done|].
  destruct (List.find p (rows t w)) as [r|] eqn:Hf; simpl; [|done].
  destruct (find_elem _ _ _ Hf). eauto.
Qed.

(** [update] of one row: it throws, or it takes a unit. *)
Lemma claims_update (Q' : bool -> Row t -> Prop) p f :
  (forall rs, I rs -> I (update_first p f rs)) ->
  (forall x rs, I rs -> x ∈ rs -> p x = true -> (S (g (f x)) <= g x)%nat) ->
  (forall r, Q' true r) ->
  claims (units t g) (fun w => I (rows t w)) Q' c (update t p f).
Proof.
  intros HI Hpf HQ. simpl. intros w Hi. destruct (w_db_up w); cbn [fst snd]; [|split; [done|]; by left].
  destruct (List.find p (rows t w)) as [r|] eqn:Hf; cbn [fst snd]; [|split; [done|]; by left].
  destruct (find_elem _ _ _ Hf) as [Hin Hp]. unfold units. rewrite rows_with_rows_eq.
  split; [by apply HI|]. right. split; [|apply HQ].
  pose proof (Hpf r _ Hi Hin Hp) as Hr. clear -Hf Hr. unfold list_sum.
  induction (rows t w) as [|x l IH]; simpl in *; [done|].
  destruct (p x); simpl; [simplify_eq; lia | specialize (IH Hf); lia].
Qed.

(** A conditional update whose result is 0, or that takes a unit. *)
Lemma claims_update_many p f (k : Z -> M A) :
  (forall rs, I rs -> I (update_all p f rs)) ->
  (forall x rs, I rs -> x ∈ rs -> p x = true -> (S (g (f x)) <= g x)%nat) ->
  claims_rows c (k 0) -> (forall n, 0 < n -> claims_rows true (k n)) ->
  claims_rows c (bind (update_many t p f) k).
Proof.
  intros HI Hpf Hk0 Hk. simpl. intros w Hi. destruct (w_db_up w); cbn [fst snd]; [|split; [done|]; by left].
  pose proof (sum_update_all g p f (rows t w) (fun x => Hpf x _ Hi)) as Hs.
  unfold units. rewrite rows_with_rows_eq. split; [by apply HI|].
  destruct (length (List.filter p (rows t w))) as [|n] eqn:Hn.
  - left. split; [lia | exact Hk0].
  - right. split; [lia|]. apply Hk. lia.
Qed.

(** A conditional delete whose result is 0, or that takes a unit. *)
Lemma claims_delete_many p (k : Z -> M A) :
  (forall rs, I rs -> I (List.filter (fun x => negb (p x)) rs)) ->
  (forall x rs, I rs -> x ∈ rs -> p x = true -> (1 <= g x)%nat) ->
  claims_rows c (k 0) -> (forall n, 0 < n -> claims_rows true (k n)) ->
  claims_rows c (bind (delete_many t p) k).
Proof.
  intros HI Hpf Hk0 Hk. simpl. intros w Hi. destruct (w_db_up w); cbn [fst snd]; [|split; [done|]; by left].
  pose proof (sum_filter_out g p (rows t w) (fun x => Hpf x _ Hi)) as Hs.
  unfold units, rows in *. simpl. rewrite (rows_on_delete t _), set_table_eq. split; [by apply HI|].
  destruct (length (List.filter p (w_tables w t))) as [|n] eqn:Hn.
  - left. split; [lia | exact Hk0].
  - right. split; [lia|]. apply Hk. lia.
Qed.

(** [delete] of one row: it throws, or it takes a unit. *)
Lemma claims_delete_one p (k : Row t -> M A) :
  (forall rs, I rs -> I (remove_first p rs)) ->
  (forall x rs, I rs -> x ∈ rs -> p x = true -> (1 <= g x)%nat) ->
  (forall r rs, I rs -> r ∈ rs -> p r = true -> claims_rows true (k r)) ->
  claims_rows c (bind (delete_one t p) k).
Proof.
  intros HI Hpf Hk. simpl. intros w Hi. destruct (w_db_up w); cbn [fst snd]; [|split; [done|]; by left].
  destruct (List.find p (rows t w)) as [r|] eqn:Hf; cbn [fst snd]; [|split; [done|]; by left].
  destruct (find_elem _ _ _ Hf) as [Hin Hp].
  unfold units, rows in *. simpl. rewrite (rows_on_delete t _), set_table_eq. split; [by apply HI|].
  right. split; [|by eapply Hk].
  enough (list_sum (map g (remove_first p (w_tables w t))) + g r = list_sum (map g (w_tables w t)))%nat
    by (pose proof (Hpf r _ Hi Hin Hp); lia).
  clear -Hf. unfold list_sum. induction (w_tables w t) as [|x l IH]; simpl in *; [done|].
  destruct (p x); simpl; [simplify_eq; lia | rewrite <- (IH Hf); lia].
Qed.
End RowClaims.

(** What a write of other columns, or a delete, leaves alone. *)
Lemma units_update_many_keeps t g (I : list (Row t) -> Prop) p f :
  (forall rs, I rs -> I (update_all p f rs)) -> (forall x, (g (f x) <= g x)%nat) ->
  stable (keeps (units t g) (fun w => I (rows t w))) (update_many t p f).
Proof.
  intros HI H. split; [|by intros [e|b]]. intros w Hi. unfold units.
  destruct (w_db_up w); cbn [fst snd]; [|done]. rewrite rows_with_rows_eq. split; [by apply HI|].
  unfold update_all, list_sum. clear Hi. induction (rows t w) as [|x l IH]; simpl; [lia|].
  specialize (H x). destruct (p x); lia.
Qed.

Lemma units_update_keeps t g (I : list (Row t) -> Prop) p f :
  (forall rs, I rs -> I (update_first p f rs)) -> (forall x, (g (f x) <= g x)%nat) ->
  stable (keeps (units t g) (fun w => I (rows t w))) (update t p f).
Proof.
  intros HI H. split; [|by intros [e|b]]. intros w Hi. unfold units.
  destruct (w_db_up w); cbn [fst snd]; [|done].
  destruct (List.find p (rows t w)); cbn [fst snd]; [|done]. rewrite rows_with_rows_eq.
  split; [by apply HI|]. unfold list_sum. clear Hi. induction (rows t w) as [|x l IH]; simpl; [lia|].
  specialize (H x). destruct (p x); simpl; lia.
Qed.

Lemma units_delete_many_keeps t `{!NoSelfCascade t} g (I : list (Row t) -> Prop) p :
  (forall rs, I rs -> I (List.filter (fun x => negb (p x)) rs)) ->
  stable (keeps (units t g) (fun w => I (rows t w))) (delete_many t p).
Proof.
  intros HI. split; [|by intros [e|b]]. intros w Hi. unfold units, rows in *.
  destruct (w_db_up w); cbn [fst snd]; [|done]. simpl. rewrite (rows_on_delete t _), set_table_eq.
  split; [by apply HI|]. clear Hi.
  unfold list_sum. induction (w_tables w t) as [|x l IH]; simpl; [lia|]. destruct (p x); simpl; lia.
Qed.

(** ** Progress: a run that ends with a value *)

Definition succeeds {A} (p : M A) (w : World) : Prop := exists a w', run p w = (inr a, w').

Lemma succeeds_ret {A} (a : A) w : succeeds (Ret a) w.
Proof. by exists a, w. Qed.

Lemma succeeds_bind {A B} (p : M A) (k : A -> M B) w :
  succeeds p w -> (forall a w', run p w = (inr a, w') -> succeeds (k a) w') -> succeeds (bind p k) w.
Proof.
  intros (a & w1 & Hp) Hk. destruct (Hk a w1 Hp) as (b & w2 & Hb). exists b, w2.
  by rewrite (run_bind_ok _ _ _ _ _ Hp).
Qed.

Lemma succeeds_atom {B} (f : World -> B * World) w : succeeds (atom f) w.
Proof. by eexists _, _. Qed.

Lemma succeeds_query {B} (f : World -> B) w : w_db_up w = true -> succeeds (query f) w.
Proof. intros H. eexists _, _. by apply run_query. Qed.

Lemma succeeds_update_many t p f w : w_db_up w = true -> succeeds (update_many t p f) w.
Proof. intros H. eexists _, _. by apply run_update_many. Qed.

Lemma succeeds_delete_many t p w : w_db_up w = true -> succeeds (delete_many t p) w.
Proof. intros H. eexists _, _. by apply run_delete_many. Qed.

Section Create.
Context {E : Env}.
Lemma succeeds_create t mk w :
  w_db_up w = true -> unique_ok t (rows t w) (mk (uuid (w_uuids w)) (w_now w)) = true ->
  succeeds (create t mk) w.
Proof. intros H1 H2. eexists _, _. by apply run_create. Qed.
End Create.

Lemma succeeds_catch {A} (p : M A) h w : (forall e w', succeeds (h e) w') -> succeeds (catch p h) w.
Proof.
  intros Hh. unfold succeeds. rewrite run_catch. destruct (run p w) as [[e|a] w']; [apply Hh | eauto].
Qed.

Lemma run_frame {A} ts (p : M A) w r w' :
  stable (frame ts) p -> run p w = (r, w') -> frame ts w w'.
Proof. intros Hp Hr. pose proof (stable_run (frame ts) p w Hp) as H. by rewrite Hr in H. Qed.

Lemma frame_rows ts w w' t : frame ts w w' -> includes t ts = false -> rows t w' = rows t w.
Proof. intros [H _] Ht. apply H. by apply includes_false. Qed.

Lemma frame_nil_rows w w' t : frame [] w w' -> rows t w' = rows t w.
Proof. intros F. by apply (frame_rows []). Qed.

Lemma frame_now ts w w' : frame ts w w' -> w_now w' = w_now w.
Proof. by intros (_ & H & _). Qed.

Lemma frame_up ts w w' : frame ts w w' -> w_db_up w = true -> w_db_up w' = true.
Proof. intros (_ & _ & H & _) Hup. by rewrite H. Qed.

(** ** Postconditions of the returned value *)

(** Every value [p] returns, from any world, satisfies [P]. *)
Definition ensures {A} (P : A -> Prop) (p : M A) : Prop :=
  forall w a w', run p w = (inr a, w') -> P a.

Lemma ensures_ret {A} (P : A -> Prop) a : P a -> ensures P (Ret a).
Proof. intros H w b w' Hr. by injection Hr as <- _. Qed.
Lemma ensures_throw {A} (P : A -> Prop) e : ensures P (Throw e).
Proof. intros w a w' H. done. Qed.
Lemma ensures_bind {A B} (P : B -> Prop) (p : M A) (k : A -> M B) :
  (forall a, ensures P (k a)) -> ensures P (bind p k).
Proof. intros Hk w b w' (a & w1 & _ & H)%run_bind_inr. by eapply Hk. Qed.
Lemma ensures_bind_with {A B} (Q : A -> Prop) (P : B -> Prop) (p : M A) (k : A -> M B) :
  ensures Q p -> (forall a, Q a -> ensures P (k a)) -> ensures P (bind p k).
Proof. intros Hp Hk w b w' (a & w1 & Ha & H)%run_bind_inr. eapply Hk; [|exact H]. by eapply Hp. Qed.
Lemma ensures_catch {A} (P : A -> Prop) (p : M A) h :
  ensures P p -> (forall e, ensures P (h e)) -> ensures P (catch p h).
Proof.
  intros Hp Hh w a w'. rewrite run_catch. destruct (run p w) as [[e|b] w1] eqn:Hr.
  - apply Hh.
  - intros [= <- <-]. by eapply Hp.
Qed.

(** Walk a handler down to the calls that return. *)
Ltac ensures :=
  intros; cbv zeta;
  repeat match goal with
  | |- ensures _ (bind _ _) => apply ensures_bind; intros
  | |- ensures _ (Throw _) => apply ensures_throw
  | |- ensures _ (if ?b then _ else _) => destruct b eqn:?
  | |- ensures _ (match ?x with _ => _ end) => destruct x eqn:?
  | |- ensures _ _ => solve [eauto with ensures]
  end.
Create HintDb ensures.
