(* ===== verification/Tenancy.v ===== *)
(** * Tenancy: handlers that stay within one realm

    The administration services look a row up by its id and its realm and then change it
    by its id alone.  [Owned] names the id and the realm of a table's rows; [confined]
    says of a handler that, run from any state with distinct ids, it leaves the rows of
    every other realm as they are, however it ends.  For the parts of an organization the
    owner is the organization. *)

From S2P Require Import Prelude Prog Json Schema Store StoreFacts.

Class Owned (t : Table) := { row_key : Row t -> string; row_owner : Row t -> string }.

#[export] Instance webhook_owned : Owned TWebhook := Build_Owned TWebhook wh_id wh_realmId.
#[export] Instance proxy_owned : Owned TProxyApplication := Build_Owned TProxyApplication papp_id papp_realmId.
#[export] Instance field_owned : Owned TRegistrationField := Build_Owned TRegistrationField rf_id rf_realmId.
#[export] Instance idp_owned : Owned TIdentityProvider := Build_Owned TIdentityProvider idp_id idp_realmId.
#[export] Instance nhi_owned : Owned TNhiIdentity := Build_Owned TNhiIdentity nhi_id nhi_realmId.
#[export] Instance nhi_policy_owned : Owned TNhiCredentialPolicy := Build_Owned TNhiCredentialPolicy np_id np_realmId.
#[export] Instance organization_owned : Owned TOrganization := Build_Owned TOrganization org_id org_realmId.
#[export] Instance client_owned : Owned TClient := Build_Owned TClient client_id client_realmId.
#[export] Instance member_owned : Owned TOrganizationMember := Build_Owned TOrganizationMember om_id om_organizationId.
#[export] Instance invitation_owned : Owned TOrganizationInvitation :=
  Build_Owned TOrganizationInvitation oi_id oi_organizationId.
#[export] Instance sso_owned : Owned TOrganizationSsoConnection :=
  Build_Owned TOrganizationSsoConnection osc_id osc_organizationId.
#[export] Instance user_owned : Owned TUser := Build_Owned TUser user_id user_realmId.

Section Tenancy.
Context {E : Env} (t : Table) `{!NoSelfCascade t} `{!Owned t} (realm : string).

(** The rows of the other realms are the same. *)
Definition others_same (w w' : World) : Prop :=
  forall x : Row t, row_owner x <> realm -> (x ∈ rows t w' <-> x ∈ rows t w).

#[export] Instance others_same_preorder : PreOrder others_same.
Proof.
  split; [done|]. intros a b c H1 H2 x Hx. rewrite (H2 x Hx). by apply H1.
Qed.

Lemma others_same_rows w w' : rows t w' = rows t w -> others_same w w'.
Proof. intros H x _. by rewrite H. Qed.

(** [o] is a row of the realm that the handler has found. *)
Definition confined {A} (o : option (Row t)) (p : M A) : Prop :=
  forall w r w', NoDup (map row_key (rows t w)) -> (forall x, o = Some x -> x ∈ rows t w) ->
    run p w = (r, w') -> others_same w w'.

Lemma confined_frame {A} ts o (p : M A) :
  stable (frame ts) p -> includes t ts = false -> confined o p.
Proof. intros Hp Ht w r w' _ _ Hr. apply others_same_rows. by apply (frame_rows _ _ _ _ (run_frame _ _ _ _ _ Hp Hr)). Qed.

Lemma confined_ret {A} o (a : A) : confined o (Ret a).
Proof. by apply (confined_frame []). Qed.
Lemma confined_throw {A} o e : confined o (Throw e : M A).
Proof. by apply (confined_frame []). Qed.

(** First steps that do not touch the table. *)
Lemma confined_bind_frame {A B} ts o (p : M A) (k : A -> M B) :
  stable (frame ts) p -> includes t ts = false -> (forall a, confined o (k a)) -> confined o (bind p k).
Proof.
  intros Hp Ht Hk w r w' Hnd Ho [(e & Hr)|(a & w1 & Ha & Hr)]%run_bind_any.
  - by eapply (confined_frame ts o p).
  - pose proof (frame_rows _ _ _ _ (run_frame _ _ _ _ _ Hp Ha) Ht) as H1.
    transitivity w1; [by apply others_same_rows|]. eapply (Hk a w1 r w'); rewrite ?H1; done.
Qed.

(** Last steps that do not touch the table. *)
Lemma confined_bind_last {A B} ts o (p : M A) (k : A -> M B) :
  confined o p -> (forall a, stable (frame ts) (k a)) -> includes t ts = false -> confined o (bind p k).
Proof.
  intros Hp Hk Ht w r w' Hnd Ho [(e & Hr)|(a & w1 & Ha & Hr)]%run_bind_any; [by eapply Hp|].
  transitivity w1; [by eapply Hp|]. apply others_same_rows.
  by apply (frame_rows _ _ _ _ (run_frame _ _ _ _ _ (Hk a) Hr)).
Qed.

Lemma confined_find {B} o p (k : option (Row t) -> M B) :
  confined o (k None) -> (forall x, p x = true -> confined (Some x) (k (Some x))) ->
  confined o (bind (find_first t p) k).
Proof.
  intros Hn Hs w r w' Hnd Ho [(e & Hr)|(a & w1 & Ha & Hr)]%run_bind_any.
  - apply run_query_any in Hr as ->. done.
  - run_stmt_inv Ha. subst a. destruct (List.find p (rows t w)) as [x|] eqn:Hx; [|by eapply Hn].
    apply find_elem in Hx as [Hin Hp]. eapply (Hs x Hp); [done| |exact Hr]. by intros y [= <-].
Qed.

Lemma confined_create mk : (forall id at_, row_owner (mk id at_) = realm) -> forall o, confined o (create t mk).
Proof.
  intros Hm o w r w' _ _ [->| ->]%run_create_any; [done|]. intros x Hx. rewrite rows_with_rows_eq.
  split; [|set_solver]. intros [?|Hc%list_elem_of_singleton]%elem_of_app; [done|]. subst x. by rewrite Hm in Hx.
Qed.

(** A row of the realm is changed, or removed, by its id. *)
Lemma others_update p f rs (x y : Row t) :
  List.find p rs = Some x -> row_owner x = realm -> (forall r, row_owner (f r) = row_owner r) ->
  row_owner y <> realm -> y ∈ update_first p f rs <-> y ∈ rs.
Proof.
  intros Hf Hx Hfo Hy. induction rs as [|z rs IH]; simpl in *; [done|]. destruct (p z).
  - injection Hf as ->. rewrite !elem_of_cons. split; (intros [->|?]; [|by right]); exfalso; [rewrite Hfo in Hy|]; done.
  - rewrite !elem_of_cons, (IH Hf). done.
Qed.
Lemma others_remove p rs (x y : Row t) :
  List.find p rs = Some x -> row_owner x = realm -> row_owner y <> realm -> y ∈ remove_first p rs <-> y ∈ rs.
Proof.
  intros Hf Hx Hy. induction rs as [|z rs IH]; simpl in *; [done|]. destruct (p z).
  - injection Hf as ->. rewrite elem_of_cons. split; [by right|]. intros [->|?]; done.
  - rewrite !elem_of_cons, (IH Hf). done.
Qed.

Lemma found_again (rs : list (Row t)) x y :
  NoDup (map row_key rs) -> x ∈ rs -> List.find (fun z => row_key z === row_key x) rs = Some y -> y = x.
Proof.
  intros Hnd Hx Hy. apply find_elem in Hy as [Hin He%bool_decide_eq_true]. by apply (NoDup_map_inj row_key rs).
Qed.

Lemma confined_update x p f :
  p = (fun z => row_key z === row_key x) -> row_owner x = realm -> (forall r, row_owner (f r) = row_owner r) ->
  confined (Some x) (update t p f).
Proof.
  intros -> Hx Hf w r w' Hnd Ho Hr. unfold update in Hr. rewrite run_prisma in Hr.
  destruct (w_db_up w); [|by injection Hr as _ <-].
  destruct (List.find _ _) as [y|] eqn:Hy; injection Hr as _ <-; [|done]. intros z Hz. rewrite rows_with_rows_eq.
  assert (y = x) as -> by (eapply found_again; [exact Hnd|by apply Ho|exact Hy]). by eapply others_update.
Qed.

Lemma confined_update_checked x p f :
  p = (fun z => row_key z === row_key x) -> row_owner x = realm -> (forall r, row_owner (f r) = row_owner r) ->
  confined (Some x) (update_checked t p f).
Proof.
  intros -> Hx Hf w r w' Hnd Ho [->|(y & Hy & ->)]%run_update_checked_any; [done|]. intros z Hz. rewrite rows_with_rows_eq.
  assert (y = x) as -> by (eapply found_again; [exact Hnd|by apply Ho|exact Hy]). by eapply others_update.
Qed.

Lemma confined_delete x p :
  p = (fun z => row_key z === row_key x) -> row_owner x = realm -> confined (Some x) (delete_one t p).
Proof.
  intros -> Hx w r w' Hnd Ho Hr. unfold delete_one in Hr. rewrite run_prisma in Hr.
  destruct (w_db_up w); [|by injection Hr as _ <-].
  destruct (List.find _ _) as [y|] eqn:Hy; injection Hr as _ <-; [|done]. intros z Hz.
  assert (y = x) as -> by (eapply found_again; [exact Hnd|by apply Ho|exact Hy]).
  unfold rows. simpl. rewrite (rows_on_delete t _), set_table_eq. by eapply others_remove.
Qed.

(** A statement whose condition names the realm. *)
Lemma confined_update_by o p f :
  (forall z : Row t, p z = true -> row_owner z = realm) -> (forall r, row_owner (f r) = row_owner r) ->
  confined o (update t p f).
Proof.
  intros Hp Hf w r w' _ _ Hr. unfold update in Hr. rewrite run_prisma in Hr.
  destruct (w_db_up w); [|by injection Hr as _ <-].
  destruct (List.find p _) as [y|] eqn:Hy; injection Hr as _ <-; [|done]. intros z Hz. rewrite rows_with_rows_eq.
  eapply others_update; [exact Hy| |done|done]. apply Hp. by apply find_elem in Hy as [_ ?].
Qed.

Lemma confined_delete_by o p :
  (forall z : Row t, p z = true -> row_owner z = realm) -> confined o (delete_one t p).
Proof.
  intros Hp w r w' _ _ Hr. unfold delete_one in Hr. rewrite run_prisma in Hr.
  destruct (w_db_up w); [|by injection Hr as _ <-].
  destruct (List.find p _) as [y|] eqn:Hy; injection Hr as _ <-; [|done]. intros z Hz.
  unfold rows. simpl. rewrite (rows_on_delete t _), set_table_eq. eapply others_remove; [exact Hy| |done].
  apply Hp. by apply find_elem in Hy as [_ ?].
Qed.

Lemma upsert_others p mk f w r w' :
  (forall z : Row t, p z = true -> row_owner z = realm) -> (forall r, row_owner (f r) = row_owner r) ->
  (forall id at_, row_owner (mk id at_) = realm) -> run (upsert t p mk f) w = (r, w') -> others_same w w'.
Proof.
  intros Hp Hf Hm Hr. unfold upsert in Hr. rewrite run_prisma in Hr.
  destruct (w_db_up w); [|by injection Hr as _ <-].
  destruct (List.find p _) as [y|] eqn:Hy; injection Hr as _ <-; intros z Hz; rewrite rows_with_rows_eq.
  - eapply others_update; [exact Hy| |done|done]. apply Hp. by apply find_elem in Hy as [_ ?].
  - split; [|set_solver]. intros [?|Hc%list_elem_of_singleton]%elem_of_app; [done|]. subst z. by rewrite Hm in Hz.
Qed.
Lemma confined_upsert o p mk f :
  (forall z : Row t, p z = true -> row_owner z = realm) -> (forall r, row_owner (f r) = row_owner r) ->
  (forall id at_, row_owner (mk id at_) = realm) -> confined o (upsert t p mk f).
Proof. intros Hp Hf Hm w r w' _ _. by apply upsert_others. Qed.
End Tenancy.

(** The lookup of a row of a realm, in the two orders the code writes it. *)
Lemma owned_guard {A B} `{EqDecision A} `{EqDecision B} (a b : A) (c d : B) :
  (a === b) && (c === d) = true -> a = b /\ c = d.
Proof. intros [?%bool_decide_eq_true ?%bool_decide_eq_true]%andb_true_iff. done. Qed.
