(* ===== verification/Testbed.v ===== *)
(** * Testbed: a concrete environment and a small database

    The parameters of [Env] instantiated by simple functions, and rows to build
    concrete worlds from, for the theorems that are applied at a concrete
    input. *)

From stdpp Require Import pretty.
From S2P Require Import Prelude Prog Json Schema Store.

(** [n] copies of the byte of a draw number. *)
Fixpoint repeat_char (n : nat) (c : ascii) : string :=
  match n with 0%nat => EmptyString | S n' => String c (repeat_char n' c) end.

Definition test_env_with (verify : string -> string -> Z -> option obj) : Env := {|
  uuid n := "id-" +:+ pretty (N.of_nat n);
  random_bytes size draw := repeat_char size (ascii_of_nat (65 + draw));
  random_int max draw := (7919 * Z.of_nat draw + 123456) mod max;
  sha256_digest s := s;
  argon2_verify hash password := Some (hash === ("argon:" +:+ password));
  argon2_hash draw password := "argon:" +:+ password;
  bcrypt_compare password hash := Some (hash === ("bcrypt:" +:+ password));
  pbkdf2_equals password salt rounds hash := Some (hash === password);
  jose_sign key kid claims :=
    Some ("jwt." +:+ kid +:+ "." +:+
          match obj_get "jti" claims with Some (JStr j) => j | _ => "none" end);
  jose_verify := verify;
  totp_validate cred code now := if code === "123456" then Some 0 else None;
  totp_new_secret draw := "secret-" +:+ pretty (N.of_nat draw);
  process_env name := if name === "BASE_URL" then Some "https://idp.example" else None;
  hmac_hex purpose data := purpose +:+ ":" +:+ data;
  aes_encrypt draw s := "enc:" +:+ s;
  aes_decrypt s := if starts_with "enc:" s then Some (String.substring 4 (String.length s) s) else None;
  ldap_authenticate fed user password := Some (password === "ldap-password");
  ldap_search fed user := None;
  send_sms realm phone text := true;
  enrich_token := None;
  geo_coords ip now := None;
  geo_location ip now := if ip === "203.0.113.7" then Some (Some "Paris", Some "France") else None;
  math_sin x := x; math_cos x := x; math_atan2 x y := x;
  render_email realm template data := "<p>" +:+ js_join "," (map snd data) +:+ "</p>";
  email_subject realm key := key;
  sanitize_html html := html;
  deliver_mail provider settings mail := true
|}.

Definition test_env : Env := test_env_with (fun _ _ _ => None).

Definition no_tables : Tables := fun t => [].

Definition world0 : World :=
  mkWorld no_tables 1000000000 0 0 true RedisDown ∅ ∅ ∅ [] ∅ ∅ ∅ ∅ ∅ [] [].

Definition realm0 : Realm :=
  mkRealm "realm-1" "acme" (Some "Acme") 300 1800 2592000
    8 true true true false 0
    true 3 900 600 0
    false true 300 3
    true "log" 6 300 5 3600
    2 true true 60 1000 60 1000 100 2000 true 3600 true true
    0 true false [] false true None None false true 30 None
    false 50 80 None (Some 587) None None None false "smtp" None.

Definition user0 : User :=
  mkUser "user-1" "realm-1" "alice" (Some "alice@acme.test") true (Some "Alice") (Some "Doe")
    true (Some "argon:Secret123") "argon2" None (Some 900000000) None 900000000.

Definition client0 : Client :=
  mkClient "client-db-1" "realm-1" "app" None PUBLIC true
    ["https://app.example/cb"]
    ["authorization_code"; "refresh_token"; "password"; "urn:ietf:params:oauth:grant-type:device_code"]
    ["https://app.example/bye"] None None None false None None [] None true 900 0.

Definition key0 : RealmSigningKey :=
  mkRealmSigningKey "realm-1" "kid-1" "pub-1" "priv-1" true 0.

(** One realm with one user, one public client and one signing key. *)
Definition world1 : World :=
  with_rows TRealmSigningKey [key0]
    (with_rows TClient [client0] (with_rows TUser [user0] (with_rows TRealm [realm0] world0))).

(** The run of a handler ends with a value. *)
Definition ends_ok {A} (p : M A) (w : World) : bool :=
  match (run p w).1 with inr _ => true | inl _ => false end.

Lemma ends_ok_run {A} (p : M A) w : ends_ok p w = true -> exists a w', run p w = (inr a, w').
Proof. unfold ends_ok. destruct (run p w) as [[e|a] w']; simpl; [done | by exists a, w']. Qed.
