(* ===== verification/Scopes.v ===== *)
(** * Scopes: scope strings, claims and protocol mappers

    src/src/scopes: the table of OIDC scopes, [ScopesService], the claims
    resolver and the protocol-mapper executor, and the OIDC claims of custom
    attributes (src/src/custom-attributes). *)

From S2P Require Import Prelude Prog Json Schema Store StoreFacts Testbed.

(** ** scopes.constants.ts *)

Definition OIDC_SCOPES : list (string * list string) :=
  [("openid", ["sub"]);
   ("profile", ["name"; "family_name"; "given_name"; "preferred_username"; "updated_at"]);
   ("email", ["email"; "email_verified"]);
   ("roles", ["realm_access"; "resource_access"])].

Definition SUPPORTED_SCOPES : list string := map fst OIDC_SCOPES.

(** ** ScopesService, the pure part *)

Definition parseAndValidate (scopeString : option string) : list string :=
  if negb (truthy scopeString) then [] else
  let requested :=
    List.filter (fun s => s !== EmptyString) (js_split " "%char (scopeString ?? EmptyString)) in
  List.filter (fun s => includes s SUPPORTED_SCOPES) requested.

(** [claims.add(c)] on a set kept in insertion order. *)
Definition set_add (c : string) (claims : list string) : list string :=
  if includes c claims then claims else claims ++ [c].

Definition oidc_scope_claims (scope : string) : list string :=
  match List.find (fun kv => kv.1 === scope) OIDC_SCOPES with
  | Some (_, scopeClaims) => scopeClaims
  | None => []
  end.

Definition getClaimsForScopes (scopes : list string) : list string :=
  foldl (fun claims scope => foldl (fun claims c => set_add c claims) claims
    (oidc_scope_claims scope)) [] scopes.

Definition hasOpenidScope (scopes : list string) : bool := includes "openid" scopes.

Definition toString (scopes : list string) : string := js_join " " scopes.

(** ** claims.resolver.ts *)

(** [firstName && lastName ? `${firstName} ${lastName}` : firstName ?? lastName]. *)
Definition full_name (firstName lastName : option string) : option string :=
  if truthy firstName && truthy lastName
  then Some ((firstName ?? EmptyString) +:+ " " +:+ (lastName ?? EmptyString))
  else match firstName with Some f => Some f | None => lastName end.

Definition all_claims (user : User) : list (string * option json) :=
  [("sub", Some (JStr (user_id user)));
   ("preferred_username", Some (JStr (user_username user)));
   ("given_name", JStr <$> user_firstName user);
   ("family_name", JStr <$> user_lastName user);
   ("name", JStr <$> full_name (user_firstName user) (user_lastName user));
   ("email", JStr <$> user_email user);
   ("email_verified", Some (JBool (user_emailVerified user)))].

Definition filter_claims (allowedClaims : list string) (claims : list (string * option json))
    (filtered : obj) : obj :=
  foldl (fun acc kv =>
    if kv.1 === "sub" then acc
    else match kv.2 with
         | Some v => if includes kv.1 allowedClaims then obj_set kv.1 v acc else acc
         | None => acc
         end) filtered claims.

Definition merge_custom (customAttributeClaims : list (string * string)) (filtered : obj) : obj :=
  foldl (fun acc kv => if kv.2 !== EmptyString then obj_set kv.1 (JStr kv.2) acc else acc)
    filtered customAttributeClaims.

Definition resolveUserClaims (user : User) (allowedClaims : list string)
    (customAttributeClaims : list (string * string)) : obj :=
  merge_custom customAttributeClaims
    (filter_claims allowedClaims (all_claims user) [("sub", JStr (user_id user))]).

(** ** ProtocolMapperExecutor *)

Record MapperContext := mkMapperContext {
  mc_userId : string; mc_username : string; mc_email : option string; mc_emailVerified : bool;
  mc_firstName : option string; mc_lastName : option string;
  mc_realmRoles : list string; mc_resourceAccess : list (string * list string)
}.

(** [config[k] as string | undefined]. *)
Definition cfg_str (k : string) (config : obj) : option string :=
  match obj_get k config with Some (JStr s) => Some s | _ => None end.

(** [{ roles: ... }], the value of realm_access and of each resource. *)
Definition roles_json (roles : list string) : json := JObj [("roles", JStrs roles)].
Definition resource_access_json (ra : list (string * list string)) : json :=
  JObj (map (fun kv => (kv.1, roles_json kv.2)) ra).

Definition executeUserModelAttributeMapper (config : obj) (context : MapperContext)
    (payload : obj) : obj :=
  let userAttribute := cfg_str "user.attribute" config in
  let claimName := cfg_str "claim.name" config in
  if negb (truthy userAttribute) || negb (truthy claimName) then payload else
  let attributeMap :=
    [("username", Some (JStr (mc_username context)));
     ("email", JStr <$> mc_email context);
     ("emailVerified", Some (JBool (mc_emailVerified context)));
     ("firstName", JStr <$> mc_firstName context);
     ("lastName", JStr <$> mc_lastName context)] in
  match List.find (fun kv => kv.1 === (userAttribute ?? EmptyString)) attributeMap with
  | Some (_, Some value) => obj_set (claimName ?? EmptyString) value payload
  | _ => payload
  end.

Definition executeHardcodedClaimMapper (config payload : obj) : obj :=
  let claimName := cfg_str "claim.name" config in
  match obj_get "claim.value" config with
  | Some claimValue =>
      if negb (truthy claimName) then payload
      else obj_set (claimName ?? EmptyString) claimValue payload
  | None => payload
  end.

Definition executeRoleListMapper (config : obj) (context : MapperContext) (payload : obj) : obj :=
  let claimName := cfg_str "claim.name" config ?? "realm_access" in
  if claimName === "realm_access"
  then obj_set "resource_access" (resource_access_json (mc_resourceAccess context))
         (obj_set "realm_access" (roles_json (mc_realmRoles context)) payload)
  else payload.

Definition executeAudienceMapper (config payload : obj) : obj :=
  let audience := cfg_str "included.client.audience" config in
  if negb (truthy audience) then payload else
  let a := JStr (audience ?? EmptyString) in
  match obj_get "aud" payload with
  | Some (JArr existing) => obj_set "aud" (JArr (existing ++ [a])) payload
  | Some (JStr existing) => obj_set "aud" (JArr [JStr existing; a]) payload
  | _ => obj_set "aud" a payload
  end.

Definition executeFullNameMapper (context : MapperContext) (payload : obj) : obj :=
  let name := full_name (mc_firstName context) (mc_lastName context) in
  if truthy name then obj_set "name" (JStr (name ?? EmptyString)) payload else payload.

Definition executeMapper (mapper : ProtocolMapper) (context : MapperContext) (payload : obj) : obj :=
  let config := pm_config mapper in
  let ty := pm_mapperType mapper in
  if ty === "oidc-usermodel-attribute-mapper"
  then executeUserModelAttributeMapper config context payload
  else if ty === "oidc-hardcoded-claim-mapper" then executeHardcodedClaimMapper config payload
  else if ty === "oidc-role-list-mapper" then executeRoleListMapper config context payload
  else if ty === "oidc-audience-mapper" then executeAudienceMapper config payload
  else if ty === "oidc-full-name-mapper" then executeFullNameMapper context payload
  else payload.

Definition executeMappers (mappers : list ProtocolMapper) (context : MapperContext)
    (payload : obj) : obj :=
  foldl (fun payload mapper => executeMapper mapper context payload) payload mappers.

(** ** ScopesService and CustomAttributesService, the queries *)

Section Queries.
Context {E : Env}.

(** [findMany({ where: { clientId }, include: { clientScope: true } })], as names. *)
Definition linked_scope_names (links : World -> list ClientScopeLink)
    (clientDbId : string) : M (list string) :=
  query (fun w =>
    flat_map (fun l => map cs_name
        (List.filter (fun s => cs_id s === csl_clientScopeId l) (rows TClientScope w)))
      (List.filter (fun l => csl_clientId l === clientDbId) (links w))).

Definition getClientEffectiveScopes (clientDbId : string) (requestedScopes : list string)
  : M (list string) :=
  (defaultNames <- linked_scope_names (rows TClientDefaultScope) clientDbId ;;
   optionalNames <- linked_scope_names (rows TClientOptionalScope) clientDbId ;;
   let effective := dedup [] defaultNames in
   Ret (foldl (fun eff s => if includes s optionalNames then set_add s eff else eff)
          effective requestedScopes))%prog.

Definition getScopeMappers (scopeNames : list string) (realmId : string)
  : M (list ProtocolMapper) :=
  match scopeNames with
  | [] => Ret []
  | _ =>
    query (fun w =>
      flat_map (fun s => List.filter (fun m => pm_clientScopeId m === cs_id s) (rows TProtocolMapper w))
        (List.filter (fun s => (cs_realmId s === realmId) && includes (cs_name s) scopeNames)
          (rows TClientScope w)))
  end.

(** [claims[k] = v] on a [Record<string, string>]. *)
Fixpoint assoc_set (k v : string) (l : list (string * string)) : list (string * string) :=
  match l with
  | [] => [(k, v)]
  | (k', v') :: l' => if k === k' then (k, v) :: l' else (k', v') :: assoc_set k v l'
  end.

(** custom-attributes.service.ts *)
Definition getOidcClaimsForUser (userId : string) : M (list (string * string)) :=
  query (fun w =>
    let values := List.filter (fun v => ua_userId v === userId) (rows TUserAttribute w) in
    foldl (fun claims v =>
      match List.find (fun a => ca_id a === ua_attributeId v) (rows TCustomAttribute w) with
      | Some a =>
          if truthy (ca_mapToOidcClaim a)
          then assoc_set (ca_mapToOidcClaim a ?? EmptyString) (ua_value v) claims
          else claims
      | None => claims
      end) [] values).

Lemma getClientEffectiveScopes_footprint ts c r :
  stable (frame ts) (getClientEffectiveScopes c r).
Proof. unfold getClientEffectiveScopes, linked_scope_names. footprint. Qed.
Lemma getScopeMappers_footprint ts n r : stable (frame ts) (getScopeMappers n r).
Proof. unfold getScopeMappers. footprint. Qed.
Lemma getOidcClaimsForUser_footprint ts u : stable (frame ts) (getOidcClaimsForUser u).
Proof. unfold getOidcClaimsForUser. footprint. Qed.
End Queries.

#[export] Hint Resolve getClientEffectiveScopes_footprint getScopeMappers_footprint
  getOidcClaimsForUser_footprint : footprint.

(** ** Scope strings *)

Lemma elem_of_parseAndValidate s r :
  s ∈ parseAndValidate r <->
  s ∈ SUPPORTED_SCOPES /\ truthy r = true /\ s ∈ js_split " "%char (r ?? EmptyString).
Proof.
  unfold parseAndValidate. destruct (truthy r) eqn:Ht; simpl; [|set_solver].
  rewrite !elem_of_filter_list, includes_true, negb_true_iff, bool_decide_eq_false.
  split; [naive_solver|]. intros (Hs & _ & Hin). repeat split; try done.
  intros ->. unfold SUPPORTED_SCOPES in Hs. simpl in Hs. set_solver.
Qed.

Lemma parseAndValidate_supported r s : s ∈ parseAndValidate r -> s ∈ SUPPORTED_SCOPES.
Proof. rewrite elem_of_parseAndValidate. naive_solver. Qed.

Lemma parseAndValidate_no_offline r : "offline_access" ∉ parseAndValidate r.
Proof. intros H%parseAndValidate_supported. unfold SUPPORTED_SCOPES in H. simpl in H. set_solver. Qed.

Lemma filter_all {A} (p : A -> bool) l : Forall (fun x => p x = true) l -> List.filter p l = l.
Proof. induction 1 as [|x l Hx Hl IH]; simpl; [done|]. by rewrite Hx, IH. Qed.

Lemma supported_scope_shape s :
  s ∈ SUPPORTED_SCOPES -> free_of " "%char s /\ s <> EmptyString.
Proof.
  unfold SUPPORTED_SCOPES. simpl. set_unfold. intros H.
  destruct_or! H; subst; by split.
Qed.

Lemma js_join_nonempty sep x l : x <> EmptyString -> js_join sep (x :: l) <> EmptyString.
Proof. destruct x; [done|]. by destruct l. Qed.

(** Printing a set of supported scopes and parsing it back is the identity. *)
Lemma parseAndValidate_print l :
  Forall (fun s => s ∈ SUPPORTED_SCOPES) l -> parseAndValidate (Some (toString l)) = l.
Proof.
  intros Hl. destruct l as [|x l]; [done|].
  assert (Hshape : Forall (fun s => free_of " "%char s /\ s <> EmptyString) (x :: l))
    by (eapply Forall_impl; [exact Hl | intros; by apply supported_scope_shape]).
  unfold parseAndValidate.
  rewrite (proj2 (truthy_Some _)).
  2:{ apply js_join_nonempty. by apply Forall_cons in Hshape as [[_ ?] _]. }
  unfold toString. cbn [negb from_option id]. cbv zeta. change (Some (js_join " " (x :: l)) ?? EmptyString) with (js_join " " (x :: l)).
  rewrite (js_split_join " "%char); [|done|eapply Forall_impl; [exact Hshape|naive_solver]].
  rewrite (filter_all (fun s => s !== EmptyString)).
  2:{ eapply Forall_impl; [exact Hshape|]. simpl. intros s [_ Hs].
      by rewrite negb_true_iff, bool_decide_eq_false. }
  apply filter_all. eapply Forall_impl; [exact Hl|]. intros s. apply includes_true.
Qed.

(** ** Claims *)

Lemma elem_of_set_add c x s : x ∈ set_add c s <-> x = c \/ x ∈ s.
Proof. unfold set_add. destruct (includes c s) eqn:H; [apply includes_true in H|]; set_solver. Qed.

Lemma elem_of_set_adds cs x s : x ∈ foldl (fun s c => set_add c s) s cs <-> x ∈ cs \/ x ∈ s.
Proof.
  revert s. induction cs as [|c cs IH]; intros s; simpl; [set_solver|].
  rewrite IH, elem_of_set_add. set_solver.
Qed.

Lemma elem_of_getClaimsForScopes scopes c :
  c ∈ getClaimsForScopes scopes <-> exists s, s ∈ scopes /\ c ∈ oidc_scope_claims s.
Proof.
  unfold getClaimsForScopes.
  enough (H : forall acc, c ∈ foldl (fun claims scope =>
      foldl (fun claims c => set_add c claims) claims (oidc_scope_claims scope)) acc scopes <->
      c ∈ acc \/ exists s, s ∈ scopes /\ c ∈ oidc_scope_claims s) by (rewrite H; set_solver).
  induction scopes as [|s scopes IH]; intros acc; simpl; [set_solver|].
  rewrite IH, elem_of_set_adds. set_solver.
Qed.

(** The value a custom attribute gives to a claim: the last non-empty one. *)
Definition custom_value (k : string) (custom : list (string * string)) : option string :=
  foldl (fun acc kv => if (kv.1 === k) && (kv.2 !== EmptyString) then Some kv.2 else acc)
    None custom.

Lemma obj_get_merge_custom k custom o :
  obj_get k (merge_custom custom o) =
    match custom_value k custom with Some v => Some (JStr v) | None => obj_get k o end.
Proof.
  unfold merge_custom, custom_value.
  enough (H : forall o acc,
    obj_get k o = match acc with Some v => Some (JStr v) | None => obj_get k o end ->
    obj_get k (foldl (fun acc kv => if kv.2 !== EmptyString then obj_set kv.1 (JStr kv.2) acc else acc)
      o custom) =
    match foldl (fun acc kv => if (kv.1 === k) && (kv.2 !== EmptyString) then Some kv.2 else acc)
      acc custom with Some v => Some (JStr v) | None => obj_get k o end) by (by apply H).
  induction custom as [|[q v] custom IH]; intros o' acc Ho; simpl; [done|].
  destruct (bool_decide_reflect (v = EmptyString)) as [->|Hv]; simpl.
  - rewrite andb_false_r. by apply IH.
  - rewrite andb_true_r. destruct (bool_decide_reflect (q = k)) as [->|Hq].
    + rewrite (IH _ (Some v)) by apply obj_get_set_eq.
      destruct (foldl _ (Some v) custom) eqn:Hf; [done|]. exfalso. clear -Hf.
      revert v Hf. induction custom as [|c custom IH]; simpl; [done|].
      intros v. case_match; apply IH.
    + rewrite (IH _ acc); [|by rewrite obj_get_set_ne by done].
      by rewrite obj_get_set_ne by done.
Qed.

Lemma obj_get_filter_claims k allowed claims o :
  NoDup (map fst claims) -> k <> "sub" ->
  obj_get k (filter_claims allowed claims o) =
    if includes k allowed
    then match List.find (fun kv => kv.1 === k) claims with
         | Some (_, Some v) => Some v
         | _ => obj_get k o
         end
    else obj_get k o.
Proof.
  intros Hnd Hk. unfold filter_claims. revert o.
  induction claims as [|[q v] claims IH]; intros o; simpl in *; [by case_match|].
  apply NoDup_cons in Hnd as [Hq Hnd]. rewrite IH by done.
  destruct (bool_decide_reflect (q = k)) as [->|Hqk].
  - assert (Hf : List.find (fun kv : string * option json => kv.1 === k) claims = None).
    { destruct (List.find _ claims) as [[q' v']|] eqn:Hf; [|done].
      apply find_elem in Hf as [Hin Heq]. apply bool_decide_eq_true in Heq. simpl in Heq. subst.
      destruct Hq. apply list_elem_of_fmap. by exists (k, v'). }
    rewrite Hf. rewrite (bool_decide_eq_false_2 (k = "sub")) by done.
    destruct v as [v|]; [|by case_match]. destruct (includes k allowed); [apply obj_get_set_eq|done].
  - destruct (q === "sub"); [done|]. destruct v as [v|]; [|done].
    destruct (includes q allowed); [|done]. by rewrite obj_get_set_ne.
Qed.

Lemma obj_get_sub_filter_claims allowed claims o :
  obj_get "sub" (filter_claims allowed claims o) = obj_get "sub" o.
Proof.
  unfold filter_claims. revert o. induction claims as [|[q v] claims IH]; intros o; simpl; [done|].
  rewrite IH. destruct (bool_decide_reflect (q = "sub")) as [->|Hq]; [done|].
  destruct v as [v|]; [|done]. destruct (includes q allowed); [|done]. by rewrite obj_get_set_ne.
Qed.

(** Every claim of the resolver, by source. *)
Lemma obj_get_resolveUserClaims user allowed custom k :
  obj_get k (resolveUserClaims user allowed custom) =
    match custom_value k custom with
    | Some v => Some (JStr v)
    | None =>
        if k === "sub" then Some (JStr (user_id user))
        else if includes k allowed
        then match List.find (fun kv => kv.1 === k) (all_claims user) with
             | Some (_, v) => v
             | None => None
             end
        else None
    end.
Proof.
  unfold resolveUserClaims. rewrite obj_get_merge_custom.
  destruct (custom_value k custom); [done|].
  destruct (bool_decide_reflect (k = "sub")) as [->|Hk].
  - by rewrite obj_get_sub_filter_claims.
  - rewrite obj_get_filter_claims; [|by apply (bool_decide_unpack _); vm_compute|done].
    simpl obj_get. rewrite (bool_decide_eq_false_2 (k = "sub")) by done.
    destruct (includes k allowed); [|done].
    by destruct (List.find _ (all_claims user)) as [[? [v|]]|].
Qed.

(** ** Properties *)

(** Parsing a scope string keeps exactly the supported scopes it lists, and is
    idempotent through printing: the [scope] of a response parses back to itself. *)
Theorem scope_parse_print_roundtrip r :
  parseAndValidate (Some (toString (parseAndValidate r))) = parseAndValidate r /\
  forall s, s ∈ parseAndValidate r <->
    s ∈ SUPPORTED_SCOPES /\ truthy r = true /\ s ∈ js_split " "%char (r ?? EmptyString).
Proof.
  split; [|intros s; apply elem_of_parseAndValidate].
  apply parseAndValidate_print, Forall_forall. intros s. apply parseAndValidate_supported.
Qed.

(** User data is released by scope: a claim other than [sub] appears only when a
    requested scope grants it, with the value of the user's record, or when an
    attribute of the realm is mapped to it. *)
Theorem user_claims_granted user scopes custom k v :
  obj_get k (resolveUserClaims user (getClaimsForScopes scopes) custom) = Some v ->
  (exists c, custom_value k custom = Some c /\ v = JStr c) \/
  (k = "sub" /\ v = JStr (user_id user)) \/
  (exists s, s ∈ scopes /\ k ∈ oidc_scope_claims s) /\ (k, Some v) ∈ all_claims user.
Proof.
  rewrite obj_get_resolveUserClaims. destruct (custom_value k custom) as [c|]; [intros [= <-]; left; eauto|].
  destruct (bool_decide_reflect (k = "sub")) as [->|Hk]; [intros [= <-]; auto|].
  destruct (includes k _) eqn:Hi; [|done]. apply includes_true, elem_of_getClaimsForScopes in Hi.
  destruct (List.find _ (all_claims user)) as [[k' v']|] eqn:Hf; [|done].
  apply find_elem in Hf as [Hin Hkk%bool_decide_eq_true]. simpl in Hkk. subst k'.
  intros ->. right; right. auto.
Qed.

Example user_claims_granted_witness :
  obj_get "email" (resolveUserClaims user0 (getClaimsForScopes ["openid"; "email"]) []) =
    Some (JStr "alice@acme.test") /\
  exists s, s ∈ ["openid"; "email"] /\ "email" ∈ oidc_scope_claims s.
Proof.
  assert (H : obj_get "email" (resolveUserClaims user0 (getClaimsForScopes ["openid"; "email"]) []) =
    Some (JStr "alice@acme.test")) by reflexivity.
  split; [exact H|].
  destruct (user_claims_granted _ _ _ _ _ H) as [(c & Hc & _)|[[Hk _]|[Hs _]]];
    [discriminate Hc | discriminate Hk | exact Hs].
Defined.
