(* ===== verification/StepUp.v ===== *)
(** * StepUp: assurance levels and step-up records (src/src/step-up) *)

From S2P Require Import Prelude Prog Json Schema Store StoreFacts Testbed.

Definition ACR_PASSWORD : string := "urn:idenplane:acr:password".
Definition ACR_MFA : string := "urn:idenplane:acr:mfa".
Definition ACR_WEBAUTHN : string := "urn:idenplane:acr:webauthn".
Definition ACR_VALUES_SUPPORTED : list string := [ACR_PASSWORD; ACR_MFA; ACR_WEBAUTHN].

(** [ACR_LEVEL_STRENGTH[acr]], 0 for an unknown level. *)
Definition level_strength (acr : string) : Z :=
  if acr === ACR_PASSWORD then 1
  else if acr === ACR_MFA then 2
  else if acr === ACR_WEBAUTHN then 3
  else 0.

Definition acrStrength (acr : option string) : Z :=
  match acr with
  | Some a => if a === EmptyString then 0 else level_strength a
  | None => 0
  end.

(** The loop shared by [strongestAcr] and [getSessionAcr]. *)
Definition best_acr (best : string) (candidates : list (option string)) : string :=
  foldl (fun best acr =>
    match acr with
    | Some a =>
        if truthy acr && (acrStrength (Some best) <? acrStrength acr) then a else best
    | None => best
    end) best candidates.

Definition strongestAcr (candidates : list (option string)) : string :=
  best_acr ACR_PASSWORD candidates.

Definition satisfiesAcr (candidate required : string) : bool :=
  acrStrength (Some required) <=? acrStrength (Some candidate).

Section Service.
Context {E : Env}.

Definition getSessionAcr (sessionId : string) : M string :=
  (now <- date_now ;;
   records <- find_many_desc TStepUpRecord
     (fun r => (su_sessionId r === sessionId) && (now <? su_expiresAt r)) su_completedAt ;;
   match records with
   | [] => Ret ACR_PASSWORD
   | _ => Ret (best_acr ACR_PASSWORD (map (fun r => Some (su_acrLevel r)) records))
   end)%prog.

Definition getLoginSessionAcr (sessionId : string) (satisfiedAcr : option string) : M string :=
  (acr <- getSessionAcr sessionId ;;
   Ret (strongestAcr [satisfiedAcr; Some acr]))%prog.

Definition getClientRequiredAcr (clientId : string) : M (option string) :=
  (client <- find_first TClient (fun c => client_id c === clientId) ;;
   Ret (match client with Some c => client_requiredAcr c | None => None end))%prog.

Definition requiresStepUp (clientDbId currentAcr : string) : M bool :=
  (requiredAcr <- getClientRequiredAcr clientDbId ;;
   if negb (truthy requiredAcr) then Ret false
   else Ret (negb (satisfiesAcr currentAcr (requiredAcr ?? EmptyString))))%prog.

Definition recordStepUp (sessionId acrLevel : string) (cacheDuration : Z) : M unit :=
  (now <- date_now ;;
   create TStepUpRecord (fun _ completedAt =>
     mkStepUpRecord sessionId acrLevel completedAt (now + cacheDuration * 1000)) ;;;
   Ret tt)%prog.

Definition isStepUpCached (sessionId requiredAcr : string) : M bool :=
  (currentAcr <- getSessionAcr sessionId ;;
   Ret (satisfiesAcr currentAcr requiredAcr))%prog.

Definition cleanupExpiredRecords : M unit :=
  (now <- date_now ;;
   delete_many TStepUpRecord (fun r => su_expiresAt r <? now) ;;;
   Ret tt)%prog.

Lemma getSessionAcr_footprint ts s : stable (frame ts) (getSessionAcr s).
Proof. unfold getSessionAcr. footprint. Qed.
Lemma getLoginSessionAcr_footprint ts s a : stable (frame ts) (getLoginSessionAcr s a).
Proof. apply stable_bind; [apply getSessionAcr_footprint | footprint]. Qed.
Lemma requiresStepUp_footprint ts c a : stable (frame ts) (requiresStepUp c a).
Proof. unfold requiresStepUp, getClientRequiredAcr. footprint. Qed.
End Service.

#[export] Hint Resolve getSessionAcr_footprint getLoginSessionAcr_footprint
  requiresStepUp_footprint : footprint.

(** ** The strongest level *)

#[global] Arguments acrStrength _ : simpl never.
#[local] Arguments truthy _ : simpl never.

Lemma acrStrength_known a : a ∈ ACR_VALUES_SUPPORTED <-> 0 < acrStrength (Some a).
Proof.
  unfold ACR_VALUES_SUPPORTED, acrStrength, level_strength. rewrite !elem_of_cons, elem_of_nil.
  destruct (bool_decide_reflect (a = EmptyString)) as [->|Hne].
  { split; [|lia]. intros [?|[?|[?|[]]]]; done. }
  destruct (bool_decide_reflect (a = ACR_PASSWORD)) as [->|?]; [cbn iota; split; [lia|naive_solver]|].
  destruct (bool_decide_reflect (a = ACR_MFA)) as [->|?]; [cbn iota; split; [lia|naive_solver]|].
  destruct (bool_decide_reflect (a = ACR_WEBAUTHN)) as [->|?]; cbn iota; [split; [lia|naive_solver]|].
  split; [naive_solver|lia].
Qed.

Lemma acrStrength_bounds a : 0 <= acrStrength a <= 3.
Proof. destruct a as [a|]; unfold acrStrength, level_strength; repeat case_match; lia. Qed.

Lemma acrStrength_password : acrStrength (Some ACR_PASSWORD) = 1.
Proof. reflexivity. Qed.

Lemma acrStrength_nonempty a : 0 < acrStrength (Some a) -> truthy (Some a) = true.
Proof. rewrite truthy_Some. by intros H ->. Qed.

(** [best_acr] returns the initial level or a candidate, and nothing among
    them is stronger. *)
Lemma best_acr_spec best cs :
  (best_acr best cs = best \/ Some (best_acr best cs) ∈ cs) /\
  acrStrength (Some best) <= acrStrength (Some (best_acr best cs)) /\
  forall c, c ∈ cs -> acrStrength c <= acrStrength (Some (best_acr best cs)).
Proof.
  unfold best_acr. revert best. induction cs as [|c cs IH]; intros best; simpl.
  { split; [by left|]. split; [lia|]. intros c Hc. by apply elem_of_nil in Hc. }
  set (best' := match c with Some a => _ | None => best end).
  assert (Hb : (best' = best \/ Some best' = c) /\
               acrStrength (Some best) <= acrStrength (Some best') /\
               acrStrength c <= acrStrength (Some best')).
  { subst best'. pose proof (acrStrength_bounds (Some best)).
    destruct c as [a|]; [|split; [by auto|]; change (acrStrength None) with 0; lia].
    destruct (truthy (Some a)) eqn:Ht; simpl andb; cbn iota.
    - destruct (Z.ltb_spec (acrStrength (Some best)) (acrStrength (Some a))); (split; [by auto|lia]).
    - assert (Ha : acrStrength (Some a) = 0).
      { apply truthy_false in Ht as [?|Ha]; [done|]. by injection Ha as ->. }
      split; [by auto|lia]. }
  clearbody best'. destruct Hb as (Hb1 & Hb2 & Hb3), (IH best') as (H1 & H2 & H3).
  split; [|split; [lia|]].
  - destruct H1 as [H1|H1]; [|right; set_solver]. rewrite H1.
    destruct Hb1 as [->|<-]; [by left | right; set_solver].
  - intros c' Hc. apply elem_of_cons in Hc as [->|Hc]; [lia | by apply H3].
Qed.

(** The level of a session is the strongest it can show: the password level, or
    one of its step-up records that has not expired, and no unexpired record is
    stronger. *)
Theorem session_acr_is_strongest sessionId w acr w' :
  run (getSessionAcr sessionId) w = (inr acr, w') ->
  let current r := r ∈ rows TStepUpRecord w /\ su_sessionId r = sessionId /\ w_now w < su_expiresAt r in
  w' = w /\
  (acr = ACR_PASSWORD \/ exists r, current r /\ su_acrLevel r = acr) /\
  acrStrength (Some ACR_PASSWORD) <= acrStrength (Some acr) /\
  forall r, current r -> acrStrength (Some (su_acrLevel r)) <= acrStrength (Some acr).
Proof.
  intros H current. unfold getSessionAcr in H.
  apply run_bind_inr in H as (now & w1 & Hn & H). run_stmt_inv Hn. cbn [fst snd] in H.
  apply run_bind_inr in H as (rs & w2 & Hr & H). run_stmt_inv Hr.
  assert (Hcur : forall r, current r <-> r ∈ rs).
  { intros r. rewrite Hr, elem_of_sort_by, elem_of_filter_list, andb_true_iff, bool_decide_eq_true,
      Z.ltb_lt. unfold current. naive_solver. }
  assert (Ha : acr = best_acr ACR_PASSWORD (map (fun r => Some (su_acrLevel r)) rs) /\ w' = w).
  { by destruct rs as [|r rs]; injection H as <- <-. }
  destruct Ha as [-> ->]. split; [done|].
  destruct (best_acr_spec ACR_PASSWORD (map (fun r => Some (su_acrLevel r)) rs)) as (H1 & H2 & H3).
  split; [|split; [exact H2|]].
  - destruct H1 as [H1|H1]; [by left|]. right. apply list_elem_of_fmap in H1 as (r & Heq & Hin).
    exists r. split; [by apply Hcur|]. by injection Heq as ->.
  - intros r Hc. apply H3, list_elem_of_fmap. exists r. split; [done|]. by apply Hcur.
Qed.

Definition stepup_world : World :=
  with_rows TStepUpRecord
    [mkStepUpRecord "s-1" ACR_WEBAUTHN 10 999; mkStepUpRecord "s-1" ACR_MFA 5 1000000001] world1.

Example session_acr_is_strongest_witness :
  run (getSessionAcr "s-1") stepup_world = (inr ACR_MFA, stepup_world) /\
  acrStrength (Some ACR_PASSWORD) <= acrStrength (Some ACR_MFA).
Proof.
  assert (H : run (getSessionAcr "s-1") stepup_world = (inr ACR_MFA, stepup_world)) by reflexivity.
  split; [exact H|]. exact (proj1 (proj2 (proj2 (session_acr_is_strongest _ _ _ _ H)))).
Defined.
