(* ===== verification/Crypto.v ===== *)
(** * Crypto: hashing, password verification and JWTs (src/src/crypto)

    The primitives are parameters ([Env]); this file is what the services wrap
    around them. *)

From S2P Require Import Prelude Prog Json Schema Store StoreFacts.

Definition MAX_PASSWORD_LENGTH : nat := 1024.

Section Crypto.
Context {E : Env}.

(** crypto.service.ts *)
Definition sha256 (data : string) : string := to_hex (sha256_digest data).

Definition verifyPassword (hash password : string) : M bool :=
  if (MAX_PASSWORD_LENGTH <? String.length password)%nat then Ret false
  else match argon2_verify hash password with
       | Some b => Ret b
       | None => Throw (PlainError "argon2")
       end.

(** Argon2id with a fresh salt. *)
Definition hashPassword (password : string) : M string :=
  if (MAX_PASSWORD_LENGTH <? String.length password)%nat
  then Throw (Unprocessable "Password must not exceed 1024 characters.")
  else atom (fun w => (argon2_hash (w_draws w) password, next_draw w)).

Definition generateSecret (bytes : nat) : M string := random_hex bytes.

(** [encrypt]: a fresh IV on every call. *)
Definition encrypt (plaintext : string) : M string :=
  atom (fun w => (aes_encrypt (w_draws w) plaintext, next_draw w)).

(** [decrypt] throws when the authentication tag does not match. *)
Definition decrypt (ciphertext : string) : M string :=
  match aes_decrypt ciphertext with
  | Some p => Ret p
  | None => Throw (PlainError "Unsupported state or unable to authenticate data")
  end.

Definition decryptSecret (value : option string) : option string :=
  match value with
  | Some v => if v === EmptyString then value
              else match aes_decrypt v with Some p => Some p | None => value end
  | None => value
  end.

(** jwk.service.ts: jose sets [iat], [exp] and [jti] on the payload and signs it. *)
Definition signJwt (payload : obj) (privateKeyPem kid : string) (expiresInSeconds : Z) : M string :=
  (now <- date_now ;;
   jti <- random_uuid ;;
   let iat := now / 1000 in
   let claims :=
     obj_set "jti" (JStr jti)
       (obj_set "exp" (JNum (iat + expiresInSeconds)) (obj_set "iat" (JNum iat) payload)) in
   match jose_sign privateKeyPem kid claims with
   | Some jwt => Ret jwt
   | None => Throw (PlainError "jose")
   end)%prog.

Definition verifyJwt (token publicKeyPem : string) : M obj :=
  (now <- date_now ;;
   match jose_verify publicKeyPem token now with
   | Some payload => Ret payload
   | None => Throw (PlainError "jose")
   end)%prog.

Definition half_hash (data : string) : string :=
  let hash := sha256_digest data in
  to_base64url (buf_prefix (Nat.div (String.length hash) 2) hash).

Definition computeAtHash (accessToken : string) : string := half_hash accessToken.
Definition computeChash (code : string) : string := half_hash code.

Lemma verifyPassword_footprint ts h p : stable (frame ts) (verifyPassword h p).
Proof. unfold verifyPassword. footprint. Qed.
Lemma hashPassword_footprint ts p : stable (frame ts) (hashPassword p).
Proof. unfold hashPassword. case_match; [done|]. apply stable_atom. simpl. by repeat split. Qed.
Lemma generateSecret_footprint ts n : stable (frame ts) (generateSecret n).
Proof. unfold generateSecret. footprint. Qed.
Lemma encrypt_footprint ts s : stable (frame ts) (encrypt s).
Proof. apply stable_atom. by repeat split. Qed.
Lemma decrypt_footprint ts s : stable (frame ts) (decrypt s).
Proof. unfold decrypt. footprint. Qed.
Lemma signJwt_footprint ts p k i s : stable (frame ts) (signJwt p k i s).
Proof. unfold signJwt. footprint. Qed.
Lemma verifyJwt_footprint ts t k : stable (frame ts) (verifyJwt t k).
Proof. unfold verifyJwt. footprint. Qed.

(** A verified password passed Argon2 and fits the length limit. *)
Lemma run_verifyPassword_inr h p w b w' :
  run (verifyPassword h p) w = (inr b, w') ->
  w' = w /\ (b = true -> argon2_verify h p = Some true /\ (String.length p <= MAX_PASSWORD_LENGTH)%nat).
Proof.
  unfold verifyPassword. intros H. run_inv; [by split|].
  split; [done|]. intros ->. split; [done|]. by apply Nat.ltb_ge.
Qed.

(** A signed token is the signature of the payload with fresh [iat], [exp], [jti]. *)
Lemma run_signJwt_inr payload key kid secs w jwt w' :
  run (signJwt payload key kid secs) w = (inr jwt, w') ->
  w' = next_uuid w /\
  jose_sign key kid
    (obj_set "jti" (JStr (uuid (w_uuids w)))
       (obj_set "exp" (JNum (w_now w / 1000 + secs))
          (obj_set "iat" (JNum (w_now w / 1000)) payload))) = Some jwt.
Proof. unfold signJwt. intros H. by run_inv. Qed.

Lemma run_verifyJwt_inr token key w payload w' :
  run (verifyJwt token key) w = (inr payload, w') ->
  w' = w /\ jose_verify key token (w_now w) = Some payload.
Proof. unfold verifyJwt. intros H. by run_inv. Qed.
End Crypto.

#[export] Hint Resolve encrypt_footprint hashPassword_footprint verifyPassword_footprint generateSecret_footprint decrypt_footprint signJwt_footprint
  verifyJwt_footprint : footprint.
