(* ===== verification/Events.v ===== *)
(** * Events: the audit trail (src/src/events)

    [recordLoginEvent] and [recordAdminEvent] as the services call them: without
    awaiting them.  The steps are sequenced at the place of the call; a failure of
    either is swallowed there, by the service's own [catch] or by the caller's.  The
    JSON details of an event, webhooks and plugins are not modelled. *)

From S2P Require Import Prelude Prog Json Schema Store StoreFacts.

Record EventParams := mkEventParams {
  ev_realmId : string; ev_userId : option string; ev_sessionId : option string;
  ev_type : string; ev_clientId : option string; ev_ipAddress : option string;
  ev_error : option string
}.

Section Events.
Context {E : Env}.

Definition recordLoginEvent_body (params : EventParams) : M unit :=
  (realm <- find_first TRealm (fun r => realm_id r === ev_realmId params) ;;
   match realm with
   | Some r =>
       if realm_eventsEnabled r
       then catch
         (create TLoginEvent (fun _ createdAt =>
            mkLoginEvent (ev_realmId params) (ev_userId params) (ev_sessionId params)
              (ev_type params) (ev_clientId params) (ev_ipAddress params) (ev_error params)
              createdAt) ;;; Ret tt)
         (fun _ => Ret tt)
       else Ret tt
   | None => Ret tt
   end)%prog.

(** The call [void eventsService.recordLoginEvent(...)]. *)
Definition recordLoginEvent (params : EventParams) : M unit :=
  catch (recordLoginEvent_body params) (fun _ => Ret tt).

Lemma recordLoginEvent_footprint ts p :
  covers [TLoginEvent] ts = true -> stable (frame ts) (recordLoginEvent p).
Proof.
  intros H. unfold recordLoginEvent, recordLoginEvent_body. footprint.
Qed.

(** The recording never fails. *)
Lemma run_recordLoginEvent p w : exists w', run (recordLoginEvent p) w = (inr tt, w').
Proof.
  unfold recordLoginEvent. rewrite run_catch.
  destruct (run (recordLoginEvent_body p) w) as [[e|[]] w']; eauto.
Qed.

(** ** Admin events *)

Record AdminEventParams := mkAdminEventParams {
  aev_realmId : string; aev_adminUserId : string; aev_operationType : string; aev_resourceType : string;
  aev_resourcePath : string; aev_ipAddress : option string
}.

Definition recordAdminEvent_body (params : AdminEventParams) : M unit :=
  (realm <- find_first TRealm (fun r => realm_id r === aev_realmId params) ;;
   match realm with
   | Some r =>
       if realm_adminEventsEnabled r
       then catch
         (create TAdminEvent (fun _ createdAt =>
            mkAdminEvent (aev_realmId params) (aev_adminUserId params) (aev_operationType params)
              (aev_resourceType params) (aev_resourcePath params) (aev_ipAddress params) createdAt) ;;; Ret tt)
         (fun _ => Ret tt)
       else Ret tt
   | None => Ret tt
   end)%prog.
Definition recordAdminEvent (params : AdminEventParams) : M unit :=
  catch (recordAdminEvent_body params) (fun _ => Ret tt).

(** ** Queries *)

Record QueryEventsParams := mkQueryEvents {
  qe_realmId : string; qe_type : option string; qe_userId : option string; qe_clientId : option string;
  qe_dateFrom : option Z; qe_dateTo : option Z; qe_first : option nat; qe_max : option nat
}.
Record QueryAdminEventsParams := mkQueryAdminEvents {
  qa_realmId : string; qa_operationType : option string; qa_resourceType : option string;
  qa_dateFrom : option Z; qa_dateTo : option Z; qa_first : option nat; qa_max : option nat
}.

(** [if (param) where[column] = param]. *)
Definition where_text (param column : option string) : bool := negb (truthy param) || bool_decide (column = param).
Definition between (from to : option Z) (at_ : Z) : bool :=
  match from with Some f => f <=? at_ | None => true end && match to with Some t => at_ <=? t | None => true end.

(** [orderBy: createdAt desc, skip, take]. *)
Definition page {A} (key : A -> Z) (first max : option nat) (l : list A) : list A :=
  take (max ?? 100%nat) (drop (first ?? 0%nat) (sort_by (fun x => - key x) l)).

Definition queryLoginEvents (params : QueryEventsParams) : M (list LoginEvent) :=
  query (fun w => page le_createdAt (qe_first params) (qe_max params)
    (List.filter (fun e => (le_realmId e === qe_realmId params) && where_text (qe_type params) (Some (le_type e)) &&
                    where_text (qe_userId params) (le_userId e) && where_text (qe_clientId params) (le_clientId e) &&
                    between (qe_dateFrom params) (qe_dateTo params) (le_createdAt e)) (rows TLoginEvent w))).

Definition queryAdminEvents (params : QueryAdminEventsParams) : M (list AdminEvent) :=
  query (fun w => page ae_createdAt (qa_first params) (qa_max params)
    (List.filter (fun e => (ae_realmId e === qa_realmId params) &&
                    where_text (qa_operationType params) (Some (ae_operationType e)) &&
                    where_text (qa_resourceType params) (Some (ae_resourceType e)) &&
                    between (qa_dateFrom params) (qa_dateTo params) (ae_createdAt e)) (rows TAdminEvent w))).

Definition clearLoginEvents (realmId : string) : M unit :=
  (delete_many TLoginEvent (fun e => le_realmId e === realmId) ;;; Ret tt)%prog.
Definition clearAdminEvents (realmId : string) : M unit :=
  (delete_many TAdminEvent (fun e => ae_realmId e === realmId) ;;; Ret tt)%prog.

Lemma recordAdminEvent_footprint ts p :
  covers [TAdminEvent] ts = true -> stable (frame ts) (recordAdminEvent p).
Proof.
  intros H. unfold recordAdminEvent, recordAdminEvent_body. footprint.
Qed.

Lemma run_recordAdminEvent p w : exists w', run (recordAdminEvent p) w = (inr tt, w').
Proof.
  unfold recordAdminEvent. rewrite run_catch.
  destruct (run (recordAdminEvent_body p) w) as [[e|[]] w']; eauto.
Qed.

(** A page is no longer than asked for, and every entry is one of the realm. *)
Lemma page_length {A} (key : A -> Z) first max l : (length (page key first max l) <= max ?? 100%nat)%nat.
Proof. unfold page. rewrite length_take. lia. Qed.
End Events.

#[export] Hint Resolve recordLoginEvent_footprint recordAdminEvent_footprint : footprint.
