(* ===== verification/PasswordPolicy.v ===== *)
(** * PasswordPolicy: password rules, history and expiry (src/src/password-policy) *)

From stdpp Require Import pretty.
From S2P Require Import Prelude Prog Json Schema Store StoreFacts Crypto Testbed.

Definition in_range (lo hi : N) (c : ascii) : bool :=
  ((lo <=? N_of_ascii c) && (N_of_ascii c <=? hi))%N.
Definition is_upper : ascii -> bool := in_range 65 90.
Definition is_lower : ascii -> bool := in_range 97 122.
Definition is_digit : ascii -> bool := in_range 48 57.
Definition is_special (c : ascii) : bool := negb (is_upper c || is_lower c || is_digit c).

Definition push_if (b : bool) (error : string) (errors : list string) : list string :=
  if b then errors ++ [error] else errors.

Definition validate (realm : Realm) (password : string) : bool * list string :=
  let errors :=
    push_if (Z.of_nat (String.length password) <? realm_passwordMinLength realm)
      ("Password must be at least " +:+ pretty (realm_passwordMinLength realm) +:+ " characters") [] in
  let errors :=
    push_if (realm_passwordRequireUppercase realm && negb (str_existsb is_upper password))
      "Password must contain at least one uppercase letter" errors in
  let errors :=
    push_if (realm_passwordRequireLowercase realm && negb (str_existsb is_lower password))
      "Password must contain at least one lowercase letter" errors in
  let errors :=
    push_if (realm_passwordRequireDigits realm && negb (str_existsb is_digit password))
      "Password must contain at least one digit" errors in
  let errors :=
    push_if (realm_passwordRequireSpecialChars realm && negb (str_existsb is_special password))
      "Password must contain at least one special character" errors in
  (bool_decide (errors = []), errors).

Section Service.
Context {E : Env}.

(** The loop over the stored hashes. *)
Fixpoint matches_any (hashes : list string) (password : string) : M bool :=
  match hashes with
  | [] => Ret false
  | h :: hashes' =>
      (m <- verifyPassword h password ;;
       if (m : bool) then Ret true else matches_any hashes' password)%prog
  end.

Definition checkHistory (userId realmId password : string) (historyCount : Z) : M bool :=
  if historyCount <=? 0 then Ret false else
  (history <- find_many_desc TPasswordHistory
     (fun h => (ph_userId h === userId) && (ph_realmId h === realmId)) ph_createdAt ;;
   matches_any (map ph_passwordHash (take (Z.to_nat historyCount) history)) password)%prog.

Definition recordHistory (userId realmId passwordHash : string) (historyCount : Z) : M unit :=
  if historyCount <=? 0 then Ret tt else
  (create TPasswordHistory (fun id createdAt =>
     mkPasswordHistory id userId realmId passwordHash createdAt) ;;;
   entries <- find_many_desc TPasswordHistory
     (fun h => (ph_userId h === userId) && (ph_realmId h === realmId)) ph_createdAt ;;
   let old := map ph_id (drop (Z.to_nat historyCount) entries) in
   match old with
   | [] => Ret tt
   | _ => delete_many TPasswordHistory (fun h => includes (ph_id h) old) ;;; Ret tt
   end)%prog.

Definition isExpired (user : User) (realm : Realm) : M bool :=
  if realm_passwordMaxAgeDays realm <=? 0 then Ret false else
  match user_passwordChangedAt user with
  | None => Ret true
  | Some at_ =>
      (now <- date_now ;;
       Ret (realm_passwordMaxAgeDays realm * 24 * 60 * 60 * 1000 <? now - at_))%prog
  end.

Lemma isExpired_footprint ts u r : stable (frame ts) (isExpired u r).
Proof. unfold isExpired. footprint. Qed.

(** A password that is not expired is younger than the realm's maximum age. *)
Lemma run_isExpired_inr u r w b w' :
  run (isExpired u r) w = (inr b, w') -> w' = w /\
  (b = false -> 0 < realm_passwordMaxAgeDays r ->
    exists t, user_passwordChangedAt u = Some t /\
      w_now w - t <= realm_passwordMaxAgeDays r * 24 * 60 * 60 * 1000).
Proof.
  unfold isExpired. intros H. destruct (Z.leb_spec (realm_passwordMaxAgeDays r) 0).
  { injection H as <- <-. split; [done|]. lia. }
  destruct (user_passwordChangedAt u) as [t|]; [|by injection H as <- <-].
  apply run_bind_inr in H as (now & w1 & Hn & H). run_stmt_inv Hn. injection H as <- <-.
  split; [done|]. intros Hlt%Z.ltb_ge _. by exists t.
Qed.
End Service.

#[export] Hint Resolve isExpired_footprint : footprint.

(** ** The rules *)

Record meets (realm : Realm) (password : string) : Prop := {
  meets_length : realm_passwordMinLength realm <= Z.of_nat (String.length password);
  meets_upper : realm_passwordRequireUppercase realm = true -> str_existsb is_upper password = true;
  meets_lower : realm_passwordRequireLowercase realm = true -> str_existsb is_lower password = true;
  meets_digit : realm_passwordRequireDigits realm = true -> str_existsb is_digit password = true;
  meets_special :
    realm_passwordRequireSpecialChars realm = true -> str_existsb is_special password = true
}.

Lemma push_if_nil b e errors : push_if b e errors = [] <-> b = false /\ errors = [].
Proof. destruct b; simpl; [|naive_solver]. split; [intros H; by destruct errors | naive_solver]. Qed.

Lemma rule_false (required has : bool) :
  required && negb has = false <-> (required = true -> has = true).
Proof. destruct required, has; naive_solver. Qed.

(** A new password is accepted exactly when it meets every rule the realm has
    switched on, and no error is reported then. *)
Theorem validate_meets realm password : (validate realm password).1 = true <-> meets realm password.
Proof.
  unfold validate. cbv zeta. simpl fst.
  rewrite bool_decide_eq_true, !push_if_nil, !rule_false, Z.ltb_ge.
  split; [intros (? & ? & ? & ? & ? & _); by constructor | intros []; repeat split; auto].
Qed.

(** ** History *)

Section History.
Context {E : Env}.
Variables userId realmId : string.

Definition in_history (h : PasswordHistory) : bool := (ph_userId h === userId) && (ph_realmId h === realmId).

(** The stored entries, newest first. *)
Definition newest_first (w : World) : list PasswordHistory :=
  sort_by (fun h => - ph_createdAt h) (List.filter in_history (rows TPasswordHistory w)).

Lemma run_recordHistory_inr hash n w r w' :
  0 < n -> run (recordHistory userId realmId hash n) w = (inr r, w') ->
  let entry := mkPasswordHistory (uuid (w_uuids w)) userId realmId hash (w_now w) in
  let all := sort_by (fun h => - ph_createdAt h)
    (List.filter in_history (rows TPasswordHistory w ++ [entry])) in
  w_db_up w' = true /\
  rows TPasswordHistory w' =
    List.filter (fun h => negb (includes (ph_id h) (map ph_id (drop (Z.to_nat n) all))))
      (rows TPasswordHistory w ++ [entry]).
Proof.
  intros Hn H. unfold recordHistory in H. rewrite (proj2 (Z.leb_gt _ _) Hn) in H.
  apply run_bind_inr in H as (e & w1 & Hc & H). run_stmt_inv Hc. cbv zeta.
  apply run_bind_inr in H as (es & w2 & He & H). run_stmt_inv He. rewrite rows_with_rows_eq in He.
  match goal with |- context [drop _ ?x] => change (es = x) in He end. rewrite <- He.
  destruct (map ph_id (drop (Z.to_nat n) es)) as [|x l] eqn:Hold.
  - change (@map PasswordHistory string ph_id (@drop PasswordHistory (Z.to_nat n) es) = []) in Hold.
    injection H as _ <-. split; [done|]. rewrite rows_with_rows_eq, Hold. symmetry. apply filter_true.
  - rewrite <- Hold in H. apply run_bind_inr in H as (m & w3 & Hd & H). run_stmt_inv Hd.
    injection H as _ <-. split; [done|]. unfold rows. simpl. by rewrite set_table_eq.
Qed.

(** A new entry younger than the others comes first. *)
Lemma newest_is_first e l :
  in_history e = true -> (forall h, h ∈ l -> ph_createdAt h < ph_createdAt e) ->
  sort_by (fun h => - ph_createdAt h) (List.filter in_history (l ++ [e])) =
    e :: sort_by (fun h => - ph_createdAt h) (List.filter in_history l).
Proof.
  intros He. induction l as [|x l IH]; intros Hl; simpl; [by rewrite He|].
  specialize (IH ltac:(set_solver)). destruct (in_history x); simpl; [|done]. rewrite IH. simpl.
  rewrite (proj2 (Z.leb_gt _ _)); [done|]. pose proof (Hl x ltac:(set_solver)). lia.
Qed.
End History.

(** Recording a password keeps the history at its length: at most the configured
    number of entries of that user and realm are stored afterwards. *)
Theorem recordHistory_bounded {E : Env} userId realmId hash n w r w' :
  0 < n -> run (recordHistory userId realmId hash n) w = (inr r, w') ->
  Z.of_nat (length (List.filter (in_history userId realmId) (rows TPasswordHistory w'))) <= n.
Proof.
  intros Hn H. apply run_recordHistory_inr in H as [_ ->]; [|done].
  set (rs := rows TPasswordHistory w ++ _). set (srt := sort_by _ _).
  set (gone := map ph_id (drop (Z.to_nat n) srt)). rewrite filter_comm.
  assert (Hp : Permutation srt (List.filter (in_history userId realmId) rs)) by apply sort_by_perm.
  rewrite <- (Permutation_length (filter_perm _ _ _ Hp)). rewrite <- (take_drop (Z.to_nat n) srt).
  rewrite List.filter_app, (filter_none _ (drop _ _)), app_nil_r.
  - pose proof (filter_length_le (fun h => negb (includes (ph_id h) gone)) (take (Z.to_nat n) srt)) as Hl.
    rewrite length_take in Hl. lia.
  - intros h Hh. apply negb_false_iff, includes_true. by apply list_elem_of_fmap_2.
Qed.

(** A password that was just recorded is recognised as used: the history check
    that follows finds it, whatever older entries there are. *)
Theorem recorded_password_is_refused {E : Env} userId realmId password hash n w r w' :
  0 < n -> run (recordHistory userId realmId hash n) w = (inr r, w') ->
  argon2_verify hash password = Some true -> (String.length password <= MAX_PASSWORD_LENGTH)%nat ->
  (forall h, h ∈ rows TPasswordHistory w ->
     ph_id h <> uuid (w_uuids w) /\ ph_createdAt h < w_now w) ->
  run (checkHistory userId realmId password n) w' = (inr true, w').
Proof.
  intros Hn H Hv Hlen Hnew. apply run_recordHistory_inr in H as [Hup Hrows]; [|done].
  set (e := mkPasswordHistory _ _ _ _ _) in *. cbv zeta in Hrows.
  assert (Hin : in_history userId realmId e = true) by (unfold in_history; simpl; by rewrite !bool_decide_eq_true_2).
  rewrite newest_is_first in Hrows; [|done|intros h Hh; by apply Hnew].
  destruct (Z.to_nat n) as [|k] eqn:Hk; [lia|]. cbn [drop] in Hrows.
  rewrite List.filter_app in Hrows. simpl in Hrows.
  rewrite (proj2 (includes_false (ph_id e) _)) in Hrows.
  2: { intros (h & Heq & Hh)%list_elem_of_fmap. apply list_elem_of_lookup in Hh as [i Hi].
       rewrite lookup_drop in Hi.
       apply list_elem_of_lookup_2, elem_of_sort_by, elem_of_filter_list in Hi as [_ Hi].
       by destruct (Hnew h Hi). }
  simpl in Hrows. unfold checkHistory, find_many_desc. rewrite (proj2 (Z.leb_gt _ _) Hn).
  rewrite (run_bind_ok _ _ _ _ _ (run_query _ w' Hup)).
  match goal with |- context [take _ ?x] =>
    change x with (sort_by (fun h => - ph_createdAt h)
      (List.filter (in_history userId realmId) (rows TPasswordHistory w' : list PasswordHistory))) end.
  rewrite Hrows, newest_is_first; [|done|].
  2: { intros h [_ Hh]%elem_of_filter_list. by apply Hnew. }
  rewrite Hk. cbn [take map matches_any]. unfold verifyPassword.
  rewrite (proj2 (Nat.ltb_ge _ _) Hlen). simpl ph_passwordHash. rewrite Hv. done.
Qed.

Definition history_entry (id hash : string) (at_ : Z) : PasswordHistory :=
  mkPasswordHistory id "user-1" "realm-1" hash at_.
Definition history_world : World :=
  with_rows TPasswordHistory [history_entry "h-1" "argon:old-1" 10; history_entry "h-2" "argon:old-2" 20]
    world1.

Example recordHistory_bounded_witness :
  exists w', run (recordHistory (E:=test_env) "user-1" "realm-1" "argon:new" 2) history_world = (inr tt, w') /\
    Z.of_nat (length (List.filter (in_history "user-1" "realm-1") (rows TPasswordHistory w'))) <= 2.
Proof.
  destruct (ends_ok_run (recordHistory (E:=test_env) "user-1" "realm-1" "argon:new" 2) history_world)
    as ([] & w' & H); [reflexivity|].
  exists w'. split; [exact H|].
  exact (recordHistory_bounded (E:=test_env) "user-1" "realm-1" "argon:new" 2 history_world tt w' ltac:(reflexivity) H).
Defined.

Example recorded_password_is_refused_witness :
  exists w', run (recordHistory (E:=test_env) "user-1" "realm-1" "argon:new" 2) history_world = (inr tt, w') /\
    run (checkHistory (E:=test_env) "user-1" "realm-1" "new" 2) w' = (inr true, w').
Proof.
  destruct (ends_ok_run (recordHistory (E:=test_env) "user-1" "realm-1" "argon:new" 2) history_world)
    as ([] & w' & H); [reflexivity|].
  exists w'. split; [exact H|].
  apply (recorded_password_is_refused (E:=test_env) "user-1" "realm-1" "new" "argon:new" 2 history_world
    tt w' ltac:(reflexivity) H ltac:(reflexivity)).
  - apply Nat.leb_le. reflexivity.
  - intros h Hh. apply elem_of_cons in Hh as [->|Hh].
    + split; [discriminate|reflexivity].
    + apply list_elem_of_singleton in Hh as ->. split; [discriminate|reflexivity].
Defined.
