(* ===== verification/BruteForce.v ===== *)
(** * BruteForce: failure counting and account lockout (src/src/brute-force) *)

From S2P Require Import Prelude Prog Json Schema Store StoreFacts Testbed.

(** [new Date('2099-12-31T23:59:59Z')]. *)
Definition PERMANENT_LOCK : Z := 4102444799000.

Record TotpRateLimit := mkTotpRateLimit {
  trl_blocked : bool; trl_remainingAttempts : Z; trl_retryAfterSeconds : option Z
}.

(** [Math.ceil(ms / 1000)]. *)
Definition ceil_seconds (ms : Z) : Z := - ((- ms) / 1000).

(** The counters of a realm: at least one failure, at least one second. *)
Definition max_failures (realm : Realm) : Z := Z.max (realm_maxLoginFailures realm) 1.
Definition reset_time (realm : Realm) : Z := Z.max (realm_failureResetTime realm) 1.

Section Service.
Context {E : Env}.

Definition checkLocked (realm : Realm) (user : User) : M (bool * option Z) :=
  if negb (realm_bruteForceEnabled realm) then Ret (false, None) else
  match user_lockedUntil user with
  | None => Ret (false, None)
  | Some lockedUntil =>
      (now <- date_now ;;
       if now <? lockedUntil then Ret (true, Some lockedUntil) else Ret (false, None))%prog
  end.

(** The notification reads the user; the mail it sends is caught and changes
    no state of the program. *)
Definition sendLockoutNotification (userId : string) : M unit :=
  (find_first TUser (fun u => user_id u === userId) ;;; Ret tt)%prog.

Definition of_user_in (realmId userId : string) (f : LoginFailure) : bool :=
  (lf_realmId f === realmId) && bool_decide (lf_userId f = Some userId).

Definition recordFailure (realm : Realm) (userId : string) (ipAddress : option string) : M unit :=
  if negb (realm_bruteForceEnabled realm) then Ret tt else
  let maxFailures := max_failures realm in
  let resetTime := reset_time realm in
  let permanentLockoutAfter := realm_permanentLockoutAfter realm in
  transaction (
    create TLoginFailure (fun _ failedAt =>
      mkLoginFailure (realm_id realm) (Some userId) ipAddress failedAt) ;;;
    now <- date_now ;;
    let windowStart := now - resetTime * 1000 in
    failureCount <- count TLoginFailure
      (fun f => of_user_in (realm_id realm) userId f && (windowStart <=? lf_failedAt f)) ;;
    if failureCount <? maxFailures then Ret tt else
    permanent <-
      (if 0 <? permanentLockoutAfter then
         totalFailures <- count TLoginFailure (of_user_in (realm_id realm) userId) ;;
         let lockoutCount := totalFailures / maxFailures in
         if permanentLockoutAfter <=? lockoutCount then
           update TUser (fun u => user_id u === userId)
             (fun u => set_enabled false (set_lockedUntil (Some PERMANENT_LOCK) u)) ;;;
           sendLockoutNotification userId ;;;
           Ret true
         else Ret false
       else Ret false) ;;
    if (permanent : bool) then Ret tt else
    now <- date_now ;;
    let lockedUntil := now + realm_lockoutDuration realm * 1000 in
    update TUser (fun u => user_id u === userId) (set_lockedUntil (Some lockedUntil)) ;;;
    sendLockoutNotification userId)%prog.

Definition resetFailures (realmId userId : string) : M unit :=
  (delete_many TLoginFailure (of_user_in realmId userId) ;;;
   update TUser (fun u => user_id u === userId) (set_lockedUntil None) ;;;
   Ret tt)%prog.

Definition resetTotpFailures (realmId userId : string) : M unit :=
  (delete_many TTotpFailure (fun f => tf_userId f === userId) ;;; Ret tt)%prog.

Definition recordWebAuthnFailure (realm : Realm) (userId : string) (ipAddress : option string)
  : M unit :=
  if negb (realm_bruteForceEnabled realm) then Ret tt else
  (create TWebAuthnFailure (fun _ failedAt =>
     mkWebAuthnFailure (realm_id realm) userId ipAddress failedAt) ;;;
   now <- date_now ;;
   let windowStart := now - reset_time realm * 1000 in
   failureCount <- count TWebAuthnFailure (fun f =>
     (wf_realmId f === realm_id realm) && (wf_userId f === userId) &&
     (windowStart <=? wf_failedAt f)) ;;
   if max_failures realm <=? failureCount then
     now <- date_now ;;
     update TUser (fun u => user_id u === userId)
       (set_lockedUntil (Some (now + realm_lockoutDuration realm * 1000))) ;;;
     Ret tt
   else Ret tt)%prog.

Definition resetWebAuthnFailures (realmId userId : string) : M unit :=
  (delete_many TWebAuthnFailure (fun f => (wf_realmId f === realmId) && (wf_userId f === userId)) ;;;
   Ret tt)%prog.

Definition recordTotpFailure (realm : Realm) (userId : string) (ipAddress : option string)
  : M unit :=
  if negb (realm_bruteForceEnabled realm) then Ret tt else
  (create TTotpFailure (fun _ failedAt => mkTotpFailure userId ipAddress failedAt) ;;;
   now <- date_now ;;
   let windowStart := now - reset_time realm * 1000 in
   failureCount <- count TTotpFailure (fun f =>
     (tf_userId f === userId) && (windowStart <=? tf_failedAt f)) ;;
   if max_failures realm <=? failureCount then
     now <- date_now ;;
     update TUser (fun u => user_id u === userId)
       (set_lockedUntil (Some (now + realm_lockoutDuration realm * 1000))) ;;;
     sendLockoutNotification userId
   else Ret tt)%prog.

Definition checkTotpRateLimit (realm : Realm) (userId : string) : M TotpRateLimit :=
  if negb (realm_bruteForceEnabled realm) then Ret (mkTotpRateLimit false (-1) None) else
  (now <- date_now ;;
   let windowStart := now - reset_time realm * 1000 in
   let recent := fun f => (tf_userId f === userId) && (windowStart <=? tf_failedAt f) in
   failureCount <- count TTotpFailure recent ;;
   if max_failures realm <=? failureCount then
     oldestFailures <- find_many_asc TTotpFailure recent tf_failedAt ;;
     match oldestFailures with
     | oldestFailure :: _ =>
         now <- date_now ;;
         let retryAfterMs := tf_failedAt oldestFailure + reset_time realm * 1000 - now in
         Ret (mkTotpRateLimit true 0 (Some (Z.max 1 (ceil_seconds retryAfterMs))))
     | [] => Ret (mkTotpRateLimit true 0 None)
     end
   else Ret (mkTotpRateLimit false (max_failures realm - failureCount) None))%prog.

Definition unlockUser (realmId userId : string) : M unit :=
  (user <- find_first TUser (fun u => (user_id u === userId) && (user_realmId u === realmId)) ;;
   match user with
   | None => Throw (NotFound "User not found")
   | Some _ =>
       update TUser (fun u => (user_id u === userId) && (user_realmId u === realmId))
         (fun u => set_enabled true (set_lockedUntil None u)) ;;;
       delete_many TLoginFailure (of_user_in realmId userId) ;;;
       Ret tt
   end)%prog.

Definition getLockedUsers (realmId : string) : M (list User) :=
  (now <- date_now ;;
   find_many TUser (fun u => (user_realmId u === realmId) &&
     match user_lockedUntil u with Some t => now <? t | None => false end))%prog.

Definition cleanupOldFailures : M unit :=
  (now <- date_now ;;
   let cutoff := now - 24 * 60 * 60 * 1000 in
   delete_many TLoginFailure (fun f => lf_failedAt f <? cutoff) ;;;
   delete_many TTotpFailure (fun f => tf_failedAt f <? cutoff) ;;;
   delete_many TWebAuthnFailure (fun f => wf_failedAt f <? cutoff) ;;;
   Ret tt)%prog.

Lemma checkLocked_footprint ts r u : stable (frame ts) (checkLocked r u).
Proof. unfold checkLocked. footprint. Qed.
Lemma recordFailure_footprint ts r u i :
  covers [TLoginFailure; TUser] ts = true -> stable (frame ts) (recordFailure r u i).
Proof.
  intros H. apply (stable_frame_mono _ _ _ H). unfold recordFailure, sendLockoutNotification. footprint.
Qed.
Lemma resetFailures_footprint ts r u :
  covers [TLoginFailure; TUser] ts = true -> stable (frame ts) (resetFailures r u).
Proof. intros H. apply (stable_frame_mono _ _ _ H). unfold resetFailures. footprint. Qed.
Lemma recordTotpFailure_footprint ts r u i :
  covers [TTotpFailure; TUser] ts = true -> stable (frame ts) (recordTotpFailure r u i).
Proof.
  intros H. apply (stable_frame_mono _ _ _ H). unfold recordTotpFailure, sendLockoutNotification. footprint.
Qed.
Lemma resetTotpFailures_footprint ts r u :
  covers [TTotpFailure] ts = true -> stable (frame ts) (resetTotpFailures r u).
Proof. intros H. apply (stable_frame_mono _ _ _ H). unfold resetTotpFailures. footprint. Qed.
Lemma checkTotpRateLimit_footprint ts r u : stable (frame ts) (checkTotpRateLimit r u).
Proof. unfold checkTotpRateLimit. footprint. Qed.
End Service.

#[export] Hint Resolve checkLocked_footprint recordFailure_footprint resetFailures_footprint
  recordTotpFailure_footprint resetTotpFailures_footprint checkTotpRateLimit_footprint : footprint.

(** ** What one recorded failure does *)

(** The row of a user in the users table. *)
Notation by_id uid := (fun u => user_id u === uid).

Section Spec.
Context {E : Env}.

(** The failures of a user of a realm that count at instant [now]. *)
Definition recent_failures (realm : Realm) (userId : string) (w : World) : Z :=
  Z.of_nat (length (List.filter
    (fun f => of_user_in (realm_id realm) userId f &&
              (w_now w - reset_time realm * 1000 <=? lf_failedAt f)) (rows TLoginFailure w))).
Definition total_failures (realm : Realm) (userId : string) (w : World) : Z :=
  Z.of_nat (length (List.filter (of_user_in (realm_id realm) userId) (rows TLoginFailure w))).

(** The user's row after a failure that is the [recent]-th of the window and
    the [total]-th overall. *)
Definition after_failure (realm : Realm) (now recent total : Z) (u : User) : User :=
  if recent <? max_failures realm then u
  else if (0 <? realm_permanentLockoutAfter realm) &&
          (realm_permanentLockoutAfter realm <=? total / max_failures realm)
  then set_enabled false (set_lockedUntil (Some PERMANENT_LOCK) u)
  else set_lockedUntil (Some (now + realm_lockoutDuration realm * 1000)) u.

Lemma of_user_in_new realmId uid ip t :
  of_user_in realmId uid (mkLoginFailure realmId (Some uid) ip t) = true.
Proof. unfold of_user_in; simpl. by rewrite !bool_decide_eq_true_2. Qed.

Lemma reset_time_pos realm : 0 < reset_time realm.
Proof. unfold reset_time. lia. Qed.

Lemma filter_snoc_length {A} (p : A -> bool) l x :
  p x = true -> Z.of_nat (length (List.filter p (l ++ [x]))) =
                Z.of_nat (length (List.filter p l)) + 1.
Proof. intros H. rewrite List.filter_app, length_app. simpl. rewrite H. simpl. lia. Qed.

Lemma run_recordFailure realm uid ip w u :
  w_db_up w = true -> realm_bruteForceEnabled realm = true ->
  List.find (by_id uid) (rows TUser w) = Some u ->
  exists w', run (recordFailure realm uid ip) w = (inr tt, w') /\
    rows TLoginFailure w' = rows TLoginFailure w ++
      [mkLoginFailure (realm_id realm) (Some uid) ip (w_now w)] /\
    List.find (by_id uid) (rows TUser w') =
      Some (after_failure realm (w_now w) (recent_failures realm uid w + 1)
              (total_failures realm uid w + 1) u) /\
    w_now w' = w_now w /\ w_db_up w' = true.
Proof.
  intros Hup Hen Hu. pose proof (find_elem _ _ _ Hu) as [_ Hid]. simpl in Hid.
  set (new := mkLoginFailure (realm_id realm) (Some uid) ip (w_now w)).
  set (w1 := with_rows TLoginFailure (rows TLoginFailure w ++ [new]) (next_uuid w)).
  assert (Hrec : Z.of_nat (length (List.filter
      (fun f => of_user_in (realm_id realm) uid f &&
                (w_now w - reset_time realm * 1000 <=? lf_failedAt f)) (rows TLoginFailure w1))) =
      recent_failures realm uid w + 1).
  { unfold w1. rewrite rows_with_rows_eq. apply filter_snoc_length.
    unfold new. rewrite of_user_in_new. simpl. pose proof (reset_time_pos realm). apply Z.leb_le. lia. }
  assert (Htot : Z.of_nat (length (List.filter (of_user_in (realm_id realm) uid)
      (rows TLoginFailure w1))) = total_failures realm uid w + 1).
  { unfold w1. rewrite rows_with_rows_eq. apply filter_snoc_length. apply of_user_in_new. }
  assert (Hu1 : List.find (by_id uid) (rows TUser w1) = Some u) by exact Hu.
  assert (Hup1 : w_db_up w1 = true) by exact Hup.
  assert (Hlock : forall f, (forall v, user_id (f v) = user_id v) ->
    exists w', run (bind (update TUser (by_id uid) f) (fun _ => sendLockoutNotification uid)) w1 =
        (inr tt, w') /\ rows TLoginFailure w' = rows TLoginFailure w ++ [new] /\
      List.find (by_id uid) (rows TUser w') = Some (f u) /\ w_now w' = w_now w /\ w_db_up w' = true).
  { intros f Hf. rewrite (run_bind_ok _ _ _ _ _ (run_update TUser _ f _ _ Hup1 Hu1)).
    unfold sendLockoutNotification. rewrite run_bind, run_find_first by done.
    eexists. split; [reflexivity|]. split; [done|]. split; [|done].
    rewrite rows_with_rows_eq. apply find_update_first; [done|]. by rewrite Hf. }
  unfold recordFailure. rewrite Hen. simpl negb. cbv iota zeta. rewrite run_transaction.
  rewrite (run_bind_ok _ _ w new w1) by exact (run_create TLoginFailure
    (fun _ t => mkLoginFailure (realm_id realm) (Some uid) ip t) w Hup eq_refl).
  rewrite (run_bind_ok _ _ w1 (w_now w) w1) by done.
  rewrite (run_bind_ok _ _ _ _ _ (run_count TLoginFailure _ w1 _ Hup1 Hrec)).
  unfold after_failure. destruct (_ <? max_failures realm) eqn:Hlt.
  { simpl. exists w1. repeat split; done. }
  destruct (0 <? realm_permanentLockoutAfter realm) eqn:Hp.
  - rewrite run_bind, (run_bind_ok _ _ _ _ _ (run_count TLoginFailure _ w1 _ Hup1 Htot)).
    simpl andb. destruct (realm_permanentLockoutAfter realm <=? _) eqn:Hq.
    + destruct (Hlock (fun u => set_enabled false (set_lockedUntil (Some PERMANENT_LOCK) u)))
        as (w' & Hw & H); [done|]. exists w'. split; [|done].
      rewrite run_bind in Hw. rewrite run_bind. destruct (run _ w1) as [[e|a] w2]; [done|].
      rewrite run_bind, Hw. done.
    + destruct (Hlock (set_lockedUntil (Some (w_now w + realm_lockoutDuration realm * 1000))))
        as (w' & Hw & H); [done|]. exists w'. split; [|done]. cbn [run].
      rewrite (run_bind_ok _ _ w1 (w_now w) w1) by done. by rewrite Hw.
  - destruct (Hlock (set_lockedUntil (Some (w_now w + realm_lockoutDuration realm * 1000))))
      as (w' & Hw & H); [done|]. exists w'. split; [|done]. rewrite run_bind. cbn [run].
    rewrite (run_bind_ok _ _ w1 (w_now w) w1) by done. by rewrite Hw.
Qed.
End Spec.

(** ** Lockout *)

Section Lockout.
Context {E : Env}.
Variables (realm : Realm) (uid : string) (ip : option string).

(** Failed attempts at the given instants, one after the other. *)
Fixpoint failures_at (ts : list Z) (w : World) : World :=
  match ts with
  | [] => w
  | t :: ts' => failures_at ts' (run (recordFailure realm uid ip) (with_now t w)).2
  end.

Definition failure_at (t : Z) : LoginFailure := mkLoginFailure (realm_id realm) (Some uid) ip t.

Hypothesis Hen : realm_bruteForceEnabled realm = true.

Lemma failures_at_app ts t w :
  failures_at (ts ++ [t]) w = (run (recordFailure realm uid ip) (with_now t (failures_at ts w))).2.
Proof. revert w. induction ts as [|t' ts IH]; intros w; simpl; auto. Qed.

Lemma failures_at_rows ts w u :
  w_db_up w = true -> List.find (by_id uid) (rows TUser w) = Some u ->
  rows TLoginFailure (failures_at ts w) = rows TLoginFailure w ++ map failure_at ts /\
  w_db_up (failures_at ts w) = true /\
  exists u', List.find (by_id uid) (rows TUser (failures_at ts w)) = Some u'.
Proof.
  revert w u. induction ts as [|t ts IH]; intros w u Hup Hu; simpl.
  { rewrite app_nil_r. eauto. }
  destruct (run_recordFailure realm uid ip (with_now t w) u) as (w' & Hr & Hf & Hu' & _ & Hup');
    [done..|]. rewrite Hr. simpl.
  destruct (IH w' _ Hup' Hu') as (H1 & H2 & H3). split; [|done].
  rewrite H1, Hf, <- app_assoc. done.
Qed.

Lemma recent_failures_ge ts t w old :
  Forall (fun x => t - reset_time realm * 1000 <= x) ts ->
  rows TLoginFailure w = old ++ map failure_at ts ->
  Z.of_nat (length ts) <= recent_failures realm uid (with_now t w).
Proof.
  intros Hts Hw. unfold recent_failures.
  change (rows TLoginFailure (with_now t w)) with (rows TLoginFailure w). rewrite Hw.
  rewrite List.filter_app, length_app. simpl w_now.
  enough (Nat.le (length ts) (length (List.filter (fun f => of_user_in (realm_id realm) uid f &&
    (t - reset_time realm * 1000 <=? lf_failedAt f)) (map failure_at ts)))) by lia.
  clear Hw. induction Hts as [|x ts Hx Hts IH]; simpl; [lia|].
  rewrite (of_user_in_new (realm_id realm) uid ip x : of_user_in _ _ (failure_at x) = true).
  rewrite (proj2 (Z.leb_le _ _) Hx). simpl. lia.
Qed.

Lemma after_failure_locked now recent total u :
  max_failures realm <= recent -> 0 < realm_lockoutDuration realm -> now < PERMANENT_LOCK ->
  exists t, user_lockedUntil (after_failure realm now recent total u) = Some t /\ now < t.
Proof.
  intros Hr Hd Hn. unfold after_failure. rewrite (proj2 (Z.ltb_ge _ _) Hr).
  case_match; simpl; [by exists PERMANENT_LOCK | eexists; split; [done|lia]].
Qed.
End Lockout.

(** Lockout: once a user has failed to log in [maxLoginFailures] times within
    the realm's reset window, whatever happened before, the account is locked at
    the instant of the last failure: [checkLocked] reports it. *)
Theorem failures_lock_account {E : Env} realm uid ip ts t w u :
  realm_bruteForceEnabled realm = true -> 0 < realm_lockoutDuration realm ->
  t < PERMANENT_LOCK ->
  w_db_up w = true -> List.find (by_id uid) (rows TUser w) = Some u ->
  Forall (fun x => t - reset_time realm * 1000 <= x) ts ->
  max_failures realm <= Z.of_nat (S (length ts)) ->
  exists u' until,
    List.find (by_id uid) (rows TUser (failures_at realm uid ip (ts ++ [t]) w)) = Some u' /\
    run (checkLocked realm u') (failures_at realm uid ip (ts ++ [t]) w) =
      (inr (true, Some until), failures_at realm uid ip (ts ++ [t]) w).
Proof.
  intros Hen Hd Ht Hup Hu Hts Hn. rewrite failures_at_app.
  destruct (failures_at_rows realm uid ip Hen ts w u) as (Hrows & Hup1 & u1 & Hu1); [done..|].
  set (w1 := failures_at realm uid ip ts w) in *.
  destruct (run_recordFailure realm uid ip (with_now t w1) u1) as (w' & -> & _ & Hu' & Hnow & _);
    [done..|]. simpl snd.
  pose proof (recent_failures_ge realm uid ip ts t w1 _ Hts Hrows) as Hrec.
  destruct (after_failure_locked realm t (recent_failures realm uid (with_now t w1) + 1)
    (total_failures realm uid (with_now t w1) + 1) u1) as (v & Hv & Hlt); [lia|done..|].
  eexists _, v. split; [exact Hu'|]. unfold checkLocked. rewrite Hen. simpl w_now in Hv. simpl negb.
  cbv iota. simpl w_now. rewrite Hv. rewrite run_bind, run_date_now, Hnow. simpl.
  by rewrite (proj2 (Z.ltb_lt _ _) Hlt).
Qed.

Example failures_lock_account_witness :
  exists u' until,
    List.find (by_id "user-1")
      (rows TUser (failures_at (E:=test_env) realm0 "user-1" None ([1000; 2000] ++ [3000]) world1)) = Some u' /\
    run (checkLocked realm0 u')
      (failures_at (E:=test_env) realm0 "user-1" None ([1000; 2000] ++ [3000]) world1) =
      (inr (true, Some until),
       failures_at (E:=test_env) realm0 "user-1" None ([1000; 2000] ++ [3000]) world1).
Proof.
  apply (failures_lock_account (E:=test_env) realm0 "user-1" None [1000; 2000] 3000 world1 user0);
    first [reflexivity | vm_compute; discriminate | repeat constructor; vm_compute; discriminate].
Defined.

(** Unlocking: [unlockUser] of a user of another realm is NotFound and
    changes nothing; otherwise the user's row is enabled and unlocked, no
    recorded password failure of that user and realm is left to count, and the
    rows of the other realms' users and failures are untouched. *)
Theorem unlockUser_scoped realmId uid w :
  w_db_up w = true ->
  let here := fun u => (user_id u === uid) && (user_realmId u === realmId) in
  match List.find here (rows TUser w) with
  | None => run (unlockUser realmId uid) w = (inl (NotFound "User not found"), w)
  | Some u =>
      exists w', run (unlockUser realmId uid) w = (inr tt, w') /\
        List.find here (rows TUser w') = Some (set_enabled true (set_lockedUntil None u)) /\
        List.filter (of_user_in realmId uid) (rows TLoginFailure w') = [] /\
        (forall r x, r <> realmId ->
           List.find (fun u => (user_id u === x) && (user_realmId u === r)) (rows TUser w') =
           List.find (fun u => (user_id u === x) && (user_realmId u === r)) (rows TUser w)) /\
        (forall f, lf_realmId f <> realmId -> f ∈ rows TLoginFailure w -> f ∈ rows TLoginFailure w')
  end.
Proof.
  intros Hup here. destruct (List.find here (rows TUser w)) as [u|] eqn:Hu.
  - unfold unlockUser. rewrite (run_bind_ok _ _ _ _ _ (run_find_first_eq TUser here w _ Hup Hu)).
    rewrite (run_bind_ok _ _ _ _ _ (run_update TUser here _ w u Hup Hu)).
    rewrite run_bind, run_delete_many by done. eexists. split; [reflexivity|].
    set (f := fun u => set_enabled true (set_lockedUntil None u)).
    split; [|split; [|split]]; cbn [fst snd].
    + apply (find_update_first here f); [done|]. exact (proj2 (find_elem _ _ _ Hu)).
    + apply filter_negb_nil.
    + intros r x Hr. apply (find_update_first_ne here _ f);
        intros v [_ Hv%bool_decide_eq_true]%andb_true_iff; simpl; rewrite Hv;
        apply andb_false_iff; right; by apply bool_decide_eq_false_2.
    + intros f' Hf Hin. apply elem_of_filter_list. split; [|done].
      unfold of_user_in. by rewrite bool_decide_eq_false_2.
  - unfold unlockUser. by rewrite (run_bind_ok _ _ _ _ _ (run_find_first_eq TUser here w _ Hup Hu)).
Qed.

Example unlockUser_scoped_witness :
  run (unlockUser "realm-2" "user-1") world1 =
    (inl (NotFound "User not found"), world1).
Proof. exact (unlockUser_scoped "realm-2" "user-1" world1 eq_refl). Defined.
