(* ===== verification/Redis.v ===== *)
(** * Redis: the commands of RedisService (src/src/redis)

    Every method first looks at [isAvailable()]; when the connection looks up,
    the command is one atomic step of the server, or it throws.  A key whose
    expiry has passed does not exist. *)

From S2P Require Import Prelude Prog Json Schema Store StoreFacts.

Definition live (now : Z) (v : redis_value) : bool :=
  match v.2 with Some e => now <? e | None => true end.

(** The value a command finds at a key. *)
Definition redis_entry (k : string) (w : World) : option redis_value :=
  match w_redis_data w !! k with
  | Some v => if live (w_now w) v then Some v else None
  | None => None
  end.

Definition redis_put (k : string) (v : redis_value) (w : World) : World :=
  with_redis_data (<[k := v]> (w_redis_data w)) w.

Definition isAvailable : M bool :=
  atom (fun w => (match w_redis w with RedisDown => false | _ => true end, w)).

(** A command with the value the method returns when Redis is not available. *)
Definition command {B} (unavailable : B) (f : World -> (exc + B) * World) : M B :=
  Atom (fun w => match w_redis w with
                 | RedisDown => (inr unavailable, w)
                 | RedisFaulty => (inl RedisFailed, w)
                 | RedisUp => f w
                 end)
       (fun r => match r with inl e => Throw e | inr b => Ret b end).

Definition redis_set (k : string) (value ttlSeconds : Z) : M unit :=
  command tt (fun w =>
    if ttlSeconds <=? 0 then (inl RedisFailed, w)
    else (inr tt, redis_put k (value, Some (w_now w + ttlSeconds * 1000)) w)).

Definition redis_exists (k : string) : M bool :=
  command false (fun w => (inr (bool_decide (is_Some (redis_entry k w))), w)).

Definition redis_add (d : Z) (k : string) : M Z :=
  command 0 (fun w =>
    match redis_entry k w with
    | Some (n, e) => (inr (n + d), redis_put k (n + d, e) w)
    | None => (inr d, redis_put k (d, None) w)
    end).

Definition redis_expire (k : string) (ttlSeconds : Z) : M unit :=
  command tt (fun w =>
    match redis_entry k w with
    | Some (n, _) => (inr tt, redis_put k (n, Some (w_now w + ttlSeconds * 1000)) w)
    | None => (inr tt, w)
    end).

(** INCR, then EXPIRE by the caller that created the key. *)
Definition redis_incr (k : string) (ttlSeconds : Z) : M Z :=
  (available <- isAvailable ;;
   if negb available then Ret 0 else
   count <- redis_add 1 k ;;
   if count =? 1 then redis_expire k ttlSeconds ;;; Ret count else Ret count)%prog.

Definition redis_decr (k : string) : M Z := redis_add (-1) k.

Lemma command_footprint {B} ts (u : B) f :
  (forall w, frame ts w (f w).2) -> stable (frame ts) (command u f).
Proof.
  intros H. split; [|by intros [e|b]].
  intros w. destruct (w_redis w); simpl; [reflexivity | apply H | reflexivity].
Qed.

Lemma frame_redis_put ts k v w : frame ts w (redis_put k v w).
Proof. by repeat split. Qed.

Lemma isAvailable_footprint ts : stable (frame ts) isAvailable.
Proof. apply stable_atom. simpl. reflexivity. Qed.
Lemma redis_set_footprint ts k v t : stable (frame ts) (redis_set k v t).
Proof. apply command_footprint. intros w. case_match; simpl; [reflexivity | apply frame_redis_put]. Qed.
Lemma redis_exists_footprint ts k : stable (frame ts) (redis_exists k).
Proof. apply command_footprint. simpl. reflexivity. Qed.
Lemma redis_add_footprint ts d k : stable (frame ts) (redis_add d k).
Proof. apply command_footprint. intros w. repeat case_match; apply frame_redis_put. Qed.
Lemma redis_expire_footprint ts k t : stable (frame ts) (redis_expire k t).
Proof. apply command_footprint. intros w. repeat case_match; simpl; [apply frame_redis_put | reflexivity]. Qed.

#[export] Hint Resolve isAvailable_footprint redis_set_footprint redis_exists_footprint
  redis_add_footprint redis_expire_footprint : footprint.

Lemma redis_incr_footprint ts k t : stable (frame ts) (redis_incr k t).
Proof. unfold redis_incr. footprint. Qed.
#[export] Hint Resolve redis_incr_footprint : footprint.

(** ** Running a command *)

Lemma run_command_up {B} (u : B) f w :
  w_redis w = RedisUp -> run (command u f) w = f w.
Proof. intros H. simpl. rewrite H. by destruct (f w) as [[e|b] w']. Qed.

Lemma run_command_down {B} (u : B) f w :
  w_redis w = RedisDown -> run (command u f) w = (inr u, w).
Proof. intros H. simpl. by rewrite H. Qed.

Lemma run_isAvailable w :
  run isAvailable w = (inr (match w_redis w with RedisDown => false | _ => true end), w).
Proof. done. Qed.

Lemma redis_entry_put k k' v w :
  redis_entry k (redis_put k' v w) =
    if k === k' then (if live (w_now w) v then Some v else None) else redis_entry k w.
Proof.
  unfold redis_entry. simpl. case_bool_decide as Hk.
  - subst. by rewrite lookup_insert_eq.
  - by rewrite lookup_insert_ne.
Qed.
