(* ===== verification/TokenBlacklist.v ===== *)
(** * TokenBlacklist: revoked access tokens (src/src/tokens/token-blacklist.service.ts) *)

From S2P Require Import Prelude Prog Json Schema Store StoreFacts Redis Testbed.

Definition BLACKLIST_PREFIX : string := "token:blacklist:".

Section Service.
Context {E : Env}.

(** [memoryFallback], an in-process map. *)
Definition memory_has (jti : string) : M bool :=
  atom (fun w => (bool_decide (is_Some (w_memoryFallback w !! jti)), w)).
Definition memory_put (jti : string) (exp : Z) : M unit :=
  atom (fun w => (tt, with_memoryFallback (<[jti := exp]> (w_memoryFallback w)) w)).

Definition blacklistToken (jti : string) (exp : Z) : M unit :=
  (now <- date_now ;;
   let ttl := exp - now / 1000 in
   if ttl <=? 0 then Ret tt else
   catch (upsert TRevokedToken (fun r => rvk_jti r === jti)
            (fun _ _ => mkRevokedToken jti (exp * 1000)) (fun r => r) ;;; Ret tt)
         (fun _ => Ret tt) ;;;
   available <- isAvailable ;;
   stored <- (if (available : bool)
              then catch (redis_set (BLACKLIST_PREFIX +:+ jti) 1 ttl ;;; Ret true)
                         (fun _ => Ret false)
              else Ret false) ;;
   if (stored : bool) then Ret tt else memory_put jti exp)%prog.

(** The look-up in the database, which writes a hit back to Redis. *)
Definition in_database (jti : string) : M bool :=
  (record <- find_first TRevokedToken (fun r => rvk_jti r === jti) ;;
   match record with
   | Some r =>
       now <- date_now ;;
       let ttl := rvk_expiresAt r / 1000 - now / 1000 in
       (if 0 <? ttl then
          available <- isAvailable ;;
          if (available : bool)
          then catch (redis_set (BLACKLIST_PREFIX +:+ jti) 1 ttl) (fun _ => Ret tt)
          else Ret tt
        else Ret tt) ;;;
       Ret true
   | None => Ret false
   end)%prog.

Definition isBlacklisted (jti : string) : M bool :=
  (available <- isAvailable ;;
   hit <- (if (available : bool)
           then catch (redis_exists (BLACKLIST_PREFIX +:+ jti)) (fun _ => Ret false)
           else Ret false) ;;
   if (hit : bool) then Ret true else
   inMemory <- memory_has jti ;;
   if (inMemory : bool) then Ret true else
   catch (in_database jti) (fun _ => Ret false))%prog.

Definition rehydrateFromDatabase : M unit :=
  (available <- isAvailable ;;
   if negb available then Ret tt else
   catch
     (now <- date_now ;;
      tokens <- find_many TRevokedToken (fun r => now <? rvk_expiresAt r) ;;
      for_each tokens (fun token =>
        let ttl := rvk_expiresAt token / 1000 - now / 1000 in
        if 0 <? ttl
        then catch (redis_set (BLACKLIST_PREFIX +:+ rvk_jti token) 1 ttl) (fun _ => Ret tt)
        else Ret tt))
     (fun _ => Ret tt))%prog.

Definition cleanup : M unit :=
  (now <- date_now ;;
   atom (fun w => (tt, with_memoryFallback
     (filter (fun kv : string * Z => (now / 1000 <= kv.2)) (w_memoryFallback w)) w)) ;;;
   catch (delete_many TRevokedToken (fun r => rvk_expiresAt r <? now) ;;; Ret tt)
         (fun _ => Ret tt))%prog.

Lemma memory_has_footprint ts j : stable (frame ts) (memory_has j).
Proof. apply stable_atom. simpl. reflexivity. Qed.
Lemma memory_put_footprint ts j e : stable (frame ts) (memory_put j e).
Proof. apply stable_atom. by repeat split. Qed.
#[local] Hint Resolve memory_has_footprint memory_put_footprint : footprint.
Lemma isBlacklisted_footprint ts j : stable (frame ts) (isBlacklisted j).
Proof. unfold isBlacklisted, in_database. footprint. Qed.
Lemma blacklistToken_footprint ts j e :
  covers [TRevokedToken] ts = true -> stable (frame ts) (blacklistToken j e).
Proof. intros H. apply (stable_frame_mono _ _ _ H). unfold blacklistToken. footprint. Qed.
End Service.

#[export] Hint Resolve isBlacklisted_footprint blacklistToken_footprint : footprint.

(** ** What is blacklisted *)

(** The token is known to Redis, to this process or to the database. *)
Definition known (jti : string) (w : World) : bool :=
  (match w_redis w with
   | RedisUp => bool_decide (is_Some (redis_entry (BLACKLIST_PREFIX +:+ jti) w))
   | _ => false
   end) ||
  bool_decide (is_Some (w_memoryFallback w !! jti)) ||
  (w_db_up w && existsb (fun r => rvk_jti r === jti) (rows TRevokedToken w)).

Lemma existsb_find {A} (p : A -> bool) l :
  existsb p l = match List.find p l with Some _ => true | None => false end.
Proof. induction l as [|x l IH]; simpl; [done|]. by destruct (p x). Qed.

Lemma run_in_database jti w :
  exists w', run (catch (in_database jti) (fun _ => Ret false)) w =
    (inr (w_db_up w && existsb (fun r => rvk_jti r === jti) (rows TRevokedToken w)), w').
Proof.
  rewrite run_catch. unfold in_database. destruct (w_db_up w) eqn:Hup.
  2:{ rewrite run_bind. unfold find_first, query. rewrite run_prisma, Hup. by eexists. }
  rewrite existsb_find. simpl andb.
  destruct (List.find (fun r => rvk_jti r === jti) (rows TRevokedToken w)) as [r|] eqn:Hf;
    rewrite (run_bind_ok _ _ _ _ _ (run_find_first_eq TRevokedToken _ w _ Hup Hf)); [|by eexists].
  rewrite run_bind, run_date_now, run_bind.
  destruct (0 <? _); [|by eexists]. rewrite run_bind, run_isAvailable.
  destruct (w_redis w); [by eexists|rewrite run_catch|rewrite run_catch].
  - destruct (run (redis_set _ _ _) w) as [[e|[]] w']; by eexists.
  - destruct (run (redis_set _ _ _) w) as [[e|[]] w']; by eexists.
Qed.

Lemma run_isBlacklisted jti w : exists w', run (isBlacklisted jti) w = (inr (known jti w), w').
Proof.
  unfold isBlacklisted, known. rewrite run_bind, run_isAvailable, run_bind.
  set (mem := bool_decide (is_Some (w_memoryFallback w !! jti))).
  assert (Hrest : exists w', run
    (inMemory <- memory_has jti ;;
     if (inMemory : bool) then Ret true else catch (in_database jti) (fun _ => Ret false))%prog w =
    (inr (mem || (w_db_up w && existsb (fun r => rvk_jti r === jti) (rows TRevokedToken w))), w')).
  { rewrite run_bind. unfold memory_has. rewrite run_atom. cbn [fst snd]. fold mem.
    destruct mem; [by eexists | apply run_in_database]. }
  destruct Hrest as [w' Hrest]. destruct (w_redis w) eqn:Hr.
  - eexists. exact Hrest.
  - rewrite run_catch. unfold redis_exists. rewrite run_command_up by done.
    destruct (bool_decide (is_Some (redis_entry _ w))); [by eexists|]. eexists. exact Hrest.
  - rewrite run_catch. simpl (run (redis_exists _) w). rewrite Hr. eexists. exact Hrest.
Qed.

Lemma existsb_upsert {E : Env} jti exp w :
  w_db_up w = true ->
  existsb (fun r => rvk_jti r === jti)
    (rows TRevokedToken (run (upsert TRevokedToken (fun r => rvk_jti r === jti)
       (fun _ _ => mkRevokedToken jti (exp * 1000)) (fun r => r)) w).2) = true.
Proof.
  intros Hup. unfold upsert. rewrite run_prisma, Hup.
  destruct (List.find _ _) as [r|] eqn:Hf; simpl snd; rewrite rows_with_rows_eq.
  - rewrite existsb_find, (find_update_first _ _ _ _ Hf); [done|]. exact (proj2 (find_elem _ _ _ Hf)).
  - rewrite existsb_app. simpl. rewrite bool_decide_eq_true_2 by done. by rewrite orb_true_r.
Qed.

(** The world after a token was blacklisted: the database write, if it was
    possible, then Redis or the process' own map. *)
Lemma run_blacklistToken {E : Env} jti exp w :
  w_now w / 1000 < exp ->
  let w1 := (run (blacklistToken jti exp) w).2 in
  (w_db_up w = true -> existsb (fun r => rvk_jti r === jti) (rows TRevokedToken w1) = true) /\
  known jti w1 = true.
Proof.
  intros Hexp. unfold blacklistToken. rewrite run_bind, run_date_now.
  rewrite (proj2 (Z.leb_gt _ _)) by lia.
  set (p := upsert _ _ _ _). pose proof (existsb_upsert jti exp w) as Hdb. fold p in Hdb.
  assert (Hf : frame [TRevokedToken] w (run p w).2)
    by (apply (stable_run (frame [TRevokedToken])), upsert_footprint; reflexivity).
  destruct Hf as (_ & Hnow & _ & Hred).
  rewrite (run_bind_ok _ _ _ _ _ (run_swallow p w)).
  set (w1 := (run p w).2) in *. rewrite run_bind, run_isAvailable, run_bind.
  assert (Hmem : run (memory_put jti exp) w1 =
    (inr tt, with_memoryFallback (<[jti := exp]> (w_memoryFallback w1)) w1)) by done.
  assert (Hkm : known jti (with_memoryFallback (<[jti := exp]> (w_memoryFallback w1)) w1) = true).
  { unfold known. simpl w_memoryFallback. rewrite lookup_insert_eq.
    rewrite (bool_decide_eq_true_2 (is_Some (Some exp))) by done. by rewrite orb_true_r. }
  destruct (w_redis w1) eqn:Hr.
  - simpl (run (Ret false) w1). cbv iota beta. rewrite Hmem. done.
  - rewrite run_catch, run_bind. unfold redis_set. rewrite run_command_up by done.
    rewrite (proj2 (Z.leb_gt _ _)) by lia. split; [exact Hdb|].
    cbn [run snd]. unfold known. simpl w_redis. rewrite Hr, redis_entry_put.
    rewrite (bool_decide_eq_true_2 (BLACKLIST_PREFIX +:+ jti = BLACKLIST_PREFIX +:+ jti)) by done.
    unfold live. cbn [snd]. rewrite (proj2 (Z.ltb_lt (w_now w1) _)) by lia. done.
  - rewrite run_catch, run_bind. simpl (run (redis_set _ _ _) w1). rewrite Hr. cbn [fst snd run].
    rewrite Hmem. done.
Qed.

(** Revocation holds: blacklisting an unexpired token makes [isBlacklisted]
    true at once, whatever the state of Redis and of the database; and if the
    database was reachable, it is true on any instance that later reads the same
    table, with or without Redis and with an empty memory. *)
Theorem blacklisted_token_rejected {E : Env} jti exp w :
  w_now w / 1000 < exp ->
  let w1 := (run (blacklistToken jti exp) w).2 in
  (exists w2, run (isBlacklisted jti) w1 = (inr true, w2)) /\
  (w_db_up w = true ->
   forall w', rows TRevokedToken w' = rows TRevokedToken w1 -> w_db_up w' = true ->
   exists w2, run (isBlacklisted jti) w' = (inr true, w2)).
Proof.
  intros Hexp w1. destruct (run_blacklistToken jti exp w Hexp) as [Hdb Hk]. fold w1 in Hdb, Hk. split.
  - destruct (run_isBlacklisted jti w1) as [w2 H]. exists w2. by rewrite H, Hk.
  - intros Hup w' Hrows Hup'. destruct (run_isBlacklisted jti w') as [w2 H]. exists w2. rewrite H.
    unfold known. by rewrite Hrows, Hup', (Hdb Hup), !orb_true_r.
Qed.

Example blacklisted_token_rejected_witness :
  let w1 := (run (blacklistToken (E:=test_env) "jti-9" 2000000) world1).2 in
  (exists w2, run (isBlacklisted "jti-9") w1 = (inr true, w2)) /\
  (w_db_up world1 = true ->
   forall w', rows TRevokedToken w' = rows TRevokedToken w1 -> w_db_up w' = true ->
   exists w2, run (isBlacklisted "jti-9") w' = (inr true, w2)).
Proof. apply (blacklisted_token_rejected (E:=test_env) "jti-9" 2000000 world1). reflexivity. Defined.
