(* ===== verification/RateLimit.v ===== *)
(** * RateLimit: fixed-window limits (src/src/rate-limit/rate-limit.service.ts,
      rate-limit.guard.ts)

    A check counts the request in the minute and in the hour window of its key, in
    Redis when it is available and in the table [rate_limit_entries] otherwise, and
    takes the count back when it refuses the request. *)

From S2P Require Import Prelude Prog Json Schema Store StoreFacts JsText Redis Testbed.

Record RateLimitResult := mkRateLimitResult {
  allowed : bool; limit : Z; remaining : Z; resetAt : Z; retryAfter : option Z
}.
#[export] Instance RateLimitResult_eq_dec : EqDecision RateLimitResult.
Proof. solve_decision. Defined.

Definition RL_PREFIX : string := "rl:".
Definition rate_limit_off : RateLimitResult := mkRateLimitResult true 0 0 0 None.

(** [{ allowed: false, remaining: 0, ... }]. *)
Definition refused (limit resetAt now : Z) : RateLimitResult :=
  mkRateLimitResult false limit 0 resetAt (Some (Z.max 1 (resetAt - now))).

(** [`${RL_PREFIX}${unit}:${key}:${window}`]. *)
Definition window_key (unit key : string) (window : Z) : string :=
  RL_PREFIX +:+ unit +:+ ":" +:+ key +:+ ":" +:+ to_base 10 window.

Section Service.
Context {E : Env}.

Definition checkWithRedis (key : string) (limitPerMinute limitPerHour : Z) : M RateLimitResult :=
  (nowMs <- date_now ;;
   let now := nowMs / 1000 in
   let minuteWindow := now / 60 in
   let hourWindow := now / 3600 in
   let minuteKey := window_key "m" key minuteWindow in
   let hourKey := window_key "h" key hourWindow in
   minuteCount <- redis_incr minuteKey 120 ;;
   hourCount <- redis_incr hourKey 7200 ;;
   let minuteResetAt := (minuteWindow + 1) * 60 in
   let hourResetAt := (hourWindow + 1) * 3600 in
   (if (limitPerMinute <? minuteCount) || (limitPerHour <? hourCount)
    then catch (redis_decr minuteKey ;;; Ret tt) (fun _ => Ret tt) ;;;
         catch (redis_decr hourKey ;;; Ret tt) (fun _ => Ret tt)
    else Ret tt) ;;;
   if limitPerMinute <? minuteCount then Ret (refused limitPerMinute minuteResetAt now)
   else if limitPerHour <? hourCount then Ret (refused limitPerHour hourResetAt now)
   else Ret (mkRateLimitResult true limitPerMinute (limitPerMinute - minuteCount) minuteResetAt None))%prog.

Definition by_rl_key (key : string) (e : RateLimitEntry) : bool := rle_key e === key.
Definition count_both (d : Z) (e : RateLimitEntry) : RateLimitEntry :=
  mkRateLimitEntry (rle_key e) (rle_minuteCount e + d) (rle_minuteWindowStart e)
    (rle_hourCount e + d) (rle_hourWindowStart e).
Definition restart_minute (now : Z) (e : RateLimitEntry) : RateLimitEntry :=
  mkRateLimitEntry (rle_key e) 1 now (rle_hourCount e) (rle_hourWindowStart e).
Definition restart_hour (now : Z) (e : RateLimitEntry) : RateLimitEntry :=
  mkRateLimitEntry (rle_key e) (rle_minuteCount e) (rle_minuteWindowStart e) 1 now.

(** [Math.ceil(x / 1000)]. *)
Definition ceil_1000 (x : Z) : Z := (x + 999) / 1000.

Definition checkWithDatabase (key : string) (limitPerMinute limitPerHour : Z) : M RateLimitResult :=
  (now <- date_now ;;
   entry <- upsert TRateLimitEntry (by_rl_key key) (fun _ _ => mkRateLimitEntry key 1 now 1 now)
     (count_both 1) ;;
   minuteCount <-
     (if 60000 <=? now - rle_minuteWindowStart entry
      then update TRateLimitEntry (by_rl_key key) (restart_minute now) ;;; Ret 1
      else Ret (rle_minuteCount entry)) ;;
   hourCount <-
     (if 3600000 <=? now - rle_hourWindowStart entry
      then update TRateLimitEntry (by_rl_key key) (restart_hour now) ;;; Ret 1
      else Ret (rle_hourCount entry)) ;;
   let minuteResetAt := ceil_1000 (Z.max (rle_minuteWindowStart entry) now + 60000) in
   let hourResetAt := ceil_1000 (Z.max (rle_hourWindowStart entry) now + 3600000) in
   (if (limitPerMinute <? minuteCount) || (limitPerHour <? hourCount)
    then catch (update TRateLimitEntry (by_rl_key key) (count_both (-1)) ;;; Ret tt) (fun _ => Ret tt)
    else Ret tt) ;;;
   if limitPerMinute <? minuteCount then Ret (refused limitPerMinute minuteResetAt (now / 1000))
   else if limitPerHour <? hourCount then Ret (refused limitPerHour hourResetAt (now / 1000))
   else Ret (mkRateLimitResult true limitPerMinute (Z.max 0 (limitPerMinute - minuteCount))
               minuteResetAt None))%prog.

Definition check (key : string) (limitPerMinute limitPerHour : Z) : M RateLimitResult :=
  (available <- isAvailable ;;
   if (available : bool)
   then catch (checkWithRedis key limitPerMinute limitPerHour)
          (fun _ => checkWithDatabase key limitPerMinute limitPerHour)
   else checkWithDatabase key limitPerMinute limitPerHour)%prog.

(** The realm's own limits, when it has them switched on. *)
Definition check_in_realm (realmId key : string) (perMinute perHour : Realm -> Z) : M RateLimitResult :=
  (realm <- find_first TRealm (fun r => realm_id r === realmId) ;;
   match realm with
   | None => Ret rate_limit_off
   | Some realm =>
       if negb (realm_rateLimitEnabled realm) then Ret rate_limit_off
       else check key (perMinute realm) (perHour realm)
   end)%prog.

Definition checkClientLimit (clientId realmId : string) : M RateLimitResult :=
  check_in_realm realmId ("client:" +:+ realmId +:+ ":" +:+ clientId)
    realm_clientRateLimitPerMinute realm_clientRateLimitPerHour.
Definition checkUserLimit (userId realmId : string) : M RateLimitResult :=
  check_in_realm realmId ("user:" +:+ realmId +:+ ":" +:+ userId)
    realm_userRateLimitPerMinute realm_userRateLimitPerHour.
Definition checkIpLimit (ip realmId : string) : M RateLimitResult :=
  check_in_realm realmId ("ip:" +:+ realmId +:+ ":" +:+ ip)
    realm_ipRateLimitPerMinute realm_ipRateLimitPerHour.

Definition envInt (name : string) (fallback : Z) : Z :=
  match process_env name with
  | None => fallback
  | Some raw => match parseInt 10 raw with
                | Some parsed => if 0 <? parsed then parsed else fallback
                | None => fallback
                end
  end.

Definition checkAdminIpLimit (ip : string) : M RateLimitResult :=
  check ("admin:ip:" +:+ ip) (envInt "ADMIN_IP_RL_PER_MINUTE" 5) (envInt "ADMIN_IP_RL_PER_HOUR" 50).
Definition checkAdminApiKeyLimit (ip : string) : M RateLimitResult :=
  check ("admin:apikey:" +:+ ip) (envInt "ADMIN_API_KEY_RL_PER_MINUTE" 60)
    (envInt "ADMIN_API_KEY_RL_PER_HOUR" 1000).

Definition computeHeaders (result : RateLimitResult) : list (string * Z) :=
  if (limit result =? 0) && (resetAt result =? 0) then [] else
  [("X-RateLimit-Limit", limit result); ("X-RateLimit-Remaining", Z.max 0 (remaining result));
   ("X-RateLimit-Reset", resetAt result)] ++
  match retryAfter result with
  | Some s => if allowed result then [] else [("Retry-After", s)]
  | None => []
  end.

Definition cleanupExpiredDbEntries : M unit :=
  (now <- date_now ;;
   let hourAgo := now - 3600000 in
   catch (delete_many TRateLimitEntry (fun e =>
            (rle_minuteWindowStart e <? hourAgo) || (rle_hourWindowStart e <? hourAgo)) ;;; Ret tt)
     (fun _ => Ret tt))%prog.

(** ** The guard *)

(** What the guard reads of a request; [basic_client_id] is the client id that a Basic
    header decodes to. *)
Record Request := mkRequest {
  request_realm : option string; params_realmId : option string;
  body_client_id : option string; query_client_id : option string; basic_client_id : option string;
  user_sub : option string; adminUser_userId : option string; request_ip : string
}.
Inductive RateLimitType := LimitClient | LimitUser | LimitIp.
Definition type_name (t : RateLimitType) : string :=
  match t with LimitClient => "client" | LimitUser => "user" | LimitIp => "ip" end.

Definition extractClientId (request : Request) : option string :=
  js_or (body_client_id request) (js_or (query_client_id request) (basic_client_id request)).
Definition extractUserId (request : Request) : option string :=
  match user_sub request with Some sub => Some sub | None => adminUser_userId request end.

Definition runCheck (type : RateLimitType) (request : Request) (realmId : string)
  : M (option RateLimitResult) :=
  (match type with
   | LimitClient =>
       let clientId := extractClientId request in
       if negb (truthy clientId) then Ret None else
       r <- checkClientLimit (clientId ?? EmptyString) realmId ;; Ret (Some r)
   | LimitUser =>
       let userId := extractUserId request in
       if negb (truthy userId) then Ret None else
       r <- checkUserLimit (userId ?? EmptyString) realmId ;; Ret (Some r)
   | LimitIp => r <- checkIpLimit (request_ip request) realmId ;; Ret (Some r)
   end)%prog.

(** The outcome of the guard: let through with headers, or 429 with headers. *)
Inductive Verdict := Pass (headers : list (string * Z)) | TooManyRequests (headers : list (string * Z)).

Fixpoint run_checks (types : list RateLimitType) (request : Request) (realmId : string)
    (binding : option RateLimitResult) : M Verdict :=
  (match types with
   | [] => Ret (Pass (match binding with Some b => computeHeaders b | None => [] end))
   | type :: types =>
       result <- runCheck type request realmId ;;
       match result with
       | None => run_checks types request realmId binding
       | Some result =>
           if negb (allowed result)
           then inc_metric "rateLimitHitsTotal" [("type", type_name type); ("realm", realmId)] ;;;
                Ret (TooManyRequests (computeHeaders result))
           else run_checks types request realmId
                  (match binding with
                   | Some b => if remaining result <? remaining b then Some result else binding
                   | None => Some result
                   end)
       end
   end)%prog.

Definition canActivate (types : list RateLimitType) (request : Request) : M Verdict :=
  match types with
  | [] => Ret (Pass [])
  | _ =>
      let effectiveRealmId := match request_realm request with Some id => Some id | None => params_realmId request end in
      if negb (truthy effectiveRealmId) then Ret (Pass [])
      else run_checks types request (effectiveRealmId ?? EmptyString) None
  end.
End Service.

(** ** Concurrent requests in one window *)

(** Redis commands under an invariant that keeps Redis up. *)
Section Commands.
Variable Inv : World -> nat -> nat -> Prop.
Hypothesis Inv_up : forall w x a, Inv w x a -> w_redis w = RedisUp.
Notation acc := (accounts (E:=exc) Inv).

Lemma accounts_command {B} (Q : nat * nat -> B -> Prop) X g (u : B) f :
  (forall w x a, Inv w (x + g.1) (a + g.2) ->
     exists b w' g', f w = (inr b, w') /\ Inv w' (x + g'.1) (a + g'.2) /\ Q g' b) ->
  acc Q X g (command u f).
Proof.
  intros H w x a Hi. rewrite (Inv_up _ _ _ Hi). destruct (H w x a Hi) as (b & w' & g' & -> & Hi' & HQ).
  by exists g'.
Qed.

Lemma accounts_isAvailable X g : acc (fun g' b => g' = g /\ b = true) X g isAvailable.
Proof.
  intros w x a Hi. exists g. split; [exact Hi|]. simpl. by rewrite (Inv_up _ _ _ Hi).
Qed.

(** A command of another key. *)
Definition ignores (k : string) : Prop := forall w x a v, Inv w x a -> Inv (redis_put k v w) x a.

Lemma accounts_add_other X g d k : ignores k -> acc (fun g' _ => g' = g) X g (redis_add d k).
Proof.
  intros Hk. apply accounts_command. intros w x a Hi.
  destruct (redis_entry k w) as [[n e]|]; do 3 eexists; (split; [done|]); (split; [by apply Hk|done]).
Qed.

Lemma accounts_expire_other X g t k : ignores k -> acc (fun g' _ => g' = g) X g (redis_expire k t).
Proof.
  intros Hk. apply accounts_command. intros w x a Hi.
  destruct (redis_entry k w) as [[n e]|]; do 3 eexists; (split; [done|]); (split; [|done]); [by apply Hk|done].
Qed.

(** INCR with the ghost step of its addition. *)
Lemma accounts_incr (Q : nat * nat -> Z -> Prop) X g k t :
  acc Q X g (redis_add 1 k) ->
  (forall g, acc (fun g' _ => g' = g) X g (redis_expire k t)) ->
  acc Q X g (redis_incr k t).
Proof.
  intros Ha He. unfold redis_incr. eapply accounts_bind; [apply accounts_isAvailable|].
  intros g' b [-> ->]. simpl negb. cbv iota. eapply accounts_bind; [exact Ha|].
  intros g' n Hn. destruct (n =? 1); [|exact Hn]. eapply accounts_bind; [by apply He|]. by intros g'' [] ->.
Qed.

Lemma accounts_swallow {B} X g (p : M B) (g2 : nat * nat) :
  acc (fun g' _ => g' = g2) (fun _ _ => False) g p ->
  acc (fun g' _ => g' = g2) X g (catch (p ;;; Ret tt)%prog (fun _ => Ret tt)).
Proof.
  intros Hp. eapply accounts_catch; [eapply accounts_bind; [exact Hp|]; by intros g' b ->|]. done.
Qed.
End Commands.

Section Window.
Context {E : Env}.
Variables (key : string) (lm lh : Z) (mw : Z) (c0 : Z).
Let mk := window_key "m" key mw.
Let bound := Z.to_nat (lm - c0).

(** The count of the window: what was there, and what the requests hold. *)
Definition window_count (n : Z) (w : World) : Prop :=
  (w_redis_data w !! mk = None /\ n = 0) \/
  exists e, w_redis_data w !! mk = Some (n, e) /\
    match e with Some t => (mw + 1) * 60000 <= t | None => True end.

Definition in_window (w : World) : Prop := w_redis w = RedisUp /\ w_now w / 1000 / 60 = mw.

Definition window_inv (w : World) (x a : nat) : Prop :=
  in_window w /\ window_count (c0 + Z.of_nat x + Z.of_nat a) w /\ (a <= bound)%nat.

Lemma window_inv_up w x a : window_inv w x a -> w_redis w = RedisUp.
Proof. by intros [[H _] _]. Qed.

Lemma window_time w : in_window w -> mw * 60000 <= w_now w < (mw + 1) * 60000.
Proof.
  intros [_ H]. rewrite Z.div_div in H by lia. change (1000 * 60) with 60000 in H.
  pose proof (Z.div_mod (w_now w) 60000 ltac:(lia)). pose proof (Z.mod_pos_bound (w_now w) 60000 ltac:(lia)). lia.
Qed.

(** The count a command finds. *)
Lemma window_entry n w : in_window w -> window_count n w ->
  (redis_entry mk w = None /\ n = 0) \/
  exists e, redis_entry mk w = Some (n, e) /\
    match e with Some t => (mw + 1) * 60000 <= t | None => True end.
Proof.
  intros Hw Hc. pose proof (window_time w Hw). unfold redis_entry. destruct Hc as [[-> ->]|(e & -> & He)].
  - by left.
  - right. exists e. assert (live (w_now w) (n, e) = true) as ->; [|done].
    unfold live. simpl. destruct e as [t|]; [|done]. apply Z.ltb_lt. lia.
Qed.

Lemma window_put n e w :
  match e with Some t => (mw + 1) * 60000 <= t | None => True end ->
  window_count n (redis_put mk (n, e) w).
Proof. intros He. right. exists e. simpl. by rewrite lookup_insert_eq. Qed.

(** Counting up or down by one. *)
Lemma accounts_add Q X g d :
  (forall w x a, window_inv w (x + g.1) (a + g.2) -> exists g', (a + g'.2 <= bound)%nat /\
     Z.of_nat (g'.1 + g'.2) = Z.of_nat (g.1 + g.2) + d /\
     Q g' (c0 + Z.of_nat (x + g.1) + Z.of_nat (a + g.2) + d)) ->
  accounts window_inv Q X g (redis_add d mk).
Proof.
  intros H. apply (accounts_command _ window_inv_up). intros w x a Hi.
  destruct (H w x a Hi) as (g' & Hb & Hs & HQ). destruct Hi as (Hw & Hc & _).
  destruct (window_entry _ _ Hw Hc) as [[-> Hn]|(e & -> & He)].
  - exists d, (redis_put mk (d, None) w), g'. split; [done|]. split.
    + split; [exact Hw|]. split; [|done].
      replace (c0 + Z.of_nat (x + g'.1) + Z.of_nat (a + g'.2)) with d by lia. by apply window_put.
    + eapply eq_ind; [exact HQ|]. lia.
  - eexists _, _, g'. split; [done|]. split; [|exact HQ]. split; [exact Hw|]. split; [|done].
    set (n := c0 + Z.of_nat (x + g.1) + Z.of_nat (a + g.2)).
    replace (c0 + Z.of_nat (x + g'.1) + Z.of_nat (a + g'.2)) with (n + d) by lia. by apply window_put.
Qed.

Lemma accounts_expire X g : accounts window_inv (fun g' _ => g' = g) X g (redis_expire mk 120).
Proof.
  apply (accounts_command _ window_inv_up). intros w x a (Hw & Hc & Hb). pose proof (window_time w Hw) as Ht.
  destruct (window_entry _ _ Hw Hc) as [[-> Hn]|(e & -> & He)]; do 3 eexists; (split; [done|]); (split; [|done]).
  - by split.
  - split; [exact Hw|]. split; [|done]. apply window_put. lia.
Qed.

Lemma window_ignores k : k <> mk -> ignores window_inv k.
Proof.
  intros Hk w x a v (Hw & Hc & Hb). split; [exact Hw|]. split; [|done].
  unfold window_count in *. simpl. by rewrite lookup_insert_ne.
Qed.

(** After INCR a request is granted a unit or holds one too many. *)
Definition counted (g : nat * nat) (n : Z) : Prop :=
  (n <= lm /\ g = (0, 1)%nat) \/ (lm < n /\ g = (1, 0)%nat).

Lemma accounts_checkWithRedis :
  accounts window_inv (fun g r => allowed r = true -> (1 <= g.2)%nat) (fun _ _ => False) (0, 0)%nat
    (checkWithRedis key lm lh).
Proof.
  unfold checkWithRedis. apply (accounts_bind _ (fun g t => g = (0, 0)%nat /\ t / 1000 / 60 = mw)).
  { apply accounts_keep; [done|]. intros w x a Hi. split; [done | apply Hi]. }
  intros g t [-> Hmw]. cbv zeta. rewrite Hmw. fold mk.
  set (hk := window_key "h" key _). assert (Hhk : hk <> mk) by done. clearbody hk.
  apply (accounts_bind _ counted).
  { apply (accounts_incr _ window_inv_up); [|intros g; apply accounts_expire].
    apply accounts_add. intros w x a (_ & _ & Hb). simpl in *.
    destruct (Z.le_gt_cases (c0 + Z.of_nat (x + 0) + Z.of_nat (a + 0) + 1) lm) as [Hn|Hn].
    - exists (0, 1)%nat. split_and!; [unfold bound; simpl; lia|simpl; lia|by left].
    - exists (1, 0)%nat. split_and!; [simpl; lia|simpl; lia|right; split; [lia|done]]. }
  intros g n Hn. apply (accounts_bind _ (fun g' _ => g' = g)).
  { apply (accounts_incr _ window_inv_up).
    - by apply (accounts_add_other _ window_inv_up), window_ignores.
    - intros g'. by apply (accounts_expire_other _ window_inv_up), window_ignores. }
  intros g' h ->. destruct ((lm <? n) || (lh <? h)) eqn:Hover.
  - apply (accounts_bind _ (fun g' _ => g' = (0, 0)%nat)).
    + apply (accounts_bind _ (fun g' _ => g' = (0, 0)%nat)).
      * apply accounts_swallow. apply accounts_add. intros w x a (_ & _ & Hb). exists (0, 0)%nat.
        split_and!; [|by destruct Hn as [[_ ->]|[_ ->]]|done]. destruct Hn as [[_ ->]|[_ ->]]; simpl in *; lia.
      * intros g' u ->. apply accounts_swallow. by apply (accounts_add_other _ window_inv_up), window_ignores.
    + intros g' u ->. destruct (lm <? n); [done|]. destruct (lh <? h); [done|]. done.
  - apply orb_false_iff in Hover as [Hm Hh]. simpl. rewrite Hm, Hh. simpl. intros _.
    apply Z.ltb_ge in Hm. destruct Hn as [[_ ->]|[Hn _]]; [simpl; lia|lia].
Qed.

Lemma accounts_check :
  accounts window_inv (fun g r => allowed r = true -> (1 <= g.2)%nat) (fun _ _ => False) (0, 0)%nat
    (check key lm lh).
Proof.
  unfold check. eapply accounts_bind; [apply (accounts_isAvailable _ window_inv_up)|]. intros g b [-> ->].
  eapply accounts_catch; [apply accounts_checkWithRedis|done].
Qed.
End Window.

(** What other requests may do meanwhile: anything but touch this window's counter,
    within the window. *)
Definition same_window (key : string) (mw : Z) (w w' : World) : Prop :=
  w_redis w' = RedisUp /\ w_now w' / 1000 / 60 = mw /\
  w_redis_data w' !! window_key "m" key mw = w_redis_data w !! window_key "m" key mw.

(** C25. However many requests of one key arrive at once, on however many instances,
    Redis lets at most as many through in a minute as the limit has left: requests
    that are refused and take their count back never make room for too many. *)
Theorem rate_limit_concurrent {E : Env} key lm lh mw c0 n w w' pool :
  in_window mw w -> window_count key mw c0 w ->
  psteps (same_window key mw) (w, replicate n (check key lm lh)) (w', pool) ->
  (winners allowed pool <= Z.to_nat (lm - c0))%nat.
Proof.
  intros Hw Hc Hs.
  eapply (grants_bounded (window_inv key lm mw c0) (same_window key mw)); [| | | |  |exact Hs].
  - intros w1 w2 x a (Hr & Ht & Hd) (Hw1 & Hc1 & Hb). split; [by split|]. split; [|done].
    unfold window_count in *. by rewrite Hd.
  - intros g r HQ. exact HQ.
  - by intros w1 x a (_ & _ & Hb).
  - split; [done|]. split; [|lia]. by rewrite !Z.add_0_r.
  - apply Forall_replicate, accounts_check.
Qed.

Definition redis_world : World :=
  mkWorld no_tables 1000000000 0 0 true RedisUp ∅ ∅ ∅ [] ∅ ∅ ∅ ∅ ∅ [] [].

Example rate_limit_concurrent_witness :
  exists w' pool, psteps (same_window "client:r:app" 16666)
      (redis_world, replicate 3 (check (E:=test_env) "client:r:app" 2 100)) (w', pool) /\
    winners allowed pool = 2%nat /\ (winners allowed pool <= Z.to_nat (2 - 0))%nat.
Proof.
  set (c := schedule (concat (replicate 20 [0; 1; 2]%nat))
    (redis_world, replicate 3 (check (E:=test_env) "client:r:app" 2 100))).
  exists c.1, c.2.
  assert (Hs : psteps (same_window "client:r:app" 16666)
    (redis_world, replicate 3 (check (E:=test_env) "client:r:app" 2 100)) (c.1, c.2))
    by (rewrite <- surjective_pairing; apply schedule_psteps).
  split; [exact Hs|]. split; [vm_compute; reflexivity|].
  apply (rate_limit_concurrent (E:=test_env) "client:r:app" 2 100 16666 0 3 redis_world c.1 c.2);
    [split; vm_compute; reflexivity | left; split; vm_compute; reflexivity | exact Hs].
Defined.

(** In the table the restart of a window is a second statement: requests that meet at
    the end of a window all restart it and are all let through. *)
Theorem db_window_restart_race :
  let w := with_rows TRateLimitEntry [mkRateLimitEntry "ip:r:1" 1 999000000 1 999000000] world0 in
  exists w' pool,
    psteps (fun a b => a = b) (w, replicate 3 (check (E:=test_env) "ip:r:1" 1 100)) (w', pool) /\
    winners allowed pool = 3%nat.
Proof.
  cbv zeta. eexists (schedule (concat (replicate 12 [0; 1; 2]%nat)) _).1, (schedule (concat (replicate 12 [0; 1; 2]%nat)) _).2.
  split; [rewrite <- surjective_pairing; apply schedule_psteps|]. vm_compute. reflexivity.
Qed.

(** ** One request at a time: a counter per window *)

(** What a client is promised: two counters and their limits. *)
Record Windows := mkWindows { minute_used : Z; hour_used : Z }.
Definition spec_check (lm lh : Z) (s : Windows) : bool * Windows :=
  if (minute_used s <? lm) && (hour_used s <? lh)
  then (true, mkWindows (minute_used s + 1) (hour_used s + 1)) else (false, s).

(** A Redis counter that lives at least until [until]. *)
Definition counter (k : string) (n until : Z) (w : World) : Prop :=
  (w_redis_data w !! k = None /\ n = 0) \/
  exists e, w_redis_data w !! k = Some (n, e) /\
    match e with Some t => until <= t | None => True end.

(** Only the counter of [k] may differ. *)
Definition only_key (k : string) (w w' : World) : Prop :=
  w_redis w' = w_redis w /\ w_now w' = w_now w /\
  forall k', k' <> k -> w_redis_data w' !! k' = w_redis_data w !! k'.

Lemma only_key_put k v w : only_key k w (redis_put k v w).
Proof. split; [done|]. split; [done|]. intros k' Hk. simpl. by rewrite lookup_insert_ne. Qed.

Lemma only_key_trans k w1 w2 w3 : only_key k w1 w2 -> only_key k w2 w3 -> only_key k w1 w3.
Proof.
  intros (A1 & A2 & A3) (B1 & B2 & B3). split; [congruence|]. split; [congruence|].
  intros k' Hk. by rewrite (B3 k' Hk), (A3 k' Hk).
Qed.

Lemma counter_other k k' n until w w' : k' <> k -> only_key k w w' -> counter k' n until w -> counter k' n until w'.
Proof. intros Hk (_ & _ & H) Hc. unfold counter in *. by rewrite (H k' Hk). Qed.

Lemma run_redis_add k n until d w :
  w_redis w = RedisUp -> w_now w < until -> counter k n until w ->
  exists w', run (redis_add d k) w = (inr (n + d), w') /\ counter k (n + d) until w' /\ only_key k w w'.
Proof.
  intros Hup Hnow Hc. unfold redis_add. rewrite run_command_up by done. unfold redis_entry.
  destruct Hc as [[Hk ->]|(e & Hk & He)]; rewrite Hk.
  - eexists. split; [done|]. split; [|apply only_key_put]. right. exists None. simpl. by rewrite lookup_insert_eq.
  - assert (live (w_now w) (n, e) = true) as ->.
    { unfold live. simpl. destruct e as [t|]; [|done]. apply Z.ltb_lt. lia. }
    eexists. split; [done|]. split; [|apply only_key_put]. right. exists e. simpl. by rewrite lookup_insert_eq.
Qed.

Lemma run_redis_expire k n until ttl w :
  w_redis w = RedisUp -> w_now w < until -> until <= w_now w + ttl * 1000 -> counter k n until w ->
  exists w', run (redis_expire k ttl) w = (inr tt, w') /\ counter k n until w' /\ only_key k w w'.
Proof.
  intros Hup Hnow Httl Hc. unfold redis_expire. rewrite run_command_up by done. unfold redis_entry.
  destruct Hc as [[Hk ->]|(e & Hk & He)]; rewrite Hk.
  - eexists. split; [done|]. split; [by left|]. by split.
  - assert (live (w_now w) (n, e) = true) as ->.
    { unfold live. simpl. destruct e as [t|]; [|done]. apply Z.ltb_lt. lia. }
    eexists. split; [done|]. split; [|apply only_key_put]. right. eexists. simpl. by rewrite lookup_insert_eq.
Qed.

Lemma run_redis_incr k n until ttl w :
  w_redis w = RedisUp -> w_now w < until -> until <= w_now w + ttl * 1000 -> counter k n until w ->
  exists w', run (redis_incr k ttl) w = (inr (n + 1), w') /\ counter k (n + 1) until w' /\ only_key k w w'.
Proof.
  intros Hup Hnow Httl Hc. unfold redis_incr. rewrite (run_bind_ok _ _ w true w) by (rewrite run_isAvailable, Hup; done).
  simpl negb. cbv iota. destruct (run_redis_add k n until 1 w Hup Hnow Hc) as (w1 & H1 & Hc1 & Ho1).
  rewrite (run_bind_ok _ _ _ _ _ H1). destruct (n + 1 =? 1); [|by exists w1].
  destruct Ho1 as (Hr & Hn & Hk). destruct (run_redis_expire k (n + 1) until ttl w1) as (w2 & H2 & Hc2 & Ho2);
    [by rewrite Hr|by rewrite Hn|by rewrite Hn|done|].
  rewrite (run_bind_ok _ _ _ _ _ H2). exists w2. split; [done|]. split; [done|]. by apply (only_key_trans _ _ w1).
Qed.

(** The windows of a key at the present moment. *)
Definition windows_at (key : string) (w : World) (s : Windows) : Prop :=
  w_redis w = RedisUp /\
  counter (window_key "m" key (w_now w / 1000 / 60)) (minute_used s) ((w_now w / 1000 / 60 + 1) * 60000) w /\
  counter (window_key "h" key (w_now w / 1000 / 3600)) (hour_used s) ((w_now w / 1000 / 3600 + 1) * 3600000) w.

(** C28. One request at a time, the Redis limiter is the abstract counter: a request is
    let through exactly when both windows have room, it is then counted once in each,
    and a refused request leaves both counters as they were. *)
Theorem check_refines_counter {E : Env} key lm lh w s :
  windows_at key w s ->
  exists r w', run (check key lm lh) w = (inr r, w') /\
    allowed r = (spec_check lm lh s).1 /\ windows_at key w' (spec_check lm lh s).2 /\
    w_now w' = w_now w.
Proof.
  intros (Hup & Hm & Hh). set (t := w_now w) in *.
  assert (Ht : t < (t / 1000 / 60 + 1) * 60000 <= t + 120 * 1000 /\
               t < (t / 1000 / 3600 + 1) * 3600000 <= t + 7200 * 1000).
  { rewrite !Z.div_div by lia. change (1000 * 60) with 60000. change (1000 * 3600) with 3600000.
    pose proof (Z.div_mod t 60000 ltac:(lia)). pose proof (Z.mod_pos_bound t 60000 ltac:(lia)).
    pose proof (Z.div_mod t 3600000 ltac:(lia)). pose proof (Z.mod_pos_bound t 3600000 ltac:(lia)). lia. }
  destruct Ht as [[Ht1 Ht2] [Ht3 Ht4]].
  assert (Hne : forall a b, window_key "m" key a <> window_key "h" key b) by done.
  unfold check. rewrite (run_bind_ok _ _ w true w) by (rewrite run_isAvailable, Hup; done). cbv iota.
  rewrite run_catch. unfold checkWithRedis. rewrite (run_bind_ok date_now _ w t w eq_refl). cbv zeta.
  set (mk := window_key "m" key (t / 1000 / 60)) in *. set (hk := window_key "h" key (t / 1000 / 3600)) in *.
  assert (Hmh : mk <> hk) by apply Hne. assert (Hhm : hk <> mk) by (intros E1; by apply Hmh).
  destruct (run_redis_incr mk _ _ 120 w Hup Ht1 Ht2 Hm) as (w1 & R1 & M1 & O1).
  rewrite (run_bind_ok _ _ _ _ _ R1). pose proof (counter_other _ _ _ _ _ _ Hhm O1 Hh) as H1.
  destruct O1 as (U1 & N1 & K1).
  destruct (run_redis_incr hk _ _ 7200 w1 ltac:(congruence) ltac:(rewrite N1; exact Ht3) ltac:(rewrite N1; exact Ht4) H1)
    as (w2 & R2 & H2 & O2).
  rewrite (run_bind_ok _ _ _ _ _ R2). pose proof (counter_other _ _ _ _ _ _ Hmh O2 M1) as M2.
  destruct O2 as (U2 & N2 & K2). unfold spec_check.
  assert (Hcond : (lm <? minute_used s + 1) || (lh <? hour_used s + 1) =
                  negb ((minute_used s <? lm) && (hour_used s <? lh))).
  { destruct (Z.ltb_spec lm (minute_used s + 1)), (Z.ltb_spec (minute_used s) lm),
      (Z.ltb_spec lh (hour_used s + 1)), (Z.ltb_spec (hour_used s) lh); try done; lia. }
  rewrite Hcond. destruct ((minute_used s <? lm) && (hour_used s <? lh)) eqn:Hroom; cbn [negb].
  - apply orb_false_iff in Hcond as [C1 C2].
    rewrite (run_bind_ok (Ret tt) _ w2 tt w2 eq_refl), C1, C2. do 2 eexists. split; [done|]. split; [done|].
    assert (Hn : w_now w2 = t) by (unfold t; congruence). split; [|exact Hn]. unfold windows_at. rewrite Hn. split; [congruence|]. by split.
  - destruct (run_redis_add mk _ _ (-1) w2 ltac:(congruence) ltac:(rewrite N2, N1; exact Ht1) M2) as (w3 & R3 & M3 & O3).
    pose proof (counter_other _ _ _ _ _ _ Hhm O3 H2) as H3. destruct O3 as (U3 & N3 & K3).
    destruct (run_redis_add hk _ _ (-1) w3 ltac:(congruence) ltac:(rewrite N3, N2, N1; exact Ht3) H3) as (w4 & R4 & H4 & O4).
    pose proof (counter_other _ _ _ _ _ _ Hmh O4 M3) as M4. destruct O4 as (U4 & N4 & K4).
    assert (Hn : w_now w4 = t) by (unfold t; congruence).
    rewrite (run_bind_ok _ _ w2 tt w4).
    2: { rewrite run_bind, run_swallow. unfold redis_decr. rewrite R3. cbn [snd]. by rewrite run_swallow, R4. }
    assert (Hfin : windows_at key w4 s).
    { unfold windows_at. rewrite Hn. split; [congruence|].
      replace (minute_used s) with (minute_used s + 1 + -1) by lia.
      replace (hour_used s) with (hour_used s + 1 + -1) by lia. by split. }
    destruct (lm <? minute_used s + 1); [by do 2 eexists|].
    destruct (lh <? hour_used s + 1); [by do 2 eexists|]. done.
Qed.

Example check_refines_counter_witness :
  windows_at "client:r:app" redis_world (mkWindows 0 0) /\
  exists r w', run (check (E:=test_env) "client:r:app" 2 100) redis_world = (inr r, w') /\
    allowed r = true /\ windows_at "client:r:app" w' (mkWindows 1 1).
Proof.
  assert (Hw : windows_at "client:r:app" redis_world (mkWindows 0 0)).
  { split; [reflexivity|]. split; left; split; reflexivity. }
  split; [exact Hw|].
  destruct (check_refines_counter (E:=test_env) "client:r:app" 2 100 redis_world _ Hw) as (r & w' & H1 & H2 & H3 & _).
  exists r, w'. split; [exact H1|]. split; [exact H2 | exact H3].
Defined.
