(* ===== verification/Authorization.v ===== *)
(** * Authorization: a realm's policies and their evaluation
      (src/src/authorization/authorization.service.ts)

    The policies of a realm are read through a Redis entry of sixty seconds that every
    write removes; the entry holds the rows themselves (the code stores their JSON). *)

From S2P Require Import Prelude Prog Json Schema PolicyEngine Store StoreFacts Redis Testbed.

Record CreatePolicyDto := mkCreatePolicyDto {
  cpd_name : string; cpd_description : option string; cpd_enabled : option bool; cpd_effect : option string;
  cpd_priority : option Z; cpd_logic : option string; cpd_clientId : option string;
  cpd_subject : RawConditions; cpd_resource : RawConditions; cpd_action : RawConditions;
  cpd_environment : RawConditions
}.
Record UpdatePolicyDto := mkUpdatePolicyDto {
  upd_name : option string; upd_description : option string; upd_enabled : option bool;
  upd_effect : option string; upd_priority : option Z; upd_logic : option string; upd_clientId : option string;
  upd_subject : option RawConditions; upd_resource : option RawConditions; upd_action : option RawConditions;
  upd_environment : option RawConditions
}.

Definition POLICY_CACHE_TTL : Z := 60.

Section Service.
Context {E : Env} (regex_test : string -> string -> option bool).

(** ** The cache entry *)

Definition policy_entry (realmId : string) (w : World) : option (list Policy) :=
  match w_policy_cache w !! realmId with
  | Some (ps, expires) => if w_now w <? expires then Some ps else None
  | None => None
  end.

(** [getCachedRealmConfig]: null without Redis, and a metric for every look-up. *)
Definition get_cached (realmId : string) : M (option (list Policy)) :=
  (available <- isAvailable ;;
   if negb available then Ret None else
   raw <- command None (fun w => (inr (policy_entry realmId w), w)) ;;
   inc_metric "cacheOperationsTotal"
     [("operation", match raw with Some _ => "hit" | None => "miss" end); ("cache", "realm_config")] ;;;
   Ret raw)%prog.

Definition cache_policies (realmId : string) (ps : list Policy) : M unit :=
  command tt (fun w =>
    (inr tt, with_policy_cache (<[realmId := (ps, w_now w + POLICY_CACHE_TTL * 1000)]> (w_policy_cache w)) w)).

Definition invalidatePolicyCache (realmId : string) : M unit :=
  command tt (fun w => (inr tt, with_policy_cache (delete realmId (w_policy_cache w)) w)).

(** [findMany] by priority descending, then age. *)
Definition realm_policies (realmId : string) (w : World) : list Policy :=
  sort_by (fun p => - p_priority p)
    (sort_by p_createdAt (List.filter (fun p => p_realmId p === realmId) (rows TPolicy w))).

Definition findAllPolicies (realm : Realm) : M (list Policy) := query (realm_policies (realm_id realm)).

Definition getCachedPolicies (realmId : string) : M (list Policy) :=
  (cached <- get_cached realmId ;;
   match cached with
   | Some ps => Ret ps
   | None =>
       policies <- query (realm_policies realmId) ;;
       cache_policies realmId policies ;;;
       Ret policies
   end)%prog.

(** ** Administration *)

Definition createPolicy (realm : Realm) (dto : CreatePolicyDto) : M Policy :=
  (existing <- find_first TPolicy (fun p => (p_realmId p === realm_id realm) && (p_name p === cpd_name dto)) ;;
   match existing with
   | Some _ => Throw (Conflict "Policy already exists in this realm")
   | None =>
       policy <- create TPolicy (fun id createdAt =>
         mkPolicy id (realm_id realm) (cpd_name dto) (cpd_description dto) (cpd_enabled dto ?? true)
           (cpd_effect dto ?? "ALLOW") (cpd_priority dto ?? 0) (cpd_logic dto ?? "AND") (cpd_clientId dto)
           (cpd_subject dto) (cpd_resource dto) (cpd_action dto) (cpd_environment dto) createdAt) ;;
       invalidatePolicyCache (realm_id realm) ;;;
       Ret policy
   end)%prog.

Definition findPolicyById (realm : Realm) (id : string) : M Policy :=
  (policy <- find_first TPolicy (fun p => (p_id p === id) && (p_realmId p === realm_id realm)) ;;
   match policy with
   | Some p => Ret p
   | None => Throw (NotFound "Policy not found")
   end)%prog.

Definition apply_policy_dto (dto : UpdatePolicyDto) (p : Policy) : Policy :=
  mkPolicy (p_id p) (p_realmId p) (upd_name dto ?? p_name p) (keep (upd_description dto) (p_description p))
    (upd_enabled dto ?? p_enabled p) (upd_effect dto ?? p_effect p) (upd_priority dto ?? p_priority p)
    (upd_logic dto ?? p_logic p) (keep (upd_clientId dto) (p_clientId p)) (upd_subject dto ?? p_subject p)
    (upd_resource dto ?? p_resource p) (upd_action dto ?? p_action p)
    (upd_environment dto ?? p_environment p) (p_createdAt p).

Definition updatePolicy (realm : Realm) (id : string) (dto : UpdatePolicyDto) : M Policy :=
  (findPolicyById realm id ;;;
   updated <- update TPolicy (fun p => p_id p === id) (apply_policy_dto dto) ;;
   invalidatePolicyCache (realm_id realm) ;;;
   Ret updated)%prog.

Definition deletePolicy (realm : Realm) (id : string) : M unit :=
  (findPolicyById realm id ;;;
   delete_one TPolicy (fun p => p_id p === id) ;;;
   invalidatePolicyCache (realm_id realm))%prog.

(** ** Evaluation *)

(** With a client, the policies of other clients do not apply. *)
Definition in_client_scope (clientId : option string) (p : Policy) : bool :=
  negb (truthy clientId) || is_none (p_clientId p) || bool_decide (p_clientId p = clientId).

Definition evaluate (realm : Realm) (dto : PolicyEvaluationRequest) : M PolicyEvaluationResult :=
  (policies <- getCachedPolicies (realm_id realm) ;;
   Ret (evaluatePolicies regex_test (List.filter (in_client_scope (req_clientId dto)) policies) dto))%prog.

Definition testPolicy (realm : Realm) (id : string) (dto : PolicyEvaluationRequest) : M PolicyMatchDetail :=
  (policy <- findPolicyById realm id ;;
   Ret (evaluatePolicy regex_test policy dto))%prog.

(** ** The cache follows the table *)

(** An entry that has not expired holds the realm's rows. *)
Definition coherent (realmId : string) (w : World) : Prop :=
  forall ps, policy_entry realmId w = Some ps -> ps = realm_policies realmId w.

Lemma run_command_inr {B} (u : B) f w b w' :
  run (command u f) w = (inr b, w') ->
  (w_redis w = RedisDown /\ b = u /\ w' = w) \/ (w_redis w = RedisUp /\ f w = (inr b, w')).
Proof.
  unfold command. simpl. destruct (w_redis w); simpl; [intros [= <- <-]; by left| |done].
  destruct (f w) as [[e|b'] w1]; simpl; [done|]. intros [= <- <-]. by right.
Qed.

Lemma run_get_cached_inr realmId w o w' :
  run (get_cached realmId) w = (inr o, w') ->
  w_tables w' = w_tables w /\ w_now w' = w_now w /\ w_policy_cache w' = w_policy_cache w /\
  (o = None \/ o = policy_entry realmId w).
Proof.
  unfold get_cached. intros Hr. apply run_bind_inr in Hr as (av & w1 & [-> ->]%run_atom_inr & Hr). simpl in Hr.
  destruct (match w_redis w with RedisDown => false | _ => true end); [|injection Hr as <- <-; by repeat split; left].
  simpl negb in Hr. cbv iota in Hr. apply run_bind_inr in Hr as (raw & w1 & Hc & Hr).
  simpl in Hr. injection Hr as <- <-. simpl.
  apply run_command_inr in Hc as [(_ & -> & ->)|(_ & [= <- <-])]; repeat split; auto.
Qed.

Lemma policy_entry_insert realmId ps w :
  policy_entry realmId (with_policy_cache (<[realmId := (ps, w_now w + 60 * 1000)]> (w_policy_cache w)) w) = Some ps.
Proof. unfold policy_entry. simpl. rewrite lookup_insert_eq. by rewrite (proj2 (Z.ltb_lt _ _)) by lia. Qed.

Lemma run_getCachedPolicies_inr realmId w ps w' :
  coherent realmId w -> run (getCachedPolicies realmId) w = (inr ps, w') ->
  ps = realm_policies realmId w /\ w_tables w' = w_tables w /\ coherent realmId w'.
Proof.
  unfold getCachedPolicies. intros Hco Hr. apply run_bind_inr in Hr as (o & w1 & Hg & Hr).
  apply run_get_cached_inr in Hg as (Ht & Hn & Hp & Ho).
  assert (Hentry : policy_entry realmId w1 = policy_entry realmId w) by (unfold policy_entry; by rewrite Hp, Hn).
  assert (Hrows : realm_policies realmId w1 = realm_policies realmId w) by (unfold realm_policies, rows; by rewrite Ht).
  assert (Hco1 : coherent realmId w1) by (intros qs; rewrite Hentry, Hrows; apply Hco).
  destruct o as [qs|].
  - injection Hr as <- <-. destruct Ho as [|Ho]; [done|]. split; [by apply Hco|]. by split.
  - apply run_bind_inr in Hr as (policies & w2 & Hq & Hr). run_stmt_inv Hq. subst policies.
    apply run_bind_inr in Hr as (x & w2 & Hc & Hr). injection Hr as <- <-. split; [done|].
    apply run_command_inr in Hc as [(_ & _ & ->)|(_ & [= _ <-])]; [by split|]. split; [done|].
    intros qs. change (POLICY_CACHE_TTL * 1000) with (60 * 1000). rewrite policy_entry_insert. intros [= <-]. done.
Qed.

(** A write through the service leaves no entry behind. *)
Lemma run_invalidate_inr realmId w x w' :
  w_redis w = RedisUp -> run (invalidatePolicyCache realmId) w = (inr x, w') -> coherent realmId w'.
Proof.
  intros Hup Hr. apply run_command_inr in Hr as [(Hd & _)|(_ & [= _ <-])]; [congruence|].
  intros ps. unfold policy_entry. simpl. by rewrite lookup_delete_eq.
Qed.

Lemma run_findPolicyById_inr realm id w p w' :
  run (findPolicyById realm id) w = (inr p, w') ->
  w' = w /\ p ∈ rows TPolicy w /\ p_id p = id /\ p_realmId p = realm_id realm.
Proof.
  unfold findPolicyById. intros Hr. apply run_bind_inr in Hr as (o & w1 & Hf & Hr). run_stmt_inv Hf.
  destruct o as [q|]; [|done]. injection Hr as <- <-. symmetry in Hf.
  apply find_elem in Hf as [Hin [Hi%bool_decide_eq_true Hre%bool_decide_eq_true]%andb_true_iff]. done.
Qed.

(** Every write that succeeds while Redis answers leaves the cache coherent. *)
Lemma policy_writes_coherent realm w w' :
  w_redis w = RedisUp ->
  ((exists dto p, run (createPolicy realm dto) w = (inr p, w')) \/
   (exists id dto p, run (updatePolicy realm id dto) w = (inr p, w')) \/
   (exists id, run (deletePolicy realm id) w = (inr tt, w'))) ->
  coherent (realm_id realm) w'.
Proof.
  intros Hup [(dto & p & Hr)|[(id & dto & p & Hr)|(id & Hr)]].
  - unfold createPolicy in Hr. apply run_bind_inr in Hr as (o & w1 & Hf & Hr). run_stmt_inv Hf.
    destruct o; [done|]. apply run_bind_inr in Hr as (q & w1 & Hc & Hr).
    apply run_create_inr in Hc as (_ & -> & _ & _). apply run_bind_inr in Hr as (x & w2 & Hi & Hr).
    injection Hr as _ <-. by apply run_invalidate_inr in Hi.
  - unfold updatePolicy in Hr. apply run_bind_inr in Hr as (q & w1 & [-> _]%run_findPolicyById_inr & Hr).
    apply run_bind_inr in Hr as (q' & w1 & Hu & Hr). apply run_update_inr in Hu as (r0 & _ & _ & -> & _).
    apply run_bind_inr in Hr as (x & w2 & Hi & Hr). injection Hr as _ <-. by apply run_invalidate_inr in Hi.
  - unfold deletePolicy in Hr. apply run_bind_inr in Hr as (q & w1 & [-> _]%run_findPolicyById_inr & Hr).
    apply run_bind_inr in Hr as (q' & w1 & Hd & Hr). apply run_delete_one_inr in Hd as (_ & -> & _).
    by apply run_invalidate_inr in Hr.
Qed.

(** The policies of the table that apply to a request. *)
Definition policies_for (realm : Realm) (dto : PolicyEvaluationRequest) (w : World) (p : Policy) : Prop :=
  p ∈ rows TPolicy w /\ p_realmId p = realm_id realm /\ in_client_scope (req_clientId dto) p = true.

Lemma some_match_scope effect realm dto w :
  some_match regex_test effect
    (List.filter (in_client_scope (req_clientId dto)) (realm_policies (realm_id realm) w)) dto <->
  exists p, policies_for realm dto w p /\ p_enabled p = true /\ effect_of p = effect /\
    policy_matches regex_test p dto.
Proof.
  unfold some_match, policies_for, realm_policies. split.
  - intros (p & Hin & H). apply elem_of_filter_list in Hin as [Hs Hin].
    rewrite !elem_of_sort_by in Hin. apply elem_of_filter_list in Hin as [Hp%bool_decide_eq_true Hin]. by exists p.
  - intros (p & (Hin & Hp & Hs) & H). exists p. split; [|done].
    apply elem_of_filter_list. split; [done|]. rewrite !elem_of_sort_by. apply elem_of_filter_list.
    split; [by apply bool_decide_eq_true|done].
Qed.
End Service.

(** What the evaluation endpoint answers: while the cached entry is coherent (every
    write of the service, with Redis up, leaves it so), access is granted exactly when
    some enabled policy stored for the realm and for the request's client allows it and
    none denies it, and the entry stays coherent. *)
Theorem evaluate_current regex_test realm dto w result w' :
  coherent (realm_id realm) w -> run (evaluate regex_test realm dto) w = (inr result, w') ->
  (er_decision result = ALLOW <->
     (exists p, policies_for realm dto w p /\ p_enabled p = true /\ effect_of p = ALLOW /\
        policy_matches regex_test p dto) /\
     ~ (exists p, policies_for realm dto w p /\ p_enabled p = true /\ effect_of p = DENY /\
          policy_matches regex_test p dto)) /\
  coherent (realm_id realm) w'.
Proof.
  unfold evaluate. intros Hco Hr. apply run_bind_inr in Hr as (ps & w1 & Hg & Hr).
  apply run_getCachedPolicies_inr in Hg as (-> & _ & Hco'); [|done]. injection Hr as <- <-.
  split; [|done]. rewrite evaluatePolicies_spec, !some_match_scope. done.
Qed.

(** ** Witness and the race *)

Definition no_regex (pattern s : string) : option bool := None.
Definition reader : PolicyEvaluationRequest := mkPolicyRequest [] [] "read" None None.
Definition allow_read : Policy :=
  mkPolicy "p-1" "realm-1" "readers" None true "ALLOW" 0 "AND" None NoConditions NoConditions
    (ConditionList [mkCondition "action" "equals" (Some (JStr "read"))]) NoConditions 0.
Definition policy_world : World :=
  mkWorld (set_table TPolicy [allow_read] no_tables) 1000000000 0 0 true RedisUp ∅ ∅ ∅ [] ∅ ∅ ∅ ∅ ∅ [] [].

Example evaluate_current_witness :
  exists result w', run (evaluate no_regex realm0 reader) policy_world = (inr result, w') /\
    er_decision result = ALLOW /\ coherent "realm-1" w'.
Proof.
  destruct (ends_ok_run (evaluate no_regex realm0 reader) policy_world) as (result & w' & H);
    [vm_compute; reflexivity|].
  destruct (evaluate_current no_regex realm0 reader policy_world result w'
              ltac:(intros ps Hps; vm_compute in Hps; discriminate Hps) H) as [_ Hco].
  exists result, w'. split; [exact H|]. split; [|exact Hco].
  assert (Hd : match (run (evaluate no_regex realm0 reader) policy_world).1 with
               | inr r => er_decision r = ALLOW | inl _ => False end) by (vm_compute; reflexivity).
  rewrite H in Hd. exact Hd.
Defined.

(** An evaluation that reads the policies before an update and caches them after it
    leaves the old policies in force for the rest of the minute: the disabled policy
    still grants. *)
Theorem stale_policy_race :
  let disable := mkUpdatePolicyDto None None (Some false) None None None None None None None None in
  let requests := [bind (evaluate no_regex realm0 reader) (fun _ => Ret tt);
                   bind (updatePolicy realm0 "p-1" disable) (fun _ => Ret tt)] in
  let w := (schedule [0; 0; 0; 0; 1; 1; 1; 0]%nat (policy_world, requests)).1 in
  map p_enabled (rows TPolicy w) = [false] /\
  match (run (evaluate no_regex realm0 reader) w).1 with
  | inr r => er_decision r = ALLOW
  | inl _ => False
  end.
Proof. vm_compute. done. Qed.
