(* ===== verification/ServiceAccounts.v ===== *)
(** * ServiceAccounts: API keys of service accounts
      (src/src/service-accounts/service-accounts.service.ts, api-key.guard.ts)

    The administration of service accounts and keys, the validation of a key and the
    guard that authenticates a request with one.  The guard's response headers are not
    modelled; a 429 is [TooMany].  The client address comes from [Cidr.resolveClientIp].
    The random part of a sorted-set member only keeps members apart: a set is the list
    of its scores. *)

From S2P Require Import Prelude Prog JsText Json Schema Store StoreFacts Cidr Redis Crypto Testbed.

Record CreateServiceAccountDto := mkCreateSaDto {
  csa_name : string; csa_description : option string; csa_enabled : option bool
}.
Record UpdateServiceAccountDto := mkUpdateSaDto {
  usa_name : option string; usa_description : option string; usa_enabled : option bool
}.
Record CreateApiKeyDto := mkCreateApiKeyDto {
  cak_name : option string; cak_scopes : option (list string); cak_expiresAt : option Z;
  cak_maxRequestsPerDay : option Z; cak_maxRequestsPerMonth : option Z; cak_rateLimitPerMinute : option Z;
  cak_requireIpRestriction : option bool; cak_allowedIpRanges : option (list string)
}.

Definition ROTATION_GRACE_SECONDS : Z := 3600.

(** ** The UTC date of an instant, as [toISOString().split('T')[0]] *)

Definition civil_date (days : Z) : Z * Z * Z :=
  let z := days + 719468 in
  let era := z / 146097 in
  let doe := z - era * 146097 in
  let yoe := (doe - doe / 1460 + doe / 36524 - doe / 146096) / 365 in
  let doy := doe - (365 * yoe + yoe / 4 - yoe / 100) in
  let mp := (5 * doy + 2) / 153 in
  let m := if mp <? 10 then mp + 3 else mp - 9 in
  ((if m <=? 2 then yoe + era * 400 + 1 else yoe + era * 400), m, doy - (153 * mp + 2) / 5 + 1).

Definition pad2 (n : Z) : string := if n <? 10 then "0" +:+ to_base 10 n else to_base 10 n.
Definition iso_date (ms : Z) : string :=
  let '(y, m, d) := civil_date (ms / 86400000) in to_base 10 y +:+ "-" +:+ pad2 m +:+ "-" +:+ pad2 d.

(** [new Date(ms).toISOString()]. *)
Definition pad3 (n : Z) : string := if n <? 100 then "0" +:+ pad2 n else to_base 10 n.
Definition to_iso (ms : Z) : string :=
  let s := ms / 1000 in
  iso_date ms +:+ "T" +:+ pad2 (s / 3600 mod 24) +:+ ":" +:+ pad2 (s / 60 mod 60) +:+ ":" +:+ pad2 (s mod 60) +:+
    "." +:+ pad3 (ms mod 1000) +:+ "Z".

Example iso_text : to_iso 1735689599007 = "2024-12-31T23:59:59.007Z".
Proof. vm_compute. reflexivity. Qed.

Example iso_dates : map iso_date [0; 951782400000; 1735689599999] = ["1970-01-01"; "2000-02-29"; "2024-12-31"].
Proof. vm_compute. reflexivity. Qed.

Section Service.
Context {E : Env}.

(** ** Service accounts *)

Definition sa_named (realm : Realm) (name : string) (s : ServiceAccount) : bool :=
  (sa_realmId s === realm_id realm) && (sa_name s === name).

Definition create (realm : Realm) (dto : CreateServiceAccountDto) : M ServiceAccount :=
  (existing <- find_first TServiceAccount (sa_named realm (csa_name dto)) ;;
   match existing with
   | Some _ => Throw (Conflict "Service account already exists")
   | None =>
       Store.create TServiceAccount (fun id createdAt =>
         mkServiceAccount id (realm_id realm) (csa_name dto) (csa_description dto) (csa_enabled dto ?? true) createdAt)
   end)%prog.

Definition findAll (realm : Realm) : M (list ServiceAccount) :=
  find_many_asc TServiceAccount (fun s => sa_realmId s === realm_id realm) sa_createdAt.

Definition findById (realm : Realm) (id : string) : M ServiceAccount :=
  (sa <- find_first TServiceAccount (fun s => (sa_id s === id) && (sa_realmId s === realm_id realm)) ;;
   match sa with
   | Some sa => Ret sa
   | None => Throw (NotFound "Service account not found")
   end)%prog.

Definition apply_sa_dto (dto : UpdateServiceAccountDto) (s : ServiceAccount) : ServiceAccount :=
  mkServiceAccount (sa_id s) (sa_realmId s) (usa_name dto ?? sa_name s)
    (match usa_description dto with Some d => Some d | None => sa_description s end)
    (usa_enabled dto ?? sa_enabled s) (sa_createdAt s).

Definition update (realm : Realm) (id : string) (dto : UpdateServiceAccountDto) : M ServiceAccount :=
  (findById realm id ;;;
   conflict <- (if truthy (usa_name dto)
                then find_first TServiceAccount (sa_named realm (usa_name dto ?? EmptyString)) else Ret None) ;;
   match conflict with
   | Some c =>
       if sa_id c !== id then Throw (Conflict "Service account name already taken")
       else update_checked TServiceAccount (fun s => sa_id s === id) (apply_sa_dto dto)
   | None => update_checked TServiceAccount (fun s => sa_id s === id) (apply_sa_dto dto)
   end)%prog.

Definition remove (realm : Realm) (id : string) : M unit :=
  (findById realm id ;;;
   delete_one TServiceAccount (fun s => sa_id s === id) ;;;
   Ret tt)%prog.

(** ** Keys *)

(** The stored key and the key itself, which is shown once. *)
Definition createApiKey (realm : Realm) (serviceAccountId : string) (dto : CreateApiKeyDto) : M (ApiKey * string) :=
  (findById realm serviceAccountId ;;;
   rawKey <- generateSecret 32 ;;
   let keyPrefix := str_take 8 rawKey in
   keyHash <- hashPassword rawKey ;;
   apiKey <- Store.create TApiKey (fun id createdAt =>
     mkApiKey id serviceAccountId keyPrefix keyHash (cak_name dto) (cak_scopes dto ?? []) (cak_expiresAt dto) None 0
       false None (cak_rateLimitPerMinute dto) (cak_maxRequestsPerDay dto) (cak_maxRequestsPerMonth dto)
       (cak_requireIpRestriction dto ?? false) (cak_allowedIpRanges dto ?? []) createdAt) ;;
   Ret (apiKey, rawKey))%prog.

Definition listApiKeys (realm : Realm) (serviceAccountId : string) : M (list ApiKey) :=
  (findById realm serviceAccountId ;;;
   find_many_asc TApiKey (fun k => ak_serviceAccountId k === serviceAccountId) ak_createdAt)%prog.

Definition find_key (serviceAccountId apiKeyId : string) : M ApiKey :=
  (key <- find_first TApiKey (fun k => (ak_id k === apiKeyId) && (ak_serviceAccountId k === serviceAccountId)) ;;
   match key with
   | Some k => Ret k
   | None => Throw (NotFound "API key not found")
   end)%prog.

Definition set_key_revoked (at_ : Z) (k : ApiKey) : ApiKey :=
  mkApiKey (ak_id k) (ak_serviceAccountId k) (ak_keyPrefix k) (ak_keyHash k) (ak_name k) (ak_scopes k)
    (ak_expiresAt k) (ak_lastUsedAt k) (ak_requestCount k) true (Some at_) (ak_rateLimitPerMinute k)
    (ak_maxRequestsPerDay k) (ak_maxRequestsPerMonth k) (ak_requireIpRestriction k) (ak_allowedIpRanges k)
    (ak_createdAt k).
Definition set_key_expiry (at_ : Z) (k : ApiKey) : ApiKey :=
  mkApiKey (ak_id k) (ak_serviceAccountId k) (ak_keyPrefix k) (ak_keyHash k) (ak_name k) (ak_scopes k)
    (Some at_) (ak_lastUsedAt k) (ak_requestCount k) (ak_revoked k) (ak_revokedAt k) (ak_rateLimitPerMinute k)
    (ak_maxRequestsPerDay k) (ak_maxRequestsPerMonth k) (ak_requireIpRestriction k) (ak_allowedIpRanges k)
    (ak_createdAt k).
Definition set_key_used (at_ : Z) (k : ApiKey) : ApiKey :=
  mkApiKey (ak_id k) (ak_serviceAccountId k) (ak_keyPrefix k) (ak_keyHash k) (ak_name k) (ak_scopes k)
    (ak_expiresAt k) (Some at_) (ak_requestCount k + 1) (ak_revoked k) (ak_revokedAt k) (ak_rateLimitPerMinute k)
    (ak_maxRequestsPerDay k) (ak_maxRequestsPerMonth k) (ak_requireIpRestriction k) (ak_allowedIpRanges k)
    (ak_createdAt k).

Definition revokeApiKey (realm : Realm) (serviceAccountId apiKeyId : string) : M string :=
  (findById realm serviceAccountId ;;;
   key <- find_key serviceAccountId apiKeyId ;;
   if ak_revoked key then Ret "API key is already revoked" else
   now <- date_now ;;
   Store.update TApiKey (fun k => ak_id k === apiKeyId) (set_key_revoked now) ;;;
   Ret "API key revoked successfully")%prog.

(** The new key, the new secret, and the end of the old key's grace period. *)
Definition rotateApiKey (realm : Realm) (serviceAccountId apiKeyId : string) : M (ApiKey * string * Z) :=
  (findById realm serviceAccountId ;;;
   oldKey <- find_key serviceAccountId apiKeyId ;;
   newRaw <- generateSecret 32 ;;
   let newPrefix := str_take 8 newRaw in
   newHash <- hashPassword newRaw ;;
   newKey <- Store.create TApiKey (fun id createdAt =>
     mkApiKey id serviceAccountId newPrefix newHash
       (if truthy (ak_name oldKey) then Some ((ak_name oldKey ?? EmptyString) +:+ " (rotated)") else None)
       (ak_scopes oldKey) (ak_expiresAt oldKey) None 0 false None None None None false [] createdAt) ;;
   now <- date_now ;;
   let graceExpiry := now + ROTATION_GRACE_SECONDS * 1000 in
   Store.update TApiKey (fun k => ak_id k === apiKeyId) (set_key_expiry graceExpiry) ;;;
   Ret (newKey, newRaw, graceExpiry))%prog.

(** ** Validation *)

(** The usage statistics are written without waiting, and failures are ignored. *)
Definition record_use (id : string) : M unit :=
  catch (now <- date_now ;;
         Store.update TApiKey (fun k => ak_id k === id) (set_key_used now) ;;; Ret tt)%prog
    (fun _ => Ret tt).

Fixpoint try_candidates (candidates : list (ApiKey * option ServiceAccount)) (plainKey : string) : M ApiKey :=
  match candidates with
  | [] => Throw (Unauthorized "Invalid or expired API key")
  | (candidate, serviceAccount) :: rest =>
      (now <- date_now ;;
       if match ak_expiresAt candidate with Some e => e <? now | None => false end
       then try_candidates rest plainKey
       else match serviceAccount with
            | None => Throw (PlainError "TypeError")
            | Some sa =>
                if negb (sa_enabled sa) then try_candidates rest plainKey else
                valid <- verifyPassword (ak_keyHash candidate) plainKey ;;
                if (valid : bool) then record_use (ak_id candidate) ;;; Ret candidate
                else try_candidates rest plainKey
            end)%prog
  end.

(** [findMany] with [include: { serviceAccount: true }]. *)
Definition key_candidates (keyPrefix : string) (w : World) : list (ApiKey * option ServiceAccount) :=
  map (fun k => (k, List.find (fun s => sa_id s === ak_serviceAccountId k) (rows TServiceAccount w)))
    (List.filter (fun k => (ak_keyPrefix k === keyPrefix) && negb (ak_revoked k)) (rows TApiKey w)).

Definition validateApiKey (keyPrefix plainKey : string) : M ApiKey :=
  (candidates <- query (key_candidates keyPrefix) ;;
   try_candidates candidates plainKey)%prog.

(** ** Quotas *)

Definition over (limit : option Z) (n : Z) : bool :=
  match limit with Some m => m <=? n | None => false end.

Definition checkQuotas (apiKey : ApiKey) : bool := over (ak_maxRequestsPerMonth apiKey) (ak_requestCount apiKey).

Definition zset (k : string) (w : World) : list Z * option Z :=
  match w_redis_zsets w !! k with
  | Some (scores, e) =>
      if match e with Some e => w_now w <? e | None => true end then (scores, e) else ([], None)
  | None => ([], None)
  end.
(** An empty sorted set does not exist. *)
Definition zset_put (k : string) (v : list Z * option Z) (w : World) : World :=
  with_redis_zsets (match v.1 with [] => delete k (w_redis_zsets w) | _ => <[k := v]> (w_redis_zsets w) end) w.

Definition zremrangebyscore (k : string) (lo hi : Z) : M unit :=
  command tt (fun w =>
    let '(scores, e) := zset k w in
    (inr tt, zset_put k (List.filter (fun s => negb ((lo <=? s) && (s <=? hi))) scores, e) w)).
Definition zcard (k : string) : M Z := command 0 (fun w => (inr (Z.of_nat (length (zset k w).1)), w)).
Definition zadd (k : string) (score : Z) : M unit :=
  command tt (fun w => let '(scores, e) := zset k w in (inr tt, zset_put k (scores ++ [score], e) w)).
Definition zexpire (k : string) (seconds : Z) : M unit :=
  command tt (fun w => (inr tt, zset_put k ((zset k w).1, Some (w_now w + seconds * 1000)) w)).

(** True when the limit is exceeded; without Redis, or when it fails, the request passes. *)
Definition checkRateLimit (apiKeyId : string) (rateLimitPerMinute : Z) : M bool :=
  (if rateLimitPerMinute <=? 0 then Ret false else
   available <- isAvailable ;;
   if negb available then Ret false else
   now <- date_now ;;
   let key := "ratelimit:apikey:" +:+ apiKeyId in
   catch (zremrangebyscore key 0 (now - 60 * 1000) ;;;
          requestCount <- zcard key ;;
          if rateLimitPerMinute <=? requestCount then Ret true else
          zadd key now ;;;
          zexpire key 61 ;;;
          Ret false)
     (fun _ => Ret false))%prog.

Definition checkAndIncrementDailyQuota (apiKeyId : string) (maxRequestsPerDay : Z) : M bool :=
  (if maxRequestsPerDay <=? 0 then Ret false else
   available <- isAvailable ;;
   if negb available then Ret false else
   now <- date_now ;;
   catch (currentCount <- redis_incr ("dailyquota:apikey:" +:+ apiKeyId +:+ ":" +:+ iso_date now) (25 * 60 * 60) ;;
          Ret (maxRequestsPerDay <? currentCount))
     (fun _ => Ret false))%prog.

Definition getUsageMetrics (realm : Realm) (serviceAccountId : string) : M (Z * option Z * list ApiKey) :=
  (findById realm serviceAccountId ;;;
   keys <- find_many_asc TApiKey (fun k => ak_serviceAccountId k === serviceAccountId) ak_createdAt ;;
   let totalRequests := foldl (fun sum k => sum + ak_requestCount k) 0 keys in
   Ret (totalRequests, head (sort_by Z.opp (omap ak_lastUsedAt keys)), keys))%prog.

(** ** The guard *)

Inductive Verdict := Accepted (apiKey : ApiKey) | TooMany (error : string).

(** [limit != null && limit > 0]. *)
Definition limited (limit : option Z) : bool := match limit with Some m => 0 <? m | None => false end.

Definition canActivate (header : option string) (clientIp : string) : M Verdict :=
  (let plainKey := header ?? EmptyString in
   if negb (truthy header) || (String.length plainKey <? 8)%nat
   then Throw (Unauthorized "Missing or malformed X-Api-Key header") else
   apiKey <- validateApiKey (str_take 8 plainKey) plainKey ;;
   if ak_requireIpRestriction apiKey && (0 <? Z.of_nat (length (ak_allowedIpRanges apiKey))) &&
      negb (existsb (ipMatchesRange clientIp) (ak_allowedIpRanges apiKey))
   then Throw (Forbidden "Access denied: client IP is not in allowed ranges") else
   rate <- (if limited (ak_rateLimitPerMinute apiKey)
            then checkRateLimit (ak_id apiKey) (ak_rateLimitPerMinute apiKey ?? 0) else Ret false) ;;
   if (rate : bool) then Ret (TooMany "Too Many Requests") else
   daily <- (if limited (ak_maxRequestsPerDay apiKey)
             then checkAndIncrementDailyQuota (ak_id apiKey) (ak_maxRequestsPerDay apiKey ?? 0) else Ret false) ;;
   if (daily : bool) then Ret (TooMany "Daily Quota Exceeded") else
   if limited (ak_maxRequestsPerMonth apiKey) && checkQuotas apiKey then Ret (TooMany "Monthly Quota Exceeded")
   else Ret (Accepted apiKey))%prog.

(** ** What an accepted request shows *)

(** The key opens the door at [now]. *)
Definition usable (w : World) (plainKey : string) (k : ApiKey) : Prop :=
  k ∈ rows TApiKey w /\ ak_keyPrefix k = str_take 8 plainKey /\ ak_revoked k = false /\
  argon2_verify (ak_keyHash k) plainKey = Some true /\
  (forall e, ak_expiresAt k = Some e -> w_now w <= e) /\
  exists s, s ∈ rows TServiceAccount w /\ sa_id s = ak_serviceAccountId k /\ sa_enabled s = true.

Lemma run_try_candidates_inr candidates plainKey w k w' :
  run (try_candidates candidates plainKey) w = (inr k, w') ->
  exists sa, (k, Some sa) ∈ candidates /\ (forall e, ak_expiresAt k = Some e -> w_now w <= e) /\
    sa_enabled sa = true /\ argon2_verify (ak_keyHash k) plainKey = Some true.
Proof.
  induction candidates as [|[c s] rest IH]; cbn [try_candidates]; intros Hr; [done|].
  assert (Hrest : run (try_candidates rest plainKey) w = (inr k, w') ->
    exists sa, (k, Some sa) ∈ (c, s) :: rest /\ (forall e, ak_expiresAt k = Some e -> w_now w <= e) /\
      sa_enabled sa = true /\ argon2_verify (ak_keyHash k) plainKey = Some true).
  { intros (sa & Hin & H)%IH. exists sa. split; [set_solver|done]. }
  apply run_bind_inr in Hr as (now & w1 & [-> ->]%run_atom_inr & Hr). cbn [fst snd] in Hr.
  destruct (match ak_expiresAt c with Some e => e <? w_now w | None => false end) eqn:Hexp; [by apply Hrest|].
  destruct s as [s|]; [|done]. destruct (sa_enabled s) eqn:Hen; simpl negb in Hr; cbv iota in Hr; [|by apply Hrest].
  apply run_bind_inr in Hr as (v & w1 & [-> Hv]%run_verifyPassword_inr & Hr).
  destruct v; [|by apply Hrest]. apply run_bind_inr in Hr as (u & w2 & _ & Hr). injection Hr as -> _.
  exists s. split; [set_solver|]. split; [|split; [done|by apply Hv]].
  intros e He. rewrite He in Hexp. by apply Z.ltb_ge.
Qed.

Lemma run_validateApiKey_inr plainKey w k w' :
  run (validateApiKey (str_take 8 plainKey) plainKey) w = (inr k, w') -> usable w plainKey k.
Proof.
  unfold validateApiKey. intros Hr. apply run_bind_inr in Hr as (cs & w1 & Hq & Hr). run_stmt_inv Hq. subst cs.
  apply run_try_candidates_inr in Hr as (sa & Hin & He & Hen & Hv). unfold key_candidates in Hin.
  apply list_elem_of_fmap in Hin as (k' & [= -> Hs] & Hin). symmetry in Hs. apply find_elem in Hs as [Hsa Hid%bool_decide_eq_true].
  apply elem_of_filter_list in Hin as [[Hp%bool_decide_eq_true Hr'%negb_true_iff]%andb_true_iff Hin].
  split_and!; try done. by exists sa.
Qed.
End Service.

(** A request gets through the API-key guard only with a key that is stored under the
    first eight characters of the header, fits its hash, is neither revoked nor expired
    and belongs to an enabled service account, from an address in the key's ranges when
    it restricts them to a non-empty list, and below the key's monthly quota. *)
Theorem canActivate_sound {E : Env} header clientIp w k w' :
  run (canActivate header clientIp) w = (inr (Accepted k), w') ->
  exists plainKey, header = Some plainKey /\ (8 <= String.length plainKey)%nat /\ usable w plainKey k /\
    (ak_requireIpRestriction k = true -> ak_allowedIpRanges k <> [] ->
       exists range, range ∈ ak_allowedIpRanges k /\ ipMatchesRange clientIp range = true) /\
    (forall m, ak_maxRequestsPerMonth k = Some m -> 0 < m -> ak_requestCount k < m).
Proof.
  unfold canActivate. cbv zeta. intros Hr. destruct (truthy header) eqn:Hh; [|done].
  apply truthy_true in Hh as (plainKey & -> & _). exists plainKey. split; [done|]. simpl default in Hr.
  destruct (Nat.ltb_spec (String.length plainKey) 8) as [|Hlen]; [done|]. split; [done|].
  simpl negb in Hr. simpl orb in Hr. cbv iota in Hr.
  apply run_bind_inr in Hr as (k' & w1 & Hv%run_validateApiKey_inr & Hr).
  destruct (ak_requireIpRestriction k' && _ && _) eqn:Hip; [done|].
  apply run_bind_inr in Hr as (rate & w2 & _ & Hr). destruct rate; [done|].
  apply run_bind_inr in Hr as (daily & w3 & _ & Hr). destruct daily; [done|].
  destruct (limited (ak_maxRequestsPerMonth k') && checkQuotas k') eqn:Hm; [done|]. injection Hr as -> _.
  split; [done|]. split.
  - intros Hreq Hne. rewrite Hreq, andb_true_l in Hip. apply andb_false_iff in Hip as [Hip|Hip].
    + apply Z.ltb_ge in Hip. by destruct (ak_allowedIpRanges k); [|simpl in Hip; lia].
    + apply negb_false_iff, existsb_exists in Hip as (range & Hin%list_elem_of_In & Hmatch). by exists range.
  - intros m Hlim Hpos. unfold limited, checkQuotas, over in Hm. rewrite Hlim in Hm.
    rewrite (proj2 (Z.ltb_lt _ _) Hpos), andb_true_l in Hm. by apply Z.leb_gt in Hm.
Qed.

(** ** Rotation *)

(** The comment promises a key with the same settings; the new key never carries over
    the IP allowlist, the quotas or the rate limit. *)
Theorem rotateApiKey_drops_limits {E : Env} realm sa id w k raw t w' :
  run (rotateApiKey realm sa id) w = (inr (k, raw, t), w') ->
  ak_requireIpRestriction k = false /\ ak_allowedIpRanges k = [] /\ ak_maxRequestsPerDay k = None /\
  ak_maxRequestsPerMonth k = None /\ ak_rateLimitPerMinute k = None.
Proof.
  unfold rotateApiKey. cbv zeta. intros Hr.
  apply run_bind_inr in Hr as (s & w1 & _ & Hr). apply run_bind_inr in Hr as (old & w2 & _ & Hr).
  apply run_bind_inr in Hr as (r & w3 & _ & Hr). apply run_bind_inr in Hr as (h & w4 & _ & Hr).
  apply run_bind_inr in Hr as (new & w5 & Hc & Hr). apply run_create_inr in Hc as (-> & _).
  apply run_bind_inr in Hr as (n & w6 & _ & Hr). apply run_bind_inr in Hr as (u & w7 & _ & Hr).
  injection Hr as <- _ _ _. done.
Qed.

Definition sa0 : ServiceAccount := mkServiceAccount "sa-1" "realm-1" "ci" None true 0.
Definition key_row (expiresAt : option Z) : ApiKey :=
  mkApiKey "key-1" "sa-1" "00000000" "argon:0000000011111111" (Some "ci") ["read:users"] expiresAt None 0 false None
    (Some 100) None (Some 1000) true ["10.0.0.0/8"] 0.
Definition key_world (expiresAt : option Z) : World :=
  with_rows TServiceAccount [sa0] (with_rows TApiKey [key_row expiresAt] world0).

(** A key that expired is refused, and works again for an hour after it is rotated. *)
Theorem rotation_revives_expired_key :
  let w := key_world (Some 999999999) in
  let w' := (run (rotateApiKey (E:=test_env) realm0 "sa-1" "key-1") w).2 in
  let opens w := match (run (canActivate (E:=test_env) (Some "0000000011111111") "10.1.2.3") w).1 with
                 | inr (Accepted _) => true
                 | _ => false
                 end in
  opens w = false /\ opens w' = true.
Proof. vm_compute. done. Qed.

Example canActivate_sound_witness :
  exists k w', run (canActivate (E:=test_env) (Some "0000000011111111") "10.1.2.3") (key_world None) =
                 (inr (Accepted k), w') /\ ak_requestCount k < 1000.
Proof.
  exists (key_row None), (run (canActivate (E:=test_env) (Some "0000000011111111") "10.1.2.3") (key_world None)).2.
  assert (H : run (canActivate (E:=test_env) (Some "0000000011111111") "10.1.2.3") (key_world None) =
    (inr (Accepted (key_row None)),
     (run (canActivate (E:=test_env) (Some "0000000011111111") "10.1.2.3") (key_world None)).2)).
  { assert (H1 : (run (canActivate (E:=test_env) (Some "0000000011111111") "10.1.2.3") (key_world None)).1 =
      inr (Accepted (key_row None))) by (vm_compute; reflexivity).
    rewrite <- H1. apply surjective_pairing. }
  split; [exact H|].
  destruct (canActivate_sound (E:=test_env) _ _ _ _ _ H) as (pk & _ & _ & _ & _ & Hm).
  apply (Hm 1000); [reflexivity|lia].
Defined.
