(* ===== verification/SmsOtp.v ===== *)
(** * SmsOtp: one-time codes by text message (src/src/sms/sms-otp.service.ts) *)

From stdpp Require Import pretty.
From S2P Require Import Prelude Prog Json Schema Store StoreFacts Crypto Testbed.

Definition SMS_OTP_MAX_ATTEMPTS : Z := 5.
Definition SMS_OTP_MAX_SENDS : Z := 5.
Definition SMS_OTP_RESEND_COOLDOWN_SECONDS : Z := 30.
Definition SMS_OTP_MAX_SENDS_PER_IP : Z := 10.
Definition DEFAULT_REALM_HOURLY_LIMIT : Z := 1000.
Definition OTP_ROW_RETENTION_MS : Z := 30 * 60 * 1000.
Definition SMS_ENROLLMENT_TTL_SECONDS : Z := 10 * 60.
Definition DELIVERY_LOG_RETENTION_DAYS : Z := 90.
Definition MIN_CODE_LENGTH : Z := 6.
Definition MAX_CODE_LENGTH : Z := 10.
Definition MIN_EXPIRY_SECONDS : Z := 60.
Definition MAX_EXPIRY_SECONDS : Z := 15 * 60.

(** ** Helpers *)

Definition is_digit (c : ascii) : bool := ((48 <=? N_of_ascii c) && (N_of_ascii c <=? 57))%N.

Fixpoint str_filter (f : ascii -> bool) (s : string) : string :=
  match s with
  | EmptyString => EmptyString
  | String c s' => if f c then String c (str_filter f s') else str_filter f s'
  end.

Definition all_digits (s : string) : bool := negb (str_existsb (fun c => negb (is_digit c)) s).

(** [/^\+[1-9]\d{7,14}$/.test(phone)]. *)
Definition E164 (phone : string) : bool :=
  match phone with
  | String plus (String d rest) =>
      (plus === "+"%char) && is_digit d && (d !== "0"%char) && all_digits rest &&
      (7 <=? String.length rest)%nat && (String.length rest <=? 14)%nat
  | _ => false
  end.

Definition normalizePhone (input : option string) : option string :=
  match input with
  | None => None
  | Some input =>
      let phone := str_filter (fun c => negb (is_space c || includes c ["("%char; ")"%char; "."%char; "-"%char]))
                     (js_trim input) in
      let phone := if starts_with "00" phone
                   then "+" +:+ String.substring 2 (String.length phone) phone else phone in
      if E164 phone then Some phone else None
  end.

Definition bullet : string := "•".
Fixpoint bullets (n : nat) : string :=
  match n with 0%nat => EmptyString | S n' => bullet +:+ bullets n' end.

Definition maskPhone (phone : string) : string :=
  let n := String.length phone in
  if (n <=? 7)%nat then bullets 4
  else String.substring 0 3 phone +:+ bullets (n - 7) +:+ String.substring (n - 4) 4 phone.

Definition canDeliver (realm : Realm) : bool :=
  (realm_smsProvider realm !== EmptyString) && (realm_smsProvider realm !== "none").

Definition canEnroll (realm : Realm) : bool := realm_smsMfaEnabled realm && canDeliver realm.

(** [clamp]: the fallback when the value is missing or 0. *)
Definition clamp (value : option Z) (min max fallback : Z) : Z :=
  match value with
  | None => fallback
  | Some v => if v =? 0 then fallback else Z.min max (Z.max min v)
  end.

(** Left-pad with zeros to [length] characters. *)
Fixpoint zeros (n : nat) : string :=
  match n with 0%nat => EmptyString | S n' => String "0" (zeros n') end.
Definition pad_start (length : nat) (s : string) : string :=
  zeros (length - String.length s) +:+ s.

(** [Number(s)] for a decimal integer; [None] is [NaN]. *)
Fixpoint digits_value (s : string) (acc : Z) : option Z :=
  match s with
  | EmptyString => Some acc
  | String c s' =>
      if is_digit c then digits_value s' (10 * acc + Z.of_N (N_of_ascii c - 48)) else None
  end.
Definition js_number (s : option string) : option Z :=
  match s with
  | None => None
  | Some s =>
      match js_trim s with
      | String "-" (String _ _ as s') => Z.opp <$> digits_value s' 0
      | s' => digits_value s' 0
      end
  end.

Record SendResult := mkSendResult {
  sr_maskedPhone : string; sr_expiresAt : Z; sr_resendAvailableAt : Z
}.

Inductive VerifyResult :=
| Verified (phone : string)
| Refused (reason : string) (remainingAttempts : option Z).

Definition is_verified (r : VerifyResult) : bool :=
  match r with Verified _ => true | Refused _ _ => false end.

Section Service.
Context {E : Env}.

Definition bindingHash (purpose binding : string) : string :=
  hmac_hex "sms-otp-binding" (purpose +:+ ":" +:+ binding).
Definition codeHash (bindingHash code : string) : string :=
  hmac_hex "sms-otp-code" (bindingHash +:+ ":" +:+ code).
Definition phoneHash (phone : string) : string := hmac_hex "sms-phone" phone.

Definition generateCode (len : Z) : M string :=
  (n <- random_below (10 ^ len) ;; Ret (pad_start (Z.to_nat len) (pretty n)))%prog.

(** ** Enrolled phone *)

Definition of_type (userId type : string) (c : UserCredential) : bool :=
  (cred_userId c === userId) && (cred_type c === type).

Definition getEnrolledPhone (userId : string) : M (option string) :=
  (credential <- find_first TUserCredential (of_type userId "sms") ;;
   Ret (match credential with
        | Some c =>
            if negb (cred_verified c) || negb (truthy (cred_phoneNumber c)) then None
            else match aes_decrypt (cred_phoneNumber c ?? EmptyString) with
                 | Some p => normalizePhone (Some p)
                 | None => None
                 end
        | None => None
        end))%prog.

Definition saveEnrolledPhone (userId phone : string) : M unit :=
  (phoneNumber <- encrypt phone ;;
   upsert TUserCredential (of_type userId "sms")
     (fun id _ => mkUserCredential id userId "sms" EmptyString (Some phoneNumber) "SHA1" 6 30 true)
     (fun c => mkUserCredential (cred_id c) (cred_userId c) (cred_type c) (cred_secretKey c)
        (Some phoneNumber) (cred_algorithm c) (cred_digits c) (cred_period c) true) ;;;
   Ret tt)%prog.

Definition removeEnrolledPhone (userId : string) : M unit :=
  (delete_many TUserCredential (of_type userId "sms") ;;;
   delete_many TOtpAttempt (fun o => oa_userId o === userId) ;;;
   Ret tt)%prog.

(** ** Phone enrolment session *)

Definition by_token (token : string) (a : PendingAction) : bool := pa_tokenHash a === sha256 token.

Definition startEnrollment (userId realmId : string) : M string :=
  (token <- generateSecret 32 ;;
   now <- date_now ;;
   create TPendingAction (fun id createdAt =>
     mkPendingAction id (sha256 token) "sms_enrollment"
       (mkPendingData userId realmId None None None None None None None None None None)
       0 (now + SMS_ENROLLMENT_TTL_SECONDS * 1000) createdAt) ;;;
   Ret token)%prog.

Definition getEnrollment (token : string) : M (option PendingData) :=
  (action <- find_first TPendingAction (by_token token) ;;
   match action with
   | Some a =>
       if pa_type a !== "sms_enrollment" then Ret None else
       now <- date_now ;;
       if pa_expiresAt a <? now then Ret None else Ret (Some (pa_data a))
   | None => Ret None
   end)%prog.

Definition with_phone (masked encrypted : string) (d : PendingData) : PendingData :=
  mkPendingData (pd_userId d) (pd_realmId d) (pd_clientId d) (pd_oauthParams d) (pd_primaryAmr d)
    (pd_rememberMe d) (pd_verified d) (pd_factor d) (Some masked) (Some encrypted) (pd_consent d)
    (pd_challenge d).

Definition setEnrollmentPhone (token phone : string) : M unit :=
  (enrollment <- getEnrollment token ;;
   match enrollment with
   | None => Ret tt
   | Some d =>
       encrypted <- encrypt phone ;;
       update TPendingAction (by_token token)
         (set_pa_data (with_phone (maskPhone phone) encrypted d)) ;;;
       Ret tt
   end)%prog.

Definition enrollmentPhone (enrollment : PendingData) : option string :=
  if negb (truthy (pd_phoneEncrypted enrollment)) then None
  else aes_decrypt (pd_phoneEncrypted enrollment ?? EmptyString).

Definition endEnrollment (token : string) : M unit :=
  (delete_many TPendingAction (fun a => by_token token a && (pa_type a === "sms_enrollment")) ;;;
   Ret tt)%prog.

(** ** Sending *)

Definition rate_limited : exc :=
  SmsOtpError "rate_limited" "Too many text messages were requested. Please try again later." None.
Definition unavailable (message : string) : exc := SmsOtpError "unavailable" message None.
Definition cooldown (wait : Z) : exc :=
  SmsOtpError "cooldown"
    ("Please wait " +:+ pretty wait +:+ " seconds before requesting another code.") (Some wait).

Definition checkSendLimits (realm : Realm) (userId phoneHash : string) (ipHash : option string)
    (now : Z) : M (option exc) :=
  let maxPerWindow := clamp (Some (realm_smsMaxRequestsPerUser realm)) 1 100 3 in
  let windowSeconds := clamp (Some (realm_smsRateLimitWindow realm)) 60 86400 900 in
  let windowStart := now - windowSeconds * 1000 in
  let hourStart := now - 3600000 in
  let realmHourlyLimit :=
    clamp (js_number (process_env "SMS_REALM_HOURLY_LIMIT")) 1 1000000 DEFAULT_REALM_HOURLY_LIMIT in
  let here := fun l => sl_realmId l === realm_id realm in
  (byUser <- count TSmsDeliveryLog (fun l =>
     here l && (sl_userId l === userId) && (windowStart <=? sl_createdAt l)) ;;
   byPhone <- count TSmsDeliveryLog (fun l =>
     here l && (sl_phoneHash l === phoneHash) && (windowStart <=? sl_createdAt l)) ;;
   byIp <- (if truthy ipHash
            then count TSmsDeliveryLog (fun l =>
              here l && bool_decide (sl_ipHash l = ipHash) && (windowStart <=? sl_createdAt l))
            else Ret 0) ;;
   byRealm <- count TSmsDeliveryLog (fun l => here l && (hourStart <=? sl_createdAt l)) ;;
   if (maxPerWindow <? byUser) || (maxPerWindow <? byPhone) ||
      (SMS_OTP_MAX_SENDS_PER_IP <? byIp) || (realmHourlyLimit <? byRealm)
   then Ret (Some rate_limited) else Ret None)%prog.

(** The number a code goes to, or the refusal. *)
Definition destination (realm : Realm) (userId purpose : string) (phone : option string)
  : M string :=
  (if purpose === "enroll" then
     if negb (canEnroll realm)
     then Throw (unavailable "Text message verification is not available.") else
     match normalizePhone phone with
     | None => Throw (SmsOtpError "invalid_phone"
         "Enter the number in international format, for example +201012345678." None)
     | Some p => Ret p
     end
   else
     if negb (canDeliver realm)
     then Throw (unavailable "Text message verification is not available.") else
     enrolled <- getEnrolledPhone userId ;;
     match enrolled with
     | None => Throw (unavailable "No phone number is set up for this account.")
     | Some p => Ret p
     end)%prog.

(** What an earlier code of the same challenge forbids. *)
Definition resend_refusal (realm : Realm) (userId : string) (existing : option OtpAttempt)
    (now : Z) : option exc :=
  match existing with
  | None => None
  | Some e =>
      if (oa_userId e !== userId) || (oa_realmId e !== realm_id realm)
      then Some (unavailable "Text message verification is not available.")
      else if SMS_OTP_MAX_ATTEMPTS <=? oa_attempts e
      then Some (SmsOtpError "locked" "Too many incorrect codes. Please start again." None)
      else if SMS_OTP_MAX_SENDS <=? oa_sendCount e
      then Some (SmsOtpError "too_many_sends" "Too many codes were requested. Please start again." None)
      else
        let wait := - ((- (oa_lastSentAt e + SMS_OTP_RESEND_COOLDOWN_SECONDS * 1000 - now)) / 1000) in
        if 0 <? wait then Some (cooldown wait) else None
  end.

Definition reject {A} (log : string) (error : exc) : M A :=
  (update TSmsDeliveryLog (fun l => sl_id l === log)
     (set_sl_status "REJECTED"
        (match error with SmsOtpError code _ _ => Some code | _ => None end)) ;;;
   Throw error)%prog.

Definition otp_message (realm : Realm) (code : string) (expirySeconds : Z) : string :=
  let minutes := Z.max 1 ((2 * expirySeconds + 60) / 120) in
  let appName := if truthy (realm_displayName realm)
                 then realm_displayName realm ?? EmptyString else realm_name realm in
  code +:+ " is your " +:+ appName +:+ " verification code. It expires in " +:+ pretty minutes +:+
  " minute" +:+ (if minutes =? 1 then EmptyString else "s") +:+ ". Never share it with anyone.".

Definition sendCode (realm : Realm) (userId purpose binding : string) (phone ip : option string)
  : M SendResult :=
  (phone <- destination realm userId purpose phone ;;
   let bHash := bindingHash purpose binding in
   let pHash := phoneHash phone in
   let ipHash := if truthy ip then Some (hmac_hex "sms-ip" (ip ?? EmptyString)) else None in
   now <- date_now ;;
   existing <- find_first TOtpAttempt
     (fun o => (oa_purpose o === purpose) && (oa_bindingHash o === bHash)) ;;
   match resend_refusal realm userId existing now with
   | Some error => Throw error
   | None =>
     log <- create TSmsDeliveryLog (fun id createdAt =>
       mkSmsDeliveryLog id (realm_id realm) userId pHash ipHash (realm_smsProvider realm)
         "PENDING" None createdAt) ;;
     limitError <- checkSendLimits realm userId pHash ipHash now ;;
     match limitError with
     | Some error => reject (sl_id log) error
     | None =>
       let len := clamp (Some (realm_otpLength realm)) MIN_CODE_LENGTH MAX_CODE_LENGTH MIN_CODE_LENGTH in
       let expirySeconds :=
         clamp (Some (realm_otpExpirySeconds realm)) MIN_EXPIRY_SECONDS MAX_EXPIRY_SECONDS 300 in
       code <- generateCode len ;;
       let expiresAt := now + expirySeconds * 1000 in
       let cHash := codeHash bHash code in
       phoneEncrypted <- (if purpose === "enroll"
                          then c <- encrypt phone ;; Ret (Some c) else Ret None) ;;
       match existing with
       | Some e =>
           n <- update_many TOtpAttempt
             (fun o => (oa_id o === oa_id e) &&
                (oa_lastSentAt o <=? now - SMS_OTP_RESEND_COOLDOWN_SECONDS * 1000) &&
                (oa_sendCount o <? SMS_OTP_MAX_SENDS) && (oa_attempts o <? SMS_OTP_MAX_ATTEMPTS))
             (fun o => mkOtpAttempt (oa_id o) (oa_realmId o) (oa_userId o) (oa_purpose o)
                (oa_bindingHash o) pHash phoneEncrypted cHash (oa_attempts o) (oa_sendCount o + 1)
                now expiresAt) ;;
           if n =? 0 then reject (sl_id log) (cooldown SMS_OTP_RESEND_COOLDOWN_SECONDS) else Ret tt
       | None =>
           catch
             (create TOtpAttempt (fun id _ =>
                mkOtpAttempt id (realm_id realm) userId purpose bHash pHash phoneEncrypted cHash
                  0 1 now expiresAt) ;;; Ret tt)
             (fun err => match err with
                         | PrismaError "P2002" =>
                             reject (sl_id log) (cooldown SMS_OTP_RESEND_COOLDOWN_SECONDS)
                         | _ => Throw err
                         end)
       end ;;;
       (if send_sms (realm_name realm) phone (otp_message realm code expirySeconds)
        then update TSmsDeliveryLog (fun l => sl_id l === sl_id log) (set_sl_status "SENT" None)
        else update TSmsDeliveryLog (fun l => sl_id l === sl_id log)
               (set_sl_status "FAILED" (Some "provider error")) ;;;
             Throw (SmsOtpError "send_failed"
               "The text message could not be sent. Please try again later." None)) ;;;
       Ret (mkSendResult (maskPhone phone) expiresAt
              (now + SMS_OTP_RESEND_COOLDOWN_SECONDS * 1000))
     end
   end)%prog.

(** ** Verifying *)

(** [timingSafeEqual] of the decoded hashes, after comparing their lengths. *)
Definition hex_equal (a b : string) : bool := from_hex a === from_hex b.

Definition verifyCode (realmId userId purpose binding : string) (code : option string)
  : M VerifyResult :=
  (let bHash := bindingHash purpose binding in
   row <- find_first TOtpAttempt
     (fun o => (oa_purpose o === purpose) && (oa_bindingHash o === bHash)) ;;
   match row with
   | None => Ret (Refused "not_found" None)
   | Some row =>
     if (oa_userId row !== userId) || (oa_realmId row !== realmId)
     then Ret (Refused "not_found" None) else
     now <- date_now ;;
     reserved <- update_many TOtpAttempt
       (fun o => (oa_id o === oa_id row) && (oa_attempts o <? SMS_OTP_MAX_ATTEMPTS) &&
                 (now <? oa_expiresAt o))
       (fun o => set_oa_attempts (oa_attempts o + 1) o) ;;
     if reserved =? 0 then
       Ret (if oa_expiresAt row <=? now then Refused "expired" None else Refused "locked" (Some 0))
     else
     let code := strip_spaces (code ?? EmptyString) in
     let matches := hex_equal (oa_codeHash row) (codeHash bHash code) in
     if negb matches then
       let remainingAttempts := Z.max 0 (SMS_OTP_MAX_ATTEMPTS - (oa_attempts row + 1)) in
       Ret (if remainingAttempts =? 0 then Refused "locked" (Some remainingAttempts)
            else Refused "invalid" (Some remainingAttempts))
     else
     claimed <- delete_many TOtpAttempt
       (fun o => (oa_id o === oa_id row) && (oa_codeHash o === oa_codeHash row)) ;;
     if negb (claimed =? 1) then Ret (Refused "not_found" None) else
     phone <-
       (if purpose === "enroll" then
          if truthy (oa_phoneEncrypted row)
          then match aes_decrypt (oa_phoneEncrypted row ?? EmptyString) with
               | Some p => Ret (Some p)
               | None => Throw (PlainError "decrypt")
               end
          else Ret None
        else getEnrolledPhone userId) ;;
     if truthy phone then Ret (Verified (phone ?? EmptyString)) else Ret (Refused "not_found" None)
   end)%prog.

Definition cleanup : M unit :=
  (now <- date_now ;;
   delete_many TOtpAttempt (fun o => oa_expiresAt o <? now - OTP_ROW_RETENTION_MS) ;;;
   now <- date_now ;;
   delete_many TSmsDeliveryLog (fun l =>
     sl_createdAt l <? now - DELIVERY_LOG_RETENTION_DAYS * 86400000) ;;;
   Ret tt)%prog.

Lemma getEnrolledPhone_footprint ts u : stable (frame ts) (getEnrolledPhone u).
Proof. unfold getEnrolledPhone. footprint. Qed.
#[local] Hint Resolve getEnrolledPhone_footprint : footprint.
Lemma verifyCode_footprint ts r u p b c :
  covers [TOtpAttempt] ts = true -> stable (frame ts) (verifyCode r u p b c).
Proof. intros H. apply (stable_frame_mono _ _ _ H). unfold verifyCode. footprint. Qed.
Lemma sendCode_footprint ts r u p b ph ip :
  covers [TOtpAttempt; TSmsDeliveryLog] ts = true -> stable (frame ts) (sendCode r u p b ph ip).
Proof.
  intros H. apply (stable_frame_mono _ _ _ H).
  unfold sendCode, destination, checkSendLimits, generateCode, reject. footprint.
Qed.
End Service.

#[export] Hint Resolve getEnrolledPhone_footprint verifyCode_footprint sendCode_footprint : footprint.

(** ** Guess budget and single use *)

Section Budget.
Context {E : Env}.
Variables (purpose binding rowId : string).

Definition of_challenge (o : OtpAttempt) : bool :=
  (oa_purpose o === purpose) && (oa_bindingHash o === bindingHash purpose binding).

(** The challenge has the one row [rowId]. *)
Definition challenge_row (rs : list OtpAttempt) : Prop :=
  forall o, o ∈ rs -> of_challenge o = true <-> oa_id o = rowId.

(** The guesses left for it, and the codes that can still be accepted. *)
Definition guesses_left (o : OtpAttempt) : nat :=
  if of_challenge o then Z.to_nat (SMS_OTP_MAX_ATTEMPTS - oa_attempts o) else 0.
Definition live_codes (o : OtpAttempt) : nat := if of_challenge o then 1 else 0.

(** The answers that tell whether a guess was right. *)
Definition answered (r : VerifyResult) : bool :=
  match r with Verified _ => true | Refused reason _ => reason === "invalid" end.

Notation Inv := (fun w : World => challenge_row (rows TOtpAttempt w)).

Lemma challenge_row_filter p rs : challenge_row rs -> challenge_row (List.filter p rs).
Proof. intros H o [_ Ho]%elem_of_filter_list. by apply H. Qed.

Lemma challenge_row_guess p rs :
  challenge_row rs -> challenge_row (update_all p (fun o => set_oa_attempts (oa_attempts o + 1) o) rs).
Proof.
  intros H o Ho. apply list_elem_of_fmap in Ho as (x & -> & Hx). destruct (p x); [|by apply H].
  apply (H x Hx).
Qed.

(** What follows a look-up only spends units of the given row. *)
Lemma claims_lookup {A} (g : OtpAttempt -> nat) (Q : bool -> A -> Prop) c (k : option OtpAttempt -> M A) :
  claims (units TOtpAttempt g) Inv Q c (k None) ->
  (forall r, oa_id r = rowId -> claims (units TOtpAttempt g) Inv Q c (k (Some r))) ->
  claims (units TOtpAttempt g) Inv Q c (bind (find_first TOtpAttempt of_challenge) k).
Proof.
  intros Hn Hs. apply (claims_find_first TOtpAttempt g challenge_row); [done|].
  intros r rs Hrs Hin Hr. apply Hs. by apply (Hrs r Hin).
Qed.

Lemma verifyCode_spends_guess realmId userId code :
  claims (units TOtpAttempt guesses_left) Inv (fun c r => answered r = true -> c = true) false
    (verifyCode realmId userId purpose binding code).
Proof.
  unfold verifyCode. apply claims_lookup; [done|]. intros row Hid.
  destruct (_ || _); [done|]. apply claims_bind_stable; [by apply (units_keeps []), date_now_footprint|].
  intros now. apply (claims_update_many TOtpAttempt guesses_left challenge_row).
  - apply challenge_row_guess.
  - intros x rs Hrs Hin Hp. rewrite Hid in Hp.
    apply andb_true_iff in Hp as [[Hx%bool_decide_eq_true Ha%Z.ltb_lt]%andb_true_iff _].
    unfold guesses_left. change (of_challenge (set_oa_attempts _ x)) with (of_challenge x).
    rewrite (proj2 (Hrs x Hin) Hx). simpl oa_attempts. unfold SMS_OTP_MAX_ATTEMPTS in *. lia.
  - simpl. by case_match.
  - intros n Hn. rewrite (proj2 (Z.eqb_neq _ _)) by lia.
    apply claims_stable; [|done]. destruct (negb _); [done|].
    apply stable_bind; [apply (units_delete_many_keeps TOtpAttempt _ challenge_row), challenge_row_filter|].
    intros m. destruct (negb _); [done|]. apply (units_keeps []); [done|]. footprint.
Qed.

Lemma verifyCode_spends_code realmId userId code :
  claims (units TOtpAttempt live_codes) Inv (fun c r => is_verified r = true -> c = true) false
    (verifyCode realmId userId purpose binding code).
Proof.
  unfold verifyCode. apply claims_lookup; [done|]. intros row Hid.
  destruct (_ || _); [done|]. apply claims_bind_stable; [by apply (units_keeps []), date_now_footprint|].
  intros now. apply claims_bind_stable.
  { by apply (units_update_many_keeps TOtpAttempt live_codes challenge_row);
      [apply challenge_row_guess | intros x]. }
  intros n. destruct (n =? 0); [simpl; by case_match|].
  destruct (negb _); [simpl; by case_match|].
  apply (claims_delete_many TOtpAttempt live_codes challenge_row).
  - intros rs. apply challenge_row_filter.
  - intros x rs Hrs Hin Hp. rewrite Hid in Hp.
    apply andb_true_iff in Hp as [Hx%bool_decide_eq_true _].
    unfold live_codes. by rewrite (proj2 (Hrs x Hin) Hx).
  - done.
  - intros m Hm. destruct (negb _); [done|]. apply claims_stable; [|done].
    apply (units_keeps []); [done|]. footprint.
Qed.
End Budget.

(** C17. Of any number of concurrent answers to one text-message challenge, by
    whomever and however their steps interleave, at most the remaining budget
    (five guesses less those already made) is told right or wrong, and at most
    one per live code is accepted. *)
Theorem verifyCode_budget {E : Env} purpose binding rowId env w w' reqs pool :
  let Inv := fun w => challenge_row purpose binding rowId (rows TOtpAttempt w) in
  let left := units TOtpAttempt (guesses_left purpose binding) in
  let codes := units TOtpAttempt (live_codes purpose binding) in
  (forall a b, env a b -> keeps left Inv a b /\ keeps codes Inv a b) ->
  Inv w ->
  psteps env (w, map (fun q : string * string * option string =>
                        verifyCode q.1.1 q.1.2 purpose binding q.2) reqs) (w', pool) ->
  (winners answered pool <= left w)%nat /\ (winners is_verified pool <= codes w)%nat.
Proof.
  intros Inv left codes Henv Hi Hs. split.
  - refine (winners_bounded left Inv env (fun a b H => proj1 (Henv a b H)) answered w w' _ pool Hi _ Hs).
    apply Forall_forall. intros p (q & -> & _)%list_elem_of_fmap. apply verifyCode_spends_guess.
  - refine (winners_bounded codes Inv env (fun a b H => proj2 (Henv a b H)) is_verified w w' _ pool Hi _ Hs).
    apply Forall_forall. intros p (q & -> & _)%list_elem_of_fmap. apply verifyCode_spends_code.
Qed.

(** A sign-in challenge with one code, [042042], already guessed at three times. *)
Definition otp0 : OtpAttempt :=
  mkOtpAttempt "otp-1" "realm-1" "user-1" "login" (bindingHash (E:=test_env) "login" "tok")
    "ph" None (codeHash (E:=test_env) (bindingHash (E:=test_env) "login" "tok") "042042") 3 1 0 2000000000.
Definition otp_world : World := with_rows TOtpAttempt [otp0] world1.

Example verifyCode_budget_witness :
  let Inv := fun w => challenge_row (E:=test_env) "login" "tok" "otp-1" (rows TOtpAttempt w) in
  let reqs := [("realm-1", "user-1", Some "000000"); ("realm-1", "user-1", Some "111111");
               ("realm-1", "user-1", Some "222222")] in
  Inv otp_world /\
  (winners answered
     (schedule [0; 1; 2; 0; 1; 2; 0; 1; 2; 0; 1; 2]%nat
       (otp_world, map (fun q : string * string * option string =>
          verifyCode (E:=test_env) q.1.1 q.1.2 "login" "tok" q.2) reqs)).2 <= 2)%nat.
Proof.
  intros Inv reqs.
  assert (Hi : Inv otp_world).
  { intros o Ho. apply list_elem_of_singleton in Ho as ->. split; [done|reflexivity]. }
  split; [exact Hi|].
  refine (proj1 (verifyCode_budget (E:=test_env) "login" "tok" "otp-1" (fun a b => a = b) otp_world
    _ reqs _ _ Hi _)).
  - intros a b ->. split; reflexivity.
  - rewrite <- surjective_pairing. apply schedule_psteps.
Defined.
