(* ===== verification/Mfa.v ===== *)
(** * Mfa: second factors, challenges and enrolments (src/src/mfa/mfa.service.ts) *)

From S2P Require Import Prelude Prog Json Schema Store StoreFacts Crypto Redis SmsOtp Testbed.

Definition SECOND_FACTOR_TYPES : list string := ["totp"; "sms"].
Definition MFA_ENROLLMENT_TTL_SECONDS : Z := 15 * 60.
Definition TOTP_USED_CODE_TTL_SECONDS : Z := 90.
Definition MFA_CHALLENGE_RATE_LIMIT_MAX_REQUESTS : Z := 5.
Definition MFA_CHALLENGE_RATE_LIMIT_WINDOW_SECONDS : Z := 300.
Definition MAX_MFA_ATTEMPTS : Z := 5.

(** [SecondFactorInput]. *)
Inductive SecondFactorInput :=
| TotpInput (code : string)
| RecoveryInput (code : string)
| OtpInput (code : string)
| SmsInput (code realmId purpose binding : string).

Definition input_code (i : SecondFactorInput) : string :=
  match i with TotpInput c | RecoveryInput c | OtpInput c | SmsInput c _ _ _ => c end.

Record MfaChallenge := mkMfaChallenge {
  ch_userId : string; ch_realmId : string; ch_clientId : option string;
  ch_oauthParams : option (list (string * string)); ch_primaryAmr : option (list string)
}.

Definition challenge_of (d : PendingData) : MfaChallenge :=
  mkMfaChallenge (pd_userId d) (pd_realmId d) (pd_clientId d) (pd_oauthParams d) (pd_primaryAmr d).

Section Service.
Context {E : Env}.

(** ** Used TOTP codes *)

Definition totp_key (userId code : string) : string := "totp:used:" +:+ userId +:+ ":" +:+ code.

(** [usedTotpCodes], an in-process map. *)
Definition used_get (key : string) : M (option Z) := atom (fun w => (w_usedTotpCodes w !! key, w)).
Definition used_put (key : string) (v : Z) : M unit :=
  atom (fun w => (tt, with_usedTotpCodes (<[key := v]> (w_usedTotpCodes w)) w)).
Definition used_delete (key : string) : M unit :=
  atom (fun w => (tt, with_usedTotpCodes (delete key (w_usedTotpCodes w)) w)).

Definition markTotpCodeUsed (userId code : string) : M unit :=
  (let key := totp_key userId code in
   now <- date_now ;;
   let expiresAt := now + TOTP_USED_CODE_TTL_SECONDS * 1000 in
   catch (create TUsedTotpCode (fun _ _ => mkUsedTotpCode userId (sha256 code) expiresAt) ;;; Ret tt)
         (fun _ => Ret tt) ;;;
   available <- isAvailable ;;
   stored <- (if (available : bool)
              then catch (redis_set key 1 TOTP_USED_CODE_TTL_SECONDS ;;; Ret true) (fun _ => Ret false)
              else Ret false) ;;
   if (stored : bool) then Ret tt else used_put key expiresAt)%prog.

Definition isTotpCodeUsed (userId code : string) : M bool :=
  (let key := totp_key userId code in
   available <- isAvailable ;;
   hit <- (if (available : bool) then catch (redis_exists key) (fun _ => Ret false) else Ret false) ;;
   if (hit : bool) then Ret true else
   memExpiry <- used_get key ;;
   match memExpiry with
   | Some expiry =>
       now <- date_now ;;
       if expiry <? now then used_delete key ;;; Ret false else Ret true
   | None =>
       catch
         (now <- date_now ;;
          record <- find_first TUsedTotpCode (fun r =>
            (ut_userId r === userId) && (ut_codeHash r === sha256 code) && (now <? ut_expiresAt r)) ;;
          match record with
          | Some _ =>
              available <- isAvailable ;;
              (if (available : bool)
               then catch (redis_set key 1 TOTP_USED_CODE_TTL_SECONDS) (fun _ => Ret tt)
               else Ret tt) ;;;
              Ret true
          | None => Ret false
          end)
         (fun _ => Ret false)
   end)%prog.

(** ** Recovery codes *)

Definition unused_code (userId : string) (c : RecoveryCode) : bool :=
  (rc_userId c === userId) && negb (rc_used c).

Definition verifyRecoveryCode (userId code : string) : M bool :=
  (let codeHash := sha256 (strip_spaces (to_lower code)) in
   n <- update_many TRecoveryCode
     (fun c => (rc_userId c === userId) && (rc_codeHash c === codeHash) && negb (rc_used c))
     (set_rc_used true) ;;
   Ret (0 <? n))%prog.

Fixpoint generate_codes (n : nat) (userId : string) : M (list string) :=
  match n with
  | 0%nat => Ret []
  | S n' =>
      (secret <- generateSecret 4 ;;
       let code := to_upper secret in
       create TRecoveryCode (fun id _ => mkRecoveryCode id userId (sha256 (to_lower code)) false) ;;;
       codes <- generate_codes n' userId ;;
       Ret (code :: codes))%prog
  end.

Definition generateRecoveryCodes (userId : string) : M (list string) :=
  (delete_many TRecoveryCode (fun c => rc_userId c === userId) ;;;
   generate_codes 10 userId)%prog.

Definition ensureRecoveryCodes (userId : string) : M (option (list string)) :=
  (unused <- count TRecoveryCode (unused_code userId) ;;
   if 0 <? unused then Ret None
   else codes <- generateRecoveryCodes userId ;; Ret (Some codes))%prog.

(** ** TOTP *)

Definition setupTotp (userId : string) : M string :=
  (delete_many TUserCredential (fun c => of_type userId "totp" c && negb (cred_verified c)) ;;;
   secret <- atom (fun w => (totp_new_secret (w_draws w), next_draw w)) ;;
   create TUserCredential (fun id _ =>
     mkUserCredential id userId "totp" secret None "SHA1" 6 30 false) ;;;
   Ret secret)%prog.

(** [totp.validate({ token, window: 1 })] at the current time. *)
Definition totp_delta (credential : UserCredential) (code : string) : M (option Z) :=
  (now <- date_now ;; Ret (totp_validate credential code now))%prog.

Definition verifyAndActivateTotp (userId code : string) : M (option (list string)) :=
  (credential <- find_first TUserCredential (of_type userId "totp") ;;
   match credential with
   | None => Ret None
   | Some c =>
       if cred_verified c then Ret None else
       delta <- totp_delta c code ;;
       match delta with
       | None => Ret None
       | Some _ =>
           update TUserCredential (fun x => cred_id x === cred_id c) (set_cred_verified true) ;;;
           codes <- ensureRecoveryCodes userId ;;
           Ret (Some (codes ?? []))
       end
   end)%prog.

Definition verifyTotp (userId code : string) : M bool :=
  (credential <- find_first TUserCredential (of_type userId "totp") ;;
   match credential with
   | None => Ret false
   | Some c =>
       if negb (cred_verified c) then Ret false else
       used <- isTotpCodeUsed userId code ;;
       if (used : bool) then Ret false else
       delta <- totp_delta c code ;;
       match delta with
       | None => Ret false
       | Some _ => markTotpCodeUsed userId code ;;; Ret true
       end
   end)%prog.

(** ** Factors *)

Definition getEnrolledFactors (userId : string) : M (list string) :=
  (credentials <- find_many TUserCredential (fun c =>
     (cred_userId c === userId) && cred_verified c && includes (cred_type c) SECOND_FACTOR_TYPES) ;;
   Ret (List.filter (fun t => existsb (fun c => cred_type c === t) credentials)
          SECOND_FACTOR_TYPES))%prog.

Definition isTotpEnabled (userId : string) : M bool :=
  (credential <- find_first TUserCredential (of_type userId "totp") ;;
   Ret (match credential with Some c => cred_verified c | None => false end))%prog.

Definition isMfaEnabled (userId : string) : M bool :=
  (factors <- getEnrolledFactors userId ;; Ret (negb (bool_decide (factors = []))))%prog.

Definition deleteRecoveryCodesIfNoFactorLeft (userId : string) : M unit :=
  (factors <- getEnrolledFactors userId ;;
   match factors with
   | [] => delete_many TRecoveryCode (fun c => rc_userId c === userId) ;;; Ret tt
   | _ => Ret tt
   end)%prog.

Definition disableTotp (userId : string) : M unit :=
  (delete_many TUserCredential (of_type userId "totp") ;;;
   deleteRecoveryCodesIfNoFactorLeft userId)%prog.

Definition disableSms (userId : string) : M unit :=
  (delete_many TUserCredential (of_type userId "sms") ;;;
   delete_many TOtpAttempt (fun o => oa_userId o === userId) ;;;
   deleteRecoveryCodesIfNoFactorLeft userId)%prog.

Definition disableAllFactors (userId : string) : M unit :=
  (delete_many TUserCredential (fun c =>
     (cred_userId c === userId) && includes (cred_type c) SECOND_FACTOR_TYPES) ;;;
   delete_many TOtpAttempt (fun o => oa_userId o === userId) ;;;
   delete_many TRecoveryCode (fun c => rc_userId c === userId) ;;;
   Ret tt)%prog.

Definition verifySecondFactor (userId : string) (input : SecondFactorInput) : M (option string) :=
  (let code := js_trim (input_code input) in
   if code === EmptyString then Ret None else
   match input with
   | TotpInput _ =>
       ok <- verifyTotp userId code ;; Ret (if (ok : bool) then Some "totp" else None)
   | RecoveryInput _ =>
       ok <- verifyRecoveryCode userId code ;; Ret (if (ok : bool) then Some "recovery" else None)
   | OtpInput _ =>
       ok <- verifyTotp userId code ;;
       if (ok : bool) then Ret (Some "totp") else
       ok <- verifyRecoveryCode userId code ;; Ret (if (ok : bool) then Some "recovery" else None)
   | SmsInput _ realmId purpose binding =>
       result <- verifyCode realmId userId purpose binding (Some code) ;;
       Ret (if is_verified result then Some "sms" else None)
   end)%prog.

Definition isMfaRequired (realm : Realm) (userId : string) : M bool :=
  if realm_mfaRequired realm then Ret true else isMfaEnabled userId.

(** ** Challenges *)

Definition createMfaChallenge (userId realmId : string)
    (oauthParams : option (list (string * string))) (clientId : option string)
    (primaryAmr : option (list string)) : M string :=
  (now <- date_now ;;
   let windowStart := now - MFA_CHALLENGE_RATE_LIMIT_WINDOW_SECONDS * 1000 in
   recentChallenges <- count TPendingAction (fun a =>
     (pa_type a === "mfa_challenge") && (pd_userId (pa_data a) === userId) &&
     (windowStart <=? pa_createdAt a)) ;;
   if MFA_CHALLENGE_RATE_LIMIT_MAX_REQUESTS <=? recentChallenges
   then Throw (PlainError
     "Rate limit exceeded: too many MFA challenge requests. Please try again later.")
   else
   token <- generateSecret 32 ;;
   now <- date_now ;;
   create TPendingAction (fun id createdAt =>
     mkPendingAction id (sha256 token) "mfa_challenge"
       (mkPendingData userId realmId clientId oauthParams primaryAmr None None None None None None None)
       0 (now + 5 * 60 * 1000) createdAt) ;;;
   Ret token)%prog.

Definition validateMfaChallenge (challengeToken : string) : M (option MfaChallenge) :=
  (action <- find_first TPendingAction (by_token challengeToken) ;;
   match action with
   | None => Ret None
   | Some a =>
       if pa_type a !== "mfa_challenge" then Ret None else
       now <- date_now ;;
       delete_one TPendingAction (fun x => pa_id x === pa_id a) ;;;
       if pa_expiresAt a <? now then Ret None else Ret (Some (challenge_of (pa_data a)))
   end)%prog.

Definition getMfaChallenge (challengeToken : string) : M (option MfaChallenge) :=
  (action <- find_first TPendingAction (by_token challengeToken) ;;
   match action with
   | None => Ret None
   | Some a =>
       if pa_type a !== "mfa_challenge" then Ret None else
       now <- date_now ;;
       if pa_expiresAt a <? now then Ret None else
       if MAX_MFA_ATTEMPTS <=? pa_attempts a then Ret None else
       Ret (Some (challenge_of (pa_data a)))
   end)%prog.

Definition is_challenge (challengeToken : string) (a : PendingAction) : bool :=
  by_token challengeToken a && (pa_type a === "mfa_challenge").

Definition validateMfaChallengeWithAttemptCheck (challengeToken : string)
  : M (option MfaChallenge) :=
  (now <- date_now ;;
   n <- update_many TPendingAction
     (fun a => is_challenge challengeToken a && (now <? pa_expiresAt a) &&
               (pa_attempts a <? MAX_MFA_ATTEMPTS))
     (fun a => set_attempts (pa_attempts a + 1) a) ;;
   if n =? 0 then
     delete_many TPendingAction (is_challenge challengeToken) ;;;
     Ret None
   else
   action <- find_first TPendingAction (by_token challengeToken) ;;
   Ret (match action with Some a => Some (challenge_of (pa_data a)) | None => None end))%prog.

Definition consumeMfaChallenge (challengeToken : string) : M bool :=
  (n <- delete_many TPendingAction (is_challenge challengeToken) ;;
   Ret (n =? 1))%prog.

(** ** Required-MFA enrolment *)

Definition createMfaEnrollment (data : PendingData) : M string :=
  (token <- generateSecret 32 ;;
   now <- date_now ;;
   create TPendingAction (fun id createdAt =>
     mkPendingAction id (sha256 token) "mfa_enrollment"
       (mkPendingData (pd_userId data) (pd_realmId data) (pd_clientId data) (pd_oauthParams data)
          (pd_primaryAmr data) (pd_rememberMe data) (Some false) (pd_factor data)
          (pd_maskedPhone data) (pd_phoneEncrypted data) (pd_consent data) (pd_challenge data))
       0 (now + MFA_ENROLLMENT_TTL_SECONDS * 1000) createdAt) ;;;
   Ret token)%prog.

Definition getMfaEnrollment (token : string) : M (option PendingData) :=
  (action <- find_first TPendingAction (by_token token) ;;
   match action with
   | None => Ret None
   | Some a =>
       if pa_type a !== "mfa_enrollment" then Ret None else
       now <- date_now ;;
       if pa_expiresAt a <? now then Ret None else Ret (Some (pa_data a))
   end)%prog.

Definition verified_data (factor : string) (d : PendingData) : PendingData :=
  mkPendingData (pd_userId d) (pd_realmId d) (pd_clientId d) (pd_oauthParams d) (pd_primaryAmr d)
    (pd_rememberMe d) (Some true) (Some factor) (pd_maskedPhone d) (pd_phoneEncrypted d) (pd_consent d)
    (pd_challenge d).

Definition markMfaEnrollmentVerified (token factor : string) : M unit :=
  (action <- find_first TPendingAction (by_token token) ;;
   match action with
   | None => Ret tt
   | Some a =>
       if pa_type a !== "mfa_enrollment" then Ret tt else
       update TPendingAction (fun x => pa_id x === pa_id a)
         (set_pa_data (verified_data factor (pa_data a))) ;;;
       Ret tt
   end)%prog.

Definition consumeVerifiedMfaEnrollment (token : string) : M (option PendingData) :=
  (action <- catch (a <- delete_one TPendingAction (by_token token) ;; Ret (Some a))
                   (fun _ => Ret None) ;;
   match action with
   | None => Ret None
   | Some a =>
       if pa_type a !== "mfa_enrollment" then Ret None else
       now <- date_now ;;
       if pa_expiresAt a <? now then Ret None else
       Ret (if pd_verified (pa_data a) ?? false then Some (pa_data a) else None)
   end)%prog.

Definition cleanupExpiredActions : M unit :=
  (now <- date_now ;;
   delete_many TPendingAction (fun a =>
     includes (pa_type a) ["mfa_challenge"; "mfa_enrollment"; "sms_enrollment"] &&
     (pa_expiresAt a <? now)) ;;;
   now <- date_now ;;
   delete_many TUsedTotpCode (fun u => ut_expiresAt u <? now) ;;;
   Ret tt)%prog.

(** ** Footprints *)

Lemma used_get_footprint ts k : stable (frame ts) (used_get k).
Proof. apply stable_atom. simpl. reflexivity. Qed.
Lemma used_put_footprint ts k v : stable (frame ts) (used_put k v).
Proof. apply stable_atom. by repeat split. Qed.
Lemma used_delete_footprint ts k : stable (frame ts) (used_delete k).
Proof. apply stable_atom. by repeat split. Qed.
#[local] Hint Resolve used_get_footprint used_put_footprint used_delete_footprint : footprint.

Lemma isTotpCodeUsed_footprint ts u c : stable (frame ts) (isTotpCodeUsed u c).
Proof. unfold isTotpCodeUsed. footprint. Qed.
Lemma verifyTotp_footprint ts u c :
  covers [TUsedTotpCode] ts = true -> stable (frame ts) (verifyTotp u c).
Proof.
  intros H. apply (stable_frame_mono _ _ _ H).
  unfold verifyTotp, isTotpCodeUsed, totp_delta, markTotpCodeUsed. footprint.
Qed.
Lemma verifyRecoveryCode_footprint ts u c :
  covers [TRecoveryCode] ts = true -> stable (frame ts) (verifyRecoveryCode u c).
Proof. intros H. apply (stable_frame_mono _ _ _ H). unfold verifyRecoveryCode. footprint. Qed.
#[local] Hint Resolve verifyTotp_footprint verifyRecoveryCode_footprint : footprint.
Lemma verifySecondFactor_footprint ts u i :
  covers [TUsedTotpCode; TRecoveryCode; TOtpAttempt] ts = true ->
  stable (frame ts) (verifySecondFactor u i).
Proof. intros H. apply (stable_frame_mono _ _ _ H). unfold verifySecondFactor. footprint. Qed.
Lemma isMfaEnabled_footprint ts u : stable (frame ts) (isMfaEnabled u).
Proof. unfold isMfaEnabled, getEnrolledFactors. footprint. Qed.
Lemma isMfaRequired_footprint ts r u : stable (frame ts) (isMfaRequired r u).
Proof. unfold isMfaRequired. footprint. apply isMfaEnabled_footprint. Qed.
Lemma createMfaChallenge_footprint ts u r o c p :
  covers [TPendingAction] ts = true -> stable (frame ts) (createMfaChallenge u r o c p).
Proof. intros H. apply (stable_frame_mono _ _ _ H). unfold createMfaChallenge. footprint. Qed.
Lemma getMfaChallenge_footprint ts t : stable (frame ts) (getMfaChallenge t).
Proof. unfold getMfaChallenge. footprint. Qed.
Lemma consumeMfaChallenge_footprint ts t :
  covers [TPendingAction] ts = true -> stable (frame ts) (consumeMfaChallenge t).
Proof. intros H. apply (stable_frame_mono _ _ _ H). unfold consumeMfaChallenge. footprint. Qed.
Lemma validateAttempt_footprint ts t :
  covers [TPendingAction] ts = true ->
  stable (frame ts) (validateMfaChallengeWithAttemptCheck t).
Proof.
  intros H. apply (stable_frame_mono _ _ _ H). unfold validateMfaChallengeWithAttemptCheck. footprint.
Qed.
End Service.

#[export] Hint Resolve verifyTotp_footprint verifySecondFactor_footprint isMfaEnabled_footprint
  isMfaRequired_footprint createMfaChallenge_footprint getMfaChallenge_footprint
  consumeMfaChallenge_footprint validateAttempt_footprint : footprint.

(** ** TOTP codes are not replayed *)

Section Replay.
Context {E : Env}.

(** The code is recorded as used in this world. *)
Definition used_up (userId code : string) (w : World) : bool :=
  match w_redis w with
  | RedisUp => bool_decide (is_Some (redis_entry (totp_key userId code) w))
  | _ => match w_usedTotpCodes w !! totp_key userId code with
         | Some expiry => w_now w <=? expiry
         | None => false
         end
  end.

Lemma run_markTotpCodeUsed userId code w t :
  w_now w <= t -> t < w_now w + TOTP_USED_CODE_TTL_SECONDS * 1000 ->
  used_up userId code (with_now t (run (markTotpCodeUsed userId code) w).2) = true.
Proof.
  intros Hle Hlt. unfold markTotpCodeUsed. cbv zeta. rewrite run_bind, run_date_now.
  set (p := create TUsedTotpCode _).
  rewrite (run_bind_ok _ _ _ _ _ (run_swallow p w)).
  assert (Hf : frame [TUsedTotpCode] w (run p w).2)
    by (apply (stable_run (frame [TUsedTotpCode])), create_footprint; reflexivity).
  destruct Hf as (_ & Hnow & _ & Hred). set (w1 := (run p w).2) in *.
  rewrite run_bind, run_isAvailable, run_bind.
  set (expiry := w_now w + TOTP_USED_CODE_TTL_SECONDS * 1000) in *.
  destruct (w_redis w1) eqn:Hr.
  - simpl. unfold used_up. simpl. rewrite Hr. rewrite lookup_insert_eq. apply Z.leb_le. lia.
  - rewrite run_catch, run_bind. unfold redis_set. rewrite run_command_up by done.
    cbn [Z.leb TOTP_USED_CODE_TTL_SECONDS Z.compare run]. simpl. unfold used_up. simpl. rewrite Hr.
    unfold redis_entry. simpl. rewrite lookup_insert_eq. unfold live. cbn [snd].
    rewrite (proj2 (Z.ltb_lt t _)); [done|]. rewrite Hnow. exact Hlt.
  - simpl. rewrite Hr. simpl. unfold used_up. simpl. rewrite Hr, lookup_insert_eq. apply Z.leb_le. lia.
Qed.

Lemma run_isTotpCodeUsed userId code w b w' :
  used_up userId code w = true -> run (isTotpCodeUsed userId code) w = (inr b, w') -> b = true.
Proof.
  unfold used_up, isTotpCodeUsed. cbv zeta. rewrite run_bind, run_isAvailable, run_bind.
  destruct (w_redis w) eqn:Hr.
  - simpl. destruct (w_usedTotpCodes w !! totp_key userId code) as [expiry|]; [|done].
    intros Hle%Z.leb_le. simpl. rewrite (proj2 (Z.ltb_ge _ _)) by done. simpl. congruence.
  - intros H. rewrite run_catch. unfold redis_exists. rewrite run_command_up, H by done.
    simpl. congruence.
  - simpl. rewrite Hr. simpl. destruct (w_usedTotpCodes w !! totp_key userId code) as [expiry|]; [|done].
    intros Hle%Z.leb_le. simpl. rewrite (proj2 (Z.ltb_ge _ _)) by done. simpl. congruence.
Qed.

Lemma run_verifyTotp_true userId code w w' :
  run (verifyTotp userId code) w = (inr true, w') ->
  exists w1 cred, w' = (run (markTotpCodeUsed userId code) w1).2 /\ w_now w1 = w_now w /\
    cred ∈ rows TUserCredential w /\ of_type userId "totp" cred = true /\
    cred_verified cred = true /\ is_Some (totp_validate cred code (w_now w)).
Proof.
  unfold verifyTotp. intros H.
  apply run_bind_inr in H as (o & w0 & Hf & H). run_stmt_inv Hf.
  destruct o as [c|]; [|done]. symmetry in Hf. apply find_elem in Hf as [Hin Hty].
  destruct (cred_verified c) eqn:Hv; [|done]. simpl negb in H. cbv iota in H.
  apply run_bind_inr in H as (used & w1 & Hu & H).
  assert (Hnow : frame [] w w1).
  { pose proof (stable_run (frame []) _ w (isTotpCodeUsed_footprint [] userId code)) as Hs.
    by rewrite Hu in Hs. }
  destruct used; [done|]. destruct Hnow as (_ & Hnow & _).
  apply run_bind_inr in H as (delta & w2 & Hd & H).
  unfold totp_delta in Hd. rewrite run_bind, run_date_now in Hd. injection Hd as <- <-.
  destruct (totp_validate c code (w_now w1)) as [d|] eqn:Hd; [|done].
  apply run_bind_inr in H as ([] & w2 & Hm & H). injection H as <-.
  exists w1, c. rewrite Hm, <- Hnow, Hd. repeat split; eauto.
Qed.
End Replay.

(** No replay: an authenticator code that was accepted is refused for the
    same user for the next 90 seconds, with Redis up, down or failing, and
    whether or not the database recorded it. *)
Theorem verifyTotp_no_replay {E : Env} userId code w w1 t b w2 :
  run (verifyTotp userId code) w = (inr true, w1) ->
  w_now w <= t -> t < w_now w + TOTP_USED_CODE_TTL_SECONDS * 1000 ->
  run (verifyTotp userId code) (with_now t w1) = (inr b, w2) -> b = false.
Proof.
  intros H1 Hle Hlt H2.
  apply run_verifyTotp_true in H1 as (w0 & cred & -> & Hnow & _).
  rewrite <- Hnow in Hle, Hlt. pose proof (run_markTotpCodeUsed userId code w0 t Hle Hlt) as Hused.
  set (w3 := with_now t _) in *. unfold verifyTotp in H2.
  apply run_bind_inr in H2 as (o & w4 & Hf & H2). run_stmt_inv Hf.
  destruct o as [c|]; [|by injection H2]. destruct (negb (cred_verified c)); [by injection H2|].
  apply run_bind_inr in H2 as (used & w5 & Hu & H2).
  apply run_isTotpCodeUsed in Hu as ->; [|done]. by injection H2.
Qed.

Definition totp_cred : UserCredential :=
  mkUserCredential "cred-1" "user-1" "totp" "BASE32" None "SHA1" 6 30 true.
Definition totp_world : World := with_rows TUserCredential [totp_cred] world1.

Example verifyTotp_no_replay_witness :
  run (verifyTotp (E:=test_env) "user-1" "123456") totp_world =
    (inr true, (run (verifyTotp (E:=test_env) "user-1" "123456") totp_world).2) /\
  forall b w2,
    run (verifyTotp (E:=test_env) "user-1" "123456")
      (with_now 1000030000 (run (verifyTotp (E:=test_env) "user-1" "123456") totp_world).2) =
      (inr b, w2) -> b = false.
Proof.
  assert (H : run (verifyTotp (E:=test_env) "user-1" "123456") totp_world =
    (inr true, (run (verifyTotp (E:=test_env) "user-1" "123456") totp_world).2)) by reflexivity.
  split; [exact H|]. intros b w2.
  apply (verifyTotp_no_replay (E:=test_env) "user-1" "123456" totp_world _ 1000030000 b w2 H);
    vm_compute; congruence.
Defined.

(** ** Claims: recovery codes and challenges *)

Section Claims.
Context {E : Env}.

(** The unused recovery codes a typed code matches. *)
Definition matching_code (userId code : string) (c : RecoveryCode) : nat :=
  if (rc_userId c === userId) && (rc_codeHash c === sha256 (strip_spaces (to_lower code))) &&
     negb (rc_used c) then 1 else 0.

Definition any {A} : list A -> Prop := fun _ => True.

Lemma verifyRecoveryCode_claims userId code :
  claims (units TRecoveryCode (matching_code userId code)) (fun w => any (rows TRecoveryCode w))
    (fun c b => b = true -> c = true) false (verifyRecoveryCode userId code).
Proof.
  unfold verifyRecoveryCode. cbv zeta. apply (claims_update_many TRecoveryCode _ any); [done|..].
  - intros c rs _ _ Hp. unfold matching_code. rewrite Hp. simpl.
    rewrite andb_false_r. lia.
  - done.
  - done.
Qed.

(** The guesses left on a challenge. *)
Definition attempts_left (token : string) (a : PendingAction) : nat :=
  if is_challenge token a then Z.to_nat (MAX_MFA_ATTEMPTS - pa_attempts a) else 0.
(** The challenge itself. *)
Definition challenge_rows (token : string) (a : PendingAction) : nat :=
  if is_challenge token a then 1 else 0.

Notation Inv := (fun w : World => any (rows TPendingAction w)).

Lemma validateAttempt_claims token :
  claims (units TPendingAction (attempts_left token)) Inv
    (fun c o => bool_decide (is_Some o) = true -> c = true) false
    (validateMfaChallengeWithAttemptCheck token).
Proof.
  unfold validateMfaChallengeWithAttemptCheck.
  apply claims_bind_stable; [by apply (units_keeps [] TPendingAction _ any), date_now_footprint|].
  intros now. apply (claims_update_many TPendingAction _ any); [done|..].
  - intros a rs _ _ [[Hc _]%andb_true_iff Ha%Z.ltb_lt]%andb_true_iff. unfold attempts_left.
    change (is_challenge token (set_attempts _ a)) with (is_challenge token a). rewrite Hc.
    simpl pa_attempts. lia.
  - cbn [Z.eqb]. apply claims_bind_stable; [|done].
    by apply (units_delete_many_keeps TPendingAction _ any).
  - intros n Hn. rewrite (proj2 (Z.eqb_neq _ _)) by lia.
    apply claims_stable; [|done]. apply (units_keeps [] TPendingAction _ any); [done|]. footprint.
Qed.

Lemma consumeMfaChallenge_claims token c :
  claims (units TPendingAction (challenge_rows token)) Inv
    (fun c b => b = true -> c = true) c (consumeMfaChallenge token).
Proof.
  apply (claims_delete_many TPendingAction _ any); [done|..].
  - intros a rs _ _ Hp. unfold challenge_rows. by rewrite Hp.
  - done.
  - done.
Qed.

Lemma validateAttempt_keeps_challenge token :
  stable (keeps (units TPendingAction (challenge_rows token)) Inv)
    (validateMfaChallengeWithAttemptCheck token).
Proof.
  unfold validateMfaChallengeWithAttemptCheck.
  apply stable_bind; [by apply (units_keeps [] TPendingAction _ any), date_now_footprint|].
  intros now. apply stable_bind.
  { apply (units_update_many_keeps TPendingAction _ any); [done|]. intros x. unfold challenge_rows.
    by change (is_challenge token (set_attempts _ x)) with (is_challenge token x). }
  intros n. case_match.
  - apply stable_bind; [by apply (units_delete_many_keeps TPendingAction _ any)|done].
  - apply (units_keeps [] TPendingAction _ any); [done|]. footprint.
Qed.

Lemma consumeMfaChallenge_keeps_attempts token :
  stable (keeps (units TPendingAction (attempts_left token)) Inv) (consumeMfaChallenge token).
Proof. apply stable_bind; [by apply (units_delete_many_keeps TPendingAction _ any)|done]. Qed.
End Claims.

(** A recovery code is accepted at most once per stored unused code, however
    many requests present it at the same time and whatever else is going on. *)
Theorem recovery_code_single_use {E : Env} userId code env w w' n pool :
  let unused := units TRecoveryCode (matching_code userId code) in
  (forall a b, env a b -> (unused b <= unused a)%nat) ->
  psteps env (w, replicate n (verifyRecoveryCode userId code)) (w', pool) ->
  (winners id pool <= unused w)%nat.
Proof.
  intros unused Henv Hs.
  refine (winners_bounded unused (fun w => any (rows TRecoveryCode w)) env
    (fun a b H Ha => conj I (Henv a b H)) id w w' _ pool I _ Hs).
  apply Forall_replicate, verifyRecoveryCode_claims.
Qed.

Definition recovery_world : World :=
  with_rows TRecoveryCode [mkRecoveryCode "rc-1" "user-1" (sha256 (E:=test_env) "ab12cd34") false] world1.

Example recovery_code_single_use_witness :
  (winners id (schedule [1; 0; 2]%nat
     (recovery_world, replicate 3 (verifyRecoveryCode (E:=test_env) "user-1" "AB12 CD34"))).2 <= 1)%nat.
Proof.
  refine (recovery_code_single_use (E:=test_env) "user-1" "AB12 CD34" (fun a b => a = b)
    recovery_world _ 3 _ _ _).
  - by intros a b ->.
  - rewrite <- surjective_pairing. apply schedule_psteps.
Defined.

(** ** What a second-factor answer proves *)

Section Evidence.
Context {E : Env}.

Definition totp_evidence (userId code : string) (w : World) : Prop :=
  exists cred, cred ∈ rows TUserCredential w /\
    cred_userId cred = userId /\ cred_type cred = "totp" /\ cred_verified cred = true /\
    is_Some (totp_validate cred code (w_now w)).

Definition recovery_evidence (userId code : string) (w w' : World) : Prop :=
  exists c, c ∈ rows TRecoveryCode w /\ rc_userId c = userId /\
    rc_codeHash c = sha256 (strip_spaces (to_lower code)) /\ rc_used c = false /\
    set_rc_used true c ∈ rows TRecoveryCode w'.

Lemma verifyTotp_evidence userId code w w' :
  run (verifyTotp userId code) w = (inr true, w') -> totp_evidence userId code w.
Proof.
  intros (w1 & cred & _ & _ & Hin & Hty & Hv & Hd)%run_verifyTotp_true.
  apply andb_true_iff in Hty as [Hu%bool_decide_eq_true Ht%bool_decide_eq_true].
  exists cred. auto.
Qed.

Lemma verifyRecoveryCode_evidence userId code w w' :
  run (verifyRecoveryCode userId code) w = (inr true, w') -> recovery_evidence userId code w w'.
Proof.
  unfold verifyRecoveryCode. cbv zeta. intros H.
  apply run_bind_inr in H as (n & w1 & H & Hb). run_stmt_inv H.
  injection Hb as Hn <-. apply Z.ltb_lt in Hn.
  set (p := fun c : RecoveryCode => _) in *.
  destruct (List.filter p (rows TRecoveryCode w)) as [|c l] eqn:Hf.
  { change (n = Z.of_nat (length (List.filter p (rows TRecoveryCode w)))) in H.
    rewrite Hf in H. simpl in H. lia. }
  assert (Hc : c ∈ List.filter p (rows TRecoveryCode w)) by (rewrite Hf; set_solver).
  apply elem_of_filter_list in Hc as [Hp Hin]. pose proof Hp as Hp'. unfold p in Hp'.
  apply andb_true_iff in Hp' as [[Hu%bool_decide_eq_true Hh%bool_decide_eq_true]%andb_true_iff
    Hused%negb_true_iff].
  exists c. repeat split; [done..|]. rewrite rows_with_rows_eq.
  apply list_elem_of_fmap. exists c. by rewrite Hp.
Qed.
(** No second factor: no verified credential of a second-factor type. *)
Definition no_factor (userId : string) (w : World) : Prop :=
  forall c, c ∈ rows TUserCredential w -> cred_userId c = userId -> cred_verified c = true ->
    cred_type c ∉ SECOND_FACTOR_TYPES.

Lemma run_isMfaEnabled_inr userId w b w' :
  run (isMfaEnabled userId) w = (inr b, w') -> w' = w /\ (b = false <-> no_factor userId w).
Proof.
  unfold isMfaEnabled, getEnrolledFactors. intros H.
  apply run_bind_inr in H as (fs & w1 & Hf & H). apply run_bind_inr in Hf as (cs & w2 & Hc & Hf).
  run_stmt_inv Hc. apply run_ret_inr in Hf as [<- <-], H as [<- <-]. split; [done|].
  rewrite negb_false_iff, bool_decide_eq_true. unfold no_factor. split.
  - intros Hnil c Hin Hu Hv Ht.
    assert (Hx : cred_type c ∈ List.filter (fun t => existsb (fun c => cred_type c === t) cs) SECOND_FACTOR_TYPES).
    { apply elem_of_filter_list. split; [|done]. apply existsb_exists. exists c.
      split; [|by apply bool_decide_eq_true]. apply list_elem_of_In. rewrite Hc. apply elem_of_filter_list.
      split; [|done]. rewrite Hv, (proj2 (includes_true _ _) Ht). by rewrite bool_decide_eq_true_2. }
    rewrite Hnil in Hx. by apply elem_of_nil in Hx.
  - intros Hno. destruct (List.filter _ SECOND_FACTOR_TYPES) as [|t l] eqn:Hl; [done|].
    assert (Hx : t ∈ List.filter (fun t => existsb (fun c => cred_type c === t) cs) SECOND_FACTOR_TYPES)
      by (rewrite Hl; set_solver).
    apply elem_of_filter_list in Hx as [(c & Hin%list_elem_of_In & <-%bool_decide_eq_true)%existsb_exists Ht].
    rewrite Hc in Hin. apply elem_of_filter_list in Hin as [Hp Hin].
    apply andb_true_iff in Hp as [[Hu%bool_decide_eq_true Hv]%andb_true_iff _].
    by destruct (Hno c Hin Hu Hv).
Qed.

Lemma run_isMfaRequired_inr realm userId w b w' :
  run (isMfaRequired realm userId) w = (inr b, w') -> w' = w /\
  (b = false -> no_factor userId w /\ realm_mfaRequired realm = false).
Proof.
  unfold isMfaRequired. destruct (realm_mfaRequired realm); [intros H; by injection H as <- <-|].
  intros [-> H]%run_isMfaEnabled_inr. split; [done|]. intros Hb. split; [by apply H | done].
Qed.
End Evidence.

(** A second factor is accepted only on evidence of that user: an
    authenticator code that validates against a verified TOTP credential, a
    recovery code that was unused and is now used up, or a text-message code that
    [verifyCode] accepts for the realm, purpose and binding of the input. *)
Theorem verifySecondFactor_sound {E : Env} userId input w factor w' :
  run (verifySecondFactor userId input) w = (inr (Some factor), w') ->
  let code := js_trim (input_code input) in
  code <> EmptyString /\
  ((factor = "totp" /\ totp_evidence userId code w) \/
   (factor = "recovery" /\ recovery_evidence userId code w w') \/
   (factor = "sms" /\ exists raw realmId purpose binding phone,
      input = SmsInput raw realmId purpose binding /\
      run (verifyCode realmId userId purpose binding (Some code)) w = (inr (Verified phone), w'))).
Proof.
  unfold verifySecondFactor. cbv zeta. intros H.
  destruct (bool_decide_reflect (js_trim (input_code input) = EmptyString)) as [|Hne]; [done|].
  split; [done|]. set (code := js_trim (input_code input)) in *.
  assert (Hrec : forall w0, rows TRecoveryCode w0 = rows TRecoveryCode w ->
    run (ok <- verifyRecoveryCode userId code ;;
         Ret (if (ok : bool) then Some "recovery" else None))%prog w0 = (inr (Some factor), w') ->
    factor = "recovery" /\ recovery_evidence userId code w w').
  { intros w0 Hw0 Hr. apply run_bind_inr in Hr as (ok & w1 & Hok & Hr).
    destruct ok; [|done]. injection Hr as <- <-. split; [done|].
    apply verifyRecoveryCode_evidence in Hok. unfold recovery_evidence in *. by rewrite <- Hw0. }
  destruct input as [c|c|c|c realmId purpose binding].
  - apply run_bind_inr in H as (ok & w1 & Hok & H). destruct ok; [|done].
    injection H as <- <-. left. split; [done|]. by eapply verifyTotp_evidence.
  - right; left. by apply (Hrec w).
  - apply run_bind_inr in H as (ok & w1 & Hok & H). destruct ok.
    + injection H as <- <-. left. split; [done|]. by eapply verifyTotp_evidence.
    + right; left. apply (Hrec w1); [|exact H].
      pose proof (stable_run (frame [TUsedTotpCode]) _ w
        (verifyTotp_footprint [TUsedTotpCode] userId code eq_refl)) as Hs.
      rewrite Hok in Hs. apply Hs. set_solver.
  - right; right. apply run_bind_inr in H as (r & w1 & Hr & H).
    destruct r as [phone|]; [|done]. injection H as <- <-. split; [done|].
    by exists c, realmId, purpose, binding, phone.
Qed.

Example verifySecondFactor_sound_witness :
  let w' := (run (verifySecondFactor (E:=test_env) "user-1" (OtpInput "AB12 CD34 ")) recovery_world).2 in
  run (verifySecondFactor (E:=test_env) "user-1" (OtpInput "AB12 CD34 ")) recovery_world =
    (inr (Some "recovery"), w') /\
  recovery_evidence (E:=test_env) "user-1" "AB12 CD34" recovery_world w'.
Proof.
  intros w'.
  assert (H : run (verifySecondFactor (E:=test_env) "user-1" (OtpInput "AB12 CD34 ")) recovery_world =
    (inr (Some "recovery"), w')) by reflexivity.
  split; [exact H|].
  destruct (verifySecondFactor_sound (E:=test_env) "user-1" _ _ _ _ H) as [_ [[Hf _]|[[_ Hr]|[Hf _]]]];
    [discriminate Hf | exact Hr | discriminate Hf].
Defined.
