(* ===== verification/Groups.v ===== *)
(** * Groups: groups, realm roles and inherited roles

    src/src/groups, the realm roles of src/src/roles, and the walk over group
    ancestors that both the token issuance of src/src/auth and
    [GroupsService.getUserGroupRoles] perform. *)

From S2P Require Import Prelude Prog Json Schema Store StoreFacts Testbed.

(** The role rows joined with the client they belong to. *)
Record RoleWithClient := mkRoleWithClient {
  rwc_id : string; rwc_name : string; rwc_clientId : option string; rwc_client : option string
}.

(** [include: { client: true }]: the client's [clientId] string. *)
Definition with_client (w : World) (r : Role) : RoleWithClient :=
  mkRoleWithClient (role_id r) (role_name r) (role_clientId r)
    (match role_clientId r with
     | Some c => client_clientId <$> List.find (fun x => client_id x === c) (rows TClient w)
     | None => None
     end).

Definition roles_of (w : World) (roleIds : list string) : list RoleWithClient :=
  flat_map (fun i => match List.find (fun r => role_id r === i) (rows TRole w) with
                     | Some r => [with_client w r]
                     | None => []
                     end) roleIds.

(** A group with [include: { groupRoles: { include: { role: ... } } }]. *)
Definition group_at (w : World) (groupId : string) : option (Group * list RoleWithClient) :=
  match List.find (fun g => group_id g === groupId) (rows TGroup w) with
  | Some g =>
      Some (g, roles_of w (map gr_roleId
                 (List.filter (fun m => gr_groupId m === groupId) (rows TGroupRole w))))
  | None => None
  end.

Section Walk.

(** [walkGroup] / [collectGroupRoles]: the group's roles, then its parent's.
    [fuel] bounds the recursion; see [walkGroup_spec]. *)
Fixpoint walkGroup (fuel : nat) (groupId : string) (visited : list string)
    (allRoles : list RoleWithClient) : M (list string * list RoleWithClient) :=
  if includes groupId visited then Ret (visited, allRoles) else
  match fuel with
  | 0%nat => Throw (PlainError "walkGroup")
  | S fuel' =>
      (let visited := visited ++ [groupId] in
       group <- query (fun w => group_at w groupId) ;;
       match group with
       | None => Ret (visited, allRoles)
       | Some (g, roles) =>
           let allRoles := allRoles ++ roles in
           if truthy (group_parentId g)
           then walkGroup fuel' (group_parentId g ?? EmptyString) visited allRoles
           else Ret (visited, allRoles)
       end)%prog
  end.

(** [for (const m of memberships) await walkGroup(m.groupId)]. *)
Fixpoint walkGroups (fuel : nat) (groupIds : list string) (visited : list string)
    (allRoles : list RoleWithClient) : M (list string * list RoleWithClient) :=
  match groupIds with
  | [] => Ret (visited, allRoles)
  | g :: groupIds' =>
      (r <- walkGroup fuel g visited allRoles ;;
       walkGroups fuel groupIds' r.1 r.2)%prog
  end.

(** One more than the number of groups: every recursive call visits another
    one. *)
Definition walk_fuel : M nat := atom (fun w => (S (length (rows TGroup w)), w)).

Definition resolveGroupRoles (userId : string) : M (list RoleWithClient) :=
  (memberships <- find_many TUserGroup (fun m => ug_userId m === userId) ;;
   match memberships with
   | [] => Ret []
   | _ =>
       fuel <- walk_fuel ;;
       r <- walkGroups fuel (map ug_groupId memberships) [] [] ;;
       Ret r.2
   end)%prog.

Definition getUserGroupRoles (userId : string) : M (list RoleWithClient) :=
  (memberships <- find_many TUserGroup (fun m => ug_userId m === userId) ;;
   fuel <- walk_fuel ;;
   r <- walkGroups fuel (map ug_groupId memberships) [] [] ;;
   Ret r.2)%prog.
End Walk.

(** ** GroupsService *)

(** A double quote. *)
Definition dq : string := String (ascii_of_nat 34) EmptyString.

Section Service.
Context {E : Env}.

Definition in_realm_group (realm : Realm) (groupId : string) (g : Group) : bool :=
  (group_id g === groupId) && (group_realmId g === realm_id realm).
Definition in_realm_user (realm : Realm) (userId : string) (u : User) : bool :=
  (user_id u === userId) && (user_realmId u === realm_id realm).

Definition create_group (realm : Realm) (name : string) (parentId : option string) : M Group :=
  (existing <- find_first TGroup (fun g =>
     (group_realmId g === realm_id realm) && (group_name g === name)) ;;
   match existing with
   | Some _ => Throw (Conflict ("Group " +:+ dq +:+ name +:+ dq +:+ " already exists"))
   | None =>
       (if truthy parentId then
          parent <- find_first TGroup (in_realm_group realm (parentId ?? EmptyString)) ;;
          match parent with
          | None => Throw (NotFound "Parent group not found")
          | Some _ => Ret tt
          end
        else Ret tt) ;;;
       create TGroup (fun id _ => mkGroup id (realm_id realm) name parentId)
   end)%prog.

(** An omitted field of the DTO leaves the column alone. *)
Definition update_group (realm : Realm) (groupId : string) (name parentId : option string)
  : M Group :=
  (group <- find_first TGroup (in_realm_group realm groupId) ;;
   match group with
   | None => Throw (NotFound "Group not found")
   | Some _ =>
       if bool_decide (parentId = Some groupId)
       then Throw (Conflict "A group cannot be its own parent")
       else update_checked TGroup (fun g => group_id g === groupId)
              (fun g => mkGroup (group_id g) (group_realmId g) (name ?? group_name g)
                 (match parentId with Some p => Some p | None => group_parentId g end))
   end)%prog.

Definition delete_group (realm : Realm) (groupId : string) : M unit :=
  (group <- find_first TGroup (in_realm_group realm groupId) ;;
   match group with
   | None => Throw (NotFound "Group not found")
   | Some _ => delete_one TGroup (fun g => group_id g === groupId) ;;; Ret tt
   end)%prog.

Definition addUserToGroup (realm : Realm) (userId groupId : string) : M unit :=
  (user <- find_first TUser (in_realm_user realm userId) ;;
   group <- find_first TGroup (in_realm_group realm groupId) ;;
   match user, group with
   | None, _ => Throw (NotFound "User not found")
   | _, None => Throw (NotFound "Group not found")
   | Some _, Some _ =>
       upsert TUserGroup (fun m => (ug_userId m === userId) && (ug_groupId m === groupId))
         (fun _ _ => mkUserGroup userId groupId) (fun m => m) ;;;
       Ret tt
   end)%prog.

Definition removeUserFromGroup (realm : Realm) (userId groupId : string) : M unit :=
  (delete_many TUserGroup (fun m => (ug_userId m === userId) && (ug_groupId m === groupId)) ;;;
   Ret tt)%prog.

Definition realm_role_in (realm : Realm) (names : list string) (r : Role) : bool :=
  (role_realmId r === realm_id realm) && bool_decide (role_clientId r = None) &&
  includes (role_name r) names.

Definition missing_roles (roles : list Role) (names : list string) : list string :=
  List.filter (fun n => negb (includes n (map role_name roles))) names.

Definition assignRolesToGroup (realm : Realm) (groupId : string) (roleNames : list string)
  : M (list string) :=
  (group <- find_first TGroup (in_realm_group realm groupId) ;;
   match group with
   | None => Throw (NotFound "Group not found")
   | Some _ =>
       roles <- find_many TRole (realm_role_in realm roleNames) ;;
       match missing_roles roles roleNames with
       | [] =>
           create_many TGroupRole
             (fun r x => (gr_groupId x === gr_groupId r) && (gr_roleId x === gr_roleId r))
             (map (fun role => mkGroupRole groupId (role_id role)) roles) ;;;
           Ret (map role_name roles)
       | missing => Throw (NotFound ("Roles not found: " +:+ js_join ", " missing))
       end
   end)%prog.

Definition removeRolesFromGroup (realm : Realm) (groupId : string) (roleNames : list string)
  : M unit :=
  (roles <- find_many TRole (realm_role_in realm roleNames) ;;
   delete_many TGroupRole (fun m =>
     (gr_groupId m === groupId) && includes (gr_roleId m) (map role_id roles)) ;;;
   Ret tt)%prog.

(** ** RolesService, realm roles *)

Definition createRealmRole (realm : Realm) (name : string) : M Role :=
  (existing <- find_first TRole (realm_role_in realm [name]) ;;
   match existing with
   | Some _ => Throw (Conflict ("Role '" +:+ name +:+ "' already exists"))
   | None => create TRole (fun id _ => mkRole id (realm_id realm) None name)
   end)%prog.

Definition updateRealmRole (realm : Realm) (roleName : string) (name : option string) : M Role :=
  (role <- find_first TRole (realm_role_in realm [roleName]) ;;
   match role with
   | None => Throw (NotFound ("Role '" +:+ roleName +:+ "' not found"))
   | Some r =>
       (if truthy name && ((name ?? EmptyString) !== roleName) then
          existing <- find_first TRole (realm_role_in realm [name ?? EmptyString]) ;;
          match existing with
          | Some _ => Throw (Conflict ("Role '" +:+ (name ?? EmptyString) +:+ "' already exists"))
          | None => Ret tt
          end
        else Ret tt) ;;;
       update_checked TRole (fun x => role_id x === role_id r)
         (fun x => match name with Some n => set_role_name n x | None => x end)
   end)%prog.

Definition deleteRealmRole (realm : Realm) (roleName : string) : M unit :=
  (role <- find_first TRole (realm_role_in realm [roleName]) ;;
   match role with
   | None => Throw (NotFound ("Role '" +:+ roleName +:+ "' not found"))
   | Some r => delete_one TRole (fun x => role_id x === role_id r) ;;; Ret tt
   end)%prog.

Definition assignRealmRoles (realm : Realm) (userId : string) (names : list string)
  : M (list string) :=
  match names with
  | [] => Throw (BadRequest "At least one role name must be provided")
  | _ =>
    (user <- find_first TUser (in_realm_user realm userId) ;;
     match user with
     | None => Throw (NotFound "User not found")
     | Some _ =>
         roles <- find_many TRole (realm_role_in realm names) ;;
         match missing_roles roles names with
         | [] =>
             create_many TUserRole
               (fun r x => (ur_userId x === ur_userId r) && (ur_roleId x === ur_roleId r))
               (map (fun role => mkUserRole userId (role_id role)) roles) ;;;
             Ret (map role_name roles)
         | missing => Throw (NotFound ("Roles not found: " +:+ js_join ", " missing))
         end
     end)%prog
  end.

Definition removeUserRealmRoles (realm : Realm) (userId : string) (names : list string)
  : M (list string) :=
  match names with
  | [] => Throw (BadRequest "At least one role name must be provided")
  | _ =>
    (user <- find_first TUser (in_realm_user realm userId) ;;
     match user with
     | None => Throw (NotFound "User not found")
     | Some _ =>
         roles <- find_many TRole (realm_role_in realm names) ;;
         delete_many TUserRole (fun m =>
           (ur_userId m === userId) && includes (ur_roleId m) (map role_id roles)) ;;;
         Ret names
     end)%prog
  end.
End Service.

Lemma walkGroup_footprint ts fuel g v a : stable (frame ts) (walkGroup fuel g v a).
Proof.
  revert g v a. induction fuel as [|fuel IH]; intros g v a; simpl; case_match; try done.
  apply (stable_bind _ (query _)); [footprint|]. intros [[g' roles]|]; [|done].
  case_match; [apply IH | done].
Qed.
Lemma walkGroups_footprint ts fuel gs v a : stable (frame ts) (walkGroups fuel gs v a).
Proof.
  revert v a. induction gs as [|g gs IH]; intros v a; simpl; [done|].
  apply stable_bind; [apply walkGroup_footprint | intros; apply IH].
Qed.
Lemma resolveGroupRoles_footprint ts u : stable (frame ts) (resolveGroupRoles u).
Proof.
  unfold resolveGroupRoles, walk_fuel. apply stable_bind; [footprint|]. intros [|m ms]; [done|].
  apply stable_bind; [apply stable_atom; simpl; reflexivity|]. intros fuel.
  apply stable_bind; [apply walkGroups_footprint | done].
Qed.
#[export] Hint Resolve resolveGroupRoles_footprint : footprint.

(** ** The walk visits exactly the ancestors *)

Section Ancestors.
Variable w : World.
Hypothesis Hup : w_db_up w = true.

Definition group_roles (g : string) : list RoleWithClient :=
  match group_at w g with Some (_, roles) => roles | None => [] end.
Definition parent_of (g : string) : option string :=
  match group_at w g with
  | Some (gr, _) => if truthy (group_parentId gr) then group_parentId gr else None
  | None => None
  end.

(** [ancestor g a]: [a] is [g], its parent, its parent's parent, ... *)
Inductive ancestor : string -> string -> Prop :=
| ancestor_refl g : ancestor g g
| ancestor_step g p a : parent_of g = Some p -> ancestor p a -> ancestor g a.

(** The parents of [visited] are visited, but possibly for [pending]. *)
Definition closed_but (pending : string) (visited : list string) : Prop :=
  forall x p, x ∈ visited -> parent_of x = Some p -> p ∈ visited \/ p = pending.
Definition closed (visited : list string) : Prop :=
  forall x p, x ∈ visited -> parent_of x = Some p -> p ∈ visited.

Definition remaining (visited : list string) : nat :=
  length (List.filter (fun g => negb (includes (group_id g) visited)) (rows TGroup w)).

Lemma filter_length_lt {A} (p q : A -> bool) l y :
  (forall x, q x = true -> p x = true) -> y ∈ l -> p y = true -> q y = false ->
  (length (List.filter q l) < length (List.filter p l))%nat.
Proof.
  intros H Hy Hp Hq. induction l as [|x l IH]; [by apply elem_of_nil in Hy|]. simpl.
  apply elem_of_cons in Hy as [<-|Hy].
  - rewrite Hp, Hq. simpl. pose proof (filter_length_mono p q l H). lia.
  - specialize (IH Hy). destruct (q x) eqn:Hx; [rewrite (H x Hx); simpl; lia | destruct (p x); simpl; lia].
Qed.

Lemma remaining_app visited new : (remaining (visited ++ new) <= remaining visited)%nat.
Proof.
  apply filter_length_mono. intros g. rewrite !negb_true_iff, !includes_false. set_solver.
Qed.

Lemma group_at_Some g gr roles :
  group_at w g = Some (gr, roles) -> gr ∈ rows TGroup w /\ group_id gr = g.
Proof.
  unfold group_at. destruct (List.find (fun g0 => group_id g0 === g) (rows TGroup w)) as [x|] eqn:Hf; [|done].
  intros [= <- _]. apply find_elem in Hf as [Hin Hid%bool_decide_eq_true]. done.
Qed.

Lemma remaining_visit g gr roles visited :
  group_at w g = Some (gr, roles) -> g ∉ visited ->
  (remaining (visited ++ [g]) < remaining visited)%nat.
Proof.
  intros [Hin Hid]%group_at_Some Hg. apply (filter_length_lt _ _ _ gr); [|done|..].
  - intros x. rewrite !negb_true_iff, !includes_false. set_solver.
  - rewrite negb_true_iff, includes_false. by rewrite Hid.
  - rewrite negb_false_iff, includes_true. rewrite Hid. set_solver.
Qed.

Lemma walkGroup_spec fuel g visited acc :
  (remaining visited < fuel)%nat -> NoDup visited -> closed_but g visited ->
  exists new,
    run (walkGroup fuel g visited acc) w =
      (inr (visited ++ new, acc ++ flat_map group_roles new), w) /\
    NoDup (visited ++ new) /\ closed (visited ++ new) /\ g ∈ visited ++ new /\
    forall x, x ∈ new -> ancestor g x.
Proof.
  revert g visited acc. induction fuel as [|fuel IH]; intros g visited acc Hf Hnd Hcl; [lia|].
  cbn [walkGroup]. destruct (includes g visited) eqn:Hg.
  { apply includes_true in Hg. exists []. rewrite !app_nil_r. split; [done|].
    split; [done|]. split; [|split; [done|set_solver]].
    intros x p Hx Hp. destruct (Hcl x p Hx Hp) as [?| ->]; done. }
  apply includes_false in Hg. cbv zeta.
  rewrite (run_bind_ok _ _ _ _ _ (run_query (fun w => group_at w g) w Hup)). cbv beta.
  assert (Hnd' : NoDup (visited ++ [g])).
  { apply NoDup_app. split; [done|]. split; [set_solver|apply NoDup_singleton]. }
  assert (Hroles : forall gr roles, group_at w g = Some (gr, roles) -> group_roles g = roles)
    by (intros gr roles H; unfold group_roles; by rewrite H).
  destruct (group_at w g) as [[gr roles]|] eqn:Hat.
  - destruct (truthy (group_parentId gr)) eqn:Ht.
    + assert (Hpar : parent_of g = Some (group_parentId gr ?? EmptyString)).
      { unfold parent_of. rewrite Hat, Ht. by destruct (group_parentId gr). }
      destruct (IH (group_parentId gr ?? EmptyString) (visited ++ [g]) (acc ++ roles))
        as (new & Hrun & Hnd2 & Hcl2 & Hin2 & Hanc).
      * pose proof (remaining_visit _ _ _ _ Hat Hg). lia.
      * done.
      * intros x p Hx Hp. apply elem_of_app in Hx as [Hx|Hx%list_elem_of_singleton].
        -- destruct (Hcl x p Hx Hp) as [?| ->]; set_solver.
        -- subst x. right. congruence.
      * exists (g :: new). rewrite Hrun. simpl flat_map. rewrite (Hroles _ _ eq_refl).
        rewrite <- !app_assoc in *. simpl. split; [done|]. split; [done|]. split; [done|].
        split; [set_solver|]. intros x [->|Hx]%elem_of_cons; [constructor|].
        eapply ancestor_step; [exact Hpar | by apply Hanc].
    + exists [g]. simpl flat_map. rewrite (Hroles _ _ eq_refl), app_nil_r.
      split; [done|]. split; [done|]. split; [|split; [set_solver|]].
      * intros x p Hx Hp. apply elem_of_app in Hx as [Hx|Hx%list_elem_of_singleton].
        -- destruct (Hcl x p Hx Hp) as [?| ->]; set_solver.
        -- subst x. unfold parent_of in Hp. by rewrite Hat, Ht in Hp.
      * intros x ->%list_elem_of_singleton. constructor.
  - exists [g]. simpl flat_map. unfold group_roles. rewrite Hat, !app_nil_r.
    split; [done|]. split; [done|]. split; [|split; [set_solver|]].
    + intros x p Hx Hp. apply elem_of_app in Hx as [Hx|Hx%list_elem_of_singleton].
      * destruct (Hcl x p Hx Hp) as [?| ->]; set_solver.
      * subst x. unfold parent_of in Hp. by rewrite Hat in Hp.
    + intros x ->%list_elem_of_singleton. constructor.
Qed.

Lemma walkGroups_spec fuel gs visited acc :
  (remaining visited < fuel)%nat -> NoDup visited -> closed visited ->
  exists new,
    run (walkGroups fuel gs visited acc) w =
      (inr (visited ++ new, acc ++ flat_map group_roles new), w) /\
    NoDup (visited ++ new) /\ closed (visited ++ new) /\
    (forall g, g ∈ gs -> g ∈ visited ++ new) /\
    forall x, x ∈ new -> exists g, g ∈ gs /\ ancestor g x.
Proof.
  revert visited acc. induction gs as [|g gs IH]; intros visited acc Hf Hnd Hcl.
  { exists []. rewrite !app_nil_r. repeat split; [done..| |]; set_solver. }
  destruct (walkGroup_spec fuel g visited acc Hf Hnd) as (new & Hrun & Hnd1 & Hcl1 & Hg & Hanc).
  { intros x p Hx Hp. left. by apply (Hcl x). }
  destruct (IH (visited ++ new) (acc ++ flat_map group_roles new))
    as (new2 & Hrun2 & Hnd2 & Hcl2 & Hgs & Hanc2); [|done..|].
  { pose proof (remaining_app visited new). lia. }
  exists (new ++ new2). simpl. rewrite (run_bind_ok _ _ _ _ _ Hrun). simpl fst. simpl snd.
  rewrite Hrun2, flat_map_app, !app_assoc. repeat split; [done..| |].
  - intros x [->|Hx]%elem_of_cons; [set_solver | by apply Hgs].
  - intros x [Hx|Hx]%elem_of_app; [exists g; set_solver|].
    destruct (Hanc2 x Hx) as (g' & ? & ?). exists g'. set_solver.
Qed.

Lemma closed_ancestor visited g a : closed visited -> ancestor g a -> g ∈ visited -> a ∈ visited.
Proof. intros Hcl Ha. induction Ha as [|g p a Hp Ha IH]; eauto. Qed.
End Ancestors.

(** C20. The roles a user inherits from groups are exactly those of the groups
    the user belongs to and of their ancestors, each group visited once; the walk
    ends with a result on every database that answers, cyclic group hierarchies
    included, and both implementations (token issuance and GroupsService) return
    the same roles. *)
Theorem resolveGroupRoles_ancestors userId w :
  w_db_up w = true ->
  exists visited,
    run (resolveGroupRoles userId) w = (inr (flat_map (group_roles w) visited), w) /\
    run (getUserGroupRoles userId) w = (inr (flat_map (group_roles w) visited), w) /\
    NoDup visited /\
    forall g, g ∈ visited <->
      exists m, m ∈ rows TUserGroup w /\ ug_userId m = userId /\ ancestor w (ug_groupId m) g.
Proof.
  intros Hup. set (ms := List.filter (fun m => ug_userId m === userId) (rows TUserGroup w)).
  destruct (walkGroups_spec w Hup (S (length (rows TGroup w))) (map ug_groupId ms) [] [])
    as (visited & Hrun & Hnd & Hcl & Hgs & Hanc).
  { apply Nat.lt_succ_r, filter_length_le. }
  { constructor. }
  { intros x p Hx. by apply elem_of_nil in Hx. }
  exists visited.
  assert (Hg : run (getUserGroupRoles userId) w = (inr (flat_map (group_roles w) visited), w)).
  { unfold getUserGroupRoles.
    rewrite (run_bind_ok _ _ _ _ _ (run_find_many TUserGroup _ w Hup)).
    unfold walk_fuel. rewrite (run_bind_ok _ _ _ _ _ (run_atom _ w)). fold ms.
    rewrite (run_bind_ok _ _ _ _ _ Hrun). done. }
  split; [|split; [exact Hg|split; [done|]]].
  - rewrite <- Hg. unfold resolveGroupRoles, getUserGroupRoles.
    rewrite !(run_bind_ok _ _ _ _ _ (run_find_many TUserGroup _ w Hup)).
    by destruct (List.filter _ _).
  - simpl in Hgs, Hcl. intros g. split.
    + intros (x & Hx & Hax)%Hanc. apply list_elem_of_fmap in Hx as (m & -> & Hm).
      apply elem_of_filter_list in Hm as [Hu%bool_decide_eq_true Hm]. eauto.
    + intros (m & Hm & Hu & Ha). apply (closed_ancestor w visited _ _ Hcl Ha), Hgs.
      apply list_elem_of_fmap. exists m. split; [done|]. apply elem_of_filter_list.
      by rewrite bool_decide_eq_true.
Qed.

(** Two groups that are each other's parent. *)
Definition cyclic_world : World :=
  with_rows TUserGroup [mkUserGroup "user-1" "g1"]
    (with_rows TGroup [mkGroup "g1" "realm-1" "a" (Some "g2"); mkGroup "g2" "realm-1" "b" (Some "g1")]
      (with_rows TGroupRole [mkGroupRole "g2" "r1"]
        (with_rows TRole [mkRole "r1" "realm-1" None "admin"] world1))).

Example resolveGroupRoles_ancestors_witness :
  exists visited,
    run (resolveGroupRoles "user-1") cyclic_world =
      (inr (flat_map (group_roles cyclic_world) visited), cyclic_world) /\
    forall g, g ∈ visited <->
      exists m, m ∈ rows TUserGroup cyclic_world /\ ug_userId m = "user-1" /\
                ancestor cyclic_world (ug_groupId m) g.
Proof.
  destruct (resolveGroupRoles_ancestors "user-1" cyclic_world eq_refl) as (v & H1 & _ & _ & H2).
  exists v. split; [exact H1 | exact H2].
Defined.
