(* ===== verification/OAuth.v ===== *)
(** * OAuth: the authorization endpoint (src/src/oauth, src/src/common/redirect-uri.utils.ts) *)

From S2P Require Import Prelude Prog Json Schema Store StoreFacts Scopes Testbed.

(** ** redirect-uri.utils.ts *)

Definition matches_pattern (redirectUri pattern : string) : bool :=
  if ends_with "/*" pattern then
    let base := drop_last pattern in
    (redirectUri === drop_last base) || starts_with base redirectUri
  else pattern === redirectUri.

Definition matchesRedirectUri (redirectUri : string) (registeredUris : list string) : bool :=
  existsb (matches_pattern redirectUri) registeredUris.

(** ** OAuthService *)

Record AuthorizeParams := mkAuthorizeParams {
  ap_response_type : string; ap_client_id : string; ap_redirect_uri : string;
  ap_scope : option string; ap_state : option string;
  ap_code_challenge : option string; ap_code_challenge_method : option string;
  ap_nonce : option string; ap_acr_values : option string
}.

(** [SatisfiedAuthContext]. *)
Record AuthContext := mkAuthContext { ctx_acr : option string; ctx_amr : option (list string) }.

(** The redirect: the client's URI and the query parameters set on it. *)
Record Redirect := mkRedirect { rd_uri : string; rd_query : list (string * string) }.

Section Service.
Context {E : Env}.

Definition by_clientId (realm : Realm) (clientId : string) (c : Client) : bool :=
  (client_realmId c === realm_id realm) && (client_clientId c === clientId).

Definition validateAuthRequest (realm : Realm) (params : AuthorizeParams) : M Client :=
  (if ap_response_type params !== "code"
   then Throw (BadRequest "Only response_type=code is supported") else
   if (ap_client_id params === EmptyString) || (ap_redirect_uri params === EmptyString)
   then Throw (BadRequest "client_id and redirect_uri are required") else
   client <- find_first TClient (by_clientId realm (ap_client_id params)) ;;
   match client with
   | None => Throw (NotFound "Client not found")
   | Some client =>
       if negb (client_enabled client) then Throw (NotFound "Client not found") else
       if negb (matchesRedirectUri (ap_redirect_uri params) (client_redirectUris client))
       then Throw (BadRequest "Invalid redirect_uri") else
       if negb (includes "authorization_code" (client_grantTypes client))
       then Throw (BadRequest "Client does not support authorization_code grant") else
       if truthy (ap_code_challenge_method params) &&
          negb (bool_decide (ap_code_challenge_method params = Some "S256"))
       then Throw (BadRequest "Only S256 code_challenge_method is supported") else
       if (client_clientType client === PUBLIC) && negb (truthy (ap_code_challenge params))
       then Throw (BadRequest "PKCE (code_challenge) is required for public clients") else
       Ret client
   end)%prog.

Definition authorizeWithUser (realm : Realm) (user : User) (params : AuthorizeParams)
    (authContext : AuthContext) : M Redirect :=
  (client <- validateAuthRequest realm params ;;
   let requestedScopes := parseAndValidate (ap_scope params) in
   effectiveScopes <- getClientEffectiveScopes (client_id client) requestedScopes ;;
   let effectiveScope :=
     match effectiveScopes with [] => ap_scope params | _ => Some (toString effectiveScopes) end in
   code <- random_hex 32 ;;
   now <- date_now ;;
   create TAuthorizationCode (fun id _ =>
     mkAuthorizationCode id code (client_id client) (user_id user) (ap_redirect_uri params)
       effectiveScope (ap_code_challenge params) (ap_code_challenge_method params)
       (ap_nonce params) (ap_acr_values params) (ctx_acr authContext)
       (ctx_amr authContext ?? []) false (now + 60 * 1000)) ;;;
   Ret (mkRedirect (ap_redirect_uri params)
          (("code", code) ::
           if truthy (ap_state params) then [("state", ap_state params ?? EmptyString)] else [])))%prog.

Definition cleanupExpiredCodes : M unit :=
  (now <- date_now ;;
   delete_many TAuthorizationCode (fun c => ac_expiresAt c <? now) ;;;
   Ret tt)%prog.

Lemma validateAuthRequest_footprint ts r p : stable (frame ts) (validateAuthRequest r p).
Proof. unfold validateAuthRequest. footprint. Qed.
Lemma authorizeWithUser_footprint ts r u p a :
  covers [TAuthorizationCode] ts = true -> stable (frame ts) (authorizeWithUser r u p a).
Proof.
  intros H. apply (stable_frame_mono _ _ _ H). unfold authorizeWithUser.
  apply stable_bind; [apply validateAuthRequest_footprint|]. footprint.
Qed.

(** What a validated request guarantees. *)
Lemma run_validateAuthRequest_inr realm params w client w' :
  run (validateAuthRequest realm params) w = (inr client, w') ->
  w' = w /\ List.find (by_clientId realm (ap_client_id params)) (rows TClient w) = Some client /\
  ap_response_type params = "code" /\ client_enabled client = true /\
  matchesRedirectUri (ap_redirect_uri params) (client_redirectUris client) = true /\
  "authorization_code" ∈ client_grantTypes client /\
  (client_clientType client = PUBLIC -> truthy (ap_code_challenge params) = true) /\
  (truthy (ap_code_challenge_method params) = true ->
     ap_code_challenge_method params = Some "S256").
Proof.
  unfold validateAuthRequest. intros H.
  destruct (bool_decide_reflect (ap_response_type params = "code")) as [Hrt|]; [|done].
  simpl negb in H. cbv iota in H.
  destruct (_ || _); [done|]. apply run_bind_inr in H as (o & w1 & Hf & H). run_stmt_inv Hf.
  destruct o as [c|]; [|done].
  destruct (client_enabled c) eqn:Hen; [|done].
  destruct (matchesRedirectUri _ _) eqn:Hm; [|done].
  destruct (includes _ _) eqn:Hg; [|done]. apply includes_true in Hg.
  simpl negb in H. cbv iota in H.
  destruct (truthy (ap_code_challenge_method params)) eqn:Ht;
    destruct (bool_decide_reflect (ap_code_challenge_method params = Some "S256"));
    try done; simpl andb in H; cbv iota in H;
  (destruct (bool_decide_reflect (client_clientType c = PUBLIC));
   destruct (truthy (ap_code_challenge params)) eqn:Hc; try done;
   injection H as <- <-; repeat split; auto; try done).
Qed.

(** The code row an authorization stores and the redirect that carries it. *)
Lemma run_authorizeWithUser_inr realm user params ctx w redirect w' :
  run (authorizeWithUser realm user params ctx) w = (inr redirect, w') ->
  exists client row,
    run (validateAuthRequest realm params) w = (inr client, w) /\
    rows TAuthorizationCode w' = rows TAuthorizationCode w ++ [row] /\
    (forall c, c ∈ rows TAuthorizationCode w -> ac_code c <> ac_code row) /\
    ac_code row = to_hex (random_bytes 32 (w_draws w)) /\
    elem_of ("code", ac_code row) (rd_query redirect) /\
    ac_clientId row = client_id client /\ ac_userId row = user_id user /\
    ac_redirectUri row = ap_redirect_uri params /\ ac_codeChallenge row = ap_code_challenge params /\
    ac_used row = false /\ ac_expiresAt row = w_now w + 60 * 1000 /\
    frame [TAuthorizationCode] w w'.
Proof.
  intros H. assert (Hf : frame [TAuthorizationCode] w w').
  { eapply run_frame; [|exact H]. by apply authorizeWithUser_footprint. }
  unfold authorizeWithUser in H. apply run_bind_inr in H as (client & w1 & Hv & H).
  pose proof (run_validateAuthRequest_inr _ _ _ _ _ Hv) as [-> _].
  cbv zeta in H. unfold getClientEffectiveScopes, linked_scope_names in H.
  apply run_bind_inr in H as (scopes & w1 & Hs & H).
  apply run_bind_inr in Hs as (d & w2 & Hd & Hs). run_stmt_inv Hd.
  apply run_bind_inr in Hs as (o & w2 & Ho & Hs). run_stmt_inv Ho. injection Hs as _ <-.
  apply run_bind_inr in H as (code & w1 & Hc & H). run_stmt_inv Hc.
  apply run_bind_inr in H as (now & w1 & Hn & H). run_stmt_inv Hn. cbn [fst snd] in H.
  apply run_bind_inr in H as (row & w1 & Hr & H). run_stmt_inv Hr. injection H as <- <-.
  eexists client, _. split; [exact Hv|]. rewrite rows_with_rows_eq. split; [reflexivity|].
  simpl unique_ok in Hr. apply negb_true_iff in Hr.
  repeat split; try reflexivity; try apply Hf; [|apply elem_of_cons; by left].
  intros c Hc Heq. apply not_true_iff_false in Hr. apply Hr, existsb_exists. exists c.
  split; [by apply list_elem_of_In|]. by apply bool_decide_eq_true.
Qed.
End Service.

#[export] Hint Resolve validateAuthRequest_footprint authorizeWithUser_footprint : footprint.

(** A redirect URI is accepted exactly when a registered pattern is that URI,
    or is [base/*] and the URI is [base] itself or a path under [base/]: a
    wildcard never reaches another host that merely starts with the same
    characters. *)
Theorem matchesRedirectUri_spec redirectUri registered :
  matchesRedirectUri redirectUri registered = true <->
  (redirectUri ∈ registered /\ ends_with "/*" redirectUri = false) \/
  exists base, base +:+ "/*" ∈ registered /\
    (redirectUri = base \/ exists path, redirectUri = base +:+ "/" +:+ path).
Proof.
  unfold matchesRedirectUri, matches_pattern. rewrite existsb_exists.
  assert (Hbase : forall base, drop_last (base +:+ "/*") = base +:+ "/").
  { intros base. change "/*" with ("/" +:+ "*"). rewrite <- string_app_assoc. apply drop_last_app. }
  split.
  - intros (p & Hp%list_elem_of_In & Hm). destruct (ends_with "/*" p) eqn:He.
    + apply ends_with_true in He as [base ->]. right. exists base. split; [done|].
      rewrite Hbase, drop_last_app in Hm.
      apply orb_true_iff in Hm as [Hm%bool_decide_eq_true|[t ->]%starts_with_true]; [by left|].
      right. exists t. by rewrite string_app_assoc.
    + apply bool_decide_eq_true in Hm as ->. by left.
  - intros [[Hin He]|(base & Hin & Hm)].
    + exists redirectUri. split; [by apply list_elem_of_In|]. rewrite He. by apply bool_decide_eq_true.
    + exists (base +:+ "/*"). split; [by apply list_elem_of_In|].
      rewrite (proj2 (ends_with_true "/*" (base +:+ "/*"))) by eauto.
      rewrite Hbase, drop_last_app. apply orb_true_iff. destruct Hm as [->|[path ->]].
      * left. by apply bool_decide_eq_true.
      * right. rewrite <- string_app_assoc. apply starts_with_refl_app.
Qed.
