(* ===== verification/Device.v ===== *)
(** * Device: the device authorization endpoint (src/src/device/device.service.ts) *)

From S2P Require Import Prelude Prog Json Schema Store StoreFacts OAuth Testbed.

Definition DEVICE_URN : string := "urn:ietf:params:oauth:grant-type:device_code".

Definition supportsDeviceFlow (client : Client) : bool :=
  includes DEVICE_URN (client_grantTypes client) || includes "device_code" (client_grantTypes client).

Definition user_code_chars : string := "ABCDEFGHJKLMNPQRSTUVWXYZ23456789".

Record DeviceAuth := mkDeviceAuth {
  da_device_code : string; da_user_code : string; da_verification_uri : string;
  da_verification_uri_complete : string; da_expires_in : Z; da_interval : Z
}.

Section Service.
Context {E : Env}.

(** [process.env['BASE_URL'] ?? 'http://localhost:3000']. *)
Definition base_url : string := process_env "BASE_URL" ?? "http://localhost:3000".

(** The characters [i .. i + n - 1] of the code, with a dash after the fourth. *)
Fixpoint user_code_from (n i : nat) (code : string) : M string :=
  match n with
  | 0%nat => Ret code
  | S n' =>
      (k <- random_below (Z.of_nat (String.length user_code_chars)) ;;
       let c := match String.get (Z.to_nat k) user_code_chars with
                | Some c => String c EmptyString
                | None => "undefined"
                end in
       user_code_from n' (S i)
         (code +:+ c +:+ (if (i =? 3)%nat then "-" else EmptyString)))%prog
  end.
Definition generateUserCode : M string := user_code_from 8 0 EmptyString.

Definition initiateDeviceAuth (realm : Realm) (clientId : string) (scope : option string)
  : M DeviceAuth :=
  (client <- find_first TClient (by_clientId realm clientId) ;;
   match client with
   | None => Throw (NotFound "Client not found")
   | Some client =>
       if negb (client_enabled client) then Throw (NotFound "Client not found") else
       if negb (supportsDeviceFlow client)
       then Throw (BadRequest "Client does not support device authorization") else
       deviceCode <- random_hex 32 ;;
       userCode <- generateUserCode ;;
       now <- date_now ;;
       create TDeviceCode (fun id _ =>
         mkDeviceCode id deviceCode userCode (client_id client) (realm_id realm) scope
           None false false 5 None (now + 600000)) ;;;
       let uri := base_url +:+ "/realms/" +:+ realm_name realm +:+ "/device" in
       Ret (mkDeviceAuth deviceCode userCode uri (uri +:+ "?user_code=" +:+ userCode) 600 5)
   end)%prog.

Definition by_userCode (userCode : string) (d : DeviceCode) : bool := dc_userCode d === userCode.

Definition approveDevice (realm : Realm) (userCode userId : string) : M unit :=
  (device <- find_first TDeviceCode (by_userCode userCode) ;;
   match device with
   | None => Throw (NotFound "Invalid user code")
   | Some d =>
       if dc_realmId d !== realm_id realm then Throw (NotFound "Invalid user code") else
       now <- date_now ;;
       if dc_expiresAt d <? now then Throw (BadRequest "Device code has expired") else
       update TDeviceCode (fun x => dc_id x === dc_id d) (set_approved userId) ;;;
       Ret tt
   end)%prog.

Definition denyDevice (realm : Realm) (userCode : string) : M unit :=
  (device <- find_first TDeviceCode (by_userCode userCode) ;;
   match device with
   | None => Throw (NotFound "Invalid user code")
   | Some d =>
       if dc_realmId d !== realm_id realm then Throw (NotFound "Invalid user code") else
       update TDeviceCode (fun x => dc_id x === dc_id d) set_denied ;;;
       Ret tt
   end)%prog.

Definition cleanupExpiredDeviceCodes : M unit :=
  (now <- date_now ;;
   delete_many TDeviceCode (fun d => dc_expiresAt d <? now) ;;;
   Ret tt)%prog.
End Service.
