(* ===== verification/Federation.v ===== *)
(** * Federation: sign-in against LDAP (src/src/user-federation)

    [authenticateViaFederation]; the LDAP client itself is a parameter. *)

From S2P Require Import Prelude Prog Json Schema Store StoreFacts.

Section Service.
Context {E : Env}.

(** The user of the realm with this name, imported when the federation allows. *)
Definition find_or_import (realmId username : string) (federation : UserFederation)
  : M (option User) :=
  (user <- find_first TUser (fun u => (user_realmId u === realmId) && (user_username u === username)) ;;
   match user with
   | Some u => Ret (Some u)
   | None =>
       if uf_importEnabled federation then
         match ldap_search federation username with
         | Some (uid, email, firstName, lastName) =>
             u <- create TUser (fun id now =>
               mkUser id realmId uid email (truthy email) firstName lastName true None "argon2"
                 (Some (uf_id federation)) None None now) ;;
             Ret (Some u)
         | None => Ret None
         end
       else Ret None
   end)%prog.

(** The loop over the realm's federations, by priority: the id of the user that
    the first accepting directory authenticates. *)
Fixpoint try_federations (realmId username password : string) (federations : list UserFederation)
  : M (option string) :=
  match federations with
  | [] => Ret None
  | federation :: rest =>
      match ldap_authenticate federation username password with
      | None => Throw (PlainError "LDAP")
      | Some false => try_federations realmId username password rest
      | Some true =>
          (user <- find_or_import realmId username federation ;;
           match user with
           | Some u => Ret (Some (user_id u))
           | None => try_federations realmId username password rest
           end)%prog
      end
  end.

Definition authenticateViaFederation (realmId username password : string) : M (option string) :=
  (federations <- find_many_asc TUserFederation
     (fun f => (uf_realmId f === realmId) && uf_enabled f) uf_priority ;;
   try_federations realmId username password federations)%prog.

Lemma try_federations_footprint ts r u p fs :
  covers [TUser] ts = true -> stable (frame ts) (try_federations r u p fs).
Proof.
  intros H. induction fs as [|f fs IH]; cbn [try_federations]; [done|].
  destruct (ldap_authenticate f u p) as [[|]|]; [|done|done].
  apply stable_bind.
  - apply (stable_frame_mono _ _ _ H). unfold find_or_import. footprint.
  - intros [u'|]; [done | apply IH].
Qed.
Lemma authenticateViaFederation_footprint ts r u p :
  covers [TUser] ts = true -> stable (frame ts) (authenticateViaFederation r u p).
Proof.
  intros H. apply stable_bind; [footprint|]. intros fs. by apply try_federations_footprint.
Qed.

(** Some enabled directory of the realm accepts the password. *)
Definition ldap_accepts (realmId username password : string) (w : World) : Prop :=
  exists f, f ∈ rows TUserFederation w /\ uf_realmId f = realmId /\ uf_enabled f = true /\
    ldap_authenticate f username password = Some true.

Lemma run_try_federations realmId username password fs w uid w' :
  run (try_federations realmId username password fs) w = (inr (Some uid), w') ->
  (exists f, f ∈ fs /\ ldap_authenticate f username password = Some true) /\
  exists u, u ∈ rows TUser w' /\ user_id u = uid /\ user_realmId u = realmId.
Proof.
  revert w. induction fs as [|f fs IH]; intros w H; cbn [try_federations] in H; [done|].
  destruct (ldap_authenticate f username password) as [[|]|] eqn:Hl; [|naive_solver set_solver|done].
  - apply run_bind_inr in H as (o & w1 & Hf & H). destruct o as [u|].
    + injection H as <- <-. split; [exists f; set_solver|]. exists u.
      unfold find_or_import in Hf. apply run_bind_inr in Hf as (o & w2 & Hq & Hf). run_stmt_inv Hq.
      destruct o as [u'|].
      * injection Hf as <- <-. symmetry in Hq. apply find_elem in Hq as [Hin Hp].
        apply andb_true_iff in Hp as [Hr%bool_decide_eq_true _]. done.
      * destruct (uf_importEnabled f); [|done].
        destruct (ldap_search f username) as [[[[uid em] fn] ln]|]; [|done].
        apply run_bind_inr in Hf as (u2 & w2 & Hc & Hf). injection Hf as <- <-.
        run_stmt_inv Hc. split; [|done]. rewrite rows_with_rows_eq. set_solver.
    + apply IH in H as [(f' & Hin & ?) ?]. split; [|done]. exists f'. set_solver.
Qed.

Lemma run_authenticateViaFederation realmId username password w uid w' :
  run (authenticateViaFederation realmId username password) w = (inr (Some uid), w') ->
  ldap_accepts realmId username password w /\
  exists u, u ∈ rows TUser w' /\ user_id u = uid /\ user_realmId u = realmId.
Proof.
  unfold authenticateViaFederation. intros H.
  apply run_bind_inr in H as (fs & w1 & Hf & H). run_stmt_inv Hf. subst fs.
  apply run_try_federations in H as [(f & Hin & Hl) Hu]. split; [|done].
  apply elem_of_sort_by, elem_of_filter_list in Hin as [Hp Hin].
  apply andb_true_iff in Hp as [Hr%bool_decide_eq_true He]. by exists f.
Qed.
End Service.

#[export] Hint Resolve authenticateViaFederation_footprint : footprint.
