(* ===== verification/AuthTokens.v ===== *)
(** * AuthTokens: client authentication and token issuance

    The private half of src/src/auth/auth.service.ts: [validateClient],
    [issueTokens], [buildIdToken], [enforceSessionLimit] and their helpers. *)

From S2P Require Import Prelude Prog Json Schema Store StoreFacts Scopes StepUp Crypto Groups OAuth.
From S2P Require Import Device Testbed.

Record TokenResponse := mkTokenResponse {
  tr_access_token : string; tr_token_type : string; tr_expires_in : Z;
  tr_refresh_token : option string; tr_scope : string;
  tr_session_state : option string; tr_id_token : option string
}.

Definition MFA_OTP_URN : string := "urn:ietf:params:oauth:grant-type:mfa-otp".

(** ** Pure parts of issueTokens *)

(** Keep the first role of every id. *)
Fixpoint dedup_roles (seen : list string) (roles : list RoleWithClient) : list RoleWithClient :=
  match roles with
  | [] => []
  | r :: roles' =>
      if includes (rwc_id r) seen then dedup_roles seen roles'
      else r :: dedup_roles (rwc_id r :: seen) roles'
  end.

Definition realm_role_names (roles : list RoleWithClient) : list string :=
  map rwc_name (List.filter (fun r => negb (truthy (rwc_clientId r))) roles).

(** [resourceAccess[cId].roles.push(name)], creating the entry when missing. *)
Fixpoint push_role (cId name : string) (ra : list (string * list string))
  : list (string * list string) :=
  match ra with
  | [] => [(cId, [name])]
  | (c, roles) :: ra' =>
      if c === cId then (c, roles ++ [name]) :: ra' else (c, roles) :: push_role cId name ra'
  end.

Definition resource_access (roles : list RoleWithClient) : list (string * list string) :=
  foldl (fun ra r => match rwc_client r with
                     | Some cId => push_role cId (rwc_name r) ra
                     | None => ra
                     end) [] roles.

(** [...(amr && amr.length > 0 ? { amr } : {})]. *)
Definition amr_claim (amr : option (list string)) : obj :=
  match amr with Some (_ :: _ as l) => [("amr", JStrs l)] | _ => [] end.

Definition mapper_context (user : User) (roles : list RoleWithClient) : MapperContext :=
  mkMapperContext (user_id user) (user_username user) (user_email user) (user_emailVerified user)
    (user_firstName user) (user_lastName user) (realm_role_names roles) (resource_access roles).

Section Tokens.
Context {E : Env}.

Definition getIssuer (realm : Realm) : string := base_url +:+ "/realms/" +:+ realm_name realm.

Definition access_token_payload (realm : Realm) (user : User) (clientId sessionId : string)
    (scope : option string) (acr : option string) (amr : option (list string))
    (effectiveScopes : list string) (customAttrClaims : list (string * string))
    (roles : list RoleWithClient) (mapperClaims : obj) : obj :=
  let allowedClaims := getClaimsForScopes effectiveScopes in
  let userClaims := resolveUserClaims user allowedClaims customAttrClaims in
  let includeRoles := negb (truthy scope) || includes "realm_access" allowedClaims in
  let base :=
    [("iss", JStr (getIssuer realm)); ("sub", JStr (user_id user)); ("aud", JStr clientId);
     ("scope", JStr (toString effectiveScopes)); ("typ", JStr "Bearer"); ("azp", JStr clientId);
     ("sid", JStr sessionId); ("acr", JStr (acr ?? ACR_PASSWORD))] ++ amr_claim amr in
  let roleClaims :=
    if includeRoles
    then [("realm_access", roles_json (realm_role_names roles));
          ("resource_access", resource_access_json (resource_access roles))]
    else [] in
  spread (spread (spread base userClaims) roleClaims) mapperClaims.

Definition id_token_payload (realm : Realm) (user : User) (clientId sessionId : string)
    (scopes : list string) (customAttrClaims : list (string * string)) (accessToken : string)
    (auth_time : Z) (nonce : option string) (acr : option string) (amr : option (list string))
    (code : option string) : obj :=
  let userClaims := resolveUserClaims user (getClaimsForScopes scopes) customAttrClaims in
  let base :=
    [("iss", JStr (getIssuer realm)); ("sub", JStr (user_id user)); ("aud", JStr clientId);
     ("azp", JStr clientId); ("typ", JStr "ID"); ("sid", JStr sessionId);
     ("at_hash", JStr (computeAtHash accessToken)); ("auth_time", JNum auth_time);
     ("acr", JStr (acr ?? ACR_PASSWORD))] ++ amr_claim amr ++
    (if truthy code then [("c_hash", JStr (computeChash (code ?? EmptyString)))] else []) in
  let payload := spread base userClaims in
  if truthy nonce then obj_set "nonce" (JStr (nonce ?? EmptyString)) payload else payload.

Definition getActiveSigningKey (realmId : string) : M RealmSigningKey :=
  (key <- find_latest TRealmSigningKey (fun k => (key_realmId k === realmId) && key_active k)
            key_createdAt ;;
   match key with
   | None => Throw (PlainError "No active signing key found for realm")
   | Some k => Ret k
   end)%prog.

Definition user_roles (userId : string) : M (list RoleWithClient) :=
  query (fun w => roles_of w (map ur_roleId
    (List.filter (fun ur => ur_userId ur === userId) (rows TUserRole w)))).

Definition buildIdToken (realm : Realm) (user : User) (clientId sessionId : string)
    (scopes : list string) (accessToken : string) (nonce : option string) (authTime : option Z)
    (signingKey : RealmSigningKey) (acr : option string) (amr : option (list string))
    (code : option string) : M string :=
  (customAttrClaims <- getOidcClaimsForUser (user_id user) ;;
   auth_time <- match authTime with
                | Some t => Ret (t / 1000)
                | None => now <- date_now ;; Ret (now / 1000)
                end ;;
   signJwt
     (id_token_payload realm user clientId sessionId scopes customAttrClaims accessToken
        auth_time nonce acr amr code)
     (key_privateKey signingKey) (key_kid signingKey) (realm_accessTokenLifespan realm))%prog.

(** [parseAndValidate(scope)], or [['openid']] when nothing valid is asked for. *)
Definition effective_scopes (scope : option string) : list string :=
  match parseAndValidate scope with [] => ["openid"] | scopes => scopes end.

(** The protocol mappers of the scopes; any failure falls back to none. *)
Definition mapper_claims (realm : Realm) (user : User) (effectiveScopes : list string)
    (roles : list RoleWithClient) : M obj :=
  catch
    (mappers <- getScopeMappers effectiveScopes (realm_id realm) ;;
     Ret (match mappers with
          | [] => []
          | _ => executeMappers mappers (mapper_context user roles) []
          end))%prog
    (fun _ => Ret []).

Definition issueTokens (realm : Realm) (user : User) (clientId sessionId : string)
    (scope nonce : option string) (authTime : option Z) (acr : option string)
    (amr : option (list string)) (code : option string) : M TokenResponse :=
  (signingKey <- getActiveSigningKey (realm_id realm) ;;
   let effectiveScopes := effective_scopes scope in
   let validatedScope := toString effectiveScopes in
   customAttrClaims <- getOidcClaimsForUser (user_id user) ;;
   userRoles <- user_roles (user_id user) ;;
   groupRoles <- resolveGroupRoles (user_id user) ;;
   let roles := dedup_roles [] (userRoles ++ groupRoles) in
   mapperClaims <- mapper_claims realm user effectiveScopes roles ;;
   let payload :=
     access_token_payload realm user clientId sessionId scope acr amr effectiveScopes
       customAttrClaims roles mapperClaims in
   let enriched :=
     match enrich_token with Some f => f payload user (realm_name realm) | None => payload end in
   accessToken <- signJwt enriched (key_privateKey signingKey) (key_kid signingKey)
                    (realm_accessTokenLifespan realm) ;;
   let isOffline := includes "offline_access" effectiveScopes in
   let refreshLifespan :=
     if isOffline then realm_offlineTokenLifespan realm else realm_refreshTokenLifespan realm in
   rawRefreshToken <- generateSecret 64 ;;
   now <- date_now ;;
   create TRefreshToken (fun id createdAt =>
     mkRefreshToken id sessionId (sha256 rawRefreshToken) (Some validatedScope) false isOffline
       (Some clientId) createdAt (now + refreshLifespan * 1000)) ;;;
   idToken <-
     (if hasOpenidScope effectiveScopes
      then t <- buildIdToken realm user clientId sessionId effectiveScopes accessToken nonce
                  authTime signingKey acr amr code ;;
           Ret (Some t)
      else Ret None) ;;
   Ret (mkTokenResponse accessToken "Bearer" (realm_accessTokenLifespan realm)
          (Some rawRefreshToken) validatedScope (Some sessionId)
          (if truthy idToken then idToken else None)))%prog.

(** ** Session limit *)

Definition active_session_of (realm : Realm) (userId : string) (now : Z) (w : World) (s : Session)
  : bool :=
  (session_userId s === userId) &&
  existsb (fun u => (user_id u === session_userId s) && (user_realmId u === realm_id realm))
    (rows TUser w) &&
  (now <? session_expiresAt s).

Definition enforceSessionLimit (realm : Realm) (userId : string) : M unit :=
  let maxSessions := realm_maxSessionsPerUser realm in
  if maxSessions <=? 0 then Ret tt else
  (now <- date_now ;;
   activeSessions <- query (fun w => sort_by session_createdAt
     (List.filter (active_session_of realm userId now w) (rows TSession w))) ;;
   let n := Z.of_nat (length activeSessions) in
   if n <? maxSessions then Ret tt else
   let toEvict := take (Z.to_nat (n - maxSessions + 1)) activeSessions in
   let evictIds := map session_id toEvict in
   update_many TRefreshToken
     (fun t => includes (rt_sessionId t) evictIds && negb (rt_isOffline t)) (set_revoked true) ;;;
   delete_many TSession (fun s => includes (session_id s) evictIds) ;;;
   Ret tt)%prog.

(** ** Client authentication *)

Definition invalid_client (description : string) : exc :=
  OAuthTokenError "invalid_client" (Some description) 401.

Definition grant_allowed (client : Client) (grantType : string) : bool :=
  let grants := client_grantTypes client in
  let isDeviceGrant := (grantType === DEVICE_URN) || (grantType === "device_code") in
  let clientAllowsDevice := includes DEVICE_URN grants || includes "device_code" grants in
  let isMfaOtpGrant := (grantType === MFA_OTP_URN) || (grantType === "mfa_otp") in
  let clientAllowsMfaOtp := includes MFA_OTP_URN grants || includes "password" grants in
  if isDeviceGrant then clientAllowsDevice
  else if isMfaOtpGrant then clientAllowsMfaOtp
  else includes grantType grants.

Definition validateClient (realm : Realm) (clientId clientSecret : option string)
    (grantType : string) : M Client :=
  (if negb (truthy clientId) then Throw (invalid_client "client_id is required") else
   client <- find_first TClient (by_clientId realm (clientId ?? EmptyString)) ;;
   match client with
   | None => Throw (invalid_client "Invalid client")
   | Some client =>
       if negb (client_enabled client) then Throw (invalid_client "Invalid client") else
       if (grantType !== EmptyString) && negb (grant_allowed client grantType)
       then Throw (OAuthTokenError "unauthorized_client"
              (Some ("Grant type '" +:+ grantType +:+ "' not allowed for this client")) 400) else
       if client_clientType client === CONFIDENTIAL then
         if negb (truthy clientSecret) then Throw (invalid_client "client_secret is required") else
         if negb (truthy (client_clientSecret client))
         then Throw (invalid_client "Client has no secret configured") else
         valid <- verifyPassword (client_clientSecret client ?? EmptyString)
                    (clientSecret ?? EmptyString) ;;
         if negb valid then Throw (invalid_client "Invalid client credentials")
         else Ret client
       else Ret client
   end)%prog.

Lemma validateClient_footprint ts r i s g : stable (frame ts) (validateClient r i s g).
Proof. unfold validateClient. footprint. Qed.
Lemma getActiveSigningKey_footprint ts r : stable (frame ts) (getActiveSigningKey r).
Proof. unfold getActiveSigningKey. footprint. Qed.
Lemma enforceSessionLimit_footprint ts r u :
  covers [TRefreshToken; TSession] ts = true -> stable (frame ts) (enforceSessionLimit r u).
Proof. intros H. apply (stable_frame_mono _ _ _ H). unfold enforceSessionLimit. footprint. Qed.
#[local] Hint Resolve getActiveSigningKey_footprint : footprint.
Lemma buildIdToken_footprint ts r u c s sc at_ n t k a m co :
  stable (frame ts) (buildIdToken r u c s sc at_ n t k a m co).
Proof. unfold buildIdToken. footprint. Qed.
Lemma issueTokens_footprint ts r u c s sc n t a m co :
  covers [TRefreshToken] ts = true -> stable (frame ts) (issueTokens r u c s sc n t a m co).
Proof.
  intros H. apply (stable_frame_mono _ _ _ H). unfold issueTokens, user_roles, mapper_claims.
  footprint; apply buildIdToken_footprint.
Qed.
End Tokens.

#[export] Hint Resolve validateClient_footprint enforceSessionLimit_footprint issueTokens_footprint
  getActiveSigningKey_footprint : footprint.
