(* ===== verification/AuthGrants.v ===== *)
(** * AuthGrants: the token endpoint

    One definition per grant of src/src/auth/auth.service.ts, and
    [handleTokenRequest], which dispatches on [grant_type]. *)

From S2P Require Import Prelude Prog Json Schema Store StoreFacts Scopes StepUp Crypto Events.
From S2P Require Import PasswordPolicy BruteForce SmsOtp Mfa OAuth Device Federation AuthTokens.
From S2P Require Import Testbed.

Notation Body := (list (string * string)).

(** [body[k]]. *)
Fixpoint field (k : string) (body : Body) : option string :=
  match body with
  | [] => None
  | (k', v) :: body' => if k === k' then Some v else field k body'
  end.

Definition invalid_request {A} (description : string) : M A :=
  Throw (OAuthTokenError "invalid_request" (Some description) 400).
Definition invalid_grant {A} (description : string) : M A :=
  Throw (OAuthTokenError "invalid_grant" (Some description) 400).

Definition bad_mfa_token : string := "Invalid or expired MFA token, or too many failed attempts".

Section Grants.
Context {E : Env}.

(** [eventsService.recordLoginEvent({ realmId, type, ... })]. *)
Definition login_event (realm : Realm) (type : string) (userId sessionId clientId ip error : option string)
  : M unit :=
  recordLoginEvent (mkEventParams (realm_id realm) userId sessionId type clientId ip error).

Definition by_user_id (userId : string) (u : User) : bool := user_id u === userId.

Definition token_issued (realm : Realm) (grant_type : string) : M unit :=
  inc_metric "authTokenIssuedTotal" [("realm", realm_name realm); ("grant_type", grant_type)].
Definition login_total (realm : Realm) (status : string) : M unit :=
  inc_metric "authLoginTotal" [("realm", realm_name realm); ("status", status)].

(** [session.create]: it lives as long as a refresh token. *)
Definition create_session (realm : Realm) (userId : string) (ip userAgent satisfiedAcr : option string)
    (amr : list string) : M Session :=
  (now <- date_now ;;
   create TSession (fun id createdAt =>
     mkSession id userId ip userAgent satisfiedAcr amr createdAt
       (now + realm_refreshTokenLifespan realm * 1000)))%prog.

Definition availableMfaMethods (realm : Realm) (userId : string) : M (list string) :=
  (factors <- getEnrolledFactors userId ;;
   Ret ((if includes "totp" factors then ["totp"] else []) ++
        (if includes "sms" factors && canDeliver realm then ["sms"] else []) ++
        ["recovery"]))%prog.

(** ** password *)

(** The sign-in of a local account without a password hash, through LDAP. *)
Definition federated_user (realm : Realm) (username password : string) (user : option User)
  : M (option User) :=
  (match user with
   | Some u =>
       if user_enabled u && negb (truthy (user_passwordHash u)) && truthy (user_federationLink u)
       then
         federationResult <- authenticateViaFederation (realm_id realm) username password ;;
         match federationResult with
         | None => invalid_grant "Invalid credentials"
         | Some uid => find_first TUser (by_user_id uid)
         end
       else Ret user
   | None => Ret None
   end)%prog.

(** The last-resort attempt for an account that does not exist locally. *)
Definition resolve_user (realm : Realm) (username password : string) (user : option User)
  : M User :=
  (user <-
     match user with
     | Some u =>
         if user_enabled u && truthy (user_passwordHash u) then Ret user
         else if negb (truthy (user_passwordHash u)) && negb (truthy (user_federationLink u)) then
           federationResult <- authenticateViaFederation (realm_id realm) username password ;;
           match federationResult with
           | Some uid => find_first TUser (by_user_id uid)
           | None => Ret user
           end
         else Ret user
     | None =>
         federationResult <- authenticateViaFederation (realm_id realm) username password ;;
         match federationResult with
         | Some uid => find_first TUser (by_user_id uid)
         | None => Ret None
         end
     end ;;
   match user with
   | None => invalid_grant "Invalid credentials"
   | Some u => if user_enabled u then Ret u else invalid_grant "Invalid credentials"
   end)%prog.

(** The password check: LDAP has already answered for a federated account. *)
Definition check_password (user : User) (password : string) : M bool :=
  let skipLocalPwdCheck := negb (truthy (user_passwordHash user)) && truthy (user_federationLink user) in
  if skipLocalPwdCheck then Ret true
  else if truthy (user_passwordHash user)
  then verifyPassword (user_passwordHash user ?? EmptyString) password
  else Ret false.

Definition handlePasswordGrant (realm : Realm) (body : Body) (ip userAgent : option string)
  : M TokenResponse :=
  (let client_id := field "client_id" body in
   let scope := field "scope" body in
   validateClient realm client_id (field "client_secret" body) "password" ;;;
   if negb (truthy (field "username" body)) || negb (truthy (field "password" body))
   then invalid_request "username and password are required" else
   let username := field "username" body ?? EmptyString in
   let password := field "password" body ?? EmptyString in
   user <- find_first TUser (fun u =>
     (user_realmId u === realm_id realm) && (user_username u === username)) ;;
   user <- federated_user realm username password user ;;
   user <- resolve_user realm username password user ;;
   lockStatus <- checkLocked realm user ;;
   if lockStatus.1 then invalid_grant "Account is temporarily locked. Please try again later." else
   valid <- check_password user password ;;
   if negb valid then
     recordFailure realm (user_id user) ip ;;;
     login_event realm "LOGIN_ERROR" (Some (user_id user)) None client_id ip
       (Some "Invalid credentials") ;;;
     login_total realm "failure" ;;;
     invalid_grant "Invalid credentials"
   else
   resetFailures (realm_id realm) (user_id user) ;;;
   expired <- isExpired user realm ;;
   if (expired : bool) then invalid_grant "Password has expired. Please change your password." else
   mfaRequired <- isMfaRequired realm (user_id user) ;;
   mfaEnabled <- isMfaEnabled (user_id user) ;;
   if mfaRequired && mfaEnabled then
     mfaToken <- createMfaChallenge (user_id user) (realm_id realm) None client_id None ;;
     methods <- availableMfaMethods realm (user_id user) ;;
     Throw (MfaRequired mfaToken methods)
   else if mfaRequired && negb mfaEnabled
   then invalid_grant "MFA setup required. Please set up two-factor authentication." else
   enforceSessionLimit realm (user_id user) ;;;
   session <- create_session realm (user_id user) ip userAgent (Some ACR_PASSWORD) ["pwd"] ;;
   login_event realm "LOGIN" (Some (user_id user)) (Some (session_id session)) client_id ip None ;;;
   login_total realm "success" ;;;
   token_issued realm "password" ;;;
   now <- date_now ;;
   issueTokens realm user (client_id ?? EmptyString) (session_id session) scope None (Some now)
     (Some ACR_PASSWORD) (Some ["pwd"]) None)%prog.

(** ** mfa_otp *)

(** A challenge of this realm, and of this client when it names one. *)
Definition challenge_matches (realm : Realm) (client_id : option string) (c : MfaChallenge) : bool :=
  (ch_realmId c === realm_id realm) &&
  negb (truthy (ch_clientId c) && negb (bool_decide (ch_clientId c = client_id))).

Definition handleMfaOtpGrant (realm : Realm) (body : Body) (ip userAgent : option string)
  : M TokenResponse :=
  (let client_id := field "client_id" body in
   let scope := field "scope" body in
   let smsMethod := bool_decide (field "mfa_method" body = Some "sms") in
   validateClient realm client_id (field "client_secret" body) MFA_OTP_URN ;;;
   if negb (truthy (field "mfa_token" body)) || negb (truthy (field "otp" body))
   then invalid_request "mfa_token and otp are required" else
   let mfa_token := field "mfa_token" body ?? EmptyString in
   let otp := field "otp" body ?? EmptyString in
   challenge <- validateMfaChallengeWithAttemptCheck mfa_token ;;
   match challenge with
   | None => invalid_grant bad_mfa_token
   | Some challenge =>
     if negb (challenge_matches realm client_id challenge) then invalid_grant bad_mfa_token else
     verified <- verifySecondFactor (ch_userId challenge)
       (if smsMethod then SmsInput otp (realm_id realm) "login" mfa_token else OtpInput otp) ;;
     match verified with
     | None =>
         login_event realm "MFA_VERIFY_ERROR" (Some (ch_userId challenge)) None None ip
           (Some "Invalid OTP code") ;;;
         invalid_grant "Invalid OTP code"
     | Some factor =>
         consumed <- consumeMfaChallenge mfa_token ;;
         if negb consumed then invalid_grant bad_mfa_token else
         user <- find_first TUser (by_user_id (ch_userId challenge)) ;;
         match user with
         | None => invalid_grant "User not found"
         | Some user =>
             enforceSessionLimit realm (user_id user) ;;;
             session <- create_session realm (user_id user) ip userAgent (Some ACR_MFA)
               ["pwd"; if factor === "sms" then "sms" else "otp"] ;;
             login_event realm "MFA_VERIFY" (Some (user_id user)) (Some (session_id session))
               client_id ip None ;;;
             token_issued realm "mfa_otp" ;;;
             now <- date_now ;;
             issueTokens realm user (client_id ?? EmptyString) (session_id session) scope None
               (Some now) (Some ACR_MFA) (Some ["pwd"; "otp"]) None
         end
     end
   end)%prog.

(** ** client_credentials *)

Definition SERVICE_ACCOUNT_SESSION_LIMIT : nat := 100.

(** Keep the most recent sessions of a service account. *)
Definition trim_sessions (userId : string) : M unit :=
  (sessions <- find_many_desc TSession (fun s => session_userId s === userId) session_createdAt ;;
   let oldIds := map session_id (drop SERVICE_ACCOUNT_SESSION_LIMIT sessions) in
   match oldIds with
   | [] => Ret tt
   | _ =>
       update_many TRefreshToken
         (fun t => includes (rt_sessionId t) oldIds && negb (rt_isOffline t)) (set_revoked true) ;;;
       delete_many TSession (fun s => includes (session_id s) oldIds) ;;;
       Ret tt
   end)%prog.

Definition handleClientCredentialsGrant (realm : Realm) (body : Body) (ip : option string)
  : M TokenResponse :=
  (let client_id := field "client_id" body in
   let scope := field "scope" body in
   client <- validateClient realm client_id (field "client_secret" body) "client_credentials" ;;
   serviceUser <-
     (if truthy (client_serviceAccountUserId client)
      then find_first TUser (by_user_id (client_serviceAccountUserId client ?? EmptyString))
      else Ret None) ;;
   match serviceUser with
   | Some user =>
       session <- create_session realm (user_id user) None None None [] ;;
       trim_sessions (user_id user) ;;;
       now <- date_now ;;
       issueTokens realm user (client_id ?? EmptyString) (session_id session) scope None (Some now)
         None None None
   | None =>
       signingKey <- getActiveSigningKey (realm_id realm) ;;
       accessToken <- signJwt
         [("iss", JStr (getIssuer realm)); ("sub", JStr (Schema.client_id client));
          ("aud", JStr (client_id ?? EmptyString)); ("scope", JStr (scope ?? "openid"));
          ("typ", JStr "Bearer"); ("azp", JStr (client_id ?? EmptyString))]
         (key_privateKey signingKey) (key_kid signingKey) (realm_accessTokenLifespan realm) ;;
       login_event realm "CLIENT_LOGIN" None None client_id ip None ;;;
       token_issued realm "client_credentials" ;;;
       Ret (mkTokenResponse accessToken "Bearer" (realm_accessTokenLifespan realm) None
              (scope ?? "openid") None None)
   end)%prog.

(** ** refresh_token *)

(** The token with [include: { session: { include: { user: true } } }]. *)
Definition stored_token (w : World) (tokenHash : string)
  : option (RefreshToken * option (Session * User)) :=
  match List.find (fun t => rt_tokenHash t === tokenHash) (rows TRefreshToken w) with
  | None => None
  | Some t => Some (t,
      match List.find (fun s => session_id s === rt_sessionId t) (rows TSession w) with
      | None => None
      | Some s =>
          match List.find (fun u => user_id u === session_userId s) (rows TUser w) with
          | None => None
          | Some u => Some (s, u)
          end
      end)
  end.

(** The branch for an unknown, revoked or expired token: a replayed token
    revokes its whole session. *)
Definition reject_refresh (realm : Realm) (client_id ip : option string)
    (storedToken : option (RefreshToken * option (Session * User))) : M TokenResponse :=
  (match storedToken with
   | Some (t, Some _) =>
       if rt_revoked t
       then update_many TRefreshToken (fun x => rt_sessionId x === rt_sessionId t)
              (set_revoked true) ;;; Ret tt
       else Ret tt
   | _ => Ret tt
   end ;;;
   login_event realm "TOKEN_REFRESH_ERROR" None None client_id ip
     (Some "Invalid or expired refresh token") ;;;
   invalid_grant "Invalid or expired refresh token")%prog.

Definition handleRefreshTokenGrant (realm : Realm) (body : Body) (ip : option string)
  : M TokenResponse :=
  (let client_id := field "client_id" body in
   let scope := field "scope" body in
   if negb (truthy (field "refresh_token" body)) then invalid_request "refresh_token is required" else
   validateClient realm client_id (field "client_secret" body) "refresh_token" ;;;
   let tokenHash := sha256 (field "refresh_token" body ?? EmptyString) in
   storedToken <- query (fun w => stored_token w tokenHash) ;;
   match storedToken with
   | None => reject_refresh realm client_id ip storedToken
   | Some (t, sessionUser) =>
     now <- date_now ;;
     if rt_revoked t || (rt_expiresAt t <? now) then reject_refresh realm client_id ip storedToken else
     if negb (truthy (rt_clientId t))
     then invalid_grant "This refresh token predates client binding. Please log in again." else
     if negb (bool_decide (rt_clientId t = client_id))
     then invalid_grant "Refresh token was not issued to this client" else
     update TRefreshToken (fun x => rt_id x === rt_id t) (set_revoked true) ;;;
     match sessionUser with
     | None => Throw (PlainError "TypeError")
     | Some (session, user) =>
       login_event realm "TOKEN_REFRESH" (Some (user_id user)) (Some (rt_sessionId t)) client_id ip
         None ;;;
       token_issued realm "refresh_token" ;;;
       let acr := session_satisfiedAcr session ?? ACR_PASSWORD in
       let amr := match session_amr session with [] => ["pwd"] | l => l end in
       issueTokens realm user (client_id ?? EmptyString) (rt_sessionId t)
         (js_or (js_or scope (rt_scope t)) None) None None (Some acr) (Some amr) None
     end
   end)%prog.

(** ** authorization_code *)

(** The PKCE checks of the exchange. *)
Definition check_pkce (client : Client) (authCode : AuthorizationCode) (code_verifier : option string)
  : M unit :=
  if (client_clientType client === PUBLIC) && negb (truthy (ac_codeChallenge authCode))
  then invalid_request "PKCE (code_challenge) is required for public clients"
  else if truthy (ac_codeChallenge authCode) then
    if negb (truthy code_verifier) then invalid_request "code_verifier is required for PKCE" else
    let computedChallenge := to_base64url (from_hex (sha256 (code_verifier ?? EmptyString))) in
    if negb (bool_decide (Some computedChallenge = ac_codeChallenge authCode))
    then invalid_grant "Invalid code_verifier" else Ret tt
  else Ret tt.

(** The conditional update that claims the code. *)
Definition claim_code (code : string) : M AuthorizationCode :=
  (now <- date_now ;;
   catch
     (update TAuthorizationCode
        (fun c => (ac_code c === code) && negb (ac_used c) && (now <? ac_expiresAt c)) (set_used true))
     (fun err => match err with
                 | PrismaError "P2025" => invalid_grant "Invalid or expired authorization code"
                 | _ => Throw err
                 end))%prog.

Definition handleAuthorizationCodeGrant (realm : Realm) (body : Body) (ip userAgent : option string)
  : M TokenResponse :=
  (let client_id := field "client_id" body in
   if negb (truthy (field "code" body)) then invalid_request "code is required" else
   client <- validateClient realm client_id (field "client_secret" body) "authorization_code" ;;
   authCode <- claim_code (field "code" body ?? EmptyString) ;;
   if ac_clientId authCode !== Schema.client_id client
   then invalid_grant "Invalid or expired authorization code" else
   if negb (bool_decide (Some (ac_redirectUri authCode) = field "redirect_uri" body))
   then invalid_grant "redirect_uri mismatch" else
   check_pkce client authCode (field "code_verifier" body) ;;;
   user <- find_first TUser (by_user_id (ac_userId authCode)) ;;
   match user with
   | None => invalid_grant "User not found"
   | Some user =>
     lockStatus <- checkLocked realm user ;;
     if lockStatus.1 then invalid_grant "Account is temporarily locked. Please try again later." else
     enforceSessionLimit realm (user_id user) ;;;
     let acr := ac_satisfiedAcr authCode ?? ACR_PASSWORD in
     let amr := match ac_amr authCode with [] => ["pwd"] | l => l end in
     session <- create_session realm (user_id user) ip userAgent (Some acr) amr ;;
     login_event realm "CODE_TO_TOKEN" (Some (user_id user)) (Some (session_id session)) client_id ip
       None ;;;
     token_issued realm "authorization_code" ;;;
     now <- date_now ;;
     issueTokens realm user (client_id ?? EmptyString) (session_id session) (ac_scope authCode)
       (ac_nonce authCode) (Some now) (Some acr) (Some amr) (Some (ac_code authCode))
   end)%prog.

(** ** device_code *)

Definition device_error {A} (error : string) : M A := Throw (OAuthTokenError error None 400).

(** RFC 8628 section 3.5: the minimum polling interval. *)
Definition check_polling (d : DeviceCode) : M unit :=
  (match dc_lastPolledAt d with
   | None => Ret tt
   | Some lastPolledAt =>
       now <- date_now ;;
       if now - lastPolledAt <? dc_interval d * 1000 then
         now <- date_now ;;
         update TDeviceCode (fun x => dc_id x === dc_id d) (set_polled now (dc_interval d + 5)) ;;;
         device_error "slow_down"
       else Ret tt
   end ;;;
   now <- date_now ;;
   update TDeviceCode (fun x => dc_id x === dc_id d) (fun x => set_polled now (dc_interval x) x) ;;;
   Ret tt)%prog.

Definition handleDeviceCodeGrant (realm : Realm) (body : Body) (ip userAgent : option string)
  : M TokenResponse :=
  (let client_id := field "client_id" body in
   if negb (truthy (field "device_code" body)) then invalid_request "device_code is required" else
   validateClient realm client_id (field "client_secret" body) DEVICE_URN ;;;
   deviceCode <- find_first TDeviceCode (fun d =>
     dc_deviceCode d === (field "device_code" body ?? EmptyString)) ;;
   match deviceCode with
   | None => device_error "authorization_pending"
   | Some d =>
     if dc_realmId d !== realm_id realm then device_error "authorization_pending" else
     now <- date_now ;;
     if dc_expiresAt d <? now then device_error "expired_token" else
     if dc_denied d then device_error "access_denied" else
     if negb (dc_approved d) || negb (truthy (dc_userId d))
     then device_error "authorization_pending" else
     check_polling d ;;;
     user <- find_first TUser (by_user_id (dc_userId d ?? EmptyString)) ;;
     match user with
     | None => invalid_grant "User not found"
     | Some user =>
       mfaEnabled <- isMfaEnabled (user_id user) ;;
       if (mfaEnabled : bool) then invalid_grant
         "MFA verification required. Device code grant does not support MFA. Use authorization_code grant instead."
       else
       mfaRequired <- isMfaRequired realm (user_id user) ;;
       if (mfaRequired : bool) then invalid_grant
         "MFA setup required. Use authorization_code grant to complete MFA setup."
       else
       delete_one TDeviceCode (fun x => dc_id x === dc_id d) ;;;
       enforceSessionLimit realm (user_id user) ;;;
       session <- create_session realm (user_id user) ip userAgent None [] ;;
       login_event realm "DEVICE_CODE_TO_TOKEN" (Some (user_id user)) (Some (session_id session))
         client_id ip None ;;;
       token_issued realm "device_code" ;;;
       now <- date_now ;;
       issueTokens realm user (client_id ?? EmptyString) (session_id session) (dc_scope d) None
         (Some now) None None None
     end
   end)%prog.

(** ** Dispatch *)

Definition handleTokenRequest (realm : Realm) (body : Body) (ip userAgent : option string)
  : M TokenResponse :=
  match field "grant_type" body with
  | None => invalid_request "grant_type is required"
  | Some grantType =>
      if grantType === EmptyString then invalid_request "grant_type is required"
      else if grantType === "password" then handlePasswordGrant realm body ip userAgent
      else if grantType === "client_credentials" then handleClientCredentialsGrant realm body ip
      else if grantType === "refresh_token" then handleRefreshTokenGrant realm body ip
      else if grantType === "authorization_code" then handleAuthorizationCodeGrant realm body ip userAgent
      else if grantType === "mfa_otp" then handleMfaOtpGrant realm body ip userAgent
      else if grantType === DEVICE_URN then handleDeviceCodeGrant realm body ip userAgent
      else Throw (OAuthTokenError "unsupported_grant_type"
             (Some ("Unsupported grant_type: " +:+ grantType)) 400)
  end.

(** ** sendMfaSms *)

Record MfaSmsSent := mkMfaSmsSent { ms_masked_phone : string; ms_expires_in : Z; ms_resend_after : Z }.

(** [Math.round(ms / 1000)]. *)
Definition round_seconds (ms : Z) : Z := (2 * ms + 1000) / 2000.

Definition sms_error (e : exc) : exc :=
  match e with
  | SmsOtpError code message _ =>
      let slow := (code === "cooldown") || (code === "rate_limited") in
      OAuthTokenError (if slow then "slow_down" else "invalid_request") (Some message)
        (if code === "send_failed" then 503 else if slow then 429 else 400)
  | _ => e
  end.

Definition sendMfaSms (realm : Realm) (body : Body) (ip : option string) : M MfaSmsSent :=
  (let client_id := field "client_id" body in
   validateClient realm client_id (field "client_secret" body) MFA_OTP_URN ;;;
   if negb (truthy (field "mfa_token" body)) then invalid_request "mfa_token is required" else
   let mfa_token := field "mfa_token" body ?? EmptyString in
   challenge <- getMfaChallenge mfa_token ;;
   match challenge with
   | None => invalid_grant bad_mfa_token
   | Some c =>
       if negb (challenge_matches realm client_id c) then invalid_grant bad_mfa_token else
       catch
         (sent <- sendCode realm (ch_userId c) "login" mfa_token None ip ;;
          now <- date_now ;;
          Ret (mkMfaSmsSent (sr_maskedPhone sent) (round_seconds (sr_expiresAt sent - now))
                 (Z.max 0 (round_seconds (sr_resendAvailableAt sent - now)))))
         (fun err => Throw (sms_error err))
   end)%prog.
End Grants.

Lemma invalid_request_footprint {A} R d : stable R (@invalid_request A d).
Proof. exact I. Qed.
Lemma invalid_grant_footprint {A} R d : stable R (@invalid_grant A d).
Proof. exact I. Qed.
Lemma device_error_footprint {A} R d : stable R (@device_error A d).
Proof. exact I. Qed.
#[export] Hint Resolve invalid_request_footprint invalid_grant_footprint device_error_footprint
  : footprint.
