(* ===== verification/AuthFacts.v ===== *)
(** * AuthFacts: what client authentication and token issuance establish

    Inversion lemmas for the helpers of AuthTokens, shared by the theorems on
    the grants. *)

From S2P Require Import Prelude Prog Json Schema Store StoreFacts Scopes StepUp Crypto Events.
From S2P Require Import Groups BruteForce OAuth Device AuthTokens AuthGrants Testbed.

Section Facts.
Context {E : Env}.

(** ** Client authentication *)

(** The client that [validateClient] lets through. *)
Record authenticated (realm : Realm) (clientId clientSecret : option string) (grantType : string)
    (w : World) (client : Client) : Prop := {
  auth_found : List.find (by_clientId realm (clientId ?? EmptyString)) (rows TClient w) = Some client;
  auth_id : clientId = Some (Schema.client_clientId client);
  auth_enabled : client_enabled client = true;
  auth_grant : grantType <> EmptyString -> grant_allowed client grantType = true;
  auth_secret : client_clientType client = CONFIDENTIAL ->
    exists stored given, client_clientSecret client = Some stored /\ clientSecret = Some given /\
      given <> EmptyString /\ argon2_verify stored given = Some true
}.

Lemma run_validateClient_inr realm clientId clientSecret grantType w client w' :
  run (validateClient realm clientId clientSecret grantType) w = (inr client, w') ->
  w' = w /\ authenticated realm clientId clientSecret grantType w client.
Proof.
  unfold validateClient. intros H.
  destruct (truthy clientId) eqn:Hid; [|done]. simpl negb in H. cbv iota in H.
  apply run_bind_inr in H as (o & w1 & Hf & H). run_stmt_inv Hf.
  destruct o as [c|]; [|done].
  destruct (client_enabled c) eqn:Hen; [|done]. simpl negb in H. cbv iota in H.
  destruct (_ && _) eqn:Hg; [done|].
  assert (Hgrant : grantType <> EmptyString -> grant_allowed c grantType = true).
  { intros Hne. apply andb_false_iff in Hg as [Hg|Hg]; [|by apply negb_false_iff in Hg].
    by apply negb_false_iff, bool_decide_eq_true in Hg. }
  assert (Hcid : clientId = Some (client_clientId c)).
  { symmetry in Hf. apply find_elem in Hf as [_ Hp].
    apply andb_true_iff in Hp as [_ Hp%bool_decide_eq_true].
    apply truthy_true in Hid as (s & -> & _). simpl in Hp. by rewrite Hp. }
  destruct (bool_decide_reflect (client_clientType c = CONFIDENTIAL)) as [Hty|Hty].
  - destruct (truthy clientSecret) eqn:Hs; [|done].
    destruct (truthy (client_clientSecret c)) eqn:Hcs; [|done]. simpl negb in H. cbv iota in H.
    apply run_bind_inr in H as (b & w2 & Hv & H).
    apply run_verifyPassword_inr in Hv as [-> Hv]. destruct b; [|done]. injection H as <- <-.
    split; [done|]. constructor; [done..|]. intros _.
    apply truthy_true in Hs as (given & -> & Hne), Hcs as (stored & Hst & _).
    exists stored, given. rewrite Hst in Hv. destruct (Hv eq_refl) as [Ha _]. done.
  - injection H as <- <-. split; [done|]. by constructor.
Qed.

(** ** Sessions *)

Lemma run_create_session_inr realm userId ip ua acr amr w s w' :
  run (create_session realm userId ip ua acr amr) w = (inr s, w') ->
  session_userId s = userId /\ session_satisfiedAcr s = acr /\ session_amr s = amr /\
  session_expiresAt s = w_now w + realm_refreshTokenLifespan realm * 1000 /\
  rows TSession w' = rows TSession w ++ [s] /\ frame [TSession] w w'.
Proof.
  unfold create_session. intros H.
  assert (Hf : frame [TSession] w w').
  { eapply run_frame; [|exact H]. footprint. }
  apply run_bind_inr in H as (now & w1 & Hn & H). run_stmt_inv Hn.
  run_stmt_inv H. cbn [fst snd] in *. rewrite rows_with_rows_eq.
  split; [done|]. split; [done|]. split; [done|]. split; [done|]. by split.
Qed.

(** ** Issuance *)

(** The tokens [issueTokens] returns: a JWT over the claims of the user, signed
    with the realm's active key, and a refresh token whose hash is stored,
    bound to the client and the session. *)
Record issued (realm : Realm) (user : User) (clientId sessionId : string) (scope acr : option string)
    (amr : option (list string)) (w : World) (resp : TokenResponse) (w' : World) : Prop := {
  iss_scope : tr_scope resp = toString (effective_scopes scope);
  iss_session : tr_session_state resp = Some sessionId;
  iss_refresh : exists raw rt, tr_refresh_token resp = Some raw /\ rt_tokenHash rt = sha256 raw /\
    rt_sessionId rt = sessionId /\ rt_clientId rt = Some clientId /\ rt_revoked rt = false /\
    rt_isOffline rt = false /\ rt_scope rt = Some (tr_scope resp) /\
    rt_expiresAt rt = w_now w + realm_refreshTokenLifespan realm * 1000 /\
    rows TRefreshToken w' = rows TRefreshToken w ++ [rt];
  iss_access : exists key custom roles mappers jti payload,
    key ∈ rows TRealmSigningKey w /\ key_realmId key = realm_id realm /\ key_active key = true /\
    payload = access_token_payload realm user clientId sessionId scope acr amr
                (effective_scopes scope) custom roles mappers /\
    jose_sign (key_privateKey key) (key_kid key)
      (obj_set "jti" (JStr jti)
        (obj_set "exp" (JNum (w_now w / 1000 + realm_accessTokenLifespan realm))
          (obj_set "iat" (JNum (w_now w / 1000))
            (match enrich_token with Some f => f payload user (realm_name realm) | None => payload end))))
      = Some (tr_access_token resp);
  iss_frame : frame [TRefreshToken] w w'
}.

Lemma effective_scopes_no_offline scope : includes "offline_access" (effective_scopes scope) = false.
Proof.
  unfold effective_scopes. destruct (parseAndValidate scope) as [|s l] eqn:Hp.
  - apply includes_false. set_solver.
  - apply includes_false. rewrite <- Hp. apply parseAndValidate_no_offline.
Qed.

Lemma effective_scopes_supported scope s : s ∈ effective_scopes scope -> s ∈ SUPPORTED_SCOPES.
Proof.
  unfold effective_scopes. destruct (parseAndValidate scope) as [|x l] eqn:Hp.
  - intros ->%list_elem_of_singleton. by apply (includes_true "openid").
  - rewrite <- Hp. apply parseAndValidate_supported.
Qed.

(** The scope string of a response lists exactly the effective scopes. *)
Lemma split_effective_scopes scope :
  js_split " "%char (toString (effective_scopes scope)) = effective_scopes scope.
Proof.
  apply (js_split_join " "%char).
  - unfold effective_scopes. by destruct (parseAndValidate scope).
  - apply Forall_forall. intros s Hs%effective_scopes_supported. by apply supported_scope_shape.
Qed.

Lemma run_getActiveSigningKey_inr realmId w key w' :
  run (getActiveSigningKey realmId) w = (inr key, w') ->
  w' = w /\ key ∈ rows TRealmSigningKey w /\ key_realmId key = realmId /\ key_active key = true.
Proof.
  unfold getActiveSigningKey. intros H.
  apply run_bind_inr in H as (o & w1 & Hf & H). run_stmt_inv Hf.
  destruct o as [k|]; [|done]. injection H as <- <-. split; [done|].
  assert (Hk : k ∈ sort_by (fun r : RealmSigningKey => - key_createdAt r)
    (List.filter (fun k => (key_realmId k === realmId) && key_active k) (rows TRealmSigningKey w))).
  { symmetry in Hf. by apply head_Some_elem_of. }
  apply elem_of_sort_by, elem_of_filter_list in Hk as [Hp Hin].
  apply andb_true_iff in Hp as [Hr%bool_decide_eq_true Ha]. done.
Qed.

Lemma run_issueTokens_inr realm user clientId sessionId scope nonce authTime acr amr code w resp w' :
  run (issueTokens realm user clientId sessionId scope nonce authTime acr amr code) w = (inr resp, w') ->
  issued realm user clientId sessionId scope acr amr w resp w'.
Proof.
  intros H. assert (Hframe : frame [TRefreshToken] w w').
  { eapply run_frame; [|exact H]. by apply issueTokens_footprint. }
  unfold issueTokens in H. cbv zeta in H.
  apply run_bind_inr in H as (key & w1 & Hk & H).
  apply run_getActiveSigningKey_inr in Hk as (-> & Hkin & Hkr & Hka).
  apply run_bind_inr in H as (custom & w2 & Hc & H).
  apply (run_frame []) in Hc; [|apply getOidcClaimsForUser_footprint].
  apply run_bind_inr in H as (uroles & w3 & Hu & H).
  apply (run_frame []) in Hu; [|unfold user_roles; footprint].
  apply run_bind_inr in H as (groles & w4 & Hg & H).
  apply (run_frame []) in Hg; [|apply resolveGroupRoles_footprint].
  apply run_bind_inr in H as (mappers & w5 & Hm & H).
  apply (run_frame []) in Hm; [|unfold mapper_claims; footprint].
  assert (H15 : frame [] w w5) by (etransitivity; [|exact Hm]; etransitivity; [|exact Hg];
    etransitivity; [|exact Hu]; exact Hc).
  apply run_bind_inr in H as (at_ & w6 & Ha & H). apply run_signJwt_inr in Ha as [-> Hsign].
  rewrite (frame_now _ _ _ H15) in Hsign.
  apply run_bind_inr in H as (raw & w7 & Hraw & H).
  unfold generateSecret in Hraw. run_stmt_inv Hraw.
  apply run_bind_inr in H as (now & w8 & Hn & H). run_stmt_inv Hn.
  apply run_bind_inr in H as (rt & w9 & Hrt & H). run_stmt_inv Hrt.
  apply run_bind_inr in H as (idt & w10 & Hid & H).
  assert (Hid' : frame [] (with_rows TRefreshToken (rows TRefreshToken w5 ++
      [mkRefreshToken (uuid (S (w_uuids w5))) sessionId
         (sha256 (to_hex (random_bytes 64 (w_draws w5)))) (Some (toString (effective_scopes scope)))
         false (includes "offline_access" (effective_scopes scope)) (Some clientId) (w_now w5)
         (w_now w5 + (if includes "offline_access" (effective_scopes scope)
            then realm_offlineTokenLifespan realm else realm_refreshTokenLifespan realm) * 1000)])
      (next_uuid (next_draw (next_uuid w5)))) w10).
  { eapply run_frame; [|exact Hid]. destruct (hasOpenidScope (effective_scopes scope)); [|exact I].
    apply stable_bind; [apply buildIdToken_footprint|intros; exact I]. }
  injection H as <- <-. constructor; cbn [tr_scope tr_session_state tr_refresh_token tr_access_token];
    [done|done| | |done].
  - eexists _, _. split; [reflexivity|].
    rewrite (frame_rows _ _ _ TRefreshToken Hid') by done.
    rewrite rows_with_rows_eq, (frame_rows _ _ _ TRefreshToken H15) by done.
    rewrite effective_scopes_no_offline, (frame_now _ _ _ H15). repeat split; reflexivity.
  - eexists key, custom, _, mappers, _, _. repeat split; [done..|]. exact Hsign.
Qed.

Lemma run_login_event realm type u s c ip err w r w' :
  run (login_event realm type u s c ip err) w = (r, w') -> frame [TLoginEvent] w w'.
Proof. intros H. eapply run_frame; [|exact H]. by apply recordLoginEvent_footprint. Qed.

Lemma run_then_event {A} realm type u s c ip err (k : M A) w r w' :
  run (login_event realm type u s c ip err ;;; k)%prog w = (inr r, w') ->
  exists w1, frame [TLoginEvent] w w1 /\ run k w1 = (inr r, w').
Proof. intros (x & w1 & H%run_login_event & Hk)%run_bind_inr. by exists w1. Qed.

Lemma run_then_metric {A} name labels (k : M A) w r w' :
  run (inc_metric name labels ;;; k)%prog w = (inr r, w') ->
  exists w1, frame [] w w1 /\ run k w1 = (inr r, w').
Proof.
  intros (x & w1 & H & Hk)%run_bind_inr. exists w1. split; [|done].
  eapply run_frame; [|exact H]. apply inc_metric_footprint.
Qed.

(** The session every grant opens after making room for it. *)
Lemma run_new_session {A} realm userId ip ua acr amr (k : Session -> M A) w r w' :
  run (enforceSessionLimit realm userId ;;;
       session <- create_session realm userId ip ua acr amr ;; k session)%prog w = (inr r, w') ->
  exists session w1,
    session_userId session = userId /\ session_satisfiedAcr session = acr /\ session_amr session = amr /\
    session ∈ rows TSession w1 /\ frame [TRefreshToken; TSession] w w1 /\
    run (k session) w1 = (inr r, w').
Proof.
  intros (x & w1 & He & H)%run_bind_inr.
  apply (run_frame [TRefreshToken; TSession]) in He; [|by apply enforceSessionLimit_footprint].
  apply run_bind_inr in H as (s & w2 & (Hu & Ha & Hm & _ & Hr & F)%run_create_session_inr & H).
  exists s, w2. repeat (split; [done|]). split; [rewrite Hr; set_solver|]. split; [|done].
  etransitivity; [exact He|]. by apply (frame_mono [TSession]).
Qed.

Lemma run_checkLocked_inr realm user w st w' :
  run (checkLocked realm user) w = (inr st, w') ->
  w' = w /\ (st.1 = false -> realm_bruteForceEnabled realm = true ->
             forall t, user_lockedUntil user = Some t -> t <= w_now w).
Proof.
  unfold checkLocked. intros H. destruct (realm_bruteForceEnabled realm) eqn:Hb; simpl negb in H;
    cbv iota in H; [|by injection H as <- <-].
  destruct (user_lockedUntil user) as [t|] eqn:Hl; [|by injection H as <- <-].
  apply run_bind_inr in H as (now & w1 & Hn & H). run_stmt_inv Hn. cbn [fst snd] in H.
  destruct (Z.ltb_spec (w_now w) t); injection H as <- <-; (split; [done|]); [done|].
  intros _ _ t' [= <-]. lia.
Qed.
End Facts.

(** ** Issuance ends with tokens *)

Section Progress.
Context {E : Env}.
(** The signer signs every payload. *)
Hypothesis Hsign : forall key kid claims, is_Some (jose_sign key kid claims).

Lemma signJwt_succeeds payload key kid secs w : succeeds (signJwt payload key kid secs) w.
Proof.
  unfold signJwt. apply succeeds_bind; [apply succeeds_atom|]. intros now w1 _.
  apply succeeds_bind; [apply succeeds_atom|]. intros jti w2 _. cbv zeta.
  edestruct (Hsign key kid) as [jwt ->]. apply succeeds_ret.
Qed.

Lemma resolveGroupRoles_succeeds userId w : w_db_up w = true -> succeeds (resolveGroupRoles userId) w.
Proof.
  intros Hup. unfold resolveGroupRoles. apply succeeds_bind; [by apply succeeds_query|].
  intros ms w1 Hq. run_stmt_inv Hq. destruct ms as [|m ms]; [apply succeeds_ret|].
  rewrite Hq. unfold succeeds, walk_fuel.
  rewrite (run_bind_ok _ _ _ _ _ (run_atom _ w)). cbn [fst snd].
  set (gs := map ug_groupId _).
  destruct (walkGroups_spec w Hup (S (length (rows TGroup w))) gs [] []) as (v & Hrun & _).
  { apply Nat.lt_succ_r, filter_length_le. }
  { constructor. }
  { intros x p Hx. by apply elem_of_nil in Hx. }
  rewrite (run_bind_ok _ _ _ _ _ Hrun). by eexists _, _.
Qed.

Lemma buildIdToken_succeeds realm user c s sc at_ n t k a m co w :
  w_db_up w = true -> succeeds (buildIdToken realm user c s sc at_ n t k a m co) w.
Proof.
  intros Hup. unfold buildIdToken. apply succeeds_bind; [by apply succeeds_query|]. intros cu w1 _.
  apply succeeds_bind.
  { destruct t; [apply succeeds_ret|]. apply succeeds_bind; [apply succeeds_atom|].
    intros now w2 _. apply succeeds_ret. }
  intros z w2 _. apply signJwt_succeeds.
Qed.

Lemma issueTokens_succeeds realm user clientId sessionId scope nonce authTime acr amr code w key :
  w_db_up w = true ->
  key ∈ rows TRealmSigningKey w -> key_realmId key = realm_id realm -> key_active key = true ->
  (forall draw, sha256 (to_hex (random_bytes 64 draw)) ∉ map rt_tokenHash (rows TRefreshToken w)) ->
  succeeds (issueTokens realm user clientId sessionId scope nonce authTime acr amr code) w.
Proof.
  intros Hup Hk Hkr Hka Hfresh. unfold issueTokens. cbv zeta.
  apply succeeds_bind.
  { unfold getActiveSigningKey. apply succeeds_bind; [by apply succeeds_query|].
    intros o w1 Hq. run_stmt_inv Hq. destruct o as [k|]; [apply succeeds_ret|]. exfalso.
    assert (Hin : key ∈ sort_by (fun r : RealmSigningKey => - key_createdAt r) (List.filter
      (fun k => (key_realmId k === realm_id realm) && key_active k) (rows TRealmSigningKey w))).
    { apply elem_of_sort_by, elem_of_filter_list. by rewrite Hkr, Hka, bool_decide_eq_true_2. }
    destruct (sort_by _ _) as [|x l]; [by apply elem_of_nil in Hin | done]. }
  intros k w1 H. apply (run_frame []) in H as F1; [|apply getActiveSigningKey_footprint]. clear H.
  pose proof (frame_up _ _ _ F1 Hup) as Hup1.
  apply succeeds_bind; [by apply succeeds_query|]. intros custom w2 H.
  apply (run_frame []) in H as F2; [|apply getOidcClaimsForUser_footprint]. clear H.
  pose proof (frame_up _ _ _ F2 Hup1) as Hup2.
  apply succeeds_bind; [by apply succeeds_query|]. intros uroles w3 H.
  apply (run_frame []) in H as F3; [|unfold user_roles; footprint]. clear H.
  pose proof (frame_up _ _ _ F3 Hup2) as Hup3.
  apply succeeds_bind; [by apply resolveGroupRoles_succeeds|]. intros groles w4 H.
  apply (run_frame []) in H as F4; [|apply resolveGroupRoles_footprint]. clear H.
  pose proof (frame_up _ _ _ F4 Hup3) as Hup4.
  apply succeeds_bind; [apply succeeds_catch; intros; apply succeeds_ret|]. intros mappers w5 H.
  apply (run_frame []) in H as F5; [|unfold mapper_claims; footprint]. clear H.
  pose proof (frame_up _ _ _ F5 Hup4) as Hup5.
  apply succeeds_bind; [apply signJwt_succeeds|]. intros jwt w6 H.
  apply (run_frame []) in H as F6; [|apply signJwt_footprint]. clear H.
  pose proof (frame_up _ _ _ F6 Hup5) as Hup6.
  assert (Hrt : rows TRefreshToken w6 = rows TRefreshToken w).
  { rewrite (frame_rows _ _ _ TRefreshToken F6), (frame_rows _ _ _ TRefreshToken F5),
      (frame_rows _ _ _ TRefreshToken F4), (frame_rows _ _ _ TRefreshToken F3),
      (frame_rows _ _ _ TRefreshToken F2) by done. by apply (frame_rows _ _ _ TRefreshToken F1). }
  apply succeeds_bind; [apply succeeds_atom|]. intros raw w7 H.
  unfold generateSecret in H. run_stmt_inv H. cbn [fst snd].
  apply succeeds_bind; [apply succeeds_atom|]. intros now w8 H. run_stmt_inv H. cbn [fst snd].
  apply succeeds_bind.
  { apply succeeds_create; [done|]. simpl unique_ok.
    apply negb_true_iff. destruct (existsb _ _) eqn:He; [|done]. exfalso.
    apply existsb_exists in He as (x & Hx%list_elem_of_In & Heq%bool_decide_eq_true).
    assert (Hx' : x ∈ rows TRefreshToken w6) by exact Hx. rewrite Hrt in Hx'.
    apply (Hfresh (w_draws w6)), list_elem_of_fmap. exists x. by rewrite Heq. }
  intros rt w9 H. run_stmt_inv H.
  apply succeeds_bind.
  { destruct (hasOpenidScope _); [|apply succeeds_ret].
    apply succeeds_bind; [by apply buildIdToken_succeeds|]. intros; apply succeeds_ret. }
  intros; apply succeeds_ret.
Qed.

Lemma enforceSessionLimit_succeeds realm userId w :
  w_db_up w = true -> succeeds (enforceSessionLimit realm userId) w.
Proof.
  intros Hup. unfold enforceSessionLimit. destruct (_ <=? 0); [apply succeeds_ret|].
  apply succeeds_bind; [apply succeeds_atom|]. intros now w1 H1. run_stmt_inv H1. cbn [fst snd].
  apply succeeds_bind; [by apply succeeds_query|]. intros ss w2 H2. run_stmt_inv H2.
  cbv zeta. destruct (_ <? _); [apply succeeds_ret|].
  apply succeeds_bind; [by apply succeeds_update_many|]. intros n w3 H3. run_stmt_inv H3.
  apply succeeds_bind; [by apply succeeds_delete_many|]. intros; apply succeeds_ret.
Qed.

(** The session limit adds no refresh token. *)
Lemma enforceSessionLimit_hashes realm userId w r w' :
  run (enforceSessionLimit realm userId) w = (inr r, w') ->
  forall h, h ∈ map rt_tokenHash (rows TRefreshToken w') -> h ∈ map rt_tokenHash (rows TRefreshToken w).
Proof.
  unfold enforceSessionLimit. intros H h. destruct (_ <=? 0); [by injection H as _ <-|].
  apply run_bind_inr in H as (now & w1 & Hn & H). run_stmt_inv Hn. cbn [fst snd] in H.
  apply run_bind_inr in H as (ss & w2 & Hs & H). run_stmt_inv Hs. cbv zeta in H.
  destruct (_ <? _); [by injection H as _ <-|].
  apply run_bind_inr in H as (n & w3 & Hu & H). run_stmt_inv Hu.
  apply run_bind_inr in H as (n' & w4 & Hd & H). run_stmt_inv Hd. injection H as _ <-.
  unfold rows. simpl. intros Hh. apply list_elem_of_fmap in Hh as (t & -> & Ht).
  apply elem_of_filter_list in Ht as [_ Ht]. unfold update_all in Ht.
  apply list_elem_of_fmap in Ht as (x & -> & Hx). apply list_elem_of_fmap. exists x.
  split; [by destruct (_ && _)|done].
Qed.

Lemma create_session_succeeds realm userId ip ua acr amr w :
  w_db_up w = true -> succeeds (create_session realm userId ip ua acr amr) w.
Proof.
  intros Hup. unfold create_session. apply succeeds_bind; [apply succeeds_atom|].
  intros now w1 H1. run_stmt_inv H1. by apply (succeeds_create TSession).
Qed.

Lemma login_event_succeeds realm type u s c ip err w :
  succeeds (login_event realm type u s c ip err) w.
Proof. destruct (run_recordLoginEvent (mkEventParams (realm_id realm) u s type c ip err) w) as [w' H].
  by exists tt, w'. Qed.

Lemma checkLocked_open realm user w :
  (forall t, user_lockedUntil user = Some t -> t <= w_now w) ->
  exists s, run (checkLocked realm user) w = (inr (false, s), w).
Proof.
  intros Hl. unfold checkLocked. destruct (negb _); [by eexists|].
  destruct (user_lockedUntil user) as [t|]; [|by eexists].
  rewrite (run_bind_ok date_now _ w (w_now w) w eq_refl).
  specialize (Hl t eq_refl). destruct (Z.ltb_spec (w_now w) t); [lia|]. by eexists.
Qed.

Lemma run_validateClient_public realm clientId secret grantType w client :
  w_db_up w = true -> clientId <> EmptyString ->
  List.find (by_clientId realm clientId) (rows TClient w) = Some client ->
  client_enabled client = true -> client_clientType client = PUBLIC ->
  grant_allowed client grantType = true ->
  run (validateClient realm (Some clientId) secret grantType) w = (inr client, w).
Proof.
  intros Hup Hne Hf Hen Hty Hg. unfold validateClient.
  rewrite (proj2 (truthy_Some clientId)) by done. simpl negb. cbv iota.
  rewrite (run_bind_ok _ _ _ _ _ (run_find_first_eq TClient _ w _ Hup Hf)), Hen. simpl negb. cbv iota.
  rewrite Hg, andb_false_r, Hty. done.
Qed.

(** The end shared by the grants: limit, session, event, metric, tokens. *)
Lemma grant_end_succeeds realm user clientId ip ua acr amr type grant_type cid scope nonce acr' amr' code
    w key :
  w_db_up w = true ->
  key ∈ rows TRealmSigningKey w -> key_realmId key = realm_id realm -> key_active key = true ->
  (forall draw, sha256 (to_hex (random_bytes 64 draw)) ∉ map rt_tokenHash (rows TRefreshToken w)) ->
  succeeds
    (enforceSessionLimit realm (user_id user) ;;;
     session <- create_session realm (user_id user) ip ua acr amr ;;
     login_event realm type (Some (user_id user)) (Some (session_id session)) cid ip None ;;;
     token_issued realm grant_type ;;;
     now <- date_now ;;
     issueTokens realm user clientId (session_id session) scope nonce (Some now) acr' amr' code)%prog w.
Proof.
  intros Hup Hk Hkr Hka Hfresh. apply succeeds_bind; [by apply enforceSessionLimit_succeeds|].
  intros u w1 H1. pose proof (enforceSessionLimit_hashes _ _ _ _ _ H1) as Hh.
  apply (run_frame [TRefreshToken; TSession]) in H1 as F1; [|by apply enforceSessionLimit_footprint]. clear H1.
  apply succeeds_bind; [apply create_session_succeeds; by apply (frame_up _ _ _ F1)|].
  intros s w2 H2. apply (run_frame [TSession]) in H2 as F2; [|unfold create_session; footprint]. clear H2.
  apply succeeds_bind; [apply login_event_succeeds|].
  intros u2 w3 H3. apply run_login_event in H3 as F3. clear H3.
  apply succeeds_bind; [apply succeeds_atom|].
  intros u3 w4 H4. apply (run_frame []) in H4 as F4; [|apply inc_metric_footprint]. clear H4.
  apply succeeds_bind; [apply succeeds_atom|]. intros now w5 H5. run_stmt_inv H5. cbn [fst snd].
  apply (issueTokens_succeeds realm user clientId _ _ _ _ _ _ _ _ key).
  - apply (frame_up _ _ _ F4), (frame_up _ _ _ F3), (frame_up _ _ _ F2), (frame_up _ _ _ F1), Hup.
  - by rewrite (frame_rows _ _ _ TRealmSigningKey F4), (frame_rows _ _ _ TRealmSigningKey F3),
      (frame_rows _ _ _ TRealmSigningKey F2), (frame_rows _ _ _ TRealmSigningKey F1) by done.
  - done.
  - done.
  - intros d Hd. apply (Hfresh d). rewrite (frame_rows _ _ _ TRefreshToken F4),
      (frame_rows _ _ _ TRefreshToken F3), (frame_rows _ _ _ TRefreshToken F2) in Hd by done.
    by apply Hh.
Qed.
End Progress.
