(* ===== verification/CodeGrant.v ===== *)
(** * CodeGrant: theorems on the authorization_code grant *)

From S2P Require Import Prelude Prog Json Schema Store StoreFacts Scopes StepUp Crypto Events.
From S2P Require Import Groups BruteForce OAuth Device AuthTokens AuthGrants AuthFacts Testbed.

Section Grant.
Context {E : Env}.

(** The code row a request may redeem. *)
Record redeemable (code : string) (client : Client) (redirect_uri code_verifier : option string)
    (w : World) (ac : AuthorizationCode) : Prop := {
  rd_row : ac ∈ rows TAuthorizationCode w;
  rd_code : ac_code ac = code;
  rd_unused : ac_used ac = false;
  rd_live : w_now w < ac_expiresAt ac;
  rd_client : ac_clientId ac = Schema.client_id client;
  rd_redirect : redirect_uri = Some (ac_redirectUri ac);
  rd_public : client_clientType client = PUBLIC -> truthy (ac_codeChallenge ac) = true;
  rd_pkce : truthy (ac_codeChallenge ac) = true ->
    exists v, code_verifier = Some v /\ v <> EmptyString /\
      ac_codeChallenge ac = Some (to_base64url (sha256_digest v))
}.

Lemma run_claim_code_inr code w ac w' :
  run (claim_code code) w = (inr ac, w') ->
  exists ac0, ac0 ∈ rows TAuthorizationCode w /\ ac_code ac0 = code /\ ac_used ac0 = false /\
    w_now w < ac_expiresAt ac0 /\ ac = set_used true ac0 /\
    set_used true ac0 ∈ rows TAuthorizationCode w' /\ frame [TAuthorizationCode] w w'.
Proof.
  unfold claim_code. intros H. assert (Hf : frame [TAuthorizationCode] w w').
  { eapply run_frame; [|exact H]. footprint. }
  apply run_bind_inr in H as (now & w1 & Hn & H). run_stmt_inv Hn. cbn [fst snd] in H.
  apply run_catch_rethrow in H as Hu; [|intros e w2 b w3; by repeat case_match]. clear H.
  run_stmt_inv Hu.
  match goal with x : Row TAuthorizationCode |- _ => rename x into r0 end.
  apply find_elem in Hu as Hu'. destruct Hu' as [Hin Hp].
  apply andb_true_iff in Hp as [[Hc%bool_decide_eq_true Hus%negb_true_iff]%andb_true_iff Hlt%Z.ltb_lt].
  exists r0. repeat split; try done; [|apply Hf].
  rewrite rows_with_rows_eq. clear -Hu.
  induction (rows TAuthorizationCode w) as [|x l IH]; simpl in Hu |- *; [done|].
  destruct (_ && _); [injection Hu as ->; set_solver | set_solver].
Qed.

Lemma run_check_pkce_inr client ac verifier w r w' :
  run (check_pkce client ac verifier) w = (inr r, w') ->
  w' = w /\
  (client_clientType client = PUBLIC -> truthy (ac_codeChallenge ac) = true) /\
  (truthy (ac_codeChallenge ac) = true ->
    exists v, verifier = Some v /\ v <> EmptyString /\
      ac_codeChallenge ac = Some (to_base64url (sha256_digest v))).
Proof.
  unfold check_pkce. intros H.
  destruct (bool_decide_reflect (client_clientType client = PUBLIC)), (truthy (ac_codeChallenge ac)) eqn:Hc;
    simpl andb in H; cbv iota in H; simpl negb in H; cbv iota in H; try done;
    try (injection H as <- <-; repeat split; done).
  all: destruct (truthy verifier) eqn:Hv; [|done]; apply truthy_true in Hv as (v & -> & Hne);
    simpl negb in H; cbv iota zeta in H; unfold sha256 in H; rewrite from_hex_to_hex in H;
    destruct (bool_decide_reflect (Some (to_base64url (sha256_digest v)) = ac_codeChallenge ac)) as [Heq|];
    [|done]; injection H as <- <-; (split; [done|]); (split; [done|]); intros _; by exists v.
Qed.

(** The part of the handler after the code was claimed leaves codes alone. *)
Definition exchange (realm : Realm) (body : Body) (ip userAgent : option string) (client : Client)
    (authCode : AuthorizationCode) : M TokenResponse :=
  (if ac_clientId authCode !== Schema.client_id client
   then invalid_grant "Invalid or expired authorization code" else
   if negb (bool_decide (Some (ac_redirectUri authCode) = field "redirect_uri" body))
   then invalid_grant "redirect_uri mismatch" else
   check_pkce client authCode (field "code_verifier" body) ;;;
   user <- find_first TUser (by_user_id (ac_userId authCode)) ;;
   match user with
   | None => invalid_grant "User not found"
   | Some user =>
     lockStatus <- checkLocked realm user ;;
     if lockStatus.1 then invalid_grant "Account is temporarily locked. Please try again later." else
     enforceSessionLimit realm (user_id user) ;;;
     let acr := ac_satisfiedAcr authCode ?? ACR_PASSWORD in
     let amr := match ac_amr authCode with [] => ["pwd"] | l => l end in
     session <- create_session realm (user_id user) ip userAgent (Some acr) amr ;;
     login_event realm "CODE_TO_TOKEN" (Some (user_id user)) (Some (session_id session))
       (field "client_id" body) ip None ;;;
     token_issued realm "authorization_code" ;;;
     now <- date_now ;;
     issueTokens realm user (field "client_id" body ?? EmptyString) (session_id session)
       (ac_scope authCode) (ac_nonce authCode) (Some now) (Some acr) (Some amr)
       (Some (ac_code authCode))
   end)%prog.

Lemma exchange_footprint realm body ip ua client ac :
  stable (frame [TRefreshToken; TSession; TLoginEvent]) (exchange realm body ip ua client ac).
Proof. unfold exchange, check_pkce, create_session, login_event, token_issued. footprint. Qed.

(** ** Claiming is what consumes a code *)

Definition unused_code (code : string) (c : AuthorizationCode) : nat :=
  if (ac_code c === code) && negb (ac_used c) then 1 else 0.
Definition any_codes (rs : list AuthorizationCode) : Prop := True.

Lemma claim_code_claims code :
  claims (units TAuthorizationCode (unused_code code)) (fun w => any_codes (rows TAuthorizationCode w))
    (fun c _ => c = true) false (claim_code code).
Proof.
  unfold claim_code.
  apply claims_bind_stable; [by apply (units_keeps [] TAuthorizationCode _ any_codes), date_now_footprint|].
  intros now. apply claims_catch; [|intros c e; by repeat case_match].
  apply (claims_update TAuthorizationCode (unused_code code) any_codes); [done| |done].
  intros x rs _ _ [[Hc Hu]%andb_true_iff _]%andb_true_iff. unfold unused_code. rewrite Hc, Hu. simpl.
  rewrite andb_false_r. lia.
Qed.

Lemma handler_claims realm body ip ua code :
  field "code" body = Some code ->
  claims (units TAuthorizationCode (unused_code code)) (fun w => any_codes (rows TAuthorizationCode w))
    (fun c _ => c = true) false (handleAuthorizationCodeGrant realm body ip ua).
Proof.
  intros Hcode. unfold handleAuthorizationCodeGrant. cbv zeta. rewrite Hcode.
  destruct (negb _); [done|].
  apply claims_bind_stable; [apply (units_keeps [] TAuthorizationCode _ any_codes);
    [done|apply validateClient_footprint]|]. intros client.
  apply (claims_bind _ _ (fun c _ => c = true)); [apply claim_code_claims|]. intros c ac ->.
  apply claims_stable; [|done].
  apply (units_keeps [TRefreshToken; TSession; TLoginEvent] TAuthorizationCode _ any_codes); [done|].
  apply (exchange_footprint realm body ip ua client ac).
Qed.
End Grant.

(** C2. An authorization code is redeemed at most once: of any number of token
    requests that present it, from any clients and interleaved in any way with
    each other and with the rest of the system, at most as many finish with tokens
    as there are unused rows with that code (one, by uniqueness). *)
Theorem authorization_code_single_use {E : Env} code env w w' reqs pool :
  let unused := units TAuthorizationCode (unused_code code) in
  (forall a b, env a b -> (unused b <= unused a)%nat) ->
  Forall (fun q : Realm * Body => field "code" q.2 = Some code) reqs ->
  psteps env (w, map (fun q : Realm * Body => handleAuthorizationCodeGrant q.1 q.2 None None) reqs)
    (w', pool) ->
  (winners (fun _ => true) pool <= unused w)%nat.
Proof.
  intros unused Henv Hreqs Hs.
  refine (winners_bounded unused (fun w => any_codes (rows TAuthorizationCode w)) env
    (fun a b H Ha => conj I (Henv a b H)) (fun _ => true) w w' _ pool I _ Hs).
  apply Forall_fmap. eapply Forall_impl; [exact Hreqs|]. intros q Hq. simpl.
  eapply claims_mono; [|by apply handler_claims]. done.
Qed.

(** C1. Tokens are issued for an authorization code only when: the client
    authenticated and may use the grant; the code exists, was unused and
    unexpired, was issued to that client and names the same redirect URI; a public
    client's code carries a PKCE challenge, and the verifier hashes to it; the
    user exists and is not locked. The code is then used up, the new session
    carries the authentication context satisfied at login, and the tokens are
    those of [issueTokens] for that user, client and session. *)
Theorem code_grant_sound {E : Env} realm body ip ua w resp w' :
  run (handleAuthorizationCodeGrant realm body ip ua) w = (inr resp, w') ->
  exists client code ac user session w1,
    authenticated realm (field "client_id" body) (field "client_secret" body) "authorization_code" w client /\
    field "code" body = Some code /\
    redeemable code client (field "redirect_uri" body) (field "code_verifier" body) w ac /\
    set_used true ac ∈ rows TAuthorizationCode w' /\
    user ∈ rows TUser w /\ user_id user = ac_userId ac /\
    (realm_bruteForceEnabled realm = true ->
       forall t, user_lockedUntil user = Some t -> t <= w_now w) /\
    session ∈ rows TSession w' /\ session_userId session = user_id user /\
    session_satisfiedAcr session = Some (ac_satisfiedAcr ac ?? ACR_PASSWORD) /\
    session_amr session = match ac_amr ac with [] => ["pwd"] | l => l end /\
    issued realm user (Schema.client_clientId client) (session_id session) (ac_scope ac)
      (session_satisfiedAcr session) (Some (session_amr session)) w1 resp w' /\
    w_now w1 = w_now w.
Proof.
  unfold handleAuthorizationCodeGrant. cbv zeta. intros H.
  destruct (truthy (field "code" body)) eqn:Hcode; [|done]. simpl negb in H. cbv iota in H.
  apply truthy_true in Hcode as (code & Hcode & _). rewrite Hcode in H. simpl default in H.
  apply run_bind_inr in H as (client & w1 & Hv & H).
  apply run_validateClient_inr in Hv as [-> Hauth].
  apply run_bind_inr in H as (ac' & w2 & Hc & H).
  apply run_claim_code_inr in Hc as (ac & Hin & Hac & Hun & Hlive & -> & Hused & Hf2).
  assert (Hfx : frame [TRefreshToken; TSession; TLoginEvent] w2 w').
  { eapply run_frame; [apply (exchange_footprint realm body ip ua client (set_used true ac))|exact H]. }
  destruct (bool_decide_reflect (ac_clientId (set_used true ac) = Schema.client_id client)) as [Hcl|]; [|done].
  destruct (bool_decide_reflect (Some (ac_redirectUri (set_used true ac)) = field "redirect_uri" body))
    as [Hru|]; [|done].
  simpl negb in H. cbv iota in H.
  apply run_bind_inr in H as (u0 & w3 & Hp & H).
  apply run_check_pkce_inr in Hp as (-> & Hpub & Hpkce).
  apply run_bind_inr in H as (o & w4 & Hu & H). run_stmt_inv Hu.
  destruct o as [user|]; [|done]. symmetry in Hu. apply find_elem in Hu as [Huin Huid].
  apply bool_decide_eq_true in Huid.
  rewrite (frame_rows _ _ _ TUser Hf2) in Huin by done.
  apply run_bind_inr in H as (st & w5 & Hl & H).
  apply run_checkLocked_inr in Hl as [-> Hlock]. rewrite (frame_now _ _ _ Hf2) in Hlock.
  destruct (st.1) eqn:Hst; [done|].
  apply run_bind_inr in H as (u1 & w6 & He & H).
  apply (run_frame [TRefreshToken; TSession]) in He; [|by apply enforceSessionLimit_footprint].
  cbv zeta in H. apply run_bind_inr in H as (session & w7 & Hses & H).
  apply run_create_session_inr in Hses as (Hsu & Hsa & Hsm & _ & Hsrows & Hf7).
  apply run_bind_inr in H as (u2 & w8 & Hev & H). apply run_login_event in Hev.
  apply run_bind_inr in H as (u3 & w9 & Hmt & H).
  apply (run_frame []) in Hmt; [|apply inc_metric_footprint].
  apply run_bind_inr in H as (now & w10 & Hn & H). run_stmt_inv Hn.
  cbn [fst snd] in H. apply run_issueTokens_inr in H as Hiss. pose proof (iss_frame _ _ _ _ _ _ _ _ _ _ Hiss) as Hf11.
  exists client, code, ac, user, session, w9.
  assert (Hcid : field "client_id" body ?? EmptyString = Schema.client_clientId client)
    by (rewrite (auth_id _ _ _ _ _ _ Hauth); done).
  split; [done|]. split; [done|]. split; [by constructor|]. split.
  { by rewrite (frame_rows _ _ _ TAuthorizationCode Hfx). }
  split; [done|]. split; [done|]. split; [by apply Hlock|]. split.
  { rewrite (frame_rows _ _ _ TSession Hf11), (frame_rows _ _ _ TSession Hmt),
      (frame_rows _ _ _ TSession Hev), Hsrows by done. set_solver. }
  split; [done|]. split; [done|]. split; [done|]. split.
  - cbn [fst snd] in Hiss. rewrite Hcid in Hiss. rewrite Hsa, Hsm. exact Hiss.
  - rewrite (frame_now _ _ _ Hmt), (frame_now _ _ _ Hev), (frame_now _ _ _ Hf7), (frame_now _ _ _ He).
    apply (frame_now _ _ _ Hf2).
Qed.

(** ** A concrete exchange *)

Definition code_row : AuthorizationCode :=
  mkAuthorizationCode "ac-1" "code-1" "client-db-1" "user-1" "https://app.example/cb"
    (Some "openid profile") (Some (to_base64url "verifier-1")) (Some "S256") (Some "nonce-1") None
    (Some ACR_MFA) ["pwd"; "otp"] false 1000060000.
Definition code_world : World := with_rows TAuthorizationCode [code_row] world1.
Definition code_body : Body :=
  [("grant_type", "authorization_code"); ("client_id", "app"); ("code", "code-1");
   ("redirect_uri", "https://app.example/cb"); ("code_verifier", "verifier-1")].

Example authorization_code_single_use_witness :
  (winners (fun _ => true) (schedule [0; 1; 0; 1; 2; 2; 1; 0]%nat
     (code_world, map (fun q : Realm * Body =>
        handleAuthorizationCodeGrant (E:=test_env) q.1 q.2 None None)
        [(realm0, code_body); (realm0, code_body); (realm0, code_body)])).2 <= 1)%nat.
Proof.
  refine (authorization_code_single_use (E:=test_env) "code-1" (fun a b => a = b) code_world _ 
    [(realm0, code_body); (realm0, code_body); (realm0, code_body)] _ _ _ _).
  - by intros a b ->.
  - repeat constructor.
  - rewrite <- surjective_pairing. apply schedule_psteps.
Defined.

Example code_grant_sound_witness :
  exists resp w', run (handleAuthorizationCodeGrant (E:=test_env) realm0 code_body None None) code_world
      = (inr resp, w') /\
    exists ac session, ac_code ac = "code-1" /\ set_used true ac ∈ rows TAuthorizationCode w' /\
      session ∈ rows TSession w' /\ session_userId session = ac_userId ac.
Proof.
  destruct (ends_ok_run (handleAuthorizationCodeGrant (E:=test_env) realm0 code_body None None)
    code_world) as (resp & w' & H); [reflexivity|].
  exists resp, w'. split; [exact H|].
  destruct (code_grant_sound (E:=test_env) _ _ _ _ _ _ _ H) as
    (client & code & ac & user & session & w1 & _ & Hc & Hr & Hu & _ & Hid & _ & Hs & Hsu & _).
  exists ac, session. injection Hc as <-. split; [exact (rd_code _ _ _ _ _ _ Hr)|].
  split; [exact Hu|]. split; [exact Hs|]. rewrite Hsu. exact Hid.
Defined.

(** ** From the authorization request to the tokens *)

Definition redemption (clientId code redirect_uri verifier : string) : Body :=
  [("grant_type", "authorization_code"); ("client_id", clientId); ("code", code);
   ("redirect_uri", redirect_uri); ("code_verifier", verifier)].

Section Redeem.
Context {E : Env}.
Hypothesis Hsign : forall key kid claims, is_Some (jose_sign key kid claims).

Lemma run_claim_code_last w rs row :
  w_db_up w = true -> rows TAuthorizationCode w = rs ++ [row] ->
  (forall c, c ∈ rs -> ac_code c <> ac_code row) -> ac_used row = false -> w_now w < ac_expiresAt row ->
  exists w', run (claim_code (ac_code row)) w = (inr (set_used true row), w').
Proof.
  intros Hup Hrows Hnew Hun Hexp. unfold claim_code.
  rewrite (run_bind_ok date_now _ w (w_now w) w eq_refl), run_catch.
  rewrite (run_update TAuthorizationCode _ _ w row Hup); [by eexists|].
  rewrite Hrows. apply find_app_last.
  - intros c Hc. by rewrite bool_decide_eq_false_2 by (by apply Hnew).
  - rewrite bool_decide_eq_true_2, Hun by done. simpl. by apply Z.ltb_lt.
Qed.

Lemma run_check_pkce_ok client ac verifier w :
  verifier <> EmptyString -> truthy (ac_codeChallenge ac) = true ->
  ac_codeChallenge ac = Some (to_base64url (sha256_digest verifier)) ->
  run (check_pkce client ac (Some verifier)) w = (inr tt, w).
Proof.
  intros Hv Ht Hc. unfold check_pkce. rewrite Ht, (proj2 (truthy_Some verifier)) by done.
  rewrite andb_false_r. simpl negb. simpl default. cbv iota zeta. unfold sha256.
  by rewrite from_hex_to_hex, Hc, bool_decide_eq_true_2.
Qed.

Lemma exchange_succeeds realm body ip ua client ac user key w verifier :
  w_db_up w = true -> ac_clientId ac = Schema.client_id client ->
  field "redirect_uri" body = Some (ac_redirectUri ac) -> field "code_verifier" body = Some verifier ->
  verifier <> EmptyString -> truthy (ac_codeChallenge ac) = true ->
  ac_codeChallenge ac = Some (to_base64url (sha256_digest verifier)) ->
  List.find (by_user_id (ac_userId ac)) (rows TUser w) = Some user ->
  (forall t, user_lockedUntil user = Some t -> t <= w_now w) ->
  key ∈ rows TRealmSigningKey w -> key_realmId key = realm_id realm -> key_active key = true ->
  (forall draw, sha256 (to_hex (random_bytes 64 draw)) ∉ map rt_tokenHash (rows TRefreshToken w)) ->
  succeeds (exchange realm body ip ua client ac) w.
Proof.
  intros Hup Hcl Hru Hcv Hv Ht Hch Hu Hl Hk Hkr Hka Hfresh. unfold exchange.
  rewrite Hcl, (bool_decide_eq_true_2 _ eq_refl). simpl negb. cbv iota.
  rewrite Hru, (bool_decide_eq_true_2 _ eq_refl). simpl negb. cbv iota. rewrite Hcv. unfold succeeds.
  rewrite (run_bind_ok _ _ _ _ _ (run_check_pkce_ok client ac verifier w Hv Ht Hch)).
  rewrite (run_bind_ok _ _ _ _ _ (run_find_first_eq TUser _ w _ Hup Hu)).
  destruct (checkLocked_open realm user w Hl) as [st Hst].
  rewrite (run_bind_ok _ _ _ _ _ Hst). cbn [fst]. cbv iota zeta.
  by apply (grant_end_succeeds Hsign realm user) with key.
Qed.
End Redeem.

(** C12. An authorization is redeemable: the code a public client receives, sent
    back with the verifier of its challenge and the same redirect URI before the
    minute is over, ends with tokens, whatever scope was asked for. *)
Theorem authorize_redeem_roundtrip {E : Env} realm user params ctx verifier ip ua key client
    w redirect w1 elapsed :
  (forall key kid claims, is_Some (jose_sign key kid claims)) ->
  random_bytes 32 (w_draws w) <> EmptyString ->
  run (authorizeWithUser realm user params ctx) w = (inr redirect, w1) ->
  List.find (by_clientId realm (ap_client_id params)) (rows TClient w) = Some client ->
  client_clientType client = PUBLIC -> ap_client_id params <> EmptyString ->
  verifier <> EmptyString ->
  ap_code_challenge params = Some (to_base64url (sha256_digest verifier)) ->
  List.find (by_user_id (user_id user)) (rows TUser w) = Some user ->
  0 <= elapsed < 60000 ->
  (forall t, user_lockedUntil user = Some t -> t <= w_now w + elapsed) ->
  w_db_up w = true ->
  key ∈ rows TRealmSigningKey w -> key_realmId key = realm_id realm -> key_active key = true ->
  (forall draw, sha256 (to_hex (random_bytes 64 draw)) ∉ map rt_tokenHash (rows TRefreshToken w)) ->
  exists code resp w2,
    ("code", code) ∈ rd_query redirect /\
    run (handleAuthorizationCodeGrant realm
           (redemption (ap_client_id params) code (ap_redirect_uri params) verifier) ip ua)
        (with_now (w_now w + elapsed) w1) = (inr resp, w2).
Proof.
  intros Hsign Hbytes Hauth Hfc Hpub Hcid Hver Hch Huser Hel Hlock Hup Hk Hkr Hka Hfresh.
  apply run_authorizeWithUser_inr in Hauth as
    (client' & row & Hv & Hrows & Hnew & Hcode & Hq & Hrc & Hru & Hrr & Hrch & Hun & Hexp & Hf).
  apply run_validateAuthRequest_inr in Hv as (_ & Hfc' & _ & Hen & _ & Hgt & Hpk & _).
  rewrite Hfc in Hfc'. injection Hfc' as <-.
  set (w' := with_now (w_now w + elapsed) w1).
  assert (Hup' : w_db_up w' = true) by exact (frame_up _ _ _ Hf Hup).
  assert (Hrow_w : forall t, t <> TAuthorizationCode -> rows t w' = rows t w).
  { intros t Ht. apply Hf. set_solver. }
  exists (ac_code row). 
  assert (Hcne : ac_code row <> EmptyString).
  { rewrite Hcode. by destruct (random_bytes 32 (w_draws w)). }
  enough (succeeds (handleAuthorizationCodeGrant realm
    (redemption (ap_client_id params) (ac_code row) (ap_redirect_uri params) verifier) ip ua) w')
    as (resp & w2 & Hs) by (exists resp, w2; done).
  assert (Hch' : truthy (ac_codeChallenge row) = true) by (rewrite Hrch; by apply Hpk).
  unfold handleAuthorizationCodeGrant. cbv zeta. simpl field. simpl default.
  rewrite (proj2 (truthy_Some (ac_code row)) Hcne). simpl negb. cbv iota. unfold succeeds.
  rewrite (run_bind_ok _ _ w' client w'); [|apply run_validateClient_public; try done].
  2: { by rewrite Hrow_w. }
  2: { unfold grant_allowed. simpl. by apply includes_true. }
  destruct (run_claim_code_last w' _ row Hup' Hrows Hnew Hun) as [w3 Hclaim]; [simpl; lia|].
  rewrite (run_bind_ok _ _ _ _ _ Hclaim). apply run_claim_code_inr in Hclaim as (_ & _ & _ & _ & _ & _ & _ & F3).
  assert (Hrow3 : forall t, t <> TAuthorizationCode -> rows t w3 = rows t w).
  { intros t Ht. rewrite (frame_rows _ _ _ t F3) by (apply includes_false; set_solver). by apply Hrow_w. }
  apply (exchange_succeeds Hsign realm (redemption (ap_client_id params) (ac_code row)
    (ap_redirect_uri params) verifier) ip ua client (set_used true row) user key w3 verifier); try done.
  - by apply (frame_up _ _ _ F3).
  - simpl. by rewrite Hrr.
  - simpl. by rewrite Hrch.
  - simpl. by rewrite Hru, Hrow3.
  - intros t Hlt. rewrite (frame_now _ _ _ F3). by apply Hlock.
  - by rewrite Hrow3.
  - by rewrite Hrow3.
Qed.

Definition authorize_params : AuthorizeParams :=
  mkAuthorizeParams "code" "app" "https://app.example/cb" (Some "openid email") (Some "st")
    (Some (to_base64url "verifier-2")) (Some "S256") None None.

Example authorize_redeem_roundtrip_witness :
  exists redirect w1 code resp w2,
    run (authorizeWithUser (E:=test_env) realm0 user0 authorize_params (mkAuthContext None None)) world1
      = (inr redirect, w1) /\
    elem_of ("code", code) (rd_query redirect) /\
    run (handleAuthorizationCodeGrant (E:=test_env) realm0
           (redemption "app" code "https://app.example/cb" "verifier-2") None None)
        (with_now (w_now world1 + 59999) w1) = (inr resp, w2).
Proof.
  destruct (ends_ok_run (authorizeWithUser (E:=test_env) realm0 user0 authorize_params
    (mkAuthContext None None)) world1) as (redirect & w1 & H); [reflexivity|].
  exists redirect, w1.
  destruct (authorize_redeem_roundtrip (E:=test_env) realm0 user0 authorize_params
    (mkAuthContext None None) "verifier-2" None None key0 client0 world1 redirect w1 59999)
    as (code & resp & w2 & Hq & Hr); try reflexivity; try discriminate; try exact H; try lia.
  - intros key kid claims. eexists. reflexivity.
  - apply elem_of_cons. by left.
  - intros draw Hd. by apply elem_of_nil in Hd.
  - exists code, resp, w2. split; [exact H|]. split; [exact Hq | exact Hr].
Defined.
