(* ===== verification/RefreshGrant.v ===== *)
(** * RefreshGrant: theorems on the refresh_token grant *)

From S2P Require Import Prelude Prog Json Schema Store StoreFacts Scopes StepUp Crypto Events.
From S2P Require Import Groups BruteForce OAuth Device AuthTokens AuthGrants AuthFacts Testbed.

Section Grant.
Context {E : Env}.

(** What the look-up with its includes finds. *)
Lemma stored_token_spec w h t su :
  stored_token w h = Some (t, su) ->
  t ∈ rows TRefreshToken w /\ rt_tokenHash t = h /\
  forall s u, su = Some (s, u) ->
    s ∈ rows TSession w /\ session_id s = rt_sessionId t /\
    u ∈ rows TUser w /\ user_id u = session_userId s.
Proof.
  unfold stored_token.
  destruct (List.find (fun t => rt_tokenHash t === h) (rows TRefreshToken w)) as [t0|] eqn:Ht; [|done].
  apply find_elem in Ht as [Hin Hh%bool_decide_eq_true]. intros [= <- Hsu]. split; [done|]. split; [done|].
  intros s u ->.
  destruct (List.find (fun s => session_id s === _) (rows TSession w)) as [s0|] eqn:Hs; [|done].
  apply find_elem in Hs as [Hsin Hsid%bool_decide_eq_true].
  destruct (List.find (fun u => user_id u === _) (rows TUser w)) as [u0|] eqn:Hu; [|done].
  apply find_elem in Hu as [Huin Huid%bool_decide_eq_true]. by injection Hsu as <- <-.
Qed.

(** Revoking by id revokes the token itself, ids being unique. *)
Lemma revoked_in_place (t : RefreshToken) rs :
  NoDup (map rt_id rs) -> t ∈ rs ->
  set_revoked true t ∈ update_first (fun x => rt_id x === rt_id t) (set_revoked true) rs.
Proof.
  induction rs as [|x rs IH]; intros Hnd Hin; [by apply elem_of_nil in Hin|]. simpl in *.
  apply NoDup_cons in Hnd as [Hx Hnd]. apply elem_of_cons in Hin as [<-|Hin].
  - rewrite bool_decide_eq_true_2 by done. set_solver.
  - rewrite bool_decide_eq_false_2; [set_solver|]. intros Heq. apply Hx. rewrite Heq.
    by apply list_elem_of_fmap_2.
Qed.

Lemma reject_refresh_throws realm c ip st w a w' : run (reject_refresh realm c ip st) w <> (inr a, w').
Proof.
  unfold reject_refresh. intros H. apply run_bind_inr in H as (x & w1 & _ & H).
  apply run_bind_inr in H as (y & w2 & _ & H). done.
Qed.
End Grant.

(** C3. A refresh token is exchanged only when: the client authenticated in the realm of
    the request and may use the grant; the token's hash is stored, unrevoked and unexpired;
    the [client_id] it was issued under is this client's; its session and user exist. The
    presented token is then revoked, and the new tokens are issued for the same session and
    its user, with the assurance level the session reached and no scope beyond the one asked
    for now or granted before. Only the text of the [client_id] is compared, not the realm
    of the session ([refresh_crosses_realms]), and the statement is about one request at a
    time ([refresh_rotation_race]). *)
Theorem refresh_grant_sound {E : Env} realm body ip w resp w' :
  NoDup (map rt_id (rows TRefreshToken w)) ->
  run (handleRefreshTokenGrant realm body ip) w = (inr resp, w') ->
  exists client raw t session user w1,
    authenticated realm (field "client_id" body) (field "client_secret" body) "refresh_token" w client /\
    field "refresh_token" body = Some raw /\
    t ∈ rows TRefreshToken w /\ rt_tokenHash t = sha256 raw /\ rt_revoked t = false /\
    w_now w <= rt_expiresAt t /\ rt_clientId t = Some (Schema.client_clientId client) /\
    session ∈ rows TSession w /\ session_id session = rt_sessionId t /\
    user ∈ rows TUser w /\ user_id user = session_userId session /\
    set_revoked true t ∈ rows TRefreshToken w' /\
    issued realm user (Schema.client_clientId client) (session_id session)
      (js_or (js_or (field "scope" body) (rt_scope t)) None)
      (Some (session_satisfiedAcr session ?? ACR_PASSWORD))
      (Some (match session_amr session with [] => ["pwd"] | l => l end)) w1 resp w' /\
    w_now w1 = w_now w.
Proof.
  intros Hnd. unfold handleRefreshTokenGrant. cbv zeta. intros H.
  destruct (truthy (field "refresh_token" body)) eqn:Hrt; [|done]. simpl negb in H. cbv iota in H.
  apply truthy_true in Hrt as (raw & Hraw & _). rewrite Hraw in H. simpl default in H.
  apply run_bind_inr in H as (client & w1 & Hv & H). apply run_validateClient_inr in Hv as [-> Hauth].
  apply run_bind_inr in H as (st & w1 & Hst & H). run_stmt_inv Hst.
  destruct st as [[t su]|]; [|by apply reject_refresh_throws in H]. symmetry in Hst.
  apply stored_token_spec in Hst as (Htin & Hth & Hsu).
  apply run_bind_inr in H as (now & w1 & Hn & H). run_stmt_inv Hn. cbn [fst snd] in H.
  destruct (rt_revoked t) eqn:Hrev; [by apply reject_refresh_throws in H|].
  destruct (Z.ltb_spec (rt_expiresAt t) (w_now w)) as [|Hexp]; [by apply reject_refresh_throws in H|].
  simpl orb in H. cbv iota in H.
  destruct (truthy (rt_clientId t)) eqn:Hct; [|done]. simpl negb in H. cbv iota in H.
  destruct (bool_decide_reflect (rt_clientId t = field "client_id" body)) as [Hcl|]; [|done].
  simpl negb in H. cbv iota in H.
  apply run_bind_inr in H as (t2 & w2 & Hup & H). run_stmt_inv Hup.
  destruct su as [[session user]|]; [|done].
  destruct (Hsu session user eq_refl) as (Hsin & Hsid & Huin & Huid).
  apply run_bind_inr in H as (u1 & w3 & Hev & H). apply run_login_event in Hev.
  apply run_bind_inr in H as (u2 & w4 & Hmt & H).
  apply (run_frame []) in Hmt; [|apply inc_metric_footprint].
  apply run_issueTokens_inr in H as Hiss.
  pose proof (iss_refresh _ _ _ _ _ _ _ _ _ _ Hiss) as (raw' & rt & _ & _ & _ & _ & _ & _ & _ & _ & Hrows).
  exists client, raw, t, session, user, w4.
  pose proof (auth_id _ _ _ _ _ _ Hauth) as Hid. rewrite Hid in *. simpl default in Hiss.
  repeat (split; [done|]). split.
  { rewrite Hrows, (frame_rows _ _ _ TRefreshToken Hmt), (frame_rows _ _ _ TRefreshToken Hev),
      rows_with_rows_eq by done. apply elem_of_app. left. by apply revoked_in_place. }
  split; [by rewrite Hsid|]. by rewrite (frame_now _ _ _ Hmt), (frame_now _ _ _ Hev).
Qed.

(** C4. Presenting a refresh token that was already rotated is refused and ends its
    session's access: afterwards every refresh token of the session is revoked, and
    no token of another session has changed. *)
Theorem refresh_reuse_revokes_session {E : Env} realm body ip w client raw t su :
  run (validateClient realm (field "client_id" body) (field "client_secret" body) "refresh_token") w
    = (inr client, w) ->
  w_db_up w = true -> field "refresh_token" body = Some raw -> raw <> EmptyString ->
  stored_token w (sha256 raw) = Some (t, Some su) -> rt_revoked t = true ->
  exists w', run (handleRefreshTokenGrant realm body ip) w =
      (inl (OAuthTokenError "invalid_grant" (Some "Invalid or expired refresh token") 400), w') /\
    (forall x, x ∈ rows TRefreshToken w' -> rt_sessionId x = rt_sessionId t -> rt_revoked x = true) /\
    (forall x, rt_sessionId x <> rt_sessionId t ->
       (x ∈ rows TRefreshToken w' <-> x ∈ rows TRefreshToken w)).
Proof.
  intros Hv Hup Hraw Hne Hst Hrev. unfold handleRefreshTokenGrant. cbv zeta. rewrite Hraw.
  rewrite (proj2 (truthy_Some raw) Hne). simpl negb. simpl default. cbv iota.
  rewrite (run_bind_ok _ _ _ _ _ Hv), (run_bind_ok _ _ _ _ _ (run_query _ w Hup)), Hst.
  rewrite (run_bind_ok date_now _ w (w_now w) w eq_refl), Hrev. simpl orb. cbv iota.
  unfold reject_refresh. rewrite Hrev.
  rewrite run_bind. rewrite (run_bind_ok _ _ _ _ _ (run_update_many TRefreshToken _ _ w Hup)).
  set (w1 := with_rows TRefreshToken _ w). cbn [run].
  destruct (run_recordLoginEvent (mkEventParams (realm_id realm) None None "TOKEN_REFRESH_ERROR"
    (field "client_id" body) ip (Some "Invalid or expired refresh token")) w1) as [w2 Hev].
  rewrite (run_bind_ok _ _ _ _ _ Hev). exists w2. split; [done|].
  apply run_login_event in Hev. rewrite (frame_rows _ _ _ TRefreshToken Hev) by done.
  unfold w1. rewrite rows_with_rows_eq. unfold update_all. split.
  - intros x (y & -> & Hy)%list_elem_of_fmap Hs.
    destruct (bool_decide_reflect (rt_sessionId y = rt_sessionId t)); [done|]. by destruct (n Hs).
  - intros x Hx. rewrite list_elem_of_fmap. split.
    + intros (y & -> & Hy). destruct (bool_decide_reflect (rt_sessionId y = rt_sessionId t)); done.
    + intros Hin. exists x. by rewrite bool_decide_eq_false_2.
Qed.

(** ** Concrete refreshes *)

Definition session0 : Session :=
  mkSession "session-1" "user-1" None None (Some ACR_MFA) ["pwd"; "otp"] 990000000 1001800000.
Definition token_row (revoked : bool) : RefreshToken :=
  mkRefreshToken "rt-1" "session-1" (to_hex "raw-1") (Some "openid profile") revoked false (Some "app")
    990000000 1001800000.
Definition sibling_row : RefreshToken :=
  mkRefreshToken "rt-2" "session-1" (to_hex "raw-2") (Some "openid") false false (Some "app")
    990000000 1001800000.
Definition refresh_world (revoked : bool) : World :=
  with_rows TRefreshToken [token_row revoked; sibling_row] (with_rows TSession [session0] world1).
Definition refresh_body : Body :=
  [("grant_type", "refresh_token"); ("client_id", "app"); ("refresh_token", "raw-1")].

Example refresh_grant_sound_witness :
  NoDup (map rt_id (rows TRefreshToken (refresh_world false))) /\
  exists resp w',
    run (handleRefreshTokenGrant (E:=test_env) realm0 refresh_body None) (refresh_world false)
      = (inr resp, w') /\
    exists t, rt_tokenHash t = to_hex "raw-1" /\ set_revoked true t ∈ rows TRefreshToken w'.
Proof.
  assert (Hnd : NoDup (map rt_id (rows TRefreshToken (refresh_world false)))).
  { simpl. repeat constructor; set_solver. }
  split; [exact Hnd|].
  destruct (ends_ok_run (handleRefreshTokenGrant (E:=test_env) realm0 refresh_body None)
    (refresh_world false)) as (resp & w' & H); [reflexivity|].
  exists resp, w'. split; [exact H|].
  destruct (refresh_grant_sound (E:=test_env) _ _ _ _ _ _ Hnd H) as
    (client & raw & t & session & user & w1 & _ & Hraw & _ & Hh & _ & _ & _ & _ & _ & _ & _ & Hin & _).
  exists t. injection Hraw as <-. split; [exact Hh | exact Hin].
Defined.

Example refresh_reuse_revokes_session_witness :
  exists w', run (handleRefreshTokenGrant (E:=test_env) realm0 refresh_body None) (refresh_world true) =
      (inl (OAuthTokenError "invalid_grant" (Some "Invalid or expired refresh token") 400), w') /\
    (forall x, x ∈ rows TRefreshToken w' -> rt_sessionId x = "session-1" -> rt_revoked x = true).
Proof.
  destruct (refresh_reuse_revokes_session (E:=test_env) realm0 refresh_body None (refresh_world true)
    client0 "raw-1" (token_row true) (session0, user0)) as (w' & Hr & Hall & _);
    try reflexivity; try discriminate.
  exists w'. split; [exact Hr | exact Hall].
Defined.

(** Rotation is not atomic: two requests that present the same refresh token at
    the same time can both read it before either revokes it, and both then finish
    with new tokens, so the replay goes unnoticed. *)
Theorem refresh_rotation_race :
  exists w' pool,
    psteps (fun a b => a = b)
      (refresh_world false,
       replicate 2 (handleRefreshTokenGrant (E:=test_env) realm0 refresh_body None)) (w', pool) /\
    winners (fun _ => true) pool = 2%nat /\
    length (List.filter (fun t => (rt_sessionId t === "session-1") && negb (rt_revoked t))
      (rows TRefreshToken w')) = 3%nat.
Proof.
  eexists (schedule (concat (replicate 40 [0; 1]%nat)) _).1, (schedule (concat (replicate 40 [0; 1]%nat)) _).2.
  split; [rewrite <- surjective_pairing; apply schedule_psteps|]. split; vm_compute; reflexivity.
Qed.

(** The grant does not look at the realm of the token: a client of another
    realm with the same [client_id] is given tokens, signed by that realm, for the
    user of the first. *)
Theorem refresh_crosses_realms :
  let realm2 := mkRealm "realm-2" "other" None 300 1800 2592000 8 true true true false 0
    true 3 900 600 0 false true 300 3 true "log" 6 300 5 3600 2 true true 60 1000 60 1000 100 2000
    true 3600 true true 0 true false [] false true None None false true 30 None
    false 50 80 None (Some 587) None None None false "smtp" None in
  let client2 := mkClient "client-db-2" "realm-2" "app" None PUBLIC true [] ["refresh_token"] []
    None None None false None None [] None true 900 0 in
  let key2 := mkRealmSigningKey "realm-2" "kid-2" "pub-2" "priv-2" true 0 in
  let w := with_rows TRealmSigningKey [key0; key2]
    (with_rows TClient [client0; client2] (refresh_world false)) in
  exists resp w',
    run (handleRefreshTokenGrant (E:=test_env) realm2 refresh_body None) w = (inr resp, w') /\
    starts_with "jwt.kid-2." (tr_access_token resp) = true /\
    forall u, u ∈ rows TUser w -> user_realmId u = "realm-1".
Proof.
  cbv zeta. eexists _, _. split; [vm_compute; reflexivity|]. split; [vm_compute; reflexivity|].
  intros u Hu. apply elem_of_cons in Hu as [->|Hu]; [reflexivity | by apply elem_of_nil in Hu].
Qed.
