(* ===== verification/DeviceGrant.v ===== *)
(** * DeviceGrant: theorems on the device_code grant *)

From S2P Require Import Prelude Prog Json Schema Store StoreFacts Scopes StepUp Crypto Events.
From S2P Require Import Groups BruteForce Mfa OAuth Device AuthTokens AuthGrants AuthFacts Testbed.

Section Grant.
Context {E : Env}.

(** The row a poll may redeem. *)
Record approved (code : string) (realm : Realm) (w : World) (d : DeviceCode) (userId : string) : Prop := {
  dv_row : d ∈ rows TDeviceCode w;
  dv_code : dc_deviceCode d = code;
  dv_realm : dc_realmId d = realm_id realm;
  dv_live : w_now w <= dc_expiresAt d;
  dv_denied : dc_denied d = false;
  dv_approved : dc_approved d = true;
  dv_user : dc_userId d = Some userId;
  dv_polled : forall t, dc_lastPolledAt d = Some t -> dc_interval d * 1000 <= w_now w - t
}.

Lemma run_check_polling_inr d w r w' :
  run (check_polling d) w = (inr r, w') ->
  (forall t, dc_lastPolledAt d = Some t -> dc_interval d * 1000 <= w_now w - t) /\
  frame [TDeviceCode] w w'.
Proof.
  unfold check_polling. intros H. assert (Hf : frame [TDeviceCode] w w').
  { eapply run_frame; [|exact H]. footprint. }
  split; [|done]. intros t Ht. rewrite Ht in H.
  apply run_bind_inr in H as (u & w1 & H & _).
  apply run_bind_inr in H as (now & w2 & Hn & H). run_stmt_inv Hn. cbn [fst snd] in H.
  destruct (Z.ltb_spec (w_now w - t) (dc_interval d * 1000)); [|lia].
  apply run_bind_inr in H as (now & w2 & Hn & H). run_stmt_inv Hn.
  by apply run_bind_inr in H as (x & w2 & _ & H).
Qed.

(** What remains after the row was deleted. *)
Definition device_end (realm : Realm) (body : Body) (ip userAgent : option string) (user : User)
    (scope : option string) : M TokenResponse :=
  (enforceSessionLimit realm (user_id user) ;;;
   session <- create_session realm (user_id user) ip userAgent None [] ;;
   login_event realm "DEVICE_CODE_TO_TOKEN" (Some (user_id user)) (Some (session_id session))
     (field "client_id" body) ip None ;;;
   token_issued realm "device_code" ;;;
   now <- date_now ;;
   issueTokens realm user (field "client_id" body ?? EmptyString) (session_id session) scope None
     (Some now) None None None)%prog.

Lemma device_end_footprint realm body ip ua user scope :
  stable (frame [TRefreshToken; TSession; TLoginEvent]) (device_end realm body ip ua user scope).
Proof. unfold device_end, create_session, login_event, token_issued. footprint. Qed.

(** ** One delete consumes a device code *)

Variables (code rowId : string).
(** The device code has the one row [rowId]. *)
Definition device_row (rs : list DeviceCode) : Prop :=
  forall d, d ∈ rs -> dc_deviceCode d = code <-> dc_id d = rowId.
Definition pending_code (d : DeviceCode) : nat := if dc_deviceCode d === code then 1 else 0.
Notation Inv := (fun w : World => device_row (rows TDeviceCode w)).

Lemma device_row_update p f rs :
  (forall d, dc_id (f d) = dc_id d /\ dc_deviceCode (f d) = dc_deviceCode d) ->
  device_row rs -> device_row (update_first p f rs).
Proof.
  intros Hf H d Hd. apply elem_of_update_first in Hd as [Hd|(x & Hx & ->)]; [by apply H|].
  destruct (Hf x) as [-> ->]. apply H. by apply find_elem in Hx as [? _].
Qed.

Lemma device_row_remove p rs : device_row rs -> device_row (remove_first p rs).
Proof. intros H d Hd. apply H. by apply elem_of_remove_first in Hd. Qed.

Lemma check_polling_keeps d : stable (keeps (units TDeviceCode pending_code) Inv) (check_polling d).
Proof.
  assert (Hn : stable (keeps (units TDeviceCode pending_code) Inv) date_now).
  { by apply (units_keeps []), date_now_footprint. }
  assert (Hu : forall p f,
    (forall d, dc_id (f d) = dc_id d /\ dc_deviceCode (f d) = dc_deviceCode d) ->
    stable (keeps (units TDeviceCode pending_code) Inv) (update TDeviceCode p f)).
  { intros p f Hf. apply (units_update_keeps TDeviceCode pending_code device_row).
    - intros rs. by apply device_row_update.
    - intros x. unfold pending_code. by rewrite (proj2 (Hf x)). }
  unfold check_polling. apply stable_bind.
  - destruct (dc_lastPolledAt d); [|done]. apply stable_bind; [exact Hn|]. intros now.
    case_match; [|done]. apply stable_bind; [exact Hn|]. intros now'.
    apply stable_bind; [by apply Hu|done].
  - intros _. apply stable_bind; [exact Hn|]. intros now. apply stable_bind; [by apply Hu|done].
Qed.

Lemma device_handler_claims realm body ip ua :
  field "device_code" body = Some code ->
  claims (units TDeviceCode pending_code) Inv (fun c _ => c = true) false
    (handleDeviceCodeGrant realm body ip ua).
Proof.
  intros Hcode. unfold handleDeviceCodeGrant. cbv zeta. rewrite Hcode. destruct (negb _); [done|].
  apply claims_bind_stable; [apply (units_keeps []); [done|apply validateClient_footprint]|].
  intros client. apply (claims_find_first TDeviceCode pending_code device_row); [done|].
  intros d rs Hrs Hin Hd%bool_decide_eq_true. pose proof (proj1 (Hrs d Hin) Hd) as Hid.
  destruct (negb _); [done|].
  apply claims_bind_stable; [by apply (units_keeps []), date_now_footprint|]. intros now.
  destruct (_ <? _); [done|]. destruct (dc_denied d); [done|]. destruct (_ || _); [done|].
  apply claims_bind_stable; [apply check_polling_keeps|]. intros _.
  apply claims_bind_stable; [apply (units_keeps []); [done|footprint]|].
  intros [user|]; [|done].
  apply claims_bind_stable; [apply (units_keeps []); [done|footprint]|].
  intros enabled. destruct enabled; [done|].
  apply claims_bind_stable; [apply (units_keeps []); [done|footprint]|].
  intros required. destruct required; [done|].
  apply (claims_delete_one TDeviceCode pending_code device_row).
  - intros rs'. apply device_row_remove.
  - intros x rs' Hrs' Hx Hp%bool_decide_eq_true. unfold pending_code.
    rewrite (proj2 (Hrs' x Hx)) by (by rewrite Hp). by rewrite bool_decide_eq_true_2.
  - intros r rs' _ _ _. apply claims_stable; [|done].
    apply (units_keeps [TRefreshToken; TSession; TLoginEvent]); [done|].
    apply (device_end_footprint realm body ip ua user (dc_scope d)).
Qed.
End Grant.

(** An approved device code is redeemed at most once, however many polls for it
    race: the row is deleted before tokens are issued, and only one delete finds it. *)
Theorem device_code_single_use {E : Env} code rowId env w w' reqs pool :
  let Inv := fun w => device_row code rowId (rows TDeviceCode w) in
  let pending := units TDeviceCode (pending_code code) in
  (forall a b, env a b -> keeps pending Inv a b) ->
  Inv w ->
  Forall (fun q : Realm * Body => field "device_code" q.2 = Some code) reqs ->
  psteps env (w, map (fun q : Realm * Body => handleDeviceCodeGrant q.1 q.2 None None) reqs) (w', pool) ->
  (winners (fun _ => true) pool <= pending w)%nat.
Proof.
  intros Inv pending Henv Hi Hreqs Hs.
  refine (winners_bounded pending Inv env Henv (fun _ => true) w w' _ pool Hi _ Hs).
  apply Forall_fmap. eapply Forall_impl; [exact Hreqs|]. intros q Hq. simpl.
  eapply claims_mono; [|by apply device_handler_claims]. done.
Qed.

(** C11. Tokens are issued for a device code only when the client authenticated and
    may use the device grant, and the code belongs to this realm, has not expired,
    was approved and not denied, and is not polled faster than its interval; the
    approving user exists, has no second factor and needs none. The tokens are for
    that user and the scope of the device request, with the password level. *)
Theorem device_grant_sound {E : Env} realm body ip ua w resp w' :
  run (handleDeviceCodeGrant realm body ip ua) w = (inr resp, w') ->
  exists client code d uid user session w1,
    authenticated realm (field "client_id" body) (field "client_secret" body) DEVICE_URN w client /\
    field "device_code" body = Some code /\ approved code realm w d uid /\
    user ∈ rows TUser w /\ user_id user = uid /\
    no_factor uid w /\ realm_mfaRequired realm = false /\
    session ∈ rows TSession w' /\ session_userId session = uid /\
    issued realm user (Schema.client_clientId client) (session_id session) (dc_scope d) None None
      w1 resp w' /\
    w_now w1 = w_now w.
Proof.
  unfold handleDeviceCodeGrant. cbv zeta. intros H.
  destruct (truthy (field "device_code" body)) eqn:Hcode; [|done]. simpl negb in H. cbv iota in H.
  apply truthy_true in Hcode as (code & Hcode & _). rewrite Hcode in H. simpl default in H.
  apply run_bind_inr in H as (client & w1 & Hv & H). apply run_validateClient_inr in Hv as [-> Hauth].
  apply run_bind_inr in H as (o & w1 & Hd & H). run_stmt_inv Hd.
  destruct o as [d|]; [|done]. symmetry in Hd. apply find_elem in Hd as [Hin Hdc%bool_decide_eq_true].
  destruct (bool_decide_reflect (dc_realmId d = realm_id realm)) as [Hre|]; [|done].
  simpl negb in H. cbv iota in H.
  apply run_bind_inr in H as (now & w1 & Hn & H). run_stmt_inv Hn. cbn [fst snd] in H.
  destruct (Z.ltb_spec (dc_expiresAt d) (w_now w)); [done|].
  destruct (dc_denied d) eqn:Hden; [done|]. destruct (dc_approved d) eqn:Hap; [|done].
  destruct (truthy (dc_userId d)) eqn:Hu; [|done].
  simpl negb in H. simpl orb in H. cbv iota in H.
  apply truthy_true in Hu as (uid & Hu & _). rewrite Hu in H. simpl default in H.
  apply run_bind_inr in H as (x & w1 & Hp & H). apply run_check_polling_inr in Hp as [Hpoll F1].
  apply run_bind_inr in H as (o & w2 & Hf & H). run_stmt_inv Hf. destruct o as [user|]; [|done].
  symmetry in Hf. apply find_elem in Hf as [Huin Huid%bool_decide_eq_true].
  rewrite (frame_rows _ _ _ TUser F1) in Huin by done.
  apply run_bind_inr in H as (enabled & w2 & He & H).
  apply run_isMfaEnabled_inr in He as [-> He]. destruct enabled; [done|].
  apply run_bind_inr in H as (required & w2 & Hm & H). unfold isMfaRequired in Hm.
  destruct (realm_mfaRequired realm) eqn:Hmr; [by injection Hm as <- <-|].
  apply run_isMfaEnabled_inr in Hm as [-> _]. destruct required; [done|].
  apply run_bind_inr in H as (d' & w3 & Hdel & H).
  apply (run_frame [TDeviceCode]) in Hdel as F2; [|footprint].
  apply run_bind_inr in H as (y & w4 & Hl & H).
  apply (run_frame [TRefreshToken; TSession]) in Hl; [|by apply enforceSessionLimit_footprint].
  apply run_bind_inr in H as (session & w5 & Hses & H).
  apply run_create_session_inr in Hses as (Hsu & _ & _ & _ & Hsrows & F5).
  apply run_bind_inr in H as (z & w6 & Hev & H). apply run_login_event in Hev.
  apply run_bind_inr in H as (z' & w7 & Hmt & H).
  apply (run_frame []) in Hmt; [|apply inc_metric_footprint].
  apply run_bind_inr in H as (now & w8 & Hn & H). run_stmt_inv Hn. cbn [fst snd] in H.
  apply run_issueTokens_inr in H as Hiss. pose proof (iss_frame _ _ _ _ _ _ _ _ _ _ Hiss) as F8.
  exists client, code, d, uid, user, session, w7. split; [done|]. split; [done|].
  split; [by constructor|]. split; [done|]. split; [done|]. split.
  { assert (Hno : no_factor (user_id user) w1) by by apply He.
    unfold no_factor in *. rewrite (frame_rows _ _ _ TUserCredential F1), Huid in Hno by done. exact Hno. }
  split; [done|]. split.
  { rewrite (frame_rows _ _ _ TSession F8), (frame_rows _ _ _ TSession Hmt),
      (frame_rows _ _ _ TSession Hev), Hsrows by done. set_solver. }
  split; [by rewrite Hsu|]. split.
  - rewrite (auth_id _ _ _ _ _ _ Hauth) in Hiss. exact Hiss.
  - rewrite (frame_now _ _ _ Hmt), (frame_now _ _ _ Hev), (frame_now _ _ _ F5), (frame_now _ _ _ Hl),
      (frame_now _ _ _ F2). apply (frame_now _ _ _ F1).
Qed.

(** A poll that comes before the interval has passed is answered with
    [slow_down], and the code's interval grows by five seconds from now. *)
Theorem device_poll_slow_down {E : Env} realm body ip ua w client code d last :
  run (validateClient realm (field "client_id" body) (field "client_secret" body) DEVICE_URN) w
    = (inr client, w) ->
  w_db_up w = true -> field "device_code" body = Some code -> code <> EmptyString ->
  List.find (fun x => dc_deviceCode x === code) (rows TDeviceCode w) = Some d ->
  List.find (fun x => dc_id x === dc_id d) (rows TDeviceCode w) = Some d ->
  dc_realmId d = realm_id realm -> w_now w <= dc_expiresAt d -> dc_denied d = false ->
  dc_approved d = true -> truthy (dc_userId d) = true ->
  dc_lastPolledAt d = Some last -> w_now w - last < dc_interval d * 1000 ->
  exists w', run (handleDeviceCodeGrant realm body ip ua) w =
      (inl (OAuthTokenError "slow_down" None 400), w') /\
    rows TDeviceCode w' = update_first (fun x => dc_id x === dc_id d)
      (set_polled (w_now w) (dc_interval d + 5)) (rows TDeviceCode w) /\
    frame [TDeviceCode] w w'.
Proof.
  intros Hv Hup Hc Hne Hf Hfi Hre Hexp Hden Hap Hu Hlast Hsoon.
  unfold handleDeviceCodeGrant. cbv zeta. rewrite Hc, (proj2 (truthy_Some code) Hne). simpl negb.
  simpl default. cbv iota. rewrite (run_bind_ok _ _ _ _ _ Hv).
  rewrite (run_bind_ok _ _ _ _ _ (run_find_first_eq TDeviceCode _ w _ Hup Hf)).
  rewrite Hre, (bool_decide_eq_true_2 _ eq_refl). simpl negb. cbv iota.
  rewrite (run_bind_ok date_now _ w (w_now w) w eq_refl), (proj2 (Z.ltb_ge _ _)) by lia.
  rewrite Hden, Hap, Hu. simpl negb. simpl orb. cbv iota.
  assert (Hp : run (check_polling d) w = (inl (OAuthTokenError "slow_down" None 400),
    with_rows TDeviceCode (update_first (fun x => dc_id x === dc_id d)
      (set_polled (w_now w) (dc_interval d + 5)) (rows TDeviceCode w)) w)).
  { unfold check_polling. rewrite Hlast. apply run_bind_err.
    rewrite (run_bind_ok date_now _ w (w_now w) w eq_refl), (proj2 (Z.ltb_lt _ _)) by lia.
    rewrite (run_bind_ok date_now _ w (w_now w) w eq_refl).
    by rewrite (run_bind_ok _ _ _ _ _ (run_update TDeviceCode _ _ w d Hup Hfi)). }
  eexists. split; [apply (run_bind_err _ _ _ _ _ Hp)|].
  split; [apply rows_with_rows_eq | apply frame_with_rows].
Qed.

(** ** Concrete polls *)

Definition device0 (last : option Z) : DeviceCode :=
  mkDeviceCode "dc-1" "device-1" "ABCD-EFGH" "client-db-1" "realm-1" (Some "openid") (Some "user-1")
    true false 5 last 1000500000.
Definition device_world (last : option Z) : World := with_rows TDeviceCode [device0 last] world1.
Definition device_body (client_id : string) : Body :=
  [("grant_type", DEVICE_URN); ("client_id", client_id); ("device_code", "device-1")].

Example device_code_single_use_witness :
  let Inv := fun w => device_row "device-1" "dc-1" (rows TDeviceCode w) in
  let reqs := [(realm0, device_body "app"); (realm0, device_body "app")] in
  Inv (device_world None) /\
  (winners (fun _ => true) (schedule (concat (replicate 30 [0; 1]%nat))
     (device_world None, map (fun q : Realm * Body =>
        handleDeviceCodeGrant (E:=test_env) q.1 q.2 None None) reqs)).2 <= 1)%nat.
Proof.
  intros Inv reqs. assert (Hi : Inv (device_world None)).
  { intros d Hd. apply list_elem_of_singleton in Hd as ->. split; reflexivity. }
  split; [exact Hi|].
  refine (device_code_single_use (E:=test_env) "device-1" "dc-1" (fun a b => a = b) (device_world None)
    _ reqs _ _ Hi _ _).
  - intros a b ->. reflexivity.
  - repeat constructor.
  - rewrite <- surjective_pairing. apply schedule_psteps.
Defined.

Example device_grant_sound_witness :
  exists resp w', run (handleDeviceCodeGrant (E:=test_env) realm0 (device_body "app") None None)
      (device_world None) = (inr resp, w') /\
    exists d, approved "device-1" realm0 (device_world None) d "user-1".
Proof.
  destruct (ends_ok_run (handleDeviceCodeGrant (E:=test_env) realm0 (device_body "app") None None)
    (device_world None)) as (resp & w' & H); [reflexivity|].
  exists resp, w'. split; [exact H|].
  destruct (device_grant_sound (E:=test_env) _ _ _ _ _ _ _ H) as
    (client & code & d & uid & user & session & w1 & _ & Hc & Ha & _).
  exists d. injection Hc as <-. pose proof (dv_row _ _ _ _ _ Ha) as Hin.
  apply list_elem_of_singleton in Hin. pose proof (dv_user _ _ _ _ _ Ha) as Hu. rewrite Hin in Hu.
  injection Hu as <-. exact Ha.
Defined.

Example device_poll_slow_down_witness :
  exists w', run (handleDeviceCodeGrant (E:=test_env) realm0 (device_body "app") None None)
      (device_world (Some 999997000)) = (inl (OAuthTokenError "slow_down" None 400), w') /\
    rows TDeviceCode w' = [set_polled 1000000000 10 (device0 (Some 999997000))].
Proof.
  destruct (device_poll_slow_down (E:=test_env) realm0 (device_body "app") None None
    (device_world (Some 999997000)) client0 "device-1" (device0 (Some 999997000)) 999997000)
    as (w' & Hr & Hd & _); try reflexivity; try discriminate.
  exists w'. split; [exact Hr|]. rewrite Hd. reflexivity.
Defined.

(** The grant does not compare the polling client with the one the code was
    issued to: another client of the realm redeems it for the same user. *)
Theorem device_code_unbound :
  let client2 := mkClient "client-db-2" "realm-1" "other" None PUBLIC true [] [DEVICE_URN] []
    None None None false None None [] None true 900 0 in
  let w := with_rows TClient [client0; client2] (device_world None) in
  exists resp w',
    run (handleDeviceCodeGrant (E:=test_env) realm0 (device_body "other") None None) w = (inr resp, w') /\
    (forall d, d ∈ rows TDeviceCode w -> dc_clientId d = Schema.client_id client0) /\
    rows TDeviceCode w' = [] /\
    map rt_clientId (rows TRefreshToken w') = [Some "other"].
Proof.
  cbv zeta. eexists _, _. split; [vm_compute; reflexivity|]. split; [|split; vm_compute; reflexivity].
  intros d Hd. apply list_elem_of_singleton in Hd as ->. reflexivity.
Qed.
