(* ===== verification/PasswordGrant.v ===== *)
(** * PasswordGrant: theorems on the password and mfa_otp grants *)

From S2P Require Import Prelude Prog Json Schema Store StoreFacts Scopes StepUp Crypto Events.
From S2P Require Import Groups PasswordPolicy BruteForce SmsOtp Mfa OAuth Device Federation.
From S2P Require Import AuthTokens AuthGrants AuthFacts Testbed.

Section Password.
Context {E : Env}.

(** An account of the realm has this user's id. *)
Definition account_in (realm : Realm) (w : World) (user : User) : Prop :=
  exists u, u ∈ rows TUser w /\ user_id u = user_id user /\ user_realmId u = realm_id realm.

(** What an accepted password proves: the local hash matches it, or a directory
    of the realm accepted it. *)
Definition password_evidence (realm : Realm) (user : User) (username password : string) (w : World)
  : Prop :=
  (exists hash, user_passwordHash user = Some hash /\ argon2_verify hash password = Some true /\
     (String.length password <= MAX_PASSWORD_LENGTH)%nat) \/
  ldap_accepts (realm_id realm) username password w.

(** The account is local to the federation check: [resolve_user] decides. *)
Definition awaits_ldap (u : User) : bool :=
  user_enabled u && negb (truthy (user_passwordHash u)) && truthy (user_federationLink u).

Definition found_or_accepted (realm : Realm) (username password : string) (w w1 : World)
    (o o' : option User) : Prop :=
  (o' = o /\ forall u, o = Some u -> awaits_ldap u = false) \/
  (ldap_accepts (realm_id realm) username password w /\
   forall u, o' = Some u -> account_in realm w1 u).

Lemma ldap_accepts_frame realmId username password w w1 :
  frame [TUser] w w1 -> ldap_accepts realmId username password w1 ->
  ldap_accepts realmId username password w.
Proof. intros F (f & Hf & H). exists f. by rewrite (frame_rows _ _ _ TUserFederation F) in Hf. Qed.

(** LDAP accepted, and the account it names was read back. *)
Lemma run_ldap_user realm username password uid w w1 o w2 :
  run (authenticateViaFederation (realm_id realm) username password) w = (inr (Some uid), w1) ->
  run (find_first TUser (by_user_id uid)) w1 = (inr o, w2) ->
  w2 = w1 /\ ldap_accepts (realm_id realm) username password w /\
  forall u, o = Some u -> account_in realm w1 u.
Proof.
  intros (Hl & u' & Hin & Hid & Hr)%run_authenticateViaFederation Hf. run_stmt_inv Hf.
  split; [done|]. split; [done|]. intros u ->. symmetry in Hf.
  apply find_elem in Hf as [_ Hu%bool_decide_eq_true]. exists u'. by rewrite Hu.
Qed.

Lemma run_federated_user_inr realm username password o w o' w1 :
  run (federated_user realm username password o) w = (inr o', w1) ->
  frame [TUser] w w1 /\ found_or_accepted realm username password w w1 o o'.
Proof.
  intros H. assert (F : frame [TUser] w w1).
  { eapply run_frame; [|exact H]. unfold federated_user. footprint. }
  split; [done|]. unfold federated_user in H. destruct o as [u|].
  2: { injection H as <- <-. left. split; [done|]. intros u [=]. }
  fold (awaits_ldap u) in H. destruct (awaits_ldap u) eqn:Ha.
  - apply run_bind_inr in H as (fed & w2 & Hl & H). destruct fed as [uid|]; [|done]. right.
    by destruct (run_ldap_user _ _ _ _ _ _ _ _ Hl H) as (-> & ? & ?).
  - injection H as <- <-. left. split; [done|]. intros u' [=]. by subst.
Qed.

(** The user the password is checked for: enabled, and either the account that
    was looked up, which does not wait for LDAP, or one LDAP has accepted. *)
Lemma run_resolve_user_inr realm username password o w u w1 :
  run (resolve_user realm username password o) w = (inr u, w1) ->
  frame [TUser] w w1 /\ user_enabled u = true /\
  (o = Some u \/
   (ldap_accepts (realm_id realm) username password w /\ account_in realm w1 u)).
Proof.
  intros H. assert (F : frame [TUser] w w1).
  { eapply run_frame; [|exact H]. unfold resolve_user. footprint. }
  split; [done|]. unfold resolve_user in H. apply run_bind_inr in H as (o' & w2 & Ho & H).
  destruct o' as [u'|]; [|done]. destruct (user_enabled u') eqn:Hen; [|done]. injection H as <- <-.
  split; [done|]. destruct o as [v|].
  - destruct (_ && _); [injection Ho as -> _; by left|].
    destruct (_ && _); [|injection Ho as -> _; by left].
    apply run_bind_inr in Ho as (fed & w3 & Hl & Ho). destruct fed as [uid|].
    + destruct (run_ldap_user _ _ _ _ _ _ _ _ Hl Ho) as (-> & ? & ?). right. auto.
    + injection Ho as -> _. by left.
  - apply run_bind_inr in Ho as (fed & w3 & Hl & Ho). destruct fed as [uid|]; [|done].
    destruct (run_ldap_user _ _ _ _ _ _ _ _ Hl Ho) as (-> & ? & ?). right. auto.
Qed.

Lemma run_check_password_inr user password w b w1 :
  run (check_password user password) w = (inr b, w1) ->
  w1 = w /\ (b = true ->
    (negb (truthy (user_passwordHash user)) && truthy (user_federationLink user) = true) \/
    exists hash, user_passwordHash user = Some hash /\ argon2_verify hash password = Some true /\
      (String.length password <= MAX_PASSWORD_LENGTH)%nat).
Proof.
  unfold check_password. cbv zeta. intros H.
  destruct (negb (truthy (user_passwordHash user)) && truthy (user_federationLink user));
    [injection H as <- <-; by split; [|left]|].
  destruct (truthy (user_passwordHash user)) eqn:Ht; [|by injection H as <- <-].
  apply truthy_true in Ht as (hash & Hh & _). rewrite Hh in *.
  apply run_verifyPassword_inr in H as [-> H]. split; [done|]. intros Hb. right. exists hash.
  by destruct (H Hb).
Qed.

(** Accounts are only added on the way. *)
Definition users_grow (w w' : World) : Prop := forall u, u ∈ rows TUser w -> u ∈ rows TUser w'.
#[local] Instance users_grow_preorder : PreOrder users_grow.
Proof. split; [by intros w u | intros a b c H1 H2 u Hu; by apply H2, H1]. Qed.

Lemma query_grow {B} (f : World -> B) : stable users_grow (query f).
Proof. split; [|by intros [e|b]]. intros w. by destruct (w_db_up w). Qed.

Lemma authenticateViaFederation_grow realmId username password :
  stable users_grow (authenticateViaFederation realmId username password).
Proof.
  apply stable_bind; [apply query_grow|]. intros fs. induction fs as [|f fs IH]; cbn [try_federations]; [done|].
  destruct (ldap_authenticate f username password) as [[|]|]; [|done|done].
  apply stable_bind; [|intros [u|]; [done|apply IH]].
  apply stable_bind; [apply query_grow|]. intros [u|]; [done|].
  destruct (uf_importEnabled f); [|done].
  destruct (ldap_search f username) as [[[[uid em] fn] ln]|]; [|done].
  apply stable_bind; [|done]. split; [|by intros [e|b]]. intros w.
  destruct (w_db_up w); [|done]. simpl. destruct (negb _); [|done]. intros u Hu.
  cbn [snd]. rewrite rows_with_rows_eq. set_solver.
Qed.

Lemma federated_user_grow realm username password o :
  stable users_grow (federated_user realm username password o).
Proof.
  unfold federated_user. destruct o as [u|]; [|done]. destruct (_ && _); [|done].
  apply stable_bind; [apply authenticateViaFederation_grow|]. intros [uid|]; [apply query_grow|done].
Qed.

Lemma resolve_user_grow realm username password o :
  stable users_grow (resolve_user realm username password o).
Proof.
  assert (H : forall o' : option User, stable users_grow
    (r <- authenticateViaFederation (realm_id realm) username password ;;
     match r with Some uid => find_first TUser (by_user_id uid) | None => Ret o' end)%prog).
  { intros o'. apply stable_bind; [apply authenticateViaFederation_grow|].
    intros [uid|]; [apply query_grow|done]. }
  unfold resolve_user. apply stable_bind.
  - destruct o as [u|]; [|apply H]. destruct (_ && _); [done|]. destruct (_ && _); [apply H|done].
  - intros [u|]; [|done]. by destruct (user_enabled u).
Qed.

Lemma run_grow {A} (p : M A) w r w' : stable users_grow p -> run p w = (r, w') -> users_grow w w'.
Proof. intros Hp Hr. pose proof (stable_run users_grow p w Hp) as H. by rewrite Hr in H. Qed.

(** The three steps together. *)
Lemma run_password_inr realm username password w o1 w1 user w2 w3 w4 :
  let local := List.find (fun u => (user_realmId u === realm_id realm) && (user_username u === username))
                 (rows TUser w) in
  run (federated_user realm username password local) w = (inr o1, w1) ->
  run (resolve_user realm username password o1) w1 = (inr user, w2) ->
  run (check_password user password) w3 = (inr true, w4) ->
  frame [TUser] w w2 /\ user_enabled user = true /\ account_in realm w2 user /\
  password_evidence realm user username password w.
Proof.
  intros local Hf Hr Hc.
  apply run_grow in Hf as G1; [|apply federated_user_grow]. apply run_grow in Hr as G2; [|apply resolve_user_grow].
  apply run_federated_user_inr in Hf as (F1 & H1). apply run_resolve_user_inr in Hr as (F2 & Hen & H2).
  apply run_check_password_inr in Hc as (-> & H3). specialize (H3 eq_refl).
  split; [by etransitivity|]. split; [done|].
  destruct H2 as [->|[Hl Ha]].
  2: { apply (ldap_accepts_frame _ _ _ _ _ F1) in Hl. split; [done|]. by right. }
  destruct H1 as [[Heq Haw]|[Hl Ha]].
  - specialize (Haw user (eq_sym Heq)). symmetry in Heq. apply find_elem in Heq as [Hin Hp].
    apply andb_true_iff in Hp as [Hr%bool_decide_eq_true _]. split.
    { exists user. split; [by apply G2, G1|]. done. }
    destruct H3 as [H3|H3]; [|by left]. unfold awaits_ldap in Haw. rewrite Hen in Haw. simpl andb in Haw.
    by rewrite H3 in Haw.
  - destruct (Ha user eq_refl) as (u & Hu & ? & ?). split; [exists u; auto|]. by right.
Qed.
End Password.

(** C6. The password grant issues tokens only when: the client authenticated and
    may use the grant; a password and user name were given; the account belongs to
    the realm and is enabled; the password matches the account's hash or a
    directory of the realm accepted it; the account is not locked, its password
    has not expired, and neither the realm nor the account asks for a second
    factor. The session and the tokens are that user's, at the password level. *)
Theorem password_grant_sound {E : Env} realm body ip ua w resp w' :
  run (handlePasswordGrant realm body ip ua) w = (inr resp, w') ->
  exists client username password user session w1 w2,
    authenticated realm (field "client_id" body) (field "client_secret" body) "password" w client /\
    field "username" body = Some username /\ field "password" body = Some password /\
    user_enabled user = true /\ account_in realm w1 user /\ frame [TUser] w w1 /\
    password_evidence realm user username password w /\
    (realm_bruteForceEnabled realm = true ->
       forall t, user_lockedUntil user = Some t -> t <= w_now w) /\
    (0 < realm_passwordMaxAgeDays realm ->
       exists t, user_passwordChangedAt user = Some t /\
         w_now w - t <= realm_passwordMaxAgeDays realm * 24 * 60 * 60 * 1000) /\
    no_factor (user_id user) w /\ realm_mfaRequired realm = false /\
    session ∈ rows TSession w' /\ session_userId session = user_id user /\
    issued realm user (Schema.client_clientId client) (session_id session) (field "scope" body)
      (Some ACR_PASSWORD) (Some ["pwd"]) w2 resp w' /\ w_now w2 = w_now w.
Proof.
  unfold handlePasswordGrant. cbv zeta. intros H.
  apply run_bind_inr in H as (client & w0 & Hv & H). apply run_validateClient_inr in Hv as [-> Hauth].
  destruct (truthy (field "username" body)) eqn:Hun; [|done].
  destruct (truthy (field "password" body)) eqn:Hpw; [|done]. simpl negb in H. simpl orb in H. cbv iota in H.
  apply truthy_true in Hun as (username & Hun & _), Hpw as (password & Hpw & _).
  rewrite Hun, Hpw in H. simpl default in H.
  apply run_bind_inr in H as (local & w0 & Hq & H). run_stmt_inv Hq. subst local.
  apply run_bind_inr in H as (o1 & w1 & Hf & H). apply run_bind_inr in H as (user & w2 & Hr & H).
  apply run_bind_inr in H as (st & w3 & Hl & H). apply run_checkLocked_inr in Hl as [-> Hlock].
  destruct (st.1) eqn:Hst; [done|]. specialize (Hlock eq_refl).
  apply run_bind_inr in H as (valid & w3 & Hc & H).
  apply run_check_password_inr in Hc as Hc'. destruct Hc' as [-> _].
  destruct valid.
  2: { simpl negb in H. cbv iota in H. apply run_bind_inr in H as (x & w4 & _ & H).
       apply run_bind_inr in H as (y & w5 & _ & H). by apply run_bind_inr in H as (z & w6 & _ & H). }
  destruct (run_password_inr realm username password w o1 w1 user w2 _ _ Hf Hr Hc) as (F2 & Hen & Hacc & Hev).
  clear Hf Hr Hc. simpl negb in H. cbv iota in H.
  apply run_bind_inr in H as (x & w3 & Hreset & H).
  apply (run_frame [TLoginFailure; TUser]) in Hreset as F3; [|by apply resetFailures_footprint].
  assert (Hnow3 : w_now w3 = w_now w) by (rewrite (frame_now _ _ _ F3); apply (frame_now _ _ _ F2)).
  apply run_bind_inr in H as (expired & w4 & Hexp & H).
  apply run_isExpired_inr in Hexp as [-> Hexp]. rewrite Hnow3 in Hexp. destruct expired; [done|].
  apply run_bind_inr in H as (required & w4 & Hreq & H). apply run_isMfaRequired_inr in Hreq as [-> Hreq].
  apply run_bind_inr in H as (enabled & w4 & Hme & H). apply run_isMfaEnabled_inr in Hme as [-> _].
  destruct required.
  { destruct enabled; simpl negb in H; simpl andb in H; cbv iota in H; [|done].
    apply run_bind_inr in H as (tok & w5 & _ & H). by apply run_bind_inr in H as (ms & w6 & _ & H). }
  simpl andb in H. cbv iota in H. destruct (Hreq eq_refl) as [Hno Hmr]. clear Hreq.
  apply run_new_session in H as (session & w5 & Hsu & _ & _ & Hsin & F5 & H).
  apply run_then_event in H as (w6 & F6 & H). apply run_then_metric in H as (w7 & F7 & H).
  apply run_then_metric in H as (w8 & F8 & H).
  apply run_bind_inr in H as (now & w9 & Hn & H). run_stmt_inv Hn. cbn [fst snd] in H.
  apply run_issueTokens_inr in H as Hiss. pose proof (iss_frame _ _ _ _ _ _ _ _ _ _ Hiss) as F9.
  exists client, username, password, user, session, w2, w8.
  repeat (split; [done|]). split; [by rewrite <- (frame_now _ _ _ F2)|]. split; [by apply Hexp|]. split.
  { unfold no_factor in *. by rewrite (frame_rows _ _ _ TUserCredential F3),
      (frame_rows _ _ _ TUserCredential F2) in Hno by done. }
  split; [done|]. split.
  { by rewrite (frame_rows _ _ _ TSession F9), (frame_rows _ _ _ TSession F8),
      (frame_rows _ _ _ TSession F7), (frame_rows _ _ _ TSession F6) by done. }
  split; [done|]. split.
  - rewrite (auth_id _ _ _ _ _ _ Hauth) in Hiss. exact Hiss.
  - rewrite (frame_now _ _ _ F8), (frame_now _ _ _ F7), (frame_now _ _ _ F6), (frame_now _ _ _ F5).
    exact Hnow3.
Qed.

Definition password_body : Body :=
  [("grant_type", "password"); ("client_id", "app"); ("username", "alice"); ("password", "Secret123")].

Example password_grant_sound_witness :
  exists resp w', run (handlePasswordGrant (E:=test_env) realm0 password_body None None) world1
      = (inr resp, w') /\
    exists user username password,
      password_evidence (E:=test_env) realm0 user username password world1 /\ username = "alice".
Proof.
  destruct (ends_ok_run (handlePasswordGrant (E:=test_env) realm0 password_body None None) world1)
    as (resp & w' & H); [reflexivity|].
  exists resp, w'. split; [exact H|].
  destruct (password_grant_sound (E:=test_env) _ _ _ _ _ _ _ H) as
    (client & username & password & user & session & w1 & w2 & _ & Hu & _ & _ & _ & _ & He & _).
  exists user, username, password. split; [exact He|]. injection Hu as <-. reflexivity.
Defined.
