(* ===== verification/MfaGrant.v ===== *)
(** * MfaGrant: theorems on the mfa_otp grant *)

From S2P Require Import Prelude Prog Json Schema Store StoreFacts Scopes StepUp Crypto Events.
From S2P Require Import Groups BruteForce SmsOtp Mfa OAuth Device AuthTokens AuthGrants AuthFacts.
From S2P Require Import Testbed.

Section Challenge.
Context {E : Env}.

(** A challenge that can still be answered. *)
Record open_challenge (token : string) (w : World) (a : PendingAction) : Prop := {
  oc_row : a ∈ rows TPendingAction w;
  oc_token : pa_tokenHash a = sha256 token;
  oc_type : pa_type a = "mfa_challenge";
  oc_live : w_now w < pa_expiresAt a;
  oc_attempts : pa_attempts a < MAX_MFA_ATTEMPTS
}.

Lemma run_validateAttempt_inr token w c w' :
  NoDup (map pa_tokenHash (rows TPendingAction w)) ->
  run (validateMfaChallengeWithAttemptCheck token) w = (inr (Some c), w') ->
  frame [TPendingAction] w w' /\
  exists a, open_challenge token w a /\ c = challenge_of (pa_data a).
Proof.
  intros Hnd H. assert (F : frame [TPendingAction] w w').
  { eapply run_frame; [|exact H]. by apply validateAttempt_footprint. }
  split; [done|]. unfold validateMfaChallengeWithAttemptCheck in H.
  apply run_bind_inr in H as (now & w1 & Hn & H). run_stmt_inv Hn. cbn [fst snd] in H.
  apply run_bind_inr in H as (n & w1 & Hu & H). run_stmt_inv Hu.
  set (p := fun a : Row TPendingAction => is_challenge token a && (w_now w <? pa_expiresAt a) &&
    (pa_attempts a <? MAX_MFA_ATTEMPTS)) in *.
  destruct (Z.eqb_spec n 0) as [|Hne].
  { by apply run_bind_inr in H as (m & w2 & _ & H). }
  apply run_bind_inr in H as (o & w2 & Hf & H). run_stmt_inv Hf. destruct o as [b|]; [|done].
  injection H as <- _. rewrite rows_with_rows_eq in Hf. symmetry in Hf.
  apply find_elem in Hf as [Hb Hbt%bool_decide_eq_true].
  apply list_elem_of_fmap in Hb as (b0 & -> & Hb0).
  change (n = Z.of_nat (length (List.filter p (rows TPendingAction w)))) in Hu.
  destruct (List.filter p (rows TPendingAction w)) as [|a l] eqn:Hl; [simpl in Hu; lia|].
  assert (Ha : a ∈ List.filter p (rows TPendingAction w)) by (rewrite Hl; set_solver).
  apply elem_of_filter_list in Ha as [Hp Ha].
  apply andb_true_iff in Hp as [[[Ht%bool_decide_eq_true Hty%bool_decide_eq_true]%andb_true_iff
    Hlive%Z.ltb_lt]%andb_true_iff Hat%Z.ltb_lt].
  exists a. split; [by constructor|].
  assert (b0 = a) as ->.
  { apply (NoDup_map_inj pa_tokenHash (rows TPendingAction w)); [done..|]. rewrite Ht.
    destruct (p b0); exact Hbt. }
  by destruct (p a).
Qed.

Lemma run_consume_inr token w w' :
  run (consumeMfaChallenge token) w = (inr true, w') ->
  (forall a, a ∈ rows TPendingAction w' -> is_challenge token a = false) /\ frame [TPendingAction] w w'.
Proof.
  intros H. split; [|eapply run_frame; [|exact H]; by apply consumeMfaChallenge_footprint].
  unfold consumeMfaChallenge in H. apply run_bind_inr in H as (n & w1 & Hd & H). run_stmt_inv Hd.
  injection H as _ <-. intros a Ha. unfold rows in Ha. simpl in Ha. rewrite set_table_eq in Ha.
  apply elem_of_filter_list in Ha as [Ha%negb_true_iff _]. exact Ha.
Qed.

Lemma challenge_matches_true realm client_id c :
  challenge_matches realm client_id c = true ->
  ch_realmId c = realm_id realm /\ (truthy (ch_clientId c) = true -> ch_clientId c = client_id).
Proof.
  unfold challenge_matches. intros [Hr%bool_decide_eq_true Hc%negb_true_iff]%andb_true_iff.
  split; [done|]. intros Ht. rewrite Ht in Hc. simpl in Hc.
  by apply negb_false_iff, bool_decide_eq_true in Hc.
Qed.

(** The second-factor input the request carries. *)
Definition factor_input (realm : Realm) (body : Body) : SecondFactorInput :=
  if bool_decide (field "mfa_method" body = Some "sms")
  then SmsInput (field "otp" body ?? EmptyString) (realm_id realm) "login"
         (field "mfa_token" body ?? EmptyString)
  else OtpInput (field "otp" body ?? EmptyString).

(** ** The delete that lets one answer through *)

Lemma mfa_handler_claims realm body ip ua token :
  field "mfa_token" body = Some token ->
  claims (units TPendingAction (challenge_rows token)) (fun w => any (rows TPendingAction w))
    (fun c _ => c = true) false (handleMfaOtpGrant realm body ip ua).
Proof.
  intros Htok. unfold handleMfaOtpGrant. cbv zeta. rewrite Htok. simpl default.
  apply claims_bind_stable; [apply (units_keeps [] TPendingAction _ any);
    [done|apply validateClient_footprint]|]. intros client.
  destruct (_ || _); [done|].
  apply claims_bind_stable; [apply validateAttempt_keeps_challenge|]. intros [c|]; [|done].
  destruct (negb _); [done|].
  apply claims_bind_stable; [apply (units_keeps [TUsedTotpCode; TRecoveryCode; TOtpAttempt] TPendingAction _ any);
    [done|by apply verifySecondFactor_footprint]|].
  intros [factor|].
  2: { apply claims_bind_stable; [|done]. apply (units_keeps [TLoginEvent] TPendingAction _ any); [done|].
       unfold login_event. footprint. }
  apply (claims_bind _ _ (fun c b => b = true -> c = true)); [apply consumeMfaChallenge_claims|].
  intros b [|] Hb; [|done]. rewrite (Hb eq_refl). simpl negb. cbv iota.
  apply claims_stable; [|done].
  apply (units_keeps [TRefreshToken; TSession; TLoginEvent] TPendingAction _ any); [done|].
  unfold create_session, login_event, token_issued. footprint.
Qed.
End Challenge.

(** C7. The second step of a password sign-in issues tokens only when: the client
    authenticated and may use the grant; the mfa_token names a challenge that was
    open - unexpired, with an attempt left - and that was made for this realm and,
    when it names one, this client; and the answer passed [verifySecondFactor] for
    the challenged user. The challenge is gone afterwards, and the session and
    tokens are that user's, at the MFA level. *)
Theorem mfa_grant_sound {E : Env} realm body ip ua w resp w' :
  NoDup (map pa_tokenHash (rows TPendingAction w)) ->
  run (handleMfaOtpGrant realm body ip ua) w = (inr resp, w') ->
  exists client token a factor user session w1 w2 w3,
    authenticated realm (field "client_id" body) (field "client_secret" body) MFA_OTP_URN w client /\
    field "mfa_token" body = Some token /\ open_challenge token w a /\
    ch_realmId (challenge_of (pa_data a)) = realm_id realm /\
    (truthy (ch_clientId (challenge_of (pa_data a))) = true ->
       ch_clientId (challenge_of (pa_data a)) = Some (Schema.client_clientId client)) /\
    frame [TPendingAction] w w1 /\
    run (verifySecondFactor (ch_userId (challenge_of (pa_data a))) (factor_input realm body)) w1
      = (inr (Some factor), w2) /\
    user ∈ rows TUser w /\ user_id user = ch_userId (challenge_of (pa_data a)) /\
    (forall x, x ∈ rows TPendingAction w' -> is_challenge token x = false) /\
    session ∈ rows TSession w' /\ session_userId session = user_id user /\
    session_satisfiedAcr session = Some ACR_MFA /\
    issued realm user (Schema.client_clientId client) (session_id session) (field "scope" body)
      (Some ACR_MFA) (Some ["pwd"; "otp"]) w3 resp w' /\ w_now w3 = w_now w.
Proof.
  intros Hnd. unfold handleMfaOtpGrant. cbv zeta. intros H.
  apply run_bind_inr in H as (client & w0 & Hv & H). apply run_validateClient_inr in Hv as [-> Hauth].
  destruct (truthy (field "mfa_token" body)) eqn:Htok; [|done].
  destruct (truthy (field "otp" body)); [|done]. simpl negb in H. simpl orb in H. cbv iota in H.
  apply truthy_true in Htok as (token & Htok & _). rewrite Htok in H. simpl default in H.
  apply run_bind_inr in H as (ch & w1 & Hc & H). destruct ch as [c|]; [|done].
  apply run_validateAttempt_inr in Hc as (F1 & a & Hopen & ->); [|done].
  destruct (challenge_matches realm (field "client_id" body) (challenge_of (pa_data a))) eqn:Hm; [|done].
  simpl negb in H. cbv iota in H. apply challenge_matches_true in Hm as [Hmr Hmc].
  apply run_bind_inr in H as (v & w2 & Hvf & H).
  apply (run_frame [TUsedTotpCode; TRecoveryCode; TOtpAttempt]) in Hvf as F2;
    [|by apply verifySecondFactor_footprint].
  destruct v as [factor|]; [|by apply run_then_event in H as (w3 & _ & H)].
  apply run_bind_inr in H as (consumed & w3 & Hcons & H). destruct consumed; [|done].
  apply run_consume_inr in Hcons as [Hgone F3]. simpl negb in H. cbv iota in H.
  apply run_bind_inr in H as (o & w4 & Hu & H). run_stmt_inv Hu. destruct o as [user|]; [|done].
  symmetry in Hu. apply find_elem in Hu as [Huin Huid%bool_decide_eq_true].
  rewrite (frame_rows _ _ _ TUser F3), (frame_rows _ _ _ TUser F2), (frame_rows _ _ _ TUser F1) in Huin
    by done.
  apply run_new_session in H as (session & w5 & Hsu & Hsa & _ & Hsin & F5 & H).
  apply run_then_event in H as (w6 & F6 & H). apply run_then_metric in H as (w7 & F7 & H).
  apply run_bind_inr in H as (now & w8 & Hn & H). run_stmt_inv Hn. cbn [fst snd] in H.
  apply run_issueTokens_inr in H as Hiss. pose proof (iss_frame _ _ _ _ _ _ _ _ _ _ Hiss) as F8.
  pose proof (auth_id _ _ _ _ _ _ Hauth) as Hid. rewrite Hid in Hiss, Hmc.
  exists client, token, a, factor, user, session, w1, w2, w7.
  split; [done|]. split; [done|]. split; [done|]. split; [done|]. split; [exact Hmc|]. split; [done|].
  split. { rewrite <- Hvf. f_equal. unfold factor_input. rewrite Htok. by case_bool_decide. }
  split; [done|]. split; [done|]. split.
  { intros x. rewrite (frame_rows _ _ _ TPendingAction F8), (frame_rows _ _ _ TPendingAction F7),
      (frame_rows _ _ _ TPendingAction F6), (frame_rows _ _ _ TPendingAction F5) by done. apply Hgone. }
  split. { by rewrite (frame_rows _ _ _ TSession F8), (frame_rows _ _ _ TSession F7),
      (frame_rows _ _ _ TSession F6) by done. }
  split; [done|]. split; [done|]. split; [exact Hiss|].
  rewrite (frame_now _ _ _ F7), (frame_now _ _ _ F6), (frame_now _ _ _ F5), (frame_now _ _ _ F3),
    (frame_now _ _ _ F2). apply (frame_now _ _ _ F1).
Qed.

(** C8. One challenge yields tokens at most once: of any number of requests that
    answer it at the same time, correctly or not, at most one per stored challenge
    row finishes with tokens. *)
Theorem mfa_challenge_single_use {E : Env} token env w w' reqs pool :
  let left := units TPendingAction (challenge_rows token) in
  (forall a b, env a b -> (left b <= left a)%nat) ->
  Forall (fun q : Realm * Body => field "mfa_token" q.2 = Some token) reqs ->
  psteps env (w, map (fun q : Realm * Body => handleMfaOtpGrant q.1 q.2 None None) reqs) (w', pool) ->
  (winners (fun _ => true) pool <= left w)%nat.
Proof.
  intros left Henv Hreqs Hs.
  refine (winners_bounded left (fun w => any (rows TPendingAction w)) env
    (fun a b H Ha => conj I (Henv a b H)) (fun _ => true) w w' _ pool I _ Hs).
  apply Forall_fmap. eapply Forall_impl; [exact Hreqs|]. intros q Hq. simpl.
  eapply claims_mono; [|by apply mfa_handler_claims]. done.
Qed.

(** A challenge can be guessed at no more than five times: of any number of
    concurrent attempts, at most the attempts that are left are let through to the
    second-factor check. *)
Theorem mfa_challenge_attempts {E : Env} token env w w' n pool :
  let left := units TPendingAction (attempts_left token) in
  (forall a b, env a b -> (left b <= left a)%nat) ->
  psteps env (w, replicate n (validateMfaChallengeWithAttemptCheck token)) (w', pool) ->
  (winners (fun o => bool_decide (is_Some o)) pool <= left w)%nat.
Proof.
  intros left Henv Hs.
  refine (winners_bounded left (fun w => any (rows TPendingAction w)) env
    (fun a b H Ha => conj I (Henv a b H)) _ w w' _ pool I _ Hs).
  apply Forall_replicate, validateAttempt_claims.
Qed.

(** ** A concrete challenge *)

Definition challenge0 (attempts : Z) : PendingAction :=
  mkPendingAction "pa-1" (to_hex "mfa-1") "mfa_challenge"
    (mkPendingData "user-1" "realm-1" (Some "app") None None None None None None None None None)
    attempts 1000300000 1000000000.
Definition challenge_world (attempts : Z) : World :=
  with_rows TUserCredential
    [mkUserCredential "cred-1" "user-1" "totp" "enc:key" None "SHA1" 6 30 true]
    (with_rows TPendingAction [challenge0 attempts] world1).
Definition mfa_body : Body :=
  [("grant_type", "mfa_otp"); ("client_id", "app"); ("mfa_token", "mfa-1"); ("otp", "123456")].

Example mfa_grant_sound_witness :
  NoDup (map pa_tokenHash (rows TPendingAction (challenge_world 0))) /\
  exists resp w',
    run (handleMfaOtpGrant (E:=test_env) realm0 mfa_body None None) (challenge_world 0) = (inr resp, w') /\
    exists token a, open_challenge (E:=test_env) token (challenge_world 0) a /\
      (forall x, x ∈ rows TPendingAction w' -> is_challenge (E:=test_env) token x = false).
Proof.
  assert (Hnd : NoDup (map pa_tokenHash (rows TPendingAction (challenge_world 0)))).
  { simpl. repeat constructor; set_solver. }
  split; [exact Hnd|].
  destruct (ends_ok_run (handleMfaOtpGrant (E:=test_env) realm0 mfa_body None None) (challenge_world 0))
    as (resp & w' & H); [reflexivity|].
  exists resp, w'. split; [exact H|].
  destruct (mfa_grant_sound (E:=test_env) _ _ _ _ _ _ _ Hnd H) as
    (client & token & a & factor & user & session & w1 & w2 & w3 & _ & _ & Ho & _ & _ & _ & _ & _ & _ & Hg & _).
  exists token, a. split; [exact Ho | exact Hg].
Defined.

Example mfa_challenge_single_use_witness :
  (winners (fun _ => true) (schedule (concat (replicate 40 [0; 1]%nat))
     (challenge_world 0, map (fun q : Realm * Body => handleMfaOtpGrant (E:=test_env) q.1 q.2 None None)
        [(realm0, mfa_body); (realm0, mfa_body)])).2 <= 1)%nat.
Proof.
  refine (mfa_challenge_single_use (E:=test_env) "mfa-1" (fun a b => a = b) (challenge_world 0) _
    [(realm0, mfa_body); (realm0, mfa_body)] _ _ _ _).
  - intros a b ->. reflexivity.
  - repeat constructor.
  - rewrite <- surjective_pairing. apply schedule_psteps.
Defined.

Example mfa_challenge_attempts_witness :
  (winners (fun o => bool_decide (is_Some o)) (schedule (concat (replicate 5 [0; 1; 2]%nat))
     (challenge_world 3, replicate 3 (validateMfaChallengeWithAttemptCheck (E:=test_env) "mfa-1"))).2
    <= 2)%nat.
Proof.
  refine (mfa_challenge_attempts (E:=test_env) "mfa-1" (fun a b => a = b) (challenge_world 3) _ 3 _ _ _).
  - intros a b ->. reflexivity.
  - rewrite <- surjective_pairing. apply schedule_psteps.
Defined.
