(* ===== verification/TokenEndpoint.v ===== *)
(** * TokenEndpoint: theorems on the dispatch of the token endpoint *)

From S2P Require Import Prelude Prog Json Schema Store StoreFacts Scopes StepUp Crypto Events.
From S2P Require Import Groups BruteForce SmsOtp Mfa OAuth Device AuthTokens AuthGrants AuthFacts.
From S2P Require Import Testbed.

Section Endpoint.
Context {E : Env}.

(** The grant type [validateClient] is asked about. *)
Definition checked_grant (grantType : string) : string :=
  if grantType === "mfa_otp" then MFA_OTP_URN else grantType.

Lemma run_validated {A} realm cid secret g (k : Client -> M A) w r w' :
  run (client <- validateClient realm cid secret g ;; k client)%prog w = (inr r, w') ->
  exists client, authenticated realm cid secret g w client.
Proof. intros (c & w1 & [-> H]%run_validateClient_inr & _)%run_bind_inr. by exists c. Qed.

(** Tokens over scopes that [parseAndValidate] accepted. *)
Definition scoped (resp : TokenResponse) : Prop :=
  exists scope, tr_scope resp = toString (effective_scopes scope).

Lemma issueTokens_scoped realm user c s sc n t a m co :
  ensures scoped (issueTokens realm user c s sc n t a m co).
Proof.
  intros w resp w' H%run_issueTokens_inr. exists sc. by rewrite (iss_scope _ _ _ _ _ _ _ _ _ _ H).
Qed.
Lemma invalid_request_ensures {A} (P : A -> Prop) d : ensures P (invalid_request d).
Proof. apply ensures_throw. Qed.
Lemma invalid_grant_ensures {A} (P : A -> Prop) d : ensures P (invalid_grant d).
Proof. apply ensures_throw. Qed.
Lemma device_error_ensures {A} (P : A -> Prop) d : ensures P (device_error d).
Proof. apply ensures_throw. Qed.
#[local] Hint Resolve issueTokens_scoped invalid_request_ensures invalid_grant_ensures
  device_error_ensures : ensures.

Lemma reject_refresh_ensures (P : TokenResponse -> Prop) realm c ip st :
  ensures P (reject_refresh realm c ip st).
Proof. unfold reject_refresh. ensures. Qed.
#[local] Hint Resolve reject_refresh_ensures : ensures.

Definition user_tokens_scoped (resp : TokenResponse) : Prop :=
  tr_refresh_token resp <> None -> scoped resp.

Lemma scoped_user_tokens p : ensures scoped p -> ensures user_tokens_scoped p.
Proof. intros H w r w' Hr _. by eapply H. Qed.

Lemma client_credentials_scoped realm body ip :
  ensures user_tokens_scoped (handleClientCredentialsGrant realm body ip).
Proof.
  unfold handleClientCredentialsGrant. cbv zeta. do 2 (apply ensures_bind; intros).
  match goal with |- ensures _ (match ?u with _ => _ end) => destruct u end.
  - apply scoped_user_tokens. ensures.
  - do 4 (apply ensures_bind; intros). apply ensures_ret. by intros [].
Qed.

Lemma token_request_scoped realm body ip ua :
  ensures user_tokens_scoped (handleTokenRequest realm body ip ua).
Proof.
  unfold handleTokenRequest. destruct (field "grant_type" body); [|apply ensures_throw].
  destruct (_ === _); [apply ensures_throw|].
  destruct (_ === _).
  { apply scoped_user_tokens. unfold handlePasswordGrant. ensures. }
  destruct (_ === _); [apply client_credentials_scoped|]. apply scoped_user_tokens.
  destruct (_ === _); [unfold handleRefreshTokenGrant; ensures|].
  destruct (_ === _); [unfold handleAuthorizationCodeGrant; ensures|].
  destruct (_ === _); [unfold handleMfaOtpGrant; ensures|].
  destruct (_ === _); [unfold handleDeviceCodeGrant; ensures|]. apply ensures_throw.
Qed.
End Endpoint.

(** C5. Whatever the grant, the token endpoint answers with tokens only after the
    requesting client proved to be an enabled client of the realm that may use that
    grant, a confidential client by its secret. *)
Theorem token_endpoint_authenticates {E : Env} realm body ip ua w resp w' :
  run (handleTokenRequest realm body ip ua) w = (inr resp, w') ->
  exists grantType client,
    field "grant_type" body = Some grantType /\
    grantType ∈ ["password"; "client_credentials"; "refresh_token"; "authorization_code"; "mfa_otp";
                 DEVICE_URN] /\
    authenticated realm (field "client_id" body) (field "client_secret" body)
      (checked_grant grantType) w client.
Proof.
  unfold handleTokenRequest. intros H. destruct (field "grant_type" body) as [g|]; [|done].
  destruct (g === EmptyString); [done|]. exists g.
  destruct (bool_decide_reflect (g = "password")) as [Hg|_].
  { subst g. apply run_validated in H as [c Hc]. exists c. split; [done|]. split; [set_solver|exact Hc]. }
  destruct (bool_decide_reflect (g = "client_credentials")) as [Hg|_].
  { subst g. apply run_validated in H as [c Hc]. exists c. split; [done|]. split; [set_solver|exact Hc]. }
  destruct (bool_decide_reflect (g = "refresh_token")) as [Hg|_].
  { subst g. unfold handleRefreshTokenGrant in H. cbv zeta in H. destruct (negb _); [done|].
    apply run_validated in H as [c Hc]. exists c. split; [done|]. split; [set_solver|exact Hc]. }
  destruct (bool_decide_reflect (g = "authorization_code")) as [Hg|_].
  { subst g. unfold handleAuthorizationCodeGrant in H. cbv zeta in H. destruct (negb _); [done|].
    apply run_validated in H as [c Hc]. exists c. split; [done|]. split; [set_solver|exact Hc]. }
  destruct (bool_decide_reflect (g = "mfa_otp")) as [Hg|_].
  { subst g. apply run_validated in H as [c Hc]. exists c. split; [done|]. split; [set_solver|exact Hc]. }
  destruct (bool_decide_reflect (g = DEVICE_URN)) as [Hg|_]; [|done].
  subst g. unfold handleDeviceCodeGrant in H. cbv zeta in H. destruct (negb _); [done|].
  apply run_validated in H as [c Hc]. exists c. split; [done|]. split; [set_solver|exact Hc].
Qed.

(** Tokens that come with a refresh token carry only supported OIDC scopes,
    whichever grant issued them; [offline_access] is never among them. *)
Theorem token_endpoint_scopes {E : Env} realm body ip ua w resp w' s :
  run (handleTokenRequest realm body ip ua) w = (inr resp, w') ->
  tr_refresh_token resp <> None ->
  s ∈ js_split " "%char (tr_scope resp) ->
  s ∈ SUPPORTED_SCOPES /\ s <> "offline_access".
Proof.
  intros H Hr Hs. destruct (token_request_scoped realm body ip ua w resp w' H Hr) as [scope Hsc].
  rewrite Hsc, split_effective_scopes in Hs.
  split; [by apply effective_scopes_supported in Hs|].
  intros ->. apply (includes_true "offline_access") in Hs. by rewrite effective_scopes_no_offline in Hs.
Qed.

(** ** The session limit *)

Section Limit.
Context {E : Env}.

(** The sessions the limit evicts: the oldest ones, as many as are too many. *)
Definition evicted (realm : Realm) (userId : string) (w : World) : list Session :=
  let active := sort_by session_createdAt
    (List.filter (active_session_of realm userId (w_now w) w) (rows TSession w)) in
  take (Z.to_nat (Z.of_nat (length active) - realm_maxSessionsPerUser realm + 1)) active.

Lemma run_enforceSessionLimit_inr realm userId w r w' :
  0 < realm_maxSessionsPerUser realm ->
  run (enforceSessionLimit realm userId) w = (inr r, w') ->
  rows TSession w' = List.filter (fun s =>
    negb (includes (session_id s) (map session_id (evicted realm userId w)))) (rows TSession w) /\
  rows TRefreshToken w' = List.filter (fun t =>
    negb (includes (rt_sessionId t) (map session_id (evicted realm userId w))))
    (rows TRefreshToken w) /\
  frame [TRefreshToken; TSession] w w'.
Proof.
  intros Hmax H. assert (F : frame [TRefreshToken; TSession] w w').
  { eapply run_frame; [|exact H]. by apply enforceSessionLimit_footprint. }
  unfold enforceSessionLimit in H. cbv zeta in H.
  rewrite (proj2 (Z.leb_gt _ _) Hmax) in H.
  apply run_bind_inr in H as (now & w1 & Hn & H). run_stmt_inv Hn. cbn [fst snd] in H.
  apply run_bind_inr in H as (ss & w1 & Hs & H). run_stmt_inv Hs. unfold evicted. cbv zeta.
  rewrite <- Hs. destruct (Z.ltb_spec (Z.of_nat (length ss)) (realm_maxSessionsPerUser realm)).
  { injection H as _ <-. replace (Z.to_nat _) with 0%nat by lia. rewrite take_0. simpl.
    split; [|split; [|done]]; symmetry; apply filter_true. }
  set (ids := map session_id (take _ ss)) in *.
  apply run_bind_inr in H as (n & w2 & Hu & H). run_stmt_inv Hu.
  apply run_bind_inr in H as (m & w2 & Hd & H). run_stmt_inv Hd. injection H as _ <-.
  assert (Hss : forall s, s ∈ take (Z.to_nat (Z.of_nat (length ss) - realm_maxSessionsPerUser realm + 1)) ss ->
    s ∈ rows TSession w).
  { intros s Hin. apply elem_of_take in Hin as (i & Hi & _). apply list_elem_of_lookup_2 in Hi.
    rewrite Hs in Hi. by apply elem_of_sort_by, elem_of_filter_list in Hi as [_ ?]. }
  split; [|split; [|done]]; unfold rows; simpl; [done|].
  rewrite (filter_ext _ (fun t : RefreshToken => negb (includes (rt_sessionId t) ids))).
  - apply filter_update_all. intros t [Ht _]%andb_true_iff. simpl. by rewrite Ht.
  - intros t _. f_equal. apply eq_true_iff_eq. rewrite !includes_true. split.
    + intros (s & -> & Hin)%list_elem_of_fmap. apply elem_of_filter_list in Hin as [Hin _].
      by apply includes_true.
    + intros (s & Hs' & Hin)%list_elem_of_fmap. rewrite Hs'. apply list_elem_of_fmap_2.
      apply elem_of_filter_list. split; [|by apply Hss]. apply includes_true. unfold ids.
      by apply list_elem_of_fmap_2.
Qed.
End Limit.

(** C18. Before a grant opens a session it makes room: fewer than the realm's maximum
    of the user's sessions stay active, so that with the new one the maximum is not
    exceeded; the sessions that go are the oldest, and their refresh tokens go with
    them. *)
Theorem session_limit_enforced {E : Env} realm userId w r w' :
  0 < realm_maxSessionsPerUser realm ->
  NoDup (map session_id (rows TSession w)) ->
  run (enforceSessionLimit realm userId) w = (inr r, w') ->
  let active w := List.filter (active_session_of realm userId (w_now w) w) (rows TSession w) in
  Z.of_nat (length (active w')) < realm_maxSessionsPerUser realm /\
  (forall s, s ∈ rows TSession w' -> s ∈ rows TSession w) /\
  (forall gone kept, gone ∈ rows TSession w -> gone ∉ rows TSession w' -> kept ∈ active w' ->
     gone ∈ active w /\ session_createdAt gone <= session_createdAt kept) /\
  (forall t, t ∈ rows TRefreshToken w' <-> t ∈ rows TRefreshToken w /\
     forall gone, gone ∈ rows TSession w -> gone ∉ rows TSession w' ->
       rt_sessionId t <> session_id gone).
Proof.
  intros Hmax Hnd H active.
  apply run_enforceSessionLimit_inr in H as (Hs & Ht & F); [|done].
  set (out := evicted realm userId w) in *.
  assert (Hout : forall s, s ∈ out -> s ∈ active w).
  { intros s (i & Hi & _)%elem_of_take. apply list_elem_of_lookup_2, elem_of_sort_by in Hi. exact Hi. }
  assert (Hgone : forall s, s ∈ rows TSession w -> s ∉ rows TSession w' <-> s ∈ out).
  { intros s Hin. rewrite Hs, elem_of_filter_list, negb_true_iff, includes_false. split.
    - intros Hno. destruct (decide (session_id s ∈ map session_id out)) as [Hid|Hid].
      + apply list_elem_of_fmap in Hid as (s' & Heq & Hs'). 
        assert (s = s') as ->; [|done]. apply (NoDup_map_inj session_id (rows TSession w)); try done.
        apply Hout, elem_of_filter_list in Hs' as [_ ?]. done.
      + by destruct Hno.
    - intros Ho [Hno _]. apply Hno. by apply list_elem_of_fmap_2. }
  assert (Hact : active w' = List.filter (fun s =>
    negb (includes (session_id s) (map session_id out))) (active w)).
  { unfold active. rewrite (frame_now _ _ _ F), Hs, filter_comm. f_equal. apply filter_ext.
    intros s _. unfold active_session_of. by rewrite (frame_rows _ _ _ TUser F). }
  set (srt := sort_by session_createdAt (active w)).
  assert (Hperm : Permutation srt (active w)) by apply sort_by_perm.
  assert (Hkept : forall s, s ∈ active w' -> s ∈ drop (Z.to_nat (Z.of_nat (length srt) -
    realm_maxSessionsPerUser realm + 1)) srt).
  { intros s. rewrite Hact, elem_of_filter_list, negb_true_iff, includes_false. intros [Hno Hin].
    apply (elem_of_sort_by session_createdAt) in Hin. fold srt in Hin.
    rewrite <- (take_drop (Z.to_nat (Z.of_nat (length srt) - realm_maxSessionsPerUser realm + 1)) srt) in Hin.
    apply elem_of_app in Hin as [Hin|Hin]; [|done]. destruct Hno. by apply list_elem_of_fmap_2. }
  split; [|split; [|split]].
  - rewrite Hact. rewrite <- (Permutation_length (filter_perm _ _ _ Hperm)).
    rewrite <- (take_drop (Z.to_nat (Z.of_nat (length srt) - realm_maxSessionsPerUser realm + 1)) srt).
    rewrite List.filter_app, (filter_none _ (take _ _)); [simpl|].
    + pose proof (filter_length_le (fun s => negb (includes (session_id s) (map session_id out)))
        (drop (Z.to_nat (Z.of_nat (length srt) - realm_maxSessionsPerUser realm + 1)) srt)) as Hl.
      rewrite length_drop in Hl. lia.
    + intros s Hin. apply negb_false_iff, includes_true. by apply list_elem_of_fmap_2.
  - intros s. rewrite Hs, elem_of_filter_list. naive_solver.
  - intros gone kept Hg Hng Hk. apply Hgone in Hng; [|done]. split; [by apply Hout|].
    apply Hkept in Hk. pose proof (sort_by_sorted session_createdAt (active w)) as Hsorted. fold srt in Hsorted.
    rewrite <- (take_drop (Z.to_nat (Z.of_nat (length srt) - realm_maxSessionsPerUser realm + 1)) srt) in Hsorted.
    by eapply StronglySorted_app_1_elem_of in Hsorted.
  - intros t. rewrite Ht, elem_of_filter_list, negb_true_iff, includes_false. split.
    + intros [Hno Hin]. split; [done|]. intros gone Hg Hng Heq. apply Hgone in Hng; [|done].
      apply Hno. rewrite Heq. by apply list_elem_of_fmap_2.
    + intros [Hin Hno]. split; [|done]. intros (s & Heq & Hso)%list_elem_of_fmap.
      pose proof (Hout s Hso) as Ha. apply elem_of_filter_list in Ha as [_ Hin'].
      apply (Hno s Hin'); [by apply Hgone | done].
Qed.

(** ** Concrete requests *)

Definition password_body : Body :=
  [("grant_type", "password"); ("client_id", "app"); ("username", "alice"); ("password", "Secret123");
   ("scope", "openid profile offline_access")].

Example token_endpoint_authenticates_witness :
  exists resp w', run (handleTokenRequest (E:=test_env) realm0 password_body None None) world1
      = (inr resp, w') /\
    exists client, authenticated (E:=test_env) realm0 (Some "app") None "password" world1 client.
Proof.
  destruct (ends_ok_run (handleTokenRequest (E:=test_env) realm0 password_body None None) world1)
    as (resp & w' & H); [reflexivity|].
  exists resp, w'. split; [exact H|].
  destruct (token_endpoint_authenticates (E:=test_env) _ _ _ _ _ _ _ H) as (g & client & Hg & _ & Ha).
  exists client. injection Hg as <-. exact Ha.
Defined.

Example token_endpoint_scopes_witness :
  exists resp w', run (handleTokenRequest (E:=test_env) realm0 password_body None None) world1
      = (inr resp, w') /\
    tr_refresh_token resp <> None /\ "profile" ∈ js_split " "%char (tr_scope resp) /\
    "profile" ∈ SUPPORTED_SCOPES.
Proof.
  eexists _, _. split; [vm_compute; reflexivity|]. cbn [tr_refresh_token tr_scope].
  split; [discriminate|].
  assert (Hp : "profile" ∈ js_split " "%char "openid profile").
  { apply (includes_true "profile"). reflexivity. }
  split; [exact Hp|].
  eapply (token_endpoint_scopes (E:=test_env) realm0 password_body None None world1).
  - vm_compute. reflexivity.
  - discriminate.
  - exact Hp.
Defined.

(** Two active sessions of alice, as many as the realm allows. *)
Definition session_at (id : string) (createdAt : Z) : Session :=
  mkSession id "user-1" None None None [] createdAt 2000000000.
Definition limit_world : World :=
  with_rows TSession [session_at "s-2" 20; session_at "s-1" 10] world1.

Example session_limit_enforced_witness :
  let w' := (run (enforceSessionLimit realm0 "user-1") limit_world).2 in
  run (enforceSessionLimit realm0 "user-1") limit_world = (inr tt, w') /\
  NoDup (map session_id (rows TSession limit_world)) /\
  Z.of_nat (length (List.filter (active_session_of realm0 "user-1" (w_now w') w') (rows TSession w'))) < 2 /\
  rows TSession w' = [session_at "s-2" 20].
Proof.
  intros w'.
  assert (Hr : run (enforceSessionLimit realm0 "user-1") limit_world = (inr tt, w')) by reflexivity.
  assert (Hnd : NoDup (map session_id (rows TSession limit_world))).
  { simpl. repeat constructor; set_solver. }
  split; [exact Hr|]. split; [exact Hnd|].
  split; [|reflexivity].
  exact (proj1 (session_limit_enforced (E:=test_env) realm0 "user-1" limit_world tt w'
    ltac:(reflexivity) Hnd Hr)).
Defined.
