(* ===== verification/Tokens.v ===== *)
(** * Tokens: introspection, revocation, logout, userinfo (src/src/tokens/tokens.service.ts)

    The claims of a verified JWT are read as the code casts them: [jti], [sid],
    [sub], [azp], [scope] as strings and [exp] as a number; a claim of another
    JSON type counts as absent.  The back-channel logout requests that
    [endSession] sends without waiting are not modelled. *)

From S2P Require Import Prelude Prog Json Schema Store StoreFacts Scopes Crypto Events Redis.
From S2P Require Import TokenBlacklist OAuth Device Testbed.

Definition str_claim (k : string) (payload : obj) : option string :=
  match obj_get k payload with Some (JStr s) => Some s | _ => None end.
Definition num_claim (k : string) (payload : obj) : option Z :=
  match obj_get k payload with Some (JNum n) => Some n | _ => None end.

(** [Array.isArray(aud) ? aud : aud ? [aud] : []]. *)
Definition aud_list (payload : obj) : list string :=
  match obj_get "aud" payload with
  | Some (JArr l) => flat_map (fun j => match j with JStr s => [s] | _ => [] end) l
  | Some (JStr s) => if s === EmptyString then [] else [s]
  | _ => []
  end.

Definition json_truthy (v : json) : bool :=
  match v with
  | JNull => false
  | JBool b => b
  | JNum n => negb (n =? 0)
  | JStr s => s !== EmptyString
  | JArr _ | JObj _ => true
  end.

Definition inactive : obj := [("active", JBool false)].
Definition is_active (r : obj) : bool :=
  match obj_get "active" r with Some (JBool b) => b | _ => false end.

Section Service.
Context {E : Env}.

(** The newest active signing key of the realm. *)
Definition find_signing_key (realm : Realm) : M (option RealmSigningKey) :=
  find_latest TRealmSigningKey (fun k => (key_realmId k === realm_id realm) && key_active k)
    key_createdAt.

Definition by_hash (token : string) (t : RefreshToken) : bool := rt_tokenHash t === sha256 token.

(** The refresh token with its session and the session's user. *)
Definition token_with_session (w : World) (token : string)
  : option (RefreshToken * option (Session * option User)) :=
  match List.find (by_hash token) (rows TRefreshToken w) with
  | None => None
  | Some t => Some (t,
      match List.find (fun s => session_id s === rt_sessionId t) (rows TSession w) with
      | None => None
      | Some s => Some (s, List.find (fun u => user_id u === session_userId s) (rows TUser w))
      end)
  end.

Definition introspectRefreshToken (realm : Realm) (token : string) : M obj :=
  (stored <- query (fun w => token_with_session w token) ;;
   match stored with
   | None => Ret inactive
   | Some (t, session) =>
       now <- date_now ;;
       if rt_revoked t || (rt_expiresAt t <? now) then Ret inactive else
       match session with
       | Some (_, Some user) =>
           if negb (user_enabled user) || (user_realmId user !== realm_id realm) then Ret inactive else
           Ret ([("active", JBool true); ("token_type", JStr "refresh_token"); ("sub", JStr (user_id user));
                 ("username", JStr (user_username user)); ("preferred_username", JStr (user_username user))] ++
                obj_opt "azp" (JStr <$> rt_clientId t) ++ obj_opt "client_id" (JStr <$> rt_clientId t) ++
                obj_opt "scope" (JStr <$> rt_scope t) ++
                [("exp", JNum (rt_expiresAt t / 1000)); ("iat", JNum (rt_createdAt t / 1000))])
       | _ => Ret inactive
       end
   end)%prog.

(** The answer for a JWT that passed every check. *)
Definition active_claims (payload : obj) (username : option string) : obj :=
  [("active", JBool true)] ++ obj_opt "sub" (obj_get "sub" payload) ++
  obj_opt "iss" (obj_get "iss" payload) ++ obj_opt "aud" (obj_get "aud" payload) ++
  obj_opt "exp" (obj_get "exp" payload) ++ obj_opt "iat" (obj_get "iat" payload) ++
  obj_opt "scope" (obj_get "scope" payload) ++ obj_opt "azp" (obj_get "azp" payload) ++
  obj_opt "client_id" (obj_get "azp" payload) ++ obj_opt "username" (JStr <$> username) ++
  obj_opt "preferred_username" (obj_get "preferred_username" payload) ++
  obj_opt "email" (obj_get "email" payload) ++ obj_opt "realm_access" (obj_get "realm_access" payload) ++
  obj_opt "resource_access" (obj_get "resource_access" payload).

(** [jti && await this.blacklist.isBlacklisted(jti)]. *)
Definition revoked_jti (payload : obj) : M bool :=
  let jti := str_claim "jti" payload in
  if truthy jti then isBlacklisted (jti ?? EmptyString) else Ret false.

(** [sid] names a session that is gone. *)
Definition session_gone (payload : obj) : M bool :=
  let sid := str_claim "sid" payload in
  if truthy sid
  then (session <- find_first TSession (fun s => session_id s === (sid ?? EmptyString)) ;;
        Ret (match session with None => true | Some _ => false end))%prog
  else Ret false.

Definition introspect_jwt (realm : Realm) (token : string) : M obj :=
  (signingKey <- find_signing_key realm ;;
   match signingKey with
   | None => Ret inactive
   | Some key =>
       payload <- verifyJwt token (key_publicKey key) ;;
       blacklisted <- revoked_jti payload ;;
       if (blacklisted : bool) then Ret inactive else
       gone <- session_gone payload ;;
       if (gone : bool) then Ret inactive else
       let sub := str_claim "sub" payload in
       if truthy sub then
         user <- find_first TUser (fun u => user_id u === (sub ?? EmptyString)) ;;
         match user with
         | None => Ret inactive
         | Some user =>
             if negb (user_enabled user) then Ret inactive
             else Ret (active_claims payload (Some (user_username user)))
         end
       else Ret (active_claims payload None)
   end)%prog.

Definition introspect (realm : Realm) (token : string) : M obj :=
  catch (introspect_jwt realm token) (fun _ => introspectRefreshToken realm token).

(** [tokenTypeHint === h || !tokenTypeHint]. *)
Definition hint_allows (h : string) (tokenTypeHint : option string) : bool :=
  bool_decide (tokenTypeHint = Some h) || negb (truthy tokenTypeHint).

Definition not_issued_to_this_client {A} : M A :=
  Throw (Forbidden "The token was not issued to this client.").

Definition assertTokenBelongsToClient (realm : Realm) (token callerClientId : string)
    (tokenTypeHint : option string) : M unit :=
  (stored <- (if hint_allows "refresh_token" tokenTypeHint
              then find_first TRefreshToken (by_hash token) else Ret None) ;;
   match stored with
   | Some t =>
       if truthy (rt_clientId t) && negb (bool_decide (rt_clientId t = Some callerClientId))
       then not_issued_to_this_client else Ret tt
   | None =>
       if hint_allows "access_token" tokenTypeHint then
         catch
           (signingKey <- find_signing_key realm ;;
            match signingKey with
            | None => Ret tt
            | Some key =>
                payload <- verifyJwt token (key_publicKey key) ;;
                let azp := str_claim "azp" payload in
                let audiences := if truthy azp then [azp ?? EmptyString] else aud_list payload in
                if negb (bool_decide (audiences = [])) && negb (includes callerClientId audiences)
                then not_issued_to_this_client else Ret tt
            end)
           (fun err => match err with Forbidden _ => Throw err | _ => Ret tt end)
       else Ret tt
   end)%prog.

Definition revoke (realm : Realm) (token : string) (tokenTypeHint : option string) : M unit :=
  (stored <- (if hint_allows "refresh_token" tokenTypeHint
              then find_first TRefreshToken (by_hash token) else Ret None) ;;
   match stored with
   | Some t => update TRefreshToken (fun x => rt_id x === rt_id t) (set_revoked true) ;;; Ret tt
   | None =>
       if hint_allows "access_token" tokenTypeHint then
         catch
           (signingKey <- find_signing_key realm ;;
            match signingKey with
            | None => Ret tt
            | Some key =>
                payload <- verifyJwt token (key_publicKey key) ;;
                match str_claim "jti" payload, num_claim "exp" payload with
                | Some jti, Some exp =>
                    if (jti !== EmptyString) && negb (exp =? 0) then blacklistToken jti exp else Ret tt
                | _, _ => Ret tt
                end
            end)
           (fun _ => Ret tt)
       else Ret tt
   end)%prog.

Definition endSession (realm : Realm) (sessionId : string) (userId ip : option string) : M unit :=
  (update_many TRefreshToken (fun t => (rt_sessionId t === sessionId) && negb (rt_isOffline t))
     (set_revoked true) ;;;
   recordLoginEvent (mkEventParams (realm_id realm) userId (Some sessionId) "LOGOUT" None ip None) ;;;
   catch (delete_one TSession (fun s => session_id s === sessionId) ;;; Ret tt) (fun _ => Ret tt))%prog.

Definition logout (realm : Realm) (ip refreshToken : option string) : M unit :=
  (if negb (truthy refreshToken) then Ret tt else
   stored <- query (fun w => token_with_session w (refreshToken ?? EmptyString)) ;;
   match stored with
   | None => Throw (Unauthorized "Invalid refresh token")
   | Some (t, None) => Throw (PlainError "TypeError")
   | Some (t, Some (session, _)) => endSession realm (rt_sessionId t) (Some (session_userId session)) ip
   end)%prog.

(** [sid] ends that session; else [sub] ends every session of the user. *)
Definition end_sessions_of (realm : Realm) (sid sub ip : option string) : M unit :=
  (if truthy sid then endSession realm (sid ?? EmptyString) sub ip
   else if truthy sub then
     sessions <- find_many TSession (fun s => session_userId s === (sub ?? EmptyString)) ;;
     for_each sessions (fun session => endSession realm (session_id session) sub ip)
   else Ret tt)%prog.

Definition logoutByIdToken (realm : Realm) (ip idTokenHint : option string) : M unit :=
  (if negb (truthy idTokenHint) then Ret tt else
   catch
     (signingKey <- find_signing_key realm ;;
      match signingKey with
      | None => Ret tt
      | Some key =>
          payload <- verifyJwt (idTokenHint ?? EmptyString) (key_publicKey key) ;;
          end_sessions_of realm (str_claim "sid" payload) (str_claim "sub" payload) ip
      end)
     (fun _ => Ret tt))%prog.

(** [azp ?? (Array.isArray(aud) ? aud[0] : aud)]. *)
Definition logout_client (payload : obj) : option string :=
  match str_claim "azp" payload with
  | Some azp => Some azp
  | None =>
      match obj_get "aud" payload with
      | Some (JArr (JStr s :: _)) => Some s
      | Some (JStr s) => Some s
      | _ => None
      end
  end.

Definition validatePostLogoutRedirectUri (realm : Realm) (postLogoutRedirectUri : string)
    (idTokenHint : option string) : M unit :=
  (if negb (truthy idTokenHint)
   then Throw (BadRequest "id_token_hint is required when post_logout_redirect_uri is specified") else
   clientId <- catch
     (signingKey <- find_signing_key realm ;;
      match signingKey with
      | None => Ret None
      | Some key =>
          payload <- verifyJwt (idTokenHint ?? EmptyString) (key_publicKey key) ;;
          Ret (logout_client payload)
      end)
     (fun _ => Ret None) ;;
   if negb (truthy clientId) then Throw (BadRequest "Invalid logout request") else
   client <- find_first TClient (by_clientId realm (clientId ?? EmptyString)) ;;
   match client with
   | None => Throw (BadRequest "Invalid logout request")
   | Some client =>
       let allowed := match client_postLogoutRedirectUris client with
                      | [] => client_redirectUris client
                      | uris => uris
                      end in
       if matchesRedirectUri postLogoutRedirectUri allowed then Ret tt
       else Throw (BadRequest "post_logout_redirect_uri is not valid for this client")
   end)%prog.

Definition invalidateLoginSession (sessionToken : string) : M unit :=
  catch (delete_one TLoginSession (fun s => ls_tokenHash s === sha256 sessionToken) ;;; Ret tt)%prog
    (fun _ => Ret tt).

Definition userinfo (realm : Realm) (accessToken : string) : M obj :=
  (signingKey <- find_signing_key realm ;;
   match signingKey with
   | None => Throw (Unauthorized "No signing key")
   | Some key =>
       payload <- catch (verifyJwt accessToken (key_publicKey key))
                    (fun _ => Throw (Unauthorized "Invalid access token")) ;;
       blacklisted <- revoked_jti payload ;;
       if (blacklisted : bool) then Throw (Unauthorized "Token has been revoked") else
       gone <- session_gone payload ;;
       if (gone : bool) then Throw (Unauthorized "Session has been revoked") else
       match str_claim "sub" payload with
       | None => Throw (PrismaError "validation")
       | Some sub =>
         user <- find_first TUser (fun u => user_id u === sub) ;;
         match user with
         | None => Throw (Unauthorized "User not found")
         | Some user =>
             let effectiveScopes :=
               match parseAndValidate (str_claim "scope" payload) with [] => ["openid"] | l => l end in
             customAttrClaims <- getOidcClaimsForUser (user_id user) ;;
             Ret (resolveUserClaims user (getClaimsForScopes effectiveScopes) customAttrClaims)
         end
       end
   end)%prog.

Definition logout_event : string := "http://schemas.openid.net/event/backchannel-logout".

(** [events && events[logout_event]]; a value that is no object has no such property. *)
Definition has_logout_event (payload : obj) : bool :=
  match obj_get "events" payload with
  | Some (JObj events) => match obj_get logout_event events with Some v => json_truthy v | None => false end
  | _ => false
  end.

Definition handleBackchannelLogout (realm : Realm) (logoutToken : string) : M unit :=
  (signingKey <- find_signing_key realm ;;
   match signingKey with
   | None => Throw (Unauthorized "No signing key")
   | Some key =>
       payload <- verifyJwt logoutToken (key_publicKey key) ;;
       if negb (has_logout_event payload)
       then Throw (BadRequest "Invalid logout token: missing backchannel-logout event") else
       let sub := str_claim "sub" payload in
       let sid := str_claim "sid" payload in
       if negb (truthy sub) && negb (truthy sid)
       then Throw (BadRequest "Invalid logout token: missing sub or sid") else
       end_sessions_of realm sid sub None
   end)%prog.

(** ** Footprints *)

Lemma verify_key_footprint ts realm : stable (frame ts) (find_signing_key realm).
Proof. apply query_footprint. Qed.
Lemma revoked_jti_footprint ts p : stable (frame ts) (revoked_jti p).
Proof. unfold revoked_jti. footprint. Qed.
Lemma session_gone_footprint ts p : stable (frame ts) (session_gone p).
Proof. unfold session_gone. footprint. Qed.
#[local] Hint Resolve verify_key_footprint revoked_jti_footprint session_gone_footprint : footprint.
Lemma introspect_jwt_footprint ts realm t : stable (frame ts) (introspect_jwt realm t).
Proof. unfold introspect_jwt. footprint. Qed.
Lemma introspect_footprint ts realm t : stable (frame ts) (introspect realm t).
Proof. apply stable_catch; [apply introspect_jwt_footprint|]. intros. unfold introspectRefreshToken. footprint. Qed.
Lemma endSession_footprint ts realm s u ip :
  covers [TRefreshToken; TSession; TLoginEvent] ts = true -> stable (frame ts) (endSession realm s u ip).
Proof. intros H. apply (stable_frame_mono _ _ _ H). unfold endSession. footprint. Qed.

(** ** Inversion *)

Lemma run_find_signing_key realm w o w' :
  run (find_signing_key realm) w = (inr o, w') -> w' = w /\
  forall k, o = Some k -> k ∈ rows TRealmSigningKey w /\ key_realmId k = realm_id realm /\ key_active k = true.
Proof.
  unfold find_signing_key. intros H. run_stmt_inv H. split; [done|]. intros k ->. symmetry in H.
  apply head_Some_elem_of, elem_of_sort_by, elem_of_filter_list in H as [Hp Hin].
  by apply andb_true_iff in Hp as [Hr%bool_decide_eq_true Ha].
Qed.

Lemma run_revoked_jti payload w b w' :
  run (revoked_jti payload) w = (inr b, w') ->
  forall jti, str_claim "jti" payload = Some jti -> jti <> EmptyString -> b = known jti w.
Proof.
  unfold revoked_jti. cbv zeta. intros H jti Hj Hne. rewrite Hj, (proj2 (truthy_Some jti) Hne) in H.
  simpl default in H. destruct (run_isBlacklisted jti w) as [w2 Hb]. rewrite Hb in H. by injection H as <- _.
Qed.

Lemma run_session_gone payload w w' :
  run (session_gone payload) w = (inr false, w') ->
  forall sid, str_claim "sid" payload = Some sid -> sid <> EmptyString ->
    exists s, s ∈ rows TSession w /\ session_id s = sid.
Proof.
  unfold session_gone. cbv zeta. intros H sid Hs Hne. rewrite Hs, (proj2 (truthy_Some sid) Hne) in H.
  apply run_bind_inr in H as (o & w1 & Hf & H). run_stmt_inv Hf. destruct o as [s|]; [|done].
  symmetry in Hf. apply find_elem in Hf as [Hin Hid%bool_decide_eq_true]. by exists s.
Qed.

(** What an active JWT shows. *)
Record live_jwt (realm : Realm) (token : string) (w : World) (payload : obj) : Prop := {
  lj_key : exists key, key ∈ rows TRealmSigningKey w /\ key_realmId key = realm_id realm /\
    key_active key = true /\ jose_verify (key_publicKey key) token (w_now w) = Some payload;
  lj_jti : forall jti, str_claim "jti" payload = Some jti -> jti <> EmptyString -> known jti w = false;
  lj_sid : forall sid, str_claim "sid" payload = Some sid -> sid <> EmptyString ->
    exists s, s ∈ rows TSession w /\ session_id s = sid;
  lj_sub : forall sub, str_claim "sub" payload = Some sub -> sub <> EmptyString ->
    exists u, u ∈ rows TUser w /\ user_id u = sub /\ user_enabled u = true
}.

Lemma run_introspect_jwt_active realm token w r w' :
  run (introspect_jwt realm token) w = (inr r, w') -> is_active r = true ->
  exists payload, live_jwt realm token w payload.
Proof.
  unfold introspect_jwt. intros H Hact. apply run_bind_inr in H as (o & w1 & Hk & H).
  apply run_find_signing_key in Hk as [-> Hk]. destruct o as [key|]; [|by injection H as <- _].
  destruct (Hk key eq_refl) as (Hkin & Hkr & Hka).
  apply run_bind_inr in H as (payload & w1 & Hv & H). apply run_verifyJwt_inr in Hv as [-> Hv].
  exists payload. apply run_bind_inr in H as (b & w1 & Hb & H).
  apply (run_frame []) in Hb as F1; [|apply revoked_jti_footprint].
  destruct b; [by injection H as <- _|].
  apply run_bind_inr in H as (g & w2 & Hg & H).
  apply (run_frame []) in Hg as F2; [|apply session_gone_footprint].
  destruct g; [by injection H as <- _|].
  assert (Hrows : forall t, rows t w1 = rows t w) by (intros t; by apply frame_nil_rows).
  assert (Hrows2 : forall t, rows t w2 = rows t w1) by (intros t; by apply frame_nil_rows).
  constructor; [by exists key| | |].
  - intros jti Hj Hne. symmetry. exact (run_revoked_jti _ _ _ _ Hb jti Hj Hne).
  - intros sid Hs Hne. rewrite <- Hrows. exact (run_session_gone _ _ _ Hg sid Hs Hne).
  - intros sub Hs Hne. cbv zeta in H. rewrite Hs, (proj2 (truthy_Some sub) Hne) in H. simpl default in H.
    apply run_bind_inr in H as (u & w3 & Hu & H). run_stmt_inv Hu.
    destruct u as [u|]; [|by injection H as <- _]. symmetry in Hu.
    apply find_elem in Hu as [Huin Hid%bool_decide_eq_true]. rewrite Hrows2, Hrows in Huin.
    exists u. split; [done|]. split; [done|]. destruct (user_enabled u); [done|]. by injection H as <- _.
Qed.

(** What an active refresh token shows. *)
Record live_refresh (realm : Realm) (token : string) (w : World) (t : RefreshToken) : Prop := {
  lr_row : t ∈ rows TRefreshToken w;
  lr_hash : rt_tokenHash t = sha256 token;
  lr_revoked : rt_revoked t = false;
  lr_live : w_now w <= rt_expiresAt t;
  lr_user : exists s u, s ∈ rows TSession w /\ session_id s = rt_sessionId t /\ u ∈ rows TUser w /\
    user_id u = session_userId s /\ user_enabled u = true /\ user_realmId u = realm_id realm
}.

Lemma token_with_session_spec w token t so :
  token_with_session w token = Some (t, so) ->
  t ∈ rows TRefreshToken w /\ rt_tokenHash t = sha256 token /\
  forall s uo, so = Some (s, uo) -> s ∈ rows TSession w /\ session_id s = rt_sessionId t /\
    forall u, uo = Some u -> u ∈ rows TUser w /\ user_id u = session_userId s.
Proof.
  unfold token_with_session. destruct (List.find (by_hash token) (rows TRefreshToken w)) as [t0|] eqn:Ht; [|done].
  apply find_elem in Ht as [Hin Hh%bool_decide_eq_true]. intros [= <- <-]. split; [done|]. split; [done|].
  intros s uo. destruct (List.find (fun s => session_id s === _) (rows TSession w)) as [s0|] eqn:Hs; [|done].
  apply find_elem in Hs as [Hsin Hsid%bool_decide_eq_true]. intros [= <- <-]. split; [done|]. split; [done|].
  intros u Hu. apply find_elem in Hu as [Huin Huid%bool_decide_eq_true]. done.
Qed.

Lemma run_introspectRefreshToken_active realm token w r w' :
  run (introspectRefreshToken realm token) w = (inr r, w') -> is_active r = true ->
  exists t, live_refresh realm token w t.
Proof.
  unfold introspectRefreshToken. intros H Hact. apply run_bind_inr in H as (st & w1 & Hst & H).
  run_stmt_inv Hst. destruct st as [[t so]|]; [|by injection H as <- _]. symmetry in Hst.
  apply token_with_session_spec in Hst as (Hin & Hh & Hso).
  apply run_bind_inr in H as (now & w1 & Hn & H). run_stmt_inv Hn. cbn [fst snd] in H.
  destruct (rt_revoked t) eqn:Hrev; [by injection H as <- _|].
  destruct (Z.ltb_spec (rt_expiresAt t) (w_now w)); [by injection H as <- _|]. simpl orb in H. cbv iota in H.
  destruct so as [[s [u|]]|]; [|by injection H as <- _|by injection H as <- _].
  destruct (Hso s _ eq_refl) as (Hs & Hsid & Hu). destruct (Hu u eq_refl) as [Huin Huid].
  exists t. constructor; [done..|]. exists s, u.
  destruct (user_enabled u); [|by injection H as <- _].
  destruct (bool_decide_reflect (user_realmId u = realm_id realm)); [done|]. by injection H as <- _.
Qed.
End Service.

#[export] Hint Resolve introspect_footprint endSession_footprint : footprint.

(** C21. Introspection calls a token active only when it is one: a JWT that verifies
    under an active key of the realm and is not blacklisted, whose session, if it has a
    [sid], is still stored, and whose user, if it has a [sub], exists and is enabled; or a
    stored refresh token that is neither revoked nor expired, of a stored session of an
    enabled user of the realm. A session need only be stored: its expiry is not read. *)
Theorem introspect_active_sound {E : Env} realm token w r w' :
  run (introspect realm token) w = (inr r, w') -> is_active r = true ->
  (exists payload, live_jwt realm token w payload) \/ (exists t, live_refresh realm token w t).
Proof.
  unfold introspect. rewrite run_catch.
  destruct (run (introspect_jwt realm token) w) as [[e|a] w1] eqn:Hj.
  - apply (run_frame []) in Hj; [|apply introspect_jwt_footprint]. intros H Ha. right.
    destruct (run_introspectRefreshToken_active _ _ _ _ _ H Ha) as (t & [H1 H2 H3 H4 (s & u & H5)]).
    rewrite (frame_now _ _ _ Hj) in H4. rewrite (frame_nil_rows _ _ TRefreshToken Hj) in H1.
    rewrite (frame_nil_rows _ _ TSession Hj), (frame_nil_rows _ _ TUser Hj) in H5.
    exists t. constructor; eauto.
  - intros [= <- <-] Ha. left. by eapply run_introspect_jwt_active.
Qed.

(** Revocation is seen by introspection: an access token revoked with its hint is
    inactive from then on, on this instance at once and whatever the state of Redis. *)
Theorem revoked_access_token_inactive {E : Env} realm token key payload jti exp w w1 :
  run (find_signing_key realm) w = (inr (Some key), w) ->
  jose_verify (key_publicKey key) token (w_now w) = Some payload ->
  str_claim "jti" payload = Some jti -> jti <> EmptyString ->
  num_claim "exp" payload = Some exp -> exp <> 0 -> w_now w / 1000 < exp ->
  run (revoke realm token (Some "access_token")) w = (inr tt, w1) ->
  exists w2, run (introspect realm token) w1 = (inr inactive, w2).
Proof.
  intros Hk Hv Hj Hne He He0 Hexp Hr.
  assert (Hv' : forall w', w_now w' = w_now w -> run (verifyJwt token (key_publicKey key)) w' = (inr payload, w')).
  { intros w' Hn. unfold verifyJwt. rewrite (run_bind_ok date_now _ w' (w_now w') w' eq_refl), Hn. by rewrite Hv. }
  assert (w1 = (run (blacklistToken jti exp) w).2) as ->.
  { unfold revoke in Hr. change (hint_allows "refresh_token" (Some "access_token")) with false in Hr.
    change (hint_allows "access_token" (Some "access_token")) with true in Hr. cbv iota in Hr.
    rewrite (run_bind_ok (Ret None) _ w None w eq_refl), run_catch, (run_bind_ok _ _ _ _ _ Hk),
      (run_bind_ok _ _ _ _ _ (Hv' w eq_refl)), Hj, He, (bool_decide_eq_false_2 _ Hne),
      (proj2 (Z.eqb_neq _ _) He0) in Hr. simpl andb in Hr. cbv iota in Hr.
    destruct (run (blacklistToken jti exp) w) as [[e|[]] w2]; by injection Hr as <-. }
  destruct (run_blacklistToken jti exp w Hexp) as [_ Hknown]. set (w2 := (run _ w).2) in *.
  assert (F : frame [TRevokedToken] w w2).
  { eapply (run_frame _ (blacklistToken jti exp) w _ w2); [by apply blacklistToken_footprint|].
    unfold w2. apply surjective_pairing. }
  destruct (run_isBlacklisted jti w2) as [w3 Hb]. rewrite Hknown in Hb. exists w3.
  unfold introspect, introspect_jwt. rewrite run_catch.
  assert (Hk2 : run (find_signing_key realm) w2 = (inr (Some key), w2)).
  { unfold find_signing_key in *. pose proof Hk as Hk'.
    apply run_query_inr in Hk' as (Hk' & _ & Hup). unfold find_latest in *.
    rewrite run_query by (by apply (frame_up _ _ _ F)).
    rewrite (frame_rows _ _ _ TRealmSigningKey F) by done. by rewrite Hk'. }
  rewrite (run_bind_ok _ _ _ _ _ Hk2), (run_bind_ok _ _ _ _ _ (Hv' w2 (frame_now _ _ _ F))).
  unfold revoked_jti. cbv zeta. rewrite Hj, (proj2 (truthy_Some jti) Hne). simpl default.
  by rewrite (run_bind_ok _ _ _ _ _ Hb).
Qed.

(** Logging out with a refresh token ends its session: afterwards the session and
    all its refresh tokens are gone, so that neither they nor an access token that
    names the session passes introspection, and other sessions' tokens are as they
    were. *)
Theorem logout_ends_session {E : Env} realm ip token w w' t s uo :
  run (logout realm ip (Some token)) w = (inr tt, w') -> token <> EmptyString ->
  token_with_session w token = Some (t, Some (s, uo)) ->
  NoDup (map session_id (rows TSession w)) ->
  (forall x, x ∈ rows TSession w' <-> x ∈ rows TSession w /\ session_id x <> session_id s) /\
  (forall x, x ∈ rows TRefreshToken w' <->
     x ∈ rows TRefreshToken w /\ rt_sessionId x <> session_id s) /\
  frame [TRefreshToken; TSession; TLoginEvent] w w'.
Proof.
  intros H Hne Hst Hnd. pose proof (token_with_session_spec _ _ _ _ Hst) as (_ & _ & Hs).
  destruct (Hs s uo eq_refl) as (Hin & Hid & _). unfold logout in H.
  rewrite (proj2 (truthy_Some token) Hne) in H. simpl negb in H. simpl default in H. cbv iota in H.
  apply run_bind_inr in H as (st & w1 & Hq & H). run_stmt_inv Hq. rewrite Hst in Hq. subst st.
  assert (F : frame [TRefreshToken; TSession; TLoginEvent] w w').
  { eapply run_frame; [|exact H]. by apply endSession_footprint. }
  rewrite <- Hid in H. unfold endSession in H.
  apply run_bind_inr in H as (n & w1 & Hu & H). run_stmt_inv Hu.
  apply run_bind_inr in H as ([] & w2 & Hev & H).
  apply (run_frame [TLoginEvent]) in Hev as F2; [|by apply recordLoginEvent_footprint].
  assert (Hup2 : w_db_up w2 = true) by (apply (frame_up _ _ _ F2); done).
  assert (Hs2 : rows TSession w2 = rows TSession w).
  { rewrite (frame_rows _ _ _ TSession F2) by done. by apply rows_with_rows_ne. }
  assert (Ht2 : rows TRefreshToken w2 = update_all
    (fun x => (rt_sessionId x === session_id s) && negb (rt_isOffline x)) (set_revoked true)
    (rows TRefreshToken w)).
  { rewrite (frame_rows _ _ _ TRefreshToken F2) by done. apply rows_with_rows_eq. }
  set (p := fun s0 : Row TSession => session_id s0 === session_id s) in *.
  destruct (List.find p (rows TSession w2)) as [s0|] eqn:Hf.
  2: { assert (Hps : p s = false) by (apply (List.find_none _ _ Hf), list_elem_of_In; by rewrite Hs2).
       apply bool_decide_eq_false in Hps. done. }
  apply find_elem in Hf as Hp0. destruct Hp0 as [_ Hid0%bool_decide_eq_true].
  assert (w' = with_tables (on_delete TSession [s0]
    (set_table TSession (remove_first p (rows TSession w2)) (w_tables w2))) w2) as ->.
  { rewrite run_catch, run_bind in H. unfold delete_one in H. rewrite run_prisma, Hup2, Hf in H.
    by injection H as <-. }
  split; [|split; [|exact F]].
  - intros x. unfold rows at 1. simpl. change (x ∈ remove_first p (rows TSession w2) <-> x ∈ rows TSession w /\ session_id x <> session_id s).
    rewrite Hs2. by apply elem_of_remove_key.
  - intros x. unfold rows at 1. simpl.
    change (x ∈ List.filter (fun r : RefreshToken => negb (includes (rt_sessionId r) [session_id s0]))
      (rows TRefreshToken w2) <-> x ∈ rows TRefreshToken w /\ rt_sessionId x <> session_id s).
    rewrite Ht2, elem_of_filter_update.
    + rewrite negb_true_iff, includes_false, list_elem_of_singleton, Hid0. done.
    + intros y [Hy%bool_decide_eq_true _]%andb_true_iff.
      by split; apply negb_false_iff, includes_true, list_elem_of_singleton; rewrite <- Hy in Hid0.
Qed.

(** ** Witnesses *)

Definition payload0 : obj :=
  [("sub", JStr "user-1"); ("jti", JStr "jti-1"); ("sid", JStr "session-1"); ("exp", JNum 2000000)].
Definition verify_all (key token : string) (now : Z) : option obj :=
  if token === "access-1" then Some payload0 else None.
#[local] Instance jwt_env : Env := test_env_with verify_all.

Definition session_row : Session :=
  mkSession "session-1" "user-1" None None None ["pwd"] 990000000 1001800000.
Definition other_session : Session :=
  mkSession "session-2" "user-1" None None None ["pwd"] 990000000 1001800000.
Definition refresh_row (id sid raw : string) : RefreshToken :=
  mkRefreshToken id sid (to_hex raw) (Some "openid") false false (Some "app") 990000000 1001800000.
Definition token_world : World :=
  with_rows TRefreshToken [refresh_row "rt-1" "session-1" "raw-1"; refresh_row "rt-2" "session-2" "raw-2"]
    (with_rows TSession [session_row; other_session] world1).

Example introspect_active_sound_witness :
  (exists r w', run (introspect realm0 "access-1") token_world = (inr r, w') /\ is_active r = true /\
    ((exists payload, live_jwt realm0 "access-1" token_world payload) \/
     (exists t, live_refresh realm0 "access-1" token_world t))) /\
  (exists r w', run (introspect realm0 "raw-2") token_world = (inr r, w') /\ is_active r = true).
Proof.
  split; [|eexists _, _; split; vm_compute; reflexivity].
  destruct (run (introspect realm0 "access-1") token_world) as [[e|r] w'] eqn:H; [vm_compute in H; discriminate|].
  assert (Ha : is_active r = true) by (vm_compute in H; injection H as <- _; reflexivity).
  exists r, w'. split; [done|]. split; [exact Ha|]. exact (introspect_active_sound realm0 "access-1" _ r w' H Ha).
Defined.

Example revoked_access_token_inactive_witness :
  exists w1 w2, run (revoke realm0 "access-1" (Some "access_token")) token_world = (inr tt, w1) /\
    run (introspect realm0 "access-1") w1 = (inr inactive, w2).
Proof.
  destruct (ends_ok_run (revoke realm0 "access-1" (Some "access_token")) token_world) as ([] & w1 & H);
    [reflexivity|].
  exists w1.
  destruct (revoked_access_token_inactive (E:=jwt_env) realm0 "access-1" key0 payload0 "jti-1" 2000000 token_world w1
    eq_refl eq_refl eq_refl ltac:(discriminate) eq_refl ltac:(discriminate) eq_refl H) as [w2 H2].
  by exists w2.
Defined.

Lemma token_world_rows :
  other_session ∈ rows TSession token_world /\ refresh_row "rt-2" "session-2" "raw-2" ∈ rows TRefreshToken token_world.
Proof. split; simpl; set_solver. Qed.

Example logout_ends_session_witness :
  exists w', run (logout realm0 None (Some "raw-1")) token_world = (inr tt, w') /\
    session_row ∉ rows TSession w' /\ other_session ∈ rows TSession w' /\
    refresh_row "rt-2" "session-2" "raw-2" ∈ rows TRefreshToken w'.
Proof.
  destruct (ends_ok_run (logout realm0 None (Some "raw-1")) token_world) as ([] & w' & H); [vm_compute; reflexivity|].
  exists w'. split; [exact H|].
  assert (Hnd : NoDup (map session_id (rows TSession token_world))) by (apply (bool_decide_unpack _); vm_compute; exact I).
  destruct (logout_ends_session _ _ _ _ _ (refresh_row "rt-1" "session-1" "raw-1") session_row (Some user0)
    H ltac:(discriminate) ltac:(vm_compute; reflexivity) Hnd) as (Hs & Ht & _).
  split; [|split].
  - intros Hin. destruct (proj1 (Hs _) Hin) as [_ Hne]. exact (Hne eq_refl).
  - apply Hs. split; [exact (proj1 token_world_rows)|discriminate].
  - apply Ht. split; [exact (proj2 token_world_rows)|discriminate].
Defined.

(** The access token of the client_credentials fallback names the client in [sub]; no
    user row has that id, so introspection calls the token inactive. *)
Example fallback_token_inactive :
  let service_env := test_env_with (fun _ token _ =>
    if token === "service" then Some [("sub", JStr "client-db-1"); ("azp", JStr "app")] else None) in
  (run (introspect (E:=service_env) realm0 "service") token_world).1 = inr inactive.
Proof. vm_compute. reflexivity. Qed.
