(* ===== verification/Login.v ===== *)
(** * Login: credentials and SSO sessions (src/src/login/login.service.ts,
      src/src/migration/password-migration.service.ts)

    The bytes of a PBKDF2 salt and hash stay in their base64 text, which the
    parameter [pbkdf2_equals] takes. *)

From S2P Require Import Prelude Prog Json Schema Store StoreFacts JsText Crypto StepUp.
From S2P Require Import BruteForce Federation AuthFacts Testbed.

Record LoginSessionAuthContext := mkLoginContext { lc_acr : option string; lc_amr : option (list string) }.

Section Service.
Context {E : Env}.

(** ** Passwords of other systems *)

Definition verifyPbkdf2 (plaintext storedHash : string) : bool :=
  match js_split "$"%char storedHash with
  | [iterations; salt; hash] =>
      match parseInt 10 iterations with
      | None => false
      | Some n => pbkdf2_equals plaintext salt n hash ?? false
      end
  | _ =>
      match js_split ":"%char storedHash with
      | [salt; hash] => pbkdf2_equals plaintext salt 27500 hash ?? false
      | _ => false
      end
  end.

Definition verifyMigratedPassword (plaintext storedHash algorithm : string) : M bool :=
  if algorithm === "argon2" then verifyPassword storedHash plaintext
  else if algorithm === "bcrypt" then
    match bcrypt_compare plaintext storedHash with
    | Some b => Ret b
    | None => Throw (PlainError "bcrypt")
    end
  else if algorithm === "pbkdf2-sha256" then Ret (verifyPbkdf2 plaintext storedHash)
  else Ret false.

Definition set_password (hash : string) (u : User) : User :=
  mkUser (user_id u) (user_realmId u) (user_username u) (user_email u) (user_emailVerified u)
    (user_firstName u) (user_lastName u) (user_enabled u) (Some hash) "argon2"
    (user_federationLink u) (user_passwordChangedAt u) (user_lockedUntil u) (user_createdAt u).

Definition rehashToArgon2 (userId plaintext : string) : M unit :=
  (newHash <- hashPassword plaintext ;;
   update TUser (fun u => user_id u === userId) (set_password newHash) ;;;
   Ret tt)%prog.

(** ** Credentials *)

Definition by_username (realm : Realm) (username : string) (u : User) : bool :=
  (user_realmId u === realm_id realm) && (user_username u === username).

Definition invalid_credentials {A} : M A := Throw (Unauthorized "Invalid credentials").

(** [checkLocked], then a 401 when locked. *)
Definition refuse_locked (realm : Realm) (user : User) : M unit :=
  (lockStatus <- checkLocked realm user ;;
   if (lockStatus : bool * option Z).1
   then Throw (Unauthorized "Account is temporarily locked. Please try again later.") else Ret tt)%prog.

(** The password hash of a local user, or of the system it came from. *)
Definition valid_local_password (user : User) (hash password : string) : M bool :=
  (valid <- verifyPassword hash password ;;
   if negb valid && (user_passwordAlgorithm user !== EmptyString) &&
      (user_passwordAlgorithm user !== "argon2") then
     valid <- verifyMigratedPassword password hash (user_passwordAlgorithm user) ;;
     if (valid : bool) then rehashToArgon2 (user_id user) password ;;; Ret true else Ret false
   else Ret valid)%prog.

Definition validateCredentials (realm : Realm) (username password : string) (ip : option string) : M User :=
  (user <- find_first TUser (by_username realm username) ;;
   match user with
   | Some user =>
       if truthy (user_federationLink user) then
         if negb (user_enabled user) then invalid_credentials else
         refuse_locked realm user ;;;
         result <- authenticateViaFederation (realm_id realm) username password ;;
         match result with
         | Some _ => resetFailures (realm_id realm) (user_id user) ;;; Ret user
         | None => recordFailure realm (user_id user) ip ;;; invalid_credentials
         end
       else if user_enabled user && truthy (user_passwordHash user) then
         refuse_locked realm user ;;;
         valid <- valid_local_password user (user_passwordHash user ?? EmptyString) password ;;
         if negb valid then recordFailure realm (user_id user) ip ;;; invalid_credentials
         else resetFailures (realm_id realm) (user_id user) ;;; Ret user
       else invalid_credentials
   | None =>
       result <- authenticateViaFederation (realm_id realm) username password ;;
       match result with
       | Some userId =>
           if userId === EmptyString then invalid_credentials else
           importedUser <- find_first TUser (fun u => user_id u === userId) ;;
           match importedUser with
           | Some u => Ret u
           | None => invalid_credentials
           end
       | None => invalid_credentials
       end
   end)%prog.

(** ** SSO sessions *)

Definition active_login_session (realm : Realm) (userId : string) (now : Z) (s : LoginSession) : bool :=
  (ls_userId s === userId) && (ls_realmId s === realm_id realm) && (now <? ls_expiresAt s).

(** FIFO eviction below the limit. *)
Definition evict_login_sessions (realm : Realm) (userId : string) : M unit :=
  (let maxSessions := realm_maxSessionsPerUser realm in
   if maxSessions <=? 0 then Ret tt else
   now <- date_now ;;
   activeSessions <- find_many_asc TLoginSession (active_login_session realm userId now) ls_createdAt ;;
   let n := Z.of_nat (length activeSessions) in
   if n <? maxSessions then Ret tt else
   let toDelete := map ls_id (take (Z.to_nat (n - maxSessions + 1)) activeSessions) in
   delete_many TLoginSession (fun s => includes (ls_id s) toDelete) ;;;
   Ret tt)%prog.

Definition createLoginSession (realm : Realm) (user : User) (ip userAgent existingSessionToken : option string)
    (authContext : LoginSessionAuthContext) : M string :=
  ((if truthy existingSessionToken
    then catch (delete_one TLoginSession (fun s =>
                  ls_tokenHash s === sha256 (existingSessionToken ?? EmptyString)) ;;; Ret tt)
           (fun _ => Ret tt)
    else Ret tt) ;;;
   evict_login_sessions realm (user_id user) ;;;
   token <- random_hex 32 ;;
   now <- date_now ;;
   create TLoginSession (fun id createdAt =>
     mkLoginSession id (user_id user) (realm_id realm) (sha256 token) ip userAgent
       (lc_acr authContext) (lc_amr authContext ?? []) createdAt
       (now + realm_refreshTokenLifespan realm * 1000)) ;;;
   Ret token)%prog.

Definition sessionSatisfiesMfa (session : LoginSession) : M bool :=
  (if acrStrength (Some ACR_MFA) <=? acrStrength (ls_satisfiedAcr session) then Ret true else
   now <- date_now ;;
   stepUps <- find_many TStepUpRecord (fun r => (su_sessionId r === ls_id session) && (now <? su_expiresAt r)) ;;
   let acr := strongestAcr (ls_satisfiedAcr session :: map (fun r => Some (su_acrLevel r)) stepUps) in
   Ret (acrStrength (Some ACR_MFA) <=? acrStrength (Some acr)))%prog.

(** The session of a token with its user. *)
Definition login_session_of (sessionToken : string) (w : World) : option (LoginSession * option User) :=
  match List.find (fun s => ls_tokenHash s === sha256 sessionToken) (rows TLoginSession w) with
  | None => None
  | Some s => Some (s, List.find (fun u => user_id u === ls_userId s) (rows TUser w))
  end.

Definition validateLoginSession (realm : Realm) (sessionToken : string) : M (option User) :=
  (session <- query (login_session_of sessionToken) ;;
   match session with
   | None => Ret None
   | Some (session, user) =>
       now <- date_now ;;
       if (ls_realmId session !== realm_id realm) || (ls_expiresAt session <? now) then Ret None else
       match user with
       | None => Throw (PlainError "TypeError")
       | Some user =>
           if negb (user_enabled user) then Ret None else
           ok <- (if realm_mfaRequired realm then sessionSatisfiesMfa session else Ret true) ;;
           Ret (if (ok : bool) then Some user else None)
       end
   end)%prog.

Definition findUserById (userId : string) : M (option User) :=
  find_first TUser (fun u => user_id u === userId).
Definition findUserByUsername (realm : Realm) (username : string) : M (option User) :=
  find_first TUser (by_username realm username).

(** ** Footprints *)

Lemma verifyMigratedPassword_footprint ts p h a : stable (frame ts) (verifyMigratedPassword p h a).
Proof. unfold verifyMigratedPassword. footprint. Qed.
Hint Resolve verifyMigratedPassword_footprint authenticateViaFederation_footprint : footprint.
Lemma validateCredentials_footprint ts r u p i :
  covers [TUser; TLoginFailure] ts = true -> stable (frame ts) (validateCredentials r u p i).
Proof.
  intros H. apply (stable_frame_mono _ _ _ H).
  unfold validateCredentials, refuse_locked, valid_local_password, rehashToArgon2, invalid_credentials. footprint.
Qed.

Lemma createLoginSession_footprint ts r u i ua t c :
  covers [TLoginSession] ts = true -> stable (frame ts) (createLoginSession r u i ua t c).
Proof.
  intros H. apply (stable_frame_mono _ _ _ H). unfold createLoginSession, evict_login_sessions. footprint.
Qed.

(** ** What a success shows *)

Lemma run_sessionSatisfiesMfa session w w' :
  run (sessionSatisfiesMfa session) w = (inr true, w') ->
  w' = w /\ (acrStrength (Some ACR_MFA) <= acrStrength (ls_satisfiedAcr session) \/
    exists r, r ∈ rows TStepUpRecord w /\ su_sessionId r = ls_id session /\ w_now w < su_expiresAt r /\
      acrStrength (Some ACR_MFA) <= acrStrength (Some (su_acrLevel r))).
Proof.
  unfold sessionSatisfiesMfa. destruct (Z.leb_spec (acrStrength (Some ACR_MFA)) (acrStrength (ls_satisfiedAcr session))).
  { intros [= <-]. split; [done|by left]. }
  intros Hr. apply run_bind_inr in Hr as (now & w1 & Hn & Hr). run_stmt_inv Hn.
  apply run_bind_inr in Hr as (su & w1 & Hf & Hr). run_stmt_inv Hf. cbv zeta in Hr. injection Hr as Hr <-.
  split; [done|]. right. apply Z.leb_le in Hr. unfold strongestAcr in Hr.
  destruct (best_acr_spec ACR_PASSWORD (ls_satisfiedAcr session :: map (fun r => Some (su_acrLevel r)) su)) as [[Hb|Hb] _].
  - rewrite Hb in Hr. exfalso. by vm_compute in Hr.
  - apply elem_of_cons in Hb as [Hb|Hb]; [rewrite Hb in Hr; lia|].
    apply list_elem_of_fmap in Hb as (r & Hb & Hin). rewrite Hb in Hr. rewrite Hf in Hin.
    apply elem_of_filter_list in Hin as [[Hs%bool_decide_eq_true Ht%Z.ltb_lt]%andb_true_iff Hin].
    by exists r.
Qed.

Lemma run_refuse_locked realm user w w' :
  run (refuse_locked realm user) w = (inr tt, w') ->
  w' = w /\ (realm_bruteForceEnabled realm = true -> forall t, user_lockedUntil user = Some t -> t <= w_now w).
Proof.
  unfold refuse_locked. intros Hr. apply run_bind_inr in Hr as (st & w1 & [-> Hc]%run_checkLocked_inr & Hr).
  destruct (st.1); [done|]. injection Hr as <-. by split; [|apply Hc].
Qed.

(** The password fits the stored hash, by Argon2 or by the algorithm it came with. *)
Definition password_fits (user : User) (password : string) : Prop :=
  exists hash, user_passwordHash user = Some hash /\
    (argon2_verify hash password = Some true \/
     (user_passwordAlgorithm user = "bcrypt" /\ bcrypt_compare password hash = Some true) \/
     (user_passwordAlgorithm user = "pbkdf2-sha256" /\ verifyPbkdf2 password hash = true)).

Lemma run_valid_local_password user hash password w w' :
  user_passwordHash user = Some hash ->
  run (valid_local_password user hash password) w = (inr true, w') -> password_fits user password.
Proof.
  intros Hh. unfold valid_local_password. intros Hr. apply run_bind_inr in Hr as (v & w1 & Hv & Hr).
  apply run_verifyPassword_inr in Hv as [-> Hv]. exists hash. split; [done|].
  destruct v; [left; by apply Hv|]. simpl negb in Hr. rewrite andb_true_l in Hr.
  destruct (_ && _) eqn:Halg; [|done]. apply andb_true_iff in Halg as [_ Halg%negb_true_iff%bool_decide_eq_false].
  apply run_bind_inr in Hr as (v & w2 & Hm & Hr). destruct v; [|done]. unfold verifyMigratedPassword in Hm.
  rewrite (bool_decide_eq_false_2 _ Halg) in Hm.
  destruct (bool_decide_reflect (user_passwordAlgorithm user = "bcrypt")).
  { destruct (bcrypt_compare password hash) as [b|] eqn:Hb; [|done]. injection Hm as -> _. auto. }
  destruct (bool_decide_reflect (user_passwordAlgorithm user = "pbkdf2-sha256")); [|done].
  injection Hm as Hm _. auto.
Qed.
End Service.
#[export] Hint Resolve validateCredentials_footprint createLoginSession_footprint : footprint.

(** What an accepted session cookie implies. *)
Lemma run_validateLoginSession_inr {E : Env} realm token w u w' :
  run (validateLoginSession realm token) w = (inr (Some u), w') ->
  exists s, s ∈ rows TLoginSession w /\ ls_tokenHash s = sha256 token /\
    ls_realmId s = realm_id realm /\ w_now w <= ls_expiresAt s /\
    u ∈ rows TUser w /\ user_id u = ls_userId s /\ user_enabled u = true /\
    (realm_mfaRequired realm = true ->
      acrStrength (Some ACR_MFA) <= acrStrength (ls_satisfiedAcr s) \/
      exists r, r ∈ rows TStepUpRecord w /\ su_sessionId r = ls_id s /\ w_now w < su_expiresAt r /\
        acrStrength (Some ACR_MFA) <= acrStrength (Some (su_acrLevel r))).
Proof.
  unfold validateLoginSession. intros Hr. apply run_bind_inr in Hr as (st & w1 & Hq & Hr). run_stmt_inv Hq.
  unfold login_session_of in Hq. destruct (List.find (fun s => ls_tokenHash s === _) _) as [s|] eqn:Hs; subst st; [|done].
  apply find_elem in Hs as [Hin Hh%bool_decide_eq_true].
  apply run_bind_inr in Hr as (now & w1 & Hn & Hr). run_stmt_inv Hn.
  destruct (bool_decide_reflect (ls_realmId s = realm_id realm)); [|done]. simpl orb in Hr.
  destruct (Z.ltb_spec (ls_expiresAt s) (w_now w)); [done|].
  destruct (List.find (fun u => user_id u === _) _) as [u'|] eqn:Hu; [|done].
  apply find_elem in Hu as [Huin Huid%bool_decide_eq_true].
  destruct (user_enabled u') eqn:Hen; [|done]. simpl negb in Hr. cbv iota in Hr.
  apply run_bind_inr in Hr as (ok & w1 & Hok & Hr). destruct ok; [|done]. injection Hr as <- <-.
  exists s. do 7 (split; [done|]). intros Hm. rewrite Hm in Hok. by apply run_sessionSatisfiesMfa in Hok as [_ Hok].
Qed.

(** C24. In a realm that requires a second factor, a browser session counts only with
    one: the user of an SSO session is accepted only for an unexpired session of this
    realm, for an enabled account, and, where the realm requires MFA, when the session
    was established at the MFA level or raised to it by an unexpired step-up. *)
Theorem validateLoginSession_sound {E : Env} realm token w u w' :
  run (validateLoginSession realm token) w = (inr (Some u), w') ->
  exists s, s ∈ rows TLoginSession w /\ ls_tokenHash s = sha256 token /\
    ls_realmId s = realm_id realm /\ w_now w <= ls_expiresAt s /\
    u ∈ rows TUser w /\ user_id u = ls_userId s /\ user_enabled u = true /\
    (realm_mfaRequired realm = true ->
      acrStrength (Some ACR_MFA) <= acrStrength (ls_satisfiedAcr s) \/
      exists r, r ∈ rows TStepUpRecord w /\ su_sessionId r = ls_id s /\ w_now w < su_expiresAt r /\
        acrStrength (Some ACR_MFA) <= acrStrength (Some (su_acrLevel r))).
Proof. apply run_validateLoginSession_inr. Qed.

(** The login form accepts a name and a password only for an account of this realm
    that is not locked out: an enabled local account whose password fits its hash,
    by Argon2 or by the algorithm it was imported with, or one that an enabled LDAP
    directory of the realm vouches for. *)
Theorem validateCredentials_sound {E : Env} realm username password ip w u w' :
  run (validateCredentials realm username password ip) w = (inr u, w') ->
  (u ∈ rows TUser w /\ user_realmId u = realm_id realm /\ user_username u = username /\
   user_enabled u = true /\
   (realm_bruteForceEnabled realm = true -> forall t, user_lockedUntil u = Some t -> t <= w_now w) /\
   (if truthy (user_federationLink u) then ldap_accepts (realm_id realm) username password w
    else password_fits u password)) \/
  (List.find (by_username realm username) (rows TUser w) = None /\
   ldap_accepts (realm_id realm) username password w).
Proof.
  unfold validateCredentials. intros Hr. apply run_bind_inr in Hr as (o & w1 & Hf & Hr). run_stmt_inv Hf.
  destruct o as [user|]; symmetry in Hf.
  - left. apply find_elem in Hf as [Hin Hby]. apply andb_true_iff in Hby as [Hrealm%bool_decide_eq_true Hname%bool_decide_eq_true].
    destruct (truthy (user_federationLink user)) eqn:Hfed.
    + destruct (user_enabled user) eqn:Hen; [|done]. simpl negb in Hr. cbv iota in Hr.
      apply run_bind_inr in Hr as ([] & w1 & Hl & Hr). apply run_refuse_locked in Hl as [-> Hl].
      apply run_bind_inr in Hr as (res & w1 & Ha & Hr). destruct res as [uid|].
      * apply run_authenticateViaFederation in Ha as [Ha _]. apply run_bind_inr in Hr as ([] & w2 & _ & Hr).
        injection Hr as <- _. by rewrite Hfed.
      * by apply run_bind_inr in Hr as (x & w2 & _ & Hr).
    + destruct (user_enabled user) eqn:Hen; [|done]. simpl andb in Hr.
      destruct (truthy (user_passwordHash user)) eqn:Hh; [|done].
      apply run_bind_inr in Hr as ([] & w1 & Hl & Hr). apply run_refuse_locked in Hl as [-> Hl].
      apply run_bind_inr in Hr as (v & w1 & Hv & Hr). apply truthy_true in Hh as (hash & Hh & _).
      rewrite Hh in Hv. simpl default in Hv. destruct v; simpl negb in Hr; cbv iota in Hr.
      * apply run_valid_local_password in Hv; [|done]. apply run_bind_inr in Hr as ([] & w2 & _ & Hr).
        injection Hr as <- _. by rewrite Hfed.
      * by apply run_bind_inr in Hr as (x & w2 & _ & Hr).
  - right. split; [done|]. apply run_bind_inr in Hr as (res & w1 & Ha & Hr). destruct res as [uid|]; [|done].
    by apply run_authenticateViaFederation in Ha as [Ha _].
Qed.

(** ** Witnesses *)

Definition mfa_realm : Realm :=
  mkRealm "realm-1" "acme" (Some "Acme") 300 1800 2592000 8 true true true false 0
    true 3 900 600 0 true true 300 3 true "log" 6 300 5 3600
    2 true true 60 1000 60 1000 100 2000 true 3600 true true
    0 true false [] false true None None false true 30 None
    false 50 80 None (Some 587) None None None false "smtp" None.
Definition sso_row : LoginSession :=
  mkLoginSession "ls-1" "user-1" "realm-1" (to_hex "cookie-1") None None (Some ACR_PASSWORD) ["pwd"]
    990000000 1001800000.
Definition sso_world : World :=
  with_rows TStepUpRecord [mkStepUpRecord "ls-1" ACR_MFA 995000000 1000900000]
    (with_rows TLoginSession [sso_row] world1).

Example validateLoginSession_sound_witness :
  exists u w', run (validateLoginSession (E:=test_env) mfa_realm "cookie-1") sso_world = (inr (Some u), w') /\
    user_enabled u = true.
Proof.
  exists user0, sso_world.
  assert (H : run (validateLoginSession (E:=test_env) mfa_realm "cookie-1") sso_world = (inr (Some user0), sso_world))
    by (vm_compute; reflexivity).
  split; [exact H|].
  destruct (validateLoginSession_sound (E:=test_env) _ _ _ _ _ H) as (s & _ & _ & _ & _ & _ & _ & Hen & _). exact Hen.
Defined.

Example validateCredentials_sound_witness :
  exists u w', run (validateCredentials (E:=test_env) realm0 "alice" "Secret123" None) world1 = (inr u, w') /\
    u ∈ rows TUser world1 /\ user_enabled u = true.
Proof.
  destruct (ends_ok_run (validateCredentials (E:=test_env) realm0 "alice" "Secret123" None) world1) as (u & w' & H);
    [reflexivity|].
  exists u, w'. split; [exact H|].
  destruct (validateCredentials_sound (E:=test_env) _ _ _ _ _ _ _ H) as [(H1 & _ & _ & H2 & _)|[Hf _]];
    [by split | discriminate Hf].
Defined.
