(* ===== verification/Sessions.v ===== *)
(** * Sessions: listing, revoking and expiring sessions
      (src/src/sessions/sessions.service.ts, sessions-cleanup.service.ts)

    OAuth sessions ([Session], with their refresh tokens) and browser sessions
    ([LoginSession]) are listed together and revoked together.  The two queries of a
    [Promise.all] are taken in order. *)

From S2P Require Import Prelude Prog Json Schema Store StoreFacts Testbed.

Inductive SessionType := Oauth | Sso.
#[export] Instance SessionType_eq_dec : EqDecision SessionType.
Proof. solve_decision. Defined.

Record SessionInfo := mkSessionInfo {
  si_id : string; si_type : SessionType; si_userId : string; si_username : option string;
  si_ipAddress : option string; si_userAgent : option string; si_createdAt : Z; si_expiresAt : Z
}.

Section Service.
Context {E : Env}.

(** The session's user, and [user: { realmId }]. *)
Definition owner (userId : string) (w : World) : option User :=
  List.find (fun u => user_id u === userId) (rows TUser w).
Definition owned_in (realmId : string) (s : Session) (w : World) : bool :=
  match owner (session_userId s) w with Some u => user_realmId u === realmId | None => false end.

Definition oauth_info (w : World) (s : Session) : SessionInfo :=
  mkSessionInfo (session_id s) Oauth (session_userId s) (user_username <$> owner (session_userId s) w)
    (session_ipAddress s) (session_userAgent s) (session_createdAt s) (session_expiresAt s).
Definition sso_info (w : World) (s : LoginSession) : SessionInfo :=
  mkSessionInfo (ls_id s) Sso (ls_userId s) (user_username <$> owner (ls_userId s) w)
    (ls_ipAddress s) (ls_userAgent s) (ls_createdAt s) (ls_expiresAt s).

Definition newest_first {A} (key : A -> Z) (l : list A) : list A := sort_by (fun x => - key x) l.

(** The live sessions of the realm, of one user or of all. *)
Definition list_sessions (realm : Realm) (userId : option string) : M (list SessionInfo) :=
  (let of_user id := match userId with Some u => id === u | None => true end in
   now <- date_now ;;
   oauthSessions <- query (fun w => map (oauth_info w) (newest_first session_createdAt
     (List.filter (fun s => of_user (session_userId s) && owned_in (realm_id realm) s w &&
                     (now <? session_expiresAt s)) (rows TSession w)))) ;;
   now <- date_now ;;
   ssoSessions <- query (fun w => map (sso_info w) (newest_first ls_createdAt
     (List.filter (fun s => of_user (ls_userId s) && (ls_realmId s === realm_id realm) &&
                     (now <? ls_expiresAt s)) (rows TLoginSession w)))) ;;
   Ret (newest_first si_createdAt (oauthSessions ++ ssoSessions)))%prog.

Definition getRealmSessions (realm : Realm) : M (list SessionInfo) := list_sessions realm None.
Definition getUserSessions (realm : Realm) (userId : string) : M (list SessionInfo) :=
  list_sessions realm (Some userId).

Definition session_not_found {A} : M A := Throw (NotFound "Session not found").

(** [findUnique] with the realm of the session's user. *)
Definition find_session (sessionId : string) : M (option (Session * option User)) :=
  query (fun w => match List.find (fun s => session_id s === sessionId) (rows TSession w) with
                  | Some s => Some (s, owner (session_userId s) w)
                  | None => None
                  end).

Definition revoke_sso (realm : option Realm) (sessionId : string) : M unit :=
  (loginSession <- find_first TLoginSession (fun s => ls_id s === sessionId) ;;
   match loginSession with
   | Some s =>
       if match realm with Some r => ls_realmId s !== realm_id r | None => false end
       then session_not_found else
       delete_one TLoginSession (fun s => ls_id s === sessionId) ;;; Ret tt
   | None => session_not_found
   end)%prog.

Definition revokeSession (realm : option Realm) (sessionId : string) (type : option SessionType) : M unit :=
  (let tryOauth := match type with Some Sso => false | _ => true end in
   let trySso := match type with Some Oauth => false | _ => true end in
   let after_oauth := if trySso then revoke_sso realm sessionId else session_not_found in
   if tryOauth then
     session <- find_session sessionId ;;
     match session with
     | Some (s, user) =>
         match realm, user with
         | Some _, None => Throw (PlainError "TypeError")
         | _, _ =>
             if match realm, user with Some r, Some u => user_realmId u !== realm_id r | _, _ => false end
             then session_not_found else
             update_many TRefreshToken (fun t => rt_sessionId t === sessionId) (set_revoked true) ;;;
             delete_one TSession (fun s => session_id s === sessionId) ;;;
             Ret tt
         end
     | None => after_oauth
     end
   else after_oauth)%prog.

(** The statements of the transaction that concern OAuth sessions. *)
Definition revoke_oauth (sessionIds : list string) : M unit :=
  match sessionIds with
  | [] => Ret tt
  | _ =>
      (update_many TRefreshToken (fun t => includes (rt_sessionId t) sessionIds) (set_revoked true) ;;;
       delete_many TSession (fun s => includes (session_id s) sessionIds) ;;;
       Ret tt)%prog
  end.

Definition revokeAllUserSessions (realm : Realm) (userId : string) : M unit :=
  (sessions <- query (fun w => List.filter (fun s => (session_userId s === userId) &&
                                 owned_in (realm_id realm) s w) (rows TSession w)) ;;
   let sessionIds := map session_id sessions in
   transaction
     (revoke_oauth sessionIds ;;;
      delete_many TLoginSession (fun s => (ls_userId s === userId) && (ls_realmId s === realm_id realm)) ;;;
      Ret tt))%prog.

(** ** Hourly cleanup *)

Definition cleanupExpiredSessions : M Z :=
  (now <- date_now ;;
   oauthResult <- delete_many TSession (fun s => session_expiresAt s <? now) ;;
   ssoResult <- delete_many TLoginSession (fun s => ls_expiresAt s <? now) ;;
   refreshResult <- delete_many TRefreshToken (fun t => rt_expiresAt t <? now) ;;
   authCodeResult <- delete_many TAuthorizationCode (fun c => ac_expiresAt c <? now) ;;
   proxyResult <- delete_many TProxySession (fun s => ps_expiresAt s <? now) ;;
   impersonationResult <- delete_many TImpersonationSession (fun s => imp_expiresAt s <? now) ;;
   Ret (oauthResult + ssoResult + refreshResult + authCodeResult + proxyResult + impersonationResult))%prog.

(** ** What a revocation leaves *)

Lemma run_revoke_oauth_inr ids w w' :
  run (revoke_oauth ids) w = (inr tt, w') ->
  rows TSession w' = List.filter (fun s => negb (includes (session_id s) ids)) (rows TSession w) /\
  (forall t s, t ∈ rows TRefreshToken w' -> s ∈ rows TSession w -> session_id s ∈ ids -> rt_sessionId t <> session_id s) /\
  rows TLoginSession w' = rows TLoginSession w /\ rows TUser w' = rows TUser w.
Proof.
  destruct ids as [|i l] eqn:Hids; cbn [revoke_oauth].
  { intros [= <-]. split_and!; [| |done|done].
    { rewrite (filter_ext _ (fun _ => true)); [by rewrite filter_true|done]. }
    intros t s _ _ Hn. by apply not_elem_of_nil in Hn. }
  rewrite <- Hids. clear Hids. intros Hr. apply run_bind_inr in Hr as (m & w1 & Hu & Hr).
  apply run_update_many_inr in Hu as (_ & -> & _). apply run_bind_inr in Hr as (k & w2 & Hd & Hr). injection Hr as <-.
  apply run_delete_many_inr in Hd as (_ & -> & _). unfold rows. simpl. rewrite !set_table_ne, !set_table_eq by done.
  split_and!; try done. intros t s Ht Hs Hin He. apply elem_of_filter_list in Ht as [Ht _].
  apply negb_true_iff, includes_false in Ht. apply Ht. rewrite He. apply list_elem_of_fmap. exists s. split; [done|].
  apply elem_of_filter_list. split; [by apply includes_true|done].
Qed.

(** After a successful revocation by id of an OAuth session, the session is gone, and
    so are its refresh tokens; it was one of the realm's. *)
Lemma run_revokeSession_oauth realm sessionId type w w' s :
  List.find (fun s => session_id s === sessionId) (rows TSession w) = Some s -> type <> Some Sso ->
  run (revokeSession (Some realm) sessionId type) w = (inr tt, w') ->
  owned_in (realm_id realm) s w = true /\
  rows TSession w' = remove_first (fun s => session_id s === sessionId) (rows TSession w) /\
  forall t, t ∈ rows TRefreshToken w' -> rt_sessionId t <> sessionId.
Proof.
  intros Hf Hty Hr. unfold revokeSession in Hr. cbv zeta in Hr.
  assert ((match type with Some Sso => false | _ => true end) = true) as Ht by (by destruct type as [[]|]).
  rewrite Ht in Hr. apply run_bind_inr in Hr as (o & w1 & Hq & Hr). apply run_query_inr in Hq as (Hq & -> & _). rewrite Hf in Hq. subst o.
  apply find_elem in Hf as Hs. destruct Hs as [_ Hid%bool_decide_eq_true].
  unfold owned_in. destruct (owner (session_userId s) w) as [u|] eqn:Hu; [|done].
  destruct (bool_decide_reflect (user_realmId u = realm_id realm)) as [Hre|]; [|done]. simpl negb in Hr. cbv iota in Hr.
  apply run_bind_inr in Hr as (n & w1 & Hup & Hr). apply run_update_many_inr in Hup as (_ & -> & _).
  apply run_bind_inr in Hr as (r & w2 & Hd & Hr). injection Hr as <-. apply run_delete_one_inr in Hd as (Hf2 & -> & _).
  split; [done|]. rewrite rows_with_rows_ne in Hf2 by done. pose proof (eq_trans (eq_sym Hf) Hf2) as Hrs. injection Hrs as <-.
  split.
  - unfold rows. simpl. by rewrite !set_table_ne, !set_table_eq, set_table_ne by done.
  - intros t Hin. unfold rows in Hin. simpl in Hin. rewrite set_table_eq in Hin.
    apply elem_of_filter_list in Hin as [Hin _]. apply negb_true_iff, includes_false in Hin. simpl in Hin.
    rewrite Hid in Hin. set_solver.
Qed.
End Service.

(** Signing a user out everywhere is complete: afterwards the user has no session and
    no browser session in this realm and no refresh token of the sessions that were open,
    while sessions with other ids and the browser sessions of other users or of other
    realms are untouched. *)
Theorem revokeAllUserSessions_complete {E : Env} realm userId w w' :
  run (revokeAllUserSessions realm userId) w = (inr tt, w') ->
  let mine s := session_userId s = userId /\ owned_in (realm_id realm) s w = true in
  (forall s, s ∈ rows TSession w' -> ~ mine s) /\
  (forall t s, t ∈ rows TRefreshToken w' -> s ∈ rows TSession w -> mine s -> rt_sessionId t <> session_id s) /\
  (forall s, s ∈ rows TSession w -> (forall s', s' ∈ rows TSession w -> mine s' -> session_id s' <> session_id s) ->
     s ∈ rows TSession w') /\
  (forall s, s ∈ rows TLoginSession w' <->
     s ∈ rows TLoginSession w /\ ~ (ls_userId s = userId /\ ls_realmId s = realm_id realm)).
Proof.
  unfold revokeAllUserSessions. intros Hr. cbv zeta.
  apply run_bind_inr in Hr as (sessions & w1 & Hq & Hr). run_stmt_inv Hq. cbv zeta in Hr. rewrite run_transaction in Hr.
  destruct (run (revoke_oauth _ ;;; _)%prog w) as [[e|[]] w2] eqn:Hb; [done|]. injection Hr as ->.
  apply run_bind_inr in Hb as ([] & w1 & Hs & Hb). apply run_bind_inr in Hb as (n & w2 & Hd & Hb).
  injection Hb as <-. apply run_delete_many_inr in Hd as (_ & -> & _).
  apply run_revoke_oauth_inr in Hs as (Hses & Htok & Hlog & _).
  assert (Hids : forall s, s ∈ rows TSession w -> session_userId s = userId /\ owned_in (realm_id realm) s w = true ->
            session_id s ∈ map session_id sessions).
  { intros s Hin [Hu Ho]. apply list_elem_of_fmap. exists s. split; [done|]. subst sessions.
    apply elem_of_filter_list. rewrite Ho, bool_decide_eq_true_2 by done. done. }
  unfold rows at 1 3 5 6. simpl. rewrite !(set_table_ne TLoginSession), set_table_eq by done.
  change (w_tables w1 TSession) with (rows TSession w1). change (w_tables w1 TRefreshToken) with (rows TRefreshToken w1).
  rewrite Hses. split_and!.
  - intros s Hin Hm. apply elem_of_filter_list in Hin as [Hn Hin]. apply negb_true_iff, includes_false in Hn. by apply Hn, Hids.
  - intros t s Ht Hin Hm. apply (Htok t s Ht Hin). by apply Hids.
  - intros s Hin Hoth. apply elem_of_filter_list. split; [|done]. apply negb_true_iff, includes_false.
    intros (s' & He & Hs')%list_elem_of_fmap. subst sessions. apply elem_of_filter_list in Hs' as [Hm Hs'].
    apply andb_true_iff in Hm as [Hm%bool_decide_eq_true Ho]. by apply (Hoth s' Hs').
  - intros s. rewrite elem_of_filter_list, Hlog, negb_true_iff, andb_false_iff, !bool_decide_eq_false.
    destruct (decide (ls_userId s = userId)), (decide (ls_realmId s = realm_id realm)); naive_solver.
Qed.

Definition session_rows : list Session :=
  [mkSession "s-1" "user-1" None None None [] 1 2000000000; mkSession "s-2" "user-2" None None None [] 2 2000000000].
Definition sessions_world : World :=
  with_rows TUser [user0] (with_rows TSession session_rows
    (with_rows TRefreshToken [mkRefreshToken "rt-1" "s-1" "h" None false false None 0 2000000000] world0)).

Example revokeAllUserSessions_complete_witness :
  exists w', run (revokeAllUserSessions realm0 "user-1") sessions_world = (inr tt, w') /\
    (forall s, s ∈ rows TSession w' -> ~ (session_userId s = "user-1" /\ owned_in "realm-1" s sessions_world = true)).
Proof.
  exists (run (revokeAllUserSessions realm0 "user-1") sessions_world).2.
  assert (H : run (revokeAllUserSessions realm0 "user-1") sessions_world =
    (inr tt, (run (revokeAllUserSessions realm0 "user-1") sessions_world).2)) by (vm_compute; reflexivity).
  split; [exact H|]. exact (proj1 (revokeAllUserSessions_complete (E:=test_env) _ _ _ _ H)).
Defined.
