(* ===== verification/Impersonation.v ===== *)
(** * Impersonation: administrators acting as a user
      (src/src/impersonation/impersonation.service.ts) *)

From S2P Require Import Prelude Prog Json Schema Store StoreFacts Crypto Events.
From S2P Require Import Groups AuthTokens AuthGrants AuthFacts RefreshGrant Testbed.

Record ImpersonationTokenResponse := mkImpersonationResponse {
  im_access_token : string; im_token_type : string; im_expires_in : Z; im_refresh_token : string;
  im_session_id : string
}.

Section Service.
Context {E : Env}.

Definition find_user (userId : string) : M (option User) := find_first TUser (fun u => user_id u === userId).

(** The checks before anything is written: the target, when they all pass. *)
Definition check_impersonation (realm : Realm) (adminUserId targetUserId : string) : M User :=
  (if negb (realm_impersonationEnabled realm)
   then Throw (Forbidden "Impersonation is not enabled for this realm") else
   targetUser <- find_user targetUserId ;;
   match targetUser with
   | None => Throw (NotFound "User not found in realm")
   | Some targetUser =>
       if user_realmId targetUser !== realm_id realm then Throw (NotFound "User not found in realm") else
       if negb (user_enabled targetUser) then Throw (BadRequest "Cannot impersonate a disabled user") else
       if starts_with "api-key:" adminUserId
       then Throw (Forbidden "Impersonation is not permitted using API key authentication.") else
       adminUser <- find_user adminUserId ;;
       match adminUser with
       | None => Throw (NotFound "Admin user not found")
       | Some _ =>
           if adminUserId === targetUserId then Throw (BadRequest "Cannot impersonate yourself")
           else Ret targetUser
       end
   end)%prog.

(** RFC 8693: the actor of the token is the administrator. *)
Definition impersonation_payload (realm : Realm) (adminUserId targetUserId sessionId : string) : obj :=
  [("iss", JStr (getIssuer realm)); ("sub", JStr targetUserId); ("aud", JStr (realm_name realm));
   ("typ", JStr "Bearer"); ("sid", JStr sessionId); ("act", JObj [("sub", JStr adminUserId)]);
   ("impersonated", JBool true)].

Definition impersonation_event (realm : Realm) (type targetUserId sessionId : string) (ip : option string) : M unit :=
  recordLoginEvent (mkEventParams (realm_id realm) (Some targetUserId) (Some sessionId) type None ip None).

Definition startImpersonation (realm : Realm) (adminUserId targetUserId : string) (ip : option string)
  : M ImpersonationTokenResponse :=
  (check_impersonation realm adminUserId targetUserId ;;;
   let maxDuration := realm_impersonationMaxDuration realm in
   now <- date_now ;;
   session <- create TSession (fun id createdAt =>
     mkSession id targetUserId ip None None [] createdAt (now + maxDuration * 1000)) ;;
   now <- date_now ;;
   impersonationSession <- create TImpersonationSession (fun id _ =>
     mkImpersonationSession id (realm_id realm) adminUserId targetUserId (session_id session) true
       (now + maxDuration * 1000) None) ;;
   signingKey <- getActiveSigningKey (realm_id realm) ;;
   accessToken <- signJwt (impersonation_payload realm adminUserId targetUserId (session_id session))
     (key_privateKey signingKey) (key_kid signingKey) maxDuration ;;
   rawRefreshToken <- generateSecret 64 ;;
   now <- date_now ;;
   create TRefreshToken (fun id createdAt =>
     mkRefreshToken id (session_id session) (sha256 rawRefreshToken) (Some "openid") false false None createdAt
       (now + maxDuration * 1000)) ;;;
   impersonation_event realm "IMPERSONATION_START" targetUserId (session_id session) ip ;;;
   recordAdminEvent (mkAdminEventParams (realm_id realm) adminUserId "CREATE" "IMPERSONATION"
     ("users/" +:+ targetUserId +:+ "/impersonate") ip) ;;;
   Ret (mkImpersonationResponse accessToken "Bearer" maxDuration rawRefreshToken (imp_id impersonationSession)))%prog.

Definition endImpersonation (realm : Realm) (impersonationSessionId adminUserId : string) (ip : option string)
  : M unit :=
  (impSession <- find_first TImpersonationSession (fun i => imp_id i === impersonationSessionId) ;;
   match impSession with
   | None => Throw (NotFound "Impersonation session not found")
   | Some i =>
       if imp_realmId i !== realm_id realm then Throw (NotFound "Impersonation session not found") else
       if imp_adminUserId i !== adminUserId
       then Throw (Forbidden "You do not own this impersonation session") else
       if negb (imp_active i) then Ret tt else
       update_many TRefreshToken (fun t => rt_sessionId t === imp_sessionId i) (set_revoked true) ;;;
       catch (delete_one TSession (fun s => session_id s === imp_sessionId i) ;;; Ret tt) (fun _ => Ret tt) ;;;
       now <- date_now ;;
       update TImpersonationSession (fun x => imp_id x === impersonationSessionId) (set_imp_ended now) ;;;
       impersonation_event realm "IMPERSONATION_END" (imp_targetUserId i) (imp_sessionId i) ip ;;;
       recordAdminEvent (mkAdminEventParams (realm_id realm) adminUserId "DELETE" "IMPERSONATION"
         ("impersonation/" +:+ impersonationSessionId +:+ "/end") ip)
   end)%prog.

(** ** The checks *)

(** What [check_impersonation] establishes. *)
Record may_impersonate (realm : Realm) (adminUserId targetUserId : string) (w : World) : Prop := {
  im_enabled : realm_impersonationEnabled realm = true;
  im_target : exists u, u ∈ rows TUser w /\ user_id u = targetUserId /\ user_realmId u = realm_id realm /\
    user_enabled u = true;
  im_admin : exists a, a ∈ rows TUser w /\ user_id a = adminUserId;
  im_not_key : starts_with "api-key:" adminUserId = false;
  im_other : adminUserId <> targetUserId
}.

Lemma run_check_impersonation_inr realm admin target w u w' :
  run (check_impersonation realm admin target) w = (inr u, w') -> w' = w /\ may_impersonate realm admin target w.
Proof.
  unfold check_impersonation, find_user. intros Hr.
  destruct (realm_impersonationEnabled realm) eqn:Hen; [|done]. simpl negb in Hr. cbv iota in Hr.
  apply run_bind_inr in Hr as (o & w1 & Hf & Hr). run_stmt_inv Hf. destruct o as [t|]; [|done].
  symmetry in Hf. apply find_elem in Hf as [Hin Hid%bool_decide_eq_true].
  destruct (bool_decide_reflect (user_realmId t = realm_id realm)); [|done].
  destruct (user_enabled t) eqn:Het; [|done]. simpl negb in Hr. cbv iota in Hr.
  destruct (starts_with "api-key:" admin) eqn:Hk; [done|].
  apply run_bind_inr in Hr as (o & w1 & Ha & Hr). run_stmt_inv Ha. destruct o as [a|]; [|done].
  symmetry in Ha. apply find_elem in Ha as [Hain Haid%bool_decide_eq_true].
  destruct (bool_decide_reflect (admin = target)); [done|]. injection Hr as _ <-.
  split; [done|]. constructor; try done; [by exists t | by exists a].
Qed.


Lemma run_startImpersonation_inr realm admin target ip w resp w' :
  run (startImpersonation realm admin target ip) w = (inr resp, w') ->
  may_impersonate realm admin target w /\
  im_expires_in resp = realm_impersonationMaxDuration realm /\
  exists s t i, s ∈ rows TSession w' /\ session_userId s = target /\
    session_expiresAt s = w_now w + realm_impersonationMaxDuration realm * 1000 /\
    rows TRefreshToken w' = rows TRefreshToken w ++ [t] /\
    (forall x, x ∈ rows TRefreshToken w -> rt_tokenHash x <> rt_tokenHash t) /\
    rt_tokenHash t = sha256 (im_refresh_token resp) /\ rt_sessionId t = session_id s /\ rt_clientId t = None /\
    i ∈ rows TImpersonationSession w' /\ imp_id i = im_session_id resp /\ imp_adminUserId i = admin /\
    imp_targetUserId i = target /\ imp_sessionId i = session_id s /\ imp_active i = true.
Proof.
  unfold startImpersonation. cbv zeta. intros Hr.
  apply run_bind_inr in Hr as (u & w1 & [-> Hmay]%run_check_impersonation_inr & Hr). split; [done|].
  apply run_bind_inr in Hr as (n1 & w1 & [-> ->]%run_atom_inr & Hr). cbn [fst snd] in Hr.
  apply run_bind_inr in Hr as (s & w2 & Hs & Hr). apply run_create_inr in Hs as (-> & -> & _ & _).
  apply run_bind_inr in Hr as (n2 & w2 & [-> ->]%run_atom_inr & Hr). cbn [fst snd] in Hr.
  apply run_bind_inr in Hr as (i & w2 & Hi & Hr). apply run_create_inr in Hi as (-> & -> & _ & _).
  set (s := mkSession _ _ _ _ _ _ _ _) in *. set (i := mkImpersonationSession _ _ _ _ _ _ _ _) in *.
  set (wa := with_rows TSession _ _) in *. set (wb := with_rows TImpersonationSession _ _) in *.
  apply run_bind_inr in Hr as (key & w2 & Hk & Hr). apply run_getActiveSigningKey_inr in Hk as [-> _].
  apply run_bind_inr in Hr as (at_ & w2 & Hj & Hr). apply (run_frame []) in Hj; [|apply signJwt_footprint].
  apply run_bind_inr in Hr as (raw & w3 & Hg & Hr). apply (run_frame []) in Hg; [|apply generateSecret_footprint].
  pose proof (transitivity Hj Hg) as [Hw3 _]. clear Hj Hg.
  apply run_bind_inr in Hr as (n3 & w4 & [-> ->]%run_atom_inr & Hr). cbn [fst snd] in Hr.
  apply run_bind_inr in Hr as (t & w4 & Ht & Hr). apply run_create_inr in Ht as (-> & -> & Hu & _).
  set (t := mkRefreshToken _ _ _ _ _ _ _ _ _) in *.
  apply run_bind_inr in Hr as (x1 & w5 & He1 & Hr). apply (run_frame [TLoginEvent; TAdminEvent]) in He1; [|by apply recordLoginEvent_footprint].
  apply run_bind_inr in Hr as (x2 & w6 & He2 & Hr). apply (run_frame [TLoginEvent; TAdminEvent]) in He2; [|by apply recordAdminEvent_footprint].
  pose proof (transitivity He1 He2) as [Hw6 _]. clear He1 He2.
  injection Hr as <- <-. cbn [im_expires_in im_refresh_token im_session_id]. split; [done|].
  assert (Htok3 : rows TRefreshToken w3 = rows TRefreshToken w).
  { rewrite Hw3 by apply not_elem_of_nil. unfold wb, wa. by rewrite !rows_with_rows_ne by done. }
  exists s, t, i. split_and!; try done.
  - rewrite Hw6 by set_solver. rewrite rows_with_rows_ne by done. change (s ∈ rows TSession w3).
    rewrite Hw3 by apply not_elem_of_nil. unfold wb. rewrite rows_with_rows_ne by done. change (s ∈ rows TSession wa).
    unfold wa. rewrite rows_with_rows_eq. set_solver.
  - rewrite Hw6 by set_solver. by rewrite rows_with_rows_eq, Htok3.
  - intros x Hx He. rewrite Htok3 in Hu. cbn [unique_ok] in Hu. apply negb_true_iff in Hu.
    enough (existsb (fun y => rt_tokenHash y === rt_tokenHash t) (rows TRefreshToken w) = true) by congruence.
    apply existsb_exists. exists x. split; [by apply list_elem_of_In|]. by apply bool_decide_eq_true.
  - rewrite Hw6 by set_solver. rewrite rows_with_rows_ne by done. change (i ∈ rows TImpersonationSession w3).
    rewrite Hw3 by apply not_elem_of_nil. unfold wb. rewrite rows_with_rows_eq. set_solver.
Qed.

(** Deleting a session, whether it succeeds or not, adds no refresh token. *)
Lemma delete_session_tokens p w t :
  t ∈ rows TRefreshToken (run (delete_one TSession p) w).2 -> t ∈ rows TRefreshToken w.
Proof.
  unfold delete_one. rewrite run_prisma. destruct (w_db_up w); [|done].
  destruct (List.find p (rows TSession w)) as [s|]; [|done]. unfold rows at 1. simpl. rewrite set_table_eq.
  by intros [_ Hin]%elem_of_filter_list.
Qed.

(** A refresh token without a client is refused, whoever presents it. *)
Lemma unbound_refresh_refused realm body ip w w' r raw t su :
  field "refresh_token" body = Some raw -> stored_token w (sha256 raw) = Some (t, su) -> rt_clientId t = None ->
  run (handleRefreshTokenGrant realm body ip) w <> (inr r, w').
Proof.
  intros Hraw Hst Hcl H. unfold handleRefreshTokenGrant in H. cbv zeta in H. rewrite Hraw in H.
  destruct (truthy (Some raw)); [|done]. simpl negb in H. cbv iota in H. simpl default in H.
  apply run_bind_inr in H as (client & w1 & Hv & H). apply run_validateClient_inr in Hv as [-> _].
  apply run_bind_inr in H as (o & w1 & Hq & H). run_stmt_inv Hq. rewrite Hst in Hq. subst o.
  apply run_bind_inr in H as (now & w1 & Hn & H). run_stmt_inv Hn.
  destruct (_ || _); [by apply reject_refresh_throws in H|]. rewrite Hcl in H. done.
Qed.
End Service.

(** Impersonation hands out tokens only where the realm allows it, for another, enabled
    user of that realm and an administrator that exists; the session and the tokens
    end when the realm's maximum duration does, the session is recorded under the
    administrator's name, and the refresh token can never be exchanged: the refresh
    grant refuses it, so impersonation does not outlive its access token. *)
Theorem startImpersonation_sound {E : Env} realm admin target ip w resp w' :
  run (startImpersonation realm admin target ip) w = (inr resp, w') ->
  may_impersonate realm admin target w /\ im_expires_in resp = realm_impersonationMaxDuration realm /\
  (exists s i, s ∈ rows TSession w' /\ session_userId s = target /\
     session_expiresAt s = w_now w + realm_impersonationMaxDuration realm * 1000 /\
     i ∈ rows TImpersonationSession w' /\ imp_id i = im_session_id resp /\ imp_adminUserId i = admin /\
     imp_sessionId i = session_id s /\ imp_active i = true) /\
  (forall realm' body ip' r w'', field "refresh_token" body = Some (im_refresh_token resp) ->
     run (handleRefreshTokenGrant realm' body ip') w' <> (inr r, w'')).
Proof.
  intros Hr. apply run_startImpersonation_inr in Hr as (Hmay & Hexp & s & t & i & Hs & Hsu & Hse & Hrows & Hnew & Hh & Hts & Hcl & Hi & Hii & Hia & _ & His & Hact).
  split; [done|]. split; [done|]. split; [by exists s, i|].
  intros realm' body ip' r w'' Hf.
  eapply (unbound_refresh_refused _ _ _ _ _ _ _ t); [exact Hf| |exact Hcl].
  unfold stored_token. rewrite Hrows, (find_app_last _ _ t).
  - reflexivity.
  - intros y Hy. apply bool_decide_eq_false. rewrite <- Hh. by apply Hnew.
  - by apply bool_decide_eq_true.
Qed.

(** Ending an impersonation revokes what it gave: afterwards no unrevoked refresh token
    of its session remains, and only the administrator who started it, in its realm,
    can end it. *)
Theorem endImpersonation_revokes {E : Env} realm id admin ip w w' :
  run (endImpersonation realm id admin ip) w = (inr tt, w') ->
  exists i, i ∈ rows TImpersonationSession w /\ imp_id i = id /\ imp_realmId i = realm_id realm /\
    imp_adminUserId i = admin /\
    (imp_active i = true -> forall t, t ∈ rows TRefreshToken w' -> rt_sessionId t = imp_sessionId i ->
       rt_revoked t = true).
Proof.
  unfold endImpersonation. intros Hr. apply run_bind_inr in Hr as (o & w1 & Hf & Hr). run_stmt_inv Hf.
  destruct o as [i|]; [|done]. symmetry in Hf. apply find_elem in Hf as [Hin Hid%bool_decide_eq_true].
  destruct (bool_decide_reflect (imp_realmId i = realm_id realm)); [|done].
  destruct (bool_decide_reflect (imp_adminUserId i = admin)); [|done]. simpl negb in Hr. cbv iota in Hr.
  exists i. do 4 (split; [done|]). intros Hact t Ht Hts. rewrite Hact in Hr. simpl negb in Hr. cbv iota in Hr.
  apply run_bind_inr in Hr as (n & w1 & Hu & Hr). apply run_update_many_inr in Hu as (_ & -> & _).
  apply run_bind_inr in Hr as (x & w2 & Hd & Hr). apply run_bind_inr in Hr as (now & w3 & [-> ->]%run_atom_inr & Hr).
  cbn [fst snd] in Hr. apply run_bind_inr in Hr as (i2 & w3 & Hup & Hr). apply run_update_inr in Hup as (i0 & _ & _ & -> & _).
  apply run_bind_inr in Hr as (x1 & w4 & He1 & Hr). apply (run_frame [TLoginEvent]) in He1; [|by apply recordLoginEvent_footprint].
  apply (run_frame [TAdminEvent]) in Hr; [|by apply recordAdminEvent_footprint].
  rewrite (proj1 Hr) in Ht by set_solver. rewrite (proj1 He1) in Ht by set_solver. rewrite rows_with_rows_ne in Ht by done.
  assert (Hw1 : forall t, t ∈ update_all (fun t => rt_sessionId t === imp_sessionId i) (set_revoked true) (rows TRefreshToken w) ->
            rt_sessionId t = imp_sessionId i -> rt_revoked t = true).
  { intros y Hy Hys. apply list_elem_of_fmap in Hy as (z & -> & _). case_bool_decide; done. }
  rewrite run_swallow in Hd. apply (f_equal snd) in Hd. cbn [snd] in Hd. rewrite <- Hd in Ht.
  apply delete_session_tokens in Ht. rewrite rows_with_rows_eq in Ht. by apply (Hw1 t).
Qed.

(** ** Witnesses *)

Definition admin_row : User :=
  mkUser "admin-1" "realm-0" "root" None false None None true None "argon2" None None None 0.
Definition imp_realm : Realm := realm0.
Definition imp_world : World :=
  with_rows TUser [user0; admin_row] (with_rows TRealmSigningKey [key0] (with_rows TRealm [realm0] world0)).
Definition start_run : (exc + ImpersonationTokenResponse) * World :=
  run (startImpersonation (E:=test_env) imp_realm "admin-1" "user-1" None) imp_world.

Example startImpersonation_sound_witness :
  exists resp w', start_run = (inr resp, w') /\ im_expires_in resp = 3600.
Proof.
  destruct (ends_ok_run (startImpersonation (E:=test_env) imp_realm "admin-1" "user-1" None) imp_world) as (resp & w' & H);
    [vm_compute; reflexivity|].
  exists resp, w'. split; [exact H|].
  exact (proj1 (proj2 (startImpersonation_sound (E:=test_env) _ _ _ _ _ _ _ H))).
Defined.

Example endImpersonation_revokes_witness :
  exists w', run (endImpersonation (E:=test_env) imp_realm "id-1" "admin-1" None) start_run.2 = (inr tt, w') /\
    exists i, i ∈ rows TImpersonationSession start_run.2 /\ imp_id i = "id-1".
Proof.
  destruct (ends_ok_run (endImpersonation (E:=test_env) imp_realm "id-1" "admin-1" None) start_run.2) as ([] & w' & H);
    [vm_compute; reflexivity|].
  exists w'. split; [exact H|].
  destruct (endImpersonation_revokes (E:=test_env) _ _ _ _ _ _ H) as (i & Hin & Hid & _). exists i. by split.
Defined.
