(* ===== verification/MagicLink.v ===== *)
(** * MagicLink: sign-in links by e-mail (src/src/magic-link/magic-link.service.ts)

    The rendering and the delivery of the message (EmailService, ThemeEmailService) are
    the parameter [mail], which gets the realm, the recipient and the link. *)

From S2P Require Import Prelude Prog JsText Json Schema Store StoreFacts Crypto Redis RateLimit OAuth Testbed.

Record MagicLinkRequestResult := mkRequestResult {
  mr_success : bool; mr_message : string; mr_rateLimit : option RateLimitResult
}.
Record MagicLinkValidateResult := mkValidateResult {
  mv_valid : bool; mv_error : option string; mv_userId : option string; mv_email : option string;
  mv_realmId : option string
}.

Definition refusal (message : string) : MagicLinkRequestResult := mkRequestResult false message None.
Definition invalid_link (error : string) : MagicLinkValidateResult := mkValidateResult false (Some error) None None None.

Definition appendToken (callback rawToken : string) : string :=
  let separator := match index_of "?" callback with Some _ => "&" | None => "?" end in
  callback +:+ separator +:+ "token=" +:+ rawToken.

(** The callback of the request: a registered one, or the first without a wildcard. *)
Definition resolve_callback (magicLinkUrl : option string) (redirectUris : list string) : string + string :=
  if truthy magicLinkUrl then
    if matchesRedirectUri (magicLinkUrl ?? EmptyString) redirectUris
    then inr (magicLinkUrl ?? EmptyString) else inl "Invalid magic link URL"
  else
    match List.find (fun u => negb (ends_with "/*" u)) redirectUris with
    | Some fallback =>
        if fallback === EmptyString
        then inl "Client has no usable redirect URI for the magic link callback" else inr fallback
    | None => inl "Client has no usable redirect URI for the magic link callback"
    end.

Definition set_ml_status (status : string) (r : MagicLinkRequest) : MagicLinkRequest :=
  mkMagicLinkRequest (ml_id r) (ml_realmId r) (ml_userId r) (ml_email r) (ml_tokenHash r) status (ml_ipAddress r)
    (ml_userAgent r) (ml_expiresAt r) (ml_createdAt r) (ml_completedAt r).
Definition set_ml_completed (at_ : Z) (r : MagicLinkRequest) : MagicLinkRequest :=
  mkMagicLinkRequest (ml_id r) (ml_realmId r) (ml_userId r) (ml_email r) (ml_tokenHash r) "COMPLETED" (ml_ipAddress r)
    (ml_userAgent r) (ml_expiresAt r) (ml_createdAt r) (Some at_).

Section Service.
Context {E : Env} (mail : Realm -> string -> string -> M unit).

Definition find_realm (realmId : string) : M (option Realm) := find_first TRealm (fun r => realm_id r === realmId).

Definition cancelPendingRequests (userId realmId : string) : M Z :=
  update_many TMagicLinkRequest
    (fun r => (ml_userId r === userId) && (ml_realmId r === realmId) && (ml_status r === "PENDING"))
    (set_ml_status "CANCELLED").

Definition cleanupExpiredRequests : M Z :=
  (now <- date_now ;;
   update_many TMagicLinkRequest (fun r => (ml_status r === "PENDING") && (ml_expiresAt r <? now))
     (set_ml_status "EXPIRED"))%prog.

(** Issue the link and mail it. *)
Definition send_link (realm : Realm) (user : User) (email callback : string) (ipAddress userAgent : option string)
  : M MagicLinkRequestResult :=
  (cancelPendingRequests (user_id user) (realm_id realm) ;;;
   rawToken <- generateSecret 32 ;;
   now <- date_now ;;
   create TMagicLinkRequest (fun id createdAt =>
     mkMagicLinkRequest id (realm_id realm) (user_id user) email (sha256 rawToken) "PENDING" ipAddress userAgent
       (now + realm_magicLinkExpirySeconds realm * 1000) createdAt None) ;;;
   fullRealm <- find_realm (realm_id realm) ;;
   match fullRealm with
   | None => Ret (refusal "Realm not found")
   | Some fullRealm =>
       mail fullRealm email (appendToken callback rawToken) ;;;
       Ret (mkRequestResult true "Magic link sent successfully" None)
   end)%prog.

(** From the rate limit on. *)
Definition request_for_user (realm : Realm) (email callback : string) (ipAddress userAgent : option string)
  : M MagicLinkRequestResult :=
  (let normalizedEmail := to_lower email in
   user <- find_first TUser (fun u => (user_realmId u === realm_id realm) &&
                               bool_decide (user_email u = Some normalizedEmail)) ;;
   match user with
   | None =>
       Ret (mkRequestResult true "If an account exists with this email, a magic link has been sent" None)
   | Some user =>
       if negb (user_enabled user) then Ret (refusal "User account is disabled") else
       now <- date_now ;;
       recentCount <- count TMagicLinkRequest (fun r =>
         (ml_realmId r === realm_id realm) && (ml_email r === normalizedEmail) &&
         (now - 900 * 1000 <=? ml_createdAt r)) ;;
       if realm_magicLinkRateLimitPerEmail realm <=? recentCount
       then Ret (refusal "Too many requests. Please try again later.")
       else send_link realm user normalizedEmail callback ipAddress userAgent
   end)%prog.

Definition requestMagicLink (email realmId clientId : string) (ipAddress userAgent magicLinkUrl : option string)
  : M MagicLinkRequestResult :=
  (realm <- find_realm realmId ;;
   match realm with
   | None => Ret (refusal "Realm not found")
   | Some realm =>
       if negb (realm_magicLinkEnabled realm)
       then Ret (refusal "Magic link authentication is not enabled for this realm") else
       client <- find_first TClient (fun c => (client_realmId c === realmId) && (client_clientId c === clientId)) ;;
       match client with
       | None => Ret (refusal "Invalid client")
       | Some client =>
           match resolve_callback magicLinkUrl (client_redirectUris client) with
           | inl message => Ret (refusal message)
           | inr callback =>
               if truthy ipAddress then
                 ipRateLimit <- checkIpLimit (ipAddress ?? EmptyString) realmId ;;
                 if negb (allowed ipRateLimit)
                 then Ret (mkRequestResult false "Too many requests. Please try again later." (Some ipRateLimit))
                 else request_for_user realm email callback ipAddress userAgent
               else request_for_user realm email callback ipAddress userAgent
           end
       end
   end)%prog.

(** ** Validation *)

(** The request of a token with its realm and its user. *)
Definition link_of (tokenHash : string) (w : World)
  : option (MagicLinkRequest * option Realm * option User) :=
  match List.find (fun r => ml_tokenHash r === tokenHash) (rows TMagicLinkRequest w) with
  | None => None
  | Some r => Some (r, List.find (fun x => realm_id x === ml_realmId r) (rows TRealm w),
                       List.find (fun u => user_id u === ml_userId r) (rows TUser w))
  end.

Definition validateMagicLink (rawToken : string) (realmName : option string) : M MagicLinkValidateResult :=
  (request <- query (link_of (sha256 rawToken)) ;;
   match request with
   | None => Ret (invalid_link "Invalid or expired token")
   | Some (request, Some realm, Some user) =>
       if negb (realm_magicLinkEnabled realm) then Ret (invalid_link "Magic link authentication is not enabled") else
       if truthy realmName && negb (bool_decide (Some (realm_name realm) = realmName))
       then Ret (invalid_link "Invalid realm") else
       if negb (user_enabled user) then Ret (invalid_link "User account is disabled") else
       if ml_status request === "COMPLETED" then Ret (invalid_link "This link has already been used") else
       if ml_status request === "CANCELLED" then Ret (invalid_link "This link has been cancelled") else
       now <- date_now ;;
       if ml_expiresAt request <? now then
         (if ml_status request === "PENDING"
          then update TMagicLinkRequest (fun r => ml_id r === ml_id request) (set_ml_status "EXPIRED") ;;; Ret tt
          else Ret tt) ;;;
         Ret (invalid_link "This link has expired")
       else if ml_status request !== "PENDING" then Ret (invalid_link "Invalid or expired token") else
       now <- date_now ;;
       update TMagicLinkRequest (fun r => ml_id r === ml_id request) (set_ml_completed now) ;;;
       Ret (mkValidateResult true None (Some (user_id user)) (user_email user) (Some (realm_id realm)))
   | Some _ => Throw (PlainError "TypeError")
   end)%prog.

(** ** What a valid link is *)

Lemma link_of_spec h w r realm user :
  link_of h w = Some (r, Some realm, Some user) ->
  r ∈ rows TMagicLinkRequest w /\ ml_tokenHash r = h /\ realm ∈ rows TRealm w /\ realm_id realm = ml_realmId r /\
  user ∈ rows TUser w /\ user_id user = ml_userId r.
Proof.
  unfold link_of. destruct (List.find (fun r => ml_tokenHash r === h) _) as [r0|] eqn:Hr; [|done].
  apply find_elem in Hr as [Hin Hh%bool_decide_eq_true]. intros [= <- Hre Hu].
  apply find_elem in Hre as [Hrin Hrid%bool_decide_eq_true], Hu as [Huin Huid%bool_decide_eq_true]. done.
Qed.

Lemma run_validateMagicLink_valid rawToken realmName w res w' :
  run (validateMagicLink rawToken realmName) w = (inr res, w') -> mv_valid res = true ->
  exists r realm user, link_of (sha256 rawToken) w = Some (r, Some realm, Some user) /\
    realm_magicLinkEnabled realm = true /\ user_enabled user = true /\ ml_status r = "PENDING" /\
    w_now w <= ml_expiresAt r /\ mv_userId res = Some (user_id user) /\ mv_realmId res = Some (realm_id realm) /\
    w' = with_rows TMagicLinkRequest
           (update_first (fun x => ml_id x === ml_id r) (set_ml_completed (w_now w)) (rows TMagicLinkRequest w)) w.
Proof.
  unfold validateMagicLink. intros Hr Hok. apply run_bind_inr in Hr as (o & w1 & Hq & Hr). run_stmt_inv Hq. subst o.
  destruct (link_of (sha256 rawToken) w) as [[[r [realm|]] [user|]]|]; try done; [|by injection Hr as <- <-].
  exists r, realm, user. split; [done|].
  destruct (realm_magicLinkEnabled realm) eqn:He; [|by injection Hr as <- <-]. simpl negb in Hr. cbv iota in Hr.
  destruct (truthy realmName && _); [by injection Hr as <- <-|].
  destruct (user_enabled user) eqn:Hu; [|by injection Hr as <- <-]. simpl negb in Hr. cbv iota in Hr.
  destruct (ml_status r === "COMPLETED"); [by injection Hr as <- <-|].
  destruct (ml_status r === "CANCELLED"); [by injection Hr as <- <-|].
  apply run_bind_inr in Hr as (now & w1 & [-> ->]%run_atom_inr & Hr). cbn [fst snd] in Hr.
  destruct (Z.ltb_spec (ml_expiresAt r) (w_now w)).
  { apply run_bind_inr in Hr as (x & w1 & _ & Hr). by injection Hr as <- <-. }
  destruct (bool_decide_reflect (ml_status r = "PENDING")); [|by injection Hr as <- <-]. simpl negb in Hr. cbv iota in Hr.
  apply run_bind_inr in Hr as (n & w1 & [-> ->]%run_atom_inr & Hr). cbn [fst snd] in Hr.
  apply run_bind_inr in Hr as (x & w1 & Hup & Hr). apply run_update_inr in Hup as (r0 & _ & _ & -> & _).
  by injection Hr as <- <-.
Qed.

(** The first row with a hash is found, completed, in the updated table. *)
Lemma completed_found h r rs at_ :
  NoDup (map ml_id rs) -> List.find (fun x => ml_tokenHash x === h) rs = Some r ->
  List.find (fun x => ml_tokenHash x === h) (update_first (fun x => ml_id x === ml_id r) (set_ml_completed at_) rs) =
    Some (set_ml_completed at_ r).
Proof.
  induction rs as [|x rs IH]; intros Hnd Hf; [done|]. simpl in *. apply NoDup_cons in Hnd as [Hx Hnd].
  destruct (bool_decide_reflect (ml_tokenHash x = h)) as [Hh|Hh].
  - injection Hf as ->. rewrite bool_decide_eq_true_2 by done. simpl. by rewrite bool_decide_eq_true_2.
  - rewrite bool_decide_eq_false_2; simpl.
    + rewrite bool_decide_eq_false_2 by done. by apply IH.
    + intros He. apply Hx. rewrite He. apply list_elem_of_fmap. exists r. split; [done|]. by apply find_elem in Hf as [? _].
Qed.
End Service.

(** A magic link works once: a validation succeeds only for a pending, unexpired link of
    a realm that has the feature on and an enabled user, and a second validation of
    the same token afterwards, at any later time and whatever else has changed, does not
    succeed as long as the row of the link is the one the first left. *)
Theorem validateMagicLink_once {E : Env} rawToken realmName w res w' :
  NoDup (map ml_id (rows TMagicLinkRequest w)) ->
  run (validateMagicLink rawToken realmName) w = (inr res, w') -> mv_valid res = true ->
  (exists r u, r ∈ rows TMagicLinkRequest w /\ ml_tokenHash r = sha256 rawToken /\ ml_status r = "PENDING" /\
     w_now w <= ml_expiresAt r /\ u ∈ rows TUser w /\ user_id u = ml_userId r /\ user_enabled u = true /\
     mv_userId res = Some (user_id u)) /\
  forall realmName' later res' w'', rows TMagicLinkRequest later = rows TMagicLinkRequest w' ->
    run (validateMagicLink rawToken realmName') later = (inr res', w'') -> mv_valid res' = false.
Proof.
  intros Hnd Hr Hok. apply run_validateMagicLink_valid in Hr as (r & realm & user & Hl & _ & Hen & Hp & Hexp & Hid & _ & ->); [|done].
  apply link_of_spec in Hl as Hs. destruct Hs as (Hin & Hh & _ & _ & Huin & Huid). split; [by exists r, user|].
  intros realmName' later res' w'' Hrows Hr2. destruct (mv_valid res') eqn:Hv; [|done].
  apply run_validateMagicLink_valid in Hr2 as (r2 & realm2 & user2 & Hl2 & _ & _ & Hp2 & _); [|done]. exfalso.
  unfold link_of in Hl, Hl2. rewrite Hrows, rows_with_rows_eq in Hl2.
  destruct (List.find (fun r => ml_tokenHash r === sha256 rawToken) (rows TMagicLinkRequest w)) as [r0|] eqn:Hf; [|done].
  injection Hl as -> _ _. rewrite (completed_found _ _ _ _ Hnd Hf) in Hl2. injection Hl2 as <- _ _. by simpl in Hp2.
Qed.

(** ** Witness, and the findings *)

Definition link_row : MagicLinkRequest :=
  mkMagicLinkRequest "ml-1" "realm-1" "user-1" "alice@acme.test" (to_hex "token-1") "PENDING" None None
    2000000000 900000000 None.
Definition link_realm : Realm := realm0.
Definition link_world : World :=
  with_rows TRealm [link_realm] (with_rows TUser [user0] (with_rows TMagicLinkRequest [link_row] world0)).

Example validateMagicLink_once_witness :
  exists res w', run (validateMagicLink (E:=test_env) "token-1" None) link_world = (inr res, w') /\
    mv_valid res = true /\
    forall res' w'', run (validateMagicLink (E:=test_env) "token-1" None) w' = (inr res', w'') -> mv_valid res' = false.
Proof.
  assert (H : exists res w', run (validateMagicLink (E:=test_env) "token-1" None) link_world = (inr res, w') /\
                mv_valid res = true) by (eexists _, _; vm_compute; split; reflexivity).
  destruct H as (res & w' & H & Hv). exists res, w'. split; [exact H|]. split; [exact Hv|].
  intros res' w''. apply (proj2 (validateMagicLink_once (E:=test_env) "token-1" None link_world res w'
    ltac:(repeat constructor; set_solver) H Hv) None w' res' w''). reflexivity.
Defined.

(** Two validations at the same time both find the link pending, and both succeed. *)
Theorem magic_link_race :
  let v := validateMagicLink (E:=test_env) "token-1" None in
  let pool := (schedule [0; 1; 0; 0; 0; 1; 1; 1]%nat (link_world, [v; v])).2 in
  map (fun p => match p with Ret r => mv_valid r | _ => false end) pool = [true; true].
Proof. vm_compute. done. Qed.

(** The answers to a request differ between an address with an account and one without,
    although the result object is meant to prevent information leakage. *)
Theorem request_reveals_accounts :
  let ask email := match (run (request_for_user (E:=test_env) (fun _ _ _ => Ret tt) link_realm email "https://app.example/cb"
                            None None) link_world).1 with
                   | inr r => mr_message r
                   | inl _ => EmptyString
                   end in
  ask "alice@acme.test" = "Magic link sent successfully" /\
  ask "nobody@acme.test" = "If an account exists with this email, a magic link has been sent".
Proof. vm_compute. done. Qed.
