(* ===== verification/Verification.v ===== *)
(** * Verification: single-use tokens sent by e-mail (src/src/verification/verification.service.ts)

    E-mail verification, password reset and forced password changes prove possession of
    a mailbox or of a sign-in step with a random token, of which only the hash is stored. *)

From S2P Require Import Prelude Prog Json Schema Store StoreFacts Crypto Testbed.

Section Service.
Context {E : Env}.

Definition createTokenWithHash (userId type : string) (expiresInSeconds : Z) (tokenHash : string) : M unit :=
  (delete_many TVerificationToken (fun t => (vt_userId t === userId) && (vt_type t === type)) ;;;
   now <- date_now ;;
   create TVerificationToken (fun id _ =>
     mkVerificationToken id tokenHash userId type (now + expiresInSeconds * 1000)) ;;;
   Ret tt)%prog.

Definition createToken (userId type : string) (expiresInSeconds : Z) : M string :=
  (delete_many TVerificationToken (fun t => (vt_userId t === userId) && (vt_type t === type)) ;;;
   rawToken <- generateSecret 32 ;;
   now <- date_now ;;
   create TVerificationToken (fun id _ =>
     mkVerificationToken id (sha256 rawToken) userId type (now + expiresInSeconds * 1000)) ;;;
   Ret rawToken)%prog.

Definition delete_token (record : VerificationToken) : M (Row TVerificationToken) :=
  delete_one TVerificationToken (fun t => vt_id t === vt_id record).

(** The clock is read only for a token of the right type. *)
Definition validateToken (rawToken type : string) : M (option string) :=
  (record <- find_first TVerificationToken (fun t => vt_tokenHash t === sha256 rawToken) ;;
   match record with
   | None => Ret None
   | Some record =>
       expired <- (if vt_type record !== type then Ret true
                   else now <- date_now ;; Ret (vt_expiresAt record <? now)) ;;
       delete_token record ;;;
       Ret (if expired : bool then None else Some (vt_userId record))
   end)%prog.

Lemma createToken_footprint ts userId type n :
  covers [TVerificationToken] ts = true -> stable (frame ts) (createToken userId type n).
Proof. intros H. apply (stable_frame_mono [TVerificationToken]); [done|]. unfold createToken, generateSecret. footprint. Qed.
Lemma createTokenWithHash_footprint ts userId type n h :
  covers [TVerificationToken] ts = true -> stable (frame ts) (createTokenWithHash userId type n h).
Proof. intros H. apply (stable_frame_mono [TVerificationToken]); [done|]. unfold createTokenWithHash. footprint. Qed.
Lemma validateToken_footprint ts rawToken type :
  covers [TVerificationToken] ts = true -> stable (frame ts) (validateToken rawToken type).
Proof. intros H. apply (stable_frame_mono [TVerificationToken]); [done|]. unfold validateToken, delete_token. footprint. Qed.
End Service.
#[export] Hint Resolve createToken_footprint createTokenWithHash_footprint validateToken_footprint : footprint.

(** ** What a validation that succeeds found *)

Section Facts.
Context {E : Env}.

Lemma run_validateToken_inr rawToken type w r w' :
  run (validateToken rawToken type) w = (inr r, w') ->
  match List.find (fun t => vt_tokenHash t === sha256 rawToken) (rows TVerificationToken w) with
  | None => r = None /\ w' = w
  | Some t =>
      (r = Some (vt_userId t) <-> vt_type t = type /\ w_now w <= vt_expiresAt t) /\
      (r = None \/ r = Some (vt_userId t)) /\
      w' = with_rows TVerificationToken
             (remove_first (fun x => vt_id x === vt_id t) (rows TVerificationToken w)) w
  end.
Proof.
  unfold validateToken. intros Hr. apply run_bind_inr in Hr as (o & w1 & Hf & Hr). run_stmt_inv Hf. subst o.
  destruct (List.find _ _) as [t|] eqn:Ht; [|by injection Hr as <- <-].
  apply run_bind_inr in Hr as (e & w1 & He & Hr).
  assert (w1 = w /\ (e = false <-> vt_type t = type /\ w_now w <= vt_expiresAt t)) as [-> Hiff].
  { destruct (bool_decide_reflect (vt_type t = type)) as [Hty|Hty]; simpl in He.
    - injection He as <- <-. split; [done|]. rewrite Z.ltb_ge. naive_solver.
    - injection He as <- <-. naive_solver. }
  apply run_bind_inr in Hr as (x & w1 & Hd & Hr). unfold delete_token in Hd. apply run_delete_one_inr in Hd as (_ & -> & _).
  injection Hr as <- <-. split; [|split; [|done]].
  - rewrite <- Hiff. destruct e; naive_solver.
  - destruct e; auto.
Qed.

(** A token is accepted only if it was issued for this purpose and has not expired, and
    it is then gone. *)
Theorem validateToken_sound rawToken type w userId w' :
  NoDup (map vt_id (rows TVerificationToken w)) -> NoDup (map vt_tokenHash (rows TVerificationToken w)) ->
  run (validateToken rawToken type) w = (inr (Some userId), w') ->
  (exists t, t ∈ rows TVerificationToken w /\ vt_tokenHash t = sha256 rawToken /\ vt_type t = type /\
     w_now w <= vt_expiresAt t /\ vt_userId t = userId) /\
  (forall t, t ∈ rows TVerificationToken w' -> vt_tokenHash t <> sha256 rawToken).
Proof.
  intros Hid Hh Hr. apply run_validateToken_inr in Hr.
  destruct (List.find _ _) as [t|] eqn:Hf; [|by destruct Hr].
  apply find_elem in Hf as [Hin Ht%bool_decide_eq_true]. destruct Hr as (Hiff & [?|[= ->]] & ->); [done|]. split.
  - exists t. naive_solver.
  - intros x Hx. rewrite rows_with_rows_eq in Hx. apply (removed_key vt_id _ _ _ Hid Hin) in Hx as [Hx Hne].
    intros He. apply Hne. f_equal. apply (NoDup_map_inj vt_tokenHash (rows TVerificationToken w)); [done..|congruence].
Qed.

Lemma find_unique_hash h rs t :
  NoDup (map vt_tokenHash rs) -> t ∈ rs -> vt_tokenHash t = h ->
  List.find (fun x => vt_tokenHash x === h) rs = Some t.
Proof.
  intros Hnd Hin Hh. destruct (find_from_elem (fun x => vt_tokenHash x === h) rs t Hin) as [y Hy].
  { by apply bool_decide_eq_true. }
  rewrite Hy. apply find_elem in Hy as [Hyin Hyh%bool_decide_eq_true]. f_equal.
  apply (NoDup_map_inj vt_tokenHash rs); [done..|congruence].
Qed.
End Facts.

(** ** Round trip *)

(** The token that [createToken] hands out is redeemable for the user it was made for,
    for its purpose, until its lifetime is over, whatever else changes in between as long
    as its row stays; and older tokens of the same purpose are void from then on. *)
Theorem token_roundtrip {E : Env} userId type secs w rawToken w' :
  run (createToken userId type secs) w = (inr rawToken, w') ->
  (forall t, t ∈ rows TVerificationToken w' -> vt_userId t = userId -> vt_type t = type ->
     vt_tokenHash t = sha256 rawToken) /\
  forall later, NoDup (map vt_tokenHash (rows TVerificationToken later)) -> w_db_up later = true ->
    (forall t, t ∈ rows TVerificationToken w' -> vt_tokenHash t = sha256 rawToken ->
       t ∈ rows TVerificationToken later) ->
    w_now later <= w_now w + secs * 1000 ->
    exists after, run (validateToken rawToken type) later = (inr (Some userId), after).
Proof.
  unfold createToken. intros Hr. apply run_bind_inr in Hr as (n & w1 & Hd & Hr). run_stmt_inv Hd.
  apply run_bind_inr in Hr as (raw & w1 & Hg & Hr). apply run_atom_inr in Hg as [-> ->].
  apply run_bind_inr in Hr as (now & w1 & Hn & Hr). apply run_atom_inr in Hn as [-> ->]. cbn [fst snd] in Hr.
  apply run_bind_inr in Hr as (t & w1 & Hc & Hr). run_stmt_inv Hc.
  injection Hr as Hraw <-. cbn [w_now next_draw with_tables] in *. rewrite Hraw in *.
  rewrite rows_with_rows_eq.
  set (t := mkVerificationToken (uuid (w_uuids w)) (sha256 rawToken) userId type (w_now w + secs * 1000)). split.
  - intros x Hx Hu Ht. apply elem_of_app in Hx as [Hx|Hx]; [|by apply list_elem_of_singleton in Hx as ->].
    exfalso. unfold rows in Hx. simpl in Hx. rewrite set_table_eq in Hx.
    apply elem_of_filter_list in Hx as [Hx _]. rewrite Hu, Ht, !bool_decide_eq_true_2 in Hx by done. done.
  - intros later Hnd Hup Hkeep Hnow.
    assert (Ht : List.find (fun x => vt_tokenHash x === sha256 rawToken) (rows TVerificationToken later) = Some t).
    { apply find_unique_hash; [done| |done]. apply Hkeep; [set_solver|done]. }
    unfold validateToken. rewrite run_bind, run_find_first by done. change (Row TVerificationToken) with VerificationToken.
    rewrite Ht. change (vt_type t) with type. rewrite bool_decide_eq_true_2 by done. simpl negb. cbv iota.
    rewrite run_bind. simpl (run (bind date_now _) _). cbv beta iota.
    rewrite (proj2 (Z.ltb_ge _ _)) by exact Hnow. rewrite run_bind. unfold delete_token, delete_one.
    rewrite run_prisma, Hup.
    destruct (find_from_elem (fun x : VerificationToken => vt_id x === vt_id t) (rows TVerificationToken later) t) as [y Hy].
    { by apply find_elem in Ht as [? _]. }
    { by apply bool_decide_eq_true. }
    change (Row TVerificationToken) with VerificationToken. rewrite Hy. by eexists.
Qed.
Example token_roundtrip_witness :
  exists raw w', run (createToken (E:=test_env) "user-1" "password_reset" 3600) world1 = (inr raw, w') /\
    exists after, run (validateToken (E:=test_env) raw "password_reset") (with_now (w_now world1 + 3600000) w') =
                    (inr (Some "user-1"), after).
Proof.
  destruct (ends_ok_run (createToken (E:=test_env) "user-1" "password_reset" 3600) world1) as (raw & w' & H);
    [vm_compute; reflexivity|].
  exists raw, w'. split; [exact H|].
  assert (Hw : rows TVerificationToken w' = [mkVerificationToken "id-0" (to_hex (to_hex (repeat_char 32 "A"%char))) "user-1" "password_reset" 1003600000] /\
               w_db_up w' = true).
  { change w' with (snd (@inr exc string raw, w')). rewrite <- H. vm_compute. split; reflexivity. }
  destruct Hw as [Hw Hup].
  apply (proj2 (token_roundtrip (E:=test_env) "user-1" "password_reset" 3600 world1 raw w' H)
           (with_now (w_now world1 + 3600000) w')).
  - change (rows TVerificationToken (with_now (w_now world1 + 3600000) w')) with (rows TVerificationToken w').
    rewrite Hw. apply (bool_decide_unpack (NoDup [to_hex (to_hex (repeat_char 32 "A"%char))])). vm_compute. exact I.
  - exact Hup.
  - intros t Ht _. exact Ht.
  - vm_compute. discriminate.
Defined.

(** ** Single use *)

Section SingleUse.
Context {E : Env}.
Variables rawToken rowId : string.

(** The token has one row, with a fixed id. *)
Definition token_row (rs : list VerificationToken) : Prop :=
  forall t, t ∈ rs -> (vt_tokenHash t = sha256 rawToken <-> vt_id t = rowId).
Definition live_token (t : VerificationToken) : nat := if vt_tokenHash t === sha256 rawToken then 1 else 0.
Notation live := (units TVerificationToken live_token).
Notation Inv := (fun w => token_row (rows TVerificationToken w)).

Lemma validateToken_claims type :
  claims live Inv (fun c r => bool_decide (is_Some r) = true -> c = true) false (validateToken rawToken type).
Proof.
  unfold validateToken. apply (claims_find_first TVerificationToken live_token token_row).
  { intros H. done. }
  intros t rs Hrs Hin Ht%bool_decide_eq_true. pose proof (proj1 (Hrs t Hin) Ht) as Hid.
  apply claims_bind_stable; [apply (units_keeps []); [done|footprint]|]. intros expired.
  apply (claims_delete_one TVerificationToken live_token token_row).
  - intros rs' H x Hx. apply H. by apply elem_of_remove_first in Hx.
  - intros x rs' Hrs' Hx Hp%bool_decide_eq_true. unfold live_token.
    rewrite (proj2 (Hrs' x Hx)) by (by rewrite Hp). by rewrite bool_decide_eq_true_2.
  - intros r rs' _ _ _. simpl. auto.
Qed.
End SingleUse.

(** C15. A token is redeemed at most once, however many requests present it at the same time
    and for whatever purposes. *)
Theorem token_single_use {E : Env} rawToken rowId env w w' (types : list string) pool :
  let Inv := fun w => token_row rawToken rowId (rows TVerificationToken w) in
  let live := units TVerificationToken (live_token rawToken) in
  (forall a b, env a b -> keeps live Inv a b) ->
  Inv w ->
  psteps env (w, map (validateToken rawToken) types) (w', pool) ->
  (winners (fun r => bool_decide (is_Some r)) pool <= live w)%nat.
Proof.
  intros Inv live Henv Hi Hs.
  refine (winners_bounded live Inv env Henv (fun r => bool_decide (is_Some r)) w w' _ pool Hi _ Hs).
  apply Forall_fmap, Forall_true. intros type. apply validateToken_claims.
Qed.

Definition token0 : VerificationToken :=
  mkVerificationToken "vt-1" (to_hex "raw-1") "user-1" "password_reset" 1003600000.
Definition token_world : World := with_rows TVerificationToken [token0] world1.

Example token_single_use_witness :
  let v := validateToken (E:=test_env) "raw-1" "password_reset" in
  let final := schedule [0; 1; 0; 1; 0; 1]%nat (token_world, [v; v]) in
  (winners (fun r => bool_decide (is_Some r)) final.2 <= 1)%nat /\
  winners (fun r => bool_decide (is_Some r)) final.2 = 1%nat.
Proof.
  split; [|vm_compute; reflexivity].
  refine (token_single_use (E:=test_env) "raw-1" "vt-1" (fun a b => a = b) token_world _
    ["password_reset"; "password_reset"] _ _ _ _).
  - intros a b ->. intros H. split; [exact H | apply le_n].
  - intros t Ht. assert (t = token0) as -> by (change (t ∈ [token0]) in Ht; apply list_elem_of_singleton in Ht; exact Ht).
    split; intros _; vm_compute; reflexivity.
  - rewrite <- surjective_pairing. apply schedule_psteps.
Defined.

(** A token presented for another purpose than its own is used up, although only
    expired ones are meant to be cleaned up: the user's reset link stops working. *)
Theorem wrong_purpose_consumes :
  let w := (run (validateToken (E:=test_env) "raw-1" "email_verification") token_world).2 in
  rows TVerificationToken w = [] /\
  (run (validateToken (E:=test_env) "raw-1" "password_reset") w).1 = inr None.
Proof. vm_compute. done. Qed.
