(* ===== verification/Webhooks.v ===== *)
(** * Webhooks: subscriptions, the event queue and test deliveries (src/src/webhooks/webhooks.service.ts)

    The HTTP client (SafeHttp) is the parameter [doHttpPost]: the url, the body and the
    signature of one request, and how it ended.  [hmac_digest] is Node's HMAC-SHA256 and
    [error_message] the text of an exception. *)

From S2P Require Import Prelude Prog JsText Json JsonText Schema Store StoreFacts Tenancy Crypto ServiceAccounts Testbed.

(** How one request ended: an answer, a refusal by the network guard, or an error. *)
Inductive post_result := Posted (statusCode : Z) (body : string) | Blocked (message : string) | Failed (message : string).

Record CreateWebhookDto := mkCreateWebhook {
  cw_url : string; cw_secret : string; cw_eventTypes : option (list string); cw_events : option (list string);
  cw_enabled : option bool; cw_description : option string
}.
Record UpdateWebhookDto := mkUpdateWebhook {
  uw_url : option string; uw_secret : option string; uw_enabled : option bool;
  uw_eventTypes : option (list string); uw_description : option string
}.

(** A webhook as the API returns it: the columns of [WEBHOOK_SELECT], and the secret once. *)
Record WebhookView := mkWebhookView {
  wv_id : string; wv_realmId : string; wv_url : string; wv_enabled : bool; wv_eventTypes : list string;
  wv_description : option string; wv_createdAt : Z; wv_secret : option string
}.
Definition webhook_view (secret : option string) (h : Webhook) : WebhookView :=
  mkWebhookView (wh_id h) (wh_realmId h) (wh_url h) (wh_enabled h) (wh_eventTypes h) (wh_description h)
    (wh_createdAt h) secret.

(** [data] of an update: [undefined] leaves a column as it is. *)
Definition set_webhook (url secret : option string) (enabled : option bool) (eventTypes : option (list string))
    (description : option string) (h : Webhook) : Webhook :=
  mkWebhook (wh_id h) (wh_realmId h) (url ?? wh_url h) (secret ?? wh_secret h) (enabled ?? wh_enabled h)
    (eventTypes ?? wh_eventTypes h) (match description with Some d => Some d | None => wh_description h end)
    (wh_createdAt h).

Definition set_delivery (statusCode : option Z) (response : option string) (success : bool) (attempts at_ : Z)
    (d : WebhookDelivery) : WebhookDelivery :=
  mkWebhookDelivery (wd_id d) (wd_webhookId d) (wd_eventType d) (wd_payload d)
    (match statusCode with Some c => Some c | None => wd_statusCode d end)
    (match response with Some r => Some r | None => wd_response d end) success attempts (Some at_) (wd_createdAt d).

Definition is_success (statusCode : Z) : bool := (200 <=? statusCode) && (statusCode <? 300).

Section Service.
Context {E : Env} (doHttpPost : string -> string -> string -> M post_result).
Context (hmac_digest : string -> string -> string) (error_message : exc -> string).

(** The delays between the attempts: a JSON array of non-negative numbers in the
    environment, or the default. *)
Definition RETRY_DELAYS_MS : list Z :=
  match process_env "WEBHOOK_RETRY_DELAYS_MS" with
  | Some raw =>
      match JSON_parse raw with
      | Some (JArr l) =>
          if forallb (fun n => match n with JNum n => 0 <=? n | _ => false end) l
          then map (fun n => match n with JNum n => n | _ => 0 end) l else [1000; 10000; 60000]
      | _ => [1000; 10000; 60000]
      end
  | None => [1000; 10000; 60000]
  end.

(** ** Subscriptions *)

Definition create (realm : Realm) (dto : CreateWebhookDto) : M WebhookView :=
  (encryptedSecret <- encrypt (cw_secret dto) ;;
   webhook <- Store.create TWebhook (fun id createdAt =>
     mkWebhook id (realm_id realm) (cw_url dto) encryptedSecret (cw_enabled dto ?? true)
       (match cw_eventTypes dto with Some l => l | None => cw_events dto ?? [] end) (cw_description dto) createdAt) ;;
   Ret (webhook_view (Some (cw_secret dto)) webhook))%prog.

Definition findAll (realm : Realm) : M (list WebhookView) :=
  (hooks <- find_many_asc TWebhook (fun h => wh_realmId h === realm_id realm) wh_createdAt ;;
   Ret (map (webhook_view None) hooks))%prog.

Definition of_realm (realm : Realm) (id : string) (h : Webhook) : bool :=
  (wh_id h === id) && (wh_realmId h === realm_id realm).
Definition not_found {A} (id : string) : M A := Throw (NotFound ("Webhook '" +:+ id +:+ "' not found")).

Definition findOne (realm : Realm) (id : string) : M WebhookView :=
  (webhook <- find_first TWebhook (of_realm realm id) ;;
   match webhook with
   | Some h => Ret (webhook_view None h)
   | None => not_found id
   end)%prog.

Definition update (realm : Realm) (id : string) (dto : UpdateWebhookDto) : M WebhookView :=
  (findOne realm id ;;;
   secret <- match uw_secret dto with
             | Some s => (c <- encrypt s ;; Ret (Some c))
             | None => Ret None
             end ;;
   updated <- Store.update TWebhook (fun h => wh_id h === id)
     (set_webhook (uw_url dto) secret (uw_enabled dto) (uw_eventTypes dto) (uw_description dto)) ;;
   Ret (webhook_view (uw_secret dto) updated))%prog.

Definition remove (realm : Realm) (id : string) : M unit :=
  (findOne realm id ;;;
   delete_one TWebhook (fun h => wh_id h === id) ;;;
   Ret tt)%prog.

Definition findDeliveries (realm : Realm) (webhookId : string) : M (list WebhookDelivery) :=
  (findOne realm webhookId ;;;
   deliveries <- find_many_desc TWebhookDelivery (fun d => wd_webhookId d === webhookId) wd_createdAt ;;
   Ret (take 100 deliveries))%prog.

(** ** The queue *)

(** [{ eventType, timestamp, realmId, ...payload }]. *)
Definition full_payload (realmId eventType : string) (now : Z) (payload : obj) : obj :=
  spread [("eventType", JStr eventType); ("timestamp", JStr (to_iso now)); ("realmId", JStr realmId)] payload.

(** The defaults of the columns: PENDING, no attempts of four, due at once. *)
Definition dispatchEvent (realmId eventType : string) (payload : obj) : M unit :=
  (now <- date_now ;;
   catch (Store.create TWebhookEvent (fun id createdAt =>
            mkWebhookEvent id realmId eventType (full_payload realmId eventType now payload) "PENDING" 0 4 createdAt None) ;;;
          Ret tt)
         (fun _ => Ret tt))%prog.

(** ** Delivery with retries *)

Definition signPayload (secret body : string) : string := "sha256=" +:+ to_hex (hmac_digest secret body).

(** [sleep]: time passes. *)
Definition sleep (ms : Z) : M unit := atom (fun w => (tt, with_now (w_now w + ms) w)).

Definition update_delivery (id : string) (f : WebhookDelivery -> WebhookDelivery) : M unit :=
  (Store.update TWebhookDelivery (fun d => wd_id d === id) f ;;; Ret tt)%prog.

(** How one attempt ended for the loop. *)
Inductive attempt_end := Delivered | Retry (lastError : string) | Stop (lastError : string).

Definition attempt_delivery (url body signature deliveryId : string) (attempt : Z) : M attempt_end :=
  catch
    (response <- doHttpPost url body signature ;;
     match response with
     | Posted code text =>
         now <- date_now ;;
         update_delivery deliveryId
           (set_delivery (Some code) (Some (str_take 2000 text)) (is_success code) (attempt + 1) now) ;;;
         Ret (if is_success code then Delivered else Retry ("HTTP " +:+ to_base 10 code))
     | Blocked m => Ret (Stop m)
     | Failed m => Ret (Retry m)
     end)%prog
    (fun e => Ret (Retry (error_message e))).

(** The loop: the attempts made, and the last error unless the last one succeeded. *)
Fixpoint delivery_loop (url body signature deliveryId : string) (attempt : Z) (delays : list Z) : M (Z * option string) :=
  (r <- attempt_delivery url body signature deliveryId attempt ;;
   match r with
   | Delivered => Ret (attempt + 1, None)
   | Stop m => Ret (attempt + 1, Some m)
   | Retry m =>
       match delays with
       | [] => Ret (attempt + 1, Some m)
       | d :: delays' => sleep d ;;; delivery_loop url body signature deliveryId (attempt + 1) delays'
       end
   end)%prog.

(** [deliverWebhook]: true when a receiver accepted, with the attempts made. *)
Definition deliverWebhook (webhook : Webhook) (eventType : string) (payload : obj) : M (bool * Z) :=
  (plaintextSecret <- decrypt (wh_secret webhook) ;;
   let body := JSON_stringify (JObj payload) in
   let signature := signPayload plaintextSecret body in
   delivery <- Store.create TWebhookDelivery (fun id createdAt =>
     mkWebhookDelivery id (wh_id webhook) eventType payload None None false 0 None createdAt) ;;
   r <- delivery_loop (wh_url webhook) body signature (wd_id delivery) 0 RETRY_DELAYS_MS ;;
   match r with
   | (attempts, None) => Ret (true, attempts)
   | (attempts, Some lastError) =>
       now <- date_now ;;
       update_delivery (wd_id delivery) (set_delivery None (Some (str_take 2000 lastError)) false attempts now) ;;;
       Ret (false, attempts)
   end)%prog.

Definition test_payload (realm : Realm) (id : string) (now : Z) : obj :=
  [("eventType", JStr "webhook.test"); ("timestamp", JStr (to_iso now)); ("realmId", JStr (realm_id realm));
   ("webhookId", JStr id); ("test", JBool true)].

(** The delivery runs after the answer; its failure is only logged. *)
Definition testWebhook (realm : Realm) (id : string) : M unit :=
  (findOne realm id ;;;
   rawWebhook <- find_first TWebhook (of_realm realm id) ;;
   match rawWebhook with
   | None => not_found id
   | Some webhook =>
       now <- date_now ;;
       catch (deliverWebhook webhook "webhook.test" (test_payload realm id now) ;;; Ret tt) (fun _ => Ret tt)
   end)%prog.

(** Enqueuing never fails, and writes the queue only. *)
Lemma dispatchEvent_footprint ts realmId type payload :
  covers [TWebhookEvent] ts = true -> stable (frame ts) (dispatchEvent realmId type payload).
Proof. intros H. apply (stable_frame_mono [TWebhookEvent]); [done|]. unfold dispatchEvent. footprint. Qed.
End Service.
#[export] Hint Resolve dispatchEvent_footprint : footprint.

(** ** One realm's webhooks *)

Section Isolation.
Context {E : Env} (realm : Realm).
Notation confined := (confined TWebhook (realm_id realm)).

(** After [findOne], the row with the id is one of the realm. *)
Lemma confined_findOne {B} o id (k : WebhookView -> M B) :
  (forall h, wh_id h = id -> wh_realmId h = realm_id realm -> confined (Some h) (k (webhook_view None h))) ->
  confined o (bind (findOne realm id) k).
Proof.
  intros Hk w r w' Hnd Ho. unfold findOne. rewrite (bind_assoc (find_first TWebhook _) _ k w).
  apply (confined_find TWebhook (realm_id realm) o); [by apply confined_throw| |done|done].
  intros h [Hi Hr]%owned_guard. by apply Hk.
Qed.

Lemma update_confined id dto : confined None (update realm id dto).
Proof.
  unfold update. apply confined_findOne. intros h <- Hr. apply (confined_bind_frame TWebhook (realm_id realm) []); [|done|].
  { destruct (uw_secret dto); footprint. }
  intros s. apply (confined_bind_last TWebhook (realm_id realm) []); [|intros; footprint|done].
  by apply (confined_update TWebhook (realm_id realm) h).
Qed.

Lemma remove_confined id : confined None (remove realm id).
Proof.
  unfold remove. apply confined_findOne. intros h <- Hr.
  apply (confined_bind_last TWebhook (realm_id realm) []); [|intros; footprint|done].
  by apply (confined_delete TWebhook (realm_id realm) h).
Qed.

Lemma create_confined dto : confined None (create realm dto).
Proof.
  unfold create. apply (confined_bind_frame TWebhook (realm_id realm) []); [footprint|done|]. intros secret.
  apply (confined_bind_last TWebhook (realm_id realm) []); [|intros; footprint|done].
  by apply confined_create.
Qed.
End Isolation.

(** An administrator of one realm reaches no webhook of another: creating, updating and
    removing leave the rows of other realms as they are, however they end. *)
Theorem webhooks_isolated {E : Env} realm id dto new w :
  NoDup (map wh_id (rows TWebhook w)) ->
  others_same TWebhook (realm_id realm) w (run (create realm new) w).2 /\
  others_same TWebhook (realm_id realm) w (run (update realm id dto) w).2 /\
  others_same TWebhook (realm_id realm) w (run (remove realm id) w).2.
Proof.
  intros Hnd. split; [|split].
  - destruct (run (create realm new) w) as [r w'] eqn:Hr. by apply (create_confined realm new w r w' Hnd).
  - destruct (run (update realm id dto) w) as [r w'] eqn:Hr. by apply (update_confined realm id dto w r w' Hnd).
  - destruct (run (remove realm id) w) as [r w'] eqn:Hr. by apply (remove_confined realm id w r w' Hnd).
Qed.

(** The loop ends: at most one attempt more than there are delays, and all of them when
    no attempt succeeded or was refused by the network guard. *)
Lemma delivery_attempts {E : Env} post message url body signature id delays n w r w' :
  run (delivery_loop post message url body signature id n delays) w = (r, w') ->
  exists attempts err, r = inr (attempts, err) /\ n + 1 <= attempts <= n + 1 + Z.of_nat (length delays).
Proof.
  revert n w. induction delays as [|d delays IH]; intros n w; cbn [delivery_loop]; rewrite run_bind;
    unfold attempt_delivery at 1; rewrite run_catch.
  - destruct (run _ w) as [[e|[|m|m]] w1]; simpl; intros [= <- <-]; eexists _, _; (split; [reflexivity|]); lia.
  - destruct (run _ w) as [[e|[|m|m]] w1]; try (simpl; intros [= <- <-]; eexists _, _; (split; [reflexivity|]); simpl; lia);
      cbn [run]; rewrite run_bind; cbn [run sleep atom fst snd];
      intros Hr; destruct (IH _ _ Hr) as (a & err & -> & Ha); exists a, err; (split; [done|]); simpl; lia.
Qed.
