(* ===== verification/WebhookScheduler.v ===== *)
(** * WebhookScheduler: delivering the queued events (src/src/webhooks/webhook-scheduler.service.ts)

    One tick of the scheduler takes the events that are due, marks them and processes
    each of them; the deliveries that the code starts together run one after the other
    here, in the order of the list. *)

From S2P Require Import Prelude Prog JsText Json JsonText Schema Store StoreFacts Crypto Webhooks Testbed.

Definition RETRY_DELAYS_MS : list Z := [1000; 10000; 60000; 600000].
Definition MAX_ATTEMPTS : Z := Z.of_nat (length RETRY_DELAYS_MS) + 1.
Definition BATCH_SIZE : nat := 50.

Definition set_event (status : string) (attempts : Z) (nextRetryAt : option Z) (lastError : option (option string))
    (e : WebhookEvent) : WebhookEvent :=
  mkWebhookEvent (we_id e) (we_realmId e) (we_eventType e) (we_payload e) status attempts (we_maxAttempts e)
    (nextRetryAt ?? we_nextRetryAt e) (lastError ?? we_lastError e).

Definition retryable (e : WebhookEvent) : bool := includes (we_status e) ["PENDING"; "FAILED"].
Definition due (now : Z) (e : WebhookEvent) : bool :=
  retryable e && (we_nextRetryAt e <=? now) && (we_attempts e <? MAX_ATTEMPTS).

Section Scheduler.
Context {E : Env} (doHttpPost : string -> string -> string -> M post_result).
Context (hmac_digest : string -> string -> string) (error_message : exc -> string).

(** The result of a promise that [allSettled] waits for. *)
Definition settle {A} (p : M A) : M (exc + A) := (catch (a <- p ;; Ret (inr a)) (fun e => Ret (inl e)))%prog.
Fixpoint all_settled {A B} (f : A -> M B) (l : list A) : M (list (exc + B)) :=
  match l with
  | [] => Ret []
  | x :: l' => (r <- settle (f x) ;; rs <- all_settled f l' ;; Ret (r :: rs))%prog
  end.

Definition update_event (id : string) (f : WebhookEvent -> WebhookEvent) : M unit :=
  (Store.update TWebhookEvent (fun e => we_id e === id) f ;;; Ret tt)%prog.

(** [doHttpPost] throws the refusals and errors; an answer that is no success is thrown
    after it was recorded, and recorded once more by the handler. *)
Definition deliverToWebhook (webhook : Webhook) (eventType body : string) (payload : obj) : M unit :=
  (plaintextSecret <- decrypt (wh_secret webhook) ;;
   let signature := signPayload hmac_digest plaintextSecret body in
   delivery <- Store.create TWebhookDelivery (fun id createdAt =>
     mkWebhookDelivery id (wh_id webhook) eventType payload None None false 0 None createdAt) ;;
   catch
     (response <- doHttpPost (wh_url webhook) body signature ;;
      match response with
      | Posted code text =>
          now <- date_now ;;
          update_delivery (wd_id delivery) (set_delivery (Some code) (Some (str_take 2000 text)) (is_success code) 1 now) ;;;
          if is_success code then Ret tt else Throw (PlainError ("HTTP " +:+ to_base 10 code))
      | Blocked m | Failed m => Throw (PlainError m)
      end)
     (fun err =>
      now <- date_now ;;
      update_delivery (wd_id delivery) (set_delivery None (Some (str_take 2000 (error_message err))) false 1 now) ;;;
      Throw err))%prog.

Definition rejections (rs : list (exc + unit)) : list exc :=
  omap (fun r => match r with inl e => Some e | inr _ => None end) rs.

(** The time of the next attempt after [n] attempts, unless that was the last. *)
Definition retry_delay (maxAttempts n : Z) : option Z :=
  if (0 <? maxAttempts - n) && (n <=? Z.of_nat (length RETRY_DELAYS_MS))
  then Some (default 600000 (RETRY_DELAYS_MS !! Z.to_nat (n - 1))) else None.

Definition subscribed (event : WebhookEvent) (h : Webhook) : bool :=
  (wh_realmId h === we_realmId event) && wh_enabled h && includes (we_eventType event) (wh_eventTypes h).

(** [event] is the row as the tick read it. *)
Definition processEvent (event : WebhookEvent) : M unit :=
  (webhooks <- find_many TWebhook (subscribed event) ;;
   match webhooks with
   | [] => update_event (we_id event) (fun e => set_event "DELIVERED" (we_attempts e) None None e)
   | _ =>
       let body := JSON_stringify (JObj (we_payload event)) in
       let newAttemptCount := we_attempts event + 1 in
       results <- all_settled (fun h => deliverToWebhook h (we_eventType event) body (we_payload event)) webhooks ;;
       match rejections results with
       | [] => update_event (we_id event) (set_event "DELIVERED" newAttemptCount None None)
       | errors =>
           let firstError := str_take 2000 (js_join "; " (map error_message errors)) in
           match retry_delay (we_maxAttempts event) newAttemptCount with
           | Some delayMs =>
               now <- date_now ;;
               update_event (we_id event)
                 (set_event "FAILED" newAttemptCount (Some (now + delayMs)) (Some (Some firstError)))
           | None =>
               update_event (we_id event) (set_event "FAILED" newAttemptCount None (Some (Some firstError)))
           end
       end
   end)%prog.

Definition mark_processing (e : WebhookEvent) : WebhookEvent := set_event "PROCESSING" (we_attempts e) None None e.

Definition processQueue : M unit :=
  (now <- date_now ;;
   queued <- find_many_asc TWebhookEvent (due now) we_nextRetryAt ;;
   let events := take BATCH_SIZE queued in
   match events with
   | [] => Ret tt
   | _ =>
       update_many TWebhookEvent (fun e => includes (we_id e) (map we_id events) && retryable e) mark_processing ;;;
       all_settled processEvent events ;;;
       Ret tt
   end)%prog.
End Scheduler.

(** ** One event *)

Section Facts.
Context {E : Env} (doHttpPost : string -> string -> string -> M post_result).
Context (hmac_digest : string -> string -> string) (error_message : exc -> string).

(** The HTTP client does not write to the database. *)
Hypothesis post_footprint : forall url body signature, stable (frame []) (doHttpPost url body signature).

Notation processEvent := (processEvent doHttpPost hmac_digest error_message).
Notation processQueue := (processQueue doHttpPost hmac_digest error_message).
Notation deliverToWebhook := (deliverToWebhook doHttpPost hmac_digest error_message).

Lemma update_delivery_footprint id f : stable (frame [TWebhookDelivery]) (update_delivery id f).
Proof. unfold update_delivery. footprint. Qed.

Lemma deliverToWebhook_footprint h type body payload :
  stable (frame [TWebhookDelivery]) (deliverToWebhook h type body payload).
Proof.
  pose proof update_delivery_footprint as Hu.
  assert (Hp : forall u b s, stable (frame [TWebhookDelivery]) (doHttpPost u b s)).
  { intros u b s. by apply (stable_frame_mono []). }
  unfold WebhookScheduler.deliverToWebhook. footprint; eauto.
Qed.

Lemma run_settle {A} (p : M A) w : exists r, run (settle p) w = (inr r, (run p w).2).
Proof. unfold settle. rewrite run_catch, run_bind. destruct (run p w) as [[e|a] w']; by eexists. Qed.
Lemma settle_footprint {A} ts (p : M A) : stable (frame ts) p -> stable (frame ts) (settle p).
Proof. intros H. unfold settle. apply stable_catch; [|done]. by apply stable_bind. Qed.

Lemma all_settled_footprint {A B} ts (f : A -> M B) l :
  (forall x, stable (frame ts) (f x)) -> stable (frame ts) (all_settled f l).
Proof.
  intros Hf. induction l as [|x l IH]; simpl; [done|].
  apply stable_bind; [by apply settle_footprint|]. intros r. by apply stable_bind.
Qed.
Lemma run_all_settled {A B} (f : A -> M B) l w : exists rs w', run (all_settled f l) w = (inr rs, w').
Proof.
  revert w. induction l as [|x l IH]; intros w; simpl; [by eexists _, _|].
  rewrite run_bind. destruct (run_settle (f x) w) as [r ->]. rewrite run_bind.
  destruct (IH (run (f x) w).2) as (rs & w' & ->). by eexists _, _.
Qed.

(** The row of an event. *)
Definition row_at (id : string) (w : World) : option WebhookEvent :=
  List.find (fun x : WebhookEvent => we_id x === id) (rows TWebhookEvent w).

(** The events that may still be sent, and how many there are: settled events stay in the
    table and do not count. *)
Definition open (e : WebhookEvent) : bool := retryable e && (we_attempts e <? MAX_ATTEMPTS).
Definition backlog (w : World) : nat := length (List.filter open (rows TWebhookEvent w)).

Lemma due_open now e : due now e = true -> open e = true.
Proof. unfold due, open. rewrite !andb_true_iff. tauto. Qed.
(** What a processed row may become. *)
Definition finished (now : Z) (event e' : WebhookEvent) : Prop :=
  we_id e' = we_id event /\
  (we_status e' = "DELIVERED" \/
   we_status e' = "FAILED" /\ we_attempts e' = we_attempts event + 1 /\
   we_nextRetryAt e' <= Z.max now (we_nextRetryAt event) + 600000).

Lemma retry_delay_bound m n d : retry_delay m n = Some d -> d <= 600000.
Proof.
  unfold retry_delay. destruct (_ && _); [|done]. intros [= <-].
  destruct (Z.to_nat (n - 1)) as [|[|[|[|k]]]]; simpl; lia.
Qed.

Record same_queue (w w' : World) : Prop := {
  sq_up : w_db_up w = true -> w_db_up w' = true;
  sq_now : w_now w' = w_now w;
  sq_ids : map we_id (rows TWebhookEvent w') = map we_id (rows TWebhookEvent w)
}.
#[local] Instance same_queue_preorder : PreOrder same_queue.
Proof. split; [by split|]. intros a b c [H1 H2 H3] [K1 K2 K3]. split; [auto|congruence|congruence]. Qed.

Lemma update_ids p f (rs : list WebhookEvent) :
  (forall e, we_id (f e) = we_id e) -> map we_id (update_first p f rs) = map we_id rs.
Proof. intros Hf. induction rs as [|x rs IH]; simpl; [done|]. destruct (p x); simpl; by rewrite ?Hf, ?IH. Qed.

(** An update by id: it finds the row, and only that row changes. *)
Lemma run_update_event id f x w :
  w_db_up w = true -> row_at id w = Some x -> (forall e, we_id (f e) = we_id e) ->
  exists w', run (update_event id f) w = (inr tt, w') /\ same_queue w w' /\ row_at id w' = Some (f x) /\
    forall id', id' <> id -> row_at id' w' = row_at id' w.
Proof.
  intros Hup Hx Hf. unfold update_event. rewrite run_bind.
  pose proof (run_update TWebhookEvent (fun e => we_id e === id) f w x Hup Hx) as Hr. rewrite Hr.
  eexists. split; [reflexivity|]. split; [|split].
  - split; [done|done|]. rewrite rows_with_rows_eq. by apply update_ids.
  - unfold row_at. rewrite rows_with_rows_eq. apply find_update_first; [done|].
    apply find_elem in Hx as [_ Hx%bool_decide_eq_true]. rewrite Hf. by apply bool_decide_eq_true.
  - intros id' Hne. unfold row_at. rewrite rows_with_rows_eq.
    apply find_update_first_ne; intros e He%bool_decide_eq_true; rewrite ?Hf, He; by apply bool_decide_eq_false.
Qed.

Lemma run_processEvent event x w :
  w_db_up w = true -> row_at (we_id event) w = Some x -> we_nextRetryAt x <= we_nextRetryAt event ->
  exists w' e', run (processEvent event) w = (inr tt, w') /\ same_queue w w' /\
    row_at (we_id event) w' = Some e' /\ finished (w_now w) event e' /\
    forall id, id <> we_id event -> row_at id w' = row_at id w.
Proof.
  intros Hup Hx Hnext. assert (Hid : we_id x = we_id event) by by apply find_elem in Hx as [_ ?%bool_decide_eq_true].
  unfold WebhookScheduler.processEvent. rewrite run_bind, run_find_many by done.
  destruct (List.filter (A:=Row TWebhook) (subscribed event) (rows TWebhook w)) as [|h hooks].
  { destruct (run_update_event (we_id event) (fun e => set_event "DELIVERED" (we_attempts e) None None e) x w)
      as (w' & -> & Hq & Hr & Ho); [done..|]. eexists _, _. repeat (split; [done|]). split; [|done].
    split; [done|]. by left. }
  set (deliveries := all_settled _ _). rewrite run_bind.
  destruct (run_all_settled (fun h => deliverToWebhook h (we_eventType event)
    (JSON_stringify (JObj (we_payload event))) (we_payload event)) (h :: hooks) w) as (rs & w1 & Hrs).
  assert (Hfr : frame [TWebhookDelivery] w w1).
  { eapply run_frame; [|exact Hrs]. apply all_settled_footprint. intros y. apply deliverToWebhook_footprint. }
  assert (Hrows : rows TWebhookEvent w1 = rows TWebhookEvent w) by by apply (frame_rows _ _ _ _ Hfr).
  destruct Hfr as (_ & Hnow & Hup1 & _). rewrite Hup in Hup1.
  assert (Hq1 : same_queue w w1) by (split; [done|done|by rewrite Hrows]).
  assert (Hx1 : row_at (we_id event) w1 = Some x) by (unfold row_at; by rewrite Hrows).
  assert (Hsame : forall id, row_at id w1 = row_at id w) by (intros id; unfold row_at; by rewrite Hrows).
  subst deliveries. rewrite Hrs. cbv beta iota zeta.
  assert (Hfin : forall f, (forall e, we_id (f e) = we_id e) -> finished (w_now w) event (f x) ->
    exists w' e', run (update_event (we_id event) f) w1 = (inr tt, w') /\ same_queue w w' /\
      row_at (we_id event) w' = Some e' /\ finished (w_now w) event e' /\
      forall id, id <> we_id event -> row_at id w' = row_at id w).
  { intros f Hf Hfx. destruct (run_update_event (we_id event) f x w1) as (w' & -> & Hq & Hr & Ho); [done..|].
    exists w', (f x). split; [done|]. split; [by etransitivity|]. repeat (split; [done|]).
    intros id Hne. by rewrite Ho, Hsame. }
  destruct (rejections rs) as [|e0 errors]; [apply Hfin; [done|]; split; [done|by left]|].
  destruct (retry_delay _ _) as [d|] eqn:Hd.
  - rewrite run_bind. simpl (run date_now w1). cbv beta iota. apply Hfin; [done|]. split; [done|]. right.
    apply retry_delay_bound in Hd. simpl. split; [done|]. split; [done|]. lia.
  - apply Hfin; [done|]. split; [done|]. right. simpl. split; [done|]. split; [done|]. lia.
Qed.

(** The events of a tick, one after the other: each row is finished by its own
    processing, and no other row changes. *)
Lemma run_process_events events w :
  w_db_up w = true -> NoDup (map we_id events) ->
  (forall e, e ∈ events -> exists x, row_at (we_id e) w = Some x /\ we_nextRetryAt x <= we_nextRetryAt e) ->
  exists rs w', run (all_settled processEvent events) w = (inr rs, w') /\ same_queue w w' /\
    (forall e, e ∈ events -> exists e', row_at (we_id e) w' = Some e' /\ finished (w_now w) e e') /\
    (forall id, id ∉ map we_id events -> row_at id w' = row_at id w).
Proof.
  revert w. induction events as [|e events IH]; intros w Hup Hnd Hrow.
  { exists [], w. split; [done|]. split; [reflexivity|]. split; [|done]. intros e He. by apply not_elem_of_nil in He. }
  simpl in Hnd. apply NoDup_cons in Hnd as [Hne Hnd].
  destruct (Hrow e) as (x & Hx & Hnext); [set_solver|].
  destruct (run_processEvent e x w Hup Hx Hnext) as (w1 & e' & Hr & Hq & He' & Hfin & Hoth).
  assert (Hne' : forall e2, e2 ∈ events -> we_id e2 <> we_id e).
  { intros e2 He2 Heq. apply Hne. rewrite <- Heq. by apply list_elem_of_fmap_2. }
  destruct (IH w1) as (rs & w2 & Hrs & Hq2 & Hall & Hrest); [by apply Hq|done|..].
  { intros e2 He2. rewrite Hoth by auto. apply Hrow. set_solver. }
  cbn [all_settled]. unfold settle. rewrite run_bind, run_catch, run_bind, Hr. cbv beta iota. simpl (run (Ret _) w1).
  cbv beta iota. rewrite run_bind. fold (settle (A:=unit)). rewrite Hrs. cbv beta iota.
  exists (inr tt :: rs), w2. split; [done|]. split; [by etransitivity|]. split.
  - intros e2 [->|He2]%elem_of_cons.
    + exists e'. split; [|done]. by rewrite Hrest.
    + destruct (Hall e2 He2) as (e2' & H1 & H2). exists e2'. split; [done|]. by rewrite (sq_now _ _ Hq) in H2.
  - intros id [Hid1 Hid2]%not_elem_of_cons. by rewrite Hrest, Hoth.
Qed.

Lemma find_mark p id (rs : list WebhookEvent) :
  List.find (fun x => we_id x === id) (update_all p mark_processing rs) =
    (fun x => if p x then mark_processing x else x) <$> List.find (fun x => we_id x === id) rs.
Proof.
  unfold update_all. induction rs as [|x rs IH]; [done|]. simpl.
  assert (we_id (if p x then mark_processing x else x) = we_id x) as -> by by destruct (p x).
  by case_bool_decide.
Qed.

(** One tick: a due event is delivered or has one attempt more and is due again within
    ten minutes; an event that is not due stays as it is. *)
Lemma run_processQueue w id e :
  w_db_up w = true -> NoDup (map we_id (rows TWebhookEvent w)) ->
  (backlog w <= BATCH_SIZE)%nat -> row_at id w = Some e ->
  exists w' e', run processQueue w = (inr tt, w') /\ same_queue w w' /\ row_at id w' = Some e' /\
    if due (w_now w) e then finished (w_now w) e e' else e' = e.
Proof.
  intros Hup Hnd Hlen He. unfold WebhookScheduler.processQueue. rewrite run_bind. simpl (run date_now w). cbv beta iota.
  unfold find_many_asc. rewrite run_bind, run_query by done.
  set (queued := sort_by _ _). cbv beta iota zeta.
  assert (Hq : forall x : WebhookEvent, x ∈ queued <-> x ∈ rows TWebhookEvent w /\ due (w_now w) x = true).
  { intros x. unfold queued. rewrite elem_of_sort_by, elem_of_filter_list. tauto. }
  assert (Hqnd : NoDup (map we_id queued)).
  { unfold queued. rewrite (fmap_Permutation we_id _ _ (sort_by_perm we_nextRetryAt _)). by apply NoDup_map_filter. }
  assert (Htake : take BATCH_SIZE queued = queued).
  { apply take_ge. unfold queued. rewrite sort_by_length. etransitivity; [|exact Hlen].
    apply filter_length_mono. intros x. apply due_open. }
  rewrite Htake. assert (Hid : we_id e = id) by by apply find_elem in He as [_ ?%bool_decide_eq_true].
  assert (Hin : e ∈ rows TWebhookEvent w) by by apply find_elem in He as [? _].
  assert (Hmem : e ∈ queued <-> due (w_now w) e = true) by (rewrite Hq; tauto).
  clearbody queued. destruct queued as [|e0 queued].
  { exists w, e. split; [done|]. split; [reflexivity|]. split; [done|].
    destruct (due (w_now w) e); [|done]. exfalso. apply (not_elem_of_nil e). by apply Hmem. }
  set (events := e0 :: queued) in *.
  rewrite run_bind, run_update_many by done. cbv beta iota.
  set (p := fun x : WebhookEvent => includes (we_id x) (map we_id events) && retryable x).
  set (w1 := with_rows TWebhookEvent _ w).
  assert (Hrows : rows TWebhookEvent w1 = update_all p mark_processing (rows TWebhookEvent w)) by apply rows_with_rows_eq.
  assert (Hq1 : same_queue w w1).
  { split; [done|done|]. rewrite Hrows. unfold update_all. rewrite map_map. apply map_ext. intros x. by destruct (p x). }
  assert (Hat : forall i x, row_at i w = Some x ->
            row_at i w1 = Some (if p x then mark_processing x else x)).
  { intros i x Hx. unfold row_at. rewrite Hrows, find_mark. unfold row_at in Hx. by rewrite Hx. }
  destruct (run_process_events events w1) as (rs & w2 & Hrs & Hq2 & Hall & Hrest); [done|done|..].
  { intros x Hx. apply Hq in Hx as [Hx _].
    assert (row_at (we_id x) w = Some x) as Hxx by by apply find_by_key.
    exists (if p x then mark_processing x else x). split; [by apply Hat|]. destruct (p x); simpl; lia. }
  rewrite run_bind, Hrs. cbv beta iota. simpl (run (Ret tt) w2).
  destruct (due (w_now w) e) eqn:Hdue.
  - destruct (Hall e) as (e' & He' & Hfin); [by apply Hmem|]. rewrite Hid in He'.
    exists w2, e'. repeat (split; [done|]). split; [by etransitivity|]. split; [done|].
    by rewrite (sq_now _ _ Hq1) in Hfin.
  - exists w2, e. split; [done|]. split; [by etransitivity|]. split; [|done].
    assert (Hnin : id ∉ map we_id events).
    { intros (x & Hx1 & Hx2)%list_elem_of_fmap. apply Hq in Hx2 as [Hx2 Hxd].
      assert (x = e) as -> by (apply (NoDup_map_inj we_id (rows TWebhookEvent w)); [done..|congruence]).
      congruence. }
    rewrite Hrest by done. rewrite (Hat id e He). unfold p. rewrite Hid.
    by rewrite (proj2 (includes_false _ _) Hnin).
Qed.

(** A tick opens no event. *)
Lemma processQueue_backlog w r w' :
  w_db_up w = true -> NoDup (map we_id (rows TWebhookEvent w)) -> (backlog w <= BATCH_SIZE)%nat ->
  run processQueue w = (r, w') -> same_queue w w' -> (backlog w' <= backlog w)%nat.
Proof.
  intros Hup Hnd Hlen Hr Hq. assert (Hnd' : NoDup (map we_id (rows TWebhookEvent w'))) by by rewrite (sq_ids _ _ Hq).
  unfold backlog. rewrite <- !(length_map we_id). apply NoDup_incl_length; [by apply NoDup_ListNoDup, NoDup_map_filter|].
  intros id. rewrite <- !list_elem_of_In. intros (e' & -> & Hin)%list_elem_of_fmap. apply elem_of_filter_list in Hin as [Ho Hin].
  assert (Hid : we_id e' ∈ map we_id (rows TWebhookEvent w)) by (rewrite <- (sq_ids _ _ Hq); by apply list_elem_of_fmap_2).
  apply list_elem_of_fmap in Hid as (e & Hid & Hine).
  destruct (run_processQueue w (we_id e) e Hup Hnd Hlen) as (w2 & e2 & Hr2 & _ & He2 & Hd); [by apply find_by_key|].
  rewrite Hr in Hr2. injection Hr2 as _ <-. rewrite <- Hid in He2.
  assert (He' : row_at (we_id e') w' = Some e') by by apply find_by_key.
  rewrite He2 in He'. injection He' as ->. rewrite Hid. apply list_elem_of_fmap_2, elem_of_filter_list. split; [|done].
  destruct (due (w_now w) e) eqn:Hdue; [by eapply due_open|]. by rewrite <- Hd.
Qed.

(** Ticks at given times. *)
Definition ticks (times : list Z) : M unit :=
  for_each times (fun t => (atom (fun w => (tt, with_now t w)) ;;; processQueue)%prog).

(** Times that leave ten minutes between two ticks, from [from] on. *)
Fixpoint spaced (from : Z) (times : list Z) : Prop :=
  match times with
  | [] => True
  | t :: times' => from <= t /\ spaced (t + 600000) times'
  end.
Lemma spaced_mono a b times : a <= b -> spaced b times -> spaced a times.
Proof. destruct times; simpl; [done|]. intros H [H1 H2]. split; [lia|done]. Qed.

Definition settled (e : WebhookEvent) : Prop :=
  we_status e = "DELIVERED" \/ (we_status e = "FAILED" /\ we_attempts e = MAX_ATTEMPTS).
Lemma settled_not_due now e : settled e -> due now e = false.
Proof.
  unfold settled, due, retryable. intros [->|[_ ->]]; [done|]. rewrite Z.ltb_irrefl. apply andb_false_r.
Qed.

Lemma run_tick t times w id e :
  w_db_up w = true -> NoDup (map we_id (rows TWebhookEvent w)) ->
  (backlog w <= BATCH_SIZE)%nat -> row_at id w = Some e ->
  exists w1 e1, run (ticks (t :: times)) w = run (ticks times) w1 /\ w_db_up w1 = true /\
    NoDup (map we_id (rows TWebhookEvent w1)) /\ (backlog w1 <= BATCH_SIZE)%nat /\
    row_at id w1 = Some e1 /\ if due t e then finished t e e1 else e1 = e.
Proof.
  intros Hup Hnd Hlen He.
  destruct (run_processQueue (with_now t w) id e) as (w1 & e1 & Hr & Hq & He1 & Hd); [done..|].
  pose proof (processQueue_backlog (with_now t w) _ w1 Hup Hnd Hlen Hr Hq) as Hb. destruct Hq as [Q1 Q2 Q3].
  change (rows TWebhookEvent (with_now t w)) with (rows TWebhookEvent w) in Q3.
  exists w1, e1. split; [|split; [by apply Q1|]; split; [by rewrite Q3|]; split; [|done]].
  - unfold ticks. cbn [for_each]. rewrite run_bind, run_bind. simpl (run (atom _) w). cbv beta iota. by rewrite Hr.
  - etransitivity; [exact Hb|exact Hlen].
Qed.

Lemma ticks_settle times w id e :
  w_db_up w = true -> NoDup (map we_id (rows TWebhookEvent w)) ->
  (backlog w <= BATCH_SIZE)%nat -> row_at id w = Some e ->
  settled e \/ (retryable e = true /\ we_attempts e < MAX_ATTEMPTS /\
    spaced (we_nextRetryAt e) times /\ MAX_ATTEMPTS <= we_attempts e + Z.of_nat (length times)) ->
  exists w' e', run (ticks times) w = (inr tt, w') /\ row_at id w' = Some e' /\ settled e'.
Proof.
  revert w e. induction times as [|t times IH]; intros w e Hup Hnd Hlen He Hst.
  { exists w, e. split; [done|]. split; [done|]. destruct Hst as [|(_ & ? & _ & Hl)]; [done|]. simpl in Hl. lia. }
  destruct (run_tick t times w id e Hup Hnd Hlen He) as (w1 & e1 & -> & Hup1 & Hnd1 & Hlen1 & He1 & Hd).
  apply (IH w1 e1); [done..|]. destruct Hst as [Hst|(Hre & Hlt & [Hle Hsp] & Hl)].
  { rewrite (settled_not_due _ _ Hst) in Hd. subst e1. by left. }
  assert (Hdue : due t e = true).
  { unfold due. rewrite Hre, (proj2 (Z.leb_le _ _)), (proj2 (Z.ltb_lt _ _)) by done. done. }
  rewrite Hdue in Hd. destruct Hd as (_ & [Hdel|(Hs & Ha & Hn)]); [by left; left|].
  destruct (Z.eq_dec (we_attempts e1) MAX_ATTEMPTS) as [Hm|Hm]; [by left; right|]. right.
  split; [unfold retryable; by rewrite Hs|]. split; [lia|]. split; [|simpl length in Hl; lia].
  eapply spaced_mono; [|exact Hsp]. lia.
Qed.
End Facts.

(** C29. Every queued event is settled: with the database up, one scheduler and no more open
    events than a batch holds (however many settled ones the table keeps), five ticks, ten
    minutes or more apart, leave an event either DELIVERED or FAILED with its five attempts
    used, whatever the receivers answer. *)
Theorem queue_settles {E : Env} post hmac message times w id e :
  (forall url body signature, stable (frame []) (post url body signature)) ->
  w_db_up w = true -> NoDup (map we_id (rows TWebhookEvent w)) ->
  (backlog w <= BATCH_SIZE)%nat ->
  row_at id w = Some e -> we_status e = "PENDING" -> 0 <= we_attempts e < MAX_ATTEMPTS ->
  length times = 5%nat -> spaced (we_nextRetryAt e) times ->
  exists w' e', run (ticks post hmac message times) w = (inr tt, w') /\
    row_at id w' = Some e' /\ settled e'.
Proof.
  intros Hp Hup Hnd Hlen He Hs Ha Ht Hsp. apply (ticks_settle post hmac message Hp times w id e Hup Hnd Hlen He).
  right. split; [unfold retryable; by rewrite Hs|]. split; [lia|]. split; [done|]. rewrite Ht. unfold MAX_ATTEMPTS in *.
  simpl in *. lia.
Qed.

Definition event0 : WebhookEvent :=
  mkWebhookEvent "ev-1" "realm-1" "user.login" [("userId", JStr "user-1")] "PENDING" 0 4 1000000000 None.
Definition hook0 : Webhook :=
  mkWebhook "wh-1" "realm-1" "https://hook.example/" "enc:secret" true ["user.login"] None 0.
Definition queue_world : World := with_rows TWebhook [hook0] (with_rows TWebhookEvent [event0] world1).
Definition answering (code : Z) (url body signature : string) : M post_result := Ret (Posted code "answer").
Definition test_hmac (key data : string) : string := key +:+ data.
Definition test_message (e : exc) : string := match e with PlainError m => m | _ => "error" end.

Example queue_settles_witness :
  let times := [1000000000; 1000700000; 1001400000; 1002100000; 1002800000] in
  exists w' e', run (ticks (E:=test_env) (answering 500) test_hmac test_message times) queue_world = (inr tt, w') /\
    row_at "ev-1" w' = Some e' /\ settled e'.
Proof.
  apply (queue_settles (E:=test_env) (answering 500) test_hmac test_message _ queue_world "ev-1" event0).
  - intros url body signature. exact I.
  - reflexivity.
  - apply (bool_decide_unpack (NoDup ["ev-1"])). vm_compute. exact I.
  - vm_compute. repeat constructor.
  - vm_compute. reflexivity.
  - reflexivity.
  - vm_compute. split; [discriminate|reflexivity].
  - reflexivity.
  - cbn [spaced we_nextRetryAt event0]. repeat split; vm_compute; discriminate.
Defined.

(** ** What the code does not guarantee *)

(** A row that a crash left PROCESSING is never picked up again. *)
Theorem processing_is_stuck {E : Env} post hmac message w id e :
  (forall url body signature, stable (frame []) (post url body signature)) ->
  w_db_up w = true -> NoDup (map we_id (rows TWebhookEvent w)) ->
  (backlog w <= BATCH_SIZE)%nat ->
  row_at id w = Some e -> we_status e = "PROCESSING" ->
  exists w', run (processQueue post hmac message) w = (inr tt, w') /\ row_at id w' = Some e.
Proof.
  intros Hp Hup Hnd Hlen He Hs.
  destruct (run_processQueue post hmac message Hp w id e Hup Hnd Hlen He) as (w' & e' & Hr & _ & He' & Hd).
  exists w'. split; [done|]. assert (due (w_now w) e = false) as Hf by (unfold due, retryable; by rewrite Hs).
  rewrite Hf in Hd. by subst e'.
Qed.

(** Two instances that tick at the same time both deliver an event that the first is
    already processing. *)
Theorem two_schedulers_deliver_twice :
  let tick := processQueue (E:=test_env) (answering 200) test_hmac test_message in
  let final := schedule [0; 0; 1; 1; 0; 1; 0; 0; 0; 0; 0; 0; 0; 1; 1; 1; 1; 1; 1; 1]%nat (queue_world, [tick; tick]) in
  map wd_success (rows TWebhookDelivery final.1) = [true; true] /\
  map (fun e => (we_status e, we_attempts e)) (rows TWebhookEvent final.1) = [("DELIVERED", 1)].
Proof. vm_compute. done. Qed.

(** After the fourth attempt, the last that the row allows, the event is reported as
    permanently failed; it is due at once and tried a fifth time at the next tick. *)
Theorem fifth_attempt_follows :
  let tick := processQueue (E:=test_env) (answering 500) test_hmac test_message in
  let w := with_rows TWebhookEvent [set_event "FAILED" 3 None None event0] queue_world in
  let w1 := (run tick w).2 in
  let w2 := (run tick w1).2 in
  map (fun e => (we_status e, we_attempts e)) (rows TWebhookEvent w1) = [("FAILED", 4)] /\
  map (fun e => (we_status e, we_attempts e)) (rows TWebhookEvent w2) = [("FAILED", 5)].
Proof. vm_compute. done. Qed.
