(* ===== verification/Consent.v ===== *)
(** * Consent: what a user has allowed a client (src/src/consent/consent.service.ts)

    Consents per user and client, their history, and the consent requests that wait
    for the user's answer in [PendingAction]. *)

From S2P Require Import Prelude Prog Json Schema Store StoreFacts Crypto SmsOtp Mfa Testbed.

(** [ConsentRequest]: the user and the client, and the rest. *)
Record ConsentRequest := mkConsentRequest {
  cr_userId : string; cr_clientId : string; cr_details : ConsentDetails
}.
Record ConsentContext := mkConsentContext {
  cx_ipAddress : option string; cx_userAgent : option string; cx_metadata : option obj
}.

(** [orderBy: { key: 'asc' }], in byte order. *)
Fixpoint insert_text (s : string) (l : list string) : list string :=
  match l with
  | [] => [s]
  | x :: l' => if String.leb s x then s :: l else x :: insert_text s l'
  end.
Definition sort_text (l : list string) : list string := foldr insert_text [] l.

Section Service.
Context {E : Env}.

Definition consent_of (userId clientId : string) (c : UserConsent) : bool :=
  (uc_userId c === userId) && (uc_clientId c === clientId).

Definition hasConsent (userId clientId : string) (requestedScopes : list string) : M bool :=
  (consent <- find_first TUserConsent (consent_of userId clientId) ;;
   Ret (match consent with
        | None => false
        | Some c => forallb (fun scope => includes scope (uc_scopes c)) requestedScopes
        end))%prog.

(** ** Pending requests *)

Definition storeConsentRequest (data : ConsentRequest) : M string :=
  (token <- generateSecret 16 ;;
   now <- date_now ;;
   create TPendingAction (fun id createdAt =>
     mkPendingAction id (sha256 token) "consent_request"
       (mkPendingData (cr_userId data) EmptyString (Some (cr_clientId data)) None None None None None None None
          (Some (cr_details data)) None)
       0 (now + 10 * 60 * 1000) createdAt) ;;;
   Ret token)%prog.

Definition consent_request (d : PendingData) : option ConsentRequest :=
  match pd_consent d with
  | Some details => Some (mkConsentRequest (pd_userId d) (pd_clientId d ?? EmptyString) details)
  | None => None
  end.

Definition getConsentRequest (token : string) : M (option ConsentRequest) :=
  (action <- find_first TPendingAction (by_token token) ;;
   match action with
   | None => Ret None
   | Some action =>
       if pa_type action !== "consent_request" then Ret None else
       now <- date_now ;;
       if pa_expiresAt action <? now then
         delete_one TPendingAction (fun a => pa_id a === pa_id action) ;;;
         Ret None
       else
         delete_one TPendingAction (fun a => pa_id a === pa_id action) ;;;
         Ret (consent_request (pa_data action))
   end)%prog.

Definition cleanupExpiredConsentRequests : M unit :=
  (now <- date_now ;;
   delete_many TPendingAction (fun a => (pa_type a === "consent_request") && (pa_expiresAt a <? now)) ;;;
   Ret tt)%prog.

(** ** History *)

(** A category governs its scopes; without any, the scope its key names. *)
Definition governs (scopes : list string) (c : ConsentCategory) : bool :=
  existsb (fun s => includes s scopes) (cc_scopes c) ||
  (bool_decide (cc_scopes c = []) && includes (cc_key c) scopes).

Definition resolveCategoryKeys (realmId : string) (scopes : list string) : M (list string) :=
  match scopes with
  | [] => Ret []
  | _ =>
      (categories <- find_many TConsentCategory (fun c =>
         (cc_realmId c === realmId) && cc_enabled c && governs scopes c) ;;
       Ret (sort_text (map cc_key categories)))%prog
  end.

Definition recordConsentHistory (realmId userId clientId action : string) (scopes : list string)
    (policyVersion : option string) (context : option ConsentContext) : M unit :=
  catch
    (categoryKeys <- resolveCategoryKeys realmId scopes ;;
     let baseMeta := match context with Some c => cx_metadata c | None => None end in
     let metadata := match categoryKeys with
                     | [] => baseMeta
                     | _ => Some (spread (baseMeta ?? []) [("categoryKeys", JStrs categoryKeys)])
                     end in
     create TUserConsentHistory (fun id createdAt =>
       mkUserConsentHistory id userId clientId action scopes policyVersion
         (match context with Some c => cx_ipAddress c | None => None end)
         (match context with Some c => cx_userAgent c | None => None end) metadata createdAt) ;;;
     Ret tt)%prog
    (fun _ => Ret tt).

Definition set_scopes (scopes : list string) (c : UserConsent) : UserConsent :=
  mkUserConsent (uc_id c) (uc_userId c) (uc_clientId c) scopes.

Definition grantConsent (realmId userId clientId : string) (scopes : list string)
    (policyVersion : option string) (context : option ConsentContext) : M UserConsent :=
  (existing <- find_first TUserConsent (consent_of userId clientId) ;;
   result <- upsert TUserConsent (consent_of userId clientId)
     (fun id _ => mkUserConsent id userId clientId scopes) (set_scopes scopes) ;;
   recordConsentHistory realmId userId clientId
     (match existing with Some _ => "updated" | None => "granted" end) scopes policyVersion context ;;;
   Ret result)%prog.

Definition revokeConsent (realmId userId clientId : string) (context : option ConsentContext) : M unit :=
  (existing <- find_first TUserConsent (consent_of userId clientId) ;;
   delete_many TUserConsent (consent_of userId clientId) ;;;
   match existing with
   | Some c => recordConsentHistory realmId userId clientId "revoked" (uc_scopes c) None context
   | None => Ret tt
   end)%prog.

Definition getConsentHistory (userId clientId : string) (limit offset : option nat) : M (list UserConsentHistory) :=
  query (fun w => take (limit ?? 50%nat) (drop (offset ?? 0%nat)
    (sort_by (fun h => - uch_createdAt h)
      (List.filter (fun h => (uch_userId h === userId) && (uch_clientId h === clientId)) (rows TUserConsentHistory w))))).

(** ** Policy versions *)

(** The active policy published last; a policy without a date sorts first. *)
Definition active_policies (c : ConsentCategory) (w : World) : list ConsentPolicy :=
  let active := List.filter (fun p => (cp_categoryId p === cc_id c) && cp_isActive p) (rows TConsentPolicy w) in
  take 1 (List.filter (fun p => bool_decide (cp_publishedAt p = None)) active ++
          sort_by (fun p => - (cp_publishedAt p ?? 0))
            (List.filter (fun p => negb (bool_decide (cp_publishedAt p = None))) active)).

Definition getLatestPolicyVersion (categoryKey : string) : M (option string) :=
  query (fun w => match List.find (fun c => cc_key c === categoryKey) (rows TConsentCategory w) with
                  | Some c => head (map cp_version (active_policies c w))
                  | None => None
                  end).

Definition category_keys (h : UserConsentHistory) : list string :=
  match uch_metadata h with
  | Some m => match obj_get "categoryKeys" m with
              | Some (JArr l) => omap (fun v => match v with JStr s => Some s | _ => None end) l
              | _ => []
              end
  | None => []
  end.

(** The first version seen per category: entries come newest first. *)
Definition last_accepted (history : list UserConsentHistory) : gmap string string :=
  foldl (fun m h => foldl (fun m key => match m !! key with
                                        | Some _ => m
                                        | None => <[key := uch_policyVersion h ?? EmptyString]> m
                                        end) m (category_keys h)) ∅ history.

Definition requiresReConsent (userId clientId realmId : string) : M bool :=
  (consent <- find_first TUserConsent (consent_of userId clientId) ;;
   match consent with
   | None => Ret false
   | Some _ =>
       categories <- query (fun w => map (fun c => (c, active_policies c w))
         (List.filter (fun c => (cc_realmId c === realmId) && cc_enabled c) (rows TConsentCategory w))) ;;
       match categories with
       | [] => Ret false
       | _ =>
           historyEntries <- find_many_desc TUserConsentHistory (fun h =>
             (uch_userId h === userId) && (uch_clientId h === clientId) && negb (bool_decide (uch_policyVersion h = None)))
             uch_createdAt ;;
           let lastAcceptedByCategory := last_accepted historyEntries in
           Ret (existsb (fun '(c, policies) =>
                  match head policies, lastAcceptedByCategory !! cc_key c with
                  | Some p, Some v => (v !== EmptyString) && (cp_version p !== v)
                  | _, _ => false
                  end) categories)
       end
   end)%prog.

(** ** Facts *)

Lemma hasConsent_footprint ts u c s : stable (frame ts) (hasConsent u c s).
Proof. unfold hasConsent. footprint. Qed.
Lemma storeConsentRequest_footprint ts d :
  covers [TPendingAction] ts = true -> stable (frame ts) (storeConsentRequest d).
Proof.
  intros H. apply (stable_frame_mono _ _ _ H). unfold storeConsentRequest, generateSecret. footprint.
Qed.
Lemma recordConsentHistory_footprint ts r u c a s p x :
  covers [TUserConsentHistory] ts = true -> stable (frame ts) (recordConsentHistory r u c a s p x).
Proof.
  intros H. apply (stable_frame_mono _ _ _ H). unfold recordConsentHistory, resolveCategoryKeys. footprint.
Qed.

Lemma run_recordConsentHistory r u c a s p x w : exists w', run (recordConsentHistory r u c a s p x) w = (inr tt, w').
Proof. unfold recordConsentHistory. rewrite run_catch. destruct (run _ w) as [[e|[]] w1]; eauto. Qed.

(** The stored consent covers every one of the scopes. *)
Definition covered (userId clientId : string) (scopes : list string) (w : World) : Prop :=
  exists c, c ∈ rows TUserConsent w /\ uc_userId c = userId /\ uc_clientId c = clientId /\
    forall s, s ∈ scopes -> s ∈ uc_scopes c.

Lemma run_hasConsent_inr userId clientId scopes w w' :
  run (hasConsent userId clientId scopes) w = (inr true, w') -> w' = w /\ covered userId clientId scopes w.
Proof.
  unfold hasConsent. intros Hr. apply run_bind_inr in Hr as (o & w1 & Hf & Hr). run_stmt_inv Hf.
  destruct o as [c|]; [|done]. injection Hr as Hr <-. split; [done|]. symmetry in Hf.
  apply find_elem in Hf as [Hin [Hu%bool_decide_eq_true Hc%bool_decide_eq_true]%andb_true_iff].
  exists c. split_and!; try done. intros s Hs. rewrite forallb_forall in Hr.
  by apply includes_true, Hr, list_elem_of_In.
Qed.

(** A request can be answered once: the row is gone when it is returned. *)
Lemma run_getConsentRequest_inr token w r w' :
  run (getConsentRequest token) w = (inr (Some r), w') ->
  exists a, List.find (by_token token) (rows TPendingAction w) = Some a /\ pa_type a = "consent_request" /\
    w_now w <= pa_expiresAt a /\ consent_request (pa_data a) = Some r /\
    rows TPendingAction w' = remove_first (fun x => pa_id x === pa_id a) (rows TPendingAction w) /\
    frame [TPendingAction] w w'.
Proof.
  unfold getConsentRequest. intros Hr. apply run_bind_inr in Hr as (o & w1 & Hf & Hr). run_stmt_inv Hf.
  destruct o as [a|]; [|done]. destruct (bool_decide_reflect (pa_type a = "consent_request")); [|done].
  simpl negb in Hr. cbv iota in Hr. apply run_bind_inr in Hr as (now & w1 & [-> ->]%run_atom_inr & Hr). cbn [fst snd] in Hr.
  destruct (Z.ltb_spec (pa_expiresAt a) (w_now w)).
  { apply run_bind_inr in Hr as (x & w1 & _ & Hr). done. }
  apply run_bind_inr in Hr as (x & w1 & Hd & Hr). injection Hr as Hr <-.
  apply run_delete_one_inr in Hd as (_ & -> & _). exists a. split_and!; try done.
  apply (frame_delete TPendingAction [x]).
Qed.
End Service.

#[export] Hint Resolve hasConsent_footprint storeConsentRequest_footprint recordConsentHistory_footprint : footprint.
