(* ===== verification/LoginFlow.v ===== *)
(** * LoginFlow: from the first factor to the authorization code
      (src/src/login/login-flow.service.ts, the consent handlers of login.controller.ts)

    A handler's answer is the cookies it sets and the redirect; [res.cookie] and
    [res.redirect] only build it.  The CSRF check of the consent form and the rendering
    of pages are not modelled. *)

From S2P Require Import Prelude Prog Json Schema Store StoreFacts StepUp Crypto Events Mfa OAuth Consent Login.
From S2P Require Import AuthFacts Testbed.

Record Cookie := mkCookie { ck_name : string; ck_value : string; ck_maxAge : option Z }.
Inductive Target := ToPath (path : string) | ToClient (redirect : Redirect) | ToError (uri : string) (query : list (string * string)).
Record Reply := mkReply { rp_cookies : list Cookie; rp_redirect : Target }.

Definition MFA_CHALLENGE_COOKIE : string := "IDENPLANE_MFA_CHALLENGE".
Definition MFA_ENROLLMENT_COOKIE : string := "IDENPLANE_MFA_ENROLLMENT".
Definition SESSION_COOKIE : string := "IDENPLANE_SESSION".

(** What the handlers read of the request. *)
Record RequestInfo := mkRequestInfo {
  ri_clientIp : string; ri_userAgent : option string; ri_sessionCookie : option string
}.

(** [oauthParams[name]]. *)
Fixpoint oauth_param (name : string) (params : list (string * string)) : option string :=
  match params with
  | [] => None
  | (k, v) :: params => if k === name then Some v else oauth_param name params
  end.
Definition authorize_params (params : list (string * string)) : AuthorizeParams :=
  let p name := oauth_param name params in
  mkAuthorizeParams (p "response_type" ?? EmptyString) (p "client_id" ?? EmptyString)
    (p "redirect_uri" ?? EmptyString) (p "scope") (p "state") (p "code_challenge") (p "code_challenge_method")
    (p "nonce") (p "acr_values").

(** [(scope ?? 'openid').split(' ').filter(Boolean)]. *)
Definition requested_scopes (params : list (string * string)) : list string :=
  List.filter (fun s => s !== EmptyString) (js_split " "%char (oauth_param "scope" params ?? "openid")).

Definition realm_path (realm : Realm) (path : string) : string := "/realms/" +:+ realm_name realm +:+ path.

Section Service.
Context {E : Env}.

(** The end of [completeLogin]: the consent screen, or the code. *)
Definition finish_authorization (realm : Realm) (user : User) (client : Client)
    (oauthParams : list (string * string)) (authContext : AuthContext) (cookies : list Cookie) : M Reply :=
  (let scopes := requested_scopes oauthParams in
   ok <- (if client_requireConsent client then hasConsent (user_id user) (client_id client) scopes else Ret true) ;;
   if (ok : bool) then
     result <- authorizeWithUser realm user (authorize_params oauthParams) authContext ;;
     Ret (mkReply cookies (ToClient result))
   else
     reqId <- storeConsentRequest (mkConsentRequest (user_id user) (client_id client)
       (mkConsentDetails (match client_name client with Some n => n | None => client_clientId client end)
          (realm_name realm) scopes oauthParams (ctx_acr authContext) (ctx_amr authContext))) ;;
     Ret (mkReply cookies (ToPath (realm_path realm ("/consent?req=" +:+ reqId)))))%prog.

Definition completeLogin (realm : Realm) (user : User) (oauthParams : list (string * string)) (req : RequestInfo)
    (authContext : AuthContext) (rememberMe : option bool) : M Reply :=
  (client <- (if truthy (oauth_param "client_id" oauthParams)
              then c <- validateAuthRequest realm (authorize_params oauthParams) ;; Ret (Some c)
              else Ret None) ;;
   sessionToken <- createLoginSession realm user (Some (ri_clientIp req)) (ri_userAgent req) (ri_sessionCookie req)
     (mkLoginContext (ctx_acr authContext) (ctx_amr authContext)) ;;
   let cookies := [mkCookie SESSION_COOKIE sessionToken
                     (if rememberMe ?? false then Some (30 * 24 * 60 * 60 * 1000) else None)] in
   recordLoginEvent (mkEventParams (realm_id realm) (Some (user_id user)) None "LOGIN"
     (oauth_param "client_id" oauthParams) (Some (ri_clientIp req)) None) ;;;
   match client with
   | None => Ret (mkReply cookies (ToPath (realm_path realm "/account")))
   | Some client => finish_authorization realm user client oauthParams authContext cookies
   end)%prog.

Definition continueAfterPrimaryAuth (realm : Realm) (user : User) (oauthParams : list (string * string))
    (primaryAmr : list string) (rememberMe : option bool) (req : RequestInfo) : M Reply :=
  (mfaRequired <- isMfaRequired realm (user_id user) ;;
   mfaEnabled <- isMfaEnabled (user_id user) ;;
   if (mfaEnabled : bool) then
     challengeToken <- createMfaChallenge (user_id user) (realm_id realm) (Some oauthParams) None (Some primaryAmr) ;;
     Ret (mkReply [mkCookie MFA_CHALLENGE_COOKIE challengeToken (Some (5 * 60 * 1000))]
            (ToPath (realm_path realm "/totp")))
   else if (mfaRequired : bool) then
     enrollmentToken <- createMfaEnrollment
       (mkPendingData (user_id user) (realm_id realm) None (Some oauthParams) (Some primaryAmr)
          (Some (rememberMe ?? false)) None None None None None None) ;;
     Ret (mkReply [mkCookie MFA_ENROLLMENT_COOKIE enrollmentToken (Some (MFA_ENROLLMENT_TTL_SECONDS * 1000))]
            (ToPath (realm_path realm ("/account/totp-setup?info=" +:+
               "Two-factor%20authentication%20is%20required.%20Please%20set%20it%20up%20now."))))
   else completeLogin realm user oauthParams req (mkAuthContext (Some ACR_PASSWORD) (Some primaryAmr)) rememberMe)%prog.

Definition amrWithOtp (primaryAmr : option (list string)) : list string := (primaryAmr ?? ["pwd"]) ++ ["otp"].
Definition amrForFactor (primaryAmr : option (list string)) (factor : option string) : list string :=
  (primaryAmr ?? ["pwd"]) ++ [if bool_decide (factor = Some "sms") then "sms" else "otp"].

(** ** The consent form *)

(** What the page shows, under a new request id. *)
Definition showConsentForm (reqId : string) : M (string * ConsentRequest) :=
  (if reqId === EmptyString then Throw (BadRequest "Missing consent request ID") else
   consentReq <- getConsentRequest reqId ;;
   match consentReq with
   | None => Throw (BadRequest "Consent request expired or invalid")
   | Some consentReq =>
       newReqId <- storeConsentRequest consentReq ;;
       Ret (newReqId, consentReq)
   end)%prog.

Definition handleConsent (realm : Realm) (reqId action : string) : M Target :=
  (if reqId === EmptyString then Throw (BadRequest "Missing consent request ID") else
   consentReq <- getConsentRequest reqId ;;
   match consentReq with
   | None => Throw (BadRequest "Consent request expired or invalid")
   | Some consentReq =>
       let details := cr_details consentReq in
       let params := cd_oauthParams details in
       if action === "deny" then
         Ret (ToError (oauth_param "redirect_uri" params ?? EmptyString)
                ([("error", "access_denied"); ("error_description", "User denied the consent request")] ++
                 if truthy (oauth_param "state" params)
                 then [("state", oauth_param "state" params ?? EmptyString)] else []))
       else
         grantConsent (realm_id realm) (cr_userId consentReq) (cr_clientId consentReq) (cd_scopes details) None None ;;;
         user <- findUserById (cr_userId consentReq) ;;
         match user with
         | None => Throw (BadRequest "User not found")
         | Some user =>
             result <- authorizeWithUser realm user (authorize_params params)
               (mkAuthContext (cd_satisfiedAcr details) (cd_amr details)) ;;
             Ret (ToClient result)
         end
   end)%prog.

(** ** What the second factor protects *)

Lemma createMfaEnrollment_footprint ts d :
  covers [TPendingAction] ts = true -> stable (frame ts) (createMfaEnrollment d).
Proof. intros H. apply (stable_frame_mono _ _ _ H). unfold createMfaEnrollment, generateSecret. footprint. Qed.
End Service.

(** A first factor alone opens nothing: when the user has a second factor or the realm
    requires one, what follows a correct password, or a federated login, is only a
    challenge or an enrolment token: no session cookie is set and no browser session,
    authorization code or consent request for the client is created. *)
Theorem first_factor_opens_nothing {E : Env} realm user oauthParams amr rememberMe req w reply w' :
  run (continueAfterPrimaryAuth realm user oauthParams amr rememberMe req) w = (inr reply, w') ->
  realm_mfaRequired realm = true \/ run (isMfaEnabled (user_id user)) w = (inr true, w) ->
  rows TLoginSession w' = rows TLoginSession w /\ rows TAuthorizationCode w' = rows TAuthorizationCode w /\
  rows TSession w' = rows TSession w /\
  (forall c, c ∈ rp_cookies reply -> ck_name c = MFA_CHALLENGE_COOKIE \/ ck_name c = MFA_ENROLLMENT_COOKIE) /\
  (forall r, rp_redirect reply <> ToClient r).
Proof.
  unfold continueAfterPrimaryAuth. intros Hr Hmfa.
  apply run_bind_inr in Hr as (required & w1 & [-> Hreq]%run_isMfaRequired_inr & Hr).
  apply run_bind_inr in Hr as (enabled & w1 & He & Hr). apply run_isMfaEnabled_inr in He as Hw. destruct Hw as [-> _].
  destruct enabled.
  { apply run_bind_inr in Hr as (tok & w1 & Hc & Hr). injection Hr as <- <-.
    apply (run_frame [TPendingAction]) in Hc as [Hf _]; [|by apply createMfaChallenge_footprint].
    rewrite !Hf by set_solver. split_and!; try done. intros c [->|Hn]%elem_of_cons; [by left|by apply not_elem_of_nil in Hn]. }
  assert (required = true) as ->.
  { destruct Hmfa as [H|H]; [|rewrite H in He; by injection He].
    destruct required; [done|]. destruct (Hreq eq_refl). congruence. }
  apply run_bind_inr in Hr as (tok & w1 & Hc & Hr). injection Hr as <- <-.
  apply (run_frame [TPendingAction]) in Hc as [Hf _]; [|by apply createMfaEnrollment_footprint].
  rewrite !Hf by set_solver. split_and!; try done. intros c [->|Hn]%elem_of_cons; [by right|by apply not_elem_of_nil in Hn].
Qed.

(** Completing a sign-in respects consent: a client that requires it is sent a code only
    when a stored consent of the user covers every requested scope; otherwise the user
    is sent to the consent screen and no code exists. *)
Theorem completeLogin_consent {E : Env} realm user oauthParams req ctx rememberMe w reply w' client :
  run (completeLogin realm user oauthParams req ctx rememberMe) w = (inr reply, w') ->
  oauth_param "client_id" oauthParams = Some (client_clientId client) -> client_clientId client <> EmptyString ->
  List.find (by_clientId realm (client_clientId client)) (rows TClient w) = Some client ->
  client_requireConsent client = true ->
  covered (user_id user) (client_id client) (requested_scopes oauthParams) w \/
  (rows TAuthorizationCode w' = rows TAuthorizationCode w /\ forall r, rp_redirect reply <> ToClient r).
Proof.
  unfold completeLogin. intros Hr Hid Hne Hfind Hcons. rewrite Hid in Hr. rewrite (proj2 (truthy_Some _) Hne) in Hr.
  apply run_bind_inr in Hr as (c & w1 & Hv & Hr). apply run_bind_inr in Hv as (c1 & w2 & Hv & Hr1).
  injection Hr1 as <- <-. apply run_validateAuthRequest_inr in Hv as (-> & Hf & _).
  unfold authorize_params in Hf. cbv zeta in Hf. rewrite Hid in Hf. simpl in Hf. rewrite Hfind in Hf. injection Hf as <-.
  apply run_bind_inr in Hr as (tok & w2 & Hs & Hr).
  apply (run_frame [TLoginSession; TLoginEvent]) in Hs; [|by apply createLoginSession_footprint].
  apply run_bind_inr in Hr as (x & w3 & He & Hr).
  apply (run_frame [TLoginSession; TLoginEvent]) in He; [|by apply recordLoginEvent_footprint].
  pose proof (transitivity Hs He) as [Hw3 _]. clear Hs He.
  unfold finish_authorization in Hr. cbv zeta in Hr. rewrite Hcons in Hr.
  apply run_bind_inr in Hr as (ok & w4 & Hc & Hr). destruct ok.
  - left. apply run_hasConsent_inr in Hc as [_ (uc & Hin & H)]. rewrite Hw3 in Hin by set_solver. by exists uc.
  - right. apply (run_frame [TPendingAction]) in Hc as [Hw4 _]; [|apply hasConsent_footprint].
    apply run_bind_inr in Hr as (reqId & w5 & Hst & Hr). injection Hr as <- <-. split; [|done].
    apply (run_frame [TPendingAction]) in Hst as [Hw5 _]; [|by apply storeConsentRequest_footprint].
    by rewrite Hw5, Hw4, Hw3 by set_solver.
Qed.

(** A consent request is answered once: its row is gone when the answer is processed,
    and a refusal leads back to the client with access_denied, without a code and
    without a consent. *)
Theorem handleConsent_once {E : Env} realm reqId action w target w' :
  NoDup (map pa_tokenHash (rows TPendingAction w)) -> NoDup (map pa_id (rows TPendingAction w)) ->
  run (handleConsent realm reqId action) w = (inr target, w') ->
  (forall a, a ∈ rows TPendingAction w' -> pa_tokenHash a <> sha256 reqId) /\
  (action = "deny" -> rows TAuthorizationCode w' = rows TAuthorizationCode w /\
     rows TUserConsent w' = rows TUserConsent w /\ forall r, target <> ToClient r).
Proof.
  intros Hnd Hndi. unfold handleConsent. intros Hr. destruct (reqId === EmptyString); [done|].
  apply run_bind_inr in Hr as (o & w1 & Hg & Hr). destruct o as [cr|]; [|done].
  apply run_getConsentRequest_inr in Hg as (a & Hf & _ & _ & _ & Hrows & Hfr). cbv zeta in Hr.
  apply find_elem in Hf as [Hin Hh%bool_decide_eq_true].
  assert (Hgone : forall x, x ∈ rows TPendingAction w1 -> pa_tokenHash x <> sha256 reqId).
  { intros x Hx He. rewrite Hrows in Hx. apply (removed_key pa_id _ _ _ Hndi Hin) in Hx as [Hx Hne]. apply Hne. f_equal.
    apply (NoDup_map_inj pa_tokenHash (rows TPendingAction w)); [done..|congruence]. }
  destruct (bool_decide_reflect (action = "deny")) as [Hd|Hd].
  - injection Hr as <- <-. split; [done|]. intros _. destruct Hfr as [Hfr _]. rewrite !Hfr by set_solver. done.
  - split; [|done]. apply (run_frame [TUserConsent; TUserConsentHistory; TAuthorizationCode]) in Hr as [Hr _].
    + by rewrite Hr by set_solver.
    + unfold grantConsent. footprint. apply find_first_footprint.
Qed.

(** ** Witnesses *)

Definition login_request : RequestInfo := mkRequestInfo "203.0.113.7" None None.
Definition code_request : list (string * string) :=
  [("client_id", "app"); ("response_type", "code"); ("redirect_uri", "https://app.example/cb"); ("scope", "openid email");
   ("code_challenge", "x"); ("code_challenge_method", "S256"); ("state", "st")].

Example first_factor_opens_nothing_witness :
  exists reply w', run (continueAfterPrimaryAuth (E:=test_env) mfa_realm user0 code_request ["pwd"] None login_request) world1 =
                     (inr reply, w') /\ rows TAuthorizationCode w' = [].
Proof.
  destruct (ends_ok_run (continueAfterPrimaryAuth (E:=test_env) mfa_realm user0 code_request ["pwd"] None login_request) world1)
    as (reply & w' & H); [vm_compute; reflexivity|].
  exists reply, w'. split; [exact H|].
  exact (proj1 (proj2 (first_factor_opens_nothing (E:=test_env) _ _ _ _ _ _ _ _ _ H (or_introl eq_refl)))).
Defined.

Definition consent_client : Client :=
  mkClient "client-db-1" "realm-1" "app" None PUBLIC true ["https://app.example/cb"] ["authorization_code"] [] None None
    None true (Some "App") None [] None true 900 0.
Definition consent_world : World := with_rows TClient [consent_client] world1.

Example completeLogin_consent_witness :
  exists reply w', run (completeLogin (E:=test_env) realm0 user0 code_request login_request (mkAuthContext None None) None)
                     consent_world = (inr reply, w') /\
    (covered "user-1" "client-db-1" ["openid"; "email"] consent_world \/ rows TAuthorizationCode w' = []).
Proof.
  destruct (ends_ok_run (completeLogin (E:=test_env) realm0 user0 code_request login_request (mkAuthContext None None) None)
              consent_world) as (reply & w' & H); [vm_compute; reflexivity|].
  exists reply, w'. split; [exact H|].
  destruct (completeLogin_consent (E:=test_env) _ _ _ _ _ _ _ _ _ consent_client H) as [Hc|[Hc _]];
    [reflexivity|discriminate|reflexivity|reflexivity|left; exact Hc|right; exact Hc].
Defined.

Definition asked_world : World :=
  with_rows TPendingAction
    [mkPendingAction "pa-1" (to_hex "req-1") "consent_request"
       (mkPendingData "user-1" EmptyString (Some "client-db-1") None None None None None None None
          (Some (mkConsentDetails "App" "acme" ["openid"] code_request None None)) None) 0 2000000000 0] consent_world.

Example handleConsent_once_witness :
  exists target w', run (handleConsent (E:=test_env) realm0 "req-1" "deny") asked_world = (inr target, w') /\
    rows TAuthorizationCode w' = [].
Proof.
  destruct (ends_ok_run (handleConsent (E:=test_env) realm0 "req-1" "deny") asked_world) as (target & w' & H);
    [vm_compute; reflexivity|].
  exists target, w'. split; [exact H|].
  exact (proj1 (proj2 (handleConsent_once (E:=test_env) realm0 "req-1" "deny" asked_world target w'
    ltac:(repeat constructor; set_solver) ltac:(repeat constructor; set_solver) H) eq_refl)).
Defined.

(** The consent request names its realm, and the form does not compare it: an answer given
    in another realm that has a client of the same name gets a code there for the user
    of the first. *)
Theorem consent_crosses_realms :
  let realm2 := mkRealm "realm-2" "other" None 300 1800 2592000 8 true true true false 0
    true 3 900 600 0 false true 300 3 true "log" 6 300 5 3600 2 true true 60 1000 60 1000 100 2000
    true 3600 true true 0 true false [] false true None None false true 30 None
    false 50 80 None (Some 587) None None None false "smtp" None in
  let client2 := mkClient "client-db-2" "realm-2" "app" None PUBLIC true ["https://app.example/cb"] ["authorization_code"] []
    None None None false None None [] None true 900 0 in
  let w := with_rows TClient [consent_client; client2] asked_world in
  map (fun c => (ac_clientId c, ac_userId c))
    (rows TAuthorizationCode (run (handleConsent (E:=test_env) realm2 "req-1" "allow") w).2) =
  [("client-db-2", "user-1")].
Proof. vm_compute. done. Qed.
