(* ===== verification/AuthFlow.v ===== *)
(** * AuthFlow: configurable authentication flows
      (src/src/auth-flow/auth-flow.service.ts, flow-executor.service.ts)

    The administration of a realm's flows, the choice of a client's flow, the
    step conditions, and the executor that walks a [FlowSession] through the
    steps.  The executor updates the session object its caller holds, also when
    it throws afterwards: [processStep] returns the session together with the
    result or the exception.  The input of a step is the four properties of
    [credentials] that the handlers read. *)

From stdpp Require Import pretty.
From S2P Require Import Prelude Prog Json Schema Store StoreFacts.
From S2P Require Import Mfa Login Testbed.

Record CreateAuthFlowDto := mkCreateAuthFlowDto {
  cf_name : string; cf_description : option string; cf_isDefault : option bool; cf_steps : list FlowStep
}.
Record UpdateAuthFlowDto := mkUpdateAuthFlowDto {
  uf_name' : option string; uf_description' : option string; uf_isDefault' : option bool;
  uf_steps' : option (list FlowStep)
}.

(** ** Default flows *)

Definition default_step (id type : string) (order : Z) : FlowStep := mkFlowStep id type true order None None.

Definition DEFAULT_FLOWS : list (string * string * list FlowStep) :=
  [("Simple Login", "Standard username and password authentication",
    [default_step "step-password" "password" 1]);
   ("MFA Required", "Password authentication followed by TOTP one-time code",
    [default_step "step-password" "password" 1; default_step "step-totp" "totp" 2]);
   ("Passwordless", "WebAuthn / FIDO2 passwordless authentication",
    [default_step "step-webauthn" "webauthn" 1])].

(** ** Step conditions *)

(** [current[part]] for an object or an array (own properties). *)
Definition prop_of (v : json) (part : string) : option json :=
  match v with
  | JObj o => obj_get part o
  | JArr l => if part === "length" then Some (JNum (Z.of_nat (length l))) else
      head (List.map snd (List.filter (fun iv => pretty (N.of_nat iv.1) === part) (imap pair l)))
  | _ => None
  end.

Fixpoint resolve_parts (parts : list string) (current : option json) : option json :=
  match parts with
  | [] => current
  | part :: parts =>
      match current with
      | Some (JObj _ as v) | Some (JArr _ as v) => resolve_parts parts (prop_of v part)
      | _ => None
      end
  end.
Definition resolveField (field : string) (context : obj) : option json :=
  resolve_parts (js_split "."%char field) (Some (JObj context)).

Definition evaluateCondition (condition : FlowStepCondition) (context : obj) : bool :=
  let rawValue := resolveField (cond_field condition) context in
  let op := cond_operator condition in
  let in_list l := match rawValue with
                   | Some (JArr vs) => existsb (fun v => arr_includes l (Some v)) vs
                   | _ => arr_includes l rawValue
                   end in
  if op === "exists" then negb (is_nullish rawValue)
  else if op === "not_exists" then is_nullish rawValue
  else if op === "eq" then strict_eq rawValue (cond_value condition)
  else if op === "neq" then negb (strict_eq rawValue (cond_value condition))
  else if op === "in" then match cond_value condition with Some (JArr l) => in_list l | _ => false end
  else if op === "not_in" then match cond_value condition with Some (JArr l) => negb (in_list l) | _ => true end
  else false.

Fixpoint firstApplicableStep (steps : list FlowStep) (context : obj) : option FlowStep :=
  match steps with
  | [] => None
  | step :: rest =>
      match step_condition step with
      | None => Some step
      | Some c =>
          if evaluateCondition c context then Some step
          else if step_required step then Some step
          else firstApplicableStep rest context
      end
  end.

(** The steps after the first one with this id: [findIndex], then [slice]. *)
Fixpoint steps_after (id : string) (steps : list FlowStep) : option (list FlowStep) :=
  match steps with
  | [] => None
  | s :: rest => if step_id s === id then Some rest else steps_after id rest
  end.

Definition no_duplicates {A} `{EqDecision A} (l : list A) : bool := Nat.eqb (length (dedup [] l)) (length l).

Section Service.
Context {E : Env}.

Definition validateSteps (steps : list FlowStep) : M unit :=
  let ids := map step_id steps in
  if Nat.eqb (length steps) 0 then Throw (BadRequest "A flow must have at least one step")
  else if negb (no_duplicates ids) then Throw (BadRequest "Step IDs must be unique within a flow")
  else if negb (no_duplicates (map step_order steps))
  then Throw (BadRequest "Step order values must be unique within a flow")
  else if existsb (fun s => truthy (step_fallbackStepId s) &&
                     negb (includes (step_fallbackStepId s ?? EmptyString) ids)) steps
  then Throw (BadRequest "Step references unknown fallbackStepId")
  else Ret tt.

Definition set_isDefault (b : bool) (f : AuthenticationFlow) : AuthenticationFlow :=
  mkAuthenticationFlow (af_id f) (af_realmId f) (af_name f) (af_description f) b (af_steps f) (af_createdAt f).

Definition clearDefaultFlag (realmId : string) (excludeId : option string) : M unit :=
  (update_many TAuthenticationFlow
     (fun f => (af_realmId f === realmId) && af_isDefault f &&
               negb (truthy excludeId && (af_id f === (excludeId ?? EmptyString))))
     (set_isDefault false) ;;;
   Ret tt)%prog.

Definition flow_named (realmId name : string) (f : AuthenticationFlow) : bool :=
  (af_realmId f === realmId) && (af_name f === name).

Definition create (realmId : string) (dto : CreateAuthFlowDto) : M AuthenticationFlow :=
  (validateSteps (cf_steps dto) ;;;
   existing <- find_first TAuthenticationFlow (flow_named realmId (cf_name dto)) ;;
   match existing with
   | Some _ => Throw (Conflict "Authentication flow already exists in this realm")
   | None =>
       (if cf_isDefault dto ?? false then clearDefaultFlag realmId None else Ret tt) ;;;
       Store.create TAuthenticationFlow (fun id createdAt =>
         mkAuthenticationFlow id realmId (cf_name dto) (cf_description dto) (cf_isDefault dto ?? false)
           (cf_steps dto) createdAt)
   end)%prog.

(** Default flows first, then by age. *)
Definition findAll (realmId : string) : M (list AuthenticationFlow) :=
  query (fun w => sort_by (fun f => if af_isDefault f then 0 else 1)
                    (sort_by af_createdAt
                      (List.filter (fun f => af_realmId f === realmId) (rows TAuthenticationFlow w)))).

Definition findOne (realmId id : string) : M AuthenticationFlow :=
  (flow <- find_first TAuthenticationFlow (fun f => (af_id f === id) && (af_realmId f === realmId)) ;;
   match flow with
   | Some f => Ret f
   | None => Throw (NotFound "Authentication flow not found")
   end)%prog.

Definition apply_dto (dto : UpdateAuthFlowDto) (f : AuthenticationFlow) : AuthenticationFlow :=
  mkAuthenticationFlow (af_id f) (af_realmId f) (uf_name' dto ?? af_name f)
    (match uf_description' dto with Some d => Some d | None => af_description f end)
    (uf_isDefault' dto ?? af_isDefault f) (uf_steps' dto ?? af_steps f) (af_createdAt f).

Definition update (realmId id : string) (dto : UpdateAuthFlowDto) : M AuthenticationFlow :=
  (findOne realmId id ;;;
   (match uf_steps' dto with Some steps => validateSteps steps | None => Ret tt end) ;;;
   existing <- (if truthy (uf_name' dto)
                then find_first TAuthenticationFlow (fun f =>
                       flow_named realmId (uf_name' dto ?? EmptyString) f && (af_id f !== id))
                else Ret None) ;;
   match existing with
   | Some _ => Throw (Conflict "Authentication flow already exists in this realm")
   | None =>
       (if uf_isDefault' dto ?? false then clearDefaultFlag realmId (Some id) else Ret tt) ;;;
       update_checked TAuthenticationFlow (fun f => af_id f === id) (apply_dto dto)
   end)%prog.

Definition remove (realmId id : string) : M unit :=
  (findOne realmId id ;;;
   delete_one TAuthenticationFlow (fun f => af_id f === id) ;;;
   Ret tt)%prog.

(** ** Resolution *)

Definition realm_default_flow (realmId : string) : M AuthenticationFlow :=
  (defaultFlow <- find_first TAuthenticationFlow (fun f => (af_realmId f === realmId) && af_isDefault f) ;;
   match defaultFlow with
   | Some f => Ret f
   | None =>
       anyFlow <- find_many_asc TAuthenticationFlow (fun f => af_realmId f === realmId) af_createdAt ;;
       match anyFlow with
       | f :: _ => Ret f
       | [] => Throw (NotFound "No authentication flow configured for realm")
       end
   end)%prog.

Definition getFlowForClient (clientId realmId : string) : M AuthenticationFlow :=
  (client <- find_first TClient (fun c => (client_id c === clientId) && (client_realmId c === realmId)) ;;
   match client with
   | None => Throw (NotFound "Client not found in realm")
   | Some client =>
       if truthy (client_authFlowId client) then
         flow <- find_first TAuthenticationFlow (fun f =>
           (af_id f === (client_authFlowId client ?? EmptyString)) && (af_realmId f === realmId)) ;;
         match flow with
         | Some f => Ret f
         | None => realm_default_flow realmId
         end
       else realm_default_flow realmId
   end)%prog.

Definition seedDefaultFlows (realmId : string) : M unit :=
  for_each (imap pair DEFAULT_FLOWS) (fun '(index, (name, description, steps)) =>
    (existing <- find_first TAuthenticationFlow (flow_named realmId name) ;;
     match existing with
     | Some _ => Ret tt
     | None =>
         Store.create TAuthenticationFlow (fun id createdAt =>
           mkAuthenticationFlow id realmId name (Some description) (Nat.eqb index 0) steps createdAt) ;;;
         Ret tt
     end)%prog).

(** ** Steps *)

Definition find_flow (flowId : string) : M AuthenticationFlow :=
  (flow <- find_first TAuthenticationFlow (fun f => af_id f === flowId) ;;
   match flow with
   | Some f => Ret f
   | None => Throw (NotFound "Authentication flow not found")
   end)%prog.

Record StepDecision := mkStepDecision { sd_step : FlowStep; sd_conditionMet : bool; sd_skipped : bool }.

Definition executeStep (flowId stepId : string) (context : obj) : M StepDecision :=
  (flow <- find_flow flowId ;;
   match List.find (fun s => step_id s === stepId) (af_steps flow) with
   | None => Throw (NotFound "Step not found in flow")
   | Some step =>
       let conditionMet := match step_condition step with
                           | Some c => evaluateCondition c context
                           | None => true
                           end in
       Ret (mkStepDecision step conditionMet (negb conditionMet && negb (step_required step)))
   end)%prog.

Definition sorted_steps (flow : AuthenticationFlow) : list FlowStep := sort_by step_order (af_steps flow).

Definition getNextStep (flowId : string) (currentStepId : option string) (context : obj) : M (option FlowStep) :=
  (flow <- find_flow flowId ;;
   match currentStepId with
   | None => Ret (firstApplicableStep (sorted_steps flow) context)
   | Some current =>
       match steps_after current (sorted_steps flow) with
       | None => Throw (BadRequest "Step not found in flow")
       | Some remaining => Ret (firstApplicableStep remaining context)
       end
   end)%prog.

(** ** The executor *)

Record FlowSession := mkFlowSession {
  fs_flowId : string; fs_realmId : string; fs_userId : option string; fs_completedStepIds : list string;
  fs_currentStepId : option string; fs_context : obj; fs_complete : bool
}.

Record StepResult := mkStepResult {
  sr_success : bool; sr_stepId : string; sr_stepType : string; sr_nextStepId : option string;
  sr_flowComplete : bool; sr_message : option string; sr_data : option obj
}.

Record StepCredentials := mkStepCredentials {
  sc_username : option string; sc_password : option string; sc_code : option string; sc_userId : option string
}.

Definition createSession (flowId realmId : string) (context : obj) : FlowSession :=
  mkFlowSession flowId realmId None [] None context false.

Definition set_current (id : option string) (s : FlowSession) : FlowSession :=
  mkFlowSession (fs_flowId s) (fs_realmId s) (fs_userId s) (fs_completedStepIds s) id (fs_context s) (fs_complete s).
Definition set_complete (b : bool) (s : FlowSession) : FlowSession :=
  mkFlowSession (fs_flowId s) (fs_realmId s) (fs_userId s) (fs_completedStepIds s) (fs_currentStepId s)
    (fs_context s) b.
Definition push_completed (id : string) (s : FlowSession) : FlowSession :=
  mkFlowSession (fs_flowId s) (fs_realmId s) (fs_userId s) (fs_completedStepIds s ++ [id]) (fs_currentStepId s)
    (fs_context s) (fs_complete s).
Definition set_user (userId : string) (user : obj) (s : FlowSession) : FlowSession :=
  mkFlowSession (fs_flowId s) (fs_realmId s) (Some userId) (fs_completedStepIds s) (fs_currentStepId s)
    (obj_set "user" (JObj user) (fs_context s)) (fs_complete s).

Definition startFlow (session : FlowSession) : M (FlowSession * option FlowStep) :=
  (nextStep <- getNextStep (fs_flowId session) None (fs_context session) ;;
   Ret (set_current (option_map step_id nextStep) session, nextStep))%prog.

Definition handlePasswordStep (credentials : StepCredentials) (session : FlowSession) (realm : Realm)
  : M (FlowSession * (bool * option obj)) :=
  if negb (truthy (sc_username credentials)) || negb (truthy (sc_password credentials))
  then Throw (BadRequest "username and password are required for password step") else
  (user <- validateCredentials realm (sc_username credentials ?? EmptyString)
     (sc_password credentials ?? EmptyString) None ;;
   Ret (set_user (user_id user)
          [("id", JStr (user_id user)); ("username", JStr (user_username user));
           ("email", match user_email user with Some e => JStr e | None => JNull end);
           ("enabled", JBool (user_enabled user))] session, (true, None)))%prog.

Definition handleTotpStep (credentials : StepCredentials) (session : FlowSession)
  : M (FlowSession * (bool * option obj)) :=
  if negb (truthy (fs_userId session)) then Throw (BadRequest "Password step must be completed before TOTP") else
  if negb (truthy (sc_code credentials)) then Throw (BadRequest "code is required for TOTP step") else
  (verified <- verifySecondFactor (fs_userId session ?? EmptyString) (OtpInput (sc_code credentials ?? EmptyString)) ;;
   Ret (session, (match verified with Some _ => true | None => false end, None)))%prog.

Definition handleWebAuthnStep (credentials : StepCredentials) (session : FlowSession)
  : FlowSession * (bool * option obj) :=
  match sc_userId credentials with
  | Some userId =>
      if js_truthy (obj_get "webauthnVerified" (fs_context session)) && (userId !== EmptyString)
      then (set_user userId [("id", JStr userId)] session, (true, None))
      else (session, (false, Some [("redirect", JStr "webauthn_challenge")]))
  | None => (session, (false, Some [("redirect", JStr "webauthn_challenge")]))
  end.

Definition dispatchStep (step : FlowStep) (credentials : StepCredentials) (session : FlowSession) (realm : Realm)
  : M (FlowSession * (bool * option obj)) :=
  let type := step_type step in
  if (type === "password") || (type === "ldap") then handlePasswordStep credentials session realm
  else if type === "totp" then handleTotpStep credentials session
  else if type === "webauthn" then Ret (handleWebAuthnStep credentials session)
  else if includes type ["social"; "email_otp"; "magic_link"; "consent"]
  then Ret (session, (true, Some [("pending", JBool true); ("stepType", JStr type)]))
  else Ret (session, (false, None)).

(** [try { return { ok: await p } } catch (e) { return { e } }]. *)
Definition attempt {A} (p : M A) : M (exc + A) :=
  catch (a <- p ;; Ret (inr a))%prog (fun e => Ret (inl e)).

Definition advanceSession (session : FlowSession) (step : FlowStep) (data : option obj)
  : M (FlowSession * (exc + StepResult)) :=
  (let session := push_completed (step_id step) session in
   next <- attempt (getNextStep (fs_flowId session) (Some (step_id step)) (fs_context session)) ;;
   match next with
   | inl e => Ret (session, inl e)
   | inr nextStep =>
       let complete := match nextStep with None => true | Some _ => false end in
       Ret (set_complete complete (set_current (option_map step_id nextStep) session),
            inr (mkStepResult true (step_id step) (step_type step) (option_map step_id nextStep) complete None data))
   end)%prog.

Definition failed_step (session : FlowSession) (step : FlowStep) (next : string) (message : string)
  : FlowSession * (exc + StepResult) :=
  (session, inr (mkStepResult false (step_id step) (step_type step) (Some next) false (Some message) None)).

Definition processStep (session : FlowSession) (stepId : string) (credentials : StepCredentials) (realm : Realm)
  : M (FlowSession * (exc + StepResult)) :=
  if fs_complete session then Ret (session, inl (BadRequest "Authentication flow is already complete")) else
  (decision <- attempt (executeStep (fs_flowId session) stepId (fs_context session)) ;;
   match decision with
   | inl e => Ret (session, inl e)
   | inr d =>
       let step := sd_step d in
       let fallback := step_fallbackStepId step ?? EmptyString in
       if sd_skipped d then advanceSession session step None else
       outcome <- attempt (dispatchStep step credentials session realm) ;;
       match outcome with
       | inl (Unauthorized m) => Ret (session, inl (Unauthorized m))
       | inl e =>
           if truthy (step_fallbackStepId step)
           then Ret (failed_step (set_current (Some fallback) session) step fallback
                       "Step failed; redirected to fallback")
           else Ret (session, inl e)
       | inr (session, (false, _)) =>
           if truthy (step_fallbackStepId step)
           then Ret (failed_step (set_current (Some fallback) session) step fallback
                       "Step verification failed; redirected to fallback")
           else Ret (failed_step session step stepId "Verification failed")
       | inr (session, (true, data)) => advanceSession session step data
       end
   end)%prog.

(** ** Valid flows *)

Lemma dedup_same_length {A} `{EqDecision A} (seen l : list A) :
  (length (dedup seen l) <= length l)%nat /\ (length (dedup seen l) = length l -> dedup seen l = l).
Proof.
  revert seen. induction l as [|x l IH]; intros seen; simpl; [by split|].
  destruct (includes x seen); simpl.
  - destruct (IH seen) as [Hle _]. split; [lia|]. intros Hl. lia.
  - destruct (IH (seen ++ [x])) as [Hle Heq]. split; [lia|]. intros [= Hl]. by rewrite Heq.
Qed.

Lemma no_duplicates_true {A} `{EqDecision A} (l : list A) : no_duplicates l = true -> NoDup l.
Proof.
  unfold no_duplicates. intros H%Nat.eqb_eq. rewrite <- (proj2 (dedup_same_length [] l) H).
  apply NoDup_dedup.
Qed.

Lemma run_validateSteps_inr steps w w' :
  run (validateSteps steps) w = (inr tt, w') ->
  steps <> [] /\ NoDup (map step_id steps) /\ NoDup (map step_order steps) /\
  forall s id, s ∈ steps -> step_fallbackStepId s = Some id -> id <> EmptyString -> id ∈ map step_id steps.
Proof.
  unfold validateSteps. cbv zeta. intros Hr.
  destruct (Nat.eqb_spec (length steps) 0); [done|].
  destruct (no_duplicates (map step_id steps)) eqn:Hids; [|done].
  destruct (no_duplicates (map step_order steps)) eqn:Hord; [|done]. simpl negb in Hr. cbv iota in Hr.
  destruct (existsb _ steps) eqn:Hfb; [done|]. split; [by destruct steps|].
  split; [by apply no_duplicates_true|]. split; [by apply no_duplicates_true|].
  intros s id Hs Hf Hne. destruct (includes id (map step_id steps)) eqn:Hin; [by apply includes_true|].
  enough (existsb (fun s => truthy (step_fallbackStepId s) &&
            negb (includes (step_fallbackStepId s ?? EmptyString) (map step_id steps))) steps = true) by congruence.
  apply existsb_exists. exists s. split; [by apply list_elem_of_In|].
  rewrite Hf. simpl default. rewrite Hin. by apply truthy_Some in Hne as ->.
Qed.

(** ** Positions in the sorted flow *)

Lemma steps_after_elem id steps r : steps_after id steps = Some r -> exists pre s, steps = pre ++ s :: r /\ step_id s = id.
Proof.
  induction steps as [|x steps IH]; simpl; [done|]. case_bool_decide as Hx.
  - intros [= <-]. by exists [], x.
  - intros (pre & s & -> & Hs)%IH. by exists (x :: pre), s.
Qed.

Lemma steps_after_split pre s r : step_id s ∉ map step_id pre -> steps_after (step_id s) (pre ++ s :: r) = Some r.
Proof.
  induction pre as [|x pre IH]; simpl; intros Hn; [by rewrite bool_decide_eq_true_2|].
  rewrite bool_decide_eq_false_2 by set_solver. apply IH. set_solver.
Qed.

(** A step after the current one has fewer steps after it. *)
Lemma steps_after_later id steps r next :
  NoDup (map step_id steps) -> steps_after id steps = Some r -> next ∈ r ->
  exists r', steps_after (step_id next) steps = Some r' /\ (S (length r') <= length r)%nat.
Proof.
  intros Hnd (pre & s & -> & _)%steps_after_elem Hin.
  apply list_elem_of_split in Hin as (l1 & l2 & ->). exists l2. split; [|rewrite length_app; simpl; lia].
  rewrite (app_comm_cons l1), app_assoc in Hnd |- *. apply steps_after_split.
  rewrite map_app in Hnd. apply NoDup_app in Hnd as (_ & Hd & _). intros Hc. apply (Hd _ Hc). set_solver.
Qed.

Lemma firstApplicableStep_elem steps context s : firstApplicableStep steps context = Some s -> s ∈ steps.
Proof.
  induction steps as [|x steps IH]; simpl; [done|]. repeat case_match; try (intros [= ->]; set_solver).
  intros Hs. set_solver.
Qed.

(** ** One step of the executor *)

Lemma run_attempt {A} (p : M A) w : run (attempt p) w = (inr (run p w).1, (run p w).2).
Proof. unfold attempt. rewrite run_catch, run_bind. by destruct (run p w) as [[e|a] w1]. Qed.

Lemma run_attempt_inr {A} (p : M A) w o w' : run (attempt p) w = (inr o, w') -> run p w = (o, w').
Proof. rewrite run_attempt. intros [= <- <-]. by destruct (run p w). Qed.

(** The stored flow a session walks. *)
Definition flow_of (session : FlowSession) (w : World) : option AuthenticationFlow :=
  List.find (fun f => af_id f === fs_flowId session) (rows TAuthenticationFlow w).

Lemma run_find_flow_inr flowId w f w' :
  run (find_flow flowId) w = (inr f, w') ->
  w' = w /\ List.find (fun f => af_id f === flowId) (rows TAuthenticationFlow w) = Some f.
Proof.
  unfold find_flow. intros Hr. apply run_bind_inr in Hr as (o & w1 & Ho & Hr). run_stmt_inv Ho.
  destruct o; [|done]. by injection Hr as <- <-.
Qed.

Lemma run_getNextStep_inr flowId id context w next w' :
  run (getNextStep flowId (Some id) context) w = (inr next, w') ->
  w' = w /\ exists f r, List.find (fun f => af_id f === flowId) (rows TAuthenticationFlow w) = Some f /\
    steps_after id (sorted_steps f) = Some r /\ next = firstApplicableStep r context.
Proof.
  unfold getNextStep. intros Hr. apply run_bind_inr in Hr as (f & w1 & [-> Hf]%run_find_flow_inr & Hr).
  destruct (steps_after id (sorted_steps f)) as [r|] eqn:Hs; [|done]. injection Hr as <- <-.
  split; [done|]. by exists f, r.
Qed.

Lemma run_executeStep_inr flowId id context w d w' :
  run (executeStep flowId id context) w = (inr d, w') -> w' = w /\ step_id (sd_step d) = id.
Proof.
  unfold executeStep. intros Hr. apply run_bind_inr in Hr as (f & w1 & [-> Hf]%run_find_flow_inr & Hr).
  destruct (List.find (fun s => step_id s === id) (af_steps f)) as [step|] eqn:Hs; [|done]. injection Hr as <- <-.
  apply find_elem in Hs as [_ Hs%bool_decide_eq_true]. done.
Qed.

Definition dispatch_tables : list Table := [TUser; TLoginFailure; TRecoveryCode; TUsedTotpCode; TOtpAttempt].

Lemma dispatchStep_footprint ts step c session realm :
  covers dispatch_tables ts = true ->
  stable (frame ts) (dispatchStep step c session realm).
Proof.
  intros Hc. apply (stable_frame_mono _ _ _ Hc).
  unfold dispatch_tables, dispatchStep, handlePasswordStep, handleTotpStep. footprint.
Qed.

Lemma run_dispatchStep_flowId step c session realm w s out w' :
  run (dispatchStep step c session realm) w = (inr (s, out), w') -> fs_flowId s = fs_flowId session.
Proof.
  unfold dispatchStep, handlePasswordStep, handleTotpStep, handleWebAuthnStep. cbv zeta. intros Hr.
  run_inv; try done. by repeat case_match; simplify_eq.
Qed.

(** The flow moves on to a later step, or ends. *)
Definition moves_past (f : AuthenticationFlow) (id : string) (s : FlowSession) : Prop :=
  exists r, steps_after id (sorted_steps f) = Some r /\
    if fs_complete s then fs_currentStepId s = None
    else exists next, next ∈ r /\ fs_currentStepId s = Some (step_id next).

Lemma run_advanceSession_inr session step data w s res w' f :
  flow_of session w = Some f -> run (advanceSession session step data) w = (inr (s, inr res), w') ->
  sr_success res = true /\ moves_past f (step_id step) s.
Proof.
  unfold advanceSession. cbv zeta. intros Hflow Hr.
  apply run_bind_inr in Hr as (o & w1 & Ho%run_attempt_inr & Hr). destruct o as [e|next]; [done|].
  apply run_getNextStep_inr in Ho as (-> & f' & r & Hf & Hs & ->). simpl in Hf, Hr.
  assert (f' = f) as -> by (unfold flow_of in Hflow; congruence).
  injection Hr as <- <- _. split; [done|]. exists r. split; [done|]. simpl.
  destruct (firstApplicableStep r _) as [n|] eqn:Hn; simpl; [|done].
  exists n. split; [|done]. by apply firstApplicableStep_elem in Hn.
Qed.

Lemma run_dispatchStep_place step c session realm w s out w' :
  run (dispatchStep step c session realm) w = (inr (s, out), w') ->
  fs_currentStepId s = fs_currentStepId session /\ fs_complete s = fs_complete session.
Proof.
  unfold dispatchStep, handlePasswordStep, handleTotpStep, handleWebAuthnStep. cbv zeta. intros Hr.
  run_inv; try done. by repeat case_match; simplify_eq.
Qed.

(** The session is at the step a failed one names as its fallback. *)
Definition at_fallback (f : AuthenticationFlow) (s : FlowSession) : Prop :=
  exists step fb, step ∈ af_steps f /\ step_fallbackStepId step = Some fb /\ fb <> EmptyString /\ fs_currentStepId s = Some fb.

(** A call succeeds and moves past its step, or fails and stays, or fails and falls back. *)
Lemma run_processStep_outcome session id c realm w s res w' f :
  flow_of session w = Some f -> run (processStep session id c realm) w = (inr (s, res), w') ->
  (fs_complete session = false /\ (exists r, res = inr r /\ sr_success r = true) /\ moves_past f id s) \/
  ((forall r, res = inr r -> sr_success r = false) /\ fs_complete s = fs_complete session /\
   (fs_currentStepId s = fs_currentStepId session \/ (fs_complete session = false /\ at_fallback f s))).
Proof.
  unfold processStep. intros Hflow Hr. destruct (fs_complete session) eqn:Hc; [right; injection Hr as <- <- _; split_and!; auto; by intros r [=]|].
  apply run_bind_inr in Hr as (o & w1 & Ho%run_attempt_inr & Hr).
  assert (Hadv : forall s1 step data w2, step_id step = id -> flow_of s1 w2 = Some f ->
    fs_currentStepId s1 = fs_currentStepId session -> fs_complete s1 = false -> run (advanceSession s1 step data) w2 = (inr (s, res), w') ->
    (false = false /\ (exists r, res = inr r /\ sr_success r = true) /\ moves_past f id s) \/
    ((forall r, res = inr r -> sr_success r = false) /\ fs_complete s = false /\
     (fs_currentStepId s = fs_currentStepId session \/ (false = false /\ at_fallback f s)))).
  { intros s1 step data w2 <- Hf1 Hcur Hc1 Ha. destruct res as [e|r].
    - right. unfold advanceSession in Ha. apply run_bind_inr in Ha as (o1 & w3 & _ & Ha).
      destruct o1; [|done]. injection Ha as <- _ _. split_and!; [by intros r [=]|done|by left].
    - left. split; [done|]. apply (run_advanceSession_inr _ _ _ _ _ _ _ f) in Ha as [? ?]; [|done]. split; [by exists r|done]. }
  destruct o as [e|d]; [right; injection Hr as <- <- _; split_and!; auto; by intros r [=]|].
  assert (Hstep : sd_step d ∈ af_steps f).
  { unfold executeStep in Ho. apply run_bind_inr in Ho as (f' & w2 & [-> Hf']%run_find_flow_inr & Ho).
    assert (f' = f) as -> by (unfold flow_of in Hflow; congruence).
    destruct (List.find (fun s => step_id s === id) (af_steps f)) as [step|] eqn:Hs; [|done]. injection Ho as <- _.
    by apply find_elem in Hs as [? _]. }
  apply run_executeStep_inr in Ho as [-> Hid]. cbv zeta in Hr.
  destruct (sd_skipped d); [by eapply Hadv; [|exact Hflow| | |exact Hr]|].
  apply run_bind_inr in Hr as (o & w1 & Ho%run_attempt_inr & Hr).
  pose proof (run_frame _ _ _ _ _ (dispatchStep_footprint dispatch_tables (sd_step d) c session realm eq_refl) Ho) as [Hrows _].
  assert (Hfall : forall s1 message, truthy (step_fallbackStepId (sd_step d)) = true -> fs_complete s1 = false ->
    (s, res) = failed_step (set_current (Some (step_fallbackStepId (sd_step d) ?? EmptyString)) s1) (sd_step d)
                 (step_fallbackStepId (sd_step d) ?? EmptyString) message ->
    (forall r, res = inr r -> sr_success r = false) /\ fs_complete s = false /\
     (fs_currentStepId s = fs_currentStepId session \/ (false = false /\ at_fallback f s))).
  { intros s1 message (fb & Hfb & Hne)%truthy_true Hc1 [= -> ->]. split_and!; [by intros r [= <-]|done|]. right. split; [done|].
    exists (sd_step d), fb. rewrite Hfb. by split_and!. }
  destruct o as [e|[s1 [[] data]]].
  - right. destruct (truthy (step_fallbackStepId (sd_step d))) eqn:Hfb.
    + assert (Heq : (s, res) = (session, inl e) \/
        (s, res) = failed_step (set_current (Some (step_fallbackStepId (sd_step d) ?? EmptyString)) session) (sd_step d)
                 (step_fallbackStepId (sd_step d) ?? EmptyString) "Step failed; redirected to fallback").
      { destruct e; injection Hr as <- <- _; auto. }
      destruct Heq as [[= -> ->]|Heq]; [split_and!; auto; by intros r [=]|]. by apply (Hfall session _ eq_refl Hc Heq).
    + assert (Heq : (s, res) = (session, inl e)) by (destruct e; by injection Hr as <- <- _).
      injection Heq as -> ->. split_and!; auto. by intros r [=].
  - apply run_dispatchStep_place in Ho as Hpl. destruct Hpl as [Hp1 Hp2]. apply run_dispatchStep_flowId in Ho as Hfid.
    eapply Hadv; [exact Hid| |exact Hp1|by rewrite Hp2|exact Hr].
    unfold flow_of. rewrite Hfid, Hrows; [done|]. set_solver.
  - right. apply run_dispatchStep_place in Ho as Hpl. destruct Hpl as [Hp1 Hp2]. rewrite Hc in Hp2.
    destruct (truthy (step_fallbackStepId (sd_step d))) eqn:Hfb.
    + apply (Hfall s1 "Step verification failed; redirected to fallback" eq_refl Hp2). by injection Hr as <- <- _.
    + injection Hr as <- <- _. split_and!; [by intros r [= <-]|done|by left].
Qed.

(** ** Walking a flow *)

(** Calls of [processStep] on the current step, whatever they are sent and however they
    end: [n] of them succeed, and [k] of those that fail send the session to another step.
    Anything may happen to the world between two calls as long as the flow stays as it is. *)
Inductive walk (f : AuthenticationFlow) (realm : Realm) : nat -> nat -> FlowSession -> FlowSession -> Prop :=
| walk_end s : walk f realm 0 0 s s
| walk_success n k s id credentials w s1 result w1 s2 :
    flow_of s w = Some f -> fs_currentStepId s = Some id ->
    run (processStep s id credentials realm) w = (inr (s1, inr result), w1) ->
    sr_success result = true -> walk f realm n k s1 s2 ->
    walk f realm (S n) k s s2
| walk_stay n k s id credentials w s1 outcome w1 s2 :
    flow_of s w = Some f -> fs_currentStepId s = Some id ->
    run (processStep s id credentials realm) w = (inr (s1, outcome), w1) ->
    (forall r, outcome = inr r -> sr_success r = false) -> fs_currentStepId s1 = fs_currentStepId s ->
    walk f realm n k s1 s2 ->
    walk f realm n k s s2
| walk_fallback n k s id credentials w s1 outcome w1 s2 :
    flow_of s w = Some f -> fs_currentStepId s = Some id ->
    run (processStep s id credentials realm) w = (inr (s1, outcome), w1) ->
    (forall r, outcome = inr r -> sr_success r = false) -> fs_currentStepId s1 <> fs_currentStepId s ->
    walk f realm n k s1 s2 ->
    walk f realm n (S k) s s2.

(** The steps left, the current one included. *)
Definition steps_left (f : AuthenticationFlow) (s : FlowSession) (n : nat) : Prop :=
  if fs_complete s then fs_currentStepId s = None
  else exists step r, step ∈ af_steps f /\ fs_currentStepId s = Some (step_id step) /\
    steps_after (step_id step) (sorted_steps f) = Some r /\ (S (length r) <= n)%nat.

Lemma sorted_steps_ids f : NoDup (map step_id (af_steps f)) -> NoDup (map step_id (sorted_steps f)).
Proof. intros Hn. unfold sorted_steps. by rewrite (sort_by_perm step_order (af_steps f)). Qed.

Lemma later_steps_left f id s n r :
  NoDup (map step_id (af_steps f)) -> steps_after id (sorted_steps f) = Some r -> (length r <= n)%nat ->
  moves_past f id s -> steps_left f s n.
Proof.
  intros Hnd Hs Hle (r' & Hs' & Hm). rewrite Hs in Hs'. injection Hs' as <-. unfold steps_left.
  destruct (fs_complete s); [done|]. destruct Hm as (next & Hin & ->).
  destruct (steps_after_later id _ r next (sorted_steps_ids _ Hnd) Hs Hin) as (r' & Hr' & Hlen).
  exists next, r'. split; [|split; [done|]; split; [done|lia]].
  apply steps_after_elem in Hs as (pre & x & Heq & _). apply (elem_of_sort_by step_order).
  fold (sorted_steps f). rewrite Heq. set_solver.
Qed.

(** From any step of the flow there are at most all its steps to go. *)
Lemma steps_left_all f s step :
  NoDup (map step_id (af_steps f)) -> step ∈ af_steps f -> fs_complete s = false ->
  fs_currentStepId s = Some (step_id step) -> steps_left f s (length (af_steps f)).
Proof.
  intros Hnd Hin Hc Hcur. unfold steps_left. rewrite Hc. exists step.
  assert (Hs : step ∈ sorted_steps f) by (by apply (elem_of_sort_by step_order)).
  apply list_elem_of_split in Hs as (pre & r & Heq). exists r. split; [done|]. split; [done|].
  apply sorted_steps_ids in Hnd. rewrite <- (sort_by_length step_order (af_steps f)). fold (sorted_steps f). rewrite Heq in Hnd |- *.
  split; [|rewrite length_app; simpl; lia]. apply steps_after_split.
  rewrite map_app in Hnd. apply NoDup_app in Hnd as (_ & Hd & _). intros Hx. apply (Hd _ Hx). set_solver.
Qed.

Lemma walk_left f realm n k s s' m :
  NoDup (map step_id (af_steps f)) ->
  (forall s id, s ∈ af_steps f -> step_fallbackStepId s = Some id -> id <> EmptyString -> id ∈ map step_id (af_steps f)) ->
  walk f realm n k s s' -> steps_left f s m ->
  exists m', (n + m' <= m + k * length (af_steps f))%nat /\ steps_left f s' m'.
Proof.
  intros Hnd Hfb Hs. revert m.
  induction Hs as [s|n k s id c w s1 res w1 s2 Hf Hid Hr Hok Hs IH|n k s id c w s1 res w1 s2 Hf Hid Hr Hno Hcur Hs IH
                  |n k s id c w s1 res w1 s2 Hf Hid Hr Hno Hne Hs IH]; intros m Hm;
    [|apply (run_processStep_outcome _ _ _ _ _ _ _ _ _ Hf) in Hr..].
  - exists m. split; [lia|done].
  - destruct Hr as [(Hc & _ & Hmove)|(Hno & _)]; [|by rewrite (Hno res eq_refl) in Hok].
    unfold steps_left in Hm. rewrite Hc in Hm. destruct Hm as (step & r & _ & Hcur & Hafter & Hle).
    rewrite Hid in Hcur. injection Hcur as ->. destruct m as [|m]; [lia|].
    destruct (IH m) as (m' & Hle' & Hl); [by apply (later_steps_left _ _ _ _ _ Hnd Hafter); [lia|]|].
    exists m'. split; [lia|done].
  - destruct Hr as [(_ & (r & -> & Hok) & _)|(_ & Hc & _)]; [by rewrite (Hno r eq_refl) in Hok|].
    apply IH. unfold steps_left in *. by rewrite Hc, Hcur.
  - destruct Hr as [(_ & (r & -> & Hok) & _)|(_ & Hc & [?|[Hc0 (step & fb & Hin & Hfbk & Hfbne & Hcur)]])];
      [by rewrite (Hno r eq_refl) in Hok|done|].
    destruct (proj1 (list_elem_of_fmap _ _ _) (Hfb step fb Hin Hfbk Hfbne)) as (target & -> & Ht).
    destruct (IH (length (af_steps f))) as (m' & Hle' & Hl); [by eapply steps_left_all; [| |rewrite Hc|]|].
    exists m'. split; [lia|done].
Qed.
End Service.


(** ** Witness and examples *)

Definition mfa_flow : AuthenticationFlow :=
  mkAuthenticationFlow "flow-1" "realm-1" "MFA Required" None true
    [default_step "step-password" "password" 1; default_step "step-totp" "totp" 2] 0.
Definition flow_world (f : AuthenticationFlow) : World := with_rows TAuthenticationFlow [f] world1.
Definition alice_password : StepCredentials := mkStepCredentials (Some "alice") (Some "Secret123") None None.

Definition started (f : AuthenticationFlow) : FlowSession :=
  match (run (startFlow (createSession (af_id f) "realm-1" [])) (flow_world f)).1 with
  | inr (s, _) => s
  | inl _ => createSession EmptyString EmptyString []
  end.
Definition processed (f : AuthenticationFlow) (id : string) (c : StepCredentials) : FlowSession * (exc + StepResult) :=
  match (run (processStep (E:=test_env) (started f) id c realm0) (flow_world f)).1 with
  | inr r => r
  | inl e => (started f, inl e)
  end.

(** A password, and a one-time code that sends the user back to the password. *)
Definition fallback_flow : AuthenticationFlow :=
  mkAuthenticationFlow "flow-3" "realm-1" "Code or start again" None true
    [default_step "step-password" "password" 1;
     mkFlowStep "step-totp" "totp" true 2 None (Some "step-password")] 0.
Definition wrong_code : StepCredentials := mkStepCredentials None None (Some "000000") None.

(** One call of [processStep] on the current step. *)
Definition processed_next (f : AuthenticationFlow) (c : StepCredentials) (s : FlowSession) : FlowSession * (exc + StepResult) :=
  match (run (processStep (E:=test_env) s (fs_currentStepId s ?? EmptyString) c realm0) (flow_world f)).1 with
  | inr r => r
  | inl e => (s, inl e)
  end.
Definition after_calls (f : AuthenticationFlow) (cs : list StepCredentials) : FlowSession :=
  fold_left (fun s c => (processed_next f c s).1) cs (started f).

Ltac walk_calls :=
  repeat (first
    [ eapply (walk_success (E:=test_env) fallback_flow realm0 _ _ _ _ alice_password (flow_world fallback_flow));
        [vm_compute; reflexivity | vm_compute; reflexivity | vm_compute; reflexivity | vm_compute; reflexivity |]
    | eapply (walk_fallback (E:=test_env) fallback_flow realm0 _ _ _ _ wrong_code (flow_world fallback_flow));
        [vm_compute; reflexivity | vm_compute; reflexivity | vm_compute; reflexivity
        | intros r Hr; first [discriminate Hr | injection Hr as <-; reflexivity] | by vm_compute |] ]);
  vm_compute; constructor.


(** [processStep] takes the step from its caller, whatever the session's current
    step is: in a flow of a password and a social login, processing the second step
    first completes the flow, although no one has signed in. *)
Definition social_flow : AuthenticationFlow :=
  mkAuthenticationFlow "flow-2" "realm-1" "Password and social" None true
    [default_step "step-password" "password" 1; default_step "step-social" "social" 2] 0.

Theorem processStep_out_of_order :
  fs_currentStepId (started social_flow) = Some "step-password" /\
  let (s, r) := processed social_flow "step-social" (mkStepCredentials None None None None) in
  fs_complete s = true /\ fs_userId s = None /\ fs_completedStepIds s = ["step-social"].
Proof. vm_compute. done. Qed.

(** Seeding a realm whose administrator has chosen another default flow leaves two
    flows marked as default. *)
Theorem seedDefaultFlows_second_default :
  let w := with_rows TAuthenticationFlow
             [mkAuthenticationFlow "flow-9" "realm-1" "Strong" None true [default_step "s" "webauthn" 1] 0] world1 in
  map af_name (List.filter af_isDefault (rows TAuthenticationFlow (run (seedDefaultFlows (E:=test_env) "realm-1") w).2)) =
    ["Strong"; "Simple Login"].
Proof. vm_compute. done. Qed.
