(* ===== verification/FlowInvariants.v ===== *)
(** * FlowInvariants: what the stored flows and the running sessions keep

    Every stored flow satisfies what [validateSteps] checks, however administrators
    interleave their changes; a session always points into its flow; and, one change
    at a time, a realm keeps at most one default flow. *)

From S2P Require Import Prelude Prog Json Schema Store StoreFacts Login Testbed AuthFlow.

(** ** Valid flows *)

Record valid_steps (steps : list FlowStep) : Prop := {
  vs_nonempty : steps <> [];
  vs_ids : NoDup (map step_id steps);
  vs_orders : NoDup (map step_order steps);
  vs_fallbacks s id : s ∈ steps -> step_fallbackStepId s = Some id -> id <> EmptyString -> id ∈ map step_id steps
}.

Definition valid_flows (w : World) : Prop :=
  forall f, f ∈ rows TAuthenticationFlow w -> valid_steps (af_steps f).

Definition keeps_flows (w w' : World) : Prop := valid_flows w -> valid_flows w'.

#[export] Instance keeps_flows_preorder : PreOrder keeps_flows.
Proof. split; unfold keeps_flows; [by intros w|]. intros a b c H1 H2 Ha. auto. Qed.

Lemma frame_keeps_flows ts w w' : includes TAuthenticationFlow ts = false -> frame ts w w' -> keeps_flows w w'.
Proof. intros Ht%includes_false [H _] Hv f. rewrite (H _ Ht). apply Hv. Qed.

(** What administrators do to flows. *)
Inductive FlowChange :=
| CreateFlow (realmId : string) (dto : CreateAuthFlowDto)
| UpdateFlow (realmId id : string) (dto : UpdateAuthFlowDto)
| RemoveFlow (realmId id : string)
| SeedFlows (realmId : string).

Section Changes.
Context {E : Env}.

Definition perform (change : FlowChange) : M unit :=
  match change with
  | CreateFlow realmId dto => (create realmId dto ;;; Ret tt)%prog
  | UpdateFlow realmId id dto => (update realmId id dto ;;; Ret tt)%prog
  | RemoveFlow realmId id => remove realmId id
  | SeedFlows realmId => seedDefaultFlows realmId
  end.

(** [validateSteps] touches nothing: it throws, or the steps are valid. *)
Lemma validateSteps_cases steps :
  (exists e, validateSteps steps = Throw e) \/ (validateSteps steps = Ret tt /\ valid_steps steps).
Proof.
  destruct (validateSteps steps) as [[]|e|B g k] eqn:Hv.
  - right. split; [done|]. destruct (run_validateSteps_inr steps world1 world1) as (H1 & H2 & H3 & H4); [by rewrite Hv|].
    split; auto.
  - left. by exists e.
  - exfalso. revert Hv. unfold validateSteps. cbv zeta. by repeat case_match.
Qed.

Lemma stable_validateSteps {B} steps (k : M B) :
  (valid_steps steps -> stable keeps_flows k) -> stable keeps_flows (bind (validateSteps steps) (fun _ => k)).
Proof. intros Hk. destruct (validateSteps_cases steps) as [[e ->]|[-> Hv]]; simpl; auto. Qed.

Lemma stable_flow_read {B C} (f : World -> B) (k : B -> M C) :
  (forall b, stable keeps_flows (k b)) -> stable keeps_flows (bind (query f) k).
Proof.
  intros Hk. apply stable_bind; [|done]. apply (stable_mono (frame [])); [|apply query_footprint].
  intros w w'. by apply frame_keeps_flows.
Qed.

Lemma stable_create_flow mk :
  (forall id now, valid_steps (af_steps (mk id now))) -> stable keeps_flows (Store.create TAuthenticationFlow mk).
Proof.
  intros Hmk. split; [|by intros [e|r]]. intros w Hv. destruct (w_db_up w); [|done]. cbn [snd].
  destruct (unique_ok _ _ _); [|done]. intros f. cbn [snd]. rewrite rows_with_rows_eq.
  intros [Hf|Hf]%elem_of_app; [by apply Hv|]. apply list_elem_of_singleton in Hf as ->. apply Hmk.
Qed.

Lemma stable_update_flows p g :
  (forall f, valid_steps (af_steps f) -> valid_steps (af_steps (g f))) ->
  stable keeps_flows (update_many TAuthenticationFlow p g).
Proof.
  intros Hg. split; [|by intros [e|r]]. intros w Hv. destruct (w_db_up w); [|done]. intros f. cbn [snd].
  rewrite rows_with_rows_eq. unfold update_all. intros (f0 & -> & Hf)%list_elem_of_fmap.
  destruct (p f0); [by apply Hg, Hv|by apply Hv].
Qed.

Lemma stable_update_flow p g :
  (forall f, valid_steps (af_steps f) -> valid_steps (af_steps (g f))) ->
  stable keeps_flows (update_checked TAuthenticationFlow p g).
Proof.
  intros Hg. split; [|by intros [e|r]]. intros w Hv. destruct (w_db_up w); [|done].
  destruct (List.find p (rows TAuthenticationFlow w)) as [r|]; [|done].
  destruct (unique_ok _ _ _); [|done]. intros f. cbn [snd]. rewrite rows_with_rows_eq.
  intros [Hf|(f0 & [Hf _]%find_elem & ->)]%elem_of_update_first; [by apply Hv|by apply Hg, Hv].
Qed.

Lemma stable_clearDefaultFlag realmId excludeId : stable keeps_flows (clearDefaultFlag realmId excludeId).
Proof. unfold clearDefaultFlag. apply stable_bind; [|done]. by apply stable_update_flows. Qed.

Lemma stable_remove realmId id : stable keeps_flows (remove realmId id).
Proof.
  unfold remove, findOne. apply stable_bind; [apply stable_flow_read; by intros [f|]|intros _].
  apply stable_bind; [|done]. split; [|by intros [e|r]]. intros w Hv. destruct (w_db_up w); [|done].
  destruct (List.find _ _) as [r|]; [|done]. intros f. cbn [snd].
  unfold rows, with_tables. cbn [w_tables on_delete]. rewrite set_table_ne, set_table_eq by done.
  intros Hf%elem_of_remove_first. by apply Hv.
Qed.

Lemma valid_default_flows index name description steps :
  (index, (name, description, steps)) ∈ imap pair DEFAULT_FLOWS -> valid_steps steps.
Proof.
  intros Hin. destruct (validateSteps_cases steps) as [[e He]|[_ Hv]]; [|done]. exfalso. revert He.
  unfold DEFAULT_FLOWS in Hin. simpl in Hin. set_unfold. by destruct_or!; simplify_eq; vm_compute.
Qed.

Lemma stable_for_each_elem {A} (l : list A) (body : A -> M unit) :
  (forall x, x ∈ l -> stable keeps_flows (body x)) -> stable keeps_flows (for_each l body).
Proof.
  induction l as [|x l IH]; intros H; simpl; [done|].
  apply stable_bind; [apply H|intros _; apply IH; intros y Hy; apply H]; set_solver.
Qed.

(** Once the new steps are checked, the rest of [update] writes valid steps. *)
Lemma stable_finish_update realmId id dto :
  (forall steps, uf_steps' dto = Some steps -> valid_steps steps) ->
  stable keeps_flows
    (bind (if uf_isDefault' dto ?? false then clearDefaultFlag realmId (Some id) else Ret tt)
       (fun _ => update_checked TAuthenticationFlow (fun f => af_id f === id) (apply_dto dto))).
Proof.
  intros Hok. apply stable_bind; [destruct (uf_isDefault' dto ?? false); [apply stable_clearDefaultFlag|done]|intros _].
  apply stable_update_flow. intros f Hf. simpl. destruct (uf_steps' dto) as [steps|] eqn:Hs; [by apply Hok|done].
Qed.

Lemma stable_update realmId id dto : stable keeps_flows (update realmId id dto).
Proof.
  unfold update, findOne. apply stable_bind; [apply stable_flow_read; by intros [f|]|intros _].
  destruct (uf_steps' dto) as [steps|] eqn:Hs; [apply stable_validateSteps; intros Hv|];
    (destruct (truthy (uf_name' dto)); [apply stable_flow_read; intros [f|]; [done|]|]; apply stable_finish_update);
    intros ? Hs'; by simplify_eq.
Qed.

Lemma stable_perform change : stable keeps_flows (perform change).
Proof.
  destruct change as [realmId dto|realmId id dto|realmId id|realmId]; cbn [perform].
  - apply stable_bind; [|done]. unfold create. apply stable_validateSteps. intros Hv.
    apply stable_flow_read. intros [f|]; [done|]. apply stable_bind; [|intros _; by apply stable_create_flow].
    destruct (cf_isDefault dto ?? false); [apply stable_clearDefaultFlag|done].
  - apply stable_bind; [apply stable_update|done].
  - apply stable_remove.
  - unfold seedDefaultFlows. apply stable_for_each_elem.
    intros [index [[name description] steps]] Hin%valid_default_flows.
    apply stable_flow_read. intros [f|]; [done|]. apply stable_bind; [|done]. by apply stable_create_flow.
Qed.
End Changes.

(** C37. Stored flows are well formed: if every stored flow has at least one step, step ids
    and orders that do not repeat and fallbacks that name steps of the flow, then so
    does every stored flow after any number of administrators have created, updated,
    removed and seeded flows, however their requests interleave. *)
Theorem flows_stay_valid {E : Env} env (changes : list FlowChange) w w' pool :
  (forall v v', env v v' -> rows TAuthenticationFlow v' = rows TAuthenticationFlow v) ->
  valid_flows w -> psteps env (w, map perform changes) (w', pool) -> valid_flows w'.
Proof.
  intros Henv Hw Hs. apply (psteps_stable env keeps_flows) in Hs as [Hk _].
  - by apply Hk.
  - intros v v' Hv%Henv Hf f. rewrite Hv. apply Hf.
  - apply Forall_map, Forall_true. intros c. apply stable_perform.
Qed.

Definition no_interference (v v' : World) : Prop := v' = v.

Definition two_changes : list FlowChange :=
  [SeedFlows "realm-1"; CreateFlow "realm-1" (mkCreateAuthFlowDto "Strong" None None [default_step "s" "webauthn" 1])].

Example flows_stay_valid_witness :
  let c := schedule [0; 1; 0; 1; 0; 0; 0; 0]%nat (flow_world mfa_flow, map (perform (E:=test_env)) two_changes) in
  map af_name (rows TAuthenticationFlow c.1) =
    ["MFA Required"; "Simple Login"; "Strong"; "Passwordless"] /\ valid_flows c.1.
Proof.
  cbv zeta. split; [vm_compute; reflexivity|].
  apply (flows_stay_valid (E:=test_env) no_interference two_changes (flow_world mfa_flow) _
           (schedule [0; 1; 0; 1; 0; 0; 0; 0]%nat (flow_world mfa_flow, map (perform (E:=test_env)) two_changes)).2).
  - by intros v v' ->.
  - intros f Hf. vm_compute in Hf. apply list_elem_of_singleton in Hf as ->.
    destruct (run_validateSteps_inr (af_steps mfa_flow) world1 world1 eq_refl) as (H1 & H2 & H3 & H4). by split.
  - rewrite <- surjective_pairing. apply schedule_psteps.
Defined.

(** ** Typed sessions *)

(** A session of a flow names only steps of the flow, and none once it is complete. *)
Record session_typed (f : AuthenticationFlow) (s : FlowSession) : Prop := {
  st_flow : fs_flowId s = af_id f;
  st_current id : fs_currentStepId s = Some id -> id ∈ map step_id (af_steps f);
  st_completed id : id ∈ fs_completedStepIds s -> id ∈ map step_id (af_steps f);
  st_complete : fs_complete s = true -> fs_currentStepId s = None
}.

Section Sessions.
Context {E : Env}.
Variable f : AuthenticationFlow.

Lemma own_step_id step : step ∈ af_steps f -> step_id step ∈ map step_id (af_steps f).
Proof. intros H. apply list_elem_of_In, in_map. by apply list_elem_of_In. Qed.

Lemma sorted_step_id step : step ∈ sorted_steps f -> step_id step ∈ map step_id (af_steps f).
Proof. intros H. apply own_step_id. by apply (elem_of_sort_by step_order). Qed.

Lemma applicable_step_id pre steps context id :
  sorted_steps f = pre ++ steps -> option_map step_id (firstApplicableStep steps context) = Some id ->
  id ∈ map step_id (af_steps f).
Proof.
  intros Heq Hid. destruct (firstApplicableStep steps context) as [n|] eqn:Hn; [|done]. injection Hid as <-.
  apply sorted_step_id. rewrite Heq. apply firstApplicableStep_elem in Hn. set_solver.
Qed.

Lemma run_getNextStep_typed session current w next w' id :
  flow_of session w = Some f -> run (getNextStep (fs_flowId session) current (fs_context session)) w = (inr next, w') ->
  option_map step_id next = Some id -> id ∈ map step_id (af_steps f).
Proof.
  unfold flow_of, getNextStep. intros Hf Hr. apply run_bind_inr in Hr as (f' & w1 & [-> Hf']%run_find_flow_inr & Hr).
  assert (f' = f) as -> by congruence. destruct current as [current|].
  - destruct (steps_after current (sorted_steps f)) as [r|] eqn:Hs; [|done]. injection Hr as <- <-.
    apply steps_after_elem in Hs as (pre & s & Heq & _).
    apply (applicable_step_id (pre ++ [s])). by rewrite <- app_assoc.
  - injection Hr as <- <-. by apply (applicable_step_id []).
Qed.

Lemma run_startFlow_typed session w s first w' :
  flow_of session w = Some f -> session_typed f session -> fs_complete session = false ->
  run (startFlow session) w = (inr (s, first), w') -> session_typed f s.
Proof.
  unfold startFlow. intros Hf [Hid Hcur Hdone _] Hc Hr. apply run_bind_inr in Hr as (next & w1 & Hn & Hr).
  injection Hr as <- _ _. split; simpl; try done.
  - intros id. by apply (run_getNextStep_typed _ _ _ _ _ id Hf Hn).
  - congruence.
Qed.

Definition outcome_typed (s : FlowSession) (r : exc + StepResult) : Prop :=
  session_typed f s /\
  forall res id, r = inr res -> sr_nextStepId res = Some id -> id ∈ map step_id (af_steps f).

Lemma typed_set_current s id :
  session_typed f s -> fs_complete s = false -> id ∈ map step_id (af_steps f) -> session_typed f (set_current (Some id) s).
Proof. intros [Hid Hcur Hdone _] Hc Hin. split; simpl; try done; [by intros ? [= <-]|congruence]. Qed.

Lemma run_advanceSession_typed session step data w s r w' :
  flow_of session w = Some f -> session_typed f session -> fs_complete session = false -> step ∈ af_steps f ->
  run (advanceSession session step data) w = (inr (s, r), w') -> outcome_typed s r.
Proof.
  unfold advanceSession. cbv zeta. intros Hf [Hid Hcur Hdone _] Hc Hstep Hr.
  assert (Hpush : forall id, id ∈ fs_completedStepIds session ++ [step_id step] -> id ∈ map step_id (af_steps f)).
  { intros id [H|H]%elem_of_app; [by apply Hdone|]. apply list_elem_of_singleton in H as ->. by apply own_step_id. }
  apply run_bind_inr in Hr as (o & w1 & Ho%run_attempt_inr & Hr). destruct o as [e|next]; injection Hr as <- <- _.
  - split; [|done]. split; simpl; try done. congruence.
  - assert (Hnext : forall id, option_map step_id next = Some id -> id ∈ map step_id (af_steps f)).
    { intros id. by apply (run_getNextStep_typed (push_completed (step_id step) session) _ _ _ _ id Hf Ho). }
    split; [|intros res id [= <-]; apply Hnext]. split; simpl; try done. by destruct next.
Qed.

Lemma fallback_typed session step message :
  valid_steps (af_steps f) -> session_typed f session -> fs_complete session = false -> step ∈ af_steps f ->
  truthy (step_fallbackStepId step) = true ->
  let fallback := step_fallbackStepId step ?? EmptyString in
  let out := failed_step (set_current (Some fallback) session) step fallback message in
  outcome_typed out.1 out.2.
Proof.
  cbv zeta. intros Hv Ht Hc Hstep Hfb. destruct (step_fallbackStepId step) as [fb|] eqn:Hs; [|done].
  apply truthy_Some in Hfb. assert (Hin : fb ∈ map step_id (af_steps f)) by by apply (vs_fallbacks _ Hv step).
  split; [by apply typed_set_current|]. by intros res id [= <-] [= <-].
Qed.

Lemma run_executeStep_elem session id w d w' :
  flow_of session w = Some f -> run (executeStep (fs_flowId session) id (fs_context session)) w = (inr d, w') ->
  w' = w /\ sd_step d ∈ af_steps f.
Proof.
  unfold flow_of, executeStep. intros Hf Hr. apply run_bind_inr in Hr as (f' & w1 & [-> Hf']%run_find_flow_inr & Hr).
  assert (f' = f) as -> by congruence.
  destruct (List.find (fun s => step_id s === id) (af_steps f)) as [step|] eqn:Hs; [|done]. injection Hr as <- <-.
  by apply find_elem in Hs as [? _].
Qed.

(** A dispatched step changes at most who the user is and the context. *)
Lemma run_dispatchStep_typed step c session realm w s out w' :
  session_typed f session -> run (dispatchStep step c session realm) w = (inr (s, out), w') ->
  session_typed f s /\ fs_complete s = fs_complete session.
Proof.
  unfold dispatchStep, handlePasswordStep, handleTotpStep, handleWebAuthnStep. cbv zeta. intros [H1 H2 H3 H4] Hr.
  run_inv; try done. by repeat case_match; simplify_eq.
Qed.
End Sessions.

(** A session stays well typed: whatever step the caller names, whatever credentials
    it sends and however the call ends, exceptions included, [processStep] leaves a
    session whose current step and completed steps are steps of its flow, with no
    current step once it is complete, and the step it announces next exists. *)
Theorem session_stays_typed {E : Env} f session stepId credentials realm w s r w' :
  valid_flows w -> flow_of session w = Some f -> session_typed f session ->
  run (processStep session stepId credentials realm) w = (inr (s, r), w') ->
  session_typed f s /\
  (forall res id, r = inr res -> sr_nextStepId res = Some id -> id ∈ map step_id (af_steps f)).
Proof.
  unfold processStep. intros Hv Hf Ht Hr. destruct (fs_complete session) eqn:Hc; [by injection Hr as <- <- _|].
  apply run_bind_inr in Hr as (o & w1 & Ho%run_attempt_inr & Hr). destruct o as [e|d]; [by injection Hr as <- <- _|].
  apply run_executeStep_inr in Ho as Hid. destruct Hid as [_ <-].
  apply (run_executeStep_elem f) in Ho as [-> Hstep]; [|done]. cbv zeta in Hr.
  assert (Hvf : valid_steps (af_steps f)) by (apply Hv; by apply find_elem in Hf as [? _]).
  destruct (sd_skipped d); [by apply (run_advanceSession_typed f) in Hr|].
  apply run_bind_inr in Hr as (o & w1 & Ho%run_attempt_inr & Hr). destruct o as [e|[s1 [[] data]]].
  - assert (Hend : (session, inl e) = (s, r) \/
      truthy (step_fallbackStepId (sd_step d)) = true /\
      failed_step (set_current (Some (step_fallbackStepId (sd_step d) ?? EmptyString)) session) (sd_step d)
        (step_fallbackStepId (sd_step d) ?? EmptyString) "Step failed; redirected to fallback" = (s, r)).
    { destruct e; try (injection Hr as <- <- _; by left);
        (destruct (truthy (step_fallbackStepId (sd_step d))); [right|left]; [split; [done|]|]; cbn [run] in Hr; congruence). }
    destruct Hend as [[= <- <-]|[Hfb Heq]]; [by split|].
    pose proof (fallback_typed f session (sd_step d) "Step failed; redirected to fallback" Hvf Ht Hc Hstep Hfb) as Hout.
    cbv zeta in Hout. rewrite Heq in Hout. exact Hout.
  - pose proof (run_frame _ _ _ _ _ (dispatchStep_footprint dispatch_tables (sd_step d) credentials session realm eq_refl) Ho)
      as [Hrows _].
    apply run_dispatchStep_typed with (f := f) in Ho as [Ht1 Hc1]; [|done]. rewrite Hc in Hc1.
    apply (run_advanceSession_typed f) in Hr; try done. unfold flow_of. rewrite (st_flow _ _ Ht1).
    rewrite <- (st_flow _ _ Ht), Hrows; [done|]. set_solver.
  - apply run_dispatchStep_typed with (f := f) in Ho as [Ht1 Hc1]; [|done]. rewrite Hc in Hc1.
    destruct (truthy (step_fallbackStepId (sd_step d))) eqn:Hfb.
    + pose proof (fallback_typed f s1 (sd_step d) "Step verification failed; redirected to fallback" Hvf Ht1 Hc1 Hstep Hfb) as Hout.
      cbv zeta in Hout. cbn [run] in Hr. injection Hr as <- <- _. exact Hout.
    + injection Hr as <- <- _. split; [done|]. intros res id [= <-] [= <-]. by apply own_step_id.
Qed.

Lemma mfa_flow_valid : valid_steps (af_steps mfa_flow).
Proof. destruct (run_validateSteps_inr (af_steps mfa_flow) world1 world1 eq_refl) as (H1 & H2 & H3 & H4). by split. Qed.

Example session_stays_typed_witness :
  session_typed mfa_flow (processed mfa_flow "step-password" alice_password).1 /\
  fs_currentStepId (processed mfa_flow "step-password" alice_password).1 = Some "step-totp".
Proof.
  split; [|vm_compute; reflexivity].
  refine (proj1 (session_stays_typed (E:=test_env) mfa_flow (started mfa_flow) "step-password" alice_password realm0
                   (flow_world mfa_flow) _ (processed mfa_flow "step-password" alice_password).2
                   (run (processStep (E:=test_env) (started mfa_flow) "step-password" alice_password realm0)
                      (flow_world mfa_flow)).2 _ _ _ _)).
  - intros f Hf. vm_compute in Hf. apply list_elem_of_singleton in Hf as ->. apply mfa_flow_valid.
  - vm_compute. reflexivity.
  - apply (run_startFlow_typed mfa_flow (createSession "flow-1" "realm-1" []) (flow_world mfa_flow) _
             (Some (default_step "step-password" "password" 1)) (flow_world mfa_flow));
      [vm_compute; reflexivity | | reflexivity | vm_compute; reflexivity].
    split; [reflexivity | done | by intros id ?%not_elem_of_nil | done].
  - vm_compute. reflexivity.
Defined.

(** ** One default flow *)

Definition one_default (w : World) : Prop :=
  forall f g, f ∈ rows TAuthenticationFlow w -> g ∈ rows TAuthenticationFlow w ->
    af_realmId f = af_realmId g -> af_isDefault f = true -> af_isDefault g = true -> af_id f = af_id g.

(** The rows of the flows afterwards are rows from before, of which some have lost
    their default flag. *)
Definition fewer_defaults (w w' : World) : Prop :=
  forall f, f ∈ rows TAuthenticationFlow w' ->
    exists f0, f0 ∈ rows TAuthenticationFlow w /\ af_id f = af_id f0 /\ af_realmId f = af_realmId f0 /\
      (af_isDefault f = true -> af_isDefault f0 = true).

#[export] Instance fewer_defaults_preorder : PreOrder fewer_defaults.
Proof.
  split; [intros w f Hf; by exists f|]. intros w1 w2 w3 H1 H2 f (g & Hg & -> & -> & Hd)%H2.
  destruct (H1 g Hg) as (h & Hh & -> & -> & Hd'). exists h. split_and!; auto.
Qed.

Lemma fewer_one_default w w' : fewer_defaults w w' -> one_default w -> one_default w'.
Proof.
  intros Hf H f g (f0 & Hf0 & -> & -> & Hd)%Hf (g0 & Hg0 & -> & -> & Hd')%Hf Hr Hdf Hdg. auto.
Qed.

Section Default.
Context {E : Env}.

(** After the flag is cleared only the excluded flow is a default of the realm. *)
Lemma run_clearDefaultFlag realmId excludeId w o w' :
  run (clearDefaultFlag realmId excludeId) w = (o, w') ->
  fewer_defaults w w' /\
  (o = inr tt -> forall f, f ∈ rows TAuthenticationFlow w' -> af_realmId f = realmId -> af_isDefault f = true ->
     exists id, excludeId = Some id /\ af_id f = id).
Proof.
  unfold clearDefaultFlag. rewrite run_bind. unfold update_many. rewrite run_prisma.
  destruct (w_db_up w); [|intros [= <- <-]; by split]. intros [= <- <-].
  split; unfold fewer_defaults; setoid_rewrite rows_with_rows_eq.
  - intros f (f0 & -> & Hf)%list_elem_of_fmap. exists f0. by destruct (_ && _).
  - intros _ f (f0 & -> & Hf)%list_elem_of_fmap. case_match eqn:Hc; [done|]. intros Hr Hd.
    rewrite Hr, Hd, bool_decide_eq_true_2 in Hc by done. simpl in Hc. apply negb_false_iff, andb_true_iff in Hc as [He Hid].
    destruct excludeId as [id|]; [|done]. exists id. by apply bool_decide_eq_true in Hid.
Qed.
Lemma run_read_bind {B C} (f : World -> B) (k : B -> M C) w o w' :
  run (bind (query f) k) w = (o, w') ->
  ((exists e, o = inl e) /\ w' = w) \/ (w_db_up w = true /\ run (k (f w)) w = (o, w')).
Proof.
  rewrite run_bind. unfold query. rewrite run_prisma. destruct (w_db_up w); [by right|].
  intros [= <- <-]. left. split; [by eexists|done].
Qed.

Lemma run_maybe_clear (b : bool) realmId excludeId w o w' :
  run (if b then clearDefaultFlag realmId excludeId else Ret tt) w = (o, w') ->
  fewer_defaults w w' /\
  (o = inr tt -> b = true -> forall f, f ∈ rows TAuthenticationFlow w' -> af_realmId f = realmId ->
     af_isDefault f = true -> exists id, excludeId = Some id /\ af_id f = id).
Proof.
  destruct b; [|by intros [= <- <-]]. intros [H1 H2]%run_clearDefaultFlag. by split; [|intros Ho _; apply H2].
Qed.

Lemma run_create_one_default realmId dto w o w' :
  one_default w -> run (create realmId dto) w = (o, w') -> one_default w'.
Proof.
  unfold create. intros Hone Hr. destruct (validateSteps_cases (cf_steps dto)) as [[e He]|[He _]]; rewrite He in Hr;
    cbn [bind] in Hr; [by injection Hr as _ <-|].
  apply run_read_bind in Hr as [[_ ->]|[_ Hr]]; [done|].
  destruct (List.find _ _) as [f0|]; [by injection Hr as _ <-|]. rewrite run_bind in Hr.
  destruct (run (if cf_isDefault dto ?? false then _ else _) w) as [o1 w1] eqn:Hc.
  apply run_maybe_clear in Hc as [Hf Hcl]. apply (fewer_one_default _ _ Hf) in Hone.
  destruct o1 as [e|[]]; [by injection Hr as _ <-|]. specialize (Hcl eq_refl). unfold Store.create in Hr.
  rewrite run_prisma in Hr. destruct (w_db_up w1); [|by injection Hr as _ <-]. cbv zeta in Hr.
  destruct (unique_ok _ _ _); injection Hr as _ <-; [|done].
  assert (Hnew : forall f, f ∈ rows TAuthenticationFlow w1 -> af_realmId f = realmId ->
    cf_isDefault dto ?? false = true -> af_isDefault f = true -> False).
  { intros f Hin Hrl Hd Hdf. by destruct (Hcl Hd f Hin Hrl Hdf) as (id & [=] & _). }
  intros f g. rewrite rows_with_rows_eq. rewrite !elem_of_app, !list_elem_of_singleton.
  intros [Hf'|Hf'] [Hg'|Hg'] Hrl Hdf Hdg; [by apply Hone| | |by subst]; exfalso; subst; simpl in *; eauto.
Qed.

Lemma run_finish_update realmId id dto w o w' :
  (forall r, r ∈ rows TAuthenticationFlow w -> af_id r = id -> af_realmId r = realmId) -> one_default w ->
  run (bind (if uf_isDefault' dto ?? false then clearDefaultFlag realmId (Some id) else Ret tt)
         (fun _ => update_checked TAuthenticationFlow (fun f => af_id f === id) (apply_dto dto))) w = (o, w') ->
  one_default w'.
Proof.
  intros Hrow Hone Hr. rewrite run_bind in Hr.
  destruct (run (if uf_isDefault' dto ?? false then _ else _) w) as [o1 w1] eqn:Hc.
  apply run_maybe_clear in Hc as [Hf Hcl]. apply (fewer_one_default _ _ Hf) in Hone.
  destruct o1 as [e|[]]; [by injection Hr as _ <-|]. specialize (Hcl eq_refl). unfold update_checked in Hr.
  rewrite run_prisma in Hr. destruct (w_db_up w1); [|by injection Hr as _ <-].
  destruct (List.find _ _) as [r|] eqn:Hr0; [|by injection Hr as _ <-].
  destruct (unique_ok _ _ _); injection Hr as _ <-; [|done]. clear r Hr0.
  assert (Hnew : forall r g, r ∈ rows TAuthenticationFlow w1 -> af_id r = id -> g ∈ rows TAuthenticationFlow w1 ->
    af_realmId g = af_realmId r -> af_isDefault (apply_dto dto r) = true -> af_isDefault g = true -> af_id g = id).
  { intros r g Hin Hid Hg Hrl Hd Hdg. destruct (Hf r Hin) as (r0 & Hr0 & Hid0 & Hrl0 & _).
    assert (Hreal : af_realmId g = realmId) by (rewrite Hrl, Hrl0; apply Hrow; congruence). simpl in Hd.
    destruct (uf_isDefault' dto) as [[]|]; [|done|].
    - by destruct (Hcl eq_refl g Hg Hreal Hdg) as (? & [= <-] & Hg').
    - rewrite <- Hid. by apply Hone. }
  intros f g. rewrite rows_with_rows_eq.
  intros [Hin|(f0 & [Hin Hp%bool_decide_eq_true]%find_elem & ->)]%elem_of_update_first
    [Hin'|(g0 & [Hin' Hp'%bool_decide_eq_true]%find_elem & ->)]%elem_of_update_first Hrl Hdf Hdg; cbn [apply_dto af_id af_realmId] in *.
  - by apply Hone.
  - rewrite Hp'. by apply (Hnew g0 f).
  - rewrite Hp. symmetry. by apply (Hnew f0 g).
  - congruence.
Qed.

Lemma run_update_one_default realmId id dto w o w' :
  NoDup (map af_id (rows TAuthenticationFlow w)) -> one_default w ->
  run (update realmId id dto) w = (o, w') -> one_default w'.
Proof.
  unfold update, findOne. intros Hnd Hone Hr. rewrite run_bind in Hr.
  destruct (run (bind (find_first _ _) _) w) as [o1 w1] eqn:Hfo.
  apply run_read_bind in Hfo as [[[e ->] ->]|[_ Hfo]]; [by injection Hr as _ <-|].
  destruct (List.find _ _) as [f1|] eqn:Hf1; injection Hfo as <- <-; [|by injection Hr as _ <-].
  apply find_elem in Hf1 as [Hin1 [Hid1%bool_decide_eq_true Hrl1%bool_decide_eq_true]%andb_true_iff].
  assert (Hrow : forall r, r ∈ rows TAuthenticationFlow w -> af_id r = id -> af_realmId r = realmId).
  { intros r Hr1 Hid. by rewrite (NoDup_map_inj af_id _ r f1 Hnd Hr1 Hin1 ltac:(congruence)). }
  clear f1 Hin1 Hid1 Hrl1.
  destruct (uf_steps' dto) as [steps|] eqn:Hst;
    [destruct (validateSteps_cases steps) as [[e He]|[He _]]; rewrite He in Hr; cbn [bind] in Hr; [by injection Hr as _ <-|]|];
    (destruct (truthy (uf_name' dto)); [|by apply (run_finish_update realmId id dto) in Hr]);
    (apply run_read_bind in Hr as [[_ ->]|[_ Hr]]; [done|]);
    (destruct (List.find _ _) as [f0|]; [by injection Hr as _ <-|by apply (run_finish_update realmId id dto) in Hr]).
Qed.

Lemma run_remove_one_default realmId id w o w' :
  one_default w -> run (remove realmId id) w = (o, w') -> one_default w'.
Proof.
  unfold remove, findOne. intros Hone Hr. rewrite run_bind in Hr.
  destruct (run (bind (find_first _ _) _) w) as [o1 w1] eqn:Hfo.
  apply run_read_bind in Hfo as [[[e ->] ->]|[Hup Hfo]]; [by injection Hr as _ <-|].
  destruct (List.find _ _) as [f1|]; injection Hfo as <- <-; [|by injection Hr as _ <-].
  rewrite run_bind in Hr. unfold delete_one in Hr. rewrite run_prisma, Hup in Hr.
  destruct (List.find _ _) as [r|]; injection Hr as _ <-; [|done]. revert Hone. apply fewer_one_default. intros f.
  unfold rows, with_tables. cbn [w_tables on_delete]. rewrite set_table_ne, set_table_eq by done.
  intros Hf%elem_of_remove_first. by exists f.
Qed.
End Default.

(** A realm keeps at most one default flow: when a flow is created, updated or removed,
    whether the operation succeeds or throws half-way, two flows of one realm that are
    marked as default are still the same flow. *)
Theorem one_default_kept {E : Env} change w o w' :
  (forall realmId, change <> SeedFlows realmId) ->
  NoDup (map af_id (rows TAuthenticationFlow w)) -> one_default w ->
  run (perform change) w = (o, w') -> one_default w'.
Proof.
  intros Hseed Hnd Hone Hr.
  destruct change as [realmId dto|realmId id dto|realmId id|realmId]; cbn [perform] in Hr; [| | |by destruct (Hseed realmId)].
  - rewrite run_bind in Hr. destruct (run (create realmId dto) w) as [[e|f] w1] eqn:Hc;
      injection Hr as _ <-; by apply run_create_one_default in Hc.
  - rewrite run_bind in Hr. destruct (run (update realmId id dto) w) as [[e|f] w1] eqn:Hc;
      injection Hr as _ <-; by apply run_update_one_default in Hc.
  - by apply run_remove_one_default in Hr.
Qed.

Example one_default_kept_witness :
  let change := CreateFlow "realm-1" (mkCreateAuthFlowDto "Strong" None (Some true) [default_step "s" "webauthn" 1]) in
  let w' := (run (perform (E:=test_env) change) (flow_world mfa_flow)).2 in
  map af_isDefault (rows TAuthenticationFlow w') = [false; true] /\ one_default w'.
Proof.
  cbv zeta. split; [vm_compute; reflexivity|].
  refine (one_default_kept (E:=test_env)
            (CreateFlow "realm-1" (mkCreateAuthFlowDto "Strong" None (Some true) [default_step "s" "webauthn" 1]))
            (flow_world mfa_flow) _ _ _ _ _ (surjective_pairing _)).
  - done.
  - apply (bool_decide_unpack _). vm_compute. exact I.
  - intros f g Hf Hg _ _ _. vm_compute in Hf, Hg. apply list_elem_of_singleton in Hf as ->.
    by apply list_elem_of_singleton in Hg as ->.
Defined.
