(* ===== verification/ScimFilter.v ===== *)
(** * ScimFilter: SCIM filters (src/src/scim/filter-parser.service.ts)

    A filter is parsed into an attribute, an operator and a value, which become the
    [where] clause of a Prisma query.  A clause is a JavaScript object, so a later
    property of the same name replaces an earlier one.  What a clause means on a row is
    Prisma's part: equality of scalars is modelled, the order and the pattern matching
    of texts and the columns that the row of the model does not have are parameters.
    A number is the binary64 value that [parseFloat] rounds its decimal text to, and its
    text is the one of [String]. *)

From Stdlib Require Import SpecFloat.
From S2P Require Import Prelude JsText Json JsNumber Schema.

(** ** Numbers *)

#[export] Instance spec_float_eq_dec : EqDecision spec_float.
Proof. solve_decision. Defined.

(** The double nearest to [m / 10^k], ties to even, with a sign: the operands of the
    division are exact, so it rounds once. *)
Definition nearest (negative : bool) (m : Z) (k : nat) : spec_float :=
  match m with
  | Zpos p =>
      match k with
      | 0%nat => binary_round 53 1024 negative p 0
      | _ => SFdiv 53 1024 (S754_finite negative p 0) (S754_finite false (10 ^ Pos.of_nat k) 0)
      end
  | _ => S754_zero negative
  end.
Definition scaled (s e10 : Z) : spec_float :=
  if 0 <=? e10 then nearest false (s * 10 ^ e10) 0 else nearest false s (Z.to_nat (- e10)).

Fixpoint strip_zeros (s : string) : string :=
  match s with
  | String c s' => if c === "0"%char then strip_zeros s' else s
  | EmptyString => EmptyString
  end.
Fixpoint repeat_zero (n : nat) : string := match n with 0%nat => EmptyString | S n => String "0" (repeat_zero n) end.

(** [m * 2^e], as a fraction. *)
Definition ratio (m : positive) (e : Z) : Z * Z := if 0 <=? e then (Zpos m * 2 ^ e, 1) else (Zpos m, 2 ^ (- e)).
(** The least [j] with [den <= 10 ^ (j + 1) * num]. *)
Fixpoint leading_zeros (fuel : nat) (num den : Z) : Z :=
  match fuel with
  | 0%nat => 0
  | S fuel => if den <=? 10 * num then 0 else 1 + leading_zeros fuel (10 * num) den
  end.
(** The [n] with [10^(n-1) <= num / den < 10^n]; no double is below [10^-324]. *)
Definition magnitude (num den : Z) : Z :=
  if den <=? num then Z.of_nat (String.length (to_base 10 (num / den))) else - leading_zeros 330 num den.

(** The integers around [num / den / 10^e10], the closer one first. *)
Definition candidates (num den e10 : Z) : list Z :=
  let '(a, b) := if 0 <=? e10 then (num, den * 10 ^ e10) else (num * 10 ^ (- e10), den) in
  let q := a / b in
  if 2 * (a - q * b) <=? b then [q; q + 1] else [q + 1; q].
(** The fewest digits, from [k] on, that are read back as [x]: seventeen always do. *)
Fixpoint shortest (fuel : nat) (k num den n : Z) (x : spec_float) : Z * Z :=
  match List.find (fun s => bool_decide (scaled s (n - k) = x)) (candidates num den (n - k)), fuel with
  | Some s, _ => (s, k)
  | None, S fuel => shortest fuel (k + 1) num den n x
  | None, 0%nat => (0, k)
  end.

(** Number::toString of ECMAScript for digits whose point comes after the first [n]. *)
Definition digits_text (digits : string) (n : Z) : string :=
  let k := Z.of_nat (String.length digits) in
  if (k <=? n) && (n <=? 21) then digits +:+ repeat_zero (Z.to_nat (n - k))
  else if (0 <? n) && (n <=? 21) then str_take (Z.to_nat n) digits +:+ "." +:+ str_drop (Z.to_nat n) digits
  else if (-6 <? n) && (n <=? 0) then "0." +:+ repeat_zero (Z.to_nat (- n)) +:+ digits
  else
    let e := n - 1 in
    str_take 1 digits +:+ (if k =? 1 then EmptyString else "." +:+ str_drop 1 digits) +:+
    "e" +:+ (if 0 <=? e then "+" else "-") +:+ to_base 10 (Z.abs e).
Definition positive_text (m : positive) (e : Z) : string :=
  let '(num, den) := ratio m e in
  let n := magnitude num den in
  let '(s, k) := shortest 16 1 num den n (S754_finite false m e) in
  let digits := to_base 10 s in
  digits_text (str_rev (strip_zeros (str_rev digits))) (n + Z.of_nat (String.length digits) - k).

(** [String(x)]. *)
Definition number_text (x : spec_float) : string :=
  match x with
  | S754_zero _ => "0"
  | S754_nan => "NaN"
  | S754_infinity negative => if negative then "-Infinity" else "Infinity"
  | S754_finite negative m e => (if negative then "-" else EmptyString) +:+ positive_text m e
  end.

Example numbers_as_texts :
  map number_text [nearest false 1 1; nearest true 9007199254740993 0; nearest false (10 ^ 21) 0;
                   nearest false 123456789012345680000 0; nearest false 5 324; nearest false 1 6; nearest false 1 7;
                   nearest false 30000000000000004 17; nearest false (10 ^ 400) 0; nearest true 0 0] =
  ["0.1"; "-9007199254740992"; "1e+21"; "123456789012345680000"; "5e-324"; "0.000001"; "1e-7"; "0.30000000000000004";
   "Infinity"; "0"].
Proof. vm_compute. reflexivity. Qed.

(** ** Parsing *)

Inductive FilterValue := FText (s : string) | FBool (b : bool) | FNumber (x : spec_float).
Inductive FilterOperator := OpEq | OpNe | OpCo | OpSw | OpEw | OpGt | OpGe | OpLt | OpLe.
Record FilterParseResult := mkFilter {
  f_attribute : string; f_operator : FilterOperator; f_value : FilterValue
}.

#[export] Instance FilterOperator_eq_dec : EqDecision FilterOperator.
Proof. solve_decision. Defined.
#[export] Instance FilterValue_eq_dec : EqDecision FilterValue.
Proof. solve_decision. Defined.

Definition operators : list (string * FilterOperator) :=
  [("eq", OpEq); ("ne", OpNe); ("co", OpCo); ("sw", OpSw); ("ew", OpEw);
   ("gt", OpGt); ("ge", OpGe); ("lt", OpLt); ("le", OpLe)].
Definition operator_of (s : string) : option FilterOperator :=
  snd <$> List.find (fun o => o.1 === s) operators.
Definition operator_name (op : FilterOperator) : string :=
  match List.find (fun o => o.2 === op) operators with Some o => o.1 | None => EmptyString end.

(** The longest prefix in a character class, and the rest. *)
Fixpoint span_chars (f : ascii -> bool) (s : string) : string * string :=
  match s with
  | String c s' => if f c then let '(a, r) := span_chars f s' in (String c a, r) else (EmptyString, s)
  | EmptyString => (EmptyString, EmptyString)
  end.

(** [[\w.]], and the [.] of a regular expression. *)
Definition attribute_char (c : ascii) : bool := word_char c || (c === "."%char).
Definition not_newline (c : ascii) : bool := negb ((N_of_ascii c =? 10)%N || (N_of_ascii c =? 13)%N).

Definition double_quote : ascii := "034"%char.
Definition single_quote : ascii := "039"%char.
Definition quoted_by (q : ascii) (raw : string) : bool :=
  starts_with (String q EmptyString) raw && ends_with (String q EmptyString) raw.

(** [parseFloat(raw)] for [/^-?\d+(\.\d+)?$/]. *)
Definition read_digits (negative : bool) (int frac : string) : spec_float :=
  nearest negative (digits_prefix 10 (int +:+ frac) None ?? 0) (String.length frac).
Definition decimal_number (raw : string) : option spec_float :=
  let '(negative, s) := match raw with
                        | String c s' => if c === "-"%char then (true, s') else (false, raw)
                        | EmptyString => (false, raw)
                        end in
  let '(int, rest) := span_chars dec_char s in
  if int === EmptyString then None else
  match rest with
  | EmptyString => Some (read_digits negative int EmptyString)
  | String c frac => if (c === "."%char) && some_chars dec_char frac then Some (read_digits negative int frac) else None
  end.

Definition parseFilterValue (raw : string) : FilterValue :=
  if raw === "true" then FBool true else
  if raw === "false" then FBool false else
  match decimal_number raw with
  | Some n => FNumber n
  | None =>
      if quoted_by double_quote raw || quoted_by single_quote raw then FText (drop_last (str_drop 1 raw))
      else FText raw
  end.

(** An attribute of [\w.], white space, an operator in any case, white space, and a value
    that starts with neither and has no line break: each part ends where the class of the
    next one begins, so the match of the regular expression is the longest prefix of
    each class.  [None] is the
    BadRequestException. *)
Definition parseScimFilter (filter : string) : option FilterParseResult :=
  let '(attribute, r) := span_chars attribute_char (js_trim filter) in
  let '(space1, r) := span_chars is_space r in
  let '(space2, rawValue) := span_chars is_space (str_drop 2 r) in
  if (attribute === EmptyString) || (space1 === EmptyString) || (space2 === EmptyString) ||
     (rawValue === EmptyString) || negb (all_chars not_newline rawValue) then None
  else match operator_of (to_lower (str_take 2 r)) with
       | Some op => Some (mkFilter attribute op (parseFilterValue (js_trim rawValue)))
       | None => None
       end.

(** ** Where clauses *)

Inductive TextTest := Contains | StartsWith | EndsWith | GreaterThan | AtLeast | LessThan | AtMost.
Inductive Cond := Equals (v : FilterValue) | Not (v : FilterValue) | Test (t : TextTest) (v : FilterValue).

Notation where_clause := (list (string * Cond)).

(** [where[k] = c]. *)
Fixpoint where_set (k : string) (c : Cond) (w : where_clause) : where_clause :=
  match w with
  | [] => [(k, c)]
  | (k', c') :: w' => if k === k' then (k, c) :: w' else (k', c') :: where_set k c w'
  end.
Definition where_spread (w w' : where_clause) : where_clause :=
  foldl (fun acc kc => where_set kc.1 kc.2 acc) w w'.

Definition value_text (v : FilterValue) : string :=
  match v with FText s => s | FBool b => if b then "true" else "false" | FNumber x => number_text x end.

Definition in_realm (realmId : string) : where_clause := [("realmId", Equals (FText realmId))].

Definition cond_of (op : FilterOperator) (v : FilterValue) : Cond :=
  match op with
  | OpEq => Equals v
  | OpNe => Not v
  | OpCo => Test Contains (FText (value_text v))
  | OpSw => Test StartsWith (FText (value_text v))
  | OpEw => Test EndsWith (FText (value_text v))
  | OpGt => Test GreaterThan v
  | OpGe => Test AtLeast v
  | OpLt => Test LessThan v
  | OpLe => Test AtMost v
  end.

Definition attrToField : list (string * string) :=
  [("userName", "username"); ("name.givenName", "firstName"); ("name.familyName", "lastName");
   ("displayName", "displayName"); ("emails.value", "email"); ("active", "enabled"); ("title", "title");
   ("externalId", "federationLink")].
Definition user_field (attribute : string) : string :=
  match List.find (fun a => a.1 === attribute) attrToField with Some a => a.2 | None => attribute end.

Definition scimFilterToPrismaWhereUser (filter realmId : string) : option where_clause :=
  match parseScimFilter filter with
  | None => None
  | Some f => Some (where_set (user_field (f_attribute f)) (cond_of (f_operator f) (f_value f)) (in_realm realmId))
  end.

Definition scimFilterToPrismaWhereGroup (filter realmId : string) : option where_clause :=
  match parseScimFilter filter with
  | None => None
  | Some f =>
      if f_attribute f === "displayName"
      then if includes (f_operator f) [OpEq; OpNe; OpCo; OpSw; OpEw]
           then Some (where_set "name" (cond_of (f_operator f) (f_value f)) (in_realm realmId)) else None
      else if f_attribute f === "externalId"
      then if f_operator f === OpEq then Some (where_set "id" (cond_of OpEq (f_value f)) (in_realm realmId)) else None
      else None
  end.

(** ** What Prisma makes of a clause *)

Inductive Column (R : Type) := TextColumn (get : R -> option string) | BoolColumn (get : R -> bool).
Arguments TextColumn {R}. Arguments BoolColumn {R}.

Definition user_column (k : string) : option (Column User) :=
  match List.find (fun c => c.1 === k)
    [("id", TextColumn (fun u => Some (user_id u))); ("realmId", TextColumn (fun u => Some (user_realmId u)));
     ("username", TextColumn (fun u => Some (user_username u))); ("email", TextColumn user_email);
     ("emailVerified", BoolColumn user_emailVerified); ("firstName", TextColumn user_firstName);
     ("lastName", TextColumn user_lastName); ("enabled", BoolColumn user_enabled);
     ("passwordHash", TextColumn user_passwordHash);
     ("passwordAlgorithm", TextColumn (fun u => Some (user_passwordAlgorithm u)));
     ("federationLink", TextColumn user_federationLink)] with
  | Some c => Some c.2
  | None => None
  end.
Definition group_column (k : string) : option (Column Group) :=
  match List.find (fun c => c.1 === k)
    [("id", TextColumn (fun g => Some (group_id g))); ("realmId", TextColumn (fun g => Some (group_realmId g)));
     ("name", TextColumn (fun g => Some (group_name g)))] with
  | Some c => Some c.2
  | None => None
  end.

Section Meaning.
(** The comparisons and the LIKE patterns of the database. *)
Variable text_test : TextTest -> string -> string -> bool.
Context {R : Type}.
Variable column : string -> option (Column R).
(** Columns of the table that the rows of the model do not have; [None] is a clause
    that Prisma rejects. *)
Variable other_column : string -> Cond -> option (R -> bool).

(** A null column satisfies no comparison; a value of another type is rejected. *)
Definition cond_test (k : string) (c : Cond) : option (R -> bool) :=
  match column k with
  | None => other_column k c
  | Some (TextColumn get) =>
      match c with
      | Equals (FText s) => Some (fun r => bool_decide (get r = Some s))
      | Not (FText s) => Some (fun r => match get r with Some x => x !== s | None => false end)
      | Test t (FText s) => Some (fun r => match get r with Some x => text_test t x s | None => false end)
      | _ => None
      end
  | Some (BoolColumn get) =>
      match c with
      | Equals (FBool b) => Some (fun r => Bool.eqb (get r) b)
      | Not (FBool b) => Some (fun r => negb (Bool.eqb (get r) b))
      | _ => None
      end
  end.

(** All conditions hold; [None] is a PrismaClientValidationError. *)
Fixpoint where_test (w : where_clause) : option (R -> bool) :=
  match w with
  | [] => Some (fun _ => true)
  | (k, c) :: w' =>
      match cond_test k c, where_test w' with
      | Some p, Some q => Some (fun r => p r && q r)
      | _, _ => None
      end
  end.
End Meaning.

(** ** The restriction to the realm *)

Lemma where_set_other k c realmId :
  k <> "realmId" -> where_set k c (in_realm realmId) = in_realm realmId ++ [(k, c)].
Proof. intros Hk. unfold in_realm. cbn [where_set]. by rewrite bool_decide_eq_false_2. Qed.

Lemma user_field_realm attribute : user_field attribute = "realmId" -> attribute = "realmId".
Proof.
  unfold user_field. destruct (List.find _ attrToField) as [a|] eqn:Hf; [|done].
  apply find_elem in Hf as [Hin _]. unfold attrToField in Hin. intros H. exfalso. set_solver.
Qed.

Lemma where_spread_scoped realmId k c :
  k <> "realmId" -> where_spread (in_realm realmId) (in_realm realmId ++ [(k, c)]) = in_realm realmId ++ [(k, c)].
Proof.
  intros Hk. unfold where_spread, in_realm. cbn [app foldl where_set fst snd].
  rewrite (bool_decide_eq_true_2 ("realmId" = "realmId")) by done. cbn [where_set].
  by rewrite (bool_decide_eq_false_2 (k = "realmId")).
Qed.

(** A clause that starts with the restriction admits only rows of the realm. *)
Lemma where_test_user_realm text_test other realmId w p u :
  where_test text_test user_column other (in_realm realmId ++ w) = Some p -> p u = true ->
  user_realmId u = realmId.
Proof.
  unfold in_realm. cbn [where_test app]. unfold cond_test at 1. cbn [user_column List.find fst snd].
  intros Hw. change (user_column "realmId") with (Some (TextColumn (fun u => Some (user_realmId u)))) in Hw.
  cbv iota in Hw. destruct (where_test _ _ _ w) as [q|]; [|done]. injection Hw as <-.
  rewrite andb_true_iff, bool_decide_eq_true. intros [[= H] _]. done.
Qed.

Lemma where_test_group_realm text_test other realmId w p g :
  where_test text_test group_column other (in_realm realmId ++ w) = Some p -> p g = true ->
  group_realmId g = realmId.
Proof.
  unfold in_realm. cbn [where_test app]. unfold cond_test at 1.
  intros Hw. change (group_column "realmId") with (Some (TextColumn (fun g => Some (group_realmId g)))) in Hw.
  cbv iota in Hw. destruct (where_test _ _ _ w) as [q|]; [|done]. injection Hw as <-.
  rewrite andb_true_iff, bool_decide_eq_true. intros [[= H] _]. done.
Qed.

Lemma user_clause_scoped filter realmId w :
  (forall f, parseScimFilter filter = Some f -> f_attribute f <> "realmId") ->
  scimFilterToPrismaWhereUser filter realmId = Some w ->
  exists k c, k <> "realmId" /\ w = in_realm realmId ++ [(k, c)].
Proof.
  unfold scimFilterToPrismaWhereUser. intros Hf Hw. destruct (parseScimFilter filter) as [f|]; [|done].
  injection Hw as <-. eexists _, _. split; [|apply where_set_other]; intros H%user_field_realm; by apply (Hf f).
Qed.

Lemma group_clause_scoped filter realmId w :
  scimFilterToPrismaWhereGroup filter realmId = Some w ->
  exists k c, k <> "realmId" /\ w = in_realm realmId ++ [(k, c)].
Proof.
  unfold scimFilterToPrismaWhereGroup. intros Hw.
  repeat case_match; simplify_eq; eexists _, _; (split; [|by apply where_set_other]); done.
Qed.

(** ** Printing and parsing *)

(** The double of an integer, and the integer that a double is. *)
Definition of_integer (z : Z) : spec_float := nearest (z <? 0) (Z.abs z) 0.
Definition integer_of (x : spec_float) : Z :=
  match x with
  | S754_finite negative m e =>
      let n := if 0 <=? e then Zpos m * 2 ^ e else Zpos m / 2 ^ (- e) in if negative then - n else n
  | _ => 0
  end.

Definition print_value (v : FilterValue) : string :=
  match v with
  | FText s => String double_quote (s +:+ String double_quote EmptyString)
  | FBool b => if b then "true" else "false"
  | FNumber x => int_text (integer_of x)
  end.

(** Texts without line breaks, booleans and the integers that [Number.isSafeInteger] accepts. *)
Definition printable (v : FilterValue) : Prop :=
  match v with
  | FText s => all_chars not_newline s = true
  | FBool _ => True
  | FNumber x => exists z, Z.abs z < 2 ^ 53 /\ x = of_integer z
  end.

(** Integers of at most 53 binary digits are doubles. *)
Lemma digits2_bounds p : 2 ^ (Zpos (digits2_pos p) - 1) <= Zpos p < 2 ^ Zpos (digits2_pos p).
Proof.
  induction p as [p IH|p IH|]; [| |done]; cbn [digits2_pos]; rewrite Pos2Z.inj_succ;
    replace (Z.succ (Zpos (digits2_pos p)) - 1) with (Z.succ (Zpos (digits2_pos p) - 1)) by lia;
    rewrite !Z.pow_succ_r by lia; lia.
Qed.
Lemma digits2_unique p d : 0 < d -> 2 ^ (d - 1) <= Zpos p < 2 ^ d -> Zpos (digits2_pos p) = d.
Proof.
  intros Hd H. pose proof (digits2_bounds p) as Hp.
  destruct (Z.lt_trichotomy (Zpos (digits2_pos p)) d) as [Hl|[Hl|Hl]]; [|done|].
  - assert (2 ^ Zpos (digits2_pos p) <= 2 ^ (d - 1)) by (apply Z.pow_le_mono_r; lia). lia.
  - assert (2 ^ d <= 2 ^ (Zpos (digits2_pos p) - 1)) by (apply Z.pow_le_mono_r; lia). lia.
Qed.
Lemma iter_xO m k : Zpos (Pos.iter xO m k) = Zpos m * 2 ^ Zpos k.
Proof.
  revert m. induction k as [|k IH] using Pos.peano_ind; intros m; [cbn; lia|].
  rewrite Pos.iter_succ, Pos2Z.inj_xO, IH, Pos2Z.inj_succ, Z.pow_succ_r by lia. lia.
Qed.

(** A mantissa of 53 digits needs no rounding. *)
Lemma round_exact negative m e :
  Zpos (digits2_pos m) = 53 -> -1074 <= e <= 971 -> binary_round_aux 53 1024 negative (Zpos m) e loc_Exact = S754_finite negative m e.
Proof.
  intros Hd He. unfold binary_round_aux, shr_fexp. cbn [Zdigits2]. rewrite Hd.
  assert (Hf : fexp 53 1024 (53 + e) - e = 0) by (unfold fexp, emin; lia). rewrite Hf. cbn [shr shr_record_of_loc shr_m loc_of_shr_record round_nearest_even].
  cbn [Zdigits2]. rewrite Hd, Hf. cbn [shr shr_m]. by rewrite (proj2 (Z.leb_le e (1024 - 53))) by lia.
Qed.
Lemma integer_of_integer z : Z.abs z < 2 ^ 53 -> integer_of (of_integer z) = z.
Proof.
  intros Hz. unfold of_integer, nearest. destruct (Z.abs z) as [|p|p] eqn:Ha; [cbn; lia| |lia].
  unfold binary_round. pose proof (digits2_bounds p) as Hp. set (d := Zpos (digits2_pos p)) in *.
  assert (Hd : 1 <= d <= 53).
  { split; [unfold d; lia|]. destruct (Z.le_gt_cases d 53); [done|].
    assert (2 ^ 53 <= 2 ^ (d - 1)) by (apply Z.pow_le_mono_r; lia). lia. }
  assert (Hf : fexp 53 1024 (d + 0) = d - 53) by (unfold fexp, emin; lia). rewrite Hf. unfold shl_align. rewrite Z.sub_0_r.
  assert (Hsign : (if z <? 0 then - Zpos p else Zpos p) = z) by (destruct (Z.ltb_spec z 0); lia).
  destruct (d - 53) as [|q|q] eqn:Hq; [|lia|].
  - rewrite round_exact by lia. cbn. by rewrite Z.mul_1_r.
  - assert (Hi := iter_xO p q). rewrite round_exact; [|apply digits2_unique; [lia|]|lia].
    + unfold integer_of. change (0 <=? Zneg q) with false. cbv iota. rewrite Hi.
      change (- Zneg q) with (Zpos q). by rewrite Z.div_mul by lia.
    + rewrite Hi. replace (53 - 1) with (d - 1 + Zpos q) by lia. replace 53 with (d + Zpos q) by lia.
      rewrite !Z.pow_add_r by lia. nia.
Qed.

(** Text that does not begin with a character of a class. *)
Definition stops (f : ascii -> bool) (s : string) : Prop :=
  match s with String c _ => f c = false | EmptyString => True end.

Lemma span_chars_app f a r : all_chars f a = true -> stops f r -> span_chars f (a +:+ r) = (a, r).
Proof.
  intros Ha Hr. induction a as [|c a IH]; simpl in *.
  - destruct r as [|c r]; simpl in *; [done|]. by rewrite Hr.
  - apply andb_true_iff in Ha as [Hc Ha]. by rewrite Hc, (IH Ha).
Qed.

Lemma trim_start_spaces p s : all_chars is_space p = true -> trim_start (p +:+ s) = trim_start s.
Proof. induction p as [|c p IH]; simpl; [done|]. intros [Hc Hp]%andb_true_iff. rewrite Hc. auto. Qed.

Lemma trim_start_stops s : stops is_space s -> trim_start s = s.
Proof. destruct s as [|c s]; simpl; [done|]. by intros ->. Qed.

Lemma stops_app f s t : s <> EmptyString -> stops f s -> stops f (s +:+ t).
Proof. by destruct s. Qed.

Lemma js_trim_layout pre s post :
  all_chars is_space pre = true -> all_chars is_space post = true -> s <> EmptyString ->
  stops is_space s -> stops is_space (str_rev s) -> js_trim (pre +:+ s +:+ post) = s.
Proof.
  intros Hpre Hpost Hne Hs Hr. unfold js_trim.
  rewrite (trim_start_spaces pre) by done. rewrite (trim_start_stops (s +:+ post)) by (by apply stops_app).
  rewrite str_rev_concat, trim_start_spaces by (by rewrite all_chars_rev).
  rewrite trim_start_stops by done. apply str_rev_rev.
Qed.

Lemma attribute_not_space c : attribute_char c = true -> is_space c = false.
Proof.
  unfold attribute_char, word_char, char_in, is_space. intros H. destruct c as [[] [] [] [] [] [] [] []]; vm_compute in *; congruence.
Qed.

Lemma space_not_attribute c : is_space c = true -> attribute_char c = false.
Proof. intros Hc. destruct (attribute_char c) eqn:Ha; [|done]. apply attribute_not_space in Ha. congruence. Qed.

Lemma operator_of_name op : operator_of (operator_name op) = Some op.
Proof. by destruct op. Qed.

(** The two letters of an operator in any case: no white space. *)
Lemma operator_text opt op :
  to_lower opt = operator_name op ->
  exists a b, opt = String a (String b EmptyString) /\ is_space a = false.
Proof.
  intros H. destruct opt as [|a [|b [|c opt]]]; try (by destruct op). exists a, b. split; [done|].
  destruct (is_space a) eqn:Ha; [|done]. exfalso.
  assert (Hl : lower_ascii a = a).
  { revert Ha. clear. destruct a as [[] [] [] [] [] [] [] []]; vm_compute; congruence. }
  unfold to_lower in H. cbn [str_map] in H. rewrite Hl in H.
  destruct op; injection H as Hx _; subst a; vm_compute in Ha; congruence.
Qed.

Lemma ends_with_last s c : ends_with (String c EmptyString) (s +:+ String c EmptyString) = true.
Proof. apply ends_with_true. by exists s. Qed.

Lemma read_digits_int neg n : 0 <= n -> read_digits neg (to_base 10 n) EmptyString = nearest neg n 0.
Proof. intros Hn. unfold read_digits. rewrite string_app_nil_r, to_base_value by lia. done. Qed.

Lemma decimal_number_digits n : 0 <= n -> span_chars dec_char (to_base 10 n) = (to_base 10 n, EmptyString).
Proof.
  intros Hn. rewrite <- (string_app_nil_r (to_base 10 n)) at 1. apply span_chars_app; [|done].
  assert (H : some_chars dec_char (to_base 10 n) = true) by (apply to_base_chars; [lia|done|intros; by apply dec_char_digit]).
  by apply andb_true_iff in H as [_ H].
Qed.

Lemma decimal_number_int z : decimal_number (int_text z) = Some (of_integer z).
Proof.
  unfold int_text, of_integer. destruct (Z.ltb_spec z 0) as [Hz|Hz].
  - change ("-" +:+ to_base 10 (- z)) with (String "-"%char (to_base 10 (- z))). unfold decimal_number.
    rewrite (bool_decide_eq_true_2 ("-"%char = "-"%char)) by done. cbv iota beta.
    rewrite decimal_number_digits by lia. cbv iota beta.
    rewrite bool_decide_eq_false_2 by (destruct (to_base_shape 10 (- z)) as (d & r & -> & _); [lia..|done]).
    by rewrite read_digits_int, Z.abs_neq by lia.
  - destruct (to_base_shape 10 z) as (d & r & He & Hd & _); [lia..|]. unfold decimal_number. rewrite He. cbv iota beta.
    rewrite (bool_decide_eq_false_2 (digit_char d = "-"%char)).
    2:{ intros Hm. apply (f_equal N_of_ascii) in Hm. rewrite digit_char_code, (proj2 (Z.ltb_lt d 10)) in Hm by lia.
        vm_compute (N_of_ascii "-"%char) in Hm. lia. }
    cbv iota beta. rewrite <- He, decimal_number_digits by lia. cbv iota beta.
    rewrite bool_decide_eq_false_2 by (by rewrite He). by rewrite read_digits_int, Z.abs_eq by lia.
Qed.

(** The printed value: not empty, no white space at either end, one line, and read back. *)
Lemma print_value_shape v :
  printable v ->
  print_value v <> EmptyString /\ stops is_space (print_value v) /\ stops is_space (str_rev (print_value v)) /\
  all_chars not_newline (print_value v) = true.
Proof.
  destruct v as [s|b|n]; simpl printable.
  - intros Hs. cbn [print_value]. split_and!; [done|done| |].
    + change (String double_quote (s +:+ String double_quote EmptyString))
        with ((String double_quote s) +:+ String double_quote EmptyString).
      by rewrite str_rev_concat.
    + cbn [all_chars]. by rewrite all_chars_app, Hs.
  - intros _. by destruct b.
  - intros (z & Hz53 & ->). cbn [print_value]. rewrite integer_of_integer by done.
    assert (Hd : forall m, 0 <= m -> exists r, some_chars dec_char (to_base 10 m) = true /\
              str_rev (to_base 10 m) = r /\ some_chars dec_char r = true).
    { intros m Hm. assert (H : some_chars dec_char (to_base 10 m) = true)
        by (apply to_base_chars; [lia|done|intros; by apply dec_char_digit]).
      eexists. split; [done|]. split; [done|]. unfold some_chars in *. apply andb_true_iff in H as [Hne H].
      rewrite all_chars_rev, H, andb_true_r. apply negb_true_iff, bool_decide_eq_false in Hne.
      apply negb_true_iff, bool_decide_eq_false. intros Hr. apply Hne. by rewrite <- (str_rev_rev (to_base 10 m)), Hr. }
    assert (Hst : forall t, some_chars dec_char t = true -> t <> EmptyString /\ stops is_space t).
    { intros [|c t]; [done|]. unfold some_chars. cbn [all_chars]. intros [_ [Hc _]%andb_true_iff]%andb_true_iff. split; [done|].
      cbn [stops]. apply attribute_not_space. unfold attribute_char, word_char. unfold dec_char in Hc. by rewrite Hc. }
    assert (Hnl : forall t, some_chars dec_char t = true -> all_chars not_newline t = true).
    { intros t [_ Ht]%andb_true_iff. revert Ht. apply all_chars_mono. intros c. 
      destruct c as [[] [] [] [] [] [] [] []]; vm_compute; congruence. }
    unfold int_text. destruct (Z.ltb_spec z 0) as [Hz|Hz].
    + destruct (Hd (- z)) as (r & H1 & H2 & H3); [lia|]. destruct (Hst _ H3) as [Hne Hs].
      rewrite str_rev_concat, H2. split_and!; [done|done|by apply stops_app|]. rewrite all_chars_app. by rewrite (Hnl _ H1).
    + destruct (Hd z) as (r & H1 & H2 & H3); [lia|]. rewrite H2. destruct (Hst _ H1), (Hst _ H3). split_and!; auto.
Qed.

Lemma parse_print_value v : printable v -> parseFilterValue (print_value v) = v.
Proof.
  destruct v as [s|b|n]; simpl printable.
  - intros Hs. unfold parseFilterValue. cbn [print_value].
    rewrite !bool_decide_eq_false_2 by done. change (decimal_number _) with (@None spec_float). cbv iota.
    assert (Hq : quoted_by double_quote (String double_quote (s +:+ String double_quote EmptyString)) = true).
    { unfold quoted_by. apply andb_true_iff. split.
      - apply starts_with_true. by exists (s +:+ String double_quote EmptyString).
      - apply (ends_with_last (String double_quote s)). }
    rewrite Hq. cbn [orb str_drop]. by rewrite drop_last_app.
  - by destruct b.
  - intros (z & Hz & ->). cbn [print_value]. rewrite integer_of_integer by done. unfold parseFilterValue.
    assert (Hne : forall t, decimal_number t = None -> int_text z <> t).
    { intros t Ht He. pose proof (decimal_number_int z) as H. rewrite He in H. congruence. }
    rewrite !bool_decide_eq_false_2 by (by apply Hne). by rewrite decimal_number_int.
Qed.

(** C40. Filters are read back: an attribute, an operator in upper or lower case and a value
    (a quoted text of any characters but line breaks, quotes included, a boolean or a safe
    integer, below 2^53 in size), separated and surrounded by any white space, are parsed
    into exactly that attribute, operator and value. *)
Theorem filter_roundtrip attribute op v opt pre sp1 sp2 post :
  some_chars attribute_char attribute = true -> to_lower opt = operator_name op -> printable v ->
  all_chars is_space pre = true -> some_chars is_space sp1 = true -> some_chars is_space sp2 = true ->
  all_chars is_space post = true ->
  parseScimFilter (pre +:+ (attribute +:+ sp1 +:+ opt +:+ sp2 +:+ print_value v) +:+ post) =
    Some (mkFilter attribute op v).
Proof.
  intros Ha Hop Hv Hpre Hs1 Hs2 Hpost. unfold some_chars in Ha, Hs1, Hs2. rewrite andb_true_iff, negb_true_iff in Ha, Hs1, Hs2.
  destruct Ha as [Hane Ha], Hs1 as [Hs1ne Hs1], Hs2 as [Hs2ne Hs2].
  destruct (print_value_shape v Hv) as (Hne & Hst & Hrev & Hnl).
  destruct (operator_text opt op Hop) as (a & b & -> & Hasp).
  set (body := attribute +:+ sp1 +:+ _). unfold parseScimFilter.
  assert (Hbody : js_trim (pre +:+ body +:+ post) = body).
  { apply js_trim_layout; [done|done| | |].
    - unfold body. by destruct attribute.
    - unfold body. apply stops_app; [by apply bool_decide_eq_false in Hane|]. destruct attribute as [|c r]; [done|].
      cbn [all_chars] in Ha. apply andb_true_iff in Ha as [Hc _]. by apply attribute_not_space.
    - unfold body. rewrite !str_rev_concat, !string_app_assoc.
      apply stops_app; [|done]. intros Hz. apply Hne. by rewrite <- (str_rev_rev (print_value v)), Hz. }
  rewrite Hbody. unfold body.
  rewrite (span_chars_app attribute_char) by (done || (destruct sp1 as [|c sp1]; [done|]; cbn [all_chars] in Hs1;
    apply andb_true_iff in Hs1 as [Hc _]; by apply space_not_attribute)).
  cbv iota beta. rewrite (span_chars_app is_space) by done. cbv iota beta.
  change (str_drop 2 (String a (String b EmptyString) +:+ sp2 +:+ print_value v)) with (sp2 +:+ print_value v).
  rewrite (span_chars_app is_space) by done. cbv iota beta.
  rewrite Hane, Hs1ne, Hs2ne, Hnl, (bool_decide_eq_false_2 _ Hne). cbn [orb negb].
  change (str_take 2 (String a (String b EmptyString) +:+ sp2 +:+ print_value v)) with (String a (String b EmptyString)).
  rewrite Hop, operator_of_name.
  pose proof (js_trim_layout EmptyString (print_value v) EmptyString eq_refl eq_refl Hne Hst Hrev) as Htrim.
  rewrite string_app_nil_r in Htrim. change (EmptyString +:+ print_value v) with (print_value v) in Htrim.
  by rewrite Htrim, parse_print_value.
Qed.

Example filter_roundtrip_witness :
  parseScimFilter "  emails.value  EQ 42 " = Some (mkFilter "emails.value" OpEq (FNumber (of_integer 42))).
Proof.
  apply (filter_roundtrip "emails.value" OpEq (FNumber (of_integer 42)) "EQ" "  " "  " " " " ");
    [reflexivity | reflexivity | exists 42; split; [lia | reflexivity] | reflexivity | reflexivity | reflexivity | reflexivity].
Defined.

(** Larger integers are rounded as the code rounds them. *)
Example large_integers_are_rounded :
  option_map (fun f => value_text (f_value f)) (parseScimFilter "id eq 9007199254740993") = Some "9007199254740992".
Proof. vm_compute. reflexivity. Qed.
