(* ===== verification/ScimTokens.v ===== *)
(** * ScimTokens: the bearer tokens of SCIM clients
      (src/src/scim/scim-tokens.service.ts, scim/guards/scim-auth.guard.ts)

    Tokens are 32 characters drawn by rejection sampling, stored by their hash; the guard
    admits a request to the realm named in its path. *)

From S2P Require Import Prelude Prog JsText Json Schema Store StoreFacts Crypto Events Testbed.

Record CreateScimTokenDto := mkCreateScimTokenDto {
  cst_name : string; cst_description : option string; cst_scopes : option (list string); cst_expiresAt : option Z
}.

(** ** Drawing a token *)

Definition chars : string := "ABCDEFGHIJKLMNOPQRSTUVWXYZabcdefghijklmnopqrstuvwxyz0123456789-_.~".
Definition TOKEN_LENGTH : nat := 32.
Definition limit : Z := 256 / Z.of_nat (String.length chars) * Z.of_nat (String.length chars).

Definition byte_of (c : ascii) : Z := Z.of_N (N_of_ascii c).
Definition accepted (c : ascii) : bool := byte_of c <? limit.
(** [chars[buffer[i] % chars.length]]. *)
Definition symbol (c : ascii) : ascii :=
  match String.get (Z.to_nat (byte_of c mod Z.of_nat (String.length chars))) chars with
  | Some x => x
  | None => "000"%char
  end.

(** The inner loop: one buffer, until the token is long enough. *)
Fixpoint take_bytes (buffer token : string) : string :=
  match buffer with
  | EmptyString => token
  | String c buffer' =>
      if (String.length token <? TOKEN_LENGTH)%nat
      then take_bytes buffer' (if accepted c then token +:+ String (symbol c) EmptyString else token)
      else token
  end.

Section Service.
Context {E : Env}.

Definition random_buffer (size : nat) : M string := atom (fun w => (random_bytes size (w_draws w), next_draw w)).

(** The outer loop draws buffers until the token is long enough; [rounds] bounds it. *)
Fixpoint token_loop (rounds : nat) (token : string) : M string :=
  if (String.length token <? TOKEN_LENGTH)%nat then
    match rounds with
    | O => Throw (PlainError "out of rounds")
    | S rounds => (buffer <- random_buffer TOKEN_LENGTH ;; token_loop rounds (take_bytes buffer token))%prog
    end
  else Ret token.
Definition generateToken (rounds : nat) : M string := token_loop rounds EmptyString.

(** ** Tokens *)

Definition DEFAULT_SCOPES : list string := ["urn:scim:schemas:core:1.0:Users"; "urn:scim:schemas:core:1.0:Groups"].

Definition token_event (realmId operationType resourcePath : string) : M unit :=
  recordAdminEvent_body (mkAdminEventParams realmId "system" operationType "SCIM_TOKEN" resourcePath None).
Definition tokens_path (realmId : string) : string := "/admin/realms/" +:+ realmId +:+ "/scim-tokens".

Definition createToken (rounds : nat) (realmId : string) (dto : CreateScimTokenDto)
  : M (ScimProvisioningToken * string) :=
  (existing <- find_first TScimToken (fun t => (sct_realmId t === realmId) && (sct_name t === cst_name dto)) ;;
   match existing with
   | Some _ => Throw (Conflict ("Token with name '" +:+ cst_name dto +:+ "' already exists"))
   | None =>
       plainToken <- generateToken rounds ;;
       token <- create TScimToken (fun id createdAt =>
         mkScimProvisioningToken id realmId (cst_name dto) (cst_description dto) true
           (cst_scopes dto ?? DEFAULT_SCOPES) createdAt (cst_expiresAt dto) None 0 false None (sha256 plainToken)) ;;
       token_event realmId "CREATE" (tokens_path realmId) ;;;
       Ret (token, plainToken)
   end)%prog.

Definition getTokens (realmId : string) : M (list ScimProvisioningToken) :=
  find_many_desc TScimToken (fun t => sct_realmId t === realmId) sct_createdAt.

Definition getTokenById (realmId tokenId : string) : M ScimProvisioningToken :=
  (token <- find_first TScimToken (fun t => (sct_id t === tokenId) && (sct_realmId t === realmId)) ;;
   match token with
   | Some t => Ret t
   | None => Throw (NotFound "Token not found")
   end)%prog.

Definition set_token_revoked (at_ : Z) (t : ScimProvisioningToken) : ScimProvisioningToken :=
  mkScimProvisioningToken (sct_id t) (sct_realmId t) (sct_name t) (sct_description t) (sct_enabled t) (sct_scopes t)
    (sct_createdAt t) (sct_expiresAt t) (sct_lastUsedAt t) (sct_requestCount t) true (Some at_) (sct_tokenHash t).
Definition set_token_enabled (b : bool) (t : ScimProvisioningToken) : ScimProvisioningToken :=
  mkScimProvisioningToken (sct_id t) (sct_realmId t) (sct_name t) (sct_description t) b (sct_scopes t)
    (sct_createdAt t) (sct_expiresAt t) (sct_lastUsedAt t) (sct_requestCount t) (sct_revoked t) (sct_revokedAt t)
    (sct_tokenHash t).
Definition set_token_used (at_ : Z) (t : ScimProvisioningToken) : ScimProvisioningToken :=
  mkScimProvisioningToken (sct_id t) (sct_realmId t) (sct_name t) (sct_description t) (sct_enabled t) (sct_scopes t)
    (sct_createdAt t) (sct_expiresAt t) (Some at_) (sct_requestCount t + 1) (sct_revoked t) (sct_revokedAt t)
    (sct_tokenHash t).

Definition revokeToken (realmId tokenId : string) : M unit :=
  (getTokenById realmId tokenId ;;;
   now <- date_now ;;
   update TScimToken (fun t => sct_id t === tokenId) (set_token_revoked now) ;;;
   token_event realmId "DELETE" (tokens_path realmId +:+ "/" +:+ tokenId))%prog.

Definition setTokenEnabled (realmId tokenId : string) (enabled : bool) : M unit :=
  (getTokenById realmId tokenId ;;;
   update TScimToken (fun t => sct_id t === tokenId) (set_token_enabled enabled) ;;;
   token_event realmId "UPDATE" (tokens_path realmId +:+ "/" +:+ tokenId))%prog.

Definition deleteToken (realmId tokenId : string) : M unit :=
  (getTokenById realmId tokenId ;;;
   delete_one TScimToken (fun t => sct_id t === tokenId) ;;;
   token_event realmId "DELETE" (tokens_path realmId +:+ "/" +:+ tokenId))%prog.

Definition is_past (expiresAt : option Z) (now : Z) : bool :=
  match expiresAt with Some e => e <? now | None => false end.

Definition use_token (t : ScimProvisioningToken) : M unit :=
  (now <- date_now ;;
   update TScimToken (fun x => sct_id x === sct_id t) (set_token_used now) ;;;
   Ret tt)%prog.

Definition validateToken (realmId plainToken : string) : M (option ScimProvisioningToken) :=
  (token <- find_first TScimToken (fun t => sct_tokenHash t === sha256 plainToken) ;;
   match token with
   | None => Ret None
   | Some t =>
       if sct_realmId t !== realmId then Ret None else
       if sct_revoked t then Ret None else
       if negb (sct_enabled t) then Ret None else
       now <- date_now ;;
       if is_past (sct_expiresAt t) now then Ret None else
       use_token t ;;; Ret (Some t)
   end)%prog.

(** ** The guard *)

(** The segment two after the first [scim], or [master]. *)
Fixpoint position (x : string) (l : list string) : option nat :=
  match l with
  | [] => None
  | y :: l' => if y === x then Some 0%nat else S <$> position x l'
  end.
Definition realm_of_path (path : string) : string :=
  let parts := js_split "/"%char path in
  let i := match position "scim" parts with Some i => (i + 2)%nat | None => 1%nat end in
  match parts !! i with
  | Some name => if name === EmptyString then "master" else name
  | None => "master"
  end.

Definition canActivate (path : string) (authorization : option string) : M (ScimProvisioningToken * Realm) :=
  (realm <- find_first TRealm (fun r => realm_name r === realm_of_path path) ;;
   match realm with
   | None => Throw (Unauthorized "Realm not found")
   | Some realm =>
       if negb (realm_scimEnabled realm)
       then Throw (Unauthorized "SCIM provisioning is not enabled for this realm") else
       match authorization with
       | None => Throw (Unauthorized "Missing or invalid Authorization header")
       | Some header =>
           if negb (starts_with "Bearer " header)
           then Throw (Unauthorized "Missing or invalid Authorization header") else
           let token := str_drop 7 header in
           if (String.length token <? 8)%nat then Throw (Unauthorized "Invalid bearer token") else
           scimToken <- find_first TScimToken (fun t => sct_tokenHash t === sha256 token) ;;
           match scimToken with
           | None => Throw (Unauthorized "Invalid SCIM token")
           | Some t =>
               if sct_revoked t then Throw (Unauthorized "SCIM token has been revoked") else
               if sct_realmId t !== realm_id realm
               then Throw (Unauthorized "SCIM token is not valid for this realm") else
               now <- date_now ;;
               if is_past (sct_expiresAt t) now then Throw (Unauthorized "SCIM token has expired") else
               if negb (sct_enabled t) then Throw (Unauthorized "SCIM token is disabled") else
               use_token t ;;; Ret (t, realm)
           end
       end
   end)%prog.
End Service.

(** ** Unbiased tokens *)

Definition all_bytes : list ascii := map ascii_of_nat (seq 0 256).

(** Every symbol stands for the same number of accepted bytes. *)
Lemma symbols_unbiased c :
  c ∈ String.list_ascii_of_string chars ->
  length (List.filter (fun b => accepted b && (symbol b === c)) all_bytes) = 3%nat.
Proof.
  assert (H : forallb (fun c => Nat.eqb (length (List.filter (fun b => accepted b && (symbol b === c)) all_bytes)) 3)
                (String.list_ascii_of_string chars) = true) by (vm_compute; reflexivity).
  rewrite forallb_forall in H. intros Hc%list_elem_of_In%H. by apply Nat.eqb_eq.
Qed.

(** The accepted bytes of a buffer, in order. *)
Fixpoint accepted_symbols (s : string) : string :=
  match s with
  | EmptyString => EmptyString
  | String c s' => if accepted c then String (symbol c) (accepted_symbols s') else accepted_symbols s'
  end.

Lemma length_str_app (s t : string) : String.length (s +:+ t) = (String.length s + String.length t)%nat.
Proof. induction s as [|c s IH]; simpl; [done|]. by rewrite IH. Qed.

Lemma str_take_all n s : (String.length s <= n)%nat -> str_take n s = s.
Proof. revert s. induction n as [|n IH]; intros [|c s]; simpl; intros H; try done; [lia|]. by rewrite IH by lia. Qed.

Lemma str_take_app n s t : (String.length s <= n)%nat -> str_take n (s +:+ t) = s +:+ str_take (n - String.length s) t.
Proof.
  revert s. induction n as [|n IH]; intros [|c s]; simpl; intros H; try done; [lia|].
  rewrite IH by lia. done.
Qed.

Lemma str_take_length n s : String.length (str_take n s) = Nat.min n (String.length s).
Proof. revert s. induction n as [|n IH]; intros [|c s]; simpl; try done. by rewrite IH. Qed.

Lemma take_bytes_spec buffer token :
  (String.length token <= TOKEN_LENGTH)%nat ->
  take_bytes buffer token = str_take TOKEN_LENGTH (token +:+ accepted_symbols buffer).
Proof.
  revert token. induction buffer as [|c buffer IH]; intros token Hlen; cbn [take_bytes accepted_symbols].
  - by rewrite string_app_nil_r, str_take_all.
  - destruct (Nat.ltb_spec (String.length token) TOKEN_LENGTH) as [Hlt|Hge].
    + destruct (accepted c); [|by apply IH].
      rewrite IH by (rewrite length_str_app; simpl; lia). by rewrite string_app_assoc.
    + rewrite str_take_app by done. replace (TOKEN_LENGTH - String.length token)%nat with 0%nat by lia.
      cbn [str_take]. by rewrite string_app_nil_r.
Qed.

Section Spec.
Context {E : Env}.

(** The accepted symbols of [n] draws. *)
Fixpoint symbol_stream (draw n : nat) : string :=
  match n with
  | O => EmptyString
  | S n' => accepted_symbols (random_bytes TOKEN_LENGTH draw) +:+ symbol_stream (S draw) n'
  end.

Lemma str_take_take_app n s t : str_take n (str_take n s +:+ t) = str_take n (s +:+ t) \/ (String.length s < n)%nat.
Proof.
  destruct (Nat.le_gt_cases n (String.length s)) as [Hle|]; [left|by right].
  revert s Hle. induction n as [|n IH]; intros s Hle; [done|]. destruct s as [|c s]; simpl in *; [lia|]. by rewrite IH by lia.
Qed.

Lemma str_take_prefix n s t : (n <= String.length s)%nat -> str_take n (s +:+ t) = str_take n s.
Proof.
  revert s. induction n as [|n IH]; intros s H; [done|]. destruct s as [|c s]; simpl in *; [lia|]. by rewrite IH by lia.
Qed.

Lemma run_token_loop rounds token w :
  (String.length token <= TOKEN_LENGTH)%nat ->
  (TOKEN_LENGTH <= String.length token + String.length (symbol_stream (w_draws w) rounds))%nat ->
  exists w', run (token_loop rounds token) w =
    (inr (str_take TOKEN_LENGTH (token +:+ symbol_stream (w_draws w) rounds)), w') /\ frame [] w w'.
Proof.
  revert token w. induction rounds as [|rounds IH]; intros token w Hlen Hall; cbn [token_loop].
  - simpl in Hall. rewrite (proj2 (Nat.ltb_ge _ _)) by lia. exists w. split; [|reflexivity].
    cbn [symbol_stream run]. by rewrite string_app_nil_r, str_take_all.
  - destruct (Nat.ltb_spec (String.length token) TOKEN_LENGTH) as [Hlt|Hge].
    + rewrite run_bind. unfold random_buffer. rewrite run_atom. cbn [fst snd]. rewrite take_bytes_spec by done.
      set (s := token +:+ accepted_symbols (random_bytes TOKEN_LENGTH (w_draws w))).
      cbn [symbol_stream] in Hall |- *. rewrite length_str_app in Hall.
      assert (Hs : str_take TOKEN_LENGTH (str_take TOKEN_LENGTH s +:+ symbol_stream (S (w_draws w)) rounds) =
                   str_take TOKEN_LENGTH (s +:+ symbol_stream (S (w_draws w)) rounds)).
      { destruct (str_take_take_app TOKEN_LENGTH s (symbol_stream (S (w_draws w)) rounds)) as [H|H]; [done|].
        by rewrite (str_take_all _ s) by lia. }
      destruct (IH (str_take TOKEN_LENGTH s) (next_draw w)) as (w' & Hr & Hf).
      * rewrite str_take_length. lia.
      * rewrite str_take_length. unfold s. rewrite length_str_app. cbn [next_draw w_draws]. lia.
      * exists w'. rewrite Hr. cbn [next_draw w_draws]. rewrite Hs. unfold s. rewrite string_app_assoc. split; [done|].
        transitivity (next_draw w); [by repeat split|done].
    + exists w. split; [|reflexivity]. cbn [run]. rewrite str_take_prefix, str_take_all by lia. done.
Qed.
End Spec.

(** C38. Drawing a token ends and is unbiased: as soon as the buffers drawn contain 32 usable
    bytes the loop stops with a token of 32 characters, the symbols of the first 32
    usable bytes in order and nothing else, and each of the 66 symbols stands for
    exactly three of the 256 values of a byte. *)
Theorem generateToken_spec {E : Env} rounds w :
  (TOKEN_LENGTH <= String.length (symbol_stream (w_draws w) rounds))%nat ->
  (exists w', run (generateToken rounds) w = (inr (str_take TOKEN_LENGTH (symbol_stream (w_draws w) rounds)), w') /\
     frame [] w w') /\
  String.length (str_take TOKEN_LENGTH (symbol_stream (w_draws w) rounds)) = TOKEN_LENGTH /\
  forall c, c ∈ String.list_ascii_of_string chars ->
    length (List.filter (fun b => accepted b && (symbol b === c)) all_bytes) = 3%nat.
Proof.
  intros H. split; [|split; [rewrite str_take_length; lia|apply symbols_unbiased]].
  apply (run_token_loop rounds EmptyString w); simpl; [lia|done].
Qed.

Example generateToken_spec_witness :
  exists w', run (generateToken (E:=test_env) 1) world1 = (inr (repeat_char 32 "~"%char), w').
Proof.
  destruct (generateToken_spec (E:=test_env) 1 world1) as [(w' & H & _) _]; [apply Nat.leb_le; vm_compute; reflexivity|].
  exists w'. rewrite H. vm_compute. reflexivity.
Defined.

(** ** The guard admits *)

Section Guard.
Context {E : Env}.

Record admitted (path : string) (authorization : option string) (w : World) (t : ScimProvisioningToken)
    (realm : Realm) : Prop := {
  ad_realm : realm ∈ rows TRealm w /\ realm_name realm = realm_of_path path /\ realm_scimEnabled realm = true;
  ad_header : exists bearer, authorization = Some ("Bearer " +:+ bearer) /\ (8 <= String.length bearer)%nat /\
                sct_tokenHash t = sha256 bearer;
  ad_token : t ∈ rows TScimToken w /\ sct_realmId t = realm_id realm;
  ad_live : sct_revoked t = false /\ sct_enabled t = true /\ forall e, sct_expiresAt t = Some e -> w_now w <= e
}.

Lemma is_past_false expiresAt now : is_past expiresAt now = false <-> forall e, expiresAt = Some e -> now <= e.
Proof.
  unfold is_past. destruct expiresAt as [e|]; [|done]. rewrite Z.ltb_ge. split; [by intros H ? [= <-]|auto].
Qed.

Lemma run_use_token t w : 
  w_db_up w = true -> t ∈ rows TScimToken w -> exists w', run (use_token t) w = (inr tt, w').
Proof.
  intros Hup Ht. unfold use_token. rewrite run_bind, run_date_now. cbv iota beta. rewrite run_bind.
  destruct (find_from_elem (fun x => sct_id x === sct_id t) _ _ Ht) as [x Hx]; [by apply bool_decide_eq_true|].
  rewrite (run_update TScimToken _ _ _ _ Hup Hx). by eexists.
Qed.
End Guard.

(** The SCIM guard: a request is admitted only to the realm named in its path, where SCIM
    is enabled, with a bearer token of at least eight characters whose hash is stored
    for that very realm and that is enabled, unrevoked and not past its expiry. *)
Theorem scim_guard_sound {E : Env} path authorization w t realm w' :
  run (canActivate path authorization) w = (inr (t, realm), w') -> admitted path authorization w t realm.
Proof.
  unfold canActivate. intros Hr. apply run_bind_inr in Hr as (o & w1 & Ho & Hr). run_stmt_inv Ho. subst o.
  destruct (List.find _ (rows TRealm w)) as [r|] eqn:Hrealm; [|done]. apply find_elem in Hrealm as [Hin Hname%bool_decide_eq_true].
  destruct (realm_scimEnabled r) eqn:Hen; [|done]. cbn [negb] in Hr. destruct authorization as [header|]; [|done].
  destruct (starts_with "Bearer " header) eqn:Hb; [|done]. apply starts_with_true in Hb as [bearer ->]. cbn [negb] in Hr.
  cbv zeta in Hr. change (str_drop 7 ("Bearer " +:+ bearer)) with bearer in Hr.
  destruct (Nat.ltb_spec (String.length bearer) 8) as [|Hlen]; [done|].
  apply run_bind_inr in Hr as (o & w1 & Ho & Hr). run_stmt_inv Ho. subst o.
  destruct (List.find _ (rows TScimToken w)) as [t0|] eqn:Htok; [|done].
  apply find_elem in Htok as [Htin Hhash%bool_decide_eq_true].
  destruct (sct_revoked t0) eqn:Hrev; [done|]. destruct (bool_decide_reflect (sct_realmId t0 = realm_id r)) as [Hreq|]; [|done].
  cbn [negb] in Hr. apply run_bind_inr in Hr as (now & w1 & Hn & Hr). run_stmt_inv Hn. cbn [fst snd] in Hr.
  destruct (is_past (sct_expiresAt t0) (w_now w)) eqn:Hpast; [done|].
  destruct (sct_enabled t0) eqn:Hten; [|done]. cbn [negb] in Hr.
  apply run_bind_inr in Hr as ([] & w2 & _ & Hr). injection Hr as <- <- _.
  split; [done| |done|]; [by exists bearer|]. split; [done|]. split; [done|]. by apply is_past_false.
Qed.

Definition scim_token : ScimProvisioningToken :=
  mkScimProvisioningToken "st-1" "realm-1" "hr" None true DEFAULT_SCOPES 0 (Some 2000000000) None 0 false None
    (to_hex "hr-secret-token").
Definition scim_world : World := with_rows TScimToken [scim_token] world1.

Example scim_guard_sound_witness :
  admitted (E:=test_env) "/scim/v2/acme/Users" (Some "Bearer hr-secret-token") scim_world scim_token realm0.
Proof.
  apply (scim_guard_sound (E:=test_env) "/scim/v2/acme/Users" (Some "Bearer hr-secret-token") scim_world scim_token realm0
           (run (canActivate (E:=test_env) "/scim/v2/acme/Users" (Some "Bearer hr-secret-token")) scim_world).2).
  vm_compute. reflexivity.
Defined.

(** ** The life of a token *)

Section Life.
Context {E : Env}.

Lemma token_event_footprint realmId op path : stable (frame [TAdminEvent]) (token_event realmId op path).
Proof. unfold token_event, recordAdminEvent_body. footprint. Qed.

Lemma run_token_loop_inr rounds token w s w' :
  run (token_loop rounds token) w = (inr s, w') -> (TOKEN_LENGTH <= String.length s)%nat /\ frame [] w w'.
Proof.
  revert token w. induction rounds as [|rounds IH]; intros token w; cbn [token_loop];
    destruct (Nat.ltb_spec (String.length token) TOKEN_LENGTH) as [Hlt|Hge]; try done;
    try (by intros [= <- <-]; split; [lia|reflexivity]).
  intros Hr. apply run_bind_inr in Hr as (b & w1 & Hb & [Hl Hf]%IH). split; [done|].
  apply run_atom_inr in Hb as [_ ->]. transitivity (next_draw w); [by repeat split|done].
Qed.

Lemma run_createToken_inr rounds realmId dto w t plain w' :
  run (createToken rounds realmId dto) w = (inr (t, plain), w') ->
  rows TScimToken w' = rows TScimToken w ++ [t] /\ (forall x, x ∈ rows TScimToken w -> sct_tokenHash x <> sct_tokenHash t) /\
  sct_tokenHash t = sha256 plain /\ (8 <= String.length plain)%nat /\ sct_realmId t = realmId /\
  sct_revoked t = false /\ sct_enabled t = true /\ sct_expiresAt t = cst_expiresAt dto /\ w_db_up w' = true /\
  w_now w' = w_now w.
Proof.
  unfold createToken. intros Hr. apply run_bind_inr in Hr as (o & w1 & Ho & Hr). run_stmt_inv Ho. subst o.
  destruct (List.find _ _); [done|]. apply run_bind_inr in Hr as (s & w1 & [Hl Hf]%run_token_loop_inr & Hr).
  apply run_bind_inr in Hr as (t0 & w2 & Hc & Hr). apply run_create_inr in Hc as (-> & -> & Hu & Hup).
  apply run_bind_inr in Hr as ([] & w3 & He & Hr). injection Hr as <- <- <-.
  apply (run_frame [TAdminEvent]) in He as (Hrows & Hnow & Hup' & _); [|apply token_event_footprint].
  destruct Hf as (Hf & Hfn & Hfu & _). assert (Hrt : rows TScimToken w1 = rows TScimToken w) by (apply Hf; set_solver).
  rewrite Hrows by set_solver. rewrite rows_with_rows_eq. rewrite Hrt in Hu |- *. split; [done|].
  split.
  { intros x Hx Heq. cbn [unique_ok] in Hu. apply negb_true_iff in Hu. 
    assert (Hex : existsb (fun y => sct_tokenHash y === sha256 s) (rows TScimToken w) = true).
    { apply existsb_exists. exists x. split; [by apply list_elem_of_In|]. by apply bool_decide_eq_true_2. }
    cbn [sct_tokenHash] in Hu. congruence. }
  unfold TOKEN_LENGTH in Hl. split_and!; try done; [lia|by rewrite Hup'|]. rewrite Hnow. simpl. done.
Qed.

(** The row of a token is found by its hash when no other row has it. *)
Lemma find_only_hash h l (t : ScimProvisioningToken) :
  (forall x, x ∈ l -> sct_tokenHash x = h -> x = t) -> t ∈ l -> sct_tokenHash t = h ->
  List.find (fun x => sct_tokenHash x === h) l = Some t.
Proof.
  intros Honly Ht Hh. destruct (find_from_elem (fun x => sct_tokenHash x === h) l t Ht) as [x Hx]; [by apply bool_decide_eq_true|].
  rewrite Hx. apply find_elem in Hx as [Hin Hp%bool_decide_eq_true]. by rewrite (Honly x).
Qed.

Lemma update_first_last {A} (p : A -> bool) f l x :
  (forall y, y ∈ l -> p y = false) -> p x = true -> update_first p f (l ++ [x]) = l ++ [f x].
Proof.
  induction l as [|y l IH]; simpl; intros Hl Hx; [by rewrite Hx|]. rewrite Hl by set_solver. f_equal. apply IH; set_solver.
Qed.

Lemma run_revokeToken_inr realmId tokenId w w' :
  run (revokeToken realmId tokenId) w = (inr tt, w') ->
  exists at_, rows TScimToken w' = update_first (fun t => sct_id t === tokenId) (set_token_revoked at_) (rows TScimToken w).
Proof.
  unfold revokeToken. intros Hr. apply run_bind_inr in Hr as (t0 & w1 & Hg & Hr).
  assert (w1 = w) as ->.
  { unfold getTokenById in Hg. apply run_bind_inr in Hg as (o & w2 & Ho & Hg). run_stmt_inv Ho. subst o.
    destruct (List.find _ _); [by injection Hg as _ <-|done]. }
  apply run_bind_inr in Hr as (now & w1 & Hn & Hr). run_stmt_inv Hn. cbn [fst snd] in Hr.
  apply run_bind_inr in Hr as (t1 & w2 & Hu & He). apply run_update_inr in Hu as (t2 & Hf & -> & -> & _).
  apply (run_frame [TAdminEvent]) in He as [He _]; [|apply token_event_footprint].
  exists (w_now w). rewrite He, rows_with_rows_eq by set_solver. done.
Qed.

Lemma run_canActivate_ok path plain w t realm :
  w_db_up w = true -> List.find (fun r => realm_name r === realm_of_path path) (rows TRealm w) = Some realm ->
  realm_scimEnabled realm = true -> (8 <= String.length plain)%nat ->
  List.find (fun x => sct_tokenHash x === sha256 plain) (rows TScimToken w) = Some t ->
  sct_realmId t = realm_id realm -> sct_revoked t = false -> sct_enabled t = true ->
  is_past (sct_expiresAt t) (w_now w) = false ->
  exists w', run (canActivate path (Some ("Bearer " +:+ plain))) w = (inr (t, realm), w').
Proof.
  intros Hup Hr Hen Hlen Ht Hreq Hrev Hten Hpast. unfold canActivate.
  rewrite (run_bind_ok _ _ _ _ _ (run_find_first_eq TRealm _ w _ Hup Hr)), Hen. cbn [negb].
  change (starts_with "Bearer " ("Bearer " +:+ plain)) with (starts_with EmptyString plain). cbn [starts_with negb]. cbv zeta.
  change (str_drop 7 ("Bearer " +:+ plain)) with plain. rewrite (proj2 (Nat.ltb_ge _ _)) by lia.
  rewrite (run_bind_ok _ _ _ _ _ (run_find_first_eq TScimToken _ w _ Hup Ht)), Hrev, Hreq, bool_decide_eq_true_2 by done.
  cbn [negb]. rewrite run_bind, run_date_now. cbv iota beta. rewrite Hpast, Hten. cbn [negb].
  apply find_elem in Ht as [Hin _]. destruct (run_use_token t w Hup Hin) as [w' Hu].
  exists w'. rewrite run_bind, Hu. reflexivity.
Qed.

Lemma run_canActivate_unusable path plain w r w' :
  (forall x, x ∈ rows TScimToken w -> sct_tokenHash x = sha256 plain -> sct_revoked x = true) ->
  run (canActivate path (Some ("Bearer " +:+ plain))) w <> (inr r, w').
Proof.
  intros Hall Hr. destruct r as [t realm].
  unfold canActivate in Hr. apply run_bind_inr in Hr as (o & w1 & Ho & Hr). run_stmt_inv Ho. subst o.
  destruct (List.find _ (rows TRealm w)) as [r|]; [|done]. destruct (realm_scimEnabled r); [|done]. cbn [negb] in Hr.
  destruct (starts_with _ _); [|done]. cbn [negb] in Hr. cbv zeta in Hr. change (str_drop 7 ("Bearer " +:+ plain)) with plain in Hr.
  destruct (_ <? _)%nat; [done|]. apply run_bind_inr in Hr as (o & w1 & Ho & Hr). run_stmt_inv Ho. subst o.
  destruct (List.find _ (rows TScimToken w)) as [x|] eqn:Hx; [|done]. apply find_elem in Hx as [Hin Hh%bool_decide_eq_true].
  by rewrite (Hall x Hin Hh) in Hr.
Qed.
End Life.

(** The life of a token: the token that [createToken] hands out opens its realm until its
    expiry, and from the moment it is revoked no request with it is admitted anywhere. *)
Theorem token_lifecycle {E : Env} rounds realmId dto w t plain w' :
  run (createToken rounds realmId dto) w = (inr (t, plain), w') ->
  (forall x, x ∈ rows TScimToken w -> sct_id x <> sct_id t) ->
  (forall path realm, List.find (fun r => realm_name r === realm_of_path path) (rows TRealm w') = Some realm ->
     realm_id realm = realmId -> realm_scimEnabled realm = true ->
     (forall e, cst_expiresAt dto = Some e -> w_now w <= e) ->
     exists w'', run (canActivate path (Some ("Bearer " +:+ plain))) w' = (inr (t, realm), w'')) /\
  (forall wr later path r w'', run (revokeToken realmId (sct_id t)) w' = (inr tt, wr) ->
     rows TScimToken later = rows TScimToken wr ->
     run (canActivate path (Some ("Bearer " +:+ plain))) later <> (inr r, w'')).
Proof.
  intros Hr Hid. apply run_createToken_inr in Hr
    as (Hrows & Hnew & Hh & Hlen & Hreq & Hrev & Hen & Hexp & Hup & Hnow).
  assert (Honly : forall x, x ∈ rows TScimToken w' -> sct_tokenHash x = sct_tokenHash t -> x = t).
  { intros x. rewrite Hrows, elem_of_app, list_elem_of_singleton. intros [Hx|Hx] He; [by destruct (Hnew x Hx)|done]. }
  split.
  - intros path realm Hrealm Hrid Hsc Hlate.
    apply (run_canActivate_ok path plain w' t realm); try done; [|by rewrite Hreq, Hrid|].
    + apply find_only_hash; [intros x Hx He; apply Honly; [done|by rewrite He, Hh]| |done]. rewrite Hrows. set_solver.
    + apply is_past_false. rewrite Hexp, Hnow. exact Hlate.
  - intros wr later path r w'' Hrv Hlater. apply run_canActivate_unusable. rewrite Hlater. clear later Hlater.
    destruct (run_revokeToken_inr _ _ _ _ Hrv) as [at_ Hafter]. rewrite Hafter, Hrows, update_first_last.
    + intros x. rewrite elem_of_app, list_elem_of_singleton. intros [Hx|Hx] Hhx; [|by rewrite Hx].
      destruct (Hnew x Hx). by rewrite Hhx, Hh.
    + intros x Hx. by apply bool_decide_eq_false_2, Hid.
    + by apply bool_decide_eq_true_2.
Qed.

Definition hr_dto : CreateScimTokenDto := mkCreateScimTokenDto "hr" None None None.
Definition hr_plain : string := repeat_char 32 "~"%char.
Definition hr_created : ScimProvisioningToken :=
  mkScimProvisioningToken "id-0" "realm-1" "hr" None true DEFAULT_SCOPES 1000000000 None None 0 false None (to_hex hr_plain).
Definition hr_world : World := (run (createToken (E:=test_env) 1 "realm-1" hr_dto) world1).2.

Definition hr_revoked : World := (run (revokeToken (E:=test_env) "realm-1" (sct_id hr_created)) hr_world).2.

Example token_lifecycle_witness :
  run (createToken (E:=test_env) 1 "realm-1" hr_dto) world1 = (inr (hr_created, hr_plain), hr_world) /\
  (exists w'', run (canActivate (E:=test_env) "/scim/v2/acme/Users" (Some ("Bearer " +:+ hr_plain))) hr_world =
     (inr (hr_created, realm0), w'')) /\
  (forall later path r w'', rows TScimToken later = rows TScimToken hr_revoked ->
     run (canActivate (E:=test_env) path (Some ("Bearer " +:+ hr_plain))) later <> (inr r, w'')).
Proof.
  assert (H : run (createToken (E:=test_env) 1 "realm-1" hr_dto) world1 = (inr (hr_created, hr_plain), hr_world))
    by (vm_compute; reflexivity).
  destruct (token_lifecycle (E:=test_env) 1 "realm-1" hr_dto world1 hr_created hr_plain hr_world H) as [Hopen Hshut].
  - intros x Hx. exfalso. change (x ∈ @nil ScimProvisioningToken) in Hx. exact (not_elem_of_nil x Hx).
  - split; [exact H|]. split.
    + apply (Hopen "/scim/v2/acme/Users" realm0); [vm_compute; reflexivity ..|done].
    + intros later path r w'' Hl. apply (Hshut hr_revoked); [vm_compute; reflexivity|exact Hl].
Defined.
