(* ===== verification/ScimList.v ===== *)
(** * ScimList: lists of SCIM resources (src/src/scim)

    What [findAll] of the user and the group service share: the [where] clause of a
    filter, the order and the page that Prisma answers.  How the database compares texts
    is a parameter. *)

From S2P Require Import Prelude Prog Json Schema Store StoreFacts ScimFilter.

(** The text order of the database, its pattern matching, and the columns that the rows of
    the model do not have ([None]: Prisma rejects the clause). *)
Class Collation := {
  text_le : string -> string -> bool;
  text_test : TextTest -> string -> string -> bool;
  other_user_column : string -> Cond -> option (User -> bool);
  other_group_column : string -> Cond -> option (Group -> bool)
}.

Record ListOptions := mkListOptions {
  lo_startIndex : option Z; lo_count : option Z; lo_filter : option string
}.
Record ScimListResponse (R : Type) := mkScimListResponse {
  lr_totalResults : Z; lr_startIndex : Z; lr_itemsPerPage : Z; lr_Resources : list R
}.
Arguments mkScimListResponse {R}. Arguments lr_totalResults {R}. Arguments lr_startIndex {R}.
Arguments lr_itemsPerPage {R}. Arguments lr_Resources {R}.

Definition emptyListResponse {R} (startIndex : Z) : ScimListResponse R := mkScimListResponse 0 startIndex 0 [].

Definition validation_error {A} : M A := Throw (PlainError "PrismaClientValidationError").

(** [where: { id }]: an id that is undefined restricts nothing. *)
Definition where_id (id : option string) (x : string) : bool :=
  match id with Some i => x === i | None => true end.
(** The id in a template string. *)
Definition id_text (id : option string) : string := id ?? "undefined".

Section Order.
Context {C : Collation} {R : Type}.
Variable key : R -> string.

Fixpoint insert_row (x : R) (l : list R) : list R :=
  match l with
  | [] => [x]
  | y :: l' => if text_le (key x) (key y) then x :: l else y :: insert_row x l'
  end.
(** [orderBy: { key: 'asc' }]. *)
Definition order_rows (l : list R) : list R := foldr insert_row [] l.

(** [skip] and [take]; a negative [take] counts from the end. *)
Definition page_rows (skip take : Z) (l : list R) : list R :=
  if 0 <=? take then firstn (Z.to_nat take) (skipn (Z.to_nat skip) l)
  else rev (firstn (Z.to_nat (- take)) (skipn (Z.to_nat skip) (rev l))).
End Order.

(** The condition of a listing: [clause_of] makes the clause of a filter, [meaning] is
    Prisma's reading of it; a BadRequestException of the parser is caught. *)
Inductive Listing (R : Type) := NoMatch | Rejected | Where (p : R -> bool).
Arguments NoMatch {R}. Arguments Rejected {R}. Arguments Where {R}.

Section Find.
Context {E : Env} {C : Collation}.

(** [findFirst] with [include]. *)
Definition find_with {X} (t : Table) (p : Row t -> bool) (include : World -> Row t -> X) : M (option X) :=
  query (fun w => match List.find p (rows t w) with Some r => Some (include w r) | None => None end).

(** [findMany] with [include], [skip], [take] and [orderBy]. *)
Definition find_page {X} (t : Table) (p : Row t -> bool) (key : Row t -> string) (include : World -> Row t -> X)
    (skip take : Z) : M (list X) :=
  query (fun w => map (include w) (page_rows skip take (order_rows key (List.filter p (rows t w))))).

Definition listing {R} (clause_of : string -> string -> option where_clause) (meaning : where_clause -> option (R -> bool))
    (realmId : string) (filter : option string) : Listing R :=
  match (if truthy filter
         then where_spread (in_realm realmId) <$> clause_of (filter ?? EmptyString) realmId
         else Some (in_realm realmId)) with
  | None => NoMatch
  | Some clause => match meaning clause with Some p => Where p | None => Rejected end
  end.

Definition findAll_rows {X} (t : Table) (key : Row t -> string) (include : World -> Row t -> X)
    (l : Listing (Row t)) (options : ListOptions) : M (ScimListResponse X) :=
  let startIndex := lo_startIndex options ?? 1 in
  let count_ := lo_count options ?? 100 in
  match l with
  | NoMatch => Ret (emptyListResponse startIndex)
  | Rejected => validation_error
  | Where p =>
      (totalResults <- count t p ;;
       found <- find_page t p key include (Z.max 0 (startIndex - 1)) (Z.min count_ 100) ;;
       Ret (mkScimListResponse totalResults startIndex (Z.of_nat (length found)) found))%prog
  end.
End Find.

(** ** The order *)

Section OrderFacts.
Context {C : Collation} {R : Type}.
Variable key : R -> string.

Lemma insert_row_perm x l : Permutation (insert_row key x l) (x :: l).
Proof.
  induction l as [|y l IH]; cbn [insert_row]; [done|]. destruct (text_le _ _); [done|].
  rewrite IH. apply perm_swap.
Qed.

Lemma order_rows_perm l : Permutation (order_rows key l) l.
Proof. induction l as [|x l IH]; cbn [order_rows foldr]; [done|]. by rewrite insert_row_perm, IH. Qed.

Lemma elem_of_order_rows x l : x ∈ order_rows key l <-> x ∈ l.
Proof. by rewrite order_rows_perm. Qed.

Hypothesis text_le_total : forall a b, text_le a b = false -> text_le b a = true.
Hypothesis text_le_trans : forall a b c, text_le a b = true -> text_le b c = true -> text_le a c = true.

Lemma order_rows_sorted l : StronglySorted (fun a b => text_le (key a) (key b) = true) (order_rows key l).
Proof.
  induction l as [|x l IH]; cbn [order_rows foldr]; [constructor|]. fold (order_rows key l). revert IH.
  generalize (order_rows key l) as s. induction s as [|y s IHs]; intros Hs; cbn [insert_row]; [repeat constructor|].
  apply StronglySorted_inv in Hs as [Hs Hy]. destruct (text_le (key x) (key y)) eqn:Hxy.
  - constructor; [by constructor|]. constructor; [done|]. eapply Forall_impl; [exact Hy|]. intros z Hz. by apply (text_le_trans _ (key y)).
  - constructor; [by apply IHs|]. rewrite Forall_forall in Hy |- *. intros z. rewrite insert_row_perm, elem_of_cons.
    intros [->|Hz]; [by apply text_le_total|by apply Hy].
Qed.
End OrderFacts.

(** ** Pages *)

Lemma elem_of_page_rows {R} skip take (l : list R) x : x ∈ page_rows skip take l -> x ∈ l.
Proof.
  assert (H : forall n m (s : list R), x ∈ firstn n (skipn m s) -> x ∈ s).
  { intros n m s Hx. rewrite <- (firstn_skipn m s), elem_of_app. right. rewrite <- (firstn_skipn n (skipn m s)), elem_of_app. by left. }
  unfold page_rows. destruct (0 <=? take); [apply H|]. rewrite !list_elem_of_In, <- in_rev. intros Hx.
  rewrite <- list_elem_of_In in Hx. apply H in Hx. rewrite list_elem_of_In, <- in_rev, <- list_elem_of_In in Hx. by apply list_elem_of_In.
Qed.

Lemma page_rows_length {R} skip take (l : list R) : Z.of_nat (length (page_rows skip take l)) <= Z.abs take.
Proof.
  unfold page_rows. destruct (Z.leb_spec 0 take); rewrite ?length_rev, length_firstn; lia.
Qed.

(** The pages of a list, end to end, are the list. *)
Lemma pages_cover {R} n k (l : list R) :
  (length l <= k * n)%nat ->
  concat (map (fun i => page_rows (Z.of_nat (i * n)) (Z.of_nat n) l) (seq 0 k)) = l.
Proof.
  assert (H : forall k s, concat (map (fun i => page_rows (Z.of_nat (i * n)) (Z.of_nat n) l) (seq s k)) =
                firstn (k * n) (skipn (s * n) l)).
  { clear k. induction k as [|k IH]; intros s; cbn [seq map concat]; [done|]. rewrite IH. unfold page_rows at 1.
    rewrite (proj2 (Z.leb_le 0 _)) by lia. rewrite !Nat2Z.id.
    replace (S s * n)%nat with (s * n + n)%nat by lia. replace (S k * n)%nat with (n + k * n)%nat by lia.
    by rewrite <- take_take_drop, drop_drop. }
  intros Hl. rewrite H. cbn [Nat.mul skipn]. by apply firstn_all2.
Qed.

(** ** Listings *)

Section Listings.
Context {E : Env} {C : Collation} {X : Type}.
Variables (t : Table) (key : Row t -> string) (include : World -> Row t -> X).

Lemma run_findAll_rows l options w page w' :
  run (findAll_rows t key include l options) w = (inr page, w') ->
  w' = w /\
  ((l = NoMatch /\ lr_Resources page = []) \/
   exists p, l = Where p /\ lr_totalResults page = Z.of_nat (length (List.filter p (rows t w))) /\
     lr_Resources page =
       map (include w) (page_rows (Z.max 0 ((lo_startIndex options ?? 1) - 1)) (Z.min (lo_count options ?? 100) 100)
                          (order_rows key (List.filter p (rows t w))))).
Proof.
  unfold findAll_rows. destruct l as [| |p]; [|done|].
  - intros [= <- <-]. split; [done|]. by left.
  - intros Hr. apply run_bind_inr in Hr as (n & w1 & Hn & Hr). run_stmt_inv Hn.
    apply run_bind_inr in Hr as (found & w2 & Hf & Hr). unfold find_page in Hf. run_stmt_inv Hf. injection Hr as <- <-.
    split; [done|]. right. exists p. subst. done.
Qed.

(** A row of a reply is a row of the table that meets the condition. *)
Lemma elem_of_listing l options w page w' x :
  run (findAll_rows t key include l options) w = (inr page, w') -> x ∈ lr_Resources page ->
  exists p r, l = Where p /\ r ∈ rows t w /\ p r = true /\ x = include w r.
Proof.
  intros (-> & [[_ Hl]|(p & -> & _ & Hl)])%run_findAll_rows Hx; rewrite Hl in Hx; [by apply elem_of_nil in Hx|].
  apply list_elem_of_fmap in Hx as (r & -> & Hr). apply elem_of_page_rows, elem_of_order_rows, elem_of_filter_list in Hr as [Hp Hin].
  by exists p, r.
Qed.

Lemma listing_length l options w page w' :
  run (findAll_rows t key include l options) w = (inr page, w') -> (forall c, lo_count options = Some c -> 0 <= c) ->
  (length (lr_Resources page) <= 100)%nat.
Proof.
  intros (-> & [[_ Hl]|(p & -> & _ & Hl)])%run_findAll_rows Hc; rewrite Hl; [simpl; lia|]. rewrite length_map.
  pose proof (page_rows_length (Z.max 0 ((lo_startIndex options ?? 1) - 1)) (Z.min (lo_count options ?? 100) 100)
                (order_rows key (List.filter p (rows t w)))) as H.
  assert (0 <= lo_count options ?? 100) by (destruct (lo_count options); simpl; [by apply Hc|lia]). lia.
Qed.

(** Page by page, every row that meets the condition is answered once and in order. *)
Lemma listing_pages p (filter : option string) n k w :
  w_db_up w = true -> (0 < n <= 100)%nat -> (length (List.filter p (rows t w)) <= k * n)%nat ->
  exists pages,
    Forall2 (fun i page => run (findAll_rows t key include (Where p)
               (mkListOptions (Some (1 + Z.of_nat (i * n))) (Some (Z.of_nat n)) filter)) w = (inr page, w)) (seq 0 k) pages /\
    concat (map lr_Resources pages) = map (include w) (order_rows key (List.filter p (rows t w))).
Proof.
  intros Hup Hn Hk. set (l := order_rows key (List.filter p (rows t w))).
  exists (map (fun i => let found := map (include w) (page_rows (Z.of_nat (i * n)) (Z.of_nat n) l) in
             mkScimListResponse (Z.of_nat (length (List.filter p (rows t w)))) (1 + Z.of_nat (i * n))
               (Z.of_nat (length found)) found) (seq 0 k)).
  split.
  - apply Forall2_fmap_r, Forall_Forall2_diag, Forall_forall. intros i _. cbn [findAll_rows lo_startIndex lo_count default].
    rewrite (run_bind_ok _ _ _ _ _ (run_count t p w _ Hup eq_refl)). unfold find_page.
    rewrite run_bind, run_query by done. cbn [run]. unfold page_rows, id.
    replace (Z.max 0 (1 + Z.of_nat (i * n) - 1)) with (Z.of_nat (i * n)) by lia.
    replace (Z.min (Z.of_nat n) 100) with (Z.of_nat n) by lia. done.
  - rewrite map_map. cbn [lr_Resources]. rewrite <- (pages_cover n k l) at 1.
    2:{ unfold l. by rewrite order_rows_perm. }
    rewrite concat_map, map_map. done.
Qed.
End Listings.

(** ** Steps *)

(** A look-up that refuses what it finds. *)
Lemma run_refuse {E : Env} t (b : bool) p (e : exc) w r w' :
  run (if b then (o <- find_first t p ;; match o with Some _ => Throw e | None => Ret tt end)%prog else Ret tt) w =
    (r, w') -> w' = w.
Proof.
  destruct b; [|by intros [= _ <-]]. intros [[e' He]|(o & w1 & Ho & Hr)]%run_bind_any; [by apply run_query_any in He|].
  apply run_query_any in Ho as ->. destruct o; by injection Hr as _ <-.
Qed.

Lemma run_find_with {E : Env} {X} t p (include : World -> Row t -> X) w r :
  w_db_up w = true -> List.find p (rows t w) = Some r -> run (find_with t p include) w = (inr (Some (include w r)), w).
Proof. intros Hup Hf. unfold find_with. rewrite run_query by done. cbv beta. by rewrite Hf. Qed.

(** ** Rows *)

(** Replacing one row changes nothing else. *)
Lemma elem_of_update_first_other {A} (Q : A -> Prop) (p : A -> bool) f l x u :
  List.find p l = Some x -> Q x -> Q (f x) -> ~ Q u -> u ∈ update_first p f l <-> u ∈ l.
Proof.
  induction l as [|y l IH]; simpl; [done|]. destruct (p y).
  - intros [= ->] Hx Hfx Hu. rewrite !elem_of_cons. split; (intros [->|?]; [contradiction|by right]).
  - intros. rewrite !elem_of_cons. by rewrite IH.
Qed.

(** The row of a key among rows with distinct keys. *)
Lemma find_unique {A K} `{EqDecision K} (key : A -> K) (p : A -> bool) l x y :
  NoDup (map key l) -> x ∈ l -> List.find (fun z => key z === key x) l = Some y -> y = x.
Proof.
  intros Hnd Hx Hy. apply find_elem in Hy as [Hin Hk%bool_decide_eq_true]. by apply (NoDup_map_inj key l).
Qed.

