(* ===== verification/ScimUsers.v ===== *)
(** * ScimUsers: SCIM provisioning of users (src/src/scim/scim-users.service.ts)

    Bodies are taken at their declared types, except the values of a PATCH, which are any
    JSON.  An id is optional because the bulk service passes none for a path without one.
    The columns that the service reads and the table does not have ([displayName],
    [title], [preferredLanguage], [locale], [timezone]) are undefined in every reply.  The
    projection of a reply to requested attributes is not modelled. *)

From S2P Require Import Prelude Prog Json Schema Store StoreFacts Events ScimFilter ScimList Testbed.

Record ScimName := mkScimName {
  sn_givenName : option string; sn_familyName : option string; sn_formatted : option string
}.
Record ScimEmail := mkScimEmail { se_value : string; se_primary : bool }.
Record ScimUser := mkScimUser {
  su_id : option string; su_userName : string; su_name : option ScimName; su_displayName : option string;
  su_emails : option (list ScimEmail); su_active : option bool; su_externalId : option string;
  su_groups : option (list (string * string)); su_location : option string
}.
Record ScimPatchOperation := mkPatch { po_op : string; po_path : option string; po_value : option json }.

(** [x || null]. *)
Definition or_null (x : option string) : option string := if truthy x then x else None.

(** [emails?.find((e) => e.primary)?.value || emails?.[0]?.value]. *)
Definition primary_email (emails : option (list ScimEmail)) : option string :=
  let l := emails ?? [] in
  js_or (se_value <$> List.find se_primary l) (se_value <$> head l).

Definition full_name (first last : option string) : string :=
  js_join " " (map (fun x => x ?? EmptyString) (List.filter truthy [first; last])).

(** ** Replies *)

(** [include: { userGroups: { include: { group: true } } }]. *)
Definition groups_of (w : World) (u : User) : list Group :=
  flat_map (fun m => match List.find (fun g => group_id g === ug_groupId m) (rows TGroup w) with
                     | Some g => [g]
                     | None => []
                     end) (List.filter (fun m => ug_userId m === user_id u) (rows TUserGroup w)).
Definition with_groups (w : World) (u : User) : User * list Group := (u, groups_of w u).

Definition toScimUser (ug : User * list Group) : ScimUser :=
  let '(u, groups) := ug in
  let name := full_name (user_firstName u) (user_lastName u) in
  mkScimUser (Some (user_id u)) (user_username u)
    (Some (mkScimName (user_firstName u) (user_lastName u) (Some name)))
    (Some name)
    (Some (if truthy (user_email u) then [mkScimEmail (user_email u ?? EmptyString) true] else []))
    (Some (user_enabled u)) (user_federationLink u)
    (match groups with [] => None | _ => Some (map (fun g => (group_id g, group_name g)) groups) end)
    (Some ("/scim/v2/Users/" +:+ user_id u)).

(** ** Column updates *)

Definition set_profile (username : string) (email first last : option string) (enabled : bool)
    (federationLink : option string) (u : User) : User :=
  mkUser (user_id u) (user_realmId u) username email (user_emailVerified u) first last enabled (user_passwordHash u)
    (user_passwordAlgorithm u) federationLink (user_passwordChangedAt u) (user_lockedUntil u)
    (user_createdAt u).

Definition set_username (v : string) (u : User) : User :=
  set_profile v (user_email u) (user_firstName u) (user_lastName u) (user_enabled u) (user_federationLink u) u.
Definition set_email (v : option string) (u : User) : User :=
  set_profile (user_username u) v (user_firstName u) (user_lastName u) (user_enabled u) (user_federationLink u) u.
Definition set_firstName (v : option string) (u : User) : User :=
  set_profile (user_username u) (user_email u) v (user_lastName u) (user_enabled u) (user_federationLink u) u.
Definition set_lastName (v : option string) (u : User) : User :=
  set_profile (user_username u) (user_email u) (user_firstName u) v (user_enabled u) (user_federationLink u) u.

(** What Prisma makes of one property of [data]: a value of another type or a column that
    does not exist is rejected, an undefined value is left out. *)
Definition nullable_text (v : json) : option (option string) :=
  match v with JStr s => Some (Some s) | JNull => Some None | _ => None end.
Definition column_setter (k : string) (v : option json) : option (User -> User) :=
  match v with
  | None => Some (fun u => u)
  | Some v =>
      if k === "username" then match v with JStr s => Some (set_username s) | _ => None end
      else if k === "email" then set_email <$> nullable_text v
      else if k === "firstName" then set_firstName <$> nullable_text v
      else if k === "lastName" then set_lastName <$> nullable_text v
      else if k === "enabled" then match v with JBool b => Some (set_enabled b) | _ => None end
      else None
  end.
Notation update_data := (list (string * option json)).
Fixpoint data_setter (data : update_data) : option (User -> User) :=
  match data with
  | [] => Some (fun u => u)
  | (k, v) :: data' =>
      match column_setter k v, data_setter data' with
      | Some f, Some g => Some (fun u => g (f u))
      | _, _ => None
      end
  end.

(** ** PATCH values *)

Fixpoint data_set (k : string) (v : option json) (data : update_data) : update_data :=
  match data with
  | [] => [(k, v)]
  | (k', v') :: data' => if k === k' then (k, v) :: data' else (k', v') :: data_set k v data'
  end.
(** [Object.assign(data, patch)]. *)
Definition data_assign (data patch : update_data) : update_data :=
  foldl (fun acc kv => data_set kv.1 kv.2 acc) data patch.

(** [v.k]; [None] inside is [undefined], [None] outside is the TypeError on [null]. *)
Definition property (k : string) (v : json) : option (option json) :=
  match v with JNull => None | JObj o => Some (obj_get k o) | _ => Some None end.

(** [emails.find((e) => e.primary) || emails[0]], then [.value]. *)
Fixpoint find_primary (l : list json) : option (option json) :=
  match l with
  | [] => Some None
  | e :: l' =>
      match property "primary" e with
      | None => None
      | Some p => if js_truthy p then Some (Some e) else find_primary l'
      end
  end.
Definition patch_email (l : list json) : option (option json) :=
  match find_primary l with
  | None => None
  | Some found =>
      match (if js_truthy found then found else head l) with
      | Some e => property "value" e
      | None => Some None
      end
  end.

(** One entry of [Object.entries(value)]. *)
Definition patch_entry (kv : string * json) (result : update_data) : option update_data :=
  let '(key, val) := kv in
  if key === "userName" then Some (data_set "username" (Some val) result)
  else if key === "name.givenName" then Some (data_set "firstName" (Some val) result)
  else if key === "name.familyName" then Some (data_set "lastName" (Some val) result)
  else if key === "emails" then
    match val with
    | JArr (e :: l) => (fun v => data_set "email" v result) <$> patch_email (e :: l)
    | _ => Some result
    end
  else if key === "active" then Some (data_set "enabled" (Some val) result)
  else if includes key ["displayName"; "title"; "preferredLanguage"; "locale"; "timezone"]
  then Some (data_set key (Some val) result)
  else Some result.
(** [None] is a TypeError. *)
Fixpoint applyPatchValue (value : obj) (result : update_data) : option update_data :=
  match value with
  | [] => Some result
  | kv :: value' =>
      match patch_entry kv result with
      | Some result' => applyPatchValue value' result'
      | None => None
      end
  end.

(** The loop over the operations; an array has no entry that is looked at. *)
Fixpoint patch_data (operations : list ScimPatchOperation) (data : update_data) : option update_data :=
  match operations with
  | [] => Some data
  | op :: operations' =>
      match (if includes (po_op op) ["add"; "replace"]
             then match po_value op with
                  | Some (JObj value) => data_assign data <$> applyPatchValue value []
                  | _ => Some data
                  end
             else Some data) with
      | Some data' => patch_data operations' data'
      | None => None
      end
  end.

(** ** The service *)

Section Service.
Context {E : Env} {C : Collation}.

Definition user_event (realmId operationType userId : string) : M unit :=
  recordAdminEvent_body (mkAdminEventParams realmId "scim" operationType "USER" ("/scim/v2/Users/" +:+ userId) None).
Definition user_not_found {A} (userId : option string) : M A :=
  Throw (NotFound ("User '" +:+ id_text userId +:+ "' not found")).
Definition in_realm_with_id (realmId : string) (userId : option string) (u : User) : bool :=
  where_id userId (user_id u) && (user_realmId u === realmId).

(** [prisma.user.update({ where: { id } })]: an undefined id is rejected. *)
Definition update_user (userId : option string) (f : User -> User) : M User :=
  match userId with
  | Some i => update_checked TUser (fun u => user_id u === i) f
  | None => validation_error
  end.

Definition create (realmId : string) (scimUser : ScimUser) : M ScimUser :=
  let username := su_userName scimUser in
  let email := primary_email (su_emails scimUser) in
  (existing <- find_first TUser (fun u => (user_realmId u === realmId) && (user_username u === username)) ;;
   match existing with
   | Some _ => Throw (Conflict ("User '" +:+ username +:+ "' already exists"))
   | None =>
       (if truthy email then
          emailExists <- find_first TUser (fun u => (user_realmId u === realmId) && bool_decide (user_email u = email)) ;;
          match emailExists with
          | Some _ => Throw (Conflict ("Email '" +:+ (email ?? EmptyString) +:+ "' is already in use"))
          | None => Ret tt
          end
        else Ret tt) ;;;
       user <- Store.create TUser (fun id now =>
         mkUser id realmId username (or_null email) false
           (or_null (su_name scimUser ≫= sn_givenName)) (or_null (su_name scimUser ≫= sn_familyName))
           true None "argon2" (or_null (su_externalId scimUser)) None None now) ;;
       user_event realmId "CREATE" (user_id user) ;;;
       Ret (toScimUser (user, []))
   end)%prog.

Definition findById (realmId : string) (userId : option string) : M ScimUser :=
  (user <- find_with TUser (in_realm_with_id realmId userId) with_groups ;;
   match user with
   | Some ug => Ret (toScimUser ug)
   | None => user_not_found userId
   end)%prog.

Definition user_resource (w : World) (u : User) : ScimUser := toScimUser (with_groups w u).
Definition user_listing (realmId : string) (filter : option string) : Listing User :=
  listing scimFilterToPrismaWhereUser (where_test text_test user_column other_user_column) realmId filter.
Definition findAll (realmId : string) (options : ListOptions) : M (ScimListResponse ScimUser) :=
  findAll_rows TUser user_username user_resource (user_listing realmId (lo_filter options)) options.
Definition search (realmId : string) (request : ListOptions) : M (ScimListResponse ScimUser) := findAll realmId request.

Definition other_user (userId : option string) (u : User) : bool :=
  match userId with Some i => user_id u !== i | None => true end.

Definition update (realmId : string) (userId : option string) (scimUser : ScimUser) : M ScimUser :=
  (existing <- find_first TUser (in_realm_with_id realmId userId) ;;
   match existing with
   | None => user_not_found userId
   | Some existing =>
       let email := primary_email (su_emails scimUser) in
       (if su_userName scimUser !== user_username existing then
          usernameExists <- find_first TUser (fun u =>
            (user_realmId u === realmId) && (user_username u === su_userName scimUser) && other_user userId u) ;;
          match usernameExists with
          | Some _ => Throw (Conflict ("UserName '" +:+ su_userName scimUser +:+ "' already exists"))
          | None => Ret tt
          end
        else Ret tt) ;;;
       (if truthy email && negb (bool_decide (email = user_email existing)) then
          emailExists <- find_first TUser (fun u =>
            (user_realmId u === realmId) && bool_decide (user_email u = email) && other_user userId u) ;;
          match emailExists with
          | Some _ => Throw (Conflict ("Email '" +:+ (email ?? EmptyString) +:+ "' is already in use"))
          | None => Ret tt
          end
        else Ret tt) ;;;
       user <- update_user userId
         (set_profile (su_userName scimUser) (js_or email (user_email existing))
            (match su_name scimUser ≫= sn_givenName with Some n => Some n | None => user_firstName existing end)
            (match su_name scimUser ≫= sn_familyName with Some n => Some n | None => user_lastName existing end)
            (su_active scimUser ?? user_enabled existing)
            (match su_externalId scimUser with Some x => Some x | None => user_federationLink existing end)) ;;
       groups <- query (fun w => groups_of w user) ;;
       user_event realmId "UPDATE" (id_text userId) ;;;
       Ret (toScimUser (user, groups))
   end)%prog.

Definition patch (realmId : string) (userId : option string) (operations : list ScimPatchOperation) : M ScimUser :=
  (user <- find_first TUser (in_realm_with_id realmId userId) ;;
   match user with
   | None => user_not_found userId
   | Some _ =>
       match patch_data operations [] with
       | None => Throw (PlainError "TypeError")
       | Some updateData =>
           (match updateData with
            | [] => Ret tt
            | _ => match data_setter updateData with
                   | Some f => update_user userId f ;;; Ret tt
                   | None => validation_error
                   end
            end) ;;;
           user_event realmId "PATCH" (id_text userId) ;;;
           findById realmId userId
       end
   end)%prog.

Definition delete (realmId : string) (userId : option string) : M unit :=
  (user <- find_first TUser (in_realm_with_id realmId userId) ;;
   match user with
   | None => user_not_found userId
   | Some _ =>
       update_user userId (set_enabled false) ;;;
       user_event realmId "DELETE" (id_text userId)
   end)%prog.
End Service.

(** ** Listings *)

Section Facts.
Context {E : Env} {C : Collation}.

Lemma user_listing_realm realmId filter p u :
  (forall f, parseScimFilter (filter ?? EmptyString) = Some f -> f_attribute f <> "realmId") ->
  user_listing realmId filter = Where p -> p u = true -> user_realmId u = realmId.
Proof.
  intros Hf. unfold user_listing, listing. destruct (truthy filter).
  - destruct (scimFilterToPrismaWhereUser _ _) as [c|] eqn:Hc; cbn [fmap option_fmap option_map]; [|done].
    apply user_clause_scoped in Hc as (k & v & Hk & ->); [|done]. rewrite where_spread_scoped by done.
    destruct (where_test _ _ _ _) as [q|] eqn:Hq; [|done]. intros [= <-]. by apply (where_test_user_realm _ _ _ _ _ _ Hq).
  - destruct (where_test _ _ _ _) as [q|] eqn:Hq; [|done]. intros [= <-].
    rewrite <- (app_nil_r (in_realm realmId)) in Hq. by apply (where_test_user_realm _ _ _ _ _ _ Hq).
Qed.

Lemma user_event_footprint realmId op userId : stable (frame [TAdminEvent]) (user_event realmId op userId).
Proof. unfold user_event, recordAdminEvent_body. footprint. Qed.

Lemma run_user_event realmId op userId w r w' :
  run (user_event realmId op userId) w = (r, w') -> rows TUser w' = rows TUser w.
Proof. intros H. apply (run_frame [TAdminEvent]) in H as [H _]; [|apply user_event_footprint]. apply H. set_solver. Qed.
End Facts.

(** Listing the users of a realm: whatever the filter, unless it names the column [realmId],
    every user answered is a row of that realm that meets the filter, and a request without
    a negative count is answered with at most a hundred users. *)
Theorem scim_users_listed {C : Collation} realmId options w page w' :
  run (findAll realmId options) w = (inr page, w') ->
  (forall f, parseScimFilter (lo_filter options ?? EmptyString) = Some f -> f_attribute f <> "realmId") ->
  w' = w /\
  (forall x, x ∈ lr_Resources page -> exists p u, user_listing realmId (lo_filter options) = Where p /\
     u ∈ rows TUser w /\ p u = true /\ user_realmId u = realmId /\ x = user_resource w u) /\
  ((forall c, lo_count options = Some c -> 0 <= c) -> (length (lr_Resources page) <= 100)%nat).
Proof.
  unfold findAll. intros Hr Hf. split; [|split].
  - by apply run_findAll_rows in Hr as [-> _].
  - intros x Hx. destruct (elem_of_listing _ _ _ _ _ _ _ _ _ Hr Hx) as (p & u & Hl & Hu & Hp & ->).
    exists p, u. split_and!; try done. by apply (user_listing_realm realmId (lo_filter options) p).
  - by apply (listing_length _ _ _ _ _ _ _ _ Hr).
Qed.

(** Paging through a listing: page by page, with any page size up to a hundred, every user
    that meets the filter is answered exactly once, in the order of the user names. *)
Theorem scim_users_paged {C : Collation} realmId filter n k w p :
  (forall a b, text_le a b = false -> text_le b a = true) ->
  (forall a b c, text_le a b = true -> text_le b c = true -> text_le a c = true) ->
  w_db_up w = true -> (0 < n <= 100)%nat -> user_listing realmId filter = Where p ->
  (length (List.filter p (rows TUser w)) <= k * n)%nat ->
  exists pages users,
    Forall2 (fun i page => run (findAll realmId
        (mkListOptions (Some (1 + Z.of_nat (i * n))) (Some (Z.of_nat n)) filter)) w = (inr page, w)) (seq 0 k) pages /\
    concat (map lr_Resources pages) = map (user_resource w) users /\
    Permutation users (List.filter p (rows TUser w)) /\
    StronglySorted (fun a b => text_le (user_username a) (user_username b) = true) users.
Proof.
  intros Htot Htrans Hup Hn Hl Hk.
  destruct (listing_pages TUser user_username user_resource p filter n k w Hup Hn Hk) as (pages & H2 & Hc).
  exists pages, (order_rows user_username (List.filter p (rows TUser w))). split_and!.
  - unfold findAll. cbn [lo_filter]. by rewrite Hl.
  - exact Hc.
  - apply order_rows_perm.
  - by apply order_rows_sorted.
Qed.

(** ** Changes stay in the realm *)

Inductive UserChange :=
| CreateUser (scimUser : ScimUser)
| UpdateUser (userId : option string) (scimUser : ScimUser)
| PatchUser (userId : option string) (operations : list ScimPatchOperation)
| DeleteUser (userId : option string).

Section Changes.
Context {E : Env} {C : Collation}.

Definition change_user (realmId : string) (c : UserChange) : M unit :=
  match c with
  | CreateUser su => (create realmId su ;;; Ret tt)%prog
  | UpdateUser i su => (update realmId i su ;;; Ret tt)%prog
  | PatchUser i ops => (patch realmId i ops ;;; Ret tt)%prog
  | DeleteUser i => delete realmId i
  end.

Definition same_elsewhere (realmId : string) (w w' : World) : Prop :=
  forall u, user_realmId u <> realmId -> u ∈ rows TUser w' <-> u ∈ rows TUser w.

#[export] Instance same_elsewhere_preorder realmId : PreOrder (same_elsewhere realmId).
Proof. split; [by intros w u|]. intros w1 w2 w3 H1 H2 u Hu. by rewrite (H2 u Hu), (H1 u Hu). Qed.

Lemma same_rows realmId w w' : rows TUser w' = rows TUser w -> same_elsewhere realmId w w'.
Proof. intros H u _. by rewrite H. Qed.

Lemma patch_setter_realm data f u : data_setter data = Some f -> user_realmId (f u) = user_realmId u.
Proof.
  revert f u. induction data as [|[k v] data IH]; intros f u; cbn [data_setter]; [by intros [= <-]|].
  destruct (column_setter k v) as [g|] eqn:Hg; [|done]. destruct (data_setter data) as [h|]; [|done].
  intros [= <-]. rewrite (IH h) by done. unfold column_setter in Hg.
  destruct v as [v|]; [|by injection Hg as <-].
  repeat case_bool_decide; destruct v; simpl in Hg; try done; injection Hg as <-; done.
Qed.

Lemma run_update_user realmId userId f x w r w' :
  run (update_user userId f) w = (r, w') ->
  NoDup (map user_id (rows TUser w)) -> List.find (in_realm_with_id realmId userId) (rows TUser w) = Some x ->
  (forall u, user_realmId (f u) = user_realmId u) -> same_elsewhere realmId w w'.
Proof.
  intros Hr Hnd Hx Hf. destruct userId as [i|]; [|injection Hr as _ <-; reflexivity].
  apply find_elem in Hx as [Hin [Hid%bool_decide_eq_true Hrealm%bool_decide_eq_true]%andb_true_iff]. subst i.
  apply (run_update_checked_any TUser) in Hr as [->|(y & Hy & ->)]; [reflexivity|].
  assert (y = x) as -> by (by apply (find_unique user_id (fun _ => true) (rows TUser w))).
  intros u Hu. rewrite rows_with_rows_eq.
  apply (elem_of_update_first_other (fun u => user_realmId u = realmId) _ f _ _ u Hy); [done|by rewrite Hf|done].
Qed.

Lemma findById_footprint realmId userId : stable (frame []) (findById realmId userId).
Proof. unfold findById, find_with, user_not_found. footprint. Qed.

Lemma create_elsewhere realmId su w r w' :
  run (create realmId su) w = (r, w') -> same_elsewhere realmId w w'.
Proof.
  unfold create. intros [[e He]|(o & w1 & Ho & Hr)]%run_bind_any; [by apply run_query_any in He as ->|].
  apply run_query_any in Ho as ->. destruct o; [by injection Hr as _ <-|]. cbv zeta in Hr.
  apply run_bind_any in Hr as [[e He]|(u & w1 & He & Hr)].
  { apply (run_refuse TUser) in He as ->. reflexivity. }
  apply (run_refuse TUser) in He as ->.
  apply run_bind_any in Hr as [[e He]|(user & w2 & Hc & Hr)].
  - apply (run_create_any TUser) in He as [->| ->]; [reflexivity|]. intros x Hx. rewrite rows_with_rows_eq. set_solver.
  - transitivity w2.
    + apply (run_create_any TUser) in Hc as [->| ->]; [reflexivity|]. intros x Hx. rewrite rows_with_rows_eq. set_solver.
    + apply same_rows. apply run_bind_any in Hr as [[e He]|([] & w3 & He & Hr)]; [by apply run_user_event in He|].
      apply run_user_event in He. by injection Hr as _ <-.
Qed.

Lemma update_elsewhere realmId userId su w r w' :
  NoDup (map user_id (rows TUser w)) -> run (update realmId userId su) w = (r, w') -> same_elsewhere realmId w w'.
Proof.
  unfold update. intros Hnd [[e He]|(o & w1 & Ho & Hr)]%run_bind_any; [by apply run_query_any in He as ->|].
  destruct (run_query_inr _ _ _ _ Ho) as (-> & -> & _). clear Ho.
  destruct (List.find _ (rows TUser w)) as [x|] eqn:Hx; [|by injection Hr as _ <-]. cbv zeta in Hr.
  apply run_bind_any in Hr as [[e He]|(u & w1 & He & Hr)]; apply (run_refuse TUser) in He as ->; [reflexivity|].
  apply run_bind_any in Hr as [[e He]|(u1 & w1 & He & Hr)]; apply (run_refuse TUser) in He as ->; [reflexivity|].
  apply run_bind_any in Hr as [[e He]|(user & w3 & Hu & Hr)].
  - by eapply run_update_user in He.
  - transitivity w3; [by eapply run_update_user in Hu|].
    apply run_bind_any in Hr as [[e He]|(gs & w4 & Hg & Hr)]; [apply run_query_any in He as ->; reflexivity|].
    apply run_query_any in Hg as ->. apply same_rows.
    apply run_bind_any in Hr as [[e He]|([] & w5 & He & Hr)]; [by apply run_user_event in He|].
    apply run_user_event in He. by injection Hr as _ <-.
Qed.

Lemma patch_elsewhere realmId userId ops w r w' :
  NoDup (map user_id (rows TUser w)) -> run (patch realmId userId ops) w = (r, w') -> same_elsewhere realmId w w'.
Proof.
  unfold patch. intros Hnd [[e He]|(o & w1 & Ho & Hr)]%run_bind_any; [by apply run_query_any in He as ->|].
  destruct (run_query_inr _ _ _ _ Ho) as (-> & -> & _). clear Ho.
  destruct (List.find _ (rows TUser w)) as [x|] eqn:Hx; [|by injection Hr as _ <-].
  destruct (patch_data ops []) as [data|]; [|by injection Hr as _ <-].
  assert (Hwrite : forall r1 w1, run (match data with
       | [] => Ret tt
       | _ => match data_setter data with
              | Some f => (update_user userId f ;;; Ret tt)%prog
              | None => validation_error
              end
       end) w = (r1, w1) -> same_elsewhere realmId w w1).
  { intros r1 w1 H1. destruct data as [|kv data]; [by injection H1 as _ <-|].
    destruct (data_setter (kv :: data)) as [f|] eqn:Hf; [|by injection H1 as _ <-].
    apply run_bind_any in H1 as [[e He]|(u & w2 & Hu & H1)].
    - eapply run_update_user in He; [exact He|done|done|]. intros u. by apply (patch_setter_realm (kv :: data)).
    - injection H1 as _ <-. eapply run_update_user in Hu; [exact Hu|done|done|].
      intros v. by apply (patch_setter_realm (kv :: data)). }
  apply run_bind_any in Hr as [[e He]|(u & w1 & He & Hr)]; [by apply Hwrite in He|].
  apply Hwrite in He. transitivity w1; [done|]. clear He Hwrite.
  apply run_bind_any in Hr as [[e He]|([] & w2 & He & Hr)]; [by apply same_rows; apply run_user_event in He|].
  apply same_rows. apply run_user_event in He. rewrite <- He. apply (run_frame []) in Hr; [|apply findById_footprint].
  by apply frame_nil_rows.
Qed.

Lemma delete_elsewhere realmId userId w r w' :
  NoDup (map user_id (rows TUser w)) -> run (delete realmId userId) w = (r, w') -> same_elsewhere realmId w w'.
Proof.
  unfold delete. intros Hnd [[e He]|(o & w1 & Ho & Hr)]%run_bind_any; [by apply run_query_any in He as ->|].
  destruct (run_query_inr _ _ _ _ Ho) as (-> & -> & _). clear Ho.
  destruct (List.find _ (rows TUser w)) as [x|] eqn:Hx; [|by injection Hr as _ <-].
  apply run_bind_any in Hr as [[e He]|(u & w1 & Hu & Hr)].
  - by eapply run_update_user in He.
  - transitivity w1; [by eapply run_update_user in Hu|].
    apply same_rows. by apply run_user_event in Hr.
Qed.

Lemma update_user_footprint ts i f : covers [TUser] ts = true -> stable (frame ts) (update_user i f).
Proof. intros H. destruct i as [i|]; [by apply update_checked_footprint|done]. Qed.

Lemma change_user_footprint realmId c : stable (frame [TUser; TAdminEvent]) (change_user realmId c).
Proof.
  assert (He : forall op i, stable (frame [TUser; TAdminEvent]) (user_event realmId op i))
    by (intros; unfold user_event, recordAdminEvent_body; footprint).
  assert (Hf : forall i, stable (frame [TUser; TAdminEvent]) (findById realmId i))
    by (intros; unfold findById, find_with, user_not_found; footprint).
  assert (Hu : forall i f, stable (frame [TUser; TAdminEvent]) (update_user i f)) by (by intros; apply update_user_footprint).
  destruct c as [su|i su|i ops|i]; cbn [change_user];
    unfold create, update, patch, delete, user_not_found, validation_error; footprint; first [apply He | apply Hf | apply Hu].
Qed.
End Changes.

(** Tenancy: whatever SCIM request a client of one realm makes about users - creating,
    replacing, patching or deleting, with any identifier and any body, successful or not -
    the users of every other realm stay as they are, and no table but the users and the
    audit trail changes. *)
Theorem scim_users_isolated {E : Env} realmId c w r w' :
  NoDup (map user_id (rows TUser w)) -> run (change_user realmId c) w = (r, w') ->
  same_elsewhere realmId w w' /\ (forall t, t <> TUser -> t <> TAdminEvent -> rows t w' = rows t w).
Proof.
  intros Hnd Hr. split.
  - destruct c as [su|i su|i ops|i]; cbn [change_user] in Hr.
    + apply run_bind_any in Hr as [[e He]|(a & w1 & Ha & Hr)]; [by apply create_elsewhere in He|].
      injection Hr as _ <-. by apply create_elsewhere in Ha.
    + apply run_bind_any in Hr as [[e He]|(a & w1 & Ha & Hr)]; [by apply update_elsewhere in He|].
      injection Hr as _ <-. by apply update_elsewhere in Ha.
    + apply run_bind_any in Hr as [[e He]|(a & w1 & Ha & Hr)]; [by apply patch_elsewhere in He|].
      injection Hr as _ <-. by apply patch_elsewhere in Ha.
    + by apply delete_elsewhere in Hr.
  - intros t H1 H2. apply (run_frame [TUser; TAdminEvent]) in Hr as [Hr _]; [|apply change_user_footprint]. apply Hr. set_solver.
Qed.

(** ** Reading back *)

Section ReadBack.
Context {E : Env} {C : Collation}.

Lemma run_user_event_inr realmId op userId w w' :
  run (user_event realmId op userId) w = (inr tt, w') ->
  rows TUser w' = rows TUser w /\ rows TUserGroup w' = rows TUserGroup w /\ rows TGroup w' = rows TGroup w /\
  w_db_up w' = w_db_up w.
Proof.
  intros H. apply (run_frame [TAdminEvent]) in H as (H & _ & Hup & _); [|apply user_event_footprint].
  split_and!; [apply H; set_solver ..|done].
Qed.

Lemma groups_of_same w w' u :
  rows TUserGroup w' = rows TUserGroup w -> rows TGroup w' = rows TGroup w -> groups_of w' u = groups_of w u.
Proof. intros H1 H2. unfold groups_of. by rewrite H1, H2. Qed.

Lemma run_findById realmId i u w :
  w_db_up w = true -> List.find (in_realm_with_id realmId (Some i)) (rows TUser w) = Some u ->
  run (findById realmId (Some i)) w = (inr (user_resource w u), w).
Proof. intros Hup Hf. unfold findById. by rewrite (run_bind_ok _ _ _ _ _ (run_find_with TUser _ with_groups w u Hup Hf)). Qed.

(** The rows after the update of the row of an id. *)
Lemma find_after_update realmId i f l x :
  NoDup (map user_id l) -> List.find (in_realm_with_id realmId (Some i)) l = Some x ->
  user_id (f x) = user_id x -> user_realmId (f x) = user_realmId x ->
  List.find (in_realm_with_id realmId (Some i)) (update_first (fun u => user_id u === i) f l) = Some (f x).
Proof.
  intros Hnd Hx Hid Hrl. destruct (find_elem _ _ _ Hx) as [Hin [Hi%bool_decide_eq_true Hr%bool_decide_eq_true]%andb_true_iff].
  subst i. induction l as [|y l IH]; [done|]. simpl in Hx, Hnd |- *. apply NoDup_cons in Hnd as [Hy Hnd].
  case_bool_decide as Hyx.
  - assert (y = x) as ->.
    { apply elem_of_cons in Hin as [->|Hin]; [done|]. destruct Hy. rewrite Hyx. by apply list_elem_of_fmap_2. }
    simpl. unfold in_realm_with_id, where_id. by rewrite Hid, Hrl, !bool_decide_eq_true_2 by done.
  - simpl. unfold in_realm_with_id at 1, where_id in Hx. rewrite (bool_decide_eq_false_2 _ Hyx) in Hx. simpl in Hx.
    unfold in_realm_with_id at 1, where_id. rewrite (bool_decide_eq_false_2 _ Hyx). simpl. apply IH; [done|done|]. apply elem_of_cons in Hin as [->|Hin]; done.
Qed.
End ReadBack.

(** What SCIM wrote is what SCIM reads: a user that was created, and a user that was
    replaced, is answered to a GET by the identifier of the reply with the very resource of
    the reply; a replacement leaves the user name, the primary e-mail address and the
    active flag that were asked for. *)
Theorem scim_users_read_back {E : Env} realmId su w :
  w_db_up w = true -> NoDup (map user_id (rows TUser w)) ->
  (forall x w', (forall u, u ∈ rows TUser w -> user_id u <> uuid (w_uuids w)) ->
     (forall m, m ∈ rows TUserGroup w -> ug_userId m <> uuid (w_uuids w)) ->
     run (create realmId su) w = (inr x, w') ->
     run (findById realmId (su_id x)) w' = (inr x, w') /\ su_userName x = su_userName su) /\
  (forall i x w', run (update realmId (Some i) su) w = (inr x, w') ->
     run (findById realmId (Some i)) w' = (inr x, w') /\ su_userName x = su_userName su /\
     (forall b, su_active su = Some b -> su_active x = Some b) /\
     (forall e, primary_email (su_emails su) = Some e -> e <> EmptyString -> su_emails x = Some [mkScimEmail e true])).
Proof.
  intros Hup Hnd. split.
  - intros x w' Hfresh Hmem Hr. unfold create in Hr. apply run_bind_inr in Hr as (o & w1 & Ho & Hr). run_stmt_inv Ho. subst o.
    destruct (List.find _ _); [done|]. cbv zeta in Hr. apply run_bind_inr in Hr as ([] & w1 & Hc & Hr).
    apply (run_refuse TUser) in Hc as ->. apply run_bind_inr in Hr as (user & w1 & Hc & Hr).
    apply run_create_inr in Hc as (Huser & -> & _ & _). apply run_bind_inr in Hr as ([] & w2 & He & Hr). injection Hr as <- <-.
    apply run_user_event_inr in He as (Hu & Hm & Hg & Hup'). rewrite rows_with_rows_eq in Hu. split; [|by rewrite Huser].
    assert (Hid : user_id user = uuid (w_uuids w)) by (by rewrite Huser).
    assert (Hrl : user_realmId user = realmId) by (by rewrite Huser).
    cbn [toScimUser su_id]. rewrite (run_findById realmId (user_id user) user); [|by rewrite Hup'|].
    + unfold user_resource, with_groups. replace (groups_of w2 user) with (@nil Group); [done|].
      unfold groups_of. rewrite filter_none; [done|]. intros m. rewrite Hm. intros Hin.
      apply bool_decide_eq_false_2. rewrite Hid. by apply Hmem.
    + rewrite Hu. apply find_app_last.
      * intros u Hin. unfold in_realm_with_id, where_id. rewrite bool_decide_eq_false_2; [done|]. rewrite Hid. by apply Hfresh.
      * unfold in_realm_with_id, where_id. by rewrite Hrl, !bool_decide_eq_true_2.
  - intros i x w' Hr. unfold update in Hr. apply run_bind_inr in Hr as (o & w1 & Ho & Hr).
    destruct (run_query_inr _ _ _ _ Ho) as (-> & -> & _). clear Ho.
    destruct (List.find _ (rows TUser w)) as [u|] eqn:Hu; [|done]. cbv zeta in Hr.
    apply run_bind_inr in Hr as ([] & w1 & Hc & Hr). apply (run_refuse TUser) in Hc as ->.
    apply run_bind_inr in Hr as ([] & w1 & Hc & Hr). apply (run_refuse TUser) in Hc as ->.
    set (f := set_profile _ _ _ _ _ _) in Hr. apply run_bind_inr in Hr as (user & w1 & Hw & Hr).
    apply (run_update_checked_inr TUser) in Hw as (y & Hy & -> & -> & _).
    assert (y = u) as ->.
    { destruct (find_elem _ _ _ Hu) as [Hin [Hi%bool_decide_eq_true _]%andb_true_iff]. cbn [where_id] in Hi. subst i.
      by apply (find_unique user_id (fun _ => true) (rows TUser w)). }
    apply run_bind_inr in Hr as (gs & w1 & Hg & Hr). run_stmt_inv Hg. subst gs.
    apply run_bind_inr in Hr as ([] & w2 & He & Hr). injection Hr as <- <-.
    apply run_user_event_inr in He as (Hr & Hm & Hg & Hup'). rewrite rows_with_rows_eq in Hr.
    split_and!.
    + rewrite (run_findById realmId i (f u)); [|by rewrite Hup'|].
      * unfold user_resource, with_groups. by rewrite (groups_of_same _ _ _ Hm Hg).
      * rewrite Hr. by apply find_after_update.
    + done.
    + intros b Hb. cbn [toScimUser su_active]. unfold f. cbn [set_profile user_enabled]. by rewrite Hb.
    + intros e He Hne. cbn [toScimUser su_emails]. unfold f. cbn [set_profile user_email]. rewrite He. unfold js_or.
      by rewrite (proj2 (truthy_Some e)), (proj2 (truthy_Some e)).
Qed.

(** ** A sample directory *)

Definition test_collation : Collation := {|
  text_le := String.leb;
  text_test t x s := match t with
                     | StartsWith => starts_with s x
                     | EndsWith => ends_with s x
                     | GreaterThan => negb (String.leb x s)
                     | AtLeast => String.leb s x
                     | LessThan => negb (String.leb s x)
                     | AtMost => String.leb x s
                     | Contains => false
                     end;
  other_user_column _ _ := None;
  other_group_column _ _ := None
|}.

Definition bob : User :=
  mkUser "user-2" "realm-1" "bob" None false None None true None "argon2" None None None 0.
Definition mallory : User :=
  mkUser "user-3" "realm-2" "mallory" (Some "m@evil.test") false None None true (Some "argon:x") "argon2" None None None 0.
Definition directory : World := with_rows TUser [bob; user0; mallory] world1.
Definition plain_user (username : string) (active : option bool) : ScimUser :=
  mkScimUser None username None None None active None None None.

Example scim_users_listed_witness :
  exists page, run (findAll (C:=test_collation) "realm-1" (mkListOptions None None (Some "userName sw al")))
      directory = (inr page, directory) /\ (length (lr_Resources page) <= 100)%nat.
Proof.
  set (o := mkListOptions None None (Some "userName sw al")).
  destruct (ends_ok_run (findAll (C:=test_collation) "realm-1" o) directory) as (page & w' & H);
    [vm_compute; reflexivity|].
  destruct (scim_users_listed (C:=test_collation) "realm-1" o directory page w' H) as (-> & _ & Hl).
  - intros f Hf. vm_compute in Hf. injection Hf as <-. discriminate.
  - exists page. split; [exact H|]. apply Hl. discriminate.
Defined.

Definition length_collation : Collation := {|
  text_le a b := (String.length a <=? String.length b)%nat;
  text_test _ _ _ := false;
  other_user_column _ _ := None;
  other_group_column _ _ := None
|}.

Example scim_users_paged_witness :
  exists pages users, Forall2 (fun i page => run (findAll (C:=length_collation) "realm-1"
      (mkListOptions (Some (1 + Z.of_nat (i * 1))) (Some (Z.of_nat 1)) (Some "active eq true"))) directory = (inr page, directory))
      (seq 0 2) pages /\
    concat (map lr_Resources pages) = map (user_resource directory) users /\ Permutation users [bob; user0].
Proof.
  set (q := fun u : User => bool_decide (Some (user_realmId u) = Some "realm-1") && (Bool.eqb (user_enabled u) true && true)).
  destruct (scim_users_paged (C:=length_collation) "realm-1" (Some "active eq true") 1 2 directory q)
    as (pages & users & H1 & H2 & H3 & _).
  - intros a b. cbn. rewrite Nat.leb_gt, Nat.leb_le. lia.
  - intros a b c. cbn. rewrite !Nat.leb_le. lia.
  - reflexivity.
  - lia.
  - reflexivity.
  - apply Nat.leb_le. vm_compute. reflexivity.
  - exists pages, users. split; [exact H1|]. split; [exact H2|exact H3].
Defined.

Example scim_users_isolated_witness :
  same_elsewhere "realm-1" directory
    (run (change_user (E:=test_env) "realm-1" (DeleteUser (Some "user-3"))) directory).2.
Proof.
  refine (proj1 (scim_users_isolated (E:=test_env) "realm-1" (DeleteUser (Some "user-3")) directory
           (run (change_user (E:=test_env) "realm-1" (DeleteUser (Some "user-3"))) directory).1 _ _ _)).
  - vm_compute. apply (bool_decide_unpack (NoDup ["user-2"; "user-1"; "user-3"])). vm_compute. exact I.
  - apply surjective_pairing.
Defined.

Example scim_users_read_back_witness :
  exists x w', run (update (E:=test_env) "realm-1" (Some "user-2") (plain_user "robert" (Some false))) directory =
      (inr x, w') /\ run (findById "realm-1" (Some "user-2")) w' = (inr x, w') /\ su_active x = Some false.
Proof.
  destruct (ends_ok_run (update (E:=test_env) "realm-1" (Some "user-2") (plain_user "robert" (Some false))) directory)
    as (x & w' & H); [vm_compute; reflexivity|].
  destruct (scim_users_read_back (E:=test_env) "realm-1" (plain_user "robert" (Some false)) directory)
    as [_ Hput]; [reflexivity|apply (bool_decide_unpack (NoDup ["user-2"; "user-1"; "user-3"])); vm_compute; exact I|].
  exists x, w'. destruct (Hput "user-2" x w' H) as (Hget & _ & Ha & _). split; [exact H|]. split; [exact Hget|]. by apply Ha.
Defined.

(** ** What a SCIM client meets *)

Section Observations.
Let listed filter :=
  match (run (findAll (C:=test_collation) "realm-1" (mkListOptions None None (Some filter))) directory).1 with
  | inr page => map su_userName (lr_Resources page)
  | inl _ => []
  end.

(** A filter on [realmId] replaces the restriction to the tenant. *)
Lemma filter_leaves_realm : listed "realmId eq realm-2" = ["mallory"].
Proof. vm_compute. reflexivity. Qed.

(** A filter can test a column that no reply shows. *)
Lemma filter_probes_password_hash :
  listed "passwordHash sw argon:Secret" = ["alice"] /\ listed "passwordHash sw argon:Guess" = [].
Proof. split; vm_compute; reflexivity. Qed.
End Observations.

(** The requests of common clients to deactivate a user: with a path and a scalar value
    it is ignored and answered with success, with a text instead of a boolean it fails, and
    creation ignores the flag. *)
Lemma deactivation_ignored :
  (run (patch (E:=test_env) "realm-1" (Some "user-2") [mkPatch "replace" (Some "active") (Some (JBool false))]) directory).1 =
    inr (user_resource directory bob) /\
  (run (patch (E:=test_env) "realm-1" (Some "user-2") [mkPatch "Replace" None (Some (JObj [("active", JBool false)]))]) directory).1 =
    inr (user_resource directory bob) /\
  (run (patch (E:=test_env) "realm-1" (Some "user-2") [mkPatch "replace" None (Some (JObj [("active", JStr "False")]))]) directory).1 =
    inl (PlainError "PrismaClientValidationError") /\
  (exists x, (run (create (E:=test_env) "realm-1" (plain_user "eve" (Some false))) directory).1 = inr x /\ su_active x = Some true).
Proof. split_and!; [vm_compute; reflexivity .. | eexists; split; vm_compute; reflexivity]. Qed.

(** A column that the table does not have makes the whole request fail. *)
Lemma unknown_columns_rejected :
  (run (patch (E:=test_env) "realm-1" (Some "user-2")
          [mkPatch "replace" None (Some (JObj [("active", JBool false); ("displayName", JStr "Bob")]))]) directory).1 =
    inl (PlainError "PrismaClientValidationError").
Proof. vm_compute. reflexivity. Qed.
