(* ===== verification/ScimGroups.v ===== *)
(** * ScimGroups: SCIM provisioning of groups (src/src/scim/scim-groups.service.ts)

    Members are any JSON, as the body of a PATCH has them.  The description of a group,
    which the service sets to its name, is not a column of the model. *)

From S2P Require Import Prelude Prog JsText Json Schema Store StoreFacts Events ScimFilter ScimList ScimUsers Testbed.

Record ScimGroup := mkScimGroup {
  sg_id : option string; sg_displayName : string; sg_externalId : option string; sg_members : option (list json);
  sg_location : option string
}.

(** A member of a reply. *)
Definition member_json (u : User) : json :=
  JObj [("value", JStr (user_id u)); ("display", JStr (user_username u)); ("type", JStr "User")].

(** [include: { userGroups: { include: { user: true } } }]. *)
Definition members_of (w : World) (g : Group) : list User :=
  flat_map (fun m => match List.find (fun u => user_id u === ug_userId m) (rows TUser w) with
                     | Some u => [u]
                     | None => []
                     end) (List.filter (fun m => ug_groupId m === group_id g) (rows TUserGroup w)).

Definition toScimGroup (gm : Group * list User) : ScimGroup :=
  let '(g, members) := gm in
  mkScimGroup (Some (group_id g)) (group_name g) (Some (group_id g))
    (match members with [] => None | _ => Some (map member_json members) end)
    (Some ("/scim/v2/Groups/" +:+ group_id g)).

(** ** Paths of members *)

Definition quote : ascii := "039"%char.
Definition path_head : string := "members[value eq " +:+ String quote EmptyString.
Definition path_tail : string := String quote "]".

(** The longest suffix without a quote, and what precedes it. *)
Definition last_segment (s : string) : string * string :=
  let '(r, rest) := span_chars (fun c => c !== quote) (str_rev s) in (str_rev rest, str_rev r).

(** [/members\[value eq '([^']+)'\]$/]: the value is what stands between the last two quotes. *)
Definition extractMemberValueFromPath (path : string) : option string :=
  if ends_with path_tail path then
    let '(before, value) := last_segment (drop_last (drop_last path)) in
    if (value !== EmptyString) && ends_with path_head before then Some value else None
  else None.

(** ** The service *)

Section Service.
Context {E : Env} {C : Collation}.

Definition group_event (realmId operationType groupId : string) : M unit :=
  recordAdminEvent_body (mkAdminEventParams realmId "scim" operationType "GROUP" ("/scim/v2/Groups/" +:+ groupId) None).
Definition group_not_found {A} (groupId : option string) : M A :=
  Throw (NotFound ("Group '" +:+ id_text groupId +:+ "' not found")).
Definition group_with_id (realmId : string) (groupId : option string) (g : Group) : bool :=
  where_id groupId (group_id g) && (group_realmId g === realmId).

(** The upsert by the compound key: an undefined part of the key is rejected. *)
Definition upsert_membership (userId : string) (groupId : option string) : M unit :=
  match groupId with
  | Some g =>
      (upsert TUserGroup (fun m => (ug_userId m === userId) && (ug_groupId m === g))
         (fun _ _ => mkUserGroup userId g) (fun m => m) ;;; Ret tt)%prog
  | None => validation_error
  end.

Definition addMember (realmId : string) (groupId : option string) (member : json) : M unit :=
  match property "value" member with
  | None => Throw (PlainError "TypeError")
  | Some value =>
      if negb (js_truthy value) then Ret tt else
      match value with
      | Some (JStr userId) =>
          (user <- find_first TUser (fun u => (user_id u === userId) && (user_realmId u === realmId)) ;;
           match user with
           | Some u => upsert_membership (user_id u) groupId
           | None => Ret tt
           end)%prog
      | _ => validation_error
      end
  end.
Definition addMembers (realmId : string) (groupId : option string) (members : list json) : M unit :=
  for_each members (addMember realmId groupId).

Definition removeMember (realmId : string) (groupId : option string) (memberValue : string) : M unit :=
  (delete_many TUserGroup (fun m => where_id groupId (ug_groupId m) && (ug_userId m === memberValue)) ;;; Ret tt)%prog.

Definition create (realmId : string) (scimGroup : ScimGroup) : M ScimGroup :=
  let name := sg_displayName scimGroup in
  (existing <- find_first TGroup (fun g => (group_realmId g === realmId) && (group_name g === name)) ;;
   match existing with
   | Some _ => Throw (Conflict ("Group '" +:+ name +:+ "' already exists"))
   | None =>
       group <- Store.create TGroup (fun id _ => mkGroup id realmId name None) ;;
       addMembers realmId (Some (group_id group)) (sg_members scimGroup ?? []) ;;;
       group_event realmId "CREATE" (group_id group) ;;;
       Ret (toScimGroup (group, []))
   end)%prog.

Definition group_resource (w : World) (g : Group) : ScimGroup := toScimGroup (g, members_of w g).

Definition findById (realmId : string) (groupId : option string) : M ScimGroup :=
  (group <- find_with TGroup (group_with_id realmId groupId) group_resource ;;
   match group with
   | Some g => Ret g
   | None => group_not_found groupId
   end)%prog.

Definition group_listing (realmId : string) (filter : option string) : Listing Group :=
  listing scimFilterToPrismaWhereGroup (where_test text_test group_column other_group_column) realmId filter.
Definition findAll (realmId : string) (options : ListOptions) : M (ScimListResponse ScimGroup) :=
  findAll_rows TGroup group_name group_resource (group_listing realmId (lo_filter options)) options.
Definition search (realmId : string) (request : ListOptions) : M (ScimListResponse ScimGroup) := findAll realmId request.

Definition set_group_name (name : string) (g : Group) : Group :=
  mkGroup (group_id g) (group_realmId g) name (group_parentId g).
Definition update_group_row (groupId : option string) (f : Group -> Group) : M Group :=
  match groupId with
  | Some i => update_checked TGroup (fun g => group_id g === i) f
  | None => validation_error
  end.
Definition other_group (groupId : option string) (g : Group) : bool :=
  match groupId with Some i => group_id g !== i | None => true end.

Definition update (realmId : string) (groupId : option string) (scimGroup : ScimGroup) : M ScimGroup :=
  (existing <- find_first TGroup (group_with_id realmId groupId) ;;
   match existing with
   | None => group_not_found groupId
   | Some existing =>
       (if sg_displayName scimGroup !== group_name existing then
          nameExists <- find_first TGroup (fun g =>
            (group_realmId g === realmId) && (group_name g === sg_displayName scimGroup) && other_group groupId g) ;;
          match nameExists with
          | Some _ => Throw (Conflict ("Group name '" +:+ sg_displayName scimGroup +:+ "' already exists"))
          | None => Ret tt
          end
        else Ret tt) ;;;
       update_group_row groupId (set_group_name (sg_displayName scimGroup)) ;;;
       match sg_members scimGroup with
       | Some members =>
           delete_many TUserGroup (fun m => where_id groupId (ug_groupId m)) ;;;
           addMembers realmId groupId members
       | None => Ret tt
       end ;;;
       group_event realmId "UPDATE" (id_text groupId) ;;;
       findById realmId groupId
   end)%prog.

Definition patch_group_operation (realmId : string) (groupId : option string) (op : ScimPatchOperation) : M unit :=
  if includes (po_op op) ["add"; "replace"] then
    match po_value op with
    | Some (JArr members) =>
        if bool_decide (po_path op = Some "members") then addMembers realmId groupId members else Ret tt
    | _ => Ret tt
    end
  else if po_op op === "remove" then
    match (if truthy (po_path op) then extractMemberValueFromPath (po_path op ?? EmptyString) else None) with
    | Some memberValue => removeMember realmId groupId memberValue
    | None => Ret tt
    end
  else Ret tt.

Definition patch (realmId : string) (groupId : option string) (operations : list ScimPatchOperation) : M ScimGroup :=
  (group <- find_first TGroup (group_with_id realmId groupId) ;;
   match group with
   | None => group_not_found groupId
   | Some _ =>
       for_each operations (patch_group_operation realmId groupId) ;;;
       group_event realmId "PATCH" (id_text groupId) ;;;
       findById realmId groupId
   end)%prog.

Definition delete (realmId : string) (groupId : option string) : M unit :=
  (group <- find_first TGroup (group_with_id realmId groupId) ;;
   match group with
   | None => group_not_found groupId
   | Some _ =>
       match groupId with
       | Some i => delete_one TGroup (fun g => group_id g === i) ;;; Ret tt
       | None => validation_error
       end ;;;
       group_event realmId "DELETE" (id_text groupId)
   end)%prog.
End Service.

(** ** Paths read back *)

Lemma span_chars_prefix f s c r : all_chars f s = true -> f c = false -> span_chars f (s +:+ String c r) = (s, String c r).
Proof. intros Hs Hc. by apply span_chars_app. Qed.

(** The path of a member names it: whatever precedes [members], an identifier without a
    quote is read back. *)
Lemma extract_member_path before userId :
  userId <> EmptyString -> all_chars (fun c => c !== quote) userId = true ->
  extractMemberValueFromPath (before +:+ path_head +:+ userId +:+ path_tail) = Some userId.
Proof.
  intros Hne Hq. unfold extractMemberValueFromPath.
  set (s := before +:+ path_head +:+ userId).
  replace (before +:+ path_head +:+ userId +:+ path_tail) with (s +:+ path_tail) by (unfold s; by rewrite !string_app_assoc).
  rewrite (proj2 (ends_with_true path_tail _)) by (by exists s).
  replace (drop_last (drop_last (s +:+ path_tail))) with s.
  2:{ change path_tail with (String quote EmptyString +:+ String "]"%char EmptyString).
      by rewrite <- string_app_assoc, !drop_last_app. }
  unfold last_segment, s. rewrite <- string_app_assoc, str_rev_concat.
  assert (Hh : str_rev (before +:+ path_head) = String quote (str_rev (before +:+ "members[value eq "))).
  { change path_head with ("members[value eq " +:+ String quote EmptyString).
    by rewrite <- string_app_assoc, str_rev_concat. }
  rewrite Hh, span_chars_prefix; [|by rewrite all_chars_rev|by apply negb_false_iff, bool_decide_eq_true_2].
  rewrite <- Hh, !str_rev_rev, bool_decide_eq_false_2 by done. cbn [negb andb].
  rewrite (proj2 (ends_with_true path_head _)); [done|by exists before].
Qed.

(** ** Changes stay in the realm *)

Section Isolation.
Context {E : Env}.
Variable realmId : string.

(** Only memberships of group [g] differ, and new ones are of users of the realm. *)
Record members_kept (g : string) (w w' : World) : Prop := {
  mk_users : rows TUser w' = rows TUser w;
  mk_groups : rows TGroup w' = rows TGroup w;
  mk_others : forall m, ug_groupId m <> g -> m ∈ rows TUserGroup w' <-> m ∈ rows TUserGroup w;
  mk_new : forall m, m ∈ rows TUserGroup w' -> m ∈ rows TUserGroup w \/
             exists u, u ∈ rows TUser w /\ user_id u = ug_userId m /\ user_realmId u = realmId
}.

#[export] Instance members_kept_preorder g : PreOrder (members_kept g).
Proof.
  split; [intros w; split; naive_solver|]. intros a b c [U1 G1 O1 N1] [U2 G2 O2 N2]. split; [congruence..| |].
  - intros m Hm. by rewrite O2, O1.
  - intros m [Hm|Hm]%N2; [by apply N1|]. rewrite U1 in Hm. by right.
Qed.

Lemma members_kept_frame ts g w w' : frame ts w w' ->
  includes TUser ts = false -> includes TGroup ts = false -> includes TUserGroup ts = false -> members_kept g w w'.
Proof.
  intros F H1 H2 H3. pose proof (frame_rows _ _ _ TUserGroup F H3) as Hm. split.
  - by apply (frame_rows ts).
  - by apply (frame_rows ts).
  - intros m _. by rewrite Hm.
  - intros m. rewrite Hm. by left.
Qed.

Lemma members_kept_rows g w rs :
  (forall m, ug_groupId m <> g -> m ∈ rs <-> m ∈ rows TUserGroup w) ->
  (forall m, m ∈ rs -> m ∈ rows TUserGroup w \/
     exists u, u ∈ rows TUser w /\ user_id u = ug_userId m /\ user_realmId u = realmId) ->
  members_kept g w (with_rows TUserGroup rs w).
Proof. intros H1 H2. split; try (by rewrite rows_with_rows_ne); by rewrite rows_with_rows_eq. Qed.

Lemma addMember_kept g member w r w' : run (addMember realmId (Some g) member) w = (r, w') -> members_kept g w w'.
Proof.
  unfold addMember. destruct (property "value" member) as [value|]; [|by intros [= _ <-]].
  destruct (js_truthy value); [|by intros [= _ <-]]. cbn [negb]. destruct value as [[| | |userId| |]|]; try (by intros [= _ <-]).
  intros [[e He]|(o & w1 & Ho & Hr)]%run_bind_any; [by apply run_query_any in He as ->|].
  destruct (run_query_inr _ _ _ _ Ho) as (-> & -> & Hup). clear Ho.
  destruct (List.find _ (rows TUser w)) as [u|] eqn:Hu; [|by injection Hr as _ <-].
  apply find_elem in Hu as [Hin [_ Hrl%bool_decide_eq_true]%andb_true_iff]. unfold upsert_membership, upsert in Hr.
  rewrite run_bind, run_prisma, Hup in Hr. destruct (List.find _ (rows TUserGroup w)) as [m0|]; injection Hr as _ <-.
  - assert (Hid : update_first (fun m => (ug_userId m === user_id u) && (ug_groupId m === g)) (fun m => m) (rows TUserGroup w) =
              rows TUserGroup w).
    { generalize (rows TUserGroup w) as l. intros l. induction l as [|m l IH]; simpl; [done|]. case_match; [done|]. by rewrite IH. }
    rewrite Hid. apply members_kept_rows; naive_solver.
  - transitivity (next_uuid w); [by apply (members_kept_frame []); [apply frame_next_uuid|..]|].
    change (rows TUserGroup w) with (rows TUserGroup (next_uuid w)). apply members_kept_rows.
    + intros m Hm. rewrite elem_of_app, list_elem_of_singleton. split; [|by left]. intros [?| ->]; done.
    + intros m. rewrite elem_of_app, list_elem_of_singleton. intros [?| ->]; [by left|]. right. by exists u.
Qed.

Lemma delete_members_kept g p w r w' :
  (forall m, ug_groupId m <> g -> p m = false) -> run (delete_many TUserGroup p) w = (r, w') -> members_kept g w w'.
Proof.
  intros Hp. unfold delete_many. rewrite run_prisma. destruct (w_db_up w); intros [= _ <-]; [|reflexivity].
  apply (members_kept_rows g w).
  - intros m Hm. rewrite elem_of_filter_list, Hp by done. naive_solver.
  - intros m. rewrite elem_of_filter_list. naive_solver.
Qed.

Lemma removeMember_kept g userId w r w' : run (removeMember realmId (Some g) userId) w = (r, w') -> members_kept g w w'.
Proof.
  unfold removeMember. intros [[e He]|(n & w1 & He & Hr)]%run_bind_any; [|injection Hr as _ <-];
    (apply (delete_members_kept g) in He; [done|]; intros m Hm; cbn [where_id]; by rewrite bool_decide_eq_false_2).
Qed.

Definition keeps {A} (g : string) (p : M A) : Prop := forall w r w', run p w = (r, w') -> members_kept g w w'.

Lemma bind_keeps {A B} g (p : M A) (k : A -> M B) : keeps g p -> (forall a, keeps g (k a)) -> keeps g (bind p k).
Proof.
  intros Hp Hk w r w' [[e He]|(a & w1 & Ha & Hr)]%run_bind_any; [by apply Hp in He|].
  transitivity w1; [by apply Hp in Ha|by apply Hk in Hr].
Qed.

Lemma ret_keeps {A} g (a : A) : keeps g (Ret a).
Proof. by intros w r w' [= _ <-]. Qed.

Lemma for_each_keeps {A} g (l : list A) (body : A -> M unit) : (forall x, keeps g (body x)) -> keeps g (for_each l body).
Proof.
  intros Hb. induction l as [|x l IH]; cbn [for_each]; [apply ret_keeps|]. apply bind_keeps; [apply Hb|intros _; exact IH].
Qed.

Lemma patch_operation_keeps g op : keeps g (patch_group_operation realmId (Some g) op).
Proof.
  unfold patch_group_operation. destruct (includes _ _).
  - destruct (po_value op) as [[| | | |l|]|]; try apply ret_keeps. destruct (bool_decide _); [|apply ret_keeps].
    apply for_each_keeps. intros m w r w'. apply addMember_kept.
  - destruct (bool_decide _); [|apply ret_keeps]. destruct (if truthy _ then _ else _) as [userId|]; [|apply ret_keeps].
    intros w r w'. apply removeMember_kept.
Qed.

Lemma group_event_keeps g op i : keeps g (group_event realmId op i).
Proof.
  intros w r w' H. apply (run_frame [TAdminEvent]) in H; [by eapply members_kept_frame|].
  unfold group_event, recordAdminEvent_body. footprint.
Qed.

Lemma group_by_id_keeps g i : keeps g (findById realmId i).
Proof.
  intros w r w' H. apply (run_frame []) in H; [by eapply members_kept_frame|]. unfold findById, find_with, group_not_found. footprint.
Qed.
End Isolation.

Inductive GroupChange :=
| CreateGroup (scimGroup : ScimGroup)
| UpdateGroup (groupId : string) (scimGroup : ScimGroup)
| PatchGroup (groupId : string) (operations : list ScimPatchOperation)
| DeleteGroup (groupId : string).

Section Tenancy.
Context {E : Env}.
Variable realmId : string.

Definition change_group (c : GroupChange) : M unit :=
  match c with
  | CreateGroup sg => (create realmId sg ;;; Ret tt)%prog
  | UpdateGroup i sg => (update realmId (Some i) sg ;;; Ret tt)%prog
  | PatchGroup i ops => (patch realmId (Some i) ops ;;; Ret tt)%prog
  | DeleteGroup i => delete realmId (Some i)
  end.

(** The membership is one of a group of another realm. *)
Definition foreign (w : World) (m : UserGroup) : Prop :=
  exists g, g ∈ rows TGroup w /\ group_id g = ug_groupId m /\ group_realmId g <> realmId.

Record groups_isolated (w w' : World) : Prop := {
  gi_users : rows TUser w' = rows TUser w;
  gi_groups : forall g, group_realmId g <> realmId -> g ∈ rows TGroup w' <-> g ∈ rows TGroup w;
  gi_members : forall m, foreign w m -> m ∈ rows TUserGroup w' <-> m ∈ rows TUserGroup w;
  gi_new : forall m, m ∈ rows TUserGroup w' -> m ∈ rows TUserGroup w \/
             exists u, u ∈ rows TUser w /\ user_id u = ug_userId m /\ user_realmId u = realmId
}.

Lemma groups_isolated_refl w : groups_isolated w w.
Proof. split; naive_solver. Qed.

Lemma groups_isolated_trans a b c : groups_isolated a b -> groups_isolated b c -> groups_isolated a c.
Proof.
  intros [U1 G1 M1 N1] [U2 G2 M2 N2]. split; [congruence| | |].
  - intros g Hg. by rewrite G2, G1.
  - intros m (g & Hin & Hid & Hr). rewrite M2; [apply M1; by exists g|]. exists g. split_and!; [by apply G1|done|done].
  - intros m [Hm|Hm]%N2; [by apply N1|]. rewrite U1 in Hm. by right.
Qed.

(** The identifier of a group of the realm is not the one of a foreign group. *)
Definition own_id (w : World) (i : string) : Prop := forall g, g ∈ rows TGroup w -> group_id g = i -> group_realmId g = realmId.

Lemma isolated_of_members i w w' : own_id w i -> members_kept realmId i w w' -> groups_isolated w w'.
Proof.
  intros Hi [U G O N]. split; [done| | |done].
  - intros g _. by rewrite G.
  - intros m (g & Hg & Hid & Hr). apply O. intros Hm. apply Hr, (Hi g Hg). congruence.
Qed.

Lemma found_own_id i w g :
  NoDup (map group_id (rows TGroup w)) -> List.find (group_with_id realmId (Some i)) (rows TGroup w) = Some g -> own_id w i.
Proof.
  intros Hnd Hg x Hx Hid. apply find_elem in Hg as [Hin [Hi%bool_decide_eq_true Hr%bool_decide_eq_true]%andb_true_iff].
  cbn [where_id] in Hi. assert (x = g) as -> by (apply (NoDup_map_inj group_id (rows TGroup w)); [done|done|done|by rewrite Hid, Hi]). done.
Qed.

Lemma isolated_rename i f w g :
  NoDup (map group_id (rows TGroup w)) -> List.find (group_with_id realmId (Some i)) (rows TGroup w) = Some g ->
  (forall x, group_realmId (f x) = group_realmId x) ->
  groups_isolated w (with_rows TGroup (update_first (fun x => group_id x === i) f (rows TGroup w)) w).
Proof.
  intros Hnd Hg Hf. destruct (find_elem _ _ _ Hg) as [Hin [Hi%bool_decide_eq_true Hr%bool_decide_eq_true]%andb_true_iff].
  cbn [where_id] in Hi. subst i. split; rewrite ?rows_with_rows_eq, ?rows_with_rows_ne by done; [done| |done|by left].
  intros x Hx. destruct (find_from_elem (fun x => group_id x === group_id g) _ _ Hin) as [y Hy]; [by apply bool_decide_eq_true|].
  assert (y = g) as -> by (by apply (find_unique group_id (fun _ => true) (rows TGroup w))).
  apply (elem_of_update_first_other (fun x => group_realmId x = realmId) _ f _ _ x Hy); [done|by rewrite Hf|done].
Qed.

Lemma isolated_update i sg w r w' :
  NoDup (map group_id (rows TGroup w)) -> run (update realmId (Some i) sg) w = (r, w') -> groups_isolated w w'.
Proof.
  unfold update. intros Hnd [[e He]|(o & w1 & Ho & Hr)]%run_bind_any;
    [apply run_query_any in He as ->; apply groups_isolated_refl|].
  destruct (run_query_inr _ _ _ _ Ho) as (-> & -> & _). clear Ho.
  destruct (List.find _ (rows TGroup w)) as [g|] eqn:Hg; [|injection Hr as _ <-; apply groups_isolated_refl].
  apply run_bind_any in Hr as [[e He]|(u & w1 & He & Hr)]; apply (run_refuse TGroup) in He as ->; [apply groups_isolated_refl|].
  set (f := set_group_name _) in Hr.
  assert (Hw : forall w1, w1 = w \/ (exists x, List.find (fun y => group_id y === i) (rows TGroup w) = Some x /\
      w1 = with_rows TGroup (update_first (fun y => group_id y === i) f (rows TGroup w)) w) -> groups_isolated w w1).
  { intros w1 [->|(x & _ & ->)]; [apply groups_isolated_refl|]. by apply (isolated_rename i f w g). }
  apply run_bind_any in Hr as [[e He]|(g' & w1 & Hu & Hr)]; [apply (run_update_checked_any TGroup) in He; by apply Hw|].
  apply (groups_isolated_trans w w1); [apply Hw; by apply (run_update_checked_any TGroup) in Hu|].
  apply (run_update_checked_inr TGroup) in Hu as (x & _ & _ & -> & _). clear Hw.
  assert (Hown : own_id (with_rows TGroup (update_first (fun y => group_id y === i) f (rows TGroup w)) w) i).
  { intros y. rewrite rows_with_rows_eq. intros Hy Hid. pose proof (found_own_id i w g Hnd Hg) as Ho.
    apply elem_of_update_first in Hy as [Hy|(z & Hz & ->)]; [by apply Ho|]. apply find_elem in Hz as [Hz _].
    change (group_realmId z = realmId). by apply Ho. }
  apply (isolated_of_members i); [exact Hown|]. clear Hown.
  set (w1 := with_rows TGroup _ w) in *. clearbody w1.
  revert Hr. apply (bind_keeps realmId i); [|intros _; apply bind_keeps; [apply group_event_keeps|intros _; apply group_by_id_keeps]].
  destruct (sg_members sg) as [l|]; [|apply ret_keeps]. apply bind_keeps.
  - intros w4 r4 w5 Hd. apply (delete_members_kept realmId i) in Hd; [done|]. intros m Hm. by apply bool_decide_eq_false_2.
  - intros _. apply for_each_keeps. intros m w4 r4 w5. apply addMember_kept.
Qed.

Lemma isolated_patch i ops w r w' :
  NoDup (map group_id (rows TGroup w)) -> run (patch realmId (Some i) ops) w = (r, w') -> groups_isolated w w'.
Proof.
  unfold patch. intros Hnd [[e He]|(o & w1 & Ho & Hr)]%run_bind_any;
    [apply run_query_any in He as ->; apply groups_isolated_refl|].
  destruct (run_query_inr _ _ _ _ Ho) as (-> & -> & _). clear Ho.
  destruct (List.find _ (rows TGroup w)) as [g|] eqn:Hg; [|injection Hr as _ <-; apply groups_isolated_refl].
  apply (isolated_of_members i); [by apply (found_own_id i w g)|]. revert Hr.
  apply (bind_keeps realmId i); [|intros _; apply bind_keeps; [apply group_event_keeps|intros _; apply group_by_id_keeps]].
  apply for_each_keeps, patch_operation_keeps.
Qed.

Lemma isolated_create sg w r w' :
  (forall g, g ∈ rows TGroup w -> group_id g <> uuid (w_uuids w)) ->
  run (create realmId sg) w = (r, w') -> groups_isolated w w'.
Proof.
  unfold create. intros Hfresh [[e He]|(o & w1 & Ho & Hr)]%run_bind_any;
    [apply run_query_any in He as ->; apply groups_isolated_refl|].
  apply run_query_any in Ho as ->. destruct o; [injection Hr as _ <-; apply groups_isolated_refl|].
  set (new := mkGroup (uuid (w_uuids w)) realmId (sg_displayName sg) None).
  assert (Hadd : groups_isolated w (with_rows TGroup (rows TGroup w ++ [new]) (next_uuid w))).
  { split; rewrite ?rows_with_rows_eq, ?rows_with_rows_ne by done; [done| |done|by left].
    intros g Hg. rewrite elem_of_app, list_elem_of_singleton. split; [|by left]. intros [?| ->]; done. }
  apply run_bind_any in Hr as [[e He]|(g & w1 & Hc & Hr)].
  { apply (run_create_any TGroup) in He as [->| ->]; [apply groups_isolated_refl|exact Hadd]. }
  apply (run_create_inr TGroup) in Hc as (-> & -> & _). fold new in Hr |- *.
  eapply groups_isolated_trans; [exact Hadd|]. apply (isolated_of_members (uuid (w_uuids w))).
  - intros g. rewrite rows_with_rows_eq, elem_of_app, list_elem_of_singleton. intros [Hg| ->] Hid; [by destruct (Hfresh g Hg)|done].
  - revert Hr. apply (bind_keeps realmId (uuid (w_uuids w))).
    + apply for_each_keeps. intros m w1 r1 w2. apply addMember_kept.
    + intros _. apply bind_keeps; [apply group_event_keeps|intros _; apply ret_keeps].
Qed.

(** The groups of the realm have their sub-groups in the realm. *)
Definition trees_in_realm (gs : list Group) : Prop :=
  forall g p, g ∈ gs -> p ∈ gs -> group_parentId g = Some (group_id p) -> group_realmId p = realmId -> group_realmId g = realmId.

Lemma descendants_in_realm (gs0 gs : list Group) n ids :
  trees_in_realm gs0 -> (forall g, g ∈ gs -> g ∈ gs0) ->
  (forall i, i ∈ ids -> exists p, p ∈ gs0 /\ group_id p = i /\ group_realmId p = realmId) ->
  forall i, i ∈ descendants n gs ids -> exists p, p ∈ gs0 /\ group_id p = i /\ group_realmId p = realmId.
Proof.
  intros Htree Hsub. revert ids. induction n as [|n IH]; intros ids Hids; cbn [descendants]; [exact Hids|]. apply IH.
  intros i [Hi|Hi]%elem_of_app; [by apply Hids|]. unfold child_ids in Hi. apply list_elem_of_fmap in Hi as (g & -> & Hg).
  apply elem_of_filter_list in Hg as [Hp Hg]. destruct (group_parentId g) as [i|] eqn:Hpar; [|done].
  apply includes_true in Hp. destruct (Hids i Hp) as (p & Hin & Hid & Hr). exists g. split_and!; [by apply Hsub|done|].
  apply (Htree g p); [by apply Hsub|done|congruence|done].
Qed.

Lemma isolated_delete i w r w' :
  NoDup (map group_id (rows TGroup w)) -> trees_in_realm (rows TGroup w) ->
  run (delete realmId (Some i)) w = (r, w') -> groups_isolated w w'.
Proof.
  unfold delete. intros Hnd Htree [[e He]|(o & w1 & Ho & Hr)]%run_bind_any;
    [apply run_query_any in He as ->; apply groups_isolated_refl|].
  destruct (run_query_inr _ _ _ _ Ho) as (-> & -> & Hup). clear Ho.
  destruct (List.find _ (rows TGroup w)) as [g|] eqn:Hg; [|injection Hr as _ <-; apply groups_isolated_refl].
  pose proof (found_own_id i w g Hnd Hg) as Hown.
  destruct (find_elem _ _ _ Hg) as [Hin [Hi%bool_decide_eq_true Hrl%bool_decide_eq_true]%andb_true_iff]. cbn [where_id] in Hi. subst i.
  rewrite run_bind, run_bind in Hr. unfold delete_one in Hr. rewrite run_prisma, Hup in Hr.
  destruct (find_from_elem (fun x => group_id x === group_id g) _ _ Hin) as [y Hy]; [by apply bool_decide_eq_true|].
  assert (y = g) as -> by (by apply (find_unique group_id (fun _ => true) (rows TGroup w))).
  change (List.find (A:=Row TGroup) (fun x : Row TGroup => group_id x === group_id g) (rows TGroup w) = Some g) in Hy.
  rewrite Hy in Hr. cbn [run] in Hr.
  set (db := set_table TGroup (remove_first (fun x => group_id x === group_id g) (rows TGroup w)) (w_tables w)) in Hr.
  assert (Hdb : db TGroup = remove_first (fun x => group_id x === group_id g) (rows TGroup w)) by apply set_table_eq.
  set (ids := descendants (length (db TGroup)) (db TGroup) (map group_id [g])).
  assert (Hids : forall i, i ∈ ids -> exists p, p ∈ rows TGroup w /\ group_id p = i /\ group_realmId p = realmId).
  { apply descendants_in_realm; [done| |].
    - intros x. rewrite Hdb. apply elem_of_remove_first.
    - intros i Hi. apply list_elem_of_singleton in Hi as ->. by exists g. }
  set (w1 := with_tables (on_delete TGroup [g] db) w).
  change (run (group_event realmId "DELETE" (id_text (Some (group_id g)))) w1 = (r, w')) in Hr.
  assert (Hw1 : groups_isolated w w1).
  { assert (HG : rows TGroup w1 = List.filter (fun x => negb (includes (group_id x) ids)) (db TGroup)) by reflexivity.
    assert (HM : rows TUserGroup w1 = List.filter (fun m => negb (includes (ug_groupId m) ids)) (rows TUserGroup w)) by reflexivity.
    split; [reflexivity| | |].
    - intros x Hx. rewrite HG, elem_of_filter_list, negb_true_iff, includes_false, Hdb. split.
      + intros [_ H]. by apply elem_of_remove_first in H.
      + intros H. split.
        * intros (p & Hp & Hpi & Hpr)%Hids. assert (x = p) as -> by (by apply (NoDup_map_inj group_id (rows TGroup w))). done.
        * apply elem_of_remove_first_ne; [|done]. apply bool_decide_eq_false_2. intros Hxi. by apply Hx, Hown.
    - intros m (x & Hx & Hxi & Hxr). rewrite HM, elem_of_filter_list, negb_true_iff, includes_false. split; [by intros [_ ?]|].
      intros H. split; [|done]. intros (p & Hp & Hpi & Hpr)%Hids.
      assert (x = p) as -> by (apply (NoDup_map_inj group_id (rows TGroup w)); [done|done|done|congruence]). done.
    - intros m. rewrite HM, elem_of_filter_list. intros [_ ?]. by left. }
  apply (groups_isolated_trans w w1); [done|]. clear Hw1. clearbody w1.
  apply (run_frame [TAdminEvent]) in Hr; [|unfold group_event, recordAdminEvent_body; footprint].
  split; [by apply (frame_rows [TAdminEvent])| | |]; intros; rewrite ?(frame_rows [TAdminEvent] w1 w' TGroup Hr eq_refl); try done.
  - by rewrite (frame_rows [TAdminEvent] w1 w' TUserGroup Hr eq_refl).
  - left. by rewrite <- (frame_rows [TAdminEvent] w1 w' TUserGroup Hr eq_refl).
Qed.
End Tenancy.

(** Tenancy of groups: whatever a SCIM client of one realm does to a group by its
    identifier - creating, replacing, patching or deleting, with any body, successful or
    not - the groups of other realms and the memberships of those groups stay as they are,
    no user row changes, and every new membership is one of a user of the realm. *)
Theorem scim_groups_isolated {E : Env} realmId c w r w' :
  NoDup (map group_id (rows TGroup w)) -> trees_in_realm realmId (rows TGroup w) ->
  (forall g, g ∈ rows TGroup w -> group_id g <> uuid (w_uuids w)) ->
  run (change_group realmId c) w = (r, w') -> groups_isolated realmId w w'.
Proof.
  intros Hnd Htree Hfresh Hr.
  assert (H : forall A (p : M A), (forall r1 w1, run p w = (r1, w1) -> groups_isolated realmId w w1) ->
            forall r1 w1, run (p ;;; Ret tt)%prog w = (r1, w1) -> groups_isolated realmId w w1).
  { intros A p Hp r1 w1 [[e He]|(a & w2 & Ha & [= _ <-])]%run_bind_any; by eapply Hp. }
  destruct c as [sg|i sg|i ops|i]; cbn [change_group] in Hr.
  - revert Hr. apply H. intros r1 w1. by apply isolated_create.
  - revert Hr. apply H. intros r1 w1. by apply isolated_update.
  - revert Hr. apply H. intros r1 w1. by apply isolated_patch.
  - by apply isolated_delete in Hr.
Qed.

(** A filter of groups never leaves the realm. *)
Lemma group_listing_realm {C : Collation} realmId filter p g :
  group_listing realmId filter = Where p -> p g = true -> group_realmId g = realmId.
Proof.
  unfold group_listing, listing. destruct (truthy filter).
  - destruct (scimFilterToPrismaWhereGroup _ _) as [c|] eqn:Hc; cbn [fmap option_fmap option_map]; [|done].
    apply group_clause_scoped in Hc as (k & v & Hk & ->). rewrite where_spread_scoped by done.
    destruct (where_test _ _ _ _) as [q|] eqn:Hq; [|done]. intros [= <-]. by apply (where_test_group_realm _ _ _ _ _ _ Hq).
  - destruct (where_test _ _ _ _) as [q|] eqn:Hq; [|done]. intros [= <-].
    rewrite <- (app_nil_r (in_realm realmId)) in Hq. by apply (where_test_group_realm _ _ _ _ _ _ Hq).
Qed.

(** ** A sample directory *)

Definition staff : Group := mkGroup "group-1" "realm-1" "staff" None.
Definition evil_staff : Group := mkGroup "group-2" "realm-2" "staff" None.
Definition groups_world : World :=
  with_rows TUserGroup [mkUserGroup "user-1" "group-1"; mkUserGroup "user-3" "group-2"]
    (with_rows TGroup [staff; evil_staff] directory).

Definition join_bob : ScimPatchOperation :=
  mkPatch "add" (Some "members") (Some (JArr [JObj [("value", JStr "user-2")]; JObj [("value", JStr "user-3")]])).

Example scim_groups_isolated_witness :
  let w' := (run (change_group (E:=test_env) "realm-1" (PatchGroup "group-1" [join_bob])) groups_world).2 in
  groups_isolated "realm-1" groups_world w' /\
  rows TUserGroup w' = rows TUserGroup groups_world ++ [mkUserGroup "user-2" "group-1"].
Proof.
  split.
  - apply (scim_groups_isolated (E:=test_env) "realm-1" (PatchGroup "group-1" [join_bob]) groups_world
             (run (change_group (E:=test_env) "realm-1" (PatchGroup "group-1" [join_bob])) groups_world).1).
    + apply (bool_decide_unpack (NoDup ["group-1"; "group-2"])). vm_compute. exact I.
    + intros g p Hg _ Hp. change (g ∈ [staff; evil_staff]) in Hg. apply elem_of_cons in Hg as [->|Hg]; [done|].
      apply list_elem_of_singleton in Hg as ->. done.
    + intros g Hg. change (g ∈ [staff; evil_staff]) in Hg. apply elem_of_cons in Hg as [->|Hg]; [done|].
      by apply list_elem_of_singleton in Hg as ->.
    + apply surjective_pairing.
  - vm_compute. reflexivity.
Defined.

(** [replace] adds the members it lists and keeps the others. *)
Lemma replace_keeps_members :
  rows TUserGroup (run (patch (E:=test_env) "realm-1" (Some "group-1") [mkPatch "replace" (Some "members") (Some (JArr []))])
                     groups_world).2 = rows TUserGroup groups_world.
Proof. vm_compute. reflexivity. Qed.
