(* ===== verification/ScimBulk.v ===== *)
(** * ScimBulk: bulk requests (src/src/scim/scim-bulk.service.ts)

    The operations of a bulk request run one after the other, each with its own
    success or error.  The data of an operation is what each handler reads in it. *)

From S2P Require Import Prelude Prog JsText Json Schema Store StoreFacts ScimFilter ScimList AuthGrants RefreshGrant ScimUsers ScimGroups Testbed.

Record ScimBulkOperation := mkBulkOperation {
  bo_method : string; bo_path : string; bo_bulkId : option string;
  bo_user : ScimUser; bo_group : ScimGroup; bo_operations : list ScimPatchOperation
}.

Record ScimBulkResponseOperation := mkBulkResult {
  br_bulkId : string; br_status : string; br_operationType : string; br_location : option string;
  br_error : option exc
}.

(** [/^\/(Users|Groups)(?:\/(.+))?$/]: whether it is a user, and the identifier. *)
Definition resource_of (path : string) : option (bool * option string) :=
  let id rest :=
    match rest with
    | EmptyString => Some None
    | String c i => if (c === "/"%char) && (i !== EmptyString) && all_chars not_newline i then Some (Some i) else None
    end in
  if starts_with "/Users" path then (fun i => (true, i)) <$> id (str_drop 6 path)
  else if starts_with "/Groups" path then (fun i => (false, i)) <$> id (str_drop 7 path)
  else None.

Section Service.
Context {E : Env}.

Definition location_of (resource : string) (id : option string) : option string :=
  Some ("/scim/v2/" +:+ resource +:+ "/" +:+ id_text id).

Definition handlePost (realmId : string) (is_user : bool) (op : ScimBulkOperation) : M ScimBulkResponseOperation :=
  (location <- (if is_user
                then user <- ScimUsers.create realmId (bo_user op) ;; Ret (location_of "Users" (su_id user))
                else group <- ScimGroups.create realmId (bo_group op) ;; Ret (location_of "Groups" (sg_id group))) ;;
   Ret (mkBulkResult (bo_bulkId op ?? EmptyString) "201" "POST" location None))%prog.

Definition handlePut (realmId : string) (is_user : bool) (resourceId : option string) (op : ScimBulkOperation)
  : M ScimBulkResponseOperation :=
  (location <- (if is_user
                then user <- ScimUsers.update realmId resourceId (bo_user op) ;; Ret (location_of "Users" (su_id user))
                else group <- ScimGroups.update realmId resourceId (bo_group op) ;; Ret (location_of "Groups" (sg_id group))) ;;
   Ret (mkBulkResult (bo_bulkId op ?? EmptyString) "200" "PUT" location None))%prog.

Definition handlePatch (realmId : string) (is_user : bool) (resourceId : option string) (op : ScimBulkOperation)
  : M ScimBulkResponseOperation :=
  (location <- (if is_user
                then user <- ScimUsers.patch realmId resourceId (bo_operations op) ;; Ret (location_of "Users" (su_id user))
                else group <- ScimGroups.patch realmId resourceId (bo_operations op) ;; Ret (location_of "Groups" (sg_id group))) ;;
   Ret (mkBulkResult (bo_bulkId op ?? EmptyString) "200" "PATCH" location None))%prog.

Definition handleDelete (realmId : string) (is_user : bool) (resourceId : option string) (op : ScimBulkOperation)
  : M ScimBulkResponseOperation :=
  ((if is_user then ScimUsers.delete realmId resourceId else ScimGroups.delete realmId resourceId) ;;;
   Ret (mkBulkResult (bo_bulkId op ?? EmptyString) "204" "DELETE" None None))%prog.

Definition processOperation (realmId : string) (op : ScimBulkOperation) : M ScimBulkResponseOperation :=
  match resource_of (bo_path op) with
  | None => Throw (BadRequest ("Invalid path: " +:+ bo_path op))
  | Some (is_user, resourceId) =>
      if bo_method op === "POST" then handlePost realmId is_user op
      else if bo_method op === "PUT" then handlePut realmId is_user resourceId op
      else if bo_method op === "PATCH" then handlePatch realmId is_user resourceId op
      else if bo_method op === "DELETE" then handleDelete realmId is_user resourceId op
      else Throw (BadRequest ("Unsupported method: " +:+ bo_method op))
  end.

(** The reply to an operation that threw. *)
Definition failed (op : ScimBulkOperation) (e : exc) : ScimBulkResponseOperation :=
  mkBulkResult (bo_bulkId op ?? EmptyString) "400" (bo_method op) None (Some e).

Definition one_operation (realmId : string) (op : ScimBulkOperation) : M ScimBulkResponseOperation :=
  catch (processOperation realmId op) (fun e => Ret (failed op e)).

Fixpoint process_all (realmId : string) (operations : list ScimBulkOperation) (results : list ScimBulkResponseOperation)
  : M (list ScimBulkResponseOperation) :=
  match operations with
  | [] => Ret results
  | op :: operations' => (r <- one_operation realmId op ;; process_all realmId operations' (results ++ [r]))%prog
  end.
Definition processBulk (realmId : string) (operations : list ScimBulkOperation) : M (list ScimBulkResponseOperation) :=
  process_all realmId operations [].
End Service.

(** ** Operations stand alone *)

Section Independence.
Context {E : Env}.
Variable realmId : string.

(** What each operation yields when it is run alone where its predecessors left off. *)
Fixpoint one_by_one (operations : list ScimBulkOperation) (w : World) : list ScimBulkResponseOperation * World :=
  match operations with
  | [] => ([], w)
  | op :: operations' =>
      let '(r, w1) := run (processOperation realmId op) w in
      let '(rs, w2) := one_by_one operations' w1 in
      (match r with inr x => x | inl e => failed op e end :: rs, w2)
  end.

Lemma run_one_operation op w :
  run (one_operation realmId op) w =
    let '(r, w1) := run (processOperation realmId op) w in
    (inr match r with inr x => x | inl e => failed op e end, w1).
Proof. unfold one_operation. rewrite run_catch. by destruct (run _ w) as [[e|x] w1]. Qed.

Lemma run_process_all ops results w :
  run (process_all realmId ops results) w = (inr (results ++ (one_by_one ops w).1), (one_by_one ops w).2).
Proof.
  revert results w. induction ops as [|op ops IH]; intros results w; cbn [process_all one_by_one].
  - by rewrite app_nil_r.
  - rewrite run_bind, run_one_operation. destruct (run (processOperation realmId op) w) as [r w1]. rewrite IH.
    destruct (one_by_one ops w1) as [rs w2]. by rewrite <- app_assoc.
Qed.

(** The reply answers the operation. *)
Definition answers (op : ScimBulkOperation) (r : ScimBulkResponseOperation) : Prop :=
  br_bulkId r = (bo_bulkId op ?? EmptyString) /\ br_operationType r = bo_method op /\
  (br_error r = None <-> br_status r <> "400").

Lemma processOperation_answers op w r w' : run (processOperation realmId op) w = (inr r, w') -> answers op r.
Proof.
  unfold processOperation. destruct (resource_of _) as [[is_user i]|]; [|done].
  repeat case_bool_decide; try done; unfold handlePost, handlePut, handlePatch, handleDelete;
    intros (l & w1 & _ & [= <- _])%run_bind_inr; by split.
Qed.

Lemma one_by_one_answers ops w : Forall2 answers ops (one_by_one ops w).1.
Proof.
  revert w. induction ops as [|op ops IH]; intros w; cbn [one_by_one]; [constructor|].
  destruct (run (processOperation realmId op) w) as [[e|r] w1] eqn:Hr; specialize (IH w1);
    destruct (one_by_one ops w1) as [rs w2]; constructor; try done.
  by apply processOperation_answers in Hr.
Qed.
End Independence.

(** A bulk request never fails as a whole: its operations run in order, each as it would
    run alone where its predecessors left off, and it answers every operation in its place,
    under its bulk id, with status 400 and the error exactly for those that threw. *)
Theorem bulk_operations_stand_alone {E : Env} realmId ops w :
  run (processBulk realmId ops) w = (inr (one_by_one realmId ops w).1, (one_by_one realmId ops w).2) /\
  Forall2 answers ops (one_by_one realmId ops w).1.
Proof. split; [apply (run_process_all realmId ops [])|apply one_by_one_answers]. Qed.

(** ** What a SCIM client meets *)

Definition bulk_operation (method path : string) (operations : list ScimPatchOperation) : ScimBulkOperation :=
  mkBulkOperation method path (Some "op") (plain_user "x" None) (mkScimGroup None "x" None None None) operations.

(** A removal at a path without a group identifier, by the client of one realm, ends the
    memberships of the named user in every group of every realm. *)
Lemma removal_without_group :
  rows TUserGroup (run (processBulk (E:=test_env) "realm-1"
    [bulk_operation "PATCH" "/Groups" [mkPatch "remove" (Some "members[value eq 'user-3']") None]]) groups_world).2 =
  [mkUserGroup "user-1" "group-1"].
Proof. vm_compute. reflexivity. Qed.

(** Deprovisioning disables the user and ends no session: a refresh token is still
    exchanged. *)
Lemma deprovisioned_user_refreshes :
  exists w1 resp w2,
    run (ScimUsers.delete (E:=test_env) "realm-1" (Some "user-1")) (refresh_world false) = (inr tt, w1) /\
    forallb (fun u => negb (user_enabled u)) (rows TUser w1) = true /\
    run (handleRefreshTokenGrant (E:=test_env) realm0 refresh_body None) w1 = (inr resp, w2).
Proof.
  eexists (run (ScimUsers.delete (E:=test_env) "realm-1" (Some "user-1")) (refresh_world false)).2.
  destruct (ends_ok_run (handleRefreshTokenGrant (E:=test_env) realm0 refresh_body None)
    (run (ScimUsers.delete (E:=test_env) "realm-1" (Some "user-1")) (refresh_world false)).2) as (resp & w2 & H);
    [vm_compute; reflexivity|].
  exists resp, w2. split; [vm_compute; reflexivity|]. split; [vm_compute; reflexivity|exact H].
Qed.
