(* ===== verification/AccountDeletion.v ===== *)
(** * AccountDeletion: deleting an account after a grace period (src/src/account/account-deletion.service.ts)

    A deletion is a row per user that goes from pending to processing to completed, or to
    cancelled.  [error_message] is the text of an exception. *)

From S2P Require Import Prelude Prog JsText Json Schema Store StoreFacts ScimList Testbed.

Definition DAY_MS : Z := 24 * 60 * 60 * 1000.
(** [Math.ceil(ms / day)]. *)
Definition ceil_days (ms : Z) : Z := - ((- ms) / DAY_MS).

Record DeletionStatus := mkDeletionStatus {
  ds_requestedAt : Z; ds_scheduledAt : Z; ds_gracePeriodDays : Z; ds_status : string;
  ds_exportStatus : option string; ds_daysRemaining : Z
}.
Record PendingDeletionInfo := mkDeletionInfo {
  di_id : string; di_userId : string; di_username : string; di_email : option string; di_requestedAt : Z;
  di_scheduledAt : Z; di_gracePeriodDays : Z; di_status : string; di_exportStatus : option string
}.
Record ProcessDeletionResult := mkProcessResult { processedCount : Z; errors : list string }.
Record DeletionStats := mkDeletionStats {
  st_pending : Z; st_processing : Z; st_completed : Z; st_cancelled : Z; st_total : Z
}.

Definition deletion_status (daysRemaining : Z) (d : PendingDeletion) : DeletionStatus :=
  mkDeletionStatus (pdel_requestedAt d) (pdel_scheduledAt d) (pdel_gracePeriodDays d) (pdel_status d)
    (pdel_exportStatus d) daysRemaining.

(** Columns. *)
Definition reschedule (scheduledAt days : Z) (ip : option string) (d : PendingDeletion) : PendingDeletion :=
  mkPendingDeletion (pdel_id d) (pdel_userId d) (pdel_requestedAt d) scheduledAt days "pending" None None None None
    None None None (match ip with Some a => Some a | None => pdel_ipAddress d end).
Definition set_pdel_status (status : string) (completedAt : option Z) (d : PendingDeletion) : PendingDeletion :=
  mkPendingDeletion (pdel_id d) (pdel_userId d) (pdel_requestedAt d) (pdel_scheduledAt d) (pdel_gracePeriodDays d)
    status (pdel_cancelledAt d) (pdel_cancelledBy d)
    (match completedAt with Some t => Some t | None => pdel_completedAt d end) (pdel_exportStatus d)
    (pdel_exportRequestedAt d) (pdel_exportGeneratedAt d) (pdel_exportUrl d) (pdel_ipAddress d).
Definition set_cancelled (at_ : Z) (by_ : option string) (d : PendingDeletion) : PendingDeletion :=
  mkPendingDeletion (pdel_id d) (pdel_userId d) (pdel_requestedAt d) (pdel_scheduledAt d) (pdel_gracePeriodDays d)
    "cancelled" (Some at_) (match by_ with Some b => Some b | None => pdel_cancelledBy d end) (pdel_completedAt d)
    (pdel_exportStatus d) (pdel_exportRequestedAt d) (pdel_exportGeneratedAt d) (pdel_exportUrl d) (pdel_ipAddress d).
Definition set_export (status : string) (at_ : Z) (d : PendingDeletion) : PendingDeletion :=
  mkPendingDeletion (pdel_id d) (pdel_userId d) (pdel_requestedAt d) (pdel_scheduledAt d) (pdel_gracePeriodDays d)
    (pdel_status d) (pdel_cancelledAt d) (pdel_cancelledBy d) (pdel_completedAt d) (Some status) (Some at_)
    (pdel_exportGeneratedAt d) (pdel_exportUrl d) (pdel_ipAddress d).

Section Service.
Context {E : Env} (error_message : exc -> string).

Definition of_user (userId : string) (d : PendingDeletion) : bool := pdel_userId d === userId.

(** [include: { pendingDeletion }] of the user. *)
Definition user_deletion (userId : string) (w : World) : option (User * option PendingDeletion) :=
  match List.find (fun u => user_id u === userId) (rows TUser w) with
  | Some u => Some (u, List.find (of_user userId) (rows TPendingDeletion w))
  | None => None
  end.

Definition requestDeletion (userId : string) (gracePeriodDays : Z) (ipAddress : option string) : M DeletionStatus :=
  (user <- query (user_deletion userId) ;;
   match user with
   | None => Throw (NotFound ("User with ID '" +:+ userId +:+ "' not found"))
   | Some (_, pending) =>
       match pending with
       | Some d =>
           if pdel_status d === "pending" then Throw (Conflict "Account deletion is already pending")
           else if pdel_status d === "processing" then Throw (Conflict "Account deletion is currently being processed")
           else Ret tt
       | None => Ret tt
       end ;;;
       now <- date_now ;;
       let scheduledAt := now + gracePeriodDays * DAY_MS in
       deletion <- upsert TPendingDeletion (of_user userId)
         (fun id requestedAt =>
            mkPendingDeletion id userId requestedAt scheduledAt gracePeriodDays "pending" None None None None None None
              None ipAddress)
         (reschedule scheduledAt gracePeriodDays ipAddress) ;;
       Ret (deletion_status (ceil_days (scheduledAt - now)) deletion)
   end)%prog.

Definition cancelDeletion (userId : string) (cancelledBy : option string) : M unit :=
  (deletion <- find_first TPendingDeletion (of_user userId) ;;
   match deletion with
   | None => Throw (NotFound "No pending deletion found for this user")
   | Some d =>
       if pdel_status d !== "pending"
       then Throw (BadRequest ("Cannot cancel deletion with status '" +:+ pdel_status d +:+ "'")) else
       now <- date_now ;;
       update TPendingDeletion (of_user userId) (set_cancelled now cancelledBy) ;;;
       Ret tt
   end)%prog.

Definition getDeletionStatus (userId : string) : M (option DeletionStatus) :=
  (deletion <- find_first TPendingDeletion (of_user userId) ;;
   match deletion with
   | None => Ret None
   | Some d =>
       now <- date_now ;;
       Ret (Some (deletion_status (Z.max 0 (ceil_days (pdel_scheduledAt d - now))) d))
   end)%prog.

Definition requestDataExport (userId : string) : M (option string * option Z) :=
  (deletion <- find_first TPendingDeletion (of_user userId) ;;
   match deletion with
   | None => Throw (NotFound "No pending deletion found for this user")
   | Some d =>
       if pdel_status d !== "pending"
       then Throw (BadRequest ("Cannot request export for deletion with status '" +:+ pdel_status d +:+ "'")) else
       now <- date_now ;;
       updated <- update TPendingDeletion (of_user userId) (set_export "requested" now) ;;
       Ret (pdel_exportStatus updated, pdel_exportRequestedAt updated)
   end)%prog.

(** The deletions of the realm's users, each with its user. *)
Definition realm_deletions (realmId : string) (status : option string) (w : World) : list (PendingDeletion * User) :=
  omap (fun d : PendingDeletion =>
          match List.find (fun u => user_id u === pdel_userId d) (rows TUser w) with
          | Some u => if (user_realmId u === realmId) && (negb (truthy status) || bool_decide (Some (pdel_status d) = status))
                      then Some (d, u) else None
          | None => None
          end) (rows TPendingDeletion w).

Definition deletion_info (du : PendingDeletion * User) : PendingDeletionInfo :=
  let '(d, u) := du in
  mkDeletionInfo (pdel_id d) (user_id u) (user_username u) (user_email u) (pdel_requestedAt d) (pdel_scheduledAt d)
    (pdel_gracePeriodDays d) (pdel_status d) (pdel_exportStatus d).

Definition getPendingDeletionsForRealm (realmId : string) (status : option string) (limit offset : option nat)
  : M (list PendingDeletionInfo) :=
  (deletions <- query (fun w => sort_by (fun du => - pdel_requestedAt du.1) (realm_deletions realmId status w)) ;;
   Ret (map deletion_info (take (limit ?? 50%nat) (drop (offset ?? 0%nat) deletions))))%prog.

Definition getDeletionStats (realmId : string) : M DeletionStats :=
  (counts <- query (fun w =>
     let ds := map fst (realm_deletions realmId None w) in
     let n status := Z.of_nat (length (List.filter (fun d => pdel_status d === status) ds)) in
     (n "pending", n "processing", n "completed", n "cancelled")) ;;
   let '(p, q, c, x) := counts in
   Ret (mkDeletionStats p q c x (p + q + c + x)))%prog.

(** ** The scheduled job *)

(** The deletions whose time has come, each with its user. *)
Definition due_deletions (now : Z) (batchSize : nat) (w : World) : list (PendingDeletion * User) :=
  take batchSize (sort_by (fun du => pdel_scheduledAt du.1)
    (omap (fun d : PendingDeletion =>
       if (pdel_status d === "pending") && (pdel_scheduledAt d <=? now)
       then (fun u => (d, u)) <$> List.find (fun u => user_id u === pdel_userId d) (rows TUser w)
       else None) (rows TPendingDeletion w))).

Definition set_status (id status : string) (completedAt : option Z) : M unit :=
  (update TPendingDeletion (fun d => pdel_id d === id) (set_pdel_status status completedAt) ;;; Ret tt)%prog.

Definition process_one (d : PendingDeletion) : M unit :=
  (set_status (pdel_id d) "processing" None ;;;
   delete_one TUser (fun u => user_id u === pdel_userId d) ;;;
   now <- date_now ;;
   set_status (pdel_id d) "completed" (Some now))%prog.

Fixpoint process_all (l : list (PendingDeletion * User)) (result : ProcessDeletionResult) : M ProcessDeletionResult :=
  match l with
  | [] => Ret result
  | (d, u) :: l' =>
      (result <- catch (process_one d ;;; Ret (mkProcessResult (processedCount result + 1) (errors result)))
         (fun error =>
          catch (set_status (pdel_id d) "pending" None) (fun _ => Ret tt) ;;;
          Ret (mkProcessResult (processedCount result)
                 (errors result ++ ["Failed to delete user '" +:+ user_username u +:+ "' (" +:+ pdel_userId d +:+ "): " +:+
                                    error_message error]))) ;;
       process_all l' result)%prog
  end.

Definition processScheduledDeletions (batchSize : nat) : M ProcessDeletionResult :=
  (now <- date_now ;;
   pendingDeletions <- query (due_deletions now batchSize) ;;
   process_all pendingDeletions (mkProcessResult 0 []))%prog.
End Service.

(** ** What the job erases *)

(** The user that a foreign key of the row names, in the tables that have one: deleting the
    user deletes the row.  A refresh token has one to its session.  Authorization codes,
    device codes, login events, memberships, attempts at a text-message code and the log
    of text messages hold the id of a user without a key. *)
Definition user_of (t : Table) : Row t -> option string :=
  match t return Row t -> option string with
  | TUser => fun r => Some (user_id r)
  | TUserRole => fun r => Some (ur_userId r)
  | TSession => fun r => Some (session_userId r)
  | TLoginSession => fun r => Some (ls_userId r)
  | TUserConsent => fun r => Some (uc_userId r)
  | TUserConsentHistory => fun r => Some (uch_userId r)
  | TUserGroup => fun r => Some (ug_userId r)
  | TVerificationToken => fun r => Some (vt_userId r)
  | TMagicLinkRequest => fun r => Some (ml_userId r)
  | TPasswordHistory => fun r => Some (ph_userId r)
  | TLoginFailure => lf_userId
  | TUserCredential => fun r => Some (cred_userId r)
  | TRecoveryCode => fun r => Some (rc_userId r)
  | TUsedTotpCode => fun r => Some (ut_userId r)
  | TTotpFailure => fun r => Some (tf_userId r)
  | TWebAuthnFailure => fun r => Some (wf_userId r)
  | TWebAuthnCredential => fun r => Some (wac_userId r)
  | TFederatedIdentity => fun r => Some (fi_userId r)
  | TUserAttribute => fun r => Some (ua_userId r)
  | TPendingDeletion => fun r => Some (pdel_userId r)
  | TProxySession => fun r => Some (ps_userId r)
  | TUserLoginProfile => fun r => Some (ulp_userId r)
  | TLoginRiskAssessment => fun r => Some (lra_userId r)
  | _ => fun _ => None
  end.

Definition gone_user (gone : string -> bool) (o : option string) : bool :=
  match o with Some x => gone x | None => false end.

(** A refresh token of a session of a user in [gone]. *)
Definition session_gone (gone : string -> bool) (w : World) (r : RefreshToken) : Prop :=
  exists s, s ∈ rows TSession w /\ session_id s = rt_sessionId r /\ gone (session_userId s) = true.
(** Exactly the rows that a key ties to the users in [gone] disappear. *)
Definition erased (gone : string -> bool) (w w' : World) : Prop :=
  (forall t (r : Row t), t <> TRefreshToken ->
     r ∈ rows t w' <-> r ∈ rows t w /\ gone_user gone (user_of t r) = false) /\
  forall r, r ∈ rows TRefreshToken w' <-> r ∈ rows TRefreshToken w /\ ~ session_gone gone w r.

Lemma erased_compose g1 g2 w w1 w2 :
  erased g1 w w1 -> erased g2 w1 w2 -> erased (fun x => g1 x || g2 x) w w2.
Proof.
  intros [H1 R1] [H2 R2]. split.
  - intros t r Ht. rewrite (H2 t r Ht), (H1 t r Ht).
    destruct (user_of t r) as [x|]; simpl; [rewrite orb_false_iff|]; tauto.
  - intros r. rewrite (R2 r), (R1 r). split.
    + intros [[Hr Hn1] Hn2]. split; [done|]. intros (s & Hs & Hid & Hg). destruct (g1 (session_userId s)) eqn:Hg1.
      * apply Hn1. by exists s.
      * apply Hn2. exists s. split; [|done]. by apply (H1 TSession s).
    + intros [Hr Hn]. split; [split; [done|]|].
      * intros (s & Hs & Hid & Hg). apply Hn. exists s. by rewrite Hg.
      * intros (s & Hs & Hid & Hg). apply (H1 TSession s) in Hs as [Hs _]; [|done]. apply Hn. exists s. rewrite Hg. by rewrite orb_true_r.
Qed.
Lemma erased_none w : erased (fun _ => false) w w.
Proof.
  split; [intros t r _; destruct (user_of t r); naive_solver|]. intros r. split; [|by intros [? _]].
  intros Hr. split; [done|]. by intros (s & _ & _ & Hf).
Qed.
Lemma erased_ext g g' w w' : (forall x, g x = g' x) -> erased g w w' -> erased g' w w'.
Proof.
  intros Hg [H R]. split.
  - intros t r Ht. rewrite (H t r Ht). destruct (user_of t r) as [x|]; simpl; [rewrite Hg|]; done.
  - intros r. rewrite (R r). unfold session_gone. by setoid_rewrite Hg.
Qed.

(** The cascade of the schema. *)
Lemma drop_users_spec gone db t (r : Row t) :
  t <> TRefreshToken -> t <> TUser ->
  r ∈ drop_users gone db t <-> r ∈ db t /\ gone_user gone (user_of t r) = false.
Proof.
  intros Ht Hu. unfold drop_users. destruct t; try done;
    repeat rewrite drop_rows_ne by done; rewrite ?drop_rows_eq, ?elem_of_filter_list, ?negb_true_iff;
    repeat rewrite drop_rows_ne by done; simpl; try tauto.
  all: try (destruct (lf_userId r); simpl; tauto).
Qed.

Lemma drop_users_tokens gone db (r : RefreshToken) :
  r ∈ drop_users gone db TRefreshToken <->
  r ∈ db TRefreshToken /\ ~ exists s, s ∈ db TSession /\ session_id s = rt_sessionId r /\ gone (session_userId s) = true.
Proof.
  unfold drop_users. repeat rewrite drop_rows_ne by done. rewrite drop_rows_eq, elem_of_filter_list, negb_true_iff.
  repeat rewrite drop_rows_ne by done. rewrite includes_false.
  assert (Hs : rt_sessionId r ∈ map session_id (List.filter (fun s => gone (session_userId s)) (db TSession)) <->
               exists s, s ∈ db TSession /\ session_id s = rt_sessionId r /\ gone (session_userId s) = true).
  { rewrite list_elem_of_fmap. split.
    - intros (s & Hid & Hin). apply elem_of_filter_list in Hin as [Hg Hin]. by exists s.
    - intros (s & Hin & Hid & Hg). exists s. split; [done|]. by apply elem_of_filter_list. }
  rewrite Hs. tauto.
Qed.

(** What the job reports of a deletion that failed with [e]. *)
Definition failure_text (error_message : exc -> string) (e : exc) (du : PendingDeletion * User) : string :=
  "Failed to delete user '" +:+ user_username du.2 +:+ "' (" +:+ pdel_userId du.1 +:+ "): " +:+ error_message e.

Section Job.
Context (error_message : exc -> string).

(** The ids of users and deletions are unique, and a user has one deletion. *)
Record keys (w : World) : Prop := {
  k_up : w_db_up w = true;
  k_users : NoDup (map user_id (rows TUser w));
  k_ids : NoDup (map pdel_id (rows TPendingDeletion w));
  k_owners : NoDup (map pdel_userId (rows TPendingDeletion w))
}.

Lemma run_set_status_missing id status at_ w :
  w_db_up w = true -> (forall r, r ∈ rows TPendingDeletion w -> pdel_id r <> id) ->
  run (set_status id status at_) w = (inl (PrismaError "P2025"), w).
Proof.
  intros Hup Hno. unfold set_status, update. rewrite run_bind, run_prisma, Hup.
  destruct (List.find _ _) as [r|] eqn:Hr; [|done]. exfalso.
  apply find_elem in Hr as [Hin Hi%bool_decide_eq_true]. by apply (Hno r).
Qed.

(** Processing one deletion erases the user and then fails: the row it wants to mark as
    completed went with the user. *)
Lemma run_process_one d u w :
  keys w -> d ∈ rows TPendingDeletion w -> u ∈ rows TUser w -> user_id u = pdel_userId d ->
  exists w1, run (process_one d) w = (inl (PrismaError "P2025"), w1) /\
    run (set_status (pdel_id d) "pending" None) w1 = (inl (PrismaError "P2025"), w1) /\
    erased (fun x => x === pdel_userId d) w w1 /\ keys w1 /\ w_now w1 = w_now w.
Proof.
  intros [Hup Hku Hki Hko] Hd Hu Huid. unfold process_one. unfold set_status at 1. rewrite run_bind, run_bind.
  set (mark := set_pdel_status "processing" None).
  assert (Hfd : List.find (fun x => pdel_id x === pdel_id d) (rows TPendingDeletion w) = Some d).
  { destruct (find_from_elem (fun x => pdel_id x === pdel_id d) _ d Hd) as [y Hy]; [by apply bool_decide_eq_true|].
    rewrite Hy. f_equal. by apply (find_unique pdel_id (fun _ => true) _ _ _ Hki Hd Hy). }
  rewrite (run_update TPendingDeletion (fun x => pdel_id x === pdel_id d) mark w d Hup Hfd). cbv beta iota.
  simpl (run (Ret tt) _). cbv beta iota.
  set (wa := with_rows TPendingDeletion _ w). assert (Hupa : w_db_up wa = true) by done.
  assert (Hra : forall t, t <> TPendingDeletion -> rows t wa = rows t w) by (intros t Ht; by apply rows_with_rows_ne).
  assert (Hpa : rows TPendingDeletion wa = update_first (fun x => pdel_id x === pdel_id d) mark (rows TPendingDeletion w))
    by apply rows_with_rows_eq.
  assert (Hfu : List.find (fun x => user_id x === pdel_userId d) (rows TUser wa) = Some u).
  { rewrite Hra by done. destruct (find_from_elem (fun x => user_id x === pdel_userId d) _ u Hu) as [y Hy].
    { by apply bool_decide_eq_true. }
    rewrite Hy. f_equal. apply find_elem in Hy as [Hyin Hyi%bool_decide_eq_true].
    apply (NoDup_map_inj user_id (rows TUser w)); [done..|congruence]. }
  rewrite run_bind. unfold delete_one. rewrite run_prisma, Hupa.
  change (Row TUser) with User. rewrite Hfu. cbv beta iota.
  set (w1 := with_tables _ wa).
  assert (Her : erased (fun x => x === pdel_userId d) w w1).
  { assert (Hg : forall o, gone_user (fun id => includes id [user_id u]) o = gone_user (fun x => x === pdel_userId d) o).
    { intros [x|]; [|done]. simpl. unfold includes. rewrite <- Huid. apply bool_decide_ext. set_solver. }
    split; [|intros r; unfold w1, rows at 1; cbn [w_tables with_tables on_delete map];
             rewrite drop_users_tokens, !set_table_ne by done; change (w_tables wa TRefreshToken) with (rows TRefreshToken wa);
             change (w_tables wa TSession) with (rows TSession wa); rewrite !Hra by done; unfold session_gone;
             by setoid_rewrite (fun s : Session => Hg (Some (session_userId s)) : includes _ _ = _)].
    intros t r Ht. unfold w1, rows at 1. cbn [w_tables with_tables on_delete map].
    destruct (decide (t = TUser)) as [->|Hnu].
    - unfold drop_users. repeat rewrite drop_rows_ne by done. rewrite set_table_eq, elem_of_remove_key; [|by rewrite Hra].
      rewrite Hra by done. simpl. by rewrite bool_decide_eq_false.
    - rewrite drop_users_spec, set_table_ne by done. change (w_tables wa t) with (rows t wa).
      rewrite Hg. destruct (decide (t = TPendingDeletion)) as [->|Hnp]; [|by rewrite Hra].
      rewrite Hpa. simpl. rewrite bool_decide_eq_false. split; intros [Hin Hne]; (split; [|done]);
        apply (elem_of_update_first_other (fun x => pdel_userId x = pdel_userId d) _ mark _ d r Hfd) in Hin; done. }
  assert (Hgone : forall r, r ∈ rows TPendingDeletion w1 -> pdel_id r <> pdel_id d).
  { intros r Hin Hi. apply (proj1 Her TPendingDeletion r) in Hin as [Hin Hne]; [|done]. simpl in Hne.
    apply bool_decide_eq_false in Hne. apply Hne. f_equal. by apply (NoDup_map_inj pdel_id (rows TPendingDeletion w)). }
  rewrite run_bind. simpl (run date_now w1). cbv beta iota.
  exists w1. split; [by apply run_set_status_missing|]. split; [by apply run_set_status_missing|]. split; [done|].
  split; [|done].
  assert (Hru : rows TUser w1 = remove_first (fun x => user_id x === pdel_userId d) (rows TUser w)).
  { unfold w1, rows at 1. cbn [w_tables with_tables on_delete map]. unfold drop_users.
    repeat rewrite drop_rows_ne by done. rewrite set_table_eq. by rewrite Hra. }
  assert (Hrp : exists q, rows TPendingDeletion w1 =
            List.filter q (update_first (fun x => pdel_id x === pdel_id d) mark (rows TPendingDeletion w))).
  { unfold w1, rows at 1. cbn [w_tables with_tables on_delete map]. unfold drop_users.
    repeat rewrite drop_rows_ne by done. rewrite drop_rows_eq. repeat rewrite drop_rows_ne by done.
    rewrite set_table_ne by done. change (w_tables wa TPendingDeletion) with (rows TPendingDeletion wa).
    rewrite Hpa. by eexists. }
  destruct Hrp as [q Hrp]. split; [done|rewrite Hru; by apply NoDup_map_remove_first| |];
    rewrite Hrp; apply NoDup_map_filter; by rewrite map_update_first.
Qed.

(** One deletion after the other: none counts as processed, each is reported as failed. *)
Lemma run_process_deletions l result w :
  keys w -> NoDup (map (fun du => pdel_userId du.1) l) ->
  (forall d u, (d, u) ∈ l -> d ∈ rows TPendingDeletion w /\ u ∈ rows TUser w /\ user_id u = pdel_userId d) ->
  exists res w', run (process_all error_message l result) w = (inr res, w') /\
    erased (fun x => includes x (map (fun du => pdel_userId du.1) l)) w w' /\
    processedCount res = processedCount result /\
    errors res = errors result ++ map (failure_text error_message (PrismaError "P2025")) l.
Proof.
  revert result w. induction l as [|[d u] l IH]; intros result w Hk Hnd Hin.
  { exists result, w. split; [done|]. split; [|split; [done|by rewrite app_nil_r]].
    apply (erased_ext (fun _ => false)); [|apply erased_none]. intros x. symmetry. by apply includes_false, not_elem_of_nil. }
  simpl in Hnd. apply NoDup_cons in Hnd as [Hn Hnd].
  destruct (Hin d u) as (Hd & Hu & Hid); [set_solver|].
  destruct (run_process_one d u w Hk Hd Hu Hid) as (w1 & Hone & Hrev & Her & Hk1 & Hnow).
  cbn [process_all]. rewrite run_bind, run_catch, run_bind, Hone. cbv beta iota.
  rewrite run_bind, run_catch, Hrev. cbv beta iota. simpl (run (Ret tt) w1). cbv beta iota. simpl (run (Ret _) w1). cbv beta iota.
  destruct (IH (mkProcessResult (processedCount result)
      (errors result ++ ["Failed to delete user '" +:+ user_username u +:+ "' (" +:+ pdel_userId d +:+ "): " +:+
                         error_message (PrismaError "P2025")])) w1) as (res & w2 & Hr & Her2 & Hc & He); [done..| |].
  { intros d2 u2 Hdu. destruct (Hin d2 u2) as (Hd2 & Hu2 & Hid2); [set_solver|].
    assert (Hne : pdel_userId d2 <> pdel_userId d).
    { intros Heq. apply Hn. rewrite <- Heq. by apply (list_elem_of_fmap_2 (fun du => pdel_userId du.1) l (d2, u2)). }
    split; [|split; [|done]].
    - apply (proj1 Her TPendingDeletion d2); [done|]. split; [done|]. simpl. by apply bool_decide_eq_false.
    - apply (proj1 Her TUser u2); [done|]. split; [done|]. simpl. apply bool_decide_eq_false. congruence. }
  exists res, w2. split; [exact Hr|]. split; [|split; [done|]].
  - eapply erased_ext; [|by eapply erased_compose]. intros x. simpl. unfold includes.
    destruct (bool_decide_reflect (x = pdel_userId d)) as [->|Hx]; simpl;
      [symmetry; apply bool_decide_eq_true; set_solver|]. apply bool_decide_ext. set_solver.
  - rewrite He. simpl. by rewrite <- app_assoc.
Qed.
End Job.

(** A deletion is due when it is pending and its grace period is over. *)
Definition is_due (now : Z) (d : PendingDeletion) : Prop := pdel_status d = "pending" /\ pdel_scheduledAt d <= now.

(** The rows the job reads, before they are ordered and cut. *)
Definition due_raw (w : World) : list (PendingDeletion * User) :=
  omap (fun d : PendingDeletion =>
    if (pdel_status d === "pending") && (pdel_scheduledAt d <=? w_now w)
    then (fun u => (d, u)) <$> List.find (fun u => user_id u === pdel_userId d) (rows TUser w)
    else None) (rows TPendingDeletion w).

Lemma due_raw_elem w d u :
  (d, u) ∈ due_raw w <-> d ∈ rows TPendingDeletion w /\ is_due (w_now w) d /\
    List.find (fun u => user_id u === pdel_userId d) (rows TUser w) = Some u.
Proof.
  unfold due_raw. rewrite list_elem_of_omap. split.
  - intros (x & Hx & Hm). destruct (pdel_status x === "pending") eqn:Hs; [|done].
    destruct (Z.leb_spec (pdel_scheduledAt x) (w_now w)) as [Hle|]; [|done]. simpl in Hm.
    apply bool_decide_eq_true in Hs. destruct (List.find _ _) as [y|] eqn:Hy; [|done]. injection Hm as <- <-. done.
  - intros (Hd & [Hs Hle] & Hf). exists d. split; [done|].
    rewrite bool_decide_eq_true_2, (proj2 (Z.leb_le _ _)) by done. simpl. by rewrite Hf.
Qed.
Lemma due_raw_owners w :
  NoDup (map pdel_userId (rows TPendingDeletion w)) -> NoDup (map (fun du => pdel_userId du.1) (due_raw w)).
Proof.
  unfold due_raw. induction (rows TPendingDeletion w) as [|d ds IH]; simpl; [constructor|].
  intros [Hd Hko]%NoDup_cons. destruct ((pdel_status d === "pending") && (pdel_scheduledAt d <=? w_now w)); simpl; [|by apply IH].
  destruct (List.find _ _) as [u|]; simpl; [|by apply IH]. constructor; [|by apply IH].
  intros ([d2 u2] & Hi & Hin)%list_elem_of_fmap. apply Hd. simpl in Hi. rewrite Hi.
  apply list_elem_of_omap in Hin as (x & Hx & Hm). destruct (_ && _); [|done].
  destruct (List.find _ _); [|done]. injection Hm as <- _. by apply list_elem_of_fmap_2.
Qed.
(** A batch large enough takes them all. *)
Lemma due_deletions_perm batch w :
  (length (due_raw w) <= batch)%nat -> Permutation (due_deletions (w_now w) batch w) (due_raw w).
Proof.
  intros Hb. unfold due_deletions. fold (due_raw w). rewrite take_ge; [apply sort_by_perm|]. by rewrite sort_by_length.
Qed.


(** Two users, one of whom asked to be deleted a day ago. *)
Definition user_b : User :=
  mkUser "user-2" "realm-1" "bob" None false None None true None "argon2" None None None 0.
Definition deletion0 : PendingDeletion :=
  mkPendingDeletion "pdel-1" "user-1" 900000000 990000000 1 "pending" None None None None None None None None.
Definition deletion_world : World :=
  with_rows TPasswordHistory [mkPasswordHistory "ph-1" "user-1" "realm-1" "h" 0; mkPasswordHistory "ph-2" "user-2" "realm-1" "h" 0]
    (with_rows TPendingDeletion [deletion0] (with_rows TUser [user0; user_b] world1)).
Definition no_message (e : exc) : string := "not found".


(** The memberships of an erased user stay: their column is no foreign key. *)
Theorem erasure_leaves_memberships :
  let w := with_rows TOrganizationMember [mkOrganizationMember "om-1" "org-1" "user-1" "member" 0] deletion_world in
  let w' := (run (processScheduledDeletions no_message 10) w).2 in
  rows TUser w' = [user_b] /\ map om_userId (rows TOrganizationMember w') = ["user-1"].
Proof. vm_compute. done. Qed.

(** A user who cancels in time but while the job is running loses the account all the same:
    the job takes no notice of the row's status after its first query. *)
Theorem cancelled_yet_deleted :
  let p := processScheduledDeletions no_message 10 in
  let c := cancelDeletion "user-1" (Some "user-1") in
  let final := schedule [0; 0; 1; 1; 1; 0; 0; 0; 0; 0]%nat (deletion_world, [bind p (fun _ => Ret tt); c]) in
  nth_error final.2 1 = Some (Ret tt) /\ rows TUser final.1 = [user_b].
Proof. vm_compute. done. Qed.
