(* ===== verification/CustomAttributes.v ===== *)
(** * CustomAttributes: the attributes a realm defines for its users
      (src/src/custom-attributes/custom-attributes.service.ts)

    An attribute has a type that its values must fit; some are asked for at registration.
    Property access on a request object is to its own properties. *)

From S2P Require Import Prelude Prog Json JsText JsNumber Schema Store StoreFacts Tenancy Testbed.

Record CreateCustomAttributeDto := mkCreateAttribute {
  cca_name : string; cca_displayName : string; cca_type : option string; cca_required : option bool;
  cca_showOnRegistration : option bool; cca_showOnProfile : option bool; cca_options : option (list string);
  cca_mapToOidcClaim : option string; cca_sortOrder : option Z
}.
Record UpdateCustomAttributeDto := mkUpdateAttribute {
  uca_displayName : option string; uca_type : option string; uca_required : option bool;
  uca_showOnRegistration : option bool; uca_showOnProfile : option bool; uca_options : option (list string);
  uca_mapToOidcClaim : option string; uca_sortOrder : option Z
}.
Record AttributeValue := mkAttributeValue {
  av_attributeId : string; av_name : string; av_displayName : string; av_type : string; av_value : string
}.

(** The form fields, and the body of [setUserAttributes]. *)
Notation fields := (list (string * string)).
Fixpoint field (name : string) (body : fields) : option string :=
  match body with
  | [] => None
  | (k, v) :: body => if k === name then Some v else field name body
  end.

Definition validateOptionsForType (type : string) (options : option (list string)) : M unit :=
  if ((type === "select") || (type === "multi-select")) && bool_decide ((options ?? []) = [])
  then Throw (BadRequest ("Attribute type '" +:+ type +:+ "' requires at least one option"))
  else Ret tt.

Definition is_angle (c : ascii) : bool := (c === "<"%char) || (c === ">"%char).
Definition boolean_words : list string := ["true"; "false"; "1"; "0"; "yes"; "no"].

(** The error of [validateAttributeValue]. *)
Definition attribute_error (type value displayName : string) (options : option (list string)) : option string :=
  let quoted := "'" +:+ displayName +:+ "'" in
  if type === "number" then
    match number_of_text value with NaN => Some (quoted +:+ " must be a number") | _ => None end
  else if type === "boolean" then
    if includes (to_lower value) boolean_words then None else Some (quoted +:+ " must be a boolean value")
  else if type === "select" then
    match options with
    | Some options =>
        if includes value options then None else Some (quoted +:+ " must be one of: " +:+ js_join ", " options)
    | None => None
    end
  else if type === "multi-select" then
    match options with
    | Some options =>
        match List.find (fun s => negb (includes s options)) (map js_trim (js_split ","%char value)) with
        | Some s => Some (quoted +:+ " contains invalid option: " +:+ s)
        | None => None
        end
    | None => None
    end
  else if str_existsb is_angle value then Some (quoted +:+ " must not contain HTML tags or angle brackets")
  else None.
Definition validateAttributeValue (type value displayName : string) (options : option (list string)) : M unit :=
  match attribute_error type value displayName options with
  | Some e => Throw (BadRequest e)
  | None => Ret tt
  end.

Section Service.
Context {E : Env}.

(** ** Definitions *)

Definition createAttribute (realm : Realm) (dto : CreateCustomAttributeDto) : M CustomAttribute :=
  (validateOptionsForType (cca_type dto ?? "text") (cca_options dto) ;;;
   catch
     (create TCustomAttribute (fun id createdAt =>
        mkCustomAttribute id (realm_id realm) (cca_name dto) (cca_mapToOidcClaim dto) (cca_displayName dto)
          (cca_type dto ?? "text") (cca_required dto ?? false) (cca_showOnRegistration dto ?? false)
          (cca_showOnProfile dto ?? true) (cca_options dto) (cca_sortOrder dto ?? 0) createdAt))
     (fun error => match error with
                   | PrismaError "P2002" =>
                       Throw (Conflict ("Attribute '" +:+ cca_name dto +:+ "' already exists in this realm"))
                   | _ => Throw error
                   end))%prog.

(** [orderBy: [{ sortOrder: 'asc' }, { createdAt: 'asc' }]]. *)
Definition in_order (l : list CustomAttribute) : list CustomAttribute := sort_by ca_sortOrder (sort_by ca_createdAt l).
Definition findAllAttributes (realm : Realm) : M (list CustomAttribute) :=
  query (fun w => in_order (List.filter (fun a => ca_realmId a === realm_id realm) (rows TCustomAttribute w))).

Definition findAttributeById (realm : Realm) (attributeId : string) : M CustomAttribute :=
  (attribute <- find_first TCustomAttribute (fun a => (ca_id a === attributeId) && (ca_realmId a === realm_id realm)) ;;
   match attribute with
   | None => Throw (NotFound "Custom attribute not found")
   | Some attribute => Ret attribute
   end)%prog.

Definition findAttributeByName (realmId name : string) : M (option CustomAttribute) :=
  find_first TCustomAttribute (fun a => (ca_realmId a === realmId) && (ca_name a === name)).

Definition edit_attribute (dto : UpdateCustomAttributeDto) (a : CustomAttribute) : CustomAttribute :=
  mkCustomAttribute (ca_id a) (ca_realmId a) (ca_name a)
    (match uca_mapToOidcClaim dto with Some c => Some c | None => ca_mapToOidcClaim a end)
    (uca_displayName dto ?? ca_displayName a) (uca_type dto ?? ca_type a) (uca_required dto ?? ca_required a)
    (uca_showOnRegistration dto ?? ca_showOnRegistration a) (uca_showOnProfile dto ?? ca_showOnProfile a)
    (match uca_options dto with Some o => Some o | None => ca_options a end)
    (uca_sortOrder dto ?? ca_sortOrder a) (ca_createdAt a).

Definition updateAttribute (realm : Realm) (attributeId : string) (dto : UpdateCustomAttributeDto) : M CustomAttribute :=
  (findAttributeById realm attributeId ;;;
   (if truthy (uca_type dto) || bool_decide (uca_options dto <> None) then
      type <- match uca_type dto with
              | Some type => Ret type
              | None => a <- findAttributeById realm attributeId ;; Ret (ca_type a)
              end ;;
      validateOptionsForType type (uca_options dto)
    else Ret tt) ;;;
   update TCustomAttribute (fun a => ca_id a === attributeId) (edit_attribute dto))%prog.

Definition removeAttribute (realm : Realm) (attributeId : string) : M unit :=
  (findAttributeById realm attributeId ;;;
   delete_one TCustomAttribute (fun a => ca_id a === attributeId) ;;; Ret tt)%prog.

(** ** Values *)

Definition assertUserInRealm (realmId userId : string) : M unit :=
  (user <- find_first TUser (fun u => (user_id u === userId) && (user_realmId u === realmId)) ;;
   match user with None => Throw (NotFound "User not found") | Some _ => Ret tt end)%prog.

Definition values_of (userId : string) (w : World) : list AttributeValue :=
  let with_attribute := omap (fun v =>
    match List.find (fun a => ca_id a === ua_attributeId v) (rows TCustomAttribute w) with
    | Some a => Some (a, v)
    | None => None
    end)
    (List.filter (fun v => ua_userId v === userId) (rows TUserAttribute w)) in
  map (fun '(a, v) => mkAttributeValue (ca_id a) (ca_name a) (ca_displayName a) (ca_type a) (ua_value v))
    (sort_by (fun p => ca_sortOrder p.1) with_attribute).
Definition getUserAttributes (realm : Realm) (userId : string) : M (list AttributeValue) :=
  (assertUserInRealm (realm_id realm) userId ;;; query (values_of userId))%prog.

(** The first attribute, in the realm's order, whose value is refused. *)
Fixpoint check_values (attributes : fields) (attrs : list CustomAttribute) : M unit :=
  (match attrs with
   | [] => Ret tt
   | attr :: attrs =>
       match field (ca_name attr) attributes with
       | None => Ret tt
       | Some value =>
           if ca_required attr && (js_trim value === EmptyString)
           then Throw (BadRequest ("Attribute '" +:+ ca_displayName attr +:+ "' is required and cannot be empty"))
           else validateAttributeValue (ca_type attr) value (ca_displayName attr) (ca_options attr)
       end ;;; check_values attributes attrs
   end)%prog.

Definition save_value (userId attributeId value : string) : M unit :=
  (upsert TUserAttribute (fun v => (ua_userId v === userId) && (ua_attributeId v === attributeId))
     (fun _ _ => mkUserAttribute userId attributeId value)
     (fun v => mkUserAttribute (ua_userId v) (ua_attributeId v) value) ;;; Ret tt)%prog.

Definition save_field (userId : string) (attrs : list CustomAttribute) (kv : string * string) : M unit :=
  match List.find (fun a => ca_name a === kv.1) attrs with
  | Some attr => save_value userId (ca_id attr) kv.2
  | None => Throw (PlainError "TypeError")
  end.

Definition setUserAttributes (realm : Realm) (userId : string) (attributes : fields) : M (list AttributeValue) :=
  (assertUserInRealm (realm_id realm) userId ;;;
   realmAttributes <- findAllAttributes realm ;;
   match List.find (fun kv => negb (includes (kv.1) (map ca_name realmAttributes))) attributes with
   | Some (name, _) => Throw (BadRequest ("Unknown attribute '" +:+ name +:+ "' for this realm"))
   | None =>
       check_values attributes realmAttributes ;;;
       transaction (for_each attributes (save_field userId realmAttributes)) ;;;
       getUserAttributes realm userId
   end)%prog.

(** ** Registration *)

Definition getRegistrationAttributes (realmId : string) : M (list CustomAttribute) :=
  query (fun w => in_order (List.filter (fun a => (ca_realmId a === realmId) && ca_showOnRegistration a)
                              (rows TCustomAttribute w))).

(** [(body['attr_' + name] ?? '').trim()]. *)
Definition attr_field (attr : CustomAttribute) (body : fields) : string :=
  js_trim (field ("attr_" +:+ ca_name attr) body ?? EmptyString).

Fixpoint check_registration (body : fields) (attributes : list CustomAttribute) : M unit :=
  (match attributes with
   | [] => Ret tt
   | attr :: attributes =>
       let value := attr_field attr body in
       (if ca_required attr && (value === EmptyString)
        then Throw (BadRequest ("'" +:+ ca_displayName attr +:+ "' is required"))
        else if value === EmptyString then Ret tt
        else validateAttributeValue (ca_type attr) value (ca_displayName attr) (ca_options attr)) ;;;
       check_registration body attributes
   end)%prog.

Definition validateAndSaveRegistrationAttributes (realm : Realm) (userId : string) (body : fields) : M unit :=
  (attributes <- getRegistrationAttributes (realm_id realm) ;;
   if bool_decide (attributes = []) then Ret tt else
   check_registration body attributes ;;;
   let given := List.filter (fun attr => attr_field attr body !== EmptyString) attributes in
   if bool_decide (given = []) then Ret tt else
   transaction (for_each given (fun attr =>
     create TUserAttribute (fun _ _ => mkUserAttribute userId (ca_id attr) (attr_field attr body)) ;;; Ret tt)))%prog.

(** ** Footprints *)

Lemma getRegistrationAttributes_footprint ts r : stable (frame ts) (getRegistrationAttributes r).
Proof. unfold getRegistrationAttributes. footprint. Qed.
Lemma validateAttributeValue_footprint ts t v d o : stable (frame ts) (validateAttributeValue t v d o).
Proof. unfold validateAttributeValue. footprint. Qed.
Hint Resolve getRegistrationAttributes_footprint validateAttributeValue_footprint : footprint.
Lemma check_registration_footprint ts body l : stable (frame ts) (check_registration body l).
Proof. induction l as [|a l IH]; cbn [check_registration]; footprint. Qed.
Hint Resolve check_registration_footprint : footprint.
Lemma validateAndSave_footprint ts r u b :
  covers [TUserAttribute] ts = true -> stable (frame ts) (validateAndSaveRegistrationAttributes r u b).
Proof. intros H. apply (stable_frame_mono _ _ _ H). unfold validateAndSaveRegistrationAttributes. footprint. Qed.
End Service.
#[export] Hint Resolve getRegistrationAttributes_footprint validateAndSave_footprint : footprint.

(** ** Stored values fit their types *)

Definition fits (a : CustomAttribute) (value : string) : Prop :=
  attribute_error (ca_type a) value (ca_displayName a) (ca_options a) = None.
(** Every stored value fits the type of its attribute. *)
Definition values_fit (w : World) : Prop :=
  forall a v, a ∈ rows TCustomAttribute w -> v ∈ rows TUserAttribute w -> ua_attributeId v = ca_id a -> fits a (ua_value v).

Section Facts.
Context {E : Env}.

Lemma run_for_each_inv {A} (I : World -> Prop) (l : list A) (body : A -> M unit) w w' :
  (forall x w1 w2, x ∈ l -> run (body x) w1 = (inr tt, w2) -> I w1 -> I w2) ->
  run (for_each l body) w = (inr tt, w') -> I w -> I w'.
Proof.
  revert w. induction l as [|x l IH]; intros w Hb Hr Hi; [by injection Hr as <-|].
  cbn [for_each] in Hr. apply run_bind_inr in Hr as ([] & w1 & Hx & Hr).
  apply (IH w1); [intros y; intros; eapply (Hb y); eauto; set_solver|done|].
  eapply (Hb x); eauto. set_solver.
Qed.
Lemma run_transaction_inr {A} (p : M A) w a w' : run (transaction p) w = (inr a, w') -> run p w = (inr a, w').
Proof. rewrite run_transaction. destruct (run p w) as [[e|b] w1]; [done|]. by intros [= <- <-]. Qed.

Lemma run_validateAttributeValue a value w w' :
  run (validateAttributeValue (ca_type a) value (ca_displayName a) (ca_options a)) w = (inr tt, w') -> w' = w /\ fits a value.
Proof. unfold validateAttributeValue, fits. destruct (attribute_error _ _ _ _); [done|]. by intros [= <-]. Qed.

Lemma run_check_values body attrs w w' :
  run (check_values body attrs) w = (inr tt, w') ->
  w' = w /\ forall a v, a ∈ attrs -> field (ca_name a) body = Some v -> fits a v.
Proof.
  induction attrs as [|x attrs IH]; intros Hr; cbn [check_values] in Hr.
  { injection Hr as <-. split; [done|]. intros a v Ha. by apply not_elem_of_nil in Ha. }
  apply run_bind_inr in Hr as ([] & w1 & Hx & Hr).
  assert (w1 = w /\ forall v, field (ca_name x) body = Some v -> fits x v) as [-> Hfit].
  { destruct (field (ca_name x) body) as [v|]; [|by injection Hx as <-].
    destruct (_ && _); [done|]. apply run_validateAttributeValue in Hx as [-> Hx]. split; [done|]. by intros ? [= <-]. }
  destruct (IH Hr) as [-> Hall]. split; [done|]. intros a v [->|Ha]%elem_of_cons; [apply Hfit | by apply Hall].
Qed.

Lemma run_check_registration body attrs w w' :
  run (check_registration body attrs) w = (inr tt, w') ->
  w' = w /\ forall a, a ∈ attrs -> (ca_required a = true -> attr_field a body <> EmptyString) /\
    (attr_field a body <> EmptyString -> fits a (attr_field a body)).
Proof.
  induction attrs as [|x attrs IH]; intros Hr; cbn [check_registration] in Hr.
  { injection Hr as <-. split; [done|]. intros a Ha. by apply not_elem_of_nil in Ha. }
  cbv zeta in Hr. apply run_bind_inr in Hr as ([] & w1 & Hx & Hr).
  assert (w1 = w /\ (ca_required x = true -> attr_field x body <> EmptyString) /\
          (attr_field x body <> EmptyString -> fits x (attr_field x body))) as (-> & Hx1 & Hx2).
  { destruct (bool_decide_reflect (attr_field x body = EmptyString)) as [He|He].
    - rewrite andb_true_r in Hx. destruct (ca_required x); [done|]. injection Hx as <-. by split_and!.
    - rewrite andb_false_r in Hx. apply run_validateAttributeValue in Hx as [-> Hx]. by split_and!. }
  destruct (IH Hr) as [-> Hall]. split; [done|]. intros a [->|Ha]%elem_of_cons; [done | by apply Hall].
Qed.

(** The user's value of an attribute. *)
Definition has_key (userId attributeId : string) (v : UserAttribute) : bool :=
  (ua_userId v === userId) && (ua_attributeId v === attributeId).
Definition value_of (userId attributeId : string) (w : World) : option string :=
  ua_value <$> List.find (has_key userId attributeId) (rows TUserAttribute w).

Lemma find_snoc {A} (p : A -> bool) l x :
  List.find p (l ++ [x]) = match List.find p l with Some y => Some y | None => if p x then Some x else None end.
Proof. induction l as [|y l IH]; simpl; [done|]. by destruct (p y). Qed.

Lemma has_key_true u a v : has_key u a v = true <-> ua_userId v = u /\ ua_attributeId v = a.
Proof. unfold has_key. by rewrite andb_true_iff, !bool_decide_eq_true. Qed.
Lemma has_key_other u a u' a' v : a <> a' -> has_key u a v = true -> has_key u' a' v = false.
Proof.
  intros Hne [_ Ha]%has_key_true. destruct (has_key u' a' v) eqn:H; [|done]. apply has_key_true in H as [_ H]. congruence.
Qed.

(** What a saved value does to the values that are stored. *)
Lemma run_save_value userId attributeId value w w' :
  run (save_value userId attributeId value) w = (inr tt, w') ->
  rows TCustomAttribute w' = rows TCustomAttribute w /\
  (forall v, v ∈ rows TUserAttribute w' -> v ∈ rows TUserAttribute w \/
     (ua_attributeId v = attributeId /\ ua_value v = value)) /\
  value_of userId attributeId w' = Some value /\
  (forall u a, a <> attributeId -> value_of u a w' = value_of u a w).
Proof.
  unfold save_value. intros Hr. apply run_bind_inr in Hr as (x & w1 & Hu & Hr). injection Hr as <-.
  unfold upsert in Hu. rewrite run_prisma in Hu. destruct (w_db_up w); [|done].
  change (fun v => (ua_userId v === userId) && (ua_attributeId v === attributeId)) with (has_key userId attributeId) in Hu.
  unfold value_of. destruct (List.find _ _) as [r|] eqn:Hf; injection Hu as <- <-.
  - split; [by apply rows_with_rows_ne|]. rewrite rows_with_rows_eq. apply find_elem in Hf as Hr.
    destruct Hr as [Hin Hk]. apply has_key_true in Hk as Hk'. split; [|split].
    + intros v [Hv|(y & Hy & ->)]%elem_of_update_first; [by left|]. right.
      assert (Some y = Some r) as [= ->] by (by rewrite <- Hf, <- Hy). by destruct Hk'.
    + by rewrite (find_update_first _ _ _ _ Hf).
    + intros u a Hne. rewrite find_update_first_ne; [done| |]; intros y Hy; [|change (has_key u a y = false)];
        by apply (has_key_other userId attributeId).
  - split; [change (rows TCustomAttribute w) with (rows TCustomAttribute (next_uuid w)); by apply rows_with_rows_ne|].
    rewrite rows_with_rows_eq. change (Row TUserAttribute) with UserAttribute in *. split; [|split].
    + intros v [Hv|Hv%list_elem_of_singleton]%elem_of_app; [by left|]. subst v. by right.
    + rewrite find_snoc, Hf. simpl. by rewrite (proj2 (has_key_true _ _ _)).
    + intros u a Hne. rewrite find_snoc. destruct (List.find (has_key u a) _); [done|]. simpl.
      rewrite (has_key_other userId attributeId); [done|done|]. by apply has_key_true.
Qed.

Lemma run_save_fields userId attrs l w w' :
  (forall a b, a ∈ attrs -> b ∈ attrs -> ca_id a = ca_id b -> a = b) -> NoDup (map fst l) ->
  run (for_each l (save_field userId attrs)) w = (inr tt, w') ->
  rows TCustomAttribute w' = rows TCustomAttribute w /\
  (forall v, v ∈ rows TUserAttribute w' -> v ∈ rows TUserAttribute w \/
     exists a, a ∈ attrs /\ (ca_name a, ua_value v) ∈ l /\ ua_attributeId v = ca_id a) /\
  (forall name value, (name, value) ∈ l -> exists a, a ∈ attrs /\ ca_name a = name /\
     value_of userId (ca_id a) w' = Some value) /\
  (forall u i, (forall a, a ∈ attrs -> ca_name a ∈ map fst l -> i <> ca_id a) -> value_of u i w' = value_of u i w).
Proof.
  intros Hid. revert w. induction l as [|[n v] l IH]; intros w Hnd Hr; cbn [for_each] in Hr.
  { injection Hr as <-. split_and!; try done; [by left|]. intros n v Hn. by apply not_elem_of_nil in Hn. }
  apply run_bind_inr in Hr as ([] & w1 & Hx & Hr). simpl in Hnd. apply NoDup_cons in Hnd as [Hn Hnd].
  unfold save_field in Hx. destruct (List.find _ _) as [a|] eqn:Hf; [|done].
  apply find_elem in Hf as [Hin Hname%bool_decide_eq_true]. simpl in Hname, Hx.
  apply run_save_value in Hx as (H1 & H2 & H3 & H4). destruct (IH w1 Hnd Hr) as (I1 & I2 & I3 & I4).
  split; [congruence|]. split; [|split].
  - intros x [Hx|(b & Hb & Hl & Hi)]%I2; [|right; exists b; set_solver].
    apply H2 in Hx as [Hx|[Hi Hv]]; [by left|]. right. exists a. rewrite Hname, Hv. set_solver.
  - intros n' v' [[= -> ->]|Hl]%elem_of_cons; [|by apply I3]. exists a. split_and!; [done..|].
    rewrite I4; [done|]. intros b Hb Hbn He. apply (Hid a b) in He; [|done..]. subst b. by rewrite Hname in Hbn.
  - intros u i Hi. rewrite I4, H4; [done| |].
    + apply Hi; [done|]. rewrite Hname. simpl. set_solver.
    + intros b Hb Hbn. apply Hi; [done|]. simpl. set_solver.
Qed.

Lemma elem_of_in_order x l : x ∈ in_order l <-> x ∈ l.
Proof. unfold in_order. by rewrite !elem_of_sort_by. Qed.

(** Setting a user's attributes stores only values that fit the type of their
    attribute, and stores all of them: for a user of the realm and names the realm
    defines, each given value is the user's value of that attribute afterwards, the values
    of other attributes stay, and if every stored value fitted its type before, every one
    does now. *)
Theorem setUserAttributes_fits realm userId attributes w r w' :
  NoDup (map ca_id (rows TCustomAttribute w)) -> NoDup (map fst attributes) ->
  run (setUserAttributes realm userId attributes) w = (inr r, w') ->
  (exists u, u ∈ rows TUser w /\ user_id u = userId /\ user_realmId u = realm_id realm) /\
  (values_fit w -> values_fit w') /\
  (forall name value, (name, value) ∈ attributes -> exists a, a ∈ rows TCustomAttribute w /\ ca_name a = name /\
     ca_realmId a = realm_id realm /\ fits a value /\ value_of userId (ca_id a) w' = Some value) /\
  (forall u i, (forall a, a ∈ rows TCustomAttribute w -> ca_name a ∈ map fst attributes -> i <> ca_id a) ->
     value_of u i w' = value_of u i w).
Proof.
  intros Hid Hnd Hr. unfold setUserAttributes in Hr. apply run_bind_inr in Hr as ([] & w1 & Hu & Hr).
  unfold assertUserInRealm in Hu. apply run_bind_inr in Hu as (u & w2 & Hf & Hu). run_stmt_inv Hf.
  destruct u as [u|]; [|done]. injection Hu as <-. symmetry in Hf. apply find_elem in Hf as [Huin Huk].
  apply andb_true_iff in Huk as [Huid%bool_decide_eq_true Hur%bool_decide_eq_true].
  split; [by exists u|]. clear u Huin Huid Hur.
  apply run_bind_inr in Hr as (attrs & w1 & Hq & Hr). unfold findAllAttributes in Hq. run_stmt_inv Hq.
  assert (Hattrs : forall a, a ∈ attrs <-> ca_realmId a = realm_id realm /\ a ∈ rows TCustomAttribute w).
  { intros a. subst attrs. rewrite elem_of_in_order, elem_of_filter_list, bool_decide_eq_true. done. }
  destruct (List.find _ attributes) as [[? ?]|]; [done|].
  apply run_bind_inr in Hr as ([] & w1 & Hc & Hr). apply run_check_values in Hc as [-> Hfit].
  apply run_bind_inr in Hr as ([] & w1 & Ht & Hr). apply run_transaction_inr in Ht.
  assert (w' = w1) as ->.
  { unfold getUserAttributes, assertUserInRealm in Hr. apply run_bind_inr in Hr as ([] & w2 & Hu & Hr). run_stmt_inv Hr.
    apply run_bind_inr in Hu as (o & w3 & Hf & Hu). run_stmt_inv Hf. destruct o; [|done]. by injection Hu as <-. }
  apply (run_save_fields userId attrs) in Ht as (H1 & H2 & H3 & H4); [| |done].
  2:{ intros a b [_ Ha]%Hattrs [_ Hb]%Hattrs. by apply (NoDup_map_inj ca_id (rows TCustomAttribute w)). }
  assert (Hfield : forall n v, (n, v) ∈ attributes -> field n attributes = Some v).
  { clear -Hnd. induction attributes as [|[n' v'] l IH]; intros n v Hin; [by apply not_elem_of_nil in Hin|].
    simpl in *. apply NoDup_cons in Hnd as [Hn Hnd]. apply elem_of_cons in Hin as [[= -> ->]|Hin].
    - by rewrite bool_decide_eq_true_2.
    - rewrite bool_decide_eq_false_2; [by apply IH|]. intros ->. apply Hn. by apply (list_elem_of_fmap_2 fst) in Hin. }
  split; [|split].
  - intros Hfits a v Ha Hv Hi. rewrite H1 in Ha. apply H2 in Hv as [Hv|(b & Hb & Hl & Hi')]; [by apply Hfits|].
    assert (a = b) as -> by (apply (NoDup_map_inj ca_id (rows TCustomAttribute w)); [done|done|by apply Hattrs|congruence]).
    apply Hfit; [done|]. by apply Hfield.
  - intros n v Hin. destruct (H3 n v Hin) as (a & Ha & Hn & Hval). apply Hattrs in Ha as Ha'. destruct Ha' as [Hrl Ha'].
    exists a. split_and!; try done. apply Hfit; [done|]. rewrite Hn. by apply Hfield.
  - intros u i Hi. apply H4. intros a [_ Ha]%Hattrs. by apply Hi.
Qed.
(** A registration that saves its attributes gave every required one, and stored only
    values that fit. *)
Theorem registration_values_fit realm userId body w w' :
  NoDup (map ca_id (rows TCustomAttribute w)) ->
  run (validateAndSaveRegistrationAttributes realm userId body) w = (inr tt, w') ->
  (forall a, a ∈ rows TCustomAttribute w -> ca_realmId a = realm_id realm -> ca_showOnRegistration a = true ->
     ca_required a = true -> attr_field a body <> EmptyString /\ fits a (attr_field a body)) /\
  (values_fit w -> values_fit w').
Proof.
  intros Hid Hr. unfold validateAndSaveRegistrationAttributes in Hr.
  apply run_bind_inr in Hr as (attrs & w1 & Hq & Hr). unfold getRegistrationAttributes in Hq. run_stmt_inv Hq.
  assert (Hattrs : forall a, a ∈ attrs <-> a ∈ rows TCustomAttribute w /\ ca_realmId a = realm_id realm /\
            ca_showOnRegistration a = true).
  { intros a. subst attrs. rewrite elem_of_in_order, elem_of_filter_list, andb_true_iff, bool_decide_eq_true. naive_solver. }
  destruct (bool_decide_reflect (attrs = [])) as [He|He].
  { injection Hr as <-. split; [|done]. intros a Ha Hrl Hs. exfalso. rewrite He in Hattrs.
    by apply (not_elem_of_nil a), Hattrs. }
  apply run_bind_inr in Hr as ([] & w1 & Hc & Hr). apply run_check_registration in Hc as [-> Hfit]. cbv zeta in Hr.
  split.
  { intros a Ha Hrl Hs Hreq. destruct (Hfit a) as [H1 H2]; [by apply Hattrs|]. split; [by apply H1|]. by apply H2, H1. }
  intros Hfits. destruct (bool_decide _); [by injection Hr as <-|]. apply run_transaction_inr in Hr.
  assert (Hinv : rows TCustomAttribute w' = rows TCustomAttribute w /\
            forall v, v ∈ rows TUserAttribute w' -> v ∈ rows TUserAttribute w \/
              exists a, a ∈ attrs /\ ua_attributeId v = ca_id a /\ fits a (ua_value v)).
  { refine (run_for_each_inv (fun w' => rows TCustomAttribute w' = rows TCustomAttribute w /\
      forall v, v ∈ rows TUserAttribute w' -> v ∈ rows TUserAttribute w \/
        exists a, a ∈ attrs /\ ua_attributeId v = ca_id a /\ fits a (ua_value v)) _ _ _ _ _ Hr _);
      [|split; [done|by left]].
    intros a w1 w2 [Hne Ha]%elem_of_filter_list Hx [H1 H2]. apply run_bind_inr in Hx as (v & w3 & Hx & Hr3).
    injection Hr3 as <-. run_stmt_inv Hx. split; [by rewrite rows_with_rows_ne|].
    rewrite rows_with_rows_eq. intros y [Hy|Hy%list_elem_of_singleton]%elem_of_app; [by apply H2|].
    subst y. right. exists a. split; [done|]. split; [done|]. apply Hfit; [done|].
    by apply negb_true_iff, bool_decide_eq_false in Hne. }
  destruct Hinv as [H1 H2]. intros a v Ha Hv Hi. rewrite H1 in Ha.
  apply H2 in Hv as [Hv|(b & Hb & Hib & Hfb)]; [by apply Hfits|].
  assert (a = b) as -> by (apply (NoDup_map_inj ca_id (rows TCustomAttribute w)); [done|done|by apply Hattrs|congruence]).
  done.
Qed.
End Facts.

(** ** Witnesses and findings *)

Definition text_attribute : CustomAttribute :=
  mkCustomAttribute "ca-1" "realm-1" "department" None "Department" "text" true true true None 0 0.
Definition level_attribute : CustomAttribute :=
  mkCustomAttribute "ca-2" "realm-1" "level" (Some "level") "Level" "select" false false true (Some ["junior"; "senior"]) 1 0.
Definition attribute_world : World :=
  with_rows TUserAttribute [mkUserAttribute "user-1" "ca-1" "Sales"]
    (with_rows TCustomAttribute [text_attribute; level_attribute] world1).
Definition new_values : fields := [("department", "Research"); ("level", "senior")].

Example setUserAttributes_fits_witness :
  exists r w', run (setUserAttributes (E:=test_env) realm0 "user-1" new_values) attribute_world = (inr r, w') /\
    value_of "user-1" "ca-1" w' = Some "Research".
Proof.
  destruct (ends_ok_run (setUserAttributes (E:=test_env) realm0 "user-1" new_values) attribute_world) as (r & w' & H);
    [vm_compute; reflexivity|].
  exists r, w'. split; [exact H|].
  destruct (setUserAttributes_fits (E:=test_env) realm0 "user-1" new_values attribute_world r w') as (_ & _ & Hv & _).
  - apply (bool_decide_unpack _). vm_compute. exact I.
  - apply (bool_decide_unpack _). vm_compute. exact I.
  - exact H.
  - destruct (Hv "department" "Research") as (a & Ha & Hn & _ & _ & Hval); [vm_compute; constructor|].
    change (a ∈ [text_attribute; level_attribute]) in Ha. apply elem_of_cons in Ha as [Ha|Ha].
    + rewrite Ha in Hval. exact Hval.
    + apply list_elem_of_singleton in Ha. rewrite Ha in Hn. discriminate Hn.
Defined.

Definition retype : UpdateCustomAttributeDto := mkUpdateAttribute None (Some "number") None None None None None None.

(** Changing the type of an attribute does not look at the stored values: a text becomes
    the value of a number. *)
Theorem retyped_values_do_not_fit :
  exists a w', run (updateAttribute realm0 "ca-1" retype) attribute_world = (inr a, w') /\
    ca_type a = "number" /\ values_fit attribute_world /\ ~ values_fit w'.
Proof.
  destruct (ends_ok_run (updateAttribute realm0 "ca-1" retype) attribute_world) as (a & w' & H);
    [vm_compute; reflexivity|].
  exists a, w'. split; [exact H|]. vm_compute in H. injection H as <- <-. split; [done|]. split.
  - intros a v Ha Hv. apply list_elem_of_singleton in Hv as ->.
    apply elem_of_cons in Ha as [->|Ha%list_elem_of_singleton]; [done|subst a; done].
  - intros Hf. specialize (Hf (mkCustomAttribute "ca-1" "realm-1" "department" None "Department" "number" true true true None 0 0)
      (mkUserAttribute "user-1" "ca-1" "Sales")). unfold fits in Hf. simpl in Hf.
    enough (Some "'Department' must be a number" = @None string) by done. apply Hf; [left|left|done].
Qed.
