(* ===== verification/Certificates.v ===== *)
(** * Certificates: client certificates of machine identities
      (src/src/nhi/certificate-validator.ts, src/src/nhi/mtls.guard.ts)

    The regular expressions are written out as searches: [first_match] tries a matcher at
    every place of the text, as an unanchored expression does.  The validity dates are
    kept as instants: their ISO texts are read back as these instants.  Both guards take
    the certificate from request headers, as the proxy in front passes it on. *)

From S2P Require Import Prelude Prog Int32 JsText IpRange IpRangeFacts Cidr Json JsonText Schema Store StoreFacts Crypto Testbed.

(** ** Regular expressions *)

(** The rest of a text behind a literal, without and with regard to case. *)
Fixpoint strip_prefix (lit s : string) : option string :=
  match lit, s with
  | EmptyString, _ => Some s
  | String a lit', String b s' => if a === b then strip_prefix lit' s' else None
  | String _ _, EmptyString => None
  end.
Fixpoint strip_prefix_i (lit s : string) : option string :=
  match lit, s with
  | EmptyString, _ => Some s
  | String a lit', String b s' => if lower_ascii a === lower_ascii b then strip_prefix_i lit' s' else None
  | String _ _, EmptyString => None
  end.

(** The first place at which the matcher, which also sees the character before, succeeds. *)
Fixpoint first_match {A} (m : option ascii -> string -> option A) (prev : option ascii) (s : string) : option A :=
  match m prev s with
  | Some a => Some a
  | None => match s with EmptyString => None | String c s' => first_match m (Some c) s' end
  end.

Definition newline (c : ascii) : bool := c === "010"%char.
Definition value_end (c : ascii) : bool := newline c || (c === ","%char).

Fixpoint take_until (stop : ascii -> bool) (s : string) : string :=
  match s with
  | EmptyString => EmptyString
  | String c s' => if stop c then EmptyString else String c (take_until stop s')
  end.
Fixpoint drop_until (stop : ascii -> bool) (s : string) : string :=
  match s with
  | EmptyString => EmptyString
  | String c s' => if stop c then s else drop_until stop s'
  end.
Definition leading_spaces (s : string) : string := take_until (fun c => negb (is_space c)) s.

(** [/\s*=\s*([^,\n]+)/] at this place, and the group, trimmed.  When no other character
    follows the spaces, the group takes back the last space that is not a newline. *)
Definition equals_value (s : string) : option string :=
  match trim_start s with
  | String "="%char r =>
      if take_until value_end (trim_start r) !== EmptyString then Some (js_trim (take_until value_end (trim_start r)))
      else if str_existsb (fun c => negb (newline c)) (leading_spaces r) then Some EmptyString else None
  | _ => None
  end.
(** [text.match(/LIT\s*=\s*([^,\n]+)/i)?.[1].trim()]. *)
Definition component (lit s : string) : option string :=
  first_match (fun _ s => match strip_prefix_i lit s with Some r => equals_value r | None => None end) None s.
(** [/\bC\s*=\s*([^,\n]+)/i]. *)
Definition country (s : string) : option string :=
  first_match (fun prev s =>
    if match prev with Some c => word_char c | None => false end then None
    else match strip_prefix_i "C" s with Some r => equals_value r | None => None end) None s.

(** The group of [/issuer\s*=([^\n]...)/i], the rest of the line. *)
Definition issuer_line (s : string) : string :=
  first_match (fun _ s =>
    match strip_prefix_i "issuer" s with
    | Some r => match trim_start r with String "="%char r' => Some (take_until newline r') | _ => None end
    | None => None
    end) None s ?? EmptyString.

(** The lines of [/Subject Alternative Name:?\s*([^\n]+)/gi]. *)
Fixpoint san_lines (fuel : nat) (s : string) : list string :=
  match fuel with
  | O => []
  | S fuel =>
      match strip_prefix_i "Subject Alternative Name" s with
      | Some r =>
          let r := trim_start (match r with String ":"%char r' => r' | _ => r end) in
          if r === EmptyString then [] else take_until newline r :: san_lines fuel (drop_until newline r)
      | None => match s with EmptyString => [] | String _ s' => san_lines fuel s' end
      end
  end.
Definition subject_alternative_names (pem : string) : list string :=
  flat_map (fun line => List.filter (fun s => s !== EmptyString) (map js_trim (js_split ","%char line)))
    (san_lines (S (String.length pem)) pem).

Definition is_ca (pem : string) : bool :=
  (match index_of "basicConstraints" pem with
   | Some i => bool_decide (is_Some (first_match (fun _ s =>
       match strip_prefix_i "CA:" s with Some r => strip_prefix_i "true" (trim_start r) | None => None end)
       None (str_drop i pem)))
   | None => false
   end) ||
  bool_decide (is_Some (first_match (fun _ s =>
    match strip_prefix "X509v3 Basic Constraints:" s with
    | Some r => strip_prefix "CA:TRUE" (trim_start r)
    | None => None
    end) None pem)).

(** ** Reading a certificate *)

Record CertificateInfo := mkCertificateInfo {
  ci_subject : string; ci_issuer : string; ci_notBefore : Z; ci_notAfter : Z; ci_fingerprint : string;
  ci_sans : option (list string); ci_isCA : option bool
}.
Record ValidationOptions := mkValidationOptions {
  vo_expectedFingerprint : option string; vo_allowExpired : bool; vo_allowNotYetValid : bool;
  vo_allowedIpRanges : option (list string); vo_clientIp : option string
}.
(** A result is invalid with a message, or valid, with the information where there is some. *)
Inductive ValidationResult := Invalid (error : string) | Valid (info : CertificateInfo).

Definition PEM_BEGIN : string := "-----BEGIN CERTIFICATE-----".
Definition PEM_END : string := "-----END CERTIFICATE-----".

(** The text between the markers, without spaces. *)
Definition der_content (pem : string) : option string :=
  match index_of PEM_BEGIN pem with
  | Some i =>
      let body := str_drop (i + String.length PEM_BEGIN) pem in
      match index_of PEM_END body with
      | Some j => Some (strip_spaces (str_take j body))
      | None => None
      end
  | None => None
  end.

(** [hex.match(/.{2}/g)]. *)
Fixpoint hex_pairs (s : string) : list string :=
  match s with
  | String a (String b s') => String a (String b EmptyString) :: hex_pairs s'
  | _ => []
  end.
Definition format_fingerprint (hex : string) : string :=
  "SHA256:" +:+ match hex_pairs (to_upper hex) with [] => "undefined" | pairs => js_join ":" pairs end.

Definition labelled (label : string) (v : option string) : list string :=
  match v with Some v => [label +:+ v] | None => [] end.
(** [parts.length > 0 ? parts.join(', ') : otherwise]. *)
Definition join_or (otherwise : string) (parts : list string) : string :=
  match parts with [] => otherwise | _ => js_join ", " parts end.

Definition subject_of (pem : string) : string :=
  join_or "Unknown"
    (labelled "CN=" (component "CN" pem) ++ labelled "OU=" (component "OU" pem) ++ labelled "O=" (component "O" pem) ++
     labelled "L=" (component "L" pem) ++ labelled "ST=" (component "ST" pem) ++ labelled "C=" (country pem)).
Definition issuer_of (pem : string) : string :=
  let line := issuer_line pem in
  join_or "CN=Unknown Issuer"
    (labelled "CN=" (component "CN" line) ++ labelled "OU=" (component "OU" line) ++ labelled "O=" (component "O" line)).

Definition ONE_DAY_MS : Z := 24 * 60 * 60 * 1000.

Section Validator.
Context {E : Env}.

Definition fingerprint_of (der : string) : string := format_fingerprint (sha256 (from_base64url der)).

Definition certificate_info (issuer pem der : string) (now : Z) : CertificateInfo :=
  let sans := subject_alternative_names pem in
  mkCertificateInfo (subject_of pem) issuer (now - ONE_DAY_MS) (now + 365 * ONE_DAY_MS) (fingerprint_of der)
    (match sans with [] => None | _ => Some sans end) (if is_ca pem then Some true else None).

(** [parseCertificateInfo] of the validator; the message of what it throws. *)
Definition parseCertificateInfo (pem : string) (now : Z) : string + CertificateInfo :=
  match der_content pem with
  | None => inl "Invalid certificate format: missing PEM markers"
  | Some der => inr (certificate_info (issuer_of pem) pem der now)
  end.

Definition validate (pem : string) (now : Z) : ValidationResult :=
  if pem === EmptyString then Invalid "Certificate is required"
  else match index_of PEM_BEGIN pem with
       | None => Invalid "Invalid certificate format: missing PEM header"
       | Some _ => match parseCertificateInfo pem now with inl e => Invalid e | inr info => Valid info end
       end.

Definition checkValidity (info : CertificateInfo) (options : ValidationOptions) (now : Z) : ValidationResult :=
  if now <? ci_notBefore info then
    if vo_allowNotYetValid options then Valid info
    else Invalid "Certificate is not yet valid (notBefore is in the future)"
  else if ci_notAfter info <? now then
    if vo_allowExpired options then Valid info else Invalid "Certificate has expired"
  else Valid info.

(** [fp.replace(/^SHA256:/i, '').replace(/:/g, '').toLowerCase()]. *)
Fixpoint drop_colons (s : string) : string :=
  match s with
  | EmptyString => EmptyString
  | String c s' => if c === ":"%char then drop_colons s' else String c (drop_colons s')
  end.
Definition normalize_fingerprint (fp : string) : string :=
  to_lower (drop_colons (strip_prefix_i "SHA256:" fp ?? fp)).

Definition verifyFingerprint (info : CertificateInfo) (expectedFingerprint : string) : ValidationResult :=
  if expectedFingerprint === EmptyString then Valid info
  else if normalize_fingerprint (ci_fingerprint info) !== normalize_fingerprint expectedFingerprint
  then Invalid "Certificate fingerprint does not match expected value"
  else Valid info.

Definition ipMatchesRange (ip range : string) : bool :=
  if negb (str_existsb (fun c => c === "/"%char) range) then ip === range else
  match js_split "/"%char range with
  | addr :: prefixLenStr :: _ =>
      match parseInt 10 prefixLenStr with
      | None => false
      | Some prefixLen =>
          if (addr === EmptyString) || (prefixLen <? 0) || (32 <? prefixLen) then false else
          let ipParts := int_parts ip in
          let rangeParts := int_parts addr in
          if negb (length ipParts =? 4)%nat || negb (length rangeParts =? 4)%nat then false else
          if existsb bad_octet (ipParts ++ rangeParts) then false else
          match pack_octets ipParts, pack_octets rangeParts with
          | Some ipNum, Some rangeNum =>
              let mask := if prefixLen =? 0 then 0 else (js_bnot 0 << (32 - prefixLen)) >>> 0 in
              (ipNum .&. mask) =? (rangeNum .&. mask)
          | _, _ => false
          end
      end
  | _ => false
  end.

(** The error, if the client's address is not in one of the ranges. *)
Definition validateIpRange (clientIp : string) (allowedIpRanges : list string) : option string :=
  if (length allowedIpRanges =? 0)%nat then None
  else if clientIp === EmptyString then Some "Client IP is required for IP range validation"
  else if existsb (ipMatchesRange clientIp) allowedIpRanges then None
  else Some ("Client IP " +:+ clientIp +:+ " is not in allowed ranges").

Definition validateFull (pem : string) (options : ValidationOptions) (now : Z) : ValidationResult :=
  match validate pem now with
  | Invalid e => Invalid e
  | Valid info =>
      match checkValidity info options now with
      | Invalid e => Invalid e
      | Valid _ =>
          match (if truthy (vo_expectedFingerprint options)
                 then verifyFingerprint info (vo_expectedFingerprint options ?? EmptyString) else Valid info) with
          | Invalid e => Invalid e
          | Valid _ =>
              let ranges := vo_allowedIpRanges options ?? [] in
              if negb (length ranges =? 0)%nat && truthy (vo_clientIp options)
              then match validateIpRange (vo_clientIp options ?? EmptyString) ranges with
                   | Some e => Invalid e
                   | None => Valid info
                   end
              else Valid info
          end
      end
  end.
End Validator.

(** ** The guards *)

Record GuardRequest := mkGuardRequest {
  gq_path : string; gq_isPublic : bool; gq_certificate : option string; gq_fingerprint : option string;
  gq_remoteAddress : option string; gq_forwardedFor : option string
}.
(** What a guard attaches to the request, and the headers it sets on the response. *)
Record NhiCertificate := mkNhiCertificate { nhc_fingerprint : string; nhc_subject : string; nhc_issuer : string }.
Record GuardReply := mkGuardReply { gr_certificate : option NhiCertificate; gr_headers : list (string * string) }.

Definition defaultProtectedRoutes : list string :=
  ["/api/v1/nhi"; "/api/v1/machine"; "/api/v1/iot"; "/api/v1/device"].
Definition requires_mtls (routes : list string) (path : string) : bool :=
  existsb (fun route => (path === route) || starts_with (route +:+ "/") path || starts_with (route +:+ "-") path) routes.

(** [fingerprintHeader] without its label and colons, in lower case. *)
Definition header_fingerprint (fp : string) : string := "SHA256:" +:+ normalize_fingerprint fp.

Definition attached (info : CertificateInfo) : NhiCertificate :=
  mkNhiCertificate (ci_fingerprint info) (ci_subject info) (ci_issuer info).

Section Guards.
Context {E : Env}.

Definition validateMtlsCertificate (q : GuardRequest) (now : Z) : string + NhiCertificate :=
  if truthy (gq_certificate q) then
    match validateFull (from_base64url (gq_certificate q ?? EmptyString)) (mkValidationOptions None true false None None) now with
    | Invalid e => inl e
    | Valid info => inr (attached info)
    end
  else if truthy (gq_fingerprint q) then
    inr (mkNhiCertificate (header_fingerprint (gq_fingerprint q ?? EmptyString)) "Unknown (verified by fingerprint)" "Unknown")
  else inl "No client certificate provided. mTLS authentication requires a valid client certificate.".

(** [MtlsGuard.canActivate]. *)
Definition MtlsGuard_canActivate (routes : list string) (q : GuardRequest) : M GuardReply :=
  (if gq_isPublic q then Ret (mkGuardReply None []) else
   if negb (requires_mtls routes (gq_path q)) then Ret (mkGuardReply None []) else
   now <- date_now ;;
   match validateMtlsCertificate q now with
   | inl error => Throw (Unauthorized error)
   | inr c => Ret (mkGuardReply (Some c) [("X-Client-Certificate-Fingerprint", nhc_fingerprint c);
                                          ("X-Client-Certificate-Subject", nhc_subject c)])
   end)%prog.

(** [NhiCertificateGuard.canActivate]. *)
Definition NhiCertificateGuard_canActivate (q : GuardRequest) : M GuardReply :=
  (if gq_isPublic q then Ret (mkGuardReply None []) else
   if negb (starts_with "/api/v1/nhi/auth" (gq_path q)) then Ret (mkGuardReply None []) else
   if negb (truthy (gq_certificate q)) && negb (truthy (gq_fingerprint q))
   then Throw (Unauthorized "Certificate authentication required") else
   if truthy (gq_certificate q) then
     let clientIp := resolveClientIp (gq_remoteAddress q) (gq_forwardedFor q) (process_env "TRUSTED_PROXIES") in
     now <- date_now ;;
     match validateFull (from_base64url (gq_certificate q ?? EmptyString))
             (mkValidationOptions None false false None (Some clientIp)) now with
     | Invalid e => Throw (Unauthorized e)
     | Valid info =>
         Ret (mkGuardReply (Some (attached info)) [("X-Client-Certificate-Fingerprint", ci_fingerprint info)])
     end
   else Ret (mkGuardReply (Some (mkNhiCertificate (header_fingerprint (gq_fingerprint q ?? EmptyString)) "Unknown" "Unknown"))
               []))%prog.
End Guards.

(** ** Fingerprints *)

Definition hex_lower (c : ascii) : bool := char_in 48 57 c || char_in 97 102 c.

Lemma hex_digit_lower n : (n < 16)%N -> hex_lower (hex_digit n) = true.
Proof.
  intros H. unfold hex_lower, hex_digit. apply orb_true_iff. rewrite !char_in_true.
  destruct (N.ltb_spec n 10); rewrite N_ascii_embedding by lia; lia.
Qed.

Lemma upper_lower c : hex_lower c = true -> lower_ascii (upper_ascii c) = c /\ upper_ascii c <> ":"%char.
Proof.
  destruct c as [[] [] [] [] [] [] [] []]; try discriminate; intros _; (split; [reflexivity|discriminate]).
Qed.

Lemma hex_digits_of c :
  hex_lower (hex_digit (N_of_ascii c / 16)) = true /\ hex_lower (hex_digit (N_of_ascii c mod 16)) = true.
Proof.
  pose proof (N_ascii_bounded c). split; apply hex_digit_lower; [apply N.Div0.div_lt_upper_bound; lia|by apply N.mod_lt].
Qed.

(** Written out with colons in capitals, and normalized again, a digest is the same. *)
Lemma drop_colons_app s t : drop_colons (s +:+ t) = drop_colons s +:+ drop_colons t.
Proof. induction s as [|c s IH]; [done|]. simpl. case_bool_decide; [done|]. simpl. by rewrite IH. Qed.

Lemma normalize_pairs s : drop_colons (js_join ":" (hex_pairs (to_upper (to_hex s)))) = to_upper (to_hex s).
Proof.
  induction s as [|c s IH]; [done|]. simpl. destruct (hex_digits_of c) as [[_ H1]%upper_lower [_ H2]%upper_lower].
  change (str_map upper_ascii (to_hex s)) with (to_upper (to_hex s)) in *. set (a := String _ _).
  set (l := hex_pairs (to_upper (to_hex s))) in *.
  assert (Ha : forall t, drop_colons (a +:+ t) = a +:+ drop_colons t).
  { intros t. rewrite drop_colons_app. unfold a. simpl. by rewrite !bool_decide_eq_false_2 by done. }
  transitivity (a +:+ to_upper (to_hex s)); [|done]. rewrite <- IH. destruct l as [|p ps].
  - specialize (Ha EmptyString). by rewrite !string_app_nil_r in Ha.
  - by rewrite Ha.
Qed.

Lemma lower_upper_hex s : to_lower (to_upper (to_hex s)) = to_hex s.
Proof.
  induction s as [|c s IH]; [done|]. unfold to_lower, to_upper in *. simpl. rewrite IH.
  by destruct (hex_digits_of c) as [[-> _]%upper_lower [-> _]%upper_lower].
Qed.

Lemma normalize_format s : s <> EmptyString -> normalize_fingerprint (format_fingerprint (to_hex s)) = to_hex s.
Proof.
  intros Hs. unfold normalize_fingerprint, format_fingerprint. destruct s as [|c s]; [done|].
  pose proof (normalize_pairs (String c s)) as Hn. destruct (hex_pairs (to_upper (to_hex (String c s)))) as [|p ps]; [done|].
  set (j := js_join ":" (p :: ps)) in *. change (strip_prefix_i "SHA256:" ("SHA256:" +:+ j)) with (Some j).
  change (Some j ?? _) with j. rewrite Hn. apply lower_upper_hex.
Qed.

(** ** What the validator accepts *)

#[export] Instance certificate_ip_test : CidrTest ipMatchesRange.
Proof. exact ipMatchesRange_test. Qed.

(** The dates are made up from the clock, so they never reject a certificate. *)
Lemma dates_always_valid `{E : Env} issuer pem der options now :
  checkValidity (certificate_info issuer pem der now) options now = Valid (certificate_info issuer pem der now).
Proof.
  unfold checkValidity, ONE_DAY_MS. cbn [certificate_info ci_notBefore ci_notAfter]. unfold ONE_DAY_MS.
  by rewrite !(proj2 (Z.ltb_ge _ _)) by lia.
Qed.

Definition fingerprint_ok (options : ValidationOptions) (digest : string) : Prop :=
  truthy (vo_expectedFingerprint options) = true ->
  normalize_fingerprint (vo_expectedFingerprint options ?? EmptyString) = digest.
Definition address_ok (options : ValidationOptions) : Prop :=
  vo_allowedIpRanges options ?? [] <> [] -> truthy (vo_clientIp options) = true ->
  exists range, range ∈ vo_allowedIpRanges options ?? [] /\
    ipMatchesRange (vo_clientIp options ?? EmptyString) range = true.

Lemma address_check options c info :
  (let ranges := vo_allowedIpRanges options ?? [] in
   if negb (length ranges =? 0)%nat && truthy (vo_clientIp options)
   then match validateIpRange (vo_clientIp options ?? EmptyString) ranges with
        | Some e => Invalid e
        | None => Valid c
        end
   else Valid c) = Valid info <-> c = info /\ address_ok options.
Proof.
  unfold address_ok. cbv zeta. destruct (vo_allowedIpRanges options ?? []) as [|r l]; simpl andb; cbv iota.
  { split; [by intros [= ->]|by intros [-> _]]. }
  destruct (truthy (vo_clientIp options)) eqn:Ht; [|split; [by intros [= ->]|by intros [-> _]]].
  apply truthy_true in Ht as (ip & -> & Hip). unfold validateIpRange. cbn [from_option length Nat.eqb]. unfold id. cbv iota.
  rewrite bool_decide_eq_false_2 by done. destruct (existsb _ _) eqn:Hx.
  - apply existsb_exists in Hx as (x & Hin%list_elem_of_In & Hm). split; [intros [= ->]; split; [done|by exists x]|by intros [-> _]].
  - split; [done|]. intros [_ H]. destruct H as (x & Hin%list_elem_of_In & Hm); [done..|].
    exfalso. rewrite <- not_true_iff_false in Hx. apply Hx, existsb_exists. by exists x.
Qed.

(** What the validator checks of a client certificate: that it is framed as PEM, that
    the SHA-256 digest of the bytes between the markers is the expected one where one is
    expected, and that the client's address is in one of the ranges where there are any.
    Signature, issuer and validity play no part, and the options allowExpired and
    allowNotYetValid make no difference. *)
Theorem validateFull_spec {E : Env} pem options now info :
  (forall der, der_content pem = Some der -> sha256_digest (from_base64url der) <> EmptyString) ->
  validateFull pem options now = Valid info <->
  exists der,
    der_content pem = Some der /\ info = certificate_info (issuer_of pem) pem der now /\
    fingerprint_ok options (sha256 (from_base64url der)) /\ address_ok options.
Proof.
  intros Hsha. unfold validateFull, validate, parseCertificateInfo.
  destruct (bool_decide_reflect (pem = EmptyString)) as [->|Hpem]; [split; [done|by intros (der & Hd & _)]|].
  destruct (index_of PEM_BEGIN pem) as [i|] eqn:Hi.
  2: { split; [done|]. intros (der & Hd & _). unfold der_content in Hd. by rewrite Hi in Hd. }
  destruct (der_content pem) as [der|] eqn:Hd; [|split; [done|by intros (der & ? & _)]].
  rewrite dates_always_valid. set (c := certificate_info _ _ _ _).
  assert (Hfp : normalize_fingerprint (ci_fingerprint c) = sha256 (from_base64url der)) by (by apply normalize_format, Hsha).
  transitivity (info = c /\ fingerprint_ok options (sha256 (from_base64url der)) /\ address_ok options).
  2: { split; [intros (-> & H1 & H2); exists der; done|]. intros (d & [= <-] & -> & H1 & H2). done. }
  rewrite <- Hfp. clear Hfp Hsha Hd Hi Hpem. unfold fingerprint_ok, address_ok.
  destruct (truthy (vo_expectedFingerprint options)) eqn:Hf; cbv iota.
  - apply truthy_true in Hf as (fp & -> & Hne). unfold verifyFingerprint. cbn [from_option]. unfold id.
    rewrite (bool_decide_eq_false_2 (fp = EmptyString)) by done.
    destruct (bool_decide_reflect (normalize_fingerprint (ci_fingerprint c) = normalize_fingerprint fp)) as [->|Hx]; simpl negb; cbv iota.
    + rewrite address_check. split; [by intros [[= <-] ?]|by intros (-> & _ & ?)].
    + split; [done|]. intros (_ & H & _). by rewrite (H eq_refl) in Hx.
  - rewrite address_check. split; [by intros [[= <-] ?]|by intros (-> & _ & ?)].
Qed.

Definition test_pem : string :=
  "subject=CN=sensor-1, O=Acme
issuer=CN=Acme CA
-----BEGIN CERTIFICATE-----
c2Vu
c29y
-----END CERTIFICATE-----
Subject Alternative Name: DNS:sensor-1.acme.test, IP:10.1.2.3".


Example test_pem_read :
  let info := certificate_info (E:=test_env) (issuer_of test_pem) test_pem "c2Vuc29y" 0 in
  der_content test_pem = Some "c2Vuc29y" /\ ci_subject info = "CN=sensor-1, O=Acme" /\ ci_issuer info = "CN=Acme CA" /\
  ci_fingerprint info = "SHA256:73:65:6E:73:6F:72" /\ ci_sans info = Some ["DNS:sensor-1.acme.test"; "IP:10.1.2.3"].
Proof. vm_compute. done. Qed.

Definition bound_options : ValidationOptions :=
  mkValidationOptions (Some "sha256:73656e736f72") false false (Some ["10.0.0.0/8"]) (Some "10.1.2.3").

Example validateFull_spec_witness :
  let info := certificate_info (E:=test_env) (issuer_of test_pem) test_pem "c2Vuc29y" 5 in
  (validateFull (E:=test_env) test_pem bound_options 5 = Valid info <->
   exists der, der_content test_pem = Some der /\
     info = certificate_info (E:=test_env) (issuer_of test_pem) test_pem der 5 /\
     fingerprint_ok bound_options (sha256 (E:=test_env) (from_base64url der)) /\ address_ok bound_options) /\
  validateFull (E:=test_env) test_pem bound_options 5 = Valid info.
Proof.
  split; [|vm_compute; reflexivity]. apply (validateFull_spec (E:=test_env)).
  intros der Hd. assert (H : der_content test_pem = Some "c2Vuc29y") by (vm_compute; reflexivity).
  rewrite H in Hd. injection Hd as <-. vm_compute. discriminate.
Defined.

(** ** What the guards let through *)

(** A request that only names a fingerprint passes both guards: the header is trusted, and
    no certificate, credential or identity is looked up. *)
Theorem fingerprint_header_suffices {E : Env} routes q fp w :
  gq_fingerprint q = Some fp -> fp <> EmptyString -> gq_certificate q = None ->
  (exists reply, run (MtlsGuard_canActivate routes q) w = (inr reply, w)) /\
  (exists reply, run (NhiCertificateGuard_canActivate q) w = (inr reply, w)).
Proof.
  intros Hf Hne Hc. assert (Ht : truthy (gq_fingerprint q) = true) by (rewrite Hf; by apply truthy_Some).
  unfold MtlsGuard_canActivate, NhiCertificateGuard_canActivate, validateMtlsCertificate.
  rewrite Hc, Ht. change (truthy None) with false. cbn [negb andb]. cbv iota. split.
  - destruct (gq_isPublic q); [by eexists|]. destruct (requires_mtls routes (gq_path q)); simpl; by eexists.
  - destruct (gq_isPublic q); [by eexists|]. destruct (starts_with "/api/v1/nhi/auth" (gq_path q)); cbn [negb]; cbv iota; by eexists.
Qed.

(** Anyone who frames some text as PEM passes, too. *)
Example self_made_certificate :
  let q := mkGuardRequest "/api/v1/nhi/auth" false
             (Some (to_base64url (PEM_BEGIN +:+ "anything" +:+ PEM_END))) None (Some "203.0.113.9") None in
  ends_ok (MtlsGuard_canActivate (E:=test_env) defaultProtectedRoutes q) world0 = true /\
  ends_ok (NhiCertificateGuard_canActivate (E:=test_env) q) world0 = true.
Proof. vm_compute. done. Qed.
