(* ===== verification/Email.v ===== *)
(** * Email: sending mail with a realm's provider (src/src/email)

    The provider is chosen from the columns of the realm.  A message that the provider
    accepts goes to [w_outbox]; rendering, sanitizing and the provider's answer are
    parameters of [Env]. *)

From S2P Require Import Prelude Prog Json JsText JsNumber Schema Store StoreFacts Crypto Testbed.

(** ** Providers *)

Inductive EmailProvider :=
| SmtpEmailProvider (host : string) (port : Z) (user password : option string) (from : string) (secure : bool)
| ResendEmailProvider (apiKey from : string)
| SendGridEmailProvider (apiKey from : string)
| MailgunEmailProvider (apiKey domain from region : string)
| PostmarkEmailProvider (serverToken from : string).

Definition provider_name (p : EmailProvider) : string :=
  match p with
  | SmtpEmailProvider _ _ _ _ _ _ => "smtp" | ResendEmailProvider _ _ => "resend"
  | SendGridEmailProvider _ _ => "sendgrid" | MailgunEmailProvider _ _ _ _ => "mailgun"
  | PostmarkEmailProvider _ _ => "postmark"
  end.

Definition provider_isConfigured (p : EmailProvider) : bool :=
  match p with
  | SmtpEmailProvider host _ _ _ _ _ => host !== EmptyString
  | ResendEmailProvider key from | SendGridEmailProvider key from | PostmarkEmailProvider key from =>
      (key !== EmptyString) && (from !== EmptyString)
  | MailgunEmailProvider key domain from _ => (key !== EmptyString) && (domain !== EmptyString) && (from !== EmptyString)
  end.

Definition provider_from (p : EmailProvider) : string :=
  match p with
  | SmtpEmailProvider host _ _ _ from _ => if from === EmptyString then "noreply@" +:+ host else from
  | ResendEmailProvider _ from | SendGridEmailProvider _ from | MailgunEmailProvider _ _ from _
  | PostmarkEmailProvider _ from => from
  end.
(** What the request to the provider carries besides the message: SMTP credentials only
    with a user name. *)
Definition provider_settings (p : EmailProvider) : list string :=
  match p with
  | SmtpEmailProvider host port user password _ secure =>
      [host; int_text port; if secure then "true" else "false"] ++
      if truthy user then [user ?? EmptyString; password ?? EmptyString] else []
  | ResendEmailProvider key _ => ["https://api.resend.com/emails"; key]
  | SendGridEmailProvider key _ => ["https://api.sendgrid.com/v3/mail/send"; key]
  | MailgunEmailProvider key domain _ region =>
      [(if region === "eu" then "https://api.eu.mailgun.net" else "https://api.mailgun.net") +:+ "/v3/" +:+ domain +:+
         "/messages"; key]
  | PostmarkEmailProvider token _ => ["https://api.postmarkapp.com/email"; token]
  end.

Section Service.
Context {E : Env}.

(** [fetch] and nodemailer: a message that is not accepted is a throw. *)
Definition provider_sendEmail (p : EmailProvider) (to subject html : string) : M unit :=
  Atom (fun w =>
          let mail := mkMail (provider_from p) to subject html in
          if deliver_mail (provider_name p) (provider_settings p) mail then (true, post_mail mail w) else (false, w))
       (fun ok => if (ok : bool) then Ret tt else Throw (PlainError "mail provider error")).

(** [config[name] ?? config], and a string of it. *)
Definition config_obj (config : option json) : obj := match config with Some (JObj o) => o | _ => [] end.
Definition provider_config (name : string) (config : option json) : obj :=
  let config := config_obj config in
  match obj_get name config with
  | Some (JObj o) => o
  | None | Some JNull => config
  | Some _ => []
  end.
Definition config_text (key : string) (config : obj) : option string :=
  match obj_get key config with Some (JStr s) => Some s | _ => None end.

Definition createProvider (realm : option Realm) : option EmailProvider :=
  match realm with
  | None => None
  | Some realm =>
      let config name := provider_config name (realm_emailProviderConfig realm) in
      let secret key c := decryptSecret (config_text key c) ?? EmptyString in
      let text key c := config_text key c ?? EmptyString in
      if realm_emailProvider realm === "smtp" then
        Some (SmtpEmailProvider (realm_smtpHost realm ?? EmptyString) (realm_smtpPort realm ?? 587) (realm_smtpUser realm)
                (decryptSecret (realm_smtpPassword realm)) (realm_smtpFrom realm ?? EmptyString) (realm_smtpSecure realm))
      else if realm_emailProvider realm === "resend" then
        let c := config "resend" in Some (ResendEmailProvider (secret "apiKey" c) (text "from" c))
      else if realm_emailProvider realm === "sendgrid" then
        let c := config "sendgrid" in Some (SendGridEmailProvider (secret "apiKey" c) (text "from" c))
      else if realm_emailProvider realm === "mailgun" then
        let c := config "mailgun" in
        Some (MailgunEmailProvider (secret "apiKey" c) (text "domain" c) (text "from" c) (config_text "region" c ?? "us"))
      else if realm_emailProvider realm === "postmark" then
        let c := config "postmark" in Some (PostmarkEmailProvider (secret "serverToken" c) (text "from" c))
      else None
  end.

Definition getFromAddress (realm : option Realm) : string :=
  match realm with
  | None => EmptyString
  | Some realm =>
      if realm_emailProvider realm === "smtp"
      then realm_smtpFrom realm ?? ("noreply@" +:+ (realm_smtpHost realm ?? "localhost"))
      else config_text "from" (provider_config (realm_emailProvider realm) (realm_emailProviderConfig realm)) ?? EmptyString
  end.

Definition find_realm (realmName : string) : M (option Realm) :=
  find_first TRealm (fun r => realm_name r === realmName).

Definition isConfigured (realmName : string) : M bool :=
  (realm <- find_realm realmName ;;
   Ret (match realm with
        | None => false
        | Some realm =>
            if realm_emailProvider realm === "none" then false
            else if realm_emailProvider realm === "smtp" then truthy (realm_smtpHost realm)
            else true
        end))%prog.

Definition ready_provider (realm : option Realm) : option EmailProvider :=
  match createProvider realm with
  | Some p => if provider_isConfigured p then Some p else None
  | None => None
  end.

Definition sendEmail (realmName to subject html : string) : M unit :=
  (realm <- find_realm realmName ;;
   match ready_provider realm with
   | None => Ret tt
   | Some p => provider_sendEmail p to subject (sanitize_html html)
   end)%prog.

(** Success, or the message of the error. *)
Definition sendTestEmail (realmName : string) (error_message : exc -> string) : M (string + unit) :=
  (realm <- find_realm realmName ;;
   match ready_provider realm with
   | None => Ret (inl "Email provider not configured for this realm")
   | Some p =>
       catch
         (provider_sendEmail p (getFromAddress realm) "Idenplane Email Test"
            "<p>This is a test email from Idenplane setup wizard.</p>" ;;;
          Ret (inr tt))
         (fun err => Ret (inl (error_message err)))
   end)%prog.

Lemma find_realm_footprint ts n : stable (frame ts) (find_realm n).
Proof. apply (find_first_footprint ts TRealm). Qed.
Lemma provider_sendEmail_footprint ts p to subject html : stable (frame ts) (provider_sendEmail p to subject html).
Proof.
  split.
  - intros w. simpl. destruct (deliver_mail _ _ _); [|reflexivity]. split; [done|]. by repeat split.
  - by intros [].
Qed.
Hint Resolve find_realm_footprint provider_sendEmail_footprint : footprint.
Lemma isConfigured_footprint ts n : stable (frame ts) (isConfigured n).
Proof. unfold isConfigured. footprint. Qed.
Lemma sendEmail_footprint ts n to s h : stable (frame ts) (sendEmail n to s h).
Proof. unfold sendEmail. footprint. Qed.
End Service.
#[export] Hint Resolve find_realm_footprint provider_sendEmail_footprint isConfigured_footprint sendEmail_footprint : footprint.

(** ** What is sent *)

Section Facts.
Context {E : Env}.

(** At most one message leaves, to the address given, in the name of the realm's
    provider, and only its sanitized body; the store does not change. *)
Theorem sendEmail_sound realmName to subject html w r w' :
  run (sendEmail realmName to subject html) w = (r, w') ->
  w' = w \/
  exists realm p, realm ∈ rows TRealm w /\ realm_name realm = realmName /\ ready_provider (Some realm) = Some p /\
    r = inr tt /\ w' = post_mail (mkMail (provider_from p) to subject (sanitize_html html)) w.
Proof.
  unfold sendEmail. intros Hr. apply run_bind_any in Hr as [[e Hf]|(realm & w1 & Hf & Hr)].
  { left. by apply run_query_any in Hf. }
  unfold find_realm in Hf. run_stmt_inv Hf.
  destruct (ready_provider realm) as [p|] eqn:Hp; [|left; by injection Hr as _ <-].
  simpl in Hr. destruct (deliver_mail _ _ _); [|left; by injection Hr as _ <-].
  right. destruct realm as [realm|]; [|done]. symmetry in Hf. apply find_elem in Hf as [Hin Hn%bool_decide_eq_true].
  injection Hr as <- <-. by exists realm, p.
Qed.

(** [isConfigured] is a promise the providers do not keep: a realm that selects an API
    provider counts as configured without a key, and its mail is dropped silently. *)
Theorem configured_without_key realm w :
  w_db_up w = true -> realm_emailProvider realm = "resend" -> realm_emailProviderConfig realm = None ->
  rows TRealm w = [realm] ->
  run (isConfigured (realm_name realm)) w = (inr true, w) /\
  forall to subject html, run (sendEmail (realm_name realm) to subject html) w = (inr tt, w).
Proof.
  intros Hup Hp Hc Hrows.
  assert (Hf : run (find_realm (realm_name realm)) w = (inr (Some realm), w)).
  { unfold find_realm, find_first, query. rewrite run_prisma, Hup, Hrows. simpl. by rewrite bool_decide_eq_true_2. }
  split; [|intros to subject html]; [unfold isConfigured | unfold sendEmail]; rewrite run_bind, Hf; cbv beta iota.
  - by rewrite Hp.
  - unfold ready_provider, createProvider. rewrite Hp, Hc. done.
Qed.
End Facts.
