(* ===== verification/RiskSignals.v ===== *)
(** * RiskSignals: the scores of the risk engine (src/src/risk-assessment/risk-signals.ts)

    Seven evaluators each look at one aspect of a sign-in and give it a score; the
    weighted mean of the scores is the risk of the sign-in.

    Numbers that are not integers are IEEE 754 binary64 values, computed by the executable
    specification of the Standard Library: every operation rounds to the nearest double,
    ties to even, as ECMAScript prescribes.  [Math.sin], [Math.cos] and [Math.atan2],
    which ECMAScript leaves to the implementation, are parameters of [Env]. *)

From Stdlib Require Import SpecFloat.
From S2P Require Import Prelude Json JsText JsNumber Schema Store.

(** ** The doubles of JavaScript *)

Notation double := spec_float.

Definition of_int (n : Z) : double := binary_normalize 53 1024 n 0 false.
Definition fadd : double -> double -> double := SFadd 53 1024.
Definition fsub : double -> double -> double := SFsub 53 1024.
Definition fmul : double -> double -> double := SFmul 53 1024.
Definition fdiv : double -> double -> double := SFdiv 53 1024.
Definition fsqrt : double -> double := SFsqrt 53 1024.
Definition flt : double -> double -> bool := SFltb.
Definition fle : double -> double -> bool := SFleb.

(** The literal of [m] with the decimal point before its last [k] digits: exact operands,
    so the quotient is the nearest double. *)
Definition decimal (m : Z) (k : Z) : double := fdiv (of_int m) (of_int (10 ^ k)).

Definition is_nan (x : double) : bool := match x with S754_nan => true | _ => false end.
Definition math_max (a b : double) : double :=
  if is_nan a || is_nan b then S754_nan else if flt a b then b else a.
Definition math_abs : double -> double := SFabs.
Definition math_pi : double := S754_finite false 7074237752028440 (-51).

(** [m * 2^e], as a fraction with a positive denominator. *)
Definition fraction (m e : Z) : Z * Z := if 0 <=? e then (m * 2 ^ e, 1) else (m, 2 ^ (- e)).
(** [floor (n / d + 1/2)]. *)
Definition round_half_up (q : Z * Z) : Z := (2 * q.1 + q.2) / (2 * q.2).

(** [Math.round]: none for NaN and the infinities, which it returns. *)
Definition math_round (x : double) : option Z :=
  match x with
  | S754_zero _ => Some 0
  | S754_finite s m e => Some (round_half_up (fraction (if s then Zneg m else Zpos m) e))
  | _ => None
  end.

Definition special_text (x : double) : string :=
  match x with S754_nan => "NaN" | S754_infinity true => "-Infinity" | _ => "Infinity" end.
(** [String(Math.round(x))]. *)
Definition round_text (x : double) : string :=
  match math_round x with Some n => int_text n | None => special_text x end.

Fixpoint zeros (n : nat) : string := match n with 0%nat => EmptyString | S n => String "0" (zeros n) end.
(** The decimal digits of [n], with a point before the last [k]. *)
Definition point_text (k : nat) (n : Z) : string :=
  let s := to_base 10 n in
  let s := zeros (S k - String.length s) +:+ s in
  match k with
  | 0%nat => s
  | S _ => str_take (String.length s - k) s +:+ "." +:+ str_drop (String.length s - k) s
  end.

(** [x.toFixed(k)], below 10^21. *)
Definition to_fixed (k : nat) (x : double) : string :=
  match x with
  | S754_zero _ => point_text k 0
  | S754_finite s m e =>
      let q := fraction (Zpos m * 10 ^ Z.of_nat k) e in
      (if s then "-" else EmptyString) +:+ point_text k (round_half_up q)
  | _ => special_text x
  end.

(** ** Levels and actions *)

Inductive RiskLevel := LOW | MEDIUM | HIGH | CRITICAL.
Inductive RiskAction := ALLOW | STEP_UP | BLOCK.
#[export] Instance RiskLevel_eq_dec : EqDecision RiskLevel. Proof. solve_decision. Defined.
#[export] Instance RiskAction_eq_dec : EqDecision RiskAction. Proof. solve_decision. Defined.
Definition level_text (l : RiskLevel) : string :=
  match l with LOW => "LOW" | MEDIUM => "MEDIUM" | HIGH => "HIGH" | CRITICAL => "CRITICAL" end.
Definition action_text (a : RiskAction) : string :=
  match a with ALLOW => "ALLOW" | STEP_UP => "STEP_UP" | BLOCK => "BLOCK" end.

Definition one_and_half : double := decimal 15 1.
Definition three_quarters : double := decimal 75 2.

(** The value of an optional string that is not empty. *)
Definition unknown_in (v : option string) (known : list string) : bool :=
  truthy v && negb (includes (v ?? EmptyString) known).

Definition evaluateIpReputation (ip : option string) (knownIps : list string) : RiskSignal :=
  let triggered := unknown_in ip knownIps in
  mkRiskSignal "ip_reputation" (if triggered then 20 else 0) (of_int 1)
    (if triggered then "Unknown IP address: " +:+ (ip ?? EmptyString) else "Known IP address") triggered.

(** [location.split(',').pop()?.trim().toLowerCase()]. *)
Definition country_of (location : string) : string :=
  to_lower (js_trim (List.last (js_split ","%char location) EmptyString)).

Definition evaluateGeoAnomaly (location : option string) (lastLocations : list string) : RiskSignal :=
  if negb (truthy location) || bool_decide (lastLocations = []) then
    mkRiskSignal "geo_anomaly" 0 one_and_half "No geo anomaly detected (insufficient data)" false
  else
    let currentCountry := country_of (location ?? EmptyString) in
    let triggered := (currentCountry !== EmptyString) && negb (includes currentCountry (map country_of lastLocations)) in
    mkRiskSignal "geo_anomaly" (if triggered then 30 else 0) one_and_half
      (if triggered then "Login from new country: " +:+ currentCountry else "Login from known country") triggered.

Section Geo.
Context {E : Env}.

Definition toRad (deg : double) : double := fdiv (fmul deg math_pi) (of_int 180).
Definition square (x : double) : double := fmul x x.

Definition haversineDistance (p q : double * double) : double :=
  let '(lat1, lon1) := p in let '(lat2, lon2) := q in
  let R := of_int 6371 in
  let dLat := toRad (fsub lat2 lat1) in
  let dLon := toRad (fsub lon2 lon1) in
  let a := fadd (square (math_sin (fdiv dLat (of_int 2))))
             (fmul (fmul (math_cos (toRad lat1)) (math_cos (toRad lat2)))
                (square (math_sin (fdiv dLon (of_int 2))))) in
  fmul (fmul R (of_int 2)) (math_atan2 (fsqrt a) (fsqrt (fsub (of_int 1) a))).

Definition ms_per_hour : Z := 1000 * 60 * 60.
Definition elapsed_hours (from to : Z) : double := fdiv (of_int (to - from)) (of_int ms_per_hour).
(** [hours * 900 * 1.2]. *)
Definition feasible_km (hours : double) : double := fmul (fmul hours (of_int 900)) (decimal 12 1).

Definition evaluateImpossibleTravel (previousLatLon : option (double * double)) (previousTimestamp : option Z)
    (currentLatLon : option (double * double)) (currentTimestamp : Z) : RiskSignal :=
  match previousLatLon, currentLatLon, previousTimestamp with
  | Some previous, Some current, Some before =>
      let distanceKm := haversineDistance previous current in
      let elapsedHours := elapsed_hours before currentTimestamp in
      if fle elapsedHours (of_int 0) then
        mkRiskSignal "impossible_travel" 0 (of_int 2)
          "Impossible travel check skipped (same-instant timestamps)" false
      else
        let triggered := flt (feasible_km elapsedHours) distanceKm in
        mkRiskSignal "impossible_travel" (if triggered then 40 else 0) (of_int 2)
          ((if triggered then "Impossible travel: " else "Feasible travel: ") +:+ round_text distanceKm +:+
             " km in " +:+ to_fixed 2 elapsedHours +:+ " h") triggered
  | _, _, _ =>
      mkRiskSignal "impossible_travel" 0 (of_int 2) "Impossible travel check skipped (insufficient data)" false
  end.
End Geo.

(** [Math.max(...times)] of a list that is not empty. *)
Definition max_of (times : list Z) : Z := foldr Z.max (hd 0 times) times.

Definition evaluateTimeAnomaly (hourOfDay : Z) (loginTimes : list Z) : RiskSignal :=
  let totalLogins := foldl Z.add 0 loginTimes in
  if totalLogins <? 10 then
    mkRiskSignal "time_anomaly" 0 three_quarters "Time anomaly check skipped (insufficient history)" false
  else
    let maxCount := max_of loginTimes in
    let currentCount := loginTimes !! Z.to_nat hourOfDay ?? 0 in
    let triggered := flt (of_int currentCount) (fmul (of_int maxCount) (decimal 1 1)) in
    mkRiskSignal "time_anomaly" (if triggered then 15 else 0) three_quarters
      (if triggered
       then "Unusual login time: hour " +:+ int_text hourOfDay +:+ " (only " +:+ int_text currentCount +:+ " historical logins)"
       else "Normal login time: hour " +:+ int_text hourOfDay) triggered.

Definition evaluateDeviceAnomaly (fingerprint : option string) (knownDevices : list string) : RiskSignal :=
  let triggered := unknown_in fingerprint knownDevices in
  mkRiskSignal "device_anomaly" (if triggered then 20 else 0) (of_int 1)
    (if triggered then "Unrecognised device fingerprint" else "Known device") triggered.

Definition frequency_threshold (avgLoginFrequency : double) : double :=
  math_max (fmul avgLoginFrequency (of_int 3)) (of_int 5).

Definition evaluateLoginFrequency (recentLoginsLast24h : Z) (avgLoginFrequency : double) : RiskSignal :=
  let triggered := flt (frequency_threshold avgLoginFrequency) (of_int recentLoginsLast24h) in
  mkRiskSignal "login_frequency" (if triggered then 15 else 0) three_quarters
    (if triggered
     then "Excessive login attempts: " +:+ int_text recentLoginsLast24h +:+ " in last 24 h (avg " +:+
            to_fixed 1 avgLoginFrequency +:+ "/day)"
     else "Normal login frequency: " +:+ int_text recentLoginsLast24h +:+ " in last 24 h") triggered.

Definition failure_score (recentFailures : Z) : Z :=
  if 5 <=? recentFailures then 30 else if 3 <=? recentFailures then 20 else if 1 <=? recentFailures then 10 else 0.
Definition evaluateFailedAttempts (recentFailures : Z) : RiskSignal :=
  mkRiskSignal "failed_attempts" (failure_score recentFailures) (of_int 1)
    (if 5 <=? recentFailures then "High number of recent failures: " +:+ int_text recentFailures
     else if 3 <=? recentFailures then "Moderate recent failures: " +:+ int_text recentFailures
     else if 1 <=? recentFailures then "Recent login failure(s): " +:+ int_text recentFailures
     else "No recent failed attempts")
    (0 <? recentFailures).

(** ** Aggregation *)

Definition totalWeight (signals : list RiskSignal) : double :=
  foldl (fun acc s => fadd acc (sig_weight s)) (of_int 0) signals.
Definition weightedSum (signals : list RiskSignal) : double :=
  foldl (fun acc s => fadd acc (fmul (of_int (sig_score s)) (sig_weight s))) (of_int 0) signals.

(** None stands for NaN (and minus infinity). *)
Definition aggregateSignals (signals : list RiskSignal) : option Z :=
  match signals with
  | [] => Some 0
  | _ =>
      let mean := fdiv (weightedSum signals) (totalWeight signals) in
      match math_round mean with
      | Some n => Some (Z.min 100 n)
      | None => match mean with S754_infinity false => Some 100 | _ => None end
      end
  end.

Definition scoreToRiskLevel (score : Z) : RiskLevel :=
  if 80 <=? score then CRITICAL else if 60 <=? score then HIGH else if 35 <=? score then MEDIUM else LOW.
Definition determineAction (score riskThresholdStepUp riskThresholdBlock : Z) : RiskAction :=
  if riskThresholdBlock <=? score then BLOCK else if riskThresholdStepUp <=? score then STEP_UP else ALLOW.

(** ** The mean depends only on scores and weights *)

Lemma foldl_map {A B C} (f : C -> B -> C) (g : A -> B) l c :
  foldl f c (map g l) = foldl (fun c x => f c (g x)) c l.
Proof. revert c. induction l as [|x l IH]; intros c; [done|]. simpl. apply IH. Qed.

Definition mean_of (sw : list (Z * double)) : option Z :=
  aggregateSignals (map (fun p => mkRiskSignal EmptyString p.1 p.2 EmptyString false) sw).

Definition weighed (s : RiskSignal) : Z * double := (sig_score s, sig_weight s).

Lemma aggregate_mean signals : aggregateSignals signals = mean_of (map weighed signals).
Proof.
  unfold mean_of, aggregateSignals, weightedSum, totalWeight. destruct signals as [|s signals]; [done|].
  rewrite map_map, !foldl_map. done.
Qed.

(** The scores and the weights an evaluator can give. *)
Definition outcomes : list (list (Z * double)) :=
  [[(0, of_int 1); (20, of_int 1)]; [(0, one_and_half); (30, one_and_half)]; [(0, of_int 2); (40, of_int 2)];
   [(0, three_quarters); (15, three_quarters)]; [(0, of_int 1); (20, of_int 1)];
   [(0, three_quarters); (15, three_quarters)]; [(0, of_int 1); (10, of_int 1); (20, of_int 1); (30, of_int 1)]].
Fixpoint choices {A} (ls : list (list A)) : list (list A) :=
  match ls with
  | [] => [[]]
  | l :: ls => flat_map (fun x => map (cons x) (choices ls)) l
  end.

Lemma elem_of_choices {A} (xs : list A) ls : Forall2 (fun x l => x ∈ l) xs ls -> xs ∈ choices ls.
Proof.
  induction 1 as [|x l xs ls Hx _ IH]; simpl; [set_solver|].
  apply list_elem_of_In, in_flat_map. exists x. split; [by apply list_elem_of_In|]. by apply in_map, list_elem_of_In.
Qed.

Definition score_in_range (sw : list (Z * double)) : bool :=
  match mean_of sw with Some n => (0 <=? n) && (n <=? 27) | None => false end.
Lemma outcomes_in_range : forallb score_in_range (choices outcomes) = true.
Proof. vm_compute. reflexivity. Qed.

Section Bound.
Context {E : Env}.

Lemma evaluateIpReputation_outcome ip known :
  weighed (evaluateIpReputation ip known) ∈ [(0, of_int 1); (20, of_int 1)].
Proof. unfold evaluateIpReputation, weighed. simpl. destruct (unknown_in _ _); set_solver. Qed.
Lemma evaluateDeviceAnomaly_outcome fp known :
  weighed (evaluateDeviceAnomaly fp known) ∈ [(0, of_int 1); (20, of_int 1)].
Proof. unfold evaluateDeviceAnomaly, weighed. simpl. destruct (unknown_in _ _); set_solver. Qed.
Lemma evaluateGeoAnomaly_outcome location known :
  weighed (evaluateGeoAnomaly location known) ∈ [(0, one_and_half); (30, one_and_half)].
Proof. unfold evaluateGeoAnomaly, weighed. destruct (_ || _); simpl; [set_solver|]. destruct (_ && _); set_solver. Qed.
Lemma evaluateImpossibleTravel_outcome p t q now :
  weighed (evaluateImpossibleTravel p t q now) ∈ [(0, of_int 2); (40, of_int 2)].
Proof.
  unfold evaluateImpossibleTravel, weighed. destruct p, q, t; simpl; try set_solver.
  destruct (fle _ _); simpl; [set_solver|]. destruct (flt _ _); set_solver.
Qed.
Lemma evaluateTimeAnomaly_outcome h times :
  weighed (evaluateTimeAnomaly h times) ∈ [(0, three_quarters); (15, three_quarters)].
Proof. unfold evaluateTimeAnomaly, weighed. destruct (_ <? _); simpl; [set_solver|]. destruct (flt _ _); set_solver. Qed.
Lemma evaluateLoginFrequency_outcome n avg :
  weighed (evaluateLoginFrequency n avg) ∈ [(0, three_quarters); (15, three_quarters)].
Proof. unfold evaluateLoginFrequency, weighed. simpl. destruct (flt _ _); set_solver. Qed.
Lemma evaluateFailedAttempts_outcome n :
  weighed (evaluateFailedAttempts n) ∈ [(0, of_int 1); (10, of_int 1); (20, of_int 1); (30, of_int 1)].
Proof.
  unfold evaluateFailedAttempts, weighed, failure_score. simpl.
  destruct (5 <=? n), (3 <=? n), (1 <=? n); set_solver.
Qed.

(** The seven signals of a sign-in. *)
Definition all_signals (ip : option string) (knownIps : list string) (location : option string)
    (lastLocations : list string) (last : option (double * double)) (lastTime : option Z)
    (current : option (double * double)) (now hour : Z) (loginTimes : list Z) (fingerprint : option string)
    (knownDevices : list string) (recent : Z) (avg : double) (failures : Z) : list RiskSignal :=
  [evaluateIpReputation ip knownIps; evaluateGeoAnomaly location lastLocations;
   evaluateImpossibleTravel last lastTime current now; evaluateTimeAnomaly hour loginTimes;
   evaluateDeviceAnomaly fingerprint knownDevices; evaluateLoginFrequency recent avg;
   evaluateFailedAttempts failures].

Lemma all_signals_choices ip ips loc locs last lastTime cur now hour times fp devs recent avg failures :
  map weighed (all_signals ip ips loc locs last lastTime cur now hour times fp devs recent avg failures) ∈
    choices outcomes.
Proof.
  apply elem_of_choices. unfold all_signals, outcomes.
  constructor; [apply evaluateIpReputation_outcome|]. constructor; [apply evaluateGeoAnomaly_outcome|].
  constructor; [apply evaluateImpossibleTravel_outcome|]. constructor; [apply evaluateTimeAnomaly_outcome|].
  constructor; [apply evaluateDeviceAnomaly_outcome|]. constructor; [apply evaluateLoginFrequency_outcome|].
  constructor; [apply evaluateFailedAttempts_outcome|constructor].
Qed.

Lemma choice_in_range sw : sw ∈ choices outcomes -> exists n, mean_of sw = Some n /\ 0 <= n <= 27.
Proof.
  intros Hin%list_elem_of_In. pose proof outcomes_in_range as Hall. rewrite forallb_forall in Hall.
  apply Hall in Hin. unfold score_in_range in Hin. destruct (mean_of sw) as [n|]; [|done]. exists n. split; [done|]. lia.
Qed.

(** The mean divides by all seven weights, so even a sign-in that triggers every signal
    at its highest score reaches 27 of 100. *)
Lemma all_signals_score ip ips loc locs last lastTime cur now hour times fp devs recent avg failures :
  exists n, aggregateSignals (all_signals ip ips loc locs last lastTime cur now hour times fp devs recent avg failures) =
    Some n /\ 0 <= n <= 27.
Proof. rewrite aggregate_mean. apply choice_in_range, all_signals_choices. Qed.
End Bound.

(** Conversion must not compute scores. *)
#[global] Opaque aggregateSignals all_signals.

(** ** Examples of the arithmetic *)

Example tenth_times_three : to_fixed 20 (fmul (decimal 1 1) (of_int 3)) = "0.30000000000000004441".
Proof. vm_compute. reflexivity. Qed.
Example hours_text : to_fixed 2 (fdiv (of_int 5400000) (of_int 3600000)) = "1.50".
Proof. vm_compute. reflexivity. Qed.
Example one_and_a_half : math_round (decimal 15 1) = Some 2 /\ math_round (decimal (-15) 1) = Some (-1).
Proof. vm_compute. done. Qed.
