(* ===== verification/RiskAssessment.v ===== *)
(** * RiskAssessment: how risky a sign-in is
      (src/src/risk-assessment/risk-assessment.service.ts, impossible-travel.service.ts)

    A sign-in is compared with what the service learnt of the user: addresses, devices,
    hours and countries.  The geo-IP service is a parameter; answers for an address are
    kept in the process, at most a thousand of them. *)

From Stdlib Require Import SpecFloat.
From S2P Require Import ServiceAccounts Prelude Prog Json JsText JsNumber Schema Store StoreFacts RiskSignals Email Testbed.

Record LoginRiskContext := mkLoginRiskContext {
  rctx_userId : string; rctx_realmId : string; rctx_realmName : string; rctx_ipAddress : option string;
  rctx_userAgent : option string; rctx_deviceFingerprint : option string; rctx_timestamp : Z
}.
Record RiskAssessmentResult := mkRiskAssessment {
  ra_riskScore : Z; ra_riskLevel : RiskLevel; ra_signals : list RiskSignal; ra_action : RiskAction;
  ra_geoLocation : option string
}.

(** ** ImpossibleTravelService *)

Definition maxCacheSize : nat := 1000.

Definition private_prefixes : list string :=
  ["10."; "192.168."; "172.16."; "172.17."; "172.18."; "172.19."; "172.2"; "172.30."; "172.31."].
Definition isPrivateIp (ip : string) : bool :=
  (ip === "::1") || (ip === "127.0.0.1") || existsb (fun p => starts_with p ip) private_prefixes || (ip === "localhost").

(** A JavaScript Map keeps its keys in the order they were first set. *)
Definition CoordsCache : Type := list (string * option (double * double)).
Fixpoint cache_get (ip : string) (cache : CoordsCache) : option (option (double * double)) :=
  match cache with
  | [] => None
  | (k, v) :: cache => if k === ip then Some v else cache_get ip cache
  end.
Fixpoint cache_set (ip : string) (coords : option (double * double)) (cache : CoordsCache) : CoordsCache :=
  match cache with
  | [] => [(ip, coords)]
  | (k, v) :: cache => if k === ip then (k, coords) :: cache else (k, v) :: cache_set ip coords cache
  end.
(** The oldest entry makes room. *)
Definition cacheCoords (ip : string) (coords : option (double * double)) (cache : CoordsCache) : CoordsCache :=
  cache_set ip coords (if (maxCacheSize <=? length cache)%nat then tl cache else cache).

Section Travel.
Context {E : Env}.

Definition lookupCoords (ip : string) : M (option (double * double)) :=
  (if (ip === EmptyString) || isPrivateIp ip then Ret None else
   cached <- atom (fun w => (cache_get ip (w_coordsCache w), w)) ;;
   match cached with
   | Some coords => Ret coords
   | None =>
       now <- date_now ;;
       let coords := geo_coords ip now in
       atom (fun w => (coords, with_coordsCache (cacheCoords ip coords (w_coordsCache w)) w))
   end)%prog.

(** [[city, country].filter(Boolean).join(', ')], null when both are missing. *)
Definition lookupLocation (ip : string) : M (option string) :=
  (if (ip === EmptyString) || isPrivateIp ip then Ret None else
   now <- date_now ;;
   Ret (match geo_location ip now with
        | None => None
        | Some (city, country) =>
            let parts := List.filter (fun s => s !== EmptyString) (option_list city ++ option_list country) in
            if bool_decide (parts = []) then None else Some (js_join ", " parts)
        end))%prog.

Definition checkFeasibility (prev : double * double) (prevTimestamp : Z) (curr : double * double)
    (currTimestamp : Z) : bool * double * double :=
  let distanceKm := haversineDistance prev curr in
  let elapsedHours := elapsed_hours prevTimestamp currTimestamp in
  let maxFeasibleKm := math_max (feasible_km elapsedHours) (of_int 0) in
  (fle distanceKm maxFeasibleKm, distanceKm, elapsedHours).

(** ** The profile of a user *)

Definition new_profile (userId realmId id : string) : UserLoginProfile :=
  mkUserLoginProfile id userId realmId [] [] (repeat 0 24) [] (of_int 0).
Definition getOrCreateProfile (userId realmId : string) : M UserLoginProfile :=
  (existing <- find_first TUserLoginProfile (fun p => ulp_userId p === userId) ;;
   match existing with
   | Some profile => Ret profile
   | None => create TUserLoginProfile (fun id _ => new_profile userId realmId id)
   end)%prog.

(** Push a value the list does not have; drop the oldest beyond [cap]. *)
Definition learn (cap : nat) (v : option string) (known : list string) : list string :=
  if unknown_in v known then
    let known := known ++ [v ?? EmptyString] in
    if (cap <? length known)%nat then tl known else known
  else known.

(** [times[hour] = (times[hour] ?? 0) + 1]: an assignment past the end extends the array. *)
Fixpoint count_hour (hour : nat) (times : list Z) : list Z :=
  match hour, times with
  | 0%nat, [] => [1]
  | 0%nat, n :: times => (n + 1) :: times
  | S hour, [] => 0 :: count_hour hour []
  | S hour, n :: times => n :: count_hour hour times
  end.
(** [timestamp.getUTCHours()]. *)
Definition utc_hour (timestamp : Z) : Z := timestamp / ms_per_hour mod 24.

Definition next_average (avg : double) : double :=
  if SFeqb avg (of_int 0) then of_int 1 else fadd (fmul avg (decimal 9 1)) (decimal 1 1).

Definition learn_profile (context : LoginRiskContext) (geoLocation : option string)
    (profile row : UserLoginProfile) : UserLoginProfile :=
  mkUserLoginProfile (ulp_id row) (ulp_userId row) (ulp_realmId row)
    (learn 20 (rctx_ipAddress context) (ulp_knownIps profile))
    (learn 20 (rctx_deviceFingerprint context) (ulp_knownDevices profile))
    (count_hour (Z.to_nat (utc_hour (rctx_timestamp context)))
       (if (length (ulp_loginTimes profile) =? 24)%nat then ulp_loginTimes profile else []))
    (learn 10 geoLocation (ulp_lastLocations profile))
    (next_average (ulp_avgLoginFrequency profile)).

Definition updateUserProfile (userId realmId : string) (context : LoginRiskContext) (geoLocation : option string) : M unit :=
  (profile <- getOrCreateProfile userId realmId ;;
   update TUserLoginProfile (fun p => ulp_userId p === userId) (learn_profile context geoLocation profile) ;;;
   Ret tt)%prog.

(** ** assessRisk *)

Definition counts_for_travel (userId : string) (a : LoginRiskAssessment) : bool :=
  (lra_userId a === userId) && (lra_action a !== "BLOCK").
Definition getLastSuccessfulLoginCoords (userId : string) : M (option ((double * double) * Z)) :=
  (last <- find_latest TLoginRiskAssessment (counts_for_travel userId) lra_createdAt ;;
   match last with
   | None => Ret None
   | Some last =>
       if negb (truthy (lra_ipAddress last)) then Ret None else
       coords <- lookupCoords (lra_ipAddress last ?? EmptyString) ;;
       Ret (match coords with Some coords => Some (coords, lra_createdAt last) | None => None end)
   end)%prog.

Definition countRecentFailures (userId realmId : string) : M Z :=
  (now <- date_now ;;
   count TLoginFailure (fun f => bool_decide (lf_userId f = Some userId) && (lf_realmId f === realmId) &&
     (now - 60 * 60 * 1000 <=? lf_failedAt f)))%prog.
Definition countRecentLogins (userId realmId : string) : M Z :=
  (now <- date_now ;;
   count TLoginRiskAssessment (fun a => (lra_userId a === userId) && (lra_realmId a === realmId) &&
     (now - 24 * 60 * 60 * 1000 <=? lra_createdAt a)))%prog.

Definition signals_of (context : LoginRiskContext) (profile : UserLoginProfile) (geoLocation : option string)
    (currentCoords : option (double * double)) (lastLogin : option ((double * double) * Z))
    (recentFailures recentLoginCount : Z) : list RiskSignal :=
  all_signals (rctx_ipAddress context) (ulp_knownIps profile) geoLocation (ulp_lastLocations profile)
    (fst <$> lastLogin) (snd <$> lastLogin) currentCoords (rctx_timestamp context)
    (utc_hour (rctx_timestamp context)) (ulp_loginTimes profile) (rctx_deviceFingerprint context)
    (ulp_knownDevices profile) recentLoginCount (ulp_avgLoginFrequency profile) recentFailures.

Definition stepUp_threshold (realm : option Realm) : Z :=
  match realm with Some r => realm_riskThresholdStepUp r | None => 50 end.
Definition block_threshold (realm : option Realm) : Z :=
  match realm with Some r => realm_riskThresholdBlock r | None => 80 end.

(** A score that is not a number cannot be stored. *)
Definition assessRisk (context : LoginRiskContext) (loginEventId : option string) : M RiskAssessmentResult :=
  (profile <- getOrCreateProfile (rctx_userId context) (rctx_realmId context) ;;
   realm <- find_first TRealm (fun r => realm_id r === rctx_realmId context) ;;
   geo <- (if truthy (rctx_ipAddress context) then
             geoLocation <- lookupLocation (rctx_ipAddress context ?? EmptyString) ;;
             coords <- lookupCoords (rctx_ipAddress context ?? EmptyString) ;;
             Ret (geoLocation, coords)
           else Ret (None, None)) ;;
   lastLogin <- getLastSuccessfulLoginCoords (rctx_userId context) ;;
   recentFailures <- countRecentFailures (rctx_userId context) (rctx_realmId context) ;;
   recentLoginCount <- countRecentLogins (rctx_userId context) (rctx_realmId context) ;;
   let signals := signals_of context profile geo.1 geo.2 lastLogin recentFailures recentLoginCount in
   match aggregateSignals signals with
   | None => Throw (PlainError "PrismaClientValidationError")
   | Some riskScore =>
       let riskLevel := scoreToRiskLevel riskScore in
       let action := determineAction riskScore (stepUp_threshold realm) (block_threshold realm) in
       create TLoginRiskAssessment (fun id createdAt =>
         mkLoginRiskAssessment id loginEventId (rctx_userId context) (rctx_realmId context) riskScore
           (level_text riskLevel) signals (action_text action) (rctx_ipAddress context) (rctx_userAgent context)
           geo.1 (rctx_deviceFingerprint context) createdAt) ;;;
       Ret (mkRiskAssessment riskScore riskLevel signals action geo.1)
   end)%prog.

(** ** The notice of a blocked sign-in *)

Definition quote : ascii := ascii_of_nat 34.
Definition escape_char (c : ascii) : string :=
  if c === "&"%char then "&amp;" else if c === "<"%char then "&lt;" else if c === ">"%char then "&gt;"
  else if c === quote then "&quot;" else if c === "'"%char then "&#39;" else String c EmptyString.
(** [escapeHtml]: the five replacements one after the other, the ampersand first. *)
Fixpoint escapeHtml (s : string) : string :=
  match s with EmptyString => EmptyString | String c s => escape_char c +:+ escapeHtml s end.

Definition week_days : list string := ["Sun"; "Mon"; "Tue"; "Wed"; "Thu"; "Fri"; "Sat"].
Definition month_names : list string :=
  ["Jan"; "Feb"; "Mar"; "Apr"; "May"; "Jun"; "Jul"; "Aug"; "Sep"; "Oct"; "Nov"; "Dec"].
(** [toUTCString()], for years of four digits. *)
Definition to_utc_string (ms : Z) : string :=
  let days := ms / 86400000 in
  let s := ms / 1000 in
  let '(y, m, d) := civil_date days in
  (nth (Z.to_nat ((days + 4) mod 7)) week_days EmptyString) +:+ ", " +:+ pad2 d +:+ " " +:+
    (nth (Z.to_nat (m - 1)) month_names EmptyString) +:+ " " +:+ to_base 10 y +:+ " " +:+ pad2 (s / 3600 mod 24) +:+
    ":" +:+ pad2 (s / 60 mod 60) +:+ ":" +:+ pad2 (s mod 60) +:+ " GMT".

(** The template literal: a line break and its indentation, and an attribute in double quotes. *)
Definition line (indent : nat) (s : string) : string :=
  String (ascii_of_nat 10) (String.concat EmptyString (repeat " " indent)) +:+ s.
Definition style (css : string) : string := " style=" +:+ String quote css +:+ String quote EmptyString.
Definition blocked_login_html (context : LoginRiskContext) (geoLocation : option string) : string :=
  let row label value :=
    line 8 ("<tr><td" +:+ style "padding:4px 12px 4px 0;font-weight:bold" +:+ ">" +:+ label +:+ "</td><td>" +:+
            escapeHtml value +:+ "</td></tr>") in
  line 6 "<h2>Suspicious Login Attempt Blocked</h2>" +:+
  line 6 "<p>A login attempt to your account was automatically blocked due to unusual activity.</p>" +:+
  line 6 ("<table" +:+ style "border-collapse:collapse;margin-top:12px" +:+ ">") +:+
  row "Time" (to_utc_string (rctx_timestamp context)) +:+
  row "IP Address" (rctx_ipAddress context ?? "Unknown") +:+
  row "Location" (geoLocation ?? "Unknown location") +:+
  row "Device" (rctx_userAgent context ?? "Unknown") +:+
  line 6 "</table>" +:+
  line 6 ("<p" +:+ style "margin-top:16px" +:+ ">") +:+
  line 8 "If this was you, please contact your administrator.<br/>" +:+
  line 8 "If this was not you, your account is protected — no action is required." +:+
  line 6 "</p>" +:+ line 4 EmptyString.
Definition sendBlockedLoginEmail (realmName userEmail : string) (context : LoginRiskContext)
    (geoLocation : option string) : M unit :=
  catch (sendEmail realmName userEmail "Suspicious Login Attempt Blocked" (blocked_login_html context geoLocation))
    (fun _ => Ret tt).

(** ** Footprints *)

Lemma sendBlockedLoginEmail_footprint ts n e c g : stable (frame ts) (sendBlockedLoginEmail n e c g).
Proof. unfold sendBlockedLoginEmail. footprint. Qed.
Lemma lookupCoords_footprint ts ip : stable (frame ts) (lookupCoords ip).
Proof.
  unfold lookupCoords. destruct (_ || _); [footprint|]. apply stable_bind; [apply stable_atom; intros; reflexivity|].
  intros [c|]; [footprint|]. apply stable_bind; [footprint|]. intros now.
  apply stable_atom. intros w. split; [done|]. by repeat split.
Qed.
Lemma lookupLocation_footprint ts ip : stable (frame ts) (lookupLocation ip).
Proof. unfold lookupLocation. footprint. Qed.
Hint Resolve lookupCoords_footprint lookupLocation_footprint : footprint.
Lemma getOrCreateProfile_footprint ts u r :
  covers [TUserLoginProfile] ts = true -> stable (frame ts) (getOrCreateProfile u r).
Proof. intros H. apply (stable_frame_mono _ _ _ H). unfold getOrCreateProfile. footprint. Qed.
Hint Resolve getOrCreateProfile_footprint : footprint.
Lemma getLastSuccessfulLoginCoords_footprint ts u : stable (frame ts) (getLastSuccessfulLoginCoords u).
Proof. unfold getLastSuccessfulLoginCoords. footprint. Qed.
Hint Resolve getLastSuccessfulLoginCoords_footprint : footprint.
Lemma assessRisk_footprint ts c e :
  covers [TUserLoginProfile; TLoginRiskAssessment] ts = true -> stable (frame ts) (assessRisk c e).
Proof.
  intros H. apply (stable_frame_mono _ _ _ H). unfold assessRisk, countRecentFailures, countRecentLogins. footprint.
Qed.
Lemma updateUserProfile_footprint ts u r c g :
  covers [TUserLoginProfile] ts = true -> stable (frame ts) (updateUserProfile u r c g).
Proof. intros H. apply (stable_frame_mono _ _ _ H). unfold updateUserProfile. footprint. Qed.
End Travel.
#[export] Hint Resolve sendBlockedLoginEmail_footprint lookupCoords_footprint lookupLocation_footprint getOrCreateProfile_footprint
  assessRisk_footprint updateUserProfile_footprint : footprint.

(** ** The score *)

Lemma signals_score {E : Env} context profile geoLocation coords last failures recent :
  exists n, aggregateSignals (signals_of context profile geoLocation coords last failures recent) = Some n /\ 0 <= n <= 27.
Proof. apply all_signals_score. Qed.

(** No sign-in is ever stepped up or blocked on its risk unless a realm sets its
    thresholds to 27 or lower: whatever the address, the device, the distance travelled,
    the hour, and however many failures came before, an assessment that is stored has a
    score between 0 and 27 of 100, level LOW, and, with thresholds above that (the
    defaults are 50 and 80), the action ALLOW. *)
Theorem assessRisk_never_blocks {E : Env} context loginEventId w result w' :
  run (assessRisk context loginEventId) w = (inr result, w') ->
  (let realm := List.find (fun r => realm_id r === rctx_realmId context) (rows TRealm w) in
   27 < stepUp_threshold realm /\ 27 < block_threshold realm) ->
  0 <= ra_riskScore result <= 27 /\ ra_riskLevel result = LOW /\ ra_action result = ALLOW /\
  exists a, a ∈ rows TLoginRiskAssessment w' /\ lra_userId a = rctx_userId context /\
    lra_riskScore a = ra_riskScore result /\ lra_action a = "ALLOW" /\ lra_signals a = ra_signals result.
Proof.
  unfold assessRisk. intros Hr Hth. apply run_bind_inr in Hr as (profile & w1 & Hp & Hr).
  apply (run_frame [TUserLoginProfile]) in Hp as [Hp _]; [|by apply getOrCreateProfile_footprint].
  apply run_bind_inr in Hr as (realm & w2 & Hf & Hr). run_stmt_inv Hf.
  rewrite (Hp TRealm) in Hf by (clear; set_solver). cbv zeta in Hr.
  apply run_bind_inr in Hr as (geo & w2 & _ & Hr). apply run_bind_inr in Hr as (last & w3 & _ & Hr).
  apply run_bind_inr in Hr as (failures & w4 & _ & Hr). apply run_bind_inr in Hr as (recent & w5 & _ & Hr).
  destruct (signals_score context profile geo.1 geo.2 last failures recent) as (n & Hn & Hle).
  rewrite Hn in Hr. apply run_bind_inr in Hr as (row & w6 & Hc & Hr). run_stmt_inv Hc.
  injection Hr as <- <-. cbn [ra_riskScore ra_riskLevel ra_action ra_signals].
  assert (Hlow : scoreToRiskLevel n = LOW).
  { unfold scoreToRiskLevel. by rewrite !(proj2 (Z.leb_gt _ n)) by lia. }
  assert (Hact : determineAction n (stepUp_threshold realm) (block_threshold realm) = ALLOW).
  { unfold determineAction. subst realm. destruct Hth as [Hs Hb]. change (Row TRealm) with Realm in *.
    by rewrite (proj2 (Z.leb_gt _ n)), (proj2 (Z.leb_gt _ n)) by lia. }
  rewrite Hlow, Hact. split_and!; try done; try lia.
  eexists. rewrite rows_with_rows_eq. split; [apply elem_of_app; right; by apply list_elem_of_singleton|]. done.
Qed.

(** ** What the service learns *)

Lemma unknown_in_false v known : unknown_in v known = false <-> v = None \/ v = Some EmptyString \/ exists s, v = Some s /\ s ∈ known.
Proof.
  unfold unknown_in, truthy. destruct v as [s|]; simpl; [|naive_solver].
  destruct (bool_decide_reflect (s = EmptyString)) as [->|Hne]; simpl; [naive_solver|].
  rewrite negb_false_iff. unfold includes. rewrite bool_decide_eq_true. naive_solver.
Qed.

Lemma learn_spec cap v known :
  (0 < cap)%nat -> (length known <= cap)%nat -> NoDup known ->
  (length (learn cap v known) <= cap)%nat /\ NoDup (learn cap v known) /\ unknown_in v (learn cap v known) = false.
Proof.
  intros Hcap Hlen Hnd. unfold learn. destruct (unknown_in v known) eqn:Hu; [|done].
  assert (exists s, v = Some s /\ s ∉ known) as (s & -> & Hs).
  { unfold unknown_in in Hu. destruct v as [s|]; [|done]. exists s. split; [done|].
    apply andb_true_iff in Hu as [_ Hu%negb_true_iff]. unfold includes in Hu. by rewrite bool_decide_eq_false in Hu. }
  change (Some s ?? EmptyString) with s. cbv zeta.
  assert (Hnd' : NoDup (known ++ [s])).
  { apply NoDup_app. split_and!; [done| |repeat constructor; set_solver]. intros x Hx ->%list_elem_of_singleton. done. }
  destruct (Nat.ltb_spec cap (length (known ++ [s]))) as [Hlt|Hge].
  - destruct known as [|x known]; [simpl in Hlt; lia|]. simpl tl. simpl in *. rewrite length_app in *. simpl in *.
    split_and!; [lia| |].
    + by apply NoDup_cons in Hnd' as [_ Hnd'].
    + apply unknown_in_false. right; right. exists s. set_solver.
  - split_and!; [done..|]. apply unknown_in_false. right; right. exists s. set_solver.
Qed.

Lemma count_hour_length hour times :
  length (count_hour hour times) = Nat.max (S hour) (length times).
Proof. revert times. induction hour as [|h IH]; intros [|n times]; simpl; try done; rewrite IH; simpl; lia. Qed.

Definition average_ok (avg : double) : Prop := avg = of_int 0 \/ avg = of_int 1.
Lemma next_average_ok avg : average_ok avg -> next_average avg = of_int 1.
Proof. intros [-> | ->]; vm_compute; done. Qed.

(** The columns of a profile stay small. *)
Record profile_ok (p : UserLoginProfile) : Prop := {
  po_ips : (length (ulp_knownIps p) <= 20)%nat /\ NoDup (ulp_knownIps p);
  po_devices : (length (ulp_knownDevices p) <= 20)%nat /\ NoDup (ulp_knownDevices p);
  po_locations : (length (ulp_lastLocations p) <= 10)%nat /\ NoDup (ulp_lastLocations p);
  po_times : length (ulp_loginTimes p) = 24%nat;
  po_average : average_ok (ulp_avgLoginFrequency p)
}.

Lemma new_profile_ok userId realmId id : profile_ok (new_profile userId realmId id).
Proof. split; simpl; try (split; [lia|constructor]); [done|by left]. Qed.

Lemma utc_hour_range t : 0 <= utc_hour t < 24.
Proof. unfold utc_hour. apply Z.mod_pos_bound. lia. Qed.

Lemma learn_profile_ok context geo p row : profile_ok p -> profile_ok (learn_profile context geo p row).
Proof.
  intros [[Hi1 Hi2] [Hd1 Hd2] [Hl1 Hl2] Ht Ha]. unfold learn_profile. split; cbn [ulp_knownIps ulp_knownDevices
    ulp_lastLocations ulp_loginTimes ulp_avgLoginFrequency].
  - by destruct (learn_spec 20 (rctx_ipAddress context) (ulp_knownIps p)) as (? & ? & _); [lia|..].
  - by destruct (learn_spec 20 (rctx_deviceFingerprint context) (ulp_knownDevices p)) as (? & ? & _); [lia|..].
  - by destruct (learn_spec 10 geo (ulp_lastLocations p)) as (? & ? & _); [lia|..].
  - rewrite Ht. simpl. rewrite count_hour_length, Ht. pose proof (utc_hour_range (rctx_timestamp context)). lia.
  - right. by apply next_average_ok.
Qed.

Definition profiles_ok (w : World) : Prop := forall p, p ∈ rows TUserLoginProfile w -> profile_ok p.

Section Learning.
Context {E : Env}.

Lemma run_getOrCreateProfile_inr userId realmId w p w' :
  run (getOrCreateProfile userId realmId) w = (inr p, w') -> profiles_ok w ->
  profile_ok p /\ profiles_ok w' /\ ulp_userId p = userId /\ p ∈ rows TUserLoginProfile w'.
Proof.
  unfold getOrCreateProfile. intros Hr Hok. apply run_bind_inr in Hr as (o & w1 & Hf & Hr). run_stmt_inv Hf.
  subst o. destruct (List.find _ _) as [q|] eqn:Hq.
  - injection Hr as <- <-. apply find_elem in Hq as [Hin Hu%bool_decide_eq_true]. auto.
  - run_stmt_inv Hr. split; [apply new_profile_ok|]. split; [|split; [done|]].
    + intros x Hx. rewrite rows_with_rows_eq in Hx. apply elem_of_app in Hx as [Hx|Hx%list_elem_of_singleton]; [auto|].
      subst x. apply new_profile_ok.
    + rewrite rows_with_rows_eq. apply elem_of_app. right. by apply list_elem_of_singleton.
Qed.

Lemma run_getOrCreateProfile_any userId realmId w r w' :
  run (getOrCreateProfile userId realmId) w = (r, w') -> profiles_ok w -> profiles_ok w'.
Proof.
  intros Hr Hok. destruct r as [e|p]; [|exact (proj1 (proj2 (run_getOrCreateProfile_inr _ _ _ _ _ Hr Hok)))].
  unfold getOrCreateProfile in Hr. apply run_bind_any in Hr as [(e' & Hf)|(o & w1 & Hf & Hk)].
  - by apply run_query_any in Hf as ->.
  - run_stmt_inv Hf. subst o. destruct (List.find _ _); [done|].
    apply (run_create_any TUserLoginProfile) in Hk as [-> | ->]; [done|]. intros x Hx. rewrite rows_with_rows_eq in Hx.
    apply elem_of_app in Hx as [Hx|Hx%list_elem_of_singleton]; [by apply Hok|]. subst x. apply new_profile_ok.
Qed.

Lemma run_update_any t p f w r w' :
  run (update t p f) w = (r, w') ->
  w' = w \/ exists x, List.find p (rows t w) = Some x /\ w' = with_rows t (update_first p f (rows t w)) w.
Proof.
  unfold update. rewrite run_prisma. destruct (w_db_up w); [|intros [= _ <-]; by left].
  destruct (List.find _ _) as [x|] eqn:Hx; intros [= _ <-]; [right; by exists x | by left].
Qed.
End Learning.

(** What the engine keeps of a user stays bounded and is not held against them: every
    stored profile has at most twenty addresses, twenty devices and ten places, all
    distinct, a counter for each of the 24 hours, and an average of 0 or 1; learning from
    a sign-in preserves this, and afterwards the address and the device of that sign-in
    are known, so the same ones raise no signal. *)
Theorem learning_invariant {E : Env} userId realmId context geo w r w' :
  run (updateUserProfile userId realmId context geo) w = (r, w') -> profiles_ok w ->
  profiles_ok w' /\
  (r = inr tt -> exists p, p ∈ rows TUserLoginProfile w' /\ ulp_userId p = userId /\
     sig_triggered (evaluateIpReputation (rctx_ipAddress context) (ulp_knownIps p)) = false /\
     sig_triggered (evaluateDeviceAnomaly (rctx_deviceFingerprint context) (ulp_knownDevices p)) = false).
Proof.
  unfold updateUserProfile. intros Hr Hok. split.
  - apply run_bind_any in Hr as [[e Hg]|(p & w1 & Hg & Hk)]; [by apply run_getOrCreateProfile_any in Hg|].
    destruct (run_getOrCreateProfile_inr _ _ _ _ _ Hg Hok) as (Hp & Hok1 & _).
    assert (Hall : forall r2 w2, run (update TUserLoginProfile (fun p => ulp_userId p === userId)
                     (learn_profile context geo p)) w1 = (r2, w2) -> profiles_ok w2).
    { intros r2 w2 [-> | (x & Hx & ->)]%(run_update_any TUserLoginProfile); [done|]. intros y Hy. rewrite rows_with_rows_eq in Hy.
      apply elem_of_update_first in Hy as [Hy|(z & Hz & ->)]; [by apply Hok1|]. by apply learn_profile_ok. }
    apply run_bind_any in Hk as [[e Hx]|(row & w2 & Hx & Hk)]; [by apply Hall in Hx|].
    injection Hk as _ <-. by apply Hall in Hx.
  - intros ->. apply run_bind_inr in Hr as (p & w1 & Hg & Hr).
    destruct (run_getOrCreateProfile_inr _ _ _ _ _ Hg Hok) as (Hp & Hok1 & _).
    apply run_bind_inr in Hr as (row & w2 & Hx & Hr). injection Hr as <-. run_stmt_inv Hx.
    exists (learn_profile context geo p x). rewrite rows_with_rows_eq.
    apply find_elem in Hx as Hx'. destruct Hx' as [Hin Hu%bool_decide_eq_true].
    split; [eapply find_elem, find_update_first; [exact Hx|by apply bool_decide_eq_true]|]. split; [done|]. destruct Hp as [[? ?] [? ?] _ _ _]. split.
    + apply learn_spec; [lia|done..].
    + apply learn_spec; [lia|done..].
Qed.

(** ** The cache of coordinates *)

Lemma cache_set_length ip c cache :
  (length (cache_set ip c cache) <= S (length cache))%nat.
Proof. induction cache as [|[k v] cache IH]; simpl; [lia|]. destruct (k === ip); simpl; lia. Qed.
Lemma cache_get_set ip c cache : cache_get ip (cache_set ip c cache) = Some c.
Proof.
  induction cache as [|[k v] cache IH]; simpl; [by rewrite bool_decide_eq_true_2|].
  destruct (bool_decide_reflect (k = ip)) as [->|Hne]; simpl; [by rewrite bool_decide_eq_true_2|].
  by rewrite bool_decide_eq_false_2.
Qed.

(** The cache never holds more than a thousand answers, and an answer just obtained is
    given again without asking. *)
Theorem lookupCoords_bounded {E : Env} ip w r w' :
  run (lookupCoords ip) w = (r, w') -> (length (w_coordsCache w) <= maxCacheSize)%nat ->
  (length (w_coordsCache w') <= maxCacheSize)%nat /\
  (isPrivateIp ip = false -> ip <> EmptyString ->
     exists c, r = inr c /\ forall n, run (lookupCoords ip) (with_now n w') = (inr c, with_now n w')).
Proof.
  unfold lookupCoords. intros Hr Hlen.
  assert (Hsize : forall c, (length (cacheCoords ip c (w_coordsCache w)) <= maxCacheSize)%nat).
  { intros c. unfold cacheCoords. pose proof (cache_set_length ip c) as Hs.
    destruct (Nat.leb_spec maxCacheSize (length (w_coordsCache w))) as [Hle|Hgt].
    - specialize (Hs (tl (w_coordsCache w))).
      assert (length (tl (w_coordsCache w)) <= pred (length (w_coordsCache w)))%nat as Ht by (by destruct (w_coordsCache w)).
      unfold maxCacheSize in *. lia.
    - specialize (Hs (w_coordsCache w)). lia. }
  destruct (isPrivateIp ip) eqn:Hp; [rewrite orb_true_r in Hr; injection Hr as <- <-; by split|].
  rewrite orb_false_r in *. destruct (bool_decide_reflect (ip = EmptyString)) as [->|Hne].
  { injection Hr as <- <-. by split. }
  simpl in Hr. destruct (cache_get ip (w_coordsCache w)) as [c|] eqn:Hc; simpl in Hr; injection Hr as <- <-.
  - split; [done|]. intros _ _. exists c. split; [done|]. intros n. simpl. by rewrite Hc.
  - split; [apply Hsize|]. intros _ _. exists (geo_coords ip (w_now w)). split; [done|]. intros n. simpl.
    unfold cacheCoords. by rewrite cache_get_set.
Qed.

Example utc_text : to_utc_string 1735689599007 = "Tue, 31 Dec 2024 23:59:59 GMT" /\ to_utc_string 0 = "Thu, 01 Jan 1970 00:00:00 GMT".
Proof. vm_compute. done. Qed.

(** An escaped text opens no tag, whatever the headers of the request were. *)
Lemma escapeHtml_no_tag s : str_existsb (fun c => (c === "<"%char) || (c === quote)) (escapeHtml s) = false.
Proof.
  assert (Happ : forall a b, str_existsb (fun c => (c === "<"%char) || (c === quote)) (a +:+ b) =
            str_existsb (fun c => (c === "<"%char) || (c === quote)) a ||
            str_existsb (fun c => (c === "<"%char) || (c === quote)) b).
  { induction a as [|c a IH]; intros b; [done|]. change (String c a +:+ b) with (String c (a +:+ b)).
    cbn [str_existsb]. rewrite IH. apply orb_assoc. }
  induction s as [|c s IH]; [done|]. cbn [escapeHtml]. rewrite Happ, IH, orb_false_r. unfold escape_char.
  destruct (bool_decide_reflect (c = "&"%char)); [done|]. destruct (bool_decide_reflect (c = "<"%char)); [done|].
  destruct (bool_decide_reflect (c = ">"%char)); [done|]. destruct (bool_decide_reflect (c = quote)); [done|].
  destruct (bool_decide_reflect (c = "'"%char)); [done|]. cbn [str_existsb].
  by rewrite !bool_decide_eq_false_2.
Qed.

(** ** Findings *)

(** A public address: the prefix [172.2] covers far more than the private 172.20/14. *)
Theorem public_address_is_private : isPrivateIp "172.217.16.46" = true /\ isPrivateIp "172.32.0.1" = false.
Proof. vm_compute. done. Qed.

(** The moving average of sign-ins per day is 1 after the first sign-in and stays 1, so
    more than five sign-ins a day are always excessive, for every user. *)
Theorem average_never_moves {E : Env} context geo p row :
  profile_ok p ->
  frequency_threshold (ulp_avgLoginFrequency (learn_profile context geo p row)) = of_int 5.
Proof. intros [_ _ _ _ Ha]. cbn [learn_profile ulp_avgLoginFrequency]. rewrite next_average_ok by done. by vm_compute. Qed.

(** ** Witnesses *)

Definition risky_context : LoginRiskContext :=
  mkLoginRiskContext "user-1" "realm-1" "acme" (Some "203.0.113.7") (Some "curl") (Some "device-9") 1000000000.
(** Five failures and six assessments within the hour, the last from elsewhere. *)
Definition risky_world : World :=
  with_rows TLoginFailure (repeat (mkLoginFailure "realm-1" (Some "user-1") None 999999000) 5)
   (with_rows TLoginRiskAssessment
     (repeat (mkLoginRiskAssessment "a" None "user-1" "realm-1" 0 "LOW" [] "ALLOW" (Some "198.51.100.1") None None None
        999000000) 6)
   (with_rows TUserLoginProfile
     [mkUserLoginProfile "p-1" "user-1" "realm-1" ["198.51.100.1"] ["device-1"] (repeat 0 12 ++ 50 :: repeat 0 11)
        ["Lima, Peru"] (of_int 1)] world1)).

Example risky_score :
  match run (assessRisk (E:=test_env) risky_context None) risky_world with
  | (inr r, _) => Some (ra_riskScore r, map sig_triggered (ra_signals r), ra_action r)
  | _ => None
  end = Some (17, [true; true; false; true; true; true; true], ALLOW).
Proof. vm_compute. reflexivity. Qed.

Example assessRisk_never_blocks_witness :
  exists result w', run (assessRisk (E:=test_env) risky_context None) risky_world = (inr result, w') /\
    ra_action result = ALLOW.
Proof.
  destruct (ends_ok_run (assessRisk (E:=test_env) risky_context None) risky_world) as (result & w' & H);
    [vm_compute; reflexivity|].
  exists result, w'. split; [exact H|].
  refine (proj1 (proj2 (proj2 (assessRisk_never_blocks (E:=test_env) risky_context None risky_world result w' H _)))).
  split; vm_compute; reflexivity.
Defined.

Example learning_invariant_witness :
  exists w', run (updateUserProfile (E:=test_env) "user-1" "realm-1" risky_context (Some "Paris, France")) world1 = (inr tt, w') /\
    profiles_ok w'.
Proof.
  destruct (ends_ok_run (updateUserProfile (E:=test_env) "user-1" "realm-1" risky_context (Some "Paris, France")) world1)
    as ([] & w' & H); [vm_compute; reflexivity|].
  exists w'. split; [exact H|].
  refine (proj1 (learning_invariant (E:=test_env) _ _ _ _ _ _ _ H _)). intros p Hp. by apply not_elem_of_nil in Hp.
Defined.
