(* ===== verification/LoginController.v ===== *)
(** * LoginController: the hosted sign-in pages (src/src/login/login.controller.ts)

    A handler reads form fields, cookies and the realm of the path, and answers with a
    redirect, a page, or what [LoginFlow] answers.  A page is its name and the values it
    is given; a query string is its list of pairs.  What a handler had put on the response
    before it throws is not kept, and the rate limit guard of the routes is in [RateLimit].
    The calls the code does not await are run in place; their failures are dropped. *)

From S2P Require Import Prelude Prog Json JsText Schema Store StoreFacts StepUp Crypto Events PasswordPolicy BruteForce SmsOtp Mfa.
From S2P Require Import OAuth Consent Login LoginFlow Verification Email RiskSignals RiskAssessment CustomAttributes Testbed.

(** ** Requests and answers *)

Record Request := mkRequest { rq_info : RequestInfo; rq_cookies : fields }.
Definition cookie (name : string) (req : Request) : option string := field name (rq_cookies req).
Definition clientIp (req : Request) : string := ri_clientIp (rq_info req).

Inductive View :=
| Redirected (path : string) (query : list (string * string))
| Rendered (page : string) (values : list (string * string))
| Flowed (target : Target).
Record Response := mkResponse { rs_cookies : list Cookie; rs_cleared : list string; rs_view : View }.

Definition redirect (realm : Realm) (path : string) (query : list (string * string)) : Response :=
  mkResponse [] [] (Redirected (realm_path realm path) query).
Definition render (page : string) (values : list (string * string)) : Response := mkResponse [] [] (Rendered page values).
Definition of_reply (cleared : list string) (r : Reply) : Response :=
  mkResponse (rp_cookies r) cleared (Flowed (rp_redirect r)).
Definition clearing (cookies : list string) (r : Response) : Response :=
  mkResponse (rs_cookies r) cookies (rs_view r).

Definition oauth_keys : list string :=
  ["response_type"; "client_id"; "redirect_uri"; "scope"; "state"; "nonce"; "code_challenge"; "code_challenge_method"].
Definition link_keys : list string :=
  ["client_id"; "redirect_uri"; "response_type"; "scope"; "state"; "nonce"; "code_challenge"; "code_challenge_method"].
(** The parameters of [keys] that the form has and that are not empty. *)
Definition pick (keys : list string) (body : fields) : fields :=
  omap (fun k => match field k body with
                 | Some v => if v === EmptyString then None else Some (k, v)
                 | None => None
                 end) keys.

(** ** CsrfService *)

Definition csrf_cookieName (realmName : string) : string := "XSRF-TOKEN-" +:+ realmName.
(** [timingSafeEqual] after comparing lengths is equality. *)
Definition csrf_validate (bodyToken cookieToken : option string) : bool :=
  truthy bodyToken && truthy cookieToken &&
  (String.length (bodyToken ?? EmptyString) =? String.length (cookieToken ?? EmptyString))%nat &&
  bool_decide (bodyToken = cookieToken).

Section Controller.
Context {E : Env}.
(** [err.message], and whether the risk service is part of the application. *)
Context (error_message : exc -> string) (riskAssessmentService : bool).

Definition generateToken : M string := random_hex 32.
Definition setCsrfCookie (realm : Realm) : M (string * Cookie) :=
  (token <- generateToken ;; Ret (token, mkCookie (csrf_cookieName (realm_name realm)) token None))%prog.
(** A page with a fresh token in its form and its cookie. *)
Definition render_form (realm : Realm) (page : string) (values : list (string * string)) : M Response :=
  (tc <- setCsrfCookie realm ;;
   Ret (mkResponse [tc.2] [] (Rendered page (values ++ [("csrfToken", tc.1)]))))%prog.

Definition validateCsrf (realm : Realm) (body : fields) (req : Request) : M unit :=
  if csrf_validate (field "_csrf" body) (cookie (csrf_cookieName (realm_name realm)) req) then Ret tt
  else Throw (Forbidden "Invalid or missing CSRF token").

(** [void p]. *)
Definition unawaited (p : M unit) : M unit := catch p (fun _ => Ret tt).

(** ** Sign-in *)

Definition enabled_providers (realm : Realm) : M (list (string * string)) :=
  query (fun w => map (fun i => (idp_alias i, idp_displayName i ?? idp_alias i))
    (List.filter (fun i => (idp_realmId i === realm_id realm) && idp_enabled i) (rows TIdentityProvider w))).

(** The links of the page: to registration, and to the broker login of every enabled
    identity provider (ordered by the page's query), with the OAuth parameters. *)
Definition showLoginForm (realm : Realm) (q : fields) : M (Response * list (string * string) * fields) :=
  (form <- render_form realm "login"
     (map (fun k => (k, field k q ?? EmptyString)) (link_keys ++ ["error"; "info"; "login_hint"])) ;;
   providers <- enabled_providers realm ;;
   Ret (form, providers, pick link_keys q))%prog.

Definition risk_context (realm : Realm) (user : User) (body : fields) (req : Request) (now : Z) : LoginRiskContext :=
  mkLoginRiskContext (user_id user) (realm_id realm) (realm_name realm) (Some (clientIp req))
    (ri_userAgent (rq_info req)) (field "device_fingerprint" body) now.

Definition login_failed (realm : Realm) (userId clientId : option string) (req : Request) (error : string) : M unit :=
  recordLoginEvent (mkEventParams (realm_id realm) userId None "LOGIN_ERROR" clientId (Some (clientIp req)) (Some error)).

Definition back_to_login (realm : Realm) (message : string) (body : fields) : Response :=
  redirect realm "/login" (("error", message) :: pick link_keys body).

(** The risk of the sign-in: an answer that ends it, or none. *)
Definition adaptive_authentication (realm : Realm) (user : User) (body : fields) (req : Request) : M (option Response) :=
  (now <- date_now ;;
   let context := risk_context realm user body req now in
   assessment <- assessRisk context None ;;
   match ra_action assessment with
   | BLOCK =>
       (if truthy (user_email user)
        then unawaited (sendBlockedLoginEmail (realm_name realm) (user_email user ?? EmptyString) context
                          (ra_geoLocation assessment))
        else Ret tt) ;;;
       login_failed realm (Some (user_id user)) (field "client_id" body) req
         ("Login blocked by risk assessment (score=" +:+ JsNumber.int_text (ra_riskScore assessment) +:+ ")") ;;;
       Ret (Some (back_to_login realm
         "Login blocked due to suspicious activity. Check your email for details." body))
   | action =>
       stepUp <- (if bool_decide (action = STEP_UP) then isMfaEnabled (user_id user) else Ret false) ;;
       if (stepUp : bool) then
         challengeToken <- createMfaChallenge (user_id user) (realm_id realm) (Some (pick oauth_keys body)) None None ;;
         Ret (Some (mkResponse [mkCookie MFA_CHALLENGE_COOKIE challengeToken (Some (5 * 60 * 1000))] []
                      (Redirected (realm_path realm "/totp") [])))
       else
         unawaited (updateUserProfile (user_id user) (realm_id realm) context (ra_geoLocation assessment)) ;;;
         Ret None
   end)%prog.

Definition unverified_email (realm : Realm) (user : User) : bool :=
  realm_requireEmailVerification realm && truthy (user_email user) && negb (user_emailVerified user).

Definition after_password (realm : Realm) (user : User) (body : fields) (req : Request) : M Response :=
  (if unverified_email realm user then
     Ret (back_to_login realm
       "Please verify your email address before signing in. Check your inbox for the verification link." body)
   else
   expired <- isExpired user realm ;;
   if (expired : bool) then
     changeToken <- generateSecret 32 ;;
     createTokenWithHash (user_id user) "change_password" 300 (sha256 changeToken) ;;;
     Ret (redirect realm "/change-password"
            [("token", changeToken); ("info", "Your password has expired and must be changed.")])
   else
     reply <- continueAfterPrimaryAuth realm user (pick oauth_keys body) ["pwd"]
                (Some (truthy (field "rememberMe" body))) (rq_info req) ;;
     Ret (of_reply [] reply))%prog.

(** [if (realm.adaptiveAuthEnabled && this.riskAssessmentService)]. *)
Definition risk_step (realm : Realm) (user : User) (body : fields) (req : Request) : M (option Response) :=
  if realm_adaptiveAuthEnabled realm && riskAssessmentService
  then adaptive_authentication realm user body req else Ret None.

Definition handleLogin (realm : Realm) (body : fields) (req : Request) : M Response :=
  (validateCsrf realm body req ;;;
   catch
     (user <- validateCredentials realm (field "username" body ?? EmptyString) (field "password" body ?? EmptyString)
                (Some (clientIp req)) ;;
      stopped <- risk_step realm user body req ;;
      match stopped with
      | Some response => Ret response
      | None => after_password realm user body req
      end)
     (fun err =>
        login_failed realm None (field "client_id" body) req (error_message err) ;;;
        Ret (back_to_login realm (error_message err) body)))%prog.

(** ** The second factor *)

Record FactorsPage := mkFactorsPage { fp_hasTotp : bool; fp_hasSms : bool; fp_maskedPhone : string }.

(** The factors the page offers for the challenge of the cookie. *)
Definition offered_factors (realm : Realm) (req : Request) : M FactorsPage :=
  (challenge <- (let token := cookie MFA_CHALLENGE_COOKIE req in
                 if truthy token then getMfaChallenge (token ?? EmptyString) else Ret None) ;;
   match challenge with
   | None => Ret (mkFactorsPage true false EmptyString)
   | Some challenge =>
       if ch_realmId challenge !== realm_id realm then Ret (mkFactorsPage true false EmptyString) else
       factors <- getEnrolledFactors (ch_userId challenge) ;;
       let hasTotp := includes "totp" factors in
       if includes "sms" factors && canDeliver realm then
         phone <- getEnrolledPhone (ch_userId challenge) ;;
         Ret (if truthy phone then mkFactorsPage hasTotp true (maskPhone (phone ?? EmptyString))
              else mkFactorsPage hasTotp false EmptyString)
       else Ret (mkFactorsPage hasTotp false EmptyString)
   end)%prog.

Definition flag (b : bool) : string := if b then "true" else "false".
Definition showTotpForm (realm : Realm) (error info method : option string) (req : Request) : M Response :=
  (f <- offered_factors realm req ;;
   render_form realm "totp"
     [("error", error ?? EmptyString); ("info", info ?? EmptyString); ("hasTotp", flag (fp_hasTotp f));
      ("hasSms", flag (fp_hasSms f));
      ("smsMode", flag (fp_hasSms f && (bool_decide (method = Some "sms") || negb (fp_hasTotp f))));
      ("recoveryOnly", flag (negb (fp_hasTotp f) && negb (fp_hasSms f))); ("maskedPhone", fp_maskedPhone f)])%prog.

Definition MFA_EXPIRED : string := "MFA session expired. Please login again.".
Definition to_login (realm : Realm) (message : string) : Response := redirect realm "/login" [("error", message)].
Definition to_totp (realm : Realm) (query : list (string * string)) : Response := redirect realm "/totp" query.

Definition sendTotpSms (realm : Realm) (body : fields) (req : Request) : M Response :=
  (validateCsrf realm body req ;;;
   let challengeToken := cookie MFA_CHALLENGE_COOKIE req ?? EmptyString in
   challenge <- (if challengeToken === EmptyString then Ret None else getMfaChallenge challengeToken) ;;
   match challenge with
   | None => Ret (to_login realm MFA_EXPIRED)
   | Some challenge =>
       if ch_realmId challenge !== realm_id realm then Ret (to_login realm MFA_EXPIRED) else
       catch
         (sent <- sendCode realm (ch_userId challenge) "login" challengeToken None (Some (clientIp req)) ;;
          recordLoginEvent (mkEventParams (realm_id realm) (Some (ch_userId challenge)) None "MFA_CHALLENGE" None
            (Some (clientIp req)) None) ;;;
          Ret (to_totp realm [("method", "sms"); ("info", "We sent a code to " +:+ sr_maskedPhone sent +:+ ".")]))
         (fun err => match err with
                     | SmsOtpError _ message _ => Ret (to_totp realm [("method", "sms"); ("error", message)])
                     | _ => Throw err
                     end)
   end)%prog.

(** The factor of the form: a texted code, else an authenticator code, else a recovery code. *)
Definition factor_input (realm : Realm) (challengeToken : string) (body : fields) : SecondFactorInput :=
  if truthy (field "smsCode" body) then SmsInput (field "smsCode" body ?? EmptyString) (realm_id realm) "login" challengeToken
  else if truthy (field "code" body) then TotpInput (field "code" body ?? EmptyString)
  else RecoveryInput (field "recoveryCode" body ?? EmptyString).

Definition TOO_MANY : string := "Too many failed attempts. Please try again later.".

Definition second_factor_failed (realm : Realm) (userId : string) (body : fields) (req : Request) : M Response :=
  (recordTotpFailure realm userId (Some (clientIp req)) ;;;
   recordLoginEvent (mkEventParams (realm_id realm) (Some userId) None "MFA_VERIFY_ERROR" None (Some (clientIp req))
     (Some "Invalid MFA code")) ;;;
   remainingCheck <- checkTotpRateLimit realm userId ;;
   Ret (to_totp realm
          (("error", if trl_blocked remainingCheck || (trl_remainingAttempts remainingCheck <=? 2) then TOO_MANY
                     else "Invalid code. Please try again.") ::
           (if truthy (field "smsCode" body) then [("method", "sms")] else []))))%prog.

(** The challenge is claimed before the sign-in completes. *)
Definition second_factor_verified (realm : Realm) (challengeToken : string) (challenge : MfaChallenge)
    (factor : string) (req : Request) : M Response :=
  (claimed <- consumeMfaChallenge challengeToken ;;
   if negb claimed then Ret (clearing [MFA_CHALLENGE_COOKIE] (to_login realm MFA_EXPIRED)) else
   resetTotpFailures (realm_id realm) (ch_userId challenge) ;;;
   user <- findUserById (ch_userId challenge) ;;
   match user with
   | None => Ret (clearing [MFA_CHALLENGE_COOKIE] (to_login realm "User not found."))
   | Some user =>
       reply <- completeLogin realm user (ch_oauthParams challenge ?? []) (rq_info req)
                  (mkAuthContext (Some ACR_MFA) (Some (amrForFactor (ch_primaryAmr challenge) (Some factor)))) None ;;
       Ret (of_reply [MFA_CHALLENGE_COOKIE] reply)
   end)%prog.

Definition handleTotp (realm : Realm) (body : fields) (req : Request) : M Response :=
  (validateCsrf realm body req ;;;
   let challengeToken := cookie MFA_CHALLENGE_COOKIE req ?? EmptyString in
   if challengeToken === EmptyString then Ret (to_login realm MFA_EXPIRED) else
   challenge <- validateMfaChallengeWithAttemptCheck challengeToken ;;
   match challenge with
   | None =>
       Ret (clearing [MFA_CHALLENGE_COOKIE]
              (to_login realm "MFA session expired or too many failed attempts. Please login again."))
   | Some challenge =>
       if ch_realmId challenge !== realm_id realm then Ret (clearing [MFA_CHALLENGE_COOKIE] (to_login realm MFA_EXPIRED)) else
       rateLimitCheck <- checkTotpRateLimit realm (ch_userId challenge) ;;
       if trl_blocked rateLimitCheck then Ret (to_totp realm [("error", TOO_MANY)]) else
       factor <- verifySecondFactor (ch_userId challenge) (factor_input realm challengeToken body) ;;
       match factor with
       | None => second_factor_failed realm (ch_userId challenge) body req
       | Some factor => second_factor_verified realm challengeToken challenge factor req
       end
   end)%prog.

Definition continueAfterMfaEnrollment (realm : Realm) (body : fields) (req : Request) : M Response :=
  (validateCsrf realm body req ;;;
   let loginAgain message := clearing [MFA_ENROLLMENT_COOKIE] (to_login realm message) in
   let token := cookie MFA_ENROLLMENT_COOKIE req ?? EmptyString in
   enrollment <- (if token === EmptyString then Ret None else consumeVerifiedMfaEnrollment token) ;;
   match enrollment with
   | None => Ret (loginAgain "Your sign-in expired. Please sign in again.")
   | Some enrollment =>
       if pd_realmId enrollment !== realm_id realm then Ret (loginAgain "Your sign-in expired. Please sign in again.") else
       user <- findUserById (pd_userId enrollment) ;;
       match user with
       | None => Ret (loginAgain "Please sign in again.")
       | Some user =>
           if negb (user_enabled user) then Ret (loginAgain "Please sign in again.") else
           enabled <- isMfaEnabled (user_id user) ;;
           if negb enabled then Ret (loginAgain "Please sign in again.") else
           reply <- completeLogin realm user (pd_oauthParams enrollment ?? []) (rq_info req)
                      (mkAuthContext (Some ACR_MFA) (Some (amrForFactor (pd_primaryAmr enrollment) (pd_factor enrollment))))
                      (pd_rememberMe enrollment) ;;
           Ret (of_reply [MFA_ENROLLMENT_COOKIE] reply)
       end
   end)%prog.

(** ** Forced password change *)

Definition policy_hints (least : Z -> string) (upper lower digit special : string) (realm : Realm) : list string :=
  (if 1 <? realm_passwordMinLength realm then [least (realm_passwordMinLength realm)] else []) ++
  (if realm_passwordRequireUppercase realm then [upper] else []) ++
  (if realm_passwordRequireLowercase realm then [lower] else []) ++
  (if realm_passwordRequireDigits realm then [digit] else []) ++
  (if realm_passwordRequireSpecialChars realm then [special] else []).

Definition showChangePasswordForm (realm : Realm) (q : fields) : M (Response * option (list string)) :=
  (let hints := policy_hints (fun n => "At least " +:+ JsNumber.int_text n +:+ " characters")
                  "At least one uppercase letter" "At least one lowercase letter"
                  "At least one digit" "At least one special character" realm in
   form <- render_form realm "change-password"
     (map (fun k => (k, field k q ?? EmptyString)) ["token"; "error"; "info"]) ;;
   Ret (form, if bool_decide (hints = []) then None else Some hints))%prog.

Definition by_token_hash (token : string) (t : VerificationToken) : bool := vt_tokenHash t === sha256 token.
Definition set_new_password (hash : string) (now : Z) (u : User) : User :=
  mkUser (user_id u) (user_realmId u) (user_username u) (user_email u) (user_emailVerified u)
    (user_firstName u) (user_lastName u) (user_enabled u) (Some hash) (user_passwordAlgorithm u)
    (user_federationLink u) (Some now) (user_lockedUntil u) (user_createdAt u).

Definition store_password (userId hash : string) : M unit :=
  (now <- date_now ;;
   update TUser (fun u => user_id u === userId) (set_new_password hash now) ;;; Ret tt)%prog.

(** From the valid current password on. *)
Definition change_to (realm : Realm) (user : User) (record : VerificationToken) (newPassword : string)
    (again : string -> Response) : M Response :=
  (let validation := validate realm newPassword in
   if negb validation.1 then Ret (again (js_join ". " validation.2)) else
   inHistory <- (if 0 <? realm_passwordHistoryCount realm
                 then checkHistory (user_id user) (realm_id realm) newPassword (realm_passwordHistoryCount realm)
                 else Ret false) ;;
   if (inHistory : bool) then Ret (again "Password was used recently. Choose a different password.") else
   passwordHash <- hashPassword newPassword ;;
   store_password (user_id user) passwordHash ;;;
   recordHistory (user_id user) (realm_id realm) passwordHash (realm_passwordHistoryCount realm) ;;;
   delete_one TVerificationToken (fun t => vt_id t === vt_id record) ;;;
   Ret (redirect realm "/login" [("info", "Password changed successfully. You can now sign in.")]))%prog.

Definition handleChangePassword (realm : Realm) (body : fields) (req : Request) : M Response :=
  (validateCsrf realm body req ;;;
   let text k := field k body ?? EmptyString in
   let again message := redirect realm "/change-password" [("token", text "token"); ("error", message)] in
   if (text "token" === EmptyString) || (text "currentPassword" === EmptyString) || (text "newPassword" === EmptyString)
   then Ret (again "All fields are required.") else
   if negb (bool_decide (field "newPassword" body = field "confirmPassword" body))
   then Ret (again "New passwords do not match.") else
   record <- find_first TVerificationToken (by_token_hash (text "token")) ;;
   now <- date_now ;;
   match record with
   | None => Ret (to_login realm "Change password session expired. Please login again.")
   | Some record =>
       if (vt_type record !== "change_password") || (vt_expiresAt record <? now)
       then Ret (to_login realm "Change password session expired. Please login again.") else
       user <- find_first TUser (fun u => user_id u === vt_userId record) ;;
       match user with
       | None => Ret (to_login realm "User not found.")
       | Some user =>
           if negb (truthy (user_passwordHash user)) then Ret (to_login realm "User not found.") else
           valid <- verifyPassword (user_passwordHash user ?? EmptyString) (text "currentPassword") ;;
           if negb valid then Ret (again "Current password is incorrect.") else
           change_to realm user record (text "newPassword") again
       end
   end)%prog.

(** ** Verification links *)

Definition verifyEmail (realm : Realm) (token : option string) : M Response :=
  (let failed error := render "verify-email" [("success", "false"); ("error", error)] in
   if negb (truthy token) then Ret (failed "Missing verification token.") else
   result <- validateToken (token ?? EmptyString) "email_verification" ;;
   match result with
   | None => Ret (failed "This verification link is invalid or has expired.")
   | Some userId =>
       update TUser (fun u => user_id u === userId)
         (fun u => mkUser (user_id u) (user_realmId u) (user_username u) (user_email u) true
            (user_firstName u) (user_lastName u) (user_enabled u) (user_passwordHash u) (user_passwordAlgorithm u)
            (user_federationLink u) (user_passwordChangedAt u) (user_lockedUntil u) (user_createdAt u)) ;;;
       Ret (render "verify-email" [("success", "true")])
   end)%prog.

Definition base_url : string := process_env "BASE_URL" ?? "http://localhost:3000".

(** A link with a fresh token, mailed with the realm's template when mail is configured. *)
Definition mail_link (realm : Realm) (userId email type path template variable subjectKey : string) (seconds : Z) : M unit :=
  (configured <- isConfigured (realm_name realm) ;;
   if negb configured then Ret tt else
   rawToken <- createToken userId type seconds ;;
   let url := base_url +:+ realm_path realm path +:+ "?token=" +:+ rawToken in
   fullRealm <- find_realm (realm_name realm) ;;
   match fullRealm with
   | None => Ret tt
   | Some fullRealm =>
       sendEmail (realm_name realm) email (email_subject fullRealm subjectKey)
         (render_email fullRealm template [(variable, url)])
   end)%prog.

Definition by_email (realm : Realm) (email : string) (u : User) : bool :=
  (user_realmId u === realm_id realm) && bool_decide (user_email u = Some email).

Definition showForgotPasswordForm (realm : Realm) (q : fields) : M Response :=
  render_form realm "forgot-password" [("info", field "info" q ?? EmptyString); ("error", field "error" q ?? EmptyString)].

Definition handleForgotPassword (realm : Realm) (body : fields) (req : Request) : M Response :=
  (validateCsrf realm body req ;;;
   (if truthy (field "email" body) then
      let email := field "email" body ?? EmptyString in
      user <- find_first TUser (by_email realm email) ;;
      match user with
      | None => Ret tt
      | Some user =>
          catch (mail_link realm (user_id user) email "password_reset" "/reset-password" "reset-password" "resetUrl"
                   "resetPasswordSubject" 3600)
            (fun _ => Ret tt)
      end
    else Ret tt) ;;;
   Ret (redirect realm "/forgot-password"
          [("info", "If an account with that email exists, we sent a password reset link.")]))%prog.

Definition showResetPasswordForm (realm : Realm) (token error : option string) : M Response :=
  (let page error := render "reset-password" [("error", error); ("token", EmptyString)] in
   if negb (truthy token) then Ret (page "Missing reset token.") else
   record <- find_first TVerificationToken (by_token_hash (token ?? EmptyString)) ;;
   now <- date_now ;;
   let usable := match record with
                 | Some r => (vt_type r === "password_reset") && negb (vt_expiresAt r <? now)
                 | None => false
                 end in
   if negb usable then Ret (page "This reset link is invalid or has expired.") else
   render_form realm "reset-password" [("token", token ?? EmptyString); ("error", error ?? EmptyString)])%prog.

Definition handleResetPassword (realm : Realm) (body : fields) (req : Request) : M Response :=
  (validateCsrf realm body req ;;;
   let token := field "token" body ?? EmptyString in
   let password := field "password" body ?? EmptyString in
   let again message := redirect realm "/reset-password" [("token", token); ("error", message)] in
   if (token === EmptyString) || (password === EmptyString) then Ret (again "Missing required fields.") else
   if negb (bool_decide (field "password" body = field "confirmPassword" body)) then Ret (again "Passwords do not match.") else
   let validation := validate realm password in
   if negb validation.1 then Ret (again (js_join ". " validation.2)) else
   result <- validateToken token "password_reset" ;;
   match result with
   | None => Ret (redirect realm "/reset-password" [("error", "This reset link is invalid or has expired.")])
   | Some userId =>
       passwordHash <- hashPassword password ;;
       store_password userId passwordHash ;;;
       user <- find_first TUser (fun u => user_id u === userId) ;;
       match user with
       | Some user => recordHistory (user_id user) (realm_id realm) passwordHash (realm_passwordHistoryCount realm)
       | None => Ret tt
       end ;;;
       recordLoginEvent (mkEventParams (realm_id realm) (Some userId) None "PASSWORD_RESET" None None None) ;;;
       Ret (redirect realm "/login" [("info", "Your password has been reset. You can now sign in.")])
   end)%prog.

(** ** Registration *)

Definition showRegistrationForm (realm : Realm) (q : fields) : M (Response * list (CustomAttribute * string)) :=
  (if negb (realm_registrationAllowed realm)
   then Ret (to_login realm "Registration is not allowed for this realm.", []) else
   let hints := policy_hints (fun n => "at least " +:+ JsNumber.int_text n +:+ " characters")
                  "an uppercase letter" "a lowercase letter" "a digit" "a special character" realm in
   customAttributes <- getRegistrationAttributes (realm_id realm) ;;
   form <- render_form realm "register"
     (("passwordHint", if bool_decide (hints = []) then EmptyString else "Must contain " +:+ js_join ", " hints) ::
      map (fun k => (k, field k q ?? EmptyString))
        (["username"; "email"; "firstName"; "lastName"; "error"; "info"] ++ link_keys)) ;;
   Ret (form, map (fun a => (a, field ("attr_" +:+ ca_name a) q ?? EmptyString)) customAttributes))%prog.

(** The form, trimmed. *)
Record Registration := mkRegistration {
  rg_username : string; rg_email : string; rg_firstName : string; rg_lastName : string; rg_password : string
}.
Definition registration_of (body : fields) : Registration :=
  let text k := js_trim (field k body ?? EmptyString) in
  mkRegistration (text "username") (text "email") (text "firstName") (text "lastName") (field "password" body ?? EmptyString).

(** [email.split('@')[1]?.toLowerCase() ?? '']. *)
Definition email_domain (email : string) : string := to_lower (js_split "@"%char email !! 1%nat ?? EmptyString).
Definition domain_allowed (realm : Realm) (email : string) : bool :=
  match realm_allowedEmailDomains realm with
  | [] => true
  | domains => includes (email_domain email) (map to_lower domains)
  end.

(** The first complaint about the form, before the database is read. *)
Definition form_error (realm : Realm) (body : fields) (rg : Registration) : option string :=
  if (String.length (rg_username rg) <? 2)%nat then Some "Username must be at least 2 characters."
  else if str_existsb is_angle (rg_username rg) || str_existsb is_angle (rg_firstName rg) || str_existsb is_angle (rg_lastName rg)
  then Some "Fields must not contain HTML tags or angle brackets."
  else if rg_email rg === EmptyString then Some "Email is required."
  else if negb (domain_allowed realm (rg_email rg))
  then Some ("Registration is only allowed for email domains: " +:+ js_join ", " (map to_lower (realm_allowedEmailDomains realm)))
  else if truthy (realm_termsOfServiceUrl realm) && negb (truthy (field "terms_accepted" body))
  then Some "You must accept the terms of service to register."
  else if rg_password rg === EmptyString then Some "Password is required."
  else if rg_password rg !== (field "confirmPassword" body ?? EmptyString) then Some "Passwords do not match."
  else let validation := validate realm (rg_password rg) in
       if validation.1 then None else Some (js_join ". " validation.2).

Definition missing_attribute (body : fields) (attributes : list CustomAttribute) : option CustomAttribute :=
  List.find (fun a => ca_required a && (attr_field a body === EmptyString)) attributes.

Definition TAKEN : string := "An account with that username or email already exists.".
Definition optional (s : string) : option string := if s === EmptyString then None else Some s.

Definition new_account (realm : Realm) (rg : Registration) (passwordHash : string) (id : string) (now : Z) : User :=
  mkUser id (realm_id realm) (rg_username rg) (Some (rg_email rg)) false (optional (rg_firstName rg))
    (optional (rg_lastName rg)) (negb (realm_registrationApprovalRequired realm)) (Some passwordHash) "argon2" None
    (Some now) None now.

(** The account, or none when the name or the address was taken meanwhile. *)
Definition create_account (realm : Realm) (rg : Registration) (passwordHash : string) : M (option User) :=
  catch (user <- create TUser (new_account realm rg passwordHash) ;; Ret (Some user))%prog
    (fun error => match error with PrismaError "P2002" => Ret None | _ => Throw error end).

Definition registration_message (realm : Realm) : string :=
  if realm_registrationApprovalRequired realm
  then "Account created successfully! Your account is pending approval by an administrator."
  else if realm_requireEmailVerification realm
  then "Account created successfully! Please check your email to verify your account, then sign in."
  else "Account created successfully! You can now sign in.".

(** What follows the creation of the account. *)
Definition finish_registration (realm : Realm) (body : fields) (rg : Registration) (user : User) (passwordHash : string)
    (again : string -> Response) : M Response :=
  ((if 0 <? realm_passwordHistoryCount realm
    then recordHistory (user_id user) (realm_id realm) passwordHash (realm_passwordHistoryCount realm) else Ret tt) ;;;
   saved <- catch (validateAndSaveRegistrationAttributes realm (user_id user) body ;;; Ret true)
              (fun _ =>
                 catch (delete_one TUser (fun u => user_id u === user_id user) ;;; Ret tt) (fun _ => Ret tt) ;;;
                 Ret false) ;;
   if negb saved then Ret (again "Failed to save custom attribute values. Please try again.") else
   recordLoginEvent (mkEventParams (realm_id realm) (Some (user_id user)) None "REGISTER" None None None) ;;;
   catch (mail_link realm (user_id user) (rg_email rg) "email_verification" "/verify-email" "verify-email" "verifyUrl"
            "verifyEmailSubject" 86400)
     (fun _ => Ret tt) ;;;
   Ret (redirect realm "/login" (("info", registration_message realm) :: pick link_keys body)))%prog.

Definition handleRegistration (realm : Realm) (body : fields) (req : Request) : M Response :=
  (validateCsrf realm body req ;;;
   if negb (realm_registrationAllowed realm) then Ret (to_login realm "Registration is not allowed for this realm.") else
   let rg := registration_of body in
   let again message := redirect realm "/register" (("error", message) :: pick link_keys body) in
   match form_error realm body rg with
   | Some message => Ret (again message)
   | None =>
       registrationAttributes <- getRegistrationAttributes (realm_id realm) ;;
       match missing_attribute body registrationAttributes with
       | Some attr => Ret (again ("'" +:+ ca_displayName attr +:+ "' is required."))
       | None =>
           existingByUsername <- find_first TUser (by_username realm (rg_username rg)) ;;
           existingByEmail <- find_first TUser (by_email realm (rg_email rg)) ;;
           if bool_decide (is_Some existingByUsername) || bool_decide (is_Some existingByEmail) then Ret (again TAKEN) else
           passwordHash <- hashPassword (rg_password rg) ;;
           user <- create_account realm rg passwordHash ;;
           match user with
           | None => Ret (again TAKEN)
           | Some user => finish_registration realm body rg user passwordHash again
           end
       end
   end)%prog.
End Controller.
