(* ===== verification/LoginControllerFacts.v ===== *)
(** * LoginControllerFacts: what the hosted pages guarantee

    A session needs a forged-proof form, the password and nothing left to do; a second
    factor completes only its own challenge; passwords, addresses and accounts change only
    through the token or the form that authorizes it. *)

From S2P Require Import Prelude Prog Json JsText Schema Store StoreFacts StepUp Crypto Events PasswordPolicy BruteForce SmsOtp Mfa.
From S2P Require Import OAuth Consent Login LoginFlow Verification Email RiskSignals RiskAssessment CustomAttributes LoginController Testbed.

Section Footprints.
Context {E : Env} (error_message : exc -> string) (riskAssessmentService : bool).

Lemma validateCsrf_footprint ts r b q : stable (frame ts) (validateCsrf r b q).
Proof. unfold validateCsrf. footprint. Qed.
Lemma run_validateCsrf_any realm body req w r w' :
  run (validateCsrf realm body req) w = (r, w') ->
  w' = w /\ (r = inr tt -> csrf_validate (field "_csrf" body) (cookie (csrf_cookieName (realm_name realm)) req) = true).
Proof. unfold validateCsrf. destruct (csrf_validate _ _); intros [= <- <-]; split; done. Qed.
Lemma unawaited_footprint ts p : stable (frame ts) p -> stable (frame ts) (unawaited p).
Proof. intros H. unfold unawaited. apply stable_catch; [done|]. intros. exact I. Qed.
Lemma login_failed_footprint ts r u c q e :
  covers [TLoginEvent] ts = true -> stable (frame ts) (login_failed r u c q e).
Proof. intros H. apply recordLoginEvent_footprint. exact H. Qed.
Hint Resolve validateCsrf_footprint unawaited_footprint login_failed_footprint createMfaChallenge_footprint
  recordLoginEvent_footprint : footprint.
Lemma adaptive_footprint ts r u b q :
  covers [TUserLoginProfile; TLoginRiskAssessment; TPendingAction; TLoginEvent] ts = true ->
  stable (frame ts) (adaptive_authentication r u b q).
Proof. intros H. apply (stable_frame_mono _ _ _ H). unfold adaptive_authentication. footprint. Qed.
Lemma recordHistory_footprint ts u r h n :
  covers [TPasswordHistory] ts = true -> stable (frame ts) (recordHistory u r h n).
Proof. intros H. apply (stable_frame_mono _ _ _ H). unfold recordHistory. footprint. Qed.
Lemma mail_link_footprint ts r u e ty p t v k s :
  covers [TVerificationToken] ts = true -> stable (frame ts) (mail_link r u e ty p t v k s).
Proof. intros H. apply (stable_frame_mono _ _ _ H). unfold mail_link. footprint. Qed.
Lemma store_password_footprint ts u h :
  covers [TUser] ts = true -> stable (frame ts) (store_password u h).
Proof. intros H. apply (stable_frame_mono _ _ _ H). unfold store_password. footprint. Qed.
End Footprints.
#[export] Hint Resolve validateCsrf_footprint unawaited_footprint login_failed_footprint adaptive_footprint
  recordHistory_footprint mail_link_footprint store_password_footprint recordLoginEvent_footprint : footprint.
#[export] Hint Resolve createMfaChallenge_footprint : footprint.

(** ** A password opens a session only when nothing else is asked for *)

Section Closed.
Context {E : Env}.

Lemma run_bind_cases {A B} (p : M A) (k : A -> M B) w r w' :
  run (bind p k) w = (r, w') ->
  (exists e, run p w = (inl e, w') /\ r = inl e) \/ exists a w1, run p w = (inr a, w1) /\ run (k a) w1 = (r, w').
Proof. rewrite run_bind. destruct (run p w) as [[e|a] w1]; intros H; [left; exists e; split; congruence | right; eauto]. Qed.

(** A program that opens no browser session: it leaves the sessions alone and answers
    without a session cookie. *)
Definition closed {A} (cookies : A -> list Cookie) (p : M A) : Prop :=
  forall w r w', run p w = (r, w') -> rows TLoginSession w' = rows TLoginSession w /\
    forall a c, r = inr a -> c ∈ cookies a -> ck_name c <> SESSION_COOKIE.

Lemma closed_bind {A B} (cookies : B -> list Cookie) ts (p : M A) (k : A -> M B) :
  stable (frame ts) p -> includes TLoginSession ts = false -> (forall a, closed cookies (k a)) -> closed cookies (bind p k).
Proof.
  intros Hp Hts Hk w r w' Hr. apply run_bind_cases in Hr as [(e & Hr & ->)|(a & w1 & Hr & Hrk)].
  - split; [|done]. apply (run_frame _ _ _ _ _ Hp) in Hr. exact (frame_rows _ _ _ TLoginSession Hr Hts).
  - apply (run_frame _ _ _ _ _ Hp) in Hr. apply Hk in Hrk as [H1 H2]. rewrite (frame_rows _ _ _ TLoginSession Hr Hts) in H1. by split.
Qed.
Lemma closed_ret {A} (cookies : A -> list Cookie) a :
  (forall c, c ∈ cookies a -> ck_name c <> SESSION_COOKIE) -> closed cookies (Ret a).
Proof. intros Ha w r w' [= <- <-]. split; [done|]. intros ? c [= <-]. apply Ha. Qed.
Lemma closed_throw {A} (cookies : A -> list Cookie) e : closed cookies (Throw e).
Proof. intros w r w' [= <- <-]. by split. Qed.
Lemma closed_no_cookie {A} (cookies : A -> list Cookie) a : cookies a = [] -> closed cookies (Ret a).
Proof. intros Ha. apply closed_ret. rewrite Ha. intros c Hc. by apply not_elem_of_nil in Hc. Qed.

(** What a run did that is more than a closed one does. *)
Definition opens {A} (cookies : A -> list Cookie) (w : World) (r : exc + A) (w' : World) : Prop :=
  rows TLoginSession w' <> rows TLoginSession w \/
  exists a c, r = inr a /\ c ∈ cookies a /\ ck_name c = SESSION_COOKIE.
Lemma closed_not_opens {A} (cookies : A -> list Cookie) p w r w' :
  closed cookies p -> run p w = (r, w') -> ~ opens cookies w r w'.
Proof. intros Hp [H1 H2]%Hp [H|(a & c & -> & Hin & Hc)]; [done|]. by apply (H2 a c). Qed.

(** The part of a request before the opening does not open anything itself. *)
Lemma opens_bind {A B} (cookies : B -> list Cookie) ts (p : M A) (k : A -> M B) w r w' :
  stable (frame ts) p -> includes TLoginSession ts = false -> run (bind p k) w = (r, w') -> opens cookies w r w' ->
  exists a w1, run p w = (inr a, w1) /\ frame ts w w1 /\ run (k a) w1 = (r, w') /\ opens cookies w1 r w'.
Proof.
  intros Hp Hts Hr Ho. apply run_bind_cases in Hr as [(e & Hr & ->)|(a & w1 & Hr & Hrk)].
  - exfalso. apply (run_frame _ _ _ _ _ Hp) in Hr. destruct Ho as [Ho|(a & c & ? & _)]; [|done].
    apply Ho. exact (frame_rows _ _ _ TLoginSession Hr Hts).
  - exists a, w1. pose proof (run_frame _ _ _ _ _ Hp Hr) as Hf. split_and!; try done.
    destruct Ho as [Ho|Ho]; [|by right]. left. by rewrite (frame_rows _ _ _ TLoginSession Hf Hts).
Qed.
End Closed.

(** Nothing stands between the password and the session. *)
Definition ready {E : Env} (realm : Realm) (user : User) (w : World) : Prop :=
  unverified_email realm user = false /\ run (isExpired user realm) w = (inr false, w) /\
  realm_mfaRequired realm = false /\ no_factor (user_id user) w.

Section Gate.
Context {E : Env} (error_message : exc -> string) (riskAssessmentService : bool).

Lemma continueAfterPrimaryAuth_opens realm user params amr remember req w r w' :
  run (continueAfterPrimaryAuth realm user params amr remember req) w = (r, w') -> opens rp_cookies w r w' ->
  realm_mfaRequired realm = false /\ no_factor (user_id user) w.
Proof.
  unfold continueAfterPrimaryAuth. intros Hr Ho.
  destruct (opens_bind _ [] _ _ _ _ _ (isMfaRequired_footprint _ _ _) eq_refl Hr Ho) as (required & w1 & Hm & _ & Hr1 & Ho1).
  apply run_isMfaRequired_inr in Hm as [-> Hreq].
  destruct (opens_bind _ [] _ _ _ _ _ (isMfaEnabled_footprint _ _) eq_refl Hr1 Ho1) as (enabled & w1 & Hm & _ & Hr2 & Ho2).
  apply run_isMfaEnabled_inr in Hm as [-> Hen].
  destruct enabled.
  { exfalso. refine (closed_not_opens _ _ _ _ _ _ Hr2 Ho2). apply (closed_bind _ [TPendingAction]); [|done|].
    - by apply createMfaChallenge_footprint.
    - intros t. apply closed_ret. intros c Hc%list_elem_of_singleton. subst c. done. }
  split; [|by apply Hen]. destruct required; [|by apply Hreq].
  exfalso. refine (closed_not_opens _ _ _ _ _ _ Hr2 Ho2). apply (closed_bind _ [TPendingAction]); [|done|].
  - by apply createMfaEnrollment_footprint.
  - intros t. apply closed_ret. intros c Hc%list_elem_of_singleton. subst c. done.
Qed.

Lemma after_password_opens realm user body req w r w' :
  run (after_password realm user body req) w = (r, w') -> opens rs_cookies w r w' -> ready realm user w.
Proof.
  unfold after_password, ready. intros Hr Ho. destruct (unverified_email realm user).
  { exfalso. refine (closed_not_opens _ _ _ _ _ _ Hr Ho). by apply closed_no_cookie. }
  destruct (opens_bind _ [] _ _ _ _ _ (isExpired_footprint _ _ _) eq_refl Hr Ho) as (expired & w1 & He & _ & Hr1 & Ho1).
  pose proof He as He'. apply run_isExpired_inr in He' as [-> _]. destruct expired.
  { exfalso. refine (closed_not_opens _ _ _ _ _ _ Hr1 Ho1).
    apply (closed_bind _ []); [apply generateSecret_footprint|done|]. intros t.
    apply (closed_bind _ [TVerificationToken]); [by apply createTokenWithHash_footprint|done|]. intros [].
    by apply closed_no_cookie. }
  destruct (continueAfterPrimaryAuth_opens realm user (pick oauth_keys body) ["pwd"]
              (Some (truthy (field "rememberMe" body))) (rq_info req) w
              (run (continueAfterPrimaryAuth realm user (pick oauth_keys body) ["pwd"]
                 (Some (truthy (field "rememberMe" body))) (rq_info req)) w).1 w') as [H1 H2]; [| |done].
  - apply run_bind_cases in Hr1 as [(e & Hk & ->)|(reply & w1 & Hk & Hr1)]; rewrite Hk; [done|]. by injection Hr1 as _ <-.
  - apply run_bind_cases in Hr1 as [(e & Hk & ->)|(reply & w1 & Hk & Hr1)]; rewrite Hk.
    + destruct Ho1 as [Ho1|(a & c & ? & _)]; [by left|done].
    + injection Hr1 as <- <-. destruct Ho1 as [Ho1|(a & c & [= <-] & Hc)]; [by left|]. right. by exists reply, c.
Qed.

Lemma adaptive_closed realm user body req :
  closed (from_option rs_cookies []) (adaptive_authentication realm user body req).
Proof.
  unfold adaptive_authentication. apply (closed_bind _ []); [footprint|done|]. intros now.
  apply (closed_bind _ [TUserLoginProfile; TLoginRiskAssessment]); [by apply assessRisk_footprint|done|]. intros a.
  assert (Hgo : forall p : M bool, stable (frame []) p -> closed (from_option rs_cookies [])
    (stepUp <- p ;;
     if (stepUp : bool) then
       challengeToken <- createMfaChallenge (user_id user) (realm_id realm) (Some (pick oauth_keys body)) None None ;;
       Ret (Some (mkResponse [mkCookie MFA_CHALLENGE_COOKIE challengeToken (Some (5 * 60 * 1000))] []
                    (Redirected (realm_path realm "/totp") [])))
     else
       unawaited (updateUserProfile (user_id user) (realm_id realm) (risk_context realm user body req now)
                    (ra_geoLocation a)) ;;;
       Ret None)%prog).
  { intros p Hp. apply (closed_bind _ []); [done|done|]. intros [].
    - apply (closed_bind _ [TPendingAction]); [by apply createMfaChallenge_footprint|done|]. intros t. apply closed_ret.
      intros c Hc%list_elem_of_singleton. subst c. done.
    - apply (closed_bind _ [TUserLoginProfile]); [by apply unawaited_footprint, updateUserProfile_footprint|done|].
      intros []. by apply closed_no_cookie. }
  cbv zeta. destruct (ra_action a); [apply Hgo; exact I|apply Hgo, isMfaEnabled_footprint|].
  apply (closed_bind _ []); [|done|].
  - destruct (truthy _); [apply unawaited_footprint, sendBlockedLoginEmail_footprint|exact I].
  - intros []. apply (closed_bind _ [TLoginEvent]); [by apply login_failed_footprint|done|]. intros []. by apply closed_no_cookie.
Qed.
Lemma risk_step_closed realm user body req :
  closed (from_option rs_cookies []) (risk_step riskAssessmentService realm user body req).
Proof. unfold risk_step. destruct (_ && _); [apply adaptive_closed|by apply closed_no_cookie]. Qed.
Lemma risk_step_footprint realm user body req :
  stable (frame [TUserLoginProfile; TLoginRiskAssessment; TPendingAction; TLoginEvent])
    (risk_step riskAssessmentService realm user body req).
Proof. unfold risk_step. destruct (_ && _); [by apply adaptive_footprint|exact I]. Qed.
End Gate.

(** C9. A password sign-in opens a browser session only when the form carries the token of
    its cookie, the password was accepted for an account of the realm, and nothing stands
    between: the realm does not demand a verified address the account lacks, the password
    has not expired, the realm does not require a second factor and the account has none.
    In every other case, and whenever a step fails, no session row is added or removed and
    the answer sets no session cookie. *)
Theorem handleLogin_gate {E : Env} error_message riskAssessmentService realm body req w r w' :
  run (handleLogin error_message riskAssessmentService realm body req) w = (r, w') ->
  opens rs_cookies w r w' ->
  csrf_validate (field "_csrf" body) (cookie (csrf_cookieName (realm_name realm)) req) = true /\
  exists user w1 w2,
    run (validateCredentials realm (field "username" body ?? EmptyString) (field "password" body ?? EmptyString)
           (Some (clientIp req))) w = (inr user, w1) /\
    frame [TUserLoginProfile; TLoginRiskAssessment; TPendingAction; TLoginEvent] w1 w2 /\ ready realm user w2.
Proof.
  unfold handleLogin. intros Hr Ho.
  destruct (opens_bind _ [] _ _ _ _ _ (validateCsrf_footprint _ _ _ _) eq_refl Hr Ho) as ([] & w0 & Hc & _ & Hr1 & Ho1).
  apply run_validateCsrf_any in Hc as [-> Hc]. split; [by apply Hc|]. clear Hr Ho Hc.
  match type of Hr1 with run (catch ?p _) _ = _ => set (body_prog := p) in Hr1 end.
  (* an opening happens in the body, not in the handler *)
  assert (Hbody : exists r1 w1, run body_prog w = (r1, w1) /\ opens rs_cookies w r1 w1).
  { rewrite run_catch in Hr1. destruct (run body_prog w) as [[e|a] w1] eqn:Hb.
    - exists (inl e), w1. split; [done|]. left. intros Heq.
      assert (Hcl : closed rs_cookies (login_failed realm None (field "client_id" body) req (error_message e) ;;;
                     Ret (back_to_login realm (error_message e) body))%prog).
      { apply (closed_bind _ [TLoginEvent]); [by apply login_failed_footprint|done|]. intros []. by apply closed_no_cookie. }
      refine (closed_not_opens _ _ _ _ _ Hcl Hr1 _). destruct Ho1 as [Ho1|Ho1]; [|by right]. left. by rewrite Heq.
    - exists (inr a), w1. split; [done|]. by injection Hr1 as <- <-. }
  destruct Hbody as (r1 & w1 & Hb & Ho). clear Hr1 Ho1. unfold body_prog in Hb.
  destruct (opens_bind _ [TUser; TLoginFailure] _ _ _ _ _ (validateCredentials_footprint [TUser; TLoginFailure] _ _ _ _ eq_refl) eq_refl Hb Ho)
    as (user & w2 & Hv & _ & Hb1 & Ho1).
  destruct (opens_bind _ _ _ _ _ _ _ (risk_step_footprint _ _ _ _ _) eq_refl Hb1 Ho1)
    as (stopped & w3 & Hs & Hf & Hb2 & Ho2).
  exists user, w2, w3. split_and!; [done..|]. destruct stopped as [response|]; [|by apply (after_password_opens _ _ _ _ _ _ _ Hb2)].
  exfalso. destruct (risk_step_closed _ _ _ _ _ _ _ _ Hs) as [_ Hno]. injection Hb2 as <- <-.
  destruct Ho2 as [Ho2|(a & c & [= <-] & Hin & Hc)]; [done|]. by apply (Hno (Some response) c).
Qed.

(** ** The second factor *)

Section Totp.
Context {E : Env}.

Lemma second_factor_failed_closed realm userId body req : closed rs_cookies (second_factor_failed realm userId body req).
Proof.
  unfold second_factor_failed. apply (closed_bind _ [TTotpFailure; TUser]); [by apply recordTotpFailure_footprint|done|]. intros [].
  apply (closed_bind _ [TLoginEvent]); [by apply recordLoginEvent_footprint|done|]. intros [].
  apply (closed_bind _ []); [apply checkTotpRateLimit_footprint|done|]. intros t. by apply closed_no_cookie.
Qed.
End Totp.

(** C10. A second factor completes only the sign-in it belongs to: a session is opened by
    the second-factor form only when the form carries the token of its cookie, the
    challenge in the cookie is live, has attempts left and was issued in this realm, the
    user is not rate limited, a code of a factor of the very user of the challenge was
    verified, and this request claimed the challenge: it deleted the one row of it. *)
Theorem handleTotp_gate {E : Env} realm body req w r w' :
  run (handleTotp realm body req) w = (r, w') -> opens rs_cookies w r w' ->
  csrf_validate (field "_csrf" body) (cookie (csrf_cookieName (realm_name realm)) req) = true /\
  exists token challenge factor remaining w1 w2 w3,
    cookie MFA_CHALLENGE_COOKIE req = Some token /\
    run (validateMfaChallengeWithAttemptCheck token) w = (inr (Some challenge), w1) /\
    ch_realmId challenge = realm_id realm /\
    run (checkTotpRateLimit realm (ch_userId challenge)) w1 = (inr (mkTotpRateLimit false remaining None), w1) /\
    run (verifySecondFactor (ch_userId challenge) (factor_input realm token body)) w1 = (inr (Some factor), w2) /\
    run (consumeMfaChallenge token) w2 = (inr true, w3) /\
    length (List.filter (is_challenge token) (rows TPendingAction w2)) = 1%nat /\
    rows TPendingAction w3 = List.filter (fun a => negb (is_challenge token a)) (rows TPendingAction w2).
Proof.
  unfold handleTotp. intros Hr Ho.
  destruct (opens_bind _ [] _ _ _ _ _ (validateCsrf_footprint _ _ _ _) eq_refl Hr Ho) as ([] & w0 & Hc & _ & Hr1 & Ho1).
  apply run_validateCsrf_any in Hc as [-> Hc]. split; [by apply Hc|]. clear Hr Ho Hc. cbv zeta in Hr1.
  destruct (cookie MFA_CHALLENGE_COOKIE req) as [token|] eqn:Htok.
  2:{ exfalso. refine (closed_not_opens _ _ _ _ _ _ Hr1 Ho1). by apply closed_no_cookie. }
  change (Some token ?? EmptyString) with token in Hr1. destruct (token === EmptyString).
  { exfalso. refine (closed_not_opens _ _ _ _ _ _ Hr1 Ho1). by apply closed_no_cookie. }
  destruct (opens_bind _ [TPendingAction] _ _ _ _ _ (validateAttempt_footprint [TPendingAction] _ eq_refl) eq_refl Hr1 Ho1)
    as (challenge & w1 & Hv & _ & Hr2 & Ho2).
  destruct challenge as [challenge|].
  2:{ exfalso. refine (closed_not_opens _ _ _ _ _ _ Hr2 Ho2). by apply closed_no_cookie. }
  destruct (bool_decide_reflect (ch_realmId challenge = realm_id realm)) as [Hrealm|Hrealm].
  2:{ exfalso. refine (closed_not_opens _ _ _ _ _ _ Hr2 Ho2). by apply closed_no_cookie. }
  simpl negb in Hr2. cbv iota in Hr2.
  destruct (opens_bind _ [] _ _ _ _ _ (checkTotpRateLimit_footprint _ _ _) eq_refl Hr2 Ho2) as (limit & w2 & Hl & _ & Hr3 & Ho3).
  destruct (trl_blocked limit) eqn:Hb.
  { exfalso. refine (closed_not_opens _ _ _ _ _ _ Hr3 Ho3). by apply closed_no_cookie. }
  assert (w2 = w1 /\ exists n, limit = mkTotpRateLimit false n None) as [-> [n ->]].
  { unfold checkTotpRateLimit in Hl. destruct (negb _); [injection Hl as <- <-; eauto|].
    apply run_bind_inr in Hl as (now & w3 & Hn & Hl). run_stmt_inv Hn. cbv zeta in Hl.
    apply run_bind_inr in Hl as (k & w3 & Hk & Hl). run_stmt_inv Hk. destruct (_ <=? _); [|injection Hl as <- <-; eauto].
    apply run_bind_inr in Hl as (l & w3 & Hk2 & Hl). run_stmt_inv Hk2. exfalso.
    destruct l as [|f l]; [injection Hl as <- _; done|]. apply run_bind_inr in Hl as (t & w3 & Hk3 & Hl). run_stmt_inv Hk3.
    by injection Hl as <- _. }
  destruct (opens_bind _ [TUsedTotpCode; TRecoveryCode; TOtpAttempt] _ _ _ _ _ (verifySecondFactor_footprint [TUsedTotpCode; TRecoveryCode; TOtpAttempt] _ _ eq_refl) eq_refl Hr3 Ho3)
    as (factor & w3 & Hf & _ & Hr4 & Ho4).
  destruct factor as [factor|].
  2:{ exfalso. by apply (closed_not_opens _ _ _ _ _ (second_factor_failed_closed _ _ _ _) Hr4). }
  unfold second_factor_verified in Hr4.
  destruct (opens_bind _ [TPendingAction] _ _ _ _ _ (consumeMfaChallenge_footprint [TPendingAction] _ eq_refl) eq_refl Hr4 Ho4)
    as (claimed & w4 & Hcl & _ & Hr5 & Ho5).
  destruct claimed.
  2:{ exfalso. refine (closed_not_opens _ _ _ _ _ _ Hr5 Ho5). by apply closed_no_cookie. }
  exists token, challenge, factor, n, w1, w3, w4. split_and!; try done.
  all: unfold consumeMfaChallenge in Hcl; apply run_bind_inr in Hcl as (k & w5 & Hd & Hcl); run_stmt_inv Hd.
  - injection Hcl as Hk _. apply Z.eqb_eq in Hk. rewrite Hd in Hk. by apply Nat2Z.inj.
  - injection Hcl as _ <-. unfold rows at 1. simpl. by rewrite set_table_eq.
Qed.

(** ** Passwords *)

Section Passwords.
Context {E : Env}.

Lemma run_hashPassword_inr password w hash w' :
  run (hashPassword password) w = (inr hash, w') -> hash = argon2_hash (w_draws w) password /\ w' = next_draw w.
Proof. unfold hashPassword. destruct (_ <? _)%nat; [done|]. by intros [= <- <-]. Qed.

Lemma run_store_password_inr userId hash w w' :
  run (store_password userId hash) w = (inr tt, w') ->
  (exists u, List.find (fun u => user_id u === userId) (rows TUser w) = Some u) /\
  w' = with_rows TUser (update_first (fun u => user_id u === userId) (set_new_password hash (w_now w)) (rows TUser w)) w.
Proof.
  unfold store_password. intros Hr. apply run_bind_inr in Hr as (now & w1 & Hn & Hr). run_stmt_inv Hn.
  apply run_bind_inr in Hr as (u & w1 & Hu & Hr). injection Hr as <-. run_stmt_inv Hu. split; [by eexists|done].
Qed.

Lemma run_matches_any hashes password w r w' : run (matches_any hashes password) w = (r, w') -> w' = w.
Proof.
  revert w. induction hashes as [|h hashes IH]; intros w Hr; cbn [matches_any] in Hr; [by injection Hr as _ <-|].
  assert (Hv : forall r w', run (verifyPassword h password) w = (r, w') -> w' = w).
  { unfold verifyPassword. intros r1 w1. destruct (_ <? _)%nat; [by intros [= _ <-]|]. destruct (argon2_verify _ _); by intros [= _ <-]. }
  apply run_bind_cases in Hr as [(e & Hr & ->)|(b & w1 & Hr & Hk)]; [by apply Hv in Hr|].
  apply Hv in Hr as ->. destruct b; [by injection Hk as _ <-|by apply IH].
Qed.
Lemma run_checkHistory_any u rm password n w r w' : run (checkHistory u rm password n) w = (r, w') -> w' = w.
Proof.
  unfold checkHistory. destruct (n <=? 0); [by intros [= _ <-]|]. intros Hr.
  apply run_bind_cases in Hr as [(e & Hr & ->)|(l & w1 & Hr & Hk)]; apply run_query_any in Hr as ->; [done|].
  by apply run_matches_any in Hk.
Qed.
End Passwords.

Definition reset_done (realm : Realm) : Response :=
  redirect realm "/login" [("info", "Your password has been reset. You can now sign in.")].

(** C16. A reset link changes one password, once: a password-reset request that is answered
    either changes no account, or its form carried the token of its cookie, two equal
    passwords that satisfy the realm's policy and a token that was stored for
    [password_reset] and had not expired; then exactly the account of that token has the
    new hash and the time of the change, no row of that token is left, and nothing but
    accounts, tokens, password history and events has changed: sessions and refresh
    tokens issued before stay as they were. *)
Theorem handleResetPassword_spec {E : Env} realm body req w resp w' :
  NoDup (map vt_id (rows TVerificationToken w)) -> NoDup (map vt_tokenHash (rows TVerificationToken w)) ->
  run (handleResetPassword realm body req) w = (inr resp, w') ->
  (rows TUser w' = rows TUser w /\ resp <> reset_done realm) \/
  (resp = reset_done realm /\ frame [TUser; TVerificationToken; TPasswordHistory; TLoginEvent] w w' /\
   csrf_validate (field "_csrf" body) (cookie (csrf_cookieName (realm_name realm)) req) = true /\
   exists token password t,
     field "token" body = Some token /\ field "password" body = Some password /\ field "confirmPassword" body = Some password /\
     (validate realm password).1 = true /\
     t ∈ rows TVerificationToken w /\ vt_tokenHash t = sha256 token /\ vt_type t = "password_reset" /\
     w_now w <= vt_expiresAt t /\
     (forall x, x ∈ rows TVerificationToken w' -> vt_tokenHash x <> sha256 token) /\
     rows TUser w' = update_first (fun u => user_id u === vt_userId t)
                       (set_new_password (argon2_hash (w_draws w) password) (w_now w)) (rows TUser w)).
Proof.
  intros Hid Hh Hr. unfold handleResetPassword in Hr.
  apply run_bind_inr in Hr as ([] & w0 & Hc & Hr). apply run_validateCsrf_any in Hc as [-> Hc]. cbv zeta in Hr.
  destruct (bool_decide_reflect (field "token" body ?? EmptyString = EmptyString)) as [He|Ht];
    [left; injection Hr as <- <-; by split|].
  destruct (bool_decide_reflect (field "password" body ?? EmptyString = EmptyString)) as [He|Hp];
    [left; injection Hr as <- <-; by split|].
  destruct (field "token" body) as [token|] eqn:Htok; [|done]. destruct (field "password" body) as [password|] eqn:Hpw; [|done].
  change (Some token ?? EmptyString) with token in *. change (Some password ?? EmptyString) with password in *.
  change (false || false) with false in Hr. cbv iota in Hr. destruct (bool_decide_reflect (Some password = field "confirmPassword" body)) as [Hconf|Hconf];
    [|left; injection Hr as <- <-; by split].
  change (negb true) with false in Hr. cbv iota in Hr. destruct (validate realm password).1 eqn:Hval;
    [|left; injection Hr as <- <-; by split].
  change (negb true) with false in Hr. cbv iota in Hr. apply run_bind_inr in Hr as (result & w1 & Hv & Hr).
  pose proof (run_frame [TVerificationToken] _ _ _ _ ltac:(by apply validateToken_footprint) Hv) as Hf1.
  destruct result as [userId|]; [|left; injection Hr as <- <-; split; [by apply (frame_rows _ _ _ TUser Hf1)|done]].
  pose proof Hv as Hv'. apply run_validateToken_inr in Hv'.
  destruct (List.find _ _) as [t|] eqn:Hfind; [|by destruct Hv'].
  apply find_elem in Hfind as [Hin Hhash%bool_decide_eq_true]. destruct Hv' as (Hiff & [?|[= ->]] & Hw1); [done|].
  destruct (proj1 Hiff eq_refl) as [Hty Hexp].
  apply run_bind_inr in Hr as (hash & w2 & Hhp & Hr). apply run_hashPassword_inr in Hhp as [-> ->].
  apply run_bind_inr in Hr as ([] & w3 & Hsp & Hr). apply run_store_password_inr in Hsp as (_ & Hw3).
  right. apply run_bind_inr in Hr as (user & w4 & Hfu & Hr). run_stmt_inv Hfu. clear Hfu.
  apply run_bind_inr in Hr as ([] & w4 & Hhist & Hr). apply run_bind_inr in Hr as ([] & w5 & Hev & Hr).
  injection Hr as <- <-. split; [done|].
  apply (run_frame [TPasswordHistory; TLoginEvent]) in Hhist;
    [|destruct user; [by apply recordHistory_footprint|exact I]].
  apply (run_frame [TPasswordHistory; TLoginEvent]) in Hev; [|by apply recordLoginEvent_footprint].
  pose proof (transitivity Hhist Hev) as Hrest. clear Hhist Hev.
  assert (Hu : rows TUser w5 = update_first (fun u => user_id u === vt_userId t)
                 (set_new_password (argon2_hash (w_draws w) password) (w_now w)) (rows TUser w)).
  { rewrite (frame_rows _ _ _ TUser Hrest) by done. rewrite Hw3, rows_with_rows_eq, Hw1. done. }
  assert (Hvt : rows TVerificationToken w5 = rows TVerificationToken w1).
  { rewrite (frame_rows _ _ _ TVerificationToken Hrest) by done. rewrite Hw3. by rewrite rows_with_rows_ne. }
  split.
  { assert (frame [TUser; TVerificationToken; TPasswordHistory; TLoginEvent] w1 w5) as H2.
    { etransitivity; [|eapply frame_mono; [|exact Hrest]; done].
      etransitivity; [|rewrite Hw3; eapply frame_mono; [|apply frame_with_rows]; done].
      split; [done|]. by repeat split. }
    etransitivity; [eapply frame_mono; [|exact Hf1]; done|exact H2]. }
  split; [by apply Hc|]. exists token, password, t. split_and!; try done.
  intros x Hx. rewrite Hvt, Hw1, rows_with_rows_eq in Hx. apply (removed_key vt_id _ _ _ Hid Hin) in Hx as [Hx Hne].
  intros Heq. apply Hne. f_equal. apply (NoDup_map_inj vt_tokenHash (rows TVerificationToken w)); [done..|congruence].
Qed.

Definition change_done (realm : Realm) : Response :=
  redirect realm "/login" [("info", "Password changed successfully. You can now sign in.")].

(** The forced change of a password needs the token of the sign-in step and the current
    password: a request that is answered either changes no account, or its token was
    stored for [change_password] and had not expired, the current password verifies
    against the hash of the account of that token, the new one was typed twice and
    satisfies the policy; then exactly that account has the new hash. *)
Theorem handleChangePassword_spec {E : Env} realm body req w resp w' :
  run (handleChangePassword realm body req) w = (inr resp, w') ->
  (rows TUser w' = rows TUser w /\ resp <> change_done realm) \/
  (resp = change_done realm /\
   frame [TUser; TVerificationToken; TPasswordHistory] w w' /\
   exists t u hash,
     t ∈ rows TVerificationToken w /\ vt_tokenHash t = sha256 (field "token" body ?? EmptyString) /\
     vt_type t = "change_password" /\ w_now w <= vt_expiresAt t /\
     u ∈ rows TUser w /\ user_id u = vt_userId t /\ user_passwordHash u = Some hash /\
     argon2_verify hash (field "currentPassword" body ?? EmptyString) = Some true /\
     field "newPassword" body = field "confirmPassword" body /\
     (validate realm (field "newPassword" body ?? EmptyString)).1 = true /\
     rows TUser w' = update_first (fun u => user_id u === vt_userId t)
       (set_new_password (argon2_hash (w_draws w) (field "newPassword" body ?? EmptyString)) (w_now w)) (rows TUser w)).
Proof.
  intros Hr. unfold handleChangePassword in Hr.
  apply run_bind_inr in Hr as ([] & w0 & Hc & Hr). apply run_validateCsrf_any in Hc as [-> Hc]. cbv zeta in Hr.
  set (text k := field k body ?? EmptyString) in *. destruct (_ || _ || _); [left; injection Hr as <- <-; by split|].
  destruct (bool_decide_reflect (field "newPassword" body = field "confirmPassword" body)) as [Hconf|];
    [|left; injection Hr as <- <-; by split].
  change (negb true) with false in Hr. cbv iota in Hr.
  apply run_bind_inr in Hr as (record & w1 & Hf & Hr). run_stmt_inv Hf.
  apply run_bind_inr in Hr as (now & w1 & Hn & Hr). run_stmt_inv Hn.
  destruct record as [t|]; [|left; injection Hr as <- <-; by split]. symmetry in Hf.
  apply find_elem in Hf as [Hin Hhash%bool_decide_eq_true].
  destruct (bool_decide_reflect (vt_type t = "change_password")) as [Hty|]; [|left; injection Hr as <- <-; by split].
  cbn [fst snd] in Hr. destruct (Z.ltb_spec (vt_expiresAt t) (w_now w)) as [|Hexp]; [left; injection Hr as <- <-; by split|].
  change (negb true || false) with false in Hr. cbv iota in Hr.
  apply run_bind_inr in Hr as (user & w1 & Hu & Hr). run_stmt_inv Hu.
  destruct user as [u|]; [|left; injection Hr as <- <-; by split]. symmetry in Hu.
  apply find_elem in Hu as [Huin Huid%bool_decide_eq_true].
  destruct (truthy (user_passwordHash u)) eqn:Hth; [|left; injection Hr as <- <-; by split].
  apply truthy_true in Hth as (hash & Hph & _). rewrite Hph in Hr. change (Some hash ?? EmptyString) with hash in Hr.
  change (negb true) with false in Hr. cbv iota in Hr.
  apply run_bind_inr in Hr as (valid & w1 & Hv & Hr). apply run_verifyPassword_inr in Hv as [-> Hv].
  destruct valid; [|left; injection Hr as <- <-; by split]. destruct (Hv eq_refl) as [Hargon _].
  change (negb true) with false in Hr. cbv iota in Hr. unfold change_to in Hr. cbv zeta in Hr.
  destruct (validate realm (field "newPassword" body ?? EmptyString)).1 eqn:Hval; [|left; injection Hr as <- <-; by split].
  change (negb true) with false in Hr. cbv iota in Hr.
  apply run_bind_inr in Hr as (inHistory & w1 & Hh & Hr).
  assert (w1 = w) as ->.
  { destruct (0 <? realm_passwordHistoryCount realm); [|by injection Hh as _ <-]. by apply run_checkHistory_any in Hh. }
  destruct inHistory; [left; injection Hr as <- <-; by split|].
  apply run_bind_inr in Hr as (nh & w2 & Hhp & Hr). apply run_hashPassword_inr in Hhp as [-> ->].
  apply run_bind_inr in Hr as ([] & w3 & Hsp & Hr). apply run_store_password_inr in Hsp as (_ & Hw3).
  apply run_bind_inr in Hr as ([] & w4 & Hhist & Hr). apply run_bind_inr in Hr as (x & w5 & Hd & Hr).
  injection Hr as <- <-. right. split; [done|].
  apply (run_frame [TPasswordHistory; TVerificationToken]) in Hhist; [|by apply recordHistory_footprint].
  apply (run_frame [TPasswordHistory; TVerificationToken]) in Hd; [|footprint].
  pose proof (transitivity Hhist Hd) as Hrest. clear Hhist Hd.
  split.
  { etransitivity; [|eapply frame_mono; [|exact Hrest]; done]. etransitivity; [|rewrite Hw3; eapply frame_mono; [|apply frame_with_rows]; done].
    split; [done|]. by repeat split. }
  exists t, u, hash. split_and!; try done.
  rewrite (frame_rows _ _ _ TUser Hrest) by done. rewrite Hw3, rows_with_rows_eq, <- Huid. done.
Qed.

(** ** Asking for a reset link *)

Definition same_outbox (w w' : World) : Prop := w_outbox w' = w_outbox w.
#[export] Instance same_outbox_preorder : PreOrder same_outbox.
Proof. split; [done|]. intros a b c H1 H2. unfold same_outbox in *. congruence. Qed.

Section Outbox.
Context {E : Env}.

Lemma prisma_outbox {B} (f : World -> (exc + B) * World) :
  (forall w, same_outbox w (f w).2) -> stable same_outbox (prisma f).
Proof.
  intros Hf. split; [intros w; simpl; destruct (w_db_up w); [apply Hf|reflexivity]|]. by intros [e|b].
Qed.
Lemma createToken_outbox userId type secs : stable same_outbox (createToken userId type secs).
Proof.
  unfold createToken. apply stable_bind; [|intros _].
  { unfold delete_many. by apply prisma_outbox. }
  apply stable_bind; [by apply stable_atom|intros raw]. apply stable_bind; [by apply stable_atom|intros now].
  apply stable_bind; [|done]. unfold create. apply prisma_outbox. intros w. by destruct (unique_ok _ _ _).
Qed.

Lemma run_mail_link_outbox realm userId email type path template variable key secs w r w' :
  run (mail_link realm userId email type path template variable key secs) w = (r, w') ->
  w_outbox w' = w_outbox w \/ exists m, w_outbox w' = w_outbox w ++ [m] /\ mail_to m = email.
Proof.
  unfold mail_link. intros Hr. apply run_bind_any in Hr as [[e Hc]|(configured & w1 & Hc & Hr)].
  { unfold isConfigured in Hc. apply run_bind_any in Hc as [[e' Hc]|(x & w1 & Hc & Hk)]; apply run_query_any in Hc as ->;
      [by left|injection Hk as _ <-; by left]. }
  assert (w1 = w) as ->.
  { unfold isConfigured in Hc. apply run_bind_any in Hc as [[e' Hc]|(x & w2 & Hc & Hk)]; apply run_query_any in Hc as ->;
      [done|by injection Hk as _ <-]. }
  destruct (negb configured); [injection Hr as _ <-; by left|].
  apply run_bind_any in Hr as [[e Ht]|(raw & w1 & Ht & Hr)];
    pose proof (stable_run same_outbox _ w (createToken_outbox userId type secs)) as Ho; rewrite Ht in Ho; [by left|].
  unfold same_outbox in Ho. simpl in Ho. rewrite <- Ho. cbv zeta in Hr.
  apply run_bind_any in Hr as [[e Hf]|(full & w2 & Hf & Hr)]; apply run_query_any in Hf as ->; [by left|].
  destruct full as [full|]; [|injection Hr as _ <-; by left].
  apply sendEmail_sound in Hr as [->|(rm & p & _ & _ & _ & _ & ->)]; [by left|]. right. eexists. by split.
Qed.

Lemma recovered {A} (p : M A) h w a w' : run (catch p h) w = (inr a, w') ->
  exists r w1, run p w = (r, w1) /\ match r with inr b => a = b /\ w' = w1 | inl e => run (h e) w1 = (inr a, w') end.
Proof. rewrite run_catch. destruct (run p w) as [[e|b] w1]; [by eauto|]. intros [= <- <-]. by exists (inr b), w1. Qed.
End Outbox.

Definition forgot_answer (realm : Realm) : Response :=
  redirect realm "/forgot-password" [("info", "If an account with that email exists, we sent a password reset link.")].

(** Asking for a reset link reveals nothing and reaches nobody else: whatever accounts
    exist, every form that passes the CSRF check gets the same answer; at most one message
    leaves, to the address of the form, and only when an account of this realm has that
    address; nothing but verification tokens changes. *)
Theorem handleForgotPassword_uniform {E : Env} realm body req w resp w' :
  run (handleForgotPassword realm body req) w = (inr resp, w') ->
  resp = forgot_answer realm /\ frame [TVerificationToken] w w' /\
  (w_outbox w' = w_outbox w \/
   exists m email u, w_outbox w' = w_outbox w ++ [m] /\ field "email" body = Some email /\ mail_to m = email /\
     u ∈ rows TUser w /\ user_realmId u = realm_id realm /\ user_email u = Some email).
Proof.
  unfold handleForgotPassword. intros Hr.
  apply run_bind_inr in Hr as ([] & w0 & Hc & Hr). apply run_validateCsrf_any in Hc as [-> _].
  apply run_bind_inr in Hr as ([] & w1 & Hm & Hr). injection Hr as <- <-. split; [done|].
  destruct (truthy (field "email" body)) eqn:Ht.
  2:{ injection Hm as <-. split; [reflexivity|by left]. }
  apply truthy_true in Ht as (email & Hemail & _). rewrite Hemail in *. change (Some email ?? EmptyString) with email in Hm.
  cbv zeta in Hm. apply run_bind_inr in Hm as (user & w2 & Hf & Hm). run_stmt_inv Hf.
  destruct user as [u|]; [|injection Hm as <-; split; [reflexivity|by left]]. symmetry in Hf.
  apply find_elem in Hf as [Hin [Hrl%bool_decide_eq_true He%bool_decide_eq_true]%andb_true_iff].
  split.
  { eapply (run_frame [TVerificationToken]); [|exact Hm]. apply stable_catch; [by apply mail_link_footprint|]. intros. exact I. }
  apply recovered in Hm as (r & w2 & Hm & Hk).
  assert (w1 = w2) as -> by (destruct r; [by injection Hk|by destruct Hk]).
  apply run_mail_link_outbox in Hm as [->|(m & -> & Hto)]; [by left|]. right. by exists m, email, u.
Qed.

(** ** Registration *)

Section Registration.
Context {E : Env}.

Lemma rows_delete_user p w u w' :
  run (delete_one TUser p) w = (inr u, w') -> rows TUser w' = remove_first p (rows TUser w).
Proof.
  intros Hr. apply run_delete_one_inr in Hr as (_ & -> & _). unfold rows at 1. cbn [w_tables with_tables on_delete].
  unfold drop_users. cbv zeta. repeat rewrite drop_rows_ne by done. apply set_table_eq.
Qed.

Lemma remove_snoc {A} (p : A -> bool) l x :
  (forall y, y ∈ l -> p y = false) -> p x = true -> remove_first p (l ++ [x]) = l.
Proof.
  intros Hl Hx. induction l as [|y l IH]; simpl; [by rewrite Hx|].
  rewrite (Hl y) by set_solver. f_equal. apply IH. set_solver.
Qed.

Definition registered (realm : Realm) (body : fields) : Response :=
  redirect realm "/login" (("info", registration_message realm) :: pick link_keys body).

(** After the account [u] was added as the last row: it stays, or it is gone again. *)
Lemma finish_registration_users realm body rg u hash again w resp w' us :
  run (finish_registration realm body rg u hash again) w = (inr resp, w') ->
  w_db_up w = true -> rows TUser w = us ++ [u] -> (forall y, y ∈ us -> user_id y <> user_id u) ->
  rows TUser w' = us \/ (resp = registered realm body /\ rows TUser w' = us ++ [u]).
Proof.
  intros Hr Hup Hus Hfresh. unfold finish_registration in Hr.
  apply run_bind_inr in Hr as ([] & w1 & Hh & Hr).
  apply (run_frame [TPasswordHistory]) in Hh; [|destruct (_ <? _); [by apply recordHistory_footprint|exact I]].
  apply run_bind_inr in Hr as (saved & w2 & Hs & Hr). apply recovered in Hs as (r & w3 & Hs & Hk).
  assert (Hf : frame [TUserAttribute] w1 w3).
  { eapply (run_frame [TUserAttribute]); [|exact Hs]. apply stable_bind; [by apply validateAndSave_footprint|]. intros []; exact I. }
  assert (Hus3 : rows TUser w3 = us ++ [u]).
  { rewrite (frame_rows _ _ _ TUser Hf) by done. by rewrite (frame_rows _ _ _ TUser Hh) by done. }
  destruct r as [e|b].
  - apply run_bind_inr in Hk as ([] & w4 & Hd & Hk). injection Hk as <- <-.
    change (negb false) with true in Hr. cbv iota in Hr. injection Hr as _ <-. left.
    apply recovered in Hd as (r & w5 & Hd & Hk). destruct r as [e'|[]].
    + exfalso. unfold delete_one in Hd. rewrite run_bind, run_prisma in Hd.
      assert (w_db_up w3 = true) as Hup3 by (destruct Hh as (_ & _ & H1 & _), Hf as (_ & _ & H2 & _); congruence).
      rewrite Hup3, Hus3 in Hd. destruct (List.find _ _) eqn:Hfind; [done|].
      pose proof (List.find_none _ _ Hfind u) as Hn. simpl in Hn. rewrite bool_decide_eq_true_2 in Hn by done.
      discriminate Hn. apply in_or_app. right. by left.
    + destruct Hk as [_ ->]. apply run_bind_inr in Hd as (x & w6 & Hd & Hk). injection Hk as <-.
      apply rows_delete_user in Hd. rewrite Hd, Hus3. apply remove_snoc.
      * intros y Hy. apply bool_decide_eq_false. by apply Hfresh.
      * by apply bool_decide_eq_true.
  - destruct Hk as [-> ->]. apply run_bind_inr in Hs as ([] & w4 & Hs & Hk). injection Hk as <- <-.
    change (negb true) with false in Hr. cbv iota in Hr.
    apply run_bind_inr in Hr as ([] & w5 & He & Hr). apply (run_frame [TLoginEvent]) in He; [|by apply recordLoginEvent_footprint].
    apply run_bind_inr in Hr as ([] & w6 & Hm & Hr). injection Hr as <- <-. right. split; [done|].
    apply (run_frame [TVerificationToken]) in Hm;
      [|apply stable_catch; [by apply mail_link_footprint|intros; exact I]].
    rewrite (frame_rows _ _ _ TUser Hm) by done. by rewrite (frame_rows _ _ _ TUser He) by done.
Qed.
End Registration.

(** Registration creates exactly the account it promises, or none: a registration that
    is answered either leaves the accounts as they were, also when saving the custom
    attributes fails after the account was created, or the realm allows it, the form
    passes every check, no account of the realm had the name or the address, and one
    account was added: with the trimmed fields, an unverified address, the Argon2 hash of
    the password, and enabled unless an administrator must approve it. *)
Theorem handleRegistration_spec {E : Env} realm body req w resp w' :
  (forall u, u ∈ rows TUser w -> user_id u <> uuid (w_uuids w)) ->
  run (handleRegistration realm body req) w = (inr resp, w') ->
  rows TUser w' = rows TUser w \/
  (resp = registered realm body /\ realm_registrationAllowed realm = true /\
   csrf_validate (field "_csrf" body) (cookie (csrf_cookieName (realm_name realm)) req) = true /\
   let rg := registration_of body in
   form_error realm body rg = None /\
   (forall u, u ∈ rows TUser w -> user_realmId u = realm_id realm ->
      user_username u <> rg_username rg /\ user_email u <> Some (rg_email rg)) /\
   rows TUser w' = rows TUser w ++
     [new_account realm rg (argon2_hash (w_draws w) (rg_password rg)) (uuid (w_uuids w)) (w_now w)]).
Proof.
  intros Hfresh Hr. unfold handleRegistration in Hr.
  apply run_bind_inr in Hr as ([] & w0 & Hc & Hr). apply run_validateCsrf_any in Hc as [-> Hc].
  destruct (realm_registrationAllowed realm) eqn:Hallowed; [|left; by injection Hr as _ <-].
  change (negb true) with false in Hr. cbv iota zeta in Hr.
  destruct (form_error realm body (registration_of body)) as [e|] eqn:Hform; [left; by injection Hr as _ <-|].
  apply run_bind_inr in Hr as (attrs & w1 & Ha & Hr). unfold getRegistrationAttributes in Ha. run_stmt_inv Ha.
  destruct (missing_attribute body attrs); [left; by injection Hr as _ <-|].
  apply run_bind_inr in Hr as (byName & w1 & Hn & Hr). run_stmt_inv Hn.
  apply run_bind_inr in Hr as (byEmail & w1 & He & Hr). run_stmt_inv He.
  destruct byName as [?|]; [left; by injection Hr as _ <-|]. destruct byEmail as [?|]; [left; by injection Hr as _ <-|].
  change (bool_decide (is_Some None) || bool_decide (is_Some None)) with false in Hr. cbv iota in Hr.
  apply run_bind_inr in Hr as (hash & w1 & Hh & Hr). apply run_hashPassword_inr in Hh as [-> ->].
  apply run_bind_inr in Hr as (user & w1 & Hu & Hr). unfold create_account in Hu.
  apply recovered in Hu as (r & w2 & Hu & Hk). destruct r as [e|b].
  { apply run_bind_cases in Hu as [(e' & Hu & [= ->])|(x & w3 & Hu & Hx)]; [|by injection Hx].
    left. assert (user = None /\ w1 = w2) as [-> ->].
    { destruct e'; try done. repeat (destruct code as [|[[] [] [] [] [] [] [] []] code]; try done). by injection Hk as <- <-. }
    injection Hr as _ <-. unfold create in Hu. rewrite run_prisma in Hu. destruct (w_db_up (next_draw w)); [|by injection Hu as _ <-].
    destruct (unique_ok _ _ _); [done|by injection Hu as _ <-]. }
  destruct Hk as [-> ->]. apply run_bind_inr in Hu as (u & w3 & Hu & Hk). injection Hk as <- <-. run_stmt_inv Hu.
  eapply (finish_registration_users _ _ _ _ _ _ _ _ _ (rows TUser w)) in Hr; [|done| |].
  - destruct Hr as [Hr|[Hr1 Hr2]]; [by left|]. right. split; [done|]. split; [done|]. split; [by apply Hc|]. split; [done|]. split.
    + intros u Hin Hrl. split; intros Heq.
      * symmetry in Hn. pose proof (List.find_none _ _ Hn u (proj1 (list_elem_of_In _ _) Hin)) as Hno.
        unfold by_username in Hno. by rewrite !bool_decide_eq_true_2 in Hno by done.
      * symmetry in He. pose proof (List.find_none _ _ He u (proj1 (list_elem_of_In _ _) Hin)) as Hno.
        unfold by_email in Hno. by rewrite !bool_decide_eq_true_2 in Hno by done.
    + exact Hr2.
  - by rewrite rows_with_rows_eq.
  - intros y Hy. by apply Hfresh.
Qed.

(** ** Witnesses *)

Definition csrf_body (realm : Realm) (body : fields) : fields := ("_csrf", "t") :: body.
Definition browser (realm : Realm) (cookies : fields) : Request :=
  mkRequest login_request ((csrf_cookieName (realm_name realm), "t") :: cookies).
Definition no_message : exc -> string := fun _ => "error".

Definition password_form : fields := csrf_body realm0 [("username", "alice"); ("password", "Secret123")].

Example handleLogin_gate_witness :
  exists r w', run (handleLogin (E:=test_env) no_message true realm0 password_form (browser realm0 [])) world1 = (r, w') /\
    csrf_validate (field "_csrf" password_form) (cookie (csrf_cookieName "acme") (browser realm0 [])) = true.
Proof.
  destruct (run (handleLogin (E:=test_env) no_message true realm0 password_form (browser realm0 [])) world1) as [r w'] eqn:H.
  exists r, w'. split; [reflexivity|].
  refine (proj1 (handleLogin_gate (E:=test_env) no_message true realm0 password_form (browser realm0 []) world1 r w' H _)).
  left. assert (Hw : w' = (run (handleLogin (E:=test_env) no_message true realm0 password_form (browser realm0 [])) world1).2)
    by (rewrite H; reflexivity).
  rewrite Hw. vm_compute. discriminate.
Defined.

Definition challenge_action : PendingAction :=
  mkPendingAction "pa-1" (to_hex "challenge-1") "mfa_challenge"
    (mkPendingData "user-1" "realm-1" None (Some []) (Some ["pwd"]) None None None None None None None) 0 2000000000 0.
Definition challenge_world : World := with_rows TPendingAction [challenge_action] totp_world.
Definition code_form : fields := csrf_body realm0 [("code", "123456")].

Example handleTotp_gate_witness :
  exists r w', run (handleTotp (E:=test_env) realm0 code_form (browser realm0 [(MFA_CHALLENGE_COOKIE, "challenge-1")])) challenge_world
                 = (r, w') /\ csrf_validate (Some "t") (Some "t") = true.
Proof.
  destruct (run (handleTotp (E:=test_env) realm0 code_form (browser realm0 [(MFA_CHALLENGE_COOKIE, "challenge-1")])) challenge_world)
    as [r w'] eqn:H.
  exists r, w'. split; [reflexivity|].
  refine (proj1 (handleTotp_gate (E:=test_env) realm0 code_form (browser realm0 [(MFA_CHALLENGE_COOKIE, "challenge-1")])
    challenge_world r w' H _)).
  left. assert (Hw : w' = (run (handleTotp (E:=test_env) realm0 code_form
      (browser realm0 [(MFA_CHALLENGE_COOKIE, "challenge-1")])) challenge_world).2) by (rewrite H; reflexivity).
  rewrite Hw. vm_compute. discriminate.
Defined.

Definition reset_token : VerificationToken :=
  mkVerificationToken "vt-1" (to_hex "reset-1") "user-1" "password_reset" 1000003600.
Definition reset_world : World := with_rows TVerificationToken [reset_token] world1.
Definition reset_form : fields :=
  csrf_body realm0 [("token", "reset-1"); ("password", "NewSecret9"); ("confirmPassword", "NewSecret9")].

Example handleResetPassword_spec_witness :
  exists resp w', run (handleResetPassword (E:=test_env) realm0 reset_form (browser realm0 [])) reset_world = (inr resp, w') /\
    resp = reset_done realm0.
Proof.
  destruct (ends_ok_run (handleResetPassword (E:=test_env) realm0 reset_form (browser realm0 [])) reset_world)
    as (resp & w' & H); [vm_compute; reflexivity|].
  exists resp, w'. split; [exact H|].
  destruct (handleResetPassword_spec (E:=test_env) realm0 reset_form (browser realm0 []) reset_world resp w') as [[Hu _]|[Hd _]].
  - apply (bool_decide_unpack _). vm_compute. exact I.
  - apply (bool_decide_unpack _). vm_compute. exact I.
  - exact H.
  - exfalso. assert (Hw : w' = (run (handleResetPassword (E:=test_env) realm0 reset_form (browser realm0 [])) reset_world).2)
      by (rewrite H; reflexivity). rewrite Hw in Hu. vm_compute in Hu. discriminate Hu.
  - exact Hd.
Defined.

Definition registration_form : fields :=
  csrf_body realm0 [("username", " bob "); ("email", "bob@acme.test"); ("password", "Secret123"); ("confirmPassword", "Secret123")].

Example handleRegistration_spec_witness :
  exists resp w', run (handleRegistration (E:=test_env) realm0 registration_form (browser realm0 [])) world1 = (inr resp, w') /\
    resp = registered realm0 registration_form.
Proof.
  destruct (ends_ok_run (handleRegistration (E:=test_env) realm0 registration_form (browser realm0 [])) world1)
    as (resp & w' & H); [vm_compute; reflexivity|].
  exists resp, w'. split; [exact H|].
  destruct (handleRegistration_spec (E:=test_env) realm0 registration_form (browser realm0 []) world1 resp w') as [Hu|[Hd _]].
  - intros u Hu. apply list_elem_of_singleton in Hu. rewrite Hu. discriminate.
  - exact H.
  - exfalso. assert (Hw : w' = (run (handleRegistration (E:=test_env) realm0 registration_form (browser realm0 [])) world1).2)
      by (rewrite H; reflexivity). rewrite Hw in Hu. vm_compute in Hu. discriminate Hu.
  - exact Hd.
Defined.

Definition forgot_form : fields := csrf_body realm0 [("email", "alice@acme.test")].
Definition mail_realm : Realm :=
  mkRealm "realm-1" "acme" (Some "Acme") 300 1800 2592000 8 true true true false 0
    true 3 900 600 0 false true 300 3 true "log" 6 300 5 3600 2 true true 60 1000 60 1000 100 2000
    true 3600 true true 0 true false [] false true None None false true 30 None
    false 50 80 (Some "smtp.acme.test") (Some 587) None None None false "smtp" None.
Definition mail_world : World := with_rows TRealm [mail_realm] world1.

Example handleForgotPassword_uniform_witness :
  exists w', run (handleForgotPassword (E:=test_env) mail_realm forgot_form (browser mail_realm [])) mail_world =
               (inr (forgot_answer mail_realm), w') /\ map mail_to (w_outbox w') = ["alice@acme.test"].
Proof.
  destruct (ends_ok_run (handleForgotPassword (E:=test_env) mail_realm forgot_form (browser mail_realm [])) mail_world)
    as (resp & w' & H); [vm_compute; reflexivity|].
  exists w'. destruct (handleForgotPassword_uniform (E:=test_env) mail_realm forgot_form (browser mail_realm []) mail_world resp w' H)
    as (Hresp & _ & _).
  split; [rewrite H, Hresp; reflexivity|].
  assert (Hw : w' = (run (handleForgotPassword (E:=test_env) mail_realm forgot_form (browser mail_realm [])) mail_world).2)
    by (rewrite H; reflexivity). rewrite Hw. vm_compute. reflexivity.
Defined.

(** ** Findings *)

(** An account disabled between the password and the code still completes: the enrolment
    path looks at [enabled], this one does not. *)
Theorem disabled_user_completes_totp :
  let w := with_rows TUser [set_enabled false user0] challenge_world in
  let '(r, w') := run (handleTotp (E:=test_env) realm0 code_form (browser realm0 [(MFA_CHALLENGE_COOKIE, "challenge-1")])) w in
  match r with inr resp => map ck_name (rs_cookies resp) = [SESSION_COOKIE] | inl _ => False end /\
  map ls_userId (rows TLoginSession w') = ["user-1"].
Proof. vm_compute. done. Qed.

(** A reset link of one realm works in another, under the policy of the other. *)
Theorem reset_link_crosses_realms :
  let lax := mkRealm "realm-2" "other" None 300 1800 2592000 1 false false false false 0
    true 3 900 600 0 false true 300 3 true "log" 6 300 5 3600 2 true true 60 1000 60 1000 100 2000
    true 3600 true true 0 true false [] false true None None false true 30 None
    false 50 80 None (Some 587) None None None false "smtp" None in
  let form := csrf_body lax [("token", "reset-1"); ("password", "x"); ("confirmPassword", "x")] in
  (validate realm0 "x").1 = false /\
  map (fun u => (user_realmId u, user_passwordHash u))
    (rows TUser (run (handleResetPassword (E:=test_env) lax form (browser lax [])) reset_world).2) =
  [("realm-1", Some "argon:x")].
Proof. vm_compute. done. Qed.

(** Without brute-force protection every wrong code is answered as if there had been too
    many, since no limit is reported as -1 attempts left. *)
Theorem wrong_code_without_protection realm userId body req w :
  realm_bruteForceEnabled realm = false -> w_db_up w = true ->
  exists w', run (second_factor_failed (E:=test_env) realm userId body req) w =
    (inr (to_totp realm (("error", TOO_MANY) :: if truthy (field "smsCode" body) then [("method", "sms")] else [])), w').
Proof.
  intros Hb Hup. unfold second_factor_failed, recordTotpFailure, checkTotpRateLimit. rewrite Hb. simpl (negb false). cbv iota.
  rewrite run_bind. cbn [run].
  match goal with |- context [run (bind (recordLoginEvent ?e) _) _] => destruct (run_recordLoginEvent (E:=test_env) e w) as [w1 He] end.
  rewrite run_bind, He. cbv beta iota. by eexists.
Qed.

(** The domain of an address is read after its first at sign: a quoted local part names
    any domain. *)
Theorem quoted_address_passes :
  email_domain "eve@acme.test@evil.test" = "acme.test" /\
  domain_allowed (mkRealm "realm-1" "acme" None 300 1800 2592000 8 true true true false 0
    true 3 900 600 0 false true 300 3 true "log" 6 300 5 3600 2 true true 60 1000 60 1000 100 2000
    true 3600 true true 0 true false ["acme.test"] false true None None false true 30 None
    false 50 80 None (Some 587) None None None false "smtp" None) "eve@acme.test@evil.test" = true.
Proof. vm_compute. done. Qed.

(** A verification link says nothing of the address it was sent to: it verifies the one the
    account has when it is opened. *)
Theorem link_verifies_another_address :
  let u := mkUser "user-1" "realm-1" "alice" (Some "new@other.test") false None None true None "argon2" None None None 0 in
  let t := mkVerificationToken "vt-1" (to_hex "sent-to-alice") "user-1" "email_verification" 1000003600 in
  let w := with_rows TUser [u] (with_rows TVerificationToken [t] world1) in
  map (fun u => (user_email u, user_emailVerified u))
    (rows TUser (run (verifyEmail (E:=test_env) realm0 (Some "sent-to-alice")) w).2) = [(Some "new@other.test", true)].
Proof. vm_compute. done. Qed.
