(* ===== verification/AdminAuth.v ===== *)
(** * AdminAuth: the administrators' sign-in and the guards of the admin API

    src/src/admin-auth (AdminAuthService, AdminAuthController) and the guards
    src/src/common/guards/admin-api-key.guard.ts and admin-roles.guard.ts.  The service keeps
    the tokens it has revoked in a map of its own ([w_adminRevokedTokens]) and in a table; an
    interval sweeps both.  Texts are compared by their bytes, and a [jti] that is not a text
    is not kept: no token the service signs has one. *)

From S2P Require Import Prelude Prog Json JsText JsonText Schema Store StoreFacts Crypto BruteForce Redis RateLimit Tenancy Testbed.
From S2P Require ServiceAccounts AuthFacts.

Definition admin_role_names : list string := ["super-admin"; "realm-admin"; "view-only"].

(** [iss], [realm_access.roles] and [sub] of a session token. *)
Record AdminUser := mkAdminUser { au_userId : option json; au_roles : list json }.
Record AdminSession := mkAdminSession { as_access_token : string; as_expires_in : Z; as_rateLimitHeaders : list (string * Z) }.

Definition api_key_user : AdminUser := mkAdminUser (Some (JStr "api-key:admin")) [JStr "super-admin"].

(** The payload a token carries, whoever signed it. *)
Definition token_payload (token : string) : option obj :=
  match js_split "."%char token with
  | [_; body; _] => match JSON_parse (from_base64url body) with Some (JObj payload) => Some payload | _ => None end
  | _ => None
  end.

(** [payload['jti']] as a key of the map and of the table. *)
Definition jti_claim (payload : obj) : option string :=
  match obj_get "jti" payload with Some (JStr jti) => Some jti | _ => None end.

Definition extractJti (token : string) : option string :=
  match token_payload token with Some payload => jti_claim payload | None => None end.

Definition roles_claim (payload : obj) : list json :=
  match obj_get "realm_access" payload with
  | Some (JObj realmAccess) => match obj_get "roles" realmAccess with Some (JArr roles) => roles | _ => [] end
  | _ => []
  end.

Definition hasRole (roles : list json) (required : string) : bool :=
  arr_includes roles (Some (JStr "super-admin")) || arr_includes roles (Some (JStr required)).

Definition is_master (r : Realm) : bool := realm_name r === "master".

(** The names of the roles a user has been given. *)
Definition role_names_at (userId : string) (w : World) : list string :=
  flat_map (fun ur =>
    if ur_userId ur === userId
    then match List.find (fun r => role_id r === ur_roleId ur) (rows TRole w) with
         | Some role => [role_name role]
         | None => []
         end
    else []) (rows TUserRole w).

Section Service.
Context {E : Env}.

Definition revoked_until (jti : string) : M (option Z) := atom (fun w => (w_adminRevokedTokens w !! jti, w)).
Definition remember_revoked (jti : string) (until : Z) : M unit :=
  atom (fun w => (tt, with_adminRevokedTokens (<[jti := until]> (w_adminRevokedTokens w)) w)).
Definition forget_revoked (now : Z) : M unit :=
  atom (fun w => (tt, with_adminRevokedTokens (filter (fun kv => now <= kv.2) (w_adminRevokedTokens w)) w)).

Definition cleanup : M unit :=
  (ms <- date_now ;;
   forget_revoked (ms / 1000) ;;;
   catch (now <- date_now ;;
          delete_many TAdminRevokedToken (fun r => rvk_expiresAt r <? now) ;;; Ret tt)
     (fun _ => Ret tt))%prog.

(** [userRole.findMany] with the roles included, and their names. *)
Definition role_names (userId : string) : M (list string) := query (role_names_at userId).

Definition find_signing_key (realmId : string) : M (option RealmSigningKey) :=
  find_latest TRealmSigningKey (fun k => (key_realmId k === realmId) && key_active k) key_createdAt.

Definition session_claims (sub : string) (roles : list string) (username : string) : obj :=
  [("iss", JStr ((process_env "BASE_URL" ?? "http://localhost:3000") +:+ "/realms/master"));
   ("sub", JStr sub); ("typ", JStr "admin"); ("realm_access", JObj [("roles", JStrs roles)]);
   ("preferred_username", JStr username)].

Definition login (username password ip : string) : M AdminSession :=
  (rlResult <- checkAdminIpLimit ip ;;
   let rateLimitHeaders := computeHeaders rlResult in
   if negb (allowed rlResult) then Throw (Store.TooManyRequests "Admin login rate limit exceeded. Please slow down.") else
   masterRealm <- find_first TRealm is_master ;;
   match masterRealm with None => Throw (Unauthorized "Admin system not initialized") | Some realm =>
   user <- find_first TUser (fun u => (user_realmId u === realm_id realm) && (user_username u === username)) ;;
   match user with None => Throw (Unauthorized "Invalid credentials") | Some u =>
   match user_passwordHash u with
   | Some (String _ _ as hash) =>
       if negb (user_enabled u) then Throw (Unauthorized "Invalid credentials") else
       lockStatus <- checkLocked realm u ;;
       if (lockStatus : bool * option Z).1 then
         Throw (Store.TooManyRequests ("Account locked due to too many failed login attempts. Locked until: " +:+
           match lockStatus.2 with Some t => ServiceAccounts.to_iso t | None => "indefinitely" end)) else
       valid <- verifyPassword hash password ;;
       if negb valid then
         recordFailure realm (user_id u) (Some ip) ;;; Throw (Unauthorized "Invalid credentials") else
       roles <- role_names (user_id u) ;;
       if negb (existsb (fun r => includes r admin_role_names) roles)
       then Throw (Unauthorized "User does not have admin access") else
       resetFailures (realm_id realm) (user_id u) ;;;
       signingKey <- find_signing_key (realm_id realm) ;;
       match signingKey with
       | None => Throw (PlainError "No signing key found for master realm")
       | Some key =>
           token <- signJwt (session_claims (user_id u) roles (user_username u)) (key_privateKey key) (key_kid key) 3600 ;;
           Ret (mkAdminSession token 3600 rateLimitHeaders)
       end
   | _ => Throw (Unauthorized "Invalid credentials")
   end end end)%prog.

Definition revokeToken (token : string) (expiresInSeconds : Z) : M unit :=
  match extractJti token with
  | Some (String _ _ as jti) =>
      (ms <- date_now ;;
       let expiresAt := ms / 1000 + expiresInSeconds in
       remember_revoked jti expiresAt ;;;
       catch (upsert TAdminRevokedToken (fun r => rvk_jti r === jti)
                (fun _ _ => mkRevokedToken jti (expiresAt * 1000)) (fun r => r) ;;; Ret tt)
         (fun _ => Ret tt))%prog
  | _ => Ret tt
  end.

Definition createAdminSession (apiKey : string) : M AdminSession :=
  match process_env "ADMIN_API_KEY" with
  | Some (String _ _ as expectedKey) =>
      if apiKey !== expectedKey then Throw (Unauthorized "Invalid API key") else
      (masterRealm <- find_first TRealm is_master ;;
       match masterRealm with None => Throw (Unauthorized "Admin system not initialized") | Some realm =>
       signingKey <- find_signing_key (realm_id realm) ;;
       match signingKey with
       | None => Throw (PlainError "No signing key found for master realm")
       | Some key =>
           token <- signJwt (session_claims "api-key:admin" ["super-admin"] "api-key") (key_privateKey key) (key_kid key) 3600 ;;
           Ret (mkAdminSession token 3600 [])
       end end)%prog
  | _ => Throw (Unauthorized "API key authentication not configured")
  end.

Definition check_revoked (jti : string) : M unit :=
  (revokedExpiry <- revoked_until jti ;;
   ms <- date_now ;;
   if match revokedExpiry with Some e => ms / 1000 <? e | None => false end
   then Throw (Unauthorized "Token has been revoked") else
   catch (record <- find_first TAdminRevokedToken (fun r => rvk_jti r === jti) ;;
          match record with
          | None => Ret tt
          | Some r =>
              ms <- date_now ;;
              if ms / 1000 <? rvk_expiresAt r / 1000 then Throw (Unauthorized "Token has been revoked") else Ret tt
          end)
     (fun err => match err with Unauthorized _ => Throw err | _ => Ret tt end))%prog.

Definition validateAdminToken (token : string) : M AdminUser :=
  (masterRealm <- find_first TRealm is_master ;;
   match masterRealm with None => Throw (Unauthorized "Admin system not initialized") | Some realm =>
   signingKey <- find_signing_key (realm_id realm) ;;
   match signingKey with None => Throw (Unauthorized "No signing key found") | Some key =>
   payload <- catch (verifyJwt token (key_publicKey key)) (fun _ => Throw (Unauthorized "Invalid admin token")) ;;
   if negb (strict_eq (obj_get "typ" payload) (Some (JStr "admin"))) then Throw (Unauthorized "Not an admin token") else
   match jti_claim payload with
   | Some (String _ _ as jti) => check_revoked jti
   | _ => Ret tt
   end ;;;
   Ret (mkAdminUser (obj_get "sub" payload) (roles_claim payload))
   end end)%prog.

(** ** The controller *)

(** What a handler sends: the session, if any; the cookie [admin_rt], set or cleared. *)
Inductive RtCookie := CookieKept | CookieSet (value : string) | CookieCleared.

Definition demo_info : option (string * string) :=
  if bool_decide (process_env "DEMO_MODE" = Some "true")
  then Some (process_env "ADMIN_USER" ?? "admin", process_env "ADMIN_PASSWORD" ?? "admin")
  else None.

Definition login_handler (username password ip : string) : M (AdminSession * RtCookie) :=
  (session <- login username password ip ;; Ret (session, CookieSet (as_access_token session)))%prog.

Definition loginWithApiKey (apiKey : string) : M (AdminSession * RtCookie) :=
  (session <- createAdminSession apiKey ;; Ret (session, CookieSet (as_access_token session)))%prog.

(** The answer, an error included, with the cookie. *)
Definition refresh (admin_rt : option string) : M ((exc + string) * RtCookie) :=
  match admin_rt with
  | Some (String _ _ as token) =>
      catch (validateAdminToken token ;;; Ret (inr token, CookieKept))
        (fun _ => Ret (inl (Unauthorized "Session expired"), CookieCleared))
  | _ => Ret (inl (Unauthorized "No session cookie"), CookieKept)
  end%prog.

Definition bearer (authorization : option string) : option string :=
  match authorization with
  | Some h => if starts_with "Bearer " h then Some (str_drop 7 h) else None
  | None => None
  end.

Definition logout (authorization admin_rt : option string) : M RtCookie :=
  (match bearer authorization with Some token => revokeToken token 3600 | None => Ret tt end ;;;
   match admin_rt with
   | Some (String _ _ as token) => catch (revokeToken token 3600) (fun _ => Ret tt)
   | _ => Ret tt
   end ;;;
   Ret CookieCleared)%prog.

(** ** The guards *)

(** What the guards read and write of a request. *)
Record AdminRequest := mkAdminRequest {
  ar_path : string; ar_authorization : option string; ar_apiKey : option string; ar_ip : string;
  ar_adminUser : option AdminUser; ar_rateLimit : option RateLimitResult
}.
Definition with_adminUser (u : AdminUser) (r : AdminRequest) : AdminRequest :=
  mkAdminRequest (ar_path r) (ar_authorization r) (ar_apiKey r) (ar_ip r) (Some u) (ar_rateLimit r).
Definition with_rateLimit (l : RateLimitResult) (r : AdminRequest) : AdminRequest :=
  mkAdminRequest (ar_path r) (ar_authorization r) (ar_apiKey r) (ar_ip r) (ar_adminUser r) (Some l).

(** The guard lets the request through or throws, with the headers it has set. *)
Record Guarded := mkGuarded { gd_error : option exc; gd_request : AdminRequest; gd_headers : list (string * Z) }.
Definition let_in (r : AdminRequest) (headers : list (string * Z)) : M Guarded := Ret (mkGuarded None r headers).
Definition refuse (e : exc) (r : AdminRequest) (headers : list (string * Z)) : M Guarded := Ret (mkGuarded (Some e) r headers).

Definition is_admin_route (path : string) : bool := (path === "/admin") || starts_with "/admin/" path.

Definition bad_credentials : exc := Unauthorized "Invalid or missing admin credentials".

Definition check_api_key (request : AdminRequest) : M Guarded :=
  match process_env "ADMIN_API_KEY", ar_apiKey request with
  | Some (String _ _ as expectedKey), Some providedApiKey =>
      (result <- match ar_rateLimit request with
                 | Some result => Ret result
                 | None => checkAdminApiKeyLimit (ar_ip request)
                 end ;;
       let request := with_rateLimit result request in
       let headers := computeHeaders result in
       if negb (allowed result)
       then refuse (Store.TooManyRequests "Admin API key rate limit exceeded. Please slow down.") request headers
       else if providedApiKey === expectedKey then let_in (with_adminUser api_key_user request) headers
       else refuse bad_credentials request headers)%prog
  | _, _ => refuse bad_credentials request []
  end.

(** AdminApiKeyGuard; [isPublic] is the metadata of the handler or of its class. *)
Definition canActivate (isPublic : bool) (request : AdminRequest) : M Guarded :=
  if isPublic then let_in request [] else
  if negb (is_admin_route (ar_path request)) then let_in request [] else
  match bearer (ar_authorization request) with
  | Some token =>
      (adminUser <- catch (u <- validateAdminToken token ;; Ret (Some u)) (fun _ => Ret None) ;;
       match adminUser with
       | Some u => let_in (with_adminUser u request) []
       | None => check_api_key request
       end)%prog
  | None => check_api_key request
  end.

(** AdminRolesGuard; [None] for a handler without the decorator. *)
Definition roles_canActivate (options : option (list string * bool)) (request : AdminRequest) : exc + unit :=
  match options with
  | None | Some ([], _) => inr tt
  | Some (roles, requireAll) =>
      match ar_adminUser request with
      | None => inl (Forbidden "No admin roles found")
      | Some u =>
          if requireAll then
            if forallb (hasRole (au_roles u)) roles then inr tt
            else inl (Forbidden ("Insufficient permissions. Required roles: " +:+ js_join ", " roles))
          else
            if existsb (hasRole (au_roles u)) roles then inr tt
            else inl (Forbidden ("Insufficient permissions. Required at least one of: " +:+ js_join ", " roles))
      end
  end.

Definition getMe (request : AdminRequest) : exc + AdminUser :=
  match ar_adminUser request with
  | None => inl (Unauthorized "Not authenticated")
  | Some u => inr u
  end.

(** An endpoint behind both guards. *)
Definition admin_endpoint {A} (options : option (list string * bool)) (handler : AdminRequest -> M A)
    (request : AdminRequest) : M A :=
  (g <- canActivate false request ;;
   match gd_error g with
   | Some e => Throw e
   | None => match roles_canActivate options (gd_request g) with
             | inl e => Throw e
             | inr _ => handler (gd_request g)
             end
   end)%prog.
End Service.

(** ** What an operation leaves alone *)

(** The revocations of the service: the map and the table. *)
Definition same_map (w w' : World) : Prop := w_adminRevokedTokens w' = w_adminRevokedTokens w.
#[export] Instance same_map_preorder : PreOrder same_map.
Proof. split; [done|]. unfold same_map. congruence. Qed.

(** Statements, commands and draws build their next world without the map. *)
Ltac same_map :=
  intros; cbv zeta;
  repeat match goal with
  | |- stable _ (bind _ _) => apply stable_bind; [|intros]
  | |- stable _ (catch _ _) => apply stable_catch; [|intros]
  | |- stable _ (transaction _) => apply (stable_transaction same_map)
  | |- stable _ (Ret _) => exact I
  | |- stable _ (Throw _) => exact I
  | |- stable _ (if ?b then _ else _) => destruct b
  | |- stable _ (match ?x with _ => _ end) => destruct x
  | |- stable _ (Atom _ _) => split; [intros ?; repeat case_match; done | intros; repeat case_match; exact I]
  | |- stable _ (?f _ _ _ _ _) => unfold f
  | |- stable _ (?f _ _ _ _) => unfold f
  | |- stable _ (?f _ _ _) => unfold f
  | |- stable _ (?f _ _) => unfold f
  | |- stable _ (?f _) => unfold f
  | |- stable _ ?f => unfold f
  end.

Section Facts.
Context {E : Env}.

Lemma check_same_map key m h : stable same_map (check key m h).
Proof. unfold check, checkWithRedis, checkWithDatabase. same_map. Qed.

Lemma login_same_map username password ip : stable same_map (login username password ip).
Proof. unfold login, checkLocked, recordFailure, resetFailures, sendLockoutNotification. same_map; apply check_same_map. Qed.
Lemma createAdminSession_same_map k : stable same_map (createAdminSession k).
Proof. same_map. Qed.

Lemma check_footprint key m h : stable (frame [TRateLimitEntry]) (check key m h).
Proof. unfold check, checkWithRedis, checkWithDatabase, redis_decr. footprint. Qed.
Lemma role_names_footprint ts u : stable (frame ts) (role_names u).
Proof. apply query_footprint. Qed.
Lemma find_signing_key_footprint ts r : stable (frame ts) (find_signing_key r).
Proof. apply find_latest_footprint. Qed.
Hint Resolve role_names_footprint find_signing_key_footprint : footprint.
Lemma login_footprint username password ip :
  stable (frame [TRateLimitEntry; TLoginFailure; TUser]) (login username password ip).
Proof.
  unfold login, checkAdminIpLimit. footprint; try (by apply recordFailure_footprint || by apply resetFailures_footprint).
  by apply (stable_frame_mono [TRateLimitEntry]), check_footprint.
Qed.

(** ** Revoked tokens stay revoked *)

(** One step of the instance, or a restart of it, or the rest of the system: time passes
    and nothing but this service touches the revocations. *)
Inductive admin_step (w w' : World) : Prop :=
| StepLogin u p ip r : run (login u p ip) w = (r, w') -> admin_step w w'
| StepApiKey k r : run (createAdminSession k) w = (r, w') -> admin_step w w'
| StepRevoke t s r : run (revokeToken t s) w = (r, w') -> admin_step w w'
| StepCleanup r : run cleanup w = (r, w') -> admin_step w w'
| StepRestart : w' = with_adminRevokedTokens ∅ w -> admin_step w w'
| StepOther : rows TAdminRevokedToken w' = rows TAdminRevokedToken w -> same_map w w' -> w_now w <= w_now w' ->
    admin_step w w'.

(** Until [exp] the table has a row for [jti] that refuses it. *)
Definition revoked_row (jti : string) (exp : Z) (w : World) : Prop :=
  w_now w < exp * 1000 ->
  exists r, List.find (fun r => rvk_jti r === jti) (rows TAdminRevokedToken w) = Some r /\ exp * 1000 <= rvk_expiresAt r.

Lemma revoked_row_same jti exp w w' :
  rows TAdminRevokedToken w' = rows TAdminRevokedToken w -> w_now w <= w_now w' ->
  revoked_row jti exp w -> revoked_row jti exp w'.
Proof. unfold revoked_row. intros -> Hle H Hlt. apply H. lia. Qed.

Lemma revoked_row_frame ts jti exp {A} (p : M A) w r w' :
  stable (frame ts) p -> includes TAdminRevokedToken ts = false -> run p w = (r, w') ->
  revoked_row jti exp w -> revoked_row jti exp w'.
Proof.
  intros Hp Ht Hr%(run_frame ts); [|done]. apply revoked_row_same.
  - exact (frame_rows _ _ _ TAdminRevokedToken Hr Ht).
  - by rewrite (frame_now _ _ _ Hr).
Qed.

(** A sweep keeps the rows that still refuse. *)
Lemma find_kept {A} (q keep : A -> bool) l x :
  List.find q l = Some x -> keep x = true -> List.find q (List.filter keep l) = Some x.
Proof.
  intros H Hx. induction l as [|a l IH]; [done|]. simpl in *. destruct (q a) eqn:Ha.
  - injection H as ->. rewrite Hx. simpl. by rewrite Ha.
  - destruct (keep a); simpl; rewrite ?Ha; auto.
Qed.

Lemma cleanup_keeps jti exp w r w' :
  run cleanup w = (r, w') -> revoked_row jti exp w -> revoked_row jti exp w'.
Proof.
  unfold cleanup, forget_revoked, delete_many, prisma. simpl. destruct (w_db_up w); simpl; intros [= _ <-] H; [|exact H].
  intros Hlt. destruct (H Hlt) as (x & Hx & Hle). exists x. split; [|done].
  apply find_kept; [exact Hx|]. simpl in *. apply negb_true_iff, Z.ltb_ge. lia.
Qed.

Lemma find_app_some {A} (p : A -> bool) l l' x : List.find p l = Some x -> List.find p (l ++ l') = Some x.
Proof. induction l as [|a l IH]; simpl; [done|]. by destruct (p a). Qed.

Lemma revokeToken_keeps jti exp t s w r w' :
  run (revokeToken t s) w = (r, w') -> revoked_row jti exp w -> revoked_row jti exp w'.
Proof.
  unfold revokeToken. destruct (extractJti t) as [[|c j]|]; try (by intros [= _ <-]). set (jti' := String c j) in *. clearbody jti'.
  unfold remember_revoked, upsert, prisma. simpl. destruct (w_db_up w); simpl; [|intros [= _ <-]; done].
  destruct (List.find _ _) as [y|] eqn:Hy; intros [= _ <-] H; intros Hlt; destruct (H Hlt) as (x & Hx & Hle); exists x; (split; [|done]).
  - rewrite rows_with_rows_eq. by rewrite update_first_same.
  - rewrite rows_with_rows_eq. by apply find_app_some.
Qed.

Lemma admin_step_keeps jti exp w w' : admin_step w w' -> revoked_row jti exp w -> revoked_row jti exp w'.
Proof.
  intros [u p ip r H|k r H|t s r H|r H| -> |Hrows _ Hnow].
  - by eapply revoked_row_frame; [apply login_footprint| |exact H].
  - eapply (revoked_row_frame []); [|done|exact H]. unfold createAdminSession. footprint.
  - by eapply revokeToken_keeps.
  - by eapply cleanup_keeps.
  - by apply revoked_row_same.
  - by apply revoked_row_same.
Qed.

Lemma admin_steps_keep jti exp w w' : rtc admin_step w w' -> revoked_row jti exp w -> revoked_row jti exp w'.
Proof. induction 1; eauto using admin_step_keeps. Qed.

(** A revoked token is refused, whatever else the world is. *)
Lemma check_revoked_refuses jti exp w :
  w_db_up w = true -> w_now w < exp * 1000 -> revoked_row jti exp w ->
  exists e, run (check_revoked jti) w = (inl e, w).
Proof.
  intros Hup Hlt (x & Hx & Hle); [done|]. unfold check_revoked, revoked_until, find_first, query, prisma. simpl.
  destruct (match w_adminRevokedTokens w !! jti with Some e => _ | None => false end); simpl; [by eexists|].
  rewrite Hup. simpl. rewrite Hx. simpl.
  assert (w_now w / 1000 <? rvk_expiresAt x / 1000 = true) as ->; [|by eexists].
  apply Z.ltb_lt. apply Z.lt_le_trans with exp; [apply Z.div_lt_upper_bound; lia | apply Z.div_le_lower_bound; lia].
Qed.

Section Jose.
(** [jwtVerify]: the payload is the one the token carries, and [exp] is in the future. *)
Context (jose_body : forall key token now payload, jose_verify key token now = Some payload -> token_payload token = Some payload)
  (jose_exp : forall key token now payload e,
     jose_verify key token now = Some payload -> obj_get "exp" payload = Some (JNum e) -> now < e * 1000).

Lemma validate_refuses token payload jti exp w :
  token_payload token = Some payload -> jti_claim payload = Some jti -> jti <> EmptyString ->
  obj_get "exp" payload = Some (JNum exp) -> revoked_row jti exp w ->
  exists e w', run (validateAdminToken token) w = (inl e, w').
Proof.
  intros Hp Hj Hne He Hrow. destruct (run (validateAdminToken token) w) as [[e|u] w'] eqn:Hr; [by eexists _, _|]. exfalso.
  unfold validateAdminToken in Hr. apply run_bind_inr in Hr as (o & w1 & Hf & Hr). apply run_query_inr in Hf as (-> & -> & Hup).
  match type of Hr with run (match ?x with _ => _ end) _ = _ => destruct x as [realm|]; [|discriminate Hr] end.
  apply run_bind_inr in Hr as (o & w1 & Hf & Hr). apply run_query_inr in Hf as (-> & -> & _).
  match type of Hr with run (match ?x with _ => _ end) _ = _ => destruct x as [key|]; [|discriminate Hr] end.
  apply run_bind_inr in Hr as (payload' & w1 & Hv & Hr). apply run_catch_rethrow in Hv; [|intros e1 w2 b w3 [=]].
  apply run_verifyJwt_inr in Hv as [-> Hv]. pose proof (jose_body _ _ _ _ Hv) as Hp'. rewrite Hp in Hp'. injection Hp' as <-.
  pose proof (jose_exp _ _ _ _ _ Hv He) as Hlt. destruct (negb _); [discriminate Hr|]. rewrite Hj in Hr. destruct jti as [|c j]; [done|].
  apply run_bind_inr in Hr as ([] & w1 & Hc & _). destruct (check_revoked_refuses _ _ _ Hup Hlt Hrow) as [e H].
  rewrite Hc in H. discriminate H.
Qed.
End Jose.

(** What [revokeToken] leaves for a token that is not revoked yet. *)
Lemma revokeToken_row token jti exp s w :
  extractJti token = Some jti -> jti <> EmptyString -> w_db_up w = true ->
  (forall r, r ∈ rows TAdminRevokedToken w -> rvk_jti r <> jti) -> exp <= w_now w / 1000 + s ->
  exists w', run (revokeToken token s) w = (inr tt, w') /\ revoked_row jti exp w'.
Proof.
  intros Hj Hne Hup Hfresh Hle. unfold revokeToken. rewrite Hj. destruct jti as [|c j]; [done|].
  set (jti := String c j) in *. unfold remember_revoked, upsert, prisma. simpl. rewrite Hup. simpl.
  change (rows TAdminRevokedToken (with_adminRevokedTokens _ w)) with (rows TAdminRevokedToken w).
  destruct (List.find (fun r : RevokedToken => rvk_jti r === jti) (rows TAdminRevokedToken w)) as [y|] eqn:Hy.
  { exfalso. apply find_elem in Hy as [Hin Hy]. apply bool_decide_eq_true in Hy. by apply (Hfresh y). }
  change (rows TAdminRevokedToken w) with (w_tables w TAdminRevokedToken) in Hy. rewrite Hy. simpl.
  eexists. split; [reflexivity|]. intros _. rewrite rows_with_rows_eq. eexists. split.
  - apply find_app_last; [|by apply bool_decide_eq_true].
    intros y Hin. apply bool_decide_eq_false. by apply Hfresh.
  - simpl. lia.
Qed.

(** A revocation does not undo another. *)
Lemma logout_row token cookie payload jti exp w r w' :
  token_payload token = Some payload -> jti_claim payload = Some jti -> jti <> EmptyString -> w_db_up w = true ->
  (forall r, r ∈ rows TAdminRevokedToken w -> rvk_jti r <> jti) -> exp <= w_now w / 1000 + 3600 ->
  run (logout (Some ("Bearer " +:+ token)) cookie) w = (r, w') -> revoked_row jti exp w'.
Proof.
  intros Hp Hj Hne Hup Hfresh Hle. unfold logout. rewrite run_bind.
  change (bearer (Some ("Bearer " +:+ token))) with (Some token). cbv iota.
  destruct (revokeToken_row token jti exp 3600 w) as (w1 & -> & H1); [by unfold extractJti; rewrite Hp|done..|].
  rewrite run_bind. destruct cookie as [[|c t]|]; [intros [= _ <-]; done| |intros [= _ <-]; done].
  rewrite run_catch. destruct (run (revokeToken (String c t) 3600) w1) as [[e|[]] w2] eqn:H2; simpl; intros [= _ <-];
    by eapply revokeToken_keeps.
Qed.
End Facts.

(** C14. A logged-out token stays dead. The logout carried it in its [Authorization]
    header, the database was up, the token has an identifier not recorded before, and it
    expires within the hour an administrator's token lives. Then, after any number of
    requests, clean-ups and restarts of the instance and of changes the rest of the system
    makes ([admin_step]: nothing else writes the revocations), the guard refuses a request to the admin API that carries the
    token and no API key, and a session cookie with it is refused. JOSE returns the body
    that was signed and checks its expiry. A logout whose write fails reports success all the
    same, and only the memory of this instance remembers it. *)
Theorem logout_is_final {E : Env}
    (jose_body : forall key token now payload, jose_verify key token now = Some payload -> token_payload token = Some payload)
    (jose_exp : forall key token now payload e,
       jose_verify key token now = Some payload -> obj_get "exp" payload = Some (JNum e) -> now < e * 1000)
    token cookie payload jti exp w r w1 w2 request :
  token_payload token = Some payload -> jti_claim payload = Some jti -> jti <> EmptyString ->
  obj_get "exp" payload = Some (JNum exp) -> exp <= w_now w / 1000 + 3600 ->
  w_db_up w = true -> (forall r, r ∈ rows TAdminRevokedToken w -> rvk_jti r <> jti) ->
  run (logout (Some ("Bearer " +:+ token)) cookie) w = (r, w1) -> rtc admin_step w1 w2 ->
  is_admin_route (ar_path request) = true -> ar_authorization request = Some ("Bearer " +:+ token) -> ar_apiKey request = None ->
  (exists w3, run (canActivate false request) w2 = (inr (mkGuarded (Some bad_credentials) request []), w3)) /\
  exists e ck w3, run (refresh (Some token)) w2 = (inr (inl e, ck), w3).
Proof.
  intros Hp Hj Hne He Hle Hup Hfresh Hlog Hsteps Hroute Hauth Hkey.
  assert (Hrow : revoked_row jti exp w2) by (eapply admin_steps_keep; [done|]; by eapply logout_row).
  destruct (validate_refuses jose_body jose_exp token payload jti exp w2) as (e & w3 & Hv); [done..|]. split.
  - exists w3. unfold canActivate. rewrite Hroute, Hauth. change (bearer (Some ("Bearer " +:+ token))) with (Some token).
    cbv [negb]. rewrite run_bind, run_catch, run_bind, Hv. simpl. unfold check_api_key. rewrite Hkey.
    by destruct (process_env "ADMIN_API_KEY") as [[|c k]|].
  - destruct token as [|c t]; [done|]. unfold refresh. rewrite run_catch, run_bind, Hv. by eexists _, _, _.
Qed.

(** ** A concrete instance *)

(** A verifier that trusts every signature and checks the dates. *)
Definition trusting_verify (key token : string) (now : Z) : option obj :=
  match token_payload token with
  | Some payload =>
      match obj_get "exp" payload with
      | Some (JNum e) => if now <? e * 1000 then Some payload else None
      | _ => Some payload
      end
  | None => None
  end.
Definition admin_env : Env := test_env_with trusting_verify.

Definition master0 : Realm :=
  mkRealm "realm-m" "master" (Some "Master") 300 1800 2592000 8 false false false false 0
    true 5 900 600 0 false false 300 5 false "none" 6 300 3 900 10 false false 60 1000 30 500 20 200 true 1800 false false
    0 true false [] false false None None false true 14 None
    false 50 80 None (Some 587) None None None false "smtp" None.
Definition admin0 : User :=
  mkUser "user-1" "realm-m" "root" None false None None true (Some "argon:Secret123") "argon2" None None None 0.
Definition key_m : RealmSigningKey := mkRealmSigningKey "realm-m" "kid-m" "pub-m" "priv-m" true 0.
Definition role_m : Role := mkRole "role-1" "realm-m" None "super-admin".

Definition admin_world : World :=
  with_rows TUserRole [mkUserRole "user-1" "role-1"]
    (with_rows TRole [role_m]
      (with_rows TRealmSigningKey [key_m] (with_rows TUser [admin0] (with_rows TRealm [master0] world0)))).

Definition admin_payload : obj :=
  [("sub", JStr "user-1"); ("typ", JStr "admin"); ("realm_access", JObj [("roles", JStrs ["super-admin"])]);
   ("exp", JNum 1003600); ("jti", JStr "jti-1")].
Definition admin_token : string := "h." +:+ to_base64url (JSON_stringify (JObj admin_payload)) +:+ ".s".
Definition admin_request : AdminRequest :=
  mkAdminRequest "/admin/realms" (Some ("Bearer " +:+ admin_token)) None "203.0.113.7" None None.

(** The token opens the API, until it is logged out; a restart does not bring it back. *)
Example logout_is_final_witness :
  (exists u w', run (canActivate (E:=admin_env) false admin_request) admin_world =
     (inr (mkGuarded None (with_adminUser u admin_request) []), w')) /\
  let w1 := (run (logout (E:=admin_env) (Some ("Bearer " +:+ admin_token)) None) admin_world).2 in
  let w2 := with_adminRevokedTokens ∅ w1 in
  (exists w3, run (canActivate (E:=admin_env) false admin_request) w2 =
     (inr (mkGuarded (Some bad_credentials) admin_request []), w3)) /\
  exists e ck w3, run (refresh (E:=admin_env) (Some admin_token)) w2 = (inr (inl e, ck), w3).
Proof.
  split; [eexists _, _; vm_compute; reflexivity|].
  refine (logout_is_final (E:=admin_env) _ _ admin_token None admin_payload "jti-1" 1003600 admin_world (inr CookieCleared)
    _ _ admin_request _ _ _ _ _ _ _ _ _ _ _ _).
  - intros key token now payload H. change (trusting_verify key token now = Some payload) in H.
    unfold trusting_verify in H. by repeat case_match; simplify_eq.
  - intros key token now payload e H He. change (trusting_verify key token now = Some payload) in H.
    unfold trusting_verify in H. repeat case_match; simplify_eq. by apply Z.ltb_lt.
  - vm_compute. reflexivity.
  - reflexivity.
  - discriminate.
  - reflexivity.
  - vm_compute. discriminate.
  - reflexivity.
  - intros r Hr. by apply not_elem_of_nil in Hr.
  - vm_compute. reflexivity.
  - apply rtc_once. by apply StepRestart.
  - reflexivity.
  - reflexivity.
  - reflexivity.
Defined.

(** ** Signing in *)

Section SignIn.
Context {E : Env}.

(** The claims of a session that is signed at [now] with the identifier [jti]. *)
Definition stamped (jti : string) (now : Z) (claims : obj) : obj :=
  obj_set "jti" (JStr jti) (obj_set "exp" (JNum (now / 1000 + 3600)) (obj_set "iat" (JNum (now / 1000)) claims)).

Lemma run_find_admin_key realmId w key w' :
  run (find_signing_key realmId) w = (inr (Some key), w') ->
  w' = w /\ key ∈ rows TRealmSigningKey w /\ key_realmId key = realmId /\ key_active key = true.
Proof.
  unfold find_signing_key. intros (H & -> & _)%run_query_inr. symmetry in H.
  apply head_Some_elem_of, elem_of_sort_by, list_elem_of_In, filter_In in H as [H Hk].
  apply andb_true_iff in Hk as [->%bool_decide_eq_true Hk]. apply list_elem_of_In in H. by split_and!.
Qed.

Lemma reset_forgets realmId userId w r w' f :
  run (resetFailures realmId userId) w = (inr r, w') -> f ∈ rows TLoginFailure w' -> of_user_in realmId userId f = false.
Proof.
  unfold resetFailures. intros Hr Hf. apply run_bind_inr in Hr as (n & w1 & (_ & -> & _)%run_delete_many_inr & Hr).
  apply run_bind_inr in Hr as (u & w2 & (x & _ & _ & -> & _)%(run_update_inr TUser) & Hr). injection Hr as <- <-.
  rewrite rows_with_rows_ne in Hf by done. unfold rows in Hf. simpl in Hf. rewrite set_table_eq in Hf.
  apply list_elem_of_In, filter_In in Hf as [_ Hf]. by apply negb_true_iff.
Qed.

(** Who holds a session from the login form: the attempt was within the rate limit of
    its address, and the name is of an enabled user of the realm master, not locked out, whose
    stored hash accepts the password and who has one of the admin roles.  The token is
    signed with an active key of that realm, for an hour, for that user and with exactly the
    role names the user has; and the user's failures are forgotten. *)
Theorem login_gate username password ip w s w' :
  run (login username password ip) w = (inr s, w') ->
  exists rl w1 realm user hash key jti,
    run (checkAdminIpLimit ip) w = (inr rl, w1) /\ allowed rl = true /\ as_rateLimitHeaders s = computeHeaders rl /\
    (realm ∈ rows TRealm w /\ realm_name realm = "master") /\
    (user ∈ rows TUser w /\ user_realmId user = realm_id realm /\ user_username user = username /\ user_enabled user = true) /\
    (realm_bruteForceEnabled realm = true -> forall t, user_lockedUntil user = Some t -> t <= w_now w) /\
    (user_passwordHash user = Some hash /\ argon2_verify hash password = Some true) /\
    (exists r, r ∈ role_names_at (user_id user) w /\ r ∈ admin_role_names) /\
    (key ∈ rows TRealmSigningKey w /\ key_realmId key = realm_id realm /\ key_active key = true) /\
    jose_sign (key_privateKey key) (key_kid key)
      (stamped jti (w_now w) (session_claims (user_id user) (role_names_at (user_id user) w) username)) =
      Some (as_access_token s) /\
    (forall f, f ∈ rows TLoginFailure w' -> of_user_in (realm_id realm) (user_id user) f = false).
Proof.
  unfold login. intros Hr. apply run_bind_inr in Hr as (rl & w1 & Hrl & Hr).
  pose proof (run_frame _ _ _ _ _ (check_footprint _ _ _) Hrl) as F1.
  pose proof (frame_rows _ _ _ TRealm F1 eq_refl) as HR. pose proof (frame_rows _ _ _ TUser F1 eq_refl) as HU.
  destruct (allowed rl) eqn:Hok; [|discriminate Hr]. change (negb true) with false in Hr. cbv iota in Hr.
  apply run_bind_inr in Hr as (o & w2 & (Ho & -> & _)%run_query_inr & Hr). destruct o as [realm|]; [|discriminate Hr].
  symmetry in Ho. apply find_elem in Ho as [Hrealm Hmaster%bool_decide_eq_true].
  apply run_bind_inr in Hr as (o & w2 & (Ho & -> & _)%run_query_inr & Hr). destruct o as [user|]; [|discriminate Hr].
  symmetry in Ho. apply find_elem in Ho as [Huser [Hur Hun]%andb_true_iff].
  apply bool_decide_eq_true in Hur, Hun. destruct (user_passwordHash user) as [[|c h]|] eqn:Hhash; [discriminate Hr| |discriminate Hr].
  set (hash := String c h) in *. clearbody hash.
  destruct (user_enabled user) eqn:Hen; [|discriminate Hr]. change (negb true) with false in Hr. cbv iota in Hr.
  apply run_bind_inr in Hr as (st & w2 & [-> Hlock]%AuthFacts.run_checkLocked_inr & Hr).
  destruct st.1; [discriminate Hr|]. specialize (Hlock eq_refl).
  apply run_bind_inr in Hr as (valid & w2 & [-> Hpw]%run_verifyPassword_inr & Hr).
  destruct valid; [|apply run_bind_inr in Hr as (x & w2 & _ & Hr); discriminate Hr].
  destruct (Hpw eq_refl) as [Hargon _]. change (negb true) with false in Hr. cbv iota in Hr.
  apply run_bind_inr in Hr as (roles & w2 & (Hroles & -> & _)%run_query_inr & Hr).
  destruct (existsb _ roles) eqn:Hadmin; [|discriminate Hr]. change (negb true) with false in Hr. cbv iota in Hr.
  apply run_bind_inr in Hr as ([] & w2 & Hreset & Hr).
  pose proof (run_frame _ _ _ _ _ (resetFailures_footprint [TLoginFailure; TUser] _ _ eq_refl) Hreset) as F2.
  apply run_bind_inr in Hr as (o & w3 & Hkey & Hr). destruct o as [key|]; [|discriminate Hr].
  apply run_find_admin_key in Hkey as (-> & Hkey & Hkr & Hka).
  apply run_bind_inr in Hr as (token & w3 & [-> Hjwt]%run_signJwt_inr & Hr). injection Hr as <- <-.
  exists rl, w1, realm, user, hash, key, (uuid (w_uuids w2)). rewrite HR in Hrealm. rewrite HU in Huser.
  assert (Hnow : w_now w1 = w_now w) by apply (frame_now _ _ _ F1).
  assert (Hnow2 : w_now w2 = w_now w) by (rewrite (frame_now _ _ _ F2); exact Hnow).
  assert (Hsame : role_names_at (user_id user) w1 = role_names_at (user_id user) w).
  { unfold role_names_at. by rewrite (frame_rows _ _ _ TUserRole F1 eq_refl), (frame_rows _ _ _ TRole F1 eq_refl). }
  rewrite Hsame in Hroles. subst roles. rewrite Hnow in Hlock. rewrite Hnow2 in Hjwt.
  rewrite (frame_rows _ _ _ TRealmSigningKey F2 eq_refl), (frame_rows _ _ _ TRealmSigningKey F1 eq_refl) in Hkey.
  split_and!; try done.
  - apply existsb_exists in Hadmin as (r & Hin & Hadm). exists r. split; [by apply list_elem_of_In|].
    by apply bool_decide_eq_true in Hadm.
  - by rewrite <- Hun.
  - intros f Hf. change (rows TLoginFailure (next_uuid w2)) with (rows TLoginFailure w2) in Hf.
    by apply (reset_forgets _ _ _ _ _ _ Hreset).
Qed.

(** ** Entering the API *)

(** The token is one of an administrator now: signed by an active key of the realm master,
    of the admin type, not revoked in the map nor in the table. *)
Definition valid_session (token : string) (u : AdminUser) (w : World) : Prop :=
  exists realm key payload,
    (realm ∈ rows TRealm w /\ realm_name realm = "master") /\
    (key ∈ rows TRealmSigningKey w /\ key_realmId key = realm_id realm /\ key_active key = true) /\
    jose_verify (key_publicKey key) token (w_now w) = Some payload /\
    obj_get "typ" payload = Some (JStr "admin") /\ u = mkAdminUser (obj_get "sub" payload) (roles_claim payload) /\
    forall jti, jti_claim payload = Some jti -> jti <> EmptyString ->
      (forall until, w_adminRevokedTokens w !! jti = Some until -> until <= w_now w / 1000) /\
      (forall r, List.find (fun r => rvk_jti r === jti) (rows TAdminRevokedToken w) = Some r ->
         rvk_expiresAt r / 1000 <= w_now w / 1000).

Lemma run_check_revoked_inr jti w r w' :
  w_db_up w = true -> run (check_revoked jti) w = (inr r, w') ->
  w' = w /\ (forall until, w_adminRevokedTokens w !! jti = Some until -> until <= w_now w / 1000) /\
  (forall r, List.find (fun r => rvk_jti r === jti) (rows TAdminRevokedToken w) = Some r ->
     rvk_expiresAt r / 1000 <= w_now w / 1000).
Proof.
  intros Hup. unfold check_revoked, revoked_until, find_first, query, prisma. simpl.
  destruct (w_adminRevokedTokens w !! jti) as [e|] eqn:He; [destruct (Z.ltb_spec (w_now w / 1000) e)|]; simpl; [done|..];
    rewrite Hup; simpl.
  all: destruct (List.find _ _) as [x|] eqn:Hx; simpl; [destruct (Z.ltb_spec (w_now w / 1000) (rvk_expiresAt x / 1000))|]; simpl; try done.
  all: intros [= _ <-]; split_and!; try done; intros; simplify_eq; lia.
Qed.

Lemma run_validateAdminToken_inr token w u w' :
  run (validateAdminToken token) w = (inr u, w') -> w' = w /\ valid_session token u w.
Proof.
  unfold validateAdminToken. intros Hr. apply run_bind_inr in Hr as (o & w1 & (Ho & -> & Hup)%run_query_inr & Hr).
  destruct o as [realm|]; [|discriminate Hr]. symmetry in Ho. apply find_elem in Ho as [Hrealm Hmaster%bool_decide_eq_true].
  apply run_bind_inr in Hr as (o & w1 & Hk & Hr). destruct o as [key|]; [|apply run_query_inr in Hk as (_ & -> & _); discriminate Hr].
  apply run_find_admin_key in Hk as (-> & Hk & Hkr & Hka).
  apply run_bind_inr in Hr as (payload & w1 & Hv & Hr). apply run_catch_rethrow in Hv; [|intros e1 w2 b w3 [=]].
  apply run_verifyJwt_inr in Hv as [-> Hv].
  destruct (strict_eq (obj_get "typ" payload) (Some (JStr "admin"))) eqn:Htyp; [|discriminate Hr].
  change (negb true) with false in Hr. cbv iota in Hr.
  assert (Ht : obj_get "typ" payload = Some (JStr "admin")).
  { destruct (obj_get "typ" payload) as [[]|]; try discriminate Htyp. by apply bool_decide_eq_true in Htyp as ->. }
  apply run_bind_inr in Hr as ([] & w1 & Hc & Hr). injection Hr as <- <-.
  assert (Hjti : w1 = w /\ forall jti, jti_claim payload = Some jti -> jti <> EmptyString ->
      (forall until, w_adminRevokedTokens w !! jti = Some until -> until <= w_now w / 1000) /\
      (forall r, List.find (fun r => rvk_jti r === jti) (rows TAdminRevokedToken w) = Some r ->
         rvk_expiresAt r / 1000 <= w_now w / 1000)).
  { destruct (jti_claim payload) as [[|c j]|].
    - injection Hc as <-. split; [done|]. by intros jti [= <-].
    - apply run_check_revoked_inr in Hc as (-> & H1 & H2); [|done]. split; [done|]. by intros jti [= <-] _.
    - injection Hc as <-. by split. }
  destruct Hjti as [-> Hjti]. split; [done|]. by exists realm, key, payload.
Qed.

Lemma roles_canActivate_inr options g u :
  roles_canActivate options g = inr tt -> ar_adminUser g = Some u ->
  forall roles requireAll, options = Some (roles, requireAll) -> roles <> [] ->
    if requireAll : bool then forall r, r ∈ roles -> hasRole (au_roles u) r = true
    else exists r, r ∈ roles /\ hasRole (au_roles u) r = true.
Proof.
  intros H Hu roles all -> Hne. unfold roles_canActivate in H. destruct roles as [|r0 roles]; [done|]. rewrite Hu in H.
  destruct all.
  - destruct (forallb _ _) eqn:Hf; [|done]. rewrite forallb_forall in Hf. intros r Hr. by apply Hf, list_elem_of_In.
  - destruct (existsb _ _) eqn:Hf; [|done]. apply existsb_exists in Hf as (r & Hr & H1). exists r.
    split; [by apply list_elem_of_In | done].
Qed.

Lemma check_api_key_admits request g w w' :
  run (check_api_key request) w = (inr g, w') -> gd_error g = None ->
  ar_adminUser (gd_request g) = Some api_key_user /\
  (exists key, key <> EmptyString /\ process_env "ADMIN_API_KEY" = Some key /\ ar_apiKey request = Some key) /\
  exists rl, ar_rateLimit (gd_request g) = Some rl /\ allowed rl = true.
Proof.
  unfold check_api_key. intros Hr Hg. destruct (process_env "ADMIN_API_KEY") as [[|c k]|]; try by injection Hr as <- _.
  destruct (ar_apiKey request) as [provided|]; [|by injection Hr as <- _].
  apply run_bind_inr in Hr as (rl & w1 & _ & Hr). destruct (allowed rl) eqn:Hrl; [|by injection Hr as <- _].
  change (negb true) with false in Hr. cbv iota in Hr. destruct (bool_decide (provided = String c k)) eqn:Hk; [|by injection Hr as <- _].
  apply bool_decide_eq_true in Hk as ->. injection Hr as <- _. split_and!; [done|by exists (String c k)|by exists rl].
Qed.

(** C13. A handler behind the guards, on a path of the admin API, runs only for an
    administrator: with a bearer token that is a valid session, or with the configured API
    key under its rate limit; the user it sees is that one; and when the handler asks for
    roles the user has one of them, or all of them, super-admins having every role. *)
Theorem admin_endpoint_gate {A} options (handler : AdminRequest -> M A) request w a w' :
  is_admin_route (ar_path request) = true ->
  run (admin_endpoint options handler request) w = (inr a, w') ->
  exists u seen w1,
    run (handler seen) w1 = (inr a, w') /\ ar_adminUser seen = Some u /\
    ((exists token, bearer (ar_authorization request) = Some token /\ valid_session token u w) \/
     (u = api_key_user /\ (exists key, key <> EmptyString /\ process_env "ADMIN_API_KEY" = Some key /\ ar_apiKey request = Some key) /\
      exists rl, ar_rateLimit seen = Some rl /\ allowed rl = true)) /\
    (forall roles requireAll, options = Some (roles, requireAll) -> roles <> [] ->
       if requireAll : bool then forall r, r ∈ roles -> hasRole (au_roles u) r = true
       else exists r, r ∈ roles /\ hasRole (au_roles u) r = true).
Proof.
  intros Hroute Hr. unfold admin_endpoint in Hr. apply run_bind_inr in Hr as (g & w1 & Hg & Hr).
  destruct (gd_error g) eqn:Hge; [discriminate Hr|].
  destruct (roles_canActivate options (gd_request g)) as [e|[]] eqn:Hroles; [discriminate Hr|].
  assert (Hwho : exists u, ar_adminUser (gd_request g) = Some u /\
    ((exists token, bearer (ar_authorization request) = Some token /\ valid_session token u w) \/
     (u = api_key_user /\ (exists key, key <> EmptyString /\ process_env "ADMIN_API_KEY" = Some key /\ ar_apiKey request = Some key) /\
      exists rl, ar_rateLimit (gd_request g) = Some rl /\ allowed rl = true))).
  { unfold canActivate in Hg. rewrite Hroute in Hg. change (negb true) with false in Hg. cbv iota in Hg.
    destruct (bearer (ar_authorization request)) as [token|] eqn:Hb.
    - apply run_bind_inr in Hg as (o & w2 & Ho & Hg). destruct o as [u|].
      + injection Hg as <- <-. exists u. split; [done|]. left. exists token. split; [done|].
        rewrite run_catch, run_bind in Ho. destruct (run (validateAdminToken token) w) as [[e|v] w3] eqn:Hv; simpl in Ho; [done|].
        injection Ho as <- <-. by apply run_validateAdminToken_inr in Hv as [_ Hv].
      + destruct (check_api_key_admits request g w2 w1 Hg Hge) as [Hu H]. exists api_key_user. split; [done|]. by right.
    - destruct (check_api_key_admits request g w w1 Hg Hge) as [Hu H]. exists api_key_user. split; [done|]. by right. }
  destruct Hwho as (u & Hu & Hwho). exists u, (gd_request g), w1. split_and!; [done..|].
  by apply (roles_canActivate_inr options (gd_request g)).
Qed.
End SignIn.

Example login_gate_witness : exists s w' rl,
  run (login (E:=admin_env) "root" "Secret123" "203.0.113.7") admin_world = (inr s, w') /\
  allowed rl = true /\ as_rateLimitHeaders s = computeHeaders rl.
Proof.
  destruct (ends_ok_run (login (E:=admin_env) "root" "Secret123" "203.0.113.7") admin_world) as (s & w' & Hr);
    [vm_compute; reflexivity|].
  destruct (login_gate (E:=admin_env) "root" "Secret123" "203.0.113.7" admin_world s w' Hr) as (rl & _ & _ & _ & _ & _ & _ & _ & H1 & H2 & _).
  exists s, w', rl. split; [exact Hr|]. split; [exact H1 | exact H2].
Defined.

(** The token of the witness above opens an endpoint for super-admins. *)
Example admin_endpoint_gate_witness : exists a w' u,
  run (admin_endpoint (E:=admin_env) (Some (["super-admin"; "admin"], false)) (fun g => Ret (ar_adminUser g)) admin_request)
    admin_world = (inr a, w') /\ a = Some u /\ existsb (hasRole (au_roles u)) ["super-admin"; "admin"] = true.
Proof.
  destruct (run (admin_endpoint (E:=admin_env) (Some (["super-admin"; "admin"], false)) (fun g => Ret (ar_adminUser g)) admin_request)
    admin_world) as [[e|a] w'] eqn:Hr; [vm_compute in Hr; discriminate Hr|]. exists a, w'.
  destruct (admin_endpoint_gate (E:=admin_env) (Some (["super-admin"; "admin"], false)) (fun g => Ret (ar_adminUser g)) admin_request
    admin_world a w' eq_refl Hr) as (u & seen & w1 & Hh & Hu & _ & Hroles).
  exists u. split; [done|]. injection Hh as <- _. split; [done|].
  destruct (Hroles _ _ eq_refl) as (r & Hin & Hr1); [discriminate|]. apply existsb_exists. exists r. split; [by apply list_elem_of_In | done].
Defined.

(** ** What the code lets through *)

(** [GET admin/auth/me] is public, so the guard never identifies anyone there: the
    handler refuses every request, whatever credentials it carries. *)
Theorem me_always_refuses {E : Env} path authorization apiKey ip w :
  let request := mkAdminRequest path authorization apiKey ip None None in
  run (g <- canActivate true request ;; Ret (getMe (gd_request g)))%prog w = (inr (inl (Unauthorized "Not authenticated")), w).
Proof. done. Qed.

(** The guard does not look at credentials outside the admin paths. *)
Theorem other_paths_are_open {E : Env} {A} (handler : AdminRequest -> M A) request w :
  is_admin_route (ar_path request) = false -> run (admin_endpoint None handler request) w = run (handler request) w.
Proof. intros H. unfold admin_endpoint, canActivate. by rewrite H. Qed.

(** Without the decorator the roles are not looked at: the role for reading only opens
    the handlers that change realms, clients and keys. *)
Example view_only_may_write :
  roles_canActivate None (with_adminUser (mkAdminUser (Some (JStr "user-2")) [JStr "view-only"]) admin_request) = inr tt /\
  hasRole [JStr "view-only"] "admin" = false.
Proof. done. Qed.

(** Admin access goes by the names of the roles alone: a role of a client of the realm
    master that carries such a name gives it. *)
Example client_role_gives_access :
  let w := with_rows TRole [mkRole "role-1" "realm-m" (Some "client-9") "super-admin"] admin_world in
  exists s w', run (login (E:=admin_env) "root" "Secret123" "203.0.113.7") w = (inr s, w').
Proof. eexists _, _. vm_compute. reflexivity. Qed.

(** A logout needs no valid token: any text of the right form fills the map and the table. *)
Example unsigned_token_is_recorded :
  let token := "x." +:+ to_base64url (JSON_stringify (JObj [("jti", JStr "anything")])) +:+ ".y" in
  map rvk_jti (rows TAdminRevokedToken (run (logout (E:=admin_env) (Some ("Bearer " +:+ token)) None) admin_world).2) = ["anything"].
Proof. vm_compute. reflexivity. Qed.
