(* ===== verification/AdminSeed.v ===== *)
(** * AdminSeed: the first start of an installation

    src/src/admin-auth/admin-seed.service.ts creates the realm master with its signing key,
    its three admin roles and the first administrator, and
    src/src/scopes/scope-seed.service.ts the default scopes of a realm.  The pair of keys
    ([JwkService.generateRsaKeyPair]) is a parameter by draw number: public and private part. *)

From S2P Require Import Prelude Prog Json Schema Store StoreFacts Crypto BruteForce RateLimit AdminAuth Testbed.

(** ** The scopes every realm starts with *)

Record MapperDef := mkMapperDef { md_name : string; md_mapperType : string; md_config : obj }.
Record ScopeDef := mkScopeDef { sd_name : string; sd_mappers : list MapperDef }.

Definition attribute_mapper (name attribute claim : string) : MapperDef :=
  mkMapperDef name "oidc-usermodel-attribute-mapper"
    [("user.attribute", JStr attribute); ("claim.name", JStr claim)].

Definition DEFAULT_SCOPES : list ScopeDef := [
  mkScopeDef "openid" [attribute_mapper "sub" "id" "sub"];
  mkScopeDef "profile" [attribute_mapper "username" "username" "preferred_username";
    mkMapperDef "full name" "oidc-full-name-mapper" [];
    attribute_mapper "given name" "firstName" "given_name"; attribute_mapper "family name" "lastName" "family_name"];
  mkScopeDef "email" [attribute_mapper "email" "email" "email"; attribute_mapper "email verified" "emailVerified" "email_verified"];
  mkScopeDef "roles" [mkMapperDef "realm roles" "oidc-role-list-mapper" [("claim.name", JStr "realm_access")]]].
Definition OPTIONAL_SCOPES : list ScopeDef := [mkScopeDef "web-origins" []; mkScopeDef "offline_access" []].

Definition getDefaultScopeNames : list string := map sd_name DEFAULT_SCOPES.
Definition getOptionalScopeNames : list string := map sd_name OPTIONAL_SCOPES.

Definition is_scope (realmId name : string) (s : ClientScope) : bool := (cs_realmId s === realmId) && (cs_name s === name).

(** A new realm with the column defaults of the schema. *)
Definition new_realm (id name : string) (displayName : option string) : Realm :=
  mkRealm id name displayName 300 1800 2592000 8 false false false false 0 false 5 900 600 0 false
    false 300 5 false "none" 6 300 3 900 10 false false 60 1000 30 500 20 200 false 1800 false false 0
    true false [] false false None None false true 14 None
    false 50 80 None (Some 587) None None None false "smtp" None.

Section Seed.
Context {E : Env} (rsa_key_pair : nat -> string * string).

Definition seed_scope (realmId : string) (scopeDef : ScopeDef) : M unit :=
  (existing <- find_first TClientScope (is_scope realmId (sd_name scopeDef)) ;;
   match existing with
   | Some _ => Ret tt
   | None =>
       transaction (
         scope <- create TClientScope (fun id _ => mkClientScope id realmId (sd_name scopeDef)) ;;
         for_each (sd_mappers scopeDef) (fun m =>
           create TProtocolMapper (fun _ _ => mkProtocolMapper (cs_id scope) (md_mapperType m) (md_config m)) ;;; Ret tt))
   end)%prog.

Definition seedDefaultScopes (realmId : string) : M unit :=
  for_each (DEFAULT_SCOPES ++ OPTIONAL_SCOPES) (seed_scope realmId).

Definition generateRsaKeyPair : M (string * (string * string)) :=
  (keys <- atom (fun w => (rsa_key_pair (w_draws w), next_draw w)) ;;
   kid <- random_uuid ;; Ret (kid, keys))%prog.

(** [realm.create] with the key nested in it. *)
Definition create_realm_with_key (name displayName kid publicKey privateKey : string) : M Realm :=
  transaction (
    realm <- create TRealm (fun id _ => new_realm id name (Some displayName)) ;;
    create TRealmSigningKey (fun _ at_ => mkRealmSigningKey (realm_id realm) kid publicKey privateKey true at_) ;;;
    Ret realm)%prog.

Definition ensureMasterRealm : M unit :=
  (existing <- find_first TRealm is_master ;;
   match existing with
   | Some _ => Ret tt
   | None =>
       keyPair <- generateRsaKeyPair ;;
       masterRealm <- create_realm_with_key "master" "Master" keyPair.1 keyPair.2.1 keyPair.2.2 ;;
       superAdmin <- create TRole (fun id _ => mkRole id (realm_id masterRealm) None "super-admin") ;;
       create TRole (fun id _ => mkRole id (realm_id masterRealm) None "realm-admin") ;;;
       create TRole (fun id _ => mkRole id (realm_id masterRealm) None "view-only") ;;;
       let adminUsername := process_env "ADMIN_USER" ?? "admin" in
       let adminPassword := process_env "ADMIN_PASSWORD" ?? "admin" in
       passwordHash <- hashPassword adminPassword ;;
       now <- date_now ;;
       adminUser <- create TUser (fun id at_ =>
         mkUser id (realm_id masterRealm) adminUsername None false None None true (Some passwordHash) "argon2" None
           (Some now) None at_) ;;
       create TUserRole (fun _ _ => mkUserRole (user_id adminUser) (role_id superAdmin)) ;;;
       seedDefaultScopes (realm_id masterRealm)
   end)%prog.
End Seed.

(** ** Facts *)

Section Facts.
Context {E : Env} (rsa_key_pair : nat -> string * string).

Lemma create_mappers_ok scope ms w :
  w_db_up w = true ->
  exists w', run (for_each ms (fun m =>
      create TProtocolMapper (fun _ _ => mkProtocolMapper scope (md_mapperType m) (md_config m)) ;;; Ret tt))%prog w = (inr tt, w') /\
    frame [TProtocolMapper] w w' /\
    rows TProtocolMapper w' = rows TProtocolMapper w ++ map (fun m => mkProtocolMapper scope (md_mapperType m) (md_config m)) ms.
Proof.
  revert w. induction ms as [|m ms IH]; intros w Hup.
  - exists w. split; [done|]. split; [done|]. by rewrite app_nil_r.
  - cbn [for_each]. rewrite !run_bind, run_create by done. simpl.
    destruct (IH (with_rows TProtocolMapper (rows TProtocolMapper w ++ [mkProtocolMapper scope (md_mapperType m) (md_config m)]) (next_uuid w)))
      as (w' & Hr & F & H); [done|].
    exists w'. split; [exact Hr|]. split; [etransitivity; [apply frame_new_row|exact F]|].
    rewrite H, rows_with_rows_eq, <- app_assoc. done.
Qed.

(** One scope: nothing when the realm has one of the name, else the scope and its mappers. *)
Lemma seed_scope_ok realmId d w :
  w_db_up w = true ->
  exists w', run (seed_scope realmId d) w = (inr tt, w') /\ frame [TClientScope; TProtocolMapper] w w' /\
    match List.find (is_scope realmId (sd_name d)) (rows TClientScope w) with
    | Some _ => w' = w
    | None => exists id, rows TClientScope w' = rows TClientScope w ++ [mkClientScope id realmId (sd_name d)] /\
        rows TProtocolMapper w' = rows TProtocolMapper w ++
          map (fun m => mkProtocolMapper id (md_mapperType m) (md_config m)) (sd_mappers d)
    end.
Proof.
  intros Hup. unfold seed_scope. rewrite run_bind, run_find_first by done. cbv beta.
  destruct (List.find _ _) as [x|] eqn:Hf; [by exists w|].
  rewrite run_transaction, run_bind, run_create; [|done|].
  - cbv beta iota. cbn [cs_id]. set (w1 := with_rows TClientScope _ _).
    destruct (create_mappers_ok (uuid (w_uuids w)) (sd_mappers d) w1 Hup) as (w' & Hr & F & H).
    exists w'. rewrite Hr. split; [done|]. split.
    + etransitivity; [apply (frame_mono [TClientScope]); [done|apply frame_new_row]|]. by apply (frame_mono [TProtocolMapper]).
    + exists (uuid (w_uuids w)). rewrite (frame_rows _ _ _ TClientScope F eq_refl), H. by split.
  - simpl. apply negb_true_iff, not_true_is_false. intros (x & Hin & Hx)%existsb_exists.
    change (is_scope realmId (sd_name d) x = true) in Hx. rewrite (List.find_none _ _ Hf x Hin) in Hx. done.
Qed.

Lemma seed_scopes_ok realmId ds w :
  w_db_up w = true ->
  exists w' added, run (for_each ds (seed_scope realmId)) w = (inr tt, w') /\ frame [TClientScope; TProtocolMapper] w w' /\
    rows TClientScope w' = rows TClientScope w ++ added /\
    (forall s, s ∈ added -> cs_realmId s = realmId /\ cs_name s ∈ map sd_name ds /\
       forall x, x ∈ rows TClientScope w -> is_scope realmId (cs_name s) x = false) /\
    NoDup (map cs_name added) /\
    forall d, d ∈ ds -> exists s, s ∈ rows TClientScope w' /\ is_scope realmId (sd_name d) s = true.
Proof.
  revert w. induction ds as [|d ds IH]; intros w Hup.
  - exists w, []. split_and!; try done; [by rewrite app_nil_r | | constructor |]; by intros x Hx%not_elem_of_nil.
  - cbn [for_each]. destruct (seed_scope_ok realmId d w Hup) as (w1 & H1 & F1 & Hnew).
    destruct (IH w1 (frame_up _ _ _ F1 Hup)) as (w' & added & H2 & F2 & Hrows & Hadded & Hnd & Hall).
    destruct (List.find _ _) as [x|] eqn:Hf.
    + subst w1. exists w', added. rewrite run_bind, H1. split_and!; try done.
      * intros s Hs. destruct (Hadded s Hs) as (Ha & Hb & Hc). split_and!; [done| |done]. simpl. set_solver.
      * intros d' [->|Hd]%elem_of_cons; [|by apply Hall]. apply find_elem in Hf as [Hin Hx]. exists x.
        split; [rewrite Hrows; set_solver | done].
    + destruct Hnew as (id & Hr1 & _). set (s0 := mkClientScope id realmId (sd_name d)) in *.
      exists w', (s0 :: added). rewrite run_bind, H1. split_and!; try done.
      * by transitivity w1.
      * by rewrite Hrows, Hr1, <- app_assoc.
      * intros s [->|Hs]%elem_of_cons.
        { split_and!; [done|simpl; set_solver|]. intros x Hx. apply (List.find_none _ _ Hf x). by apply list_elem_of_In. }
        destruct (Hadded s Hs) as (Ha & Hb & Hc). split_and!; [done|simpl; set_solver|].
        intros x Hx. apply Hc. rewrite Hr1. set_solver.
      * simpl. constructor; [|done]. intros (s & Hname & Hs)%list_elem_of_fmap.
        destruct (Hadded s Hs) as (_ & _ & Hc). specialize (Hc s0). rewrite Hr1 in Hc.
        unfold is_scope in Hc. simpl in Hc, Hname. rewrite <- Hname, !bool_decide_true in Hc by done.
        discriminate Hc. set_solver.
      * intros d' [->|Hd]%elem_of_cons; [|by apply Hall]. exists s0. split; [rewrite Hrows, Hr1; set_solver|].
        unfold is_scope. simpl. by rewrite !bool_decide_true.
Qed.

Lemma seeded_again realmId ds w :
  w_db_up w = true -> (forall d, d ∈ ds -> exists s, s ∈ rows TClientScope w /\ is_scope realmId (sd_name d) s = true) ->
  run (for_each ds (seed_scope realmId)) w = (inr tt, w).
Proof.
  intros Hup. induction ds as [|d ds IH]; intros Hall; [done|]. cbn [for_each]. rewrite run_bind.
  destruct (seed_scope_ok realmId d w Hup) as (w1 & H1 & _ & Hnew).
  destruct (Hall d) as (s & Hs & Hd); [set_solver|].
  destruct (find_from_elem (is_scope realmId (sd_name d)) (rows TClientScope w) s Hs Hd) as [y Hy].
  rewrite Hy in Hnew. subst w1. rewrite H1. apply IH. intros d' Hd'. apply Hall. set_solver.
Qed.

(** A realm that has been seeded has every default and optional scope, each added once
    and none of the scopes it had touched; seeding it again changes nothing. *)
Theorem seedDefaultScopes_complete realmId w :
  w_db_up w = true ->
  exists w' added, run (seedDefaultScopes realmId) w = (inr tt, w') /\
    rows TClientScope w' = rows TClientScope w ++ added /\
    (forall s, s ∈ added -> cs_realmId s = realmId /\ cs_name s ∈ getDefaultScopeNames ++ getOptionalScopeNames) /\
    NoDup (map cs_name added) /\
    (forall name, name ∈ getDefaultScopeNames ++ getOptionalScopeNames ->
       exists s, s ∈ rows TClientScope w' /\ is_scope realmId name s = true) /\
    run (seedDefaultScopes realmId) w' = (inr tt, w').
Proof.
  intros Hup. destruct (seed_scopes_ok realmId (DEFAULT_SCOPES ++ OPTIONAL_SCOPES) w Hup)
    as (w' & added & Hr & F & Hrows & Hadded & Hnd & Hall).
  exists w', added. split_and!; try done.
  - intros s Hs. by destruct (Hadded s Hs) as (H1 & H2 & _).
  - intros name Hname. change (name ∈ map sd_name (DEFAULT_SCOPES ++ OPTIONAL_SCOPES)) in Hname.
    apply list_elem_of_fmap in Hname as (d & -> & Hd). by apply Hall.
  - unfold seedDefaultScopes. apply seeded_again; [by apply (frame_up _ _ _ F)|done].
Qed.

(** ** The first administrator *)

(** Nothing has been created yet. *)
Record fresh_installation (w : World) : Prop := {
  fresh_up : w_db_up w = true;
  fresh_realms : rows TRealm w = []; fresh_keys : rows TRealmSigningKey w = [];
  fresh_roles : rows TRole w = []; fresh_users : rows TUser w = []; fresh_user_roles : rows TUserRole w = []
}.

(** What the first start leaves for the sign-in. *)
Definition installed (w : World) : Prop :=
  exists realm key role roles user draw,
    rows TRealm w = [realm] /\ realm_name realm = "master" /\ realm_bruteForceEnabled realm = false /\
    rows TRealmSigningKey w = [key] /\ key_realmId key = realm_id realm /\ key_active key = true /\
    rows TRole w = role :: roles /\ role_name role = "super-admin" /\
    rows TUser w = [user] /\ user_realmId user = realm_id realm /\ user_username user = process_env "ADMIN_USER" ?? "admin" /\
    user_enabled user = true /\ user_passwordHash user = Some (argon2_hash draw (process_env "ADMIN_PASSWORD" ?? "admin")) /\
    rows TUserRole w = [mkUserRole (user_id user) (role_id role)].

(** A statement that creates a row, and what is known of the other tables after it. *)
Lemma create_ok t mk w rs :
  w_db_up w = true -> rows t w = rs -> (forall id at_, unique_ok t rs (mk id at_) = true) ->
  exists id at_ w1, run (create t mk) w = (inr (mk id at_), w1) /\ frame [t] w w1 /\ rows t w1 = rs ++ [mk id at_].
Proof.
  intros Hup <- Hu. eexists _, _, _. rewrite run_create by done. split; [reflexivity|].
  split; [apply frame_new_row|]. by rewrite rows_with_rows_eq.
Qed.
Ltac carry F :=
  repeat match goal with
  | H : w_db_up ?w = true |- _ => apply (frame_up _ _ _ F) in H
  | H : rows ?t ?w = _ |- _ => rewrite <- (frame_rows _ _ _ t F eq_refl) in H
  end.

Lemma create_realm_with_key_ok name displayName kid public private w :
  w_db_up w = true -> rows TRealm w = [] -> rows TRealmSigningKey w = [] ->
  exists id at_ w1,
    run (create_realm_with_key name displayName kid public private) w = (inr (new_realm id name (Some displayName)), w1) /\
    frame [TRealm; TRealmSigningKey] w w1 /\ rows TRealm w1 = [new_realm id name (Some displayName)] /\
    rows TRealmSigningKey w1 = [mkRealmSigningKey id kid public private true at_].
Proof.
  intros Hup HR HK. unfold create_realm_with_key. rewrite run_transaction, run_bind.
  destruct (create_ok TRealm (fun id _ => new_realm id name (Some displayName)) w [] Hup HR) as (id & at1 & w1 & -> & F1 & HR1); [done|].
  carry F1. rewrite run_bind.
  destruct (create_ok TRealmSigningKey (fun _ at_ => mkRealmSigningKey id kid public private true at_) w1 [] Hup HK)
    as (id2 & at2 & w2 & H2 & F2 & HK2); [done|]. cbn [realm_id new_realm]. rewrite H2. carry F2.
  exists id, at2, w2. split; [done|]. split; [|by split].
  etransitivity; [apply (frame_mono [TRealm]); [done|exact F1] | by apply (frame_mono [TRealmSigningKey])].
Qed.

Lemma run_ensureMasterRealm w :
  fresh_installation w -> (String.length (process_env "ADMIN_PASSWORD" ?? "admin") <= MAX_PASSWORD_LENGTH)%nat ->
  exists w', run (ensureMasterRealm rsa_key_pair) w = (inr tt, w') /\ installed w' /\ w_db_up w' = true.
Proof.
  intros [Hup HR HK HO HU HM] Hlen. unfold ensureMasterRealm.
  rewrite run_bind, run_find_first, HR by done. cbv beta iota. cbn [List.find]. rewrite run_bind.
  assert (exists kp w1, run (generateRsaKeyPair rsa_key_pair) w = (inr kp, w1) /\ frame [] w w1) as (kp & w1 & -> & F1).
  { eexists _, _. split; [reflexivity|]. split; [done|]. repeat split. simpl. lia. }
  carry F1. rewrite run_bind.
  destruct (create_realm_with_key_ok "master" "Master" kp.1 kp.2.1 kp.2.2 w1 Hup HR HK) as (rid & at1 & w2 & -> & F2 & HR2 & HK2).
  clear HR HK. carry F2. rewrite run_bind. cbn [realm_id new_realm].
  destruct (create_ok TRole (fun id _ => mkRole id rid None "super-admin") w2 [] Hup HO) as (id1 & at2 & w3 & -> & F3 & HO3); [done|].
  clear HO. carry F3. rewrite run_bind.
  destruct (create_ok TRole (fun id _ => mkRole id rid None "realm-admin") w3 _ Hup HO3) as (id2 & at3 & w4 & -> & F4 & HO4).
  { intros. simpl. by rewrite !andb_false_r. }
  clear HO3. carry F4. rewrite run_bind.
  destruct (create_ok TRole (fun id _ => mkRole id rid None "view-only") w4 _ Hup HO4) as (id3 & at4 & w5 & -> & F5 & HO5).
  { intros. simpl. by rewrite !andb_false_r. }
  clear HO4. carry F5. rewrite run_bind. unfold hashPassword. rewrite (proj2 (Nat.ltb_ge _ _) Hlen), run_atom.
  cbv beta iota. cbn [fst snd]. set (hash := argon2_hash _ _). set (w6 := next_draw w5).
  assert (F6 : frame [] w5 w6) by (split; [done|by repeat split]). clearbody w6. carry F6.
  rewrite run_bind, run_date_now. cbv beta iota. rewrite run_bind.
  destruct (create_ok TUser (fun id at_ => mkUser id rid (process_env "ADMIN_USER" ?? "admin") None false None None true (Some hash)
    "argon2" None (Some (w_now w6)) None at_) w6 [] Hup HU) as (uid & at5 & w7 & -> & F7 & HU7); [done|].
  clear HU. carry F7. rewrite run_bind. cbn [user_id role_id].
  destruct (create_ok TUserRole (fun _ _ => mkUserRole uid id1) w7 [] Hup HM) as (id5 & at6 & w8 & -> & F8 & HM8); [done|].
  clear HM. carry F8.
  destruct (seed_scopes_ok rid (DEFAULT_SCOPES ++ OPTIONAL_SCOPES) w8 Hup) as (w9 & added & H9 & F9 & _).
  carry F9. exists w9. split; [exact H9|]. split; [|done].
  eexists _, _, _, _, _, _. split_and!; [exact HR2|done|done|exact HK2|done|done|exact HO5|done|exact HU7|done|done|done|reflexivity|exact HM8].
Qed.

Lemma resetFailures_ok realmId user w :
  w_db_up w = true -> rows TUser w = [user] -> exists w', run (resetFailures realmId (user_id user)) w = (inr tt, w').
Proof.
  intros Hup HU. unfold resetFailures. rewrite run_bind, run_delete_many by done. cbv beta iota.
  set (w1 := with_tables _ w). assert (HU1 : rows TUser w1 = [user]) by exact HU.
  rewrite run_bind, (run_update TUser _ _ _ user); [by eexists|exact Hup|]. rewrite HU1. simpl. by rewrite bool_decide_true.
Qed.

(** C23. The first start works end to end: on an empty database it creates the realm master
    and its administrator, and then the configured user name and password (or admin, admin)
    open an administrator's session with the role super-admin, provided the address is
    within its rate limit. *)
Theorem first_admin_signs_in w ip :
  (forall draw p, argon2_verify (argon2_hash draw p) p = Some true) -> (forall draw p, argon2_hash draw p <> EmptyString) ->
  (forall key kid claims, jose_sign key kid claims <> None) ->
  fresh_installation w -> (String.length (process_env "ADMIN_PASSWORD" ?? "admin") <= MAX_PASSWORD_LENGTH)%nat ->
  exists w1, run (ensureMasterRealm rsa_key_pair) w = (inr tt, w1) /\
    (forall rl w2, run (checkAdminIpLimit ip) w1 = (inr rl, w2) -> allowed rl = true ->
     exists user key kid claims s w3,
       run (login (process_env "ADMIN_USER" ?? "admin") (process_env "ADMIN_PASSWORD" ?? "admin") ip) w1 = (inr s, w3) /\
       user ∈ rows TUser w1 /\ jose_sign key kid claims = Some (as_access_token s) /\
       obj_get "sub" claims = Some (JStr (user_id user)) /\ obj_get "typ" claims = Some (JStr "admin") /\
       roles_claim claims = [JStr "super-admin"]) /\
    run (ensureMasterRealm rsa_key_pair) w1 = (inr tt, w1).
Proof.
  intros Hargon Hnonempty Hjose Hfresh Hlen.
  destruct (run_ensureMasterRealm w Hfresh Hlen) as (w1 & Hr &
    (realm & key & role & roles & user & draw & HR & Hm & Hbf & HK & Hkr & Hka & HO & Hrole & HU & Hur & Hun & Hen & Hpw & HM) & Hup).
  exists w1. split; [done|]. split.
  - intros rl w2 Hrl Hok. pose proof (run_frame _ _ _ _ _ (check_footprint _ _ _) Hrl) as F. carry F.
    unfold login. rewrite run_bind, Hrl. cbv beta iota zeta. rewrite Hok. change (negb true) with false. cbv iota.
    rewrite run_bind, run_find_first, HR by done. cbv beta iota. cbn [List.find]. unfold is_master at 1.
    rewrite (bool_decide_true (realm_name realm = "master")) by done. cbv iota.
    rewrite run_bind, run_find_first, HU by done. cbv beta iota. cbn [List.find]. rewrite Hur, Hun, !bool_decide_true by done.
    cbn [andb]. cbv iota. rewrite Hpw, Hen. pose proof (Hargon draw (process_env "ADMIN_PASSWORD" ?? "admin")) as Hv.
    specialize (Hnonempty draw (process_env "ADMIN_PASSWORD" ?? "admin")).
    set (hash := argon2_hash draw _) in *. clearbody hash. destruct hash as [|c h]; [done|]. change (negb true) with false. cbv iota.
    rewrite run_bind. unfold checkLocked. rewrite Hbf. change (negb false) with true. cbv iota. cbn [run fst]. cbv iota.
    rewrite run_bind. unfold verifyPassword. rewrite (proj2 (Nat.ltb_ge _ _) Hlen), Hv. cbn [run negb]. cbv iota.
    rewrite run_bind. unfold role_names. rewrite run_query by done. unfold role_names_at at 1. rewrite HM, HO. cbv beta iota.
    cbn [flat_map ur_userId ur_roleId List.find]. rewrite !bool_decide_true by done. cbv iota. rewrite Hrole. cbn [app existsb].
    change (negb (includes "super-admin" admin_role_names || false)) with false. cbv iota.
    assert (Hroles : role_names_at (user_id user) w2 = ["super-admin"]).
    { unfold role_names_at. rewrite HM, HO. cbn [flat_map ur_userId ur_roleId List.find]. by rewrite !bool_decide_true, Hrole by done. }
    rewrite Hroles.
    destruct (resetFailures_ok (realm_id realm) user w2 Hup HU) as (w3 & Hreset).
    pose proof (run_frame _ _ _ _ _ (resetFailures_footprint [TLoginFailure; TUser] _ _ eq_refl) Hreset) as F2.
    rewrite <- (frame_rows _ _ _ TUser F eq_refl), HU. clear HU. carry F2. rewrite run_bind, Hreset. cbv beta iota.
    rewrite run_bind. unfold find_signing_key, find_latest. rewrite run_query, HK by done. cbv beta iota.
    cbn [List.filter]. rewrite bool_decide_true, Hka by done. cbn [andb sort_by fold_right insert_by head].
    rewrite run_bind. unfold signJwt at 1. rewrite run_bind, run_date_now. cbv beta iota.
    rewrite run_bind. unfold random_uuid. rewrite run_atom. cbv beta iota zeta. cbn [fst snd].
    destruct (jose_sign _ _ _) as [token|] eqn:Htok; [|by apply Hjose in Htok].
    eexists user, _, _, _, _, _. split; [reflexivity|]. split; [set_solver|]. split; [exact Htok|]. by split_and!.
  - destruct realm as [rid rname]. unfold ensureMasterRealm. rewrite run_bind, run_find_first, HR by done. cbv beta iota. cbn [List.find].
    unfold is_master at 1. by rewrite bool_decide_true.
Qed.
End Facts.

Definition test_keys (draw : nat) : string * string := ("pub", "priv").

Example first_admin_signs_in_witness : exists w1 s w3 rl,
  run (ensureMasterRealm (E:=test_env) test_keys) world0 = (inr tt, w1) /\ allowed rl = true /\
  run (login (E:=test_env) "admin" "admin" "203.0.113.7") w1 = (inr s, w3).
Proof.
  destruct (first_admin_signs_in (E:=test_env) test_keys world0 "203.0.113.7") as (w1 & H1 & Hlogin & _).
  - intros draw p. simpl. by rewrite bool_decide_true.
  - discriminate.
  - discriminate.
  - by split.
  - apply Nat.leb_le. vm_compute. reflexivity.
  - assert (w1 = (run (ensureMasterRealm (E:=test_env) test_keys) world0).2) as Hw by by rewrite H1.
    destruct (run (checkAdminIpLimit (E:=test_env) "203.0.113.7") w1) as [[e|rl] w2] eqn:Hrl;
      [rewrite Hw in Hrl; vm_compute in Hrl; discriminate Hrl|].
    assert (allowed rl = true) as Hok.
    { assert (match (run (checkAdminIpLimit (E:=test_env) "203.0.113.7") w1).1 with inr rl => allowed rl | inl _ => true end = true)
        as H by (rewrite Hw; vm_compute; reflexivity). by rewrite Hrl in H. }
    destruct (Hlogin rl w2 eq_refl Hok) as (user & key & kid & claims & s & w3 & Hr & _).
    exists w1, s, w3, rl. split; [exact H1|]. split; [exact Hok | exact Hr].
Defined.

(** A start that finds the realm does nothing more: when the first one stopped after the
    realm had been created, the installation stays without an administrator. *)
Theorem half_seed_sticks {E : Env} keys w realm :
  w_db_up w = true -> realm ∈ rows TRealm w -> realm_name realm = "master" -> rows TUser w = [] ->
  run (ensureMasterRealm keys) w = (inr tt, w) /\
  forall username password ip s w', run (login username password ip) w <> (inr s, w').
Proof.
  intros Hup Hin Hm HU. split.
  - destruct (find_from_elem is_master (rows TRealm w) realm Hin) as [y Hy]; [by apply bool_decide_eq_true|].
    unfold ensureMasterRealm. by rewrite run_bind, (run_find_first_eq TRealm is_master w (Some y)).
  - intros username password ip s w' Hr. unfold login in Hr. apply run_bind_inr in Hr as (rl & w1 & Hrl & Hr).
    pose proof (run_frame _ _ _ _ _ (check_footprint _ _ _) Hrl) as F. rewrite <- (frame_rows _ _ _ TUser F eq_refl) in HU. destruct (negb (allowed rl)); [discriminate Hr|].
    apply run_bind_inr in Hr as (o & w2 & (_ & -> & _)%run_query_inr & Hr). destruct o; [|discriminate Hr].
    apply run_bind_inr in Hr as (o & w2 & (Ho & -> & _)%run_query_inr & Hr). rewrite HU in Ho. subst o. discriminate Hr.
Qed.
