(* ===== verification/Registration.v ===== *)
(** * Registration: self-registration and its approval (src/src/registration)

    RegistrationService, CaptchaService and the routes of RegistrationController.  The
    verification services of the CAPTCHA providers are parameters: secret and token to the
    answer ([None]: no answer, or not JSON); [scoreThreshold] is the configured least
    score, and scores are rationals.  A mail the code does not await is sent in place; its
    failure is dropped. *)

From Stdlib Require Import QArith_base.
From S2P Require Import Webhooks.
From S2P Require Import Prelude Prog Json JsText Schema Store StoreFacts Tenancy Crypto PasswordPolicy Email Verification.
From S2P Require Import BruteForce RateLimit AdminAuth Testbed.
From S2P Require ServiceAccounts CustomAttributes.

(** ** Requests *)

Record RegisterDto := mkRegister {
  rg_username : string; rg_email : string; rg_password : string;
  rg_firstName : option string; rg_lastName : option string; rg_captchaToken : option string;
  rg_acceptTerms : bool; rg_attributes : list (string * string)
}.
Record CreateFieldDto := mkCreateField {
  cf_name : string; cf_displayName : string; cf_type : option string; cf_required : option bool;
  cf_placeholder : option string; cf_helpText : option string; cf_options : option (list string);
  cf_validationPattern : option string; cf_defaultValue : option string;
  cf_sortOrder : option Z; cf_enabled : option bool
}.
Record UpdateFieldDto := mkUpdateField {
  uf_displayName : option string; uf_type : option string; uf_required : option bool;
  uf_placeholder : option string; uf_helpText : option string; uf_options : option (list string);
  uf_validationPattern : option string; uf_defaultValue : option string;
  uf_sortOrder : option Z; uf_enabled : option bool
}.

Record PendingRegistration := mkPendingRegistration { pr_user : User; pr_attributes : list (string * string) }.
Record Registered := mkRegistered { rd_userId : string; rd_requiresApproval : bool; rd_emailSent : bool }.

(** ** CAPTCHA *)

Record SiteAnswer := mkSiteAnswer { sa_success : bool; sa_score : option Q; sa_action : option string; sa_errors : list string }.
Inductive CaptchaResult := CaptchaPassed | CaptchaFailed (errorCodes : option (list string)).

Definition set_emailVerified (u : User) : User :=
  mkUser (user_id u) (user_realmId u) (user_username u) (user_email u) true (user_firstName u) (user_lastName u)
    (user_enabled u) (user_passwordHash u) (user_passwordAlgorithm u) (user_federationLink u)
    (user_passwordChangedAt u) (user_lockedUntil u) (user_createdAt u).

(** [dto.email.split('@')[1]?.toLowerCase()]. *)
Definition email_domain (email : string) : option string :=
  match js_split "@"%char email with _ :: domain :: _ => Some (to_lower domain) | _ => None end.

Definition domain_allowed (realm : Realm) (email : string) : bool :=
  match realm_allowedEmailDomains realm, email_domain email with
  | [], _ => true
  | domains, Some (String _ _ as domain) => includes domain (map to_lower domains)
  | _, _ => false
  end.

(** An assignment to [acc[name]], as [reduce] makes them. *)
Fixpoint assign (name value : string) (acc : list (string * string)) : list (string * string) :=
  match acc with
  | [] => [(name, value)]
  | (n, v) :: acc' => if n === name then (n, value) :: acc' else (n, v) :: assign name value acc'
  end.

Definition is_disabled_of (realm : Realm) (u : User) : bool := (user_realmId u === realm_id realm) && negb (user_enabled u).
Definition is_pending (realm : Realm) (userId : string) (u : User) : bool :=
  (user_id u === userId) && (user_realmId u === realm_id realm) && negb (user_enabled u).

Section Service.
Context {E : Env} (recaptcha hcaptcha : string -> string -> option SiteAnswer) (scoreThreshold : Q).

Definition verifyRecaptcha (token : string) (expectedAction : option string) : CaptchaResult :=
  match process_env "RECAPTCHA_SECRET_KEY" with
  | Some (String _ _ as secretKey) =>
      match recaptcha secretKey token with
      | None => CaptchaFailed (Some ["verification-error"])
      | Some data =>
          if negb (sa_success data) then CaptchaFailed (Some (sa_errors data))
          else if truthy expectedAction && bool_decide (sa_action data <> expectedAction)
          then CaptchaFailed (Some ["invalid-action"])
          else match sa_score data with
               | Some score => if Qle_bool scoreThreshold score then CaptchaPassed else CaptchaFailed (Some ["score-too-low"])
               | None => CaptchaPassed
               end
      end
  | _ => CaptchaPassed
  end.

Definition verifyHcaptcha (token : string) : CaptchaResult :=
  match process_env "HCAPTCHA_SECRET_KEY" with
  | Some (String _ _ as secretKey) =>
      match hcaptcha secretKey token with
      | None => CaptchaFailed (Some ["verification-error"])
      | Some data => if sa_success data then CaptchaPassed else CaptchaFailed (Some (sa_errors data))
      end
  | _ => CaptchaPassed
  end.

Definition verify_captcha (token provider : string) (expectedAction : option string) : CaptchaResult :=
  if provider === "recaptcha" then verifyRecaptcha token expectedAction
  else if provider === "hcaptcha" then verifyHcaptcha token
  else CaptchaPassed.

Definition hasCaptchaConfig (provider : string) (siteKey : option string) : bool := (provider !== "none") && truthy siteKey.

Definition check_captcha (dto : RegisterDto) (captchaProvider : option string) : M unit :=
  match captchaProvider, rg_captchaToken dto with
  | Some (String _ _ as provider), Some (String _ _ as token) =>
      if provider === "none" then Ret tt else
      match verify_captcha token provider (Some "register") with
      | CaptchaPassed => Ret tt
      | CaptchaFailed codes =>
          Throw (BadRequest ("CAPTCHA verification failed: " +:+
            match codes with Some codes => js_join ", " codes | None => "invalid token" end))
      end
  | _, _ => Ret tt
  end.

(** ** The service *)

Definition base_url : string := process_env "BASE_URL" ?? "http://localhost:3000".

Definition sendVerificationEmail (realm : Realm) (userId email : string) : M unit :=
  (configured <- isConfigured (realm_name realm) ;;
   if negb configured then Ret tt else
   rawToken <- createToken userId "email_verification" 86400 ;;
   let verifyUrl := base_url +:+ "/realms/" +:+ realm_name realm +:+ "/verify-email?token=" +:+ rawToken in
   sendEmail (realm_name realm) email (email_subject realm "verifyEmailSubject")
     (render_email realm "verify-email" [("verifyUrl", verifyUrl)]))%prog.

Definition sendWelcomeEmail (realm : Realm) (email username : string) : M unit :=
  (configured <- isConfigured (realm_name realm) ;;
   if negb configured then Ret tt else
   sendEmail (realm_name realm) email (email_subject realm "welcomeSubject")
     (render_email realm "welcome" [("username", username)]))%prog.

Definition null_or (v : option string) : json := match v with Some s => JStr s | None => JNull end.
Definition user_payload (user : User) : obj :=
  [("userId", JStr (user_id user)); ("username", JStr (user_username user)); ("email", null_or (user_email user));
   ("firstName", null_or (user_firstName user)); ("lastName", null_or (user_lastName user));
   ("createdAt", JStr (ServiceAccounts.to_iso (user_createdAt user)))].

(** The values of the attributes the realm knows, whatever they are. *)
Definition store_attributes (realm : Realm) (userId : string) (attributes : list (string * string)) : M unit :=
  match attributes with
  | [] => Ret tt
  | _ =>
      (customAttributes <- find_many TCustomAttribute (fun a =>
         (ca_realmId a === realm_id realm) && includes (ca_name a) (map fst attributes)) ;;
       let rows := flat_map (fun kv => match List.find (fun a => ca_name a === kv.1) customAttributes with
                                       | Some a => [mkUserAttribute userId (ca_id a) kv.2]
                                       | None => []
                                       end) attributes in
       match rows with
       | [] => Ret tt
       | _ => transaction (for_each rows (fun r => create TUserAttribute (fun _ _ => r) ;;; Ret tt))
       end)%prog
  end.

Definition after_registration (realm : Realm) (user : User) : M unit :=
  if realm_registrationApprovalRequired realm
  then dispatchEvent (realm_id realm) "user.approval_pending" (user_payload user)
  else (dispatchEvent (realm_id realm) "user.registered" (user_payload user) ;;;
        match user_email user with
        | Some (String _ _ as email) => catch (sendWelcomeEmail realm email (user_username user)) (fun _ => Ret tt)
        | _ => Ret tt
        end)%prog.

Definition register (realm : Realm) (dto : RegisterDto) (captchaProvider : option string) : M Registered :=
  (check_captcha dto captchaProvider ;;;
   if negb (realm_registrationAllowed realm) then Throw (Forbidden "Self-registration is disabled for this realm") else
   if negb (domain_allowed realm (rg_email dto)) then
     Throw (BadRequest ("Email domain '" +:+ (email_domain (rg_email dto) ?? "undefined") +:+ "' is not allowed for self-registration")) else
   existingUsername <- find_first TUser (fun u => (user_realmId u === realm_id realm) && (user_username u === rg_username dto)) ;;
   if bool_decide (is_Some existingUsername) then
     Throw (Conflict ("Username '" +:+ rg_username dto +:+ "' is already taken")) else
   existingEmail <-
     (if rg_email dto === EmptyString then Ret None else
      find_first TUser (fun u => (user_realmId u === realm_id realm) && bool_decide (user_email u = Some (rg_email dto)))) ;;
   if bool_decide (is_Some existingEmail) then
     Throw (Conflict ("Email '" +:+ rg_email dto +:+ "' is already in use")) else
   let validation := validate realm (rg_password dto) in
   if negb validation.1 then Throw (BadRequest (js_join ". " validation.2)) else
   passwordHash <- hashPassword (rg_password dto) ;;
   let requiresApproval := realm_registrationApprovalRequired realm in
   now <- date_now ;;
   user <- create TUser (fun id at_ =>
     mkUser id (realm_id realm) (rg_username dto) (Some (rg_email dto)) (negb (realm_requireEmailVerification realm))
       (rg_firstName dto) (rg_lastName dto) (negb requiresApproval) (Some passwordHash) "argon2" None (Some now) None at_) ;;
   store_attributes realm (user_id user) (rg_attributes dto) ;;;
   (if 0 <? realm_passwordHistoryCount realm
    then recordHistory (user_id user) (realm_id realm) passwordHash (realm_passwordHistoryCount realm)
    else Ret tt) ;;;
   let emailSent := realm_requireEmailVerification realm && (rg_email dto !== EmptyString) in
   (if emailSent : bool then sendVerificationEmail realm (user_id user) (rg_email dto) else Ret tt) ;;;
   after_registration realm user ;;;
   Ret (mkRegistered (user_id user) requiresApproval emailSent))%prog.

Definition approved_payload (user : User) (now : Z) : obj :=
  [("userId", JStr (user_id user)); ("username", JStr (user_username user)); ("email", null_or (user_email user));
   ("approvedAt", JStr (ServiceAccounts.to_iso now))].

Definition update_user (userId : string) (f : User -> User) : M User := update TUser (fun u => user_id u === userId) f.

(** The user whose address the token has verified. *)
Definition verifyEmail (realm : Realm) (token : string) : M (option string) :=
  (result <- validateToken token "email_verification" ;;
   match result with
   | None => Ret None
   | Some userId =>
       user <- find_first TUser (fun u => (user_id u === userId) && (user_realmId u === realm_id realm)) ;;
       match user with
       | None => Ret None
       | Some user =>
           update_user (user_id user) set_emailVerified ;;;
           (if negb (user_enabled user) && realm_registrationApprovalRequired realm then
              update_user (user_id user) (set_enabled true) ;;;
              now <- date_now ;;
              dispatchEvent (realm_id realm) "user.approved" (approved_payload user now)
            else Ret tt) ;;;
           Ret (Some (user_id user))
       end
   end)%prog.

Definition resendVerificationEmail (realm : Realm) (email : string) : M bool :=
  (user <- find_first TUser (fun u => (user_realmId u === realm_id realm) && bool_decide (user_email u = Some email)) ;;
   match user with
   | None => Ret false
   | Some user =>
       if user_emailVerified user then Ret false else
       sendVerificationEmail realm (user_id user) email ;;; Ret true
   end)%prog.

Definition attributes_of (userId : string) : M (list (string * string)) :=
  query (fun w => foldl (fun acc v =>
    match List.find (fun a => ca_id a === ua_attributeId v) (rows TCustomAttribute w) with
    | Some a => assign (ca_name a) (ua_value v) acc
    | None => acc
    end) [] (List.filter (fun v => ua_userId v === userId) (rows TUserAttribute w))).

Definition with_attributes (users : list User) : M (list PendingRegistration) :=
  fold_right (fun u rest =>
    attributes <- attributes_of (user_id u) ;; l <- rest ;; Ret (mkPendingRegistration u attributes :: l))%prog (Ret []) users.

Definition getPendingRegistrations (realm : Realm) (skip take : nat) : M (list PendingRegistration * Z) :=
  (users <- find_many_desc TUser (is_disabled_of realm) user_createdAt ;;
   total <- count TUser (is_disabled_of realm) ;;
   l <- with_attributes (firstn take (drop skip users)) ;;
   Ret (l, total))%prog.

Definition approveRegistration (realm : Realm) (userId : string) (note : option string) : M (option string) :=
  (user <- find_first TUser (is_pending realm userId) ;;
   match user with
   | None => Throw (NotFound "Pending registration not found")
   | Some user =>
       update_user userId (set_enabled true) ;;;
       (if realm_requireEmailVerification realm && negb (user_emailVerified user) && truthy (user_email user)
        then sendVerificationEmail realm (user_id user) (user_email user ?? EmptyString)
        else if (negb (realm_requireEmailVerification realm) || user_emailVerified user) && truthy (user_email user)
        then sendWelcomeEmail realm (user_email user ?? EmptyString) (user_username user)
        else Ret tt) ;;;
       now <- date_now ;;
       dispatchEvent (realm_id realm) "user.approved"
         ([("userId", JStr (user_id user)); ("username", JStr (user_username user)); ("email", null_or (user_email user));
           ("approvedBy", JStr "admin"); ("approvedAt", JStr (ServiceAccounts.to_iso now))] ++
          obj_opt "note" (option_map JStr note)) ;;;
       Ret note
   end)%prog.

Definition rejectRegistration (realm : Realm) (userId : string) (reason : option string) : M unit :=
  (user <- find_first TUser (is_pending realm userId) ;;
   match user with
   | None => Throw (NotFound "Pending registration not found")
   | Some user =>
       delete_one TUser (fun u => user_id u === userId) ;;;
       now <- date_now ;;
       dispatchEvent (realm_id realm) "user.rejected"
         ([("userId", JStr userId); ("username", JStr (user_username user)); ("email", null_or (user_email user));
           ("rejectedAt", JStr (ServiceAccounts.to_iso now))] ++ obj_opt "reason" (option_map JStr reason))
   end)%prog.

(** ** The fields of the form *)

Definition createRegistrationField (realm : Realm) (dto : CreateFieldDto) : M RegistrationField :=
  create TRegistrationField (fun id _ =>
    mkRegistrationField id (realm_id realm) (cf_name dto) (cf_displayName dto) (cf_type dto ?? "text")
      (cf_required dto ?? false) (cf_placeholder dto) (cf_helpText dto) (cf_options dto ?? [])
      (cf_validationPattern dto) (cf_defaultValue dto) (cf_sortOrder dto ?? 0) (cf_enabled dto ?? true)).

Definition getRegistrationFields (realm : Realm) : M (list RegistrationField) :=
  find_many_asc TRegistrationField (fun f => rf_realmId f === realm_id realm) rf_sortOrder.
Definition getEnabledRegistrationFields (realm : Realm) : M (list RegistrationField) :=
  find_many_asc TRegistrationField (fun f => (rf_realmId f === realm_id realm) && rf_enabled f) rf_sortOrder.

Definition is_field_of (realm : Realm) (fieldId : string) (f : RegistrationField) : bool :=
  (rf_id f === fieldId) && (rf_realmId f === realm_id realm).

(** [undefined] leaves a column as it is. *)
Definition edit_field (dto : UpdateFieldDto) (f : RegistrationField) : RegistrationField :=
  mkRegistrationField (rf_id f) (rf_realmId f) (rf_name f) (uf_displayName dto ?? rf_displayName f) (uf_type dto ?? rf_type f)
    (uf_required dto ?? rf_required f)
    (match uf_placeholder dto with Some v => Some v | None => rf_placeholder f end)
    (match uf_helpText dto with Some v => Some v | None => rf_helpText f end)
    (uf_options dto ?? rf_options f)
    (match uf_validationPattern dto with Some v => Some v | None => rf_validationPattern f end)
    (match uf_defaultValue dto with Some v => Some v | None => rf_defaultValue f end)
    (uf_sortOrder dto ?? rf_sortOrder f) (uf_enabled dto ?? rf_enabled f).

Definition updateRegistrationField (realm : Realm) (fieldId : string) (dto : UpdateFieldDto) : M RegistrationField :=
  (existing <- find_first TRegistrationField (is_field_of realm fieldId) ;;
   match existing with
   | None => Throw (NotFound "Registration field not found")
   | Some _ => update TRegistrationField (fun f => rf_id f === fieldId) (edit_field dto)
   end)%prog.

Definition deleteRegistrationField (realm : Realm) (fieldId : string) : M unit :=
  (existing <- find_first TRegistrationField (is_field_of realm fieldId) ;;
   match existing with
   | None => Throw (NotFound "Registration field not found")
   | Some _ => delete_one TRegistrationField (fun f => rf_id f === fieldId) ;;; Ret tt
   end)%prog.

(** ** The routes *)

Definition register_handler (realm : Realm) (dto : RegisterDto) (captchaProvider : option string) : M (string * Registered) :=
  if truthy (realm_termsOfServiceUrl realm) && negb (rg_acceptTerms dto)
  then Throw (BadRequest "You must accept the terms of service")
  else (result <- register realm dto captchaProvider ;;
        Ret (if rd_requiresApproval result
             then "Registration submitted successfully. Your account will be activated after admin approval."
             else "Registration successful! Please check your email to verify your account.", result))%prog.

Definition verifyEmail_handler (realm : Realm) (token : string) : M string :=
  (result <- verifyEmail realm token ;;
   match result with
   | Some userId => Ret userId
   | None => Throw (BadRequest "Invalid or expired verification token")
   end)%prog.

Definition resendVerification (realm : Realm) (email : string) : M string :=
  (resendVerificationEmail realm email ;;;
   Ret "If that email exists and is unverified, a verification email has been sent.")%prog.

Definition registration_path (realm : Realm) (route : string) : string :=
  "/realms/" +:+ realm_name realm +:+ "/registration/" +:+ route.

(** The routes for administrators, with the guard they ask for: what a request without
    credentials sees of it. *)
Definition approve_route (realm : Realm) (userId : string) (note : option string) (request : AdminRequest) : M (option string) :=
  admin_endpoint None (fun _ => approveRegistration realm userId note) request.
Definition reject_route (realm : Realm) (userId : string) (reason : option string) (request : AdminRequest) : M unit :=
  admin_endpoint None (fun _ => rejectRegistration realm userId reason) request.
End Service.

(** ** Facts *)

Section Facts.
Context {E : Env}.

Lemma sendVerificationEmail_footprint ts realm userId email :
  covers [TVerificationToken] ts = true -> stable (frame ts) (sendVerificationEmail realm userId email).
Proof.
  intros H. apply (stable_frame_mono [TVerificationToken]); [done|]. unfold sendVerificationEmail.
  footprint.
Qed.
Lemma sendWelcomeEmail_footprint ts realm email username : stable (frame ts) (sendWelcomeEmail realm email username).
Proof. unfold sendWelcomeEmail. footprint. Qed.
Lemma history_footprint ts u r h n :
  covers [TPasswordHistory] ts = true -> stable (frame ts) (recordHistory u r h n).
Proof. intros H. apply (stable_frame_mono [TPasswordHistory]); [done|]. unfold recordHistory. footprint. Qed.
Lemma store_attributes_footprint ts realm userId attributes :
  covers [TUserAttribute] ts = true -> stable (frame ts) (store_attributes realm userId attributes).
Proof. intros H. apply (stable_frame_mono [TUserAttribute]); [done|]. unfold store_attributes. footprint. Qed.
Hint Resolve sendVerificationEmail_footprint sendWelcomeEmail_footprint history_footprint
  store_attributes_footprint : footprint.

(** The steps after the account has been created. *)
Lemma after_registration_footprint ts realm user :
  covers [TWebhookEvent] ts = true -> stable (frame ts) (after_registration realm user).
Proof. intros H. unfold after_registration. footprint. Qed.
Hint Resolve after_registration_footprint : footprint.

(** What [register] asks for and makes. *)
Definition account_of (realm : Realm) (dto : RegisterDto) (user : User) : Prop :=
  user_realmId user = realm_id realm /\ user_username user = rg_username dto /\ user_email user = Some (rg_email dto) /\
  user_enabled user = negb (realm_registrationApprovalRequired realm) /\
  user_emailVerified user = negb (realm_requireEmailVerification realm) /\
  exists draw, user_passwordHash user = Some (argon2_hash draw (rg_password dto)).

Lemma check_captcha_inr recaptcha hcaptcha threshold dto provider w r w' :
  run (check_captcha recaptcha hcaptcha threshold dto provider) w = (inr r, w') ->
  w' = w /\ forall p t, provider = Some p -> rg_captchaToken dto = Some t -> p <> EmptyString -> p <> "none" -> t <> EmptyString ->
    verify_captcha recaptcha hcaptcha threshold t p (Some "register") = CaptchaPassed.
Proof.
  unfold check_captcha. intros H. destruct provider as [[|c p]|]; [injection H as _ <-; split; [done|]; by intros; simplify_eq| |injection H as _ <-; split; [done|]; by intros; simplify_eq].
  destruct (rg_captchaToken dto) as [[|d t]|]; [injection H as _ <-; split; [done|]; by intros; simplify_eq| |injection H as _ <-; split; [done|]; by intros; simplify_eq].
  set (p0 := String c p) in *. set (t0 := String d t) in *.
  destruct (bool_decide_reflect (p0 = "none")) as [Hn|Hn]; [injection H as _ <-; split; [done|]; by intros; simplify_eq|].
  destruct (verify_captcha _ _ _ _ _ _) eqn:Hv; [|discriminate H]. injection H as _ <-.
  split; [done|]. intros p' t' [= <-] [= <-] _ _ _. exact Hv.
Qed.

(** C22. A registration that succeeds was allowed by the realm and its list of domains, passed
    the CAPTCHA it brought a token for, used a name and an address nobody has in the realm and
    a password the policy accepts; it adds exactly one account, disabled while an approval
    is required and unverified while a verification is, and changes no other user.  Nothing
    is said of required fields, of the constraints of attributes and of the terms of
    service: [register] does not check them ([registration_stores_anything]). *)
Theorem register_spec recaptcha hcaptcha threshold realm dto provider w r w' :
  run (register recaptcha hcaptcha threshold realm dto provider) w = (inr r, w') ->
  realm_registrationAllowed realm = true /\ domain_allowed realm (rg_email dto) = true /\
  (validate realm (rg_password dto)).1 = true /\
  (forall u, u ∈ rows TUser w -> user_realmId u = realm_id realm ->
     user_username u <> rg_username dto /\ (rg_email dto <> EmptyString -> user_email u <> Some (rg_email dto))) /\
  (forall p t, provider = Some p -> rg_captchaToken dto = Some t -> p <> EmptyString -> p <> "none" -> t <> EmptyString ->
     verify_captcha recaptcha hcaptcha threshold t p (Some "register") = CaptchaPassed) /\
  exists user, rows TUser w' = rows TUser w ++ [user] /\ account_of realm dto user /\
    rd_userId r = user_id user /\ rd_requiresApproval r = realm_registrationApprovalRequired realm.
Proof.
  unfold register. intros Hr. apply run_bind_inr in Hr as ([] & w0 & [-> Hcap]%check_captcha_inr & Hr).
  destruct (realm_registrationAllowed realm) eqn:Hallow; [|discriminate Hr]. change (negb true) with false in Hr. cbv iota in Hr.
  destruct (domain_allowed realm (rg_email dto)) eqn:Hdom; [|discriminate Hr]. change (negb true) with false in Hr. cbv iota in Hr.
  apply run_bind_inr in Hr as (byName & w0 & (Hname & -> & Hup)%run_query_inr & Hr).
  destruct byName as [x|]; [discriminate Hr|]. rewrite (bool_decide_false (is_Some None)) in Hr by apply is_Some_None.
  apply run_bind_inr in Hr as (byEmail & w0 & Hemail & Hr).
  destruct byEmail as [x|]; [discriminate Hr|]. rewrite (bool_decide_false (is_Some None)) in Hr by apply is_Some_None.
  assert (w0 = w /\ (rg_email dto <> EmptyString ->
    List.find (fun u => (user_realmId u === realm_id realm) && bool_decide (user_email u = Some (rg_email dto))) (rows TUser w) = None)) as [-> He].
  { destruct (bool_decide_reflect (rg_email dto = EmptyString)); [by injection Hemail as <-|].
    apply run_query_inr in Hemail as (H & -> & _). by split. }
  destruct (validate realm (rg_password dto)).1; [|discriminate Hr]. change (negb true) with false in Hr. cbv iota in Hr.
  apply run_bind_inr in Hr as (hash & w1 & Hh & Hr). unfold hashPassword in Hh.
  destruct (_ <? _)%nat; [discriminate Hh|]. apply run_atom_inr in Hh as [-> ->]. cbn [fst snd] in Hr.
  apply run_bind_inr in Hr as (now & w1 & [-> ->]%run_atom_inr & Hr). cbn [fst snd] in Hr.
  apply run_bind_inr in Hr as (user & w1 & Hc & Hr). apply (run_create_inr TUser) in Hc as (-> & -> & _ & _).
  match type of Hr with run ?p ?w1 = _ => assert (F : frame [TUserAttribute; TPasswordHistory; TVerificationToken; TWebhookEvent] w1 w') end.
  { eapply run_frame; [|exact Hr]. footprint. }
  pose proof (frame_rows _ _ _ TUser F eq_refl) as HU. rewrite rows_with_rows_eq in HU. cbv zeta in Hr.
  apply run_bind_inr in Hr as (? & ? & _ & Hr). apply run_bind_inr in Hr as (? & ? & _ & Hr).
  apply run_bind_inr in Hr as (? & ? & _ & Hr). apply run_bind_inr in Hr as (? & ? & _ & Hr). injection Hr as <- _.
  split_and!; try done.
  - intros u Hu Hreal. split.
    + intros Heq. symmetry in Hname. pose proof (List.find_none _ _ Hname u) as H. simpl in H.
      rewrite Hreal, Heq, !bool_decide_true in H by done.
      specialize (H (proj1 (list_elem_of_In _ _) Hu)). discriminate H.
    + intros Hne Heq. pose proof (List.find_none _ _ (He Hne) u) as H. simpl in H.
      rewrite Hreal, Heq, !bool_decide_true in H by done.
      specialize (H (proj1 (list_elem_of_In _ _) Hu)). discriminate H.
  - eexists. split; [exact HU|]. unfold account_of. split_and!; try done. simpl. by eexists.
Qed.

(** ** Approval *)

Lemma elem_of_remove_by_key {A} (key : A -> string) l k x :
  NoDup (map key l) -> x ∈ remove_first (fun y => key y === k) l <-> x ∈ l /\ key x <> k.
Proof.
  induction l as [|y l IH]; simpl; intros Hnd; [set_solver|]. apply NoDup_cons in Hnd as [Hy Hnd].
  destruct (bool_decide_reflect (key y = k)) as [He|He].
  - rewrite elem_of_cons. split; [|naive_solver]. intros Hin. split; [by right|]. intros Hk. apply Hy.
    rewrite He, <- Hk. by apply list_elem_of_fmap_2.
  - rewrite !elem_of_cons, (IH Hnd). naive_solver.
Qed.
Lemma elem_of_update_by_key {A} (key : A -> string) f l k x :
  NoDup (map key l) -> x ∈ update_first (fun y => key y === k) f l <->
    (x ∈ l /\ key x <> k) \/ exists y, y ∈ l /\ key y = k /\ x = f y.
Proof.
  induction l as [|y l IH]; simpl; intros Hnd; [set_solver|]. apply NoDup_cons in Hnd as [Hy Hnd].
  assert (Hin : forall z, z ∈ l -> key z = key y -> False).
  { intros z Hz He. apply Hy. rewrite <- He. by apply list_elem_of_fmap_2. }
  destruct (bool_decide_reflect (key y = k)) as [He|He].
  - rewrite elem_of_cons. split.
    + intros [->|Hx]; [right; exists y; set_solver|]. left. split; [by right|]. intros Hk. apply (Hin x); congruence.
    + intros [[[->|Hx]%elem_of_cons Hk]|(z & [->|Hz]%elem_of_cons & Hk & ->)]; [done|by right|by left|].
      exfalso. apply (Hin z); congruence.
  - rewrite !elem_of_cons, (IH Hnd). split.
    + intros [->|[[Hx Hk]|(z & Hz & Hk & ->)]]; [left; auto|left; auto|]. right. exists z. set_solver.
    + intros [[[->|Hx] Hk]|(z & [->|Hz]%elem_of_cons & Hk & ->)]; [by left|right; left; auto|done|].
      right. right. by exists z.
Qed.

(** The administrators' answer to a registration acts on one disabled account of the
    realm and on no other user: an approval enables it, a rejection deletes it, and without
    such an account both are refused and change nothing. *)
Theorem answers_spec realm userId note w :
  w_db_up w = true -> NoDup (map user_id (rows TUser w)) ->
  (forall r w', run (approveRegistration realm userId note) w = (inr r, w') ->
     exists user, user ∈ rows TUser w /\ is_pending realm userId user = true /\
       forall x, x ∈ rows TUser w' <-> (x ∈ rows TUser w /\ user_id x <> userId) \/ x = set_enabled true user) /\
  (forall r w', run (rejectRegistration realm userId note) w = (inr r, w') ->
     (exists user, user ∈ rows TUser w /\ is_pending realm userId user = true) /\
       forall x, x ∈ rows TUser w' <-> x ∈ rows TUser w /\ user_id x <> userId) /\
  ((forall u, u ∈ rows TUser w -> is_pending realm userId u = false) ->
     run (approveRegistration realm userId note) w = (inl (NotFound "Pending registration not found"), w) /\
     run (rejectRegistration realm userId note) w = (inl (NotFound "Pending registration not found"), w)).
Proof.
  intros Hup Hnd. split_and!.
  - intros r w' Hr. unfold approveRegistration in Hr. apply run_bind_inr in Hr as (o & w1 & (Ho & -> & _)%run_query_inr & Hr).
    destruct o as [user|]; [|discriminate Hr]. symmetry in Ho. apply find_elem in Ho as [Hin Hp].
    apply run_bind_inr in Hr as (u & w1 & (x & _ & _ & -> & _)%(run_update_inr TUser) & Hr).
    match type of Hr with run ?p ?w1 = _ => assert (F : frame [TVerificationToken; TWebhookEvent] w1 w') end.
    { eapply run_frame; [|exact Hr]. footprint. }
    exists user. split; [done|]. split; [done|]. intros y. rewrite (frame_rows _ _ _ TUser F eq_refl), rows_with_rows_eq.
    rewrite (elem_of_update_by_key user_id) by done. unfold is_pending in Hp.
    apply andb_true_iff in Hp as [[Hid%bool_decide_eq_true _]%andb_true_iff _]. split; (intros [?|H]; [by left|right]).
    + destruct H as (z & Hz & Hk & ->). f_equal. apply (NoDup_map_inj user_id (rows TUser w)); [done..|]. congruence.
    + by exists user.
  - intros r w' Hr. unfold rejectRegistration in Hr. apply run_bind_inr in Hr as (o & w1 & (Ho & -> & _)%run_query_inr & Hr).
    destruct o as [user|]; [|discriminate Hr]. symmetry in Ho. apply find_elem in Ho as [Hin Hp].
    apply run_bind_inr in Hr as (u & w1 & (_ & -> & _)%(run_delete_one_inr TUser) & Hr).
    match type of Hr with run ?p ?w1 = _ => assert (F : frame [TWebhookEvent] w1 w') end.
    { eapply run_frame; [|exact Hr]. footprint. }
    split; [by exists user|]. intros y. rewrite (frame_rows _ _ _ TUser F eq_refl).
    unfold rows at 1. cbn [w_tables with_tables]. rewrite (rows_on_delete TUser _), set_table_eq.
    by apply (elem_of_remove_by_key user_id).
  - intros Hno. assert (List.find (is_pending realm userId) (rows TUser w) = None) as Hf.
    { destruct (List.find _ _) as [u|] eqn:Hf; [|done]. apply find_elem in Hf as [Hin Hp]. by rewrite (Hno u Hin) in Hp. }
    unfold approveRegistration, rejectRegistration. by rewrite !run_bind, !(run_find_first_eq TUser _ _ None).
Qed.

(** ** One realm's registrations *)

(** The requests of the service that change users or fields, as one type. *)
Inductive RegistrationChange :=
| Register (dto : RegisterDto) (provider : option string)
| Verify (token : string)
| Resend (email : string)
| Approve (userId : string) (note : option string)
| Reject (userId : string) (reason : option string)
| CreateField (dto : CreateFieldDto)
| UpdateField (fieldId : string) (dto : UpdateFieldDto)
| DeleteField (fieldId : string).

Definition perform recaptcha hcaptcha threshold (realm : Realm) (c : RegistrationChange) : M unit :=
  match c with
  | Register dto provider => (register recaptcha hcaptcha threshold realm dto provider ;;; Ret tt)%prog
  | Verify token => (verifyEmail realm token ;;; Ret tt)%prog
  | Resend email => (resendVerificationEmail realm email ;;; Ret tt)%prog
  | Approve userId note => (approveRegistration realm userId note ;;; Ret tt)%prog
  | Reject userId reason => rejectRegistration realm userId reason
  | CreateField dto => (createRegistrationField realm dto ;;; Ret tt)%prog
  | UpdateField fieldId dto => (updateRegistrationField realm fieldId dto ;;; Ret tt)%prog
  | DeleteField fieldId => deleteRegistrationField realm fieldId
  end.

Lemma is_pending_inv realm userId u : is_pending realm userId u = true -> user_id u = userId /\ user_realmId u = realm_id realm.
Proof. unfold is_pending. intros [[H1%bool_decide_eq_true H2%bool_decide_eq_true]%andb_true_iff _]%andb_true_iff. done. Qed.

Lemma check_captcha_footprint ts recaptcha hcaptcha threshold dto provider :
  stable (frame ts) (check_captcha recaptcha hcaptcha threshold dto provider).
Proof. unfold check_captcha. footprint. Qed.
Hint Resolve check_captcha_footprint : footprint.

Lemma register_confined recaptcha hcaptcha threshold realm dto provider o :
  confined TUser (realm_id realm) o (register recaptcha hcaptcha threshold realm dto provider).
Proof.
  unfold register. apply (confined_bind_frame _ _ []); [footprint|done|]. intros [].
  case_match; [apply confined_throw|]. case_match; [apply confined_throw|].
  apply (confined_bind_frame _ _ []); [footprint|done|]. intros byName. case_match; [apply confined_throw|].
  apply (confined_bind_frame _ _ []); [footprint|done|]. intros byEmail. case_match; [apply confined_throw|].
  case_match; [apply confined_throw|].
  apply (confined_bind_frame _ _ []); [footprint|done|]. intros hash.
  apply (confined_bind_frame _ _ []); [footprint|done|]. intros now.
  apply (confined_bind_last _ _ [TUserAttribute; TPasswordHistory; TVerificationToken; TWebhookEvent]); [|intros; footprint|done].
  by apply confined_create.
Qed.

Lemma approve_confined realm userId note o : confined TUser (realm_id realm) o (approveRegistration realm userId note).
Proof.
  unfold approveRegistration. apply confined_find; [apply confined_throw|]. intros u [<- Hreal]%is_pending_inv.
  apply (confined_bind_last _ _ [TVerificationToken; TWebhookEvent]); [|intros; footprint|done]. by apply confined_update.
Qed.
Lemma reject_confined realm userId reason o : confined TUser (realm_id realm) o (rejectRegistration realm userId reason).
Proof.
  unfold rejectRegistration. apply confined_find; [apply confined_throw|]. intros u [<- Hreal]%is_pending_inv.
  apply (confined_bind_last _ _ [TWebhookEvent]); [|intros; footprint|done]. by apply confined_delete.
Qed.

(** After a change by its id the row is the changed one. *)
Lemma confined_update_then t `{!NoSelfCascade t} `{!Owned t} owner {B} (x : Row t) p f (k : Row t -> M B) :
  p = (fun z => row_key z === row_key x) -> row_owner x = owner ->
  (forall r, row_owner (f r) = row_owner r) -> (forall r, row_key (f r) = row_key r) ->
  (forall y, confined t owner (Some (f x)) (k y)) -> confined t owner (Some x) (bind (update t p f) k).
Proof.
  intros -> Hx Hfo Hfk Hk w r w' Hnd Ho [(e & Hr)|(a & w1 & Ha & Hr)]%run_bind_any.
  - by eapply (confined_update t owner x).
  - transitivity w1; [by eapply (confined_update t owner x); [..|exact Ha]|].
    apply (run_update_inr t) in Ha as (y & Hy & _ & -> & _).
    assert (y = x) as -> by (eapply found_again; [exact Hnd|by apply Ho|exact Hy]).
    eapply (Hk a); [..|exact Hr]; rewrite rows_with_rows_eq.
    + by rewrite map_update_first.
    + intros z [= <-]. apply (find_update_first _ f) in Hy; [by apply find_elem in Hy as [? _]|].
      apply bool_decide_eq_true. by rewrite Hfk.
Qed.

Lemma verify_confined realm token o : confined TUser (realm_id realm) o (verifyEmail realm token).
Proof.
  unfold verifyEmail. apply (confined_bind_frame _ _ [TVerificationToken]); [footprint|done|]. intros [userId|]; [|apply confined_ret].
  apply confined_find; [apply confined_ret|]. intros u [<- Hreal]%owned_guard.
  apply (confined_update_then TUser); try done. intros _.
  apply (confined_bind_last _ _ []); [|intros; footprint|done]. case_match; [|apply confined_ret].
  apply (confined_bind_last _ _ [TWebhookEvent]); [|intros; footprint|done]. by apply confined_update.
Qed.

Lemma is_field_inv realm fieldId f : is_field_of realm fieldId f = true -> rf_id f = fieldId /\ rf_realmId f = realm_id realm.
Proof. apply owned_guard. Qed.

Lemma resend_footprint ts realm email :
  covers [TVerificationToken] ts = true -> stable (frame ts) (resendVerificationEmail realm email).
Proof. intros H. apply (stable_frame_mono [TVerificationToken]); [done|]. unfold resendVerificationEmail. footprint. Qed.
Lemma updateField_confined realm id dto o :
  confined TRegistrationField (realm_id realm) o (updateRegistrationField realm id dto).
Proof.
  unfold updateRegistrationField. apply confined_find; [apply confined_throw|]. intros f [<- Hreal]%is_field_inv.
  by apply confined_update.
Qed.
Lemma deleteField_confined realm id o : confined TRegistrationField (realm_id realm) o (deleteRegistrationField realm id).
Proof.
  unfold deleteRegistrationField. apply confined_find; [apply confined_throw|]. intros f [<- Hreal]%is_field_inv.
  apply (confined_bind_last _ _ []); [|intros; footprint|done]. by apply confined_delete.
Qed.

Lemma perform_users recaptcha hcaptcha threshold realm change :
  confined TUser (realm_id realm) None (perform recaptcha hcaptcha threshold realm change).
Proof.
  destruct change; cbn [perform];
    try match goal with |- confined _ _ _ (bind _ _) => apply (confined_bind_last _ _ []); [|intros; footprint|done] end.
  - apply register_confined.
  - apply verify_confined.
  - by apply (confined_frame _ _ [TVerificationToken]); [apply resend_footprint|].
  - apply approve_confined.
  - apply reject_confined.
  - apply (confined_frame _ _ [TRegistrationField]); [by apply (create_footprint _ TRegistrationField)|done].
  - apply (confined_frame _ _ [TRegistrationField]); [unfold updateRegistrationField; footprint; by apply (update_footprint _ TRegistrationField)|done].
  - apply (confined_frame _ _ [TRegistrationField]); [unfold deleteRegistrationField; footprint|done].
Qed.

(** The accounts' part of the service does not touch the fields. *)
Definition account_tables : list Table := TWebhookEvent :: TPasswordHistory :: delete_scope TUser.
Lemma perform_fields recaptcha hcaptcha threshold realm change :
  confined TRegistrationField (realm_id realm) None (perform recaptcha hcaptcha threshold realm change).
Proof.
  destruct change; cbn [perform];
    try match goal with |- confined _ _ _ (bind _ _) => apply (confined_bind_last _ _ []); [|intros; footprint|done] end.
  - apply (confined_frame _ _ account_tables); [unfold register; footprint|done].
  - apply (confined_frame _ _ account_tables); [unfold verifyEmail, update_user; footprint; by apply (update_footprint _ TUser)|done].
  - by apply (confined_frame _ _ account_tables); [apply resend_footprint|].
  - apply (confined_frame _ _ account_tables); [unfold approveRegistration, update_user; footprint; by apply (update_footprint _ TUser)|done].
  - apply (confined_frame _ _ account_tables); [unfold rejectRegistration; footprint|done].
  - by apply confined_create.
  - apply updateField_confined.
  - apply deleteField_confined.
Qed.

(** What is done to the registrations and to the form of one realm leaves the users and
    the fields of every other realm as they are, however it ends. *)
Theorem registration_isolated recaptcha hcaptcha threshold realm change w :
  NoDup (map user_id (rows TUser w)) -> NoDup (map rf_id (rows TRegistrationField w)) ->
  others_same TUser (realm_id realm) w (run (perform recaptcha hcaptcha threshold realm change) w).2 /\
  others_same TRegistrationField (realm_id realm) w (run (perform recaptcha hcaptcha threshold realm change) w).2.
Proof.
  intros Hu Hf. destruct (run (perform recaptcha hcaptcha threshold realm change) w) as [r w'] eqn:Hr.
  simpl. split; [by eapply perform_users | by eapply perform_fields].
Qed.
End Facts.

(** ** Witnesses *)

(** A realm that approves registrations and verifies addresses, with a mail server. *)
Definition approval_realm : Realm :=
  mkRealm "realm-1" "acme" (Some "Acme") 300 1800 2592000
    8 true true true false 0
    true 3 900 600 0
    false true 300 3
    true "log" 6 300 5 3600
    2 true true 60 1000 60 1000 100 2000 true 3600 true true
    0 true true ["Acme.test"] true false None None false true 30 None
    false 50 80 (Some "mail.acme.test") (Some 587) None None None false "smtp" None.
Definition registration_world : World :=
  with_rows TCustomAttribute [CustomAttributes.level_attribute]
    (with_rows TUser [user0] (with_rows TRealm [approval_realm] world0)).
Definition bob_dto : RegisterDto := mkRegister "bob" "bob@acme.test" "Secret123" None None None true [("level", "emperor")].

Definition no_site : string -> string -> option SiteAnswer := fun _ _ => None.
Definition register_bob : M Registered := register (E:=test_env) no_site no_site (1 # 2) approval_realm bob_dto None.
Definition bob_world : World := (run register_bob registration_world).2.
Definition bob_id : string := match (run register_bob registration_world).1 with inr r => rd_userId r | inl _ => EmptyString end.

Example register_spec_witness : exists r w' user,
  run register_bob registration_world = (inr r, w') /\ rows TUser w' = [user0; user] /\
  user_username user = "bob" /\ user_enabled user = false /\ user_emailVerified user = false.
Proof.
  destruct (ends_ok_run register_bob registration_world) as (r & w' & Hr); [vm_compute; reflexivity|].
  destruct (register_spec (E:=test_env) no_site no_site (1 # 2) approval_realm bob_dto None registration_world r w' Hr)
    as (_ & _ & _ & _ & _ & user & Hrows & (_ & Hn & _ & He & Hv & _) & _).
  exists r, w', user. split; [exact Hr|]. split; [exact Hrows|]. split; [exact Hn|]. split; [exact He | exact Hv].
Defined.

Example answers_spec_witness :
  (exists r w', run (approveRegistration (E:=test_env) approval_realm bob_id None) bob_world = (inr r, w') /\
     exists user, user ∈ rows TUser w' /\ user_enabled user = true /\ user_id user = bob_id) /\
  run (rejectRegistration (E:=test_env) approval_realm "user-1" None) bob_world =
    (inl (NotFound "Pending registration not found"), bob_world).
Proof.
  assert (Hnd : NoDup (map user_id (rows TUser bob_world))) by (apply (bool_decide_unpack _); vm_compute; exact I).
  split.
  - destruct (ends_ok_run (approveRegistration (E:=test_env) approval_realm bob_id None) bob_world) as (r & w' & Hr);
      [vm_compute; reflexivity|].
    exists r, w'. split; [exact Hr|].
    destruct (answers_spec (E:=test_env) approval_realm bob_id None bob_world eq_refl Hnd) as (Ha & _ & _).
    destruct (Ha r w' Hr) as (user & Hin & Hp & Hrows). exists (set_enabled true user). split; [apply Hrows; by right|].
    split; [done|]. by apply is_pending_inv in Hp as [Hid _].
  - destruct (answers_spec (E:=test_env) approval_realm "user-1" None bob_world eq_refl Hnd) as (_ & _ & Hno).
    refine (proj2 (Hno _)). intros u Hu. unfold is_pending.
    assert (Hall : forallb (fun u => negb (is_pending approval_realm "user-1" u)) (rows TUser bob_world) = true) by (vm_compute; reflexivity).
    rewrite forallb_forall in Hall. apply negb_true_iff, Hall. by apply list_elem_of_In.
Defined.

Definition other_field : RegistrationField :=
  mkRegistrationField "field-2" "realm-2" "phone" "Phone" "text" false None None [] None None 0 true.

(** A request for a field of another realm. *)
Example registration_isolated_witness :
  let w := with_rows TRegistrationField [other_field] bob_world in
  let w' := (run (perform (E:=test_env) no_site no_site (1 # 2) approval_realm (DeleteField "field-2")) w).2 in
  others_same TRegistrationField "realm-1" w w' /\ rows TRegistrationField w' = [other_field].
Proof.
  cbv zeta. split; [|vm_compute; reflexivity].
  refine (proj2 (registration_isolated (E:=test_env) no_site no_site (1 # 2) approval_realm (DeleteField "field-2") _ _ _));
    apply (bool_decide_unpack _); vm_compute; exact I.
Defined.

(** ** What the code lets through *)

Definition anonymous (path : string) : AdminRequest := mkAdminRequest path None None "198.51.100.7" None None.

(** The guard of the administrators' routes looks at paths below /admin only, and these
    routes are not there: it lets every request through, and anyone may approve the
    registration or delete the account, one that was disabled on purpose included. *)
Theorem administrators_routes_are_open {E : Env} realm id note route request w :
  ar_path request = registration_path realm route ->
  run (approve_route realm id note request) w = run (approveRegistration realm id note) w /\
  run (reject_route realm id note request) w = run (rejectRegistration realm id note) w.
Proof.
  intros Hp. unfold approve_route, reject_route.
  assert (Ho : is_admin_route (ar_path request) = false).
  { by rewrite Hp. }
  split; by apply (other_paths_are_open (fun _ => _)).
Qed.
Example anonymous_rejection :
  map user_username (rows TUser bob_world) = ["alice"; "bob"] /\
  map user_username (rows TUser (run (reject_route (E:=test_env) approval_realm bob_id None
    (anonymous (registration_path approval_realm ("reject/" +:+ bob_id)))) bob_world).2) = ["alice"].
Proof. by vm_compute. Qed.

(** The link of the verification mail approves the registration as well: no administrator
    is asked. *)
Example verification_approves :
  let token := to_hex (random_bytes (Env:=test_env) 32 1) in
  let w := (run (verifyEmail (E:=test_env) approval_realm token) bob_world).2 in
  map user_enabled (rows TUser bob_world) = [true; false] /\ map user_enabled (rows TUser w) = [true; true].
Proof. by vm_compute. Qed.

(** An account an administrator has disabled comes back the same way. *)
Example verification_revives :
  let token := to_hex (random_bytes (Env:=test_env) 32 0) in
  let banned := set_enabled false (mkUser "user-3" "realm-1" "mallory" (Some "m@acme.test") false None None true None "argon2" None None None 0) in
  let w := with_rows TUser [banned] registration_world in
  let w := (run (resendVerificationEmail (E:=test_env) approval_realm "m@acme.test") w).2 in
  map user_enabled (rows TUser (run (verifyEmail (E:=test_env) approval_realm token) w).2) = [true].
Proof. by vm_compute. Qed.

(** The caller chooses whether a CAPTCHA is asked for. *)
Theorem captcha_is_optional {E : Env} recaptcha hcaptcha threshold dto provider :
  provider = None \/ provider = Some "none" \/ rg_captchaToken dto = None ->
  check_captcha recaptcha hcaptcha threshold dto provider = Ret tt.
Proof.
  unfold check_captcha. intros [->|[->| ->]]; [done| |by destruct provider as [[]|]].
  by destruct (rg_captchaToken dto) as [[]|].
Qed.

(** Values of attributes are stored unread: the invariant that [CustomAttributes] keeps,
    that every value fits its attribute, does not survive. *)
Example registration_stores_anything :
  CustomAttributes.values_fit registration_world /\ ~ CustomAttributes.values_fit bob_world.
Proof.
  split; [intros a v _ Hv; by apply not_elem_of_nil in Hv|]. intros H.
  specialize (H CustomAttributes.level_attribute (mkUserAttribute bob_id "ca-2" "emperor")).
  assert (Hf : CustomAttributes.fits CustomAttributes.level_attribute "emperor"); [|by vm_compute in Hf].
  apply H; [apply list_elem_of_singleton; reflexivity | | reflexivity].
  apply list_elem_of_singleton. vm_compute. reflexivity.
Qed.
