(* ===== verification/Nhi.v ===== *)
(** * Nhi: machine identities, their credentials and policies (src/src/nhi/nhi.service.ts)

    Dates move by whole days of 24 hours, as [setDate] does in UTC.  Key pairs come from
    Node's [generateKeyPairSync], the parameter [generateKeyPair]; the signatures the code
    computes while it builds a certificate are thrown away by it and left out. *)

From S2P Require Import Prelude Prog JsText Json JsonText Schema Store StoreFacts Tenancy Crypto ServiceAccounts Certificates Testbed.

(** ** Requests *)

Record CreateNhiIdentityDto := mkCreateNhi {
  cn_identityType : option string; cn_name : string; cn_description : option string; cn_enabled : option bool;
  cn_lifecycleStatus : option string; cn_agentPurpose : option string; cn_permissionScopes : option (list string);
  cn_metadata : option obj; cn_tags : option (list string)
}.
Record UpdateNhiIdentityDto := mkUpdateNhi {
  un_identityType : option string; un_name : option string; un_description : option string; un_enabled : option bool;
  un_lifecycleStatus : option string; un_agentPurpose : option string; un_permissionScopes : option (list string);
  un_metadata : option obj; un_tags : option (list string)
}.
Record CreateNhiCredentialDto := mkCreateNhiCredential {
  cc_name : string; cc_credentialType : option string; cc_certificatePem : option string;
  cc_certificateChain : option string; cc_privateKeyPem : option string; cc_jwtSigningAlgorithm : option string;
  cc_jwtIssuer : option string; cc_jwtAudience : option string; cc_expiresAt : option Z;
  cc_rotationRequired : option bool; cc_enabled : option bool; cc_allowedIpRanges : option (list string)
}.
Record CreateNhiCredentialPolicyDto := mkCreatePolicy {
  cp_name : string; cp_description : option string; cp_enabled : option bool; cp_priority : option Z;
  cp_credentialType : option string; cp_rotationIntervalDays : option Z; cp_rotationBeforeDays : option Z;
  cp_autoRotate : option bool; cp_maxCredentialAgeDays : option Z; cp_maxRequestsPerDay : option Z;
  cp_maxRequestsPerMonth : option Z; cp_rateLimitPerMinute : option Z; cp_requireCertificate : option bool;
  cp_requireIpRestriction : option bool; cp_requireAuditLogging : option bool
}.
(** The limits may also be set to null. *)
Record UpdateNhiCredentialPolicyDto := mkUpdatePolicy {
  up_name : option string; up_description : option string; up_enabled : option bool; up_priority : option Z;
  up_credentialType : option string; up_rotationIntervalDays : option Z; up_rotationBeforeDays : option Z;
  up_autoRotate : option bool; up_maxCredentialAgeDays : option Z; up_maxRequestsPerDay : option (option Z);
  up_maxRequestsPerMonth : option (option Z); up_rateLimitPerMinute : option (option Z);
  up_requireCertificate : option bool; up_requireIpRestriction : option bool; up_requireAuditLogging : option bool
}.

(** ** Columns *)

Definition apply_nhi_dto (dto : UpdateNhiIdentityDto) (suspendedAt decommissionedAt : option Z) (i : NhiIdentity) : NhiIdentity :=
  mkNhiIdentity (nhi_id i) (nhi_realmId i) (un_identityType dto ?? nhi_identityType i) (un_name dto ?? nhi_name i)
    (keep (un_description dto) (nhi_description i)) (un_enabled dto ?? nhi_enabled i)
    (un_lifecycleStatus dto ?? nhi_lifecycleStatus i) (keep suspendedAt (nhi_suspendedAt i))
    (keep decommissionedAt (nhi_decommissionedAt i)) (nhi_certificateSubject i) (nhi_certificateFingerprint i)
    (nhi_certificateNotBefore i) (nhi_certificateNotAfter i) (keep (un_agentPurpose dto) (nhi_agentPurpose i))
    (un_permissionScopes dto ?? nhi_permissionScopes i) (un_metadata dto ?? nhi_metadata i) (un_tags dto ?? nhi_tags i)
    (nhi_createdAt i).
Definition set_lifecycle (status : string) (suspendedAt decommissionedAt : option Z) (enabled : bool) (i : NhiIdentity) : NhiIdentity :=
  mkNhiIdentity (nhi_id i) (nhi_realmId i) (nhi_identityType i) (nhi_name i) (nhi_description i) enabled status
    suspendedAt decommissionedAt (nhi_certificateSubject i) (nhi_certificateFingerprint i)
    (nhi_certificateNotBefore i) (nhi_certificateNotAfter i) (nhi_agentPurpose i) (nhi_permissionScopes i) (nhi_metadata i)
    (nhi_tags i) (nhi_createdAt i).
Definition set_suspended (now : Z) (i : NhiIdentity) : NhiIdentity :=
  set_lifecycle "SUSPENDED" (Some now) (nhi_decommissionedAt i) (nhi_enabled i) i.
Definition set_active (i : NhiIdentity) : NhiIdentity := set_lifecycle "ACTIVE" None (nhi_decommissionedAt i) (nhi_enabled i) i.
Definition set_decommissioned (now : Z) (i : NhiIdentity) : NhiIdentity :=
  set_lifecycle "DECOMMISSIONED" (nhi_suspendedAt i) (Some now) false i.
Definition set_certificate (subject fingerprint : option string) (notBefore notAfter : option Z) (i : NhiIdentity) : NhiIdentity :=
  mkNhiIdentity (nhi_id i) (nhi_realmId i) (nhi_identityType i) (nhi_name i) (nhi_description i) (nhi_enabled i)
    (nhi_lifecycleStatus i) (nhi_suspendedAt i) (nhi_decommissionedAt i) (keep subject (nhi_certificateSubject i))
    (keep fingerprint (nhi_certificateFingerprint i)) (keep notBefore (nhi_certificateNotBefore i))
    (keep notAfter (nhi_certificateNotAfter i)) (nhi_agentPurpose i) (nhi_permissionScopes i) (nhi_metadata i)
    (nhi_tags i) (nhi_createdAt i).

Definition nc_with (rotatedAt : option Z) (enabled revoked : bool) (revokedAt : option Z) (hash : option string) (c : NhiCredential)
  : NhiCredential :=
  mkNhiCredential (nc_id c) (nc_nhiIdentityId c) (nc_credentialType c) (nc_name c) (nc_keyPrefix c) hash
    (nc_certificatePem c) (nc_certificateChain c) (nc_privateKeyPem c) (nc_jwtSigningAlgorithm c) (nc_jwtIssuer c)
    (nc_jwtAudience c) (nc_expiresAt c) rotatedAt (nc_rotationRequired c) enabled revoked revokedAt (nc_lastUsedAt c)
    (nc_requestCount c) (nc_allowedIpRanges c) (nc_createdAt c).
Definition set_nc_revoked (now : Z) (c : NhiCredential) : NhiCredential :=
  nc_with (nc_rotatedAt c) (nc_enabled c) true (Some now) (nc_keyHash c) c.
Definition set_nc_rotated (now : Z) (c : NhiCredential) : NhiCredential :=
  nc_with (Some now) (nc_enabled c) (nc_revoked c) (nc_revokedAt c) (nc_keyHash c) c.
(** [NHI_CREDENTIAL_SELECT]: the hash of the key is not selected. *)
Definition credential_view (c : NhiCredential) : NhiCredential :=
  nc_with (nc_rotatedAt c) (nc_enabled c) (nc_revoked c) (nc_revokedAt c) None c.

(** The successor of an API key: its name, its expiry and its address ranges are inherited. *)
Definition successor_name (c : NhiCredential) : string :=
  if nc_name c !== EmptyString then nc_name c +:+ " (rotated)" else "rotated credential".
Definition successor (old : NhiCredential) (prefix hash id : string) (createdAt : Z) : NhiCredential :=
  mkNhiCredential id (nc_nhiIdentityId old) "API_KEY" (successor_name old) (Some prefix) (Some hash) None None None None
    None None (nc_expiresAt old) None false true false None None 0 (nc_allowedIpRanges old) createdAt.

Definition apply_policy_dto (dto : UpdateNhiCredentialPolicyDto) (p : NhiCredentialPolicy) : NhiCredentialPolicy :=
  mkNhiCredentialPolicy (np_id p) (np_realmId p) (up_name dto ?? np_name p) (keep (up_description dto) (np_description p))
    (up_enabled dto ?? np_enabled p) (up_priority dto ?? np_priority p) (up_credentialType dto ?? np_credentialType p)
    (up_rotationIntervalDays dto ?? np_rotationIntervalDays p) (up_rotationBeforeDays dto ?? np_rotationBeforeDays p)
    (up_autoRotate dto ?? np_autoRotate p) (up_maxCredentialAgeDays dto ?? np_maxCredentialAgeDays p)
    (up_maxRequestsPerDay dto ?? np_maxRequestsPerDay p) (up_maxRequestsPerMonth dto ?? np_maxRequestsPerMonth p)
    (up_rateLimitPerMinute dto ?? np_rateLimitPerMinute p) (up_requireCertificate dto ?? np_requireCertificate p)
    (up_requireIpRestriction dto ?? np_requireIpRestriction p) (up_requireAuditLogging dto ?? np_requireAuditLogging p)
    (np_createdAt p).

Section Service.
Context {E : Env}.

(** ** Identities *)

Definition nhi_named (realm : Realm) (name : string) (i : NhiIdentity) : bool :=
  (nhi_realmId i === realm_id realm) && (nhi_name i === name).

Definition create (realm : Realm) (dto : CreateNhiIdentityDto) : M NhiIdentity :=
  (existing <- find_first TNhiIdentity (nhi_named realm (cn_name dto)) ;;
   match existing with
   | Some _ => Throw (Conflict ("NHI identity '" +:+ cn_name dto +:+ "' already exists in realm '" +:+ realm_name realm +:+ "'"))
   | None =>
       Store.create TNhiIdentity (fun id createdAt =>
         mkNhiIdentity id (realm_id realm) (cn_identityType dto ?? "MACHINE_TO_MACHINE") (cn_name dto) (cn_description dto)
           (cn_enabled dto ?? true) (cn_lifecycleStatus dto ?? "PROVISIONING") None None None None None None
           (cn_agentPurpose dto) (cn_permissionScopes dto ?? []) (cn_metadata dto ?? []) (cn_tags dto ?? []) createdAt)
   end)%prog.

Definition findAll (realm : Realm) : M (list NhiIdentity) :=
  find_many_asc TNhiIdentity (fun i => nhi_realmId i === realm_id realm) nhi_createdAt.

Definition findById (realm : Realm) (id : string) : M NhiIdentity :=
  (identity <- find_first TNhiIdentity (fun i => (nhi_id i === id) && (nhi_realmId i === realm_id realm)) ;;
   match identity with
   | Some i => Ret i
   | None => Throw (NotFound ("NHI identity '" +:+ id +:+ "' not found"))
   end)%prog.

Definition stamp_if (status : option string) (s : string) : M (option Z) :=
  (if status === Some s then (now <- date_now ;; Ret (Some now)) else Ret None)%prog.

Definition update (realm : Realm) (id : string) (dto : UpdateNhiIdentityDto) : M NhiIdentity :=
  (findById realm id ;;;
   conflict <- (if truthy (un_name dto)
                then find_first TNhiIdentity (nhi_named realm (un_name dto ?? EmptyString)) else Ret None) ;;
   if match conflict with Some c => nhi_id c !== id | None => false end
   then Throw (Conflict ("NHI identity name '" +:+ (un_name dto ?? EmptyString) +:+ "' already taken in realm '" +:+
                         realm_name realm +:+ "'")) else
   suspendedAt <- stamp_if (un_lifecycleStatus dto) "SUSPENDED" ;;
   decommissionedAt <- stamp_if (un_lifecycleStatus dto) "DECOMMISSIONED" ;;
   update_checked TNhiIdentity (fun i => nhi_id i === id) (apply_nhi_dto dto suspendedAt decommissionedAt))%prog.

Definition remove (realm : Realm) (id : string) : M unit :=
  (findById realm id ;;;
   delete_one TNhiIdentity (fun i => nhi_id i === id) ;;;
   Ret tt)%prog.

Definition suspend (realm : Realm) (id : string) : M NhiIdentity :=
  (findById realm id ;;;
   now <- date_now ;;
   Store.update TNhiIdentity (fun i => nhi_id i === id) (set_suspended now))%prog.

Definition reactivate (realm : Realm) (id : string) : M NhiIdentity :=
  (identity <- findById realm id ;;
   if nhi_lifecycleStatus identity !== "SUSPENDED" then Throw (Conflict "Only suspended identities can be reactivated")
   else Store.update TNhiIdentity (fun i => nhi_id i === id) set_active)%prog.

Definition decommission (realm : Realm) (id : string) : M NhiIdentity :=
  (findById realm id ;;;
   now <- date_now ;;
   update_many TNhiCredential (fun c => nc_nhiIdentityId c === id) (set_nc_revoked now) ;;;
   now <- date_now ;;
   Store.update TNhiIdentity (fun i => nhi_id i === id) (set_decommissioned now))%prog.

(** ** Credentials *)

(** A fresh API key: its prefix, its hash and the key itself. *)
Definition new_key : M (string * string * string) :=
  (rawKey <- generateSecret 32 ;;
   keyHash <- hashPassword rawKey ;;
   Ret (str_take 8 rawKey, keyHash, rawKey))%prog.

(** The stored credential, and the key that is shown once.  The type of the column is
    API_KEY when none is given. *)
Definition createCredential (realm : Realm) (nhiIdentityId : string) (dto : CreateNhiCredentialDto)
  : M (NhiCredential * option string) :=
  (findById realm nhiIdentityId ;;;
   key <- (if cc_credentialType dto === Some "API_KEY" then (k <- new_key ;; Ret (Some k)) else Ret None) ;;
   credential <- Store.create TNhiCredential (fun id createdAt =>
     mkNhiCredential id nhiIdentityId (cc_credentialType dto ?? "API_KEY") (cc_name dto)
       (match key with Some (prefix, _, _) => Some prefix | None => None end)
       (match key with Some (_, hash, _) => Some hash | None => None end)
       (cc_certificatePem dto) (cc_certificateChain dto) (cc_privateKeyPem dto) (cc_jwtSigningAlgorithm dto)
       (cc_jwtIssuer dto) (cc_jwtAudience dto) (cc_expiresAt dto) None (cc_rotationRequired dto ?? false)
       (cc_enabled dto ?? true) false None None 0 (cc_allowedIpRanges dto ?? []) createdAt) ;;
   Ret (credential_view credential, match key with Some (_, _, raw) => Some raw | None => None end))%prog.

Definition listCredentials (realm : Realm) (nhiIdentityId : string) : M (list NhiCredential) :=
  (findById realm nhiIdentityId ;;;
   credentials <- find_many_asc TNhiCredential (fun c => nc_nhiIdentityId c === nhiIdentityId) nc_createdAt ;;
   Ret (map credential_view credentials))%prog.

Definition is_credential (nhiIdentityId credentialId : string) (c : NhiCredential) : bool :=
  (nc_id c === credentialId) && (nc_nhiIdentityId c === nhiIdentityId).

Definition findCredentialById (realm : Realm) (nhiIdentityId credentialId : string) : M NhiCredential :=
  (findById realm nhiIdentityId ;;;
   credential <- find_first TNhiCredential (is_credential nhiIdentityId credentialId) ;;
   match credential with
   | Some c => Ret (credential_view c)
   | None => Throw (NotFound ("Credential '" +:+ credentialId +:+ "' not found"))
   end)%prog.

Definition revoke_row (credentialId : string) : M unit :=
  (now <- date_now ;;
   Store.update TNhiCredential (fun c => nc_id c === credentialId) (set_nc_revoked now) ;;;
   Ret tt)%prog.

Definition revokeCredential (realm : Realm) (nhiIdentityId credentialId : string) : M string :=
  (findCredentialById realm nhiIdentityId credentialId ;;;
   credential <- find_first TNhiCredential (is_credential nhiIdentityId credentialId) ;;
   if match credential with Some c => nc_revoked c | None => false end then Ret "Credential is already revoked" else
   revoke_row credentialId ;;;
   Ret "Credential revoked successfully")%prog.

(** The new credential and its key. *)
Definition rotateCredential (realm : Realm) (nhiIdentityId credentialId : string) : M (NhiCredential * string) :=
  (findCredentialById realm nhiIdentityId credentialId ;;;
   oldCredential <- find_first TNhiCredential (is_credential nhiIdentityId credentialId) ;;
   match oldCredential with
   | None => Throw (NotFound ("Credential '" +:+ credentialId +:+ "' not found"))
   | Some old =>
       if nc_credentialType old !== "API_KEY" then Throw (Conflict "Only API_KEY credentials can be rotated") else
       key <- new_key ;;
       let '(newPrefix, newHash, newRaw) := key in
       newCredential <- Store.create TNhiCredential (successor old newPrefix newHash) ;;
       revoke_row credentialId ;;;
       now <- date_now ;;
       Store.update TNhiCredential (fun c => nc_id c === credentialId) (set_nc_rotated now) ;;;
       Ret (credential_view newCredential, newRaw)
   end)%prog.

(** ** Policies *)

Definition policy_named (realm : Realm) (name : string) (p : NhiCredentialPolicy) : bool :=
  (np_realmId p === realm_id realm) && (np_name p === name).

Definition createPolicy (realm : Realm) (dto : CreateNhiCredentialPolicyDto) : M NhiCredentialPolicy :=
  (existing <- find_first TNhiCredentialPolicy (policy_named realm (cp_name dto)) ;;
   match existing with
   | Some _ => Throw (Conflict ("Credential policy '" +:+ cp_name dto +:+ "' already exists in realm '" +:+ realm_name realm +:+ "'"))
   | None =>
       Store.create TNhiCredentialPolicy (fun id createdAt =>
         mkNhiCredentialPolicy id (realm_id realm) (cp_name dto) (cp_description dto) (cp_enabled dto ?? true)
           (cp_priority dto ?? 0) (cp_credentialType dto ?? "API_KEY") (cp_rotationIntervalDays dto ?? 90)
           (cp_rotationBeforeDays dto ?? 7) (cp_autoRotate dto ?? false) (cp_maxCredentialAgeDays dto ?? 365)
           (cp_maxRequestsPerDay dto) (cp_maxRequestsPerMonth dto) (cp_rateLimitPerMinute dto)
           (cp_requireCertificate dto ?? false) (cp_requireIpRestriction dto ?? false)
           (cp_requireAuditLogging dto ?? true) createdAt)
   end)%prog.

(** [orderBy: [{ priority: 'asc' }, { createdAt: 'asc' }]]. *)
Definition listPolicies (realm : Realm) : M (list NhiCredentialPolicy) :=
  query (fun w => sort_by np_priority (sort_by np_createdAt
    (List.filter (fun p => np_realmId p === realm_id realm) (rows TNhiCredentialPolicy w)))).

Definition findPolicyById (realm : Realm) (policyId : string) : M NhiCredentialPolicy :=
  (policy <- find_first TNhiCredentialPolicy (fun p => (np_id p === policyId) && (np_realmId p === realm_id realm)) ;;
   match policy with
   | Some p => Ret p
   | None => Throw (NotFound ("Credential policy '" +:+ policyId +:+ "' not found"))
   end)%prog.

Definition updatePolicy (realm : Realm) (policyId : string) (dto : UpdateNhiCredentialPolicyDto) : M NhiCredentialPolicy :=
  (findPolicyById realm policyId ;;;
   conflict <- (if truthy (up_name dto)
                then find_first TNhiCredentialPolicy (policy_named realm (up_name dto ?? EmptyString)) else Ret None) ;;
   if match conflict with Some c => np_id c !== policyId | None => false end
   then Throw (Conflict ("Credential policy name '" +:+ (up_name dto ?? EmptyString) +:+ "' already taken in realm '" +:+
                         realm_name realm +:+ "'"))
   else update_checked TNhiCredentialPolicy (fun p => np_id p === policyId) (apply_policy_dto dto))%prog.

Definition removePolicy (realm : Realm) (policyId : string) : M unit :=
  (findPolicyById realm policyId ;;;
   delete_one TNhiCredentialPolicy (fun p => np_id p === policyId) ;;;
   Ret tt)%prog.

(** The enabled policy with the lowest number for the type of the identity. *)
Definition getApplicablePolicy (realm : Realm) (nhiIdentityId : string) : M (option NhiCredentialPolicy) :=
  (identity <- findById realm nhiIdentityId ;;
   let wanted := if nhi_identityType identity === "MACHINE_TO_MACHINE" then "API_KEY" else "CERTIFICATE" in
   policies <- find_many_asc TNhiCredentialPolicy
     (fun p => (np_realmId p === realm_id realm) && np_enabled p && (np_credentialType p === wanted)) np_priority ;;
   Ret (head policies))%prog.

(** ** Rotation *)

Definition add_days (days ms : Z) : Z := ms + days * ONE_DAY_MS.
Definition rotation_date (p : NhiCredentialPolicy) (createdAt : Z) : Z :=
  add_days (np_rotationIntervalDays p - np_rotationBeforeDays p) createdAt.
Definition max_age_date (p : NhiCredentialPolicy) (createdAt : Z) : Z := add_days (np_maxCredentialAgeDays p) createdAt.

Definition isRotationRequired (realm : Realm) (nhiIdentityId credentialId : string) : M bool :=
  (findCredentialById realm nhiIdentityId credentialId ;;;
   policy <- getApplicablePolicy realm nhiIdentityId ;;
   match policy with
   | None => Ret false
   | Some p =>
       credential <- find_first TNhiCredential (is_credential nhiIdentityId credentialId) ;;
       match credential with
       | None => Ret false
       | Some c =>
           if nc_revoked c || negb (nc_enabled c) then Ret false
           else if nc_rotationRequired c then Ret true else
           now <- date_now ;;
           if rotation_date p (nc_createdAt c) <=? now then Ret true else
           now <- date_now ;;
           Ret (max_age_date p (nc_createdAt c) <=? now)
       end
   end)%prog.

(** Credentials of the realm's identities. *)
Definition in_realm (realm : Realm) (w : World) (c : NhiCredential) : bool :=
  existsb (fun i => (nhi_id i === nc_nhiIdentityId c) && (nhi_realmId i === realm_id realm)) (rows TNhiIdentity w).
Definition usable_credentials (realm : Realm) (type : string) (w : World) : list NhiCredential :=
  List.filter (fun c => in_realm realm w c && (nc_credentialType c === type) && negb (nc_revoked c) && nc_enabled c)
    (rows TNhiCredential w).

Record RotationItem := mkRotationItem { ri_credentialId : string; ri_nhiIdentityId : string; ri_policyId : string; ri_reason : string }.

(** One policy after the other; [new Date()] is read for each credential. *)
Fixpoint requiring_rotation (p : NhiCredentialPolicy) (credentials : list NhiCredential) : M (list RotationItem) :=
  match credentials with
  | [] => Ret []
  | c :: credentials =>
      (let item := mkRotationItem (nc_id c) (nc_nhiIdentityId c) (np_id p) in
       if nc_rotationRequired c
       then (rest <- requiring_rotation p credentials ;; Ret (item "rotation_required_flag" :: rest)) else
       now <- date_now ;;
       rest <- requiring_rotation p credentials ;;
       Ret (if rotation_date p (nc_createdAt c) <=? now then item "policy_threshold" :: rest else rest))%prog
  end.
Fixpoint policies_requiring_rotation (realm : Realm) (policies : list NhiCredentialPolicy) : M (list RotationItem) :=
  match policies with
  | [] => Ret []
  | p :: policies =>
      (credentials <- query (usable_credentials realm (np_credentialType p)) ;;
       items <- requiring_rotation p credentials ;;
       rest <- policies_requiring_rotation realm policies ;;
       Ret (items ++ rest))%prog
  end.
Definition getCredentialsRequiringRotation (realm : Realm) : M (list RotationItem) :=
  (policies <- find_many TNhiCredentialPolicy (fun p => (np_realmId p === realm_id realm) && np_enabled p && np_autoRotate p) ;;
   policies_requiring_rotation realm policies)%prog.

(** [Math.ceil(ms / day)]. *)
Definition days_until (date now : Z) : Z := - ((now - date) / ONE_DAY_MS).
Definition if_positive (n : Z) : option Z := if 0 <? n then Some n else None.

Record RotationStatus := mkRotationStatus {
  rs_credentialId : string; rs_nhiIdentityId : string; rs_name : string; rs_createdAt : Z; rs_reason : string;
  rs_rotationRequired : bool; rs_daysUntilRotation : option Z; rs_daysUntilForcedRotation : option Z
}.
Record PolicyRotationStatus := mkPolicyRotationStatus {
  prs_policyId : string; prs_policyName : string; prs_credentialType : string; prs_totalCredentials : Z;
  prs_credentialsRequiringRotation : Z; prs_statuses : list RotationStatus
}.

Definition rotation_status (p : NhiCredentialPolicy) (now : Z) (c : NhiCredential) : RotationStatus :=
  let daysUntilRotation := days_until (rotation_date p (nc_createdAt c)) now in
  let daysUntilForcedRotation := days_until (max_age_date p (nc_createdAt c)) now in
  mkRotationStatus (nc_id c) (nc_nhiIdentityId c) (nc_name c) (nc_createdAt c)
    (if nc_rotationRequired c then "rotation_required_flag"
     else if daysUntilRotation <=? 0 then "policy_threshold"
     else if daysUntilForcedRotation <=? 0 then "max_age_exceeded" else "pending")
    (nc_rotationRequired c || (daysUntilRotation <=? 0) || (daysUntilForcedRotation <=? 0))
    (if_positive daysUntilRotation) (if_positive daysUntilForcedRotation).

Definition getPolicyRotationStatus (realm : Realm) (policyId : string) : M PolicyRotationStatus :=
  (policy <- findPolicyById realm policyId ;;
   credentials <- query (usable_credentials realm (np_credentialType policy)) ;;
   now <- date_now ;;
   let statuses := map (rotation_status policy now) credentials in
   Ret (mkPolicyRotationStatus (np_id policy) (np_name policy) (np_credentialType policy) (Z.of_nat (length credentials))
          (Z.of_nat (length (List.filter rs_rotationRequired statuses))) statuses))%prog.

Record PolicySummary := mkPolicySummary {
  psm_policyId : string; psm_policyName : string; psm_credentialType : string; psm_total : Z;
  psm_requiring : Z; psm_due : Z; psm_must : Z
}.
Record RotationSummary := mkRotationSummary {
  rsm_totalRequiringRotation : Z; rsm_dueForRotation : Z; rsm_mustRotate : Z; rsm_autoRotateEnabled : Z;
  rsm_policies : list PolicySummary
}.
Definition count_by {A} (f : A -> bool) (l : list A) : Z := Z.of_nat (length (List.filter f l)).

Definition policy_summary (p : NhiCredentialPolicy) (now : Z) (credentials : list NhiCredential) : PolicySummary :=
  let due c := days_until (rotation_date p (nc_createdAt c)) now <=? 0 in
  let must c := days_until (max_age_date p (nc_createdAt c)) now <=? 0 in
  mkPolicySummary (np_id p) (np_name p) (np_credentialType p) (Z.of_nat (length credentials))
    (count_by (fun c => nc_rotationRequired c || due c || must c) credentials) (count_by due credentials)
    (count_by must credentials).

(** The policies are looked at one after the other; each adds to the totals. *)
Fixpoint summarize (realm : Realm) (now : Z) (policies : list NhiCredentialPolicy) (acc : RotationSummary) : M RotationSummary :=
  match policies with
  | [] => Ret acc
  | p :: policies =>
      (credentials <- query (usable_credentials realm (np_credentialType p)) ;;
       let s := policy_summary p now credentials in
       summarize realm now policies
         (mkRotationSummary (rsm_totalRequiringRotation acc + psm_requiring s) (rsm_dueForRotation acc + psm_due s)
            (rsm_mustRotate acc + psm_must s)
            (rsm_autoRotateEnabled acc + (if np_autoRotate p then psm_total s else 0)) (rsm_policies acc ++ [s])))%prog
  end.
Definition getRotationStatusSummary (realm : Realm) : M RotationSummary :=
  (policies <- find_many TNhiCredentialPolicy (fun p => (np_realmId p === realm_id realm) && np_enabled p) ;;
   now <- date_now ;;
   summarize realm now policies (mkRotationSummary 0 0 0 0 []))%prog.

(** ** Usage *)

Definition getUsageStats (realm : Realm) (nhiIdentityId : string) : M (Z * option Z * list NhiCredential) :=
  (findById realm nhiIdentityId ;;;
   found <- find_first TNhiUsageStats (fun s => nus_nhiIdentityId s === nhiIdentityId) ;;
   stats <- match found with
            | Some s => Ret s
            | None => Store.create TNhiUsageStats (fun id _ => mkNhiUsageStats id nhiIdentityId 0 None)
            end ;;
   credentials <- find_many_asc TNhiCredential (fun c => nc_nhiIdentityId c === nhiIdentityId) nc_createdAt ;;
   Ret (foldl (fun sum c => sum + nc_requestCount c) 0 credentials, nus_lastActiveAt (stats : NhiUsageStats),
        map credential_view credentials))%prog.

(** ** Certificates *)

(** [parseCertificateInfo] of the service: the validator's, without an issuer. *)
Definition parse_certificate (pem : string) (now : Z) : exc + CertificateInfo :=
  match index_of PEM_BEGIN pem with
  | None => inl (BadRequest "Invalid certificate format: missing PEM header")
  | Some _ =>
      match der_content pem with
      | None => inl (BadRequest "Invalid certificate format")
      | Some der => inr (certificate_info "CN=Unknown Issuer" pem der now)
      end
  end.
Definition parseCertificate (pem : string) : M CertificateInfo :=
  (now <- date_now ;;
   match parse_certificate pem now with inl e => Throw e | inr info => Ret info end)%prog.

Definition setCertificate (realm : Realm) (nhiIdentityId certificatePem : string) : M NhiIdentity :=
  (findById realm nhiIdentityId ;;;
   info <- (if certificatePem === EmptyString then Ret None else (i <- parseCertificate certificatePem ;; Ret (Some i))) ;;
   Store.update TNhiIdentity (fun i => nhi_id i === nhiIdentityId)
     (match info with
      | Some c => set_certificate (Some (ci_subject c)) (Some (ci_fingerprint c)) (Some (ci_notBefore c)) (Some (ci_notAfter c))
      | None => set_certificate None None None None
      end))%prog.

Definition validateCertificate (certificatePem : string) : M ValidationResult :=
  (parse_now <- date_now ;;
   now <- date_now ;;
   Ret (match parse_certificate certificatePem parse_now with
        | inl (BadRequest m) => Invalid m
        | inl _ => Invalid "Invalid certificate format"
        | inr info =>
            if now <? ci_notBefore info then Invalid "Certificate is not yet valid (notBefore is in the future)"
            else if ci_notAfter info <? now then Invalid "Certificate has expired"
            else Valid info
        end))%prog.

Inductive CertificateKeyAlgorithm := RSA_2048 | RSA_4096 | ECDSA_P256 | ECDSA_P384.
Definition parseKeyAlgorithm (algorithm : option string) : CertificateKeyAlgorithm :=
  match option_map to_upper algorithm with
  | Some a =>
      if a === "RSA_2048" then RSA_2048 else if a === "RSA_4096" then RSA_4096
      else if a === "ECDSA_P384" then ECDSA_P384 else ECDSA_P256
  | None => ECDSA_P256
  end.
Definition signing_algorithm (a : CertificateKeyAlgorithm) : string :=
  match a with ECDSA_P384 => "SHA384" | _ => "SHA256" end.

Record GenerateCertificateDto := mkGenerateCertificate {
  gc_commonName : option string; gc_organizationalUnit : option string; gc_organization : option string;
  gc_locality : option string; gc_state : option string; gc_country : option string;
  gc_keyAlgorithm : option CertificateKeyAlgorithm; gc_validityDays : option Z; gc_isCertificateAuthority : option bool
}.

Definition CERTIFICATE_NEWLINE : string := String "010"%char EmptyString.

(** [buf.toString('base64')], in lines of 64 characters. *)
Definition b64_char (n : N) : ascii :=
  if (n =? 62)%N then "+"%char else if (n =? 63)%N then "/"%char else b64url_char n.
Fixpoint to_base64 (s : string) : string :=
  match s with
  | String a (String b (String c s')) =>
      let n := (65536 * N_of_ascii a + 256 * N_of_ascii b + N_of_ascii c)%N in
      String (b64_char (n / 262144)) (String (b64_char (n / 4096 mod 64)) (String (b64_char (n / 64 mod 64))
        (String (b64_char (n mod 64)) (to_base64 s'))))
  | String a (String b EmptyString) =>
      let n := (1024 * N_of_ascii a + 4 * N_of_ascii b)%N in
      String (b64_char (n / 4096)) (String (b64_char (n / 64 mod 64)) (String (b64_char (n mod 64)) "="))
  | String a EmptyString =>
      let n := (16 * N_of_ascii a)%N in String (b64_char (n / 64)) (String (b64_char (n mod 64)) "==")
  | EmptyString => EmptyString
  end.
Fixpoint chunks (fuel : nat) (s : string) : list string :=
  match fuel with
  | O => []
  | S fuel => if s === EmptyString then [] else str_take 64 s :: chunks fuel (str_drop 64 s)
  end.
Definition base64_lines (s : string) : string :=
  js_join CERTIFICATE_NEWLINE (chunks (String.length (to_base64 s)) (to_base64 s)).

(** [createMinimalCertificate]: a JSON text between PEM markers. *)
Definition tbs_certificate (subject publicKeyPem serialNumber algorithm : string) (notBefore notAfter : Z) (isCA : bool) : json :=
  JObj [("version", JNum 3); ("serialNumber", JStr serialNumber); ("signature", JObj [("algorithm", JStr algorithm)]);
        ("issuer", JObj [("CN", JStr subject)]);
        ("validity", JObj [("notBefore", JStr (to_iso notBefore)); ("notAfter", JStr (to_iso notAfter))]);
        ("subject", JObj [("CN", JStr subject)]); ("publicKey", JStr publicKeyPem);
        ("extensions", JObj [("basicConstraints", JStr (if isCA then "CA:TRUE" else "CA:FALSE"));
                             ("keyUsage", JStr "digitalSignature,keyEncipherment");
                             ("extKeyUsage", JStr "serverAuth,clientAuth")])].
Definition minimal_certificate (v : json) : string :=
  js_join CERTIFICATE_NEWLINE [PEM_BEGIN; base64_lines (JSON_stringify v); PEM_END].

Context (generateKeyPair : CertificateKeyAlgorithm -> nat -> string * string).

(** A public and a private key, by draw number. *)
Definition new_key_pair (a : CertificateKeyAlgorithm) : M (string * string) :=
  atom (fun w => (generateKeyPair a (w_draws w), next_draw w)).

Definition label_if (label : string) (v : option string) : list string :=
  if truthy v then [label +:+ (v ?? EmptyString)] else [].

(** The certificate, the private key and the information. *)
Definition generateDeviceCertificate (dto : GenerateCertificateDto) : M (string * string * CertificateInfo) :=
  (let keyAlgorithm := gc_keyAlgorithm dto ?? ECDSA_P256 in
   let validityDays := gc_validityDays dto ?? 365 in
   let subjectParts := label_if "CN=" (gc_commonName dto) ++ label_if "OU=" (gc_organizationalUnit dto) ++
     label_if "O=" (gc_organization dto) ++ label_if "L=" (gc_locality dto) ++ label_if "ST=" (gc_state dto) ++
     label_if "C=" (gc_country dto) in
   subject <- (match subjectParts with
               | [] => (r <- random_hex 4 ;; Ret ("CN=device-" +:+ r))
               | _ => Ret (js_join ", " subjectParts)
               end) ;;
   keyPair <- new_key_pair keyAlgorithm ;;
   now <- date_now ;;
   let notBefore := add_days (-1) now in
   now <- date_now ;;
   let notAfter := add_days validityDays now in
   serialNumber <- random_hex 16 ;;
   let certificate := minimal_certificate (tbs_certificate subject keyPair.1 serialNumber (signing_algorithm keyAlgorithm)
     notBefore notAfter (gc_isCertificateAuthority dto ?? false)) in
   info <- parseCertificate certificate ;;
   Ret (certificate, keyPair.2, info))%prog.

(** ** Bulk registration *)

Record BulkDevice := mkBulkDevice {
  bd_name : string; bd_description : option string; bd_enabled : option bool; bd_metadata : option obj;
  bd_tags : option (list string); bd_permissionScopes : option (list string); bd_environment : option string;
  bd_generateCertificate : option bool; bd_certificateKeyAlgorithm : option string; bd_certificateValidityDays : option Z
}.
Record BulkResult := mkBulkResult {
  br_name : string; br_id : string; br_success : bool; br_error : option string;
  br_metadata : option obj; br_certificate : option (string * string * CertificateInfo)
}.
Record BulkResponse := mkBulkResponse {
  bp_total : Z; bp_successful : Z; bp_failed : Z; bp_results : list BulkResult; bp_warning : option string
}.

Context (error_message : exc -> string).

Definition device_row (realm : Realm) (d : BulkDevice) (id : string) (createdAt : Z) : NhiIdentity :=
  mkNhiIdentity id (realm_id realm) "IOT_DEVICE" (bd_name d) (bd_description d) (bd_enabled d ?? true) "PROVISIONING"
    None None None None None None None (bd_permissionScopes d ?? []) (bd_metadata d ?? []) (bd_tags d ?? []) createdAt.

(** What the [try] block has filled in when the certificate fails: the identity is there. *)
Definition register_device (realm : Realm) (d : BulkDevice) : M BulkResult :=
  (let failed id message := mkBulkResult (bd_name d) id false (Some message) None None in
   catch
     (existing <- find_first TNhiIdentity (nhi_named realm (bd_name d)) ;;
      match existing with
      | Some i => Ret (failed (nhi_id i) "NHI identity already exists")
      | None =>
          identity <- Store.create TNhiIdentity (device_row realm d) ;;
          let metadata := Some (nhi_metadata identity) in
          if bd_generateCertificate d ?? false then
            catch
              (certificate <- generateDeviceCertificate
                 (mkGenerateCertificate (Some (bd_name d)) (bd_environment d) None None None None
                    (Some (parseKeyAlgorithm (bd_certificateKeyAlgorithm d))) (Some (bd_certificateValidityDays d ?? 365)) None) ;;
               Ret (mkBulkResult (bd_name d) (nhi_id identity) true None metadata (Some certificate)))
              (fun error => Ret (mkBulkResult (bd_name d) (nhi_id identity) false (Some (error_message error)) metadata None))
          else Ret (mkBulkResult (bd_name d) (nhi_id identity) true None metadata None)
      end)
     (fun error => Ret (failed EmptyString (error_message error))))%prog.

Fixpoint register_all (realm : Realm) (devices : list BulkDevice) : M (list BulkResult) :=
  match devices with
  | [] => Ret []
  | d :: devices =>
      (r <- register_device realm d ;;
       rest <- register_all realm devices ;;
       Ret (r :: rest))%prog
  end.

Definition bulk_response (total : Z) (results : list BulkResult) : BulkResponse :=
  let failed := count_by (fun r => negb (br_success r)) results in
  mkBulkResponse total (count_by br_success results) failed results
    (if 0 <? failed then Some (to_base 10 failed +:+ " device(s) failed to register") else None).

Definition bulkRegistration (realm : Realm) (devices : list BulkDevice) (maxItems : option nat) : M BulkResponse :=
  (results <- register_all realm (take (maxItems ?? 1000%nat) devices) ;;
   Ret (bulk_response (Z.of_nat (length devices)) results))%prog.
End Service.

Lemma new_key_pair_footprint ts keyPair a : stable (frame ts) (new_key_pair keyPair a).
Proof. apply stable_atom. simpl. by repeat split. Qed.
#[export] Hint Resolve new_key_pair_footprint : footprint.

Example base64_texts : map to_base64 ["Man"; "Ma"; "M"] = ["TWFu"; "TWE="; "TQ=="].
Proof. reflexivity. Qed.
