(* ===== verification/NhiScheduler.v ===== *)
(** * NhiScheduler: automatic rotation and the audit log of machine identities
      (src/src/nhi/nhi-rotation.scheduler.ts, src/src/nhi/nhi-audit.service.ts)

    The tick starts the realms, and the credentials of a realm, together and waits for
    all of them; the model takes them one after the other, and runs of several ticks are
    interleaved step by step. *)

From S2P Require Import Prelude Prog JsText Json Schema Store StoreFacts Crypto Nhi Testbed.

Definition BATCH_SIZE : nat := 50.

Record DueItem := mkDueItem { du_credentialId : string; du_nhiIdentityId : string; du_policyId : string; du_reason : string }.

Definition set_nc_retired (now : Z) (c : NhiCredential) : NhiCredential :=
  nc_with (Some now) false true (Some now) (nc_keyHash c) c.

Section Scheduler.
Context {E : Env}.

(** ** What is due *)

(** The first rows, in no particular order, that are usable and not rotated. *)
Definition candidates (realm : Realm) (type : string) (w : World) : list NhiCredential :=
  take BATCH_SIZE
    (List.filter (fun c => in_realm realm w c && (nc_credentialType c === type) && negb (nc_revoked c) && nc_enabled c &&
                           (nc_rotatedAt c === None)) (rows TNhiCredential w)).

Definition isDueForRotation (p : NhiCredentialPolicy) (c : NhiCredential) : M bool :=
  (if nc_rotationRequired c then Ret true else
   now <- date_now ;;
   Ret (rotation_date p (nc_createdAt c) <=? now))%prog.

Fixpoint due_of_policy (p : NhiCredentialPolicy) (l : list NhiCredential) : M (list DueItem) :=
  match l with
  | [] => Ret []
  | c :: l =>
      (due <- isDueForRotation p c ;;
       rest <- due_of_policy p l ;;
       Ret (if due : bool then mkDueItem (nc_id c) (nc_nhiIdentityId c) (np_id p)
              (if nc_rotationRequired c then "rotation_required_flag" else "policy_threshold") :: rest else rest))%prog
  end.
Fixpoint due_of_policies (realm : Realm) (policies : list NhiCredentialPolicy) : M (list DueItem) :=
  match policies with
  | [] => Ret []
  | p :: policies =>
      (l <- query (candidates realm (np_credentialType p)) ;;
       due <- due_of_policy p l ;;
       rest <- due_of_policies realm policies ;;
       Ret (due ++ rest))%prog
  end.
Definition getCredentialsDueForRotation (realm : Realm) : M (list DueItem) :=
  (policies <- find_many TNhiCredentialPolicy (fun p => (np_realmId p === realm_id realm) && np_enabled p && np_autoRotate p) ;;
   due_of_policies realm policies)%prog.

(** ** Rotation of one credential *)

Definition rotatable (realm : Realm) (credentialId : string) (w : World) (c : NhiCredential) : bool :=
  (nc_id c === credentialId) && in_realm realm w c && (nc_credentialType c === "API_KEY") && negb (nc_revoked c) && nc_enabled c.

(** Whether a successor was issued. *)
Definition rotateCredential (realm : Realm) (credentialId : string) : M bool :=
  (oldCredential <- query (fun w => List.find (rotatable realm credentialId w) (rows TNhiCredential w)) ;;
   match oldCredential with
   | None => Ret false
   | Some old =>
       key <- new_key ;;
       let '(newPrefix, newHash, _) := key in
       Store.create TNhiCredential (successor old newPrefix newHash) ;;;
       now <- date_now ;;
       Store.update TNhiCredential (fun c => nc_id c === credentialId) (set_nc_retired now) ;;;
       Ret true
   end)%prog.

(** An error is logged. *)
Definition rotateCredentialItem (realm : Realm) (item : DueItem) : M unit :=
  catch (rotateCredential realm (du_credentialId item) ;;; Ret tt)%prog (fun _ => Ret tt).

(** ** The tick *)

Definition processRealmRotations (realm : Realm) : M unit :=
  catch (due <- getCredentialsDueForRotation realm ;; for_each due (rotateCredentialItem realm))%prog (fun _ => Ret tt).

Definition processRotations : M unit :=
  (realms <- find_many TRealm realm_enabled ;;
   for_each realms processRealmRotations)%prog.

(** ** The audit log *)

Record RecordNhiAuditParams := mkNhiAuditParams {
  nap_realmId : string; nap_nhiIdentityId : string; nap_action : string; nap_credentialId : option string;
  nap_ipAddress : option string; nap_userAgent : option string; nap_success : option bool; nap_errorCode : option string;
  nap_details : option obj
}.
Record QueryNhiAuditParams := mkNhiAuditQuery {
  naq_realmId : string; naq_nhiIdentityId : option string; naq_action : option string; naq_success : option bool;
  naq_dateFrom : option Z; naq_dateTo : option Z; naq_first : option nat; naq_max : option nat
}.

Definition recordAudit (p : RecordNhiAuditParams) : M unit :=
  catch
    (Store.create TNhiAuditLog (fun id createdAt =>
       mkNhiAuditLog id (nap_realmId p) (nap_nhiIdentityId p) (nap_action p) (nap_credentialId p) (nap_ipAddress p)
         (nap_userAgent p) (nap_success p ?? true) (nap_errorCode p) (nap_details p) createdAt) ;;;
     Ret tt)%prog
    (fun _ => Ret tt).

(** A filter that is missing, or an empty string, holds of every row. *)
Definition text_filter (f : option string) (v : string) : bool := negb (truthy f) || bool_decide (f = Some v).
Definition audit_matches (q : QueryNhiAuditParams) (l : NhiAuditLog) : bool :=
  (nal_realmId l === naq_realmId q) && text_filter (naq_nhiIdentityId q) (nal_nhiIdentityId l) &&
  text_filter (naq_action q) (nal_action l) &&
  match naq_success q with Some b => Bool.eqb (nal_success l) b | None => true end &&
  match naq_dateFrom q with Some d => d <=? nal_createdAt l | None => true end &&
  match naq_dateTo q with Some d => nal_createdAt l <=? d | None => true end.

Definition queryAuditLogs (q : QueryNhiAuditParams) : M (list NhiAuditLog) :=
  (logs <- find_many_desc TNhiAuditLog (audit_matches q) nal_createdAt ;;
   Ret (take (naq_max q ?? 100%nat) (drop (naq_first q ?? 0%nat) logs)))%prog.

Definition clearAuditLogs (realmId : string) (nhiIdentityId : option string) : M unit :=
  (delete_many TNhiAuditLog (fun l => (nal_realmId l === realmId) && text_filter nhiIdentityId (nal_nhiIdentityId l)) ;;;
   Ret tt)%prog.
End Scheduler.
