(* ===== verification/NhiFacts.v ===== *)
(** * NhiFacts: what the administration and the rotation of machine identities guarantee

    Revocation is final, whatever administrators and schedulers do at the same time; a
    credential is succeeded once; decommissioning revokes everything; and the handlers of
    a realm stay within it. *)

From S2P Require Import Prelude Prog JsText Json Schema Store StoreFacts Tenancy Crypto ServiceAccounts Certificates Nhi NhiScheduler Testbed.

(** ** Revocation is final *)

(** A credential with this id is revoked, and no new row will get the id. *)
Record revoked_for_good {E : Env} (id : string) (w : World) : Prop := {
  rfg_revoked c : c ∈ rows TNhiCredential w -> nc_id c = id -> nc_revoked c = true;
  rfg_fresh n : (w_uuids w <= n)%nat -> uuid n <> id
}.

(** What happens to machine identities. *)
Inductive NhiChange :=
| CreateIdentity (realm : Realm) (dto : CreateNhiIdentityDto)
| UpdateIdentity (realm : Realm) (id : string) (dto : UpdateNhiIdentityDto)
| RemoveIdentity (realm : Realm) (id : string)
| Suspend (realm : Realm) (id : string)
| Reactivate (realm : Realm) (id : string)
| Decommission (realm : Realm) (id : string)
| CreateCredential (realm : Realm) (identityId : string) (dto : CreateNhiCredentialDto)
| RevokeCredential (realm : Realm) (identityId id : string)
| RotateCredential (realm : Realm) (identityId id : string)
| SetCertificate (realm : Realm) (identityId pem : string)
| RegisterDevices (realm : Realm) (devices : list BulkDevice) (maxItems : option nat)
| SchedulerTick.

Section Revocation.
Context {E : Env} (generateKeyPair : CertificateKeyAlgorithm -> nat -> string * string) (error_message : exc -> string).

Definition perform (change : NhiChange) : M unit :=
  (match change with
   | CreateIdentity realm dto => create realm dto ;;; Ret tt
   | UpdateIdentity realm id dto => update realm id dto ;;; Ret tt
   | RemoveIdentity realm id => remove realm id
   | Suspend realm id => suspend realm id ;;; Ret tt
   | Reactivate realm id => reactivate realm id ;;; Ret tt
   | Decommission realm id => decommission realm id ;;; Ret tt
   | CreateCredential realm identityId dto => createCredential realm identityId dto ;;; Ret tt
   | RevokeCredential realm identityId id => revokeCredential realm identityId id ;;; Ret tt
   | RotateCredential realm identityId id => Nhi.rotateCredential realm identityId id ;;; Ret tt
   | SetCertificate realm identityId pem => setCertificate realm identityId pem ;;; Ret tt
   | RegisterDevices realm devices maxItems => bulkRegistration generateKeyPair error_message realm devices maxItems ;;; Ret tt
   | SchedulerTick => processRotations
   end)%prog.

Context (cid : string).

Definition keeps_revoked (w w' : World) : Prop := revoked_for_good cid w -> revoked_for_good cid w'.
#[export] Instance keeps_revoked_preorder : PreOrder keeps_revoked.
Proof. split; unfold keeps_revoked; [by intros w|]. intros a b c H1 H2 Ha. auto. Qed.

Lemma frame_keeps_revoked ts w w' : includes TNhiCredential ts = false -> frame ts w w' -> keeps_revoked w w'.
Proof.
  intros Ht F [H1 H2]. split.
  - intros c. rewrite (frame_rows _ _ _ _ F Ht). apply H1.
  - destruct F as (_ & _ & _ & _ & Hle). intros n Hn. apply H2. lia.
Qed.

Lemma stable_other {A} ts (p : M A) : stable (frame ts) p -> includes TNhiCredential ts = false -> stable keeps_revoked p.
Proof. intros Hp Ht. revert Hp. apply stable_mono. intros w w'. by apply frame_keeps_revoked. Qed.

Lemma stable_create_credential mk :
  (forall id now, nc_id (mk id now) = id) -> stable keeps_revoked (Store.create TNhiCredential mk).
Proof.
  intros Hmk. split; [|by intros [e|r]]. intros w [H1 H2]. destruct (w_db_up w); [|by split]. cbn [snd].
  destruct (unique_ok _ _ _); [|by split]. cbn [snd]. split.
  - intros c. rewrite rows_with_rows_eq. intros [Hc|Hc]%elem_of_app; [by apply H1|].
    apply list_elem_of_singleton in Hc as ->. rewrite Hmk. intros Hid. by destruct (H2 (w_uuids w)).
  - intros n. change (w_uuids (with_rows _ _ (next_uuid w))) with (S (w_uuids w)). intros Hn. apply H2. lia.
Qed.

Lemma stable_update_credentials p f :
  (forall c, nc_id (f c) = nc_id c /\ (nc_revoked c = true -> nc_revoked (f c) = true)) ->
  stable keeps_revoked (update_many TNhiCredential p f).
Proof.
  intros Hf. split; [|by intros [e|r]]. intros w [H1 H2]. destruct (w_db_up w); [|by split]. cbn [snd]. split; [|exact H2].
  intros c. rewrite rows_with_rows_eq. unfold update_all. intros (c0 & -> & Hc)%list_elem_of_fmap.
  destruct (p c0); [|by apply H1]. destruct (Hf c0) as [-> Hr]. intros Hid. by apply Hr, H1.
Qed.

Lemma stable_update_credential p f :
  (forall c, nc_id (f c) = nc_id c /\ (nc_revoked c = true -> nc_revoked (f c) = true)) ->
  stable keeps_revoked (Store.update TNhiCredential p f).
Proof.
  intros Hf. split; [|by intros [e|r]]. intros w [H1 H2]. destruct (w_db_up w); [|by split].
  destruct (List.find _ _) as [r|]; [|by split]. cbn [snd]. split; [|exact H2].
  intros c. rewrite rows_with_rows_eq. intros [Hc|(c0 & [Hc _]%find_elem & ->)]%elem_of_update_first; [by apply H1|].
  destruct (Hf c0) as [-> Hr]. intros Hid. by apply Hr, H1.
Qed.

(** Removing an identity removes its credentials. *)
Lemma stable_delete_identity p : stable keeps_revoked (delete_one TNhiIdentity p).
Proof.
  split; [|by intros [e|r]]. intros w [H1 H2]. destruct (w_db_up w); [|by split].
  destruct (List.find _ _) as [r|]; [|by split]. cbn [snd]. split; [|exact H2].
  intros c. unfold rows at 1, with_tables. cbn [w_tables on_delete]. rewrite drop_rows_eq, drop_rows_ne, set_table_ne by done.
  intros [_ Hc]%elem_of_filter_list. by apply H1.
Qed.

#[local] Hint Resolve stable_create_credential stable_update_credentials stable_update_credential
  stable_delete_identity : revoked.
#[local] Hint Extern 1 (stable keeps_revoked _) =>
  solve [apply (stable_other [TNhiIdentity; TNhiCredentialPolicy; TNhiUsageStats]); [footprint|done]] : revoked.

Ltac keeps_revoked :=
  intros; cbv zeta;
  repeat match goal with
  | |- stable _ (bind _ _) => apply stable_bind; [|intros]
  | |- stable _ (catch _ _) => apply stable_catch; [|intros]
  | |- stable _ (for_each _ _) => apply stable_for_each; intros
  | |- stable _ (Ret _) => exact I
  | |- stable _ (Throw _) => exact I
  | |- stable _ (if ?b then _ else _) => destruct b
  | |- stable _ (match ?x with _ => _ end) => destruct x
  | |- stable _ _ => solve [auto with revoked]
  end.

Lemma stable_findById realm id : stable keeps_revoked (findById realm id).
Proof. apply (stable_other []); [|done]. unfold findById. footprint. Qed.
Lemma stable_new_key : stable keeps_revoked new_key.
Proof. apply (stable_other []); [|done]. unfold new_key. footprint. Qed.
#[local] Hint Resolve stable_findById stable_new_key : revoked.

Lemma stable_revoke_row id : stable keeps_revoked (revoke_row id).
Proof. unfold revoke_row. keeps_revoked. Qed.
Lemma stable_findCredentialById realm i id : stable keeps_revoked (findCredentialById realm i id).
Proof. unfold findCredentialById. keeps_revoked. Qed.
#[local] Hint Resolve stable_revoke_row stable_findCredentialById : revoked.

Lemma stable_rotate realm i id : stable keeps_revoked (Nhi.rotateCredential realm i id).
Proof. unfold Nhi.rotateCredential. keeps_revoked. Qed.
Lemma stable_scheduler_rotate realm id : stable keeps_revoked (NhiScheduler.rotateCredential realm id).
Proof. unfold NhiScheduler.rotateCredential. keeps_revoked. Qed.
#[local] Hint Resolve stable_rotate stable_scheduler_rotate : revoked.

Lemma due_of_policies_footprint realm policies : stable (frame []) (due_of_policies realm policies).
Proof.
  induction policies as [|p policies IH]; cbn [due_of_policies]; [done|]. apply stable_bind; [apply query_footprint|intros l].
  apply stable_bind; [|intros due; by apply stable_bind].
  induction l as [|c l IHl]; cbn [due_of_policy]; [done|]. unfold isDueForRotation.
  apply stable_bind; [footprint|intros b]. by apply stable_bind.
Qed.
Lemma stable_tick : stable keeps_revoked processRotations.
Proof.
  unfold processRotations, processRealmRotations, rotateCredentialItem, getCredentialsDueForRotation. keeps_revoked.
  apply (stable_other []); [apply due_of_policies_footprint|done].
Qed.
Lemma stable_bulk realm devices n : stable keeps_revoked (bulkRegistration generateKeyPair error_message realm devices n).
Proof.
  unfold bulkRegistration. apply stable_bind; [|done].
  induction (take _ devices) as [|d l IH]; cbn [register_all]; [done|]. apply stable_bind; [|by intros; apply stable_bind].
  apply (stable_other [TNhiIdentity]); [|done].
  unfold register_device, generateDeviceCertificate, parseCertificate. footprint.
Qed.
#[local] Hint Resolve stable_tick stable_bulk : revoked.

Lemma perform_keeps_revoked change : stable keeps_revoked (perform change).
Proof.
  destruct change; unfold perform; try solve [keeps_revoked];
    unfold create, update, remove, suspend, reactivate, decommission, createCredential, revokeCredential,
      setCertificate, parseCertificate, stamp_if; keeps_revoked.
Qed.
End Revocation.

(** C26. Revocation is final: however administrators and schedulers work at the same time,
    a credential that is revoked stays revoked or disappears with its identity. *)
Theorem revocation_is_final {E : Env} keyPair message id env w w' (changes : list NhiChange) pool :
  (forall a b, env a b -> revoked_for_good id a -> revoked_for_good id b) ->
  revoked_for_good id w ->
  psteps env (w, map (perform keyPair message) changes) (w', pool) ->
  revoked_for_good id w'.
Proof.
  intros Henv Hw Hs. apply (psteps_stable env (keeps_revoked id)) in Hs as [Hk _].
  - by apply Hk.
  - exact Henv.
  - apply Forall_map, Forall_true. intros c. apply perform_keeps_revoked.
Qed.

Definition nhi0 : NhiIdentity :=
  mkNhiIdentity "nhi-1" "realm-1" "MACHINE_TO_MACHINE" "ci-runner" None true "ACTIVE" None None None None None None None [] [] [] 0.
Definition credential0 (revoked : bool) : NhiCredential :=
  mkNhiCredential "nc-1" "nhi-1" "API_KEY" "deploy" (Some "abcdefgh") (Some "argon:k") None None None None None None None None
    true (negb revoked) revoked None None 0 [] 0.
Definition policy0 : NhiCredentialPolicy :=
  mkNhiCredentialPolicy "np-1" "realm-1" "keys" None true 0 "API_KEY" 90 7 true 365 None None None false false true 0.
Definition nhi_world (revoked : bool) : World :=
  with_rows TNhiCredentialPolicy [policy0] (with_rows TNhiCredential [credential0 revoked] (with_rows TNhiIdentity [nhi0] world1)).
Definition test_keys (a : CertificateKeyAlgorithm) (draw : nat) : string * string := ("public", "private").
Definition test_message (e : exc) : string := "error".

Example revocation_is_final_witness :
  let c := schedule [0; 1; 0; 1; 0; 1; 0; 1; 0; 1; 0; 0; 0]%nat
    (nhi_world true, map (perform (E:=test_env) test_keys test_message) [RotateCredential realm0 "nhi-1" "nc-1"; Suspend realm0 "nhi-1"]) in
  map (fun c => (nc_id c, nc_revoked c)) (rows TNhiCredential c.1) = [("nc-1", true); ("id-0", false)] /\
  revoked_for_good (E:=test_env) "nc-1" c.1.
Proof.
  cbv zeta. split; [vm_compute; reflexivity|].
  refine (revocation_is_final (E:=test_env) test_keys test_message "nc-1" (fun a b => a = b) (nhi_world true) _
    [RotateCredential realm0 "nhi-1" "nc-1"; Suspend realm0 "nhi-1"] _ _ _ _).
  - by intros a b ->.
  - split; [|by intros n _]. intros c Hc _. change (c ∈ [credential0 true]) in Hc. by apply list_elem_of_singleton in Hc as ->.
  - rewrite <- surjective_pairing. apply schedule_psteps.
Defined.

(** ** Rotation and decommissioning *)

Section Steps.
Context {E : Env}.

Lemma run_findById_inr realm id w i w' :
  run (findById realm id) w = (inr i, w') ->
  w' = w /\ w_db_up w = true /\ i ∈ rows TNhiIdentity w /\ nhi_id i = id /\ nhi_realmId i = realm_id realm.
Proof.
  unfold findById. intros Hr. apply run_bind_inr in Hr as (o & w1 & Ho & Hr). run_stmt_inv Ho. subst o.
  destruct (List.find _ _) as [x|] eqn:Hx; [|by run_stmt_inv Hr]. injection Hr as -> ->.
  apply find_elem in Hx as [Hin [? ?]%owned_guard]. done.
Qed.

Lemma run_findCredentialById_inr realm i id w c w' :
  run (findCredentialById realm i id) w = (inr c, w') ->
  w' = w /\ w_db_up w = true /\
  exists identity, identity ∈ rows TNhiIdentity w /\ nhi_id identity = i /\ nhi_realmId identity = realm_id realm.
Proof.
  unfold findCredentialById. intros Hr. apply run_bind_inr in Hr as (x & w1 & Hx & Hr).
  apply run_findById_inr in Hx as (-> & Hup & Hx). apply run_bind_inr in Hr as (o & w2 & Ho & Hr). run_stmt_inv Ho.
  destruct o; [|by run_stmt_inv Hr]. injection Hr as _ <-. split; [done|]. split; [done|]. by exists x.
Qed.

Lemma run_new_key_inr w p h k w' :
  run new_key w = (inr (p, h, k), w') ->
  k = to_hex (random_bytes 32 (w_draws w)) /\ p = str_take 8 k /\ h = argon2_hash (S (w_draws w)) k /\
  w' = next_draw (next_draw w).
Proof.
  unfold new_key, generateSecret, hashPassword. intros Hr. apply run_bind_inr in Hr as (raw & w1 & Hraw & Hr).
  run_stmt_inv Hraw. apply run_bind_inr in Hr as (h' & w2 & Hh & Hr). cbn [fst snd] in *.
  destruct (_ <? _)%nat; [by run_stmt_inv Hh|]. apply run_atom_inr in Hh as [-> ->]. by injection Hr as <- <- <- <-.
Qed.
End Steps.

Lemma update_first_twice {A} (p : A -> bool) f g (l : list A) :
  (forall y, p (f y) = p y) -> update_first p g (update_first p f l) = update_first p (fun x => g (f x)) l.
Proof.
  intros Hf. induction l as [|y l IH]; simpl; [done|]. destruct (p y) eqn:Hp; simpl; [by rewrite Hf, Hp|].
  rewrite Hp. by rewrite IH.
Qed.
Lemma update_first_app {A} (p : A -> bool) f (l r : list A) :
  (exists x, x ∈ l /\ p x = true) -> update_first p f (l ++ r) = update_first p f l ++ r.
Proof.
  intros (x & Hx & Hp). induction l as [|y l IH]; simpl; [set_solver|]. destruct (p y) eqn:Hy; [done|].
  rewrite IH; [done|]. apply elem_of_cons in Hx as [->|Hx]; [congruence|done].
Qed.

Lemma run_revoke_row_inr {E : Env} id w u w' :
  run (revoke_row id) w = (inr u, w') ->
  w' = with_rows TNhiCredential (update_first (fun c => nc_id c === id) (set_nc_revoked (w_now w)) (rows TNhiCredential w)) w.
Proof.
  unfold revoke_row. intros Hr. apply run_bind_inr in Hr as (now & w1 & Hnow & Hr). run_stmt_inv Hnow.
  apply run_bind_inr in Hr as (c & w2 & Hc & Hr). run_stmt_inv Hc. by injection Hr as _ <-.
Qed.

Definition same_id (id : string) (c : NhiCredential) : bool := nc_id c === id.
Definition set_nc_succeeded (now : Z) (c : NhiCredential) : NhiCredential := set_nc_rotated now (set_nc_revoked now c).

Lemma stable_rotate_frame {E : Env} realm i id : stable (frame [TNhiCredential]) (Nhi.rotateCredential realm i id).
Proof. unfold Nhi.rotateCredential, findCredentialById, findById, new_key, revoke_row. footprint. Qed.

(** A rotation that succeeds took an API key of this identity of the realm, and does
    exactly two things: it appends one row, enabled, unrevoked and with a fresh key that is
    returned and stored as its hash, which inherits expiry and address ranges; and it marks
    the old row, revoked and rotated now.  No other credential and no other table changes. *)
Theorem rotateCredential_spec {E : Env} realm identityId id w cred key w' :
  run (Nhi.rotateCredential realm identityId id) w = (inr (cred, key), w') ->
  exists identity old,
    identity ∈ rows TNhiIdentity w /\ nhi_id identity = identityId /\ nhi_realmId identity = realm_id realm /\
    old ∈ rows TNhiCredential w /\ nc_id old = id /\ nc_nhiIdentityId old = identityId /\ nc_credentialType old = "API_KEY" /\
    let new := successor old (str_take 8 key) (argon2_hash (S (w_draws w)) key) (uuid (w_uuids w)) (w_now w) in
    key = to_hex (random_bytes 32 (w_draws w)) /\ cred = credential_view new /\
    rows TNhiCredential w' = update_first (same_id id) (set_nc_succeeded (w_now w)) (rows TNhiCredential w) ++ [new] /\
    frame [TNhiCredential] w w'.
Proof.
  intros Hr. assert (F : frame [TNhiCredential] w w').
  { apply (run_frame [TNhiCredential] _ _ _ _ (stable_rotate_frame realm identityId id) Hr). }
  unfold Nhi.rotateCredential in Hr. apply run_bind_inr in Hr as (c0 & w1 & Hc0 & Hr).
  apply run_findCredentialById_inr in Hc0 as (-> & Hup & i & Hi & Hid & Hrealm).
  apply run_bind_inr in Hr as (o & w1 & Ho & Hr). run_stmt_inv Ho. subst o.
  destruct (List.find _ _) as [old|] eqn:Hold; [|by run_stmt_inv Hr].
  apply find_elem in Hold as Hf. destruct Hf as [Hin [Hoid Howner]%owned_guard].
  destruct (bool_decide_reflect (nc_credentialType old = "API_KEY")) as [Ht|]; simpl negb in Hr; cbv iota in Hr; [|by run_stmt_inv Hr].
  apply run_bind_inr in Hr as ([[p h] k] & w1 & Hk & Hr). apply run_new_key_inr in Hk as (Hk & -> & -> & ->).
  apply run_bind_inr in Hr as (new & w1 & Hnew & Hr). run_stmt_inv Hnew.
  set (new := successor _ _ _ _ _) in *. set (wn := with_rows _ _ _) in *.
  assert (Hn : rows TNhiCredential wn = rows TNhiCredential w ++ [new]) by apply rows_with_rows_eq.
  apply run_bind_inr in Hr as (u & w2 & Hrev & Hr). apply run_revoke_row_inr in Hrev as ->.
  apply run_bind_inr in Hr as (now & w3 & Hnow & Hr). run_stmt_inv Hnow.
  apply run_bind_inr in Hr as (r2 & w4 & Hu2 & Hr). run_stmt_inv Hu2. apply run_ret_inr in Hr as [Hcred <-].
  injection Hcred as <- <-. exists i, old. do 7 (split; [done|]). cbv zeta. split; [done|]. split; [done|]. split; [|exact F].
  cbn [fst snd]. rewrite !rows_with_rows_eq, Hn. change (w_now (with_rows _ _ wn)) with (w_now w). change (w_now wn) with (w_now w).
  change (fun c : Row TNhiCredential => nc_id c === id) with (same_id id). change (fun c : NhiCredential => nc_id c === id) with (same_id id).
  rewrite update_first_twice by done. change (fun x => set_nc_rotated (w_now w) (set_nc_revoked (w_now w) x)) with (set_nc_succeeded (w_now w)).
  apply update_first_app. exists old. split; [done|]. by apply bool_decide_eq_true.
Qed.

Example rotateCredential_spec_witness :
  exists cred key w',
    run (Nhi.rotateCredential (E:=test_env) realm0 "nhi-1" "nc-1") (nhi_world false) = (inr (cred, key), w') /\
    map (fun c => (nc_id c, nc_name c, nc_revoked c)) (rows TNhiCredential w') =
      [("nc-1", "deploy", true); ("id-0", "deploy (rotated)", false)] /\
    key = to_hex (repeat_char 32 "A"%char).
Proof.
  assert (H : exists a w', run (Nhi.rotateCredential (E:=test_env) realm0 "nhi-1" "nc-1") (nhi_world false) = (inr a, w'))
    by (apply ends_ok_run; vm_compute; reflexivity).
  destruct H as ([cred key] & w' & H). exists cred, key, w'. split; [exact H|].
  destruct (rotateCredential_spec (E:=test_env) _ _ _ _ _ _ _ H) as (i & old & _ & _ & _ & Hin & _ & _ & _ & Hkey & _ & Hrows & _).
  change (old ∈ [credential0 false]) in Hin. apply list_elem_of_singleton in Hin as ->.
  split; [|rewrite Hkey; vm_compute; reflexivity]. rewrite Hrows, Hkey. vm_compute. reflexivity.
Defined.

(** Decommissioning revokes every credential of the identity, and only those, and takes
    the identity out of service. *)
Theorem decommission_spec {E : Env} realm id w i w' :
  run (decommission realm id) w = (inr i, w') ->
  rows TNhiCredential w' = update_all (fun c => nc_nhiIdentityId c === id) (set_nc_revoked (w_now w)) (rows TNhiCredential w) /\
  rows TNhiIdentity w' = update_first (fun x => nhi_id x === id) (set_decommissioned (w_now w)) (rows TNhiIdentity w) /\
  (forall c, c ∈ rows TNhiCredential w' -> nc_nhiIdentityId c = id -> nc_revoked c = true) /\
  nhi_enabled i = false /\ nhi_lifecycleStatus i = "DECOMMISSIONED".
Proof.
  unfold decommission. intros Hr. apply run_bind_inr in Hr as (x & w1 & Hx & Hr). apply run_findById_inr in Hx as (-> & Hup & _).
  apply run_bind_inr in Hr as (now & w1 & Hnow & Hr). run_stmt_inv Hnow.
  apply run_bind_inr in Hr as (n & w1 & Hn & Hr). run_stmt_inv Hn.
  apply run_bind_inr in Hr as (now & w1 & Hnow & Hr). run_stmt_inv Hnow. run_stmt_inv Hr. cbn [fst snd] in *.
  rewrite (rows_with_rows_ne TNhiIdentity TNhiCredential), !rows_with_rows_eq, (rows_with_rows_ne TNhiCredential TNhiIdentity) by done.
  split; [done|]. split; [done|]. split; [|done]. intros c. unfold update_all. intros (c0 & -> & _)%list_elem_of_fmap.
  destruct (bool_decide_reflect (nc_nhiIdentityId c0 = id)); [done|]. done.
Qed.

(** ** One successor *)

(** Somebody rotates a credential: the scheduler, or an administrator. *)
Inductive Rotator := ByScheduler | ByAdministrator.

Section Successor.
Context {E : Env} (realm : Realm) (identityId id name : string).

Definition rotate_by (r : Rotator) : M bool :=
  match r with
  | ByScheduler => rotateCredential realm id
  | ByAdministrator => (Nhi.rotateCredential realm identityId id ;;; Ret true)%prog
  end.

Definition successor_of : string := if name !== EmptyString then name +:+ " (rotated)" else "rotated credential".
Definition is_successor (c : NhiCredential) : bool := (nc_nhiIdentityId c === identityId) && (nc_name c === successor_of).
(** One successor is left to be issued, as long as there is none. *)
Definition successors_left (w : World) : nat := if existsb is_successor (rows TNhiCredential w) then 0 else 1.

(** The rows with the id are this credential, and no new row will be. *)
Record the_credential (w : World) : Prop := {
  tc_rows c : c ∈ rows TNhiCredential w -> nc_id c = id -> nc_nhiIdentityId c = identityId /\ nc_name c = name;
  tc_fresh n : (w_uuids w <= n)%nat -> uuid n <> id
}.

Notation claims_one := (claims successors_left the_credential).

Lemma keeps_frame ts {A} (p : M A) :
  stable (frame ts) p -> includes TNhiCredential ts = false -> stable (keeps successors_left the_credential) p.
Proof.
  intros Hp Ht. revert Hp. apply stable_mono. intros w w' F [H1 H2]. unfold successors_left.
  rewrite (frame_rows _ _ _ _ F Ht). split; [|done]. split.
  - intros c. rewrite (frame_rows _ _ _ _ F Ht). apply H1.
  - destruct F as (_ & _ & _ & _ & Hle). intros n Hn. apply H2. lia.
Qed.

Lemma existsb_ext_eq {A} (p : A -> bool) (f : A -> A) q l :
  (forall x, p (f x) = p x) -> existsb p (update_first q f l) = existsb p l.
Proof. intros H. induction l as [|x l IH]; simpl; [done|]. destruct (q x); simpl; [by rewrite H|]. by rewrite IH. Qed.

Lemma keeps_update p f :
  (forall c, nc_id (f c) = nc_id c /\ nc_nhiIdentityId (f c) = nc_nhiIdentityId c /\ nc_name (f c) = nc_name c) ->
  stable (keeps successors_left the_credential) (Store.update TNhiCredential p f).
Proof.
  intros Hf. split; [|by intros [e|r]]. intros w [H1 H2]. destruct (w_db_up w); [|by split].
  destruct (List.find _ _) as [r|]; [|by split]. cbn [snd]. unfold successors_left. rewrite rows_with_rows_eq. split.
  - split; [|exact H2]. intros c. rewrite rows_with_rows_eq.
    intros [Hc|(c0 & [Hc _]%find_elem & ->)]%elem_of_update_first; [by apply H1|].
    destruct (Hf c0) as (-> & -> & ->). by apply H1.
  - rewrite existsb_ext_eq; [done|]. intros c. destruct (Hf c) as (_ & Hi & Hn). unfold is_successor. by rewrite Hi, Hn.
Qed.

(** The name of the successor is free, or the statement fails: issuing it takes the unit. *)
Lemma claims_successor {A} (Q : bool -> A -> Prop) old p h (k : NhiCredential -> M A) :
  nc_nhiIdentityId old = identityId -> nc_name old = name -> (forall new, claims_one Q true (k new)) ->
  claims_one Q false (bind (Store.create TNhiCredential (successor old p h)) k).
Proof.
  intros Hi Hn Hk. simpl. intros w [H1 H2]. destruct (w_db_up w); cbn [fst snd]; [|split; [by split|]; by left].
  set (new := successor old p h (uuid (w_uuids w)) (w_now w)).
  assert (Hnew : is_successor new = true).
  { unfold is_successor, new, successor, successor_name, successor_of. cbn [nc_nhiIdentityId nc_name]. rewrite Hi, Hn.
    by rewrite !bool_decide_eq_true_2 by done. }
  destruct (existsb _ _) eqn:Hu; cbn [negb fst snd]; [split; [by split|]; by left|].
  assert (Hfree : existsb is_successor (rows TNhiCredential w) = false).
  { rewrite <- Hu. unfold is_successor, successor_of, successor_name. by rewrite Hi, Hn. }
  split.
  - split.
    + intros c. rewrite rows_with_rows_eq. intros [Hc|Hc]%elem_of_app; [by apply H1|].
      apply list_elem_of_singleton in Hc as ->. intros Hid. by destruct (H2 (w_uuids w)).
    + intros n. change (w_uuids (with_rows _ _ (next_uuid w))) with (S (w_uuids w)). intros Hle. apply H2. lia.
  - right. split; [|apply Hk]. unfold successors_left. rewrite rows_with_rows_eq, existsb_app.
    cbn [existsb]. by rewrite Hnew, Hfree.
Qed.

Lemma claims_row {A} (Q : bool -> A -> Prop) (p : World -> NhiCredential -> bool) (k : option NhiCredential -> M A) :
  (forall w c, p w c = true -> nc_id c = id) -> claims_one Q false (k None) ->
  (forall c, nc_id c = id -> nc_nhiIdentityId c = identityId -> nc_name c = name -> claims_one Q false (k (Some c))) ->
  claims_one Q false (bind (query (fun w => List.find (p w) (rows TNhiCredential w))) k).
Proof.
  intros Hp Hn Hk. simpl. intros w [H1 H2]. destruct (w_db_up w); cbn [fst snd]; (split; [by split|]); left; [|done].
  split; [done|]. destruct (List.find _ _) as [c|] eqn:Hc; [|exact Hn].
  apply find_elem in Hc as [Hin Hpc]. pose proof (Hp w c Hpc) as Hid. destruct (H1 c Hin Hid) as [Ho Hna]. by apply Hk.
Qed.

(** What follows the new row only changes columns that do not matter here. *)
Lemma claims_tail {A} (Q : bool -> A -> Prop) (f : Z -> NhiCredential -> NhiCredential) (k : NhiCredential -> M A) :
  (forall now c, nc_id (f now c) = nc_id c /\ nc_nhiIdentityId (f now c) = nc_nhiIdentityId c /\ nc_name (f now c) = nc_name c) ->
  (forall c, claims_one Q true (k c)) ->
  claims_one Q true (now <- date_now ;; c <- Store.update TNhiCredential (fun c => nc_id c === id) (f now) ;; k c)%prog.
Proof.
  intros Hf Hk. apply claims_bind_stable; [apply (keeps_frame []); [footprint|done]|intros now].
  apply claims_bind_stable; [apply keeps_update, Hf|done].
Qed.

Lemma claims_scheduler : claims_one (fun c (issued : bool) => issued = true -> c = true) false (rotateCredential realm id).
Proof.
  unfold rotateCredential. apply (claims_row _ (rotatable realm id)); [|done|].
  { intros w c [[[[H%bool_decide_eq_true _]%andb_true_iff _]%andb_true_iff _]%andb_true_iff _]%andb_true_iff. done. }
  intros old Hid Ho Hn. apply claims_bind_stable; [apply (keeps_frame []); [unfold new_key; footprint|done]|intros [[p h] k]].
  apply claims_successor; [done..|]. intros new. by apply claims_tail.
Qed.

Lemma claims_administrator : claims_one (fun c _ => c = true) false (Nhi.rotateCredential realm identityId id).
Proof.
  unfold Nhi.rotateCredential. apply claims_bind_stable.
  { apply (keeps_frame []); [unfold findCredentialById, findById; footprint|done]. }
  intros _. apply (claims_row _ (fun _ => is_credential identityId id)); [by intros _ c [? _]%owned_guard|done|].
  intros old Hid Ho Hn. destruct (nc_credentialType old !== "API_KEY"); [done|].
  apply claims_bind_stable; [apply (keeps_frame []); [unfold new_key; footprint|done]|intros [[p h] k]].
  apply claims_successor; [done..|]. intros new. unfold revoke_row.
  apply claims_bind_stable; [|intros _; by apply claims_tail].
  apply stable_bind; [apply (keeps_frame []); [footprint|done]|intros now]. apply stable_bind; [by apply keeps_update|done].
Qed.

Lemma claims_rotate_by r : claims_one (fun c (issued : bool) => issued = true -> c = true) false (rotate_by r).
Proof.
  destruct r; [apply claims_scheduler|]. unfold rotate_by.
  apply (claims_bind _ _ (fun c _ => c = true)); [apply claims_administrator|]. by intros c a ->.
Qed.
End Successor.

(** C27. However many schedulers and administrators rotate a credential at the same time, at
    most one successor is issued: the names of an identity's credentials are unique, and
    the successor's name is a function of the old one's. *)
Theorem one_successor {E : Env} realm identityId id name env w w' (rs : list Rotator) pool :
  (forall a b, env a b -> keeps (successors_left identityId name) (the_credential identityId id name) a b) ->
  the_credential identityId id name w ->
  psteps env (w, map (rotate_by realm identityId id) rs) (w', pool) ->
  (winners (fun issued => issued) pool <= successors_left identityId name w <= 1)%nat.
Proof.
  intros Henv Hw Hs. split; [|unfold successors_left; by destruct (existsb _ _); lia].
  refine (winners_bounded (successors_left identityId name) (the_credential identityId id name) env Henv
            (fun issued => issued) w w' _ pool Hw _ Hs).
  apply Forall_fmap, Forall_true. intros r. apply claims_rotate_by.
Qed.

Example one_successor_witness :
  let pool := map (rotate_by (E:=test_env) realm0 "nhi-1" "nc-1") [ByScheduler; ByAdministrator] in
  let final := schedule [1; 1; 0; 1; 0; 1; 0; 1; 0; 0; 0; 0; 1; 1; 1; 1; 1; 1]%nat (nhi_world false, pool) in
  (winners (fun issued => issued) final.2 <= successors_left "nhi-1" "deploy" (nhi_world false) <= 1)%nat /\
  winners (fun issued => issued) final.2 = 1%nat.
Proof.
  split; [|vm_compute; reflexivity].
  refine (one_successor (E:=test_env) realm0 "nhi-1" "nc-1" "deploy" (fun a b => a = b) (nhi_world false) _
    [ByScheduler; ByAdministrator] _ _ _ _).
  - intros a b ->. intros H. split; [exact H|apply le_n].
  - split; [|by intros n _]. intros c Hc _. change (c ∈ [credential0 false]) in Hc. by apply list_elem_of_singleton in Hc as ->.
  - rewrite <- surjective_pairing. apply schedule_psteps.
Defined.

(** ** One realm *)

Definition realm_of (change : NhiChange) : option string :=
  match change with
  | CreateIdentity realm _ | UpdateIdentity realm _ _ | RemoveIdentity realm _ | Suspend realm _ | Reactivate realm _
  | Decommission realm _ | CreateCredential realm _ _ | RevokeCredential realm _ _ | RotateCredential realm _ _
  | SetCertificate realm _ _ | RegisterDevices realm _ _ => Some (realm_id realm)
  | SchedulerTick => None
  end.

Section Isolation.
Context {E : Env} (keyPair : CertificateKeyAlgorithm -> nat -> string * string) (message : exc -> string) (realm : Realm).
Notation confined := (confined TNhiIdentity (realm_id realm)).
Notation confined_last := (confined_bind_last TNhiIdentity (realm_id realm)).

Lemma confined_findById {B} o id (k : NhiIdentity -> M B) :
  (forall i, nhi_id i = id -> nhi_realmId i = realm_id realm -> confined (Some i) (k i)) ->
  confined o (bind (findById realm id) k).
Proof.
  intros Hk w r w' Hnd Ho. unfold findById. rewrite (bind_assoc (find_first TNhiIdentity _) _ k w).
  apply (confined_find TNhiIdentity (realm_id realm) o); [by apply confined_throw| |done|done].
  intros h [Hi Hr]%owned_guard. by apply Hk.
Qed.

(** The row found is changed by its id. *)
Lemma confined_set i f :
  nhi_realmId i = realm_id realm -> (forall x, nhi_realmId (f x) = nhi_realmId x) ->
  confined (Some i) (Store.update TNhiIdentity (fun x => nhi_id x === nhi_id i) f).
Proof. intros Hr Hf. by apply (confined_update TNhiIdentity (realm_id realm) i). Qed.

(** Handlers of credentials only read the identities. *)
Lemma confined_credentials {A} o (p : M A) : stable (frame [TNhiCredential]) p -> confined o p.
Proof. intros Hp. by apply (confined_frame TNhiIdentity (realm_id realm) [TNhiCredential]). Qed.

Lemma register_device_keeps d : stable (others_same TNhiIdentity (realm_id realm)) (register_device keyPair message realm d).
Proof.
  assert (Hother : forall A (p : M A), stable (frame []) p -> stable (others_same TNhiIdentity (realm_id realm)) p).
  { intros A p. apply stable_mono. intros w w' F. apply others_same_rows. by apply frame_nil_rows. }
  unfold register_device. cbv zeta. apply stable_catch; [|by intros]. apply stable_bind; [apply Hother; footprint|intros [i|]; [done|]].
  apply stable_bind; [|intros i; destruct (bd_generateCertificate d ?? false); [|done]].
  - split; [|by intros [e|r]]. intros w. destruct (w_db_up w); [|reflexivity]. cbn [snd].
    destruct (unique_ok _ _ _); [|reflexivity]. intros x Hx. cbn [snd]. rewrite rows_with_rows_eq, elem_of_app, list_elem_of_singleton.
    split; [|by left]. intros [?| ->]; [done|]. by destruct Hx.
  - apply Hother. unfold generateDeviceCertificate, parseCertificate. footprint.
Qed.

(** [findById], a few reads and one update. *)
Lemma nhi_update_confined id dto : confined None (update realm id dto).
Proof.
  unfold update. apply confined_findById. intros i <- Hr.
  apply (confined_bind_frame TNhiIdentity (realm_id realm) []); [footprint|done|intros c].
  destruct (match c with Some c => _ | None => _ end); [by apply confined_throw|].
  apply (confined_bind_frame TNhiIdentity (realm_id realm) []); [unfold stamp_if; footprint|done|intros s].
  apply (confined_bind_frame TNhiIdentity (realm_id realm) []); [unfold stamp_if; footprint|done|intros d].
  by apply (confined_update_checked TNhiIdentity (realm_id realm) i).
Qed.
Lemma nhi_create_confined dto : confined None (create realm dto).
Proof. unfold create. apply confined_find; [by apply confined_create|]. intros i _. by apply confined_throw. Qed.
Lemma nhi_remove_confined id : confined None (remove realm id).
Proof.
  unfold remove. apply confined_findById. intros i <- Hr. apply (confined_last []); [|intros; footprint|done].
  by apply (confined_delete TNhiIdentity (realm_id realm) i).
Qed.
Lemma suspend_confined id : confined None (suspend realm id).
Proof.
  unfold suspend. apply confined_findById. intros i <- Hr.
  apply (confined_bind_frame TNhiIdentity (realm_id realm) []); [footprint|done|intros now]. by apply confined_set.
Qed.
Lemma reactivate_confined id : confined None (reactivate realm id).
Proof.
  unfold reactivate. apply confined_findById. intros i <- Hr.
  destruct (nhi_lifecycleStatus i !== "SUSPENDED"); [by apply confined_throw|]. by apply confined_set.
Qed.
Lemma decommission_confined id : confined None (decommission realm id).
Proof.
  unfold decommission. apply confined_findById. intros i <- Hr.
  apply (confined_bind_frame TNhiIdentity (realm_id realm) []); [footprint|done|intros now].
  apply (confined_bind_frame TNhiIdentity (realm_id realm) [TNhiCredential]); [footprint|done|intros n].
  apply (confined_bind_frame TNhiIdentity (realm_id realm) []); [footprint|done|intros now2]. by apply confined_set.
Qed.
Lemma setCertificate_confined id pem : confined None (setCertificate realm id pem).
Proof.
  unfold setCertificate. apply confined_findById. intros i <- Hr.
  apply (confined_bind_frame TNhiIdentity (realm_id realm) []); [unfold parseCertificate; footprint|done|intros c].
  by apply confined_set; destruct c.
Qed.
Lemma bulk_confined devices n : confined None (bulkRegistration keyPair message realm devices n).
Proof.
  intros w r w' _ _ Hr. enough (Hs : stable (others_same TNhiIdentity (realm_id realm)) (bulkRegistration keyPair message realm devices n)).
  { pose proof (stable_run _ _ w Hs) as H. by rewrite Hr in H. }
  unfold bulkRegistration. apply stable_bind; [|done].
  induction (take _ devices) as [|d l IH]; cbn [register_all]; [done|].
  apply stable_bind; [apply register_device_keeps|intros]. by apply stable_bind.
Qed.
Lemma createCredential_confined id dto : confined None (createCredential realm id dto).
Proof. apply confined_credentials. unfold createCredential, findById, new_key. footprint. Qed.
Lemma revokeCredential_confined i id : confined None (revokeCredential realm i id).
Proof. apply confined_credentials. unfold revokeCredential, findCredentialById, findById, revoke_row. footprint. Qed.
Lemma rotateCredential_confined i id : confined None (Nhi.rotateCredential realm i id).
Proof. apply confined_credentials, stable_rotate_frame. Qed.
End Isolation.

(** An administrator of one realm reaches no machine identity of another: whatever the
    handler does and however it ends, the identities of the other realms are the same. *)
Theorem nhi_isolated {E : Env} keyPair message change realmId w :
  NoDup (map nhi_id (rows TNhiIdentity w)) -> realm_of change = Some realmId ->
  others_same TNhiIdentity realmId w (run (perform keyPair message change) w).2.
Proof.
  intros Hnd Hof. destruct (run (perform keyPair message change) w) as [r w'] eqn:Hr. revert r w' Hr.
  enough (H : confined TNhiIdentity realmId None (perform keyPair message change)) by (intros r w' Hr; by apply (H w r w')).
  destruct change as [realm dto|realm id dto|realm id|realm id|realm id|realm id|realm id dto|realm i id|realm i id|realm id pem|realm ds n|];
    simpl in Hof; [..|done]; injection Hof as <-; unfold perform;
    try match goal with |- confined _ _ _ (bind _ _) =>
      apply (confined_bind_last TNhiIdentity (realm_id realm) []); [|intros; footprint|done] end.
  - apply nhi_create_confined.
  - apply nhi_update_confined.
  - apply nhi_remove_confined.
  - apply suspend_confined.
  - apply reactivate_confined.
  - apply decommission_confined.
  - apply createCredential_confined.
  - apply revokeCredential_confined.
  - apply rotateCredential_confined.
  - apply setCertificate_confined.
  - apply bulk_confined.
Qed.

Definition foreign_nhi : NhiIdentity :=
  mkNhiIdentity "nhi-2" "realm-2" "IOT_DEVICE" "sensor" None true "ACTIVE" None None None None None None None [] [] [] 0.

Example nhi_isolated_witness :
  let w := with_rows TNhiIdentity [nhi0; foreign_nhi] (nhi_world false) in
  let w' := (run (perform (E:=test_env) test_keys test_message (Decommission realm0 "nhi-1")) w).2 in
  others_same TNhiIdentity "realm-1" w w' /\ map nhi_lifecycleStatus (rows TNhiIdentity w') = ["DECOMMISSIONED"; "ACTIVE"].
Proof.
  cbv zeta. split; [|vm_compute; reflexivity].
  apply (nhi_isolated (E:=test_env) test_keys test_message (Decommission realm0 "nhi-1") "realm-1"); [|reflexivity].
  apply (bool_decide_unpack _). vm_compute. exact I.
Defined.

(** ** What the code does not guarantee *)

Definition after (changes : list NhiChange) (w : World) : World :=
  foldl (fun w c => (run (perform (E:=test_env) test_keys test_message c) w).2) w changes.

(** Decommissioning is not final: suspended and reactivated, the identity is ACTIVE again,
    and it can be given a live key. *)
Theorem decommissioned_returns :
  let w := after [Decommission realm0 "nhi-1"; Suspend realm0 "nhi-1"; Reactivate realm0 "nhi-1";
                  CreateCredential realm0 "nhi-1" (mkCreateNhiCredential "new" (Some "API_KEY") None None None None None None
                                                     None None None None)] (nhi_world false) in
  map nhi_lifecycleStatus (rows TNhiIdentity w) = ["ACTIVE"] /\
  map (fun c => (nc_name c, nc_revoked c)) (rows TNhiCredential w) = [("deploy", true); ("new", false)].
Proof. vm_compute. done. Qed.

(** Setting the status DECOMMISSIONED by an update leaves the credentials alive. *)
Theorem update_keeps_credentials :
  let w := after [UpdateIdentity realm0 "nhi-1" (mkUpdateNhi None None None None (Some "DECOMMISSIONED") None None None None)]
             (nhi_world false) in
  map nhi_lifecycleStatus (rows TNhiIdentity w) = ["DECOMMISSIONED"] /\ map nc_revoked (rows TNhiCredential w) = [false].
Proof. vm_compute. done. Qed.

(** A credential created without a type is an API key without a key. *)
Theorem untyped_credential_has_no_key :
  let r := run (createCredential (E:=test_env) realm0 "nhi-1" (mkCreateNhiCredential "x" None None None None None None None
                                                               None None None None)) (nhi_world false) in
  (match r.1 with inr (c, key) => (nc_credentialType c, key) = ("API_KEY", None) | _ => False end) /\
  map nc_keyHash (rows TNhiCredential r.2) = [Some "argon:k"; None].
Proof. vm_compute. done. Qed.

(** When the scheduler stops between its two statements, the old key is never retired: at
    every later tick the name of the successor is taken. *)
Theorem half_rotation_sticks :
  let old := credential0 false in
  let w := with_now (200 * ONE_DAY_MS) (with_rows TNhiCredential [old; successor old "p" "h" "nc-2" (200 * ONE_DAY_MS)] (nhi_world false)) in
  let tick w := (run (processRotations (E:=test_env)) w).2 in
  rows TNhiCredential (tick (tick w)) = rows TNhiCredential w.
Proof. vm_compute. done. Qed.

(** Fifty credentials that are not due hide one that is. *)
Theorem batch_hides_due_credentials :
  let fresh n := mkNhiCredential ("f" +:+ to_base 10 (Z.of_nat n)) "nhi-1" "API_KEY" (to_base 10 (Z.of_nat n)) None None None
                   None None None None None None None false true false None None 0 [] (200 * ONE_DAY_MS) in
  let w := with_now (200 * ONE_DAY_MS) (with_rows TNhiCredential (map fresh (seq 0 50) ++ [credential0 false]) (nhi_world false)) in
  let w' := (run (processRotations (E:=test_env)) w).2 in
  rows TNhiCredential w' = rows TNhiCredential w /\
  match (run (NhiScheduler.rotateCredential (E:=test_env) realm0 "nc-1") w).1 with inr issued => issued = true | inl _ => False end.
Proof. vm_compute. done. Qed.
