(* ===== verification/Organizations.v ===== *)
(** * Organizations: tenants within a realm (src/src/organizations)

    OrganizationsService: organizations and their members, invitations, verified domains
    and SSO connections.  The answer of DNS is a parameter: host and clock to the TXT
    records, [None] where the look-up fails; so is the collation of the database, which
    orders names. *)

From S2P Require Import ScimList.
From S2P Require Import Prelude Prog Json JsText Schema Store StoreFacts Tenancy Crypto Registration Testbed.

(** ** Requests *)

Record CreateOrganizationDto := mkCreateOrganization {
  co_slug : string; co_name : string; co_displayName : option string; co_description : option string;
  co_enabled : option bool; co_logoUrl : option string; co_primaryColor : option string; co_requireMfa : option bool
}.
Record UpdateOrganizationDto := mkUpdateOrganization {
  uo_name : option string; uo_displayName : option string; uo_description : option string;
  uo_enabled : option bool; uo_logoUrl : option string; uo_primaryColor : option string; uo_requireMfa : option bool
}.
Record CreateSsoConnectionDto := mkCreateSso {
  csso_type : string; csso_name : string; csso_enabled : option bool; csso_config : obj
}.
Record UpdateSsoConnectionDto := mkUpdateSso {
  usso_name : option string; usso_enabled : option bool; usso_config : option obj
}.

Definition INVITATION_TTL_MS : Z := 72 * 60 * 60 * 1000.
Definition DNS_TXT_PREFIX : string := "idenplane-domain-verification=".

(** ** Rows *)

Definition set_organization (dto : UpdateOrganizationDto) (o : Organization) : Organization :=
  mkOrganization (org_id o) (org_realmId o) (uo_name dto ?? org_name o) (org_slug o)
    (keep (uo_displayName dto) (org_displayName o)) (keep (uo_description dto) (org_description o))
    (uo_enabled dto ?? org_enabled o) (keep (uo_logoUrl dto) (org_logoUrl o))
    (keep (uo_primaryColor dto) (org_primaryColor o)) (uo_requireMfa dto ?? org_requireMfa o) (org_verifiedDomains o).
Definition push_domain (domain : string) (o : Organization) : Organization :=
  mkOrganization (org_id o) (org_realmId o) (org_name o) (org_slug o) (org_displayName o) (org_description o)
    (org_enabled o) (org_logoUrl o) (org_primaryColor o) (org_requireMfa o) (org_verifiedDomains o ++ [domain]).
Definition set_member_role (role : string) (m : OrganizationMember) : OrganizationMember :=
  mkOrganizationMember (om_id m) (om_organizationId m) (om_userId m) role (om_joinedAt m).
Definition set_accepted (now : Z) (i : OrganizationInvitation) : OrganizationInvitation :=
  mkOrganizationInvitation (oi_id i) (oi_organizationId i) (oi_email i) (oi_role i) (oi_token i) (oi_expiresAt i)
    (Some now) (oi_createdAt i).
Definition set_sso (dto : UpdateSsoConnectionDto) (c : OrganizationSsoConnection) : OrganizationSsoConnection :=
  mkOrganizationSsoConnection (osc_id c) (osc_organizationId c) (osc_type c) (usso_name dto ?? osc_name c)
    (usso_enabled dto ?? osc_enabled c) (usso_config dto ?? osc_config c) (osc_createdAt c).

Definition is_organization (realm : Realm) (slug : string) (o : Organization) : bool :=
  (org_realmId o === realm_id realm) && (org_slug o === slug).
Definition is_member (organizationId userId : string) (m : OrganizationMember) : bool :=
  (om_organizationId m === organizationId) && (om_userId m === userId).

Section Service.
Context {E : Env} {C : Collation} (resolveTxt : string -> Z -> option (list (list string))).

(** ** Organizations *)

Definition create (realm : Realm) (dto : CreateOrganizationDto) : M Organization :=
  (existing <- find_first TOrganization (is_organization realm (co_slug dto)) ;;
   match existing with
   | Some _ => Throw (Conflict ("Organization with slug '" +:+ co_slug dto +:+ "' already exists in this realm"))
   | None =>
       Store.create TOrganization (fun id _ =>
         mkOrganization id (realm_id realm) (co_name dto) (co_slug dto) (co_displayName dto) (co_description dto)
           (co_enabled dto ?? true) (co_logoUrl dto) (co_primaryColor dto) (co_requireMfa dto ?? false) [])
   end)%prog.

Definition findAll (realm : Realm) : M (list Organization) :=
  query (fun w => order_rows org_name
    (List.filter (fun o => org_realmId o === realm_id realm) (rows TOrganization w))).

Definition findOne (realm : Realm) (slug : string) : M Organization :=
  (org <- find_first TOrganization (is_organization realm slug) ;;
   match org with
   | Some org => Ret org
   | None => Throw (NotFound ("Organization '" +:+ slug +:+ "' not found"))
   end)%prog.

Definition update (realm : Realm) (slug : string) (dto : UpdateOrganizationDto) : M Organization :=
  (findOne realm slug ;;; Store.update TOrganization (is_organization realm slug) (set_organization dto))%prog.

Definition remove (realm : Realm) (slug : string) : M Organization :=
  (findOne realm slug ;;; delete_one TOrganization (is_organization realm slug))%prog.

(** ** Members *)

Definition addMember (realm : Realm) (slug userId : string) (role : option string) : M OrganizationMember :=
  (org <- findOne realm slug ;;
   user <- find_first TUser (fun u => (user_id u === userId) && (user_realmId u === realm_id realm)) ;;
   match user with
   | None => Throw (NotFound ("User '" +:+ userId +:+ "' not found in realm"))
   | Some _ =>
       existing <- find_first TOrganizationMember (is_member (org_id org) userId) ;;
       match existing with
       | Some _ => Throw (Conflict "User is already a member of this organization")
       | None => Store.create TOrganizationMember (fun id joinedAt =>
                   mkOrganizationMember id (org_id org) userId (role ?? "member") joinedAt)
       end
   end)%prog.

Definition listMembers (realm : Realm) (slug : string) : M (list OrganizationMember) :=
  (org <- findOne realm slug ;;
   find_many_asc TOrganizationMember (fun m => om_organizationId m === org_id org) om_joinedAt)%prog.

(** The membership that the two handlers below change. *)
Definition the_member (realm : Realm) (slug userId : string) : M OrganizationMember :=
  (org <- findOne realm slug ;;
   member <- find_first TOrganizationMember (is_member (org_id org) userId) ;;
   match member with
   | Some member => Ret member
   | None => Throw (NotFound "Member not found in organization")
   end)%prog.

Definition updateMemberRole (realm : Realm) (slug userId role : string) : M OrganizationMember :=
  (member <- the_member realm slug userId ;;
   Store.update TOrganizationMember (fun m => om_id m === om_id member) (set_member_role role))%prog.

Definition removeMember (realm : Realm) (slug userId : string) : M OrganizationMember :=
  (member <- the_member realm slug userId ;;
   delete_one TOrganizationMember (fun m => om_id m === om_id member))%prog.

(** ** Invitations *)

Definition createInvitation (realm : Realm) (slug email : string) (role : option string) : M (string * Z) :=
  (org <- findOne realm slug ;;
   rawToken <- random_hex 32 ;;
   now <- date_now ;;
   let expiresAt := now + INVITATION_TTL_MS in
   Store.create TOrganizationInvitation (fun id createdAt =>
     mkOrganizationInvitation id (org_id org) (to_lower email) (role ?? "member") (sha256 rawToken) expiresAt None
       createdAt) ;;;
   Ret (rawToken, expiresAt))%prog.

(** The two statements of the transaction. *)
Definition join (org : Organization) (invitation : OrganizationInvitation) (userId : string) (now : Z) : M OrganizationMember :=
  transaction
    (Store.update TOrganizationInvitation (fun i => oi_id i === oi_id invitation) (set_accepted now) ;;;
     upsert TOrganizationMember (is_member (org_id org) userId)
       (fun id joinedAt => mkOrganizationMember id (org_id org) userId (oi_role invitation) joinedAt) (fun m => m))%prog.

(** The clock is read only for an invitation that was not accepted. *)
Definition acceptInvitation (realm : Realm) (slug token userId : string) : M OrganizationMember :=
  (org <- findOne realm slug ;;
   invitation <- find_first TOrganizationInvitation (fun i => oi_token i === sha256 token) ;;
   match invitation with
   | None => Throw (NotFound "Invitation not found")
   | Some invitation =>
       if oi_organizationId invitation !== org_id org then Throw (NotFound "Invitation not found") else
       if bool_decide (is_Some (oi_acceptedAt invitation)) then Throw (Gone "Invitation has already been accepted") else
       now <- date_now ;;
       if oi_expiresAt invitation <? now then Throw (Gone "Invitation has expired") else
       invitedUser <- find_first TUser (fun u =>
         (user_realmId u === realm_id realm) && bool_decide (user_email u = Some (oi_email invitation))) ;;
       match invitedUser with
       | None => Throw (Forbidden "No user with the invited email address exists in this realm")
       | Some invitedUser =>
           if negb (user_emailVerified invitedUser)
           then Throw (Forbidden "Your email address must be verified before you can accept an invitation")
           else if (userId !== EmptyString) && (user_id invitedUser !== userId)
           then Throw (Forbidden "The supplied userId does not match the user this invitation was issued to")
           else now <- date_now ;; join org invitation (user_id invitedUser) now
       end
   end)%prog.

Definition listInvitations (realm : Realm) (slug : string) : M (list OrganizationInvitation) :=
  (org <- findOne realm slug ;;
   find_many_desc TOrganizationInvitation (fun i => oi_organizationId i === org_id org) oi_createdAt)%prog.

(** ** Verified domains *)

Definition generateDomainVerificationToken (organizationId domain : string) : string :=
  DNS_TXT_PREFIX +:+ str_take 32 (sha256 (organizationId +:+ ":" +:+ domain)).

Definition txt_host (domain : string) : string := "_idenplane-challenge." +:+ domain.

(** The domain, the host of the record and its value. *)
Definition initiateDomainVerification (realm : Realm) (slug domain : string) : M (string * string * string) :=
  (org <- findOne realm slug ;;
   let domain := to_lower domain in
   Ret (domain, txt_host domain, generateDomainVerificationToken (org_id org) domain))%prog.

(** The domain, and whether it was verified before. *)
Definition verifyDomain (realm : Realm) (slug domain : string) : M (string * bool) :=
  (org <- findOne realm slug ;;
   let domain := to_lower domain in
   if includes domain (org_verifiedDomains org) then Ret (domain, true) else
   now <- date_now ;;
   match resolveTxt (txt_host domain) now with
   | None => Throw (BadRequest ("DNS TXT lookup for '" +:+ txt_host domain +:+ "' failed. " +:+
                                "Make sure the record has been published and DNS has propagated."))
   | Some records =>
       if negb (includes (generateDomainVerificationToken (org_id org) domain) (concat records))
       then Throw (BadRequest ("DNS TXT record not found or value mismatch for '" +:+ txt_host domain +:+ "'."))
       else Store.update TOrganization (fun o => org_id o === org_id org) (push_domain domain) ;;; Ret (domain, false)
   end)%prog.

Definition auto_member (userId : string) (org : Organization) : M unit :=
  (upsert TOrganizationMember (is_member (org_id org) userId)
     (fun id joinedAt => mkOrganizationMember id (org_id org) userId "member" joinedAt) (fun m => m) ;;; Ret tt)%prog.

Definition autoAssignUserByEmailDomain (realmId userId email : string) : M unit :=
  match email_domain email with
  | Some (String _ _ as emailDomain) =>
      (orgs <- find_many TOrganization (fun o =>
         (org_realmId o === realmId) && org_enabled o && includes emailDomain (org_verifiedDomains o)) ;;
       for_each orgs (auto_member userId))%prog
  | _ => Ret tt
  end.

(** ** SSO connections *)

Definition createSsoConnection (realm : Realm) (slug : string) (dto : CreateSsoConnectionDto) : M OrganizationSsoConnection :=
  (org <- findOne realm slug ;;
   Store.create TOrganizationSsoConnection (fun id createdAt =>
     mkOrganizationSsoConnection id (org_id org) (csso_type dto) (csso_name dto) (csso_enabled dto ?? true)
       (csso_config dto) createdAt))%prog.

Definition listSsoConnections (realm : Realm) (slug : string) : M (list OrganizationSsoConnection) :=
  (org <- findOne realm slug ;;
   find_many_asc TOrganizationSsoConnection (fun c => osc_organizationId c === org_id org) osc_createdAt)%prog.

Definition getSsoConnection (realm : Realm) (slug connectionId : string) : M OrganizationSsoConnection :=
  (org <- findOne realm slug ;;
   conn <- find_first TOrganizationSsoConnection (fun c =>
     (osc_id c === connectionId) && (osc_organizationId c === org_id org)) ;;
   match conn with
   | Some conn => Ret conn
   | None => Throw (NotFound ("SSO connection '" +:+ connectionId +:+ "' not found"))
   end)%prog.

Definition updateSsoConnection (realm : Realm) (slug connectionId : string) (dto : UpdateSsoConnectionDto)
  : M OrganizationSsoConnection :=
  (conn <- getSsoConnection realm slug connectionId ;;
   Store.update TOrganizationSsoConnection (fun c => osc_id c === osc_id conn) (set_sso dto))%prog.

Definition deleteSsoConnection (realm : Realm) (slug connectionId : string) : M OrganizationSsoConnection :=
  (conn <- getSsoConnection realm slug connectionId ;;
   delete_one TOrganizationSsoConnection (fun c => osc_id c === osc_id conn))%prog.

(** ** What an administrator may ask for *)

Inductive OrganizationChange :=
| Create (dto : CreateOrganizationDto)
| Update (slug : string) (dto : UpdateOrganizationDto)
| Remove (slug : string)
| AddMember (slug userId : string) (role : option string)
| UpdateMemberRole (slug userId role : string)
| RemoveMember (slug userId : string)
| CreateInvitation (slug email : string) (role : option string)
| AcceptInvitation (slug token userId : string)
| VerifyDomain (slug domain : string)
| AutoAssign (userId email : string)
| CreateSsoConnection (slug : string) (dto : CreateSsoConnectionDto)
| UpdateSsoConnection (slug connectionId : string) (dto : UpdateSsoConnectionDto)
| DeleteSsoConnection (slug connectionId : string).

Definition perform (realm : Realm) (change : OrganizationChange) : M unit :=
  (match change with
   | Create dto => create realm dto ;;; Ret tt
   | Update slug dto => update realm slug dto ;;; Ret tt
   | Remove slug => remove realm slug ;;; Ret tt
   | AddMember slug userId role => addMember realm slug userId role ;;; Ret tt
   | UpdateMemberRole slug userId role => updateMemberRole realm slug userId role ;;; Ret tt
   | RemoveMember slug userId => removeMember realm slug userId ;;; Ret tt
   | CreateInvitation slug email role => createInvitation realm slug email role ;;; Ret tt
   | AcceptInvitation slug token userId => acceptInvitation realm slug token userId ;;; Ret tt
   | VerifyDomain slug domain => verifyDomain realm slug domain ;;; Ret tt
   | AutoAssign userId email => autoAssignUserByEmailDomain (realm_id realm) userId email
   | CreateSsoConnection slug dto => createSsoConnection realm slug dto ;;; Ret tt
   | UpdateSsoConnection slug id dto => updateSsoConnection realm slug id dto ;;; Ret tt
   | DeleteSsoConnection slug id => deleteSsoConnection realm slug id ;;; Ret tt
   end)%prog.
End Service.

Section Facts.
Context {E : Env} {C : Collation} (resolveTxt : string -> Z -> option (list (list string))).

(** ** Look-ups *)

Lemma run_findOne_inr realm slug w org w' :
  run (findOne realm slug) w = (inr org, w') ->
  w' = w /\ org ∈ rows TOrganization w /\ org_realmId org = realm_id realm /\ org_slug org = slug /\ w_db_up w = true /\
  List.find (is_organization realm slug) (rows TOrganization w) = Some org.
Proof.
  unfold findOne. intros (o & w1 & Hf & H)%run_bind_inr. run_stmt_inv Hf.
  destruct o as [o|]; [|by apply run_throw_inr in H]. apply run_ret_inr in H as [-> <-].
  symmetry in Hf. pose proof (find_elem _ _ _ Hf) as [Hin [? ?]%owned_guard]. done.
Qed.

(** ** Invitations *)

(** The membership the transaction answers with: the one there was, or a new one. *)
Definition joined org i userId m w w' : Prop :=
  match List.find (is_member (org_id org) userId) (rows TOrganizationMember w) with
  | Some m0 => m = m0 /\ rows TOrganizationMember w' = rows TOrganizationMember w
  | None => om_organizationId m = org_id org /\ om_userId m = userId /\ om_role m = oi_role i /\
            rows TOrganizationMember w' = rows TOrganizationMember w ++ [m]
  end.

Lemma run_join_inr org i userId now w m w' :
  run (join org i userId now) w = (inr m, w') ->
  rows TOrganizationInvitation w' =
    update_first (fun x => oi_id x === oi_id i) (set_accepted now) (rows TOrganizationInvitation w) /\
  joined org i userId m w w'.
Proof.
  unfold join. rewrite run_transaction. destruct (run _ w) as [[e|m'] w1] eqn:Hr; intros [= -> ->].
  apply run_bind_inr in Hr as (i1 & w2 & Hu & Hr). run_stmt_inv Hu. apply (run_upsert_inr TOrganizationMember) in Hr.
  rewrite rows_with_rows_ne in Hr by done. unfold joined.
  match type of Hr with match ?o with _ => _ end =>
    change o with (@List.find OrganizationMember (is_member (org_id org) userId) (rows TOrganizationMember w)) in Hr end.
  destruct (@List.find OrganizationMember _ _) as [m0|]; destruct Hr as [-> ->].
  - split; [done|]. split; [done|]. by rewrite rows_with_rows_eq, update_first_same.
  - split; [done|]. done.
Qed.

(** The first row with [q] is changed by its key. *)
Lemma find_update_key {A B} `{EqDecision B} (key : A -> B) (q : A -> bool) f l x :
  NoDup (map key l) -> List.find q l = Some x -> q (f x) = true ->
  List.find q (update_first (fun y => key y === key x) f l) = Some (f x).
Proof.
  intros Hnd Hf Hq. induction l as [|y l IH]; simpl in *; [done|].
  destruct (key y === key x) eqn:Hk.
  - apply bool_decide_eq_true in Hk. destruct (q y) eqn:Hy.
    + injection Hf as ->. simpl. by rewrite Hq.
    + apply find_elem in Hf as [Hin _]. apply NoDup_cons in Hnd as [[] _]. rewrite Hk. by apply list_elem_of_fmap_2.
  - simpl. destruct (q y) eqn:Hy; [injection Hf as ->; by rewrite bool_decide_eq_true_2 in Hk|].
    apply NoDup_cons in Hnd as [_ Hnd]. by apply IH.
Qed.

Lemma acceptInvitation_footprint realm slug token userId :
  stable (frame [TOrganizationInvitation; TOrganizationMember]) (acceptInvitation realm slug token userId).
Proof. unfold acceptInvitation, findOne, join. footprint. Qed.

(** Who joins by an invitation: the token is of a pending, unexpired invitation to this
    very organization of the realm, and the member is the verified user of the realm that
    has the invited address, whatever user the request names.  That user is a member
    afterwards, with the role of the invitation unless they were one already; no other
    membership changes, and the invitation is used up. *)
Theorem acceptInvitation_spec realm slug token userId w m w' :
  NoDup (map oi_id (rows TOrganizationInvitation w)) ->
  run (acceptInvitation realm slug token userId) w = (inr m, w') ->
  exists org i user,
    (org ∈ rows TOrganization w /\ org_realmId org = realm_id realm /\ org_slug org = slug) /\
    (i ∈ rows TOrganizationInvitation w /\ oi_token i = sha256 token /\ oi_organizationId i = org_id org /\
     oi_acceptedAt i = None /\ w_now w <= oi_expiresAt i) /\
    (user ∈ rows TUser w /\ user_realmId user = realm_id realm /\ user_email user = Some (oi_email i) /\
     user_emailVerified user = true /\ (userId = EmptyString \/ userId = user_id user)) /\
    joined org i (user_id user) m w w' /\ frame [TOrganizationInvitation; TOrganizationMember] w w' /\
    forall again, run (acceptInvitation realm slug token again) w' =
                    (inl (Gone "Invitation has already been accepted"), w').
Proof.
  intros Hnd Hr. pose proof (run_frame _ _ _ _ _ (acceptInvitation_footprint realm slug token userId) Hr) as Hfr.
  revert Hr. unfold acceptInvitation at 1. intros (org & w1 & Ho & Hr)%run_bind_inr.
  apply run_findOne_inr in Ho as (-> & Hin & Hre & Hsl & Hup & Hfo).
  apply run_bind_inr in Hr as (i & w1 & Hi & Hr). run_stmt_inv Hi. symmetry in Hi.
  destruct i as [i|]; [|by apply run_throw_inr in Hr].
  pose proof (find_elem _ _ _ Hi) as [Hiin Htok%bool_decide_eq_true].
  destruct (oi_organizationId i !== org_id org) eqn:Horg; [by apply run_throw_inr in Hr|].
  apply negb_false_iff, bool_decide_eq_true in Horg.
  destruct (bool_decide (is_Some (oi_acceptedAt i))) eqn:Hacc; [by apply run_throw_inr in Hr|].
  apply run_bind_inr in Hr as (now & w1 & Hn & Hr). run_stmt_inv Hn. cbn [fst snd] in *.
  destruct (oi_expiresAt i <? _) eqn:Hexp; [by apply run_throw_inr in Hr|]. apply Z.ltb_ge in Hexp.
  apply run_bind_inr in Hr as (user & w1 & Hu & Hr). run_stmt_inv Hu. symmetry in Hu.
  destruct user as [user|]; [|by apply run_throw_inr in Hr].
  apply find_elem in Hu as [Huin [Hure Hmail]%owned_guard].
  destruct (user_emailVerified user) eqn:Hver; [|by apply run_throw_inr in Hr].
  destruct (_ && _) eqn:Hid in Hr; [by apply run_throw_inr in Hr|].
  apply run_bind_inr in Hr as (now & w1 & Hn & Hr). run_stmt_inv Hn. cbn [fst snd] in *.
  apply run_join_inr in Hr as [Hinv Hj]. exists org, i, user.
  split; [done|]. split; [|split; [|split; [done|split; [done|]]]].
  - repeat split; [done|done|done| |lia]. apply bool_decide_eq_false in Hacc. destruct (oi_acceptedAt i); [by destruct Hacc; eauto|done].
  - repeat split; try done. apply andb_false_iff in Hid as [Hid|Hid]; apply negb_false_iff, bool_decide_eq_true in Hid; auto.
  - intros again. unfold acceptInvitation. pose proof (frame_up _ _ _ Hfr Hup) as Hup'.
    assert (Ho' : run (findOne realm slug) w' = (inr org, w')).
    { unfold findOne. rewrite run_bind, (run_find_first_eq TOrganization _ _ (Some org)); [done|done|].
      by rewrite (frame_rows _ _ _ TOrganization Hfr eq_refl). }
    rewrite run_bind, Ho', run_bind, (run_find_first_eq TOrganizationInvitation _ _ (Some (set_accepted (w_now w) i)));
      [|done|rewrite Hinv; by apply (find_update_key oi_id); [done|done|apply bool_decide_eq_true]].
    cbv iota. cbn [oi_organizationId set_accepted oi_acceptedAt]. rewrite Horg. unfold negb.
    by rewrite !bool_decide_eq_true_2 by eauto.
Qed.

(** *** However many accept at the same time *)

(** One invitation [i] to [org], one user [userId] with its address, and the memberships
    [base], with at most one more: that of this user. *)
Record inviting (realm : Realm) (slug token : string) (org : Organization) (i : OrganizationInvitation) (userId : string)
    (base : list OrganizationMember) (w : World) : Prop := {
  inv_org : forall o, o ∈ rows TOrganization w -> is_organization realm slug o = true -> o = org;
  inv_row : forall x, x ∈ rows TOrganizationInvitation w -> oi_token x = sha256 token ->
              oi_email x = oi_email i /\ oi_role x = oi_role i;
  inv_user : forall u, u ∈ rows TUser w -> user_realmId u = realm_id realm -> user_email u = Some (oi_email i) ->
               user_id u = userId;
  inv_members : rows TOrganizationMember w = base \/
    exists m, rows TOrganizationMember w = base ++ [m] /\ List.find (is_member (org_id org) userId) base = None /\
      om_organizationId m = org_id org /\ om_userId m = userId /\ om_role m = oi_role i
}.

Section Race.
Context (realm : Realm) (slug token : string) (org : Organization) (i : OrganizationInvitation) (userId : string).
Context (base : list OrganizationMember).
Notation Inv := (inviting realm slug token org i userId base).
Notation holds := (claims (fun _ => 0%nat) Inv (fun _ (_ : OrganizationMember) => True) false).

Notation keeping := (claims (fun _ => 0%nat) Inv).
Lemma keeping_query {A B} (Q : bool -> A -> Prop) c (f : World -> B) k :
  (forall w, Inv w -> keeping Q c (k (f w))) -> keeping Q c (bind (query f) k).
Proof. intros H. simpl. intros w Hw. destruct (w_db_up w); simpl; (split; [done|]); left; auto. Qed.

Lemma keeping_now {A} (Q : bool -> A -> Prop) c k : (forall n, keeping Q c (k n)) -> keeping Q c (bind date_now k).
Proof. intros H. simpl. intros w Hw. split; [done|]. left; auto. Qed.

Lemma inviting_join x now w m w' :
  oi_role x = oi_role i -> Inv w -> run (join org x userId now) w = (inr m, w') -> Inv w'.
Proof.
  intros Hrole [Ho Hi Hu Hm] Hr.
  assert (Hfr : frame [TOrganizationInvitation; TOrganizationMember] w w').
  { eapply run_frame; [|exact Hr]. unfold join. footprint. }
  apply run_join_inr in Hr as [Hinv Hj]. split.
  - intros o Hin. rewrite (frame_rows _ _ _ TOrganization Hfr eq_refl) in Hin. by apply Ho.
  - intros y Hin. rewrite Hinv in Hin.
    apply elem_of_update_first in Hin as [Hin|(z & [Hin _]%find_elem & ->)]; intros Ht; by apply Hi in Hin.
  - intros u Hin. rewrite (frame_rows _ _ _ TUser Hfr eq_refl) in Hin. by apply Hu.
  - unfold joined in Hj. match type of Hj with match ?o with _ => _ end => destruct o as [m0|] eqn:Hf end.
    + destruct Hj as [_ ->]. exact Hm.
    + destruct Hj as (H1 & H2 & H3 & ->). destruct Hm as [Hb|(m1 & Hr1 & Hb & Hm1 & Hm2 & _)].
      * right. exists m. rewrite <- Hrole. rewrite Hb in Hf |- *. split_and!; done.
      * rewrite Hr1 in Hf. exfalso. assert (List.find (is_member (org_id org) userId) (base ++ [m1]) = Some m1); [|congruence].
        apply find_app_last; [|unfold is_member; by rewrite Hm1, Hm2, !bool_decide_eq_true_2].
        intros y Hy. exact (List.find_none _ _ Hb y (proj1 (list_elem_of_In _ _) Hy)).
Qed.

Lemma holds_transaction (p : M OrganizationMember) :
  (forall w m w', Inv w -> run (transaction p) w = (inr m, w') -> Inv w') -> holds (transaction p).
Proof.
  intros H w Hw. specialize (H w). rewrite run_transaction in H. simpl.
  destruct (run p w) as [[e|m] w']; simpl; (split; [eauto|]); left; done.
Qed.

Lemma holds_accept again : holds (acceptInvitation realm slug token again).
Proof.
  unfold acceptInvitation. eapply (claims_bind _ _ (fun c o => c = false /\ o = org)).
  { unfold findOne. apply keeping_query. intros w Hw. destruct (List.find _ _) as [o|] eqn:Ho; [|exact I].
    apply find_elem in Ho as [Hin Hp]. split; [done|]. by apply (inv_org _ _ _ _ _ _ _ _ Hw). }
  intros c o [-> ->]. apply keeping_query. intros w Hw.
  destruct (List.find _ _) as [x|] eqn:Hx; [|exact I]. apply find_elem in Hx as [Hin Ht%bool_decide_eq_true].
  destruct (inv_row _ _ _ _ _ _ _ _ Hw x Hin Ht) as [Hmail Hrole].
  destruct (_ !== _); [exact I|]. destruct (bool_decide _); [exact I|].
  apply keeping_now. intros now. destruct (_ <? _); [exact I|]. apply keeping_query. intros w1 Hw1.
  destruct (List.find _ _) as [u|] eqn:Hu; [|exact I]. apply find_elem in Hu as [Huin [Hure Hum%bool_decide_eq_true]%andb_true_iff].
  rewrite Hmail in Hum. apply bool_decide_eq_true in Hure.
  rewrite (inv_user _ _ _ _ _ _ _ _ Hw1 u Huin Hure Hum).
  destruct (negb _); [exact I|]. destruct (_ && _); [exact I|]. apply keeping_now. intros now'.
  apply holds_transaction. intros w2 m w'. by apply inviting_join.
Qed.

Lemma psteps_inviting env n (c c' : World * list (M OrganizationMember)) :
  (forall a b, env a b -> Inv a -> Inv b) -> psteps env c c' -> Inv c.1 ->
  pool_claims (fun _ => 0%nat) Inv (fun _ _ => True) n c.2 -> Inv c'.1.
Proof.
  intros Henv Hs. revert n. induction Hs as [c|c1 c2 c3 Hst Hs IH]; intros n Hi Hn; [done|].
  assert (He : forall a b, env a b -> keeps (fun _ => 0%nat) Inv a b) by (intros a b Hab Ha; split; [by apply (Henv a b)|done]).
  destruct (pstep_claims _ _ _ He _ _ _ _ Hst Hi Hn) as (Hi' & n' & Hn' & _). by apply (IH n').
Qed.

(** C39. However many requests accept an invitation at the same time, whoever they say they
    are, at most one membership is added: that of the user with the invited address, with
    the role of the invitation.  Meanwhile the rest of the system may do anything that
    keeps the organization, the invitation's address and role, the owner of the address and
    the members of all organizations but for that one membership ([Inv]). *)
Theorem invitation_adds_one_member env w w' (users : list string) pool :
  (forall a b, env a b -> Inv a -> Inv b) -> Inv w ->
  psteps env (w, map (acceptInvitation realm slug token) users) (w', pool) -> Inv w'.
Proof.
  intros Henv Hw Hs. apply (psteps_inviting env 0 _ _ Henv Hs Hw).
  apply pool_claims_start. apply Forall_fmap, Forall_true. intros x. apply holds_accept.
Qed.
End Race.

(** ** Domains *)

(** An organization owns a domain only once it has proved it: verification succeeds
    exactly when the domain was verified before, which changes nothing, or when DNS answers
    with the value made from this organization and this domain, which adds the domain, in
    lower case, to this organization and no other. *)
Theorem verifyDomain_spec realm slug domain org w :
  w_db_up w = true -> List.find (is_organization realm slug) (rows TOrganization w) = Some org ->
  let d := to_lower domain in
  let proved := exists records, resolveTxt (txt_host d) (w_now w) = Some records /\
                  generateDomainVerificationToken (org_id org) d ∈ concat records in
  ((exists r w', run (verifyDomain resolveTxt realm slug domain) w = (inr r, w')) <->
   d ∈ org_verifiedDomains org \/ proved) /\
  forall r w', run (verifyDomain resolveTxt realm slug domain) w = (inr r, w') -> r.1 = d /\
    (if r.2 then w' = w else
     d ∉ org_verifiedDomains org /\
     w' = with_rows TOrganization (update_first (fun o => org_id o === org_id org) (push_domain d) (rows TOrganization w)) w).
Proof.
  intros Hup Hfo d proved.
  assert (Ho : run (findOne realm slug) w = (inr org, w)).
  { unfold findOne. by rewrite run_bind, (run_find_first_eq TOrganization _ _ (Some org)). }
  pose proof (find_elem _ _ _ Hfo) as [Hin _].
  unfold verifyDomain. rewrite run_bind, Ho. cbv zeta. fold d.
  destruct (includes d (org_verifiedDomains org)) eqn:Hi.
  { apply includes_true in Hi. cbn [run]. split; [split; [by left|eauto]|]. by intros r w' [= <- <-]. }
  apply includes_false in Hi. rewrite run_bind, run_date_now. unfold proved.
  destruct (resolveTxt (txt_host d) (w_now w)) as [records|]; cbn [run].
  2:{ split; [|done]. split; [by intros (? & ? & ?)|]. by intros [?|(? & ? & _)]. }
  destruct (includes _ (concat records)) eqn:Hr; cbn [negb run].
  - apply includes_true in Hr.
    destruct (find_from_elem (fun o => org_id o === org_id org) _ org Hin) as [o Hfu]; [by apply bool_decide_eq_true|].
    rewrite run_bind, (run_update TOrganization _ _ w o) by done. cbn [run].
    split; [split; [eauto|eauto]|]. by intros r w' [= <- <-].
  - apply includes_false in Hr. split; [|done]. split; [by intros (? & ? & ?)|].
    intros [?|(rs & [= <-] & ?)]; done.
Qed.

(** ** One realm does not reach the organizations of another *)

(** A part that belongs to no organization of the realm stays as it is. *)
Definition within (realm : Realm) t `{Owned t} {A} (p : M A) : Prop :=
  forall w r w', NoDup (map row_key (rows t w)) -> run p w = (r, w') ->
  forall x : Row t, (forall o, o ∈ rows TOrganization w -> org_realmId o = realm_id realm -> row_owner x <> org_id o) ->
    x ∈ rows t w' <-> x ∈ rows t w.

Lemma within_frame realm t `{Owned t} {A} ts (p : M A) :
  stable (frame ts) p -> includes t ts = false -> within realm t p.
Proof. intros Hp Ht w r w' _ Hr x _. by rewrite (frame_rows _ _ _ _ (run_frame _ _ _ _ _ Hp Hr) Ht). Qed.

Lemma within_findOne realm slug t `{Owned t} {A} (k : Organization -> M A) :
  (forall org, confined t (org_id org) None (k org)) -> within realm t (bind (findOne realm slug) k).
Proof.
  intros Hk w r w' Hnd [(e & Hr)|(org & w1 & Ho & Hr)]%run_bind_any x Hx.
  - unfold findOne in Hr. apply run_bind_any in Hr as [(e' & Hr)|(o & w1 & Ho & Hr)].
    + by apply run_query_any in Hr as ->.
    + apply run_query_any in Ho as ->. by destruct o; injection Hr as _ <-.
  - apply run_findOne_inr in Ho as (-> & Hin & Hre & _). exact (Hk org w r w' Hnd ltac:(done) Hr x (Hx org Hin Hre)).
Qed.

Lemma within_equiv realm t `{Owned t} {A} (p q : M A) : prog_equiv p q -> within realm t q -> within realm t p.
Proof. intros Heq Hq w r w' Hnd Hr. rewrite Heq in Hr. by apply (Hq w r w'). Qed.

Lemma within_drop realm t `{Owned t} {A B} (p : M A) (b : B) : within realm t p -> within realm t (bind p (fun _ => Ret b)).
Proof.
  intros Hp w r w' Hnd [(e & Hr)|(a & w1 & Hr & [= _ <-])]%run_bind_any; by eapply Hp.
Qed.

Lemma confined_equiv t `{Owned t} o key {A} (p q : M A) : prog_equiv p q -> confined t key o q -> confined t key o p.
Proof. intros Heq Hq w r w' Hnd Ho Hr. rewrite Heq in Hr. by apply (Hq w r w'). Qed.

(** A look-up of a part of the organization, and a statement on what it finds. *)
Lemma confined_part t `{!NoSelfCascade t} `{Owned t} {A} key p (e : exc) (k : Row t -> M A) :
  (forall x, p x = true -> confined t key (Some x) (k x)) ->
  confined t key None
    (bind (bind (find_first t p) (fun o => match o with Some x => Ret x | None => Throw e end)) k).
Proof.
  intros Hk. eapply confined_equiv; [apply bind_assoc|]. apply confined_find; [by apply confined_throw|].
  intros x Hx. eapply confined_equiv; [|by apply Hk]. intros w. reflexivity.
Qed.

(** Removing an organization of the realm removes its own parts only. *)
Lemma remove_drops realm slug w r w' :
  run (remove realm slug) w = (r, w') ->
  w' = w \/ exists org, org ∈ rows TOrganization w /\ org_realmId org = realm_id realm /\
    w' = with_tables (on_delete TOrganization [org] (set_table TOrganization
           (remove_first (is_organization realm slug) (rows TOrganization w)) (w_tables w))) w.
Proof.
  unfold remove. intros [(e & Hr)|(org & w1 & Ho & Hr)]%run_bind_any.
  - left. unfold findOne in Hr. apply run_bind_any in Hr as [(e' & Hr)|(o & w1 & Ho & Hr)].
    + by apply run_query_any in Hr.
    + apply run_query_any in Ho as ->. by destruct o; injection Hr as _ <-.
  - apply run_findOne_inr in Ho as (-> & Hin & Hre & _ & Hup & Hf). unfold delete_one in Hr.
    rewrite run_prisma, Hup in Hr. right. exists org. split; [done|]. split; [done|].
    match type of Hr with context [match ?o with Some _ => _ | None => _ end] =>
      change o with (List.find (is_organization realm slug) (rows TOrganization w)) in Hr end.
    rewrite Hf in Hr. by injection Hr as _ <-.
Qed.

Ltac dropped :=
  intros w r w' _ [->|(org & Hin & Hre & ->)]%remove_drops x Hx; [done|];
  unfold rows; simpl; rewrite ?drop_rows_eq, ?drop_rows_ne, ?set_table_ne, ?drop_rows_eq, ?drop_rows_ne, ?set_table_ne by done;
  rewrite elem_of_filter_list; split; [by intros [_ ?]|]; intros ?; split; [|done];
  apply negb_true_iff, includes_false; rewrite list_elem_of_singleton; by apply (Hx org).

Lemma remove_within_members realm slug : within realm TOrganizationMember (remove realm slug).
Proof. dropped. Qed.
Lemma remove_within_invitations realm slug : within realm TOrganizationInvitation (remove realm slug).
Proof. dropped. Qed.
Lemma remove_within_sso realm slug : within realm TOrganizationSsoConnection (remove realm slug).
Proof. dropped. Qed.

Lemma confined_transaction t `{Owned t} {A} key o (p : M A) : confined t key o p -> confined t key o (transaction p).
Proof.
  intros Hp w r w' Hnd Ho Hr. rewrite run_transaction in Hr. destruct (run p w) as [[e|a] w1] eqn:H1; injection Hr as <- <-; [done|].
  by apply (Hp w (inr a) w1).
Qed.

Lemma confined_any t `{Owned t} {A} key (p : M A) : confined t key None p -> forall o, confined t key o p.
Proof. intros Hp o w r w' Hnd _. by apply Hp. Qed.

Lemma auto_members_within realm userId orgs w r w' :
  (forall o, o ∈ orgs -> org_realmId o = realm_id realm) -> run (for_each orgs (auto_member userId)) w = (r, w') ->
  forall m : OrganizationMember, (forall o, o ∈ orgs -> om_organizationId m <> org_id o) ->
    m ∈ rows TOrganizationMember w' <-> m ∈ rows TOrganizationMember w.
Proof.
  revert w. induction orgs as [|o orgs IH]; intros w Hre Hr m Hm; simpl in Hr; [by injection Hr as _ <-|].
  assert (Ho : forall w r w', run (auto_member userId o) w = (r, w') ->
    m ∈ rows TOrganizationMember w' <-> m ∈ rows TOrganizationMember w).
  { intros w0 r0 w0' Hr0. assert (others_same TOrganizationMember (org_id o) w0 w0') as Hs; [|apply Hs, Hm; set_solver].
    apply run_bind_any in Hr0 as [(e & Hr0)|(a & w2 & Hr0 & [= _ <-])];
      (eapply (upsert_others TOrganizationMember); [| | |exact Hr0]; [by intros z [? _]%owned_guard|done|done]). }
  apply run_bind_any in Hr as [(e & Hr)|(a & w1 & H1 & Hr)]; [by apply (Ho _ _ _ Hr)|].
  rewrite <- (Ho _ _ _ H1). apply (IH w1); [intros; apply Hre; set_solver|done|intros; apply Hm; set_solver].
Qed.

Lemma perform_within_members realm change : within realm TOrganizationMember (perform resolveTxt realm change).
Proof.
  destruct change; cbn [perform].
  - apply (within_frame _ _ [TOrganization]); [unfold create; footprint|done].
  - apply (within_frame _ _ [TOrganization]); [unfold update, findOne; footprint|done].
  - apply within_drop, remove_within_members.
  - apply within_drop, within_findOne. intros org. eapply (confined_bind_frame _ _ []); [footprint|done|].
    intros [u|]; [|by apply confined_throw].
    eapply (confined_bind_frame _ _ []); [by apply find_first_footprint|done|].
    intros [m|]; [by apply confined_throw|]. by apply confined_create.
  - apply within_drop. unfold updateMemberRole, the_member.
    eapply within_equiv; [apply bind_assoc|]. apply within_findOne. intros org. apply (confined_part TOrganizationMember).
    intros m [? _]%owned_guard. by apply confined_update.
  - apply within_drop. unfold removeMember, the_member.
    eapply within_equiv; [apply bind_assoc|]. apply within_findOne. intros org. apply (confined_part TOrganizationMember).
    intros m [? _]%owned_guard. by apply confined_delete.
  - apply (within_frame _ _ [TOrganizationInvitation]); [unfold createInvitation, findOne; footprint|done].
  - apply within_drop, within_findOne. intros org. eapply (confined_bind_frame _ _ []); [footprint|done|].
    intros [i|]; [|by apply confined_throw]. destruct (_ !== _); [by apply confined_throw|].
    destruct (bool_decide _); [by apply confined_throw|]. eapply (confined_bind_frame _ _ []); [footprint|done|].
    intros now. destruct (_ <? _); [by apply confined_throw|]. eapply (confined_bind_frame _ _ []); [footprint|done|].
    intros [u|]; [|by apply confined_throw]. destruct (negb _); [by apply confined_throw|].
    destruct (_ && _); [by apply confined_throw|]. eapply (confined_bind_frame _ _ []); [footprint|done|].
    intros now'. apply confined_transaction. eapply (confined_bind_frame _ _ [TOrganizationInvitation]); [by apply (update_footprint _ TOrganizationInvitation)|done|].
    intros _. apply (confined_upsert TOrganizationMember); [by intros z [? _]%owned_guard|done|done].
  - apply (within_frame _ _ [TOrganization]); [unfold verifyDomain, findOne; footprint|done].
  - intros w r w' _ Hr x Hx. unfold autoAssignUserByEmailDomain in Hr.
    destruct (email_domain email) as [[|c d]|]; [by injection Hr as _ <-| |by injection Hr as _ <-].
    apply run_bind_any in Hr as [(e & Hr)|(orgs & w1 & Ho & Hr)]; [by apply run_query_any in Hr as ->|].
    run_stmt_inv Ho. subst orgs. eapply auto_members_within; [|exact Hr|].
    + intros o [[[Hp%bool_decide_eq_true _]%andb_true_iff _]%andb_true_iff Hin]%elem_of_filter_list. done.
    + intros o [[[Hp%bool_decide_eq_true _]%andb_true_iff _]%andb_true_iff Hin]%elem_of_filter_list. by apply (Hx o Hin).
  - apply (within_frame _ _ [TOrganizationSsoConnection]); [unfold createSsoConnection, findOne; footprint|done].
  - apply (within_frame _ _ [TOrganizationSsoConnection]); [unfold updateSsoConnection, getSsoConnection, findOne; footprint|done].
  - apply (within_frame _ _ [TOrganizationSsoConnection]); [unfold deleteSsoConnection, getSsoConnection, findOne; footprint|done].
Qed.

Lemma perform_within_invitations realm change : within realm TOrganizationInvitation (perform resolveTxt realm change).
Proof.
  destruct change; cbn [perform].
  - apply (within_frame _ _ [TOrganization]); [unfold create; footprint|done].
  - apply (within_frame _ _ [TOrganization]); [unfold update, findOne; footprint|done].
  - apply within_drop, remove_within_invitations.
  - apply (within_frame _ _ [TOrganizationMember]); [unfold addMember, findOne; footprint|done].
  - apply (within_frame _ _ [TOrganizationMember]); [unfold updateMemberRole, the_member, findOne; footprint|done].
  - apply (within_frame _ _ [TOrganizationMember]); [unfold removeMember, the_member, findOne; footprint|done].
  - apply within_drop, within_findOne. intros org. eapply (confined_bind_frame _ _ []); [footprint|done|]. intros raw.
    eapply (confined_bind_frame _ _ []); [footprint|done|]. intros now.
    eapply (confined_bind_last _ _ []); [by apply confined_create|intros; footprint|done].
  - apply within_drop, within_findOne. intros org. apply confined_find; [by apply confined_throw|]. intros i _.
    destruct (_ !== _) eqn:Horg; [by apply confined_throw|]. apply negb_false_iff, bool_decide_eq_true in Horg.
    destruct (bool_decide _); [by apply confined_throw|]. eapply (confined_bind_frame _ _ []); [footprint|done|].
    intros now. destruct (_ <? _); [by apply confined_throw|]. eapply (confined_bind_frame _ _ []); [footprint|done|].
    intros [u|]; [|by apply confined_throw]. destruct (negb _); [by apply confined_throw|].
    destruct (_ && _); [by apply confined_throw|]. eapply (confined_bind_frame _ _ []); [footprint|done|].
    intros now'. apply confined_transaction.
    eapply (confined_bind_last _ _ [TOrganizationMember]);
      [by apply (confined_update TOrganizationInvitation)|intros; by apply (upsert_footprint _ TOrganizationMember)|done].
  - apply (within_frame _ _ [TOrganization]); [unfold verifyDomain, findOne; footprint|done].
  - apply (within_frame _ _ [TOrganizationMember]); [unfold autoAssignUserByEmailDomain, auto_member; footprint|done].
  - apply (within_frame _ _ [TOrganizationSsoConnection]); [unfold createSsoConnection, findOne; footprint|done].
  - apply (within_frame _ _ [TOrganizationSsoConnection]); [unfold updateSsoConnection, getSsoConnection, findOne; footprint|done].
  - apply (within_frame _ _ [TOrganizationSsoConnection]); [unfold deleteSsoConnection, getSsoConnection, findOne; footprint|done].
Qed.

Lemma perform_within_sso realm change : within realm TOrganizationSsoConnection (perform resolveTxt realm change).
Proof.
  destruct change; cbn [perform].
  - apply (within_frame _ _ [TOrganization]); [unfold create; footprint|done].
  - apply (within_frame _ _ [TOrganization]); [unfold update, findOne; footprint|done].
  - apply within_drop, remove_within_sso.
  - apply (within_frame _ _ [TOrganizationMember]); [unfold addMember, findOne; footprint|done].
  - apply (within_frame _ _ [TOrganizationMember]); [unfold updateMemberRole, the_member, findOne; footprint|done].
  - apply (within_frame _ _ [TOrganizationMember]); [unfold removeMember, the_member, findOne; footprint|done].
  - apply (within_frame _ _ [TOrganizationInvitation]); [unfold createInvitation, findOne; footprint|done].
  - apply (within_frame _ _ [TOrganizationInvitation; TOrganizationMember]);
      [apply stable_bind; [apply acceptInvitation_footprint|by intros]|done].
  - apply (within_frame _ _ [TOrganization]); [unfold verifyDomain, findOne; footprint|done].
  - apply (within_frame _ _ [TOrganizationMember]); [unfold autoAssignUserByEmailDomain, auto_member; footprint|done].
  - apply within_drop, within_findOne. intros org. by apply confined_create.
  - apply within_drop. unfold updateSsoConnection, getSsoConnection.
    eapply within_equiv; [apply bind_assoc|]. apply within_findOne. intros org. apply (confined_part TOrganizationSsoConnection).
    intros c [_ ?]%owned_guard. by apply confined_update.
  - apply within_drop. unfold deleteSsoConnection, getSsoConnection.
    eapply within_equiv; [apply bind_assoc|]. apply within_findOne. intros org. apply (confined_part TOrganizationSsoConnection).
    intros c [_ ?]%owned_guard. by apply confined_delete.
Qed.

Lemma confined_drop t `{Owned t} key o {A B} (p : M A) (b : B) :
  confined t key o p -> confined t key o (bind p (fun _ => Ret b)).
Proof. intros Hp. by eapply (confined_bind_last _ _ []). Qed.

Lemma perform_organizations realm change : confined TOrganization (realm_id realm) None (perform resolveTxt realm change).
Proof.
  destruct change; cbn [perform].
  - apply confined_drop. eapply (confined_bind_frame _ _ []); [footprint|done|].
    intros [o|]; [by apply confined_throw|]. by apply (confined_create TOrganization).
  - apply confined_drop. eapply (confined_bind_frame _ _ []); [unfold findOne; footprint|done|]. intros _.
    apply (confined_update_by TOrganization); [by intros z [? _]%owned_guard|done].
  - apply confined_drop. eapply (confined_bind_frame _ _ []); [unfold findOne; footprint|done|]. intros _.
    apply (confined_delete_by TOrganization). by intros z [? _]%owned_guard.
  - apply (confined_frame _ _ [TOrganizationMember]); [unfold addMember, findOne; footprint|done].
  - apply (confined_frame _ _ [TOrganizationMember]); [unfold updateMemberRole, the_member, findOne; footprint|done].
  - apply (confined_frame _ _ [TOrganizationMember]); [unfold removeMember, the_member, findOne; footprint|done].
  - apply (confined_frame _ _ [TOrganizationInvitation]); [unfold createInvitation, findOne; footprint|done].
  - apply (confined_frame _ _ [TOrganizationInvitation; TOrganizationMember]);
      [apply stable_bind; [apply acceptInvitation_footprint|by intros]|done].
  - apply confined_drop. unfold verifyDomain, findOne. eapply confined_equiv; [apply bind_assoc|].
    apply confined_find; [by apply confined_throw|]. intros o [? _]%owned_guard. cbn [bind].
    destruct (includes _ _); [by apply confined_ret|]. eapply (confined_bind_frame _ _ []); [footprint|done|].
    intros now. destruct (resolveTxt _ now); [|by apply confined_throw]. destruct (negb _); [by apply confined_throw|].
    apply confined_drop. by apply (confined_update TOrganization).
  - apply (confined_frame _ _ [TOrganizationMember]); [unfold autoAssignUserByEmailDomain, auto_member; footprint|done].
  - apply (confined_frame _ _ [TOrganizationSsoConnection]); [unfold createSsoConnection, findOne; footprint|done].
  - apply (confined_frame _ _ [TOrganizationSsoConnection]); [unfold updateSsoConnection, getSsoConnection, findOne; footprint|done].
  - apply (confined_frame _ _ [TOrganizationSsoConnection]); [unfold deleteSsoConnection, getSsoConnection, findOne; footprint|done].
Qed.

(** Organizations are closed to other realms: whatever is done for one realm, and however
    it ends, the organizations of every other realm stay as they are, and so does every
    membership, invitation and SSO connection of theirs. *)
Theorem organizations_isolated realm change w :
  NoDup (map org_id (rows TOrganization w)) -> NoDup (map om_id (rows TOrganizationMember w)) ->
  NoDup (map oi_id (rows TOrganizationInvitation w)) -> NoDup (map osc_id (rows TOrganizationSsoConnection w)) ->
  let w' := (run (perform resolveTxt realm change) w).2 in
  let foreign id := forall o, o ∈ rows TOrganization w -> org_realmId o = realm_id realm -> id <> org_id o in
  others_same TOrganization (realm_id realm) w w' /\
  (forall m, foreign (om_organizationId m) -> m ∈ rows TOrganizationMember w' <-> m ∈ rows TOrganizationMember w) /\
  (forall i, foreign (oi_organizationId i) -> i ∈ rows TOrganizationInvitation w' <-> i ∈ rows TOrganizationInvitation w) /\
  (forall c, foreign (osc_organizationId c) ->
     c ∈ rows TOrganizationSsoConnection w' <-> c ∈ rows TOrganizationSsoConnection w).
Proof.
  intros H1 H2 H3 H4 w' foreign. destruct (run (perform resolveTxt realm change) w) as [r w1] eqn:Hr. subst w'. simpl.
  split; [by eapply perform_organizations|]. split; [|split]; intros x Hx.
  - by eapply (perform_within_members realm change w).
  - by eapply (perform_within_invitations realm change w).
  - by eapply (perform_within_sso realm change w).
Qed.
End Facts.

(** ** Witnesses *)

#[local] Instance test_collation : Collation :=
  { text_le a b := true; text_test _ _ _ := false; other_user_column _ _ := None; other_group_column _ _ := None }.

Definition org0 : Organization :=
  mkOrganization "org-1" "realm-1" "Acme" "acme" None None true None None false ["acme.test"].
Definition other_org : Organization := mkOrganization "org-2" "realm-2" "Other" "acme" None None true None None false [].
Definition other_member : OrganizationMember := mkOrganizationMember "m-2" "org-2" "user-9" "owner" 0.
Definition invitation0 : OrganizationInvitation :=
  mkOrganizationInvitation "inv-1" "org-1" "alice@acme.test" "admin" (to_hex "raw") 1000000500 None 0.
Definition org_world : World :=
  with_rows TOrganizationInvitation [invitation0]
    (with_rows TOrganizationMember [other_member] (with_rows TOrganization [org0; other_org] world1)).
Definition published (host : string) (now : Z) : option (list (list string)) :=
  if host === "_idenplane-challenge.acme.org"
  then Some [["v=spf1"]; [generateDomainVerificationToken (E:=test_env) "org-1" "acme.org"]] else None.

Example acceptInvitation_spec_witness :
  exists m w', run (acceptInvitation (E:=test_env) realm0 "acme" "raw" "") org_world = (inr m, w') /\
    om_userId m = "user-1" /\ om_role m = "admin" /\ rows TOrganizationMember w' = [other_member; m] /\
    run (acceptInvitation (E:=test_env) realm0 "acme" "raw" "user-1") w' =
      (inl (Gone "Invitation has already been accepted"), w').
Proof.
  destruct (ends_ok_run (acceptInvitation (E:=test_env) realm0 "acme" "raw" "") org_world) as (m & w' & Hr);
    [vm_compute; reflexivity|].
  assert (Hnd : NoDup (map oi_id (rows TOrganizationInvitation org_world))) by (apply (bool_decide_unpack _); vm_compute; exact I).
  destruct (acceptInvitation_spec (E:=test_env) realm0 "acme" "raw" "" org_world m w' Hnd Hr)
    as (org & i & user & (Horg & _) & (Hi & _) & (Hu & _) & Hj & _ & Hagain).
  exists m, w'. split; [exact Hr|].
  apply list_elem_of_singleton in Hi as ->. apply list_elem_of_singleton in Hu as ->.
  apply elem_of_cons in Horg as [->|Horg].
  - destruct Hj as (_ & Hn & Hrole & Hrows). split; [exact Hn|]. split; [exact Hrole|]. split; [exact Hrows|]. exact (Hagain "user-1").
  - exfalso. assert (Hm : om_organizationId m = "org-1").
    { assert (H : (run (acceptInvitation (E:=test_env) realm0 "acme" "raw" "") org_world).1 = inr m) by (rewrite Hr; reflexivity).
      vm_compute in H. injection H as <-. reflexivity. }
    apply list_elem_of_singleton in Horg as ->. destruct Hj as (Ho & _). rewrite Hm in Ho. discriminate Ho.
Defined.

Example verifyDomain_spec_witness :
  exists w', run (verifyDomain (E:=test_env) published realm0 "acme" "ACME.org") org_world = (inr ("acme.org", false), w') /\
    ~ exists r w', run (verifyDomain (E:=test_env) published realm0 "acme" "example.org") org_world = (inr r, w').
Proof.
  destruct (ends_ok_run (verifyDomain (E:=test_env) published realm0 "acme" "ACME.org") org_world) as ([d b] & w' & Hr);
    [vm_compute; reflexivity|].
  destruct (verifyDomain_spec (E:=test_env) published realm0 "acme" "ACME.org" org0 org_world eq_refl eq_refl) as [_ Hs].
  destruct (Hs _ _ Hr) as [Hd Hb]. exists w'. split.
  - rewrite Hr. simpl in Hd. subst d. destruct b; [|reflexivity]. exfalso.
    assert (H : (run (verifyDomain (E:=test_env) published realm0 "acme" "ACME.org") org_world).1 = inr ("acme.org", true))
      by (rewrite Hr; reflexivity).
    vm_compute in H. discriminate H.
  - destruct (verifyDomain_spec (E:=test_env) published realm0 "acme" "example.org" org0 org_world eq_refl eq_refl) as [Hiff _].
    intros H. apply Hiff in H as [H|(records & H & _)]; [|vm_compute in H; discriminate H].
    apply list_elem_of_singleton in H. vm_compute in H. discriminate H.
Defined.

(** A request of the realm "acme" that names a member of another realm's organization with
    the same slug. *)
Example organizations_isolated_witness :
  let w' := (run (perform (E:=test_env) published realm0 (RemoveMember "acme" "user-9")) org_world).2 in
  other_member ∈ rows TOrganizationMember w'.
Proof.
  cbv zeta.
  destruct (organizations_isolated (E:=test_env) published realm0 (RemoveMember "acme" "user-9") org_world) as (_ & Hm & _);
    [apply (bool_decide_unpack _); vm_compute; exact I..|].
  apply Hm; [|by apply list_elem_of_singleton].
  intros o [->|[->|Ho%not_elem_of_nil]%elem_of_cons]%elem_of_cons; [discriminate|discriminate|done].
Defined.

Lemma org_world_inviting : inviting (E:=test_env) realm0 "acme" "raw" org0 invitation0 "user-1" [other_member] org_world.
Proof.
  split.
  - intros o Ho Hp. apply elem_of_cons in Ho as [->|Ho]; [done|]. apply list_elem_of_singleton in Ho as ->.
    vm_compute in Hp. discriminate Hp.
  - intros x Hx _. by apply list_elem_of_singleton in Hx as ->.
  - intros u Hu _ _. by apply list_elem_of_singleton in Hu as ->.
  - by left.
Qed.

(** Two requests for the same invitation, interleaved: the second one only reads. *)
Definition two_requests : World * list (M OrganizationMember) :=
  schedule [0;1;0;1;0;1;0;1;0;1;0;1]%nat
    (org_world, map (acceptInvitation (E:=test_env) realm0 "acme" "raw") ["user-1"; ""]).

Example invitation_adds_one_member_witness :
  inviting (E:=test_env) realm0 "acme" "raw" org0 invitation0 "user-1" [other_member] two_requests.1 /\
  length (rows TOrganizationMember two_requests.1) = 2%nat.
Proof.
  split; [|vm_compute; reflexivity].
  refine (invitation_adds_one_member (E:=test_env) realm0 "acme" "raw" org0 invitation0 "user-1" [other_member] eq org_world
            two_requests.1 ["user-1"; ""] two_requests.2 _ org_world_inviting _); [by intros a b ->|].
  rewrite <- surjective_pairing. apply schedule_psteps.
Defined.

(** ** What the code does not do *)

(** Invitations are stored in lower case and compared with the address as the user has it,
    so a user whose address has a capital can never accept one. *)
Example mixed_case_address_cannot_join :
  let alice := mkUser "user-1" "realm-1" "alice" (Some "Alice@acme.test") true None None true None "argon2" None None None 0 in
  let w := with_rows TUser [alice] org_world in
  let invite := createInvitation (E:=test_env) realm0 "acme" "Alice@acme.test" None in
  exists token w', run invite w = (inr token, w') /\
    run (acceptInvitation (E:=test_env) realm0 "acme" token.1 "user-1") w' =
      (inl (Forbidden "No user with the invited email address exists in this realm"), w').
Proof.
  cbv zeta. match goal with |- exists token w', run ?p ?w = _ /\ _ => destruct (ends_ok_run p w) as (t & w' & Hr); [vm_compute; reflexivity|] end.
  exists t, w'. split; [exact Hr|].
  match type of Hr with run ?p ?w = _ =>
    assert (t = (match (run p w).1 with inr a => a | inl _ => t end)) as -> by (rewrite Hr; reflexivity);
    assert (w' = (run p w).2) as -> by (rewrite Hr; reflexivity) end.
  vm_compute. reflexivity.
Qed.

(** A disabled organization still takes members in. *)
Example disabled_organization_grows :
  let closed := set_organization (mkUpdateOrganization None None None (Some false) None None None) org0 in
  let w := with_rows TOrganization [closed] org_world in
  org_enabled closed = false /\
  length (rows TOrganizationMember (run (acceptInvitation (E:=test_env) realm0 "acme" "raw" "") w).2) = 2%nat.
Proof. by vm_compute. Qed.
