(* ===== verification/Account.v ===== *)
(** * Account: the account pages (src/src/account)

    AccountController, where a signed-in user changes name, password and second factors,
    exports what the server holds and asks for deletion, and DataExportService.  Pages and
    answers are those of [LoginController], without constant titles; a value that is a list
    is one pair per element.  The QR code of an authenticator is drawn from its secret by a
    library and left out, as are the layout of the exported JSON and the export's columns
    that [Schema] does not hold. *)

From Stdlib Require Import SpecFloat.
From S2P Require Import Prelude Prog Json JsText JsNumber Schema Store Crypto PasswordPolicy SmsOtp Mfa Login LoginFlow.
From S2P Require Import Email RiskSignals RiskAssessment AccountDeletion CustomAttributes LoginController.

Definition SMS_ENROLLMENT_COOKIE : string := "IDENPLANE_SMS_ENROLL".

(** ** Data export *)

(** The columns that [Schema] holds of each part; the other columns (dates of creation and
    change of some parts) are left out with them. *)
Record ExportedUser := mkExportedUser {
  eu_id : string; eu_username : string; eu_email : option string; eu_emailVerified : bool;
  eu_firstName : option string; eu_lastName : option string; eu_enabled : bool;
  eu_federationLink : option string; eu_createdAt : Z
}.
Record ExportedConsent := mkExportedConsent { ec_clientId : string; ec_clientName : option string; ec_scopes : list string }.
Record ExportedDecision := mkExportedDecision {
  ed_clientId : string; ed_action : string; ed_scopes : list string; ed_policyVersion : option string; ed_timestamp : Z
}.
Record ExportedIdentity := mkExportedIdentity {
  ei_providerAlias : string; ei_providerDisplayName : option string; ei_externalUserId : string;
  ei_externalUsername : option string; ei_externalEmail : option string
}.
Record ExportedSession := mkExportedSession {
  es_id : string; es_ipAddress : option string; es_userAgent : option string; es_createdAt : Z; es_expiresAt : Z
}.
Record ExportedEvent := mkExportedEvent {
  ee_type : string; ee_clientId : option string; ee_ipAddress : option string; ee_error : option string; ee_timestamp : Z
}.
Record ExportedKey := mkExportedKey {
  ek_credentialId : string; ek_deviceType : string; ek_backedUp : bool; ek_friendlyName : option string;
  ek_transports : list string; ek_createdAt : Z; ek_lastUsedAt : option Z
}.
Record MfaExport := mkMfaExport {
  me_totp : option bool;   (* verified *)
  me_webAuthn : list ExportedKey; me_recoveryCodesRemaining : Z
}.
Record ExportedDeletion := mkExportedDeletion {
  xd_requestedAt : Z; xd_scheduledAt : Z; xd_gracePeriodDays : Z; xd_status : string; xd_exportStatus : option string
}.
Record ExportedProfile := mkExportedProfile {
  xp_avgLoginFrequency : spec_float; xp_knownDevices : list string; xp_knownIps : list string; xp_lastLocations : list string
}.
Record ExportedMembership := mkExportedMembership {
  xm_organizationName : string; xm_organizationDisplayName : option string; xm_role : string; xm_joinedAt : Z
}.
Record UserDataExport := mkUserDataExport {
  xp_version : Z; xp_exportedAt : Z; xp_user : ExportedUser; xp_roles : list (string * option string);
  xp_groups : list string; xp_consents : list ExportedConsent; xp_consentHistory : list ExportedDecision;
  xp_federatedIdentities : list ExportedIdentity; xp_sessions : list ExportedSession;
  xp_loginEvents : list ExportedEvent; xp_customAttributes : list (string * string * string);
  xp_mfaCredentials : MfaExport; xp_deletionRequest : option ExportedDeletion;
  xp_riskProfile : option ExportedProfile; xp_organizationMemberships : list ExportedMembership
}.

Definition exported_decision (h : UserConsentHistory) : ExportedDecision :=
  mkExportedDecision (uch_clientId h) (uch_action h) (uch_scopes h) (uch_policyVersion h) (uch_createdAt h).
Definition exported_event (e : LoginEvent) : ExportedEvent :=
  mkExportedEvent (le_type e) (le_clientId e) (le_ipAddress e) (le_error e) (le_createdAt e).

(** The row a foreign key points to. *)
Definition related {A B} (rows : list A) (key : A -> string) (value : A -> B) (id : string) : option B :=
  option_map value (List.find (fun a => key a === id) rows).
Definition of_user_rows (t : Table) (owner : Row t -> string) (userId : string) (w : World) : list (Row t) :=
  List.filter (fun r => owner r === userId) (rows t w).

Definition buildMfaCredentials (userId : string) (w : World) : MfaExport :=
  mkMfaExport
    (option_map cred_verified (List.find (of_type userId "totp") (rows TUserCredential w)))
    (map (fun c => mkExportedKey (wac_credentialId c) (wac_deviceType c) (wac_backedUp c) (wac_friendlyName c)
                     (wac_transports c) (wac_createdAt c) (wac_lastUsedAt c))
       (of_user_rows TWebAuthnCredential wac_userId userId w))
    (Z.of_nat (length (List.filter (unused_code userId) (rows TRecoveryCode w)))).

Definition memberships_of (userId : string) (w : World) : list ExportedMembership :=
  omap (fun m => related (rows TOrganization w) org_id
                   (fun o => mkExportedMembership (org_name o) (org_displayName o) (om_role m) (om_joinedAt m))
                   (om_organizationId m)) (of_user_rows TOrganizationMember om_userId userId w).

(** The user with everything the query includes. *)
Definition user_with_relations (user : User) (w : World) : Z -> list ExportedDecision -> list ExportedEvent ->
    list ExportedMembership -> UserDataExport :=
  let id := user_id user in
  fun now decisions events memberships =>
  mkUserDataExport 1 now
    (mkExportedUser id (user_username user) (user_email user) (user_emailVerified user) (user_firstName user)
       (user_lastName user) (user_enabled user) (user_federationLink user) (user_createdAt user))
    (omap (fun ur => related (rows TRole w) role_id (fun r => (role_name r, role_clientId r)) (ur_roleId ur))
       (of_user_rows TUserRole ur_userId id w))
    (omap (fun ug => related (rows TGroup w) group_id group_name (ug_groupId ug)) (of_user_rows TUserGroup ug_userId id w))
    (omap (fun c => related (rows TClient w) client_id
                      (fun cl => mkExportedConsent (client_clientId cl) (client_name cl) (uc_scopes c)) (uc_clientId c))
       (of_user_rows TUserConsent uc_userId id w))
    decisions
    (omap (fun fi => related (rows TIdentityProvider w) idp_id
                       (fun p => mkExportedIdentity (idp_alias p) (idp_displayName p) (fi_externalUserId fi)
                                   (fi_externalUsername fi) (fi_externalEmail fi)) (fi_identityProviderId fi))
       (of_user_rows TFederatedIdentity fi_userId id w))
    (map (fun s => mkExportedSession (session_id s) (session_ipAddress s) (session_userAgent s) (session_createdAt s)
                     (session_expiresAt s)) (of_user_rows TSession session_userId id w))
    events
    (omap (fun ua => related (rows TCustomAttribute w) ca_id (fun a => (ca_name a, ca_displayName a, ua_value ua))
                       (ua_attributeId ua)) (of_user_rows TUserAttribute ua_userId id w))
    (buildMfaCredentials id w)
    (option_map (fun d => mkExportedDeletion (pdel_requestedAt d) (pdel_scheduledAt d) (pdel_gracePeriodDays d)
                            (pdel_status d) (pdel_exportStatus d))
       (List.find (of_user id) (rows TPendingDeletion w)))
    (option_map (fun p => mkExportedProfile (ulp_avgLoginFrequency p) (ulp_knownDevices p) (ulp_knownIps p)
                            (ulp_lastLocations p))
       (List.find (fun p => ulp_userId p === id) (rows TUserLoginProfile w)))
    memberships.

Section Account.
Context {E : Env} (error_message : exc -> string).

Definition exportUserData (userId : string) : M UserDataExport :=
  (user <- query (fun w => option_map (fun u => user_with_relations u w)
                             (List.find (fun u => user_id u === userId) (rows TUser w))) ;;
   match user with
   | None => Throw (NotFound ("User with ID '" +:+ userId +:+ "' not found"))
   | Some build =>
       consentHistory <- find_many_desc TUserConsentHistory (fun h => uch_userId h === userId) uch_createdAt ;;
       loginEvents <- find_many_desc TLoginEvent (fun e => bool_decide (le_userId e = Some userId)) le_createdAt ;;
       orgMembers <- query (memberships_of userId) ;;
       now <- date_now ;;
       Ret (build now
         (map exported_decision (take 100 consentHistory)) (map exported_event (take 100 loginEvents))
         orgMembers)
   end)%prog.

(** ** Who asks *)

Definition getSessionUser (realm : Realm) (req : Request) : M (option User) :=
  let sessionToken := cookie SESSION_COOKIE req in
  if negb (truthy sessionToken) then Ret None else validateLoginSession realm (sessionToken ?? EmptyString).

Record SetupUser := mkSetupUser { su_user : User; su_enrollmentToken : option string; su_enrollmentVerified : bool }.

(** The enrolment of a paused sign-in, if its cookie names one of this realm. *)
Definition enrolling_user (realm : Realm) (enrollmentToken : string) : M (option SetupUser) :=
  (enrollment <- getMfaEnrollment enrollmentToken ;;
   match enrollment with
   | Some enrollment =>
       if pd_realmId enrollment !== realm_id realm then Ret None else
       user <- findUserById (pd_userId enrollment) ;;
       Ret (match user with
            | Some user => if user_enabled user
                           then Some (mkSetupUser user (Some enrollmentToken) (pd_verified enrollment ?? false)) else None
            | None => None
            end)
   | None => Ret None
   end)%prog.

Definition getTotpSetupUser (realm : Realm) (req : Request) : M (option SetupUser) :=
  (let enrollmentToken := cookie MFA_ENROLLMENT_COOKIE req in
   enrolling <- (if truthy enrollmentToken then enrolling_user realm (enrollmentToken ?? EmptyString) else Ret None) ;;
   match enrolling with
   | Some setup => Ret (Some setup)
   | None =>
       user <- getSessionUser realm req ;;
       Ret (option_map (fun user => mkSetupUser user None false) user)
   end)%prog.

Definition to_account (realm : Realm) (kind message : string) : Response := redirect realm "/account" [(kind, message)].
Definition log_in_first (realm : Realm) : Response := redirect realm "/login" [].

(** The handlers of a signed-in user. *)
Definition signed_in {A} (realm : Realm) (req : Request) (otherwise : A) (k : User -> M A) : M A :=
  (user <- getSessionUser realm req ;;
   match user with
   | None => Ret otherwise
   | Some user => k user
   end)%prog.
(** The handlers of a user who signs in or sets a factor up. *)
Definition setting_up (realm : Realm) (req : Request) (k : SetupUser -> M Response) : M Response :=
  (setupUser <- getTotpSetupUser realm req ;;
   match setupUser with
   | None => Ret (log_in_first realm)
   | Some setupUser => k setupUser
   end)%prog.

(** A page with a fresh form token and more cookies. *)
Definition with_cookies (cookies : list Cookie) (r : Response) : Response :=
  mkResponse (rs_cookies r ++ cookies) (rs_cleared r) (rs_view r).

(** The password of the form, asked for before a change. *)
Definition confirm_password (user : User) (body : fields) (missing wrong : Response) (k : M Response) : M Response :=
  (let currentPassword := field "currentPassword" body in
   if negb (truthy currentPassword) || negb (truthy (user_passwordHash user)) then Ret missing else
   valid <- verifyPassword (user_passwordHash user ?? EmptyString) (currentPassword ?? EmptyString) ;;
   if negb (valid : bool) then Ret wrong else k)%prog.

(** ** The account page *)

Definition getUserCredentials (userId : string) : M (list WebAuthnCredential) :=
  find_many_asc TWebAuthnCredential (fun c => wac_userId c === userId) wac_createdAt.

(** The page, and its list of security keys. *)
Definition showAccount (realm : Realm) (q : fields) (req : Request) : M (Response * option (list WebAuthnCredential)) :=
  (signed_in realm req (log_in_first realm, None) (fun user =>
   mfaEnabled <- isTotpEnabled (user_id user) ;;
   webAuthnCredentials <- (if realm_webAuthnEnabled realm then getUserCredentials (user_id user) else Ret []) ;;
   smsPhone <- getEnrolledPhone (user_id user) ;;
   let smsAvailable := canEnroll realm in
   page <- render_form realm "account"
     [("smsSection", flag (smsAvailable || truthy smsPhone)); ("smsAvailable", flag smsAvailable);
      ("smsEnabled", flag (truthy smsPhone));
      ("smsPhone", if truthy smsPhone then maskPhone (smsPhone ?? EmptyString) else EmptyString);
      ("username", user_username user); ("email", user_email user ?? EmptyString);
      ("emailVerified", flag (user_emailVerified user)); ("firstName", user_firstName user ?? EmptyString);
      ("lastName", user_lastName user ?? EmptyString); ("mfaEnabled", flag mfaEnabled);
      ("webAuthnEnabled", flag (realm_webAuthnEnabled realm));
      ("success", field "success" q ?? EmptyString); ("error", field "error" q ?? EmptyString)] ;;
   Ret (page, match webAuthnCredentials with [] => None | _ => Some webAuthnCredentials end)))%prog.

Definition logout (realm : Realm) (req : Request) : M Response :=
  (let sessionToken := cookie SESSION_COOKIE req in
   (if truthy sessionToken
    then catch (delete_one TLoginSession (fun s => ls_tokenHash s === sha256 (sessionToken ?? EmptyString)) ;;; Ret tt)
               (fun _ => Ret tt)
    else Ret tt) ;;;
   Ret (clearing [SESSION_COOKIE] (redirect realm "/login" [("signedOut", "1")])))%prog.

Definition has_brackets (s : string) : bool := str_existsb (fun c => (c === "<"%char) || (c === ">"%char)) s.
Definition set_user_names (firstName lastName : option string) (u : User) : User :=
  mkUser (user_id u) (user_realmId u) (user_username u) (user_email u) (user_emailVerified u) firstName lastName
    (user_enabled u) (user_passwordHash u) (user_passwordAlgorithm u) (user_federationLink u) (user_passwordChangedAt u)
    (user_lockedUntil u) (user_createdAt u).

Definition updateProfile (realm : Realm) (body : fields) (req : Request) : M Response :=
  (validateCsrf realm body req ;;;
   signed_in realm req (log_in_first realm) (fun user =>
   let firstName := js_trim (field "firstName" body ?? EmptyString) in
   let lastName := js_trim (field "lastName" body ?? EmptyString) in
   if has_brackets firstName || has_brackets lastName
   then Ret (to_account realm "error" "Fields must not contain HTML tags or angle brackets.") else
   update TUser (fun u => user_id u === user_id user) (set_user_names (optional firstName) (optional lastName)) ;;;
   Ret (to_account realm "success" "Profile updated successfully.")))%prog.

(** ** Password *)

Definition password_changed_html (time ip device username : string) : string :=
  let row label value :=
    line 8 ("<tr><td" +:+ style "padding:4px 12px 4px 0;font-weight:bold" +:+ ">" +:+ label +:+ "</td><td>" +:+
            value +:+ "</td></tr>") in
  line 6 "<h2>Your Password Was Changed</h2>" +:+
  line 6 ("<p>The password for account " +:+ String quote (escapeHtml username) +:+ String quote " was just changed.</p>") +:+
  line 6 ("<table" +:+ style "border-collapse:collapse;margin-top:12px" +:+ ">") +:+
  row "Time" time +:+ row "IP Address" ip +:+ row "Device" device +:+
  line 6 "</table>" +:+
  line 6 ("<p" +:+ style "margin-top:16px" +:+ ">") +:+
  line 8 "If this was you, no action is required.<br/>" +:+
  line 8 "If you did not make this change, contact your administrator immediately." +:+
  line 6 "</p>" +:+ line 4 EmptyString.

Definition sendPasswordChangedEmail (realmName : string) (user : User) (req : Request) : M unit :=
  if negb (truthy (user_email user)) then Ret tt else
  (now <- date_now ;;
   catch (sendEmail realmName (user_email user ?? EmptyString) "Your Password Was Changed"
            (password_changed_html (escapeHtml (to_utc_string now)) (escapeHtml (clientIp req))
               (escapeHtml (ri_userAgent (rq_info req) ?? "Unknown")) (user_username user)))
         (fun _ => Ret tt))%prog.

(** From the valid current password on. *)
Definition change_own_password (realm : Realm) (user : User) (newPassword : string) (req : Request) : M Response :=
  (inHistory <- (if 0 <? realm_passwordHistoryCount realm
                 then checkHistory (user_id user) (realm_id realm) newPassword (realm_passwordHistoryCount realm)
                 else Ret false) ;;
   if (inHistory : bool)
   then Ret (to_account realm "error" "Password was used recently. Choose a different password.") else
   passwordHash <- hashPassword newPassword ;;
   store_password (user_id user) passwordHash ;;;
   recordHistory (user_id user) (realm_id realm) passwordHash (realm_passwordHistoryCount realm) ;;;
   unawaited (sendPasswordChangedEmail (realm_name realm) user req) ;;;
   Ret (to_account realm "success" "Password changed successfully."))%prog.

Definition changePassword (realm : Realm) (body : fields) (req : Request) : M Response :=
  (validateCsrf realm body req ;;;
   signed_in realm req (log_in_first realm) (fun user =>
   let currentPassword := field "currentPassword" body in
   let newPassword := field "newPassword" body in
   if negb (truthy currentPassword) || negb (truthy newPassword)
   then Ret (to_account realm "error" "All password fields are required.") else
   if negb (bool_decide (newPassword = field "confirmPassword" body))
   then Ret (to_account realm "error" "New passwords do not match.") else
   let newPassword := newPassword ?? EmptyString in
   let validation := validate realm newPassword in
   if negb validation.1 then Ret (to_account realm "error" (js_join ". " validation.2)) else
   if negb (truthy (user_passwordHash user))
   then Ret (to_account realm "error" "Cannot change password for this account.") else
   valid <- verifyPassword (user_passwordHash user ?? EmptyString) (currentPassword ?? EmptyString) ;;
   if negb (valid : bool) then Ret (to_account realm "error" "Current password is incorrect.") else
   change_own_password realm user newPassword req))%prog.

(** ** Authenticator *)

Definition enrollmentContinueAction (realm : Realm) : string := realm_path realm "/mfa-enrollment/continue".
Definition SMS_NOT_AVAILABLE : string := "Text message verification is not available.".

Definition showTotpSetup (realm : Realm) (q : fields) (req : Request) : M Response :=
  setting_up realm req (fun setup =>
  (let user := su_user setup in
   let enrolling := bool_decide (is_Some (su_enrollmentToken setup)) in
   totpEnabled <- isTotpEnabled (user_id user) ;;
   if enrolling && totpEnabled then
     if negb (su_enrollmentVerified setup) then Ret (clearing [MFA_ENROLLMENT_COOKIE] (log_in_first realm)) else
     render_form realm "totp-setup" [("activated", "true"); ("continueAction", enrollmentContinueAction realm)]
   else if (totpEnabled : bool) then Ret (to_account realm "info" "Two-factor authentication is already enabled.") else
   secret <- setupTotp (user_id user) ;;
   render_form realm "totp-setup"
     [("secret", secret); ("error", field "error" q ?? EmptyString); ("info", field "info" q ?? EmptyString);
      ("cancelUrl", realm_path realm (if enrolling then "/login" else "/account"));
      ("smsSetupUrl", if canEnroll realm then realm_path realm "/account/sms-setup" else EmptyString)])%prog).

(** The page after a factor was set up: in an enrolment it finishes the paused sign-in. *)
Definition activated_page (realm : Realm) (page : string) (enrollmentToken : option string) (recoveryCodes : list string)
  : M Response :=
  let values := ("activated", "true") :: map (pair "recoveryCodes") recoveryCodes in
  match enrollmentToken with
  | Some _ => render_form realm page (values ++ [("continueAction", enrollmentContinueAction realm)])
  | None => Ret (render page (values ++ [("continueAction", EmptyString); ("csrfToken", EmptyString)]))
  end.

Definition mark_enrollment (enrollmentToken : option string) (factor : string) : M unit :=
  match enrollmentToken with Some token => markMfaEnrollmentVerified token factor | None => Ret tt end.

Definition handleTotpSetup (realm : Realm) (body : fields) (req : Request) : M Response :=
  (validateCsrf realm body req ;;;
   setting_up realm req (fun setup =>
   let code := field "code" body in
   let again message := redirect realm "/account/totp-setup" [("error", message)] in
   if negb (truthy code) then Ret (again "Please enter the verification code.") else
   recoveryCodes <- verifyAndActivateTotp (user_id (su_user setup)) (code ?? EmptyString) ;;
   match recoveryCodes with
   | None => Ret (again "Invalid code. Please try again.")
   | Some recoveryCodes =>
       mark_enrollment (su_enrollmentToken setup) "totp" ;;;
       activated_page realm "totp-setup" (su_enrollmentToken setup) recoveryCodes
   end))%prog.

(** ** Text messages *)

Definition getSmsEnrollment (realm : Realm) (req : Request) (userId : string) : M (option (string * PendingData)) :=
  (let token := cookie SMS_ENROLLMENT_COOKIE req in
   if negb (truthy token) then Ret None else
   let token := token ?? EmptyString in
   data <- getEnrollment token ;;
   Ret (match data with
        | None => None
        | Some data =>
            if (pd_userId data !== userId) || (pd_realmId data !== realm_id realm) then None else Some (token, data)
        end))%prog.

Definition smsSetupRedirect (realm : Realm) (kind message : string) : Response :=
  redirect realm "/account/sms-setup" [(kind, message)].

Definition showSmsSetup (realm : Realm) (q : fields) (req : Request) : M Response :=
  setting_up realm req (fun setup =>
  (let user := su_user setup in
   let enrolling := bool_decide (is_Some (su_enrollmentToken setup)) in
   csrf <- setCsrfCookie realm ;;
   let page values := mkResponse [csrf.2] [] (Rendered "sms-setup" (values ++ [("csrfToken", csrf.1)])) in
   if enrolling && su_enrollmentVerified setup
   then Ret (page [("activated", "true"); ("continueAction", enrollmentContinueAction realm)]) else
   if negb (canEnroll realm) then Ret (with_cookies [csrf.2] (to_account realm "error" SMS_NOT_AVAILABLE)) else
   pending <- getSmsEnrollment realm req (user_id user) ;;
   currentPhone <- getEnrolledPhone (user_id user) ;;
   let maskedPhone := match pending with Some (_, data) => pd_maskedPhone data | None => None end in
   Ret (page
     [("verifyStep", flag (truthy maskedPhone)); ("maskedPhone", maskedPhone ?? EmptyString);
      ("currentPhone", if truthy currentPhone then maskPhone (currentPhone ?? EmptyString) else EmptyString);
      ("requirePassword", flag (negb enrolling && truthy (user_passwordHash user)));
      ("error", field "error" q ?? EmptyString); ("info", field "info" q ?? EmptyString);
      ("totpSetupUrl", realm_path realm "/account/totp-setup");
      ("cancelUrl", realm_path realm (if enrolling then "/login" else "/account"))]))%prog).

(** Whether a session alone may start an enrolment: the refusal, if any. *)
Definition phone_refusal (user : User) (body : fields) : M (option string) :=
  (if truthy (user_passwordHash user) then
     let currentPassword := field "currentPassword" body in
     valid <- (if truthy currentPassword
               then verifyPassword (user_passwordHash user ?? EmptyString) (currentPassword ?? EmptyString) else Ret false) ;;
     Ret (if (valid : bool) then None else Some "Password is incorrect.")
   else
     factors <- getEnrolledFactors (user_id user) ;;
     Ret (if bool_decide (factors = []) then None
          else Some "Your second factor can only be changed by an administrator for this account."))%prog.

(** The enrolment and number a code goes to, with the cookie of a new enrolment. *)
Record Destination := mkDestination { dst_token : string; dst_phone : string; dst_cookies : list Cookie }.

Definition new_enrollment (realm : Realm) (user : User) (pending : option (string * PendingData)) (phone : string)
  : M (Response + Destination) :=
  (match pending with Some (token, _) => endEnrollment token | None => Ret tt end ;;;
   token <- startEnrollment (user_id user) (realm_id realm) ;;
   Ret (inr (mkDestination token phone
               [mkCookie SMS_ENROLLMENT_COOKIE token (Some (SMS_ENROLLMENT_TTL_SECONDS * 1000))])))%prog.

Definition code_destination (realm : Realm) (setup : SetupUser) (pending : option (string * PendingData)) (body : fields)
  : M (Response + Destination) :=
  (match (if truthy (field "resend" body) then pending else None) with
   | Some (token, data) =>
       let phone := enrollmentPhone data in
       Ret (if truthy phone then inr (mkDestination token (phone ?? EmptyString) [])
            else inl (smsSetupRedirect realm "error" "Please enter your phone number again."))
   | None =>
       match normalizePhone (field "phone" body) with
       | None =>
           Ret (inl (smsSetupRedirect realm "error"
             "Enter the number in international format, for example +201012345678."))
       | Some phone =>
           refusal <- (match su_enrollmentToken setup with
                       | Some _ => Ret None
                       | None => phone_refusal (su_user setup) body
                       end) ;;
           match refusal with
           | Some message => Ret (inl (smsSetupRedirect realm "error" message))
           | None => new_enrollment realm (su_user setup) pending phone
           end
       end
   end)%prog.

Definition send_enrollment_code (realm : Realm) (user : User) (req : Request) (dst : Destination) : M Response :=
  catch
    (sent <- sendCode realm (user_id user) "enroll" (dst_token dst) (Some (dst_phone dst)) (Some (clientIp req)) ;;
     setEnrollmentPhone (dst_token dst) (dst_phone dst) ;;;
     Ret (with_cookies (dst_cookies dst)
            (smsSetupRedirect realm "info" ("We sent a code to " +:+ sr_maskedPhone sent +:+ "."))))%prog
    (fun err => match err with
                | SmsOtpError _ message _ => Ret (with_cookies (dst_cookies dst) (smsSetupRedirect realm "error" message))
                | _ => Throw err
                end).

Definition sendSmsSetupCode (realm : Realm) (body : fields) (req : Request) : M Response :=
  (validateCsrf realm body req ;;;
   setting_up realm req (fun setup =>
   if negb (canEnroll realm) then Ret (to_account realm "error" SMS_NOT_AVAILABLE) else
   pending <- getSmsEnrollment realm req (user_id (su_user setup)) ;;
   destination <- code_destination realm setup pending body ;;
   match destination with
   | inl response => Ret response
   | inr dst => send_enrollment_code realm (su_user setup) req dst
   end))%prog.

Definition CODE_EXPIRED : string := "Your code expired. Please enter your phone number again.".

(** After the right code. *)
Definition phone_verified (realm : Realm) (setup : SetupUser) (token phone : string) : M Response :=
  (let userId := user_id (su_user setup) in
   saveEnrolledPhone userId phone ;;;
   endEnrollment token ;;;
   recoveryCodes <- ensureRecoveryCodes userId ;;
   mark_enrollment (su_enrollmentToken setup) "sms" ;;;
   page <- activated_page realm "sms-setup" (su_enrollmentToken setup) (recoveryCodes ?? []) ;;
   Ret (clearing [SMS_ENROLLMENT_COOKIE] page))%prog.

Definition verifySmsSetupCode (realm : Realm) (body : fields) (req : Request) : M Response :=
  (validateCsrf realm body req ;;;
   setting_up realm req (fun setup =>
   let userId := user_id (su_user setup) in
   if negb (canEnroll realm) then Ret (to_account realm "error" SMS_NOT_AVAILABLE) else
   pending <- getSmsEnrollment realm req userId ;;
   match pending with
   | None => Ret (smsSetupRedirect realm "error" CODE_EXPIRED)
   | Some (token, _) =>
       result <- verifyCode (realm_id realm) userId "enroll" token (Some (field "code" body ?? EmptyString)) ;;
       match result with
       | Refused reason remainingAttempts =>
           if reason === "invalid"
           then Ret (smsSetupRedirect realm "error"
                  ("Invalid code. " +:+ int_text (remainingAttempts ?? 0) +:+ " attempt(s) remaining."))
           else
             endEnrollment token ;;;
             Ret (clearing [SMS_ENROLLMENT_COOKIE] (smsSetupRedirect realm "error"
                    (if reason === "locked" then "Too many incorrect codes. Please start again." else CODE_EXPIRED)))
       | Verified phone => phone_verified realm setup token phone
       end
   end))%prog.

(** ** Turning factors off *)

(** Whether the realm forbids to remove [factor]: it is required and the only one. *)
Definition last_required_factor (realm : Realm) (userId factor : string) : M bool :=
  (if realm_mfaRequired realm then
     factors <- getEnrolledFactors userId ;;
     Ret (bool_decide (List.filter (fun f => f !== factor) factors = []))
   else Ret false)%prog.
Definition CANNOT_TURN_OFF : string := "Two-factor authentication is required in this realm and cannot be turned off.".

Definition handleSmsDisable (realm : Realm) (body : fields) (req : Request) : M Response :=
  (validateCsrf realm body req ;;;
   signed_in realm req (log_in_first realm) (fun user =>
   let accountError := to_account realm "error" in
   last <- last_required_factor realm (user_id user) "sms" ;;
   if (last : bool) then Ret (accountError CANNOT_TURN_OFF) else
   if negb (truthy (user_passwordHash user))
   then Ret (accountError "Your second factor can only be changed by an administrator for this account.") else
   confirm_password user body (accountError "Password is incorrect.") (accountError "Password is incorrect.")
     (disableSms (user_id user) ;;;
      Ret (to_account realm "success" "Text message verification has been turned off."))))%prog.

Definition handleTotpDisable (realm : Realm) (body : fields) (req : Request) : M Response :=
  (validateCsrf realm body req ;;;
   signed_in realm req (log_in_first realm) (fun user =>
   let accountError := to_account realm "error" in
   last <- last_required_factor realm (user_id user) "totp" ;;
   if (last : bool) then Ret (accountError CANNOT_TURN_OFF) else
   confirm_password user body
     (accountError "Password is required to disable two-factor authentication.") (accountError "Password is incorrect.")
     (disableTotp (user_id user) ;;;
      Ret (to_account realm "success" "Two-factor authentication has been disabled."))))%prog.

(** ** Export and deletion *)

Inductive Download :=
| Exported (filename : string) (data : UserDataExport)
| Answer (response : Response).

Definition getDataExport (realm : Realm) (req : Request) : M Download :=
  signed_in realm req (Answer (log_in_first realm)) (fun user =>
  catch
    (exportData <- exportUserData (user_id user) ;;
     now <- date_now ;;
     Ret (Exported ("user-data-export-" +:+ user_username user +:+ "-" +:+ int_text now +:+ ".json") exportData))%prog
    (fun _ => Ret (Answer (to_account realm "error" "Failed to export data. Please try again.")))).

(** The page, and the state of the deletion it shows. *)
Definition showDeleteAccount (realm : Realm) (q : fields) (req : Request) : M (Response * option DeletionStatus) :=
  signed_in realm req (log_in_first realm, None) (fun user =>
  (deletionStatus <- getDeletionStatus (user_id user) ;;
   page <- render_form realm "delete-account"
     [("error", field "error" q ?? EmptyString); ("success", field "success" q ?? EmptyString)] ;;
   Ret (page, deletionStatus))%prog).

Definition to_deletion (realm : Realm) (kind message : string) : Response :=
  redirect realm "/account/delete-account" [(kind, message)].

(** [try { await p } catch]: what happened, as a message on the deletion page. *)
Definition reported {A} (realm : Realm) (p : M A) (done : string) : M Response :=
  catch (p ;;; Ret (to_deletion realm "success" done))%prog
        (fun error => Ret (to_deletion realm "error" (error_message error))).

Definition requestDeleteAccount (realm : Realm) (body : fields) (req : Request) : M Response :=
  (validateCsrf realm body req ;;;
   signed_in realm req (log_in_first realm) (fun user =>
   confirm_password user body
     (to_deletion realm "error" "Password is required to delete your account.")
     (to_deletion realm "error" "Password is incorrect.")
     (let gracePeriodDays := realm_deletionGracePeriodDays realm in
      reported realm (requestDeletion (user_id user) gracePeriodDays None)
        ("Account deletion requested. Your account will be permanently deleted after " +:+ int_text gracePeriodDays +:+
         " days unless cancelled."))))%prog.

Definition cancelDeleteAccount (realm : Realm) (body : fields) (req : Request) : M Response :=
  (validateCsrf realm body req ;;;
   signed_in realm req (log_in_first realm) (fun user =>
   confirm_password user body
     (to_deletion realm "error" "Password is required to cancel account deletion.")
     (to_deletion realm "error" "Password is incorrect.")
     (reported realm (cancelDeletion (user_id user) None)
        "Account deletion has been cancelled. Your account is safe.")))%prog.
End Account.
