(* ===== verification/AccountFacts.v ===== *)
(** * AccountFacts: what the account pages guarantee

    Every form acts on the account of the browser that sent it and on no other; a realm
    that requires a second factor keeps one; a new phone needs more than a session; and a
    password changes only for who knows it. *)

From S2P Require Import Prelude Prog Json JsText Schema Store StoreFacts Tenancy StepUp Crypto PasswordPolicy SmsOtp Mfa Login LoginFlow.
From S2P Require Import Email RiskSignals RiskAssessment AccountDeletion CustomAttributes LoginController LoginControllerFacts Account Testbed.

(** ** The handlers as requests *)

Inductive AccountRequest :=
| ShowAccount (q : fields)
| Logout
| UpdateProfile (body : fields)
| ChangePassword (body : fields)
| ShowTotpSetup (q : fields)
| HandleTotpSetup (body : fields)
| ShowSmsSetup (q : fields)
| SendSmsSetupCode (body : fields)
| VerifySmsSetupCode (body : fields)
| HandleSmsDisable (body : fields)
| HandleTotpDisable (body : fields)
| GetDataExport
| ShowDeleteAccount (q : fields)
| RequestDeleteAccount (body : fields)
| CancelDeleteAccount (body : fields).

Definition serve {E : Env} (error_message : exc -> string) (realm : Realm) (req : Request) (request : AccountRequest) : M unit :=
  (match request with
   | ShowAccount q => showAccount realm q req ;;; Ret tt
   | Logout => logout realm req ;;; Ret tt
   | UpdateProfile body => updateProfile realm body req ;;; Ret tt
   | ChangePassword body => changePassword realm body req ;;; Ret tt
   | ShowTotpSetup q => showTotpSetup realm q req ;;; Ret tt
   | HandleTotpSetup body => handleTotpSetup realm body req ;;; Ret tt
   | ShowSmsSetup q => showSmsSetup realm q req ;;; Ret tt
   | SendSmsSetupCode body => sendSmsSetupCode realm body req ;;; Ret tt
   | VerifySmsSetupCode body => verifySmsSetupCode realm body req ;;; Ret tt
   | HandleSmsDisable body => handleSmsDisable realm body req ;;; Ret tt
   | HandleTotpDisable body => handleTotpDisable realm body req ;;; Ret tt
   | GetDataExport => getDataExport realm req ;;; Ret tt
   | ShowDeleteAccount q => showDeleteAccount realm q req ;;; Ret tt
   | RequestDeleteAccount body => requestDeleteAccount error_message realm body req ;;; Ret tt
   | CancelDeleteAccount body => cancelDeleteAccount error_message realm body req ;;; Ret tt
   end)%prog.

(** ** Rows that belong to a user *)

(** Whose row it is, in the tables an account page writes. *)
Definition owner_of (t : Table) : option (Row t -> string) :=
  match t with
  | TUser => Some user_id
  | TUserCredential => Some cred_userId
  | TRecoveryCode => Some rc_userId
  | TPendingDeletion => Some pdel_userId
  | TPasswordHistory => Some ph_userId
  | TOtpAttempt => Some oa_userId
  | TSmsDeliveryLog => Some sl_userId
  | TPendingAction => Some (fun a => pd_userId (pa_data a))
  | TLoginSession => Some ls_userId
  | _ => None
  end.

(** The columns the pages find such a row again by, the generated id first. *)
Definition keys_of (t : Table) : list (Row t -> string) :=
  match t with
  | TUserCredential => [cred_id]
  | TPasswordHistory => [ph_id]
  | TOtpAttempt => [oa_id]
  | TSmsDeliveryLog => [sl_id]
  | TPendingAction => [pa_id; pa_tokenHash]
  | _ => []
  end.

(** A condition on the rows of one table. *)
Definition RowCondition : Type := {t : Table & Row t -> bool}.
Definition cond (t : Table) (q : Row t -> bool) : RowCondition := existT t q.

Section Ownership.
Context {E : Env} (u : string).

(** From [w] to [w'] only rows of [u] differ. *)
Definition kept (w w' : World) : Prop :=
  (w_uuids w <= w_uuids w')%nat /\
  forall t, match owner_of t with
            | None => rows t w' = rows t w
            | Some own => forall x, own x <> u -> (x ∈ rows t w' <-> x ∈ rows t w)
            end.

(** No row of another user has a key of [x]. *)
Definition apart (t : Table) (w : World) (x : Row t) : Prop :=
  forall own key y, owner_of t = Some own -> key ∈ keys_of t -> own x = u -> y ∈ rows t w -> own y <> u -> key x <> key y.

(** The rows of [u] have keys of their own, and no row of another user has an id that is
    still to be generated. *)
Record keys_ok (w : World) : Prop := mk_keys_ok {
  ko_apart : forall t x, x ∈ rows t w -> apart t w x;
  ko_fresh : forall t own key y n, owner_of t = Some own -> head (keys_of t) = Some key -> y ∈ rows t w -> own y <> u ->
    (w_uuids w <= n)%nat -> key y <> uuid n
}.

(** A condition no row of another user meets. *)
Definition mine (w : World) (c : RowCondition) : Prop :=
  forall own x, owner_of (projT1 c) = Some own -> x ∈ rows (projT1 c) w -> own x <> u -> projT2 c x = false.

(** [p] changes no row of another user, whatever state of which the conditions [l] are [u]'s
    it runs from, and however it ends; a result makes the conditions [post] [u]'s. *)
Definition own {A} (l : list RowCondition) (p : M A) (post : A -> list RowCondition) : Prop :=
  forall w r w', keys_ok w -> Forall (mine w) l -> run p w = (r, w') ->
    keys_ok w' /\ kept w w' /\ forall a, r = inr a -> Forall (mine w') (post a).
Definition nothing {A} (_ : A) : list RowCondition := [].

#[export] Instance kept_preorder : PreOrder kept.
Proof.
  split.
  - intros w. split; [done|]. intros t. by destruct (owner_of t).
  - intros a b c [H1 K1] [H2 K2]. split; [lia|]. intros t. specialize (K1 t). specialize (K2 t).
    destruct (owner_of t) as [o|]; [|by rewrite K2]. intros x Hx. rewrite (K2 x Hx). by apply K1.
Qed.

Lemma kept_rows w w' t o x : kept w w' -> owner_of t = Some o -> o x <> u -> x ∈ rows t w' <-> x ∈ rows t w.
Proof. intros [_ K] Ho. specialize (K t). rewrite Ho in K. apply K. Qed.

Lemma mine_kept w w' c : kept w w' -> mine w c -> mine w' c.
Proof. intros K Hm o x Ho Hx Hn. apply (Hm o x Ho); [|done]. by apply (kept_rows w w' _ o x K Ho Hn). Qed.
Lemma mines_kept w w' l : kept w w' -> Forall (mine w) l -> Forall (mine w') l.
Proof. intros K Hl. apply (Forall_impl (mine w)); [done|]. intros c. by apply mine_kept. Qed.

(** Every row that was not there before keeps apart. *)
Lemma keys_ok_kept w w' :
  kept w w' -> keys_ok w -> (forall t x, x ∈ rows t w' -> x ∈ rows t w \/ apart t w x) -> keys_ok w'.
Proof.
  intros K [H1 H2] Hnew. split.
  - intros t x Hx o key y Ho Hk Hxu Hy Hyu. apply (kept_rows w w' t o y K Ho Hyu) in Hy.
    destruct (Hnew t x Hx) as [Hin|Ha]; [by eapply (H1 t x Hin)|by eapply Ha].
  - intros t o key y n Ho Hk Hy Hyu Hn. apply (kept_rows w w' t o y K Ho Hyu) in Hy.
    apply (H2 t o key y n Ho Hk Hy Hyu). destruct K as [K _]. lia.
Qed.

(** ** Rules *)

Lemma own_ret {A} l (a : A) post : (forall c, c ∈ post a -> c ∈ l) -> own l (Ret a) post.
Proof.
  intros Hs w r w' Hk Hl [= <- <-]. split; [done|]. split; [done|]. intros b [= <-].
  rewrite Forall_forall in Hl |- *. intros c Hc. by apply Hl, Hs.
Qed.
Lemma own_throw {A} l e (post : A -> list RowCondition) : own l (Throw e) post.
Proof. intros w r w' Hk Hl [= <- <-]. split; [done|]. split; [done|]. by intros a [=]. Qed.

Lemma own_bind_value {A B} (Q : A -> Prop) l (p : M A) (k : A -> M B) mid post :
  own l p mid -> (forall w a w', keys_ok w -> Forall (mine w) l -> run p w = (inr a, w') -> Q a) ->
  (forall a, Q a -> own (mid a ++ l) (k a) post) -> own l (bind p k) post.
Proof.
  intros Hp HQ Hk w r w' Hok Hl [(e & Hr & ->)|(a & w1 & Ha & Hr)]%run_bind_ends.
  - destruct (Hp _ _ _ Hok Hl Hr) as (? & ? & _). by split_and!.
  - destruct (Hp _ _ _ Hok Hl Ha) as (Hok1 & K1 & Hm). specialize (HQ w a w1 Hok Hl Ha).
    destruct (Hk a HQ w1 r w' Hok1) as (? & K2 & ?); [|done|by split_and!; [|transitivity w1|]].
    apply Forall_app. split; [by apply Hm|by apply (mines_kept w)].
Qed.
Lemma own_bind {A B} l (p : M A) (k : A -> M B) mid post :
  own l p mid -> (forall a, own (mid a ++ l) (k a) post) -> own l (bind p k) post.
Proof. intros Hp Hk. by apply (own_bind_value (fun _ => True) l p k mid). Qed.
Lemma own_then {A B} l (p : M A) (k : A -> M B) post :
  own l p nothing -> (forall a, own l (k a) post) -> own l (bind p k) post.
Proof. intros Hp Hk. by apply (own_bind l p k nothing). Qed.
Lemma own_catch {A} l (p : M A) h post : own l p post -> (forall e, own l (h e) post) -> own l (catch p h) post.
Proof.
  intros Hp Hh w r w' Hok Hl Hr. rewrite run_catch in Hr. destruct (run p w) as [[e|a] w1] eqn:Hpw.
  - destruct (Hp _ _ _ Hok Hl Hpw) as (Hok1 & K1 & _).
    destruct (Hh e w1 r w' Hok1) as (? & K2 & ?); [by apply (mines_kept w)|done|by split_and!; [|transitivity w1|]].
  - injection Hr as <- <-. by apply (Hp w _ w1 Hok Hl).
Qed.
Lemma own_weaken {A} l l' (p : M A) post : (forall c, c ∈ l -> c ∈ l') -> own l p post -> own l' p post.
Proof. intros Hs Hp w r w' Hok Hl. apply Hp; [done|]. rewrite Forall_forall in Hl |- *. intros c Hc. by apply Hl, Hs. Qed.

Lemma frame_kept w w' : frame [] w w' -> kept w w'.
Proof.
  intros F. split; [apply F|]. intros t. rewrite (frame_rows _ _ _ t F) by done. by destruct (owner_of t).
Qed.
Lemma frame_keys_ok w w' : frame [] w w' -> keys_ok w -> keys_ok w'.
Proof.
  intros F Hok. apply (keys_ok_kept w w' (frame_kept w w' F) Hok). intros t x. rewrite (frame_rows _ _ _ t F) by done. by left.
Qed.

(** A program that only reads. *)
Lemma own_reads {A} l (p : M A) post :
  stable (frame []) p -> (forall w a w', keys_ok w -> Forall (mine w) l -> run p w = (inr a, w') -> Forall (mine w) (post a)) ->
  own l p post.
Proof.
  intros Hp Hpost w r w' Hok Hl Hr. pose proof (run_frame [] _ _ _ _ Hp Hr) as F.
  split; [by apply (frame_keys_ok w)|]. split; [by apply frame_kept|]. intros a ->.
  apply (mines_kept w); [by apply frame_kept|]. by eapply Hpost.
Qed.
Lemma own_frame {A} l (p : M A) : stable (frame []) p -> own l p nothing.
Proof. intros Hp. apply own_reads; [done|]. intros. constructor. Qed.

(** The rows a condition selects are [u]'s, by its own text or because it implies one of [l]. *)
Definition touches (l : list RowCondition) (t : Table) (q : Row t -> bool) : Prop :=
  forall o x, owner_of t = Some o -> q x = true -> o x = u \/ exists q', cond t q' ∈ l /\ q' x = true.

Lemma touched l t q w o x :
  touches l t q -> Forall (mine w) l -> owner_of t = Some o -> x ∈ rows t w -> q x = true -> o x = u.
Proof.
  intros Ht Hl Ho Hx Hq. destruct (Ht o x Ho Hq) as [?|(q' & Hin & Hq')]; [done|].
  destruct (decide (o x = u)) as [?|Hn]; [done|]. rewrite Forall_forall in Hl.
  pose proof (Hl _ Hin o x Ho Hx Hn) as Hf. simpl in Hf. congruence.
Qed.

(** The conditions that name a row by its keys. *)
Definition names (t : Table) (x : Row t) : list RowCondition := map (fun key => cond t (fun y => key y === key x)) (keys_of t).

Lemma names_mine t w x o : keys_ok w -> owner_of t = Some o -> o x = u -> x ∈ rows t w -> Forall (mine w) (names t x).
Proof.
  intros Hok Ho Hx Hin. apply Forall_forall. intros c (key & -> & Hk)%list_elem_of_fmap.
  intros o' y Ho' Hy Hn. simpl in *. rewrite Ho in Ho'. injection Ho' as <-. apply bool_decide_eq_false.
  intros Heq. by apply (ko_apart w Hok t x Hin o key y Ho Hk Hx Hy Hn).
Qed.

(** Found rows are named by their keys. *)
Lemma own_find {A} l t q (f : World -> A) post :
  is_Some (owner_of t) -> touches l t q ->
  (forall w, exists xs : list (Row t), (forall x, x ∈ xs -> x ∈ rows t w /\ q x = true) /\ forall c, c ∈ post (f w) -> exists x, x ∈ xs /\ c ∈ names t x) ->
  own l (query f) post.
Proof.
  intros [o Ho] Ht Hf. apply own_reads; [apply query_footprint|].
  intros w a w' Hok Hl Hr. run_stmt_inv Hr. apply Forall_forall. intros c Hc.
  destruct (Hf w) as (xs & Hxs & Hpost). rewrite Hr in Hc. destruct (Hpost c Hc) as (x & Hx & Hn). apply Hxs in Hx as [Hin Hq].
  assert (Hmine : Forall (mine w) (names t x)) by (by eapply names_mine; [..|eapply touched|]).
  rewrite Forall_forall in Hmine. by apply Hmine.
Qed.
Lemma own_find_first l t q :
  is_Some (owner_of t) -> touches l t q ->
  own l (find_first t q) (fun o => match o with Some x => names t x | None => [] end).
Proof.
  intros Ho Ht. apply (own_find l t q); [done..|]. intros w.
  destruct (List.find q (rows t w)) as [x|] eqn:Hx; [|exists []; split; [by intros ? ?%elem_of_nil|by intros ? ?%elem_of_nil]].
  exists [x]. split; [intros y ->%list_elem_of_singleton; by apply find_elem|]. intros c Hc. exists x. split; [by apply list_elem_of_singleton|done].
Qed.

Lemma update_first_keeps {A} (q : A -> bool) f (rs : list A) x y :
  List.find q rs = Some x -> y <> x -> y ∈ rs -> y ∈ update_first q f rs.
Proof.
  induction rs as [|z rs IH]; simpl; [done|]. destruct (q z).
  - intros [= ->] Hn [?|?]%elem_of_cons; [done|]. by right.
  - intros Hx Hn [->|?]%elem_of_cons; [by left|]. right. by apply IH.
Qed.

(** The rows of one table change. *)
Lemma own_changes t o rs w w' :
  owner_of t = Some o -> keys_ok w -> rows t w' = rs -> (w_uuids w <= w_uuids w')%nat ->
  (forall t', t' <> t -> rows t' w' = rows t' w) ->
  (forall x, o x <> u -> x ∈ rs <-> x ∈ rows t w) -> (forall x, x ∈ rs -> o x = u -> x ∈ rows t w \/ apart t w x) ->
  keys_ok w' /\ kept w w'.
Proof.
  intros Ho Hok <- Hn Hne Hsame Hnew.
  assert (K : kept w w').
  { split; [done|]. intros t'. destruct (decide (t' = t)) as [->|Ht]; [by rewrite Ho|]. rewrite (Hne t' Ht). by destruct (owner_of t'). }
  split; [|done]. apply (keys_ok_kept w w' K Hok). intros t' x Hx.
  destruct (decide (t' = t)) as [->|Ht]; [|left; by rewrite <- (Hne t' Ht)].
  destruct (decide (o x = u)) as [Hu|Hu]; [by apply Hnew|left; by apply Hsame].
Qed.

(** [f] leaves [u]'s rows to [u], with their keys. *)
Definition keeps_keys (t : Table) (f : Row t -> Row t) : Prop :=
  forall o x, owner_of t = Some o -> o x = u -> o (f x) = u /\ forall key, key ∈ keys_of t -> key (f x) = key x.

Lemma apart_changed t w o f x :
  owner_of t = Some o -> keeps_keys t f -> keys_ok w -> x ∈ rows t w -> o x = u -> apart t w (f x).
Proof.
  intros Ho Hf Hok Hx Hxu o' key y Ho' Hk _ Hy Hn. rewrite Ho in Ho'. injection Ho' as <-.
  destruct (Hf o x Ho Hxu) as [_ Hfk]. rewrite (Hfk key Hk). by apply (ko_apart w Hok t x Hx o key y).
Qed.

Lemma changed_rows t o f w (rs : list (Row t)) :
  owner_of t = Some o -> keeps_keys t f -> keys_ok w ->
  (forall y, y ∈ rs -> y ∈ rows t w \/ exists x, x ∈ rows t w /\ o x = u /\ y = f x) ->
  (forall y, y ∈ rows t w -> o y <> u -> y ∈ rs) ->
  keys_ok (with_rows t rs w) /\ kept w (with_rows t rs w).
Proof.
  intros Ho Hf Hok Hin Hback. apply (own_changes t o rs); [done|done|apply rows_with_rows_eq|done|intros t' Ht; by apply rows_with_rows_ne| |].
  - intros x Hx. split; [|by auto]. intros [?|(z & Hz & Hu & ->)]%Hin; [done|]. by apply (Hf o z Ho) in Hu as [? _].
  - intros x [?|(z & Hz & Hu & ->)]%Hin _; [by left|]. right. by eapply apart_changed.
Qed.

Lemma own_update l t q f : is_Some (owner_of t) -> touches l t q -> keeps_keys t f -> own l (update t q f) nothing.
Proof.
  intros [o Ho] Ht Hf w r w' Hok Hl Hr. unfold update in Hr. rewrite run_prisma in Hr.
  destruct (w_db_up w); [|injection Hr as _ <-; by split_and!; [..|constructor]].
  destruct (List.find q (rows t w)) as [x|] eqn:Hx; injection Hr as _ <-; [|by split_and!; [..|constructor]].
  apply find_elem in Hx as Hfx. destruct Hfx as [Hin Hq].
  assert (Hxu : o x = u) by (by eapply touched).
  destruct (changed_rows t o f w (update_first q f (rows t w)) Ho Hf Hok) as [? ?]; [| |by split_and!; [..|constructor]].
  - intros y [?|(z & Hz & ->)]%elem_of_update_first; [by left|]. right. apply find_elem in Hz as [? ?]. exists z. split_and!; [done| |done]. by eapply touched.
  - intros y Hy Hn. by apply (update_first_keeps _ _ _ _ _ Hx); [intros ->|].
Qed.
Lemma own_update_many l t q f : is_Some (owner_of t) -> touches l t q -> keeps_keys t f -> own l (update_many t q f) nothing.
Proof.
  intros [o Ho] Ht Hf w r w' Hok Hl Hr. unfold update_many in Hr. rewrite run_prisma in Hr.
  destruct (w_db_up w); injection Hr as _ <-; [|by split_and!; [..|constructor]].
  destruct (changed_rows t o f w (update_all q f (rows t w)) Ho Hf Hok) as [? ?]; [| |by split_and!; [..|constructor]]; unfold update_all.
  - intros y (z & -> & Hz)%list_elem_of_fmap. destruct (q z) eqn:Hq; [|by left]. right. exists z. split_and!; [done| |done]. by eapply touched.
  - intros y Hy Hn. apply list_elem_of_fmap. exists y. split; [|done]. destruct (q y) eqn:Hq; [|done].
    destruct Hn. by eapply touched.
Qed.
Lemma own_delete_many l t `{!NoSelfCascade t} q :
  is_Some (owner_of t) -> delete_scope t = [t] -> touches l t q -> own l (delete_many t q) nothing.
Proof.
  intros [o Ho] Hsc Ht w r w' Hok Hl Hr. unfold delete_many in Hr. rewrite run_prisma in Hr.
  destruct (w_db_up w); injection Hr as _ <-; [|by split_and!; [..|constructor]].
  pose proof (frame_delete t (List.filter q (rows t w)) (List.filter (fun r => negb (q r)) (rows t w)) w) as F. rewrite Hsc in F.
  match type of F with frame _ _ ?w1 =>
    destruct (own_changes t o (List.filter (fun r => negb (q r)) (rows t w)) w w1 Ho Hok) as [? ?] end;
    [|apply F|intros t' Hne; apply (proj1 F); set_solver| | |by split_and!; [..|constructor]].
  - unfold rows; simpl. by rewrite (rows_on_delete t _), set_table_eq.
  - intros x Hx. rewrite elem_of_filter_list. split; [by intros [_ ?]|]. intros Hin. split; [|done].
    destruct (q x) eqn:Hq; [|done]. destruct Hx. by eapply touched.
  - intros x [_ ?]%elem_of_filter_list _. by left.
Qed.

(** A new row of [u]: its id is new, and its other keys are unique columns. *)
Definition new_keys (t : Table) (mk : string -> Z -> Row t) : Prop :=
  forall key, key ∈ keys_of t ->
    (head (keys_of t) = Some key /\ forall id at_, key (mk id at_) = id) \/
    forall rs id at_ y, unique_ok t rs (mk id at_) = true -> y ∈ rs -> key (mk id at_) <> key y.

Lemma new_apart t o mk w (unique : bool) :
  owner_of t = Some o -> keys_ok w -> (unique = true -> unique_ok t (rows t w) (mk (uuid (w_uuids w)) (w_now w)) = true) ->
  new_keys t mk -> (unique = false -> forall key, key ∈ keys_of t -> head (keys_of t) = Some key /\ forall id at_, key (mk id at_) = id) ->
  apart t w (mk (uuid (w_uuids w)) (w_now w)).
Proof.
  intros Ho Hok Huq Hk Hid o' key y Ho' Hin Hu Hy Hn. rewrite Ho in Ho'. injection Ho' as <-.
  assert (Hcase : (head (keys_of t) = Some key /\ forall id at_, key (mk id at_) = id) \/
                  (unique = true /\ forall rs id at_ y, unique_ok t rs (mk id at_) = true -> y ∈ rs -> key (mk id at_) <> key y)).
  { destruct unique; [destruct (Hk key Hin); auto|left; by apply Hid]. }
  destruct Hcase as [[Hhead Heq]|[Ht Hne]].
  - rewrite Heq. intros Hc. by apply (ko_fresh w Hok t o key y (w_uuids w) Ho Hhead Hy Hn).
  - by apply (Hne (rows t w)); [apply Huq|].
Qed.

Lemma new_row_ok t o r w :
  owner_of t = Some o -> keys_ok w -> o r = u -> apart t w r ->
  keys_ok (with_rows t (rows t w ++ [r]) (next_uuid w)) /\ kept w (with_rows t (rows t w ++ [r]) (next_uuid w)).
Proof.
  intros Ho Hok Hr Ha. apply (own_changes t o (rows t w ++ [r])); [done|done|apply rows_with_rows_eq|simpl; lia| | |].
  - intros t' Ht. by rewrite rows_with_rows_ne.
  - intros x Hx. rewrite elem_of_app, list_elem_of_singleton. split; [|by left]. intros [?|Heq]; [done|]. by rewrite Heq in Hx.
  - intros x [?|Heq%list_elem_of_singleton]%elem_of_app _; [by left|]. right. by rewrite Heq.
Qed.

Lemma own_create l t mk post :
  is_Some (owner_of t) -> (forall o id at_, owner_of t = Some o -> o (mk id at_) = u) -> new_keys t mk ->
  (forall id at_ c, c ∈ post (mk id at_) -> c ∈ names t (mk id at_)) -> own l (create t mk) post.
Proof.
  intros [o Ho] Hmk Hk Hpost w r w' Hok Hl Hr. unfold create in Hr. rewrite run_prisma in Hr.
  destruct (w_db_up w); [|injection Hr as <- <-; by split_and!].
  destruct (unique_ok t (rows t w) _) eqn:Hu; injection Hr as <- <-; [|by split_and!].
  destruct (new_row_ok t o (mk (uuid (w_uuids w)) (w_now w)) w Ho Hok (Hmk _ _ _ Ho)) as [Hok1 K1].
  { by apply (new_apart t o mk w true Ho Hok (fun _ => Hu) Hk). }
  split; [done|]. split; [done|]. intros a [= <-].
  pose proof (names_mine t _ (mk (uuid (w_uuids w)) (w_now w)) o Hok1 Ho (Hmk _ _ _ Ho)) as Hn.
  rewrite rows_with_rows_eq in Hn. specialize (Hn ltac:(apply elem_of_app; right; by apply list_elem_of_singleton)).
  rewrite Forall_forall in Hn |- *. intros c Hc. apply Hn. by eapply Hpost.
Qed.
Lemma own_upsert l t q mk f :
  is_Some (owner_of t) -> touches l t q -> keeps_keys t f -> (forall o id at_, owner_of t = Some o -> o (mk id at_) = u) ->
  (forall key, key ∈ keys_of t -> head (keys_of t) = Some key /\ forall id at_, key (mk id at_) = id) ->
  own l (upsert t q mk f) nothing.
Proof.
  intros [o Ho] Ht Hf Hmk Hk w r w' Hok Hl Hr. unfold upsert in Hr. rewrite run_prisma in Hr.
  destruct (w_db_up w) eqn:Hup; [|injection Hr as _ <-; by split_and!; [..|constructor]].
  destruct (List.find q (rows t w)) as [x|] eqn:Hx; injection Hr as <- <-.
  - apply (own_update l t q f (mk_is_Some _ _ Ho) Ht Hf w (inr (f x)) _ Hok Hl). by apply run_update.
  - destruct (new_row_ok t o (mk (uuid (w_uuids w)) (w_now w)) w Ho Hok (Hmk _ _ _ Ho)) as [? ?]; [|by split_and!; [..|constructor]].
    apply (new_apart t o mk w false Ho Hok); [done| |by intros _]. intros key Hin. left. by apply Hk.
Qed.
End Ownership.

Create HintDb own discriminated.
Lemma new_ids t mk :
  (forall key, key ∈ keys_of t -> head (keys_of t) = Some key /\ forall id at_, key (mk id at_) = id) -> new_keys t mk.
Proof. intros H key Hk. left. by apply H. Qed.

Ltac touching :=
  intros ? ? [= <-] Htouch; cbv beta in Htouch; rewrite ?andb_true_iff, ?bool_decide_eq_true in Htouch; left; by intuition.
Ltac same_keys := intros ? ? [= <-] ?; split; [done|intros ? Hkey; repeat (apply elem_of_cons in Hkey as [->|Hkey]; [reflexivity|]); by apply elem_of_nil in Hkey].
Ltac id_only := intros ? Hkey; repeat (apply elem_of_cons in Hkey as [->|Hkey]; [split; reflexivity|]); by apply elem_of_nil in Hkey.

(** [owns] proves that a handler stays with the rows of its user: statements whose
    condition names the user, programs that only read, and the lemmas of the parts. *)
Ltac owns :=
  intros; cbv beta zeta;
  repeat match goal with
  | |- own _ _ _ _ => solve [auto with own]
  | |- own _ _ (bind _ _) _ => apply own_then; [|intros]
  | |- own _ _ (catch _ _) _ => apply own_catch; [|intros]
  | |- own _ _ (Ret _) _ => by apply own_ret; intros ? ?%elem_of_nil
  | |- own _ _ (Throw _) _ => apply own_throw
  | |- own _ _ (if ?b then _ else _) _ => destruct b
  | |- own _ _ (match ?x with _ => _ end) _ => destruct x
  | |- own _ _ (update _ _ _) _ => apply own_update; [by eexists|touching|same_keys]
  | |- own _ _ (update_many _ _ _) _ => apply own_update_many; [by eexists|touching|same_keys]
  | |- own _ _ (upsert _ _ _ _) _ => apply own_upsert; [by eexists|touching|same_keys|by intros ? ? ? [= <-]|id_only]
  | |- own _ _ (create _ _) _ =>
      apply own_create; [by eexists|by intros ? ? ? [= <-]|apply new_ids; id_only|by intros ? ? ? ?%elem_of_nil]
  | |- own _ _ (delete_many _ _) _ => apply own_delete_many; [discriminate|by eexists|reflexivity|touching]
  | |- own _ _ _ _ => apply own_frame; solve [auto with footprint]
  end.

Section Handlers.
Context {E : Env} (error_message : exc -> string) (realm : Realm) (user : User).
Notation uid := (user_id user).

Lemma sendPasswordChangedEmail_footprint ts n u req : stable (frame ts) (sendPasswordChangedEmail n u req).
Proof. unfold sendPasswordChangedEmail. footprint. Qed.
Lemma checkHistory_footprint ts u r p n : stable (frame ts) (checkHistory u r p n).
Proof.
  unfold checkHistory. destruct (_ <=? _); [exact I|]. apply stable_bind; [footprint|]. intros history.
  induction (map _ _) as [|h hs IH]; cbn [matches_any]; footprint.
Qed.
Lemma getMfaEnrollment_footprint ts t : stable (frame ts) (getMfaEnrollment t).
Proof. unfold getMfaEnrollment. footprint. Qed.
Lemma getEnrollment_footprint ts t : stable (frame ts) (getEnrollment t).
Proof. unfold getEnrollment. footprint. Qed.
Lemma getEnrolledFactors_footprint ts u : stable (frame ts) (getEnrolledFactors u).
Proof. unfold getEnrolledFactors. footprint. Qed.
Lemma isTotpEnabled_footprint ts u : stable (frame ts) (isTotpEnabled u).
Proof. unfold isTotpEnabled. footprint. Qed.
Lemma findUserById_footprint ts u : stable (frame ts) (findUserById u).
Proof. apply find_first_footprint. Qed.
Lemma validateLoginSession_footprint ts r t : stable (frame ts) (validateLoginSession r t).
Proof. unfold validateLoginSession, sessionSatisfiesMfa. footprint. Qed.
Lemma render_form_footprint ts r p v : stable (frame ts) (render_form r p v).
Proof. unfold render_form, setCsrfCookie, generateToken. footprint. Qed.
Hint Resolve sendPasswordChangedEmail_footprint checkHistory_footprint getMfaEnrollment_footprint getEnrollment_footprint
  getEnrolledFactors_footprint isTotpEnabled_footprint findUserById_footprint validateLoginSession_footprint
  render_form_footprint : footprint.
Lemma exportUserData_footprint ts u : stable (frame ts) (exportUserData u).
Proof. unfold exportUserData. footprint. Qed.
Lemma mark_enrollment_footprint ts t f : covers [TPendingAction] ts = true -> stable (frame ts) (mark_enrollment t f).
Proof. intros H. apply (stable_frame_mono _ _ _ H). unfold mark_enrollment, markMfaEnrollmentVerified. footprint. Qed.
Lemma activated_page_footprint ts k v l : stable (frame ts) (activated_page realm k v l).
Proof. unfold activated_page. footprint. Qed.
Lemma endEnrollment_footprint ts t : covers [TPendingAction] ts = true -> stable (frame ts) (endEnrollment t).
Proof. intros H. apply (stable_frame_mono _ _ _ H). unfold endEnrollment. footprint. Qed.
Lemma getSmsEnrollment_footprint ts req u : stable (frame ts) (getSmsEnrollment realm req u).
Proof. unfold getSmsEnrollment. destruct (negb _); [exact I|]. apply stable_bind; [apply getEnrollment_footprint|]. intros. exact I. Qed.
Lemma getUserCredentials_footprint ts u : stable (frame ts) (getUserCredentials u).
Proof. apply find_many_asc_footprint. Qed.
Lemma phone_refusal_footprint ts body : stable (frame ts) (phone_refusal user body).
Proof. unfold phone_refusal. footprint. Qed.
Lemma checkSendLimits_footprint ts u p i n : stable (frame ts) (checkSendLimits realm u p i n).
Proof. unfold checkSendLimits. footprint. Qed.
Lemma generateCode_footprint ts n : stable (frame ts) (generateCode n).
Proof. unfold generateCode. footprint. Qed.
Lemma destination_footprint ts u p ph : stable (frame ts) (destination realm u p ph).
Proof. unfold destination. footprint. Qed.
Lemma new_secret_footprint ts : stable (frame ts) (atom (fun w => (totp_new_secret (w_draws w), next_draw w)) : M string).
Proof. apply stable_atom. intros w. by repeat split. Qed.
Lemma last_required_factor_footprint ts u f : stable (frame ts) (last_required_factor realm u f).
Proof. unfold last_required_factor. footprint. Qed.
Lemma getDeletionStatus_footprint ts u : stable (frame ts) (getDeletionStatus u).
Proof. unfold getDeletionStatus. footprint. Qed.
Hint Resolve exportUserData_footprint mark_enrollment_footprint activated_page_footprint endEnrollment_footprint
  getSmsEnrollment_footprint getUserCredentials_footprint phone_refusal_footprint checkSendLimits_footprint generateCode_footprint
  destination_footprint new_secret_footprint last_required_factor_footprint getDeletionStatus_footprint : footprint.

Lemma code_destination_footprint ts setup pending body :
  covers [TPendingAction] ts = true -> stable (frame ts) (code_destination realm setup pending body).
Proof.
  intros H. apply (stable_frame_mono _ _ _ H).
  unfold code_destination, phone_refusal, new_enrollment, startEnrollment. footprint.
Qed.
Lemma send_enrollment_code_footprint ts req dst :
  covers [TPendingAction; TOtpAttempt; TSmsDeliveryLog] ts = true -> stable (frame ts) (send_enrollment_code realm user req dst).
Proof.
  intros H. apply (stable_frame_mono _ _ _ H).
  unfold send_enrollment_code, setEnrollmentPhone. footprint.
Qed.
Hint Resolve code_destination_footprint send_enrollment_code_footprint : footprint.

(** *** The parts that find a row again *)

Lemma named_touches l t q key :
  key ∈ keys_of t -> (exists x, names t x ⊆ l /\ forall y, q y = true -> key y = key x) -> touches uid l t q.
Proof.
  intros Hk (x & Hx & Hq) o y _ Hy. right. exists (fun z => key z === key x). split; [|by apply bool_decide_eq_true, Hq].
  apply Hx. unfold names. exact (list_elem_of_fmap_2 (fun k : Row t -> string => cond t (fun y => k y === k x)) _ key Hk).
Qed.

Lemma recordHistory_own l r hash n : own uid l (recordHistory uid r hash n) nothing.
Proof.
  unfold recordHistory. destruct (_ <=? _); [owns|]. apply own_then; [owns|]. intros _.
  apply own_bind with (mid := fun entries => mjoin (map (names TPasswordHistory) entries)).
  - apply (own_find uid l TPasswordHistory (fun h => (ph_userId h === uid) && (ph_realmId h === r))); [by eexists|touching|].
    intros w. exists (sort_by (fun h : PasswordHistory => - ph_createdAt h)
      (List.filter (fun h => (ph_userId h === uid) && (ph_realmId h === r)) (rows TPasswordHistory w))). split.
    + intros x Hx. apply elem_of_sort_by, elem_of_filter_list in Hx as [Hq Hx]. split; [exact Hx|exact Hq].
    + intros c (cs & Hc & (x & -> & Hx)%list_elem_of_fmap)%list_elem_of_join. by exists x.
  - intros entries. cbv zeta. destruct (map ph_id _) eqn:Hids; [owns|]. apply own_then; [|owns].
    apply own_delete_many; [discriminate|by eexists|reflexivity|]. rewrite <- Hids. intros o x [= <-] (y & Hid & Hy)%includes_true%list_elem_of_fmap.
    rewrite <- (take_drop (Z.to_nat n) entries).
    right. exists (fun z => ph_id z === ph_id y). split; [|by apply bool_decide_eq_true].
    apply elem_of_app. left. rewrite map_app. apply list_elem_of_join. exists (names TPasswordHistory y).
    split; [by apply list_elem_of_singleton|]. apply elem_of_app. right. by apply (list_elem_of_fmap_2 (names TPasswordHistory)).
Qed.
Lemma of_type_mine type (c : UserCredential) : of_type uid type c = true -> cred_userId c = uid.
Proof. by intros [? _]%owned_guard. Qed.
Lemma generate_codes_own l n : own uid l (generate_codes n uid) nothing.
Proof. induction n; cbn [generate_codes]; owns. Qed.
Hint Resolve recordHistory_own generate_codes_own : own.
Lemma ensureRecoveryCodes_own l : own uid l (ensureRecoveryCodes uid) nothing.
Proof. unfold ensureRecoveryCodes, generateRecoveryCodes. owns. Qed.
Lemma saveEnrolledPhone_own l phone : own uid l (saveEnrolledPhone uid phone) nothing.
Proof. unfold saveEnrolledPhone, of_type. owns. Qed.
Lemma no_factor_left_own l : own uid l (deleteRecoveryCodesIfNoFactorLeft uid) nothing.
Proof. unfold deleteRecoveryCodesIfNoFactorLeft. owns. Qed.
Hint Resolve ensureRecoveryCodes_own saveEnrolledPhone_own no_factor_left_own : own.
Lemma disableSms_own l : own uid l (disableSms uid) nothing.
Proof. unfold disableSms, of_type. owns. Qed.
Lemma disableTotp_own l : own uid l (disableTotp uid) nothing.
Proof. unfold disableTotp, of_type. owns. Qed.
Lemma setupTotp_own l : own uid l (setupTotp uid) nothing.
Proof. unfold setupTotp, of_type. owns. Qed.
Lemma requestDeletion_own l days ip : own uid l (requestDeletion uid days ip) nothing.
Proof. unfold requestDeletion, of_user. owns. Qed.
Lemma cancelDeletion_own l by_ : own uid l (cancelDeletion uid by_) nothing.
Proof. unfold cancelDeletion, of_user. owns. Qed.

(** Activation changes the credential it has found by its id. *)
Lemma verifyAndActivateTotp_own l code : own uid l (verifyAndActivateTotp uid code) nothing.
Proof.
  unfold verifyAndActivateTotp. eapply own_bind.
  - apply own_find_first; [by eexists|]. intros o c [= <-] Hc. left. by apply of_type_mine in Hc.
  - intros [c|]; [|owns]. destruct (cred_verified c); [owns|]. apply own_then; [unfold totp_delta; owns|].
    intros [d|]; [|owns]. apply own_then; [|owns]. apply own_update; [by eexists| |same_keys].
    apply (named_touches _ TUserCredential _ cred_id); [by left|]. exists c. split; [set_solver|]. by intros y ?%bool_decide_eq_true.
Qed.

(** *** Pending actions, by their tokens *)

Notation by_its_token token := (cond TPendingAction (by_token token)).
Lemma token_touches l token q :
  by_its_token token ∈ l -> (forall a, q a = true -> by_token token a = true) -> touches uid l TPendingAction q.
Proof. intros Hl Hq o a _ Ha. right. exists (by_token token). split; [done|by apply Hq]. Qed.

Lemma endEnrollment_own l token : by_its_token token ∈ l -> own uid l (endEnrollment token) nothing.
Proof.
  intros Hl. unfold endEnrollment. apply own_then; [|owns].
  apply own_delete_many; [discriminate|by eexists|reflexivity|]. apply (token_touches _ token); [done|].
  by intros a [? _]%andb_true_iff.
Qed.
Lemma startEnrollment_own l r : own uid l (startEnrollment uid r) (fun token => [by_its_token token]).
Proof.
  unfold startEnrollment. apply own_then; [owns|]. intros token. apply own_then; [owns|]. intros now.
  apply own_bind with (mid := fun _ => [by_its_token token]); [|intros a; apply own_ret; set_solver].
  apply own_create; [by eexists|by intros ? ? ? [= <-]| |].
  - intros key [->|[->|[]%elem_of_nil]%elem_of_cons]%elem_of_cons; [by left|]. right.
    intros rs id at_ y Hu Hy Heq. simpl in Hu. apply negb_true_iff in Hu.
    enough (existsb (fun x => pa_tokenHash x === sha256 token) rs = true) by (simpl in *; congruence).
    apply existsb_exists. exists y. split; [by apply list_elem_of_In|]. by apply bool_decide_eq_true.
  - intros id at_ c ->%list_elem_of_singleton. right. by left.
Qed.

(** What an action found by such a token says is [u]'s. *)
Lemma getEnrollment_mine l token w d w' :
  by_its_token token ∈ l -> Forall (mine uid w) l -> run (getEnrollment token) w = (inr (Some d), w') -> pd_userId d = uid.
Proof.
  intros Hl Hm Hr. unfold getEnrollment in Hr. apply run_bind_inr in Hr as (a & w1 & Ha & Hr). run_stmt_inv Ha.
  destruct a as [a|]; [|done]. symmetry in Ha. apply find_elem in Ha as [Hin Ha].
  destruct (_ !== _); [done|]. apply run_bind_inr in Hr as (n & w2 & Hn & Hr). destruct (_ <? _); [done|]. injection Hr as <- _.
  by apply (touched uid l TPendingAction (by_token token) w (fun a => pd_userId (pa_data a)) a); [apply (token_touches _ token)| | | |].
Qed.
Lemma setEnrollmentPhone_own l token phone : by_its_token token ∈ l -> own uid l (setEnrollmentPhone token phone) nothing.
Proof.
  intros Hl. unfold setEnrollmentPhone.
  apply own_bind_value with (mid := nothing) (Q := fun d => forall e, d = Some e -> pd_userId e = uid); [owns| |].
  - intros w d w' _ Hm Hr e ->. by apply (getEnrollment_mine l token w e w').
  - intros [d|] Hd; [|owns]. apply own_then; [owns|]. intros c. apply own_then; [|owns].
    apply own_update; [by eexists|by apply (token_touches _ token)|]. intros o a [= <-] _.
    split; [by apply (Hd d)|]. intros key [->|[->|[]%elem_of_nil]%elem_of_cons]%elem_of_cons; reflexivity.
Qed.
Lemma mark_enrollment_own l token factor :
  (forall t, token = Some t -> by_its_token t ∈ l) -> own uid l (mark_enrollment token factor) nothing.
Proof.
  intros Hl. unfold mark_enrollment. destruct token as [token|]; [|owns]. specialize (Hl token eq_refl).
  unfold markMfaEnrollmentVerified. apply own_bind_value
    with (mid := fun o => match o with Some a => names TPendingAction a | None => [] end)
         (Q := fun o => forall a, o = Some a -> pd_userId (pa_data a) = uid).
  - apply own_find_first; [by eexists|by apply (token_touches _ token)].
  - intros w o w' _ Hm Hr a ->. run_stmt_inv Hr. symmetry in Hr. apply find_elem in Hr as [Hin Ha].
    by apply (touched uid l TPendingAction (by_token token) w (fun a => pd_userId (pa_data a)) a); [apply (token_touches _ token)| | | |].
  - intros [a|] Ha; [|owns]. destruct (_ !== _); [owns|]. apply own_then; [|owns]. apply own_update; [by eexists| |].
    + apply (named_touches _ TPendingAction _ pa_id); [by left|]. exists a. split; [set_solver|]. by intros y ?%bool_decide_eq_true.
    + intros o b [= <-] _. split; [by apply (Ha a)|].
      intros key [->|[->|[]%elem_of_nil]%elem_of_cons]%elem_of_cons; reflexivity.
Qed.
Hint Resolve disableSms_own disableTotp_own setupTotp_own requestDeletion_own cancelDeletion_own verifyAndActivateTotp_own : own.

(** *** Codes by text message *)

Lemma getSmsEnrollment_own l req :
  own uid l (getSmsEnrollment realm req uid) (fun pending => match pending with Some (token, _) => [by_its_token token] | None => [] end).
Proof.
  apply own_reads; [apply getSmsEnrollment_footprint|]. intros w pending w' Hok _ Hr. unfold getSmsEnrollment in Hr.
  destruct (negb _); [injection Hr as <- _; constructor|]. cbv zeta in Hr.
  apply run_bind_inr in Hr as (d & w1 & Hd & Hr). injection Hr as <- _. destruct d as [d|]; [|constructor].
  destruct (bool_decide_reflect (pd_userId d = uid)) as [Hu|]; simpl negb; [|constructor]. simpl orb.
  destruct (_ !== _); [constructor|]. constructor; [|constructor].
  unfold getEnrollment in Hd. apply run_bind_inr in Hd as (a & w2 & Ha & Hd). run_stmt_inv Ha.
  destruct a as [a|]; [|done]. symmetry in Ha. apply find_elem in Ha as [Hin Ha%bool_decide_eq_true].
  destruct (_ !== _); [done|]. apply run_bind_inr in Hd as (n & w3 & Hn & Hd). destruct (_ <? _); [done|]. injection Hd as Hd _.
  intros o y [= <-] Hy Hn'. apply bool_decide_eq_false. intros Heq.
  apply (ko_apart uid w Hok TPendingAction a Hin (fun a => pd_userId (pa_data a)) pa_tokenHash y); [done|set_solver| |done|done|congruence].
  by rewrite Hd.
Qed.

Definition pending_token (pending : option (string * PendingData)) : list RowCondition :=
  match pending with Some (token, _) => [by_its_token token] | None => [] end.
Definition destination_token (r : Response + Destination) : list RowCondition :=
  match r with inr dst => [by_its_token (dst_token dst)] | inl _ => [] end.
Lemma new_enrollment_own l pending phone :
  (forall c, c ∈ pending_token pending -> c ∈ l) -> own uid l (new_enrollment realm user pending phone) destination_token.
Proof.
  intros Hl. unfold new_enrollment. apply own_then.
  - destruct pending as [[token d]|]; [|owns]. apply endEnrollment_own, Hl. by left.
  - intros _. eapply own_bind; [apply startEnrollment_own|]. intros token. apply own_ret. set_solver.
Qed.
Lemma code_destination_own l setup pending body :
  su_user setup = user -> (forall c, c ∈ pending_token pending -> c ∈ l) ->
  own uid l (code_destination realm setup pending body) destination_token.
Proof.
  intros Hs Hl. unfold code_destination. rewrite Hs.
  destruct (if truthy (field "resend" body) then pending else None) as [[token d]|] eqn:Hp.
  - cbv zeta. apply own_ret. intros c. destruct (truthy (enrollmentPhone d)); [|by intros ?%elem_of_nil]. intros Hc. apply Hl.
    destruct (truthy (field "resend" body)); [by rewrite Hp|done].
  - destruct (normalizePhone _) as [phone|]; [|apply own_ret; by intros ? ?%elem_of_nil].
    apply own_then; [destruct (su_enrollmentToken setup); owns|]. intros [message|]; [apply own_ret; by intros ? ?%elem_of_nil|].
    by apply new_enrollment_own.
Qed.

Lemma resend_refusal_none r o now : resend_refusal r uid (Some o) now = None -> oa_userId o = uid.
Proof. simpl. by destruct (bool_decide_reflect (oa_userId o = uid)). Qed.
Lemma reject_own {A} l (log : SmsDeliveryLog) e (post : A -> list RowCondition) :
  names TSmsDeliveryLog log ⊆ l -> own uid l (reject (sl_id log) e) post.
Proof.
  intros Hl. unfold reject. apply own_then; [|intros; apply own_throw].
  apply own_update; [by eexists| |same_keys].
  apply (named_touches _ TSmsDeliveryLog _ sl_id); [by left|]. exists log. split; [done|]. by intros y ?%bool_decide_eq_true.
Qed.
Lemma own_found_attempt l q :
  own uid l (find_first TOtpAttempt q)
    (fun o => match o with Some e => if decide (oa_userId e = uid) then names TOtpAttempt e else [] | None => [] end).
Proof.
  apply own_reads; [apply find_first_footprint|]. intros w o w' Hok _ Hr. run_stmt_inv Hr.
  destruct o as [e|]; [|constructor]. case_decide; [|constructor]. symmetry in Hr. apply find_elem in Hr as [Hin _].
  by eapply (names_mine uid TOtpAttempt).
Qed.
(** Conditions on the id of a named row. *)
Lemma attempt_touches l (e : OtpAttempt) q :
  names TOtpAttempt e ⊆ l -> (forall o, q o = true -> oa_id o = oa_id e) -> touches uid l TOtpAttempt q.
Proof. intros Hl Hq. apply (named_touches _ TOtpAttempt _ oa_id); [by left|]. by exists e. Qed.
Lemma log_touches l (e : SmsDeliveryLog) : names TSmsDeliveryLog e ⊆ l -> touches uid l TSmsDeliveryLog (fun x => sl_id x === sl_id e).
Proof.
  intros Hl. apply (named_touches _ TSmsDeliveryLog _ sl_id); [by left|]. exists e. split; [done|]. by intros y ?%bool_decide_eq_true.
Qed.

Lemma sendCode_own l purpose binding phone ip : own uid l (sendCode realm uid purpose binding phone ip) nothing.
Proof.
  unfold sendCode. apply own_then; [owns|]. intros number. cbv zeta. apply own_then; [owns|]. intros now.
  eapply own_bind; [apply own_found_attempt|]. intros existing.
  destruct (resend_refusal realm uid existing now) as [error|] eqn:Hrefused; [owns|].
  apply own_bind with (mid := names TSmsDeliveryLog).
  { apply own_create; [by eexists|by intros ? ? ? [= <-]|apply new_ids; id_only|done]. }
  intros log. set (l' := names TSmsDeliveryLog log ++ _). assert (Hlog : names TSmsDeliveryLog log ⊆ l') by set_solver.
  assert (Hex : forall e, existing = Some e -> names TOtpAttempt e ⊆ l').
  { intros e ->. apply resend_refusal_none in Hrefused. unfold l'. rewrite decide_True by done. set_solver. }
  clearbody l'. apply own_then; [owns|]. intros [error|]; [by apply reject_own|]. apply own_then; [owns|]. intros code.
  apply own_then; [owns|]. intros enc. apply own_then.
  - destruct existing as [e|].
    + apply own_then; [|intros n; destruct (n =? 0); [by apply reject_own|owns]].
      apply own_update_many; [by eexists| |same_keys]. apply (attempt_touches _ e); [by apply Hex|].
      intros o Ho. rewrite !andb_true_iff in Ho. by destruct Ho as [[[?%bool_decide_eq_true _] _] _].
    + apply own_catch; [owns|]. intros err. repeat case_match; try apply own_throw; by apply reject_own.
  - intros _. apply own_then; [|owns].
    destruct (send_sms _ _ _); [|apply own_then; [|intros; apply own_throw]];
      (apply own_update; [by eexists|by apply log_touches|same_keys]).
Qed.
Lemma verifyCode_own l purpose binding code : own uid l (verifyCode (realm_id realm) uid purpose binding code) nothing.
Proof.
  unfold verifyCode. cbv zeta. eapply own_bind; [apply own_found_attempt|]. intros [row|]; [|owns].
  destruct (bool_decide_reflect (oa_userId row = uid)) as [Hu|]; cbn [negb orb]; [|owns]. rewrite decide_True by done.
  assert (Hrow : names TOtpAttempt row ⊆ names TOtpAttempt row ++ l) by set_solver. revert Hrow.
  generalize (names TOtpAttempt row ++ l). intros l' Hrow.
  destruct (_ !== _); [owns|]. apply own_then; [owns|]. intros now. apply own_then.
  { apply own_update_many; [by eexists| |same_keys]. apply (attempt_touches _ row); [done|].
    intros o Ho. rewrite !andb_true_iff in Ho. by destruct Ho as [[?%bool_decide_eq_true _] _]. }
  intros reserved. destruct (_ =? _); [owns|]. destruct (negb _); [owns|]. apply own_then; [|owns].
  apply own_delete_many; [discriminate|by eexists|reflexivity|]. apply (attempt_touches _ row); [done|].
  intros o Ho. apply andb_true_iff in Ho as [?%bool_decide_eq_true _]. done.
Qed.
Hint Resolve sendCode_own verifyCode_own : own.

Lemma send_enrollment_code_own l req dst :
  by_its_token (dst_token dst) ∈ l -> own uid l (send_enrollment_code realm user req dst) nothing.
Proof.
  intros Hl. unfold send_enrollment_code. apply own_catch; [|owns].
  apply own_then; [owns|]. intros sent. apply own_then; [by apply setEnrollmentPhone_own|]. intros _. owns.
Qed.
Lemma phone_verified_own l setup token phone :
  su_user setup = user -> by_its_token token ∈ l ->
  (forall t, su_enrollmentToken setup = Some t -> by_its_token t ∈ l) -> own uid l (phone_verified realm setup token phone) nothing.
Proof.
  intros Hs Hl Ht. unfold phone_verified. rewrite Hs. cbv zeta. apply own_then; [owns|]. intros _.
  apply own_then; [by apply endEnrollment_own|]. intros _. apply own_then; [owns|]. intros codes.
  apply own_then; [by apply mark_enrollment_own|]. intros _. owns.
Qed.
Lemma change_own_password_own l password req : own uid l (change_own_password realm user password req) nothing.
Proof. unfold change_own_password, store_password. owns. Qed.
Lemma confirm_password_own l body missing wrong k : own uid l k nothing -> own uid l (confirm_password user body missing wrong k) nothing.
Proof. intros Hk. unfold confirm_password. owns. Qed.
Lemma reported_own {A} l (p : M A) done : own uid l p nothing -> own uid l (reported error_message realm p done) nothing.
Proof. intros Hp. unfold reported. owns. Qed.
Lemma update_names_own l first last : own uid l (update TUser (fun u => user_id u === uid) (set_user_names first last)) nothing.
Proof. owns. Qed.

End Handlers.
#[export] Hint Resolve sendPasswordChangedEmail_footprint checkHistory_footprint getMfaEnrollment_footprint getEnrollment_footprint
  getEnrolledFactors_footprint isTotpEnabled_footprint findUserById_footprint validateLoginSession_footprint
  render_form_footprint exportUserData_footprint mark_enrollment_footprint activated_page_footprint endEnrollment_footprint
  getSmsEnrollment_footprint getUserCredentials_footprint phone_refusal_footprint checkSendLimits_footprint generateCode_footprint
  destination_footprint last_required_factor_footprint getDeletionStatus_footprint code_destination_footprint
  send_enrollment_code_footprint : footprint.
#[export] Hint Resolve change_own_password_own update_names_own confirm_password_own reported_own disableSms_own disableTotp_own
  setupTotp_own requestDeletion_own cancelDeletion_own verifyAndActivateTotp_own sendCode_own verifyCode_own : own.

(** ** Whose browser it is *)

(** The request carries the cookie of a browser session of [u]. *)
Definition names_session {E : Env} (realm : Realm) (req : Request) (w : World) (u : string) : Prop :=
  exists token s, cookie SESSION_COOKIE req = Some token /\ s ∈ rows TLoginSession w /\ ls_tokenHash s = sha256 token /\
    ls_realmId s = realm_id realm /\ ls_userId s = u.
(** The request carries the cookie of a sign-in of [u] that waits for the enrolment of a factor. *)
Definition names_enrollment {E : Env} (realm : Realm) (req : Request) (w : World) (u : string) : Prop :=
  exists token a, cookie MFA_ENROLLMENT_COOKIE req = Some token /\ a ∈ rows TPendingAction w /\ pa_tokenHash a = sha256 token /\
    pa_type a = "mfa_enrollment" /\ pd_realmId (pa_data a) = realm_id realm /\ pd_userId (pa_data a) = u.
Definition acts_for {E : Env} (realm : Realm) (req : Request) (w : World) (u : string) : Prop :=
  names_session realm req w u \/ names_enrollment realm req w u.

Section Sender.
Context {E : Env} (realm : Realm) (req : Request).

Lemma getSessionUser_footprint ts : stable (frame ts) (getSessionUser realm req).
Proof. unfold getSessionUser. footprint. Qed.
Lemma getTotpSetupUser_footprint ts : stable (frame ts) (getTotpSetupUser realm req).
Proof. unfold getTotpSetupUser, enrolling_user. pose proof getSessionUser_footprint. footprint. Qed.

Lemma run_getSessionUser_inr w user w' :
  run (getSessionUser realm req) w = (inr (Some user), w') -> names_session realm req w (user_id user) /\ user ∈ rows TUser w.
Proof.
  unfold getSessionUser. destruct (cookie SESSION_COOKIE req) as [token|] eqn:Hc; [|done].
  destruct (truthy (Some token)); [|done]. cbn [negb default]. intros Hr.
  apply run_validateLoginSession_inr in Hr as (s & Hin & Hh & Hre & _ & Hu & Hid & _). split; [|done].
  exists token, s. by rewrite Hid.
Qed.

Lemma run_enrolling_user_inr token w setup w' :
  cookie MFA_ENROLLMENT_COOKIE req = Some token -> run (enrolling_user realm token) w = (inr (Some setup), w') ->
  names_enrollment realm req w (user_id (su_user setup)) /\ su_enrollmentToken setup = Some token /\
  su_user setup ∈ rows TUser w.
Proof.
  intros Hc Hr. unfold enrolling_user, getMfaEnrollment, findUserById in Hr.
  apply run_bind_inr in Hr as (e & w1 & He & Hr). apply run_bind_inr in He as (a & w2 & Ha & He). run_stmt_inv Ha.
  destruct a as [a|]; [|injection He as <- <-; done]. symmetry in Ha. apply find_elem in Ha as [Hin Hh%bool_decide_eq_true].
  destruct (bool_decide_reflect (pa_type a = "mfa_enrollment")) as [Hty|]; [|injection He as <- <-; done].
  cbn [negb] in He. apply run_bind_inr in He as (now & w3 & Hn & He). run_stmt_inv Hn.
  destruct (_ <? _); injection He as <- <-; [done|].
  destruct (bool_decide_reflect (pd_realmId (pa_data a) = realm_id realm)) as [Hre|]; [|done].
  cbn [negb] in Hr. apply run_bind_inr in Hr as (u & w3 & Hu & Hr). run_stmt_inv Hu.
  destruct u as [u|]; [|done]. symmetry in Hu. apply find_elem in Hu as [Huin Hid%bool_decide_eq_true].
  destruct (user_enabled u); [|done]. injection Hr as <- <-. cbn [su_user su_enrollmentToken]. split; [|done].
  exists token, a. by rewrite Hid.
Qed.

Lemma run_getTotpSetupUser_inr w setup w' :
  run (getTotpSetupUser realm req) w = (inr (Some setup), w') ->
  su_user setup ∈ rows TUser w /\
  ((exists token, cookie MFA_ENROLLMENT_COOKIE req = Some token /\ su_enrollmentToken setup = Some token /\ names_enrollment realm req w (user_id (su_user setup))) \/
   su_enrollmentToken setup = None /\ names_session realm req w (user_id (su_user setup))).
Proof.
  unfold getTotpSetupUser. intros Hr. apply run_bind_inr in Hr as (e & w1 & He & Hr).
  destruct (truthy (cookie MFA_ENROLLMENT_COOKIE req)) eqn:Ht; [apply truthy_true in Ht as (token & Hc & _)|].
  - rewrite Hc in He. change (Some token ?? EmptyString) with token in He.
    destruct e as [e|]; [injection Hr as <- <-; apply (run_enrolling_user_inr token) in He as (? & ? & ?); [|done];
      split; [done|]; left; by exists token|].
    apply (run_frame []) in He; [|unfold enrolling_user; footprint].
    apply run_bind_inr in Hr as (u & w2 & Hu & Hr). destruct u as [u|]; [|done]. injection Hr as <- <-. cbn [su_user su_enrollmentToken].
    apply run_getSessionUser_inr in Hu as [(tk & s & Hck & Hin & Hrest) Huin].
    rewrite (frame_rows _ _ _ TUser He) in Huin by done. rewrite (frame_rows _ _ _ TLoginSession He) in Hin by done.
    split; [done|]. right. split; [done|]. by exists tk, s.
  - injection He as <- <-. apply run_bind_inr in Hr as (u & w2 & Hu & Hr). destruct u as [u|]; [|done].
    injection Hr as <- <-. apply run_getSessionUser_inr in Hu as [? ?]. split; [done|]. by right.
Qed.
End Sender.
#[export] Hint Resolve getSessionUser_footprint getTotpSetupUser_footprint : footprint.

(** ** Every request stays with its own account *)

(** The rows of [u] are the same, and so is every table that no page writes. *)
Definition untouched (u : string) (w w' : World) : Prop :=
  forall t, match owner_of t with
            | None => rows t w' = rows t w
            | Some own => forall x : Row t, own x = u -> (x ∈ rows t w' <-> x ∈ rows t w)
            end.

(** The ids, and the hashes of the tokens of pending actions, are distinct, and no id is
    still to be generated. *)
Record distinct_keys {E : Env} (w : World) : Prop := mk_distinct_keys {
  dk_distinct : forall t key, key ∈ keys_of t -> NoDup (map key (rows t w));
  dk_fresh : forall t key x n, head (keys_of t) = Some key -> x ∈ rows t w -> (w_uuids w <= n)%nat -> key x <> uuid n
}.

(** Whose account a request is about. Signing out looks the session up by its cookie alone,
    whatever realm it is of. *)
Definition is_about {E : Env} (realm : Realm) (req : Request) (request : AccountRequest) (w : World) (u : string) : Prop :=
  match request with
  | Logout => exists token s, cookie SESSION_COOKIE req = Some token /\ s ∈ rows TLoginSession w /\
                ls_tokenHash s = sha256 token /\ ls_userId s = u
  | _ => acts_for realm req w u
  end.

Section Own.
Context {E : Env} (error_message : exc -> string) (realm : Realm) (req : Request).

Lemma kept_untouched v u w w' : v <> u -> kept v w w' -> untouched u w w'.
Proof. intros Hne [_ K] t. specialize (K t). destruct (owner_of t); [|done]. intros x Hx. apply K. congruence. Qed.
Lemma frame_untouched u w w' : frame [] w w' -> untouched u w w'.
Proof. intros F t. rewrite (frame_rows _ _ _ t F) by done. by destruct (owner_of t). Qed.
Lemma distinct_keys_ok v w : distinct_keys w -> keys_ok v w.
Proof.
  intros [H1 H2]. split.
  - intros t x Hx o key y _ Hk Hu Hy Hn Heq. apply Hn. rewrite <- Hu. f_equal.
    symmetry. by apply (NoDup_map_inj key (rows t w)); [apply H1| | |].
  - intros t o key y n _ Hh Hy _ Hle. by apply (H2 t key y n).
Qed.
Lemma frame_distinct_keys w w' : frame [] w w' -> distinct_keys w -> distinct_keys w'.
Proof.
  intros F [H1 H2]. split.
  - intros t key. rewrite (frame_rows _ _ _ t F) by done. apply H1.
  - intros t key x n Hh. rewrite (frame_rows _ _ _ t F) by done. intros Hx Hn. apply (H2 t key x n Hh Hx).
    destruct F as (_ & _ & _ & _ & ?). lia.
Qed.
Lemma own_untouched {A} v l (p : M A) u w r w' :
  own v l p nothing -> distinct_keys w -> Forall (mine v w) l -> run p w = (r, w') -> v <> u -> untouched u w w'.
Proof. intros Hp Hd Hl Hr Hv. apply (kept_untouched v); [done|]. by apply (Hp w r w' (distinct_keys_ok v w Hd) Hl). Qed.

Lemma signed_in_untouched {A} (o : A) k u w r w' :
  distinct_keys w -> (forall user, own (user_id user) [] (k user) nothing) -> run (signed_in realm req o k) w = (r, w') ->
  ~ acts_for realm req w u -> untouched u w w'.
Proof.
  intros Hd Hk Hr Hu. unfold signed_in in Hr.
  apply run_bind_any in Hr as [(e & Hr)|(user & w1 & Ha & Hr)].
  { apply (run_frame []) in Hr; [|apply getSessionUser_footprint]. by apply frame_untouched. }
  pose proof (run_frame [] _ _ _ _ (getSessionUser_footprint realm req []) Ha) as F.
  destruct user as [user|]; [|injection Hr as _ <-; by apply frame_untouched].
  apply run_getSessionUser_inr in Ha as [Hn _]. intros t.
  rewrite <- (frame_rows _ _ _ t F) by done. revert t.
  apply (own_untouched (user_id user) [] (k user) u w1 r w' (Hk user)); [by apply (frame_distinct_keys w)|constructor|done|].
  intros Heq. apply Hu. left. by rewrite <- Heq.
Qed.

(** The enrolment a setup belongs to. *)
Definition enrollment_of (setup : SetupUser) : list RowCondition :=
  match su_enrollmentToken setup with Some token => [cond TPendingAction (by_token token)] | None => [] end.
Lemma enrollment_of_mine setup w :
  distinct_keys w ->
  (forall token, su_enrollmentToken setup = Some token -> exists a, a ∈ rows TPendingAction w /\
     pa_tokenHash a = sha256 token /\ pd_userId (pa_data a) = user_id (su_user setup)) ->
  Forall (mine (user_id (su_user setup)) w) (enrollment_of setup).
Proof.
  intros Hd Hs. unfold enrollment_of. destruct (su_enrollmentToken setup) as [token|]; [|constructor].
  destruct (Hs token eq_refl) as (a & Hin & Hh & Hu). constructor; [|constructor].
  intros o y [= <-] Hy Hn. apply bool_decide_eq_false. intros Heq. apply Hn.
  assert (y = a) as ->; [|done]. apply (NoDup_map_inj pa_tokenHash (rows TPendingAction w)); [|done|done|congruence].
  apply (dk_distinct w Hd TPendingAction). right. by left.
Qed.
Lemma setting_up_untouched k u w r w' :
  distinct_keys w -> (forall setup, own (user_id (su_user setup)) (enrollment_of setup) (k setup) nothing) ->
  run (setting_up realm req k) w = (r, w') -> ~ acts_for realm req w u -> untouched u w w'.
Proof.
  intros Hd Hk Hr Hu. unfold setting_up in Hr.
  apply run_bind_any in Hr as [(e & Hr)|(setup & w1 & Ha & Hr)].
  { apply (run_frame []) in Hr; [|apply getTotpSetupUser_footprint]. by apply frame_untouched. }
  pose proof (run_frame [] _ _ _ _ (getTotpSetupUser_footprint realm req []) Ha) as F.
  destruct setup as [setup|]; [|injection Hr as _ <-; by apply frame_untouched].
  apply run_getTotpSetupUser_inr in Ha as [_ Hn]. intros t. rewrite <- (frame_rows _ _ _ t F) by done. revert t.
  apply (own_untouched (user_id (su_user setup)) (enrollment_of setup) (k setup) u w1 r w' (Hk setup));
    [by apply (frame_distinct_keys w)| |done|].
  - apply enrollment_of_mine; [by apply (frame_distinct_keys w)|]. intros token Ht.
    destruct Hn as [(tk & Hc & Hs & (tk' & a & Hc' & Hin & Hh & _ & _ & Hid))|[Hs _]]; [|by rewrite Hs in Ht].
    exists a. rewrite (frame_rows _ _ _ TPendingAction F) by done. split; [done|]. split; [|done]. congruence.
  - intros Heq. apply Hu. rewrite <- Heq. destruct Hn as [(token & _ & _ & Hn)|[_ Hn]]; [by right|by left].
Qed.

Lemma run_csrf_any {A} body (p : M A) w r w' :
  run (bind (validateCsrf realm body req) (fun _ => p)) w = (r, w') -> w' = w \/ run p w = (r, w').
Proof.
  intros [(e & Hr)|([] & w1 & Hc & Hr)]%run_bind_any.
  - apply run_validateCsrf_any in Hr as [-> _]. by left.
  - apply run_validateCsrf_any in Hc as [-> _]. by right.
Qed.
Lemma run_drop {A} (p : M A) w r w' : run (p ;;; Ret tt)%prog w = (r, w') -> exists r0, run p w = (r0, w').
Proof. intros [(e & Hr)|(a & w1 & Ha & [= _ <-])]%run_bind_any; by eexists. Qed.

Lemma logout_untouched u w r w' : run (logout realm req) w = (r, w') -> ~ is_about realm req Logout w u -> untouched u w w'.
Proof.
  intros Hr Hu. apply (run_frame [TLoginSession]) in Hr as F; [|unfold logout; footprint]. intros t.
  destruct (decide (t = TLoginSession)) as [->|Hne];
    [|rewrite (frame_rows _ _ _ t F) by (apply includes_false; set_solver); by destruct (owner_of t)].
  intros x Hx. unfold logout in Hr. cbv zeta in Hr. rewrite run_bind in Hr.
  destruct (truthy (cookie SESSION_COOKIE req)) eqn:Ht; [|by injection Hr as _ <-].
  apply truthy_true in Ht as (token & Hc & _). rewrite Hc in Hr. change (Some token ?? EmptyString) with token in Hr.
  rewrite run_catch, run_bind in Hr. unfold delete_one in Hr. rewrite run_prisma in Hr.
  destruct (w_db_up w); [|by injection Hr as _ <-].
  match type of Hr with context [match ?o with Some _ => _ | None => _ end] => destruct o as [s|] eqn:Hs end;
    injection Hr as _ <-; [|done].
  unfold rows; simpl. rewrite set_table_eq. apply find_elem in Hs as Hf. destruct Hf as [Hin Hhash%bool_decide_eq_true].
  split; [by apply elem_of_remove_first|]. intros Hxin. apply elem_of_remove_first_ne; [|done].
  apply bool_decide_eq_false. intros Heq. apply Hu. by exists token, x.
Qed.

Lemma enrollment_tokens setup l t : su_enrollmentToken setup = Some t -> enrollment_of setup ⊆ l -> cond TPendingAction (by_token t) ∈ l.
Proof. unfold enrollment_of. intros ->. set_solver. Qed.

Lemma serve_untouched request u w r w' :
  distinct_keys w -> run (serve error_message realm req request) w = (r, w') ->
  ~ is_about realm req request w u -> untouched u w w'.
Proof.
  intros Hd Hr Hu. destruct request; cbn [serve] in Hr; apply run_drop in Hr as [r0 Hr];
    try (apply run_csrf_any in Hr as [->|Hr]; [by apply frame_untouched|]);
    try (by eapply logout_untouched); cbn [is_about] in Hu;
    first [ eapply signed_in_untouched; [done| |exact Hr|exact Hu]; intros user
          | eapply setting_up_untouched; [done| |exact Hr|exact Hu]; intros setup ]; cbv beta zeta.
  - owns.
  - owns.
  - unfold changePassword. owns.
  - owns.
  - destruct (negb _); [owns|]. apply own_then; [owns|]. intros [codes|]; [|owns]. apply own_then; [|owns].
    apply mark_enrollment_own. intros t Ht. by apply (enrollment_tokens setup).
  - unfold setCsrfCookie, generateToken. owns.
  - destruct (negb _); [owns|]. eapply own_bind; [apply getSmsEnrollment_own|]. intros pending.
    eapply own_bind; [apply code_destination_own; [done|set_solver]|]. intros [response|dst]; [owns|].
    apply send_enrollment_code_own. set_solver.
  - destruct (negb _); [owns|]. eapply own_bind; [apply getSmsEnrollment_own|]. intros [[token d]|]; [|owns].
    apply own_then; [owns|]. intros [phone|reason n].
    + apply phone_verified_own; [done|set_solver|]. intros t Ht. apply (enrollment_tokens setup); [done|]. set_solver.
    + destruct (_ === _); [owns|]. apply own_then; [|owns]. apply endEnrollment_own. set_solver.
  - owns. apply confirm_password_own. owns.
  - owns. apply confirm_password_own. owns.
  - owns.
  - owns.
  - apply confirm_password_own, reported_own. owns.
  - apply confirm_password_own, reported_own. owns.
Qed.
End Own.


(** C32. Every account page acts on the account of the browser that asks, and on no other:
    whatever is sent, and however it ends, the rows of everybody else stay as they are in
    every table a page writes: the users, their factors, recovery codes, deletion requests,
    password histories, one-time codes, message log, pending actions and browser sessions.
    No other table changes at all, so neither do SSO sessions, refresh tokens, roles,
    groups, consents, attributes or memberships. Whose browser it is, a session of this
    realm or a sign-in of this realm that waits for an enrolment says, not the form. Signing
    out alone takes the session its cookie names, whatever realm that is of: it is the
    sign-out of the user of that session ([is_about], [logout_of_another_realm]). Ids and
    the hashes of pending tokens are unique columns, and a generated id is a new one. *)
Theorem account_acts_on_itself {E : Env} error_message realm req request u w r w' :
  distinct_keys w -> run (serve error_message realm req request) w = (r, w') ->
  ~ is_about realm req request w u -> untouched u w w'.
Proof. apply serve_untouched. Qed.

(** ** A required second factor stays *)

Definition is_factor_of (u : string) (c : UserCredential) : Prop :=
  cred_userId c = u /\ cred_verified c = true /\ cred_type c ∈ SECOND_FACTOR_TYPES.
Definition has_factor (u : string) (w : World) : Prop := exists c, c ∈ rows TUserCredential w /\ is_factor_of u c.
Definition keeps_factor (u : string) (w w' : World) : Prop := has_factor u w -> has_factor u w'.
#[export] Instance keeps_factor_preorder u : PreOrder (keeps_factor u).
Proof. split; [by intros w ?|]. intros a b c H1 H2 H. by apply H2, H1. Qed.

Section Factor.
Context {E : Env} (u : string).

Lemma frame_keeps_factor ts w w' : includes TUserCredential ts = false -> frame ts w w' -> keeps_factor u w w'.
Proof. intros Ht Hf (c & Hin & Hc). exists c. by rewrite (frame_rows _ _ _ TUserCredential Hf). Qed.
Lemma factor_frame {A} ts (p : M A) :
  stable (frame ts) p -> includes TUserCredential ts = false -> stable (keeps_factor u) p.
Proof. intros Hp Ht. apply (stable_mono (frame ts)); [intros w w'; by apply frame_keeps_factor|done]. Qed.
Lemma factor_prisma {B} (f : World -> (exc + B) * World) :
  (forall w, keeps_factor u w (f w).2) -> stable (keeps_factor u) (prisma f).
Proof. intros H. split; [|by intros [e|b]]. intros w. destruct (w_db_up w); [apply H|done]. Qed.
Lemma factor_rows rs w w' :
  rows TUserCredential w' = rs -> (forall c, c ∈ rows TUserCredential w -> is_factor_of u c -> exists c', c' ∈ rs /\ is_factor_of u c') ->
  keeps_factor u w w'.
Proof. intros Hrs H (c & Hin & Hc). destruct (H c Hin Hc) as (c' & Hin' & Hc'). exists c'. by rewrite Hrs. Qed.

Lemma factor_updated p f rs (c : UserCredential) :
  (forall c, is_factor_of u c -> is_factor_of u (f c)) -> c ∈ rs -> is_factor_of u c ->
  exists c', c' ∈ update_first p f rs /\ is_factor_of u c'.
Proof.
  intros Hf Hin Hc. induction rs as [|x rs IH]; [by apply not_elem_of_nil in Hin|]. simpl.
  apply elem_of_cons in Hin as [->|Hin].
  - destruct (p x); [exists (f x)|exists x]; (split; [apply elem_of_cons; by left|auto]).
  - destruct (p x); [exists c; split; [apply elem_of_cons; by right|done]|].
    destruct (IH Hin) as (c' & ? & ?). exists c'. split; [apply elem_of_cons; by right|done].
Qed.

Lemma factor_create t mk : stable (keeps_factor u) (create t mk).
Proof.
  apply factor_prisma. intros w. simpl. case_match; simpl; [|done]. destruct (decide (t = TUserCredential)) as [->|Hne].
  - cbn [snd]; eapply factor_rows; [apply rows_with_rows_eq|]. intros c Hin Hc. exists c. split; [|done]. apply elem_of_app. by left.
  - apply (frame_keeps_factor [t]); [by apply includes_false; set_solver|apply frame_new_row].
Qed.
Lemma factor_update p f :
  (forall c, is_factor_of u c -> is_factor_of u (f c)) -> stable (keeps_factor u) (update TUserCredential p f).
Proof.
  intros Hf. apply factor_prisma. intros w. destruct (List.find p _) as [y|]; [|done].
  cbn [snd]; eapply factor_rows; [apply rows_with_rows_eq|]. intros c. by apply factor_updated.
Qed.
Lemma factor_upsert p mk f :
  (forall c, is_factor_of u c -> is_factor_of u (f c)) -> stable (keeps_factor u) (upsert TUserCredential p mk f).
Proof.
  intros Hf. apply factor_prisma. intros w. destruct (List.find p _) as [y|].
  - cbn [snd]; eapply factor_rows; [apply rows_with_rows_eq|]. intros c. by apply factor_updated.
  - cbn [snd]; eapply factor_rows; [apply rows_with_rows_eq|]. intros c Hin Hc. exists c. split; [|done]. apply elem_of_app. by left.
Qed.
Lemma run_delete_credentials p w r w' :
  run (delete_many TUserCredential p) w = (r, w') ->
  w' = w \/ rows TUserCredential w' = List.filter (fun c => negb (p c)) (rows TUserCredential w).
Proof.
  unfold delete_many. rewrite run_prisma. destruct (w_db_up w); intros [= _ <-]; [right|by left].
  unfold rows at 1; simpl. by rewrite set_table_eq.
Qed.
Lemma factor_delete p :
  (forall c, is_factor_of u c -> p c = false) -> stable (keeps_factor u) (delete_many TUserCredential p).
Proof.
  intros Hp. apply factor_prisma. intros w. cbn [snd]; eapply factor_rows; [unfold rows; simpl; by rewrite set_table_eq|].
  intros c Hin Hc. exists c. split; [|done]. apply elem_of_filter_list. by rewrite (Hp c Hc).
Qed.
End Factor.

Ltac keeps_factor :=
  intros; cbv beta zeta;
  repeat match goal with
  | |- stable _ (bind _ _) => apply stable_bind; [|intros]
  | |- stable _ (catch _ _) => apply stable_catch; [|intros]
  | |- stable _ (Ret _) => exact I
  | |- stable _ (Throw _) => exact I
  | |- stable _ (if ?b then _ else _) => destruct b
  | |- stable _ (match ?x with _ => _ end) => destruct x
  | |- stable _ (create _ _) => apply factor_create
  | |- stable _ _ => solve [auto with keeps_factor]
  | |- stable _ _ =>
      apply (factor_frame _ [TUser; TPasswordHistory; TPendingAction; TSmsDeliveryLog; TOtpAttempt; TRecoveryCode;
                             TPendingDeletion; TLoginSession]);
      [solve [auto with footprint]|reflexivity]
  end.

Section FactorHandlers.
Context {E : Env} (error_message : exc -> string) (realm : Realm) (req : Request) (u : string).

Lemma setupTotp_factor userId : stable (keeps_factor u) (setupTotp userId).
Proof.
  unfold setupTotp. keeps_factor.
  - apply factor_delete. intros c (_ & Hv & _). by rewrite Hv, andb_false_r.
  - apply stable_atom. intros w. by apply (frame_keeps_factor _ []).
Qed.
Lemma generate_codes_footprint ts n userId : covers [TRecoveryCode] ts = true -> stable (frame ts) (generate_codes n userId).
Proof. intros H. apply (stable_frame_mono _ _ _ H). induction n; cbn [generate_codes]; footprint. Qed.
Hint Resolve generate_codes_footprint : footprint.
Lemma ensureRecoveryCodes_footprint ts userId : covers [TRecoveryCode] ts = true -> stable (frame ts) (ensureRecoveryCodes userId).
Proof. intros H. apply (stable_frame_mono _ _ _ H). unfold ensureRecoveryCodes, generateRecoveryCodes. footprint. Qed.
Hint Resolve ensureRecoveryCodes_footprint : footprint.
Lemma verifyAndActivateTotp_factor userId code : stable (keeps_factor u) (verifyAndActivateTotp userId code).
Proof. unfold verifyAndActivateTotp, totp_delta. keeps_factor. apply factor_update. by intros c (? & _ & ?). Qed.
Lemma saveEnrolledPhone_factor userId phone : stable (keeps_factor u) (saveEnrolledPhone userId phone).
Proof. unfold saveEnrolledPhone. keeps_factor. apply factor_upsert. by intros c (? & _ & ?). Qed.
Lemma requestDeletion_footprint ts userId days ip :
  covers [TPendingDeletion] ts = true -> stable (frame ts) (requestDeletion userId days ip).
Proof. intros H. apply (stable_frame_mono _ _ _ H). unfold requestDeletion. footprint. Qed.
Lemma cancelDeletion_footprint ts userId by_ : covers [TPendingDeletion] ts = true -> stable (frame ts) (cancelDeletion userId by_).
Proof. intros H. apply (stable_frame_mono _ _ _ H). unfold cancelDeletion. footprint. Qed.
Hint Resolve setupTotp_factor verifyAndActivateTotp_factor saveEnrolledPhone_factor : keeps_factor.
Hint Resolve requestDeletion_footprint cancelDeletion_footprint : footprint.

Lemma signed_in_factor {A} (o : A) k w r w' :
  (forall user w r w', run (k user) w = (r, w') -> keeps_factor u w w') ->
  run (signed_in realm req o k) w = (r, w') -> keeps_factor u w w'.
Proof.
  intros Hk [(e & Hr)|(user & w1 & Ha & Hr)]%run_bind_any.
  { apply (run_frame []) in Hr; [|apply getSessionUser_footprint]. by apply (frame_keeps_factor _ []). }
  apply (run_frame []) in Ha; [|apply getSessionUser_footprint].
  transitivity w1; [by apply (frame_keeps_factor _ [])|]. destruct user as [user|]; [by eapply Hk|by injection Hr as _ <-].
Qed.
Lemma factor_run {A} (p : M A) w r w' : stable (keeps_factor u) p -> run p w = (r, w') -> keeps_factor u w w'.
Proof. intros Hp Hr. pose proof (stable_run (keeps_factor u) p w Hp) as H. by rewrite Hr in H. Qed.
Lemma setting_up_factor k : (forall setup, stable (keeps_factor u) (k setup)) -> stable (keeps_factor u) (setting_up realm req k).
Proof. intros Hk. unfold setting_up. keeps_factor. Qed.

Lemma run_verifyPassword_any h p w r w' : run (verifyPassword h p) w = (r, w') -> w' = w.
Proof. unfold verifyPassword. destruct (_ <? _)%nat; [by injection 1|]. by destruct (argon2_verify h p); injection 1. Qed.
Lemma run_confirm_password_any user body missing wrong k w r w' :
  run (confirm_password user body missing wrong k) w = (r, w') -> w' = w \/ run k w = (r, w').
Proof.
  unfold confirm_password. cbv zeta. destruct (_ || _); [injection 1; by left|].
  intros [(e & Hr)|(valid & w1 & Hv & Hr)]%run_bind_any; [apply run_verifyPassword_any in Hr; by left|].
  apply run_verifyPassword_any in Hv as ->. destruct valid; [by right|]. injection Hr as _ <-. by left.
Qed.

(** The check before a factor is turned off finds another one. *)
Lemma run_last_required_any userId factor w r w' :
  realm_mfaRequired realm = true -> run (last_required_factor realm userId factor) w = (r, w') ->
  w' = w /\ (r = inr false -> exists c, c ∈ rows TUserCredential w /\ is_factor_of userId c /\ cred_type c <> factor).
Proof.
  intros Hm Hr. unfold last_required_factor in Hr. rewrite Hm in Hr.
  apply run_bind_cases in Hr as [(e & Hr & ->)|(fs & w1 & Hf & Hr)].
  { apply (run_bind_cases (find_many _ _)) in Hr as [(e' & Hr & _)|(c & w1 & Hc & [=])].
    apply run_query_any in Hr as ->. by split. }
  unfold getEnrolledFactors in Hf. apply run_bind_inr in Hf as (cs & w2 & Hc & Hf). run_stmt_inv Hc.
  apply run_ret_inr in Hf as [<- <-]. cbn [run] in Hr.
  apply pair_equal_spec in Hr as [<- <-]. split; [done|]. intros Hl.
  apply (f_equal (fun r => match r with inr b => b | inl _ => true end)) in Hl. cbv beta iota in Hl. apply bool_decide_eq_false in Hl.
  match type of Hl with ?l <> [] => destruct l as [|f l'] eqn:Hfl; [done|assert (Hin : f ∈ l)] end.
  { rewrite Hfl. apply elem_of_cons. by left. }
  apply elem_of_filter_list in Hin as [Hne%negb_true_iff%bool_decide_eq_false Hin].
  apply elem_of_filter_list in Hin as [Hex Hsec]. apply existsb_exists in Hex as (c & Hc' & Hty%bool_decide_eq_true).
  rewrite Hc in Hc'. apply list_elem_of_In, elem_of_filter_list in Hc' as [[[Hid%bool_decide_eq_true Hv]%andb_true_iff _]%andb_true_iff Hcin].
  exists c. split; [done|]. split; [|congruence]. split; [done|]. split; [done|]. by rewrite Hty.
Qed.

(** Without the factor of one type, the others are still there. *)
Lemma run_delete_type userId type w r w' (c : UserCredential) :
  c ∈ rows TUserCredential w -> is_factor_of userId c -> cred_type c <> type ->
  run (delete_many TUserCredential (of_type userId type)) w = (r, w') -> keeps_factor u w w'.
Proof.
  intros Hin Hc Hty [->|Hrs]%run_delete_credentials; [done|]. intros (c0 & Hin0 & Hc0).
  destruct (of_type userId type c0) eqn:Hof; [|exists c0; rewrite Hrs, elem_of_filter_list, Hof; done].
  apply owned_guard in Hof as [Hid _]. exists c. rewrite Hrs, elem_of_filter_list. unfold of_type.
  rewrite (bool_decide_eq_false_2 (cred_type c = type) Hty), andb_false_r. split; [done|].
  destruct Hc0 as [<- _]. rewrite Hid. exact Hc.
Qed.
Lemma disable_factor {A} userId type (rest : M A) w r w' (c : UserCredential) :
  c ∈ rows TUserCredential w -> is_factor_of userId c -> cred_type c <> type ->
  stable (frame [TRecoveryCode; TOtpAttempt]) rest ->
  run (bind (delete_many TUserCredential (of_type userId type)) (fun _ => rest)) w = (r, w') -> keeps_factor u w w'.
Proof.
  intros Hin Hc Hty Hrest [(e & Hr)|(n & w1 & Hd & Hr)]%run_bind_any; [by eapply run_delete_type|].
  transitivity w1; [by eapply run_delete_type|]. apply (run_frame _ _ _ _ _ Hrest) in Hr.
  by apply (frame_keeps_factor _ [TRecoveryCode; TOtpAttempt]).
Qed.
Lemma no_factor_left_footprint ts userId :
  covers [TRecoveryCode] ts = true -> stable (frame ts) (deleteRecoveryCodesIfNoFactorLeft userId).
Proof. intros H. apply (stable_frame_mono _ _ _ H). unfold deleteRecoveryCodesIfNoFactorLeft. footprint. Qed.
Hint Resolve no_factor_left_footprint : footprint.
Lemma disableSms_factor userId w r w' (c : UserCredential) :
  c ∈ rows TUserCredential w -> is_factor_of userId c -> cred_type c <> "sms" ->
  run (disableSms userId) w = (r, w') -> keeps_factor u w w'.
Proof. intros Hin Hc Hty. apply (disable_factor userId "sms" _ _ _ _ c); [done..|]. footprint. Qed.
Lemma disableTotp_factor userId w r w' (c : UserCredential) :
  c ∈ rows TUserCredential w -> is_factor_of userId c -> cred_type c <> "totp" ->
  run (disableTotp userId) w = (r, w') -> keeps_factor u w w'.
Proof. intros Hin Hc Hty. apply (disable_factor userId "totp" _ _ _ _ c); [done..|]. footprint. Qed.

Lemma guarded_disable {A} userId factor (o : A) (k : M A) w r w' :
  realm_mfaRequired realm = true ->
  (forall w r w' (c : UserCredential), c ∈ rows TUserCredential w -> is_factor_of userId c -> cred_type c <> factor ->
    run k w = (r, w') -> keeps_factor u w w') ->
  run (bind (last_required_factor realm userId factor) (fun last => if (last : bool) then Ret o else k)) w = (r, w') ->
  keeps_factor u w w'.
Proof.
  intros Hm Hk [(e & Hr)|(last & w1 & Hl & Hr)]%run_bind_any.
  - by apply (run_last_required_any _ _ _ _ _ Hm) in Hr as [-> _].
  - apply (run_last_required_any _ _ _ _ _ Hm) in Hl as [-> Hl]. destruct last; [by injection Hr as _ <-|].
    destruct (Hl eq_refl) as (c & Hin & Hc & Hty). by eapply Hk.
Qed.

Lemma serve_keeps_factor request w r w' :
  realm_mfaRequired realm = true -> run (serve error_message realm req request) w = (r, w') -> keeps_factor u w w'.
Proof.
  intros Hm Hr. destruct request; cbn [serve] in Hr; apply run_drop in Hr as [r0 Hr];
    try (apply run_csrf_any in Hr as [->|Hr]; [done|]).
  - eapply signed_in_factor; [|exact Hr]. intros user w0 r1 w0'. apply factor_run. keeps_factor.
  - eapply factor_run; [|exact Hr]. unfold logout. keeps_factor.
  - eapply signed_in_factor; [|exact Hr]. intros user w0 r1 w0'. apply factor_run. keeps_factor.
  - eapply signed_in_factor; [|exact Hr]. intros user w0 r1 w0'. apply factor_run.
    unfold change_own_password, store_password. keeps_factor.
  - eapply factor_run; [|exact Hr]. apply setting_up_factor. keeps_factor.
  - eapply factor_run; [|exact Hr]. apply setting_up_factor. keeps_factor.
  - eapply factor_run; [|exact Hr]. apply setting_up_factor. unfold setCsrfCookie, generateToken. keeps_factor.
  - eapply factor_run; [|exact Hr]. apply setting_up_factor. keeps_factor.
  - eapply factor_run; [|exact Hr]. apply setting_up_factor. unfold phone_verified. keeps_factor.
  - eapply signed_in_factor; [|exact Hr]. intros user w0 r1 w0'. apply guarded_disable; [done|].
    intros w1 r2 w1' c Hin Hc Hty Hk. destruct (negb _); [by injection Hk as _ <-|].
    apply run_confirm_password_any in Hk as [->|Hk]; [done|]. apply run_bind_any in Hk as [(e & Hk)|([] & w2 & Hd & [= _ <-])];
      by eapply disableSms_factor.
  - eapply signed_in_factor; [|exact Hr]. intros user w0 r1 w0'. apply guarded_disable; [done|].
    intros w1 r2 w1' c Hin Hc Hty Hk.
    apply run_confirm_password_any in Hk as [->|Hk]; [done|]. apply run_bind_any in Hk as [(e & Hk)|([] & w2 & Hd & [= _ <-])];
      by eapply disableTotp_factor.
  - eapply signed_in_factor; [|exact Hr]. intros user w0 r1 w0'. apply factor_run. keeps_factor.
  - eapply signed_in_factor; [|exact Hr]. intros user w0 r1 w0'. apply factor_run. unfold getDeletionStatus. keeps_factor.
  - eapply signed_in_factor; [|exact Hr]. intros user w0 r1 w0'. apply factor_run.
    unfold confirm_password, reported. keeps_factor.
  - eapply signed_in_factor; [|exact Hr]. intros user w0 r1 w0'. apply factor_run.
    unfold confirm_password, reported. keeps_factor.
Qed.
Lemma setupTotp_footprint ts userId : covers [TUserCredential] ts = true -> stable (frame ts) (setupTotp userId).
Proof. intros H. apply (stable_frame_mono _ _ _ H). unfold setupTotp. footprint. apply stable_atom. by repeat split. Qed.
Lemma verifyAndActivateTotp_footprint ts userId code :
  covers [TUserCredential; TRecoveryCode] ts = true -> stable (frame ts) (verifyAndActivateTotp userId code).
Proof. intros H. apply (stable_frame_mono _ _ _ H). unfold verifyAndActivateTotp, totp_delta. footprint. Qed.
Lemma saveEnrolledPhone_footprint ts userId phone :
  covers [TUserCredential] ts = true -> stable (frame ts) (saveEnrolledPhone userId phone).
Proof. intros H. apply (stable_frame_mono _ _ _ H). unfold saveEnrolledPhone. footprint. Qed.
Lemma disable_footprint ts userId :
  covers [TUserCredential; TRecoveryCode; TOtpAttempt] ts = true ->
  stable (frame ts) (disableSms userId) /\ stable (frame ts) (disableTotp userId).
Proof.
  intros H. split; apply (stable_frame_mono _ _ _ H); [unfold disableSms|unfold disableTotp]; footprint.
Qed.
Lemma disableSms_footprint ts userId :
  covers [TUserCredential; TRecoveryCode; TOtpAttempt] ts = true -> stable (frame ts) (disableSms userId).
Proof. by intros [? _]%(disable_footprint _ userId). Qed.
Lemma disableTotp_footprint ts userId :
  covers [TUserCredential; TRecoveryCode; TOtpAttempt] ts = true -> stable (frame ts) (disableTotp userId).
Proof. by intros [_ ?]%(disable_footprint _ userId). Qed.
End FactorHandlers.
#[export] Hint Resolve ensureRecoveryCodes_footprint requestDeletion_footprint cancelDeletion_footprint setupTotp_footprint
  verifyAndActivateTotp_footprint saveEnrolledPhone_footprint disableSms_footprint disableTotp_footprint : footprint.

(** C33. A realm that requires a second factor keeps one: one request at a time, no account
    page takes the last second factor from anybody, whatever is sent and however it ends. *)
Theorem required_factor_stays {E : Env} error_message realm req request u w r w' :
  realm_mfaRequired realm = true -> run (serve error_message realm req request) w = (r, w') ->
  has_factor u w -> has_factor u w'.
Proof. apply serve_keeps_factor. Qed.

(** ** A password changes only for who knows it *)

Definition password_changed (realm : Realm) : Response := to_account realm "success" "Password changed successfully.".

Section Password.
Context {E : Env} (realm : Realm) (req : Request).

Lemma change_own_password_inr user password w resp w' :
  run (change_own_password realm user password req) w = (inr resp, w') ->
  (rows TUser w' = rows TUser w /\ resp <> password_changed realm) \/
  (resp = password_changed realm /\ frame [TUser; TPasswordHistory] w w' /\
   (0 < realm_passwordHistoryCount realm ->
      run (checkHistory (user_id user) (realm_id realm) password (realm_passwordHistoryCount realm)) w = (inr false, w)) /\
   rows TUser w' = update_first (fun u => user_id u === user_id user)
                     (set_new_password (argon2_hash (w_draws w) password) (w_now w)) (rows TUser w)).
Proof.
  unfold change_own_password. intros Hr. apply run_bind_inr in Hr as (inHistory & w1 & Hh & Hr).
  assert (w1 = w) as ->.
  { destruct (_ <? _); [by apply run_checkHistory_any in Hh|]. by injection Hh as _ <-. }
  destruct inHistory; [left; injection Hr as <- <-; by split|].
  apply run_bind_inr in Hr as (hash & w2 & Hp & Hr). apply run_hashPassword_inr in Hp as [-> ->].
  apply run_bind_inr in Hr as ([] & w3 & Hs & Hr). apply run_store_password_inr in Hs as (_ & Hw3).
  apply run_bind_inr in Hr as ([] & w4 & Hrec & Hr). apply run_bind_inr in Hr as ([] & w5 & Hm & Hr). injection Hr as <- <-.
  apply (run_frame [TPasswordHistory]) in Hrec; [|by apply recordHistory_footprint].
  apply (run_frame [TPasswordHistory]) in Hm; [|apply unawaited_footprint, sendPasswordChangedEmail_footprint].
  pose proof (transitivity Hrec Hm) as Hf. right. split; [done|]. subst w3. split; [|split].
  - etransitivity; [|eapply frame_mono; [|exact Hf]; done].
    etransitivity; [|eapply frame_mono; [|apply frame_with_rows]; done]. split; [done|]. by repeat split.
  - intros Hc. apply Z.ltb_lt in Hc. by rewrite Hc in Hh.
  - rewrite (frame_rows _ _ _ TUser Hf) by done. by rewrite rows_with_rows_eq.
Qed.

(** The session is only read. *)
Lemma reads_query {B} (f : World -> B) : stable (fun w w' => w' = w) (query f).
Proof. split; [|by intros [e|b]]. intros w. by destruct (w_db_up w). Qed.
Lemma run_getSessionUser_any w r w' : run (getSessionUser realm req) w = (r, w') -> w' = w.
Proof.
  intros Hr. assert (Hs : stable (fun w w' : World => w' = w) (getSessionUser realm req)).
  { unfold getSessionUser, validateLoginSession, sessionSatisfiesMfa. destruct (negb _); [exact I|].
    apply stable_bind; [apply reads_query|]. intros [[s u]|]; [|exact I].
    apply stable_bind; [by apply stable_atom|]. intros now. destruct (_ || _); [exact I|]. destruct u as [u|]; [|exact I].
    destruct (negb _); [exact I|]. apply stable_bind; [|intros; exact I]. destruct (realm_mfaRequired realm); [|exact I].
    destruct (_ <=? _); [exact I|]. apply stable_bind; [by apply stable_atom|]. intros t.
    apply stable_bind; [apply reads_query|]. intros. exact I. }
  assert (Hp : PreOrder (fun w w' : World => w' = w)) by (split; [done|intros x y z -> ->; done]).
  pose proof (stable_run _ _ w Hs) as H. by rewrite Hr in H.
Qed.

Lemma run_signed_in_inr {A} (o : A) k w a w' :
  run (signed_in realm req o k) w = (inr a, w') ->
  (a = o /\ w' = w) \/ exists user, run (k user) w = (inr a, w') /\ names_session realm req w (user_id user) /\ user ∈ rows TUser w.
Proof.
  unfold signed_in. intros Hr. apply run_bind_inr in Hr as (user & w1 & Hu & Hr).
  pose proof (run_getSessionUser_any _ _ _ Hu) as ->. destruct user as [user|]; [|injection Hr as <- <-; by left].
  apply run_getSessionUser_inr in Hu as [? ?]. right. by exists user.
Qed.

Lemma verified_password hash password w b w' :
  run (verifyPassword hash password) w = (inr b, w') -> w' = w /\ (b = true -> argon2_verify hash password = Some true).
Proof. intros [-> H]%run_verifyPassword_inr. split; [done|]. by intros [? _]%H. Qed.
End Password.

(** A password of the account page changes only for who knows it: a request that is
    answered either changes no account, or its form carried the token of its cookie, its
    browser a session of the account in this realm, the current password verifies against
    the hash of that account, the new one was typed twice, satisfies the realm's policy and
    is not in the remembered history; then exactly that account gets the new hash and the
    time, and nothing but accounts and password history has changed: the other browser
    sessions, the sessions and refresh tokens of the account stay alive. *)
Theorem changePassword_spec {E : Env} realm body req w resp w' :
  run (changePassword realm body req) w = (inr resp, w') ->
  (rows TUser w' = rows TUser w /\ resp <> password_changed realm) \/
  (resp = password_changed realm /\ frame [TUser; TPasswordHistory] w w' /\
   csrf_validate (field "_csrf" body) (cookie (csrf_cookieName (realm_name realm)) req) = true /\
   exists user hash current password,
     user ∈ rows TUser w /\ names_session realm req w (user_id user) /\
     field "currentPassword" body = Some current /\
     user_passwordHash user = Some hash /\ argon2_verify hash current = Some true /\
     field "newPassword" body = Some password /\ field "confirmPassword" body = Some password /\
     (validate realm password).1 = true /\
     (0 < realm_passwordHistoryCount realm ->
        run (checkHistory (user_id user) (realm_id realm) password (realm_passwordHistoryCount realm)) w = (inr false, w)) /\
     rows TUser w' = update_first (fun u => user_id u === user_id user)
                       (set_new_password (argon2_hash (w_draws w) password) (w_now w)) (rows TUser w)).
Proof.
  intros Hr. unfold changePassword in Hr.
  apply run_bind_inr in Hr as ([] & w0 & Hc & Hr). apply run_validateCsrf_any in Hc as [-> Hc].
  apply run_signed_in_inr in Hr as [[-> ->]|(user & Hr & Hn & Hin)]; [by left|]. cbv beta zeta in Hr.
  destruct (truthy (field "currentPassword" body)) eqn:Hcur; [|left; by injection Hr as <- <-].
  destruct (truthy (field "newPassword" body)) eqn:Hnew; [|left; by injection Hr as <- <-].
  apply truthy_true in Hcur as (current & Hcur & _). apply truthy_true in Hnew as (password & Hnew & _).
  rewrite Hcur, Hnew in Hr. change (Some current ?? EmptyString) with current in Hr.
  change (Some password ?? EmptyString) with password in Hr. cbn [negb orb] in Hr. cbv iota in Hr.
  destruct (bool_decide_reflect (Some password = field "confirmPassword" body)) as [Hconf|]; [|left; by injection Hr as <- <-].
  cbn [negb] in Hr. cbv iota in Hr. destruct (validate realm password).1 eqn:Hval; [|left; by injection Hr as <- <-].
  cbn [negb] in Hr. cbv iota in Hr.
  destruct (truthy (user_passwordHash user)) eqn:Hhash; [|left; by injection Hr as <- <-].
  apply truthy_true in Hhash as (hash & Hhash & _). rewrite Hhash in Hr. change (Some hash ?? EmptyString) with hash in Hr.
  cbn [negb] in Hr. cbv iota in Hr. apply run_bind_inr in Hr as (valid & w1 & Hv & Hr). apply verified_password in Hv as [-> Hv].
  destruct valid; [|left; by injection Hr as <- <-]. cbn [negb] in Hr. cbv iota in Hr.
  apply change_own_password_inr in Hr as [?|(-> & Hf & Hh & Hu)]; [by left|]. right.
  split; [done|]. split; [done|]. split; [by apply Hc|]. exists user, hash, current, password.
  do 4 (split; [done|]). split; [by apply Hv|]. do 2 (split; [done|]). done.
Qed.

(** ** A new phone needs more than a session *)

(** The enrolments of phones of [w'] were there in [w], for the same user and realm. *)
Definition same_enrollments (w w' : World) : Prop :=
  forall a, a ∈ rows TPendingAction w' -> pa_type a = "sms_enrollment" ->
  exists b, b ∈ rows TPendingAction w /\ pa_type b = "sms_enrollment" /\ pa_id b = pa_id a /\
    pd_userId (pa_data b) = pd_userId (pa_data a) /\ pd_realmId (pa_data b) = pd_realmId (pa_data a).
(** No enrolment of a phone has been added. *)
Definition no_enrollment_added (w w' : World) : Prop :=
  forall a, a ∈ rows TPendingAction w' -> pa_type a = "sms_enrollment" ->
  exists b, b ∈ rows TPendingAction w /\ pa_type b = "sms_enrollment" /\ pa_id b = pa_id a.
#[export] Instance no_enrollment_added_preorder : PreOrder no_enrollment_added.
Proof.
  split; [by intros w a Ha Ht; exists a|]. intros x y z H1 H2 a Ha Ht. destruct (H2 a Ha Ht) as (b & Hb & Htb & Hid).
  destruct (H1 b Hb Htb) as (c & Hc & Htc & Hidc). exists c. by rewrite Hidc.
Qed.

Section Phone.
Context {E : Env}.

Lemma frame_no_enrollment ts w w' : includes TPendingAction ts = false -> frame ts w w' -> no_enrollment_added w w'.
Proof. intros Ht Hf a. rewrite (frame_rows _ _ _ TPendingAction Hf Ht). intros Ha Hty. by exists a. Qed.
Lemma enrollment_frame {A} ts (p : M A) :
  stable (frame ts) p -> includes TPendingAction ts = false -> stable no_enrollment_added p.
Proof. intros Hp Ht. apply (stable_mono (frame ts)); [intros w w'; by apply frame_no_enrollment|done]. Qed.
Lemma enrollment_prisma {B} (f : World -> (exc + B) * World) :
  (forall w, no_enrollment_added w (f w).2) -> stable no_enrollment_added (prisma f).
Proof. intros H. split; [|by intros [e|b]]. intros w. destruct (w_db_up w); [apply H|]. intros a Ha Ht. by exists a. Qed.
Lemma no_enrollment_rows rs w w' :
  rows TPendingAction w' = rs -> (forall a, a ∈ rs -> a ∈ rows TPendingAction w \/
    exists b, b ∈ rows TPendingAction w /\ pa_type b = pa_type a /\ pa_id b = pa_id a) -> no_enrollment_added w w'.
Proof.
  intros Hrs H a Ha Ht. rewrite Hrs in Ha. destruct (H a Ha) as [?|(b & ? & ? & ?)]; [by exists a|].
  exists b. split; [done|]. split; [congruence|done].
Qed.
Lemma update_first_elem {A} (p : A -> bool) f l x :
  x ∈ update_first p f l -> x ∈ l \/ exists y, List.find p l = Some y /\ x = f y.
Proof.
  induction l as [|y l IH]; simpl; [by left|]. destruct (p y) eqn:Hp.
  - intros [->|?]%elem_of_cons; [right; by exists y|]. left. apply elem_of_cons. by right.
  - intros [->|Hx]%elem_of_cons; [left; apply elem_of_cons; by left|]. destruct (IH Hx) as [?|?]; [left; apply elem_of_cons; by right|by right].
Qed.
Lemma enrollment_update p d : stable no_enrollment_added (update TPendingAction p (set_pa_data d)).
Proof.
  apply enrollment_prisma. intros w. destruct (List.find p _) as [y|] eqn:Hy; cbn [snd]; [|by intros a Ha Ht; exists a].
  eapply no_enrollment_rows; [apply rows_with_rows_eq|]. intros a [?|(z & Hz & ->)]%update_first_elem; [by left|right].
  exists z. by apply find_elem in Hz as [? _].
Qed.
Lemma enrollment_delete p : stable no_enrollment_added (delete_many TPendingAction p).
Proof.
  apply enrollment_prisma. intros w. cbn [snd]. eapply no_enrollment_rows; [unfold rows; simpl; by rewrite set_table_eq|].
  intros a [_ ?]%elem_of_filter_list. by left.
Qed.

Lemma run_setEnrollmentPhone token phone w r w' :
  run (setEnrollmentPhone token phone) w = (r, w') -> same_enrollments w w'.
Proof.
  assert (Hrefl : forall w w', frame [] w w' -> same_enrollments w w').
  { intros x y Hf a. rewrite (frame_rows _ _ _ TPendingAction Hf) by done. intros Ha Ht. by exists a. }
  unfold setEnrollmentPhone, getEnrollment. intros Hr.
  apply run_bind_any in Hr as [(e & Hr)|(en & w1 & He & Hr)].
  { apply Hrefl. eapply (run_frame []); [|exact Hr]. apply stable_bind; [by apply find_first_footprint|]. intros [a|]; [|exact I].
    destruct (_ !== _); [exact I|]. footprint. }
  apply run_bind_inr in He as (a & w2 & Ha & He). run_stmt_inv Ha. destruct a as [a|]; [|injection He as <- <-; injection Hr as _ <-; by apply Hrefl].
  destruct (_ !== _); [injection He as <- <-; injection Hr as _ <-; by apply Hrefl|].
  apply run_bind_inr in He as (now & w2 & Hn & He). run_stmt_inv Hn.
  destruct (_ <? _); [injection He as <- <-; injection Hr as _ <-; by apply Hrefl|]. injection He as <- <-.
  apply run_bind_any in Hr as [(e & Hr)|(c & w2 & Hc & Hr)].
  { apply Hrefl. eapply (run_frame []); [|exact Hr]. apply encrypt_footprint. }
  pose proof (run_frame [] _ _ _ _ (encrypt_footprint [] phone) Hc) as Hf.
  assert (Hupd : forall r w3, run (update TPendingAction (by_token token) (set_pa_data (with_phone (maskPhone phone) c (pa_data a)))) w2 = (r, w3) ->
    same_enrollments w w3).
  { intros r3 w3 H3. unfold update in H3. rewrite run_prisma in H3. destruct (w_db_up w2); [|injection H3 as _ <-; by apply Hrefl].
    match type of H3 with match ?o with _ => _ end = _ => destruct o as [y|] eqn:Hy end; injection H3 as _ <-; [|by apply Hrefl].
    change (@List.find PendingAction (by_token token) (rows TPendingAction w2) = Some y) in Hy.
    rewrite (frame_rows _ _ _ TPendingAction Hf) in Hy by done.
    change (Some a = @List.find PendingAction (by_token token) (rows TPendingAction w)) in Ha. rewrite Hy in Ha. injection Ha as ->.
    intros x. rewrite rows_with_rows_eq, (frame_rows _ _ _ TPendingAction Hf) by done.
    intros [Hx|(z & Hz & ->)]%update_first_elem Hty; [by exists x|].
    rewrite Hy in Hz. injection Hz as <-. exists y. apply find_elem in Hy as [? _]. by repeat split. }
  apply run_bind_any in Hr as [(e & Hr)|(x & w3 & Hx & [= _ <-])]; by eapply Hupd.
Qed.
Lemma run_send_enrollment_code realm user req dst w r w' :
  run (send_enrollment_code realm user req dst) w = (r, w') -> same_enrollments w w'.
Proof.
  unfold send_enrollment_code. rewrite run_catch.
  match goal with |- context [run ?p w] => destruct (run p w) as [r1 w1] eqn:Hr end.
  assert (Hs : same_enrollments w w1).
  { apply run_bind_any in Hr as [(e & Hr)|(sent & w2 & Hs & Hr)].
    - apply (run_frame [TOtpAttempt; TSmsDeliveryLog]) in Hr; [|by apply sendCode_footprint].
      intros a. rewrite (frame_rows _ _ _ TPendingAction Hr) by done. intros Ha Ht. by exists a.
    - apply (run_frame [TOtpAttempt; TSmsDeliveryLog]) in Hs; [|by apply sendCode_footprint].
      assert (Hs2 : same_enrollments w2 w1).
      { apply run_bind_any in Hr as [(e & Hr)|([] & w3 & Hx & [= _ <-])]; by eapply run_setEnrollmentPhone. }
      intros a Ha Ht. destruct (Hs2 a Ha Ht) as (b & Hb & ?). exists b. by rewrite <- (frame_rows _ _ _ TPendingAction Hs). }
  destruct r1 as [e|b]; [|by intros [= _ <-]]. by destruct e; intros [= _ <-].
Qed.
End Phone.

Ltac adds_no_enrollment :=
  intros; cbv beta zeta;
  repeat match goal with
  | |- stable _ (bind _ _) => apply stable_bind; [|intros]
  | |- stable _ (catch _ _) => apply stable_catch; [|intros]
  | |- stable _ (Ret _) => exact I
  | |- stable _ (Throw _) => exact I
  | |- stable _ (if ?b then _ else _) => destruct b
  | |- stable _ (match ?x with _ => _ end) => destruct x
  | |- stable _ (update TPendingAction _ _) => apply enrollment_update
  | |- stable _ (endEnrollment _) => unfold endEnrollment
  | |- stable _ (mark_enrollment _ _) => unfold mark_enrollment, markMfaEnrollmentVerified
  | |- stable _ (delete_many TPendingAction _) => apply enrollment_delete
  | |- stable _ _ =>
      apply (enrollment_frame [TUser; TPasswordHistory; TUserCredential; TSmsDeliveryLog; TOtpAttempt; TRecoveryCode;
                               TPendingDeletion; TLoginSession]);
      [solve [auto with footprint]|reflexivity]
  end.

(** What lets a browser start the enrolment of a phone for [user]. *)
Definition may_enroll_phone {E : Env} (realm : Realm) (req : Request) (body : fields) (w : World) (user : User) : Prop :=
  names_enrollment realm req w (user_id user) \/
  names_session realm req w (user_id user) /\
  ((exists hash current, user_passwordHash user = Some hash /\ field "currentPassword" body = Some current /\
      argon2_verify hash current = Some true) \/
   truthy (user_passwordHash user) = false /\ ~ has_factor (user_id user) w).

Section Enrol.
Context {E : Env} (realm : Realm) (req : Request).

Lemma run_phone_refusal_inr user body w o w' :
  run (phone_refusal user body) w = (inr o, w') -> frame [] w w' /\
  (o = None ->
   (exists hash current, user_passwordHash user = Some hash /\ field "currentPassword" body = Some current /\
      argon2_verify hash current = Some true) \/
   truthy (user_passwordHash user) = false /\ ~ has_factor (user_id user) w).
Proof.
  unfold phone_refusal. destruct (truthy (user_passwordHash user)) eqn:Hh.
  - apply truthy_true in Hh as (hash & Hh & _). rewrite Hh. change (Some hash ?? EmptyString) with hash. intros Hr.
    apply run_bind_inr in Hr as (valid & w1 & Hv & Hr). injection Hr as <- <-.
    destruct (truthy (field "currentPassword" body)) eqn:Hc; [|injection Hv as <- <-; by split].
    apply truthy_true in Hc as (current & Hc & _). rewrite Hc in Hv. apply verified_password in Hv as [-> Hv].
    split; [done|]. destruct valid; [|done]. intros _. left. exists hash, current. do 2 (split; [done|]). by apply Hv.
  - intros Hr. apply run_bind_inr in Hr as (fs & w1 & Hf & Hr). injection Hr as <- <-.
    unfold getEnrolledFactors in Hf. apply run_bind_inr in Hf as (cs & w2 & Hc & Hf). run_stmt_inv Hc.
    apply run_ret_inr in Hf as [Hfs <-]. split; [done|]. intros Ho. right. split; [done|].
    intros (c & Hin & Hid & Hv & Hty). destruct (bool_decide_reflect (fs = [])) as [He|]; [|done].
    assert (Hc' : cred_type c ∈ fs); [|rewrite He in Hc'; by apply not_elem_of_nil in Hc'].
    rewrite <- Hfs. apply elem_of_filter_list. split; [|done]. apply existsb_exists. exists c.
    split; [|by apply bool_decide_eq_true]. rewrite Hc. apply list_elem_of_In, elem_of_filter_list. split; [|done].
    rewrite Hid, Hv, bool_decide_eq_true_2 by done. simpl. by apply includes_true.
Qed.

Lemma run_startEnrollment_any userId realmId w r w' :
  run (startEnrollment userId realmId) w = (r, w') ->
  rows TPendingAction w' = rows TPendingAction w \/
  exists a, rows TPendingAction w' = rows TPendingAction w ++ [a] /\ pd_userId (pa_data a) = userId /\ pd_realmId (pa_data a) = realmId.
Proof.
  unfold startEnrollment. intros [(e & Hr)|(token & w1 & Ht & Hr)]%run_bind_any.
  { left. apply (run_frame []) in Hr; [|apply generateSecret_footprint]. by rewrite (frame_rows _ _ _ TPendingAction Hr). }
  apply (run_frame []) in Ht; [|apply generateSecret_footprint]. rewrite <- (frame_rows _ _ _ TPendingAction Ht) by done.
  apply run_bind_any in Hr as [(e & Hr)|(now & w2 & Hn & Hr)]; [done|]. injection Hn as _ <-.
  assert (Hc : exists mk r1, run (create TPendingAction mk) w1 = (r1, w') /\
    forall id at_, pd_userId (pa_data (mk id at_)) = userId /\ pd_realmId (pa_data (mk id at_)) = realmId).
  { apply run_bind_any in Hr as [(e & Hr)|(a & w2 & Ha & [= _ <-])]; do 2 eexists; (split; [eassumption|done]). }
  destruct Hc as (mk & r1 & [->| ->]%run_create_any & Hmk); [by left|right]. rewrite rows_with_rows_eq.
  eexists. split; [reflexivity|]. apply Hmk.
Qed.

(** An enrolment that [code_destination] starts. *)
Lemma run_code_destination setup pending body w r w' a :
  run (code_destination realm setup pending body) w = (r, w') ->
  a ∈ rows TPendingAction w' -> pa_type a = "sms_enrollment" ->
  (exists b, b ∈ rows TPendingAction w /\ pa_type b = "sms_enrollment" /\ pa_id b = pa_id a) \/
  pd_userId (pa_data a) = user_id (su_user setup) /\ pd_realmId (pa_data a) = realm_id realm /\
  (su_enrollmentToken setup = None ->
   (exists hash current, user_passwordHash (su_user setup) = Some hash /\ field "currentPassword" body = Some current /\
      argon2_verify hash current = Some true) \/
   truthy (user_passwordHash (su_user setup)) = false /\ ~ has_factor (user_id (su_user setup)) w).
Proof.
  intros Hr Ha Hty. unfold code_destination in Hr.
  destruct (if truthy (field "resend" body) then pending else None) as [[tk data]|];
    [injection Hr as _ <-; left; by exists a|].
  destruct (normalizePhone _) as [phone|]; [|injection Hr as _ <-; left; by exists a].
  apply run_bind_any in Hr as [(e & Hr)|(refusal & w1 & Href & Hr)].
  { apply (run_frame []) in Hr; [|unfold phone_refusal; footprint].
    rewrite (frame_rows _ _ _ TPendingAction Hr) in Ha by done. left. by exists a. }
  assert (Hp : frame [] w w1 /\ (refusal = None -> su_enrollmentToken setup = None ->
    (exists hash current, user_passwordHash (su_user setup) = Some hash /\ field "currentPassword" body = Some current /\
      argon2_verify hash current = Some true) \/
    truthy (user_passwordHash (su_user setup)) = false /\ ~ has_factor (user_id (su_user setup)) w)).
  { destruct (su_enrollmentToken setup); [by injection Href as <- <-|].
    apply run_phone_refusal_inr in Href as [Hf Hn]. split; [done|]. by intros Hno _; apply Hn. }
  destruct Hp as [Hf Hp]. destruct refusal as [m|].
  { injection Hr as _ <-. rewrite (frame_rows _ _ _ TPendingAction Hf) in Ha by done. left. by exists a. }
  specialize (Hp eq_refl). unfold new_enrollment in Hr.
  assert (Hend : forall r w2, run (match pending with Some (token, _) => endEnrollment token | None => Ret tt end) w1 = (r, w2) ->
    no_enrollment_added w w2).
  { intros r2 w2 H2. transitivity w1; [by apply (frame_no_enrollment [])|].
    assert (Hs : stable no_enrollment_added (match pending with Some (token, _) => endEnrollment token | None => Ret tt end)).
    { destruct pending as [[t d]|]; [unfold endEnrollment; adds_no_enrollment|exact I]. }
    pose proof (stable_run no_enrollment_added _ w1 Hs) as H. by rewrite H2 in H. }
  apply run_bind_any in Hr as [(e & Hr)|([] & w2 & He & Hr)]; [left; by apply (Hend _ _ Hr)|].
  pose proof (Hend _ _ He) as Hno.
  assert (Hst : exists r3, run (startEnrollment (user_id (su_user setup)) (realm_id realm)) w2 = (r3, w')).
  { apply run_bind_any in Hr as [(e & Hr)|(t & w3 & Ht & [= _ <-])]; by eexists. }
  destruct Hst as [r3 [Hsame|(n & Hnew & Hu & Hre)]%run_startEnrollment_any].
  - left. rewrite Hsame in Ha. by apply Hno.
  - rewrite Hnew in Ha. apply elem_of_app in Ha as [Ha| ->%list_elem_of_singleton]; [left; by apply Hno|right].
    do 2 (split; [done|]). done.
Qed.

Lemma sendSmsSetupCode_enrolls body w r w' a :
  run (sendSmsSetupCode realm body req) w = (r, w') -> a ∈ rows TPendingAction w' -> pa_type a = "sms_enrollment" ->
  (exists b, b ∈ rows TPendingAction w /\ pa_type b = "sms_enrollment" /\ pa_id b = pa_id a) \/
  exists user, user ∈ rows TUser w /\ pd_userId (pa_data a) = user_id user /\ pd_realmId (pa_data a) = realm_id realm /\
    may_enroll_phone realm req body w user.
Proof.
  intros Hr Ha Hty. assert (Hsame : forall w', frame [] w w' -> a ∈ rows TPendingAction w' ->
    exists b, b ∈ rows TPendingAction w /\ pa_type b = "sms_enrollment" /\ pa_id b = pa_id a).
  { intros x Hf. rewrite (frame_rows _ _ _ TPendingAction Hf) by done. intros Hx. by exists a. }
  unfold sendSmsSetupCode in Hr. apply run_csrf_any in Hr as [->|Hr]; [left; by exists a|].
  unfold setting_up in Hr. apply run_bind_any in Hr as [(e & Hr)|(setup & w1 & Hs & Hr)].
  { left. apply (Hsame w'); [|done]. eapply run_frame; [|exact Hr]. apply getTotpSetupUser_footprint. }
  pose proof (run_frame [] _ _ _ _ (getTotpSetupUser_footprint realm req []) Hs) as Hf1.
  destruct setup as [setup|]; [|injection Hr as _ <-; left; by apply (Hsame w1)].
  apply run_getTotpSetupUser_inr in Hs as [Huser Hwho].
  destruct (negb (canEnroll realm)); [injection Hr as _ <-; left; by apply (Hsame w1)|].
  apply run_bind_any in Hr as [(e & Hr)|(pending & w2 & Hp & Hr)].
  { left. apply (Hsame w'); [|done]. transitivity w1; [done|]. eapply run_frame; [|exact Hr]. apply getSmsEnrollment_footprint. }
  apply (run_frame []) in Hp; [|apply getSmsEnrollment_footprint]. pose proof (transitivity Hf1 Hp) as Hf2.
  assert (Hd : exists rd wd, run (code_destination realm setup pending body) w2 = (rd, wd) /\ same_enrollments wd w').
  { apply run_bind_any in Hr as [(e & Hr)|(d & w3 & Hd & Hr)]; [exists (inl e), w'|exists (inr d), w3]; (split; [done|]).
    - intros x Hx Hxt. by exists x.
    - destruct d as [resp|dst]; [|by eapply run_send_enrollment_code]. injection Hr as _ <-. intros x Hx Hxt. by exists x. }
  destruct Hd as (rd & wd & Hd & Hse). destruct (Hse a Ha Hty) as (b & Hb & Hbt & Hbid & Hbu & Hbr).
  apply (run_code_destination _ _ _ _ _ _ b Hd Hb) in Hbt as [(c & Hc & Hct & Hcid)|(Hu & Hre & Hmay)].
  - left. exists c. rewrite <- (frame_rows _ _ _ TPendingAction Hf2) by done. by rewrite Hcid.
  - right. exists (su_user setup). do 2 (split; [congruence|]). split; [congruence|].
    destruct Hwho as [(token & _ & _ & Hn)|[Hno Hn]]; [by left|right]. split; [done|].
    destruct (Hmay Hno) as [?|[? Hf]]; [by left|right]. split; [done|].
    unfold has_factor in *. by rewrite (frame_rows _ _ _ TUserCredential Hf2) in Hf.
Qed.

Lemma serve_adds_no_enrollment error_message request w r w' :
  (forall body, request <> SendSmsSetupCode body) -> run (serve error_message realm req request) w = (r, w') ->
  no_enrollment_added w w'.
Proof.
  intros Hne Hr. assert (Hs : stable no_enrollment_added (serve error_message realm req request));
    [|pose proof (stable_run no_enrollment_added _ w Hs) as H; by rewrite Hr in H].
  destruct request; try (exfalso; by eapply Hne); cbn [serve]; (apply stable_bind; [|intros; exact I]).
  all: unfold showAccount, logout, updateProfile, changePassword, showTotpSetup, handleTotpSetup, showSmsSetup,
    verifySmsSetupCode, handleSmsDisable, handleTotpDisable, getDataExport, showDeleteAccount, requestDeleteAccount,
    cancelDeleteAccount, signed_in, setting_up, change_own_password, store_password, setCsrfCookie, generateToken,
    phone_verified, last_required_factor, confirm_password, reported, getDeletionStatus.
  all: adds_no_enrollment.
Qed.
End Enrol.

(** Nobody's phone becomes a second factor by a stolen session alone: whatever request
    the account pages serve, an enrolment of a phone that was not there before comes from
    the form that sends a code, for a user of the cookie and this realm, and that user's
    sign-in was waiting for an enrolment, or the form had the password of the account, or
    the account has no password and no second factor. *)
Theorem phone_enrolment_guarded {E : Env} error_message realm req request w r w' a :
  run (serve error_message realm req request) w = (r, w') ->
  a ∈ rows TPendingAction w' -> pa_type a = "sms_enrollment" ->
  (exists b, b ∈ rows TPendingAction w /\ pa_type b = "sms_enrollment" /\ pa_id b = pa_id a) \/
  exists body user, request = SendSmsSetupCode body /\ user ∈ rows TUser w /\
    pd_userId (pa_data a) = user_id user /\ pd_realmId (pa_data a) = realm_id realm /\
    may_enroll_phone realm req body w user.
Proof.
  intros Hr Ha Hty.
  assert ((exists body, request = SendSmsSetupCode body) \/ forall body, request <> SendSmsSetupCode body) as [[body ->]|Hne]
    by (destruct request; first [by right|left; by eexists]).
  - cbn [serve] in Hr. apply run_drop in Hr as [r0 Hr].
    destruct (sendSmsSetupCode_enrolls realm req _ _ _ _ _ Hr Ha Hty) as [?|(user & ?)]; [by left|right]. by exists body, user.
  - left. by apply (serve_adds_no_enrollment realm req _ _ w r w' Hne Hr).
Qed.

(** ** Signing out *)

Lemma no_session_left (token : string) {E : Env} (rs : list LoginSession) :
  NoDup (map ls_tokenHash rs) ->
  List.find (fun s => ls_tokenHash s === sha256 token) (remove_first (fun s => ls_tokenHash s === sha256 token) rs) = None.
Proof.
  induction rs as [|s rs IH]; [done|]. intros Hnd. simpl in Hnd. apply NoDup_cons in Hnd as [Hni Hnd]. simpl.
  destruct (bool_decide_reflect (ls_tokenHash s = sha256 token)) as [He|Hne].
  - destruct (List.find _ rs) as [x|] eqn:Hx; [|done]. apply find_elem in Hx as [Hin Hx%bool_decide_eq_true].
    exfalso. apply Hni. rewrite He, <- Hx. by apply list_elem_of_fmap_2.
  - simpl. rewrite bool_decide_eq_false_2 by done. by apply IH.
Qed.

(** Signing out is final: after the sign-out page has answered, the cookie it was sent
    with is a session of nobody, in this realm or another. *)
Theorem account_logout_final {E : Env} realm req token w :
  cookie SESSION_COOKIE req = Some token -> token <> EmptyString -> w_db_up w = true ->
  NoDup (map ls_tokenHash (rows TLoginSession w)) ->
  exists w', run (logout realm req) w = (inr (clearing [SESSION_COOKIE] (redirect realm "/login" [("signedOut", "1")])), w') /\
    forall realm2, run (validateLoginSession realm2 token) w' = (inr None, w').
Proof.
  intros Hc Hne Hup Hnd. unfold logout. cbv zeta. rewrite Hc.
  assert (Ht : truthy (Some token) = true) by (apply truthy_true; by exists token). rewrite Ht.
  change (Some token ?? EmptyString) with token. rewrite run_bind, run_catch, run_bind. unfold delete_one. rewrite run_prisma, Hup.
  match goal with |- context [match ?o with Some _ => _ | None => _ end] => destruct o as [s|] eqn:Hf end; cbn [run];
    eexists; (split; [reflexivity|]); intros realm2; unfold validateLoginSession; rewrite run_bind, run_query by done;
    unfold login_session_of.
  - match goal with |- context [@List.find ?T ?p ?l] => assert (Hn : @List.find T p l = None); [|by rewrite Hn] end.
    unfold rows; simpl. rewrite set_table_eq. by apply no_session_left.
  - match goal with |- context [@List.find ?T ?p ?l] => assert (Hn : @List.find T p l = None); [exact Hf|by rewrite Hn] end.
Qed.

(** ** Witnesses *)

Definition strong_session : LoginSession :=
  mkLoginSession "ls-1" "user-1" "realm-1" (to_hex "cookie-1") None None (Some ACR_MFA) ["pwd"; "otp"] 990000000 1001800000.
Definition other_user : User :=
  mkUser "user-9" "realm-1" "carol" (Some "carol@acme.test") true None None true (Some "argon:Other123") "argon2" None None None 0.
Definition app : UserCredential := mkUserCredential "cred-1" "user-1" "totp" "secret" None "SHA1" 6 30 true.
Definition phone : UserCredential := mkUserCredential "cred-2" "user-1" "sms" EmptyString (Some "enc:+201012345678") "SHA1" 6 30 true.
Definition account_world : World :=
  with_rows TUserCredential [app; phone] (with_rows TLoginSession [strong_session] (with_rows TUser [user0; other_user] world1)).
Definition signed_browser (realm : Realm) : Request := browser realm [(SESSION_COOKIE, "cookie-1")].
Definition change_form : fields :=
  csrf_body mfa_realm [("currentPassword", "Secret123"); ("newPassword", "Secret456"); ("confirmPassword", "Secret456")].
Definition disable_form : fields := csrf_body mfa_realm [("currentPassword", "Secret123")].

Definition their_history : PasswordHistory := mkPasswordHistory "ph-9" "user-9" "realm-1" "argon:Other123" 0.
Definition shared_world : World := with_rows TPasswordHistory [their_history] account_world.

Lemma only_alice : ~ acts_for (E:=test_env) mfa_realm (signed_browser mfa_realm) shared_world "user-9".
Proof.
  intros [(token & s & _ & Hs & _ & _ & Hu)|(token & a & Hc & _)]; [|discriminate Hc].
  apply list_elem_of_singleton in Hs. rewrite Hs in Hu. discriminate Hu.
Qed.
Lemma shared_world_keys : distinct_keys (E:=test_env) shared_world.
Proof.
  split.
  - intros t key Hk. destruct t; try (by apply elem_of_nil in Hk);
      repeat (apply elem_of_cons in Hk as [->|Hk]; [by apply (bool_decide_unpack _); vm_compute|]); by apply elem_of_nil in Hk.
  - intros t key x n Hk Hx _. destruct t; try discriminate Hk; injection Hk as <-; vm_compute in Hx;
      repeat (apply elem_of_cons in Hx as [->|Hx]; [discriminate|]); by apply elem_of_nil in Hx.
Qed.

Example account_acts_on_itself_witness :
  exists r w', run (serve (E:=test_env) no_message mfa_realm (signed_browser mfa_realm) (ChangePassword change_form)) shared_world = (r, w') /\
    (their_history ∈ rows TPasswordHistory w' <-> their_history ∈ rows TPasswordHistory shared_world) /\
    rows TRefreshToken w' = rows TRefreshToken shared_world.
Proof.
  destruct (run (serve (E:=test_env) no_message mfa_realm (signed_browser mfa_realm) (ChangePassword change_form)) shared_world)
    as [r w'] eqn:H.
  pose proof (account_acts_on_itself (E:=test_env) no_message mfa_realm (signed_browser mfa_realm) (ChangePassword change_form) "user-9"
            shared_world r w' shared_world_keys H only_alice) as Hsame.
  exists r, w'. split; [reflexivity|]. split; [exact (Hsame TPasswordHistory their_history eq_refl)|exact (Hsame TRefreshToken)].
Defined.

(** Nobody is signed in to this realm; the page ends the session of a user of another. *)
Theorem logout_of_another_realm :
  let other := mkLoginSession "ls-9" "user-9" "realm-9" (to_hex "cookie-1") None None None ["pwd"] 990000000 1001800000 in
  let w := with_rows TLoginSession [other] account_world in
  ~ acts_for (E:=test_env) mfa_realm (signed_browser mfa_realm) w "user-9" /\
  rows TLoginSession (run (logout (E:=test_env) mfa_realm (signed_browser mfa_realm)) w).2 = [].
Proof.
  split; [|by vm_compute]. intros [(token & s & _ & Hs & _ & Hr & _)|(token & a & Hc & _)]; [|discriminate Hc].
  apply list_elem_of_singleton in Hs. rewrite Hs in Hr. discriminate Hr.
Qed.

Lemma app_is_factor : has_factor "user-1" account_world.
Proof. exists app. split; [apply elem_of_cons; by left|]. split; [reflexivity|]. split; [reflexivity|]. by left. Qed.

Example required_factor_stays_witness :
  exists r w', run (serve (E:=test_env) no_message mfa_realm (signed_browser mfa_realm) (HandleTotpDisable disable_form)) account_world
                 = (r, w') /\ has_factor "user-1" w'.
Proof.
  destruct (run (serve (E:=test_env) no_message mfa_realm (signed_browser mfa_realm) (HandleTotpDisable disable_form)) account_world)
    as [r w'] eqn:H.
  exists r, w'. split; [reflexivity|].
  exact (required_factor_stays (E:=test_env) no_message mfa_realm (signed_browser mfa_realm) (HandleTotpDisable disable_form) "user-1"
           account_world r w' eq_refl H app_is_factor).
Defined.

Example changePassword_spec_witness :
  exists resp w', run (changePassword (E:=test_env) mfa_realm change_form (signed_browser mfa_realm)) account_world = (inr resp, w') /\
    resp = password_changed mfa_realm.
Proof.
  destruct (ends_ok_run (changePassword (E:=test_env) mfa_realm change_form (signed_browser mfa_realm)) account_world)
    as (resp & w' & H); [vm_compute; reflexivity|].
  exists resp, w'. split; [exact H|].
  destruct (changePassword_spec (E:=test_env) mfa_realm change_form (signed_browser mfa_realm) account_world resp w' H) as [[Hu _]|[Hd _]].
  - exfalso. assert (Hw : w' = (run (changePassword (E:=test_env) mfa_realm change_form (signed_browser mfa_realm)) account_world).2)
      by (rewrite H; reflexivity). rewrite Hw in Hu. vm_compute in Hu. discriminate Hu.
  - exact Hd.
Defined.

Definition phone_form : fields := csrf_body mfa_realm [("phone", "+201012345678"); ("currentPassword", "Secret123")].

Example phone_enrolment_guarded_witness :
  exists a w', (run (serve (E:=test_env) no_message mfa_realm (signed_browser mfa_realm) (SendSmsSetupCode phone_form)) account_world).2 = w' /\
    rows TPendingAction w' = [a] /\
    exists body user, SendSmsSetupCode phone_form = SendSmsSetupCode body /\
      pd_userId (pa_data a) = user_id user /\ may_enroll_phone (E:=test_env) mfa_realm (signed_browser mfa_realm) body account_world user.
Proof.
  destruct (run (serve (E:=test_env) no_message mfa_realm (signed_browser mfa_realm) (SendSmsSetupCode phone_form)) account_world)
    as [r w'] eqn:H.
  assert (Hw : w' = (run (serve (E:=test_env) no_message mfa_realm (signed_browser mfa_realm) (SendSmsSetupCode phone_form)) account_world).2)
    by (rewrite H; reflexivity).
  destruct (rows TPendingAction w') as [|a [|b l]] eqn:Hr; [exfalso; rewrite Hw in Hr; vm_compute in Hr; discriminate Hr| |
    exfalso; rewrite Hw in Hr; vm_compute in Hr; discriminate Hr].
  exists a, w'. split; [reflexivity|]. split; [exact Hr|].
  destruct (phone_enrolment_guarded (E:=test_env) no_message mfa_realm (signed_browser mfa_realm) (SendSmsSetupCode phone_form)
    account_world r w' a H) as [(b & Hb & _)|(body & user & Hb & _ & Hu & _ & Hm)].
  - rewrite Hr. apply elem_of_cons. left. reflexivity.
  - assert (Ht : map pa_type (rows TPendingAction w') = ["sms_enrollment"]) by (rewrite Hw; vm_compute; reflexivity).
    rewrite Hr in Ht. injection Ht as Ht. exact Ht.
  - exfalso. apply not_elem_of_nil in Hb. exact Hb.
  - exists body, user. split; [exact Hb|]. split; [exact Hu|exact Hm].
Defined.

(** ** Findings *)

Definition app_form : fields := csrf_body mfa_realm [("currentPassword", "Secret123")].
Definition two_disables : World * list (M Response) :=
  schedule (concat (replicate 60 [0; 1]%nat))
    (account_world, [handleTotpDisable (E:=test_env) mfa_realm app_form (signed_browser mfa_realm);
                     handleSmsDisable (E:=test_env) mfa_realm app_form (signed_browser mfa_realm)]).

(** The other factor is looked for before this one is removed: of two requests that turn the
    two factors off at the same time, each sees the other's, and the account of a realm that
    requires a second factor is left without one. *)
Theorem two_disables_leave_no_factor :
  realm_mfaRequired mfa_realm = true /\
  psteps (fun a b => a = b)
    (account_world, [handleTotpDisable (E:=test_env) mfa_realm app_form (signed_browser mfa_realm);
                     handleSmsDisable (E:=test_env) mfa_realm app_form (signed_browser mfa_realm)]) two_disables /\
  rows TUserCredential two_disables.1 = [].
Proof. split; [reflexivity|]. split; [apply schedule_psteps|vm_compute; reflexivity]. Qed.

(** Adding an authenticator asks for no password: a browser session alone shows the secret
    and activates it next to the phone of the account, which the setup of a phone refuses so
    that a hijacked session cannot plant its own second factor. *)
Theorem session_plants_authenticator :
  let w := with_rows TUserCredential [phone] account_world in
  let req := signed_browser mfa_realm in
  let '(page, w1) := run (showTotpSetup (E:=test_env) mfa_realm [] req) w in
  let '(done, w2) := run (handleTotpSetup (E:=test_env) mfa_realm (csrf_body mfa_realm [("code", "123456")]) req) w1 in
  map (fun c => (cred_userId c, cred_type c, cred_verified c)) (rows TUserCredential w2) =
    [("user-1", "sms", true); ("user-1", "totp", true)] /\
  (run (sendSmsSetupCode (E:=test_env) mfa_realm (csrf_body mfa_realm [("phone", "+201012345679")]) req) w).1 =
    inr (smsSetupRedirect mfa_realm "error" "Password is incorrect.").
Proof. vm_compute. split; reflexivity. Qed.

(** A failure to delete the session is dropped: the page says that the user has signed out
    and the session stays valid on the server. *)
Theorem failed_logout_says_done :
  let w := mkWorld (w_tables account_world) 1000000000 0 0 false RedisDown ∅ ∅ ∅ [] ∅ ∅ ∅ ∅ ∅ [] [] in
  let '(r, w') := run (logout (E:=test_env) mfa_realm (signed_browser mfa_realm)) w in
  r = inr (clearing [SESSION_COOKIE] (redirect mfa_realm "/login" [("signedOut", "1")])) /\
  rows TLoginSession w' = [strong_session].
Proof. vm_compute. split; reflexivity. Qed.
