(* ===== verification/Broker.v ===== *)
(** * Broker: signing in with an external identity provider (src/src/broker, src/src/identity-providers)

    BrokerService, BrokerController and IdentityProvidersService.  [fetch] of the runtime
    is a parameter: what a call is answered, if at all; so is the host name that [new URL]
    finds in a text.  The values of a provider's answer and of the signed state that the
    code casts are read as absent when they have another JSON type.  An authorization URL
    is its base and the query parameters set on it. *)

From S2P Require Import Prelude Prog Json JsText JsNumber Schema Store StoreFacts Tenancy Crypto Events Mfa OAuth AuthTokens.
From S2P Require Import Consent Login LoginFlow CustomAttributes LoginController AuthFacts Testbed.

(** ** Identity providers *)

Record CreateIdentityProviderDto := mkCreateProvider {
  ci_alias : string; ci_displayName : option string; ci_enabled : option bool; ci_providerType : option string;
  ci_clientId : string; ci_clientSecret : string; ci_authorizationUrl : string; ci_tokenUrl : string;
  ci_userinfoUrl : option string; ci_jwksUrl : option string; ci_issuer : option string;
  ci_defaultScopes : option string; ci_trustEmail : option bool; ci_linkOnly : option bool;
  ci_syncUserProfile : option bool
}.
(** Every property but [alias], each optional. *)
Record UpdateIdentityProviderDto := mkUpdateProvider {
  ui_displayName : option string; ui_enabled : option bool; ui_providerType : option string;
  ui_clientId : option string; ui_clientSecret : option string; ui_authorizationUrl : option string;
  ui_tokenUrl : option string; ui_userinfoUrl : option string; ui_jwksUrl : option string; ui_issuer : option string;
  ui_defaultScopes : option string; ui_trustEmail : option bool; ui_linkOnly : option bool;
  ui_syncUserProfile : option bool
}.

Definition by_alias (realm : Realm) (alias : string) (i : IdentityProvider) : bool :=
  (idp_realmId i === realm_id realm) && (idp_alias i === alias).
Definition set_provider (dto : UpdateIdentityProviderDto) (i : IdentityProvider) : IdentityProvider :=
  mkIdentityProvider (idp_id i) (idp_realmId i) (idp_alias i) (keep (ui_displayName dto) (idp_displayName i))
    (ui_enabled dto ?? idp_enabled i) (ui_providerType dto ?? idp_providerType i) (ui_clientId dto ?? idp_clientId i)
    (ui_clientSecret dto ?? idp_clientSecret i) (ui_authorizationUrl dto ?? idp_authorizationUrl i)
    (ui_tokenUrl dto ?? idp_tokenUrl i) (keep (ui_userinfoUrl dto) (idp_userinfoUrl i))
    (keep (ui_jwksUrl dto) (idp_jwksUrl i)) (keep (ui_issuer dto) (idp_issuer i))
    (ui_defaultScopes dto ?? idp_defaultScopes i) (ui_trustEmail dto ?? idp_trustEmail i)
    (ui_linkOnly dto ?? idp_linkOnly i) (ui_syncUserProfile dto ?? idp_syncUserProfile i) (idp_createdAt i).

Section Providers.
Context {E : Env}.

Definition findByAlias (realm : Realm) (alias : string) : M IdentityProvider :=
  (idp <- find_first TIdentityProvider (by_alias realm alias) ;;
   match idp with
   | Some idp => Ret idp
   | None => Throw (NotFound ("Identity provider '" +:+ alias +:+ "' not found"))
   end)%prog.

Definition create (realm : Realm) (dto : CreateIdentityProviderDto) : M IdentityProvider :=
  (existing <- find_first TIdentityProvider (by_alias realm (ci_alias dto)) ;;
   match existing with
   | Some _ => Throw (Conflict ("Identity provider '" +:+ ci_alias dto +:+ "' already exists"))
   | None =>
       Store.create TIdentityProvider (fun id createdAt =>
         mkIdentityProvider id (realm_id realm) (ci_alias dto) (ci_displayName dto) (ci_enabled dto ?? true)
           (ci_providerType dto ?? "oidc") (ci_clientId dto) (ci_clientSecret dto) (ci_authorizationUrl dto)
           (ci_tokenUrl dto) (ci_userinfoUrl dto) (ci_jwksUrl dto) (ci_issuer dto)
           (ci_defaultScopes dto ?? "openid email profile") (ci_trustEmail dto ?? false) (ci_linkOnly dto ?? false)
           (ci_syncUserProfile dto ?? true) createdAt)
   end)%prog.

(** The rows; the code leaves the secrets and the other URLs out of the answer. *)
Definition findAll (realm : Realm) : M (list IdentityProvider) :=
  find_many TIdentityProvider (fun i => idp_realmId i === realm_id realm).

Definition update (realm : Realm) (alias : string) (dto : UpdateIdentityProviderDto) : M IdentityProvider :=
  (findByAlias realm alias ;;; Store.update TIdentityProvider (by_alias realm alias) (set_provider dto))%prog.

Definition remove (realm : Realm) (alias : string) : M IdentityProvider :=
  (findByAlias realm alias ;;; delete_one TIdentityProvider (by_alias realm alias))%prog.
End Providers.

(** Administering the providers of a realm leaves those of the others as they are. *)
Theorem providers_isolated {E : Env} (realm : Realm) :
  (forall dto, confined TIdentityProvider (realm_id realm) None (create realm dto)) /\
  (forall alias dto, confined TIdentityProvider (realm_id realm) None (update realm alias dto)) /\
  (forall alias, confined TIdentityProvider (realm_id realm) None (remove realm alias)).
Proof.
  assert (Hf : forall alias, stable (frame []) (findByAlias realm alias)) by (intros alias; unfold findByAlias; footprint).
  assert (Hp : forall alias z, by_alias realm alias z = true -> idp_realmId z = realm_id realm).
  { intros alias z H. by apply andb_true_iff in H as [?%bool_decide_eq_true _]. }
  split_and!.
  - intros dto. apply confined_find; [|intros; apply confined_throw]. by apply confined_create.
  - intros alias dto. apply (confined_bind_frame _ _ []); [apply Hf|done|]. intros _. apply confined_update_by; [apply Hp|done].
  - intros alias. apply (confined_bind_frame _ _ []); [apply Hf|done|]. intros _.
    apply confined_delete_by; [|apply Hp]. apply _.
Qed.

(** ** What the broker passes around *)

Record LoginParams := mkLoginParams {
  lp_client_id : option string; lp_redirect_uri : option string; lp_scope : option string; lp_state : option string;
  lp_nonce : option string; lp_code_challenge : option string; lp_code_challenge_method : option string
}.
Record ExternalUserInfo := mkExternalUser {
  eu_sub : string; eu_email : option string; eu_emailVerified : option bool; eu_name : option string;
  eu_givenName : option string; eu_familyName : option string; eu_preferredUsername : option string
}.
Record AuthorizationUrl := mkAuthorizationUrl { au_base : string; au_params : list (string * string) }.

(** A call of [fetch], and its answer: whether the status is a success, and the body if it
    is JSON.  No answer is a rejected promise. *)
Inductive HttpCall :=
| PostForm (url : string) (form : list (string * string))
| GetAs (url : string) (bearer : string).
Record HttpAnswer := mkHttpAnswer { ha_ok : bool; ha_body : option json }.

Definition GITHUB_API_HOST : string := "api.github.com".

Definition toStr (value : option json) : option string :=
  match value with
  | Some (JStr s) => if s === EmptyString then None else Some s
  | Some (JNum _) | Some (JBool _) => Some (js_String value)
  | _ => None
  end.

(** [a ?? b] of two properties. *)
Definition either (a b : string) (data : obj) : option json :=
  if is_nullish (obj_get a data) then obj_get b data else obj_get a data.
Definition text_of (value : option json) : option string := match value with Some (JStr s) => Some s | _ => None end.
Definition bool_of (value : option json) : option bool := match value with Some (JBool b) => Some b | _ => None end.
Definition non_empty (s : string) : option string := if s === EmptyString then None else Some s.

(** [s.slice(0, i)] and [s.slice(i + 1)] for the first white space of [s]. *)
Fixpoint split_space (s : string) : option (string * string) :=
  match s with
  | EmptyString => None
  | String c s' => if is_space c then Some (EmptyString, s')
                   else match split_space s' with Some (a, b) => Some (String c a, b) | None => None end
  end.
Definition split_name (name : string) : option string * option string :=
  let trimmed := js_trim name in
  match split_space trimmed with
  | None => (non_empty trimmed, None)
  | Some (given, rest) => (Some given, non_empty (js_trim rest))
  end.

Definition email_verified (data : obj) : option bool :=
  match obj_get "email_verified" data with
  | Some (JBool b) => Some b
  | Some (JStr s) => if s === "true" then Some true else if s === "false" then Some false else None
  | _ => None
  end.

(** [s.replace('/token', '/userinfo')]. *)
Definition userinfo_of_token (s : string) : string :=
  match index_of "/token" s with
  | Some i => str_take i s +:+ "/userinfo" +:+ str_drop (i + 6) s
  | None => s
  end.

(** [emails.find((e) => e[flag])]; [None] is the throw of a property of [null]. *)
Fixpoint find_flagged (flag : string) (emails : list json) : option (option json) :=
  match emails with
  | [] => Some None
  | JNull :: _ => None
  | e :: emails =>
      let set := match e with JObj o => js_truthy (obj_get flag o) | _ => false end in
      if set then Some (Some e) else find_flagged flag emails
  end.
Definition pick_github_email (emails : list json) : option json :=
  match find_flagged "primary" emails with
  | Some (Some e) => Some e
  | Some None =>
      match find_flagged "verified" emails with
      | Some (Some e) => Some e
      | Some None => head emails
      | None => None
      end
  | None => None
  end.

Definition broker_state (realm : Realm) (alias client_id redirect_uri : string) (params : LoginParams) : obj :=
  let text k (v : option string) := obj_opt k (JStr <$> v) in
  [("realmId", JStr (realm_id realm)); ("realmName", JStr (realm_name realm)); ("alias", JStr alias);
   ("clientId", JStr client_id); ("redirectUri", JStr redirect_uri)] ++
  text "scope" (lp_scope params) ++ text "state" (lp_state params) ++ text "nonce" (lp_nonce params) ++
  text "codeChallenge" (lp_code_challenge params) ++ text "codeChallengeMethod" (lp_code_challenge_method params) ++
  [("typ", JStr "broker_state")].

(** The original OAuth request: optional parameters that are not empty. *)
Definition oauth_of_state (payload : obj) : fields :=
  let text k := text_of (obj_get k payload) in
  let entry name v := match v with Some s => [(name, s)] | None => [] end in
  let given name k := if truthy (text k) then entry name (text k) else [] in
  [("response_type", "code")] ++ entry "client_id" (text "clientId") ++ entry "redirect_uri" (text "redirectUri") ++
  given "scope" "scope" ++ given "state" "state" ++ given "nonce" "nonce" ++
  given "code_challenge" "codeChallenge" ++ given "code_challenge_method" "codeChallengeMethod".

(** [e.email] and [e.verified] of an entry of the list of addresses. *)
Definition entry_property (key : string) (e : json) : option json :=
  match e with JObj o => obj_get key o | _ => None end.

(** The object a body is, for its properties: none of [null], and no property of the code
    is one of another value. *)
Definition object_of (body : json) : option obj :=
  match body with JNull => None | JObj o => Some o | _ => Some [] end.

(** ** BrokerService *)

Section Broker.
Context {E : Env}.
Context (fetch : HttpCall -> Z -> option HttpAnswer) (url_hostname : string -> option string).

(** [await fetch(...)]. *)
Definition call (c : HttpCall) : M HttpAnswer :=
  (now <- date_now ;;
   match fetch c now with
   | Some answer => Ret answer
   | None => Throw (PlainError "fetch failed")
   end)%prog.

Definition read_object (answer : HttpAnswer) : M obj :=
  match ha_body answer with
  | None => Throw (PlainError "Unexpected token")
  | Some body =>
      match object_of body with
      | Some data => Ret data
      | None => Throw (PlainError "Cannot read properties of null")
      end
  end.

Definition broker_callback (realm : Realm) (alias : string) : string :=
  base_url +:+ "/realms/" +:+ realm_name realm +:+ "/broker/" +:+ alias +:+ "/callback".

Definition initiateLogin (realm : Realm) (alias : string) (params : LoginParams) : M AuthorizationUrl :=
  (let clientId := lp_client_id params ?? EmptyString in
   let redirectUri := lp_redirect_uri params ?? EmptyString in
   if clientId === EmptyString then Throw (BadRequest "client_id is required") else
   if redirectUri === EmptyString then Throw (BadRequest "redirect_uri is required") else
   idp <- findByAlias realm alias ;;
   if negb (idp_enabled idp) then Throw (BadRequest ("Identity provider '" +:+ alias +:+ "' is disabled")) else
   client <- find_first TClient (by_clientId realm clientId) ;;
   match client with
   | None => Throw (BadRequest "Invalid client_id")
   | Some client =>
       if negb (client_enabled client) then Throw (BadRequest "Invalid client_id") else
       if negb (matchesRedirectUri redirectUri (client_redirectUris client))
       then Throw (BadRequest "Invalid redirect_uri") else
       signingKey <- getActiveSigningKey (realm_id realm) ;;
       stateJwt <- signJwt (broker_state realm alias clientId redirectUri params)
                     (key_privateKey signingKey) (key_kid signingKey) 600 ;;
       match url_hostname (idp_authorizationUrl idp) with
       | None => Throw (PlainError "Invalid URL")
       | Some _ =>
           Ret (mkAuthorizationUrl (idp_authorizationUrl idp)
             [("client_id", idp_clientId idp); ("redirect_uri", broker_callback realm alias);
              ("response_type", "code"); ("scope", idp_defaultScopes idp); ("state", stateJwt)])
       end
   end)%prog.

(** The access token of the answer, as the template string writes it. *)
Definition exchangeCode (idp : IdentityProvider) (code redirectUri : string) : M string :=
  (response <- call (PostForm (idp_tokenUrl idp)
     [("grant_type", "authorization_code"); ("code", code); ("redirect_uri", redirectUri);
      ("client_id", idp_clientId idp); ("client_secret", idp_clientSecret idp)]) ;;
   if negb (ha_ok response) then Throw (Unauthorized "Failed to exchange code with external provider") else
   data <- read_object response ;;
   Ret (js_String (obj_get "access_token" data)))%prog.

Definition isGithub (idp : IdentityProvider) : bool :=
  truthy (idp_userinfoUrl idp) &&
  bool_decide (url_hostname (idp_userinfoUrl idp ?? EmptyString) = Some GITHUB_API_HOST).

Definition fetchGithubPrimaryEmail (accessToken : string) : M (option json) :=
  catch
    (response <- call (GetAs "https://api.github.com/user/emails" accessToken) ;;
     if negb (ha_ok response) then Ret None else
     match ha_body response with
     | None => Throw (PlainError "Unexpected token")
     | Some (JArr emails) => Ret (pick_github_email emails)
     | Some _ => Ret None
     end)%prog
    (fun _ => Ret None).

(** The address and whether it is verified. *)
Definition external_email (idp : IdentityProvider) (accessToken : string) (data : obj) :
    M (option string * option bool) :=
  (let email := toStr (obj_get "email" data) in
   match email with
   | Some _ => Ret (email, email_verified data)
   | None =>
       githubEmail <- (if isGithub idp then fetchGithubPrimaryEmail accessToken else Ret None) ;;
       match githubEmail with
       | Some e =>
           if js_truthy (Some e)
           then Ret (text_of (entry_property "email" e), bool_of (entry_property "verified" e))
           else Ret (None, email_verified data)
       | None => Ret (None, email_verified data)
       end
   end)%prog.

Definition fetchExternalUserInfo (idp : IdentityProvider) (accessToken : string) : M ExternalUserInfo :=
  (response <- call (GetAs (idp_userinfoUrl idp ?? userinfo_of_token (idp_tokenUrl idp)) accessToken) ;;
   if negb (ha_ok response) then Throw (Unauthorized "Failed to fetch user info from external provider") else
   data <- read_object response ;;
   let subject := toStr (either "sub" "id" data) ?? EmptyString in
   let name := toStr (obj_get "name" data) in
   let given := toStr (either "given_name" "first_name" data) in
   let family := toStr (either "family_name" "last_name" data) in
   let names := match given, family, name with
                | None, None, Some name => split_name name
                | _, _, _ => (given, family)
                end in
   address <- external_email idp accessToken data ;;
   Ret (mkExternalUser subject address.1 address.2 name names.1 names.2
          (toStr (either "preferred_username" "login" data))))%prog.

(** *** The local account *)

Definition by_external (idp : IdentityProvider) (sub : string) (l : FederatedIdentity) : bool :=
  (fi_identityProviderId l === idp_id idp) && (fi_externalUserId l === sub).
Definition sync_profile (external : ExternalUserInfo) (u : User) : User :=
  mkUser (user_id u) (user_realmId u) (user_username u) (keep (eu_email external) (user_email u)) (user_emailVerified u)
    (keep (eu_givenName external) (user_firstName u)) (keep (eu_familyName external) (user_lastName u))
    (user_enabled u) (user_passwordHash u) (user_passwordAlgorithm u) (user_federationLink u)
    (user_passwordChangedAt u) (user_lockedUntil u) (user_createdAt u).
Definition federate (userId : string) (idp : IdentityProvider) (external : ExternalUserInfo) (id : string) (_ : Z) :
    FederatedIdentity :=
  mkFederatedIdentity id userId (idp_id idp) (eu_sub external) (eu_preferredUsername external) (eu_email external).

Definition external_username (idp : IdentityProvider) (external : ExternalUserInfo) : string :=
  match eu_preferredUsername external, eu_email external with
  | Some name, _ => name
  | None, Some email => head (js_split "@"%char email) ?? EmptyString
  | None, None => idp_alias idp +:+ "-" +:+ eu_sub external
  end.
(** The provider vouches for the address. *)
Definition vouched (idp : IdentityProvider) (external : ExternalUserInfo) : bool :=
  truthy (eu_email external) && idp_trustEmail idp && bool_decide (eu_emailVerified external = Some true).
Definition external_account (realm : Realm) (idp : IdentityProvider) (external : ExternalUserInfo) (id : string)
    (createdAt : Z) : User :=
  mkUser id (realm_id realm) (external_username idp external) (eu_email external)
    (idp_trustEmail idp && (eu_emailVerified external ?? false)) (eu_givenName external) (eu_familyName external)
    true None "argon2" None None None createdAt.

(** The link with its user, whom the foreign key keeps. *)
Definition find_linked (idp : IdentityProvider) (sub : string) : M (option User) :=
  (found <- query (fun w =>
     match List.find (by_external idp sub) (rows TFederatedIdentity w) with
     | Some l => Some (List.find (fun u => user_id u === fi_userId l) (rows TUser w))
     | None => None
     end) ;;
   match found with
   | None => Ret None
   | Some None => Throw (PlainError "Inconsistent query result")
   | Some (Some user) => Ret (Some user)
   end)%prog.

Definition linkOrCreateUser (realm : Realm) (idp : IdentityProvider) (external : ExternalUserInfo) : M User :=
  (linked <- find_linked idp (eu_sub external) ;;
   match linked with
   | Some user =>
       (if idp_syncUserProfile idp
        then update_checked TUser (fun u => user_id u === user_id user) (sync_profile external) ;;; Ret tt
        else Ret tt) ;;;
       Ret user
   | None =>
       existingUser <- (if vouched idp external
                        then find_first TUser (by_email realm (eu_email external ?? EmptyString)) else Ret None) ;;
       match existingUser with
       | Some user =>
           Store.create TFederatedIdentity (federate (user_id user) idp external) ;;; Ret user
       | None =>
           if idp_linkOnly idp
           then Throw (Unauthorized "No matching user found and identity provider is configured as link-only") else
           user <- Store.create TUser (external_account realm idp external) ;;
           Store.create TFederatedIdentity (federate (user_id user) idp external) ;;;
           Ret user
       end
   end)%prog.

Definition handleCallback (realm : Realm) (alias : string) (code stateJwt : option string) : M (User * fields) :=
  (signingKey <- getActiveSigningKey (realm_id realm) ;;
   brokerState <- catch
     (match stateJwt with
      | Some jwt => verifyJwt jwt (key_publicKey signingKey)
      | None => Throw (PlainError "jose")
      end)
     (fun _ => Throw (Unauthorized "Invalid or expired broker state")) ;;
   if negb (bool_decide (text_of (obj_get "alias" brokerState) = Some alias)) ||
      negb (bool_decide (text_of (obj_get "realmId" brokerState) = Some (realm_id realm)))
   then Throw (BadRequest "Broker state mismatch") else
   idp <- findByAlias realm alias ;;
   accessToken <- exchangeCode idp (code ?? "undefined") (broker_callback realm alias) ;;
   externalUser <- fetchExternalUserInfo idp accessToken ;;
   user <- linkOrCreateUser realm idp externalUser ;;
   Ret (user, oauth_of_state brokerState))%prog.

(** ** BrokerController *)

(** [getStatus] and the message of the exceptions that are HTTP errors. *)
Definition http_error (e : exc) : option (Z * string) :=
  match e with
  | OAuthTokenError error description status => Some (status, description ?? error)
  | BadRequest m => Some (400, m)
  | Unauthorized m => Some (401, m)
  | Forbidden m => Some (403, m)
  | NotFound m => Some (404, m)
  | Conflict m => Some (409, m)
  | Gone m => Some (410, m)
  | Unprocessable m => Some (422, m)
  | TooManyRequests m => Some (429, m)
  | MfaRequired _ _ => Some (401, "Http Exception")
  | PrismaError _ | DatabaseDown | RedisFailed | SmsOtpError _ _ _ | PlainError _ => None
  end.
Definition broker_error (e : exc) : Z * string :=
  http_error e ?? (400, "Sign-in could not be completed. Please try again.").

(** Where [continueAfterPrimaryAuth] sends the browser, or the status and the error page. *)
Definition callback (realm : Realm) (alias : string) (code state : option string) (req : RequestInfo) :
    M (Z * Response) :=
  catch
    (signedIn <- handleCallback realm alias code state ;;
     let user := signedIn.1 : User in
     if negb (user_enabled user) then Throw (Forbidden "This account is disabled.") else
     reply <- continueAfterPrimaryAuth realm user signedIn.2 [] None req ;;
     Ret (302, of_reply [] reply))%prog
    (fun e => let shown := broker_error e in
       Ret (shown.1, render "error" [("pageTitle", "Sign-in failed"); ("errorTitle", "Sign-in failed");
                                     ("errorMessage", shown.2)])).
End Broker.

(** ** Whom a provider's answer signs in *)

(** The account the answer opens, and what becomes of the accounts and links: a linked
    one, with its profile synchronised or not; one of the realm whose address the provider
    vouches for; or a new one. *)
Inductive opens_account {E : Env} (realm : Realm) (idp : IdentityProvider) (external : ExternalUserInfo) (w w' : World) :
    User -> Prop :=
| LinkedAccount l user :
    l ∈ rows TFederatedIdentity w -> fi_identityProviderId l = idp_id idp -> fi_externalUserId l = eu_sub external ->
    user ∈ rows TUser w -> user_id user = fi_userId l ->
    rows TFederatedIdentity w' = rows TFederatedIdentity w ->
    rows TUser w' = (if idp_syncUserProfile idp
                     then update_first (fun u => user_id u === fi_userId l) (sync_profile external) (rows TUser w)
                     else rows TUser w) ->
    opens_account realm idp external w w' user
| VouchedAccount user email :
    List.find (by_external idp (eu_sub external)) (rows TFederatedIdentity w) = None ->
    idp_trustEmail idp = true -> eu_emailVerified external = Some true -> eu_email external = Some email ->
    email <> EmptyString ->
    user ∈ rows TUser w -> user_realmId user = realm_id realm -> user_email user = Some email ->
    rows TFederatedIdentity w' = rows TFederatedIdentity w ++ [federate (user_id user) idp external (uuid (w_uuids w)) (w_now w)] ->
    rows TUser w' = rows TUser w ->
    opens_account realm idp external w w' user
| NewAccount user :
    List.find (by_external idp (eu_sub external)) (rows TFederatedIdentity w) = None ->
    idp_linkOnly idp = false ->
    user = external_account realm idp external (uuid (w_uuids w)) (w_now w) ->
    unique_ok TUser (rows TUser w) user = true ->
    rows TFederatedIdentity w' = rows TFederatedIdentity w ++ [federate (user_id user) idp external (uuid (S (w_uuids w))) (w_now w)] ->
    rows TUser w' = rows TUser w ++ [user] ->
    opens_account realm idp external w w' user.

Definition unchanged (w w' : World) : Prop := w' = w.
#[export] Instance unchanged_preorder : PreOrder unchanged.
Proof. unfold unchanged. split; congruence. Qed.

Section Facts.
Context {E : Env}.

Lemma unchanged_query {B} (f : World -> B) : stable unchanged (query f).
Proof. split; [|by intros [e|b]]. intros w. unfold unchanged. by destruct (w_db_up w). Qed.
Lemma unchanged_find_first t p : stable unchanged (find_first t p).
Proof. apply unchanged_query. Qed.
Lemma unchanged_find_latest t p key : stable unchanged (find_latest t p key).
Proof. apply unchanged_query. Qed.
Lemma unchanged_date_now : stable unchanged date_now.
Proof. by apply stable_atom. Qed.
Lemma run_unchanged {A} (p : M A) w r w' : stable unchanged p -> run p w = (r, w') -> w' = w.
Proof. intros Hp Hr. pose proof (stable_run unchanged p w Hp) as H. by rewrite Hr in H. Qed.
#[local] Hint Resolve unchanged_query unchanged_find_first unchanged_find_latest unchanged_date_now : footprint.

Lemma run_find_linked idp sub w o w' :
  run (find_linked idp sub) w = (inr o, w') ->
  w' = w /\ match List.find (by_external idp sub) (rows TFederatedIdentity w) with
            | Some l => exists user, o = Some user /\ List.find (fun u => user_id u === fi_userId l) (rows TUser w) = Some user
            | None => o = None
            end.
Proof.
  unfold find_linked. intros H. apply run_bind_inr in H as (found & w1 & Hf & H). apply run_query_inr in Hf as (-> & -> & _).
  destruct (List.find (by_external idp sub) _) as [l|].
  - change (@List.find (Row TUser) (fun u => user_id u === fi_userId l)) with (@List.find User (fun u => user_id u === fi_userId l)).
    destruct (@List.find User (fun u => user_id u === fi_userId l) (rows TUser w)) as [user|]; [|discriminate H].
    injection H as <- <-. split; [done|]. by exists user.
  - by injection H as <- <-.
Qed.

Lemma linkOrCreateUser_opens realm idp external w user w' :
  run (linkOrCreateUser realm idp external) w = (inr user, w') -> opens_account realm idp external w w' user.
Proof.
  unfold linkOrCreateUser. intros H. apply run_bind_inr in H as (linked & w1 & Hl & H).
  apply run_find_linked in Hl as [-> Hl].
  destruct (List.find (by_external idp (eu_sub external)) (rows TFederatedIdentity w)) as [l|] eqn:Hlink.
  - destruct Hl as (u & -> & Hu). apply run_bind_inr in H as ([] & w1 & Hs & H). injection H as <- <-.
    apply find_elem in Hlink as [Hin [Hi%bool_decide_eq_true Hx%bool_decide_eq_true]%andb_true_iff].
    destruct (find_elem _ _ _ Hu) as [Huin Hid%bool_decide_eq_true].
    assert (Hw : rows TFederatedIdentity w1 = rows TFederatedIdentity w /\
      rows TUser w1 = (if idp_syncUserProfile idp
                       then update_first (fun u => user_id u === fi_userId l) (sync_profile external) (rows TUser w)
                       else rows TUser w)).
    { destruct (idp_syncUserProfile idp); [|by injection Hs as <-].
      apply run_bind_inr in Hs as (u1 & w2 & Hup & Hs). injection Hs as <-.
      apply run_update_checked_inr in Hup as (r0 & _ & _ & -> & _). rewrite Hid. split; [done|]. by rewrite rows_with_rows_eq. }
    eapply LinkedAccount; [exact Hin|done|done|done|done|apply Hw|apply Hw].
  - subst linked. apply run_bind_inr in H as (existing & w1 & He & H).
    destruct existing as [u|].
    + destruct (vouched idp external) eqn:Hv; [|discriminate He].
      apply run_query_inr in He as (He & -> & _). symmetry in He.
      apply run_bind_inr in H as (link & w2 & Hc & H). injection H as <- <-.
      apply run_create_inr in Hc as (-> & -> & _).
      unfold vouched in Hv. apply andb_true_iff in Hv as [[Ht Htrust]%andb_true_iff Hver%bool_decide_eq_true].
      destruct (eu_email external) as [email|] eqn:Hem; [|done]. apply truthy_Some in Ht.
      apply find_elem in He as [Hin [Hr%bool_decide_eq_true He%bool_decide_eq_true]%andb_true_iff].
      by eapply VouchedAccount.
    + assert (Hw1 : w1 = w) by (destruct (vouched idp external); [by apply run_query_inr in He as (_ & -> & _)|by injection He as <-]).
      subst w1. destruct (idp_linkOnly idp) eqn:Hlo; [discriminate H|].
      apply run_bind_inr in H as (u & w2 & Hc & H). apply run_create_inr in Hc as (-> & -> & Hun & _).
      apply run_bind_inr in H as (link & w3 & Hc & H). injection H as <- <-. apply run_create_inr in Hc as (-> & -> & _).
      eapply NewAccount; try done; by rewrite rows_with_rows_eq.
Qed.

Context (fetch : HttpCall -> Z -> option HttpAnswer) (url_hostname : string -> option string).

(** *** Up to the local account nothing is written *)

Lemma call_reads c : stable unchanged (call fetch c).
Proof. unfold call. footprint. Qed.
Lemma read_object_reads answer : stable unchanged (read_object answer).
Proof. unfold read_object. footprint. Qed.
#[local] Hint Resolve call_reads read_object_reads : footprint.
Lemma exchangeCode_reads idp code uri : stable unchanged (exchangeCode fetch idp code uri).
Proof. unfold exchangeCode. footprint. Qed.
Lemma fetchExternalUserInfo_reads idp token : stable unchanged (fetchExternalUserInfo fetch url_hostname idp token).
Proof. unfold fetchExternalUserInfo, external_email, fetchGithubPrimaryEmail. footprint. Qed.
Lemma findByAlias_reads realm alias : stable unchanged (findByAlias realm alias).
Proof. unfold findByAlias. footprint. Qed.
Lemma getActiveSigningKey_reads r : stable unchanged (getActiveSigningKey r).
Proof. unfold getActiveSigningKey. footprint. Qed.
Lemma verify_reads (state : option string) key :
  stable unchanged (catch (match state with Some jwt => verifyJwt jwt key | None => Throw (PlainError "jose") end)
    (fun _ => Throw (Unauthorized "Invalid or expired broker state"))).
Proof. unfold verifyJwt. footprint. Qed.
Lemma find_linked_reads idp sub : stable unchanged (find_linked idp sub).
Proof. unfold find_linked. footprint. Qed.

Lemma run_call c w answer w' : run (call fetch c) w = (inr answer, w') -> w' = w /\ fetch c (w_now w) = Some answer.
Proof. unfold call. rewrite run_bind, run_date_now. by destruct (fetch c (w_now w)) as [a|]; intros [= <- <-]. Qed.
Lemma run_read_object answer w data w' :
  run (read_object answer) w = (inr data, w') -> w' = w /\ exists body, ha_body answer = Some body /\ object_of body = Some data.
Proof.
  unfold read_object. intros H. destruct (ha_body answer) as [body|]; [|discriminate H].
  destruct (object_of body) eqn:Hb; [|discriminate H]. injection H as -> ->. split; [done|]. by exists body.
Qed.

Lemma run_exchangeCode idp code uri w token w' :
  run (exchangeCode fetch idp code uri) w = (inr token, w') ->
  w' = w /\ exists answer body data,
    fetch (PostForm (idp_tokenUrl idp)
      [("grant_type", "authorization_code"); ("code", code); ("redirect_uri", uri);
       ("client_id", idp_clientId idp); ("client_secret", idp_clientSecret idp)]) (w_now w) = Some answer /\
    ha_ok answer = true /\ ha_body answer = Some body /\ object_of body = Some data /\
    token = js_String (obj_get "access_token" data).
Proof.
  unfold exchangeCode. intros H. apply run_bind_inr in H as (a & w1 & Hc & H). apply run_call in Hc as [-> Hc].
  destruct (ha_ok a) eqn:Hok; [|discriminate H].
  apply run_bind_inr in H as (data & w1 & Hd & H). apply run_read_object in Hd as (-> & body & Hb & Hd).
  injection H as <- <-. split; [done|]. by exists a, body, data.
Qed.

Lemma run_fetchExternalUserInfo idp token w external w' :
  run (fetchExternalUserInfo fetch url_hostname idp token) w = (inr external, w') ->
  w' = w /\ exists answer body data,
    fetch (GetAs (idp_userinfoUrl idp ?? userinfo_of_token (idp_tokenUrl idp)) token) (w_now w) = Some answer /\
    ha_ok answer = true /\ ha_body answer = Some body /\ object_of body = Some data /\
    eu_sub external = toStr (either "sub" "id" data) ?? EmptyString.
Proof.
  unfold fetchExternalUserInfo. intros H. apply run_bind_inr in H as (a & w1 & Hc & H). apply run_call in Hc as [-> Hc].
  destruct (ha_ok a) eqn:Hok; [|discriminate H].
  apply run_bind_inr in H as (data & w1 & Hd & H). apply run_read_object in Hd as (-> & body & Hb & Hd).
  cbv zeta in H. apply run_bind_inr in H as (address & w1 & He & H). injection H as <- <-.
  split; [|by exists a, body, data].
  eapply run_unchanged; [|exact He]. unfold external_email, fetchGithubPrimaryEmail. footprint.
Qed.

(** What stands behind a sign-in through the provider [alias] of [realm]. *)
Record SignedIn (realm : Realm) (alias : string) (code : option string) (jwt : string) (w w' : World)
    (user : User) (params : fields) : Prop := mkSignedIn {
  si_state : exists key payload,
    key ∈ rows TRealmSigningKey w /\ key_realmId key = realm_id realm /\ key_active key = true /\
    jose_verify (key_publicKey key) jwt (w_now w) = Some payload /\
    obj_get "realmId" payload = Some (JStr (realm_id realm)) /\ obj_get "alias" payload = Some (JStr alias) /\
    params = oauth_of_state payload;
  si_account : exists idp external token answer answer',
    idp ∈ rows TIdentityProvider w /\ idp_realmId idp = realm_id realm /\ idp_alias idp = alias /\
    fetch (PostForm (idp_tokenUrl idp)
      [("grant_type", "authorization_code"); ("code", code ?? "undefined");
       ("redirect_uri", broker_callback realm alias);
       ("client_id", idp_clientId idp); ("client_secret", idp_clientSecret idp)]) (w_now w) = Some answer /\
    ha_ok answer = true /\
    fetch (GetAs (idp_userinfoUrl idp ?? userinfo_of_token (idp_tokenUrl idp)) token) (w_now w) = Some answer' /\
    ha_ok answer' = true /\
    run (fetchExternalUserInfo fetch url_hostname idp token) w = (inr external, w) /\
    opens_account realm idp external w w' user
}.

Lemma text_of_Some v s : text_of v = Some s -> v = Some (JStr s).
Proof. destruct v as [[]|]; simpl; congruence. Qed.
Lemma run_findByAlias realm alias w idp w' :
  run (findByAlias realm alias) w = (inr idp, w') ->
  w' = w /\ idp ∈ rows TIdentityProvider w /\ idp_realmId idp = realm_id realm /\ idp_alias idp = alias.
Proof.
  unfold findByAlias. intros H. apply run_bind_inr in H as (o & w1 & Ho & H). run_stmt_inv Ho. destruct o as [i|]; [|discriminate H].
  injection H as <- <-. symmetry in Ho.
  by apply find_elem in Ho as [Hin [Hr%bool_decide_eq_true Ha%bool_decide_eq_true]%andb_true_iff].
Qed.

Lemma handleCallback_signs_in realm alias code stateJwt w user params w' :
  run (handleCallback fetch url_hostname realm alias code stateJwt) w = (inr (user, params), w') ->
  exists jwt, stateJwt = Some jwt /\ SignedIn realm alias code jwt w w' user params.
Proof.
  unfold handleCallback. intros H. apply run_bind_inr in H as (key & w1 & Hk & H).
  apply run_getActiveSigningKey_inr in Hk as (-> & Hkin & Hkr & Hka).
  apply run_bind_inr in H as (payload & w1 & Hv & H). apply run_catch_rethrow in Hv; [|intros e1 w2 b w3 [=]].
  destruct stateJwt as [jwt|]; [|discriminate Hv]. apply run_verifyJwt_inr in Hv as [-> Hv].
  exists jwt. split; [done|].
  destruct (bool_decide (text_of (obj_get "alias" payload) = Some alias)) eqn:Ha; [|discriminate H].
  destruct (bool_decide (text_of (obj_get "realmId" payload) = Some (realm_id realm))) eqn:Hr; [|discriminate H].
  apply bool_decide_eq_true, text_of_Some in Ha. apply bool_decide_eq_true, text_of_Some in Hr.
  change (negb true || negb true) with false in H. cbv iota in H.
  apply run_bind_inr in H as (idp & w1 & Hi & H). apply run_findByAlias in Hi as (-> & Hi & Hir & Hia).
  apply run_bind_inr in H as (token & w1 & Hx & H). apply run_exchangeCode in Hx as (-> & a & _ & _ & Hfa & Hoka & _).
  apply run_bind_inr in H as (external & w1 & Hu & H). pose proof Hu as Hu'.
  apply run_fetchExternalUserInfo in Hu as (-> & b & _ & _ & Hfb & Hokb & _).
  apply run_bind_inr in H as (u & w1 & Hl & H). injection H as <- <- <-. apply linkOrCreateUser_opens in Hl.
  constructor; [by exists key, payload|]. exists idp, external, token, a, b. by split_and!.
Qed.
End Facts.

(** ** Links stay within the realm of their provider *)

Record links_ok (w : World) : Prop := mkLinksOk {
  lo_users : NoDup (map user_id (rows TUser w));
  lo_providers : NoDup (map idp_id (rows TIdentityProvider w));
  lo_user : forall l, l ∈ rows TFederatedIdentity w -> exists u, u ∈ rows TUser w /\ user_id u = fi_userId l;
  lo_realm : forall l u i, l ∈ rows TFederatedIdentity w -> u ∈ rows TUser w -> i ∈ rows TIdentityProvider w ->
    fi_userId l = user_id u -> fi_identityProviderId l = idp_id i -> user_realmId u = idp_realmId i
}.

Section LinksOk.
Context {E : Env}.

Lemma links_ok_rows w w' :
  rows TUser w' = rows TUser w -> rows TIdentityProvider w' = rows TIdentityProvider w ->
  rows TFederatedIdentity w' = rows TFederatedIdentity w -> links_ok w -> links_ok w'.
Proof. intros H1 H2 H3 [? ? ? ?]. by constructor; rewrite ?H1, ?H2, ?H3. Qed.

(** A profile changes without the id and the realm of its account. *)
Lemma links_ok_sync w p external :
  links_ok w -> links_ok (with_rows TUser (update_first p (sync_profile external) (rows TUser w)) w).
Proof.
  intros [Hu Hp Hl Hr]. set (w' := with_rows _ _ _).
  assert (Hin : forall y, y ∈ rows TUser w' -> exists x, x ∈ rows TUser w /\ user_id y = user_id x /\ user_realmId y = user_realmId x).
  { unfold w'. intros y. rewrite rows_with_rows_eq. intros [Hy|(x & Hx & ->)]%elem_of_update_first; [by exists y|].
    apply find_elem in Hx as [Hx _]. by exists x. }
  assert (Hm : map user_id (rows TUser w') = map user_id (rows TUser w)) by (unfold w'; rewrite rows_with_rows_eq; by apply map_update_first).
  constructor; [by rewrite Hm|done| |].
  - intros l H. destruct (Hl l H) as (u & Hu1 & Hu2).
    assert (Hi : fi_userId l ∈ map user_id (rows TUser w')) by (rewrite Hm, <- Hu2; by apply list_elem_of_fmap_2).
    apply list_elem_of_fmap in Hi as (y & Hy & Hy'). by exists y.
  - intros l u i H1 H2 H3 H4 H5. destruct (Hin u H2) as (x & Hx & Hid & ->). eapply Hr; [exact H1|exact Hx|exact H3|congruence|exact H5].
Qed.

(** A fresh account has no link. *)
Lemma links_ok_account w user :
  links_ok w -> (forall u, u ∈ rows TUser w -> user_id u <> user_id user) ->
  links_ok (with_rows TUser (rows TUser w ++ [user]) (next_uuid w)).
Proof.
  intros [Hu Hp Hl Hr] Hf. constructor; rewrite ?rows_with_rows_eq; [|done| |].
  - rewrite map_app. apply NoDup_app. split; [done|]. split; [|apply NoDup_singleton].
    intros i (x & -> & Hx)%list_elem_of_fmap Hi%list_elem_of_singleton. by apply (Hf x Hx).
  - intros l H. destruct (Hl l H) as (u & Hu1 & Hu2). exists u. set_solver.
  - intros l u i H1 [H2|H2%list_elem_of_singleton]%elem_of_app H3 H4 H5; [by eapply Hr|]. subst u.
    destruct (Hl l H1) as (x & Hx & Hid). exfalso. apply (Hf x Hx). congruence.
Qed.

(** A link between an account and a provider of one realm. *)
Lemma links_ok_link w user idp external id at_ :
  links_ok w -> user ∈ rows TUser w -> idp ∈ rows TIdentityProvider w -> user_realmId user = idp_realmId idp ->
  links_ok (with_rows TFederatedIdentity (rows TFederatedIdentity w ++ [federate (user_id user) idp external id at_]) (next_uuid w)).
Proof.
  intros [Hu Hp Hl Hr] Huser Hidp Hrealm. constructor; rewrite ?rows_with_rows_eq; [done|done| |].
  - intros l [H|H%list_elem_of_singleton]%elem_of_app; [by apply Hl|]. subst l. by exists user.
  - intros l u i [H1|H1%list_elem_of_singleton]%elem_of_app H2 H3 H4 H5; [by eapply Hr|]. subst l. simpl in H4, H5.
    rewrite <- (NoDup_map_inj user_id _ user u Hu Huser H2 H4). by rewrite <- (NoDup_map_inj idp_id _ idp i Hp Hidp H3 H5).
Qed.

Lemma run_federate realm user idp external w r w' :
  links_ok w -> user ∈ rows TUser w -> idp ∈ rows TIdentityProvider w -> idp_realmId idp = realm_id realm ->
  user_realmId user = realm_id realm ->
  run (Store.create TFederatedIdentity (federate (user_id user) idp external) ;;; Ret user)%prog w = (r, w') ->
  links_ok w' /\ forall u, r = inr u -> user_realmId u = realm_id realm.
Proof.
  intros Hok Hu Hi Hir Hur Hr.
  assert (Hl : forall id at_, links_ok (with_rows TFederatedIdentity
    (rows TFederatedIdentity w ++ [federate (user_id user) idp external id at_]) (next_uuid w))).
  { intros id at_. apply links_ok_link; [done|done|done|congruence]. }
  apply run_bind_ends in Hr as [(e & Hc & ->)|(link & w1 & Hc & Hr)].
  - split; [|done]. by apply run_create_any in Hc as [->| ->].
  - injection Hr as <- <-. split; [by apply run_create_any in Hc as [->| ->]|]. by intros u [= <-].
Qed.

Lemma run_sync (sync : bool) p external w r w' :
  links_ok w ->
  run (if sync then update_checked TUser p (sync_profile external) ;;; Ret tt else Ret tt)%prog w = (r, w') -> links_ok w'.
Proof.
  intros Hok Hr. destruct sync; [|by injection Hr as _ <-].
  apply run_bind_ends in Hr as [(e & Hc & ->)|(u & w1 & Hc & Hr)]; [|injection Hr as _ <-];
    apply run_update_checked_any in Hc as [->|(x & _ & ->)]; try done; by apply links_ok_sync.
Qed.

Lemma linkOrCreateUser_links_ok realm idp external w r w' :
  links_ok w -> idp ∈ rows TIdentityProvider w -> idp_realmId idp = realm_id realm ->
  (forall u, u ∈ rows TUser w -> user_id u <> uuid (w_uuids w)) ->
  run (linkOrCreateUser realm idp external) w = (r, w') ->
  links_ok w' /\ forall user, r = inr user -> user_realmId user = realm_id realm.
Proof.
  intros Hok Hidp Hir Hf Hr. unfold linkOrCreateUser in Hr.
  apply run_bind_ends in Hr as [(e & Hl & ->)|(linked & w1 & Hl & Hr)]; [by apply (run_unchanged _ _ _ _ (find_linked_reads _ _)) in Hl as ->|].
  apply run_find_linked in Hl as [-> Hl].
  destruct (List.find (by_external idp (eu_sub external)) (rows TFederatedIdentity w)) as [l|] eqn:Hfind.
  - destruct Hl as (user & -> & Hu). apply find_elem in Hfind as [Hin [Hi%bool_decide_eq_true _]%andb_true_iff].
    apply find_elem in Hu as [Huin Hid%bool_decide_eq_true].
    assert (Hrealm : user_realmId user = realm_id realm) by (rewrite <- Hir; eapply lo_realm; eauto).
    apply run_bind_ends in Hr as [(e & Hs & ->)|([] & w1 & Hs & Hr)].
    + split; [|done]. by apply run_sync in Hs.
    + injection Hr as <- <-. split; [by apply run_sync in Hs|]. by intros u [= <-].
  - subst linked. apply run_bind_ends in Hr as [(e & He & ->)|(existing & w1 & He & Hr)].
    { split; [|done]. destruct (vouched idp external); [by apply run_query_any in He as ->|discriminate He]. }
    destruct existing as [user|].
    + destruct (vouched idp external); [|discriminate He]. apply run_query_inr in He as (He & -> & _). symmetry in He.
      apply find_elem in He as [Huin [Hur%bool_decide_eq_true _]%andb_true_iff].
      eapply run_federate; [exact Hok|exact Huin|exact Hidp|exact Hir|exact Hur|exact Hr].
    + assert (w1 = w) as -> by (destruct (vouched idp external); [by apply run_query_any in He|by injection He as <-]).
      destruct (idp_linkOnly idp); [by injection Hr as <- <-|].
      apply run_bind_ends in Hr as [(e & Hc & ->)|(user & w1 & Hc & Hr)].
      * split; [|done]. apply run_create_any in Hc as [->| ->]; [done|]. exact (links_ok_account _ (external_account _ _ _ _ _) Hok Hf).
      * apply run_create_inr in Hc as (-> & -> & _ & _).
        refine (run_federate _ (external_account _ _ _ _ _) _ _ _ _ _ (links_ok_account _ (external_account _ _ _ _ _) Hok Hf) _ Hidp Hir eq_refl Hr).
        rewrite rows_with_rows_eq. apply elem_of_app. right. by apply list_elem_of_singleton.
Qed.
End LinksOk.

(** ** The callback *)

Definition flow_tables : list Table :=
  [TPendingAction; TLoginSession; TStepUpRecord; TAuthorizationCode; TLoginEvent; TUsedTotpCode].

Section Callback.
Context {E : Env} (fetch : HttpCall -> Z -> option HttpAnswer) (url_hostname : string -> option string).

Lemma continueAfterPrimaryAuth_frame realm user params amr remember req :
  stable (frame flow_tables) (continueAfterPrimaryAuth (E:=E) realm user params amr remember req).
Proof. unfold continueAfterPrimaryAuth, completeLogin, finish_authorization, flow_tables. footprint. by apply createMfaEnrollment_footprint. Qed.

(** The page of an error. *)
Definition error_page (e : exc) : Z * Response :=
  ((broker_error e).1, render "error" [("pageTitle", "Sign-in failed"); ("errorTitle", "Sign-in failed");
                                       ("errorMessage", (broker_error e).2)]).

Lemma run_callback realm alias code state req w :
  run (callback fetch url_hostname realm alias code state req) w =
  match run (handleCallback fetch url_hostname realm alias code state) w with
  | (inl e, w1) => (inr (error_page e), w1)
  | (inr (user, params), w1) =>
      if user_enabled user
      then match run (continueAfterPrimaryAuth realm user params [] None req) w1 with
           | (inl e, w2) => (inr (error_page e), w2)
           | (inr reply, w2) => (inr (302, of_reply [] reply), w2)
           end
      else (inr (error_page (Forbidden "This account is disabled.")), w1)
  end.
Proof.
  unfold callback. rewrite run_catch, run_bind.
  destruct (run (handleCallback _ _ _ _ _ _) w) as [[e|[user params]] w1]; [done|]. cbn [fst snd].
  destruct (user_enabled user); [|done]. cbn [negb]. rewrite run_bind.
  by destruct (run (continueAfterPrimaryAuth realm user params [] None req) w1) as [[e|reply] w2].
Qed.

(** C19. Whatever a provider's callback is sent and whatever the provider answers, the
    handler answers with a redirect or an error page.  A redirect stands on a broker state
    that an active key of this realm signed for this provider, on the provider's answers to
    the code and to the token, and on the account these answers open: the one linked to
    the external identity, one of the realm with an address the provider vouches for, or a
    new one when the provider may create accounts; that account is enabled, and the sign-in
    goes on as after a password, second factor included. *)
Theorem broker_sign_in_sound realm alias code state req w :
  exists status response w', run (callback fetch url_hostname realm alias code state req) w = (inr (status, response), w') /\
    match rs_view response with
    | Flowed _ => exists jwt user params w1 reply,
        state = Some jwt /\ SignedIn fetch url_hostname realm alias code jwt w w1 user params /\ user_enabled user = true /\
        run (continueAfterPrimaryAuth realm user params [] None req) w1 = (inr reply, w') /\
        response = of_reply [] reply
    | _ => exists e, (status, response) = error_page e
    end.
Proof.
  rewrite run_callback.
  destruct (run (handleCallback _ _ _ _ _ _) w) as [[e|[user params]] w1] eqn:Hh; [by do 3 eexists; split; [reflexivity|]; exists e|].
  destruct (user_enabled user) eqn:Hen; [|by do 3 eexists; split; [reflexivity|]; eexists].
  apply handleCallback_signs_in in Hh as (jwt & -> & Hs).
  destruct (run (continueAfterPrimaryAuth realm user params [] None req) w1) as [[e|reply] w2] eqn:Hc;
    [by do 3 eexists; split; [reflexivity|]; exists e|].
  do 3 eexists. split; [reflexivity|]. by exists jwt, user, params, w1, reply.
Qed.

(** What [handleCallback] does before it looks for the account changes nothing. *)
Lemma run_handleCallback_any realm alias code state w r w' :
  run (handleCallback fetch url_hostname realm alias code state) w = (r, w') ->
  (exists e, r = inl e /\ w' = w) \/
  exists idp external r', idp ∈ rows TIdentityProvider w /\ idp_realmId idp = realm_id realm /\
    run (linkOrCreateUser realm idp external) w = (r', w') /\ forall user params, r = inr (user, params) -> r' = inr user.
Proof.
  unfold handleCallback.
  intros [(e & H & ->)|(key & w1 & H & Hr)]%run_bind_ends; apply run_unchanged in H as ->; try by apply getActiveSigningKey_reads.
  { left. by exists e. }
  apply run_bind_ends in Hr as [(e & H & ->)|(payload & w1 & H & Hr)]; apply run_unchanged in H as ->; try by apply verify_reads.
  { left. by exists e. }
  destruct (negb _ || negb _); [injection Hr as <- <-; left; by eexists|].
  apply run_bind_ends in Hr as [(e & H & ->)|(idp & w1 & H & Hr)].
  { apply run_unchanged in H as ->; [|apply findByAlias_reads]. left. by exists e. }
  apply run_findByAlias in H as (-> & Hidp & Hir & _).
  apply run_bind_ends in Hr as [(e & H & ->)|(token & w1 & H & Hr)]; apply run_unchanged in H as ->; try by apply exchangeCode_reads.
  { left. by exists e. }
  apply run_bind_ends in Hr as [(e & H & ->)|(external & w1 & H & Hr)]; apply run_unchanged in H as ->;
    try by apply fetchExternalUserInfo_reads.
  { left. by exists e. }
  right. exists idp, external. apply run_bind_ends in Hr as [(e & H & ->)|(user & w1 & H & Hr)].
  - by exists (inl e).
  - injection Hr as <- <-. exists (inr user). split_and!; try done. by intros u params [= -> _].
Qed.

(** Links keep to the realm of their provider however a callback ends, and a browser is
    only sent on for an account of the realm. *)
Theorem callback_keeps_links realm alias code state req w :
  links_ok w -> (forall u, u ∈ rows TUser w -> user_id u <> uuid (w_uuids w)) ->
  links_ok (run (callback fetch url_hostname realm alias code state req) w).2 /\
  forall user params w1, run (handleCallback fetch url_hostname realm alias code state) w = (inr (user, params), w1) ->
    user_realmId user = realm_id realm.
Proof.
  intros Hok Hf. rewrite run_callback.
  destruct (run (handleCallback _ _ _ _ _ _) w) as [r w1] eqn:Hh.
  assert (H : links_ok w1 /\ forall user params, r = inr (user, params) -> user_realmId user = realm_id realm).
  { apply run_handleCallback_any in Hh as [(e & -> & ->)|(idp & external & r' & Hidp & Hir & Hl & He)]; [done|].
    destruct (linkOrCreateUser_links_ok _ _ _ _ _ _ Hok Hidp Hir Hf Hl) as [Hok' Hu]. split; [done|].
    intros user params Hr. by apply Hu, (He user params). }
  destruct H as [Hok' Hu]. split; [|intros user params w2 [= -> ->]; by apply (Hu user params)].
  destruct r as [e|[user params]]; [done|]. destruct (user_enabled user); [|done].
  destruct (run (continueAfterPrimaryAuth realm user params [] None req) w1) as [r2 w2] eqn:Hc.
  apply (run_frame flow_tables) in Hc; [|apply continueAfterPrimaryAuth_frame].
  assert (links_ok w2) by (by apply (links_ok_rows w1 w2); [apply (frame_rows flow_tables)..|]). by destruct r2.
Qed.
End Callback.

(** ** The state between the two halves of a sign-in *)

Section State.
Context {E : Env} (fetch : HttpCall -> Z -> option HttpAnswer) (url_hostname : string -> option string).

(** The request that goes on after the provider. *)
Definition asked (params : LoginParams) : fields :=
  let given name v := if truthy v then [(name, v ?? EmptyString)] else [] in
  [("response_type", "code"); ("client_id", lp_client_id params ?? EmptyString);
   ("redirect_uri", lp_redirect_uri params ?? EmptyString)] ++
  given "scope" (lp_scope params) ++ given "state" (lp_state params) ++ given "nonce" (lp_nonce params) ++
  given "code_challenge" (lp_code_challenge params) ++ given "code_challenge_method" (lp_code_challenge_method params).

(** The claims of a state token signed at [iat] under the token id [jti]. *)
Definition state_claims (realm : Realm) (alias : string) (params : LoginParams) (iat : Z) (jti : string) : obj :=
  obj_set "jti" (JStr jti) (obj_set "exp" (JNum (iat + 600)) (obj_set "iat" (JNum iat)
    (broker_state realm alias (lp_client_id params ?? EmptyString) (lp_redirect_uri params ?? EmptyString) params))).

Lemma state_texts realm alias params iat jti :
  let text k := text_of (obj_get k (state_claims realm alias params iat jti)) in
  text "clientId" = Some (lp_client_id params ?? EmptyString) /\ text "redirectUri" = Some (lp_redirect_uri params ?? EmptyString) /\
  text "scope" = lp_scope params /\ text "state" = lp_state params /\ text "nonce" = lp_nonce params /\
  text "codeChallenge" = lp_code_challenge params /\ text "codeChallengeMethod" = lp_code_challenge_method params.
Proof. destruct params as [c u [] [] [] [] []]; repeat split. Qed.

Lemma oauth_of_state_claims realm alias params iat jti :
  oauth_of_state (state_claims realm alias params iat jti) = asked params.
Proof.
  destruct (state_texts realm alias params iat jti) as (H1 & H2 & H3 & H4 & H5 & H6 & H7).
  unfold oauth_of_state. rewrite H1, H2, H3, H4, H5, H6, H7. unfold asked.
  by destruct params as [c u [] [] [] [] []].
Qed.

(** A sign-in with a provider starts only for an enabled provider and an enabled client
    of the realm and one of the client's redirect URIs.  The state sent along is a token
    signed with an active key of the realm for ten minutes, and when a callback comes back
    with it, what goes on is the request the client made: its id, redirect URI, scope,
    state, nonce and code challenge. *)
Theorem broker_state_roundtrip realm alias params w url w' :
  run (initiateLogin url_hostname realm alias params) w = (inr url, w') ->
  exists idp client key jwt,
    idp ∈ rows TIdentityProvider w /\ idp_realmId idp = realm_id realm /\ idp_alias idp = alias /\ idp_enabled idp = true /\
    client ∈ rows TClient w /\ client_realmId client = realm_id realm /\ client_enabled client = true /\
    lp_client_id params = Some (client_clientId client) /\
    matchesRedirectUri (lp_redirect_uri params ?? EmptyString) (client_redirectUris client) = true /\
    key ∈ rows TRealmSigningKey w /\ key_realmId key = realm_id realm /\ key_active key = true /\
    jose_sign (key_privateKey key) (key_kid key) (state_claims realm alias params (w_now w / 1000) (uuid (w_uuids w))) = Some jwt /\
    url = mkAuthorizationUrl (idp_authorizationUrl idp)
      [("client_id", idp_clientId idp); ("redirect_uri", broker_callback realm alias);
       ("response_type", "code"); ("scope", idp_defaultScopes idp); ("state", jwt)] /\
    forall code w2 user params' w3,
      (forall pub payload, jose_verify pub jwt (w_now w2) = Some payload ->
         payload = state_claims realm alias params (w_now w / 1000) (uuid (w_uuids w))) ->
      run (handleCallback fetch url_hostname realm alias code (Some jwt)) w2 = (inr (user, params'), w3) ->
      params' = asked params.
Proof.
  unfold initiateLogin. cbv zeta. intros H.
  destruct (lp_client_id params) as [c|] eqn:Hc; [|discriminate H]. change (Some c ?? EmptyString) with c in H.
  destruct (c === EmptyString) eqn:Hce; [discriminate H|].
  destruct ((lp_redirect_uri params ?? EmptyString) === EmptyString) eqn:Hue; [discriminate H|].
  apply run_bind_inr in H as (idp & w1 & Hi & H). apply run_findByAlias in Hi as (-> & Hi & Hir & Hia).
  destruct (idp_enabled idp) eqn:Hen; [|discriminate H]. cbn [negb] in H.
  apply run_bind_inr in H as (client & w1 & Hf & H). run_stmt_inv Hf. destruct client as [client|]; [|discriminate H]. symmetry in Hf.
  apply find_elem in Hf as [Hcin [Hcr%bool_decide_eq_true Hcc%bool_decide_eq_true]%andb_true_iff].
  destruct (client_enabled client) eqn:Hcen; [|discriminate H]. cbn [negb] in H.
  destruct (matchesRedirectUri _ _) eqn:Hm; [|discriminate H]. cbn [negb] in H.
  apply run_bind_inr in H as (key & w1 & Hk & H). apply run_getActiveSigningKey_inr in Hk as (-> & Hk & Hkr & Hka).
  apply run_bind_inr in H as (jwt & w1 & Hs & H). apply run_signJwt_inr in Hs as (-> & Hs).
  destruct (url_hostname _); [|discriminate H]. injection H as <- <-.
  assert (Hs' : jose_sign (key_privateKey key) (key_kid key) (state_claims realm alias params (w_now w / 1000) (uuid (w_uuids w))) = Some jwt)
    by (unfold state_claims; by rewrite Hc).
  exists idp, client, key, jwt. split_and!; try done; [by rewrite Hcc|].
  intros code w2 user params' w3 Hj Hr. apply handleCallback_signs_in in Hr as (jwt' & [= <-] & [Hst _]).
  destruct Hst as (key' & payload & _ & _ & _ & Hv & _ & _ & ->). rewrite (Hj _ _ Hv). apply oauth_of_state_claims.
Qed.
End State.

(** ** Concrete sign-ins *)

Definition google : IdentityProvider :=
  mkIdentityProvider "idp-1" "realm-1" "google" None true "oidc" "g-client" "g-secret" "https://accounts.example/auth"
    "https://accounts.example/token" (Some "https://accounts.example/userinfo") None None "openid email profile"
    true false true 0.
Definition answering (data : obj) (c : HttpCall) (now : Z) : option HttpAnswer :=
  Some (mkHttpAnswer true (Some (match c with
    | PostForm _ _ => JObj [("access_token", JStr "at-1")]
    | GetAs _ _ => JObj data
    end))).
Definition some_host (url : string) : option string := Some "accounts.example".
Definition app_params : LoginParams :=
  mkLoginParams (Some "app") (Some "https://app.example/cb") (Some "openid") (Some "st") None (Some "x") (Some "S256").
(** A key that verifies the state of [app_params]. *)
Definition state_env : Env := test_env_with (fun _ _ _ => Some (state_claims realm0 "google" app_params 1000000 "id-0")).
Definition broker_world (idp : IdentityProvider) : World := with_rows TIdentityProvider [idp] world1.
Definition signed_in_as (data : obj) (w : World) : option User * World :=
  match run (handleCallback (E:=state_env) (answering data) some_host realm0 "google" (Some "code") (Some "jwt")) w with
  | (inr (user, _), w') => (Some user, w')
  | (inl _, w') => (None, w')
  end.
Definition links (w : World) : list (string * string) :=
  map (fun l => (fi_userId l, fi_externalUserId l)) (rows TFederatedIdentity w).

(** Alice's verified address opens her account, and from then on her identity does. *)
Example vouched_sign_in :
  let alice := [("sub", JStr "g-7"); ("email", JStr "alice@acme.test"); ("email_verified", JBool true)] in
  let '(user, w) := signed_in_as alice (broker_world google) in
  user = Some user0 /\ links w = [("user-1", "g-7")] /\
  (signed_in_as [("sub", JStr "g-7")] w).1 = Some user0.
Proof. vm_compute. repeat split. Qed.

(** The browser of a new user is sent on to the client with a code. *)
Example federated_code :
  let r := run (callback (E:=state_env)
                  (answering [("sub", JStr "g-8"); ("name", JStr "Bob van Dam"); ("preferred_username", JStr "bob")])
                  some_host realm0 "google" (Some "code") (Some "jwt") login_request) (broker_world google) in
  (exists code, match r.1 with
                | inr (302, response) =>
                    rs_view response = Flowed (ToClient (mkRedirect "https://app.example/cb" [("code", code); ("state", "st")]))
                | _ => False
                end) /\
  map (fun u => (user_username u, user_firstName u, user_lastName u)) (rows TUser r.2) =
    [("alice", Some "Alice", Some "Doe"); ("bob", Some "Bob", Some "van Dam")].
Proof. vm_compute. split; [eexists; reflexivity|reflexivity]. Qed.

Example broker_state_roundtrip_witness :
  exists url w', run (initiateLogin (E:=state_env) some_host realm0 "google" app_params) (broker_world google) = (inr url, w') /\
    (forall code w2 user params w3,
       run (handleCallback (E:=state_env) (answering [("sub", JStr "g-8")]) some_host realm0 "google" code (Some "jwt.kid-1.id-0")) w2 =
         (inr (user, params), w3) -> params = asked app_params).
Proof.
  destruct (ends_ok_run (initiateLogin (E:=state_env) some_host realm0 "google" app_params) (broker_world google)) as (url & w' & H);
    [vm_compute; reflexivity|].
  exists url, w'. split; [exact H|].
  destruct (broker_state_roundtrip (E:=state_env) (answering [("sub", JStr "g-8")]) some_host _ _ _ _ _ _ H)
    as (idp & client & key & jwt & _ & _ & _ & _ & _ & _ & _ & _ & _ & Hk & _ & _ & Hs & _ & Hback).
  intros code w2 user params w3 Hr. apply (Hback code w2 user params w3).
  - intros pub payload Hv. vm_compute in Hv. injection Hv as <-. vm_compute. reflexivity.
  - assert (Hkey : key = key0) by (apply list_elem_of_singleton; exact Hk). rewrite Hkey in Hs.
    vm_compute in Hs. injection Hs as <-. exact Hr.
Defined.

(** ** What the broker leaves open *)

(** An answer without a subject is the identity of the empty text: whoever the provider
    answers for so next is signed in to the account of the first. *)
Theorem missing_subject_shares_account :
  let '(mallory, w) := signed_in_as [("preferred_username", JStr "mallory")] (broker_world google) in
  (user_username <$> mallory) = Some "mallory" /\
  (user_username <$> (signed_in_as [("preferred_username", JStr "victor")] w).1) = Some "mallory".
Proof. vm_compute. repeat split. Qed.

(** Synchronising a profile takes over an address that the provider is not trusted for,
    has not verified, and leaves it marked as verified. *)
Theorem synced_email_stays_verified :
  let doubted := mkIdentityProvider "idp-1" "realm-1" "google" None true "oidc" "g-client" "g-secret" "https://accounts.example/auth"
    "https://accounts.example/token" None None None "openid" false false true 0 in
  let w := with_rows TFederatedIdentity [mkFederatedIdentity "fi-1" "user-1" "idp-1" "g-7" None None] (broker_world doubted) in
  map (fun u => (user_email u, user_emailVerified u))
    (rows TUser (signed_in_as [("sub", JStr "g-7"); ("email", JStr "ceo@acme.test"); ("email_verified", JBool false)] w).2) =
  [(Some "ceo@acme.test", true)].
Proof. vm_compute. done. Qed.

(** A local account whose owner never showed that the address is his is linked to the
    identity that did, and keeps its password. *)
Theorem unverified_account_is_linked :
  let squatter := mkUser "user-9" "realm-1" "squatter" (Some "victim@acme.test") false None None true (Some "argon:known") "argon2"
    None None None 0 in
  let w := with_rows TUser [squatter] (broker_world google) in
  let answer := [("sub", JStr "g-5"); ("email", JStr "victim@acme.test"); ("email_verified", JBool true)] in
  (signed_in_as answer w).1 = Some squatter /\ links (signed_in_as answer w).2 = [("user-9", "g-5")].
Proof. vm_compute. split; reflexivity. Qed.

(** A provider that was disabled refuses to start a sign-in and still finishes one. *)
Theorem disabled_provider_finishes :
  let off := set_provider (mkUpdateProvider None (Some false) None None None None None None None None None None None None) google in
  (run (initiateLogin (E:=state_env) some_host realm0 "google" app_params) (broker_world off)).1 =
    inl (BadRequest "Identity provider 'google' is disabled") /\
  (user_username <$> (signed_in_as [("sub", JStr "g-8"); ("preferred_username", JStr "bob")] (broker_world off)).1) = Some "bob".
Proof. vm_compute. split; reflexivity. Qed.

(** An identity without a link whose name another account has cannot sign in at all. *)
Theorem taken_username_fails :
  (run (callback (E:=state_env) (answering [("sub", JStr "g-8"); ("preferred_username", JStr "alice")]) some_host realm0 "google"
     (Some "code") (Some "jwt") login_request) (broker_world google)).1 = inr (error_page (PrismaError "P2002")).
Proof. vm_compute. reflexivity. Qed.
